(* ===== verification/_CoqProject ===== *)
-Q . S2P
Prelude.v
GoTime.v
Sdk.v
Inflate.v
LockPb.v
LockStore.v
LockSpec.v
LockupKeeper.v
LockupMsgs.v
LockupInv.v
LockupProps.v
LockupSystem.v
Testnet.v
LockupQuery.v
LockupTotals.v
LockupExpiry.v
LockupRuns.v
Distro.v
Halving.v
DistroProps.v
DistroRuns.v
LegacyProto.v
LegacyTx.v
LegacyTxProps.v
LegacyRuns.v
Precompile.v
PrecompileAbi.v
PrecompileRuns.v
Ante.v
AnteRuns.v
Cli.v
CliProps.v
Modules.v
DistroSystem.v
App.v
Wiring.v
WiringProps.v
Startup.v
StartupProps.v
StartupRuns.v
NodeCmd.v
Process.v
AppProps.v
NodeGenesis.v
Export.v
ExportProps.v
AppRuns.v
Delivery.v
ProtoTable.v
ProtoTableProps.v
Pulsar.v
PulsarProps.v
ApiLockup.v
ApiDistro.v
ApiProps.v
Gogo.v
TypesLock.v
TypesLockup.v
TypesDistro.v
GogoProps.v
FileDesc.v
GogoReflect.v
WireAgree.v
ApiRuns.v
GogoRuns.v
Services.v
ApiStubs.v
Node.v
Registration.v
QueryAgree.v
Gateway.v
GatewayProps.v
GatewayRuns.v
RawDesc.v
RawDescProps.v
GogoReflectProps.v
CommandRun.v
DeliveryRuns.v
