(* ===== verification/Prelude.v ===== *)
(** * A verification of the TSC chain

    The sources are the Go program under src/: a Cosmos SDK chain with an EVM.
    Its own logic, and what this library models of it:

    - [x/lockup]: accounts lock tokens they have delegated until a date.  Each
      account has a list of locks in the module's store, ordered by date, and a
      queue keyed by date and account repeats the amounts.  Staking hooks and a
      bank send restriction keep what is locked covered by delegations.
    - [x/distro]: one address mints the chain's token, within a supply that a
      halving schedule releases day by day.
    - [precompiles/lockup]: the lockup messages and queries as an EVM contract.
    - [app/ante]: the checks before a transaction runs; one of them marks the
      validators a transaction redelegates from, which the lockup hooks read.
    - [app/legacy_ethtx.go]: a transaction decoder that falls back to the
      message format of an older EVM module.
    - [app]: the application that puts the modules together, its default genesis,
      the upgrade to this version and the export of the state.
    - [x/lockup/client/cli] and [cmd/tscd]: the commands of the module and the
      node binary.
    - [x/*/types/*.pb.go] and [api]: the messages and services, generated twice,
      once for the node (gogoproto) and once for clients (pulsar), and the HTTP
      gateways of the queries.

    ** Files

    - Prelude: results of Go code ([outcome]: a value, an error, a panic, or the
      end of the fuel of a loop), its monad and tactics, machine integers, bytes
      and slices.
    - GoTime: the parts of package [time] the sources use (dates, [AddDate],
      [Sub], the layout 2006-01-02), with their laws.
    - Sdk: code outside src/ as classes: [math.Int], coins and addresses, the KV
      store, the staking, bank and account keepers, hooks.  Each class has a
      class of laws with the documented behaviour the theorems rely on; Testnet
      has instances for all of them, used by every witness.
    - LockPb: types/lock.pb.go, byte by byte; the encoding round trip, and that
      decoding ends on every input.
    - LockStore: types/{keys,errors,helpers}.go, keeper/locks_by_address_store.go
      and keeper/locks_by_date_store.go.  LockSpec has what each operation does
      to the store seen as a finite map.
    - LockupKeeper: keeper/{helpers,hooks,send_restriction}.go and what the hooks
      and the restriction accept.
    - LockupMsgs: types/message_*.go, types/events.go and the four handlers of
      keeper/msg_server_*.go.  The state of a handler is [World]: the module's
      store, the state of the other modules, and the events.
    - LockupInv, LockupProps: the abstract state is a [ledger], the amount locked
      by account and date.  A store represents a ledger when lists and queue
      agree with it; every handler refines an operation on ledgers.
    - LockupSystem: [step], the transitions of the module (each message, a new
      block, activity of other modules), and the invariants of the reachable
      states by induction on the steps.
    - LockupQuery, LockupTotals, LockupExpiry: keeper/query_server.go and the two
      iterations over the queue; pages, that the total computed from the queue
      is the sum over the accounts, and what deleting expired entries removes.
    - Distro, Halving, DistroProps: types/{params,msgs,msg_mint,genesis}.go and
      keeper/{keeper,msg_server,msg_server_mint,query_server}.go; the schedule
      against a closed formula, the limits of minting, parameter changes.
    - LegacyProto, LegacyTx, LegacyTxProps: app/legacy_ethtx.go; the protobuf
      reader against a reference encoding, the round trip of each old message,
      and the whole path from the bytes of a Cosmos transaction to the Ethereum
      transaction in it.
    - Precompile: precompiles/lockup/*.go.  PrecompileAbi: abi.json, which that
      package embeds, and that a call which decodes is the message it stands for.
    - Ante: app/ante/*.go.
    - Cli, CliProps: x/lockup/client/cli/tx.go; each command from its arguments
      to the message it submits.
    - Modules: x/{lockup,distro}/{module,depinject}.go and keeper/keeper.go;
      genesis through the JSON codec, keepers and their authority.
    - DistroSystem: the transitions of x/distro (updates, mints, blocks, other
      modules) and the invariants of its reachable states.
    - App, AppProps: app/{app,genesis,upgrades}.go; module accounts, orders, the
      hooks registered with staking and bank, the default genesis and the upgrade
      handler.
    - Wiring, WiringProps: the construction of the keepers, the IBC stacks and the
      module manager in [NewChainApp] of app/app.go.  The state is the application
      under construction; a keeper is what its constructor is given, and a
      dependency says whether it was read, copied or referred to.  Each call of a
      constructor, of a setter of hooks and of a router goes through the class
      Packages and may panic; the two keepers of this repository are built by
      their own constructors, and the setters of the orders check them as the
      module manager does.
    - Startup, StartupProps: [NewChainApp] as a whole, with the other calls of
      packages that can fail, the ante handler and the annotation check.
    - NodeCmd: cmd/tscd/{root,commands}.go and the methods of the application that
      servers call.
    - Process: the initialisers of the app package, cmd/tscd/main.go and
      app/test_helpers.go, on the package variables and the SDK configuration.
    - NodeGenesis: the basic module manager with the wrappers of app/genesis.go; the
      genesis of tscd init is the application's default genesis.
    - Export, ExportProps: app/export.go and appExport of cmd/tscd/commands.go.
    - ProtoTable, ProtoTableProps: a protobuf message as a table of its fields;
      the size, encoding and decoding loops both generators write out for every
      message, and that they are exact for any well-formed table.
    - Pulsar, PulsarProps: the rest of what pulsar generates: the closures of
      ProtoMethods, reflection, list values.  ApiLockup and ApiDistro have a
      record, a table and the methods of each message under api; ApiProps has
      their theorems.
    - Gogo, GogoProps: the same for gogoproto; TypesLockup and TypesDistro have
      the tables and methods of the messages under x/*/types, on the records the
      handlers use.  TypesLock has those of Lock and Locks, whose amount is a
      custom type, on the records of LockPb.
    - WireAgree: both generators write the transaction messages alike.
    - RawDesc, RawDescProps: the descriptors embedded as bytes in the files under
      api, and that they describe the tables and services of ApiLockup, ApiDistro
      and ApiStubs.
    - Inflate: the gzip and deflate decoders and the CRC-32 of the Go standard
      library.  FileDesc, GogoReflect, GogoReflectProps: the compressed descriptors
      of the files under x/*/types, their registrations, and the remaining methods
      of their messages; the descriptors, decompressed, are those of RawDesc.
    - Services: the gRPC services of both modules, client and server stubs and
      service tables, for any message types; the gRPC library is the classes
      ClientConn and GrpcServer.  ApiStubs: the same at the messages of api.
    - Node: the keepers as servers of these services, as the modules register them.
      Registration: codecs, interfaces, generated commands and query commands.
    - QueryAgree: queries through the clients of api against the servers of the
      node, across the two encodings.
    - Gateway, GatewayProps: x/*/types/query.pb.gw.go; routes, requests and replies.
    - Delivery: a transaction through the ante handler to its messages, and the
      steps of a chain: transactions and blocks.  The base application and the
      messages of other modules are the classes BaseApp and OtherMessages.
    - CommandRun: a command of Cli, the message it submits, its bytes, the
      transaction the node decodes from them, and the ledger after it.
    - Testnet and the files named Runs: instances of the parameters and concrete
      runs, with the witness of each theorem that has hypotheses.

    ** Conventions

    A [math.Int] is an integer in [Z]; its operations can panic.  Times are
    nanoseconds since 1970 in UTC.  Go's [int], [int64] and [uint64] arithmetic
    wraps where a value can leave its range ([int64], [uint64]).  Slices out of
    range are [Panic SliceBounds].  Error values keep the registered error and
    the format string, not the formatted arguments.

    ** Fuel

    Loops whose recursion is not structural take fuel and end in [OutOfFuel]
    when it is spent.  The decoders take the length of their input, which is
    enough for lock.pb.go on all inputs (Locks_Unmarshal_total), for every other
    generated decoder (gogo_unmarshal_total, api_unmarshal_total), and for the
    reader of legacy_ethtx.go on all encodings; on other inputs that reader can
    run for ever (extractProtoField_bad_lengths).  [CurrentPeriod] stops after
    1000 rounds in the source itself.  [GetTotalDelegatedAmount] takes
    [delegation_rounds]; one round is enough below a hundred delegations and no
    number is from a hundred on (total_delegated_hundred).

    ** Theorems

    - Ledger refinement of Lock, Extend, SendDelegateAndLock and
      MultiSendDelegateAndLock, exact success conditions of Lock, that Extend never
      lowers what is locked, whatever the day, the invariant and the two-year horizon of all reachable states, and
      that every lock is released in the end.
    - The whole chain (locks_stay_covered): over any run of transactions and blocks
      the handlers, the hooks and the marks of the ante handler together keep what
      an account has locked covered by what it has delegated.  The three ways out,
      slashing, redelegation and extending ended locks, are its hypotheses.
    - From a typed command to the ledger (typed_commands_reach_ledger).
    - Exact acceptance conditions of the staking hooks and the send restriction.
    - Queries: pages of Locks, the pages of ActiveLocks together list every
      active lock once, and TotalLockedAmount is the sum over accounts.
    - Codecs: round trip, announced sizes and totality for the stored locks and
      for every generated message, and the panic of the gogoproto encoders on a nil
      element of a list; a client's bytes are the node's bytes, and the node
      decodes them to the client's message; reflection agrees with structs.
    - Distro: periods partition time, the distributable amount is the closed
      formula, grows with time and stays below the maximum; Mint keeps the
      limits, over any run of mints and blocks; parameters change only by the
      authority and are always valid; genesis round trip.
    - Legacy transactions: round trips, conversion end to end, transparency for
      everything else.
    - Services: every method called through a generated client reaches its keeper,
      from the messages of the node, from those of api, and over HTTP; the embedded
      descriptors, raw and compressed, agree and describe the generated code.  The
      comparison is among generated files; no .proto file is read.
    - Precompile: lock and send calls have the outcome of their messages; it acts
      for its caller only, and is pure in read-only mode.
    - Ante: routing and marking.
    - Command line: submitted messages are the typed ones, totals included.
    - Application: it starts exactly when no call of another package it makes
      fails or panics, each named with what it is given, so the checks of the
      module manager on the orders of app.go always pass; it is then fully
      wired: finished keepers, one owner per store, the governance authority, no
      copy out of date, the lockup hooks and restriction in place.  What is
      registered with staking and bank enforces the locks; blocked addresses; an
      upgraded chain has the EVM settings of a new one, with the lockup precompile
      active; a zero-height export resets every height, except that it
      returns without resetting the signing records when the iterator over the
      validators cannot be closed.
    - Behaviour the code does not intend, each as a theorem: the endless
      delegation loop, relocking of expired locks, the redelegation marker that
      covers a whole transaction, panics of paging, of the schedule after 63
      halvings and of the legacy reader, the failing extend method, the JSON
      decoder that never converts, a genesis export without the locks, the panic
      of the commands on negative amounts, the zero-height exports that skip
      validators or signing records, the chain id of an export at a height, the test settings of
      app/test_helpers.go in the node.

    ** Not modelled

    Of the generated files: the text String gives and the merging of messages, which
    the protobuf libraries do by reflection, and the exporters used without unsafe
    code.  Of app/app.go: what the constructors of other packages do, beyond whether
    they panic, the simulation manager, the services registered for AutoCLI, reflection and the node, and the
    setters of the base application.  The packets of the transfer stack: which
    middleware a packet passes is in Wiring, what each does with it is code of other
    repositories.  Of gRPC: an error or a panic of a handler becomes a status on its
    way to the client; this, and recovering from panics, is left to the arbitrary
    interceptor of the server, which every theorem about calls has as a parameter.
    Of the gateway library: what a filter of query parameters does is stated for a
    filter of one path only, the kind query.pb.gw.go has.  Of cmd/tscd: what the commands of other packages do.  Help texts
    and flags of commands.  Nil and empty byte slices, and nil and empty slices of
    messages, are not distinguished. *)

From stdpp Require Import base list strings gmap sorting numbers option.
From Stdlib Require Import ZArith Lia.
From Stdlib.Init Require Import Byte.
From Stdlib.Strings Require Import Byte.

#[export] Set Default Goal Selector "!".

(** * Outcomes: results, errors and panics of Go code *)

(** The sentinels of [cosmos-sdk/types/errors] (and gov's signer error) the
    sources wrap. *)
Inductive sdk_sentinel :=
  | ErrInvalidRequest | ErrInvalidAddress | ErrInvalidCoins | ErrNotFound
  | ErrInsufficientFunds | ErrUnauthorized | ErrInvalidType
  | ErrUnknownExtensionOptions | ErrUnknownRequest | ErrLogic
  | GovErrInvalidSigner.

(** The gRPC status codes the query servers return. *)
Inductive grpc_code := InvalidArgument | Internal | Unimplemented.

(** A Go [error] value that is not nil.  The text of a wrapped error is its
    format string; the interpolated arguments are not kept.  [LockupErr] carries
    the code registered in x/lockup/types/errors.go, [FmtErr] is [fmt.Errorf],
    [EOFErr] is [io.ErrUnexpectedEOF] and [ExtErr] is an error produced by code
    outside the repository, with its [Error()] text. *)
Inductive error :=
  | SdkErr (s : sdk_sentinel) (msg : string)
  | LockupErr (code : Z) (msg : string)
  | StatusErr (c : grpc_code) (msg : string)
  | FmtErr (msg : string)
  | EOFErr
  | ExtErr (msg : string).

(** What a run-time panic was raised for. *)
Inductive panic :=
  | SliceBounds
  | DivideByZero
  | NilDeref
  | ExtPanic (msg : string).

(** The outcome of a Go call: a value, an error, a panic, or, for a loop that
    was given too little fuel, [OutOfFuel]. *)
Inductive outcome (A : Type) :=
  | Ok (a : A)
  | Err (e : error)
  | Panic (p : panic)
  | OutOfFuel.
Arguments Ok {A} a.
Arguments Err {A} e.
Arguments Panic {A} p.
Arguments OutOfFuel {A}.

#[export] Instance sdk_sentinel_eq_dec : EqDecision sdk_sentinel.
Proof. solve_decision. Defined.
#[export] Instance grpc_code_eq_dec : EqDecision grpc_code.
Proof. solve_decision. Defined.
#[export] Instance error_eq_dec : EqDecision error.
Proof. solve_decision. Defined.
#[export] Instance panic_eq_dec : EqDecision panic.
Proof. solve_decision. Defined.
#[export] Instance outcome_eq_dec {A} `{EqDecision A} : EqDecision (outcome A).
Proof. solve_decision. Defined.

#[export] Instance outcome_ret : MRet outcome := fun A a => Ok a.
#[export] Instance outcome_bind : MBind outcome := fun A B f m =>
  match m with
  | Ok a => f a
  | Err e => Err e
  | Panic p => Panic p
  | OutOfFuel => OutOfFuel
  end.
#[export] Instance outcome_fmap : FMap outcome := fun A B f m =>
  match m with
  | Ok a => Ok (f a)
  | Err e => Err e
  | Panic p => Panic p
  | OutOfFuel => OutOfFuel
  end.

(** [if err != nil { return wrap(err) }]: the error is replaced. *)
Definition wrap_err {A} (f : error -> error) (m : outcome A) : outcome A :=
  match m with Err e => Err (f e) | _ => m end.

(** [v, err := m]: both components are inspected by the caller. *)
Definition catch {A B} (m : outcome A) (ok : A -> outcome B) (ko : error -> outcome B)
    : outcome B :=
  match m with
  | Ok a => ok a
  | Err e => ko e
  | Panic p => Panic p
  | OutOfFuel => OutOfFuel
  end.

Definition from_option_err {A} (e : error) (o : option A) : outcome A :=
  match o with Some a => Ok a | None => Err e end.

Definition is_ok {A} (m : outcome A) : bool :=
  match m with Ok _ => true | _ => false end.

(** The value of an outcome that is known to be [Ok]. *)
Definition ok_or {A} (d : A) (m : outcome A) : A :=
  match m with Ok a => a | _ => d end.

Lemma ok_or_eq {A} (d : A) m : is_ok m = true -> m = Ok (ok_or d m).
Proof. by destruct m. Qed.

Lemma bind_Ok {A B} (m : outcome A) (f : A -> outcome B) b :
  m ≫= f = Ok b -> exists a, m = Ok a /\ f a = Ok b.
Proof. destruct m; simpl; try discriminate. eauto. Qed.

Lemma wrap_err_Ok {A} f (m : outcome A) a : wrap_err f m = Ok a -> m = Ok a.
Proof. destruct m; simpl; congruence. Qed.

Lemma from_option_err_Ok {A} e (o : option A) a :
  from_option_err e o = Ok a -> o = Some a.
Proof. destruct o; simpl; congruence. Qed.

Lemma fmap_Ok {A B} (f : A -> B) (m : outcome A) b :
  f <$> m = Ok b -> exists a, m = Ok a /\ f a = b.
Proof. destruct m; simpl; try discriminate. intros [= <-]. eauto. Qed.

(** [ok_inv H] takes a hypothesis [H : code = Ok r] apart: every bind, guard and
    match the code went through on the way to [Ok]. *)
Ltac ok_inv1 H :=
  match type of H with
  | mbind _ _ = Ok _ =>
      let a := fresh "v" in let E := fresh "E" in
      apply bind_Ok in H; destruct H as [a [E H]]; try ok_inv1 E
  | wrap_err _ _ = Ok _ => apply wrap_err_Ok in H
  | from_option_err _ _ = Ok _ => apply from_option_err_Ok in H
  | (if ?b then _ else _) = Ok _ =>
      let E := fresh "B" in destruct b eqn:E; [try discriminate H | try discriminate H]
  | (match ?x with _ => _ end) = Ok _ =>
      let E := fresh "M" in destruct x eqn:E; try discriminate H
  | Ok _ = Ok _ => injection H as H; try subst
  | Err _ = Ok _ => discriminate H
  | Panic _ = Ok _ => discriminate H
  end.
Ltac ok_inv H := repeat (progress (cbn beta in H; ok_inv1 H)).

(** Boolean guards to propositions. *)
Ltac bool_to_prop :=
  repeat match goal with
  | H : negb _ = true |- _ => apply negb_true_iff in H
  | H : negb _ = false |- _ => apply negb_false_iff in H
  | H : _ && _ = true |- _ => apply andb_true_iff in H; destruct H
  | H : _ || _ = false |- _ => apply orb_false_iff in H; destruct H
  | H : bool_decide _ = true |- _ => apply bool_decide_eq_true_1 in H
  | H : bool_decide _ = false |- _ => apply bool_decide_eq_false_1 in H
  | H : String.eqb _ _ = true |- _ => apply String.eqb_eq in H
  | H : String.eqb _ _ = false |- _ => apply String.eqb_neq in H
  end.

(** * Machine integers *)

Local Open Scope Z_scope.

(** Go's [uint64(x)] and [int(x)]/[int64(x)] conversions. *)
Definition uint64 (z : Z) : Z := z mod 2 ^ 64.
Definition int64 (z : Z) : Z := (z + 2 ^ 63) mod 2 ^ 64 - 2 ^ 63.

Lemma uint64_small z : 0 <= z < 2 ^ 64 -> uint64 z = z.
Proof. intros. unfold uint64. by rewrite Z.mod_small. Qed.

Lemma uint64_range z : 0 <= uint64 z < 2 ^ 64.
Proof. apply Z.mod_pos_bound. lia. Qed.

Lemma int64_small z : - 2 ^ 63 <= z < 2 ^ 63 -> int64 z = z.
Proof. intros. unfold int64. rewrite Z.mod_small; lia. Qed.

Lemma int64_range z : - 2 ^ 63 <= int64 z < 2 ^ 63.
Proof.
  unfold int64. pose proof (Z.mod_pos_bound (z + 2 ^ 63) (2 ^ 64) ltac:(lia)). lia.
Qed.

Create Rewrite HintDb gonum.
#[export] Hint Rewrite uint64_small int64_small using lia : gonum.

(** * Bytes *)

Abbreviation bytes := (list byte).

#[export] Instance byte_eq_dec : EqDecision byte := Byte.byte_eq_dec.
#[export] Program Instance byte_countable : Countable byte :=
  inj_countable Byte.to_N Byte.of_N _.
Next Obligation. intros b. apply Byte.of_to_N. Qed.

Definition byte_to_Z (b : byte) : Z := Z.of_N (Byte.to_N b).
(** Go's [uint8(z)]. *)
Definition byte_of_Z (z : Z) : byte :=
  match Byte.of_N (Z.to_N (z mod 256)) with Some b => b | None => x00 end.

Lemma byte_to_Z_range b : 0 <= byte_to_Z b < 256.
Proof. unfold byte_to_Z. pose proof (Byte.to_N_bounded b). lia. Qed.

Lemma byte_to_of_Z z : byte_to_Z (byte_of_Z z) = z mod 256.
Proof.
  unfold byte_to_Z, byte_of_Z.
  pose proof (Z.mod_pos_bound z 256 ltac:(lia)).
  destruct (Byte.of_N _) eqn:E.
  - apply Byte.to_of_N in E. lia.
  - apply Byte.of_N_None_iff in E. lia.
Qed.

Lemma byte_of_to_Z b : byte_of_Z (byte_to_Z b) = b.
Proof.
  unfold byte_to_Z, byte_of_Z.
  pose proof (Byte.to_N_bounded b).
  rewrite Z.mod_small, N2Z.id, Byte.of_to_N by lia. done.
Qed.

#[export] Instance byte_to_Z_inj : Inj eq eq byte_to_Z.
Proof. intros a b E. rewrite <- (byte_of_to_Z a), E. apply byte_of_to_Z. Qed.

Definition bytes_of_string (s : string) : bytes := String.list_byte_of_string s.
Definition string_of_bytes (b : bytes) : string := String.string_of_list_byte b.

Lemma string_of_bytes_of_string s : string_of_bytes (bytes_of_string s) = s.
Proof. apply String.string_of_list_byte_of_string. Qed.
Lemma bytes_of_string_of_bytes b : bytes_of_string (string_of_bytes b) = b.
Proof. apply String.list_byte_of_string_of_list_byte. Qed.

(** Lexicographic comparison of byte strings ([bytes.Compare]). *)
Fixpoint bytes_leb (a b : bytes) : bool :=
  match a, b with
  | [], _ => true
  | _ :: _, [] => false
  | x :: a', y :: b' =>
      if byte_to_Z x =? byte_to_Z y then bytes_leb a' b'
      else byte_to_Z x <? byte_to_Z y
  end.
Definition bytes_ltb (a b : bytes) : bool := negb (bytes_leb b a).

Lemma bytes_leb_refl a : bytes_leb a a = true.
Proof. induction a as [|x a IH]; simpl; [done|]. by rewrite Z.eqb_refl. Qed.

Lemma bytes_leb_total a b : bytes_leb a b = true \/ bytes_leb b a = true.
Proof.
  revert b; induction a as [|x a IH]; intros [|y b]; simpl; auto.
  rewrite (Z.eqb_sym (byte_to_Z y)).
  destruct (Z.eqb_spec (byte_to_Z x) (byte_to_Z y)); [apply IH|].
  rewrite !Z.ltb_lt. lia.
Qed.

Lemma bytes_leb_trans a b c :
  bytes_leb a b = true -> bytes_leb b c = true -> bytes_leb a c = true.
Proof.
  revert b c; induction a as [|x a IH]; intros [|y b] [|z c]; simpl; auto; try done.
  destruct (Z.eqb_spec (byte_to_Z x) (byte_to_Z y)) as [e|];
  destruct (Z.eqb_spec (byte_to_Z y) (byte_to_Z z)) as [f|];
  destruct (Z.eqb_spec (byte_to_Z x) (byte_to_Z z)) as [g|];
  rewrite ?Z.ltb_lt; intros; try lia; eauto.
Qed.

Lemma bytes_leb_antisym a b :
  bytes_leb a b = true -> bytes_leb b a = true -> a = b.
Proof.
  revert b; induction a as [|x a IH]; intros [|y b]; simpl; auto; try done.
  rewrite (Z.eqb_sym (byte_to_Z y)).
  destruct (Z.eqb_spec (byte_to_Z x) (byte_to_Z y)) as [e|]; rewrite ?Z.ltb_lt; intros.
  - f_equal; [by apply byte_to_Z_inj|auto].
  - lia.
Qed.

Lemma bytes_leb_app p a b : bytes_leb (p ++ a) (p ++ b) = bytes_leb a b.
Proof. induction p as [|x p IH]; simpl; [done|]. by rewrite Z.eqb_refl. Qed.

(** * Go slices *)

(** [s[lo:hi]], which panics unless [0 <= lo <= hi <= len s] (the capacity is
    the length for every slice the sources take). *)
Definition slice {A} (s : list A) (lo hi : Z) : outcome (list A) :=
  if (0 <=? lo) && (lo <=? hi) && (hi <=? Z.of_nat (length s))
  then Ok (take (Z.to_nat (hi - lo)) (drop (Z.to_nat lo) s))
  else Panic SliceBounds.

(** [s[lo:]]. *)
Definition slice_from {A} (s : list A) (lo : Z) : outcome (list A) :=
  slice s lo (Z.of_nat (length s)).

Definition zlen {A} (s : list A) : Z := Z.of_nat (length s).

Lemma slice_from_ok {A} (s : list A) (n : nat) :
  (n <= length s)%nat -> slice_from s (Z.of_nat n) = Ok (drop n s).
Proof.
  intros. unfold slice_from, slice.
  rewrite !(proj2 (Z.leb_le _ _)) by lia. simpl.
  rewrite Nat2Z.id, firstn_all2; [done|]. rewrite length_drop. lia.
Qed.

Lemma slice_mid {A} (pre mid post : list A) lo hi :
  lo = zlen pre -> hi = zlen pre + zlen mid ->
  slice (pre ++ mid ++ post) lo hi = Ok mid.
Proof.
  unfold slice, zlen. intros -> ->. rewrite !length_app.
  rewrite !(proj2 (Z.leb_le _ _)) by lia. simpl.
  rewrite Nat2Z.id, drop_app_length.
  replace (Z.to_nat _) with (length mid) by lia. by rewrite take_app_length.
Qed.

(** * Bits *)

Lemma land_127 v : Z.land v 127 = v mod 128.
Proof. change 127 with (Z.ones 7). by rewrite Z.land_ones. Qed.

Lemma land_7 v : Z.land v 7 = v mod 8.
Proof. change 7 with (Z.ones 3). by rewrite Z.land_ones. Qed.

(** Or-ing in bits above the accumulator adds them. *)
Lemma lor_shift_add a b s :
  0 <= s -> 0 <= a < 2 ^ s -> Z.lor a (b * 2 ^ s) = a + b * 2 ^ s.
Proof.
  intros Hs Ha. symmetry. apply Z.add_nocarry_lor.
  apply Z.bits_inj'. intros n Hn. rewrite Z.land_spec, Z.bits_0.
  destruct (Z.lt_ge_cases n s).
  - rewrite Z.mul_pow2_bits_low by lia. apply andb_false_r.
  - assert (a < 2 ^ n) by (apply Z.lt_le_trans with (2 ^ s); [lia|];
      apply Z.pow_le_mono_r; lia).
    destruct (Z.eq_dec a 0) as [->|]; [by rewrite Z.testbit_0_l|].
    rewrite (Z.bits_above_log2 a); [done|lia|]. apply Z.log2_lt_pow2; lia.
Qed.

(** The byte with its continuation bit set, as the encoders write it. *)
Lemma varint_byte v : byte_to_Z (byte_of_Z (Z.lor (Z.land v 127) 128)) = v mod 128 + 128.
Proof.
  rewrite byte_to_of_Z, land_127. pose proof (Z.mod_pos_bound v 128 ltac:(lia)).
  change 128 with (1 * 2 ^ 7) at 2. rewrite lor_shift_add by lia.
  rewrite Z.mod_small; lia.
Qed.

(** * Related lists *)

Lemma Forall2_elem_l {A B} (P : A -> B -> Prop) l k x :
  Forall2 P l k -> x ∈ l -> exists y, y ∈ k /\ P x y.
Proof.
  intros F [i L]%list_elem_of_lookup. destruct (Forall2_lookup_l _ _ _ _ _ F L) as (y & K & Q).
  exists y. split; [by eapply list_elem_of_lookup_2|done].
Qed.

Lemma Forall2_elem_r {A B} (P : A -> B -> Prop) l k y :
  Forall2 P l k -> y ∈ k -> exists x, x ∈ l /\ P x y.
Proof.
  intros F [i L]%list_elem_of_lookup. destruct (Forall2_lookup_r _ _ _ _ _ F L) as (x & K & Q).
  exists x. split; [by eapply list_elem_of_lookup_2|done].
Qed.

(** Distinct images identify the elements of a list. *)
Lemma map_NoDup_eq {A B} (f : A -> B) l a b :
  NoDup (map f l) -> a ∈ l -> b ∈ l -> f a = f b -> a = b.
Proof.
  change (map f l) with (f <$> l). intros N [i I]%list_elem_of_lookup [j J]%list_elem_of_lookup E.
  assert (i = j) as ->; [|congruence].
  apply (NoDup_lookup (f <$> l) i j (f a)); [done|by rewrite list_lookup_fmap, I|].
  rewrite list_lookup_fmap, J. simpl. congruence.
Qed.

Lemma foldl_snoc_map {A B} (f : A -> B) l acc :
  foldl (fun bs a => bs ++ [f a]) acc l = acc ++ map f l.
Proof.
  revert acc. induction l as [|a l IH]; intros acc; [by rewrite app_nil_r|].
  cbn [foldl map]. by rewrite IH, <- app_assoc.
Qed.

Lemma omap_map_Some {A} (l : list A) : omap id (map Some l) = l.
Proof. induction l as [|a l IH]; [done|]. cbn. by rewrite IH. Qed.
