(* ===== verification/GoTime.v ===== *)
(** Go's [time] package, as far as the sources use it: instants, the proleptic
    Gregorian calendar ([Date], [AddDate], [Time.Date]), [Truncate] to a day,
    [Sub] on [Duration], and parsing and formatting with [time.DateOnly]. *)

From stdpp Require Import base list strings pretty.
From Stdlib Require Import ZArith Lia Ascii String.
From S2P Require Import Prelude.

Local Open Scope Z_scope.
#[local] Ltac Zify.zify_post_hook ::= Z.to_euclidean_division_equations.

(** * Instants *)

(** A [time.Time] in UTC: nanoseconds since the Unix epoch. *)
Abbreviation Time := Z.

Definition Second : Z := 1000000000.
Definition Hour : Z := 3600 * Second.
Definition Day : Z := 24 * Hour.

(** [t.Unix()]: the seconds elapsed, rounded down. *)
Definition Unix (t : Time) : Z := t / Second.
(** [time.Unix(sec, 0)]. *)
Definition FromUnix (sec : Z) : Time := sec * Second.

Definition Before (t u : Time) : bool := t <? u.
Definition After (t u : Time) : bool := u <? t.
Definition Equal (t u : Time) : bool := t =? u.

(** [t.Truncate(24 * time.Hour)]: multiples of a day since the zero time, which
    is itself a midnight. *)
Definition Truncate24h (t : Time) : Time := t - t mod Day.

(** [t.Sub(u)] saturates at the bounds of a [Duration]. *)
Definition maxDuration : Z := 2 ^ 63 - 1.
Definition minDuration : Z := - 2 ^ 63.
Definition Sub (t u : Time) : Z := Z.max minDuration (Z.min maxDuration (t - u)).

(** [int(d.Hours() / 24)].  The floating-point quotient is exact when [d] is a
    multiple of 24 hours, and truncates to the same integer for the saturated
    durations; the sources take it of differences of midnights only. *)
Definition hours_div_24 (d : Z) : Z := Z.quot d Day.

(** * The calendar *)

Definition isLeap (y : Z) : bool :=
  (y mod 4 =? 0) && (negb (y mod 100 =? 0) || (y mod 400 =? 0)).

(** [daysBefore[m]]: days of a common year before month [m] (0 is January). *)
Definition daysBefore (m : Z) : Z :=
  nth (Z.to_nat m) [0; 31; 59; 90; 120; 151; 181; 212; 243; 273; 304; 334; 365] 365.

(** Days of year [y] before month [m] (0 is January). *)
Definition daysBeforeIn (y m : Z) : Z :=
  daysBefore m + (if isLeap y && (2 <=? m) then 1 else 0).

(** [daysIn(m, y)], with [m] from 1 to 12. *)
Definition daysIn (m y : Z) : Z :=
  if (m =? 2) && isLeap y then 29 else daysBefore m - daysBefore (m - 1).

(** Days from 1 January of year 1 to 1 January of year [y]. *)
Definition daysSinceYear1 (y : Z) : Z :=
  365 * (y - 1) + (y - 1) / 4 - (y - 1) / 100 + (y - 1) / 400.

(** Days from 1 January of year 1 to the Unix epoch. *)
Definition unixToYear1 : Z := 719162.

(** The day number (days since the epoch) [time.Date(y, m, d, 0, 0, 0, 0, UTC)]
    denotes: months outside 1..12 carry into the year, days run on. *)
Definition date_day (y m d : Z) : Z :=
  let y' := y + (m - 1) / 12 in
  let m' := (m - 1) mod 12 in
  daysSinceYear1 y' + daysBeforeIn y' m' + (d - 1) - unixToYear1.

Definition Date (y m d : Z) : Time := date_day y m d * Day.

(** The year and the day of the year (from 0) of a day number, by the 400, 100,
    4 and 1 year cycles. *)
Definition day_year (n : Z) : Z * Z :=
  let e := n + unixToYear1 in
  let a := e / 146097 in
  let r1 := e mod 146097 in
  let c0 := r1 / 36524 in
  let c := c0 - c0 / 4 in
  let r2 := r1 - 36524 * c in
  let q := r2 / 1461 in
  let r3 := r2 mod 1461 in
  let k0 := r3 / 365 in
  let k := k0 - k0 / 4 in
  (1 + 400 * a + 100 * c + 4 * q + k, r3 - 365 * k).

(** The month (from 1) and the day of the month of a day of the year. *)
Definition yday_month (leap : bool) (yd : Z) : Z * Z :=
  if leap && (yd =? 59) then (2, 29) else
  let yd' := if leap && (59 <? yd) then yd - 1 else yd in
  let m := yd' / 31 in
  if daysBefore (m + 1) <=? yd'
  then (m + 2, yd' - daysBefore (m + 1) + 1)
  else (m + 1, yd' - daysBefore m + 1).

(** [t.Date()] on a day number. *)
Definition civil (n : Z) : Z * Z * Z :=
  let '(y, yd) := day_year n in
  let '(m, d) := yday_month (isLeap y) yd in (y, m, d).

(** The day number of an instant. *)
Definition day_of (t : Time) : Z := t / Day.

(** [t.AddDate(years, months, days)]. *)
Definition AddDate (t : Time) (years months days : Z) : Time :=
  let '(y, m, d) := civil (day_of t) in
  Date (y + years) (m + months) (d + days) + t mod Day.

(** [time.Date(t.Year(), t.Month(), t.Day(), 0, 0, 0, 0, time.UTC)], the
    "block day" of every handler. *)
Definition midnight (t : Time) : Time :=
  let '(y, m, d) := civil (day_of t) in Date y m d.

(** * Parsing and formatting with [time.DateOnly] = "2006-01-02" *)

Definition digit (a : ascii) : option Z :=
  let n := Z.of_N (N_of_ascii a) in
  if (48 <=? n) && (n <=? 57) then Some (n - 48) else None.

(** [stdLongYear]: four digits. *)
Definition getYear (s : string) : option (Z * string) :=
  match s with
  | String a (String b (String c (String d r))) =>
      a ← digit a; b ← digit b; c ← digit c; d ← digit d;
      Some (1000 * a + 100 * b + 10 * c + d, r)
  | _ => None
  end.

(** [getnum(s, fixed = true)]: two digits. *)
Definition getnum (s : string) : option (Z * string) :=
  match s with
  | String a (String b r) => a ← digit a; b ← digit b; Some (10 * a + b, r)
  | _ => None
  end.

(** [skip(value, "-")]. *)
Definition skipDash (s : string) : option string :=
  match s with
  | String c r => if Ascii.eqb c "-" then Some r else None
  | EmptyString => None
  end.

(** [time.Parse(time.DateOnly, s)] as the year, month and day it read. *)
Definition parse_civil (s : string) : option (Z * Z * Z) :=
  '(y, s1) ← getYear s;
  s2 ← skipDash s1;
  '(m, s3) ← getnum s2;
  if (m <=? 0) || (12 <? m) then None else
  s4 ← skipDash s3;
  '(d, s5) ← getnum s4;
  match s5 with
  | EmptyString =>
      if (d <? 1) || (daysIn m y <? d) then None else Some (y, m, d)
  | _ => None
  end.

(** [time.Parse(time.DateOnly, s)]; [None] is the parse error. *)
Definition ParseDateOnly (s : string) : option Time :=
  '(y, m, d) ← parse_civil s; Some (Date y m d).

Definition digit_char (n : Z) : ascii := ascii_of_N (Z.to_N (48 + n mod 10)).

Definition two_digits (n : Z) (r : string) : string :=
  String (digit_char (n / 10)) (String (digit_char n) r).
Definition four_digits (n : Z) (r : string) : string :=
  two_digits (n / 100) (two_digits n r).

(** [appendInt(b, year, 4)]. *)
Definition append_year (y : Z) (r : string) : string :=
  if y <? 0 then
    String "-" (if - y <? 10000 then four_digits (- y) r else pretty (- y) +:+ r)
  else if y <? 10000 then four_digits y r else pretty y +:+ r.

(** [t.Format(time.DateOnly)]. *)
Definition FormatDateOnly (t : Time) : string :=
  let '(y, m, d) := civil (day_of t) in
  append_year y (String "-" (two_digits m (String "-" (two_digits d EmptyString)))).

Example date_epoch : Date 1970 1 1 = 0.
Proof. reflexivity. Qed.
Example date_feb29 : civil (date_day 2024 2 29) = (2024, 2, 29).
Proof. reflexivity. Qed.
Example parse_ok : ParseDateOnly "2025-07-22" = Some (Date 2025 7 22).
Proof. reflexivity. Qed.
Example parse_bad : ParseDateOnly "2025-02-29" = None.
Proof. reflexivity. Qed.
Example format_ok : FormatDateOnly (Date 2025 7 22 + Hour) = "2025-07-22"%string.
Proof. reflexivity. Qed.

(** * The calendar is a bijection *)

Definition leapDay (y : Z) : Z := if isLeap y then 1 else 0.

Lemma daysSinceYear1_succ y :
  daysSinceYear1 (y + 1) = daysSinceYear1 y + 365 + leapDay y.
Proof.
  unfold daysSinceYear1, leapDay, isLeap.
  destruct (Z.eqb_spec (y mod 4) 0), (Z.eqb_spec (y mod 100) 0),
    (Z.eqb_spec (y mod 400) 0); simpl; lia.
Qed.

Lemma leapDay_01 y : 0 <= leapDay y <= 1.
Proof. unfold leapDay. destruct (isLeap y); lia. Qed.

(** The cycle decomposition, with the counts of each cycle in range. *)
Lemma cycle_year a c q k :
  0 <= c <= 3 -> 0 <= q <= 24 -> 0 <= k <= 3 ->
  daysSinceYear1 (1 + 400 * a + 100 * c + 4 * q + k)
    = 146097 * a + 36524 * c + 1461 * q + 365 * k.
Proof. unfold daysSinceYear1. intros. lia. Qed.

Lemma cycle_leap a c q k :
  0 <= c <= 3 -> 0 <= q <= 24 -> 0 <= k <= 3 ->
  leapDay (1 + 400 * a + 100 * c + 4 * q + k)
    = if (k =? 3) && (negb (q =? 24) || (c =? 3)) then 1 else 0.
Proof.
  unfold leapDay, isLeap. intros.
  destruct (Z.eqb_spec k 3), (Z.eqb_spec q 24), (Z.eqb_spec c 3); simpl;
  repeat match goal with |- context [?x =? 0] => destruct (Z.eqb_spec x 0) end;
  simpl; lia.
Qed.

Lemma day_year_spec n y yd :
  day_year n = (y, yd) ->
  daysSinceYear1 y + yd - unixToYear1 = n /\ 0 <= yd < 365 + leapDay y.
Proof.
  unfold day_year, unixToYear1.
  set (e := n + 719162). set (r1 := e mod 146097). set (c0 := r1 / 36524).
  set (c := c0 - c0 / 4). set (r2 := r1 - 36524 * c). set (q := r2 / 1461).
  set (r3 := r2 mod 1461). set (k0 := r3 / 365). set (k := k0 - k0 / 4).
  assert (0 <= r1 < 146097) by (unfold r1; lia).
  assert (0 <= c <= 3 /\ 0 <= r2 <= 36524 /\ (c < 3 -> r2 < 36524)) as (?&?&?)
    by (unfold r2, c, c0; lia).
  assert (0 <= q <= 24 /\ 0 <= r3 < 1461 /\ r2 = 1461 * q + r3) as (?&?&?)
    by (unfold r3, q; lia).
  assert (0 <= k <= 3 /\ 0 <= r3 - 365 * k <= 365 /\ (k < 3 -> r3 - 365 * k < 365))
    as (?&?&?) by (unfold k, k0; lia).
  intros [= <- <-].
  rewrite cycle_year, cycle_leap by lia. split; [unfold r2, r1 in *; lia|].
  destruct (Z.eqb_spec k 3), (Z.eqb_spec q 24), (Z.eqb_spec c 3); simpl; lia.
Qed.

(** The month table, checked on every day of a common and of a leap year. *)
Definition yday_month_ok (leap : bool) (yd : Z) : bool :=
  let '(m, d) := yday_month leap yd in
  let len := if (m =? 2) && leap then 29 else daysBefore m - daysBefore (m - 1) in
  let bef := daysBefore (m - 1) + (if leap && (2 <=? m - 1) then 1 else 0) in
  (1 <=? m) && (m <=? 12) && (1 <=? d) && (d <=? len) && (bef + d - 1 =? yd).

Lemma yday_month_all :
  forallb (yday_month_ok false) (seqZ 0 365)
    && forallb (yday_month_ok true) (seqZ 0 366) = true.
Proof. vm_compute. reflexivity. Qed.

Lemma yday_month_spec yd m d y :
  0 <= yd < 365 + leapDay y ->
  yday_month (isLeap y) yd = (m, d) ->
  1 <= m <= 12 /\ 1 <= d <= daysIn m y /\ daysBeforeIn y (m - 1) + d - 1 = yd.
Proof.
  intros R E.
  assert (yday_month_ok (isLeap y) yd = true) as C.
  { pose proof yday_month_all as A. apply andb_true_iff in A as [A1 A2].
    rewrite forallb_forall in A1, A2. unfold leapDay in R.
    destruct (isLeap y); [apply A2|apply A1]; apply list_elem_of_In, elem_of_seqZ; lia. }
  unfold yday_month_ok in C. rewrite E in C.
  unfold daysIn, daysBeforeIn. bool_to_prop. lia.
Qed.

(** A civil date [time.Parse] accepts. *)
Definition valid_civil (y m d : Z) : Prop := 1 <= m <= 12 /\ 1 <= d <= daysIn m y.

Lemma date_day_12 y m d :
  1 <= m <= 12 ->
  date_day y m d = daysSinceYear1 y + daysBeforeIn y (m - 1) + (d - 1) - unixToYear1.
Proof.
  intros. unfold date_day.
  rewrite Z.div_small, Z.mod_small, Z.add_0_r by lia. done.
Qed.

(** Reading the calendar and writing it back gives the same day. *)
Lemma date_civil n y m d :
  civil n = (y, m, d) -> valid_civil y m d /\ date_day y m d = n.
Proof.
  unfold civil. destruct (day_year n) as [y0 yd] eqn:E1.
  destruct (yday_month _ yd) as [m0 d0] eqn:E2. intros [= <- <- <-].
  apply day_year_spec in E1 as [E1 R].
  apply yday_month_spec in E2 as (? & ? & E2); [|done].
  split; [done|]. rewrite date_day_12 by lia. lia.
Qed.

Lemma daysBefore_table m :
  0 <= m < 12 -> 28 <= daysBefore (m + 1) - daysBefore m <= 31.
Proof.
  intros. assert (forallb (fun m => (28 <=? daysBefore (m + 1) - daysBefore m)
    && (daysBefore (m + 1) - daysBefore m <=? 31)) (seqZ 0 12) = true) as A
    by reflexivity.
  rewrite forallb_forall in A.
  specialize (A m ltac:(apply list_elem_of_In, elem_of_seqZ; lia)). cbv beta in A.
  bool_to_prop. lia.
Qed.

Lemma daysBeforeIn_succ y m :
  1 <= m <= 12 -> daysBeforeIn y m = daysBeforeIn y (m - 1) + daysIn m y.
Proof.
  intros. unfold daysBeforeIn, daysIn.
  destruct (isLeap y); simpl; rewrite ?andb_false_r; [|lia].
  destruct (Z.eqb_spec m 2) as [->|]; simpl; [done|].
  destruct (Z.leb_spec 2 m), (Z.leb_spec 2 (m - 1)); lia.
Qed.

Lemma daysIn_range m y : 1 <= m <= 12 -> 28 <= daysIn m y <= 31.
Proof.
  intros. unfold daysIn. destruct (_ && _); [lia|].
  pose proof (daysBefore_table (m - 1) ltac:(lia)) as T.
  replace (m - 1 + 1) with m in T by lia. lia.
Qed.

(** * Months as a linear scale *)

(** The first day of month number [k] (12 months per year, 0 is January of the
    year 0). *)
Definition month_start (k : Z) : Z := date_day 0 (k + 1) 1.

Lemma date_day_month y m d : date_day y m d = month_start (12 * y + m - 1) + (d - 1).
Proof.
  unfold month_start, date_day.
  replace (12 * y + m - 1 + 1 - 1) with ((m - 1) + y * 12) by lia.
  rewrite Z.div_add, Z.mod_add, Z.add_0_l, (Z.add_comm y) by lia. lia.
Qed.

Lemma month_start_succ k :
  month_start (k + 1) = month_start k + daysIn (k mod 12 + 1) (k / 12).
Proof.
  unfold month_start.
  pose proof (Z.mod_pos_bound k 12 ltac:(lia)) as R.
  pose proof (Z.div_mod k 12 ltac:(lia)) as D.
  set (y := k / 12) in *. set (m := k mod 12) in *.
  unfold date_day. rewrite D.
  replace (12 * y + m + 1 + 1 - 1) with ((m + 1) + y * 12) by lia.
  replace (12 * y + m + 1 - 1) with (m + y * 12) by lia.
  rewrite !Z.div_add, !Z.mod_add, !Z.add_0_l by lia.
  rewrite (Z.div_small m 12), (Z.mod_small m 12), Z.add_0_l by lia.
  pose proof (daysBeforeIn_succ y (m + 1) ltac:(lia)) as S.
  replace (m + 1 - 1) with m in S by lia.
  assert (m < 11 \/ m = 11) as [L|L] by lia.
  - rewrite (Z.div_small (m + 1) 12), (Z.mod_small (m + 1) 12), Z.add_0_l by lia. lia.
  - rewrite L in S |- *. change ((11 + 1) / 12) with 1. change ((11 + 1) mod 12) with 0.
    rewrite (Z.add_comm 1 y), daysSinceYear1_succ.
    assert (forall z, daysBeforeIn z 0 = 0) as Z0
      by (intros; unfold daysBeforeIn; by rewrite andb_false_r).
    assert (daysBeforeIn y (11 + 1) = 365 + leapDay y) as Z12
      by (unfold daysBeforeIn, leapDay; by destruct (isLeap y)).
    rewrite Z0. lia.
Qed.

Lemma month_start_mono k j :
  k <= j -> 28 * (j - k) <= month_start j - month_start k <= 31 * (j - k).
Proof.
  intros. replace j with (k + Z.of_nat (Z.to_nat (j - k))) by lia.
  generalize (Z.to_nat (j - k)) as n. intros n. induction n as [|n IH].
  - rewrite Z.add_0_r. lia.
  - rewrite Nat2Z.inj_succ.
    replace (k + Z.succ (Z.of_nat n)) with (k + Z.of_nat n + 1) by lia.
    rewrite month_start_succ.
    pose proof (daysIn_range ((k + Z.of_nat n) mod 12 + 1) ((k + Z.of_nat n) / 12)
      ltac:(pose proof (Z.mod_pos_bound (k + Z.of_nat n) 12); lia)). lia.
Qed.

(** A civil date as one number whose order is the lexicographic one. *)
Definition civil_key (y m d : Z) : Z := 10000 * y + 100 * m + d.

Lemma date_day_lt y m d y' m' d' :
  valid_civil y m d -> valid_civil y' m' d' ->
  civil_key y m d < civil_key y' m' d' -> date_day y m d < date_day y' m' d'.
Proof.
  unfold civil_key. intros [V W] [V' W'] L. rewrite !date_day_month.
  pose proof (daysIn_range _ y V). pose proof (daysIn_range _ y' V').
  assert (12 * y + m = 12 * y' + m' \/ 12 * y + m < 12 * y' + m') as [E|E] by lia.
  { rewrite E. lia. }
  pose proof (month_start_succ (12 * y + m - 1)) as S.
  replace ((12 * y + m - 1) mod 12 + 1) with m in S by lia.
  replace ((12 * y + m - 1) / 12) with y in S by lia.
  pose proof (month_start_mono (12 * y + m - 1 + 1) (12 * y' + m' - 1)). lia.
Qed.

Lemma civil_key_inj y m d y' m' d' :
  valid_civil y m d -> valid_civil y' m' d' ->
  civil_key y m d = civil_key y' m' d' -> (y, m, d) = (y', m', d').
Proof.
  intros [V W] [V' W']. unfold civil_key.
  pose proof (daysIn_range _ y V). pose proof (daysIn_range _ y' V'). intros.
  assert (y = y') by lia. assert (m = m') by lia. f_equal; [f_equal|]; lia.
Qed.

(** The order of valid civil dates is the order of their days. *)
Lemma date_day_ltb y m d y' m' d' :
  valid_civil y m d -> valid_civil y' m' d' ->
  (date_day y m d <? date_day y' m' d') = (civil_key y m d <? civil_key y' m' d').
Proof.
  intros V V'.
  pose proof (date_day_lt _ _ _ _ _ _ V V'). pose proof (date_day_lt _ _ _ _ _ _ V' V).
  destruct (Z.ltb_spec (civil_key y m d) (civil_key y' m' d')) as [L|L].
  - apply Z.ltb_lt. auto.
  - apply Z.ltb_ge.
    assert (civil_key y m d = civil_key y' m' d' \/ civil_key y' m' d' < civil_key y m d)
      as [E|] by lia; [|lia].
    apply civil_key_inj in E; [|done|done]. injection E as -> -> ->. lia.
Qed.

Lemma date_day_inj y m d y' m' d' :
  valid_civil y m d -> valid_civil y' m' d' ->
  date_day y m d = date_day y' m' d' -> (y, m, d) = (y', m', d').
Proof.
  intros V V' E. apply civil_key_inj; [done..|].
  pose proof (date_day_lt _ _ _ _ _ _ V V'). pose proof (date_day_lt _ _ _ _ _ _ V' V). lia.
Qed.

(** Writing a valid date and reading the calendar gives it back. *)
Lemma civil_date y m d : valid_civil y m d -> civil (date_day y m d) = (y, m, d).
Proof.
  intros V. destruct (civil _) as [[y' m'] d'] eqn:E.
  apply date_civil in E as [V' E]. by apply date_day_inj.
Qed.

(** * Days and midnights *)

Lemma Day_pos : 0 < Day.
Proof. unfold Day, Hour, Second. lia. Qed.

Lemma day_of_Date y m d : day_of (Date y m d) = date_day y m d.
Proof. unfold day_of, Date. apply Z.div_mul. pose proof Day_pos. lia. Qed.

Lemma midnight_day t : midnight t = day_of t * Day.
Proof.
  unfold midnight. destruct (civil _) as [[y m] d] eqn:E.
  apply date_civil in E as [_ E]. unfold Date. by rewrite E.
Qed.

Lemma midnight_Truncate24h t : midnight t = Truncate24h t.
Proof.
  rewrite midnight_day. unfold Truncate24h, day_of.
  pose proof (Z.div_mod t Day ltac:(pose proof Day_pos; lia)). lia.
Qed.

Lemma midnight_bounds t : midnight t <= t < midnight t + Day.
Proof.
  rewrite midnight_Truncate24h. unfold Truncate24h.
  pose proof (Z.mod_pos_bound t Day Day_pos). lia.
Qed.

Lemma midnight_idem t : midnight (midnight t) = midnight t.
Proof.
  rewrite (midnight_day t), midnight_day. unfold day_of at 1.
  by rewrite Z.div_mul by (pose proof Day_pos; lia).
Qed.

Lemma AddDate_Date y m d dy dm dd :
  valid_civil y m d -> AddDate (Date y m d) dy dm dd = Date (y + dy) (m + dm) (d + dd).
Proof.
  intros V. unfold AddDate. rewrite day_of_Date, civil_date by done.
  unfold Date at 2. rewrite Z.mod_mul by (pose proof Day_pos; lia). lia.
Qed.

Lemma midnight_mono t u : t <= u -> midnight t <= midnight u.
Proof.
  intros L. rewrite !midnight_day. apply Z.mul_le_mono_nonneg_r; [pose proof Day_pos; lia|].
  unfold day_of. apply Z.div_le_mono; [pose proof Day_pos; lia|done].
Qed.

Lemma daysIn_years m y n : daysIn m y <= daysIn m (y + n) + 1.
Proof.
  unfold daysIn. destruct (Z.eqb_spec m 2) as [->|]; cbn [andb]; [|lia].
  change (daysBefore 2 - daysBefore (2 - 1)) with 28. destruct (isLeap y), (isLeap (y + n)); lia.
Qed.

(** A later month starts after the end of an earlier one. *)
Lemma month_start_next y m k :
  1 <= m <= 12 -> 12 * y + m - 1 < k ->
  month_start (12 * y + m - 1) + daysIn m y <= month_start k.
Proof.
  intros M L. pose proof (month_start_succ (12 * y + m - 1)) as E.
  replace (12 * y + m - 1) with ((m - 1) + y * 12) in E at 3 4 by lia.
  rewrite Z.div_add, Z.mod_add, Z.div_small, Z.mod_small in E by lia.
  replace (m - 1 + 1) with m in E by lia. rewrite Z.add_0_l in E.
  pose proof (month_start_mono (12 * y + m - 1 + 1) k ltac:(lia)). lia.
Qed.

(** Adding years to the days keeps their order (29 February may meet 1 March). *)
Lemma AddDate_years_mono t u n :
  t <= u -> AddDate (midnight t) n 0 0 <= AddDate (midnight u) n 0 0.
Proof.
  intros L. apply midnight_mono in L. revert L. unfold midnight.
  destruct (civil (day_of t)) as [[y m] d] eqn:E. destruct (civil (day_of u)) as [[y' m'] d'] eqn:E'.
  apply date_civil in E as [V _]. apply date_civil in E' as [V' _].
  rewrite !AddDate_Date by done. unfold Date. pose proof Day_pos as P.
  intros L%Z.mul_le_mono_pos_r; [|done]. apply Z.mul_le_mono_nonneg_r; [lia|].
  rewrite !date_day_month in *. rewrite !Z.add_0_r. destruct V as [V W], V' as [V' W'].
  destruct (Z.lt_total (12 * y + m - 1) (12 * y' + m' - 1)) as [K|[K|K]].
  - pose proof (month_start_next (y + n) m (12 * (y' + n) + m' - 1) V ltac:(lia)).
    pose proof (daysIn_years m y n). lia.
  - replace (12 * (y + n) + m - 1) with (12 * (y' + n) + m' - 1) by lia. rewrite K in L. lia.
  - pose proof (month_start_next y' m' (12 * y + m - 1) V' ltac:(lia)). lia.
Qed.

Lemma Date_add_days y m d n : Date y m (d + n) = Date y m d + n * Day.
Proof. unfold Date. rewrite !date_day_month. lia. Qed.

Lemma Unix_Date y m d : Unix (Date y m d) = date_day y m d * 86400.
Proof.
  unfold Unix, Date, Day, Hour.
  replace (_ * _) with (date_day y m d * 86400 * Second) by lia.
  apply Z.div_mul. unfold Second. lia.
Qed.

(** * Date strings *)

Lemma digit_Some a n : digit a = Some n -> 0 <= n <= 9 /\ Z.of_N (N_of_ascii a) = 48 + n.
Proof. unfold digit. case_match eqn:E; [|done]. intros [= <-]. bool_to_prop. lia. Qed.

Lemma digit_digit_char n : digit (digit_char n) = Some (n mod 10).
Proof.
  unfold digit, digit_char. pose proof (Z.mod_pos_bound n 10 ltac:(lia)).
  rewrite N_ascii_embedding by lia. rewrite Z2N.id by lia.
  rewrite !(proj2 (Z.leb_le _ _)) by lia. simpl. f_equal. lia.
Qed.

Lemma digit_char_digit a n : digit a = Some n -> digit_char n = a.
Proof.
  intros [? E]%digit_Some. unfold digit_char.
  rewrite Z.mod_small by lia. rewrite <- E, N2Z.id. apply ascii_N_embedding.
Qed.

Lemma getYear_inv s n r :
  getYear s = Some (n, r) ->
  exists a b c d e1 e2 e3 e4, s = String a (String b (String c (String d r))) /\
    digit a = Some e1 /\ digit b = Some e2 /\ digit c = Some e3 /\ digit d = Some e4 /\
    n = 1000 * e1 + 100 * e2 + 10 * e3 + e4.
Proof.
  unfold getYear. destruct s as [|a [|b [|c [|d s]]]]; try discriminate.
  intros (e1 & ? & (e2 & ? & (e3 & ? & (e4 & ? & [= <- <-])%bind_Some)%bind_Some)%bind_Some)%bind_Some.
  exists a, b, c, d, e1, e2, e3, e4. auto 10.
Qed.

Lemma getnum_inv s n r :
  getnum s = Some (n, r) ->
  exists a b e1 e2, s = String a (String b r) /\
    digit a = Some e1 /\ digit b = Some e2 /\ n = 10 * e1 + e2.
Proof.
  unfold getnum. destruct s as [|a [|b s]]; try discriminate.
  intros (e1 & ? & (e2 & ? & [= <- <-])%bind_Some)%bind_Some.
  exists a, b, e1, e2. auto.
Qed.

Lemma skipDash_inv s r : skipDash s = Some r -> s = String "-" r.
Proof.
  unfold skipDash. destruct s as [|c s]; [done|].
  destruct (Ascii.eqb_spec c "-") as [->|]; congruence.
Qed.

(** The shape of the strings [time.Parse(time.DateOnly, _)] accepts. *)
Lemma parse_civil_inv s y m d :
  parse_civil s = Some (y, m, d) ->
  exists y1 y2 y3 y4 m1 m2 d1 d2 e1 e2 e3 e4 f1 f2 g1 g2,
    s = String y1 (String y2 (String y3 (String y4 (String "-" (String m1 (String m2
          (String "-" (String d1 (String d2 EmptyString))))))))) /\
    (digit y1 = Some e1 /\ digit y2 = Some e2 /\ digit y3 = Some e3 /\ digit y4 = Some e4) /\
    (digit m1 = Some f1 /\ digit m2 = Some f2 /\ digit d1 = Some g1 /\ digit d2 = Some g2) /\
    y = 1000 * e1 + 100 * e2 + 10 * e3 + e4 /\ m = 10 * f1 + f2 /\ d = 10 * g1 + g2 /\
    valid_civil y m d.
Proof.
  unfold parse_civil.
  intros ([y0 s1] & Y & (s2 & S1%skipDash_inv & ([m0 s3] & M & P)%bind_Some)%bind_Some)%bind_Some.
  case_match eqn:Bm; [done|].
  apply bind_Some in P as (s4 & S2%skipDash_inv & ([d0 s5] & Dd & P)%bind_Some).
  destruct s5; [|done]. case_match eqn:Bd; [done|]. injection P as <- <- <-.
  apply getYear_inv in Y as (a&b&c&d&e1&e2&e3&e4&->&?&?&?&?&?).
  apply getnum_inv in M as (m1&m2&f1&f2&->&?&?&?).
  apply getnum_inv in Dd as (d1&d2&g1&g2&->&?&?&?). subst s1 s3.
  exists a, b, c, d, m1, m2, d1, d2, e1, e2, e3, e4, f1, f2, g1, g2.
  unfold valid_civil. bool_to_prop. repeat split; auto; lia.
Qed.

Lemma parse_civil_valid s y m d :
  parse_civil s = Some (y, m, d) -> valid_civil y m d /\ 0 <= y <= 9999.
Proof.
  intros (y1&y2&y3&y4&m1&m2&d1&d2&e1&e2&e3&e4&f1&f2&g1&g2&->&(E1&E2&E3&E4)&_&->&_&_&V)
    %parse_civil_inv. split; [done|].
  apply digit_Some in E1, E2, E3, E4. lia.
Qed.

Lemma ascii_compare_digits a b m n :
  digit a = Some m -> digit b = Some n -> Ascii.compare a b = (m ?= n).
Proof.
  intros [? A]%digit_Some [? B]%digit_Some. unfold Ascii.compare.
  rewrite <- N2Z.inj_compare, A, B.
  destruct (Z.compare_spec m n), (Z.compare_spec (48 + m) (48 + n)); auto; lia.
Qed.

(** Comparing two well-formed date strings byte by byte compares the dates. *)
Lemma parse_civil_ltb s s' y m d y' m' d' :
  parse_civil s = Some (y, m, d) -> parse_civil s' = Some (y', m', d') ->
  String.ltb s s' = (civil_key y m d <? civil_key y' m' d').
Proof.
  intros (y1&y2&y3&y4&m1&m2&d1&d2&e1&e2&e3&e4&f1&f2&g1&g2
    &->&(Y1&Y2&Y3&Y4)&(M1&M2&D1&D2)&->&->&->&_)%parse_civil_inv.
  intros (y1'&y2'&y3'&y4'&m1'&m2'&d1'&d2'&e1'&e2'&e3'&e4'&f1'&f2'&g1'&g2'
    &->&(Y1'&Y2'&Y3'&Y4')&(M1'&M2'&D1'&D2')&->&->&->&_)%parse_civil_inv.
  unfold String.ltb, civil_key. cbn [String.compare].
  rewrite (ascii_compare_digits _ _ _ _ Y1 Y1'), (ascii_compare_digits _ _ _ _ Y2 Y2'),
    (ascii_compare_digits _ _ _ _ Y3 Y3'), (ascii_compare_digits _ _ _ _ Y4 Y4'),
    (ascii_compare_digits _ _ _ _ M1 M1'), (ascii_compare_digits _ _ _ _ M2 M2'),
    (ascii_compare_digits _ _ _ _ D1 D1'), (ascii_compare_digits _ _ _ _ D2 D2').
  change (Ascii.compare "-" "-") with Eq.
  repeat match goal with H : digit _ = Some _ |- _ => apply digit_Some in H as [? _] end.
  repeat (match goal with |- context [?a ?= ?b] => destruct (Z.compare_spec a b) end;
    [|symmetry; apply Z.ltb_lt; lia|symmetry; apply Z.ltb_ge; lia]).
  symmetry. apply Z.ltb_ge. lia.
Qed.

(** Date strings are ordered like the dates they denote. *)
Lemma ParseDateOnly_ltb s s' t t' :
  ParseDateOnly s = Some t -> ParseDateOnly s' = Some t' ->
  String.ltb s s' = Before t t'.
Proof.
  unfold ParseDateOnly, Before.
  intros ([[y m] d] & P & [= <-])%bind_Some ([[y' m'] d'] & P' & [= <-])%bind_Some.
  rewrite (parse_civil_ltb _ _ _ _ _ _ _ _ P P').
  apply parse_civil_valid in P as [V _], P' as [V' _].
  rewrite <- date_day_ltb by done. unfold Date. pose proof Day_pos.
  destruct (Z.ltb_spec (date_day y m d) (date_day y' m' d')); symmetry;
    [apply Z.ltb_lt|apply Z.ltb_ge]; nia.
Qed.

Lemma getnum_two_digits n r :
  0 <= n <= 99 -> getnum (two_digits n r) = Some (n, r).
Proof.
  intros. unfold getnum, two_digits. rewrite !digit_digit_char. simpl. repeat f_equal. lia.
Qed.

Lemma getYear_append_year n r :
  0 <= n <= 9999 -> getYear (append_year n r) = Some (n, r).
Proof.
  intros. unfold append_year. rewrite (proj2 (Z.ltb_ge n 0)), (proj2 (Z.ltb_lt n 10000)) by lia.
  unfold getYear, four_digits, two_digits. rewrite !digit_digit_char. simpl. repeat f_equal. lia.
Qed.

#[local] Arguments two_digits : simpl never.
#[local] Arguments getnum : simpl never.
#[local] Arguments daysIn : simpl never.

(** Formatting a day of a four-digit year and parsing it gives the midnight of
    that day. *)
Lemma Parse_FormatDateOnly t :
  date_day 0 1 1 <= day_of t <= date_day 9999 12 31 ->
  ParseDateOnly (FormatDateOnly t) = Some (midnight t).
Proof.
  intros R. unfold FormatDateOnly, midnight.
  destruct (civil (day_of t)) as [[y m] d] eqn:E. apply date_civil in E as [V E].
  assert (0 <= y <= 9999) as Y.
  { pose proof (date_day_ltb y m d 0 1 1 V ltac:(done)) as L1.
    pose proof (date_day_ltb 9999 12 31 y m d ltac:(done) V) as L2.
    rewrite E in L1, L2. destruct V as [V W]. pose proof (daysIn_range m y V).
    symmetry in L1, L2. unfold civil_key in *.
    destruct (Z.ltb_spec (day_of t) (date_day 0 1 1)); [lia|]. apply Z.ltb_ge in L1.
    destruct (Z.ltb_spec (date_day 9999 12 31) (day_of t)); [lia|]. apply Z.ltb_ge in L2. lia. }
  unfold ParseDateOnly, parse_civil. rewrite getYear_append_year by lia. simpl.
  destruct V as [V W]. pose proof (daysIn_range m y V).
  rewrite getnum_two_digits by lia. simpl.
  rewrite (proj2 (Z.leb_gt _ _)), (proj2 (Z.ltb_ge _ _)) by lia. simpl.
  rewrite getnum_two_digits by lia. simpl.
  by rewrite (proj2 (Z.ltb_ge _ _)), (proj2 (Z.ltb_ge _ _)) by lia.
Qed.

(** Parsing a date string and formatting the result gives the string back. *)
Lemma Format_ParseDateOnly s t : ParseDateOnly s = Some t -> FormatDateOnly t = s.
Proof.
  unfold ParseDateOnly. intros ([[y m] d] & P & [= <-])%bind_Some.
  pose proof (parse_civil_valid _ _ _ _ P) as [V Y].
  unfold FormatDateOnly. rewrite day_of_Date, civil_date by done.
  apply parse_civil_inv in P as (y1&y2&y3&y4&m1&m2&d1&d2&e1&e2&e3&e4&f1&f2&g1&g2
    &->&(Y1&Y2&Y3&Y4)&(M1&M2&D1&D2)&->&->&->&_).
  unfold append_year. rewrite (proj2 (Z.ltb_ge _ _)), (proj2 (Z.ltb_lt _ _)) by lia.
  unfold four_digits, two_digits.
  assert (DC : forall k a n, digit a = Some n -> n = k mod 10 -> digit_char k = a).
  { intros k a n Dg ->. apply digit_char_digit in Dg as <-.
    unfold digit_char. by rewrite Z.mod_mod. }
  pose proof (digit_Some _ _ Y1). pose proof (digit_Some _ _ Y2). pose proof (digit_Some _ _ Y3).
  pose proof (digit_Some _ _ Y4). pose proof (digit_Some _ _ M1). pose proof (digit_Some _ _ M2).
  pose proof (digit_Some _ _ D1). pose proof (digit_Some _ _ D2).
  repeat (apply (f_equal2 String); [first [done | eapply DC; [eassumption|lia]]|]). done.
Qed.

Lemma ParseDateOnly_midnight s t : ParseDateOnly s = Some t -> midnight t = t.
Proof.
  unfold ParseDateOnly. intros ([[y m] d] & _ & [= <-])%bind_Some.
  rewrite midnight_day, day_of_Date. done.
Qed.

Lemma ParseDateOnly_inj s s' t :
  ParseDateOnly s = Some t -> ParseDateOnly s' = Some t -> s = s'.
Proof. intros H1%Format_ParseDateOnly H2%Format_ParseDateOnly. congruence. Qed.
