(* ===== verification/Sdk.v ===== *)
(** What the modules use of the code outside the repository: cosmossdk.io/math,
    the Cosmos SDK's address and coin types, the KV store service, and the
    account, bank and staking keepers of x/lockup/types/expected_keepers.go.
    Every such function is a field of a class; the documented behaviour the
    theorems rely on is a separate class of laws. *)

From stdpp Require Import base list strings gmap sorting.
From Stdlib Require Import ZArith Lia.
From S2P Require Import Prelude GoTime.

Local Open Scope Z_scope.

(** * cosmossdk.io/math *)

(** [math.Int].  A value is the integer it denotes (the nil [Int] of an unset
    message field is not distinguished from 0); comparisons are those of [Z].  The operations that
    can panic or fail are parameters. *)
Class SdkMath := {
  Int_Add : Z -> Z -> outcome Z;
  Int_Sub : Z -> Z -> outcome Z;
  Int_Mul : Z -> Z -> outcome Z;
  Int_Quo : Z -> Z -> outcome Z;
  Int_Marshal : Z -> outcome bytes;
  Int_Unmarshal : bytes -> outcome Z;
  Int_String : Z -> string;
  NewIntFromString : string -> option Z;
}.

(** The range of a [math.Int]: 256 bits and a sign. *)
Definition int_ok (z : Z) : bool := Z.abs z <? 2 ^ 256.

(** The documented contract of [math.Int]: operations are exact and panic when
    the result leaves the range or the divisor is zero; [Quo] truncates;
    [Marshal] is a text encoding (a sign and at most 78 digits) that [Unmarshal]
    inverts, and [Unmarshal] returns an integer or an error; [NewIntFromString] only returns integers in range. *)
Class SdkMathLaws `{SdkMath} : Prop := {
  Int_Add_spec a b :
    exists p, Int_Add a b = if int_ok (a + b) then Ok (a + b) else Panic p;
  Int_Sub_spec a b :
    exists p, Int_Sub a b = if int_ok (a - b) then Ok (a - b) else Panic p;
  Int_Mul_spec a b :
    exists p, Int_Mul a b = if int_ok (a * b) then Ok (a * b) else Panic p;
  Int_Quo_spec a b :
    exists p, Int_Quo a b = if b =? 0 then Panic p else Ok (Z.quot a b);
  Int_Marshal_spec a :
    int_ok a = true ->
    exists bz, Int_Marshal a = Ok bz /\ Int_Unmarshal bz = Ok a /\ 0 < zlen bz < 128;
  Int_Unmarshal_returns bz :
    (exists a, Int_Unmarshal bz = Ok a) \/ (exists e, Int_Unmarshal bz = Err e);
  Int_Unmarshal_ok bz a : Int_Unmarshal bz = Ok a -> int_ok a = true;
  NewIntFromString_ok s a : NewIntFromString s = Some a -> int_ok a = true;
}.

(** * Addresses and coins of the Cosmos SDK *)

Record Coin := NewCoinRec { Denom : string; Amount : Z }.

#[export] Instance Coin_eq_dec : EqDecision Coin.
Proof. solve_decision. Defined.

(** [coin.IsPositive()]. *)
Definition Coin_IsPositive (c : Coin) : bool := 0 <? Amount c.

Class SdkTypes := {
  AccAddressFromBech32 : string -> outcome bytes;
  AccAddress_String : bytes -> string;
  ValAddressFromBech32 : string -> outcome bytes;
  ValidDenom : string -> bool;
  NewCoin : string -> Z -> outcome Coin;
  NewCoins : list Coin -> outcome (list Coin);
  Coins_AmountOf : list Coin -> string -> outcome Z;
  Coin_String : Coin -> string;
  (** [sdk.AttributeKeyAmount] and the event names of x/staking. *)
  AttributeKeyAmount : string;
  EventTypeDelegate : string;
  AttributeKeyValidator : string;
  AttributeKeyDelegator : string;
  AttributeKeyNewShares : string;
}.

(** [sdk.NewCoin] builds the coin, or panics for an invalid denomination or a
    negative amount. *)
Class SdkCoinLaws `{SdkTypes} : Prop := {
  NewCoin_spec d a c : NewCoin d a = Ok c -> c = NewCoinRec d a;
  NewCoin_valid d a : ValidDenom d = true -> 0 <= a -> NewCoin d a = Ok (NewCoinRec d a);
  NewCoin_negative d a : a < 0 -> exists p, NewCoin d a = Panic p;
  NewCoins_AmountOf c cs :
    NewCoins [c] = Ok cs -> Coins_AmountOf cs (Denom c) = Ok (Amount c);
}.

(** * The key-value store service (cosmossdk.io/core/store) *)

Class KVStore (S : Type) := {
  kv_Get : S -> bytes -> outcome (option bytes);
  kv_Set : S -> bytes -> bytes -> outcome S;
  kv_Delete : S -> bytes -> outcome S;
  (** [Iterator(start, end)] drained from its first to its last entry. *)
  kv_Iterator : S -> bytes -> option bytes -> outcome (list (bytes * bytes));
}.

Definition key_in_range (start : bytes) (stop : option bytes) (k : bytes) : bool :=
  bytes_leb start k && match stop with Some e => bytes_ltb k e | None => true end.

(** Strictly ascending keys. *)
Definition keys_ascending (l : list (bytes * bytes)) : Prop :=
  StronglySorted (fun p q => bytes_ltb p.1 q.1 = true) l.

(** A store is a finite map; [Get], [Set] and [Delete] of a non-empty key do not
    fail, and an iterator yields the entries of [start, end) in key order. *)
Class KVStoreLaws (S : Type) `{KVStore S} := {
  kv_view : S -> gmap bytes bytes;
  kv_Get_spec s k : k <> [] -> kv_Get s k = Ok (kv_view s !! k);
  kv_Set_spec s k v :
    k <> [] -> exists s', kv_Set s k v = Ok s' /\ kv_view s' = <[k := v]> (kv_view s);
  kv_Delete_spec s k :
    k <> [] -> exists s', kv_Delete s k = Ok s' /\ kv_view s' = delete k (kv_view s);
  kv_Iterator_spec s a b :
    a <> [] -> exists l, kv_Iterator s a b = Ok l /\ keys_ascending l /\
      forall k v, (k, v) ∈ l <-> kv_view s !! k = Some v /\ key_in_range a b k = true;
}.

(** * Execution context *)

(** The parts of [sdk.Context] the sources read: the block time and height, and
    the set of (delegator, source validator) pairs of hooks.go. *)
Record Ctx := MkCtx {
  BlockTime : Time;
  BlockHeight : Z;
  redelegating : gset bytes;
}.

(** An [sdk.Event]: its type and its attributes. *)
Record Event := NewEvent { ev_type : string; ev_attrs : list (string * string) }.

(** * Keepers *)

(** [stakingtypes.BondStatus]. *)
Inductive BondStatus := Unspecified | Unbonded | Unbonding | Bonded.

(** A [stakingtypes.StakingHooks] implementation, on an external state [X]. *)
Record StakingHooks (X Dec : Type) := MkStakingHooks {
  hk_AfterValidatorCreated : X -> bytes -> outcome unit;
  hk_BeforeValidatorModified : X -> bytes -> outcome unit;
  hk_AfterValidatorRemoved : X -> bytes -> bytes -> outcome unit;
  hk_AfterValidatorBonded : X -> bytes -> bytes -> outcome unit;
  hk_AfterValidatorBeginUnbonding : X -> bytes -> bytes -> outcome unit;
  hk_BeforeDelegationCreated : X -> bytes -> bytes -> outcome unit;
  hk_BeforeDelegationSharesModified : X -> bytes -> bytes -> outcome unit;
  hk_BeforeDelegationRemoved : X -> bytes -> bytes -> outcome unit;
  hk_AfterDelegationModified : X -> bytes -> bytes -> outcome unit;
  hk_BeforeValidatorSlashed : X -> bytes -> Dec -> outcome unit;
  hk_AfterUnbondingInitiated : X -> Z -> outcome unit;
}.
Arguments MkStakingHooks {X Dec}.
Arguments hk_BeforeDelegationRemoved {X Dec}.
Arguments hk_AfterDelegationModified {X Dec}.

(** A bank send restriction: sender, recipient and coins to the new recipient. *)
Definition SendRestriction (X : Type) : Type :=
  X -> bytes -> bytes -> list Coin -> outcome bytes.

(** The lockup module's [AccountKeeper], on the external state [X]. *)
Class AccountKeeper (X : Type) := {
  AccountI : Type;
  HasAccount : X -> bytes -> bool;
  GetAccount : X -> bytes -> option AccountI;
  SetAccount : X -> AccountI -> X;
  AddressCodec : (string -> outcome bytes) * (bytes -> outcome string);
}.

(** The lockup module's [BankKeeper].  [SendCoins] runs the registered send
    restriction, which is therefore an argument. *)
Class BankKeeper (X : Type) := {
  GetBalance : X -> bytes -> string -> Coin;
  SpendableCoin : X -> bytes -> string -> Coin;
  IsSendEnabledCoins : X -> list Coin -> outcome unit;
  SendCoins : SendRestriction X -> X -> bytes -> bytes -> list Coin -> outcome X;
  SendCoinsFromAccountToModule :
    SendRestriction X -> X -> bytes -> string -> list Coin -> outcome X;
}.

(** The lockup module's [StakingKeeper], with the parts of
    [stakingtypes.Validator], [stakingtypes.Delegation] and [math.LegacyDec] the
    sources use.  [Delegate] runs the registered staking hooks, which are
    therefore an argument. *)
Class StakingKeeper (X : Type) := {
  Dec : Type;
  Validator : Type;
  Delegation : Type;
  GetValidatorAddr : Delegation -> string;
  GetShares : Delegation -> Dec;
  TokensFromShares : Validator -> Dec -> Dec;
  Dec_Ceil : Dec -> Dec;
  Dec_TruncateInt : Dec -> Z;
  Dec_String : Dec -> string;
  BondDenom : X -> outcome string;
  GetValidator : X -> bytes -> outcome Validator;
  GetDelegation : X -> bytes -> bytes -> outcome Delegation;
  GetDelegatorDelegations : X -> bytes -> Z -> outcome (list Delegation);
  Delegate : StakingHooks X Dec -> X -> bytes -> Z -> BondStatus -> Validator -> bool ->
             outcome (X * Dec);
}.

(** [GetDelegatorDelegations(ctx, addr, n)] returns the first [n] delegations of
    the account; [GetDelegation] finds the one with the given validator; the
    tokens of a delegation, whose shares are positive, are not negative. *)
Class StakingLaws (X : Type) `{SdkTypes} `{StakingKeeper X} := {
  all_delegations : X -> bytes -> list Delegation;
  GetDelegatorDelegations_spec x a n :
    GetDelegatorDelegations x a n = Ok (take (Z.to_nat n) (all_delegations x a));
  GetDelegation_spec x a v d :
    GetDelegation x a v = Ok d ->
    d ∈ all_delegations x a /\ ValAddressFromBech32 (GetValidatorAddr d) = Ok v;
  tokens_nonneg v d : 0 <= Dec_TruncateInt (Dec_Ceil (TokensFromShares v (GetShares d)));
}.

(** [SendCoins] applies the send restriction to the state it starts from and
    gives up when it refuses. *)
Class BankLaws (X : Type) `{BankKeeper X} : Prop := {
  SendCoins_restricted r x a b cs x' :
    SendCoins r x a b cs = Ok x' -> exists to, r x a b cs = Ok to;
}.

(** The state the lockup module runs on: its own store, the state of the other
    modules, and the events emitted so far. *)
Record World (S X : Type) := MkWorld {
  w_store : S;
  w_ext : X;
  w_events : list Event;
}.
Arguments MkWorld {S X}.
Arguments w_store {S X}.
Arguments w_ext {S X}.
Arguments w_events {S X}.

Definition set_store {S X} (w : World S X) (s : S) : World S X :=
  MkWorld s (w_ext w) (w_events w).
Definition set_ext {S X} (w : World S X) (x : X) : World S X :=
  MkWorld (w_store w) x (w_events w).
(** [ctx.EventManager().EmitEvents]. *)
Definition emit {S X} (w : World S X) (es : list Event) : World S X :=
  MkWorld (w_store w) (w_ext w) (w_events w ++ es).

(** * Consequences of the integer laws *)

Section IntFacts.
Context `{SdkMathLaws}.

Lemma Int_Add_Ok a b c : Int_Add a b = Ok c -> c = a + b /\ int_ok c = true.
Proof.
  destruct (Int_Add_spec a b) as [p ->].
  destruct (int_ok (a + b)) eqn:E; [|done]. intros [= <-]. auto.
Qed.

Lemma Int_Sub_Ok a b c : Int_Sub a b = Ok c -> c = a - b /\ int_ok c = true.
Proof.
  destruct (Int_Sub_spec a b) as [p ->].
  destruct (int_ok (a - b)) eqn:E; [|done]. intros [= <-]. auto.
Qed.

Lemma Int_Mul_Ok a b c : Int_Mul a b = Ok c -> c = a * b /\ int_ok c = true.
Proof.
  destruct (Int_Mul_spec a b) as [p ->].
  destruct (int_ok (a * b)) eqn:E; [|done]. intros [= <-]. auto.
Qed.

Lemma Int_Quo_Ok a b c : Int_Quo a b = Ok c -> c = Z.quot a b /\ b <> 0.
Proof.
  destruct (Int_Quo_spec a b) as [p ->].
  destruct (Z.eqb_spec b 0); [done|]. intros [= <-]. auto.
Qed.

Lemma Int_Add_intro a b : int_ok (a + b) = true -> Int_Add a b = Ok (a + b).
Proof. destruct (Int_Add_spec a b) as [p ->]. by intros ->. Qed.

Lemma Int_Sub_intro a b : int_ok (a - b) = true -> Int_Sub a b = Ok (a - b).
Proof. destruct (Int_Sub_spec a b) as [p ->]. by intros ->. Qed.

Lemma Int_Mul_intro a b : int_ok (a * b) = true -> Int_Mul a b = Ok (a * b).
Proof. destruct (Int_Mul_spec a b) as [p ->]. by intros ->. Qed.

Lemma Int_Quo_intro a b : b <> 0 -> Int_Quo a b = Ok (Z.quot a b).
Proof. destruct (Int_Quo_spec a b) as [p ->]. by intros ->%Z.eqb_neq. Qed.
End IntFacts.

Lemma int_ok_spec z : int_ok z = true <-> - 2 ^ 256 < z < 2 ^ 256.
Proof. unfold int_ok. rewrite Z.ltb_lt. lia. Qed.

Lemma int_ok_between a b : int_ok b = true -> 0 <= a <= b -> int_ok a = true.
Proof. rewrite !int_ok_spec. lia. Qed.

(** Turns successful integer operations in the context into equations. *)
Ltac int_facts :=
  repeat match goal with
  | H : Int_Add _ _ = Ok _ |- _ => apply Int_Add_Ok in H as [? ?]
  | H : Int_Sub _ _ = Ok _ |- _ => apply Int_Sub_Ok in H as [? ?]
  | H : Int_Mul _ _ = Ok _ |- _ => apply Int_Mul_Ok in H as [? ?]
  | H : Int_Quo _ _ = Ok _ |- _ => apply Int_Quo_Ok in H as [? ?]
  end; subst.
