(* ===== verification/Inflate.v ===== *)
(** Reading gzip data, as package [compress/gzip] does: the header and trailer of
    RFC 1952 and the DEFLATE format of RFC 1951, with its fixed and dynamic Huffman
    codes.  The .pb.go files embed their descriptors in this form. *)

From stdpp Require Import base list strings.
From Stdlib Require Import ZArith Lia.
From Stdlib.Init Require Import Byte.
From S2P Require Import Prelude.

Local Open Scope Z_scope.

(** * Bits *)

Abbreviation bits := (list bool).

(** The bits of a byte, the least significant first. *)
Definition bits_of_byte (b : byte) : bits := map (fun i => Z.testbit (byte_to_Z b) i) (seqZ 0 8).
Definition bits_of_bytes (bz : bytes) : bits := concat (map bits_of_byte bz).

(** An integer of [n] bits, the least significant first, and the bits after it. *)
Fixpoint take_bits (n : nat) (bs : bits) : option (Z * bits) :=
  match n, bs with
  | O, _ => Some (0, bs)
  | S n', b :: bs' => '(v, rest) ← take_bits n' bs'; Some (Z.b2z b + 2 * v, rest)
  | S _, [] => None
  end.

Lemma take_bits_spec n bs v rest :
  take_bits n bs = Some (v, rest) -> bs = take n bs ++ rest /\ length (take n bs) = n /\ 0 <= v < 2 ^ Z.of_nat n.
Proof.
  revert bs v. induction n as [|n IH]; intros bs v E; cbn [take_bits] in E.
  - injection E as <- <-. do 2 (split; [done|]). simpl. lia.
  - destruct bs as [|b bs]; [done|]. apply bind_Some in E as ([v' r] & E & [= <- <-]).
    apply IH in E as (E & L & B). cbn [take app length]. rewrite <- E, L.
    rewrite Nat2Z.inj_succ, Z.pow_succ_r by lia. split; [done|]. split; [done|]. destruct b; simpl Z.b2z; lia.
Qed.

(** An integer of [n] bytes, the least significant first. *)
Fixpoint take_le (n : nat) (bz : bytes) : option (Z * bytes) :=
  match n, bz with
  | O, _ => Some (0, bz)
  | S n', b :: bz' => '(v, rest) ← take_le n' bz'; Some (byte_to_Z b + 256 * v, rest)
  | S _, [] => None
  end.

(** * Huffman codes *)

(** A canonical code: for each length from 1 on, the symbols with codes of that
    length, in order. *)
Definition huffman : Type := list (list Z).

Definition symbols_of_length (lengths : list Z) (n : Z) : list Z :=
  omap (fun p : nat * Z => if p.2 =? n then Some (Z.of_nat p.1) else None) (imap pair lengths).

Definition huffman_of (lengths : list Z) : huffman := map (symbols_of_length lengths) (seqZ 1 15).

(** The codes of one length are consecutive; [first] is the first of them and
    [code] the bits read so far, the most significant first. *)
Fixpoint decode_symbol (h : huffman) (code first : Z) (bs : bits) : option (Z * bits) :=
  match h, bs with
  | syms :: h', b :: bs' =>
      let code := code + Z.b2z b in
      if code <? first + zlen syms
      then s ← syms !! Z.to_nat (code - first); Some (s, bs')
      else decode_symbol h' (2 * code) (2 * (first + zlen syms)) bs'
  | _, _ => None
  end.

(** The fixed code of RFC 1951, 3.2.6. *)
Definition fixed_lengths : list Z :=
  replicate 144 8 ++ replicate 112 9 ++ replicate 24 7 ++ replicate 8 8.
Definition fixed_codes : huffman * huffman := (huffman_of fixed_lengths, huffman_of (replicate 30 5)).

(** The order in which the lengths of the code length code are stored. *)
Definition code_length_order : list nat :=
  [16; 17; 18; 0; 8; 7; 9; 6; 10; 5; 11; 4; 12; 3; 13; 2; 14; 1; 15]%nat.

Fixpoint read_code_lengths (order : list nat) (acc : list Z) (bs : bits) : option (list Z * bits) :=
  match order with
  | [] => Some (acc, bs)
  | i :: order' => '(v, bs') ← take_bits 3 bs; read_code_lengths order' (<[i := v]> acc) bs'
  end.

(** [n] code lengths; 16 repeats the last one, 17 and 18 are runs of zeros. *)
Fixpoint read_lengths (fuel : nat) (h : huffman) (n : nat) (acc : list Z) (bs : bits)
    : option (list Z * bits) :=
  match fuel with
  | O => None
  | S fuel' =>
      if (n <=? length acc)%nat then (if (n <? length acc)%nat then None else Some (acc, bs)) else
      '(sym, bs1) ← decode_symbol h 0 0 bs;
      if sym <? 16 then read_lengths fuel' h n (acc ++ [sym]) bs1 else
      if sym =? 16 then
        prev ← last acc;
        '(r, bs2) ← take_bits 2 bs1;
        read_lengths fuel' h n (acc ++ replicate (Z.to_nat (3 + r)) prev) bs2
      else if sym =? 17 then
        '(r, bs2) ← take_bits 3 bs1;
        read_lengths fuel' h n (acc ++ replicate (Z.to_nat (3 + r)) 0) bs2
      else
        '(r, bs2) ← take_bits 7 bs1;
        read_lengths fuel' h n (acc ++ replicate (Z.to_nat (11 + r)) 0) bs2
  end.

(** The two codes of a dynamic block. *)
Definition read_dynamic (bs : bits) : option ((huffman * huffman) * bits) :=
  '(hlit, bs) ← take_bits 5 bs;
  '(hdist, bs) ← take_bits 5 bs;
  '(hclen, bs) ← take_bits 4 bs;
  '(cl, bs) ← read_code_lengths (take (Z.to_nat (4 + hclen)) code_length_order) (replicate 19 0) bs;
  let nlit := Z.to_nat (257 + hlit) in
  '(ls, bs) ← read_lengths (S (length bs)) (huffman_of cl) (nlit + Z.to_nat (1 + hdist)) [] bs;
  Some ((huffman_of (take nlit ls), huffman_of (drop nlit ls)), bs).

(** * Blocks *)

(** Base and extra bits of the length symbols from 257 on, and of the distances. *)
Definition length_codes : list (Z * nat) :=
  zip [3; 4; 5; 6; 7; 8; 9; 10; 11; 13; 15; 17; 19; 23; 27; 31; 35; 43; 51; 59; 67; 83; 99; 115; 131;
       163; 195; 227; 258]
    [0; 0; 0; 0; 0; 0; 0; 0; 1; 1; 1; 1; 2; 2; 2; 2; 3; 3; 3; 3; 4; 4; 4; 4; 5; 5; 5; 5; 0]%nat.
Definition distance_codes : list (Z * nat) :=
  zip [1; 2; 3; 4; 5; 7; 9; 13; 17; 25; 33; 49; 65; 97; 129; 193; 257; 385; 513; 769; 1025; 1537; 2049;
       3073; 4097; 6145; 8193; 12289; 16385; 24577]
    [0; 0; 0; 0; 1; 1; 2; 2; 3; 3; 4; 4; 5; 5; 6; 6; 7; 7; 8; 8; 9; 9; 10; 10; 11; 11; 12; 12; 13; 13]%nat.

(** The output is kept with the last byte first. *)
Fixpoint copy_back (n : nat) (distance : nat) (out : bytes) : option bytes :=
  match n with
  | O => Some out
  | S n' => b ← out !! (distance - 1)%nat; copy_back n' distance (b :: out)
  end.

Definition read_extended (codes : list (Z * nat)) (i : Z) (bs : bits) : option (Z * bits) :=
  '(base, extra) ← codes !! Z.to_nat i;
  '(v, bs') ← take_bits extra bs;
  Some (base + v, bs').

Fixpoint inflate_block (fuel : nat) (codes : huffman * huffman) (bs : bits) (out : bytes)
    : option (bytes * bits) :=
  match fuel with
  | O => None
  | S fuel' =>
      '(sym, bs) ← decode_symbol codes.1 0 0 bs;
      if sym <? 256 then inflate_block fuel' codes bs (byte_of_Z sym :: out) else
      if sym =? 256 then Some (out, bs) else
      '(len, bs) ← read_extended length_codes (sym - 257) bs;
      '(dsym, bs) ← decode_symbol codes.2 0 0 bs;
      '(distance, bs) ← read_extended distance_codes dsym bs;
      out ← copy_back (Z.to_nat len) (Z.to_nat distance) out;
      inflate_block fuel' codes bs out
  end.

(** The bytes of [n] groups of eight bits. *)
Fixpoint take_bytes (n : nat) (bs : bits) (out : bytes) : option (bytes * bits) :=
  match n with
  | O => Some (out, bs)
  | S n' => '(v, bs') ← take_bits 8 bs; take_bytes n' bs' (byte_of_Z v :: out)
  end.

(** A stored block starts at the next byte: the whole stream is a number of bytes. *)
Definition inflate_stored (bs : bits) (out : bytes) : option (bytes * bits) :=
  let bs := drop (Nat.modulo (length bs) 8) bs in
  '(len, bs) ← take_bits 16 bs;
  '(nlen, bs) ← take_bits 16 bs;
  if negb (nlen =? 65535 - len) then None else take_bytes (Z.to_nat len) bs out.

Fixpoint inflate_blocks (fuel : nat) (bs : bits) (out : bytes) : option (bytes * bits) :=
  match fuel with
  | O => None
  | S fuel' =>
      '(final, bs) ← take_bits 1 bs;
      '(kind, bs) ← take_bits 2 bs;
      '(out, bs) ←
        (if kind =? 0 then inflate_stored bs out
         else if kind =? 1 then inflate_block (S (length bs)) fixed_codes bs out
         else if kind =? 2 then '(codes, bs) ← read_dynamic bs; inflate_block (S (length bs)) codes bs out
         else None);
      if final =? 1 then Some (out, bs) else inflate_blocks fuel' bs out
  end.

(** The decompressed bytes and the bytes after the compressed data. *)
Definition inflate (bz : bytes) : option (bytes * bytes) :=
  let bs := bits_of_bytes bz in
  '(out, rest) ← inflate_blocks (S (length bs)) bs [];
  Some (rev out, drop (length bz - Nat.div (length rest) 8) bz).

(** * The gzip container *)

(** CRC-32 with the reversed polynomial 0xedb88320. *)
Fixpoint crc_bits (n : nat) (c : Z) : Z :=
  match n with
  | O => c
  | S n' => crc_bits n' (if Z.odd c then Z.lxor (Z.shiftr c 1) 3988292384 else Z.shiftr c 1)
  end.
Definition crc32 (bz : bytes) : Z :=
  Z.lxor (fold_left (fun c b => crc_bits 8 (Z.lxor c (byte_to_Z b))) bz (2 ^ 32 - 1)) (2 ^ 32 - 1).

(** A gzip stream of one member without optional header fields: decompressed, with
    the checksum and the length of its trailer verified and nothing after it. *)
Definition gunzip (bz : bytes) : option bytes :=
  match bz with
  | x1f :: x8b :: x08 :: x00 :: _ :: _ :: _ :: _ :: _ :: _ :: body =>
      '(out, trailer) ← inflate body;
      '(crc, trailer) ← take_le 4 trailer;
      '(size, trailer) ← take_le 4 trailer;
      if (crc =? crc32 out) && (size =? zlen out mod 2 ^ 32) && bool_decide (trailer = [])
      then Some out else None
  | _ => None
  end.

(** The check value of CRC-32, and a stream with a stored block. *)
Example crc32_check : crc32 (bytes_of_string "123456789") = 3421780262.
Proof. vm_compute. reflexivity. Qed.
