(* ===== verification/LockPb.v ===== *)
(** The protobuf codec of the stored locks: x/lockup/types/lock.pb.go.  The
    encoder fills a buffer of [Size] bytes from its end; the decoder is a loop
    over the fields with varint, length and group handling.  The text encoding
    of the amount is cosmossdk.io/math's, a parameter. *)

From stdpp Require Import base list strings.
From Stdlib Require Import ZArith Lia.
From Stdlib.Init Require Import Byte.
From S2P Require Import Prelude Sdk.

Local Open Scope Z_scope.

(** * Messages *)

Record Lock := MkLock { UnlockDate : string; LockAmount : Z }.
Record Locks := MkLocks { LockList : list Lock }.

#[export] Instance Lock_eq_dec : EqDecision Lock.
Proof. solve_decision. Defined.

Definition ErrInvalidLengthLock : error :=
  FmtErr "proto: negative length found during unmarshaling".
Definition ErrIntOverflowLock : error := FmtErr "proto: integer overflow".
Definition ErrUnexpectedEndOfGroupLock : error := FmtErr "proto: unexpected end of group".

(** * Encoding *)

(** [sovLock(x)]: [(math_bits.Len64(x|1) + 6) / 7]. *)
Definition sovLock (x : Z) : Z := (Z.log2 (Z.lor x 1) + 1 + 6) / 7.

(** The loop of [encodeVarintLock]; ten rounds are enough for a [uint64]. *)
Fixpoint varint_loop (fuel : nat) (v : Z) : bytes :=
  match fuel with
  | O => [byte_of_Z v]
  | S n =>
      if 128 <=? v
      then byte_of_Z (Z.lor (Z.land v 127) 128) :: varint_loop n (Z.shiftr v 7)
      else [byte_of_Z v]
  end.

(** [encodeVarintLock(dAtA, offset, v)], as the bytes it puts before [offset]. *)
Definition encodeVarintLock (v : Z) : bytes := varint_loop 9 v.

(** A buffer of [size] zero bytes whose end is overwritten with [buf], cut to
    the length of [buf]: [dAtA[:n]] at the end of [Marshal]. *)
Definition sized_buffer (size : Z) (buf : bytes) : outcome bytes :=
  if size <? zlen buf then Panic SliceBounds
  else Ok (take (length buf) (replicate (Z.to_nat (size - zlen buf)) x00 ++ buf)).

Section Codec.
Context `{SdkMath}.

(** [m.Amount.Size()]: the length of the encoding. *)
Definition Int_Size (a : Z) : Z :=
  match Int_Marshal a with Ok bz => zlen bz | _ => 0 end.

Definition Lock_Size (m : Lock) : Z :=
  let l := zlen (bytes_of_string (UnlockDate m)) in
  let n := if 0 <? l then 1 + l + sovLock (uint64 l) else 0 in
  let l := Int_Size (LockAmount m) in
  n + (1 + l + sovLock (uint64 l)).

(** [MarshalToSizedBuffer], as the bytes written, from the last to the first. *)
Definition Lock_MarshalToSizedBuffer (m : Lock) : outcome bytes :=
  let size := Int_Size (LockAmount m) in
  amt ← Int_Marshal (LockAmount m);
  let buf := x12 :: encodeVarintLock (uint64 size) ++ amt in
  let date := bytes_of_string (UnlockDate m) in
  if 0 <? zlen date
  then Ok (x0a :: encodeVarintLock (uint64 (zlen date)) ++ date ++ buf)
  else Ok buf.

Definition Lock_Marshal (m : Lock) : outcome bytes :=
  buf ← Lock_MarshalToSizedBuffer m;
  sized_buffer (Lock_Size m) buf.

Definition Locks_Size (m : Locks) : Z :=
  foldl (fun n e => let l := Lock_Size e in n + (1 + l + sovLock (uint64 l))) 0 (LockList m).

(** The loop [for iNdEx := len(m.Locks) - 1; iNdEx >= 0; iNdEx--]. *)
Fixpoint Locks_MarshalToSizedBuffer (ls : list Lock) : outcome bytes :=
  match ls with
  | [] => Ok []
  | e :: ls' =>
      buf ← Locks_MarshalToSizedBuffer ls';
      bz ← Lock_MarshalToSizedBuffer e;
      Ok (x0a :: encodeVarintLock (uint64 (zlen bz)) ++ bz ++ buf)
  end.

Definition Locks_Marshal (m : Locks) : outcome bytes :=
  buf ← Locks_MarshalToSizedBuffer (LockList m);
  sized_buffer (Locks_Size m) buf.

(** * Decoding *)

(** A reader: the index [iNdEx] and the bytes from there on. *)
Definition reader : Type := Z * bytes.

(** The varint loop every field starts with. *)
Fixpoint pb_varint (rest : bytes) (pos shift acc : Z) : outcome (Z * reader) :=
  if 64 <=? shift then Err ErrIntOverflowLock else
  match rest with
  | [] => Err EOFErr
  | b :: rest' =>
      let acc := Z.lor acc (uint64 (Z.shiftl (Z.land (byte_to_Z b) 127) shift)) in
      if byte_to_Z b <? 128 then Ok (acc, (pos + 1, rest'))
      else pb_varint rest' (pos + 1) (shift + 7) acc
  end.

Definition read_varint (r : reader) : outcome (Z * reader) :=
  pb_varint r.2 r.1 0 0.

Definition int32 (z : Z) : Z := (z + 2 ^ 31) mod 2 ^ 32 - 2 ^ 31.

(** [dAtA[iNdEx:postIndex]] of a length-delimited field, after the checks on the
    length and the index. *)
Definition read_delimited (r : reader) : outcome (bytes * reader) :=
  '(len, (pos, rest)) ← read_varint r;
  let n := int64 len in
  if n <? 0 then Err ErrInvalidLengthLock else
  let post := int64 (pos + n) in
  if post <? 0 then Err ErrInvalidLengthLock else
  if zlen rest <? n then Err EOFErr else
  Ok (take (Z.to_nat n) rest, (post, drop (Z.to_nat n) rest)).

(** The varint skipped by [skipLock] (wire type 0). *)
Fixpoint skip_varint (rest : bytes) (pos shift : Z) : outcome reader :=
  if 64 <=? shift then Err ErrIntOverflowLock else
  match rest with
  | [] => Err EOFErr
  | b :: rest' =>
      if byte_to_Z b <? 128 then Ok (pos + 1, rest')
      else skip_varint rest' (pos + 1) (shift + 7)
  end.

(** [iNdEx += n] inside [skipLock]: the index may pass the end. *)
Definition advance (r : reader) (n : Z) : reader :=
  (int64 (r.1 + n), drop (Z.to_nat (Z.min n (zlen r.2))) r.2).

(** [skipLock(dAtA)]: the length of one field (groups included).  Each round
    consumes the tag, so the length of the input is enough fuel. *)
Fixpoint skipLock_loop (fuel : nat) (r : reader) (depth : Z) : outcome Z :=
  match r.2 with
  | [] => Err EOFErr
  | _ :: _ =>
    match fuel with
    | O => OutOfFuel
    | S fuel' =>
      '(wire, r1) ← read_varint r;
      let wireType := Z.land wire 7 in
      '(r2, depth) ←
        (if wireType =? 0 then r' ← skip_varint r1.2 r1.1 0; Ok (r', depth)
         else if wireType =? 1 then Ok (advance r1 8, depth)
         else if wireType =? 2 then
           '(len, r') ← read_varint r1;
           let length := int64 len in
           if length <? 0 then Err ErrInvalidLengthLock else Ok (advance r' length, depth)
         else if wireType =? 3 then Ok (r1, depth + 1)
         else if wireType =? 4 then
           if depth =? 0 then Err ErrUnexpectedEndOfGroupLock else Ok (r1, depth - 1)
         else if wireType =? 5 then Ok (advance r1 4, depth)
         else Err (FmtErr "proto: illegal wireType %d"));
      if r2.1 <? 0 then Err ErrInvalidLengthLock
      else if depth =? 0 then Ok r2.1
      else skipLock_loop fuel' r2 depth
    end
  end.

Definition skipLock (dAtA : bytes) : outcome Z :=
  skipLock_loop (length dAtA) (0, dAtA) 0.

(** The [default] branch of both decoders: skip one unknown field. *)
Definition skip_field (pre : reader) : outcome reader :=
  skippy ← skipLock pre.2;
  if (skippy <? 0) || (int64 (pre.1 + skippy) <? 0) then Err ErrInvalidLengthLock else
  if zlen pre.2 <? skippy then Err EOFErr else
  Ok (pre.1 + skippy, drop (Z.to_nat skippy) pre.2).

(** The tag of a field: its number and its wire type, after the checks. *)
Definition read_tag (name : string) (r : reader) : outcome (Z * Z * reader) :=
  '(wire, r1) ← read_varint r;
  let fieldNum := int32 (Z.shiftr wire 3) in
  let wireType := Z.land wire 7 in
  if wireType =? 4 then Err (FmtErr ("proto: " +:+ name +:+ ": wiretype end group for non-group"))
  else if fieldNum <=? 0 then Err (FmtErr ("proto: " +:+ name +:+ ": illegal tag %d (wire type %d)"))
  else Ok (fieldNum, wireType, r1).

Fixpoint Lock_Unmarshal_loop (fuel : nat) (m : Lock) (r : reader) : outcome Lock :=
  match r.2 with
  | [] => Ok m
  | _ :: _ =>
    match fuel with
    | O => OutOfFuel
    | S fuel' =>
      '(fieldNum, wireType, r1) ← read_tag "Lock" r;
      if fieldNum =? 1 then
        if negb (wireType =? 2)
        then Err (FmtErr "proto: wrong wireType = %d for field UnlockDate") else
        '(bz, r2) ← read_delimited r1;
        Lock_Unmarshal_loop fuel' (MkLock (string_of_bytes bz) (LockAmount m)) r2
      else if fieldNum =? 2 then
        if negb (wireType =? 2)
        then Err (FmtErr "proto: wrong wireType = %d for field Amount") else
        '(bz, r2) ← read_delimited r1;
        a ← Int_Unmarshal bz;
        Lock_Unmarshal_loop fuel' (MkLock (UnlockDate m) a) r2
      else
        r2 ← skip_field r;
        Lock_Unmarshal_loop fuel' m r2
    end
  end.

Definition Lock_Unmarshal (dAtA : bytes) : outcome Lock :=
  Lock_Unmarshal_loop (length dAtA) (MkLock EmptyString 0) (0, dAtA).

Fixpoint Locks_Unmarshal_loop (fuel : nat) (m : list Lock) (r : reader) : outcome (list Lock) :=
  match r.2 with
  | [] => Ok m
  | _ :: _ =>
    match fuel with
    | O => OutOfFuel
    | S fuel' =>
      '(fieldNum, wireType, r1) ← read_tag "Locks" r;
      if fieldNum =? 1 then
        if negb (wireType =? 2)
        then Err (FmtErr "proto: wrong wireType = %d for field Locks") else
        '(bz, r2) ← read_delimited r1;
        l ← Lock_Unmarshal bz;
        Locks_Unmarshal_loop fuel' (m ++ [l]) r2
      else
        r2 ← skip_field r;
        Locks_Unmarshal_loop fuel' m r2
    end
  end.

Definition Locks_Unmarshal (dAtA : bytes) : outcome Locks :=
  ls ← Locks_Unmarshal_loop (length dAtA) [] (0, dAtA);
  Ok (MkLocks ls).
End Codec.

(** * Varints *)

(** One round of the decoder's accumulation. *)
Lemma varint_acc acc x shift :
  0 <= shift -> 0 <= acc < 2 ^ shift -> 0 <= x -> x * 2 ^ shift < 2 ^ 64 ->
  Z.lor acc (uint64 (Z.shiftl x shift)) = acc + x * 2 ^ shift.
Proof.
  intros. rewrite Z.shiftl_mul_pow2, uint64_small by nia. by apply lor_shift_add.
Qed.

Lemma pb_varint_loop (n : nat) v rest pos shift acc :
  0 <= v < 2 ^ (7 * (Z.of_nat n + 1)) -> 0 <= shift ->
  shift + 7 * Z.of_nat n < 64 -> v * 2 ^ shift < 2 ^ 64 -> 0 <= acc < 2 ^ shift ->
  pb_varint (varint_loop n v ++ rest) pos shift acc
    = Ok (acc + v * 2 ^ shift, (pos + zlen (varint_loop n v), rest)).
Proof.
  revert v pos shift acc. induction n as [|n IH]; intros v pos shift acc V S0 S1 S2 A.
  - simpl. rewrite (proj2 (Z.leb_gt 64 shift)) by lia.
    rewrite byte_to_of_Z, Z.mod_small by lia. rewrite (proj2 (Z.ltb_lt v 128)) by lia.
    rewrite land_127, Z.mod_small, varint_acc by lia. done.
  - cbn [varint_loop]. destruct (Z.leb_spec 128 v) as [L|L]; cbn [app pb_varint];
      rewrite (proj2 (Z.leb_gt 64 shift)) by lia.
    + rewrite varint_byte. pose proof (Z.mod_pos_bound v 128 ltac:(lia)) as M.
      rewrite (proj2 (Z.ltb_ge _ _)) by lia.
      pose proof (Z.div_mod v 128 ltac:(lia)) as D.
      rewrite land_127, <- (Z.add_mod_idemp_r _ 128), Z.mod_same, Z.add_0_r, Z.mod_mod by lia.
      rewrite Z.shiftr_div_pow2 by lia. change (2 ^ 7) with 128.
      rewrite varint_acc by nia.
      rewrite IH.
      * rewrite Z.pow_add_r by lia. change (2 ^ 7) with 128.
        unfold zlen. cbn [length]. rewrite Nat2Z.inj_succ.
        f_equal. f_equal; [rewrite D at 3; ring|]. f_equal. lia.
      * replace (7 * (Z.of_nat (S n) + 1)) with (7 * (Z.of_nat n + 1) + 7) in V by lia.
        rewrite Z.pow_add_r in V by lia. change (2 ^ 7) with 128 in V.
        split; [apply Z.div_pos; lia|apply Z.div_lt_upper_bound; lia].
      * lia.
      * lia.
      * rewrite Z.pow_add_r by lia. change (2 ^ 7) with 128. nia.
      * rewrite Z.pow_add_r by lia. change (2 ^ 7) with 128. nia.
    + rewrite byte_to_of_Z, Z.mod_small by lia. rewrite (proj2 (Z.ltb_lt v 128)) by lia.
      rewrite land_127, Z.mod_small, varint_acc by lia. done.
Qed.

Lemma read_varint_encode v rest pos :
  0 <= v < 2 ^ 64 ->
  read_varint (pos, encodeVarintLock v ++ rest)
    = Ok (v, (pos + zlen (encodeVarintLock v), rest)).
Proof.
  intros. change (pb_varint (varint_loop 9 v ++ rest) pos 0 0
    = Ok (v, (pos + zlen (varint_loop 9 v), rest))).
  assert (2 ^ 64 < 2 ^ (7 * (Z.of_nat 9 + 1))) by (by vm_compute).
  rewrite pb_varint_loop; rewrite ?Z.pow_0_r, ?Z.mul_1_r; try lia. done.
Qed.

Lemma sovLock_small v : 0 <= v < 128 -> sovLock v = 1.
Proof.
  intros. unfold sovLock. rewrite Z.log2_lor by lia.
  assert (Z.log2 v <= 6) by (destruct (Z.eq_dec v 0) as [->|]; [simpl; lia|];
    apply Z.lt_succ_r, Z.log2_lt_pow2; simpl; lia).
  pose proof (Z.log2_nonneg v). change (Z.log2 1) with 0.
  symmetry. apply (Z.div_unique _ _ _ (Z.max (Z.log2 v) 0)); lia.
Qed.

Lemma sovLock_step v : 128 <= v -> sovLock v = 1 + sovLock (Z.shiftr v 7).
Proof.
  intros. unfold sovLock.
  assert (0 < Z.shiftr v 7).
  { rewrite Z.shiftr_div_pow2 by lia. apply Z.div_str_pos. simpl. lia. }
  rewrite !Z.log2_lor by lia. rewrite Z.log2_shiftr by lia. change (Z.log2 1) with 0.
  assert (7 <= Z.log2 v) by (apply Z.log2_le_pow2; simpl; lia).
  rewrite <- Z.div_add_l by lia. f_equal. lia.
Qed.

Lemma varint_loop_length (n : nat) v :
  0 <= v < 2 ^ (7 * (Z.of_nat n + 1)) -> zlen (varint_loop n v) = sovLock v.
Proof.
  revert v. induction n as [|n IH]; intros v V.
  - rewrite sovLock_small by (simpl in V; lia). done.
  - cbn [varint_loop]. destruct (Z.leb_spec 128 v) as [L|L].
    + assert (0 <= Z.shiftr v 7 < 2 ^ (7 * (Z.of_nat n + 1))).
      { replace (7 * (Z.of_nat (S n) + 1)) with (7 * (Z.of_nat n + 1) + 7) in V by lia.
        rewrite Z.pow_add_r in V by lia. rewrite Z.shiftr_div_pow2 by lia.
        split; [apply Z.div_pos; lia|apply Z.div_lt_upper_bound; lia]. }
      rewrite sovLock_step, <- IH by lia.
      unfold zlen. cbn [length]. lia.
    + by rewrite sovLock_small by lia.
Qed.

Lemma encodeVarintLock_length v :
  0 <= v < 2 ^ 64 -> zlen (encodeVarintLock v) = sovLock v.
Proof.
  intros. apply varint_loop_length.
  assert (2 ^ 64 < 2 ^ (7 * (Z.of_nat 9 + 1))) by (by vm_compute). lia.
Qed.

(** * The codec round trip *)

Lemma zlen_nonneg {A} (l : list A) : 0 <= zlen l.
Proof. unfold zlen. lia. Qed.
Lemma zlen_app {A} (l k : list A) : zlen (l ++ k) = zlen l + zlen k.
Proof. unfold zlen. rewrite length_app. lia. Qed.
Lemma zlen_cons {A} (x : A) l : zlen (x :: l) = 1 + zlen l.
Proof. unfold zlen. cbn [length]. lia. Qed.

Lemma sized_buffer_exact buf : sized_buffer (zlen buf) buf = Ok buf.
Proof.
  unfold sized_buffer. rewrite Z.ltb_irrefl, Z.sub_diag. simpl.
  by rewrite firstn_all.
Qed.

Lemma sovLock_range v : 0 <= v < 2 ^ 64 -> 1 <= sovLock v <= 10.
Proof.
  intros. rewrite <- encodeVarintLock_length by lia.
  unfold encodeVarintLock. unfold zlen.
  assert (forall n v, 1 <= Z.of_nat (length (varint_loop n v)) <= Z.of_nat n + 1) as L.
  { induction n as [|n IH]; intros w; cbn [varint_loop]; [simpl; lia|].
    case_match; cbn [length]; [specialize (IH (Z.shiftr w 7)); lia|simpl; lia]. }
  specialize (L 9%nat v). lia.
Qed.

(** A length-delimited field reads back what was written. *)
Lemma read_delimited_encode pos bz rest :
  0 <= pos < 2 ^ 61 -> zlen bz < 2 ^ 61 ->
  read_delimited (pos, encodeVarintLock (uint64 (zlen bz)) ++ bz ++ rest)
    = Ok (bz, (pos + zlen (encodeVarintLock (uint64 (zlen bz))) + zlen bz, rest)).
Proof.
  intros P L. pose proof (zlen_nonneg bz).
  unfold read_delimited. rewrite uint64_small by lia.
  rewrite read_varint_encode by lia. cbn [mbind outcome_bind].
  pose proof (sovLock_range (zlen bz) ltac:(lia)).
  rewrite <- encodeVarintLock_length in * by lia.
  rewrite !int64_small by (rewrite ?int64_small by lia; lia).
  rewrite (proj2 (Z.ltb_ge (zlen bz) 0)), (proj2 (Z.ltb_ge (_ + _) 0)) by lia.
  rewrite zlen_app. pose proof (zlen_nonneg rest).
  rewrite (proj2 (Z.ltb_ge (_ + _) _)) by lia.
  replace (Z.to_nat (zlen bz)) with (length bz) by (unfold zlen; lia).
  by rewrite take_app_length, drop_app_length.
Qed.

Section RoundTrip.
Context `{SdkMathLaws}.

(** The locks the codec is exact on: an amount in range and a date string of
    less than 4 GiB. *)
Definition lock_wf (l : Lock) : Prop :=
  int_ok (LockAmount l) = true /\ zlen (bytes_of_string (UnlockDate l)) < 2 ^ 32.

Lemma Lock_Marshal_shape l :
  lock_wf l ->
  exists amt, Int_Marshal (LockAmount l) = Ok amt /\ Int_Unmarshal amt = Ok (LockAmount l) /\
    0 < zlen amt < 128 /\
    Lock_MarshalToSizedBuffer l
      = Ok ((if 0 <? zlen (bytes_of_string (UnlockDate l))
             then x0a :: encodeVarintLock (uint64 (zlen (bytes_of_string (UnlockDate l))))
                    ++ bytes_of_string (UnlockDate l)
             else []) ++ x12 :: encodeVarintLock (uint64 (zlen amt)) ++ amt).
Proof.
  intros [W1 W2]. destruct (Int_Marshal_spec _ W1) as (amt & M & U & L).
  exists amt. repeat split; try done; try lia.
  unfold Lock_MarshalToSizedBuffer, Int_Size. rewrite M. cbn [mbind outcome_bind].
  case_match; [|done]. by rewrite <- app_comm_cons, <- app_assoc.
Qed.

Lemma Lock_Marshal_size l buf :
  lock_wf l -> Lock_MarshalToSizedBuffer l = Ok buf ->
  zlen buf = Lock_Size l /\ 3 <= zlen buf < 2 ^ 33.
Proof.
  intros W E. destruct (Lock_Marshal_shape l W) as (amt & M & _ & L & E').
  rewrite E' in E. injection E as <-. destruct W as [_ W].
  unfold Lock_Size, Int_Size. rewrite M.
  pose proof (zlen_nonneg (bytes_of_string (UnlockDate l))) as Z0.
  pose proof (sovLock_range (zlen amt) ltac:(lia)).
  pose proof (sovLock_range (zlen (bytes_of_string (UnlockDate l))) ltac:(lia)).
  rewrite !uint64_small by lia.
  destruct (Z.ltb_spec 0 (zlen (bytes_of_string (UnlockDate l))));
    rewrite ?zlen_app, ?zlen_cons, ?zlen_app, !encodeVarintLock_length by lia;
    change (@zlen byte []) with 0; lia.
Qed.

Lemma Lock_Marshal_buffer l :
  lock_wf l -> exists buf, Lock_MarshalToSizedBuffer l = Ok buf /\ Lock_Marshal l = Ok buf.
Proof.
  intros W. destruct (Lock_Marshal_shape l W) as (amt & _ & _ & _ & E).
  eexists. split; [done|]. unfold Lock_Marshal. rewrite E. cbn [mbind outcome_bind].
  rewrite <- (proj1 (Lock_Marshal_size l _ W E)). apply sized_buffer_exact.
Qed.

Lemma read_tag_1 name pos rest :
  read_tag name (pos, x0a :: rest) = Ok (1, 2, (pos + 1, rest)).
Proof. reflexivity. Qed.
Lemma read_tag_2 name pos rest :
  read_tag name (pos, x12 :: rest) = Ok (2, 2, (pos + 1, rest)).
Proof. reflexivity. Qed.

Opaque encodeVarintLock read_delimited read_tag.

Lemma Lock_Unmarshal_marshal l buf :
  lock_wf l -> Lock_MarshalToSizedBuffer l = Ok buf -> Lock_Unmarshal buf = Ok l.
Proof.
  intros W E. destruct (Lock_Marshal_size _ _ W E) as [_ L].
  destruct (Lock_Marshal_shape l W) as (amt & _ & U & LA & E').
  rewrite E in E'. injection E' as E'.
  unfold Lock_Unmarshal.
  assert (exists n, length buf = S (S n)) as [n ->]
    by (unfold zlen in L; exists (length buf - 2)%nat; lia).
  pose proof (zlen_nonneg (bytes_of_string (UnlockDate l))) as Z0.
  destruct W as [_ W]. destruct l as [date a]. cbn [UnlockDate LockAmount] in *.
  assert (P : forall d pos (n : nat), 0 <= pos < 2 ^ 60 ->
    Lock_Unmarshal_loop (S n) (MkLock d 0) (pos, x12 :: encodeVarintLock (uint64 (zlen amt)) ++ amt)
      = Ok (MkLock d a)).
  { intros d pos k Hp. cbn [Lock_Unmarshal_loop snd]. rewrite read_tag_2.
    cbn [mbind outcome_bind Z.eqb Pos.eqb negb UnlockDate].
    rewrite <- (app_nil_r amt) at 2.
    rewrite read_delimited_encode by lia. cbn [mbind outcome_bind].
    rewrite U. cbn [mbind outcome_bind]. by destruct k. }
  rewrite E'. destruct (Z.ltb_spec 0 (zlen (bytes_of_string date))).
  - cbn [app]. cbn [Lock_Unmarshal_loop snd]. rewrite read_tag_1.
    cbn [mbind outcome_bind Z.eqb Pos.eqb negb LockAmount].
    rewrite <- app_assoc, read_delimited_encode by lia. cbn [mbind outcome_bind].
    rewrite string_of_bytes_of_string. apply P.
    pose proof (sovLock_range (zlen (bytes_of_string date)) ltac:(lia)).
    rewrite uint64_small, encodeVarintLock_length by lia. lia.
  - assert (date = EmptyString) as ->.
    { rewrite <- (string_of_bytes_of_string date).
      destruct (bytes_of_string date); [done|]. rewrite zlen_cons in *.
      pose proof (zlen_nonneg l). lia. }
    apply P. lia.
Qed.

Lemma Locks_Marshal_size ls buf :
  Forall lock_wf ls -> Locks_MarshalToSizedBuffer ls = Ok buf ->
  zlen buf = Locks_Size (MkLocks ls) /\ zlen buf >= 2 * zlen ls.
Proof.
  unfold Locks_Size. cbn [LockList].
  assert (A : forall ls n, foldl (fun n e => n + (1 + Lock_Size e + sovLock (uint64 (Lock_Size e)))) n ls
    = n + foldl (fun n e => n + (1 + Lock_Size e + sovLock (uint64 (Lock_Size e)))) 0 ls).
  { clear. induction ls as [|l ls IH]; intros n; cbn [foldl]; [lia|]. rewrite IH.
    rewrite (IH (0 + _)). lia. }
  revert buf. induction ls as [|l ls IH]; intros buf W E.
  { injection E as <-. done. }
  apply Forall_cons in W as [Wl W]. cbn [Locks_MarshalToSizedBuffer] in E. ok_inv E.
  destruct (IH _ W E0) as [IH1 IH2].
  destruct (Lock_Marshal_size _ _ Wl E1) as [L1 L2].
  cbn [foldl]. rewrite A, <- IH1, <- L1.
  pose proof (sovLock_range (zlen v0) ltac:(lia)).
  rewrite uint64_small in * by lia.
  rewrite !zlen_cons, !zlen_app, encodeVarintLock_length by lia. lia.
Qed.
Lemma Locks_Unmarshal_loop_marshal ls buf acc pos (fuel : nat) :
  Forall lock_wf ls -> Locks_MarshalToSizedBuffer ls = Ok buf ->
  0 <= pos -> pos + zlen buf < 2 ^ 60 -> (length ls <= fuel)%nat ->
  Locks_Unmarshal_loop fuel acc (pos, buf) = Ok (acc ++ ls).
Proof.
  revert buf acc pos fuel. induction ls as [|l ls IH]; intros buf acc pos fuel W E P B F.
  { injection E as <-. rewrite app_nil_r. by destruct fuel. }
  apply Forall_cons in W as [Wl W]. cbn [Locks_MarshalToSizedBuffer] in E. ok_inv E.
  rename v into buf, v0 into bz.
  destruct (Lock_Marshal_size _ _ Wl E1) as [_ L].
  rewrite zlen_cons, !zlen_app in B. pose proof (zlen_nonneg buf).
  pose proof (sovLock_range (zlen bz) ltac:(lia)) as Sv.
  rewrite uint64_small, encodeVarintLock_length in B by lia.
  destruct fuel as [|fuel]; [simpl in F; lia|].
  cbn [Locks_Unmarshal_loop snd]. rewrite read_tag_1.
  cbn [mbind outcome_bind Z.eqb Pos.eqb negb].
  rewrite read_delimited_encode by lia. cbn [mbind outcome_bind].
  rewrite (Lock_Unmarshal_marshal _ _ Wl E1). cbn [mbind outcome_bind].
  rewrite IH; [by rewrite <- app_assoc|done..| | |].
  - pose proof (zlen_nonneg (encodeVarintLock (uint64 (zlen bz)))). lia.
  - rewrite uint64_small, encodeVarintLock_length by lia. lia.
  - simpl in F. lia.
Qed.

(** The stored list of locks of an account reads back as it was written. *)
Lemma Locks_roundtrip ls :
  Forall lock_wf ls -> Locks_Size (MkLocks ls) < 2 ^ 60 ->
  exists buf, Locks_Marshal (MkLocks ls) = Ok buf /\
              Locks_Unmarshal buf = Ok (MkLocks ls) /\
              (ls <> [] -> buf <> []).
Proof.
  intros W S.
  assert (exists buf, Locks_MarshalToSizedBuffer ls = Ok buf) as [buf E].
  { clear S. induction W as [|l ls Wl W [buf IH]]; [by eexists|].
    cbn [Locks_MarshalToSizedBuffer]. rewrite IH.
    destruct (Lock_Marshal_buffer l Wl) as (bz & -> & _). by eexists. }
  destruct (Locks_Marshal_size _ _ W E) as [L1 L2].
  exists buf. unfold Locks_Marshal, Locks_Unmarshal. cbn [LockList]. rewrite E.
  cbn [mbind outcome_bind]. rewrite <- L1, sized_buffer_exact. split; [done|].
  rewrite (Locks_Unmarshal_loop_marshal ls) by (try done; unfold zlen in *; lia).
  split; [done|]. intros N ->. destruct ls; [done|].
  rewrite zlen_cons in L2. change (@zlen byte []) with 0 in L2. pose proof (zlen_nonneg ls). lia.
Qed.
End RoundTrip.
Transparent encodeVarintLock read_delimited read_tag.

(** * The decoders terminate on every input *)

Section Totality.
Context `{SdkMath} `{!SdkMathLaws}.

(** The computation ends with a value or an error. *)
Definition returns {A} (m : outcome A) : Prop :=
  (exists a, m = Ok a) \/ (exists e, m = Err e).

Lemma returns_Ok {A} (a : A) : returns (Ok a).
Proof. left. by exists a. Qed.
Lemma returns_Err {A} e : returns (@Err A e).
Proof. right. by exists e. Qed.
Hint Resolve returns_Ok returns_Err : core.

Lemma returns_bind {A B} (m : outcome A) (f : A -> outcome B) :
  returns m -> (forall a, m = Ok a -> returns (f a)) -> returns (m ≫= f).
Proof. intros [[a ->]|[e ->]] F; [by apply F|apply returns_Err]. Qed.

(** A reader that does not pass the end of the data. *)
Definition fits (r : reader) : Prop := 0 <= r.1 /\ r.1 + zlen r.2 < 2 ^ 63.

Lemma pb_varint_reads rest pos shift acc v pos' rest' :
  pb_varint rest pos shift acc = Ok (v, (pos', rest')) ->
  pos' + zlen rest' = pos + zlen rest /\ pos < pos'.
Proof.
  revert pos shift acc. induction rest as [|b rest IH]; intros pos shift acc E;
    cbn [pb_varint] in E; case_match; try done.
  rewrite zlen_cons. case_match.
  - injection E as _ <- <-. lia.
  - apply IH in E. lia.
Qed.

Lemma pb_varint_returns rest pos shift acc : returns (pb_varint rest pos shift acc).
Proof.
  revert pos shift acc. induction rest as [|b rest IH]; intros; cbn [pb_varint];
    repeat case_match; auto.
Qed.

Lemma read_varint_returns r : returns (read_varint r).
Proof. apply pb_varint_returns. Qed.

Lemma skip_varint_reads rest pos shift pos' rest' :
  skip_varint rest pos shift = Ok (pos', rest') ->
  pos' + zlen rest' = pos + zlen rest /\ pos < pos'.
Proof.
  revert pos shift. induction rest as [|b rest IH]; intros pos shift E;
    cbn [skip_varint] in E; case_match; try done.
  rewrite zlen_cons. case_match.
  - injection E as <- <-. lia.
  - apply IH in E. lia.
Qed.

Lemma skip_varint_returns rest pos shift : returns (skip_varint rest pos shift).
Proof.
  revert pos shift. induction rest as [|b rest IH]; intros; cbn [skip_varint];
    repeat case_match; auto.
Qed.

Lemma int64_add a b :
  0 <= a < 2 ^ 63 -> 0 <= b < 2 ^ 63 -> int64 (a + b) = a + b \/ int64 (a + b) < 0.
Proof.
  intros A B. destruct (Z.ltb_spec (a + b) (2 ^ 63)); [left; apply int64_small; lia|right].
  unfold int64. rewrite <- (Z.mod_add _ (-1)) by lia. rewrite Z.mod_small by lia. lia.
Qed.

(** Moving forward inside [skipLock]. *)
Lemma advance_fits r n :
  fits r -> 0 <= n < 2 ^ 63 -> 0 <= (advance r n).1 ->
  r.1 <= (advance r n).1 /\ (length (advance r n).2 <= length r.2)%nat /\
  ((advance r n).2 = [] \/ fits (advance r n)).
Proof.
  destruct r as [pos rest]. unfold fits, advance. cbn [fst snd]. intros [P L] N G.
  pose proof (zlen_nonneg rest). destruct (int64_add pos n ltac:(lia) N) as [E|E]; [|lia].
  rewrite E in *. rewrite length_drop. split; [lia|]. split; [lia|].
  destruct (Z.leb_spec (zlen rest) n).
  - left. apply drop_ge. unfold zlen in *. lia.
  - right. split; [lia|]. unfold zlen in *. rewrite length_drop. lia.
Qed.

(** What one round of [skipLock] hands on. *)
Definition skips (r r' : reader) : Prop :=
  0 <= r'.1 -> r.1 < r'.1 /\ (length r'.2 < length r.2)%nat /\ (r'.2 = [] \/ fits r').

Lemma skips_varint r v r1 :
  fits r -> read_varint r = Ok (v, r1) -> fits r1 /\ skips r r1.
Proof.
  destruct r as [pos rest], r1 as [pos1 rest1]. unfold skips, fits, read_varint. cbn [fst snd].
  intros [P L] E. apply pb_varint_reads in E as [E1 E2]. unfold zlen in *.
  split; [lia|]. intros _. split; [lia|]. split; [lia|]. right. lia.
Qed.

Lemma skips_trans r1 r2 r3 :
  fits r2 -> skips r1 r2 ->
  (0 <= r3.1 -> r2.1 <= r3.1 /\ (length r3.2 <= length r2.2)%nat /\ (r3.2 = [] \/ fits r3)) ->
  skips r1 r3.
Proof.
  intros F S T P. destruct (S (proj1 F)) as (S1 & S2 & _). destruct (T P) as (T1 & T2 & T3).
  split; [lia|]. split; [lia|done].
Qed.

(** The switch of [skipLock]: the reader behind the value, and the depth. *)
Definition skip_round (r1 : reader) (wireType depth : Z) : outcome (reader * Z) :=
  if wireType =? 0 then r' ← skip_varint r1.2 r1.1 0; Ok (r', depth)
  else if wireType =? 1 then Ok (advance r1 8, depth)
  else if wireType =? 2 then
    '(len, r') ← read_varint r1;
    let length := int64 len in
    if length <? 0 then Err ErrInvalidLengthLock else Ok (advance r' length, depth)
  else if wireType =? 3 then Ok (r1, depth + 1)
  else if wireType =? 4 then
    if depth =? 0 then Err ErrUnexpectedEndOfGroupLock else Ok (r1, depth - 1)
  else if wireType =? 5 then Ok (advance r1 4, depth)
  else Err (FmtErr "proto: illegal wireType %d").

Lemma skip_round_returns r1 t depth : returns (skip_round r1 t depth).
Proof.
  unfold skip_round. repeat case_match; auto.
  - apply returns_bind; [apply skip_varint_returns|auto].
  - apply returns_bind; [apply pb_varint_returns|]. intros [len r'] _. case_match; auto.
Qed.

Lemma skip_round_skips r r1 t depth r2 depth' :
  fits r1 -> skips r r1 -> skip_round r1 t depth = Ok (r2, depth') -> skips r r2.
Proof.
  intros F S E. eapply skips_trans; [exact F|exact S|].
  unfold skip_round in E. repeat case_match; simplify_eq/=.
  - destruct r1 as [pos rest]. cbn [fst snd] in *.
    destruct (skip_varint rest pos 0) as [[pos' rest']| | |] eqn:V; simplify_eq/=.
    apply skip_varint_reads in V as [V1 V2]. intros _. unfold fits, zlen in *. cbn [fst snd] in *.
    split; [lia|]. split; [lia|]. right. lia.
  - intros P. by apply advance_fits.
  - destruct (read_varint r1) as [[len r']| | |] eqn:V; simplify_eq/=.
    case_match; simplify_eq. destruct (skips_varint _ _ _ F V) as [F' S'].
    intros P. destruct (S' (proj1 F')) as (S1 & S2 & _).
    pose proof (int64_range len). destruct (advance_fits r' (int64 len) F') as (A1 & A2 & A3); [lia|done|].
    split; [lia|]. split; [lia|done].
  - intros _. split; [lia|]. split; [lia|by right].
  - intros _. split; [lia|]. split; [lia|by right].
  - intros P. by apply advance_fits.
Qed.

Lemma skipLock_loop_total fuel r depth :
  r.2 = [] \/ fits r -> 0 <= r.1 -> (length r.2 <= fuel)%nat ->
  returns (skipLock_loop fuel r depth) /\
  (forall n, skipLock_loop fuel r depth = Ok n -> r.1 < n).
Proof.
  revert r depth. induction fuel as [|fuel IH]; intros r depth F P L.
  { destruct r as [pos []]; [|simpl in L; lia]. split; [apply returns_Err|done]. }
  cbn [skipLock_loop]. destruct (r.2) as [|b rest] eqn:R; [split; [auto|done]|].
  destruct F as [F|F]; [done|]. rewrite <- R in *. clear R b rest.
  destruct (read_varint_returns r) as [[[wire r1] V]|[e V]]; rewrite V; cbn [mbind outcome_bind]; [|split; [auto|done]].
  destruct (skips_varint r wire r1 F V) as [F1 S1].
  change (if Z.land wire 7 =? 0 then _ else _) with (skip_round r1 (Z.land wire 7) depth).
  destruct (skip_round_returns r1 (Z.land wire 7) depth) as [[[r2 d2] R]|[e R]];
    rewrite R; cbn [mbind outcome_bind]; [|split; [auto|done]].
  pose proof (skip_round_skips r r1 _ _ _ _ F1 S1 R) as S2.
  destruct (Z.ltb_spec r2.1 0); [split; [auto|done]|].
  destruct (S2 ltac:(lia)) as (A & B & C).
  case_match; [split; [auto|by intros n [= <-]]|].
  destruct (IH r2 d2 C ltac:(lia) ltac:(lia)) as [I1 I2]. split; [done|].
  intros n E. specialize (I2 n E). lia.
Qed.

Lemma skip_field_total r :
  r.2 <> [] -> zlen r.2 < 2 ^ 63 ->
  returns (skip_field r) /\
  (forall r', skip_field r = Ok r' -> (length r'.2 < length r.2)%nat).
Proof.
  intros N L. unfold skip_field, skipLock.
  destruct (skipLock_loop_total (length r.2) (0, r.2) 0) as [T1 T2];
    [right; unfold fits; cbn [fst snd]; lia|simpl; lia|done|].
  destruct T1 as [[n E]|[e E]]; rewrite E; cbn [mbind outcome_bind]; [|split; [auto|done]].
  apply T2 in E. cbn [fst] in E. case_match; [split; [auto|done]|].
  destruct (Z.ltb_spec (zlen r.2) n); [split; [auto|done]|].
  split; [auto|]. intros r' [= <-]. cbn [snd]. rewrite length_drop. unfold zlen in *. lia.
Qed.

Lemma read_tag_total name r :
  returns (read_tag name r) /\
  (forall num t r', read_tag name r = Ok (num, t, r') -> (length r'.2 < length r.2)%nat).
Proof.
  unfold read_tag, read_varint. destruct (pb_varint_returns r.2 r.1 0 0) as [[[w [pos' rest']] V]|[e V]];
    rewrite V; cbn [mbind outcome_bind]; [|split; [auto|done]].
  apply pb_varint_reads in V as [V1 V2]. split; [repeat case_match; auto|].
  intros num t r' E. repeat case_match; simplify_eq. cbn [snd]. unfold zlen in *. lia.
Qed.

Lemma read_delimited_total r :
  returns (read_delimited r) /\
  (forall bz r', read_delimited r = Ok (bz, r') ->
     (length r'.2 < length r.2)%nat /\ (length bz <= length r.2)%nat).
Proof.
  unfold read_delimited, read_varint.
  destruct (pb_varint_returns r.2 r.1 0 0) as [[[len [pos' rest']] V]|[e V]];
    rewrite V; cbn [mbind outcome_bind]; [|split; [auto|done]].
  apply pb_varint_reads in V as [V1 V2]. split; [repeat case_match; auto|].
  intros bz r' E. repeat case_match; simplify_eq. cbn [snd]. rewrite length_drop, length_take.
  unfold zlen in *. lia.
Qed.

Lemma Lock_Unmarshal_loop_total fuel m r :
  zlen r.2 < 2 ^ 63 -> (length r.2 <= fuel)%nat -> returns (Lock_Unmarshal_loop fuel m r).
Proof.
  revert m r. induction fuel as [|fuel IH]; intros m r B L.
  { destruct r as [pos []]; [apply returns_Ok|simpl in L; lia]. }
  cbn [Lock_Unmarshal_loop]. destruct (r.2) as [|b rest] eqn:R; [auto|].
  rewrite <- R in *. assert (r.2 <> []) as N by congruence. clear R b rest.
  destruct (read_tag_total "Lock" r) as [T1 T2]. apply returns_bind; [done|].
  intros [[num t] r1] E. apply T2 in E. destruct (read_delimited_total r1) as [D1 D2].
  destruct (skip_field_total r N B) as [K1 K2]. unfold zlen in *.
  case_match; [|case_match]; repeat (case_match; [auto|]).
  - apply returns_bind; [done|]. intros [bz r2] E2. apply D2 in E2. apply IH; lia.
  - apply returns_bind; [done|]. intros [bz r2] E2. apply D2 in E2.
    apply returns_bind; [apply Int_Unmarshal_returns|]. intros a _. apply IH; lia.
  - apply returns_bind; [done|]. intros r2 E2. apply K2 in E2. apply IH; lia.
Qed.

Lemma Locks_Unmarshal_loop_total fuel m r :
  zlen r.2 < 2 ^ 63 -> (length r.2 <= fuel)%nat -> returns (Locks_Unmarshal_loop fuel m r).
Proof.
  revert m r. induction fuel as [|fuel IH]; intros m r B L.
  { destruct r as [pos []]; [apply returns_Ok|simpl in L; lia]. }
  cbn [Locks_Unmarshal_loop]. destruct (r.2) as [|b rest] eqn:R; [auto|].
  rewrite <- R in *. assert (r.2 <> []) as N by congruence. clear R b rest.
  destruct (read_tag_total "Locks" r) as [T1 T2]. apply returns_bind; [done|].
  intros [[num t] r1] E. apply T2 in E. destruct (read_delimited_total r1) as [D1 D2].
  destruct (skip_field_total r N B) as [K1 K2]. unfold zlen in *.
  case_match; repeat (case_match; [auto|]).
  - apply returns_bind; [done|]. intros [bz r2] E2. apply D2 in E2.
    apply returns_bind; [apply Lock_Unmarshal_loop_total; unfold zlen; simpl; lia|].
    intros l _. apply IH; lia.
  - apply returns_bind; [done|]. intros r2 E2. apply K2 in E2. apply IH; lia.
Qed.

(** The decoder of stored locks ends on every byte string: it returns a list or
    an error, whatever unknown fields, groups or lengths the bytes hold. *)
Theorem Locks_Unmarshal_total dAtA : zlen dAtA < 2 ^ 63 -> returns (Locks_Unmarshal dAtA).
Proof.
  intros B. unfold Locks_Unmarshal. apply returns_bind; [|auto].
  by apply Locks_Unmarshal_loop_total.
Qed.

(** C25 The list of locks of an account reads back as it was written. *)
Theorem Locks_codec_roundtrip ls :
  Forall lock_wf ls -> Locks_Size (MkLocks ls) < 2 ^ 60 ->
  exists buf, Locks_Marshal (MkLocks ls) = Ok buf /\ Locks_Unmarshal buf = Ok (MkLocks ls).
Proof. intros W S. destruct (Locks_roundtrip ls W S) as (buf & M & U & _). by exists buf. Qed.
End Totality.
