(* ===== verification/LockStore.v ===== *)
(** The lockup module's two indexes: x/lockup/keeper/locks_by_address_store.go
    (all locks of an account under one key) and
    x/lockup/keeper/locks_by_date_store.go (the expiration queue, one key per
    unlock time and account), with x/lockup/types/keys.go and helpers.go. *)

From stdpp Require Import base list strings gmap sorting.
From Stdlib Require Import ZArith Lia.
From Stdlib.Init Require Import Byte.
From S2P Require Import Prelude GoTime Sdk LockPb.

Local Open Scope Z_scope.

(** * Keys and errors *)

Definition LocksByDateKey : bytes := bytes_of_string "locks_by_date".
Definition LocksByAddressKey : bytes := bytes_of_string "locks_by_address".
Definition TotalLockedKey : bytes := bytes_of_string "total_locked".

(** x/lockup/types/errors.go. *)
Definition ErrInvalidSigner : string -> error := LockupErr 1100.
Definition ErrInvalidAccount : string -> error := LockupErr 1101.
Definition ErrInsufficientDelegations : string -> error := LockupErr 1102.
Definition ErrLockupNotFound : string -> error := LockupErr 1103.
Definition ErrInvalidDate : string -> error := LockupErr 1104.
Definition ErrInvalidAmount : string -> error := LockupErr 1105.

(** [binary.BigEndian.PutUint64] and [Uint64]. *)
Fixpoint be_bytes (n : nat) (v : Z) : bytes :=
  match n with
  | O => []
  | S n' => be_bytes n' (v / 256) ++ [byte_of_Z v]
  end.
Definition PutUint64 (v : Z) : bytes := be_bytes 8 v.
Definition Uint64 (bz : bytes) : Z := foldl (fun a b => a * 256 + byte_to_Z b) 0 bz.

Definition GetLocksByAddressKey (addr : bytes) : bytes := LocksByAddressKey ++ addr.

Definition GetLockExpirationKey (unlockTime : Time) (addr : bytes) : bytes :=
  (LocksByDateKey ++ PutUint64 (uint64 (Unix unlockTime))) ++ addr.

(** x/lockup/types/helpers.go. *)
Definition IsLocked (currentDate : Time) (unlockDate : string) : bool :=
  match ParseDateOnly unlockDate with
  | None => false
  | Some unlockTime => Before currentDate unlockTime
  end.

(** The insertion loop of [SetLockByAddress]: before the first lock with a later
    date, or at the end. *)
Fixpoint insert_by_date (lock : Lock) (ls : list Lock) : list Lock :=
  match ls with
  | [] => [lock]
  | e :: ls' =>
      if String.ltb (UnlockDate lock) (UnlockDate e) then lock :: e :: ls'
      else e :: insert_by_date lock ls'
  end.

(** The search loop of [GetLockByAddressAndDate]. *)
Fixpoint find_by_date (d : string) (ls : list Lock) (idx : Z) : option (Lock * Z) :=
  match ls with
  | [] => None
  | l :: ls' => if String.eqb (UnlockDate l) d then Some (l, idx) else find_by_date d ls' (idx + 1)
  end.

(** * Operations *)

Section Store.
Context `{SdkMath} {S : Type} `{KVStore S}.

(** ** Locks by address *)

Definition GetLocksByAddress (s : S) (addr : bytes) : outcome (list Lock) :=
  let key := GetLocksByAddressKey addr in
  bz ← kv_Get s key;
  match bz with
  | None => Ok []
  | Some bz => locksList ← Locks_Unmarshal bz; Ok (LockList locksList)
  end.

Fixpoint sum_locked (blockDay : Time) (ls : list Lock) (totalLocked : Z) : outcome Z :=
  match ls with
  | [] => Ok totalLocked
  | lock :: ls' =>
      if IsLocked blockDay (UnlockDate lock)
      then t ← Int_Add totalLocked (LockAmount lock); sum_locked blockDay ls' t
      else sum_locked blockDay ls' totalLocked
  end.

Definition GetLockedAmountByAddress (ctx : Ctx) (s : S) (addr : bytes) : outcome Z :=
  locks ← GetLocksByAddress s addr;
  let blockDay := midnight (BlockTime ctx) in
  sum_locked blockDay locks 0.

Definition SetLockByAddress (s : S) (addr : bytes) (lock : Lock) : outcome S :=
  let key := GetLocksByAddressKey addr in
  bz ← kv_Get s key;
  locksList ← match bz with
              | Some bz => Locks_Unmarshal bz
              | None => Ok (MkLocks [])
              end;
  bz ← Locks_Marshal (MkLocks (insert_by_date lock (LockList locksList)));
  kv_Set s key bz.

Definition SetLocksByAddress (s : S) (addr : bytes) (locks : list Lock) : outcome S :=
  let key := GetLocksByAddressKey addr in
  if zlen locks =? 0 then kv_Delete s key else
  bz ← Locks_Marshal (MkLocks locks);
  kv_Set s key bz.

(** The lock, its index and whether it was found; a failed read is "not found". *)
Definition GetLockByAddressAndDate (s : S) (addr : bytes) (unlockDate : string)
    : outcome (option (Lock * Z)) :=
  catch (GetLocksByAddress s addr)
    (fun locks => Ok (find_by_date unlockDate locks 0))
    (fun _ => Ok None).

Definition DeleteLocksByAddress (s : S) (addr : bytes) : outcome S :=
  kv_Delete s (GetLocksByAddressKey addr).

Definition DeleteLockByAddressAndIndex (s : S) (addr : bytes) (index : Z) : outcome S :=
  locks ← GetLocksByAddress s addr;
  if (index <? 0) || (zlen locks <=? index)
  then Err (SdkErr ErrInvalidRequest "lock doesn't exist at index %d") else
  SetLocksByAddress s addr (take (Z.to_nat index) locks ++ drop (Z.to_nat (index + 1)) locks).

Definition UpdateLockByAddressAndIndex (s : S) (addr : bytes) (index : Z) (lock : Lock)
    : outcome S :=
  locks ← GetLocksByAddress s addr;
  if (index <? 0) || (zlen locks <=? index)
  then Err (SdkErr ErrInvalidRequest "lock doesn't exist at index %d") else
  SetLocksByAddress s addr (<[Z.to_nat index := lock]> locks).

(** ** Locks by date: the expiration queue *)

Definition GetTotalLocked (s : S) : outcome Z :=
  bz ← kv_Get s TotalLockedKey;
  match bz with
  | None => Ok 0
  | Some bz => Int_Unmarshal bz
  end.

Definition AddToExpirationQueue (s : S) (unlockTime : Time) (addr : bytes) (amount : Z)
    : outcome S :=
  let key := GetLockExpirationKey unlockTime addr in
  bz ← kv_Get s key;
  currentAmount ← match bz with Some bz => Int_Unmarshal bz | None => Ok 0 end;
  newAmount ← Int_Add currentAmount amount;
  bz ← Int_Marshal newAmount;
  kv_Set s key bz.

Definition RemoveFromExpirationQueue (s : S) (unlockTime : Time) (addr : bytes) (amount : Z)
    : outcome S :=
  let key := GetLockExpirationKey unlockTime addr in
  bz ← kv_Get s key;
  match bz with
  | None => Ok s
  | Some bz =>
      currentAmount ← Int_Unmarshal bz;
      if currentAmount <? amount
      then Err (ErrInvalidAmount "cannot remove %s from expiration queue, only %s available")
      else
      newAmount ← Int_Sub currentAmount amount;
      if newAmount =? 0 then kv_Delete s key else
      bz ← Int_Marshal newAmount;
      kv_Set s key bz
  end.

(** A callback of the iterations, with the state its closure captures. *)
Definition lock_cb (A : Type) : Type := A -> bytes -> Time -> Z -> outcome A.

(** A queue key without its prefix: the unlock time and the address. *)
Definition parse_queue_key (key : bytes) : outcome (Time * bytes) :=
  let prefixLen := zlen LocksByDateKey in
  timeBz ← slice key prefixLen (prefixLen + 8);
  addrBz ← slice_from key (prefixLen + 8);
  Ok (FromUnix (int64 (Uint64 timeBz)), addrBz).

Fixpoint iterate_active {A} (cb : lock_cb A) (a : A) (entries : list (bytes * bytes))
    : outcome A :=
  match entries with
  | [] => Ok a
  | (key, value) :: rest =>
      if zlen key <? zlen LocksByDateKey + 8 then iterate_active cb a rest else
      '(unlockTime, addr) ← parse_queue_key key;
      amount ← Int_Unmarshal value;
      a' ← cb a addr unlockTime amount;
      iterate_active cb a' rest
  end.

Definition IterateActiveLocks {A} (s : S) (currentTime : Time) (cb : lock_cb A) (a : A)
    : outcome A :=
  let startKey := LocksByDateKey ++ PutUint64 (uint64 (int64 (Unix currentTime + 1))) in
  entries ← kv_Iterator s startKey None;
  iterate_active cb a entries.

Fixpoint iterate_expired {A} (cb : lock_cb A) (a : A) (s : S) (entries : list (bytes * bytes))
    : outcome (A * S) :=
  match entries with
  | [] => Ok (a, s)
  | (key, value) :: rest =>
      '(unlockTime, addr) ← parse_queue_key key;
      amount ← Int_Unmarshal value;
      a' ← cb a addr unlockTime amount;
      s' ← kv_Delete s key;
      iterate_expired cb a' s' rest
  end.

(** The entries are those the iterator was opened on. *)
Definition IterateAndDeleteExpiredLocks {A} (s : S) (cutoffTime : Time) (cb : lock_cb A) (a : A)
    : outcome (A * S) :=
  let endKey := LocksByDateKey ++ PutUint64 (uint64 (int64 (Unix cutoffTime + 1))) in
  entries ← kv_Iterator s LocksByDateKey (Some endKey);
  iterate_expired cb a s entries.
End Store.
