(* ===== verification/LockSpec.v ===== *)
(** What the two lock indexes mean: the list of locks of an account and the
    queued amount per unlock time, read off the store's map; the invariant of a
    stored list; and the specification of every operation of LockStore.v
    against them. *)

From stdpp Require Import base list strings gmap sorting.
From Stdlib Require Import ZArith Lia.
From Stdlib.Init Require Import Byte.
From S2P Require Import Prelude GoTime Sdk LockPb LockStore.

Local Open Scope Z_scope.

(** * Lists of locks *)

(** The total amount of the locks whose date satisfies [f]. *)
Fixpoint amount_of (f : string -> bool) (ls : list Lock) : Z :=
  match ls with
  | [] => 0
  | l :: ls' => (if f (UnlockDate l) then LockAmount l else 0) + amount_of f ls'
  end.

(** A stored lock: a well-formed date and a positive amount in range. *)
Definition lock_ok (l : Lock) : Prop :=
  is_Some (ParseDateOnly (UnlockDate l)) /\ 0 < LockAmount l /\ int_ok (LockAmount l) = true.

Definition lock_time (l : Lock) : Time := default 0 (ParseDateOnly (UnlockDate l)).

(** The invariant of an account's list: every lock is well formed and the dates
    are strictly increasing. *)
Definition locks_inv (ls : list Lock) : Prop :=
  Forall lock_ok ls /\ StronglySorted (fun l k => lock_time l < lock_time k) ls.

Definition has_date (d : string) (ls : list Lock) : Prop := exists l, l ∈ ls /\ UnlockDate l = d.

Lemma amount_of_app f l k : amount_of f (l ++ k) = amount_of f l + amount_of f k.
Proof. induction l as [|x l IH]; simpl; [done|]. rewrite IH. lia. Qed.

Lemma amount_of_nonneg f ls : Forall lock_ok ls -> 0 <= amount_of f ls.
Proof.
  induction 1 as [|l ls (_ & ? & _) _ IH]; simpl; [done|]. case_match; lia.
Qed.

Lemma amount_of_mono f g ls :
  Forall lock_ok ls -> (forall d, f d = true -> g d = true) -> amount_of f ls <= amount_of g ls.
Proof.
  intros W FG. induction W as [|l ls (_ & ? & _) _ IH]; simpl; [done|].
  destruct (f _) eqn:F; [rewrite (FG _ F); lia|]. case_match; lia.
Qed.

Lemma amount_of_ext f g ls :
  (forall l, l ∈ ls -> f (UnlockDate l) = g (UnlockDate l)) -> amount_of f ls = amount_of g ls.
Proof.
  induction ls as [|l ls IH]; intros E; simpl; [done|].
  rewrite IH by (intros; apply E; by right). by rewrite (E l) by left.
Qed.

Lemma lock_time_Some l t : ParseDateOnly (UnlockDate l) = Some t -> lock_time l = t.
Proof. unfold lock_time. by intros ->. Qed.

Lemma lock_ok_time l : lock_ok l -> ParseDateOnly (UnlockDate l) = Some (lock_time l).
Proof. intros [[t E] _]. by rewrite (lock_time_Some _ _ E). Qed.

Lemma lock_ok_ltb l k :
  lock_ok l -> lock_ok k ->
  String.ltb (UnlockDate l) (UnlockDate k) = (lock_time l <? lock_time k).
Proof.
  intros L%lock_ok_time K%lock_ok_time. by rewrite (ParseDateOnly_ltb _ _ _ _ L K).
Qed.

Lemma lock_ok_same_time l k :
  lock_ok l -> lock_ok k -> lock_time l = lock_time k -> UnlockDate l = UnlockDate k.
Proof.
  intros L%lock_ok_time K%lock_ok_time E. rewrite E in L. by eapply ParseDateOnly_inj.
Qed.

(** Searching a list for a date splits it around the lock found. *)
Lemma find_by_date_Some d ls i l idx :
  find_by_date d ls i = Some (l, idx) ->
  exists pre post, ls = pre ++ l :: post /\ idx = i + zlen pre /\ UnlockDate l = d.
Proof.
  revert i. induction ls as [|k ls IH]; intros i E; simpl in E; [done|].
  destruct (String.eqb_spec (UnlockDate k) d) as [D|D].
  - injection E as <- <-. exists [], ls. unfold zlen. simpl. rewrite Z.add_0_r. auto.
  - apply IH in E as (pre & post & -> & -> & U).
    exists (k :: pre), post. rewrite zlen_cons. split; [done|]. split; [lia|done].
Qed.

Lemma find_by_date_None d ls i : find_by_date d ls i = None -> ~ has_date d ls.
Proof.
  revert i. induction ls as [|k ls IH]; intros i E (l & L & U); simpl in E.
  - by apply not_elem_of_nil in L.
  - destruct (String.eqb_spec (UnlockDate k) d) as [D|D]; [done|].
    apply elem_of_cons in L as [->|L]; [done|]. apply (IH _ E). by exists l.
Qed.

(** In a list with increasing dates the lock of a date is the whole amount of
    that date. *)
Lemma amount_of_date pre l post :
  locks_inv (pre ++ l :: post) ->
  amount_of (String.eqb (UnlockDate l)) (pre ++ l :: post) = LockAmount l.
Proof.
  intros [W S]. rewrite amount_of_app. simpl. rewrite String.eqb_refl.
  apply Forall_app in W as [Wp [Wl Wq]%Forall_cons].
  assert (Z0 : forall ks, Forall lock_ok ks ->
    (forall k, k ∈ ks -> lock_time k <> lock_time l) ->
    amount_of (String.eqb (UnlockDate l)) ks = 0).
  { induction 1 as [|k ks K _ IH]; intros D; simpl; [done|].
    destruct (String.eqb_spec (UnlockDate l) (UnlockDate k)) as [E|E].
    - destruct (D k ltac:(left)). apply lock_ok_time in K, Wl. rewrite E in Wl. congruence.
    - rewrite IH; [done|]. intros. apply D. by right. }
  apply StronglySorted_app in S as (Spq & _ & [_ Sq]%StronglySorted_inv).
  rewrite (Z0 pre), (Z0 post); [lia|done| |done|].
  - intros k K. rewrite Forall_forall in Sq. specialize (Sq _ K). lia.
  - intros k K. specialize (Spq k l K ltac:(left)). lia.
Qed.

Lemma amount_of_no_date d ls : ~ has_date d ls -> amount_of (String.eqb d) ls = 0.
Proof.
  induction ls as [|l ls IH]; intros N; simpl; [done|].
  destruct (String.eqb_spec d (UnlockDate l)) as [->|].
  - destruct N. exists l. split; [left|done].
  - apply IH. intros (k & K & E). apply N. exists k. split; [by right|done].
Qed.

(** ** A list is determined by its amount of each date *)

Lemma locks_inv_elem ls l :
  locks_inv ls -> l ∈ ls <-> amount_of (String.eqb (UnlockDate l)) ls = LockAmount l /\ 0 < LockAmount l.
Proof.
  intros W. split.
  - intros E. split; [|by destruct W as [W _]; eapply Forall_forall in W as (_ & ? & _)].
    apply list_elem_of_split in E as (pre & post & ->). by apply amount_of_date.
  - intros [E P]. destruct (decide (Exists (fun k => UnlockDate k = UnlockDate l) ls)) as [X|N].
    + apply Exists_exists in X as (k & K & D). apply list_elem_of_split in K as (pre & post & ->).
      rewrite <- D, (amount_of_date _ _ _ W) in E. destruct k as [d n], l as [d' n']. simpl in *. subst.
      apply elem_of_app. right. left.
    + rewrite amount_of_no_date in E; [lia|]. intros (k & K & D). apply N, Exists_exists. by exists k.
Qed.

Lemma locks_inv_NoDup ls : locks_inv ls -> NoDup ls.
Proof.
  intros [_ S]. induction S as [|l ls S IH F]; constructor; [|done].
  intros E. rewrite Forall_forall in F. specialize (F _ E). lia.
Qed.

Lemma amount_of_Permutation f ls ls' : ls ≡ₚ ls' -> amount_of f ls = amount_of f ls'.
Proof. induction 1; simpl; lia. Qed.

Lemma amount_of_rows f ls ls' :
  locks_inv ls -> locks_inv ls' ->
  (forall d, amount_of (String.eqb d) ls = amount_of (String.eqb d) ls') ->
  amount_of f ls = amount_of f ls'.
Proof.
  intros W W' E. apply amount_of_Permutation, NoDup_Permutation; [by apply locks_inv_NoDup..|].
  intros l. by rewrite !locks_inv_elem, E.
Qed.

(** ** Insertion keeps the dates increasing *)

Lemma insert_by_date_amount f l ls :
  amount_of f (insert_by_date l ls)
    = amount_of f ls + (if f (UnlockDate l) then LockAmount l else 0).
Proof.
  induction ls as [|k ls IH]; simpl; [lia|]. destruct (String.ltb _ _); simpl; [|rewrite IH]; lia.
Qed.

Lemma insert_by_date_elem l ls k : k ∈ insert_by_date l ls <-> k = l \/ k ∈ ls.
Proof.
  induction ls as [|e ls IH]; simpl; [rewrite list_elem_of_singleton, elem_of_nil; tauto|].
  destruct (String.ltb _ _); rewrite !elem_of_cons, ?IH; tauto.
Qed.

Lemma insert_by_date_inv l ls :
  locks_inv ls -> lock_ok l -> ~ has_date (UnlockDate l) ls ->
  locks_inv (insert_by_date l ls).
Proof.
  intros [W S] L N. split.
  { apply Forall_forall. intros k [->|K]%insert_by_date_elem; [done|].
    by eapply Forall_forall in W. }
  revert N. induction S as [|k ls S IH Sk]; intros N; simpl; [repeat constructor|].
  apply Forall_cons in W as [Wk W].
  rewrite (lock_ok_ltb l k) by done.
  destruct (Z.ltb_spec (lock_time l) (lock_time k)) as [Lt|Ge].
  - constructor; [by constructor|]. constructor; [done|].
    eapply Forall_impl; [done|]. simpl. lia.
  - constructor.
    + apply IH; [done|]. intros (e & E & D). apply N. exists e. split; [by right|done].
    + apply Forall_forall. intros e [->|E]%insert_by_date_elem.
      * assert (lock_time l <> lock_time k); [|lia]. intros E.
        apply N. exists k. split; [left|]. symmetry. by apply lock_ok_same_time.
      * by eapply Forall_forall in Sk.
Qed.

(** ** Replacing and removing the lock at an index *)

Lemma locks_inv_update pre l l' post :
  locks_inv (pre ++ l :: post) -> lock_ok l' -> UnlockDate l' = UnlockDate l ->
  locks_inv (pre ++ l' :: post).
Proof.
  intros [W S] L' E. assert (T : lock_time l' = lock_time l) by (unfold lock_time; by rewrite E).
  apply Forall_app in W as [Wp [Wl Wq]%Forall_cons].
  apply StronglySorted_app in S as (Spq & Sp & [Sq Fq]%StronglySorted_inv). split.
  - apply Forall_app. auto.
  - apply StronglySorted_app_2; [|done|constructor; [done|by rewrite T]].
    intros x y X [->|Y]%elem_of_cons; [rewrite T; apply Spq; [done|left]|].
    apply Spq; [done|by right].
Qed.

Lemma locks_inv_delete pre l post : locks_inv (pre ++ l :: post) -> locks_inv (pre ++ post).
Proof.
  intros [W S]. apply Forall_app in W as [Wp [Wl Wq]%Forall_cons].
  apply StronglySorted_app in S as (Spq & Sp & [Sq Fq]%StronglySorted_inv). split.
  - by apply Forall_app.
  - apply StronglySorted_app_2; [|done|done]. intros x y X Y. apply Spq; [done|by right].
Qed.

Lemma take_drop_mid {A} (pre post : list A) x :
  take (Z.to_nat (0 + zlen pre)) (pre ++ x :: post)
    ++ drop (Z.to_nat (0 + zlen pre + 1)) (pre ++ x :: post) = pre ++ post.
Proof.
  unfold zlen. replace (Z.to_nat (0 + Z.of_nat (length pre))) with (length pre) by lia.
  replace (Z.to_nat (0 + Z.of_nat (length pre) + 1)) with (length pre + 1)%nat by lia.
  rewrite take_app_length, <- drop_drop, drop_app_length. done.
Qed.

Lemma insert_mid {A} (pre post : list A) x y :
  <[Z.to_nat (0 + zlen pre) := y]> (pre ++ x :: post) = pre ++ y :: post.
Proof.
  unfold zlen. replace (Z.to_nat (0 + Z.of_nat (length pre))) with (length pre) by lia.
  rewrite insert_app_r_alt by done. by rewrite Nat.sub_diag.
Qed.

(** ** The encoding of a stored list is small *)

Lemma sorted_times_length ls a b :
  StronglySorted (fun l k => lock_time l < lock_time k) ls ->
  Forall (fun l => a <= lock_time l / Day < b /\ lock_time l mod Day = 0) ls ->
  a <= b -> zlen ls <= b - a.
Proof.
  intros S. revert a. induction S as [|l ls S IH F]; intros a W AB; [unfold zlen; simpl; lia|].
  apply Forall_cons in W as [[Wl Ml] W]. rewrite zlen_cons. pose proof Day_pos.
  pose proof (Z.div_mod (lock_time l) Day ltac:(lia)).
  enough (zlen ls <= b - (lock_time l / Day + 1)) by lia.
  apply IH; [|lia]. apply Forall_forall. intros k K.
  eapply Forall_forall in W as [Wk Mk]; [|done]. eapply Forall_forall in F; [|done].
  pose proof (Z.div_mod (lock_time k) Day ltac:(lia)). split; [|done]. nia.
Qed.

Lemma ParseDateOnly_days d t :
  ParseDateOnly d = Some t ->
  -719528 <= t / Day < 2932897 /\ t mod Day = 0 /\ zlen (bytes_of_string d) = 10.
Proof.
  unfold ParseDateOnly. intros ([[y m] dd] & P & [= <-])%bind_Some.
  pose proof (parse_civil_valid _ _ _ _ P) as [V Y].
  apply parse_civil_inv in P as (y1&y2&y3&y4&m1&m2&d1&d2&e1&e2&e3&e4&f1&f2&g1&g2&->&_).
  change (Date y m dd / Day) with (day_of (Date y m dd)). rewrite day_of_Date.
  unfold Date. rewrite Z.mod_mul by (pose proof Day_pos; lia). split; [|done].
  assert (V0 : valid_civil 0 1 1) by done. assert (V1 : valid_civil 10000 1 1) by done.
  pose proof (date_day_ltb y m dd 0 1 1 V V0) as L0.
  pose proof (date_day_ltb y m dd 10000 1 1 V V1) as L1.
  change (date_day 0 1 1) with (-719528) in L0.
  change (date_day 10000 1 1) with 2932897 in L1.
  destruct V as [V W]. pose proof (daysIn_range m y V). unfold civil_key in *.
  rewrite (proj2 (Z.ltb_ge _ (10000 * 0 + _ + _))) in L0 by lia.
  rewrite (proj2 (Z.ltb_lt _ (10000 * 10000 + _ + _))) in L1 by lia.
  apply Z.ltb_ge in L0. apply Z.ltb_lt in L1. lia.
Qed.

(** There are fewer dates than numbers of 64 bits. *)
Lemma locks_inv_length ls : locks_inv ls -> zlen ls <= 3652425.
Proof.
  intros [W S]. change 3652425 with (2932897 - -719528).
  apply sorted_times_length; [done| |lia]. eapply Forall_impl; [done|].
  intros l L%lock_ok_time%ParseDateOnly_days. lia.
Qed.

Section Codec.
Context `{SdkMathLaws}.

Lemma lock_ok_wf l : lock_ok l -> lock_wf l.
Proof.
  intros ([t T] & _ & I). apply ParseDateOnly_days in T as (_ & _ & T).
  split; [done|]. rewrite T. lia.
Qed.

Lemma Lock_Size_bound l : lock_ok l -> 0 <= Lock_Size l <= 1000.
Proof.
  intros ([t T] & _ & I). apply ParseDateOnly_days in T as (_ & _ & T).
  destruct (Int_Marshal_spec _ I) as (bz & M & _ & L).
  unfold Lock_Size, Int_Size. rewrite M, T. simpl.
  pose proof (sovLock_range (zlen bz) ltac:(lia)). rewrite !uint64_small by lia.
  pose proof (sovLock_range 10 ltac:(lia)). lia.
Qed.

Lemma Locks_Size_bound ls n :
  Forall lock_ok ls ->
  n <= foldl (fun n e => n + (1 + Lock_Size e + sovLock (uint64 (Lock_Size e)))) n ls
    <= n + 2000 * zlen ls.
Proof.
  intros W. revert n. induction W as [|l ls L _ IH]; intros n; [unfold zlen; simpl; lia|].
  rewrite zlen_cons. cbn [foldl]. pose proof (Lock_Size_bound l L).
  assert (1 <= sovLock (Lock_Size l) <= 10) by (apply sovLock_range; lia).
  specialize (IH (n + (1 + Lock_Size l + sovLock (uint64 (Lock_Size l))))).
  rewrite (uint64_small (Lock_Size l)) in IH |- * by lia. lia.
Qed.

(** A list that satisfies the invariant is stored and read back exactly. *)
Lemma locks_inv_roundtrip ls :
  locks_inv ls ->
  exists buf, Locks_Marshal (MkLocks ls) = Ok buf /\ Locks_Unmarshal buf = Ok (MkLocks ls).
Proof.
  intros [W S]. destruct (Locks_roundtrip ls) as (buf & M & U & _).
  - eapply Forall_impl; [done|]. apply lock_ok_wf.
  - pose proof (Locks_Size_bound ls 0 W).
    pose proof (locks_inv_length ls (conj W S)).
    unfold Locks_Size. cbn [LockList]. lia.
  - eauto.
Qed.
End Codec.

(** * Keys *)

Lemma be_bytes_length n v : length (be_bytes n v) = n.
Proof. revert v. induction n as [|n IH]; intros v; simpl; [done|]. rewrite length_app, IH. simpl. lia. Qed.

Lemma PutUint64_length v : length (PutUint64 v) = 8%nat.
Proof. apply be_bytes_length. Qed.

Lemma Uint64_be_bytes n v : Uint64 (be_bytes n v) = v mod 256 ^ Z.of_nat n.
Proof.
  unfold Uint64. revert v. induction n as [|n IH]; intros v.
  - simpl. by rewrite Z.mod_1_r.
  - cbn [be_bytes]. rewrite foldl_app, IH. cbn [foldl]. rewrite byte_to_of_Z.
    rewrite Nat2Z.inj_succ, Z.pow_succ_r by lia.
    rewrite (Z.rem_mul_r v 256) by lia. lia.
Qed.

Lemma Uint64_PutUint64 v : 0 <= v < 2 ^ 64 -> Uint64 (PutUint64 v) = v.
Proof. intros. unfold PutUint64. rewrite Uint64_be_bytes, Z.mod_small; [done|simpl; lia]. Qed.

(** A time whose Unix seconds fit an [int64]. *)
Definition unix_ok (t : Time) : Prop := - 2 ^ 63 <= Unix t < 2 ^ 63.

Lemma ParseDateOnly_unix d t :
  ParseDateOnly d = Some t -> - 2 ^ 40 < Unix t < 2 ^ 40 /\ FromUnix (Unix t) = t.
Proof.
  intros P. pose proof (ParseDateOnly_days _ _ P) as (R & M & _).
  pose proof (Z.div_mod t Day ltac:(pose proof Day_pos; lia)) as D. rewrite M in D.
  assert (t = (t / Day * 86400) * Second) as E by (unfold Day, Hour in *; lia).
  assert (Unix t = t / Day * 86400) as U.
  { unfold Unix. rewrite E at 1. rewrite Z.div_mul; [done|unfold Second; lia]. }
  rewrite U. unfold FromUnix. lia.
Qed.

Lemma uint64_inj a b :
  - 2 ^ 63 <= a < 2 ^ 63 -> - 2 ^ 63 <= b < 2 ^ 63 -> uint64 a = uint64 b -> a = b.
Proof.
  unfold uint64. intros A B E. pose proof (Z.div_mod a (2 ^ 64) ltac:(lia)).
  pose proof (Z.div_mod b (2 ^ 64) ltac:(lia)). lia.
Qed.

Lemma int64_uint64 a : - 2 ^ 63 <= a < 2 ^ 63 -> int64 (uint64 a) = a.
Proof.
  intros. unfold int64, uint64. rewrite Zplus_mod_idemp_l, Z.mod_small; lia.
Qed.

Lemma GetLocksByAddressKey_nonempty a : GetLocksByAddressKey a <> [].
Proof. done. Qed.
Lemma GetLockExpirationKey_nonempty t a : GetLockExpirationKey t a <> [].
Proof. done. Qed.

#[export] Instance GetLocksByAddressKey_inj : Inj eq eq GetLocksByAddressKey.
Proof. intros a b E. unfold GetLocksByAddressKey in E. by simplify_list_eq. Qed.

(** The two indexes never share a key. *)
Lemma keys_disjoint a t b : GetLocksByAddressKey a <> GetLockExpirationKey t b.
Proof. intros E. discriminate E. Qed.

(** The queue key determines the unlock time and the account. *)
Lemma GetLockExpirationKey_inj t a u b :
  unix_ok t -> unix_ok u ->
  GetLockExpirationKey t a = GetLockExpirationKey u b -> Unix t = Unix u /\ a = b.
Proof.
  unfold GetLockExpirationKey. intros T U E. rewrite <- !app_assoc in E.
  apply app_inv_head in E. apply app_inj_1 in E as [E1 E2]; [|by rewrite !PutUint64_length].
  split; [|done]. apply (f_equal Uint64) in E1.
  rewrite !Uint64_PutUint64 in E1 by apply uint64_range. by apply uint64_inj.
Qed.

(** Reading a queue key back. *)
Lemma parse_queue_key_spec t a :
  unix_ok t -> parse_queue_key (GetLockExpirationKey t a) = Ok (FromUnix (Unix t), a).
Proof.
  intros T. unfold parse_queue_key, GetLockExpirationKey.
  assert (zlen (PutUint64 (uint64 (Unix t))) = 8) as L8 by (unfold zlen; by rewrite PutUint64_length).
  rewrite <- app_assoc, (slice_mid LocksByDateKey) by (try done; rewrite L8; done).
  cbn [mbind outcome_bind].
  replace (zlen LocksByDateKey + 8)
    with (Z.of_nat (length (LocksByDateKey ++ PutUint64 (uint64 (Unix t)))))
    by (rewrite length_app, PutUint64_length; done).
  rewrite app_assoc, slice_from_ok by (rewrite !length_app; lia).
  rewrite drop_app_length. cbn [mbind outcome_bind].
  rewrite Uint64_PutUint64 by apply uint64_range. by rewrite int64_uint64.
Qed.

(** * The meaning of the store *)

(** All keys but [k] hold what they held. *)
Definition only_changes (k : bytes) (m m' : gmap bytes bytes) : Prop :=
  forall k', k' <> k -> m' !! k' = m !! k'.

Section Meaning.
Context `{SdkMath}.

(** The account [addr] has the locks [ls]. *)
Definition locks_rel (m : gmap bytes bytes) (addr : bytes) (ls : list Lock) : Prop :=
  match m !! GetLocksByAddressKey addr with
  | None => ls = []
  | Some bz => Locks_Unmarshal bz = Ok (MkLocks ls)
  end.

(** The queue holds the amount [a] for the account at the unlock time; an absent
    entry is the amount 0 and no entry is 0. *)
Definition queue_rel (m : gmap bytes bytes) (t : Time) (addr : bytes) (a : Z) : Prop :=
  match m !! GetLockExpirationKey t addr with
  | None => a = 0
  | Some bz => Int_Unmarshal bz = Ok a /\ a <> 0
  end.

Lemma locks_rel_fun m addr ls ls' : locks_rel m addr ls -> locks_rel m addr ls' -> ls = ls'.
Proof. unfold locks_rel. case_match; congruence. Qed.

Lemma queue_rel_fun m t addr a a' : queue_rel m t addr a -> queue_rel m t addr a' -> a = a'.
Proof. unfold queue_rel. case_match; [|congruence]. intros [??] [??]. congruence. Qed.

Lemma locks_rel_frame k m m' addr ls :
  only_changes k m m' -> k <> GetLocksByAddressKey addr ->
  locks_rel m' addr ls <-> locks_rel m addr ls.
Proof. unfold locks_rel. intros F N. by rewrite (F _ (not_eq_sym N)). Qed.

Lemma queue_rel_frame k m m' t addr a :
  only_changes k m m' -> k <> GetLockExpirationKey t addr ->
  queue_rel m' t addr a <-> queue_rel m t addr a.
Proof. unfold queue_rel. intros F N. by rewrite (F _ (not_eq_sym N)). Qed.
End Meaning.

Section StoreSpec.
Context `{SdkMathLaws} {S : Type} `{!KVStore S} `{!KVStoreLaws S}.

Lemma GetLocksByAddress_iff s addr ls :
  GetLocksByAddress s addr = Ok ls <-> locks_rel (kv_view s) addr ls.
Proof.
  unfold GetLocksByAddress, locks_rel. rewrite kv_Get_spec by done. cbn [mbind outcome_bind].
  case_match; [|split; congruence].
  split.
  - intros ([ls'] & E & [= <-])%bind_Ok. done.
  - by intros ->.
Qed.

Lemma kv_Set_frame s k v :
  k <> [] -> exists s', kv_Set s k v = Ok s' /\ kv_view s' !! k = Some v /\
                        only_changes k (kv_view s) (kv_view s').
Proof.
  intros K. destruct (kv_Set_spec s k v K) as (s' & E & V). exists s'. split; [done|].
  rewrite V. split; [apply lookup_insert_eq|]. intros k' N. by rewrite lookup_insert_ne.
Qed.

Lemma kv_Delete_frame s k :
  k <> [] -> exists s', kv_Delete s k = Ok s' /\ kv_view s' !! k = None /\
                        only_changes k (kv_view s) (kv_view s').
Proof.
  intros K. destruct (kv_Delete_spec s k K) as (s' & E & V). exists s'. split; [done|].
  rewrite V. split; [apply lookup_delete_eq|]. intros k' N. by rewrite lookup_delete_ne.
Qed.

(** The outcome of an operation that leaves the account with the locks [ls] and
    touches nothing else. *)
Definition stores_locks (s : S) (addr : bytes) (ls : list Lock) (o : outcome S) : Prop :=
  exists s', o = Ok s' /\ locks_rel (kv_view s') addr ls /\
             only_changes (GetLocksByAddressKey addr) (kv_view s) (kv_view s').

(** The same for the queue entry of an unlock time. *)
Definition stores_queue (s : S) (t : Time) (addr : bytes) (a : Z) (o : outcome S) : Prop :=
  exists s', o = Ok s' /\ queue_rel (kv_view s') t addr a /\
             only_changes (GetLockExpirationKey t addr) (kv_view s) (kv_view s').

Lemma SetLocksByAddress_spec s addr ls :
  locks_inv ls -> stores_locks s addr ls (SetLocksByAddress s addr ls).
Proof.
  intros W. unfold stores_locks, SetLocksByAddress, locks_rel.
  destruct (Z.eqb_spec (zlen ls) 0) as [Z0|].
  - destruct (kv_Delete_frame s (GetLocksByAddressKey addr)) as (s' & -> & V & F); [done|].
    exists s'. rewrite V. split; [done|]. split; [|done]. destruct ls; [done|].
    rewrite zlen_cons in Z0. pose proof (zlen_nonneg ls). lia.
  - destruct (locks_inv_roundtrip ls W) as (buf & -> & U). cbn [mbind outcome_bind].
    destruct (kv_Set_frame s (GetLocksByAddressKey addr) buf) as (s' & -> & V & F); [done|].
    exists s'. by rewrite V.
Qed.

Lemma SetLockByAddress_spec s addr lock ls :
  locks_rel (kv_view s) addr ls -> locks_inv (insert_by_date lock ls) ->
  stores_locks s addr (insert_by_date lock ls) (SetLockByAddress s addr lock).
Proof.
  intros R W. unfold stores_locks, SetLockByAddress.
  rewrite kv_Get_spec by done. cbn [mbind outcome_bind].
  assert ((match kv_view s !! GetLocksByAddressKey addr with
           | Some bz => Locks_Unmarshal bz | None => Ok (MkLocks []) end) = Ok (MkLocks ls)) as ->.
  { unfold locks_rel in R. case_match; [done|]. by subst. }
  cbn [mbind outcome_bind LockList].
  destruct (locks_inv_roundtrip _ W) as (buf & -> & U). cbn [mbind outcome_bind].
  destruct (kv_Set_frame s (GetLocksByAddressKey addr) buf) as (s' & -> & V & F); [done|].
  exists s'. unfold locks_rel. by rewrite V.
Qed.

Lemma UpdateLockByAddressAndIndex_spec s addr pre l l' post :
  locks_rel (kv_view s) addr (pre ++ l :: post) -> locks_inv (pre ++ l' :: post) ->
  stores_locks s addr (pre ++ l' :: post)
    (UpdateLockByAddressAndIndex s addr (0 + zlen pre) l').
Proof.
  intros R W. unfold UpdateLockByAddressAndIndex.
  rewrite (proj2 (GetLocksByAddress_iff _ _ _) R). cbn [mbind outcome_bind].
  pose proof (zlen_nonneg pre). pose proof (zlen_nonneg post).
  rewrite zlen_app, zlen_cons, (proj2 (Z.ltb_ge _ _)), (proj2 (Z.leb_gt _ _)) by lia.
  cbn [orb]. rewrite insert_mid. by apply SetLocksByAddress_spec.
Qed.

Lemma DeleteLockByAddressAndIndex_spec s addr pre l post :
  locks_rel (kv_view s) addr (pre ++ l :: post) -> locks_inv (pre ++ post) ->
  stores_locks s addr (pre ++ post) (DeleteLockByAddressAndIndex s addr (0 + zlen pre)).
Proof.
  intros R W. unfold DeleteLockByAddressAndIndex.
  rewrite (proj2 (GetLocksByAddress_iff _ _ _) R). cbn [mbind outcome_bind].
  pose proof (zlen_nonneg pre). pose proof (zlen_nonneg post).
  rewrite zlen_app, zlen_cons, (proj2 (Z.ltb_ge _ _)), (proj2 (Z.leb_gt _ _)) by lia.
  cbn [orb]. rewrite take_drop_mid. by apply SetLocksByAddress_spec.
Qed.

Lemma GetLockByAddressAndDate_spec s addr d ls :
  locks_rel (kv_view s) addr ls ->
  GetLockByAddressAndDate s addr d = Ok (find_by_date d ls 0).
Proof.
  intros R. unfold GetLockByAddressAndDate. by rewrite (proj2 (GetLocksByAddress_iff _ _ _) R).
Qed.

Lemma AddToExpirationQueue_spec s t addr a amt :
  queue_rel (kv_view s) t addr a -> int_ok (a + amt) = true -> a + amt <> 0 ->
  stores_queue s t addr (a + amt) (AddToExpirationQueue s t addr amt).
Proof.
  intros R I N. unfold stores_queue, AddToExpirationQueue.
  rewrite kv_Get_spec by done. cbn [mbind outcome_bind].
  assert ((match kv_view s !! GetLockExpirationKey t addr with
           | Some bz => Int_Unmarshal bz | None => Ok 0 end) = Ok a) as ->.
  { unfold queue_rel in R. case_match; [apply R|]. by subst. }
  cbn [mbind outcome_bind]. rewrite Int_Add_intro by done. cbn [mbind outcome_bind].
  destruct (Int_Marshal_spec _ I) as (bz & -> & U & _). cbn [mbind outcome_bind].
  destruct (kv_Set_frame s (GetLockExpirationKey t addr) bz) as (s' & -> & V & F); [done|].
  exists s'. unfold queue_rel. by rewrite V.
Qed.

Lemma RemoveFromExpirationQueue_spec s t addr a amt :
  queue_rel (kv_view s) t addr a -> 0 < amt <= a -> int_ok a = true ->
  stores_queue s t addr (a - amt) (RemoveFromExpirationQueue s t addr amt).
Proof.
  intros R B I. unfold stores_queue, RemoveFromExpirationQueue.
  rewrite kv_Get_spec by done. cbn [mbind outcome_bind].
  unfold queue_rel in R. destruct (kv_view s !! _) as [bz|] eqn:V0; [|lia].
  destruct R as [U _]. rewrite U. cbn [mbind outcome_bind].
  rewrite (proj2 (Z.ltb_ge _ _)) by lia.
  assert (int_ok (a - amt) = true) as I' by (apply (int_ok_between _ a); [done|lia]).
  rewrite Int_Sub_intro by done. cbn [mbind outcome_bind].
  destruct (Z.eqb_spec (a - amt) 0) as [Z0|].
  - destruct (kv_Delete_frame s (GetLockExpirationKey t addr)) as (s' & -> & V & F); [done|].
    exists s'. unfold queue_rel. rewrite V. done.
  - destruct (Int_Marshal_spec _ I') as (bz' & -> & U' & _). cbn [mbind outcome_bind].
    destruct (kv_Set_frame s (GetLockExpirationKey t addr) bz') as (s' & -> & V & F); [done|].
    exists s'. unfold queue_rel. by rewrite V.
Qed.

(** A successful addition stayed in range. *)
Lemma AddToExpirationQueue_range s s' t addr a amt :
  queue_rel (kv_view s) t addr a -> AddToExpirationQueue s t addr amt = Ok s' ->
  int_ok (a + amt) = true.
Proof.
  intros R E. unfold AddToExpirationQueue in E. rewrite kv_Get_spec in E by done.
  cbn [mbind outcome_bind] in E. unfold queue_rel in R.
  destruct (kv_view s !! _) as [bz|].
  - destruct R as [R _]. rewrite R in E. ok_inv E. by int_facts.
  - subst a. ok_inv E. by int_facts.
Qed.

(** The total of an account's active locks is the sum over its list. *)
Lemma sum_locked_Ok day ls acc t :
  sum_locked day ls acc = Ok t -> t = acc + amount_of (IsLocked day) ls.
Proof.
  revert acc. induction ls as [|l ls IH]; intros acc E; cbn [sum_locked amount_of] in *.
  - injection E as <-. lia.
  - case_match; [|apply IH in E; lia]. ok_inv E. apply IH in E. int_facts. lia.
Qed.

Lemma sum_locked_intro day ls acc :
  Forall lock_ok ls -> 0 <= acc -> int_ok (acc + amount_of (IsLocked day) ls) = true ->
  sum_locked day ls acc = Ok (acc + amount_of (IsLocked day) ls).
Proof.
  intros W. revert acc. induction W as [|l ls (_ & P & _) W IH]; intros acc A I;
    cbn [sum_locked amount_of] in *; [f_equal; lia|].
  pose proof (amount_of_nonneg (IsLocked day) ls W).
  case_match; [|rewrite IH; [f_equal; lia|lia|by rewrite Z.add_0_l in I]].
  rewrite Int_Add_intro by (apply (int_ok_between _ _ I); lia). cbn [mbind outcome_bind].
  rewrite IH; [f_equal; lia|lia|]. by rewrite <- Z.add_assoc.
Qed.
End StoreSpec.
