(* ===== verification/LockupKeeper.v ===== *)
(** The lockup keeper's checks: delegated amounts (x/lockup/keeper/helpers.go),
    the staking hooks (hooks.go) and the bank send restriction
    (send_restriction.go). *)

From stdpp Require Import base list strings gmap.
From Stdlib Require Import ZArith Lia.
From Stdlib.Init Require Import Byte.
From S2P Require Import Prelude GoTime Sdk LockPb LockStore LockSpec.

Local Open Scope Z_scope.

(** * Redelegation markers *)

(** [redelegateMapKey(delAddr, valAddr)]. *)
Definition redelegateMapKey (delAddr valAddr : bytes) : bytes := delAddr ++ [x00] ++ valAddr.

Definition WithRedelegating (ctx : Ctx) (delAddr valSrcAddr : bytes) : Ctx :=
  MkCtx (BlockTime ctx) (BlockHeight ctx)
    ({[redelegateMapKey delAddr valSrcAddr]} ∪ redelegating ctx).

Definition isRedelegating (ctx : Ctx) (delAddr valAddr : bytes) : bool :=
  bool_decide (redelegateMapKey delAddr valAddr ∈ redelegating ctx).

Section Keeper.
Context `{SdkMath} `{SdkTypes} {S : Type} `{KVStore S} {X : Type} `{StakingKeeper X}
  `{BankKeeper X}.

(** * Delegated amounts *)

(** [validator.TokensFromShares(shares).Ceil().TruncateInt()]. *)
Definition delegation_tokens (validator : Validator) (delegation : Delegation) : Z :=
  let tokens := TokensFromShares validator (GetShares delegation) in
  Dec_TruncateInt (Dec_Ceil tokens).

(** The inner loop of [GetTotalDelegatedAmount]. *)
Fixpoint sum_delegations (x : X) (delegations : list Delegation) (total : Z) : outcome Z :=
  match delegations with
  | [] => Ok total
  | delegation :: rest =>
      valAddr ← wrap_err (fun _ => SdkErr ErrInvalidAddress "invalid validator address: %s")
                  (ValAddressFromBech32 (GetValidatorAddr delegation));
      validator ← GetValidator x valAddr;
      total' ← Int_Add total (delegation_tokens validator delegation);
      sum_delegations x rest total'
  end.

(** The outer loop, [for more]. *)
Fixpoint total_delegated_loop (fuel : nat) (x : X) (addr : bytes) (total : Z) : outcome Z :=
  match fuel with
  | O => OutOfFuel
  | Datatypes.S fuel' =>
      delegations ← GetDelegatorDelegations x addr 100;
      total' ← sum_delegations x delegations total;
      if zlen delegations =? 100 then total_delegated_loop fuel' x addr total'
      else Ok total'
  end.

(** Rounds given to the loop: one is enough whenever it ends. *)
Definition delegation_rounds : nat := 8.

Definition GetTotalDelegatedAmount (x : X) (addr : bytes) : outcome Z :=
  total_delegated_loop delegation_rounds x addr 0.

Definition GetDelegationAmount (x : X) (delAddr valAddr : bytes) : outcome Z :=
  catch (GetDelegation x delAddr valAddr)
    (fun delegation =>
       validator ← GetValidator x valAddr;
       Ok (delegation_tokens validator delegation))
    (fun _ => Ok 0).

(** * Staking hooks *)

Definition checkLockupInvariantExcluding (ctx : Ctx) (s : S) (x : X) (delAddr : bytes)
    (excludeVal : option bytes) : outcome unit :=
  totalLocked ← GetLockedAmountByAddress ctx s delAddr;
  if totalLocked =? 0 then Ok tt else
  totalDelegated ← GetTotalDelegatedAmount x delAddr;
  totalDelegated ← match excludeVal with
                   | Some v =>
                       excludeAmount ← GetDelegationAmount x delAddr v;
                       Int_Sub totalDelegated excludeAmount
                   | None => Ok totalDelegated
                   end;
  if totalDelegated <? totalLocked
  then Err (ErrInsufficientDelegations
    "undelegation would cause delegated amount to drop below locked amount: delegated %s < locked %s")
  else Ok tt.

Definition checkLockupInvariant (ctx : Ctx) (s : S) (x : X) (delAddr : bytes) : outcome unit :=
  checkLockupInvariantExcluding ctx s x delAddr None.

Definition BeforeDelegationCreated (x : X) (delAddr valAddr : bytes) : outcome unit := Ok tt.
Definition BeforeDelegationSharesModified (x : X) (delAddr valAddr : bytes) : outcome unit :=
  Ok tt.

Definition AfterDelegationModified (ctx : Ctx) (s : S) (x : X) (delAddr valAddr : bytes)
    : outcome unit :=
  if isRedelegating ctx delAddr valAddr then Ok tt
  else checkLockupInvariant ctx s x delAddr.

Definition BeforeDelegationRemoved (ctx : Ctx) (s : S) (x : X) (delAddr valAddr : bytes)
    : outcome unit :=
  if isRedelegating ctx delAddr valAddr then Ok tt
  else checkLockupInvariantExcluding ctx s x delAddr (Some valAddr).

(** [k.Hooks()]; the validator hooks do nothing. *)
Definition Hooks (ctx : Ctx) (s : S) : StakingHooks X Dec :=
  MkStakingHooks
    (fun _ _ => Ok tt) (fun _ _ => Ok tt) (fun _ _ _ => Ok tt) (fun _ _ _ => Ok tt)
    (fun _ _ _ => Ok tt)
    BeforeDelegationCreated BeforeDelegationSharesModified
    (BeforeDelegationRemoved ctx s) (AfterDelegationModified ctx s)
    (fun _ _ _ => Ok tt) (fun _ _ => Ok tt).

(** * Send restriction *)

Definition SendRestrictionFn (ctx : Ctx) (s : S) (x : X) (fromAddr toAddr : bytes)
    (amt : list Coin) : outcome bytes :=
  bondDenom ← BondDenom x;
  sendAmount ← Coins_AmountOf amt bondDenom;
  if sendAmount =? 0 then Ok toAddr else
  totalLocked ← GetLockedAmountByAddress ctx s fromAddr;
  if totalLocked =? 0 then Ok toAddr else
  totalDelegated ← GetTotalDelegatedAmount x fromAddr;
  lockedAboveDelegated ← Int_Sub totalLocked totalDelegated;
  let lockedAboveDelegated := if lockedAboveDelegated <? 0 then 0 else lockedAboveDelegated in
  if lockedAboveDelegated =? 0 then Ok toAddr else
  let bankBalance := Amount (GetBalance x fromAddr bondDenom) in
  available ← Int_Sub bankBalance lockedAboveDelegated;
  let available := if available <? 0 then 0 else available in
  if available <? sendAmount
  then Err (SdkErr ErrInsufficientFunds
    "insufficient unlocked balance: available %s, required %s (locked: %s, delegated: %s)")
  else Ok toAddr.
End Keeper.

(** * Properties *)

(** Keys of delegators with addresses of one length determine the pair. *)
Lemma redelegateMapKey_inj d1 v1 d2 v2 :
  length d1 = length d2 -> redelegateMapKey d1 v1 = redelegateMapKey d2 v2 -> d1 = d2 /\ v1 = v2.
Proof.
  unfold redelegateMapKey. intros L [-> E]%app_inj_1; [|done]. by injection E.
Qed.

Lemma isRedelegating_With ctx d v d' v' :
  length d = length d' ->
  isRedelegating (WithRedelegating ctx d v) d' v' = true
    <-> (d' = d /\ v' = v) \/ isRedelegating ctx d' v' = true.
Proof.
  intros L. unfold isRedelegating, WithRedelegating. cbn [redelegating].
  rewrite !bool_decide_eq_true, elem_of_union, elem_of_singleton. split.
  - intros [E|E]; [left|by right]. by apply redelegateMapKey_inj in E as [-> ->].
  - intros [[-> ->]|E]; auto.
Qed.

Section Delegations.
Context `{SdkMathLaws} `{SdkTypes} {X : Type} `{!StakingKeeper X} `{!StakingLaws X}.

(** The token sum is additive and grows. *)
Lemma sum_delegations_shift (x : X) ds acc t :
  sum_delegations x ds acc = Ok t ->
  acc <= t /\ forall acc', 0 <= acc' <= acc -> sum_delegations x ds acc' = Ok (t - acc + acc').
Proof.
  revert acc t. induction ds as [|d ds IH]; intros acc t E; cbn [sum_delegations] in *.
  - injection E as <-. split; [lia|]. intros. f_equal. lia.
  - destruct (ValAddressFromBech32 _) as [va| | |]; cbn [wrap_err mbind outcome_bind] in *; try done.
    destruct (GetValidator x va) as [v| | |]; cbn [mbind outcome_bind] in *; try done.
    apply bind_Ok in E as (t1 & A & E). apply Int_Add_Ok in A as [-> A].
    pose proof (tokens_nonneg v d : 0 <= delegation_tokens v d).
    apply IH in E as [L E]. split; [lia|]. intros acc' B.
    rewrite Int_Add_intro.
    + cbn [mbind outcome_bind]. rewrite E by lia. f_equal. lia.
    + eapply int_ok_between; [exact A|]. lia.
Qed.

Lemma sum_delegations_app (x : X) ds es acc :
  sum_delegations x (ds ++ es) acc = sum_delegations x ds acc ≫= sum_delegations x es.
Proof.
  revert acc. induction ds as [|d ds IH]; intros acc; cbn [sum_delegations app]; [done|].
  destruct (ValAddressFromBech32 _) as [va| | |]; try done. cbn [wrap_err mbind outcome_bind].
  destruct (GetValidator x va) as [v| | |]; try done. cbn [mbind outcome_bind].
  destruct (Int_Add _ _); try done. cbn [mbind outcome_bind]. apply IH.
Qed.

(** Without one delegation the sum is smaller by its tokens. *)
Lemma sum_delegations_without (x : X) pre d post va v t :
  sum_delegations x (pre ++ d :: post) 0 = Ok t ->
  ValAddressFromBech32 (GetValidatorAddr d) = Ok va -> GetValidator x va = Ok v ->
  sum_delegations x (pre ++ post) 0 = Ok (t - delegation_tokens v d).
Proof.
  rewrite !sum_delegations_app. cbn [sum_delegations]. intros (t1 & P & E)%bind_Ok VA V. rewrite P.
  rewrite VA in E. cbn [wrap_err mbind outcome_bind] in *. rewrite V in E. cbn [mbind outcome_bind] in E.
  apply bind_Ok in E as (t2 & A & E). apply Int_Add_Ok in A as [-> A].
  pose proof (tokens_nonneg v d : 0 <= delegation_tokens v d).
  apply sum_delegations_shift in E as [L E].
  apply sum_delegations_shift in P as [P _]. cbn [mbind outcome_bind].
  rewrite E by lia. f_equal. lia.
Qed.

(** The loop reads at most the first hundred delegations: below a hundred one
    round gives the sum over all of them. *)
Lemma total_delegated_below fuel (x : X) addr acc :
  zlen (all_delegations x addr) < 100 ->
  total_delegated_loop (Datatypes.S fuel) x addr acc = sum_delegations x (all_delegations x addr) acc.
Proof.
  intros L. cbn [total_delegated_loop]. rewrite GetDelegatorDelegations_spec.
  cbn [mbind outcome_bind]. unfold zlen in *.
  rewrite take_ge by lia. destruct (sum_delegations _ _ _); try done. cbn [mbind outcome_bind].
  by rewrite (proj2 (Z.eqb_neq _ _)) by lia.
Qed.

Lemma GetTotalDelegatedAmount_below (x : X) addr :
  zlen (all_delegations x addr) < 100 ->
  GetTotalDelegatedAmount x addr = sum_delegations x (all_delegations x addr) 0.
Proof. apply total_delegated_below. Qed.

(** From a hundred on, every round reads the same hundred again: no number of
    rounds gives a result. *)
Lemma total_delegated_stuck fuel (x : X) addr acc t :
  100 <= zlen (all_delegations x addr) -> total_delegated_loop fuel x addr acc <> Ok t.
Proof.
  intros L. revert acc. induction fuel as [|fuel IH]; intros acc; [done|].
  cbn [total_delegated_loop]. rewrite GetDelegatorDelegations_spec. cbn [mbind outcome_bind].
  intros (t1 & _ & E)%bind_Ok. unfold zlen in *. rewrite length_take in E.
  rewrite (proj2 (Z.eqb_eq _ _)) in E by lia. by eapply IH.
Qed.

(** An account with fewer than a hundred delegations gets the sum of the
    tokens of all its delegations; for one with a hundred or more the loop of
    GetTotalDelegatedAmount has no result, however many rounds it is given. *)
Theorem total_delegated_hundred (x : X) addr :
  (zlen (all_delegations x addr) < 100 -> forall rounds,
     total_delegated_loop (Datatypes.S rounds) x addr 0
       = sum_delegations x (all_delegations x addr) 0) /\
  (100 <= zlen (all_delegations x addr) -> forall rounds t,
     total_delegated_loop rounds x addr 0 <> Ok t).
Proof.
  split; [intros; by apply total_delegated_below|intros; by apply total_delegated_stuck].
Qed.

Lemma GetTotalDelegatedAmount_nonneg (x : X) addr t :
  GetTotalDelegatedAmount x addr = Ok t -> 0 <= t /\ int_ok t = true.
Proof.
  intros E. destruct (Z.lt_ge_cases (zlen (all_delegations x addr)) 100) as [L|L].
  - rewrite GetTotalDelegatedAmount_below in E by done.
    assert (forall ds acc, int_ok acc = true -> sum_delegations x ds acc = Ok t -> int_ok t = true) as R.
    { induction ds as [|d ds IH]; intros acc A S; cbn [sum_delegations] in S; [by injection S as <-|].
      destruct (ValAddressFromBech32 _) as [va| | |]; try done. cbn [wrap_err mbind outcome_bind] in S.
      ok_inv S. int_facts. eauto. }
    split; [|by eapply R; [|exact E]]. by apply sum_delegations_shift in E as [E _].
  - by apply total_delegated_stuck in E.
Qed.
End Delegations.

Section KeeperSpec.
Context `{SdkMathLaws} `{!SdkTypes} {S : Type} `{!KVStore S} `{!KVStoreLaws S}
  {X : Type} `{!StakingKeeper X} `{!StakingLaws X} `{!BankKeeper X}.

(** What the account has locked on the day of the block. *)
Definition locked_on (ctx : Ctx) (ls : list Lock) : Z :=
  amount_of (IsLocked (midnight (BlockTime ctx))) ls.

Lemma GetLockedAmount_intro (ctx : Ctx) (s : S) addr ls :
  locks_rel (kv_view s) addr ls -> locks_inv ls -> int_ok (locked_on ctx ls) = true ->
  GetLockedAmountByAddress ctx s addr = Ok (locked_on ctx ls).
Proof.
  intros R [W _] I. unfold GetLockedAmountByAddress.
  rewrite (proj2 (GetLocksByAddress_iff _ _ _) R). cbn [mbind outcome_bind].
  rewrite sum_locked_intro; [done..|]. by rewrite Z.add_0_l.
Qed.

Lemma GetLockedAmount_Ok (ctx : Ctx) (s : S) addr ls t :
  locks_rel (kv_view s) addr ls -> GetLockedAmountByAddress ctx s addr = Ok t ->
  t = locked_on ctx ls.
Proof.
  intros R E. unfold GetLockedAmountByAddress in E.
  rewrite (proj2 (GetLocksByAddress_iff _ _ _) R) in E. cbn [mbind outcome_bind] in E.
  by apply sum_locked_Ok in E.
Qed.

Lemma checkLockupInvariantExcluding_iff (ctx : Ctx) (s : S) (x : X) addr ex ls D e :
  locks_rel (kv_view s) addr ls -> locks_inv ls -> int_ok (locked_on ctx ls) = true ->
  GetTotalDelegatedAmount x addr = Ok D ->
  match ex with Some v => GetDelegationAmount x addr v = Ok e | None => e = 0 end ->
  0 <= e <= D ->
  checkLockupInvariantExcluding ctx s x addr ex = Ok tt
    <-> locked_on ctx ls = 0 \/ locked_on ctx ls <= D - e.
Proof.
  intros R W I ED EE B. unfold checkLockupInvariantExcluding.
  rewrite (GetLockedAmount_intro ctx s addr ls R W I). cbn [mbind outcome_bind].
  destruct (Z.eqb_spec (locked_on ctx ls) 0); [tauto|]. rewrite ED. cbn [mbind outcome_bind].
  assert (match ex with
          | Some v => a ← GetDelegationAmount x addr v; Int_Sub D a
          | None => Ok D end = Ok (D - e)) as ->.
  { destruct ex; [|f_equal; lia]. rewrite EE. cbn [mbind outcome_bind]. apply Int_Sub_intro.
    apply GetTotalDelegatedAmount_nonneg in ED as [_ ED]. apply (int_ok_between _ D); [done|lia]. }
  cbn [mbind outcome_bind]. destruct (Z.ltb_spec (D - e) (locked_on ctx ls)); split; try done; lia.
Qed.

Lemma AfterDelegationModified_unmarked (ctx : Ctx) (s : S) (x : X) addr v ls D :
  locks_rel (kv_view s) addr ls -> locks_inv ls -> int_ok (locked_on ctx ls) = true ->
  GetTotalDelegatedAmount x addr = Ok D -> isRedelegating ctx addr v = false ->
  AfterDelegationModified ctx s x addr v = Ok tt
    <-> locked_on ctx ls = 0 \/ locked_on ctx ls <= D.
Proof.
  intros R W I ED M. unfold AfterDelegationModified, checkLockupInvariant. rewrite M.
  pose proof (GetTotalDelegatedAmount_nonneg _ _ _ ED).
  rewrite (checkLockupInvariantExcluding_iff _ _ _ _ _ _ D 0 R W I ED) by (done || lia).
  by rewrite Z.sub_0_r.
Qed.

(** C11 The staking hook that runs after a delegation changes accepts exactly
    when the pair is marked as redelegating, the account has nothing locked on
    the day of the block, or what it still has delegated covers what it has
    locked. *)
Theorem delegation_hook_accepts (ctx : Ctx) (s : S) (x : X) addr v ls D :
  locks_rel (kv_view s) addr ls -> locks_inv ls -> int_ok (locked_on ctx ls) = true ->
  GetTotalDelegatedAmount x addr = Ok D ->
  AfterDelegationModified ctx s x addr v = Ok tt
    <-> isRedelegating ctx addr v = true \/ locked_on ctx ls = 0 \/ locked_on ctx ls <= D.
Proof.
  intros R W I ED. destruct (isRedelegating ctx addr v) eqn:M.
  - unfold AfterDelegationModified. rewrite M. tauto.
  - rewrite AfterDelegationModified_unmarked by done. split; [tauto|]. by intros [[=]|?].
Qed.

Lemma removal_covers (ctx : Ctx) (s : S) (x : X) addr v d pre post ls :
  locks_rel (kv_view s) addr ls -> locks_inv ls -> int_ok (locked_on ctx ls) = true ->
  zlen (all_delegations x addr) < 100 ->
  all_delegations x addr = pre ++ d :: post -> GetDelegation x addr v = Ok d ->
  isRedelegating ctx addr v = false ->
  BeforeDelegationRemoved ctx s x addr v = Ok tt ->
  locked_on ctx ls = 0 \/
  exists rest, sum_delegations x (pre ++ post) 0 = Ok rest /\ locked_on ctx ls <= rest.
Proof.
  intros R W I L A G M E. unfold BeforeDelegationRemoved in E. rewrite M in E.
  destruct (GetDelegation_spec _ _ _ _ G) as [_ VA].
  assert (E' := E). unfold checkLockupInvariantExcluding in E'.
  rewrite (GetLockedAmount_intro ctx s addr ls R W I) in E'. cbn [mbind outcome_bind] in E'.
  destruct (Z.eqb_spec (locked_on ctx ls) 0); [by left|]. right.
  apply bind_Ok in E' as (D & ED & E'). apply bind_Ok in E' as (De & EE & _).
  apply bind_Ok in EE as (e & EE & _). assert (EV := EE). unfold GetDelegationAmount in EV.
  rewrite G in EV. cbn [catch] in EV. apply bind_Ok in EV as (vd & EV & [= <-]).
  assert (ED' := ED). rewrite GetTotalDelegatedAmount_below, A in ED' by done.
  pose proof (sum_delegations_without _ _ _ _ _ _ _ ED' VA EV) as S'.
  pose proof (tokens_nonneg vd d : 0 <= delegation_tokens vd d).
  pose proof (proj1 (sum_delegations_shift _ _ _ _ S')).
  apply (checkLockupInvariantExcluding_iff _ _ _ _ (Some v) _ _ _ R W I ED EE) in E; [|lia].
  eexists. split; [exact S'|]. lia.
Qed.

(** C10 Removing a delegation is accepted (outside a redelegation) only when
    the account's remaining delegations still cover everything it has locked. *)
Theorem removal_keeps_locks_covered (ctx : Ctx) (s : S) (x : X) addr v d pre post ls :
  locks_rel (kv_view s) addr ls -> locks_inv ls -> int_ok (locked_on ctx ls) = true ->
  zlen (all_delegations x addr) < 100 ->
  all_delegations x addr = pre ++ d :: post -> GetDelegation x addr v = Ok d ->
  isRedelegating ctx addr v = false ->
  BeforeDelegationRemoved ctx s x addr v = Ok tt ->
  locked_on ctx ls = 0 \/
  exists rest, sum_delegations x (pre ++ post) 0 = Ok rest /\ locked_on ctx ls <= rest.
Proof. apply removal_covers. Qed.

(** What an accepted transfer of a positive amount shows of the sender. *)
Lemma SendRestrictionFn_Ok (ctx : Ctx) (s : S) (x : X) from to amt ls denom A to' :
  locks_rel (kv_view s) from ls -> BondDenom x = Ok denom ->
  Coins_AmountOf amt denom = Ok A -> 0 < A ->
  SendRestrictionFn ctx s x from to amt = Ok to' ->
  to' = to /\
  (locked_on ctx ls = 0 \/ exists D, GetTotalDelegatedAmount x from = Ok D /\
   (locked_on ctx ls <= D \/ A + (locked_on ctx ls - D) <= Amount (GetBalance x from denom))).
Proof.
  intros R BD CA A0 E. unfold SendRestrictionFn in E.
  rewrite BD in E. cbn [mbind outcome_bind] in E. rewrite CA in E. cbn [mbind outcome_bind] in E.
  rewrite (proj2 (Z.eqb_neq _ _)) in E by lia. apply bind_Ok in E as (L & EL & E).
  pose proof (GetLockedAmount_Ok _ _ _ _ _ R EL) as ->.
  destruct (Z.eqb_spec (locked_on ctx ls) 0); [injection E as <-; auto|].
  apply bind_Ok in E as (D & ED & E). apply bind_Ok in E as (LD & ELD & E). int_facts.
  destruct (Z.ltb_spec (locked_on ctx ls - D) 0).
  { injection E as <-. split; [done|]. right. exists D. split; [done|]. lia. }
  destruct (Z.eqb_spec (locked_on ctx ls - D) 0).
  { injection E as <-. split; [done|]. right. exists D. split; [done|]. lia. }
  apply bind_Ok in E as (av & EAv & E). int_facts.
  destruct (Z.ltb_spec (Amount (GetBalance x from denom) - (locked_on ctx ls - D)) 0).
  - by rewrite (proj2 (Z.ltb_lt _ _)) in E by lia.
  - destruct (Z.ltb_spec (Amount (GetBalance x from denom) - (locked_on ctx ls - D)) A); [done|].
    injection E as <-. split; [done|]. right. exists D. split; [done|]. lia.
Qed.

(** C12 The bank send restriction lets an account send an amount of the bond
    denomination exactly when the amount is zero, its delegations cover its
    locks, or the balance left covers the locked amount above its delegations;
    otherwise it fails with insufficient funds. *)
Theorem send_restriction_spec (ctx : Ctx) (s : S) (x : X) from to amt ls D denom A :
  locks_rel (kv_view s) from ls -> locks_inv ls -> int_ok (locked_on ctx ls) = true ->
  GetTotalDelegatedAmount x from = Ok D -> BondDenom x = Ok denom ->
  Coins_AmountOf amt denom = Ok A -> 0 <= A ->
  let L := locked_on ctx ls in
  let B := Amount (GetBalance x from denom) in
  0 <= B -> int_ok B = true ->
  (A = 0 \/ L <= D \/ A + (L - D) <= B ->
   SendRestrictionFn ctx s x from to amt = Ok to) /\
  (~ (A = 0 \/ L <= D \/ A + (L - D) <= B) ->
   exists m, SendRestrictionFn ctx s x from to amt = Err (SdkErr ErrInsufficientFunds m)).
Proof.
  intros R W I ED BD CA A0 L B B0 BI. unfold SendRestrictionFn.
  rewrite BD. cbn [mbind outcome_bind]. rewrite CA. cbn [mbind outcome_bind].
  rewrite (GetLockedAmount_intro ctx s from ls R W I). fold L. fold B.
  rewrite ED. cbn [mbind outcome_bind].
  apply GetTotalDelegatedAmount_nonneg in ED as [D0 DI].
  pose proof (amount_of_nonneg (IsLocked (midnight (BlockTime ctx))) ls (proj1 W)) as L0.
  fold (locked_on ctx ls) in L0. fold L in L0. fold L in I.
  apply int_ok_spec in I, DI, BI.
  rewrite (Int_Sub_intro L D) by (apply int_ok_spec; lia). cbn [mbind outcome_bind].
  destruct (Z.eqb_spec A 0); [split; [done|lia]|].
  destruct (Z.eqb_spec L 0); [split; [done|lia]|].
  destruct (Z.ltb_spec (L - D) 0); [split; [done|lia]|].
  destruct (Z.eqb_spec (L - D) 0); [split; [done|lia]|].
  rewrite Int_Sub_intro by (apply int_ok_spec; lia). cbn [mbind outcome_bind].
  destruct (Z.ltb_spec (B - (L - D)) 0).
  - rewrite (proj2 (Z.ltb_lt _ _)) by lia. split; [lia|eauto].
  - destruct (Z.ltb_spec (B - (L - D)) A); split; try done; try lia. eauto.
Qed.
End KeeperSpec.
