(* ===== verification/LockupMsgs.v ===== *)
(** The lockup module's messages (x/lockup/types/message_*.go, tx.pb.go,
    extension.pb.go, output.pb.go) and their handlers
    (x/lockup/keeper/msg_server_*.go).  A handler maps the world it starts from
    to the world it leaves; on an error or a panic the transaction's writes are
    discarded, so those outcomes carry no world. *)

From stdpp Require Import base list strings gmap.
From Stdlib Require Import ZArith Lia.
From S2P Require Import Prelude GoTime Sdk LockPb LockStore LockSpec LockupKeeper.

Local Open Scope Z_scope.

(** * Messages *)

Record MsgLock := MkMsgLock {
  MsgLock_Address : string;
  MsgLock_UnlockDate : string;
  MsgLock_Amount : Coin;
}.

Record Extension := MkExtension {
  Extension_FromDate : string;
  Extension_ToDate : string;
  Extension_Amount : Coin;
}.

(** The elements of [Extensions] and [Outputs] are pointers. *)
Record MsgExtend := MkMsgExtend {
  MsgExtend_Address : string;
  MsgExtend_Extensions : list (option Extension);
}.

Record MsgSendDelegateAndLock := MkMsgSendDelegateAndLock {
  MsgSend_FromAddress : string;
  MsgSend_ToAddress : string;
  MsgSend_ValidatorAddress : string;
  MsgSend_UnlockDate : string;
  MsgSend_Amount : Coin;
}.

Record MultiSendDelegateAndLockOutput := MkOutput {
  Output_FromAddress : string;
  Output_ToAddress : string;
  Output_ValidatorAddress : string;
  Output_UnlockDate : string;
  Output_Amount : Coin;
}.

Record MsgMultiSendDelegateAndLock := MkMsgMultiSendDelegateAndLock {
  MsgMulti_FromAddress : string;
  MsgMulti_TotalAmount : Coin;
  MsgMulti_Outputs : list (option MultiSendDelegateAndLockOutput);
}.

Definition NewMsgLock (lockupAddress unlockDate : string) (amount : Coin) : MsgLock :=
  MkMsgLock lockupAddress unlockDate amount.
Definition NewMsgExtend (extendingAddress : string) (extensions : list (option Extension))
    : MsgExtend := MkMsgExtend extendingAddress extensions.
Definition NewMsgSendDelegateAndLock (fromAddress toAddress ValidatorAddress : string)
    (amount : Coin) (unlockDate : string) : MsgSendDelegateAndLock :=
  MkMsgSendDelegateAndLock fromAddress toAddress ValidatorAddress unlockDate amount.
Definition NewMsgMultiSendDelegateAndLock (fromAddress : string) (TotalAmount : Coin)
    (outputs : list (option MultiSendDelegateAndLockOutput)) : MsgMultiSendDelegateAndLock :=
  MkMsgMultiSendDelegateAndLock fromAddress TotalAmount outputs.

(** x/lockup/types/events.go. *)
Definition EventTypeLock : string := "lock".
Definition EventTypeLockExtended : string := "lock_extended".
Definition AttributeKeyLockAddress : string := "address".
Definition AttributeKeyUnlockDate : string := "unlock_date".
Definition AttributeKeyOldUnlockDate : string := "old_unlock_date".

(** [time.Parse(time.DateOnly, s)] with the error the caller returns. *)
Definition parse_date_or (e : error) (d : string) : outcome Time :=
  from_option_err e (ParseDateOnly d).

(** * Stateless validation *)

Section Validate.
Context `{SdkTypes}.

Definition MsgLock_ValidateBasic (msg : MsgLock) : outcome unit :=
  _ ← wrap_err (fun _ => SdkErr ErrInvalidAddress "invalid lockupAddress address (%s)")
        (AccAddressFromBech32 (MsgLock_Address msg));
  if String.eqb (MsgLock_UnlockDate msg) ""
  then Err (ErrInvalidDate "invalid unlock date") else
  _ ← parse_date_or (ErrInvalidDate "invalid unlock date format: %s") (MsgLock_UnlockDate msg);
  if negb (Coin_IsPositive (MsgLock_Amount msg))
  then Err (SdkErr ErrInvalidCoins "invalid lock amount: %s")
  else Ok tt.

Fixpoint validate_extensions (es : list (option Extension)) : outcome unit :=
  match es with
  | [] => Ok tt
  | None :: _ => Err (SdkErr ErrInvalidRequest "extension cannot be nil")
  | Some extension :: rest =>
      if String.eqb (Extension_FromDate extension) ""
      then Err (ErrInvalidDate "extension from date cannot be empty") else
      fromTime ← parse_date_or
        (ErrInvalidDate "extension at index %d has invalid 'from' date format: %s")
        (Extension_FromDate extension);
      if negb (Coin_IsPositive (Extension_Amount extension))
      then Err (SdkErr ErrInvalidCoins "invalid lock amount: %s") else
      if String.eqb (Extension_ToDate extension) ""
      then Err (ErrInvalidDate "extension to date cannot be empty") else
      toTime ← parse_date_or (ErrInvalidDate "invalid unlock date format: %s")
        (Extension_ToDate extension);
      if negb (After toTime fromTime)
      then Err (SdkErr ErrInvalidRequest "unlock date must be after from date")
      else validate_extensions rest
  end.

Definition MsgExtend_ValidateBasic (msg : MsgExtend) : outcome unit :=
  _ ← wrap_err (fun _ => SdkErr ErrInvalidAddress "invalid extendingAddress address (%s)")
        (AccAddressFromBech32 (MsgExtend_Address msg));
  if zlen (MsgExtend_Extensions msg) =? 0
  then Err (SdkErr ErrInvalidRequest "at least one extension is required")
  else validate_extensions (MsgExtend_Extensions msg).

Definition MsgSendDelegateAndLock_ValidateBasic (msg : MsgSendDelegateAndLock) : outcome unit :=
  _ ← wrap_err (fun _ => SdkErr ErrInvalidAddress "invalid fromAddress address (%s)")
        (AccAddressFromBech32 (MsgSend_FromAddress msg));
  Ok tt.

Definition MsgMultiSendDelegateAndLock_ValidateBasic (msg : MsgMultiSendDelegateAndLock)
    : outcome unit :=
  _ ← wrap_err (fun _ => SdkErr ErrInvalidAddress "invalid fromAddress address (%s)")
        (AccAddressFromBech32 (MsgMulti_FromAddress msg));
  Ok tt.
End Validate.

(** * Handlers *)

Section Handlers.
Context `{SdkMath} `{SdkTypes} {S : Type} `{KVStore S} {X : Type} `{AccountKeeper X}
  `{StakingKeeper X} `{BankKeeper X}.

(** The step [Lock] and [Extend] share: add an amount to the lock of a date, or
    create it. *)
Definition add_to_lock (s : S) (addr : bytes) (date : string) (amount : Z) : outcome S :=
  found ← GetLockByAddressAndDate s addr date;
  match found with
  | Some (existing, idx) =>
      newAmount ← Int_Add (LockAmount existing) amount;
      UpdateLockByAddressAndIndex s addr idx (MkLock (UnlockDate existing) newAmount)
  | None => SetLockByAddress s addr (MkLock date amount)
  end.

(** The step of [Extend] that takes the amount out of the lock it starts from. *)
Definition take_from_lock (s : S) (addr : bytes) (date : string) (amountToMove : Z)
    : outcome S :=
  found ← GetLockByAddressAndDate s addr date;
  match found with
  | None => Err (ErrLockupNotFound "no lockup found for from date (%s)")
  | Some (existing, idx) =>
      if LockAmount existing <? amountToMove
      then Err (SdkErr ErrInvalidRequest "extension amount exceeds existing lock amount date (%s)")
      else if LockAmount existing =? amountToMove
      then DeleteLockByAddressAndIndex s addr idx
      else
        newAmount ← Int_Sub (LockAmount existing) amountToMove;
        UpdateLockByAddressAndIndex s addr idx (MkLock (UnlockDate existing) newAmount)
  end.

Definition MsgServer_Lock (ctx : Ctx) (w : World S X) (msg : MsgLock) : outcome (World S X) :=
  let amount := Amount (MsgLock_Amount msg) in
  bondDenom ← BondDenom (w_ext w);
  if negb (String.eqb (Denom (MsgLock_Amount msg)) bondDenom)
  then Err (SdkErr ErrInvalidRequest "invalid denom: %s, expected: %s") else
  address ← wrap_err (fun _ => SdkErr ErrInvalidAddress "invalid lockup address: %s")
              (AccAddressFromBech32 (MsgLock_Address msg));
  if negb (Coin_IsPositive (MsgLock_Amount msg))
  then Err (SdkErr ErrInvalidCoins "invalid lock amount: %s") else
  unlockDate ← parse_date_or (SdkErr ErrInvalidRequest "invalid unlock date format: %s")
                 (MsgLock_UnlockDate msg);
  let blockDay := midnight (BlockTime ctx) in
  if After blockDay unlockDate || Equal blockDay unlockDate
  then Err (SdkErr ErrInvalidRequest "unlock date must be in the future") else
  if Before (AddDate blockDay 2 0 0) unlockDate
  then Err (SdkErr ErrInvalidRequest "unlock date cannot be more than 2 years from now") else
  currentLockedAmount ← GetLockedAmountByAddress ctx (w_store w) address;
  totalDelegatedAmount ← GetTotalDelegatedAmount (w_ext w) address;
  newLocked ← Int_Add currentLockedAmount amount;
  if totalDelegatedAmount <? newLocked
  then Err (ErrInsufficientDelegations
    "insufficient delegated tokens to create new locks by the requested amount: %s < %s") else
  s ← add_to_lock (w_store w) address (MsgLock_UnlockDate msg) amount;
  s ← AddToExpirationQueue s unlockDate address amount;
  Ok (emit (set_store w s)
    [NewEvent EventTypeLock
       [(AttributeKeyLockAddress, MsgLock_Address msg);
        (AttributeKeyUnlockDate, MsgLock_UnlockDate msg);
        (AttributeKeyAmount, Int_String amount)]]).

(** One round of the loop of [Extend]. *)
Definition extend_one (ctx : Ctx) (s : S) (x : X) (msgAddress : string) (addr : bytes)
    (extension : Extension) : outcome (S * Event) :=
  bondDenom ← BondDenom x;
  if negb (String.eqb (Denom (Extension_Amount extension)) bondDenom)
  then Err (SdkErr ErrInvalidRequest "invalid denom: %s, expected: %s") else
  fromDate ← parse_date_or (SdkErr ErrInvalidRequest "invalid from date format: %s")
               (Extension_FromDate extension);
  toDate ← parse_date_or (SdkErr ErrInvalidRequest "invalid to date format (%s)")
             (Extension_ToDate extension);
  if negb (After toDate fromDate)
  then Err (SdkErr ErrInvalidRequest "to date must be after from date") else
  let blockDay := midnight (BlockTime ctx) in
  if After blockDay toDate || Equal blockDay toDate
  then Err (SdkErr ErrInvalidRequest "to date must be in the future") else
  if Before (AddDate blockDay 2 0 0) toDate
  then Err (SdkErr ErrInvalidRequest "to date cannot be more than 2 years from now") else
  let amountToMove := Amount (Extension_Amount extension) in
  s ← take_from_lock s addr (Extension_FromDate extension) amountToMove;
  s ← add_to_lock s addr (Extension_ToDate extension) amountToMove;
  s ← RemoveFromExpirationQueue s fromDate addr amountToMove;
  s ← AddToExpirationQueue s toDate addr amountToMove;
  Ok (s, NewEvent EventTypeLockExtended
           [(AttributeKeyLockAddress, msgAddress);
            (AttributeKeyOldUnlockDate, Extension_FromDate extension);
            (AttributeKeyUnlockDate, Extension_ToDate extension);
            (AttributeKeyAmount, Int_String amountToMove)]).

Fixpoint extend_loop (ctx : Ctx) (s : S) (x : X) (msgAddress : string) (addr : bytes)
    (extensions : list (option Extension)) (events : list Event) : outcome (S * list Event) :=
  match extensions with
  | [] => Ok (s, events)
  | None :: _ =>
      _ ← BondDenom x;
      Panic NilDeref
  | Some extension :: rest =>
      '(s', ev) ← extend_one ctx s x msgAddress addr extension;
      extend_loop ctx s' x msgAddress addr rest (events ++ [ev])
  end.

Definition Extend (ctx : Ctx) (w : World S X) (msg : MsgExtend) : outcome (World S X) :=
  addr ← wrap_err (fun _ => SdkErr ErrInvalidAddress "invalid lockup address: %s")
           (AccAddressFromBech32 (MsgExtend_Address msg));
  match GetAccount (w_ext w) addr with
  | None => Err (SdkErr ErrNotFound "no account found for address: %s")
  | Some _ =>
      '(s, events) ← extend_loop ctx (w_store w) (w_ext w) (MsgExtend_Address msg) addr
                       (MsgExtend_Extensions msg) [];
      Ok (emit (set_store w s) events)
  end.

Definition SendDelegateAndLock (ctx : Ctx) (w : World S X) (msg : MsgSendDelegateAndLock)
    : outcome (World S X) :=
  if negb (Coin_IsPositive (MsgSend_Amount msg))
  then Err (SdkErr ErrInvalidCoins "invalid amount: %s") else
  fromAddr ← wrap_err (fun _ => SdkErr ErrInvalidAddress "invalid from address: %s")
               (AccAddressFromBech32 (MsgSend_FromAddress msg));
  toAddr ← wrap_err (fun _ => SdkErr ErrInvalidAddress "invalid to address: %s")
             (AccAddressFromBech32 (MsgSend_ToAddress msg));
  bondDenom ← BondDenom (w_ext w);
  if negb (String.eqb (Denom (MsgSend_Amount msg)) bondDenom)
  then Err (SdkErr ErrInvalidRequest "invalid denom: %s, expected: %s") else
  coins ← NewCoins [MsgSend_Amount msg];
  x ← SendCoins (SendRestrictionFn ctx (w_store w)) (w_ext w) fromAddr toAddr coins;
  valAddr ← wrap_err (fun _ => SdkErr ErrInvalidAddress "invalid validator address: %s")
              (ValAddressFromBech32 (MsgSend_ValidatorAddress msg));
  validator ← GetValidator x valAddr;
  '(x, newShares) ← Delegate (Hooks ctx (w_store w)) x toAddr (Amount (MsgSend_Amount msg))
                      Unbonded validator true;
  let w := emit (set_ext w x)
    [NewEvent EventTypeDelegate
       [(AttributeKeyValidator, MsgSend_ValidatorAddress msg);
        (AttributeKeyDelegator, MsgSend_ToAddress msg);
        (AttributeKeyAmount, Coin_String (MsgSend_Amount msg));
        (AttributeKeyNewShares, Dec_String newShares)]] in
  MsgServer_Lock ctx w (MkMsgLock (MsgSend_ToAddress msg) (MsgSend_UnlockDate msg) (MsgSend_Amount msg)).

(** The first loop of [MultiSendDelegateAndLock]. *)
Fixpoint total_outputs (outputs : list (option MultiSendDelegateAndLockOutput)) (total : Z)
    : outcome Z :=
  match outputs with
  | [] => Ok total
  | None :: _ => Panic NilDeref
  | Some output :: rest =>
      if negb (Coin_IsPositive (Output_Amount output))
      then Err (SdkErr ErrInvalidCoins "invalid amount in output to %s: %s") else
      total' ← Int_Add total (Amount (Output_Amount output));
      total_outputs rest total'
  end.

(** Its second loop. *)
Fixpoint send_outputs (ctx : Ctx) (w : World S X) (from : string)
    (outputs : list (option MultiSendDelegateAndLockOutput)) : outcome (World S X) :=
  match outputs with
  | [] => Ok w
  | None :: _ => Panic NilDeref
  | Some output :: rest =>
      w' ← SendDelegateAndLock ctx w
             (MkMsgSendDelegateAndLock from (Output_ToAddress output)
                (Output_ValidatorAddress output) (Output_UnlockDate output)
                (Output_Amount output));
      send_outputs ctx w' from rest
  end.

Definition MultiSendDelegateAndLock (ctx : Ctx) (w : World S X)
    (msg : MsgMultiSendDelegateAndLock) : outcome (World S X) :=
  _ ← wrap_err (fun _ => SdkErr ErrInvalidAddress "invalid from address: %s")
        (AccAddressFromBech32 (MsgMulti_FromAddress msg));
  totalOutputs ← total_outputs (MsgMulti_Outputs msg) 0;
  if negb (Amount (MsgMulti_TotalAmount msg) =? totalOutputs)
  then Err (SdkErr ErrInvalidRequest "input %s does not match sum of outputs %s")
  else send_outputs ctx w (MsgMulti_FromAddress msg) (MsgMulti_Outputs msg).
End Handlers.
