(* ===== verification/LockupInv.v ===== *)
(** The invariant of the lockup module's store and the abstract ledger it
    represents, with the effect of the shared steps of the handlers on both. *)

From stdpp Require Import base list strings gmap sorting.
From Stdlib Require Import ZArith Lia.
From S2P Require Import Prelude GoTime Sdk LockPb LockStore LockSpec LockupKeeper LockupMsgs.

Local Open Scope Z_scope.

(** * The invariant *)

Section Invariant.
Context `{SdkMath}.

(** Every account's list is readable and well formed, the expiration queue holds
    for every date exactly the amount of the account's lock of that date, and
    the store has no other keys. *)
Record lockup_inv (m : gmap bytes bytes) : Prop := {
  inv_locks a : exists ls, locks_rel m a ls /\ locks_inv ls;
  inv_queue a ls d t :
    locks_rel m a ls -> ParseDateOnly d = Some t ->
    queue_rel m t a (amount_of (String.eqb d) ls);
  inv_keys k v :
    m !! k = Some v ->
    (exists a, k = GetLocksByAddressKey a) \/
    (exists d t a, ParseDateOnly d = Some t /\ 0 <= t /\ k = GetLockExpirationKey t a);
}.

(** The abstract ledger: how much an account has locked until a date. *)
Definition ledger := bytes -> string -> Z.

Definition ledger_add (f : ledger) (a : bytes) (d : string) (amt : Z) : ledger :=
  fun a' d' => if bool_decide (a' = a) && String.eqb d' d then f a' d' + amt else f a' d'.

(** Moving an amount to another date of the account, if it is there. *)
Definition ledger_move (f : ledger) (a : bytes) (e : Extension) : option ledger :=
  let amt := Amount (Extension_Amount e) in
  if amt <=? f a (Extension_FromDate e)
  then Some (ledger_add (ledger_add f a (Extension_FromDate e) (- amt)) a (Extension_ToDate e) amt)
  else None.

(** The extensions of a message, in order. *)
Fixpoint ledger_extend (f : ledger) (a : bytes) (es : list (option Extension)) : option ledger :=
  match es with
  | [] => Some f
  | None :: _ => None
  | Some e :: es' => g ← ledger_move f a e; ledger_extend g a es'
  end.

Definition represents (m : gmap bytes bytes) (f : ledger) : Prop :=
  lockup_inv m /\ forall a ls d, locks_rel m a ls -> amount_of (String.eqb d) ls = f a d.

(** A change of the store that concerns one account: it keeps the entries of all
    others and adds no keys but those of the account's list and dates. *)
Record changes_account (addr : bytes) (m m' : gmap bytes bytes) : Prop := {
  ch_locks a : a <> addr -> m' !! GetLocksByAddressKey a = m !! GetLocksByAddressKey a;
  ch_queue t a : a <> addr -> unix_ok t ->
    m' !! GetLockExpirationKey t a = m !! GetLockExpirationKey t a;
  ch_keys k : m' !! k = m !! k \/ k = GetLocksByAddressKey addr \/
    exists d t, ParseDateOnly d = Some t /\ 0 <= t /\ k = GetLockExpirationKey t addr;
}.

Lemma parse_unix_ok d t : ParseDateOnly d = Some t -> unix_ok t.
Proof. intros [? _]%ParseDateOnly_unix. unfold unix_ok. lia. Qed.

(** Two dates with one queue key are one date, of one account. *)
Lemma queue_key_inj d t a e u b :
  ParseDateOnly d = Some t -> ParseDateOnly e = Some u ->
  GetLockExpirationKey t a = GetLockExpirationKey u b -> t = u /\ d = e /\ a = b.
Proof.
  intros D E K. apply GetLockExpirationKey_inj in K as [K ->]; [|by eapply parse_unix_ok..].
  apply ParseDateOnly_unix in D as D'. apply ParseDateOnly_unix in E as E'.
  assert (t = u) as <- by (destruct D' as [_ <-], E' as [_ <-]; by rewrite K).
  split; [done|]. split; [by eapply ParseDateOnly_inj|done].
Qed.

Lemma lockup_inv_empty : lockup_inv ∅.
Proof.
  split.
  - intros a. exists []. split; [|by repeat constructor]. unfold locks_rel. by rewrite lookup_empty.
  - intros a ls d t R _. unfold locks_rel in R. rewrite lookup_empty in R. subst ls.
    unfold queue_rel. by rewrite lookup_empty.
  - intros k v. by rewrite lookup_empty.
Qed.

Lemma represents_empty : represents ∅ (fun _ _ => 0).
Proof.
  split; [apply lockup_inv_empty|]. intros a ls d R. unfold locks_rel in R.
  rewrite lookup_empty in R. by subst.
Qed.

(** A queued amount that is not zero belongs to a date from 1970 on. *)
Lemma queue_time_nonneg m a ls d t :
  lockup_inv m -> locks_rel m a ls -> ParseDateOnly d = Some t ->
  amount_of (String.eqb d) ls <> 0 -> 0 <= t.
Proof.
  intros I R D N. pose proof (inv_queue _ I _ _ _ _ R D) as Q. unfold queue_rel in Q.
  destruct (m !! GetLockExpirationKey t a) as [bz|] eqn:E; [|done].
  destruct (inv_keys _ I _ _ E) as [[b K]|(e & u & b & P & U & K)].
  - symmetry in K. by apply keys_disjoint in K.
  - by apply (queue_key_inj d t a e u b) in K as (-> & _).
Qed.

Lemma changes_account_trans a m1 m2 m3 :
  changes_account a m1 m2 -> changes_account a m2 m3 -> changes_account a m1 m3.
Proof.
  intros [L1 Q1 K1] [L2 Q2 K2]. split.
  - intros b N. by rewrite L2, L1.
  - intros t b N U. by rewrite Q2, Q1.
  - intros k. destruct (K2 k) as [->|?]; auto.
Qed.

Lemma changes_account_locks a m m' :
  only_changes (GetLocksByAddressKey a) m m' -> changes_account a m m'.
Proof.
  intros F. split.
  - intros b N. apply F. by intros ->%(inj _).
  - intros t b N _. apply F. apply not_eq_sym, keys_disjoint.
  - intros k. destruct (decide (k = GetLocksByAddressKey a)); [tauto|]. left. by apply F.
Qed.

Lemma changes_account_queue a d t m m' :
  ParseDateOnly d = Some t -> 0 <= t ->
  only_changes (GetLockExpirationKey t a) m m' -> changes_account a m m'.
Proof.
  intros D T F. split.
  - intros b _. apply F, keys_disjoint.
  - intros u b N U. apply F. intros [_ E]%GetLockExpirationKey_inj; [done..|by eapply parse_unix_ok].
  - intros k. destruct (decide (k = GetLockExpirationKey t a)); [|left; by apply F].
    right. right. eauto.
Qed.

(** Rebuilding the invariant after a change of one account. *)
Lemma lockup_inv_update m m' addr ls' :
  lockup_inv m -> changes_account addr m m' ->
  locks_rel m' addr ls' -> locks_inv ls' ->
  (forall d t, ParseDateOnly d = Some t -> queue_rel m' t addr (amount_of (String.eqb d) ls')) ->
  lockup_inv m'.
Proof.
  intros I [FL FQ K] R W Q. split.
  - intros a. destruct (decide (a = addr)) as [->|N]; [eauto|].
    destruct (inv_locks _ I a) as (ls & L & V). exists ls. split; [|done].
    unfold locks_rel in *. by rewrite FL.
  - intros a ls d t L D. destruct (decide (a = addr)) as [->|N].
    + rewrite (locks_rel_fun _ _ _ _ L R). by apply Q.
    + unfold queue_rel. rewrite FQ by (done || by eapply parse_unix_ok).
      apply (inv_queue _ I _ _ _ _); [|done]. unfold locks_rel in *. by rewrite FL in L.
  - intros k v V. destruct (K k) as [E|[E|(d & t & D & T0 & E)]].
    + rewrite E in V. by eapply inv_keys.
    + eauto.
    + right. eauto 6.
Qed.

(** The same for the ledger. *)
Lemma represents_update m m' addr f g ls' :
  represents m f -> changes_account addr m m' ->
  locks_rel m' addr ls' -> locks_inv ls' ->
  (forall d t, ParseDateOnly d = Some t -> queue_rel m' t addr (amount_of (String.eqb d) ls')) ->
  (forall d, amount_of (String.eqb d) ls' = g addr d) ->
  (forall a d, a <> addr -> g a d = f a d) ->
  represents m' g.
Proof.
  intros [I F] C R W Q G O. split; [by eapply lockup_inv_update|].
  intros a ls d L. destruct (decide (a = addr)) as [->|N].
  - by rewrite (locks_rel_fun _ _ _ _ L R).
  - rewrite O by done. apply F. unfold locks_rel in *. by rewrite (ch_locks _ _ _ C) in L.
Qed.
End Invariant.

(** * The shared steps of the handlers *)

Section Steps.
Context `{SdkMathLaws} {S : Type} `{!KVStore S} `{!KVStoreLaws S}.

Lemma find_lock ls d i l idx :
  locks_inv ls -> find_by_date d ls i = Some (l, idx) ->
  exists pre post, ls = pre ++ l :: post /\ idx = i + zlen pre /\ UnlockDate l = d /\
    lock_ok l /\ amount_of (String.eqb d) ls = LockAmount l.
Proof.
  intros W (pre & post & -> & -> & <-)%find_by_date_Some. exists pre, post.
  rewrite amount_of_date by done. destruct W as [W _].
  apply Forall_app in W as [_ [W _]%Forall_cons]. auto.
Qed.

(** [ls'] is [ls] with [delta] more at the date [d]. *)
Definition amount_shift (d : string) (delta : Z) (ls ls' : list Lock) : Prop :=
  forall f, amount_of f ls' = amount_of f ls + (if f d then delta else 0).

Lemma amount_shift_mid pre l post a :
  amount_shift (UnlockDate l) (a - LockAmount l) (pre ++ l :: post)
    (pre ++ MkLock (UnlockDate l) a :: post).
Proof. intros f. rewrite !amount_of_app. simpl. case_match; lia. Qed.

Lemma amount_shift_delete pre l post :
  amount_shift (UnlockDate l) (- LockAmount l) (pre ++ l :: post) (pre ++ post).
Proof. intros f. rewrite !amount_of_app. simpl. case_match; lia. Qed.

(** The account's list becomes [ls'], which has [delta] more at [d]; nothing
    else changes. *)
Definition shifts_lock (s : S) (addr : bytes) (d : string) (delta : Z) (ls : list Lock)
    (o : outcome S) : Prop :=
  exists ls', locks_inv ls' /\ amount_shift d delta ls ls' /\ stores_locks s addr ls' o.

Lemma add_to_lock_spec s addr d amt ls :
  locks_rel (kv_view s) addr ls -> locks_inv ls -> is_Some (ParseDateOnly d) ->
  0 < amt -> int_ok amt = true ->
  if int_ok (amount_of (String.eqb d) ls + amt)
  then shifts_lock s addr d amt ls (add_to_lock s addr d amt)
  else exists p, add_to_lock s addr d amt = Panic p.
Proof.
  intros R W D A I. unfold add_to_lock. rewrite (GetLockByAddressAndDate_spec s addr d ls R).
  cbn [mbind outcome_bind]. destruct (find_by_date d ls 0) as [[l idx]|] eqn:F.
  - apply find_lock in F as (pre & post & -> & -> & <- & (Dl & Pl & _) & E); [|done]. rewrite E.
    destruct (Int_Add_spec (LockAmount l) amt) as [p ->].
    destruct (int_ok (LockAmount l + amt)) eqn:I'; [|by eexists].
    assert (locks_inv (pre ++ MkLock (UnlockDate l) (LockAmount l + amt) :: post)) as W'.
    { eapply locks_inv_update; [done| |done]. repeat split; simpl; [done|lia|done]. }
    eexists. split; [exact W'|]. split.
    + intros f. rewrite (amount_shift_mid pre l post (LockAmount l + amt) f). case_match; lia.
    + cbn [mbind outcome_bind]. by eapply UpdateLockByAddressAndIndex_spec.
  - apply find_by_date_None in F. rewrite amount_of_no_date, Z.add_0_l, I by done.
    assert (locks_inv (insert_by_date (MkLock d amt) ls)) as W'
      by (apply insert_by_date_inv; done).
    eexists. split; [exact W'|]. split; [|by apply SetLockByAddress_spec].
    intros f. apply insert_by_date_amount.
Qed.

Lemma take_from_lock_spec s addr d amt ls :
  locks_rel (kv_view s) addr ls -> locks_inv ls -> 0 < amt ->
  (amt <= amount_of (String.eqb d) ls ->
     shifts_lock s addr d (- amt) ls (take_from_lock s addr d amt)) /\
  (amount_of (String.eqb d) ls < amt -> exists e, take_from_lock s addr d amt = Err e).
Proof.
  intros R W A. unfold take_from_lock. rewrite (GetLockByAddressAndDate_spec s addr d ls R).
  cbn [mbind outcome_bind]. destruct (find_by_date d ls 0) as [[l idx]|] eqn:F.
  - apply find_lock in F as (pre & post & -> & -> & <- & (Dl & Pl & Il) & E); [|done]. rewrite E.
    destruct (Z.ltb_spec (LockAmount l) amt) as [L|L]; [split; [lia|eauto]|].
    split; [intros _|lia]. destruct (Z.eqb_spec (LockAmount l) amt) as [<-|N].
    + eexists. split; [by eapply locks_inv_delete|]. split; [apply amount_shift_delete|].
      eapply DeleteLockByAddressAndIndex_spec; [done|by eapply locks_inv_delete].
    + assert (int_ok (LockAmount l - amt) = true) as I'
        by (apply (int_ok_between _ _ Il); lia).
      rewrite Int_Sub_intro by done. cbn [mbind outcome_bind].
      assert (locks_inv (pre ++ MkLock (UnlockDate l) (LockAmount l - amt) :: post)) as W'.
      { eapply locks_inv_update; [done| |done]. repeat split; simpl; [done|lia|done]. }
      eexists. split; [exact W'|]. split.
      * intros f. rewrite (amount_shift_mid pre l post (LockAmount l - amt) f). case_match; lia.
      * by eapply UpdateLockByAddressAndIndex_spec.
  - apply find_by_date_None in F. rewrite amount_of_no_date by done. split; [lia|eauto].
Qed.

Lemma shifts_lock_Ok s s' addr d delta ls :
  shifts_lock s addr d delta ls (Ok s') ->
  exists ls', locks_inv ls' /\ amount_shift d delta ls ls' /\ locks_rel (kv_view s') addr ls' /\
    only_changes (GetLocksByAddressKey addr) (kv_view s) (kv_view s').
Proof. intros (ls' & W & A & s'' & [= <-] & R & F). eauto 6. Qed.

Lemma stores_queue_Ok s s' t addr a :
  stores_queue s t addr a (Ok s') ->
  queue_rel (kv_view s') t addr a /\
  only_changes (GetLockExpirationKey t addr) (kv_view s) (kv_view s').
Proof. intros (s'' & [= <-] & R & F). eauto. Qed.

Lemma ledger_add_at f a d amt d' :
  ledger_add f a d amt a d' = f a d' + (if String.eqb d' d then amt else 0).
Proof. unfold ledger_add. rewrite bool_decide_eq_true_2 by done. simpl. case_match; lia. Qed.

Lemma ledger_add_other f a d amt a' d' : a' <> a -> ledger_add f a d amt a' d' = f a' d'.
Proof. intros. unfold ledger_add. by rewrite bool_decide_eq_false_2. Qed.

(** Changing the entry of one date leaves the account's other dates alone. *)
Lemma queue_rel_other m m' addr d t d' t' a :
  ParseDateOnly d = Some t -> ParseDateOnly d' = Some t' -> d' <> d ->
  only_changes (GetLockExpirationKey t addr) m m' ->
  queue_rel m t' addr a -> queue_rel m' t' addr a.
Proof.
  intros D D' N F Q. eapply queue_rel_frame; [done| |done].
  intros (_ & -> & _)%(queue_key_inj d t addr d' t' addr); done.
Qed.

(** Queuing the amount of a date. *)
Lemma queue_add_spec s s' d t addr amt (q : string -> Z) :
  ParseDateOnly d = Some t -> 0 <= q d -> 0 < amt ->
  (forall d' t', ParseDateOnly d' = Some t' -> queue_rel (kv_view s) t' addr (q d')) ->
  AddToExpirationQueue s t addr amt = Ok s' ->
  (forall d' t', ParseDateOnly d' = Some t' ->
     queue_rel (kv_view s') t' addr (q d' + (if String.eqb d' d then amt else 0))) /\
  only_changes (GetLockExpirationKey t addr) (kv_view s) (kv_view s').
Proof.
  intros D Q0 A Q E. pose proof (AddToExpirationQueue_range _ _ _ _ _ _ (Q _ _ D) E) as I.
  pose proof (AddToExpirationQueue_spec _ _ _ _ _ (Q _ _ D) I ltac:(lia)) as P.
  rewrite E in P. apply stores_queue_Ok in P as [P F]. split; [|done]. intros d' t' D'.
  destruct (String.eqb_spec d' d) as [->|N].
  - assert (t' = t) as -> by congruence. done.
  - rewrite Z.add_0_r. eapply (queue_rel_other _ _ addr d); eauto.
Qed.

(** Taking an amount out of the queue entry of a date. *)
Lemma queue_remove_spec s s' d t addr amt (q : string -> Z) :
  ParseDateOnly d = Some t -> 0 < amt <= q d -> int_ok (q d) = true ->
  (forall d' t', ParseDateOnly d' = Some t' -> queue_rel (kv_view s) t' addr (q d')) ->
  RemoveFromExpirationQueue s t addr amt = Ok s' ->
  (forall d' t', ParseDateOnly d' = Some t' ->
     queue_rel (kv_view s') t' addr (q d' + (if String.eqb d' d then - amt else 0))) /\
  only_changes (GetLockExpirationKey t addr) (kv_view s) (kv_view s').
Proof.
  intros D A I Q E. pose proof (RemoveFromExpirationQueue_spec _ _ _ _ _ (Q _ _ D) A I) as P.
  rewrite E in P. apply stores_queue_Ok in P as [P F]. split; [|done]. intros d' t' D'.
  destruct (String.eqb_spec d' d) as [->|N].
  - assert (t' = t) as -> by congruence. done.
  - rewrite Z.add_0_r. eapply (queue_rel_other _ _ addr d); eauto.
Qed.

Lemma add_to_lock_Ok s s' addr d amt ls :
  locks_rel (kv_view s) addr ls -> locks_inv ls -> is_Some (ParseDateOnly d) ->
  0 < amt -> int_ok amt = true -> add_to_lock s addr d amt = Ok s' ->
  exists ls', locks_inv ls' /\ amount_shift d amt ls ls' /\ locks_rel (kv_view s') addr ls' /\
    only_changes (GetLocksByAddressKey addr) (kv_view s) (kv_view s').
Proof.
  intros R W D A I E. pose proof (add_to_lock_spec s addr d amt ls R W D A I) as P.
  rewrite E in P. case_match; [by apply shifts_lock_Ok|]. by destruct P.
Qed.

(** A change of the account's list keeps its queue entries. *)
Lemma queue_after_locks m m' addr t a :
  only_changes (GetLocksByAddressKey addr) m m' -> queue_rel m t addr a -> queue_rel m' t addr a.
Proof. intros F Q. eapply queue_rel_frame; [done|apply keys_disjoint|done]. Qed.

(** Adding to a lock and to the queue adds to the ledger. *)
Lemma lock_step_spec s s1 s2 addr d t amt f :
  represents (kv_view s) f -> ParseDateOnly d = Some t -> 0 <= t -> 0 < amt -> int_ok amt = true ->
  add_to_lock s addr d amt = Ok s1 -> AddToExpirationQueue s1 t addr amt = Ok s2 ->
  represents (kv_view s2) (ledger_add f addr d amt) /\
  exists ls ls', locks_rel (kv_view s) addr ls /\ locks_rel (kv_view s2) addr ls' /\
    amount_shift d amt ls ls'.
Proof.
  intros [I F] D T A IA E1 E2. destruct (inv_locks _ I addr) as (ls & R & W).
  destruct (add_to_lock_Ok _ _ _ _ _ _ R W ltac:(eauto) A IA E1) as (ls' & W' & Sh & R' & C1).
  destruct (queue_add_spec s1 s2 d t addr amt (fun d => amount_of (String.eqb d) ls)) as [Q C2];
    [done|by apply amount_of_nonneg; destruct W|done| |done|].
  { intros d' t' D'. eapply queue_after_locks; [done|]. by apply inv_queue. }
  assert (forall d', amount_of (String.eqb d') ls'
            = amount_of (String.eqb d') ls + (if String.eqb d' d then amt else 0)) as Am
    by (intros; apply Sh).
  assert (locks_rel (kv_view s2) addr ls') as R2
    by (eapply locks_rel_frame; [done|apply not_eq_sym, keys_disjoint|done]).
  split; [|eauto]. eapply (represents_update _ _ addr f _ ls'); [done| |done|done| | |].
  - eapply changes_account_trans; [by apply changes_account_locks|by eapply changes_account_queue].
  - intros d' t' D'. rewrite Am. by apply Q.
  - intros d'. by rewrite Am, ledger_add_at, (F _ _ _ R).
  - intros. by rewrite ledger_add_other.
Qed.

Lemma amount_of_date_ok ls d : locks_inv ls -> int_ok (amount_of (String.eqb d) ls) = true.
Proof.
  intros W. destruct (find_by_date d ls 0) as [[l i]|] eqn:F.
  - apply find_lock in F as (pre & post & _ & _ & _ & (_ & _ & I) & E); [|done]. by rewrite E.
  - apply find_by_date_None in F. by rewrite amount_of_no_date.
Qed.

Lemma take_from_lock_Ok s s' addr d amt ls :
  locks_rel (kv_view s) addr ls -> locks_inv ls -> 0 < amt -> take_from_lock s addr d amt = Ok s' ->
  amt <= amount_of (String.eqb d) ls /\
  exists ls', locks_inv ls' /\ amount_shift d (- amt) ls ls' /\ locks_rel (kv_view s') addr ls' /\
    only_changes (GetLocksByAddressKey addr) (kv_view s) (kv_view s').
Proof.
  intros R W A E. destruct (take_from_lock_spec s addr d amt ls R W A) as [P N].
  destruct (Z.le_gt_cases amt (amount_of (String.eqb d) ls)) as [L|L].
  - split; [done|]. specialize (P L). rewrite E in P. by apply shifts_lock_Ok.
  - destruct (N L) as [e N']. congruence.
Qed.

(** Moving an amount between two dates of an account. *)
Lemma move_step_spec s s1 s2 s3 s4 addr d1 t1 d2 t2 amt f :
  represents (kv_view s) f -> ParseDateOnly d1 = Some t1 -> ParseDateOnly d2 = Some t2 ->
  0 <= t2 -> 0 < amt ->
  take_from_lock s addr d1 amt = Ok s1 -> add_to_lock s1 addr d2 amt = Ok s2 ->
  RemoveFromExpirationQueue s2 t1 addr amt = Ok s3 -> AddToExpirationQueue s3 t2 addr amt = Ok s4 ->
  amt <= f addr d1 /\
  represents (kv_view s4) (ledger_add (ledger_add f addr d1 (- amt)) addr d2 amt) /\
  exists ls ls1 ls', locks_rel (kv_view s) addr ls /\ locks_rel (kv_view s4) addr ls' /\
    amount_shift d1 (- amt) ls ls1 /\ amount_shift d2 amt ls1 ls'.
Proof.
  intros [I F] D1 D2 T2 A E1 E2 E3 E4. destruct (inv_locks _ I addr) as (ls & R & W).
  pose proof (amount_of_date_ok ls d1 W) as I1.
  destruct (take_from_lock_Ok _ _ _ _ _ _ R W A E1) as (L & ls1 & W1 & Sh1 & R1 & C1).
  rewrite <- (F _ _ _ R). split; [done|].
  assert (0 <= t1) as T1 by (eapply queue_time_nonneg; [done..|lia]).
  destruct (add_to_lock_Ok _ _ _ _ _ _ R1 W1 ltac:(eauto) A
              ltac:(eapply int_ok_between; [exact I1|lia]) E2) as (ls2 & W2 & Sh2 & R2 & C2).
  destruct (queue_remove_spec s2 s3 d1 t1 addr amt (fun d => amount_of (String.eqb d) ls))
    as [Q3 C3]; [done|lia|done| |done|].
  { intros d' t' D'. do 2 (eapply queue_after_locks; [done|]). by apply inv_queue. }
  destruct (queue_add_spec s3 s4 d2 t2 addr amt
    (fun d => amount_of (String.eqb d) ls + (if String.eqb d d1 then - amt else 0)))
    as [Q4 C4]; [done| |done|done|done|].
  { pose proof (amount_of_nonneg (String.eqb d2) ls (proj1 W)).
    destruct (String.eqb_spec d2 d1) as [->|]; lia. }
  assert (forall d', amount_of (String.eqb d') ls2 = amount_of (String.eqb d') ls
            + (if String.eqb d' d1 then - amt else 0) + (if String.eqb d' d2 then amt else 0)) as Am
    by (intros; by rewrite (Sh2 (String.eqb _)), (Sh1 (String.eqb _))).
  assert (locks_rel (kv_view s4) addr ls2) as R4
    by (do 2 (eapply locks_rel_frame; [done|apply not_eq_sym, keys_disjoint|]); done).
  split; [|eauto 8]. eapply (represents_update _ _ addr f _ ls2); [done| |done|done| | |].
  - eapply changes_account_trans; [by apply changes_account_locks|].
    eapply changes_account_trans; [by apply changes_account_locks|].
    eapply changes_account_trans;
      [by apply (changes_account_queue _ d1 t1)|by apply (changes_account_queue _ d2 t2)].
  - intros d' t' D'. rewrite Am. by apply Q4.
  - intros d'. by rewrite Am, !ledger_add_at, (F _ _ _ R).
  - intros. by rewrite !ledger_add_other.
Qed.

(** The steps succeed when the amounts stay in range. *)
Lemma lock_step_total s addr d t amt f :
  represents (kv_view s) f -> ParseDateOnly d = Some t -> 0 < amt -> int_ok amt = true ->
  int_ok (f addr d + amt) = true ->
  exists s1 s2, add_to_lock s addr d amt = Ok s1 /\ AddToExpirationQueue s1 t addr amt = Ok s2.
Proof.
  intros [I F] D A IA IF. destruct (inv_locks _ I addr) as (ls & R & W).
  rewrite <- (F _ _ _ R) in IF. pose proof (add_to_lock_spec s addr d amt ls R W ltac:(eauto) A IA) as P.
  rewrite IF in P. destruct P as (ls' & _ & _ & s1 & E1 & _ & C1). exists s1.
  pose proof (amount_of_nonneg (String.eqb d) ls (proj1 W)).
  destruct (AddToExpirationQueue_spec s1 t addr (amount_of (String.eqb d) ls) amt) as (s2 & E2 & _);
    [|done|lia|eauto]. eapply queue_after_locks; [done|]. by apply inv_queue.
Qed.
End Steps.
