(* ===== verification/LockupProps.v ===== *)
(** What the lockup module's messages do: each handler refines an operation of
    the abstract ledger of LockupInv.v, keeps the store's invariant, and leaves
    the locks it makes covered by delegations and within two years. *)

From stdpp Require Import base list strings gmap sorting.
From Stdlib Require Import ZArith Lia.
From S2P Require Import Prelude GoTime Sdk LockPb LockStore LockSpec LockupKeeper LockupMsgs LockupInv.

Local Open Scope Z_scope.

(** The dates a block accepts: after its day and at most two years from it. *)
Definition date_window (ctx : Ctx) (t : Time) : Prop :=
  midnight (BlockTime ctx) < t <= AddDate (midnight (BlockTime ctx)) 2 0 0.

Lemma date_window_guards ctx t :
  After (midnight (BlockTime ctx)) t || Equal (midnight (BlockTime ctx)) t = false ->
  Before (AddDate (midnight (BlockTime ctx)) 2 0 0) t = false -> date_window ctx t.
Proof. unfold After, Equal, Before, date_window. intros. bool_to_prop. lia. Qed.

Lemma date_window_guards_rev ctx t :
  date_window ctx t ->
  After (midnight (BlockTime ctx)) t || Equal (midnight (BlockTime ctx)) t = false /\
  Before (AddDate (midnight (BlockTime ctx)) 2 0 0) t = false.
Proof.
  unfold After, Equal, Before, date_window. intros. rewrite orb_false_iff, !Z.ltb_ge, Z.eqb_neq. lia.
Qed.

Lemma midnight_nonneg t : 0 <= t -> 0 <= midnight t.
Proof. intros L%midnight_mono. by change (midnight 0) with 0 in L. Qed.

Lemma IsLocked_window ctx d t :
  ParseDateOnly d = Some t -> date_window ctx t ->
  IsLocked (midnight (BlockTime ctx)) d = true.
Proof. unfold IsLocked, Before, date_window. intros ->. rewrite Z.ltb_lt. lia. Qed.

Section Handlers.
Context `{SdkMathLaws} `{!SdkTypes} {S : Type} `{!KVStore S} `{!KVStoreLaws S}
  {X : Type} `{!AccountKeeper X} `{!StakingKeeper X} `{!StakingLaws X} `{!BankKeeper X}.

Definition lock_amount (msg : MsgLock) : Z := Amount (MsgLock_Amount msg).

(** What a successful [Lock] went through. *)
Lemma MsgServer_Lock_Ok (ctx : Ctx) (w w' : World S X) msg :
  MsgServer_Lock ctx w msg = Ok w' ->
  exists addr t locked D s1 s2,
    AccAddressFromBech32 (MsgLock_Address msg) = Ok addr /\
    BondDenom (w_ext w) = Ok (Denom (MsgLock_Amount msg)) /\
    ParseDateOnly (MsgLock_UnlockDate msg) = Some t /\
    0 < lock_amount msg /\ date_window ctx t /\
    GetLockedAmountByAddress ctx (w_store w) addr = Ok locked /\
    GetTotalDelegatedAmount (w_ext w) addr = Ok D /\
    int_ok (locked + lock_amount msg) = true /\ locked + lock_amount msg <= D /\
    add_to_lock (w_store w) addr (MsgLock_UnlockDate msg) (lock_amount msg) = Ok s1 /\
    AddToExpirationQueue s1 t addr (lock_amount msg) = Ok s2 /\
    w_store w' = s2 /\ w_ext w' = w_ext w.
Proof.
  unfold MsgServer_Lock, lock_amount, parse_date_or, Coin_IsPositive. intros E. ok_inv E.
  match goal with B : After _ _ || _ = false, C : Before _ _ = false |- _ =>
    pose proof (date_window_guards _ _ B C) end.
  int_facts. bool_to_prop. subst.
  match goal with B : (0 <? _) = true, C : (_ <? _) = false |- _ =>
    apply Z.ltb_lt in B; apply Z.ltb_ge in C end.
  do 6 eexists. do 11 (split; [eassumption|]). done.
Qed.

(** The effect of a successful [Lock]. *)
Lemma MsgServer_Lock_effect (ctx : Ctx) (w w' : World S X) msg f :
  represents (kv_view (w_store w)) f -> 0 <= BlockTime ctx ->
  MsgServer_Lock ctx w msg = Ok w' ->
  exists addr t D, AccAddressFromBech32 (MsgLock_Address msg) = Ok addr /\
    ParseDateOnly (MsgLock_UnlockDate msg) = Some t /\ date_window ctx t /\
    0 < lock_amount msg /\
    represents (kv_view (w_store w'))
      (ledger_add f addr (MsgLock_UnlockDate msg) (lock_amount msg)) /\
    w_ext w' = w_ext w /\ GetTotalDelegatedAmount (w_ext w') addr = Ok D /\
    forall ls, locks_rel (kv_view (w_store w')) addr ls -> locked_on ctx ls <= D.
Proof.
  intros R T (addr & t & L & D & s1 & s2 & EA & _ & P & A & Win & EL & ED & I & LD & E1 & E2 & -> & EX)
    %MsgServer_Lock_Ok.
  exists addr, t, D. pose proof R as [Inv _]. destruct (inv_locks _ Inv addr) as (ls0 & R0 & W0).
  pose proof (GetLockedAmount_Ok _ _ _ _ _ R0 EL) as ->.
  assert (0 <= locked_on ctx ls0) by (apply amount_of_nonneg; apply W0).
  pose proof (midnight_nonneg _ T). assert (0 <= t) by (destruct Win; lia).
  destruct (lock_step_spec _ _ _ _ _ _ _ _ R P ltac:(done) A
              ltac:(eapply int_ok_between; [exact I|lia]) E1 E2) as (R2 & ls & ls' & Rl & Rl' & Sh).
  rewrite EX. repeat (split; [done|]). intros k K.
  rewrite (locks_rel_fun _ _ _ _ K Rl'). unfold locked_on in *. rewrite (Sh (IsLocked _)).
  rewrite (IsLocked_window _ _ _ P Win), (locks_rel_fun _ _ _ _ Rl R0). lia.
Qed.

(** C3 A successful Lock adds exactly the message's amount to the signer's ledger
    entry of the unlock date: the store still represents a ledger, in both
    indexes, no other entry of any account changes, and the state of the other
    modules is untouched. *)
Theorem Lock_refines_ledger (ctx : Ctx) (w w' : World S X) msg f :
  represents (kv_view (w_store w)) f -> 0 <= BlockTime ctx ->
  MsgServer_Lock ctx w msg = Ok w' ->
  exists addr, AccAddressFromBech32 (MsgLock_Address msg) = Ok addr /\
    represents (kv_view (w_store w'))
      (ledger_add f addr (MsgLock_UnlockDate msg) (lock_amount msg)) /\
    w_ext w' = w_ext w.
Proof.
  intros R T E. destruct (MsgServer_Lock_effect _ _ _ _ _ R T E) as (addr & t & D & ?).
  exists addr. tauto.
Qed.

(** After a successful Lock everything the signer has locked on the day of
    the block is covered by its delegations, and the new lock ends after that
    day and at most two years from it. *)
Theorem Lock_leaves_locks_covered (ctx : Ctx) (w w' : World S X) msg f :
  represents (kv_view (w_store w)) f -> 0 <= BlockTime ctx ->
  MsgServer_Lock ctx w msg = Ok w' ->
  exists addr t D ls, AccAddressFromBech32 (MsgLock_Address msg) = Ok addr /\
    ParseDateOnly (MsgLock_UnlockDate msg) = Some t /\ date_window ctx t /\
    locks_rel (kv_view (w_store w')) addr ls /\
    GetTotalDelegatedAmount (w_ext w') addr = Ok D /\ locked_on ctx ls <= D.
Proof.
  intros R T E.
  destruct (MsgServer_Lock_effect _ _ _ _ _ R T E) as (addr & t & D & EA & P & Wi & _ & R' & _ & ED & L).
  destruct (inv_locks _ (proj1 R') addr) as (ls & Rl & _). exists addr, t, D, ls. eauto 8.
Qed.

(** C4 Lock succeeds exactly when the amount is in the bond denomination and
    positive, the date is well formed and within its window, and the signer's
    delegations cover what it has locked plus the new amount (the sums in
    range). *)
Theorem Lock_succeeds_iff (ctx : Ctx) (w : World S X) msg f addr denom D ls :
  represents (kv_view (w_store w)) f -> 
  AccAddressFromBech32 (MsgLock_Address msg) = Ok addr ->
  BondDenom (w_ext w) = Ok denom -> GetTotalDelegatedAmount (w_ext w) addr = Ok D ->
  locks_rel (kv_view (w_store w)) addr ls ->
  int_ok (f addr (MsgLock_UnlockDate msg) + lock_amount msg) = true ->
  (exists w', MsgServer_Lock ctx w msg = Ok w') <->
  Denom (MsgLock_Amount msg) = denom /\ 0 < lock_amount msg /\
  (exists t, ParseDateOnly (MsgLock_UnlockDate msg) = Some t /\ date_window ctx t) /\
  locked_on ctx ls + lock_amount msg <= D.
Proof.
  intros R EA EB ED Rl I. split.
  - intros (w' & E). apply MsgServer_Lock_Ok in E
      as (a & t & L & D' & s1 & s2 & EA' & EB' & P & A & Wi & EL & ED' & _ & LD & _).
    assert (a = addr) as -> by congruence. assert (D' = D) as -> by congruence.
    rewrite (GetLockedAmount_Ok _ _ _ _ _ Rl EL) in LD. repeat split; eauto. congruence.
  - intros (<- & A & (t & P & Wi) & LD). pose proof (GetTotalDelegatedAmount_nonneg _ _ _ ED) as [_ ID].
    assert (locks_inv ls) as W
      by (destruct (inv_locks _ (proj1 R) addr) as (k & K & ?); by rewrite (locks_rel_fun _ _ _ _ Rl K)).
    assert (0 <= locked_on ctx ls) by (apply amount_of_nonneg; apply W).
    unfold MsgServer_Lock. rewrite EB, EA. cbn [mbind outcome_bind wrap_err].
    rewrite String.eqb_refl. cbn [negb]. unfold Coin_IsPositive, parse_date_or.
    fold (lock_amount msg). rewrite (proj2 (Z.ltb_lt _ _) A), P. cbn [negb from_option_err mbind outcome_bind].
    destruct (date_window_guards_rev _ _ Wi) as [-> ->].
    rewrite (GetLockedAmount_intro ctx _ _ ls) by (done || by apply (int_ok_between _ D); [|lia]).
    cbn [mbind outcome_bind]. rewrite ED. cbn [mbind outcome_bind].
    rewrite Int_Add_intro by (apply (int_ok_between _ D); [done|lia]). cbn [mbind outcome_bind].
    rewrite (proj2 (Z.ltb_ge _ _)) by lia.
    destruct (lock_step_total _ addr _ t (lock_amount msg) _ R P A) as (s1 & s2 & E1 & E2);
      [by apply (int_ok_between _ D); [|lia]|done|].
    rewrite E1. cbn [mbind outcome_bind]. rewrite E2. cbn [mbind outcome_bind]. eauto.
Qed.

(** ** Extend *)

Lemma validate_extensions_cons e es :
  validate_extensions (e :: es) = Ok tt ->
  exists ext, e = Some ext /\ 0 < Amount (Extension_Amount ext) /\ validate_extensions es = Ok tt.
Proof.
  destruct e as [ext|]; cbn [validate_extensions]; [|done]. intros E.
  unfold parse_date_or, Coin_IsPositive in E. ok_inv E. bool_to_prop.
  exists ext. split; [done|]. split; [lia|done].
Qed.

(** The lists of an account before and after moving amounts to later dates: the
    total is the same, and at every moment, past or future, at least as much is
    locked as before. *)
Definition extended (ls ls' : list Lock) : Prop :=
  amount_of (fun _ => true) ls' = amount_of (fun _ => true) ls /\
  forall now : Time, amount_of (IsLocked now) ls <= amount_of (IsLocked now) ls'.

(** What a later date keeps locked an earlier date does too. *)
Lemma IsLocked_later now d d' t t' :
  ParseDateOnly d = Some t -> ParseDateOnly d' = Some t' -> t <= t' ->
  IsLocked now d = true -> IsLocked now d' = true.
Proof. unfold IsLocked, Before. intros -> -> L. rewrite !Z.ltb_lt. lia. Qed.

Lemma extend_one_effect (ctx : Ctx) (s s' : S) (x : X) name addr e ev f :
  represents (kv_view s) f -> 0 <= BlockTime ctx -> 0 < Amount (Extension_Amount e) ->
  extend_one ctx s x name addr e = Ok (s', ev) ->
  exists g t, ledger_move f addr e = Some g /\ represents (kv_view s') g /\
    ParseDateOnly (Extension_ToDate e) = Some t /\ date_window ctx t /\
    exists ls ls', locks_rel (kv_view s) addr ls /\ locks_rel (kv_view s') addr ls' /\
      extended ls ls' /\
      (IsLocked (midnight (BlockTime ctx)) (Extension_FromDate e) = true ->
       locked_on ctx ls' = locked_on ctx ls).
Proof.
  intros R T A E. unfold extend_one, parse_date_or in E. ok_inv E.
  match goal with B : After _ _ || _ = false, C : Before _ _ = false |- _ =>
    pose proof (date_window_guards _ _ B C) as Wi end.
  match goal with P : ParseDateOnly (Extension_ToDate e) = Some ?t |- _ => rename t into t2, P into P2 end.
  match goal with P : ParseDateOnly (Extension_FromDate e) = Some ?t |- _ => rename t into t1, P into P1 end.
  pose proof (midnight_nonneg _ T). assert (0 <= t2) as T2 by (destruct Wi; lia).
  match goal with
  | E1 : take_from_lock _ _ _ _ = _, E2 : add_to_lock _ _ _ _ = _,
    E3 : RemoveFromExpirationQueue _ _ _ _ = _, E4 : AddToExpirationQueue _ _ _ _ = _ |- _ =>
    destruct (move_step_spec _ _ _ _ _ _ _ _ _ _ _ _ R P1 P2 T2 A E1 E2 E3 E4)
      as (L & R' & ls & ls1 & ls' & Rl & Rl' & Sh1 & Sh2) end.
  eexists _, t2. split; [unfold ledger_move; by rewrite (proj2 (Z.leb_le _ _) L)|].
  split; [done|]. split; [done|]. split; [done|]. exists ls, ls'. split; [done|]. split; [done|].
  unfold extended, locked_on. rewrite !(Sh2 (fun _ => true)), !(Sh1 (fun _ => true)).
  rewrite (Sh2 (IsLocked _)), (Sh1 (IsLocked _)), (IsLocked_window _ _ _ P2 Wi).
  split; [split; [lia|]|intros ->; lia]. intros now.
  rewrite (Sh2 (IsLocked now)), (Sh1 (IsLocked now)).
  match goal with B : negb (After _ _) = false |- _ =>
    unfold After in B; apply negb_false_iff, Z.ltb_lt in B end.
  pose proof (IsLocked_later now _ _ _ _ P1 P2 ltac:(lia)) as K.
  destruct (IsLocked now (Extension_FromDate e)); [rewrite K by done; lia|case_match; lia].
Qed.

Lemma extend_loop_effect (ctx : Ctx) (x : X) name addr es :
  0 <= BlockTime ctx -> validate_extensions es = Ok tt ->
  forall (s s' : S) evs evs' f, represents (kv_view s) f ->
  extend_loop ctx s x name addr es evs = Ok (s', evs') ->
  exists g, ledger_extend f addr es = Some g /\ represents (kv_view s') g /\
    exists ls ls', locks_rel (kv_view s) addr ls /\ locks_rel (kv_view s') addr ls' /\
      extended ls ls'.
Proof.
  intros T. induction es as [|e es IH]; intros V s s' evs evs' f R E.
  - cbn [extend_loop] in E. injection E as <- <-. exists f. split; [done|]. split; [done|].
    destruct (inv_locks _ (proj1 R) addr) as (ls & Rl & _). exists ls, ls.
    by repeat split.
  - apply validate_extensions_cons in V as (ext & -> & A & V). cbn [extend_loop] in E.
    apply bind_Ok in E as ([s1 ev] & E1 & E).
    destruct (extend_one_effect _ _ _ _ _ _ _ _ _ R T A E1) as (g & t & M & R1 & _ & _ & ls & ls1 & L & L1 & X1 & _).
    destruct (IH V _ _ _ _ _ R1 E) as (h & M' & R' & ls1' & ls' & L1' & L' & X2).
    exists h. cbn [ledger_extend]. rewrite M. split; [done|]. split; [done|]. exists ls, ls'.
    split; [done|]. split; [done|]. rewrite (locks_rel_fun _ _ _ _ L1' L1) in X2.
    destruct X1 as [X1 Y1], X2 as [X2 Y2]. split; [lia|]. intros now. specialize (Y1 now). specialize (Y2 now). lia.
Qed.

Lemma Extend_Ok (ctx : Ctx) (w w' : World S X) msg :
  Extend ctx w msg = Ok w' ->
  exists addr evs, AccAddressFromBech32 (MsgExtend_Address msg) = Ok addr /\
    is_Some (GetAccount (w_ext w) addr) /\
    extend_loop ctx (w_store w) (w_ext w) (MsgExtend_Address msg) addr
      (MsgExtend_Extensions msg) [] = Ok (w_store w', evs) /\
    w_ext w' = w_ext w /\ w_events w' = w_events w ++ evs.
Proof.
  unfold Extend. intros (addr & EA & E)%bind_Ok. apply wrap_err_Ok in EA.
  destruct (GetAccount _ _) eqn:G; [|done]. apply bind_Ok in E as ([s evs] & EL & [= <-]).
  exists addr, evs. rewrite G. eauto 6.
Qed.

Lemma MsgExtend_ValidateBasic_Ok msg :
  MsgExtend_ValidateBasic msg = Ok tt -> validate_extensions (MsgExtend_Extensions msg) = Ok tt.
Proof. unfold MsgExtend_ValidateBasic. intros (a & _ & E)%bind_Ok. by case_match. Qed.

(** C5 A successful Extend of a valid message moves, for each extension in
    order, the amount from its old date to its new one in the signer's ledger,
    each time no more than the ledger holds; nothing else changes. *)
Theorem Extend_refines_ledger (ctx : Ctx) (w w' : World S X) msg f :
  represents (kv_view (w_store w)) f -> 0 <= BlockTime ctx ->
  MsgExtend_ValidateBasic msg = Ok tt -> Extend ctx w msg = Ok w' ->
  exists addr g, AccAddressFromBech32 (MsgExtend_Address msg) = Ok addr /\
    ledger_extend f addr (MsgExtend_Extensions msg) = Some g /\
    represents (kv_view (w_store w')) g /\ w_ext w' = w_ext w.
Proof.
  intros R T V%MsgExtend_ValidateBasic_Ok (addr & evs & EA & _ & EL & EX & _)%Extend_Ok.
  destruct (extend_loop_effect _ _ _ _ _ T V _ _ _ _ _ R EL) as (g & M & R' & _). eauto 7.
Qed.

(** C6 Extending never changes an account's total and never unlocks: whatever
    the day, today or any later or earlier one, the amount of the account that
    is locked on it does not decrease. *)
Theorem Extend_keeps_total (ctx : Ctx) (w w' : World S X) msg f :
  represents (kv_view (w_store w)) f -> 0 <= BlockTime ctx ->
  MsgExtend_ValidateBasic msg = Ok tt -> Extend ctx w msg = Ok w' ->
  exists addr ls ls', AccAddressFromBech32 (MsgExtend_Address msg) = Ok addr /\
    locks_rel (kv_view (w_store w)) addr ls /\ locks_rel (kv_view (w_store w')) addr ls' /\
    amount_of (fun _ => true) ls' = amount_of (fun _ => true) ls /\
    forall ctx', locked_on ctx' ls <= locked_on ctx' ls'.
Proof.
  intros R T V%MsgExtend_ValidateBasic_Ok (addr & evs & EA & _ & EL & EX & _)%Extend_Ok.
  destruct (extend_loop_effect _ _ _ _ _ T V _ _ _ _ _ R EL)
    as (g & M & R' & ls & ls' & L & L' & X1 & X2). exists addr, ls, ls'.
  repeat (split; [done|]). intros ctx'. apply X2.
Qed.

(** ** Sending, delegating and locking *)

Context `{!SdkCoinLaws} `{!BankLaws X}.

Definition send_amount (msg : MsgSendDelegateAndLock) : Z := Amount (MsgSend_Amount msg).

(** The sender's balance and delegations cover its locks after it gave [amt] away. *)
Definition sender_covered (ctx : Ctx) (x : X) (from : bytes) (denom : string) (ls : list Lock)
    (amt : Z) : Prop :=
  locked_on ctx ls = 0 \/ exists D, GetTotalDelegatedAmount x from = Ok D /\
    (locked_on ctx ls <= D \/ locked_on ctx ls <= D + (Amount (GetBalance x from denom) - amt)).

Lemma SendDelegateAndLock_Ok (ctx : Ctx) (w w' : World S X) msg :
  SendDelegateAndLock ctx w msg = Ok w' ->
  exists from to coins x1 v x2 shares w1,
    0 < send_amount msg /\
    AccAddressFromBech32 (MsgSend_FromAddress msg) = Ok from /\
    AccAddressFromBech32 (MsgSend_ToAddress msg) = Ok to /\
    BondDenom (w_ext w) = Ok (Denom (MsgSend_Amount msg)) /\
    NewCoins [MsgSend_Amount msg] = Ok coins /\
    SendCoins (SendRestrictionFn ctx (w_store w)) (w_ext w) from to coins = Ok x1 /\
    Delegate (Hooks ctx (w_store w)) x1 to (send_amount msg) Unbonded v true = Ok (x2, shares) /\
    w_store w1 = w_store w /\ w_ext w1 = x2 /\
    MsgServer_Lock ctx w1
      (MkMsgLock (MsgSend_ToAddress msg) (MsgSend_UnlockDate msg) (MsgSend_Amount msg)) = Ok w'.
Proof.
  unfold SendDelegateAndLock, Coin_IsPositive. intros E.
  case_match eqn:P; [done|]. apply negb_false_iff, Z.ltb_lt in P.
  apply bind_Ok in E as (from & EF & E). apply wrap_err_Ok in EF.
  apply bind_Ok in E as (to & ET & E). apply wrap_err_Ok in ET.
  apply bind_Ok in E as (denom & ED & E). case_match eqn:Dn; [done|].
  apply negb_false_iff, String.eqb_eq in Dn. subst denom.
  apply bind_Ok in E as (coins & EC & E). apply bind_Ok in E as (x1 & EX & E).
  apply bind_Ok in E as (va & _ & E). apply bind_Ok in E as (v & _ & E).
  apply bind_Ok in E as ([x2 sh] & EDl & E).
  eexists from, to, coins, x1, v, x2, sh, _. do 7 (split; [done|]).
  split; [|split; [|exact E]]; done.
Qed.

Lemma SendDelegateAndLock_effect (ctx : Ctx) (w w' : World S X) msg f :
  represents (kv_view (w_store w)) f -> 0 <= BlockTime ctx ->
  SendDelegateAndLock ctx w msg = Ok w' ->
  exists to t, AccAddressFromBech32 (MsgSend_ToAddress msg) = Ok to /\
    ParseDateOnly (MsgSend_UnlockDate msg) = Some t /\ date_window ctx t /\
    0 < send_amount msg /\
    represents (kv_view (w_store w'))
      (ledger_add f to (MsgSend_UnlockDate msg) (send_amount msg)).
Proof.
  intros R T (from & to & coins & x1 & v & x2 & sh & w1 & A & _ & ET & _ & _ & _ & _ & ES & _ & EL)
    %SendDelegateAndLock_Ok.
  rewrite <- ES in R.
  destruct (MsgServer_Lock_effect _ _ _ _ _ R T EL) as (a & t & D & EA & P & Wi & _ & R' & _).
  cbn [MsgLock_Address MsgLock_UnlockDate] in *. assert (a = to) as -> by congruence. eauto 8.
Qed.

(** C7 A successful SendDelegateAndLock locks exactly the amount for the
    recipient at the date and changes no other ledger entry; it was allowed
    only because the sender's delegations and remaining balance still cover the
    sender's own locks. *)
Theorem SendDelegateAndLock_spec (ctx : Ctx) (w w' : World S X) msg f :
  represents (kv_view (w_store w)) f -> 0 <= BlockTime ctx ->
  SendDelegateAndLock ctx w msg = Ok w' ->
  exists from to ls, AccAddressFromBech32 (MsgSend_FromAddress msg) = Ok from /\
    AccAddressFromBech32 (MsgSend_ToAddress msg) = Ok to /\
    represents (kv_view (w_store w'))
      (ledger_add f to (MsgSend_UnlockDate msg) (send_amount msg)) /\
    locks_rel (kv_view (w_store w)) from ls /\
    sender_covered ctx (w_ext w) from (Denom (MsgSend_Amount msg)) ls (send_amount msg).
Proof.
  intros R T E. destruct (SendDelegateAndLock_effect _ _ _ _ _ R T E) as (to & t & ET & _ & _ & _ & R').
  apply SendDelegateAndLock_Ok in E
    as (from & to' & coins & x1 & v & x2 & sh & w1 & A & EF & ET' & EB & EC & ES & _).
  destruct (inv_locks _ (proj1 R) from) as (ls & Rl & _).
  exists from, to, ls. do 4 (split; [done|]).
  destruct (SendCoins_restricted _ _ _ _ _ _ ES) as [tt0 ER].
  apply NewCoins_AmountOf in EC.
  destruct (SendRestrictionFn_Ok _ _ _ _ _ _ _ _ _ _ Rl EB EC A ER) as [_ [L0|(D & ED & C)]]; [by left|].
  right. exists D. split; [done|]. unfold send_amount. lia.
Qed.

(** The ledger after locking for each recipient in turn. *)
Fixpoint ledger_outputs (f : ledger) (outs : list (option MultiSendDelegateAndLockOutput))
    : option ledger :=
  match outs with
  | [] => Some f
  | None :: _ => None
  | Some o :: rest =>
      match AccAddressFromBech32 (Output_ToAddress o) with
      | Ok to => ledger_outputs (ledger_add f to (Output_UnlockDate o) (Amount (Output_Amount o))) rest
      | _ => None
      end
  end.

Definition output_amount (o : option MultiSendDelegateAndLockOutput) : Z :=
  match o with Some o => Amount (Output_Amount o) | None => 0 end.

Lemma total_outputs_Ok outs acc t :
  total_outputs outs acc = Ok t ->
  t = acc + foldr (fun o n => output_amount o + n) 0 outs /\
  Forall (fun o => 0 < output_amount o) outs.
Proof.
  revert acc. induction outs as [|[o|] outs IH]; intros acc E; cbn [total_outputs foldr] in *.
  - injection E as <-. split; [lia|constructor].
  - unfold Coin_IsPositive in E. case_match eqn:P; [done|]. apply negb_false_iff, Z.ltb_lt in P.
    apply bind_Ok in E as (t1 & E1 & E). int_facts. apply IH in E as [-> F].
    cbn [output_amount]. split; [lia|by constructor].
  - done.
Qed.

Lemma send_outputs_effect (ctx : Ctx) from outs :
  0 <= BlockTime ctx -> forall (w w' : World S X) f,
  represents (kv_view (w_store w)) f -> send_outputs ctx w from outs = Ok w' ->
  exists g, ledger_outputs f outs = Some g /\ represents (kv_view (w_store w')) g.
Proof.
  intros T. induction outs as [|[o|] outs IH]; intros w w' f R E; cbn [send_outputs ledger_outputs] in *.
  - injection E as <-. eauto.
  - apply bind_Ok in E as (w1 & E1 & E).
    destruct (SendDelegateAndLock_effect _ _ _ _ _ R T E1) as (to & t & ET & _ & _ & _ & R1).
    cbn [MsgSend_ToAddress] in ET. rewrite ET. by eapply IH.
  - done.
Qed.

Lemma MultiSend_Ok (ctx : Ctx) (w w' : World S X) msg :
  MultiSendDelegateAndLock ctx w msg = Ok w' ->
  total_outputs (MsgMulti_Outputs msg) 0 = Ok (Amount (MsgMulti_TotalAmount msg)) /\
  send_outputs ctx w (MsgMulti_FromAddress msg) (MsgMulti_Outputs msg) = Ok w'.
Proof.
  unfold MultiSendDelegateAndLock. intros (a & _ & E)%bind_Ok. apply bind_Ok in E as (t & ET & E).
  case_match eqn:B; [done|]. apply negb_false_iff, Z.eqb_eq in B. by rewrite B.
Qed.

(** C8 A successful MultiSendDelegateAndLock locks, in order, each output's
    positive amount for its recipient, and the outputs sum to the total the
    sender stated. *)
Theorem MultiSend_refines_ledger (ctx : Ctx) (w w' : World S X) msg f :
  represents (kv_view (w_store w)) f -> 0 <= BlockTime ctx ->
  MultiSendDelegateAndLock ctx w msg = Ok w' ->
  (exists g, ledger_outputs f (MsgMulti_Outputs msg) = Some g /\
     represents (kv_view (w_store w')) g) /\
  Forall (fun o => 0 < output_amount o) (MsgMulti_Outputs msg) /\
  foldr (fun o n => output_amount o + n) 0 (MsgMulti_Outputs msg)
    = Amount (MsgMulti_TotalAmount msg).
Proof.
  intros R T [ET ES]%MultiSend_Ok. apply total_outputs_Ok in ET as [-> F].
  split; [by eapply send_outputs_effect|]. split; [done|lia].
Qed.
End Handlers.
