(* ===== verification/LockupSystem.v ===== *)
(** The lockup module over time: the states reachable from the empty store by
    its messages, by blocks whose time does not go back, and by whatever the
    other modules do to their own state; and what holds in all of them. *)

From stdpp Require Import base list strings gmap sorting relations.
From Stdlib Require Import ZArith Lia.
From S2P Require Import Prelude GoTime Sdk LockPb LockStore LockSpec LockupKeeper LockupMsgs LockupInv LockupProps.

Local Open Scope Z_scope.

Section System.
Context `{SdkMathLaws} `{!SdkTypes} `{!SdkCoinLaws} {S : Type} `{!KVStore S} `{!KVStoreLaws S}
  {X : Type} `{!AccountKeeper X} `{!StakingKeeper X} `{!StakingLaws X} `{!BankKeeper X} `{!BankLaws X}.

Definition config : Type := Ctx * World S X.

Inductive step : config -> config -> Prop :=
  | step_Lock ctx w w' msg : MsgServer_Lock ctx w msg = Ok w' -> step (ctx, w) (ctx, w')
  | step_Extend ctx w w' msg :
      MsgExtend_ValidateBasic msg = Ok tt -> Extend ctx w msg = Ok w' -> step (ctx, w) (ctx, w')
  | step_Send ctx w w' msg : SendDelegateAndLock ctx w msg = Ok w' -> step (ctx, w) (ctx, w')
  | step_Multi ctx w w' msg :
      MultiSendDelegateAndLock ctx w msg = Ok w' -> step (ctx, w) (ctx, w')
  | step_block ctx ctx' w : BlockTime ctx <= BlockTime ctx' -> step (ctx, w) (ctx', w)
  | step_others ctx w w' : w_store w' = w_store w -> step (ctx, w) (ctx, w').

Definition initial (c : config) : Prop := 0 <= BlockTime c.1 /\ kv_view (w_store c.2) = ∅.

Definition reachable (c : config) : Prop := exists c0, initial c0 /\ rtc step c0 c.

(** Every lock ends at most two years after the day of the block. *)
Definition within_horizon (ctx : Ctx) (f : ledger) : Prop :=
  forall a d, f a d <> 0 -> exists t, ParseDateOnly d = Some t /\
    t <= AddDate (midnight (BlockTime ctx)) 2 0 0.

Lemma within_horizon_add ctx f a d t amt :
  within_horizon ctx f -> ParseDateOnly d = Some t -> date_window ctx t ->
  within_horizon ctx (ledger_add f a d amt).
Proof.
  intros Hf P [_ Wi] a' d' N. unfold ledger_add in N.
  destruct (bool_decide (a' = a) && String.eqb d' d) eqn:B; [|by apply Hf in N].
  bool_to_prop. subst. eauto.
Qed.

Lemma within_horizon_sub ctx f a d amt :
  within_horizon ctx f -> 0 < amt <= f a d -> within_horizon ctx (ledger_add f a d (- amt)).
Proof.
  intros Hf A a' d' N. apply (Hf a'). unfold ledger_add in N.
  destruct (bool_decide (a' = a) && String.eqb d' d) eqn:B; [|done].
  bool_to_prop. subst. lia.
Qed.

Lemma within_horizon_later ctx ctx' f :
  BlockTime ctx <= BlockTime ctx' -> within_horizon ctx f -> within_horizon ctx' f.
Proof.
  intros L Hf a d N. destruct (Hf a d N) as (t & P & T). exists t. split; [done|].
  pose proof (AddDate_years_mono _ _ 2 L). lia.
Qed.

Lemma extend_loop_horizon (ctx : Ctx) (x : X) name addr es :
  0 <= BlockTime ctx -> validate_extensions es = Ok tt ->
  forall (s s' : S) evs evs' f, represents (kv_view s) f -> within_horizon ctx f ->
  extend_loop ctx s x name addr es evs = Ok (s', evs') ->
  exists g, represents (kv_view s') g /\ within_horizon ctx g.
Proof.
  intros T. induction es as [|e es IH]; intros V s s' evs evs' f R Hf E.
  - cbn [extend_loop] in E. injection E as <- <-. eauto.
  - apply validate_extensions_cons in V as (ext & -> & A & V). cbn [extend_loop] in E.
    apply bind_Ok in E as ([s1 ev] & E1 & E).
    destruct (extend_one_effect _ _ _ _ _ _ _ _ _ R T A E1) as (g & t & M & R1 & P & Wi & _).
    eapply (IH V _ _ _ _ g); [done| |done]. unfold ledger_move in M.
    destruct (Z.leb_spec (Amount (Extension_Amount ext)) (f addr (Extension_FromDate ext))); [|done].
    injection M as <-. eapply within_horizon_add; [|done..]. by apply within_horizon_sub.
Qed.

Lemma send_outputs_horizon (ctx : Ctx) from outs :
  0 <= BlockTime ctx -> forall (w w' : World S X) f,
  represents (kv_view (w_store w)) f -> within_horizon ctx f ->
  send_outputs ctx w from outs = Ok w' ->
  exists g, represents (kv_view (w_store w')) g /\ within_horizon ctx g.
Proof.
  intros T. induction outs as [|[o|] outs IH]; intros w w' f R Hf E; cbn [send_outputs] in *.
  - injection E as <-. eauto.
  - apply bind_Ok in E as (w1 & E1 & E).
    destruct (SendDelegateAndLock_effect _ _ _ _ _ R T E1) as (to & t & ET & P & Wi & _ & R1).
    eapply IH; [exact R1| |exact E]. by eapply within_horizon_add.
  - done.
Qed.

Definition good (c : config) : Prop :=
  0 <= BlockTime c.1 /\
  exists f, represents (kv_view (w_store c.2)) f /\ within_horizon c.1 f.

Lemma step_good c c' : step c c' -> good c -> good c'.
Proof.
  intros St [T (f & R & Hf)].
  destruct St as [| ? ? ? ? V E | | ? ? ? ? E | | ? ? ? E]; cbn [fst snd] in *.
  - split; [done|]. destruct (MsgServer_Lock_effect _ _ _ _ _ R T ltac:(eassumption))
      as (a & t & D & _ & P & Wi & _ & R' & _). eexists. split; [exact R'|].
    by eapply within_horizon_add.
  - split; [done|]. apply MsgExtend_ValidateBasic_Ok in V.
    apply Extend_Ok in E as (addr & evs & _ & _ & EL & _). by eapply extend_loop_horizon.
  - split; [done|]. destruct (SendDelegateAndLock_effect _ _ _ _ _ R T ltac:(eassumption))
      as (a & t & _ & P & Wi & _ & R'). eexists. split; [exact R'|]. by eapply within_horizon_add.
  - split; [done|]. apply MultiSend_Ok in E as [_ ES]. by eapply send_outputs_horizon.
  - split; [simpl; lia|]. exists f. split; [done|]. by eapply within_horizon_later.
  - split; [done|]. exists f. cbn [snd fst]. rewrite E. auto.
Qed.

Lemma reachable_good c : reachable c -> good c.
Proof.
  intros (c0 & [T E] & St). assert (good c0) as G.
  { split; [done|]. exists (fun _ _ => 0). rewrite E. split; [apply represents_empty|].
    by intros a d N. }
  clear T E. induction St as [c|c1 c2 c3 S1 _ IH]; [done|]. apply IH. by eapply step_good.
Qed.

(** C1 In every reachable state the store represents a ledger: each account's
    list is well formed and sorted by strictly increasing dates, and the
    expiration queue holds exactly the amount of each lock. *)
Theorem reachable_invariant (c : config) :
  reachable c -> lockup_inv (kv_view (w_store c.2)).
Proof. intros [_ (f & [I _] & _)]%reachable_good. done. Qed.

Lemma reachable_lock_horizon (c : config) addr ls l :
  reachable c -> locks_rel (kv_view (w_store c.2)) addr ls -> l ∈ ls ->
  exists t, ParseDateOnly (UnlockDate l) = Some t /\
    t <= AddDate (midnight (BlockTime c.1)) 2 0 0.
Proof.
  intros [_ (f & [I F] & Hf)]%reachable_good R L. apply (Hf addr). rewrite <- (F _ _ _ R).
  destruct (inv_locks _ I addr) as (ls' & R' & W). rewrite (locks_rel_fun _ _ _ _ R' R) in W.
  apply list_elem_of_split in L as (pre & post & ->). rewrite amount_of_date by done.
  destruct W as [W _]. apply Forall_app in W as [_ [(_ & ? & _) _]%Forall_cons]. lia.
Qed.

(** In every reachable state every lock of every account ends at most two
    years after the day of the current block, over any interleaving of messages,
    blocks and changes of other modules. *)
Theorem reachable_horizon (c : config) addr ls l :
  reachable c -> locks_rel (kv_view (w_store c.2)) addr ls -> l ∈ ls ->
  exists t, ParseDateOnly (UnlockDate l) = Some t /\
    t <= AddDate (midnight (BlockTime c.1)) 2 0 0.
Proof. apply reachable_lock_horizon. Qed.

(** Two years on, nothing is locked any more. *)
Lemma reachable_released (c : config) (ctx : Ctx) addr :
  reachable c -> AddDate (midnight (BlockTime c.1)) 2 0 0 <= midnight (BlockTime ctx) ->
  GetLockedAmountByAddress ctx (w_store c.2) addr = Ok 0.
Proof.
  intros R L. pose proof (reachable_good c R) as [_ (f & [I _] & _)].
  destruct (inv_locks _ I addr) as (ls & E & W).
  assert (locked_on ctx ls = 0) as Z0.
  { unfold locked_on. rewrite (amount_of_ext _ (fun _ => false)).
    - clear. induction ls as [|l ls IH]; [done|]. exact IH.
    - intros l Hl. destruct (reachable_lock_horizon c addr ls l R E Hl) as (t & P & T).
      unfold IsLocked, Before. rewrite P. apply Z.ltb_ge. lia. }
  rewrite (GetLockedAmount_intro ctx _ addr ls E W); rewrite Z0; done.
Qed.

(** C13 Locks are always released: from any reachable state, once the
    day of the block is two years past that state's day and no further lock was
    made, no account has anything locked, and whatever the other modules' state,
    every removal or change of a delegation and every transfer passes the lockup
    module's hooks and send restriction. *)
Theorem locks_eventually_released (c : config) (ctx : Ctx) (x : X) addr v to amt denom n :
  reachable c -> AddDate (midnight (BlockTime c.1)) 2 0 0 <= midnight (BlockTime ctx) ->
  BondDenom x = Ok denom -> Coins_AmountOf amt denom = Ok n ->
  GetLockedAmountByAddress ctx (w_store c.2) addr = Ok 0 /\
  BeforeDelegationRemoved ctx (w_store c.2) x addr v = Ok tt /\
  AfterDelegationModified ctx (w_store c.2) x addr v = Ok tt /\
  SendRestrictionFn ctx (w_store c.2) x addr to amt = Ok to.
Proof.
  intros R L B A. pose proof (reachable_released c ctx addr R L) as Z0.
  unfold BeforeDelegationRemoved, AfterDelegationModified, checkLockupInvariant,
    checkLockupInvariantExcluding, SendRestrictionFn. rewrite B, Z0. cbn [mbind outcome_bind].
  rewrite A. cbn.
  split; [done|]. split; [by case_match|]. split; [by case_match|]. by case_match.
Qed.
End System.
