(* ===== verification/Testnet.v ===== *)
(** A small concrete chain: executable instances of the classes of Sdk.v that
    satisfy their laws.  It stands in for the code outside the repository where
    a theorem is applied to a concrete input; nothing in the model depends on
    it. *)

From stdpp Require Import base list strings gmap sorting pretty.
From Stdlib Require Import ZArith Lia.
From Stdlib.Init Require Import Byte.
From S2P Require Import Prelude GoTime Sdk LockPb LockStore LockSpec.

Local Open Scope Z_scope.

(** * Integers *)

Definition checked (z : Z) : outcome Z :=
  if int_ok z then Ok z else Panic (ExtPanic "integer overflow").

(** A sign byte and 32 bytes, big endian. *)
Definition toy_marshal (z : Z) : bytes :=
  (if z <? 0 then x01 else x00) :: be_bytes 32 (Z.abs z).
Definition toy_unmarshal (bz : bytes) : outcome Z :=
  match bz with
  | sign :: rest =>
      let a := Uint64 rest in
      let z := if Byte.eqb sign x01 then - a else a in
      if int_ok z then Ok z else Err (ExtErr "integer out of range")
  | [] => Err (ExtErr "no data")
  end.

Fixpoint decimal (s : string) (acc : Z) : option Z :=
  match s with
  | EmptyString => Some acc
  | String a s' => d ← digit a; decimal s' (10 * acc + d)
  end.

(** An optional sign and at least one digit. *)
Definition toy_int (s : string) : option Z :=
  match s with
  | EmptyString => None
  | String a s' =>
      if Ascii.eqb a (Ascii.ascii_of_N 45) then
        if String.eqb s' "" then None else z ← decimal s' 0; Some (- z)
      else decimal s 0
  end.

(** * Coins and addresses *)

Definition toy_address (s : string) : outcome bytes :=
  if String.eqb s "" then Err (ExtErr "empty address string is not allowed")
  else Ok (bytes_of_string s).

Fixpoint toy_AmountOf (cs : list Coin) (d : string) : Z :=
  match cs with
  | [] => 0
  | c :: cs' => if String.eqb (Denom c) d then Amount c else toy_AmountOf cs' d
  end.

(** * Balances and delegations *)

Record Net := MkNet {
  net_balances : gmap (bytes * string) Z;
  net_delegations : list (bytes * (string * Z));
  net_validators : list string;
}.

Definition net_denom : string := "aTSC".

Definition net_balance (x : Net) (a : bytes) (d : string) : Z :=
  default 0 (net_balances x !! (a, d)).

Definition net_add (x : Net) (a : bytes) (d : string) (n : Z) : Net :=
  MkNet (<[(a, d) := net_balance x a d + n]> (net_balances x)) (net_delegations x) (net_validators x).

Definition net_send (r : SendRestriction Net) (x : Net) (from to : bytes) (cs : list Coin)
    : outcome Net :=
  to' ← r x from to cs;
  foldl (fun o c =>
    x ← o;
    if net_balance x from (Denom c) <? Amount c
    then Err (SdkErr ErrInsufficientFunds "spendable balance is smaller than %s")
    else Ok (net_add (net_add x from (Denom c) (- Amount c)) to' (Denom c) (Amount c)))
    (Ok x) cs.

Definition net_delegations_of (x : Net) (a : bytes) : list (string * Z) :=
  (filter (fun p => p.1 = a) (net_delegations x)).*2.

Definition net_delegate (h : StakingHooks Net Z) (x : Net) (a : bytes) (amt : Z)
    (v : string) : outcome (Net * Z) :=
  if net_balance x a net_denom <? amt
  then Err (SdkErr ErrInsufficientFunds "spendable balance is smaller than %s") else
  _ ← hk_BeforeDelegationCreated Net Z h x a (bytes_of_string v);
  let x := net_add x a net_denom (- amt) in
  let x := MkNet (net_balances x) (net_delegations x ++ [(a, (v, amt))]) (net_validators x) in
  _ ← hk_AfterDelegationModified h x a (bytes_of_string v);
  Ok (x, amt).

(** * The store *)

Definition entry_le (p q : bytes * bytes) : Prop := bytes_leb p.1 q.1 = true.

#[export] Instance entry_le_dec : RelDecision entry_le.
Proof. unfold RelDecision, entry_le. apply _. Defined.

Definition store_range (m : gmap bytes bytes) (a : bytes) (b : option bytes) : list (bytes * bytes) :=
  merge_sort entry_le (filter (fun p => key_in_range a b p.1 = true) (map_to_list m)).

#[local] Instance entry_le_trans : Transitive entry_le.
Proof. intros x y z. apply bytes_leb_trans. Qed.
#[local] Instance entry_le_total : Total entry_le.
Proof. intros x y. apply bytes_leb_total. Qed.

Lemma store_range_elem m a b k v :
  (k, v) ∈ store_range m a b <-> m !! k = Some v /\ key_in_range a b k = true.
Proof.
  unfold store_range. rewrite merge_sort_Permutation, list_elem_of_filter, elem_of_map_to_list.
  simpl. tauto.
Qed.

(** Sorted entries with distinct keys are strictly ascending. *)
Lemma entry_le_strict l :
  StronglySorted entry_le l -> NoDup l.*1 -> keys_ascending l.
Proof.
  unfold keys_ascending. induction 1 as [|p l S IH F]; intros N; [constructor|].
  simpl in N. apply NoDup_cons in N as [Np N]. constructor; [by apply IH|].
  apply Forall_forall. intros q Q. eapply Forall_forall in F; [|done].
  unfold bytes_ltb. apply negb_true_iff. destruct (bytes_leb q.1 p.1) eqn:E; [|done].
  destruct Np. rewrite (bytes_leb_antisym _ _ F E). by apply list_elem_of_fmap_2.
Qed.

Lemma store_range_sorted m a b : keys_ascending (store_range m a b).
Proof.
  apply entry_le_strict; [by apply StronglySorted_merge_sort; apply _|].
  unfold store_range. rewrite merge_sort_Permutation.
  eapply sublist_NoDup; [apply (NoDup_fst_map_to_list m)|].
  apply fmap_sublist, sublist_filter.
Qed.

(** * Instances *)

Module Toy.

#[export] Instance toy_math : SdkMath := {
  Int_Add a b := checked (a + b);
  Int_Sub a b := checked (a - b);
  Int_Mul a b := checked (a * b);
  Int_Quo a b := if b =? 0 then Panic (ExtPanic "division by zero") else Ok (Z.quot a b);
  Int_Marshal a := Ok (toy_marshal a);
  Int_Unmarshal := toy_unmarshal;
  Int_String := pretty;
  NewIntFromString s := z ← toy_int s; if int_ok z then Some z else None;
}.

#[export] Instance toy_math_laws : SdkMathLaws.
Proof.
  split.
  - intros a b. exists (ExtPanic "integer overflow"). done.
  - intros a b. exists (ExtPanic "integer overflow"). done.
  - intros a b. exists (ExtPanic "integer overflow"). done.
  - intros a b. exists (ExtPanic "division by zero"). done.
  - intros a I. exists (toy_marshal a). split; [done|]. split.
    + cbn [Int_Unmarshal toy_math toy_unmarshal toy_marshal].
      rewrite Uint64_be_bytes. change (256 ^ Z.of_nat 32) with (2 ^ 256).
      pose proof (proj1 (int_ok_spec a) I). rewrite Z.mod_small by lia.
      assert ((if Byte.eqb (if a <? 0 then x01 else x00) x01 then - Z.abs a else Z.abs a) = a) as ->.
      { destruct (Z.ltb_spec a 0); simpl; lia. }
      by rewrite I.
    + unfold toy_marshal. rewrite zlen_cons. unfold zlen. rewrite be_bytes_length. lia.
  - intros bz. cbn [Int_Unmarshal toy_math]. unfold toy_unmarshal. destruct bz as [|b bz]; [eauto|].
    cbv zeta. case_match; eauto.
  - intros bz a. cbn [Int_Unmarshal toy_math]. unfold toy_unmarshal. destruct bz as [|s bz]; [done|].
    cbv zeta. destruct (int_ok _) eqn:I; [|done]. by intros [= <-].
  - intros s a. cbn [NewIntFromString toy_math].
    destruct (toy_int s) as [z|]; simpl; [|done]. destruct (int_ok z) eqn:I; [|done]. by intros [= <-].
Qed.

#[export] Instance toy_types : SdkTypes := {
  AccAddressFromBech32 := toy_address;
  AccAddress_String := string_of_bytes;
  ValAddressFromBech32 := toy_address;
  ValidDenom d := negb (String.eqb d "");
  NewCoin d a := if (a <? 0) || String.eqb d "" then Panic (ExtPanic "invalid coin") else Ok (NewCoinRec d a);
  NewCoins cs := Ok cs;
  Coins_AmountOf cs d := Ok (toy_AmountOf cs d);
  Coin_String c := pretty (Amount c) +:+ Denom c;
  AttributeKeyAmount := "amount";
  EventTypeDelegate := "delegate";
  AttributeKeyValidator := "validator";
  AttributeKeyDelegator := "delegator";
  AttributeKeyNewShares := "new_shares";
}.

#[export] Instance toy_coin_laws : SdkCoinLaws.
Proof.
  split.
  - intros d a c. cbn [NewCoin toy_types]. case_match; congruence.
  - intros d a V A. cbn [NewCoin ValidDenom toy_types] in *.
    apply negb_true_iff in V. by rewrite V, (proj2 (Z.ltb_ge _ _) A).
  - intros d a A. cbn [NewCoin toy_types]. rewrite (proj2 (Z.ltb_lt _ _) A). eauto.
  - intros c cs [= <-]. cbn. by rewrite String.eqb_refl.
Qed.

#[export] Instance toy_account : AccountKeeper Net := {
  AccountI := bytes;
  HasAccount _ _ := true;
  GetAccount _ a := Some a;
  SetAccount x _ := x;
  AddressCodec := (toy_address, fun a => Ok (string_of_bytes a));
}.

#[export] Instance toy_bank : BankKeeper Net := {
  GetBalance x a d := NewCoinRec d (net_balance x a d);
  SpendableCoin x a d := NewCoinRec d (net_balance x a d);
  IsSendEnabledCoins _ _ := Ok tt;
  SendCoins := net_send;
  SendCoinsFromAccountToModule r x a m cs := net_send r x a (bytes_of_string m) cs;
}.

#[export] Instance toy_bank_laws : BankLaws Net.
Proof. split. intros r x a b cs x' E. apply bind_Ok in E as (to & E & _). eauto. Qed.

#[export] Instance toy_staking : StakingKeeper Net := {
  Dec := Z;
  Validator := string;
  Delegation := string * Z;
  GetValidatorAddr d := d.1;
  GetShares d := d.2;
  TokensFromShares _ s := Z.max 0 s;
  Dec_Ceil d := d;
  Dec_TruncateInt d := d;
  Dec_String := pretty;
  BondDenom _ := Ok net_denom;
  GetValidator x v :=
    if bool_decide (string_of_bytes v ∈ net_validators x) then Ok (string_of_bytes v)
    else Err (ExtErr "validator does not exist");
  GetDelegation x a v :=
    match list_find (fun d => bytes_of_string d.1 = v /\ d.1 <> "") (net_delegations_of x a) with
    | Some (_, d) => Ok d
    | None => Err (ExtErr "no delegation for (address, validator) tuple")
    end;
  GetDelegatorDelegations x a n := Ok (take (Z.to_nat n) (net_delegations_of x a));
  Delegate h x a amt _ v _ := net_delegate h x a amt v;
}.

#[export] Instance toy_staking_laws : StakingLaws Net.
Proof.
  refine {| all_delegations := net_delegations_of |}.
  - done.
  - intros x a v d. cbn [GetDelegation toy_staking].
    destruct (list_find _ _) as [[i d']|] eqn:F; [|done]. intros [= <-].
    apply list_find_Some in F as (F & [E N] & _). split; [by eapply list_elem_of_lookup_2|].
    cbn. unfold toy_address. destruct (String.eqb_spec d'.1 "") as [E'|_]; [done|]. by f_equal.
  - intros v d. cbn. lia.
Defined.

#[export] Instance toy_kv : KVStore (gmap bytes bytes) := {
  kv_Get m k := Ok (m !! k);
  kv_Set m k v := Ok (<[k := v]> m);
  kv_Delete m k := Ok (delete k m);
  kv_Iterator m a b := Ok (store_range m a b);
}.

#[export] Instance toy_kv_laws : KVStoreLaws (gmap bytes bytes).
Proof.
  refine {| kv_view m := m |}.
  - done.
  - intros s k v _. by eexists.
  - intros s k _. by eexists.
  - intros s a b _. exists (store_range s a b). split; [done|].
    split; [apply store_range_sorted|]. intros. apply store_range_elem.
Defined.
End Toy.
