(* ===== verification/LockupQuery.v ===== *)
(** The lockup module's queries: x/lockup/keeper/query_server.go, with the
    request and response types of x/lockup/types/query.pb.go. *)

From stdpp Require Import base list strings gmap sorting.
From Stdlib Require Import ZArith Lia.
From Stdlib.Init Require Import Byte.
From S2P Require Import Prelude GoTime Sdk LockPb LockStore LockSpec LockupKeeper LockupMsgs LockupInv.

Local Open Scope Z_scope.

(** * Requests and responses *)

(** [query.PageRequest] and [query.PageResponse] of the Cosmos SDK. *)
Record PageRequest := MkPageRequest { Page_Key : bytes; Page_Offset : Z; Page_Limit : Z }.
Record PageResponse := MkPageResponse { NextKey : option bytes; PageTotal : Z }.

Record LockResource := MkLockResource { LR_UnlockDate : string; LR_Amount : Coin }.
Record ActiveLockResource := MkActiveLockResource {
  ALR_Address : string;
  ALR_UnlockDate : string;
  ALR_Amount : Coin;
}.
Record AccountLocksResource := MkAccountLocksResource {
  AcLR_Address : string;
  AcLR_Locks : list LockResource;
}.

(** * The strings package *)

(** [strings.Split(s, sep)] for a one-byte separator. *)
Fixpoint Split (s : bytes) (sep : byte) : list bytes :=
  match s with
  | [] => [[]]
  | c :: s' =>
      if Byte.eqb c sep then [] :: Split s' sep
      else match Split s' sep with
           | p :: ps => (c :: p) :: ps
           | [] => [[c]]
           end
  end.

(** The encodings of the characters [unicode.IsSpace] accepts. *)
Definition unicode_spaces : list bytes :=
  [[x09]; [x0a]; [x0b]; [x0c]; [x0d]; [x20]; [xc2; x85]; [xc2; xa0]; [xe1; x9a; x80];
   [xe2; x80; x80]; [xe2; x80; x81]; [xe2; x80; x82]; [xe2; x80; x83]; [xe2; x80; x84];
   [xe2; x80; x85]; [xe2; x80; x86]; [xe2; x80; x87]; [xe2; x80; x88]; [xe2; x80; x89];
   [xe2; x80; x8a]; [xe2; x80; xa8]; [xe2; x80; xa9]; [xe2; x80; xaf]; [xe2; x81; x9f];
   [xe3; x80; x80]].

Fixpoint strip_prefix (p s : bytes) : option bytes :=
  match p, s with
  | [], _ => Some s
  | a :: p', b :: s' => if Byte.eqb a b then strip_prefix p' s' else None
  | _ :: _, [] => None
  end.

Fixpoint strip_any (ps : list bytes) (s : bytes) : option bytes :=
  match ps with
  | [] => None
  | p :: ps' => match strip_prefix p s with Some r => Some r | None => strip_any ps' s end
  end.

(** Each round removes at least one byte. *)
Fixpoint trim_left (fuel : nat) (ps : list bytes) (s : bytes) : bytes :=
  match fuel with
  | O => s
  | S fuel' => match strip_any ps s with Some r => trim_left fuel' ps r | None => s end
  end.

(** [strings.TrimSpace]. *)
Definition TrimSpace (s : bytes) : bytes :=
  let l := trim_left (length s) unicode_spaces s in
  rev (trim_left (length l) (map (@rev byte) unicode_spaces) (rev l)).

(** * Pagination *)

(** [prefixEndBytes(prefix)]: the loop increments bytes from the last one. *)
Fixpoint incr_rev (rp : bytes) : option bytes :=
  match rp with
  | [] => None
  | b :: rp' =>
      let b' := byte_of_Z (byte_to_Z b + 1) in
      if negb (byte_to_Z b' =? 0) then Some (b' :: rp')
      else match incr_rev rp' with Some r => Some (b' :: r) | None => None end
  end.
Definition prefixEndBytes (prefix : bytes) : option bytes :=
  if zlen prefix =? 0 then None
  else match incr_rev (rev prefix) with Some r => Some (rev r) | None => None end.

Definition page_limit (p : option PageRequest) : Z :=
  match p with
  | Some p => if negb (Page_Limit p =? 0) then Page_Limit p else 100
  | None => 100
  end.

(** [startIdx] and [endIdx] of the offset pagination of a list. *)
Definition page_bounds (p : option PageRequest) (len : Z) : Z * Z :=
  let limit := page_limit p in
  let offset := match p with
                | Some p => if negb (Page_Offset p =? 0) then Page_Offset p else 0
                | None => 0
                end in
  let endIdx := uint64 (offset + limit) in
  (offset, if uint64 len <? endIdx then uint64 len else endIdx).

Definition more_results (endIdx len : Z) : option bytes :=
  if endIdx <? uint64 len then Some [x01] else None.

(** * Queries *)

Section Queries.
Context `{SdkMath} `{SdkTypes} {S : Type} `{KVStore S} {X : Type} `{StakingKeeper X}.

Definition internal {A} (m : outcome A) : outcome A :=
  wrap_err (fun e => StatusErr Internal "err.Error()") m.

(** The loop of [ActiveLocks] over the entries the iterator yields. *)
Fixpoint active_locks_loop (ctx : Ctx) (x : X) (limit count : Z) (acc : list ActiveLockResource)
    (entries : list (bytes * bytes)) : outcome (list ActiveLockResource * option bytes) :=
  match entries with
  | [] => Ok (acc, None)
  | (key, value) :: rest =>
      if limit <=? count then Ok (acc, Some key) else
      let prefixLen := zlen LocksByDateKey in
      if zlen key <? prefixLen + 8 then active_locks_loop ctx x limit count acc rest else
      '(unlockTime, addrBz) ← parse_queue_key key;
      let unlockDate := FormatDateOnly unlockTime in
      let blockDay := midnight (BlockTime ctx) in
      if negb (IsLocked blockDay unlockDate) then active_locks_loop ctx x limit count acc rest else
      amount ← wrap_err (fun _ => StatusErr Internal "failed to unmarshal amount")
                 (Int_Unmarshal value);
      bondDenom ← internal (BondDenom x);
      coin ← NewCoin bondDenom amount;
      active_locks_loop ctx x limit (count + 1)
        (acc ++ [MkActiveLockResource (AccAddress_String addrBz) unlockDate coin]) rest
  end.

(** The request, when not nil, is its pagination. *)
Definition ActiveLocks (ctx : Ctx) (s : S) (x : X) (req : option (option PageRequest))
    : outcome (list ActiveLockResource * PageResponse) :=
  match req with
  | None => Err (StatusErr InvalidArgument "invalid request")
  | Some pagination =>
      let startKey := match pagination with
                      | Some p => if negb (zlen (Page_Key p) =? 0) then Page_Key p else LocksByDateKey
                      | None => LocksByDateKey
                      end in
      entries ← internal (kv_Iterator s startKey (prefixEndBytes LocksByDateKey));
      '(locks, nextKey) ← active_locks_loop ctx x (page_limit pagination) 0 [] entries;
      Ok (locks, MkPageResponse nextKey 0)
  end.

(** The request is whether it is not nil. *)
Definition TotalLockedAmount (ctx : Ctx) (s : S) (x : X) (req : option unit) : outcome Coin :=
  match req with
  | None => Err (StatusErr InvalidArgument "invalid request")
  | Some _ =>
      let blockDay := midnight (BlockTime ctx) in
      totalLocked ← internal (IterateActiveLocks s blockDay
        (fun totalLocked addr unlockTime amount => Int_Add totalLocked amount) 0);
      bondDenom ← wrap_err (fun _ => SdkErr ErrInvalidType "invalid bond denom: %s") (BondDenom x);
      NewCoin bondDenom totalLocked
  end.

(** The active locks of a list, as the response shows them. *)
Fixpoint active_resources (blockDay : Time) (bondDenom : string) (locks : list Lock)
    (acc : list LockResource) : outcome (list LockResource) :=
  match locks with
  | [] => Ok acc
  | lock :: rest =>
      if IsLocked blockDay (UnlockDate lock)
      then coin ← NewCoin bondDenom (LockAmount lock);
           active_resources blockDay bondDenom rest (acc ++ [MkLockResource (UnlockDate lock) coin])
      else active_resources blockDay bondDenom rest acc
  end.

(** The loop of [AccountLocks] over the addresses of the page. *)
Fixpoint account_locks_loop (blockDay : Time) (bondDenom : string) (s : S) (addrs : list string)
    (acc : list AccountLocksResource) : outcome (list AccountLocksResource) :=
  match addrs with
  | [] => Ok acc
  | addrStr :: rest =>
      addr ← wrap_err (fun _ => StatusErr InvalidArgument ("invalid address: " +:+ addrStr))
               (AccAddressFromBech32 addrStr);
      locks ← internal (GetLocksByAddress s addr);
      rs ← active_resources blockDay bondDenom locks [];
      account_locks_loop blockDay bondDenom s rest (acc ++ [MkAccountLocksResource addrStr rs])
  end.

Definition AccountLocks (ctx : Ctx) (s : S) (x : X) (req : option (string * option PageRequest))
    : outcome (list AccountLocksResource * PageResponse) :=
  match req with
  | None => Err (StatusErr InvalidArgument "invalid request")
  | Some (Addresses, pagination) =>
      if String.eqb Addresses ""
      then Err (StatusErr InvalidArgument "addresses parameter is required") else
      let addressList :=
        map (fun a => string_of_bytes (TrimSpace a)) (Split (bytes_of_string Addresses) x2c) in
      if zlen addressList =? 0
      then Err (StatusErr InvalidArgument "at least one address is required") else
      bondDenom ← internal (BondDenom x);
      let blockDay := midnight (BlockTime ctx) in
      let '(startIdx, endIdx) := page_bounds pagination (zlen addressList) in
      paginatedAddresses ← slice addressList startIdx endIdx;
      accountLocks ← account_locks_loop blockDay bondDenom s paginatedAddresses [];
      Ok (accountLocks,
          MkPageResponse (more_results endIdx (zlen addressList)) (uint64 (zlen addressList)))
  end.

Definition Query_Locks (ctx : Ctx) (s : S) (x : X) (req : option (string * option PageRequest))
    : outcome (list LockResource * PageResponse) :=
  match req with
  | None => Err (StatusErr InvalidArgument "invalid request")
  | Some (Address, pagination) =>
      if String.eqb Address "" then Err (StatusErr InvalidArgument "address is required") else
      addr ← wrap_err (fun _ => StatusErr InvalidArgument ("invalid address: " +:+ Address))
               (AccAddressFromBech32 Address);
      locks ← internal (GetLocksByAddress s addr);
      let blockDay := midnight (BlockTime ctx) in
      bondDenom ← internal (BondDenom x);
      activeLockResources ← active_resources blockDay bondDenom locks [];
      let '(startIdx, endIdx) := page_bounds pagination (zlen activeLockResources) in
      paginatedLocks ← slice activeLockResources startIdx endIdx;
      Ok (paginatedLocks,
          MkPageResponse (more_results endIdx (zlen activeLockResources))
            (uint64 (zlen activeLockResources)))
  end.
End Queries.

(** * Pagination *)

Definition page_offset (p : option PageRequest) : Z :=
  match p with Some p => Page_Offset p | None => 0 end.

(** The fields of a request are [uint64]s. *)
Definition page_ok (p : option PageRequest) : Prop :=
  match p with
  | Some p => 0 <= Page_Offset p < 2 ^ 64 /\ 0 <= Page_Limit p < 2 ^ 64
  | None => True
  end.

Lemma page_ok_range p : page_ok p -> 0 <= page_offset p < 2 ^ 64 /\ 0 < page_limit p < 2 ^ 64.
Proof.
  unfold page_ok, page_offset, page_limit. destruct p as [p|]; [|lia].
  intros [? ?]. destruct (Z.eqb_spec (Page_Limit p) 0); simpl; lia.
Qed.

Lemma page_bounds_eq p len :
  page_ok p -> 0 <= len < 2 ^ 64 ->
  page_bounds p len = (page_offset p, Z.min len (uint64 (page_offset p + page_limit p))).
Proof.
  intros P L. unfold page_bounds. rewrite (uint64_small len) by done.
  assert ((match p with
           | Some p => if negb (Page_Offset p =? 0) then Page_Offset p else 0
           | None => 0 end) = page_offset p) as ->.
  { unfold page_offset. destruct p as [p|]; [|done].
    destruct (Z.eqb_spec (Page_Offset p) 0); simpl; lia. }
  f_equal. destruct (Z.ltb_spec len (uint64 (page_offset p + page_limit p))); lia.
Qed.

(** A page can be cut out of the list. *)
Definition page_fits (p : option PageRequest) (len : Z) : Prop :=
  page_offset p <= len /\ page_offset p + page_limit p < 2 ^ 64.

Lemma page_slice {A} p (l : list A) :
  page_ok p -> zlen l < 2 ^ 64 ->
  let '(lo, hi) := page_bounds p (zlen l) in
  (page_fits p (zlen l) ->
     slice l lo hi = Ok (take (Z.to_nat (page_limit p)) (drop (Z.to_nat (page_offset p)) l)) /\
     more_results hi (zlen l)
       = if page_offset p + page_limit p <? zlen l then Some [x01] else None) /\
  (~ page_fits p (zlen l) -> slice l lo hi = Panic SliceBounds).
Proof.
  intros P L. pose proof (zlen_nonneg l). rewrite page_bounds_eq by (done || lia).
  pose proof (page_ok_range p P) as [O Li]. unfold page_fits, slice, more_results.
  change (Z.of_nat (length l)) with (zlen l). rewrite (uint64_small (zlen l)) by lia.
  rewrite (proj2 (Z.leb_le 0 _)), (proj2 (Z.leb_le (Z.min _ _) _)) by lia.
  cbn [andb]. rewrite andb_true_r. split.
  - intros [F W]. rewrite uint64_small by lia.
    rewrite (proj2 (Z.leb_le _ _)) by lia. split.
    + f_equal. destruct (Z.le_gt_cases (page_offset p + page_limit p) (zlen l)).
      * f_equal. lia.
      * rewrite !take_ge; [done|..]; rewrite length_drop; unfold zlen in *; lia.
    + destruct (Z.ltb_spec (page_offset p + page_limit p) (zlen l)).
      * by rewrite (proj2 (Z.ltb_lt _ _)) by lia.
      * by rewrite (proj2 (Z.ltb_ge _ _)) by lia.
  - intros N. rewrite (proj2 (Z.leb_gt _ _)); [done|].
    destruct (Z.lt_ge_cases (page_offset p + page_limit p) (2 ^ 64)) as [W|W].
    + rewrite uint64_small by lia. lia.
    + unfold uint64. assert ((page_offset p + page_limit p) mod 2 ^ 64
        = page_offset p + page_limit p - 2 ^ 64) as ->; [|lia].
      symmetry. apply (Z.mod_unique _ _ 1); lia.
Qed.

Section QueryProps.
Context `{SdkMathLaws} `{!SdkTypes} `{!SdkCoinLaws} {S : Type} `{!KVStore S} `{!KVStoreLaws S}
  {X : Type} `{!StakingKeeper X}.

Definition resource (denom : string) (l : Lock) : LockResource :=
  MkLockResource (UnlockDate l) (NewCoinRec denom (LockAmount l)).

(** The active locks of an account. *)
Definition active (ctx : Ctx) (ls : list Lock) : list Lock :=
  filter (fun l => IsLocked (midnight (BlockTime ctx)) (UnlockDate l) = true) ls.

Lemma active_resources_eq ctx denom ls acc :
  Forall lock_ok ls -> ValidDenom denom = true ->
  active_resources (midnight (BlockTime ctx)) denom ls acc
    = Ok (acc ++ map (resource denom) (active ctx ls)).
Proof.
  intros W V. revert acc. induction W as [|l ls (_ & P & _) W IH]; intros acc; simpl.
  - by rewrite app_nil_r.
  - unfold active. rewrite filter_cons. destruct (IsLocked _ _) eqn:E.
    + rewrite decide_True by done. rewrite NewCoin_valid by (done || lia). cbn [mbind outcome_bind].
      rewrite IH, <- app_assoc. done.
    + rewrite decide_False by done. apply IH.
Qed.

(** C23 The Locks query returns the requested page of the account's active
    locks, tells whether more follow and how many there are; a page that starts
    beyond the end, or whose offset plus limit passes 2^64, makes the handler
    panic with a slice bounds error. *)
Theorem Locks_query_pages (ctx : Ctx) (s : S) (x : X) name p addr ls denom :
  name <> "" -> AccAddressFromBech32 name = Ok addr ->
  locks_rel (kv_view s) addr ls -> locks_inv ls ->
  BondDenom x = Ok denom -> ValidDenom denom = true ->
  page_ok p ->
  let all := map (resource denom) (active ctx ls) in
  (page_fits p (zlen all) ->
   Query_Locks ctx s x (Some (name, p))
     = Ok (take (Z.to_nat (page_limit p)) (drop (Z.to_nat (page_offset p)) all),
           MkPageResponse (if page_offset p + page_limit p <? zlen all then Some [x01] else None)
             (zlen all))) /\
  (~ page_fits p (zlen all) -> Query_Locks ctx s x (Some (name, p)) = Panic SliceBounds).
Proof.
  intros N EA R I BD V P all. pose proof (locks_inv_length _ I) as L. destruct I as [W _]. unfold Query_Locks.
  rewrite (proj2 (String.eqb_neq _ _) N), EA. cbn [wrap_err mbind outcome_bind].
  rewrite (proj2 (GetLocksByAddress_iff _ _ _) R). unfold internal. cbn [wrap_err mbind outcome_bind].
  rewrite BD. cbn [wrap_err mbind outcome_bind].
  rewrite (active_resources_eq ctx denom ls []) by done. cbn [mbind outcome_bind app]. fold all.
  assert (zlen all < 2 ^ 64) as L'.
  { unfold all, zlen in *. rewrite length_map. pose proof (length_filter
      (fun l => IsLocked (midnight (BlockTime ctx)) (UnlockDate l) = true) ls). unfold active. lia. }
  pose proof (page_slice p all P L') as Q. destruct (page_bounds p (zlen all)) as [lo hi].
  destruct Q as [Q1 Q2]. pose proof (zlen_nonneg all). split.
  - intros F. destruct (Q1 F) as [-> ->]. cbn [mbind outcome_bind]. by rewrite uint64_small by lia.
  - intros F. by rewrite Q2.
Qed.
End QueryProps.
