(* ===== verification/LockupTotals.v ===== *)
(** The TotalLockedAmount query against the other index: the sum over the
    expiration queue is the sum over all accounts of what each has locked. *)

From stdpp Require Import base list strings gmap sorting.
From Stdlib Require Import ZArith Lia.
From Stdlib.Init Require Import Byte.
From S2P Require Import Prelude GoTime Sdk LockPb LockStore LockSpec LockupKeeper LockupMsgs LockupInv LockupQuery.

Local Open Scope Z_scope.

(** * Sums *)

Definition zsum (l : list Z) : Z := foldr Z.add 0 l.

Lemma zsum_app l k : zsum (l ++ k) = zsum l + zsum k.
Proof. unfold zsum. induction l as [|x l IH]; simpl; lia. Qed.

#[export] Instance zsum_perm : Proper ((≡ₚ) ==> eq) zsum.
Proof. induction 1; unfold zsum in *; simpl; lia. Qed.

Lemma zsum_bind {A} (g : A -> list Z) l : zsum (l ≫= g) = zsum (map (fun a => zsum (g a)) l).
Proof. induction l as [|a l IH]; [done|]. cbn [mbind list_bind map]. rewrite zsum_app. simpl. unfold zsum in *. simpl. lia. Qed.

Lemma fmap_list_bind {A B C} (f : B -> C) (g : A -> list B) l :
  f <$> (l ≫= g) = l ≫= fun a => f <$> g a.
Proof. induction l as [|a l IH]; [done|]. cbn [mbind list_bind]. by rewrite fmap_app, <- IH. Qed.

(** * The order of the queue keys *)

Lemma bytes_leb_app_len p q a b :
  length p = length q ->
  bytes_leb (p ++ a) (q ++ b) = if decide (p = q) then bytes_leb a b else bytes_leb p q.
Proof.
  revert q. induction p as [|x p IH]; intros [|y q] L; try discriminate L.
  - by rewrite decide_True.
  - cbn [app bytes_leb]. injection L as L.
    destruct (Z.eqb_spec (byte_to_Z x) (byte_to_Z y)) as [E|E].
    + apply byte_to_Z_inj in E as ->. rewrite IH by done.
      destruct (decide (p = q)) as [->|N]; [by rewrite decide_True|].
      rewrite decide_False by (intros [= ?]; done). done.
    + rewrite decide_False by (intros [= ? ?]; congruence). done.
Qed.

Lemma be_bytes_leb n x y :
  0 <= x < 256 ^ Z.of_nat n -> 0 <= y < 256 ^ Z.of_nat n ->
  bytes_leb (be_bytes n x) (be_bytes n y) = (x <=? y).
Proof.
  revert x y. induction n as [|n IH]; intros x y X Y.
  - simpl in *. replace x with 0 by lia. by replace y with 0 by lia.
  - rewrite Nat2Z.inj_succ, Z.pow_succ_r in X, Y by lia. cbn [be_bytes].
    assert (0 <= x / 256 < 256 ^ Z.of_nat n) by (split; [apply Z.div_pos; lia|apply Z.div_lt_upper_bound; lia]).
    assert (0 <= y / 256 < 256 ^ Z.of_nat n) by (split; [apply Z.div_pos; lia|apply Z.div_lt_upper_bound; lia]).
    rewrite bytes_leb_app_len by (by rewrite !be_bytes_length).
    pose proof (Z.div_mod x 256 ltac:(lia)). pose proof (Z.div_mod y 256 ltac:(lia)).
    pose proof (Z.mod_pos_bound x 256 ltac:(lia)). pose proof (Z.mod_pos_bound y 256 ltac:(lia)).
    case_decide as E.
    + apply (f_equal Uint64) in E. rewrite !Uint64_be_bytes, !Z.mod_small in E by lia.
      cbn [bytes_leb]. rewrite !byte_to_of_Z.
      destruct (Z.eqb_spec (x mod 256) (y mod 256)).
      * rewrite (proj2 (Z.leb_le x y)) by lia. done.
      * destruct (Z.leb_spec x y); [rewrite (proj2 (Z.ltb_lt _ _)) by lia|rewrite (proj2 (Z.ltb_ge _ _)) by lia]; done.
    + rewrite IH by done. assert (x / 256 <> y / 256) by congruence.
      destruct (Z.leb_spec x y); [rewrite (proj2 (Z.leb_le _ _)) by lia|rewrite (proj2 (Z.leb_gt _ _)) by lia]; done.
Qed.

(** The first key [IterateActiveLocks] visits. *)
Definition first_active_key (now : Time) : bytes :=
  LocksByDateKey ++ PutUint64 (uint64 (int64 (Unix now + 1))).

(** A block time that [int64] seconds can hold, from 1970 on. *)
Definition clock_ok (now : Time) : Prop := 0 <= now /\ Unix now < 2 ^ 62.

Lemma Unix_nonneg t : 0 <= t -> 0 <= Unix t.
Proof. intros. unfold Unix. apply Z.div_pos; [done|unfold Second; lia]. Qed.

Lemma active_key_range now d t a :
  clock_ok now -> ParseDateOnly d = Some t -> 0 <= t ->
  key_in_range (first_active_key now) None (GetLockExpirationKey t a) = (Unix now <? Unix t).
Proof.
  intros [N C] P T. unfold key_in_range, first_active_key, GetLockExpirationKey.
  pose proof (Unix_nonneg now N). pose proof (Unix_nonneg t T).
  apply ParseDateOnly_unix in P as [B _].
  rewrite andb_true_r, <- app_assoc, bytes_leb_app.
  rewrite int64_small, !uint64_small by lia.
  rewrite <- (app_nil_r (PutUint64 (Unix now + 1))).
  rewrite bytes_leb_app_len by (by rewrite !PutUint64_length).
  unfold PutUint64. rewrite be_bytes_leb by (simpl; lia). case_decide as E.
  - apply (f_equal Uint64) in E. rewrite !Uint64_be_bytes, !Z.mod_small in E by (simpl; lia).
    cbn [bytes_leb]. symmetry. apply Z.ltb_lt. lia.
  - destruct (Z.ltb_spec (Unix now) (Unix t)); [apply Z.leb_le|apply Z.leb_gt]; lia.
Qed.

Lemma address_key_range now a :
  key_in_range (first_active_key now) None (GetLocksByAddressKey a) = false.
Proof. done. Qed.

(** Seconds of two midnights compare as the midnights. *)
Lemma Unix_ltb_midnight now d t :
  ParseDateOnly d = Some t -> (Unix (midnight now) <? Unix t) = (midnight now <? t).
Proof.
  intros P. apply ParseDateOnly_unix in P as [_ E].
  assert (FromUnix (Unix (midnight now)) = midnight now) as E'.
  { rewrite midnight_day. unfold FromUnix, Unix, Day, Hour.
    replace (day_of now * (24 * (3600 * Second))) with (day_of now * 86400 * Second) by lia.
    rewrite Z.div_mul; [done|unfold Second; lia]. }
  unfold FromUnix, Second in E, E'. rewrite <- E' at 2. rewrite <- E at 2.
  destruct (Z.ltb_spec (Unix (midnight now)) (Unix t)); symmetry; [apply Z.ltb_lt|apply Z.ltb_ge]; lia.
Qed.

Section Totals.
Context `{SdkMathLaws} `{!SdkTypes} `{!SdkCoinLaws} {S : Type} `{!KVStore S} `{!KVStoreLaws S}
  {X : Type} `{!StakingKeeper X}.

(** The amount a queue value holds. *)
Definition queued (v : bytes) : Z := match Int_Unmarshal v with Ok a => a | _ => 0 end.

(** An entry as the lockup module writes it. *)
Definition queue_entry (e : bytes * bytes) : Prop :=
  exists t a, unix_ok t /\ e.1 = GetLockExpirationKey t a /\
    Int_Unmarshal e.2 = Ok (queued e.2) /\ 0 <= queued e.2.

Lemma iterate_active_sum entries acc :
  Forall queue_entry entries -> 0 <= acc ->
  int_ok (acc + zsum (map (fun e => queued e.2) entries)) = true ->
  iterate_active (fun total _ _ amount => Int_Add total amount) acc entries
    = Ok (acc + zsum (map (fun e => queued e.2) entries)).
Proof.
  intros F. revert acc. induction F as [|[k v] l (t & a & U & K & V & P) F IH]; intros acc A I.
  - simpl. f_equal. unfold zsum. simpl. lia.
  - cbn [iterate_active map] in *. cbn [fst snd] in *. subst k.
    assert ((zlen (GetLockExpirationKey t a) <? zlen LocksByDateKey + 8) = false) as ->.
    { apply Z.ltb_ge. unfold GetLockExpirationKey. rewrite !zlen_app.
      unfold zlen at 3. rewrite PutUint64_length. pose proof (zlen_nonneg a). lia. }
    rewrite parse_queue_key_spec by done. cbn [mbind outcome_bind]. rewrite V. cbn [mbind outcome_bind].
    change (zsum (queued v :: map (fun e => queued e.2) l))
      with (queued v + zsum (map (fun e => queued e.2) l)) in *.
    assert (0 <= zsum (map (fun e => queued e.2) l)).
    { clear -F. induction F as [|e l (? & ? & ? & ? & ? & ?) F IH]; [done|]. unfold zsum in *. simpl. lia. }
    rewrite Int_Add_intro by (apply (int_ok_between _ _ I); lia). cbn [mbind outcome_bind].
    rewrite IH; [f_equal; lia|lia|]. by rewrite <- Z.add_assoc.
Qed.

Lemma keys_ascending_NoDup l : keys_ascending l -> NoDup l.*1.
Proof.
  induction 1 as [|p l S' IH F]; [constructor|]. simpl. constructor; [|done].
  intros (q & E & Q)%list_elem_of_fmap. eapply Forall_forall in F; [|done].
  rewrite <- E in F. unfold bytes_ltb in F. by rewrite bytes_leb_refl in F.
Qed.

(** The queue keys of an account's active locks. *)
Definition active_keys (ctx : Ctx) (a : bytes) (ls : list Lock) : list bytes :=
  (fun t => GetLockExpirationKey t a) <$> (lock_time <$> active ctx ls).

Lemma lock_time_NoDup ls :
  StronglySorted (fun l k => lock_time l < lock_time k) ls -> NoDup (lock_time <$> ls).
Proof.
  induction 1 as [|l ls S' IH F]; [constructor|]. simpl. constructor; [|done].
  intros (k & E & K)%list_elem_of_fmap. eapply Forall_forall in F; [|done]. lia.
Qed.

Lemma active_elem ctx ls l :
  l ∈ active ctx ls <-> l ∈ ls /\ IsLocked (midnight (BlockTime ctx)) (UnlockDate l) = true.
Proof. unfold active. rewrite list_elem_of_filter. tauto. Qed.

Lemma active_keys_elem ctx a ls k :
  k ∈ active_keys ctx a ls <-> exists l, l ∈ active ctx ls /\ k = GetLockExpirationKey (lock_time l) a.
Proof.
  unfold active_keys. rewrite <- list_fmap_compose, list_elem_of_fmap. unfold compose. split.
  - intros (l & -> & L). eauto.
  - intros (l & L & ->). eauto.
Qed.

Lemma active_keys_NoDup ctx a ls : locks_inv ls -> NoDup (active_keys ctx a ls).
Proof.
  intros [W S']. unfold active_keys. apply NoDup_fmap_2_strong.
  - intros t u (l & -> & L)%list_elem_of_fmap (k & -> & K)%list_elem_of_fmap E.
    apply active_elem in L as [L _], K as [K _]. rewrite Forall_forall in W.
    apply W, lock_ok_time in L. apply W, lock_ok_time in K.
    by apply (queue_key_inj _ _ _ _ _ _ L K) in E as [? _].
  - eapply sublist_NoDup; [by apply lock_time_NoDup|]. apply fmap_sublist, sublist_filter.
Qed.

Lemma locked_on_active ctx ls : locked_on ctx ls = zsum (LockAmount <$> active ctx ls).
Proof.
  unfold locked_on. induction ls as [|l ls IH]; [done|]. cbn [amount_of]. unfold active in *.
  rewrite filter_cons. destruct (IsLocked _ _) eqn:E.
  - rewrite decide_True by done. rewrite IH. done.
  - rewrite decide_False by done. lia.
Qed.

(** ** All accounts *)

Context (m : gmap bytes bytes) (ctx : Ctx) (accts : list bytes) (locks : bytes -> list Lock).
Hypothesis Inv : lockup_inv m.
Hypothesis Clock : clock_ok (BlockTime ctx).
Hypothesis Nodup : NoDup accts.
Hypothesis Rel : forall a, locks_rel m a (locks a).
Hypothesis Cover : forall a, locks a <> [] -> a ∈ accts.

Lemma locks_good a : locks_inv (locks a).
Proof using Inv Rel.
  destruct (inv_locks _ Inv a) as (ls & R & W). by rewrite (locks_rel_fun _ _ _ _ (Rel a) R).
Qed.

(** The store entry of a lock. *)
Lemma lock_entry a l :
  l ∈ locks a -> exists v, m !! GetLockExpirationKey (lock_time l) a = Some v /\
    Int_Unmarshal v = Ok (LockAmount l) /\ 0 < LockAmount l /\ 0 <= lock_time l.
Proof using Inv Rel.
  intros L. pose proof (locks_good a) as W. pose proof (proj1 W) as WF. rewrite Forall_forall in WF.
  pose proof (WF _ L) as (D & P & _). pose proof (lock_ok_time _ (WF _ L)) as T.
  pose proof (inv_queue _ Inv a (locks a) _ _ (Rel a) T) as Q.
  assert (amount_of (String.eqb (UnlockDate l)) (locks a) = LockAmount l) as E.
  { apply list_elem_of_split in L as (pre & post & E). rewrite E in *. by apply amount_of_date. }
  assert (0 <= lock_time l) by (eapply (queue_time_nonneg m a (locks a)); [done..|lia]).
  rewrite E in Q. unfold queue_rel in Q. destruct (m !! _) as [v|]; [|lia].
  exists v. by destruct Q.
Qed.

Lemma clock_midnight : clock_ok (midnight (BlockTime ctx)).
Proof using Clock.
  destruct Clock as [N C]. pose proof (midnight_bounds (BlockTime ctx)) as [B _].
  apply midnight_mono in N. change (midnight 0) with 0 in N. split; [done|].
  assert (Unix (midnight (BlockTime ctx)) <= Unix (BlockTime ctx)); [|lia].
  unfold Unix. apply Z.div_le_mono; [unfold Second; lia|done].
Qed.

Let first := first_active_key (midnight (BlockTime ctx)).

(** The keys in range are those of the accounts' active locks. *)
Lemma active_range_keys k :
  (exists v, m !! k = Some v /\ key_in_range first None k = true)
    <-> k ∈ accts ≫= fun a => active_keys ctx a (locks a).
Proof using Inv Clock Rel Cover.
  rewrite list_elem_of_bind. split.
  - intros (v & V & R). destruct (inv_keys _ Inv _ _ V) as [[a ->]|(d & t & a & D & T & ->)].
    { unfold first in R. by rewrite address_key_range in R. }
    unfold first in R. rewrite (active_key_range _ d) in R by (done || apply clock_midnight).
    rewrite (Unix_ltb_midnight _ d) in R by done.
    pose proof (inv_queue _ Inv a (locks a) d t (Rel a) D) as Q. unfold queue_rel in Q. rewrite V in Q.
    destruct Q as [_ Q]. destruct (find_by_date d (locks a) 0) as [[l i]|] eqn:F.
    + apply find_by_date_Some in F as (pre & post & E & _ & U).
      assert (l ∈ locks a) as L by (rewrite E; apply elem_of_app; right; left).
      exists a. split; [|by apply Cover; rewrite E; destruct pre].
      apply active_keys_elem. exists l. subst d. rewrite (lock_time_Some _ _ D). split; [|done].
      apply active_elem. split; [done|]. unfold IsLocked. by rewrite D.
    + apply find_by_date_None, amount_of_no_date in F. lia.
  - intros (a & (l & [L A]%active_elem & ->)%active_keys_elem & _).
    destruct (lock_entry a l L) as (v & V & _ & _ & T). exists v. split; [done|].
    pose proof (proj1 (locks_good a)) as WF. rewrite Forall_forall in WF. apply WF, lock_ok_time in L.
    unfold first. rewrite (active_key_range _ (UnlockDate l)) by (done || apply clock_midnight).
    rewrite (Unix_ltb_midnight _ (UnlockDate l)) by done. unfold IsLocked in A. by rewrite L in A.
Qed.

Lemma all_keys_NoDup : NoDup (accts ≫= fun a => active_keys ctx a (locks a)).
Proof using Inv Nodup Rel.
  apply NoDup_bind; [|intros; apply active_keys_NoDup, locks_good|done].
  intros a b k _ _ (l & [L _]%active_elem & ->)%active_keys_elem (j & [J _]%active_elem & E)%active_keys_elem.
  pose proof (proj1 (locks_good a)) as WF. rewrite Forall_forall in WF. apply WF, lock_ok_time in L.
  pose proof (proj1 (locks_good b)) as WG. rewrite Forall_forall in WG. apply WG, lock_ok_time in J.
  by apply (queue_key_inj _ _ _ _ _ _ L J) in E as (_ & _ & ?).
Qed.

(** The amount stored under a key. *)
Definition stored (k : bytes) : Z := match m !! k with Some v => queued v | None => 0 end.

Lemma active_keys_stored a : zsum (stored <$> active_keys ctx a (locks a)) = locked_on ctx (locks a).
Proof using Inv Rel.
  rewrite locked_on_active. unfold active_keys. rewrite <- !list_fmap_compose. f_equal.
  apply list_fmap_ext. intros i l L%list_elem_of_lookup_2. apply active_elem in L as [L _].
  unfold compose, stored. destruct (lock_entry a l L) as (v & -> & U & _). unfold queued. by rewrite U.
Qed.

Lemma range_total l :
  keys_ascending l ->
  (forall k v, (k, v) ∈ l <-> m !! k = Some v /\ key_in_range first None k = true) ->
  zsum (map (fun e => queued e.2) l) = zsum (map (fun a => locked_on ctx (locks a)) accts).
Proof using Inv Clock Nodup Rel Cover.
  intros A E.
  assert (l.*1 ≡ₚ accts ≫= fun a => active_keys ctx a (locks a)) as P.
  { apply NoDup_Permutation; [by apply keys_ascending_NoDup|apply all_keys_NoDup|].
    intros k. rewrite <- active_range_keys. split.
    - intros ([k' v] & -> & L)%list_elem_of_fmap. exists v. by apply E.
    - intros (v & V). apply list_elem_of_fmap. exists (k, v). split; [done|]. by apply E. }
  assert (map (fun e => queued e.2) l = stored <$> l.*1) as ->.
  { rewrite <- list_fmap_compose. apply list_fmap_ext. intros i [k v] L%list_elem_of_lookup_2.
    apply E in L as [L _]. unfold compose, stored. simpl. by rewrite L. }
  rewrite P, fmap_list_bind, zsum_bind. f_equal.
  apply map_ext. intros a. apply active_keys_stored.
Qed.

Lemma range_entries l :
  (forall k v, (k, v) ∈ l <-> m !! k = Some v /\ key_in_range first None k = true) ->
  Forall queue_entry l.
Proof using Inv Clock Rel Cover.
  intros E. apply Forall_forall. intros [k v] L. apply E in L as [V R].
  assert (k ∈ accts ≫= fun a => active_keys ctx a (locks a)) as K by (apply active_range_keys; eauto).
  apply list_elem_of_bind in K as (a & (l0 & [L _]%active_elem & ->)%active_keys_elem & _).
  destruct (lock_entry a l0 L) as (v' & V' & U & P & _). assert (v' = v) as -> by congruence.
  pose proof (proj1 (locks_good a)) as WF. rewrite Forall_forall in WF. apply WF, lock_ok_time in L.
  exists (lock_time l0), a. split; [by eapply parse_unix_ok|]. simpl. unfold queued. rewrite U.
  split; [done|]. split; [done|lia].
Qed.
End Totals.

Section Query.
Context `{SdkMathLaws} `{!SdkTypes} `{!SdkCoinLaws} {S : Type} `{!KVStore S} `{!KVStoreLaws S}
  {X : Type} `{!StakingKeeper X}.

(** C15 The TotalLockedAmount query, which adds up the expiration queue from
    the day after the block's on, returns the sum over all accounts of what each
    account's own list has locked on the day of the block. *)
Theorem TotalLockedAmount_sums_accounts (ctx : Ctx) (s : S) (x : X) accts locks denom :
  lockup_inv (kv_view s) -> clock_ok (BlockTime ctx) ->
  NoDup accts -> (forall a, locks_rel (kv_view s) a (locks a)) ->
  (forall a, locks a <> [] -> a ∈ accts) ->
  BondDenom x = Ok denom -> ValidDenom denom = true ->
  let total := zsum (map (fun a => locked_on ctx (locks a)) accts) in
  int_ok total = true ->
  TotalLockedAmount ctx s x (Some tt) = Ok (NewCoinRec denom total).
Proof.
  intros I C N R Cv BD V total OK. unfold TotalLockedAmount, IterateActiveLocks.
  fold (first_active_key (midnight (BlockTime ctx))).
  destruct (kv_Iterator_spec s (first_active_key (midnight (BlockTime ctx))) None) as (l & -> & A & E); [done|].
  cbn [mbind outcome_bind].
  pose proof (range_total _ _ _ _ I C N R Cv l A E) as T. fold total in T.
  rewrite iterate_active_sum; [|by eapply range_entries|done|by rewrite T].
  rewrite T. unfold internal. cbn [wrap_err mbind outcome_bind]. rewrite BD. cbn [wrap_err mbind outcome_bind].
  apply NewCoin_valid; [done|].
  unfold total. clear - I R. induction accts as [|a l IH]; [done|].
  change (0 <= locked_on ctx (locks a) + zsum (map (fun a => locked_on ctx (locks a)) l)).
  pose proof (amount_of_nonneg (IsLocked (midnight (BlockTime ctx))) (locks a)
                (proj1 (locks_good _ _ I R a))). unfold locked_on at 1. lia.
Qed.
End Query.
