(* ===== verification/LockupExpiry.v ===== *)
(** The expiration queue as a list of locks in date order: what
    [IterateAndDeleteExpiredLocks] visits and deletes, and that the pages of the
    ActiveLocks query together list every active lock once. *)

From stdpp Require Import base list strings gmap sorting.
From Stdlib Require Import ZArith Lia.
From Stdlib.Init Require Import Byte.
From S2P Require Import Prelude GoTime Sdk LockPb LockStore LockSpec LockupKeeper LockupMsgs LockupInv LockupQuery LockupTotals.

Local Open Scope Z_scope.

(** * Queue entries and the locks they stand for *)

(** A lock of an account. *)
Definition item : Type := bytes * Lock.
Definition item_key (i : item) : bytes := GetLockExpirationKey (lock_time i.2) i.1.

Section Items.
Context `{SdkMath}.

Definition held (m : gmap bytes bytes) (i : item) : Prop :=
  exists ls, locks_rel m i.1 ls /\ i.2 ∈ ls.

(** A queue entry and its lock. *)
Definition entry_item (e : bytes * bytes) (i : item) : Prop :=
  e.1 = item_key i /\ ParseDateOnly (UnlockDate i.2) = Some (lock_time i.2) /\
  Int_Unmarshal e.2 = Ok (LockAmount i.2) /\ 0 < LockAmount i.2 /\ 0 <= lock_time i.2.

Lemma held_entry m i :
  lockup_inv m -> held m i -> exists v, m !! item_key i = Some v /\ entry_item (item_key i, v) i.
Proof.
  intros I (ls & R & L). destruct i as [a l]. cbn [fst snd] in *.
  destruct (inv_locks _ I a) as (ls' & R' & W). rewrite (locks_rel_fun _ _ _ _ R' R) in W. clear ls' R'.
  pose proof (proj1 W) as WF. rewrite Forall_forall in WF.
  pose proof (WF _ L) as (_ & P & _). pose proof (lock_ok_time _ (WF _ L)) as T.
  pose proof (inv_queue _ I a ls _ _ R T) as Q.
  assert (amount_of (String.eqb (UnlockDate l)) ls = LockAmount l) as E.
  { apply list_elem_of_split in L as (pre & post & ->). by apply amount_of_date. }
  assert (0 <= lock_time l) by (eapply (queue_time_nonneg m a ls); [done..|lia]).
  rewrite E in Q. unfold queue_rel in Q. unfold item_key. cbn [fst snd].
  destruct (m !! _) as [v|]; [|lia]. exists v. by destruct Q.
Qed.

Lemma entry_held m k v :
  lockup_inv m -> m !! k = Some v ->
  (exists a, k = GetLocksByAddressKey a) \/ (exists i, held m i /\ entry_item (k, v) i).
Proof.
  intros I V. destruct (inv_keys _ I _ _ V) as [[a ->]|(d & t & a & D & T & ->)]; [eauto|right].
  destruct (inv_locks _ I a) as (ls & R & W).
  pose proof (inv_queue _ I a ls d t R D) as Q. unfold queue_rel in Q. rewrite V in Q.
  destruct Q as [_ Q]. destruct (find_by_date d ls 0) as [[l i]|] eqn:F.
  - apply find_by_date_Some in F as (pre & post & E & _ & U).
    assert (held m (a, l)) as Hl by (exists ls; rewrite E; split; [by rewrite <- E|set_solver]).
    exists (a, l). split; [done|]. destruct (held_entry m (a, l) I Hl) as (v' & V' & EI).
    unfold item_key in *. cbn [fst snd] in *. subst d.
    rewrite (lock_time_Some _ _ D) in *. congruence.
  - apply find_by_date_None, amount_of_no_date in F. lia.
Qed.

Lemma entry_item_fun e i j : entry_item e i -> entry_item e j -> i = j.
Proof.
  destruct i as [a l], j as [b k]. unfold entry_item, item_key. cbn [fst snd].
  intros (K & P & U & _) (K' & P' & U' & _). rewrite K in K'.
  apply (queue_key_inj _ _ _ _ _ _ P P') in K' as (_ & D & ->).
  destruct l as [d x], k as [d2 y]. cbn [UnlockDate LockAmount] in *. congruence.
Qed.

(** Entries with their locks: the locks the store holds in the range. *)
Lemma entries_items m lo hi l :
  lockup_inv m -> (forall a, key_in_range lo hi (GetLocksByAddressKey a) = false) ->
  (forall k v, (k, v) ∈ l <-> m !! k = Some v /\ key_in_range lo hi k = true) ->
  exists items, Forall2 entry_item l items /\
    forall i, i ∈ items <-> held m i /\ key_in_range lo hi (item_key i) = true.
Proof.
  intros I A E.
  assert (exists items, Forall2 (fun e i => entry_item e i /\ held m i) l items) as [items F].
  { assert (forall e, e ∈ l -> exists i, entry_item e i /\ held m i) as X.
    { intros [k v] L. apply E in L as [V R].
      destruct (entry_held m k v I V) as [[a ->]|(i & H1 & H2)]; [by rewrite A in R|eauto]. }
    clear E. induction l as [|e l IH]; [by exists []|].
    destruct (X e) as [i Xi]; [left|]. destruct IH as [its IH]; [intros; apply X; by right|].
    exists (i :: its). by constructor. }
  exists items. split; [by eapply Forall2_impl; [exact F|]; intros ? ? []|].
  intros i. split.
  - intros L. destruct (Forall2_elem_r _ _ _ _ F L) as ([k v] & L' & EI & Hi).
    split; [done|]. apply E in L' as [_ R]. destruct EI as [K _]. cbn [fst] in K. by rewrite <- K.
  - intros [Hi R]. destruct (held_entry m i I Hi) as (v & V & EI).
    assert ((item_key i, v) ∈ l) as L by (by apply E).
    destruct (Forall2_elem_l _ _ _ _ F L) as (j & Lj & EJ & _).
    by rewrite (entry_item_fun _ _ _ EI EJ).
Qed.

Lemma entry_items_keys l items : Forall2 entry_item l items -> l.*1 = map item_key items.
Proof. induction 1 as [|e i l items (K & _) F IH]; [done|]. cbn [fmap list_fmap map]. by rewrite K, IH. Qed.
End Items.

(** ** Ranges of keys *)

Lemma address_key_below hi a : key_in_range LocksByDateKey hi (GetLocksByAddressKey a) = false.
Proof. done. Qed.

Lemma queue_key_above t a : bytes_leb LocksByDateKey (GetLockExpirationKey t a) = true.
Proof.
  unfold GetLockExpirationKey. rewrite <- app_assoc. rewrite <- (app_nil_r LocksByDateKey) at 1.
  by rewrite bytes_leb_app.
Qed.

(** * Expired locks *)

(** The callback on each lock in turn. *)
Fixpoint visit_all {A} (cb : lock_cb A) (a : A) (items : list item) : outcome A :=
  match items with
  | [] => Ok a
  | (addr, l) :: rest =>
      a' ← cb a addr (lock_time l) (LockAmount l);
      visit_all cb a' rest
  end.

(** The end of the range [IterateAndDeleteExpiredLocks] visits is the start of
    the one [IterateActiveLocks] visits. *)
Lemma expired_key_range cutoff d t a :
  clock_ok cutoff -> ParseDateOnly d = Some t -> 0 <= t ->
  key_in_range LocksByDateKey (Some (first_active_key cutoff)) (GetLockExpirationKey t a)
    = (t <=? cutoff).
Proof.
  intros C P T. pose proof (active_key_range cutoff d t a C P T) as R.
  unfold key_in_range in *. rewrite andb_true_r in R. rewrite queue_key_above. unfold bytes_ltb.
  rewrite R. cbn [andb]. apply ParseDateOnly_unix in P as [_ E]. unfold FromUnix, Unix in *.
  pose proof (Z.div_mod cutoff Second ltac:(unfold Second; lia)).
  pose proof (Z.mod_pos_bound cutoff Second ltac:(unfold Second; lia)). unfold Second in *.
  destruct (Z.ltb_spec (cutoff / 1000000000) (t / 1000000000)); symmetry;
    [apply Z.leb_gt|apply Z.leb_le]; lia.
Qed.

Section Expiry.
Context `{SdkMathLaws} {S : Type} `{!KVStore S} `{!KVStoreLaws S}.

Lemma parse_item_key e i : entry_item e i -> parse_queue_key e.1 = Ok (lock_time i.2, i.1).
Proof.
  intros (K & P & _). rewrite K. unfold item_key.
  rewrite parse_queue_key_spec by (by eapply parse_unix_ok).
  by apply ParseDateOnly_unix in P as [_ ->].
Qed.

Lemma iterate_expired_items l items (s : S) :
  Forall2 entry_item l items ->
  exists s', kv_view s' = foldl (fun m e => delete e.1 m) (kv_view s) l /\
    forall A (cb : lock_cb A) a, iterate_expired cb a s l = (a' ← visit_all cb a items; Ok (a', s')).
Proof.
  intros F. revert s. induction F as [|[k v] [addr lk] l items E F IH]; intros s.
  - exists s. split; [done|]. done.
  - destruct (kv_Delete_spec s k) as (s1 & D & V1).
    { destruct E as [E _]. cbn [fst] in E. by rewrite E. }
    destruct (IH s1) as (s' & V & R). exists s'. split; [by rewrite V, V1|].
    intros A cb a. cbn [iterate_expired visit_all].
    apply parse_item_key in E as PE. cbn [fst snd] in PE. rewrite PE. cbn [mbind outcome_bind].
    destruct E as (_ & _ & U & _). cbn [snd] in U. rewrite U. cbn [mbind outcome_bind].
    destruct (cb a addr (lock_time lk) (LockAmount lk)); try done.
    cbn [mbind outcome_bind]. rewrite D. apply R.
Qed.

Lemma foldl_delete_lookup (l : list (bytes * bytes)) (m : gmap bytes bytes) k :
  foldl (fun m e => delete e.1 m) m l !! k = if decide (k ∈ l.*1) then None else m !! k.
Proof.
  revert m. induction l as [|[k' v] l IH]; intros m; cbn [foldl fmap list_fmap fst].
  - by rewrite decide_False by apply not_elem_of_nil.
  - rewrite IH. destruct (decide (k ∈ l.*1)) as [L|L].
    + by rewrite decide_True by (by right).
    + destruct (decide (k = k')) as [->|N].
      * rewrite lookup_delete_eq, decide_True by left. done.
      * rewrite lookup_delete_ne by done. rewrite decide_False; [done|].
        by intros [|]%elem_of_cons.
Qed.

(** C24 IterateAndDeleteExpiredLocks calls its function once for every lock of an
    account whose date is not after the cutoff, removes exactly their queue
    entries, and leaves every other key (the accounts' lists too) as it was. *)
Theorem expired_locks_deleted (s : S) cutoff :
  lockup_inv (kv_view s) -> clock_ok cutoff ->
  exists items s',
    (forall A (cb : lock_cb A) a,
       IterateAndDeleteExpiredLocks s cutoff cb a = (a' ← visit_all cb a items; Ok (a', s'))) /\
    NoDup items /\
    (forall i, i ∈ items <-> held (kv_view s) i /\ lock_time i.2 <= cutoff) /\
    (forall k, kv_view s' !! k = if decide (k ∈ map item_key items) then None else kv_view s !! k).
Proof.
  intros I C. unfold IterateAndDeleteExpiredLocks. fold (first_active_key cutoff).
  destruct (kv_Iterator_spec s LocksByDateKey (Some (first_active_key cutoff))) as (l & IT & A & E);
    [done|].
  destruct (entries_items _ _ _ l I (address_key_below _) E) as (items & F & M).
  destruct (iterate_expired_items l items s F) as (s' & V & R).
  exists items, s'. split; [|split; [|split]].
  - intros B cb a. rewrite IT. apply R.
  - apply keys_ascending_NoDup in A. rewrite (entry_items_keys _ _ F) in A. by eapply NoDup_fmap_1.
  - intros i. rewrite M. split; intros [Hi K]; (split; [done|]);
      destruct (held_entry _ i I Hi) as (v & _ & _ & P & _ & _ & T);
      unfold item_key in *; rewrite (expired_key_range _ _ _ _ C P T) in *; lia.
  - intros k. by rewrite V, foldl_delete_lookup, (entry_items_keys _ _ F).
Qed.
End Expiry.

(** * The pages of ActiveLocks *)

(** The end of the queue's keys. *)
Lemma queue_end_range t a :
  key_in_range LocksByDateKey (prefixEndBytes LocksByDateKey) (GetLockExpirationKey t a) = true.
Proof. unfold key_in_range. by rewrite queue_key_above. Qed.

(** Ascending entries with the same elements are the same list. *)
Lemma ascending_unique l k :
  keys_ascending l -> keys_ascending k -> (forall e, e ∈ l <-> e ∈ k) -> l = k.
Proof.
  intros L K E. apply (StronglySorted_unique_strong (fun p q => bytes_ltb p.1 q.1 = true)); [|done|done|].
  - intros p q _ _ A B. unfold bytes_ltb in *. destruct (bytes_leb_total p.1 q.1) as [T|T];
      rewrite T in *; done.
  - apply NoDup_Permutation; [| |done]; by eapply NoDup_fmap_1, keys_ascending_NoDup.
Qed.

Section Pages.
Context `{SdkMathLaws} `{!SdkTypes} `{!SdkCoinLaws} {S : Type} `{!KVStore S} `{!KVStoreLaws S}
  {X : Type} `{!StakingKeeper X}.

(** What the query shows of a lock. *)
Definition item_resource (denom : string) (i : item) : ActiveLockResource :=
  MkActiveLockResource (AccAddress_String i.1) (UnlockDate i.2) (NewCoinRec denom (LockAmount i.2)).

Definition active_items (ctx : Ctx) (items : list item) : list item :=
  filter (fun i => IsLocked (midnight (BlockTime ctx)) (UnlockDate i.2) = true) items.

Lemma active_items_cons ctx i items :
  active_items ctx (i :: items)
    = if IsLocked (midnight (BlockTime ctx)) (UnlockDate i.2) then i :: active_items ctx items
      else active_items ctx items.
Proof.
  unfold active_items. rewrite filter_cons. destruct (IsLocked _ _).
  - by rewrite decide_True.
  - by rewrite decide_False.
Qed.

(** One page: a prefix of the entries, with the key of the first one left. *)
Lemma active_locks_page ctx x limit denom l items count acc :
  BondDenom x = Ok denom -> ValidDenom denom = true -> Forall2 entry_item l items ->
  exists pre post ipre ipost,
    l = pre ++ post /\ items = ipre ++ ipost /\ Forall2 entry_item pre ipre /\
    Forall2 entry_item post ipost /\
    active_locks_loop ctx x limit count acc l
      = Ok (acc ++ map (item_resource denom) (active_items ctx ipre), fst <$> head post) /\
    (count < limit -> l <> [] -> pre <> []).
Proof.
  intros BD VD F. revert count acc. induction F as [|[k v] [a lk] l items E F IH]; intros count acc.
  - exists [], [], [], []. cbn. rewrite app_nil_r. done.
  - cbn [active_locks_loop]. destruct (Z.leb_spec limit count).
    { exists [], ((k, v) :: l), [], ((a, lk) :: items). cbn. rewrite app_nil_r.
      repeat split; [by constructor|by constructor|lia]. }
    pose proof E as (K & P & U & Pos & T). cbn [fst snd] in K, P, U, Pos, T.
    assert ((zlen k <? zlen LocksByDateKey + 8) = false) as ->.
    { apply Z.ltb_ge. rewrite K. unfold item_key, GetLockExpirationKey. rewrite !zlen_app.
      unfold zlen at 3. rewrite PutUint64_length. pose proof (zlen_nonneg a). cbn [fst snd]. lia. }
    pose proof (parse_item_key _ _ E) as PE. cbn [fst snd] in PE. rewrite PE. cbn [mbind outcome_bind].
    rewrite (Format_ParseDateOnly _ _ P). destruct (IsLocked _ _) eqn:LK; cbn [negb].
    + rewrite U. cbn [wrap_err mbind outcome_bind]. rewrite BD. unfold internal.
      cbn [wrap_err mbind outcome_bind]. rewrite NewCoin_valid by (done || lia). cbn [mbind outcome_bind].
      destruct (IH (count + 1) (acc ++ [MkActiveLockResource (AccAddress_String a) (UnlockDate lk)
        (NewCoinRec denom (LockAmount lk))])) as (pre & post & ipre & ipost & -> & -> & F1 & F2 & R & _).
      exists ((k, v) :: pre), post, ((a, lk) :: ipre), ipost.
      repeat split; [by constructor|done| |done]. rewrite R, active_items_cons. cbn [snd].
      rewrite LK, <- app_assoc. done.
    + destruct (IH count acc) as (pre & post & ipre & ipost & -> & -> & F1 & F2 & R & _).
      exists ((k, v) :: pre), post, ((a, lk) :: ipre), ipost.
      repeat split; [by constructor|done| |done]. rewrite R, active_items_cons. cbn [snd]. by rewrite LK.
Qed.

(** Following the next keys from a first key on. *)
Fixpoint all_pages (fuel : nat) (ctx : Ctx) (s : S) (x : X) (limit : Z) (key : bytes)
    : outcome (list ActiveLockResource) :=
  match fuel with
  | O => OutOfFuel
  | Datatypes.S fuel' =>
      '(locks, page) ← ActiveLocks ctx s x (Some (Some (MkPageRequest key 0 limit)));
      match NextKey page with
      | None => Ok locks
      | Some k => rest ← all_pages fuel' ctx s x limit k; Ok (locks ++ rest)
      end
  end.

(** The first key of a page that asks for [key]. *)
Definition start_key (key : bytes) : bytes := if negb (zlen key =? 0) then key else LocksByDateKey.

(** From a key of the queue on, the iterator yields the rest of the queue. *)
Lemma iterator_suffix (s : S) pre k v post :
  keys_ascending (pre ++ (k, v) :: post) -> k <> [] ->
  (forall k' v', (k', v') ∈ pre ++ (k, v) :: post <->
     kv_view s !! k' = Some v' /\ key_in_range LocksByDateKey (prefixEndBytes LocksByDateKey) k' = true) ->
  kv_Iterator s k (prefixEndBytes LocksByDateKey) = Ok ((k, v) :: post).
Proof.
  intros A N E. destruct (kv_Iterator_spec s k (prefixEndBytes LocksByDateKey) N) as (l & -> & AL & EL).
  f_equal. apply StronglySorted_app in A as (Cross & _ & AS). apply ascending_unique; [done|done|].
  assert (bytes_leb LocksByDateKey k = true) as B.
  { destruct (proj1 (E k v)) as [_ R]; [apply elem_of_app; right; left|]. unfold key_in_range in R. by apply andb_prop in R as [R _]. }
  intros [k' v']. rewrite EL. split.
  - intros [V R]. assert ((k', v') ∈ pre ++ (k, v) :: post) as L.
    { apply E. split; [done|]. unfold key_in_range in *. apply andb_prop in R as [R1 R2].
      rewrite (bytes_leb_trans _ _ _ B R1). done. }
    apply elem_of_app in L as [L|L]; [|done]. exfalso.
    specialize (Cross _ (k, v) L ltac:(left)). cbn [fst] in Cross. unfold bytes_ltb in Cross.
    unfold key_in_range in R. apply andb_prop in R as [R _]. by rewrite R in Cross.
  - intros L. destruct (proj1 (E k' v')) as [V R]; [apply elem_of_app; by right|]. split; [done|].
    unfold key_in_range in *. apply andb_prop in R as [_ R]. rewrite R, andb_true_r.
    apply elem_of_cons in L as [[= -> ->]|L]; [apply bytes_leb_refl|].
    inversion AS as [|? ? _ Fk]; subst. rewrite Forall_forall in Fk. specialize (Fk _ L). cbn [fst] in Fk.
    unfold bytes_ltb in Fk. destruct (bytes_leb_total k k') as [T|T]; [done|]. by rewrite T in Fk.
Qed.

Lemma all_pages_items (s : S) (x : X) ctx limit denom all :
  BondDenom x = Ok denom -> ValidDenom denom = true -> 0 < limit ->
  keys_ascending all ->
  (forall k v, (k, v) ∈ all <->
     kv_view s !! k = Some v /\ key_in_range LocksByDateKey (prefixEndBytes LocksByDateKey) k = true) ->
  forall fuel done l items key, all = done ++ l -> Forall2 entry_item l items ->
  kv_Iterator s (start_key key) (prefixEndBytes LocksByDateKey) = Ok l -> (length l < fuel)%nat ->
  all_pages fuel ctx s x limit key = Ok (map (item_resource denom) (active_items ctx items)).
Proof.
  intros BD VD LM A E. induction fuel as [|fuel IH]; intros dn l items key -> F IT L; [lia|].
  cbn [all_pages]. unfold ActiveLocks, page_limit. cbn [Page_Key Page_Limit]. fold (start_key key).
  rewrite IT. unfold internal. cbn [wrap_err mbind outcome_bind].
  rewrite (proj2 (Z.eqb_neq limit 0)) by lia. cbn [negb].
  destruct (active_locks_page ctx x limit denom l items 0 [] BD VD F)
    as (pre & post & ipre & ipost & -> & -> & F1 & F2 & -> & NE).
  cbn [mbind outcome_bind NextKey]. destruct post as [|[k v] post].
  - inversion F2; subst. by rewrite app_nil_r.
  - cbn [head fmap option_fmap option_map fst].
    assert (k <> []) as NK.
    { inversion F2 as [|? i ? ? (K & _)]; subst. cbn [fst] in K. by rewrite K. }
    rewrite (IH (dn ++ pre) ((k, v) :: post) ipost k).
    + cbn [mbind outcome_bind]. unfold active_items. by rewrite filter_app, map_app.
    + by rewrite <- app_assoc.
    + done.
    + assert (start_key k = k) as -> by (by destruct k). apply (iterator_suffix s (dn ++ pre)).
      * by rewrite <- app_assoc.
      * done.
      * by rewrite <- app_assoc.
    + assert (pre <> []) by (apply NE; [lia|by destruct pre]). destruct pre; [done|].
      rewrite length_app in L. cbn [length] in *. lia.
Qed.

(** The active locks of the queue are those of all accounts. *)
Lemma active_items_accounts m ctx accts locks items :
  lockup_inv m -> NoDup accts -> (forall a, locks_rel m a (locks a)) ->
  (forall a, locks a <> [] -> a ∈ accts) ->
  NoDup items -> (forall i, i ∈ items <-> held m i) ->
  active_items ctx items ≡ₚ accts ≫= fun a => (fun l => (a, l)) <$> active ctx (locks a).
Proof.
  intros I N R C NI M. apply NoDup_Permutation.
  - by apply NoDup_filter.
  - apply NoDup_bind; [|intros a|done].
    + by intros a b i _ _ (l & -> & _)%list_elem_of_fmap (k & [= <- _] & _)%list_elem_of_fmap.
    + intros _. apply NoDup_fmap_2; [by intros ? ? [= ->]|]. apply NoDup_filter.
      destruct (inv_locks _ I a) as (ls & Rl & [_ W]). rewrite (locks_rel_fun _ _ _ _ (R a) Rl).
      by eapply NoDup_fmap_1, lock_time_NoDup.
  - intros [a l]. unfold active_items. rewrite list_elem_of_filter, M, list_elem_of_bind. cbn [snd]. split.
    + intros (A & ls & Rl & L). cbn [fst snd] in *. rewrite (locks_rel_fun _ _ _ _ Rl (R a)) in L.
      exists a. split; [|apply C; by destruct (locks a); [apply not_elem_of_nil in L|]].
      apply list_elem_of_fmap. exists l. split; [done|]. by apply active_elem.
    + intros (b & (k & [= -> ->] & [L A]%active_elem)%list_elem_of_fmap & _). split; [done|].
      exists (locks b). by split.
Qed.

(** C22 Following the next keys of the ActiveLocks query, with pages of any positive
    size, ends and lists every active lock of every account exactly once. *)
Theorem ActiveLocks_pages_complete (ctx : Ctx) (s : S) (x : X) limit accts locks denom :
  lockup_inv (kv_view s) -> NoDup accts -> (forall a, locks_rel (kv_view s) a (locks a)) ->
  (forall a, locks a <> [] -> a ∈ accts) ->
  BondDenom x = Ok denom -> ValidDenom denom = true -> 0 < limit < 2 ^ 64 ->
  exists res n, (forall fuel, (n <= fuel)%nat -> all_pages fuel ctx s x limit [] = Ok res) /\
    res ≡ₚ accts ≫= fun a => map (fun l => item_resource denom (a, l)) (active ctx (locks a)).
Proof.
  intros I N R C BD VD LM.
  destruct (kv_Iterator_spec s LocksByDateKey (prefixEndBytes LocksByDateKey)) as (l & IT & A & E); [done|].
  destruct (entries_items _ _ _ l I (address_key_below _) E) as (items & F & M).
  exists (map (item_resource denom) (active_items ctx items)), (Datatypes.S (length l)). split.
  - intros fuel FL. apply (all_pages_items s x ctx limit denom l) with (done := []) (l := l); try done; lia.
  - assert (NoDup items) as NI.
    { apply keys_ascending_NoDup in A. rewrite (entry_items_keys _ _ F) in A. by eapply NoDup_fmap_1. }
    assert (active_items ctx items ≡ₚ accts ≫= fun a => (fun l => (a, l)) <$> active ctx (locks a)) as ->.
    { apply (active_items_accounts (kv_view s)); try done. intros i. rewrite M.
      split; [by intros []|]. intros Hi. split; [exact Hi|]. exact (queue_end_range (lock_time i.2) i.1). }
    rewrite (fmap_list_bind (item_resource denom)).
    erewrite (list_bind_ext _ _ accts accts); [reflexivity| |done].
    intros a. by rewrite <- list_fmap_compose.
Qed.
End Pages.
