(* ===== verification/LockupRuns.v ===== *)
(** Concrete runs of the lockup module on the chain of Testnet.v, and the
    theorems of the module applied to them. *)

From stdpp Require Import base list strings gmap sorting relations.
From Stdlib Require Import ZArith Lia.
From Stdlib.Strings Require Import Byte.
From S2P Require Import Prelude GoTime Sdk LockPb LockStore LockSpec LockupKeeper LockupMsgs LockupInv LockupProps LockupSystem LockupQuery LockupTotals LockupExpiry Testnet.
Import Toy.

Local Open Scope Z_scope.

(** The afternoon of 15 June 2025. *)
Definition run_ctx : Ctx := MkCtx (Date 2025 6 15 + 15 * Hour) 10 ∅.

Definition alice : bytes := bytes_of_string "alice".
Definition bob : bytes := bytes_of_string "bob".
Definition val : bytes := bytes_of_string "val".

Definition run_net : Net :=
  MkNet {[ (alice, net_denom) := 1000; (bob, net_denom) := 50 ]}
    [(alice, ("val", 500)); (alice, ("val2", 200))] ["val"; "val2"].

Definition run_w0 : World (gmap bytes bytes) Net := MkWorld ∅ run_net [].

Definition coin (n : Z) : Coin := NewCoinRec net_denom n.

(** Alice locks 300 until 1 January 2026. *)
Definition run_lock : MsgLock := NewMsgLock "alice" "2026-01-01" (coin 300).
Definition run_w1 : World (gmap bytes bytes) Net := ok_or run_w0 (MsgServer_Lock run_ctx run_w0 run_lock).

(** She extends 100 of it to 1 June 2026. *)
Definition run_extend : MsgExtend :=
  NewMsgExtend "alice" [Some (MkExtension "2026-01-01" "2026-06-01" (coin 100))].
Definition run_w2 : World (gmap bytes bytes) Net := ok_or run_w1 (Extend run_ctx run_w1 run_extend).

(** She sends bob 200, delegated and locked until 15 June 2027. *)
Definition run_send : MsgSendDelegateAndLock :=
  NewMsgSendDelegateAndLock "alice" "bob" "val" (coin 200) "2027-06-15".
Definition run_w3 : World (gmap bytes bytes) Net := ok_or run_w2 (SendDelegateAndLock run_ctx run_w2 run_send).

Definition run_multi : MsgMultiSendDelegateAndLock :=
  NewMsgMultiSendDelegateAndLock "alice" (coin 30)
    [Some (MkOutput "" "bob" "val" "2026-01-01" (coin 10));
     Some (MkOutput "" "carol" "val2" "2026-02-01" (coin 20))].

Lemma run_lock_ok : MsgServer_Lock run_ctx run_w0 run_lock = Ok run_w1.
Proof. apply ok_or_eq. vm_compute. reflexivity. Qed.
Lemma run_extend_ok : Extend run_ctx run_w1 run_extend = Ok run_w2.
Proof. apply ok_or_eq. vm_compute. reflexivity. Qed.
Lemma run_send_ok : SendDelegateAndLock run_ctx run_w2 run_send = Ok run_w3.
Proof. apply ok_or_eq. vm_compute. reflexivity. Qed.

Example run_w3_locks :
  GetLocksByAddress (w_store run_w3) alice
    = Ok [MkLock "2026-01-01" 200; MkLock "2026-06-01" 100] /\
  GetLocksByAddress (w_store run_w3) bob = Ok [MkLock "2027-06-15" 200].
Proof. vm_compute. done. Qed.

(** * The theorems on these runs *)

Lemma run_time : 0 <= BlockTime run_ctx.
Proof. vm_compute. discriminate. Qed.

Lemma run_represents0 : represents (kv_view (w_store run_w0)) (fun _ _ => 0).
Proof. apply represents_empty. Qed.

Definition run_f1 : ledger := ledger_add (fun _ _ => 0) alice "2026-01-01" 300.

Lemma run_represents1 : represents (kv_view (w_store run_w1)) run_f1.
Proof.
  destruct (MsgServer_Lock_effect _ _ _ _ _ run_represents0 run_time run_lock_ok)
    as (a & t & D & E & _ & _ & _ & R & _). by injection E as <-.
Qed.

Definition run_f2 : ledger :=
  ledger_add (ledger_add run_f1 alice "2026-01-01" (-100)) alice "2026-06-01" 100.

Lemma run_represents2 : represents (kv_view (w_store run_w2)) run_f2.
Proof.
  destruct (Extend_Ok _ _ _ _ run_extend_ok) as (a & evs & E & _ & L & _). injection E as <-.
  edestruct (extend_loop_effect run_ctx (w_ext run_w1) "alice" alice
    (MsgExtend_Extensions run_extend)) as (g & M & R & _);
    [apply run_time|reflexivity|apply run_represents1|exact L|].
  injection M as <-. exact R.
Qed.

Lemma run_represents3 :
  represents (kv_view (w_store run_w3)) (ledger_add run_f2 bob "2027-06-15" 200).
Proof.
  destruct (SendDelegateAndLock_effect _ _ _ _ _ run_represents2 run_time run_send_ok)
    as (a & t & E & _ & _ & _ & R). by injection E as <-.
Qed.

Lemma run_locks1 : locks_rel (kv_view (w_store run_w1)) alice [MkLock "2026-01-01" 300].
Proof. apply (proj1 (GetLocksByAddress_iff (w_store run_w1) alice _)). vm_compute. reflexivity. Qed.

Lemma run_locks1_inv : locks_inv [MkLock "2026-01-01" 300].
Proof.
  destruct (inv_locks _ (proj1 run_represents1) alice) as (ls & R & W).
  by rewrite (locks_rel_fun _ _ _ _ run_locks1 R).
Qed.

Lemma Lock_refines_ledger_witness :
  exists addr, AccAddressFromBech32 "alice" = Ok addr /\
    represents (kv_view (w_store run_w1)) (ledger_add (fun _ _ => 0) addr "2026-01-01" 300) /\
    w_ext run_w1 = run_net.
Proof. exact (Lock_refines_ledger run_ctx run_w0 run_w1 run_lock _ run_represents0 run_time run_lock_ok). Defined.

Lemma Lock_leaves_locks_covered_witness :
  exists addr t D ls, AccAddressFromBech32 "alice" = Ok addr /\
    ParseDateOnly "2026-01-01" = Some t /\ date_window run_ctx t /\
    locks_rel (kv_view (w_store run_w1)) addr ls /\
    GetTotalDelegatedAmount (w_ext run_w1) addr = Ok D /\ locked_on run_ctx ls <= D.
Proof.
  exact (Lock_leaves_locks_covered run_ctx run_w0 run_w1 run_lock _ run_represents0 run_time run_lock_ok).
Defined.

(** Alice can lock 400 more and not 401. *)
Lemma Lock_succeeds_iff_witness :
  (exists w', MsgServer_Lock run_ctx run_w1 (NewMsgLock "alice" "2026-01-01" (coin 400)) = Ok w') /\
  ~ (exists w', MsgServer_Lock run_ctx run_w1 (NewMsgLock "alice" "2026-01-01" (coin 401)) = Ok w').
Proof.
  split.
  - apply (Lock_succeeds_iff run_ctx run_w1 _ run_f1 alice net_denom 700 [MkLock "2026-01-01" 300]);
      [apply run_represents1|reflexivity|reflexivity|vm_compute; reflexivity|apply run_locks1
      |vm_compute; reflexivity|].
    split; [done|]. split; [done|]. split; [|vm_compute; discriminate].
    eexists. split; [vm_compute; reflexivity|]. vm_compute. split; [done|discriminate].
  - rewrite (Lock_succeeds_iff run_ctx run_w1 _ run_f1 alice net_denom 700 [MkLock "2026-01-01" 300]);
      [|apply run_represents1|reflexivity|reflexivity|vm_compute; reflexivity|apply run_locks1
      |vm_compute; reflexivity].
    intros (_ & _ & _ & L). vm_compute in L. by apply L.
Defined.

Lemma Extend_refines_ledger_witness :
  exists addr g, AccAddressFromBech32 "alice" = Ok addr /\
    ledger_extend run_f1 addr (MsgExtend_Extensions run_extend) = Some g /\
    represents (kv_view (w_store run_w2)) g /\ w_ext run_w2 = w_ext run_w1.
Proof.
  apply (Extend_refines_ledger run_ctx run_w1 run_w2 run_extend);
    [apply run_represents1|apply run_time|vm_compute; reflexivity|apply run_extend_ok].
Defined.

Lemma Extend_keeps_total_witness :
  exists addr ls ls', AccAddressFromBech32 "alice" = Ok addr /\
    locks_rel (kv_view (w_store run_w1)) addr ls /\ locks_rel (kv_view (w_store run_w2)) addr ls' /\
    amount_of (fun _ => true) ls' = amount_of (fun _ => true) ls /\
    forall ctx', locked_on ctx' ls <= locked_on ctx' ls'.
Proof.
  apply (Extend_keeps_total run_ctx run_w1 run_w2 run_extend run_f1);
    [apply run_represents1|apply run_time|vm_compute; reflexivity|apply run_extend_ok].
Defined.

Lemma SendDelegateAndLock_spec_witness :
  exists from to ls, AccAddressFromBech32 "alice" = Ok from /\ AccAddressFromBech32 "bob" = Ok to /\
    represents (kv_view (w_store run_w3)) (ledger_add run_f2 to "2027-06-15" 200) /\
    locks_rel (kv_view (w_store run_w2)) from ls /\
    sender_covered run_ctx (w_ext run_w2) from net_denom ls 200.
Proof.
  exact (SendDelegateAndLock_spec run_ctx run_w2 run_w3 run_send _ run_represents2 run_time run_send_ok).
Defined.

Lemma MultiSend_refines_ledger_witness :
  exists w' g, MultiSendDelegateAndLock run_ctx run_w1 run_multi = Ok w' /\
    ledger_outputs run_f1 (MsgMulti_Outputs run_multi) = Some g /\
    represents (kv_view (w_store w')) g.
Proof.
  assert (MultiSendDelegateAndLock run_ctx run_w1 run_multi
    = Ok (ok_or run_w1 (MultiSendDelegateAndLock run_ctx run_w1 run_multi))) as E
    by (apply ok_or_eq; vm_compute; reflexivity).
  destruct (MultiSend_refines_ledger run_ctx run_w1 _ run_multi _ run_represents1 run_time E)
    as [(g & M & R) _]. eauto.
Defined.

Lemma delegation_hook_accepts_witness :
  AfterDelegationModified run_ctx (w_store run_w1) run_net alice val = Ok tt /\
  AfterDelegationModified run_ctx (w_store run_w1) (MkNet ∅ [(alice, ("val", 299))] ["val"]) alice val
    <> Ok tt.
Proof.
  split.
  - apply (delegation_hook_accepts run_ctx _ run_net alice val [MkLock "2026-01-01" 300] 700);
      [apply run_locks1|apply run_locks1_inv|vm_compute; reflexivity|vm_compute; reflexivity|].
    right. right. vm_compute. discriminate.
  - rewrite (delegation_hook_accepts run_ctx _ _ alice val [MkLock "2026-01-01" 300] 299);
      [|apply run_locks1|apply run_locks1_inv|vm_compute; reflexivity|vm_compute; reflexivity].
    intros [E|[E|E]]; vm_compute in E; by try apply E.
Defined.

Definition run_del1 : Delegation (X := Net) := ("val", 500).
Definition run_del2 : Delegation (X := Net) := ("val2", 200).

Lemma removal_keeps_locks_covered_witness :
  BeforeDelegationRemoved run_ctx (w_store run_w1) run_net alice (bytes_of_string "val2") = Ok tt /\
  (locked_on run_ctx [MkLock "2026-01-01" 300] = 0 \/
   exists rest, sum_delegations run_net ([run_del1] ++ []) 0 = Ok rest /\
     locked_on run_ctx [MkLock "2026-01-01" 300] <= rest).
Proof.
  split; [vm_compute; reflexivity|].
  apply (removal_keeps_locks_covered run_ctx (w_store run_w1) run_net alice (bytes_of_string "val2")
    run_del2 [run_del1] []);
    [apply run_locks1|apply run_locks1_inv|vm_compute; reflexivity|vm_compute; reflexivity
    |vm_compute; reflexivity|vm_compute; reflexivity|vm_compute; reflexivity|vm_compute; reflexivity].
Defined.

(** With 300 locked, 100 delegated and a balance of 1000, 800 can be sent and 801 cannot. *)
Lemma send_restriction_spec_witness :
  let x := MkNet {[ (alice, net_denom) := 1000 ]} [(alice, ("val", 100))] ["val"] in
  SendRestrictionFn run_ctx (w_store run_w1) x alice bob [coin 800] = Ok bob /\
  exists m, SendRestrictionFn run_ctx (w_store run_w1) x alice bob [coin 801]
              = Err (SdkErr ErrInsufficientFunds m).
Proof.
  intros x. split.
  - apply (send_restriction_spec run_ctx (w_store run_w1) x alice bob [coin 800]
      [MkLock "2026-01-01" 300] 100 net_denom 800);
      [apply run_locks1|apply run_locks1_inv|vm_compute; reflexivity|vm_compute; reflexivity
      |reflexivity|reflexivity|lia|vm_compute; discriminate|vm_compute; reflexivity|].
    right. right. vm_compute. discriminate.
  - apply (send_restriction_spec run_ctx (w_store run_w1) x alice bob [coin 801]
      [MkLock "2026-01-01" 300] 100 net_denom 801);
      [apply run_locks1|apply run_locks1_inv|vm_compute; reflexivity|vm_compute; reflexivity
      |reflexivity|reflexivity|lia|vm_compute; discriminate|vm_compute; reflexivity|].
    intros [E|[E|E]]; vm_compute in E; by try apply E.
Defined.

Definition many_net : Net := MkNet ∅ (replicate 100 (alice, ("val", 1))) ["val"].

Lemma total_delegated_hundred_witness :
  total_delegated_loop 1 run_net alice 0 = sum_delegations run_net (all_delegations run_net alice) 0 /\
  (forall rounds t, total_delegated_loop rounds many_net alice 0 <> Ok t).
Proof.
  split.
  - apply (total_delegated_hundred run_net alice). vm_compute. reflexivity.
  - apply (total_delegated_hundred many_net alice). vm_compute. discriminate.
Defined.

Lemma run_reachable : reachable (run_ctx, run_w3).
Proof.
  exists (run_ctx, run_w0). split; [split; [apply run_time|done]|].
  eapply rtc_l; [eapply step_Lock, run_lock_ok|].
  eapply rtc_l; [eapply (step_Extend _ _ _ run_extend); [reflexivity|apply run_extend_ok]|].
  apply rtc_once. eapply step_Send, run_send_ok.
Qed.

Lemma reachable_invariant_witness : lockup_inv (kv_view (w_store run_w3)).
Proof. exact (reachable_invariant (run_ctx, run_w3) run_reachable). Defined.

Lemma reachable_horizon_witness :
  exists t, ParseDateOnly "2027-06-15" = Some t /\ t <= AddDate (midnight (BlockTime run_ctx)) 2 0 0.
Proof.
  apply (reachable_horizon (run_ctx, run_w3) bob [MkLock "2027-06-15" 200]
    (MkLock "2027-06-15" 200) run_reachable).
  - apply (proj1 (GetLocksByAddress_iff (w_store run_w3) bob _)). vm_compute. reflexivity.
  - left.
Defined.

(** Two years after the run's last block. *)
Definition released_ctx : Ctx := MkCtx (Date 2027 6 15 + 3 * Hour) 2000 ∅.

Lemma locks_eventually_released_witness :
  GetLockedAmountByAddress released_ctx (w_store run_w3) bob = Ok 0 /\
  BeforeDelegationRemoved released_ctx (w_store run_w3) run_net bob val = Ok tt /\
  AfterDelegationModified released_ctx (w_store run_w3) run_net bob val = Ok tt /\
  SendRestrictionFn released_ctx (w_store run_w3) run_net bob alice [coin 5] = Ok alice.
Proof.
  refine (locks_eventually_released (run_ctx, run_w3) released_ctx run_net bob val alice [coin 5]
    net_denom 5 run_reachable _ _ _); [vm_compute; congruence|vm_compute; reflexivity..].
Defined.

Definition run_page (offset limit : Z) : option PageRequest := Some (MkPageRequest [] offset limit).

(** Alice has two active locks: the page of the second, and a page past the end. *)
Lemma Locks_query_pages_witness :
  Query_Locks run_ctx (w_store run_w3) run_net (Some ("alice", run_page 1 1))
    = Ok ([MkLockResource "2026-06-01" (coin 100)], MkPageResponse None 2) /\
  Query_Locks run_ctx (w_store run_w3) run_net (Some ("alice", run_page 3 1)) = Panic SliceBounds.
Proof.
  pose (ls := [MkLock "2026-01-01" 200; MkLock "2026-06-01" 100]).
  assert (locks_rel (kv_view (w_store run_w3)) alice ls) as R.
  { apply (proj1 (GetLocksByAddress_iff (w_store run_w3) alice _)). vm_compute. reflexivity. }
  assert (locks_inv ls) as I.
  { destruct (inv_locks _ (proj1 run_represents3) alice) as (k & K & W).
    by rewrite (locks_rel_fun _ _ _ _ R K). }
  split.
  - destruct (Locks_query_pages run_ctx (w_store run_w3) run_net "alice" (run_page 1 1) alice ls net_denom)
      as [Q _]; [discriminate|reflexivity|exact R|exact I|reflexivity|reflexivity
        |split; split; vm_compute; congruence|].
    rewrite Q; [vm_compute; reflexivity|]. split; vm_compute; [discriminate|reflexivity].
  - destruct (Locks_query_pages run_ctx (w_store run_w3) run_net "alice" (run_page 3 1) alice ls net_denom)
      as [_ Q]; [discriminate|reflexivity|exact R|exact I|reflexivity|reflexivity
        |split; split; vm_compute; congruence|].
    rewrite Q; [reflexivity|]. intros [E _]. vm_compute in E. by apply E.
Defined.

(** The locks of every account after the runs. *)
Definition run_locks (a : bytes) : list Lock := ok_or [] (GetLocksByAddress (w_store run_w3) a).

Lemma run_locks_rel a : locks_rel (kv_view (w_store run_w3)) a (run_locks a).
Proof.
  destruct (inv_locks _ (proj1 run_represents3) a) as (ls & R & _).
  assert (E := proj2 (GetLocksByAddress_iff (w_store run_w3) a ls) R).
  unfold run_locks. rewrite E. exact R.
Qed.

(** The store's keys that are accounts' lists. *)
Definition is_account_key (k : bytes) : bool :=
  match strip_prefix LocksByAddressKey k with
  | Some a => bool_decide (a ∈ [alice; bob])
  | None => true
  end.

Lemma strip_prefix_app p s : strip_prefix p (p ++ s) = Some s.
Proof.
  induction p as [|x p IH]; simpl; [by destruct s|]. by rewrite Byte.byte_dec_lb.
Qed.

Lemma all_keys (m : gmap bytes bytes) (P : bytes -> bool) k v :
  forallb (fun e => P e.1) (map_to_list m) = true -> m !! k = Some v -> P k = true.
Proof.
  intros F V. rewrite forallb_forall in F. apply elem_of_map_to_list, list_elem_of_In, F in V. exact V.
Qed.

Lemma run_accounts a : run_locks a <> [] -> a ∈ [alice; bob].
Proof.
  intros N. pose proof (run_locks_rel a) as R. unfold locks_rel in R.
  destruct (kv_view (w_store run_w3) !! GetLocksByAddressKey a) as [v|] eqn:V; [|exact (False_ind _ (N R))].
  assert (forallb (fun e => is_account_key e.1) (map_to_list (kv_view (w_store run_w3))) = true) as F
    by (vm_compute; reflexivity).
  pose proof (all_keys _ is_account_key _ _ F V) as K.
  unfold is_account_key, GetLocksByAddressKey in K. rewrite strip_prefix_app in K.
  by apply bool_decide_eq_true_1 in K.
Qed.

(** 300 of alice's and 200 of bob's. *)
Lemma TotalLockedAmount_sums_accounts_witness :
  TotalLockedAmount run_ctx (w_store run_w3) run_net (Some tt) = Ok (coin 500).
Proof.
  transitivity (Ok (NewCoinRec net_denom
    (zsum (map (fun a => locked_on run_ctx (run_locks a)) [alice; bob]))));
    [|vm_compute; reflexivity].
  apply (TotalLockedAmount_sums_accounts run_ctx (w_store run_w3) run_net [alice; bob] run_locks net_denom).
  - apply run_represents3.
  - split; vm_compute; [discriminate|reflexivity].
  - apply (bool_decide_eq_true_1 (NoDup [alice; bob])). vm_compute. reflexivity.
  - apply run_locks_rel.
  - apply run_accounts.
  - reflexivity.
  - reflexivity.
  - vm_compute. reflexivity.
Defined.

(** The active locks in pages of one. *)
Lemma ActiveLocks_pages_complete_witness :
  exists res n, (forall fuel, (n <= fuel)%nat ->
      all_pages fuel run_ctx (w_store run_w3) run_net 1 [] = Ok res) /\
    res ≡ₚ [alice; bob] ≫= fun a =>
      map (fun l => item_resource net_denom (a, l)) (active run_ctx (run_locks a)).
Proof.
  apply (ActiveLocks_pages_complete run_ctx (w_store run_w3) run_net 1 [alice; bob] run_locks net_denom).
  - apply run_represents3.
  - apply (bool_decide_eq_true_1 (NoDup [alice; bob])). vm_compute. reflexivity.
  - apply run_locks_rel.
  - apply run_accounts.
  - reflexivity.
  - reflexivity.
  - lia.
Defined.

(** In March 2026 alice's first lock has expired; its amount is counted. *)
Lemma expired_locks_deleted_witness :
  exists items s',
    (forall A (cb : lock_cb A) a,
       IterateAndDeleteExpiredLocks (w_store run_w3) (Date 2026 3 1) cb a
         = (a' ← visit_all cb a items; Ok (a', s'))) /\
    NoDup items /\
    (forall i, i ∈ items <-> held (kv_view (w_store run_w3)) i /\ lock_time i.2 <= Date 2026 3 1) /\
    (forall k, kv_view s' !! k
       = if decide (k ∈ map item_key items) then None else kv_view (w_store run_w3) !! k).
Proof.
  apply (expired_locks_deleted (w_store run_w3) (Date 2026 3 1)).
  - apply run_represents3.
  - split; vm_compute; [discriminate|reflexivity].
Defined.

Lemma expired_locks_run :
  (r ← IterateAndDeleteExpiredLocks (w_store run_w3) (Date 2026 3 1)
         (fun n a t amount => Ok (n + amount)) 0; Ok r.1) = Ok 200.
Proof. vm_compute. reflexivity. Qed.

(** * The codec *)

Lemma Locks_codec_roundtrip_witness :
  exists buf, Locks_Marshal (MkLocks [MkLock "2026-01-01" 300; MkLock "2027-06-30" 7]) = Ok buf /\
    Locks_Unmarshal buf = Ok (MkLocks [MkLock "2026-01-01" 300; MkLock "2027-06-30" 7]).
Proof.
  apply (Locks_codec_roundtrip [MkLock "2026-01-01" 300; MkLock "2027-06-30" 7]).
  - repeat constructor.
  - vm_compute. reflexivity.
Defined.

(** An unknown group that holds a field, and a length that passes the end. *)
Definition odd_bytes : bytes := [x13; x08; x05; x14; x1a; xff; x01].

Lemma Locks_Unmarshal_total_witness : returns (Locks_Unmarshal odd_bytes).
Proof. apply (Locks_Unmarshal_total odd_bytes). vm_compute. reflexivity. Defined.

(** * Extending a lock that has expired *)

(** Two years later nothing of alice's is locked and she has undelegated; she
    extends the old lock. *)
Definition late_ctx : Ctx := MkCtx (Date 2027 6 1) 1000 ∅.
Definition late_w : World (gmap bytes bytes) Net :=
  MkWorld (w_store run_w3) (MkNet ∅ [] ["val"]) [].
Definition late_extend : MsgExtend :=
  NewMsgExtend "alice" [Some (MkExtension "2026-01-01" "2028-01-01" (coin 200))].

(** Extend accepts a lock that has expired and looks at no delegation: a run in
    which an account with nothing delegated and nothing locked ends with 200
    locked. *)
Theorem Extend_revives_expired_lock :
  MsgExtend_ValidateBasic late_extend = Ok tt /\
  GetLockedAmountByAddress late_ctx (w_store late_w) alice = Ok 0 /\
  exists w', Extend late_ctx late_w late_extend = Ok w' /\
    GetLockedAmountByAddress late_ctx (w_store w') alice = Ok 200 /\
    GetTotalDelegatedAmount (w_ext w') alice = Ok 0.
Proof.
  split; [vm_compute; reflexivity|]. split; [vm_compute; reflexivity|].
  exists (ok_or late_w (Extend late_ctx late_w late_extend)).
  split; [apply ok_or_eq; vm_compute; reflexivity|].
  split; vm_compute; reflexivity.
Qed.
