(* ===== verification/Distro.v ===== *)
(** The distribution module: its parameters (x/distro/types/params.go), messages
    (msg_mint.go, msgs.go), genesis, the halving schedule and the message server
    (x/distro/keeper/keeper.go, msg_server.go, msg_server_mint.go,
    query_server.go). *)

From stdpp Require Import base list strings.
From Stdlib Require Import ZArith Lia.
From S2P Require Import Prelude GoTime Sdk.

Local Open Scope Z_scope.

(** * Parameters *)

Record Params := MkParams {
  MintingAddress : string;
  ReceivingAddress : string;
  ParamsDenom : string;
  ParamsMaxSupply : string;
  DistributionStartDate : string;
  MonthsInHalvingPeriod : Z;
}.

Definition DefaultMintingAddress : string := "tsc1cd3de90g8ktz20qtyc945chwg8pg8xn9trwpz4".
Definition DefaultReceivingAddress : string := "tsc1grl8wuaj0yg6wvzvyxdtnnajp9em49m5fjz07v".
Definition DefaultDenom : string := "aTSC".
Definition DefaultMaxSupply : string := "21000000000000000000000000".
Definition DefaultDistributionStartDate : string := "2025-07-22".
Definition DefaultMonthsInHalvingPeriod : Z := 48.

Definition NewParams (minting_address receiving_address denom max_supply
    distribution_start_date : string) (months_in_halving_period : Z) : Params :=
  MkParams minting_address receiving_address denom max_supply distribution_start_date
    months_in_halving_period.

Definition DefaultParams : Params :=
  NewParams DefaultMintingAddress DefaultReceivingAddress DefaultDenom DefaultMaxSupply
    DefaultDistributionStartDate DefaultMonthsInHalvingPeriod.

Section Validate.
Context `{SdkMath} `{SdkTypes}.

Definition validateMintingAddress (v : string) : outcome unit :=
  if String.eqb v "" then Err (FmtErr "minting address cannot be empty") else
  _ ← wrap_err (fun _ => FmtErr "invalid minting address: %w") (AccAddressFromBech32 v);
  Ok tt.

Definition validateReceivingAddress (v : string) : outcome unit :=
  if String.eqb v "" then Err (FmtErr "receiving address cannot be empty") else
  _ ← wrap_err (fun _ => FmtErr "invalid receiving address: %w") (AccAddressFromBech32 v);
  Ok tt.

Definition validateDenom (v : string) : outcome unit :=
  if String.eqb v "" then Err (FmtErr "denom cannot be empty") else
  if negb (String.eqb DefaultDenom v) then Err (FmtErr "denom must be '%s'") else Ok tt.

Definition validateMaxSupply (v : string) : outcome unit :=
  if String.eqb v "" then Err (FmtErr "max supply cannot be empty") else
  maxSupply ← from_option_err (FmtErr "max supply must be a valid integer") (NewIntFromString v);
  if negb (0 <? maxSupply) then Err (FmtErr "max supply must be positive") else Ok tt.

Definition validateDistributionStartDate (v : string) : outcome unit :=
  if String.eqb v "" then Err (FmtErr "distribution start date cannot be empty") else
  _ ← from_option_err (FmtErr "distribution start date must be in YYYY-MM-DD format: %w")
        (ParseDateOnly v);
  Ok tt.

Definition validateMonthsInHalvingPeriod (v : Z) : outcome unit :=
  if v =? 0 then Err (FmtErr "months in halving period must be greater than zero") else Ok tt.

Definition Params_Validate (p : Params) : outcome unit :=
  _ ← validateMintingAddress (MintingAddress p);
  _ ← validateReceivingAddress (ReceivingAddress p);
  _ ← validateDenom (ParamsDenom p);
  _ ← validateMaxSupply (ParamsMaxSupply p);
  _ ← validateDistributionStartDate (DistributionStartDate p);
  _ ← validateMonthsInHalvingPeriod (MonthsInHalvingPeriod p);
  Ok tt.
End Validate.

(** * Messages and genesis *)

Record MsgMint := MkMsgMint { MsgMint_Amount : string; MsgMint_Minter : string }.
Record MsgUpdateParams := MkMsgUpdateParams {
  MsgUpdateParams_Authority : string;
  MsgUpdateParams_Params : Params;
}.
Record GenesisState := MkGenesisState { GenesisParams : Params }.

#[export] Instance Params_eq_dec : EqDecision Params.
Proof. solve_decision. Defined.
#[export] Instance GenesisState_eq_dec : EqDecision GenesisState.
Proof. solve_decision. Defined.

Definition ModuleName : string := "distro".

(** The first argument is not used. *)
Definition NewMsgMint (fromAddress amount minter : string) : MsgMint := MkMsgMint amount minter.

Definition DefaultGenesis : GenesisState := MkGenesisState DefaultParams.

Section Messages.
Context `{SdkMath} `{SdkTypes}.

Definition NewMsgUpdateParams (sender : bytes) (mintingAddress receivingAddress denom maxSupply
    distroStartDate : string) (monthsInHalvingPeriod : Z) : MsgUpdateParams :=
  MkMsgUpdateParams (AccAddress_String sender)
    (MkParams mintingAddress receivingAddress denom maxSupply distroStartDate monthsInHalvingPeriod).

(** A failed conversion leaves the nil address. *)
Definition MsgMint_GetSigners (msg : MsgMint) : outcome (list bytes) :=
  catch (AccAddressFromBech32 (MsgMint_Minter msg)) (fun addr => Ok [addr]) (fun _ => Ok [[]]).

Definition MsgUpdateParams_GetSigners (msg : MsgUpdateParams) : outcome (list bytes) :=
  catch (AccAddressFromBech32 (MsgUpdateParams_Authority msg)) (fun addr => Ok [addr])
    (fun _ => Ok [[]]).

Definition MsgMint_Validate (msg : MsgMint) : outcome Z :=
  amount ← from_option_err (SdkErr ErrInvalidRequest "amount cannot be converted to int")
             (NewIntFromString (MsgMint_Amount msg));
  if amount =? 0 then Err (SdkErr ErrInvalidRequest "amount cannot be zero") else
  if amount <? 0 then Err (SdkErr ErrInvalidRequest "amount cannot be negative") else
  if String.eqb (MsgMint_Minter msg) ""
  then Err (SdkErr ErrInvalidRequest "minter cannot be empty") else
  _ ← wrap_err (fun _ => SdkErr ErrInvalidRequest "minter is not a valid address")
        (AccAddressFromBech32 (MsgMint_Minter msg));
  Ok amount.

(** [errors.Wrap] keeps the error it wraps. *)
Definition MsgUpdateParams_ValidateBasic (msg : MsgUpdateParams) : outcome unit :=
  _ ← AccAddressFromBech32 (MsgUpdateParams_Authority msg);
  Params_Validate (MsgUpdateParams_Params msg).

Definition GenesisState_Validate (gs : GenesisState) : outcome unit :=
  Params_Validate (GenesisParams gs).
End Messages.

(** * The halving schedule *)

Record HalvingSchedule := MkHalvingSchedule {
  StartDate : Time;
  MonthsPerPeriod : Z;
  MaxSupply : Z;
}.

Definition parseDate (dateStr : string) : option Time := ParseDateOnly dateStr.

Definition PeriodBounds (h : HalvingSchedule) (period : Z) : Time * Time :=
  let monthsOffset := int64 (uint64 (uint64 (period - 1) * MonthsPerPeriod h)) in
  let start := AddDate (StartDate h) 0 monthsOffset 0 in
  let stop := AddDate (StartDate h) 0 (int64 (monthsOffset + int64 (MonthsPerPeriod h))) (-1) in
  (start, stop).

(** The search loop of [CurrentPeriod]; it gives up after period 1000, so a
    thousand rounds are enough. *)
Fixpoint current_period_loop (fuel : nat) (h : HalvingSchedule) (targetDate : Time) (period : Z)
    : outcome Z :=
  match fuel with
  | O => OutOfFuel
  | S fuel' =>
      let '(periodStart, periodEnd) := PeriodBounds h period in
      if negb (Before targetDate periodStart) && negb (After targetDate periodEnd)
      then Ok period
      else if 1000 <? period + 1 then Ok (period + 1)
      else current_period_loop fuel' h targetDate (period + 1)
  end.

Definition CurrentPeriod (h : HalvingSchedule) (targetDate : Time) : outcome Z :=
  if Before targetDate (StartDate h)
  then Err (SdkErr ErrInvalidRequest "target date is before distribution start date")
  else current_period_loop 1000 h targetDate 1.

Definition daysInRange (start stop : Time) : Z := hours_div_24 (Sub stop start) + 1.

Definition daysSinceStart (start target : Time) : Z :=
  let days := hours_div_24 (Sub target start) in
  if days <? 0 then 0 else days.

Section Schedule.
Context `{SdkMath}.

Definition newHalvingSchedule (params : Params) : outcome HalvingSchedule :=
  startDate ← from_option_err (SdkErr ErrInvalidRequest "invalid distribution start date: %v")
                (parseDate (DistributionStartDate params));
  maxSupply ← from_option_err (SdkErr ErrInvalidRequest "invalid max supply")
                (NewIntFromString (ParamsMaxSupply params));
  if MonthsInHalvingPeriod params =? 0
  then Err (SdkErr ErrInvalidRequest "param MonthsInHalvingPeriod must be greater than zero")
  else Ok (MkHalvingSchedule startDate (MonthsInHalvingPeriod params) maxSupply).

(** [1 << period] is a [uint64]: 0 from period 64 on. *)
Definition PeriodAllocation (h : HalvingSchedule) (period : Z) : outcome Z :=
  if period =? 0 then Ok 0 else
  let divisor := uint64 (Z.shiftl 1 period) in
  Int_Quo (MaxSupply h) divisor.

(** [n] rounds of [for period := ...; period < currentPeriod; period++]. *)
Fixpoint full_allocations (n : nat) (h : HalvingSchedule) (period total : Z) : outcome Z :=
  match n with
  | O => Ok total
  | S n' =>
      a ← PeriodAllocation h period;
      total' ← Int_Add total a;
      full_allocations n' h (period + 1) total'
  end.

Definition TotalDistributableAt (h : HalvingSchedule) (targetDate : Time) : outcome Z :=
  currentPeriod ← CurrentPeriod h targetDate;
  total ← full_allocations (Z.to_nat (currentPeriod - 1)) h 1 0;
  let '(periodStart, periodEnd) := PeriodBounds h currentPeriod in
  let daysInPeriod := daysInRange periodStart periodEnd in
  let daysElapsed := daysSinceStart periodStart targetDate + 1 in
  if 0 <? daysInPeriod then
    periodAllocation ← PeriodAllocation h currentPeriod;
    p ← Int_Mul periodAllocation (int64 daysElapsed);
    currentPeriodAmount ← Int_Quo p (int64 daysInPeriod);
    Int_Add total currentPeriodAmount
  else Ok total.

Definition validateMintingLimits (ctx : Ctx) (currentSupply amount : Z) (params : Params)
    : outcome unit :=
  schedule ← newHalvingSchedule params;
  let targetDate := Truncate24h (BlockTime ctx) in
  totalDistributable ← TotalDistributableAt schedule targetDate;
  newSupply ← Int_Add currentSupply amount;
  if totalDistributable <? newSupply
  then Err (SdkErr ErrInvalidRequest
         "mint would exceed distributable limit: requested total %s, limit %s")
  else Ok tt.
End Schedule.

(** * Keeper and message server *)

(** A [collections.Item] on the state [P]: [Get] of an unset item is an error. *)
Class Item (P V : Type) := {
  Item_Get : P -> outcome V;
  Item_Set : P -> V -> outcome P;
}.

(** What was set is read back. *)
Class ItemLaws (P V : Type) `{Item P V} : Prop := {
  Item_Get_Set p v p' : Item_Set p v = Ok p' -> Item_Get p' = Ok v;
}.

(** The keepers of x/distro/types/expected_keepers.go, on the state [X]. *)
Class DistroBank (X : Type) := {
  GetSupply : X -> string -> Coin;
  MintCoins : X -> string -> list Coin -> outcome X;
  SendCoinsFromModuleToAccount : X -> string -> bytes -> list Coin -> outcome X;
  GetModuleAddress : string -> option bytes;
}.

(** [MintCoins] adds the coin to the supply and to no other denomination's;
    sending does not change any supply. *)
Class DistroBankLaws (X : Type) `{SdkTypes} `{DistroBank X} : Prop := {
  MintCoins_supply x m c cs x' :
    NewCoins [c] = Ok cs -> MintCoins x m cs = Ok x' ->
    forall d, Amount (GetSupply x' d)
      = Amount (GetSupply x d) + (if String.eqb d (Denom c) then Amount c else 0);
  SendCoins_supply x m a cs x' :
    SendCoinsFromModuleToAccount x m a cs = Ok x' ->
    forall d, Amount (GetSupply x' d) = Amount (GetSupply x d);
}.

Section Keeper.
Context `{SdkMath} `{SdkTypes} {P X : Type} `{Item P Params} `{DistroBank X}.
(** The keeper's authority, the address of the governance module. *)
Context (authority : string).

Definition InitGenesis (p : P) (data : GenesisState) : outcome P :=
  _ ← Params_Validate (GenesisParams data);
  Item_Set p (GenesisParams data).

Definition ExportGenesis (p : P) : outcome GenesisState :=
  match Item_Get p with
  | Ok params => Ok (MkGenesisState params)
  | Err e => Panic (ExtPanic "err")
  | Panic e => Panic e
  | OutOfFuel => OutOfFuel
  end.

Definition Query_Params (p : P) : outcome Params := Item_Get p.

Definition UpdateParams (p : P) (msg : MsgUpdateParams) : outcome P :=
  if negb (String.eqb authority (MsgUpdateParams_Authority msg))
  then Err (SdkErr GovErrInvalidSigner "invalid authority; expected %s, got %s") else
  _ ← Params_Validate (MsgUpdateParams_Params msg);
  Item_Set p (MsgUpdateParams_Params msg).

Definition IsAuthorized (params : Params) (mintingAddress : string) : bool :=
  String.eqb (MintingAddress params) mintingAddress.

Definition depositCoins (x : X) (toAddress : string) (amount : Z) (denom : string) : outcome X :=
  acct ← wrap_err (fun _ => SdkErr ErrInvalidAddress "invalid address '%s'")
           (AccAddressFromBech32 toAddress);
  match GetModuleAddress (X := X) ModuleName with
  | None => Err (SdkErr ErrInvalidRequest "module account not found")
  | Some _ =>
      coin ← NewCoin denom amount;
      coins ← NewCoins [coin];
      SendCoinsFromModuleToAccount x ModuleName acct coins
  end.

Definition Mint (ctx : Ctx) (p : P) (x : X) (msg : MsgMint) : outcome X :=
  amount ← MsgMint_Validate msg;
  signers ← MsgMint_GetSigners msg;
  match signers with
  | [] => Err (SdkErr ErrInvalidRequest "signer is required")
  | signer :: _ =>
      params ← Item_Get p;
      if negb (IsAuthorized params (AccAddress_String signer))
      then Err (SdkErr ErrUnauthorized "unauthorized sender") else
      let supply := GetSupply x (ParamsDenom params) in
      if Amount supply <? 0
      then Err (SdkErr ErrInvalidRequest "current supply is negative") else
      let currentSupply := Amount supply in
      maxSupply ← from_option_err (SdkErr ErrInvalidRequest "invalid max supply")
                    (NewIntFromString (ParamsMaxSupply params));
      newSupply ← Int_Add currentSupply amount;
      if maxSupply <? newSupply
      then Err (SdkErr ErrInvalidRequest "max supply exceeded") else
      _ ← validateMintingLimits ctx currentSupply amount params;
      match GetModuleAddress (X := X) ModuleName with
      | None => Err (SdkErr ErrInvalidRequest "module account not found")
      | Some _ =>
          coin ← NewCoin (ParamsDenom params) amount;
          coins ← NewCoins [coin];
          x ← MintCoins x ModuleName coins;
          depositCoins x (ReceivingAddress params) amount (ParamsDenom params)
      end
  end.
End Keeper.
