(* ===== verification/Halving.v ===== *)
(** The halving schedule: its periods are contiguous and cover every date from
    the start on, the period of a date is found, and the amount that may be
    distributed by a date grows with the date and never passes the maximum
    supply; from the 64th period on the computation panics. *)

From stdpp Require Import base list strings.
From Stdlib Require Import ZArith Lia.
From S2P Require Import Prelude GoTime Sdk Distro.

Local Open Scope Z_scope.

(** * Periods *)

(** A schedule as the parameters give it, with periods short enough for a
    [Duration] (at most 3400 months, 283 years) and a supply far from the range
    of [math.Int]. *)
Definition schedule_ok (h : HalvingSchedule) : Prop :=
  (exists y m d, valid_civil y m d /\ StartDate h = Date y m d) /\
  1 <= MonthsPerPeriod h <= 3400 /\ 0 <= MaxSupply h < 2 ^ 230.

(** The first day of a period: the start date plus whole periods of months. *)
Definition period_start (h : HalvingSchedule) (p : Z) : Time :=
  AddDate (StartDate h) 0 ((p - 1) * MonthsPerPeriod h) 0.

Lemma period_start_Date h y m d p :
  valid_civil y m d -> StartDate h = Date y m d ->
  period_start h p = Date y (m + (p - 1) * MonthsPerPeriod h) d.
Proof. intros V E. unfold period_start. rewrite E, AddDate_Date by done. by rewrite !Z.add_0_r. Qed.

(** The bounds of a period: its first day, and the day before the next begins. *)
Lemma PeriodBounds_eq h p :
  schedule_ok h -> 1 <= p <= 1001 ->
  PeriodBounds h p = (period_start h p, period_start h (p + 1) - Day).
Proof.
  intros ((y & m & d & V & E) & M & _) P. unfold PeriodBounds.
  rewrite (uint64_small (p - 1)) by lia. rewrite uint64_small by nia.
  rewrite (int64_small ((p - 1) * _)) by nia. rewrite (int64_small (MonthsPerPeriod h)) by lia.
  rewrite int64_small by nia.
  rewrite !(period_start_Date h y m d) by done. rewrite E, !AddDate_Date by done.
  rewrite !Z.add_0_r. f_equal. rewrite Date_add_days.
  replace (m + ((p - 1) * MonthsPerPeriod h + MonthsPerPeriod h))
    with (m + (p + 1 - 1) * MonthsPerPeriod h) by lia. lia.
Qed.

(** Periods last at least 28 and at most 31 days a month. *)
Lemma period_start_mono h p q :
  schedule_ok h -> p <= q ->
  28 * ((q - p) * MonthsPerPeriod h) * Day <= period_start h q - period_start h p
    <= 31 * ((q - p) * MonthsPerPeriod h) * Day.
Proof.
  intros ((y & m & d & V & E) & M & _) L. rewrite !(period_start_Date h y m d) by done.
  unfold Date. rewrite !date_day_month. pose proof Day_pos.
  pose proof (month_start_mono (12 * y + (m + (p - 1) * MonthsPerPeriod h) - 1)
    (12 * y + (m + (q - 1) * MonthsPerPeriod h) - 1) ltac:(nia)) as B.
  replace (12 * y + (m + (q - 1) * MonthsPerPeriod h) - 1
    - (12 * y + (m + (p - 1) * MonthsPerPeriod h) - 1)) with ((q - p) * MonthsPerPeriod h) in B by lia.
  nia.
Qed.

Lemma period_start_days h p : schedule_ok h -> period_start h p mod Day = 0.
Proof.
  intros ((y & m & d & V & E) & _). rewrite (period_start_Date h y m d) by done.
  unfold Date. apply Z.mod_mul. pose proof Day_pos. lia.
Qed.

Lemma period_start_1 h : schedule_ok h -> period_start h 1 = StartDate h.
Proof.
  intros ((y & m & d & V & E) & _). rewrite (period_start_Date h y m d) by done.
  rewrite E. f_equal. lia.
Qed.

(** The date is in period [p]. *)
Definition in_period (h : HalvingSchedule) (p : Z) (t : Time) : Prop :=
  period_start h p <= t < period_start h (p + 1).

(** Days that are multiples of a day compare by day. *)
Lemma le_sub_Day t u : t mod Day = 0 -> u mod Day = 0 -> t <= u - Day <-> t < u.
Proof.
  intros T U. pose proof Day_pos. pose proof (Z.div_mod t Day ltac:(lia)).
  pose proof (Z.div_mod u Day ltac:(lia)). split; [lia|]. intros L.
  assert (t / Day < u / Day) by (apply (Z.mul_lt_mono_pos_l Day); lia).
  assert (Day * (t / Day + 1) <= Day * (u / Day)) by (apply Z.mul_le_mono_nonneg_l; lia). lia.
Qed.

Lemma current_period_loop_spec h t fuel p :
  schedule_ok h -> t mod Day = 0 -> period_start h p <= t ->
  1 <= p <= 1000 -> 1000 - p < Z.of_nat fuel ->
  exists q, current_period_loop fuel h t p = Ok q /\ p <= q <= 1001 /\
    (in_period h q t \/ q = 1001 /\ period_start h 1001 <= t).
Proof.
  intros O T. revert p. induction fuel as [|fuel IH]; intros p L P F; [lia|].
  cbn [current_period_loop]. rewrite PeriodBounds_eq by (done || lia). unfold Before, After.
  rewrite (proj2 (Z.ltb_ge _ _)) by done. cbn [negb andb].
  pose proof (le_sub_Day t (period_start h (p + 1)) T (period_start_days h _ O)) as D.
  destruct (Z.ltb_spec (period_start h (p + 1) - Day) t) as [A|A]; cbn [negb].
  - assert (period_start h (p + 1) <= t) by lia.
    destruct (Z.ltb_spec 1000 (p + 1)).
    + exists (p + 1). split; [done|]. assert (p = 1000) as -> by lia. split; [lia|]. by right.
    + destruct (IH (p + 1)) as (q & E & B & R); [done|lia|lia|]. exists q. split; [done|]. split; [lia|done].
  - exists p. split; [done|]. split; [lia|]. left. unfold in_period. lia.
Qed.

Lemma in_period_unique h p q t : schedule_ok h -> in_period h p t -> in_period h q t -> p = q.
Proof.
  intros O [P1 P2] [Q1 Q2]. pose proof O as (_ & M & _). pose proof Day_pos.
  destruct (Z.lt_total p q) as [L|[L|L]]; [|done|].
  - pose proof (period_start_mono h (p + 1) q O ltac:(lia)). nia.
  - pose proof (period_start_mono h (q + 1) p O ltac:(lia)). nia.
Qed.

Lemma CurrentPeriod_found h t :
  schedule_ok h -> t mod Day = 0 -> StartDate h <= t ->
  exists p, CurrentPeriod h t = Ok p /\ 1 <= p <= 1001 /\
    (in_period h p t \/ p = 1001 /\ period_start h 1001 <= t).
Proof.
  intros O T L. unfold CurrentPeriod, Before. rewrite (proj2 (Z.ltb_ge _ _)) by done.
  apply current_period_loop_spec; [done|done|by rewrite period_start_1|lia|lia].
Qed.

Lemma CurrentPeriod_in h t p :
  schedule_ok h -> t mod Day = 0 -> in_period h p t -> 1 <= p <= 1000 -> CurrentPeriod h t = Ok p.
Proof.
  intros O T I P. pose proof O as (_ & M & _). pose proof Day_pos.
  pose proof (period_start_mono h 1 p O ltac:(lia)). rewrite period_start_1 in * by done.
  destruct (CurrentPeriod_found h t O T) as (q & E & B & R); [unfold in_period in I; nia|].
  rewrite E. f_equal. destruct R as [R|[-> R]]; [by eapply in_period_unique|].
  pose proof (period_start_mono h (p + 1) 1001 O ltac:(lia)). unfold in_period in I. nia.
Qed.

(** The periods of a schedule are contiguous (each ends the day before the
    next begins), and CurrentPeriod always returns: for a day from the start
    date on it is the period that contains the day, which is unique, or 1001
    when the day is in none of the first thousand. *)
Theorem periods_partition h t :
  schedule_ok h -> t mod Day = 0 -> StartDate h <= t ->
  (forall p, 1 <= p <= 1000 -> (PeriodBounds h p).2 + Day = (PeriodBounds h (p + 1)).1) /\
  exists p, CurrentPeriod h t = Ok p /\
    (p = 1001 \/ forall q, 1 <= q <= 1000 ->
       (PeriodBounds h q).1 <= t <= (PeriodBounds h q).2 <-> q = p).
Proof.
  intros O T L. split.
  - intros p P. rewrite !PeriodBounds_eq by (done || lia). simpl. lia.
  - destruct (CurrentPeriod_found h t O T L) as (p & E & B & R). exists p. split; [done|].
    destruct R as [R|[-> _]]; [|by left]. right. intros q Q.
    rewrite PeriodBounds_eq by (done || lia). cbn [fst snd].
    rewrite (le_sub_Day t _ T (period_start_days h _ O)). fold (in_period h q t). split.
    + intros I. by eapply in_period_unique.
    + by intros ->.
Qed.

(** * Allocations *)

(** The allocations of the first [n] periods of a supply. *)
Fixpoint released (supply : Z) (n : nat) : Z :=
  match n with
  | O => 0
  | S n' => released supply n' + supply / 2 ^ Z.of_nat n
  end.

Lemma halve_twice s n : 0 <= n -> 2 * (s / 2 ^ (n + 1)) <= s / 2 ^ n.
Proof.
  intros N. rewrite Z.pow_add_r, <- Z.div_div by lia. change (2 ^ 1) with 2.
  apply Z.mul_div_le. lia.
Qed.

Lemma released_bound s n : 0 <= s -> 0 <= released s n /\ released s n + s / 2 ^ Z.of_nat n <= s.
Proof.
  intros S0. induction n as [|n [IH0 IH]].
  - cbn [released]. change (2 ^ Z.of_nat 0) with 1. rewrite Z.div_1_r. lia.
  - cbn [released]. rewrite Nat2Z.inj_succ, <- Z.add_1_r in *.
    pose proof (halve_twice s (Z.of_nat n) ltac:(lia)).
    pose proof (Z.div_pos s (2 ^ (Z.of_nat n + 1)) S0 ltac:(apply Z.pow_pos_nonneg; lia)). lia.
Qed.

Lemma released_mono s n k : 0 <= s -> (n <= k)%nat -> released s n <= released s k.
Proof.
  intros S0. induction 1 as [|k _ IH]; [lia|]. cbn [released].
  pose proof (Z.div_pos s (2 ^ Z.of_nat (S k)) S0 ltac:(apply Z.pow_pos_nonneg; lia)). lia.
Qed.

(** The distributable amount on day [e] of the [days] days of period [p]. *)
Definition distributable (supply : Z) (p : nat) (e days : Z) : Z :=
  released supply (p - 1) + (supply / 2 ^ Z.of_nat p * e) / days.

Lemma distributable_bound s p e days :
  0 <= s -> (1 <= p)%nat -> 0 <= e <= days -> 0 < days ->
  released s (p - 1) <= distributable s p e days <= released s p.
Proof.
  intros S0 P E D. unfold distributable. destruct p as [|p]; [lia|].
  replace (S p - 1)%nat with p by lia. cbn [released].
  pose proof (Z.div_pos s (2 ^ Z.of_nat (S p)) S0 ltac:(apply Z.pow_pos_nonneg; lia)) as A.
  set (a := s / 2 ^ Z.of_nat (S p)) in *. split.
  - pose proof (Z.div_pos (a * e) days ltac:(nia) D). lia.
  - assert (a * e / days <= a); [|lia]. apply Z.div_le_upper_bound; nia.
Qed.

Lemma distributable_mono s p e e' days :
  0 <= s -> e <= e' -> 0 < days -> distributable s p e days <= distributable s p e' days.
Proof.
  intros S0 E D. unfold distributable.
  pose proof (Z.div_pos s (2 ^ Z.of_nat p) S0 ltac:(apply Z.pow_pos_nonneg; lia)).
  apply Z.add_le_mono_l, Z.div_le_mono; nia.
Qed.

Lemma pow_63 p : 1 <= p <= 63 -> 0 < 2 ^ p < 2 ^ 64.
Proof. intros. split; [apply Z.pow_pos_nonneg; lia|apply Z.pow_lt_mono_r; lia]. Qed.

Section Allocations.
Context `{SdkMathLaws}.

Lemma PeriodAllocation_eq h p :
  0 <= MaxSupply h -> 1 <= p <= 63 -> PeriodAllocation h p = Ok (MaxSupply h / 2 ^ p).
Proof.
  intros M P. unfold PeriodAllocation. rewrite (proj2 (Z.eqb_neq _ _)) by lia. cbv zeta.
  pose proof (pow_63 p P). rewrite Z.shiftl_1_l, uint64_small, Int_Quo_intro by lia.
  f_equal. apply Z.quot_div_nonneg; lia.
Qed.

(** The divisor of a later period is zero. *)
Lemma PeriodAllocation_panics h p : 64 <= p -> exists e, PeriodAllocation h p = Panic e.
Proof.
  intros P. unfold PeriodAllocation. rewrite (proj2 (Z.eqb_neq _ _)) by lia. cbv zeta.
  rewrite Z.shiftl_1_l. assert (uint64 (2 ^ p) = 0) as ->.
  { unfold uint64. replace p with (p - 64 + 64) by lia. rewrite Z.pow_add_r by lia. apply Z.mod_mul. lia. }
  destruct (Int_Quo_spec (MaxSupply h) 0) as [e ->]. eauto.
Qed.

Lemma full_allocations_eq h n k :
  0 <= MaxSupply h -> int_ok (MaxSupply h) = true -> Z.of_nat (k + n) <= 63 ->
  full_allocations n h (Z.of_nat k + 1) (released (MaxSupply h) k)
    = Ok (released (MaxSupply h) (k + n)).
Proof.
  intros M I. revert k. induction n as [|n IH]; intros k B; cbn [full_allocations].
  - by rewrite Nat.add_0_r.
  - rewrite PeriodAllocation_eq by lia. cbn [mbind outcome_bind].
    assert (released (MaxSupply h) k + MaxSupply h / 2 ^ (Z.of_nat k + 1)
              = released (MaxSupply h) (S k)) as E
      by (cbn [released]; by rewrite Nat2Z.inj_succ, <- Z.add_1_r).
    pose proof (released_bound (MaxSupply h) (S k) M) as [R0 R1].
    pose proof (Z.div_pos (MaxSupply h) (2 ^ Z.of_nat (S k)) M ltac:(apply Z.pow_pos_nonneg; lia)).
    rewrite Int_Add_intro; [|rewrite E; apply (int_ok_between _ _ I); lia].
    cbn [mbind outcome_bind]. rewrite E. replace (Z.of_nat k + 1 + 1) with (Z.of_nat (S k) + 1) by lia.
    rewrite IH by lia. f_equal. f_equal. lia.
Qed.

(** From period 64 on a round of the loop panics. *)
Lemma full_allocations_panics h n p acc :
  p <= 64 -> 64 < p + Z.of_nat n ->
  1 <= p -> forall t, full_allocations n h p acc <> Ok t.
Proof.
  revert p acc. induction n as [|n IH]; intros p acc P N P1 t E; [lia|]. cbn [full_allocations] in E.
  apply bind_Ok in E as (a & EA & E). apply bind_Ok in E as (b & _ & E).
  destruct (Z.eq_dec p 64) as [->|].
  - destruct (PeriodAllocation_panics h 64 ltac:(lia)) as [e X]. congruence.
  - eapply (IH (p + 1)); [lia|lia|lia|exact E].
Qed.

(** The days of a period and the days elapsed in it. *)
Definition period_days (h : HalvingSchedule) (p : Z) : Z :=
  (period_start h (p + 1) - period_start h p) / Day.
Definition elapsed_days (h : HalvingSchedule) (p : Z) (t : Time) : Z :=
  (t - period_start h p) / Day + 1.

Lemma days_bounds h p t :
  schedule_ok h -> t mod Day = 0 -> in_period h p t ->
  1 <= elapsed_days h p t <= period_days h p /\ period_days h p <= 105400.
Proof.
  intros O T [L1 L2]. pose proof O as (_ & M & _). pose proof Day_pos as DP.
  pose proof (period_start_mono h p (p + 1) O ltac:(lia)) as B.
  pose proof (period_start_days h p O). pose proof (period_start_days h (p + 1) O).
  pose proof (proj2 (le_sub_Day t (period_start h (p + 1)) T ltac:(done)) L2).
  unfold elapsed_days, period_days. split; [split|].
  - pose proof (Z.div_pos (t - period_start h p) Day ltac:(lia) DP). lia.
  - rewrite <- (Z.div_add _ 1) by lia. apply Z.div_le_mono; lia.
  - apply Z.div_le_upper_bound; [done|]. nia.
Qed.

Lemma daysInRange_eq h p :
  schedule_ok h -> daysInRange (period_start h p) (period_start h (p + 1) - Day) = period_days h p.
Proof.
  intros O. pose proof O as (_ & M & _). pose proof Day_pos as DP.
  pose proof (period_start_mono h p (p + 1) O ltac:(lia)) as B.
  unfold daysInRange, hours_div_24, Sub, period_days, minDuration, maxDuration.
  assert (period_start h (p + 1) - period_start h p <= 105400 * Day) by nia.
  assert (Day <= period_start h (p + 1) - period_start h p) by nia.
  assert (Day = 86400000000000) as ED by done.
  rewrite Z.min_r, Z.max_r by lia. rewrite Z.quot_div_nonneg by lia.
  replace (period_start h (p + 1) - Day - period_start h p)
    with (period_start h (p + 1) - period_start h p + (-1) * Day) by lia.
  rewrite Z.div_add by lia. lia.
Qed.

Lemma daysSinceStart_eq h p t :
  schedule_ok h -> t mod Day = 0 -> in_period h p t ->
  daysSinceStart (period_start h p) t + 1 = elapsed_days h p t.
Proof.
  intros O T I. pose proof O as (_ & M & _). pose proof Day_pos as DP.
  pose proof (period_start_mono h p (p + 1) O ltac:(lia)) as B.
  destruct I as [L1 L2].
  unfold daysSinceStart, hours_div_24, Sub, elapsed_days, minDuration, maxDuration.
  assert (period_start h (p + 1) - period_start h p <= 105400 * Day) by nia.
  assert (Day = 86400000000000) as ED by done.
  rewrite Z.min_r, Z.max_r by lia. rewrite Z.quot_div_nonneg by lia.
  pose proof (Z.div_pos (t - period_start h p) Day ltac:(lia) DP).
  by rewrite (proj2 (Z.ltb_ge _ 0)) by lia.
Qed.

Lemma schedule_int_ok h : schedule_ok h -> int_ok (MaxSupply h) = true.
Proof. intros (_ & _ & S0). apply int_ok_spec. lia. Qed.

Lemma TotalDistributableAt_eq h t p :
  schedule_ok h -> t mod Day = 0 -> in_period h p t -> 1 <= p <= 63 ->
  TotalDistributableAt h t
    = Ok (distributable (MaxSupply h) (Z.to_nat p) (elapsed_days h p t) (period_days h p)).
Proof.
  intros O T I P. pose proof O as (_ & _ & S0). pose proof (schedule_int_ok h O) as SI.
  unfold TotalDistributableAt. rewrite (CurrentPeriod_in h t p) by (done || lia).
  cbn [mbind outcome_bind].
  pose proof (full_allocations_eq h (Z.to_nat (p - 1)) 0 ltac:(lia) SI ltac:(lia)) as F.
  change (Z.of_nat 0 + 1) with 1 in F. change (released (MaxSupply h) 0) with 0 in F. rewrite F.
  cbn [mbind outcome_bind]. rewrite PeriodBounds_eq by (done || lia). cbv beta iota zeta.
  pose proof (days_bounds h p t O T I) as [E D].
  rewrite daysInRange_eq, daysSinceStart_eq by done.
  rewrite (proj2 (Z.ltb_lt 0 _)) by lia. rewrite PeriodAllocation_eq by lia. cbn [mbind outcome_bind].
  pose proof (Z.div_pos (MaxSupply h) (2 ^ p) ltac:(lia) ltac:(apply Z.pow_pos_nonneg; lia)) as A0.
  assert (MaxSupply h / 2 ^ p <= MaxSupply h) as A1
    by (apply Z.div_le_upper_bound; [apply Z.pow_pos_nonneg; lia|pose proof (pow_63 p P); nia]).
  rewrite (int64_small (elapsed_days h p t)), (int64_small (period_days h p)) by lia.
  set (a := MaxSupply h / 2 ^ p) in *.
  rewrite Int_Mul_intro by (apply int_ok_spec; nia). cbn [mbind outcome_bind].
  rewrite Int_Quo_intro by lia. cbn [mbind outcome_bind].
  rewrite Z.quot_div_nonneg by nia.
  pose proof (distributable_bound (MaxSupply h) (Z.to_nat p) (elapsed_days h p t) (period_days h p)
    ltac:(lia) ltac:(lia) ltac:(lia) ltac:(lia)) as DB.
  pose proof (released_bound (MaxSupply h) (Z.to_nat p) ltac:(lia)) as [_ RB].
  pose proof (released_bound (MaxSupply h) (Z.to_nat p - 1) ltac:(lia)) as [R0 _].
  pose proof (Z.div_pos (MaxSupply h) (2 ^ Z.of_nat (Z.to_nat p)) ltac:(lia) ltac:(apply Z.pow_pos_nonneg; lia)).
  unfold distributable in *. rewrite Z2Nat.id in DB, RB |- * by lia. fold a in DB, RB |- *.
  replace (0 + Z.to_nat (p - 1))%nat with (Z.to_nat p - 1)%nat by lia.
  apply Int_Add_intro. apply (int_ok_between _ _ SI). lia.
Qed.

(** C18 In period p (at most the 63rd) the distributable amount is the sum of
    the allocations MaxSupply/2^i of the completed periods and the share of
    MaxSupply/2^p for the days of the period that have begun. *)
Theorem total_distributable_formula h t p :
  schedule_ok h -> t mod Day = 0 -> in_period h p t -> 1 <= p <= 63 ->
  TotalDistributableAt h t
    = Ok (released (MaxSupply h) (Z.to_nat p - 1)
          + (MaxSupply h / 2 ^ p * elapsed_days h p t) / period_days h p) /\
  1 <= elapsed_days h p t <= period_days h p.
Proof.
  intros O T I P. split; [|by eapply days_bounds].
  rewrite (TotalDistributableAt_eq h t p) by done. unfold distributable. by rewrite Z2Nat.id by lia.
Qed.

Lemma TotalDistributableAt_mono h t u p q :
  schedule_ok h -> t mod Day = 0 -> u mod Day = 0 -> t <= u ->
  in_period h p t -> in_period h q u -> 1 <= p -> q <= 63 ->
  exists a b, TotalDistributableAt h t = Ok a /\ TotalDistributableAt h u = Ok b /\
    0 <= a /\ a <= b /\ b <= MaxSupply h.
Proof.
  intros O T U L I J P Q. pose proof O as (_ & M & S0). pose proof Day_pos.
  assert (p <= q) as PQ.
  { destruct (Z.le_gt_cases p q); [done|].
    pose proof (period_start_mono h (q + 1) p O ltac:(lia)). unfold in_period in *. nia. }
  pose proof (days_bounds h p t O T I) as [Ep Dp]. pose proof (days_bounds h q u O U J) as [Eq Dq].
  rewrite (TotalDistributableAt_eq h t p), (TotalDistributableAt_eq h u q) by (done || lia).
  do 2 eexists. split; [done|]. split; [done|].
  pose proof (distributable_bound (MaxSupply h) (Z.to_nat p) (elapsed_days h p t) (period_days h p)
    ltac:(lia) ltac:(lia) ltac:(lia) ltac:(lia)) as Bp.
  pose proof (distributable_bound (MaxSupply h) (Z.to_nat q) (elapsed_days h q u) (period_days h q)
    ltac:(lia) ltac:(lia) ltac:(lia) ltac:(lia)) as Bq.
  pose proof (released_bound (MaxSupply h) (Z.to_nat p - 1) ltac:(lia)) as [R0 _].
  pose proof (released_bound (MaxSupply h) (Z.to_nat q) ltac:(lia)) as [_ R1].
  pose proof (Z.div_pos (MaxSupply h) (2 ^ Z.of_nat (Z.to_nat q)) ltac:(lia) ltac:(apply Z.pow_pos_nonneg; lia)).
  split; [lia|]. split; [|lia].
  destruct (Z.eq_dec p q) as [<-|N].
  - apply distributable_mono; [lia| |lia]. unfold elapsed_days.
    apply Z.add_le_mono_r, Z.div_le_mono; lia.
  - pose proof (released_mono (MaxSupply h) (Z.to_nat p) (Z.to_nat q - 1) ltac:(lia) ltac:(lia)). lia.
Qed.

(** C19 The distributable amount never decreases with the date and never
    exceeds the maximum supply, for all days of the first 63 periods. *)
Theorem total_distributable_monotone h t u p q :
  schedule_ok h -> t mod Day = 0 -> u mod Day = 0 -> t <= u ->
  in_period h p t -> in_period h q u -> 1 <= p -> q <= 63 ->
  exists a b, TotalDistributableAt h t = Ok a /\ TotalDistributableAt h u = Ok b /\
    0 <= a /\ a <= b /\ b <= MaxSupply h.
Proof. apply TotalDistributableAt_mono. Qed.

(** From the 64th period on TotalDistributableAt gives no amount: the
    divisor 1 << period of an allocation is zero there, and the handler panics. *)
Theorem total_distributable_period_64 h t p :
  schedule_ok h -> CurrentPeriod h t = Ok p -> 64 <= p ->
  (exists e, PeriodAllocation h p = Panic e) /\ forall a, TotalDistributableAt h t <> Ok a.
Proof.
  intros O C P. split; [by apply PeriodAllocation_panics|]. intros a E.
  unfold TotalDistributableAt in E. rewrite C in E. cbn [mbind outcome_bind] in E.
  apply bind_Ok in E as (tot & EF & E).
  destruct (Z.eq_dec p 64) as [->|].
  - rewrite PeriodBounds_eq in E by (done || lia). cbv beta iota zeta in E.
    rewrite daysInRange_eq in E by done. pose proof (period_start_mono h 64 (64 + 1) O ltac:(lia)) as B.
    pose proof O as (_ & M & _). pose proof Day_pos.
    assert (1 <= period_days h 64) by (apply Z.div_le_lower_bound; [done|nia]).
    rewrite (proj2 (Z.ltb_lt _ _)) in E by lia. apply bind_Ok in E as (b & EA & _).
    destruct (PeriodAllocation_panics h 64 ltac:(lia)) as [e X]. congruence.
  - eapply (full_allocations_panics h _ 1 0); [lia| |lia|exact EF]. lia.
Qed.
End Allocations.
