(* ===== verification/DistroProps.v ===== *)
(** What the distribution module guarantees: validated parameters give a
    schedule, only the authority changes them, genesis export and import agree,
    and a mint stays within the maximum supply and the schedule. *)

From stdpp Require Import base list strings.
From Stdlib Require Import ZArith Lia.
From S2P Require Import Prelude GoTime Sdk Distro Halving.

Local Open Scope Z_scope.

Section Params.
Context `{SdkMathLaws} `{!SdkTypes}.

(** What the validation of parameters accepts. *)
Definition params_valid (p : Params) : Prop :=
  (MintingAddress p <> "" /\ exists a, AccAddressFromBech32 (MintingAddress p) = Ok a) /\
  (ReceivingAddress p <> "" /\ exists a, AccAddressFromBech32 (ReceivingAddress p) = Ok a) /\
  ParamsDenom p = "aTSC" /\
  (ParamsMaxSupply p <> "" /\ exists m, NewIntFromString (ParamsMaxSupply p) = Some m /\ 0 < m) /\
  is_Some (ParseDateOnly (DistributionStartDate p)) /\
  MonthsInHalvingPeriod p <> 0.

Lemma Params_Validate_valid p : Params_Validate p = Ok tt <-> params_valid p.
Proof.
  unfold Params_Validate, validateMintingAddress, validateReceivingAddress, validateDenom,
    validateMaxSupply, validateDistributionStartDate, validateMonthsInHalvingPeriod, params_valid.
  split.
  - intros E. ok_inv E. ok_inv E0. ok_inv E1. ok_inv E2. ok_inv E3. ok_inv E4. bool_to_prop.
    unfold DefaultDenom in *.
    repeat match goal with |- _ /\ _ => split end;
      first [eexists; split; [eassumption|lia] | done | by eauto | congruence | lia].
  - intros ((N1 & a & A) & (N2 & b & B) & D & (N3 & m & M & M0) & [t T] & H6).
    rewrite (proj2 (String.eqb_neq _ _) N1), A, (proj2 (String.eqb_neq _ _) N2), B, D.
    rewrite (proj2 (String.eqb_neq _ _) N3), M, T.
    cbn [wrap_err mbind outcome_bind from_option_err String.eqb].
    cbn. rewrite (proj2 (Z.ltb_lt _ _) M0). cbn.
    destruct (String.eqb_spec (DistributionStartDate p) "") as [E|_]; [by rewrite E in T|].
    cbn. by rewrite (proj2 (Z.eqb_neq _ _) H6).
Qed.

(** Parameters are accepted exactly when both addresses decode, the
    denomination is aTSC, the maximum supply is a positive integer, the start
    date is a calendar date and the period has at least one month. *)
Theorem Params_Validate_iff p : Params_Validate p = Ok tt <-> params_valid p.
Proof. apply Params_Validate_valid. Qed.

(** Parsed dates are calendar dates. *)
Lemma ParseDateOnly_civil s t :
  ParseDateOnly s = Some t -> exists y m d, valid_civil y m d /\ t = Date y m d.
Proof.
  unfold ParseDateOnly. intros ([[y m] d] & P & [= <-])%bind_Some.
  apply parse_civil_valid in P as [V _]. eauto.
Qed.

Lemma newHalvingSchedule_ok p h :
  newHalvingSchedule p = Ok h -> params_valid p ->
  0 <= MonthsInHalvingPeriod p <= 3400 -> MaxSupply h < 2 ^ 230 -> schedule_ok h.
Proof.
  unfold newHalvingSchedule, parseDate. intros (t & ET & E)%bind_Ok V M S.
  apply bind_Ok in E as (m & EM & E). case_match; [done|]. injection E as <-. cbn in *.
  apply from_option_err_Ok in ET, EM. destruct V as (_ & _ & _ & (_ & m' & MS & M0) & _ & N).
  rewrite EM in MS. injection MS as ->.
  split; [by eapply ParseDateOnly_civil|]. cbn. split; [lia|]. lia.
Qed.
End Params.

Section Genesis.
Context `{SdkMathLaws} `{!SdkTypes} {P : Type} `{!Item P Params} `{!ItemLaws P Params}.
Context (authority : string).

(** Genesis round trip: the state exported from an initialised or updated
    module is the state that was put in, it passes validation, and importing it
    into any other store gives the same parameters. *)
Theorem genesis_roundtrip (p0 p q : P) gs :
  InitGenesis p0 gs = Ok p ->
  ExportGenesis p = Ok gs /\ GenesisState_Validate gs = Ok tt /\
  forall q', InitGenesis q gs = Ok q' -> Query_Params q' = Query_Params p.
Proof.
  unfold InitGenesis. intros ([] & V & S)%bind_Ok. pose proof (Item_Get_Set _ _ _ S) as G.
  unfold ExportGenesis, GenesisState_Validate, Query_Params. rewrite G.
  split; [by destruct gs|]. split; [done|].
  intros q' ([] & _ & S')%bind_Ok. by rewrite (Item_Get_Set _ _ _ S').
Qed.

(** Only the authority changes the parameters, and only to valid ones. *)
Theorem UpdateParams_authorized (p p' : P) msg :
  UpdateParams authority p msg = Ok p' ->
  MsgUpdateParams_Authority msg = authority /\ params_valid (MsgUpdateParams_Params msg) /\
  Query_Params p' = Ok (MsgUpdateParams_Params msg).
Proof.
  unfold UpdateParams, Query_Params. intros E. case_match eqn:A; [done|].
  apply negb_false_iff, String.eqb_eq in A. apply bind_Ok in E as ([] & V & S).
  apply Params_Validate_valid in V. split; [done|]. split; [done|]. by eapply Item_Get_Set.
Qed.
End Genesis.

Section Mint.
Context `{SdkMathLaws} `{!SdkTypes} `{!SdkCoinLaws} {P X : Type} `{!Item P Params}
  `{!DistroBank X} `{!DistroBankLaws X}.

Definition supply_of (x : X) (d : string) : Z := Amount (GetSupply x d).

(** What a successful mint went through. *)
Lemma Mint_Ok (ctx : Ctx) (p : P) (x x' : X) msg :
  Mint ctx p x msg = Ok x' ->
  exists params amount signer max,
    Item_Get p = Ok params /\ NewIntFromString (MsgMint_Amount msg) = Some amount /\ 0 < amount /\
    AccAddressFromBech32 (MsgMint_Minter msg) = Ok signer /\
    AccAddress_String signer = MintingAddress params /\
    NewIntFromString (ParamsMaxSupply params) = Some max /\
    0 <= supply_of x (ParamsDenom params) /\ supply_of x (ParamsDenom params) + amount <= max /\
    validateMintingLimits ctx (supply_of x (ParamsDenom params)) amount params = Ok tt /\
    exists coin coins x1 acct, NewCoin (ParamsDenom params) amount = Ok coin /\
      NewCoins [coin] = Ok coins /\ MintCoins x ModuleName coins = Ok x1 /\
      AccAddressFromBech32 (ReceivingAddress params) = Ok acct /\
      SendCoinsFromModuleToAccount x1 ModuleName acct coins = Ok x'.
Proof.
  unfold Mint, MsgMint_Validate, MsgMint_GetSigners. intros E.
  apply bind_Ok in E as (amount & EV & E). ok_inv EV.
  match goal with X : AccAddressFromBech32 _ = Ok ?a |- _ => rename X into EA; rename a into signer end.
  rewrite EA in E. cbn [catch mbind outcome_bind] in E.
  apply bind_Ok in E as (params & EP & E). unfold IsAuthorized in E.
  case_match eqn:Au; [done|]. case_match eqn:Ng; [done|].
  apply bind_Ok in E as (max & EM & E). apply from_option_err_Ok in EM.
  apply bind_Ok in E as (new & EN & E). case_match eqn:Mx; [done|].
  apply bind_Ok in E as ([] & EL & E). case_match; [|done].
  apply bind_Ok in E as (coin & EC & E). apply bind_Ok in E as (coins & ECs & E).
  apply bind_Ok in E as (x1 & EX & E). unfold depositCoins in E.
  apply bind_Ok in E as (acct & ER & E). apply wrap_err_Ok in ER. case_match; [|done].
  rewrite EC in E. cbn [mbind outcome_bind] in E. rewrite ECs in E. cbn [mbind outcome_bind] in E.
  int_facts. apply negb_false_iff, String.eqb_eq in Au.
  apply Z.ltb_ge in Ng, Mx. unfold supply_of.
  repeat match goal with
  | X : (_ =? 0) = false |- _ => apply Z.eqb_neq in X
  | X : (_ <? 0) = false |- _ => apply Z.ltb_ge in X
  end.
  exists params, amount, signer, max. do 2 (split; [done|]). split; [lia|]. do 2 (split; [done|]).
  do 4 (split; [done|]). exists coin, coins, x1, acct. auto.
Qed.

Lemma Mint_effect (ctx : Ctx) (p : P) (x x' : X) msg :
  Mint ctx p x msg = Ok x' ->
  exists params amount signer max h limit,
    Item_Get p = Ok params /\ NewIntFromString (MsgMint_Amount msg) = Some amount /\ 0 < amount /\
    AccAddressFromBech32 (MsgMint_Minter msg) = Ok signer /\
    AccAddress_String signer = MintingAddress params /\
    (forall d, supply_of x' d
       = supply_of x d + (if String.eqb d (ParamsDenom params) then amount else 0)) /\
    NewIntFromString (ParamsMaxSupply params) = Some max /\
    supply_of x' (ParamsDenom params) <= max /\
    newHalvingSchedule params = Ok h /\
    TotalDistributableAt h (midnight (BlockTime ctx)) = Ok limit /\
    supply_of x' (ParamsDenom params) <= limit.
Proof.
  intros (params & amount & signer & max & EP & EA & A & ES & Au & EM & S0 & SM & EL
    & coin & coins & x1 & acct & EC & ECs & EX & ER & E)%Mint_Ok.
  pose proof (NewCoin_spec _ _ _ EC) as ->.
  assert (forall d, supply_of x' d
    = supply_of x d + (if String.eqb d (ParamsDenom params) then amount else 0)) as Sup.
  { intros d. unfold supply_of. rewrite (SendCoins_supply _ _ _ _ _ E d).
    apply (MintCoins_supply _ _ _ _ _ ECs EX d). }
  unfold validateMintingLimits in EL. apply bind_Ok in EL as (h & EH & EL).
  apply bind_Ok in EL as (limit & ET & EL). apply bind_Ok in EL as (new & EN & EL).
  case_match eqn:Lt; [done|]. apply Z.ltb_ge in Lt. int_facts.
  exists params, amount, signer, max, h, limit. do 6 (split; [done|]). rewrite midnight_Truncate24h.
  split; [done|]. rewrite Sup, String.eqb_refl. auto.
Qed.

(** C17 A successful Mint was signed by the minting address, adds exactly the
    requested positive amount to the supply of the module's denomination and
    nothing to any other, and leaves that supply within both the maximum supply
    and what the halving schedule allows to be distributed by the day of the
    block. *)
Theorem Mint_within_limits (ctx : Ctx) (p : P) (x x' : X) msg :
  Mint ctx p x msg = Ok x' ->
  exists params amount signer max h limit,
    Item_Get p = Ok params /\ NewIntFromString (MsgMint_Amount msg) = Some amount /\ 0 < amount /\
    AccAddressFromBech32 (MsgMint_Minter msg) = Ok signer /\
    AccAddress_String signer = MintingAddress params /\
    (forall d, supply_of x' d
       = supply_of x d + (if String.eqb d (ParamsDenom params) then amount else 0)) /\
    NewIntFromString (ParamsMaxSupply params) = Some max /\
    supply_of x' (ParamsDenom params) <= max /\
    newHalvingSchedule params = Ok h /\
    TotalDistributableAt h (midnight (BlockTime ctx)) = Ok limit /\
    supply_of x' (ParamsDenom params) <= limit.
Proof. apply Mint_effect. Qed.
End Mint.
