(* ===== verification/DistroRuns.v ===== *)
(** Concrete runs of the distribution module, and its theorems applied to them. *)

From stdpp Require Import base list strings gmap.
From Stdlib Require Import ZArith Lia.
From S2P Require Import Prelude GoTime Sdk Testnet Distro Halving DistroProps.
Import Toy.

Local Open Scope Z_scope.

(** A bank that only counts supplies, and a parameter store. *)
Module ToyDistro.

Definition toy_supply (x : gmap string Z) (d : string) : Z := default 0 (x !! d).

#[export] Instance toy_item : Item (option Params) Params := {
  Item_Get p := from_option_err (ExtErr "collections: not found") p;
  Item_Set _ v := Ok (Some v);
}.

#[export] Instance toy_item_laws : ItemLaws (option Params) Params.
Proof. split. by intros p v p' [= <-]. Qed.

#[export] Instance toy_distro_bank : DistroBank (gmap string Z) := {
  GetSupply x d := NewCoinRec d (toy_supply x d);
  MintCoins x _ cs :=
    match cs with
    | [c] => Ok (<[Denom c := toy_supply x (Denom c) + Amount c]> x)
    | _ => Err (ExtErr "not one coin")
    end;
  SendCoinsFromModuleToAccount x _ _ _ := Ok x;
  GetModuleAddress m := Some (bytes_of_string m);
}.

#[export] Instance toy_distro_bank_laws : DistroBankLaws (gmap string Z).
Proof.
  split.
  - intros x m c cs x' [= <-] [= <-] d. simpl. unfold toy_supply at 1.
    destruct (String.eqb_spec d (Denom c)) as [->|N].
    + by rewrite lookup_insert_eq.
    + rewrite lookup_insert_ne by done. unfold toy_supply. lia.
  - by intros x m a cs x' [= <-] d.
Qed.
End ToyDistro.
Import ToyDistro.

(** The fourth day of the distribution. *)
Definition mint_ctx : Ctx := MkCtx (Date 2025 7 25 + 9 * Hour) 5 ∅.
Definition mint_msg : MsgMint := NewMsgMint "" "1000" DefaultMintingAddress.

Lemma mint_run :
  Mint mint_ctx (Some DefaultParams) (∅ : gmap string Z) mint_msg = Ok {[ "aTSC" := 1000 ]}.
Proof. vm_compute. reflexivity. Qed.

Lemma Mint_within_limits_witness :
  exists params amount signer max h limit,
    Item_Get (Some DefaultParams) = Ok params /\ NewIntFromString "1000" = Some amount /\ 0 < amount /\
    AccAddressFromBech32 DefaultMintingAddress = Ok signer /\
    AccAddress_String signer = MintingAddress params /\
    (forall d, supply_of {[ "aTSC" := 1000 ]} d
       = supply_of (∅ : gmap string Z) d + (if String.eqb d (ParamsDenom params) then amount else 0)) /\
    NewIntFromString (ParamsMaxSupply params) = Some max /\
    supply_of {[ "aTSC" := 1000 ]} (ParamsDenom params) <= max /\
    newHalvingSchedule params = Ok h /\
    TotalDistributableAt h (midnight (BlockTime mint_ctx)) = Ok limit /\
    supply_of {[ "aTSC" := 1000 ]} (ParamsDenom params) <= limit.
Proof. exact (Mint_within_limits mint_ctx (Some DefaultParams) ∅ _ mint_msg mint_run). Defined.

Lemma Params_Validate_iff_witness : params_valid DefaultParams.
Proof. apply (Params_Validate_iff DefaultParams). vm_compute. reflexivity. Defined.

Lemma genesis_roundtrip_witness :
  ExportGenesis (Some DefaultParams) = Ok DefaultGenesis /\
  GenesisState_Validate DefaultGenesis = Ok tt /\
  forall q', InitGenesis None DefaultGenesis = Ok q' -> Query_Params q' = Query_Params (Some DefaultParams).
Proof.
  apply (genesis_roundtrip None (Some DefaultParams) None DefaultGenesis). vm_compute. reflexivity.
Defined.

Lemma UpdateParams_authorized_witness :
  "gov" = "gov" /\ params_valid DefaultParams /\ Query_Params (Some DefaultParams) = Ok DefaultParams.
Proof.
  apply (UpdateParams_authorized "gov" None (Some DefaultParams) (MkMsgUpdateParams "gov" DefaultParams)).
  vm_compute. reflexivity.
Defined.

(** The default schedule. *)
Definition default_schedule : HalvingSchedule :=
  MkHalvingSchedule (Date 2025 7 22) 48 21000000000000000000000000.

Lemma default_schedule_ok : schedule_ok default_schedule.
Proof.
  split.
  - exists 2025, 7, 22. split; [|done]. split; [lia|]. vm_compute. split; congruence.
  - cbn. split; [lia|]. split; vm_compute; congruence.
Qed.

Lemma periods_partition_witness :
  (forall p, 1 <= p <= 1000 ->
     (PeriodBounds default_schedule p).2 + Day = (PeriodBounds default_schedule (p + 1)).1) /\
  exists p, CurrentPeriod default_schedule (Date 2030 1 1) = Ok p /\
    (p = 1001 \/ forall q, 1 <= q <= 1000 ->
       (PeriodBounds default_schedule q).1 <= Date 2030 1 1 <= (PeriodBounds default_schedule q).2
         <-> q = p).
Proof.
  apply (periods_partition default_schedule (Date 2030 1 1) default_schedule_ok);
    vm_compute; congruence.
Defined.

Lemma in_second_period : in_period default_schedule 2 (Date 2030 1 1).
Proof. split; vm_compute; congruence. Qed.

Lemma total_distributable_formula_witness :
  TotalDistributableAt default_schedule (Date 2030 1 1)
    = Ok (released 21000000000000000000000000 1
          + (21000000000000000000000000 / 2 ^ 2 * elapsed_days default_schedule 2 (Date 2030 1 1))
              / period_days default_schedule 2) /\
  1 <= elapsed_days default_schedule 2 (Date 2030 1 1) <= period_days default_schedule 2.
Proof.
  apply (total_distributable_formula default_schedule (Date 2030 1 1) 2 default_schedule_ok);
    [vm_compute; reflexivity|apply in_second_period|lia].
Defined.

Lemma total_distributable_monotone_witness :
  exists a b, TotalDistributableAt default_schedule (Date 2029 7 21) = Ok a /\
    TotalDistributableAt default_schedule (Date 2030 1 1) = Ok b /\
    0 <= a /\ a <= b /\ b <= 21000000000000000000000000.
Proof.
  apply (total_distributable_monotone default_schedule (Date 2029 7 21) (Date 2030 1 1) 1 2
    default_schedule_ok); [vm_compute; congruence..| |apply in_second_period|lia|lia].
  split; vm_compute; congruence.
Defined.

(** With periods of one month the 64th begins after five years and three months. *)
Definition monthly_schedule : HalvingSchedule := MkHalvingSchedule (Date 2025 7 22) 1 21000000.

Lemma total_distributable_period_64_witness :
  (exists e, PeriodAllocation monthly_schedule 64 = Panic e) /\
  forall a, TotalDistributableAt monthly_schedule (Date 2030 10 22) <> Ok a.
Proof.
  apply (total_distributable_period_64 monthly_schedule (Date 2030 10 22) 64).
  - split; [|cbn; split; [lia|split; vm_compute; congruence]].
    exists 2025, 7, 22. split; [|done]. split; [lia|]. vm_compute. split; congruence.
  - vm_compute. reflexivity.
  - lia.
Defined.
