(* ===== verification/LegacyProto.v ===== *)
(** The protobuf reading of app/legacy_ethtx.go: varints, length-delimited
    fields, skipping, the extraction of one field, and the loop all its
    [unmarshal] functions share; with a reference encoding of protobuf fields
    these read back. *)

From stdpp Require Import base list strings.
From Stdlib Require Import ZArith Lia.
From Stdlib.Init Require Import Byte.
From S2P Require Import Prelude Sdk LockPb.

Local Open Scope Z_scope.

(** * Primitives *)

Fixpoint decode_varint_loop (data : bytes) (i val : Z) : Z * Z :=
  match data with
  | [] => (0, 0)
  | b :: rest =>
      if i <? 10 then
        let val := Z.lor val (uint64 (Z.shiftl (Z.land (byte_to_Z b) 127) (i * 7))) in
        if byte_to_Z b <? 128 then (val, i + 1) else decode_varint_loop rest (i + 1) val
      else (0, 0)
  end.

(** The value and the number of bytes read, or 0 and 0. *)
Definition protoDecodeVarint (data : bytes) : Z * Z := decode_varint_loop data 0 0.

(** The bytes and the index after them. *)
Definition readLenDelimited (data : bytes) : outcome (bytes * Z) :=
  let '(length, n) := protoDecodeVarint data in
  if n =? 0 then Err (FmtErr "bad length varint") else
  let stop := int64 (n + int64 length) in
  if zlen data <? stop then Err EOFErr else
  b ← slice data n stop;
  Ok (b, stop).

Definition skipProtoField (data : bytes) (wireType : Z) : outcome Z :=
  if wireType =? 0 then
    let '(_, n) := protoDecodeVarint data in
    if n =? 0 then Err (FmtErr "bad varint skip") else Ok n
  else if wireType =? 1 then Ok 8
  else if wireType =? 2 then
    let '(length, n) := protoDecodeVarint data in
    if n =? 0 then Err (FmtErr "bad length skip") else Ok (int64 (n + int64 length))
  else if wireType =? 5 then Ok 4
  else Err (FmtErr "unsupported wire type %d").

(** [tag, n := protoDecodeVarint(data[i:])] at the head of every loop: the field
    number, the wire type and the index after the tag. *)
Definition read_field_tag (bad : string) (data : bytes) (i : Z) : outcome (Z * Z * Z) :=
  rest ← slice_from data i;
  let '(tag, n) := protoDecodeVarint rest in
  if n =? 0 then Err (FmtErr bad)
  else Ok (int64 (Z.shiftr tag 3), Z.land tag 7, int64 (i + n)).

(** * Extracting one field *)

(** One round of the loop of [extractProtoField] after the tag: the field found,
    or the index to go on from. *)
Definition extract_step (data : bytes) (targetFieldNum targetWireType fieldNum wireType i : Z)
    : outcome (bytes + Z) :=
  let hit := (fieldNum =? targetFieldNum) && (targetWireType =? wireType) in
  if wireType =? 0 then
    rest ← slice_from data i;
    let '(_, n) := protoDecodeVarint rest in
    if n =? 0 then Err (FmtErr "bad varint value at offset %d") else
    if hit then b ← slice data i (int64 (i + n)); Ok (inl b) else Ok (inr (int64 (i + n)))
  else if wireType =? 1 then
    if zlen data <? int64 (i + 8) then Err EOFErr else
    if hit then b ← slice data i (int64 (i + 8)); Ok (inl b) else Ok (inr (int64 (i + 8)))
  else if wireType =? 2 then
    rest ← slice_from data i;
    let '(length, n) := protoDecodeVarint rest in
    if n =? 0 then Err (FmtErr "bad length at offset %d") else
    let i := int64 (i + n) in
    let stop := int64 (i + int64 length) in
    if zlen data <? stop then Err EOFErr else
    if hit then b ← slice data i stop; Ok (inl b) else Ok (inr stop)
  else if wireType =? 5 then
    if zlen data <? int64 (i + 4) then Err EOFErr else
    if hit then b ← slice data i (int64 (i + 4)); Ok (inl b) else Ok (inr (int64 (i + 4)))
  else Err (FmtErr "unsupported wire type %d at offset %d").

Fixpoint extract_loop (fuel : nat) (data : bytes) (targetFieldNum targetWireType i : Z)
    : outcome bytes :=
  if negb (i <? zlen data) then Err (FmtErr "field %d not found") else
  match fuel with
  | O => OutOfFuel
  | S fuel' =>
      '(fieldNum, wireType, i1) ← read_field_tag "bad varint at offset %d" data i;
      r ← extract_step data targetFieldNum targetWireType fieldNum wireType i1;
      match r with
      | inl b => Ok b
      | inr i2 => extract_loop fuel' data targetFieldNum targetWireType i2
      end
  end.

(** Fields that go forward take at least one byte each, so the length of the
    data is enough rounds for them. *)
Definition extractProtoField (data : bytes) (targetFieldNum targetWireType : Z) : outcome bytes :=
  extract_loop (length data) data targetFieldNum targetWireType 0.

Definition extractMsgAnyValue (txBytes : bytes) : outcome bytes :=
  bodyBytes ← wrap_err (fun _ => FmtErr "cannot extract tx body: %w")
                (extractProtoField txBytes 1 2);
  anyBytes ← wrap_err (fun _ => FmtErr "cannot extract first message Any: %w")
               (extractProtoField bodyBytes 1 2);
  wrap_err (fun _ => FmtErr "cannot extract Any value: %w") (extractProtoField anyBytes 2 2).

(** * The loop of the [unmarshal] functions *)

(** [handler t fieldNum wireType i] is the switch of one function: the message
    with the field stored, and the index to go on from. *)
Fixpoint proto_loop {T} (bad : string) (handler : bytes -> T -> Z -> Z -> Z -> outcome (T * Z))
    (fuel : nat) (data : bytes) (t : T) (i : Z) : outcome T :=
  if negb (i <? zlen data) then Ok t else
  match fuel with
  | O => OutOfFuel
  | S fuel' =>
      '(fieldNum, wireType, i1) ← read_field_tag bad data i;
      '(t', i2) ← handler data t fieldNum wireType i1;
      proto_loop bad handler fuel' data t' i2
  end.

(** * The reference encoding *)

Inductive wire :=
  | WVarint (v : Z)
  | WFixed64 (b : bytes)
  | WLen (b : bytes)
  | WFixed32 (b : bytes).

Definition field : Type := Z * wire.

Definition wire_type (w : wire) : Z :=
  match w with WVarint _ => 0 | WFixed64 _ => 1 | WLen _ => 2 | WFixed32 _ => 5 end.

Definition encode_wire (w : wire) : bytes :=
  match w with
  | WVarint v => encodeVarintLock v
  | WFixed64 b => b
  | WLen b => encodeVarintLock (zlen b) ++ b
  | WFixed32 b => b
  end.

Definition encode_tag (f : field) : bytes := encodeVarintLock (f.1 * 8 + wire_type f.2).
Definition encode_field (f : field) : bytes := encode_tag f ++ encode_wire f.2.
Definition encode_fields (fs : list field) : bytes := concat (map encode_field fs).

(** A field protobuf can carry: numbers up to 2^29, and sizes below 2^32. *)
Definition field_ok (f : field) : Prop :=
  1 <= f.1 < 2 ^ 29 /\
  match f.2 with
  | WVarint v => 0 <= v < 2 ^ 64
  | WFixed64 b => length b = 8%nat
  | WLen b => zlen b < 2 ^ 32
  | WFixed32 b => length b = 4%nat
  end.

(** * Reading back *)

(** The decoder agrees with the one of lock.pb.go. *)
Lemma decode_varint_loop_pb data pos i val :
  0 <= i ->
  decode_varint_loop data i val
    = match pb_varint data pos (7 * i) val with
      | Ok (v, (pos', _)) => (v, i + (pos' - pos))
      | _ => (0, 0)
      end.
Proof.
  revert pos i val. induction data as [|b data IH]; intros pos i val I; cbn [decode_varint_loop pb_varint].
  - by destruct (64 <=? 7 * i).
  - rewrite (Z.mul_comm i 7). destruct (Z.ltb_spec i 10).
    + rewrite (proj2 (Z.leb_gt 64 (7 * i))) by lia. destruct (byte_to_Z b <? 128).
      * f_equal. lia.
      * rewrite (IH (pos + 1)) by lia. replace (7 * (i + 1)) with (7 * i + 7) by lia.
        destruct (pb_varint _ _ _ _) as [[v [pos' r]]| | |]; try done. f_equal. lia.
    + by rewrite (proj2 (Z.leb_le 64 (7 * i))) by lia.
Qed.

(** A varint is read back, whatever follows it. *)
Lemma protoDecodeVarint_encode v rest :
  0 <= v < 2 ^ 64 ->
  protoDecodeVarint (encodeVarintLock v ++ rest) = (v, zlen (encodeVarintLock v)).
Proof.
  intros V. unfold protoDecodeVarint. rewrite (decode_varint_loop_pb _ 0) by lia.
  pose proof (read_varint_encode v rest 0 V) as R. unfold read_varint in R. cbn [fst snd] in R.
  rewrite Z.mul_0_r, R. f_equal. lia.
Qed.

Lemma varint_loop_len n v : 1 <= zlen (varint_loop n v) <= Z.of_nat n + 1.
Proof.
  revert v. induction n as [|n IH]; intros v; cbn [varint_loop]; [unfold zlen; simpl; lia|].
  case_match; [rewrite zlen_cons; specialize (IH (Z.shiftr v 7)); lia|unfold zlen; simpl; lia].
Qed.

Lemma varint_len v : 1 <= zlen (encodeVarintLock v) <= 10.
Proof. apply (varint_loop_len 9). Qed.

Lemma slice_from_app {A} (pre post : list A) : slice_from (pre ++ post) (zlen pre) = Ok post.
Proof.
  unfold zlen. rewrite slice_from_ok by (rewrite length_app; lia). by rewrite drop_app_length.
Qed.

(** The tag of a field. *)
Lemma read_field_tag_encode bad pre f post :
  field_ok f -> zlen pre < 2 ^ 62 ->
  read_field_tag bad (pre ++ encode_tag f ++ post) (zlen pre)
    = Ok (f.1, wire_type f.2, zlen (pre ++ encode_tag f)).
Proof.
  intros [N _] L. unfold read_field_tag. rewrite slice_from_app. cbn [mbind outcome_bind].
  assert (0 <= wire_type f.2 < 8) as W by (destruct f.2; simpl; lia).
  unfold encode_tag. rewrite protoDecodeVarint_encode by lia.
  pose proof (varint_len (f.1 * 8 + wire_type f.2)). pose proof (zlen_nonneg pre).
  rewrite (proj2 (Z.eqb_neq _ _)) by lia.
  assert (Z.land (f.1 * 8 + wire_type f.2) 7 = wire_type f.2) as ->
    by (by rewrite land_7, Z.add_comm, Z.mod_add, Z.mod_small by lia).
  assert (Z.shiftr (f.1 * 8 + wire_type f.2) 3 = f.1) as ->
    by (by rewrite Z.shiftr_div_pow2, Z.div_add_l, Z.div_small, Z.add_0_r by lia).
  rewrite zlen_app, !int64_small by lia. done.
Qed.

(** A length-delimited value. *)
Lemma readLenDelimited_encode b post :
  zlen b < 2 ^ 32 ->
  readLenDelimited (encodeVarintLock (zlen b) ++ b ++ post)
    = Ok (b, zlen (encodeVarintLock (zlen b) ++ b)).
Proof.
  intros L. pose proof (zlen_nonneg b). pose proof (zlen_nonneg post).
  pose proof (varint_len (zlen b)). unfold readLenDelimited.
  rewrite protoDecodeVarint_encode by lia. rewrite (proj2 (Z.eqb_neq _ _)) by lia.
  rewrite (int64_small (zlen b)), int64_small by lia.
  rewrite (proj2 (Z.ltb_ge _ _)) by (rewrite !zlen_app; lia).
  rewrite slice_mid by lia. cbn [mbind outcome_bind]. by rewrite zlen_app.
Qed.

Lemma encode_fields_cons f fs : encode_fields (f :: fs) = encode_tag f ++ encode_wire f.2 ++ encode_fields fs.
Proof. unfold encode_fields, encode_field. cbn [map concat]. by rewrite <- app_assoc. Qed.

Lemma encode_field_nonempty f : 1 <= zlen (encode_tag f ++ encode_wire f.2).
Proof.
  rewrite zlen_app. unfold encode_tag. pose proof (varint_len (f.1 * 8 + wire_type f.2)).
  pose proof (zlen_nonneg (encode_wire f.2)). lia.
Qed.

Lemma encode_fields_length fs : Z.of_nat (length fs) <= zlen (encode_fields fs).
Proof.
  induction fs as [|f fs IH]; [unfold zlen; simpl; lia|]. rewrite encode_fields_cons, app_assoc, zlen_app.
  pose proof (encode_field_nonempty f). cbn [length]. lia.
Qed.

(** A handler stores a field: at the index after the tag it consumes the
    field's value. *)
Definition handler_spec {T} (handler : bytes -> T -> Z -> Z -> Z -> outcome (T * Z))
    (store : T -> field -> outcome T) (f : field) : Prop :=
  forall pre post t, zlen (pre ++ encode_wire f.2 ++ post) < 2 ^ 62 ->
    handler (pre ++ encode_wire f.2 ++ post) t f.1 (wire_type f.2) (zlen pre)
      = (t' ← store t f; Ok (t', zlen (pre ++ encode_wire f.2))).

Fixpoint store_all {T} (store : T -> field -> outcome T) (t : T) (fs : list field) : outcome T :=
  match fs with
  | [] => Ok t
  | f :: fs' => t' ← store t f; store_all store t' fs'
  end.

(** On encoded fields the loop stores them one after the other. *)
Lemma proto_loop_encode {T} bad (handler : bytes -> T -> Z -> Z -> Z -> outcome (T * Z)) store fs :
  Forall field_ok fs -> Forall (handler_spec handler store) fs ->
  forall pre t fuel, zlen (pre ++ encode_fields fs) < 2 ^ 62 -> (length fs <= fuel)%nat ->
  proto_loop bad handler fuel (pre ++ encode_fields fs) t (zlen pre) = store_all store t fs.
Proof.
  intros O S. induction fs as [|f fs IH]; intros pre t fuel L F.
  - change (encode_fields []) with (@nil byte). rewrite app_nil_r.
    destruct fuel; cbn [proto_loop]; by rewrite Z.ltb_irrefl.
  - apply Forall_cons in O as [Of O], S as [Sf S].
    destruct fuel as [|fuel]; [cbn [length] in F; lia|]. cbn [proto_loop store_all].
    rewrite encode_fields_cons in L |- *.
    pose proof (encode_field_nonempty f) as NE. pose proof (zlen_nonneg (encode_fields fs)).
    rewrite !zlen_app in L. rewrite !zlen_app in NE.
    rewrite (proj2 (Z.ltb_lt _ _)) by (rewrite !zlen_app; lia). cbn [negb].
    rewrite read_field_tag_encode by (done || lia). cbn [mbind outcome_bind].
    rewrite (app_assoc pre). rewrite Sf by (rewrite !zlen_app; lia).
    destruct (store t f) as [t'| | |]; try done. cbn [mbind outcome_bind].
    rewrite (app_assoc (pre ++ encode_tag f)). apply IH; [done|done| |cbn [length] in F; lia].
    rewrite !zlen_app. lia.
Qed.

(** The same from the start, with the fuel the functions use. *)
Lemma proto_loop_all {T} bad (handler : bytes -> T -> Z -> Z -> Z -> outcome (T * Z)) store fs t :
  Forall field_ok fs -> Forall (handler_spec handler store) fs ->
  zlen (encode_fields fs) < 2 ^ 62 ->
  proto_loop bad handler (length (encode_fields fs)) (encode_fields fs) t 0 = store_all store t fs.
Proof.
  intros O S L. pose proof (encode_fields_length fs).
  apply (proto_loop_encode bad handler store fs O S []); [done|]. unfold zlen in *. lia.
Qed.

(** ** Extraction *)

(** What [extractProtoField] returns of a field. *)
Definition payload (w : wire) : bytes :=
  match w with WLen b => b | _ => encode_wire w end.

Lemma extract_step_encode pre num w post k t :
  field_ok (num, w) -> zlen (pre ++ encode_wire w ++ post) < 2 ^ 62 ->
  extract_step (pre ++ encode_wire w ++ post) k t num (wire_type w) (zlen pre)
    = Ok (if (num =? k) && (t =? wire_type w) then inl (payload w)
          else inr (zlen (pre ++ encode_wire w))).
Proof.
  intros [N W] L. cbn [fst snd] in *. pose proof (zlen_nonneg pre). pose proof (zlen_nonneg post).
  destruct w as [v|b|b|b]; cbn [wire_type encode_wire payload] in *; unfold extract_step;
    cbn [Z.eqb Pos.eqb]; rewrite !zlen_app in *.
  - rewrite slice_from_app. cbn [mbind outcome_bind]. rewrite protoDecodeVarint_encode by done.
    pose proof (varint_len v). rewrite (proj2 (Z.eqb_neq _ _)), int64_small by lia.
    destruct (_ && _); [|done]. by rewrite slice_mid.
  - assert (zlen b = 8) as B by (unfold zlen; by rewrite W). rewrite B in *. rewrite int64_small by lia.
    rewrite (proj2 (Z.ltb_ge _ _)) by lia. destruct (_ && _); [|done].
    by rewrite slice_mid by (rewrite ?B; done).
  - pose proof (zlen_nonneg b).
    rewrite slice_from_app. cbn [mbind outcome_bind].
    rewrite <- app_assoc, protoDecodeVarint_encode by lia. pose proof (varint_len (zlen b)).
    rewrite (proj2 (Z.eqb_neq _ _)) by lia.
    rewrite (int64_small (zlen b)), (int64_small (zlen pre + _)), int64_small by lia.
    rewrite (proj2 (Z.ltb_ge _ _)) by lia. destruct (_ && _); [|f_equal; f_equal; lia].
    rewrite (app_assoc pre), slice_mid by (rewrite ?zlen_app; lia). done.
  - assert (zlen b = 4) as B by (unfold zlen; by rewrite W). rewrite B in *. rewrite int64_small by lia.
    rewrite (proj2 (Z.ltb_ge _ _)) by lia. destruct (_ && _); [|done].
    by rewrite slice_mid by (rewrite ?B; done).
Qed.

(** The field is the one searched for. *)
Definition matches (k t : Z) (f : field) : bool := (f.1 =? k) && (t =? wire_type f.2).

Lemma extract_loop_encode k t fs :
  Forall field_ok fs ->
  forall pre fuel, zlen (pre ++ encode_fields fs) < 2 ^ 62 -> (length fs <= fuel)%nat ->
  extract_loop fuel (pre ++ encode_fields fs) k t (zlen pre)
    = match List.find (matches k t) fs with
      | Some f => Ok (payload f.2)
      | None => Err (FmtErr "field %d not found")
      end.
Proof.
  intros O. induction fs as [|f fs IH]; intros pre fuel L F.
  - change (encode_fields []) with (@nil byte). rewrite app_nil_r.
    destruct fuel; cbn [extract_loop]; by rewrite Z.ltb_irrefl.
  - apply Forall_cons in O as [Of O].
    destruct fuel as [|fuel]; [cbn [length] in F; lia|]. cbn [extract_loop].
    rewrite encode_fields_cons in L |- *.
    pose proof (encode_field_nonempty f) as NE. pose proof (zlen_nonneg (encode_fields fs)).
    rewrite !zlen_app in L. rewrite !zlen_app in NE.
    rewrite (proj2 (Z.ltb_lt _ _)) by (rewrite !zlen_app; lia). cbn [negb].
    rewrite read_field_tag_encode by (done || lia). cbn [mbind outcome_bind].
    rewrite (app_assoc pre). destruct f as [num w]. cbn [fst snd] in *.
    rewrite extract_step_encode by (try done; rewrite !zlen_app; lia). cbn [mbind outcome_bind].
    cbn [List.find matches fst snd]. unfold matches at 1. cbn [fst snd].
    destruct ((num =? k) && (t =? wire_type w)); [done|].
    rewrite (app_assoc (pre ++ encode_tag (num, w))). apply IH; [done| |cbn [length] in F; lia].
    rewrite !zlen_app. lia.
Qed.

Lemma extractProtoField_encode k t fs :
  Forall field_ok fs -> zlen (encode_fields fs) < 2 ^ 62 ->
  extractProtoField (encode_fields fs) k t
    = match List.find (matches k t) fs with
      | Some f => Ok (payload f.2)
      | None => Err (FmtErr "field %d not found")
      end.
Proof.
  intros O L. pose proof (encode_fields_length fs).
  apply (extract_loop_encode k t fs O []); [done|]. unfold zlen in *. lia.
Qed.

(** The value of the first message of an encoded Cosmos transaction. *)
Lemma extractMsgAnyValue_encode url value any_rest body_rest tx_rest :
  let any := encode_fields ((1, WLen url) :: (2, WLen value) :: any_rest) in
  let body := encode_fields ((1, WLen any) :: body_rest) in
  let tx := encode_fields ((1, WLen body) :: tx_rest) in
  Forall field_ok ((1, WLen url) :: (2, WLen value) :: any_rest) ->
  Forall field_ok ((1, WLen any) :: body_rest) -> Forall field_ok ((1, WLen body) :: tx_rest) ->
  zlen tx < 2 ^ 62 ->
  extractMsgAnyValue tx = Ok value.
Proof.
  intros any body tx OA OB OT L. unfold extractMsgAnyValue, tx.
  apply Forall_cons in OT as OT'. destruct OT' as [[_ LB] _]. cbn [snd] in LB.
  apply Forall_cons in OB as OB'. destruct OB' as [[_ LA] _]. cbn [snd] in LA.
  rewrite (extractProtoField_encode 1 2) by done.
  cbn [List.find matches fst snd wire_type Z.eqb Pos.eqb andb payload wrap_err mbind outcome_bind].
  unfold body in *. rewrite (extractProtoField_encode 1 2) by (done || lia).
  cbn [List.find matches fst snd wire_type Z.eqb Pos.eqb andb payload wrap_err mbind outcome_bind].
  unfold any in *. rewrite (extractProtoField_encode 2 2) by (done || lia). done.
Qed.

(** ** Inputs that are not forward encodings *)

(** A field 2 whose length, 2^64 - 11, leads back to its own tag. *)
Definition looping_field : bytes := encode_tag (2, WLen []) ++ encodeVarintLock (2 ^ 64 - 11).

(** A field 1 with the length 2^63, a negative [int]. *)
Definition negative_field : bytes := encode_tag (1, WLen []) ++ encodeVarintLock (2 ^ 63).

Lemma looping_step :
  read_field_tag "bad varint at offset %d" looping_field 0 = Ok (2, 2, 1) /\
  extract_step looping_field 1 2 2 2 1 = Ok (inr 0).
Proof. split; vm_compute; reflexivity. Qed.

(** Lengths of 2^63 and more are not rejected: extractProtoField goes back and
    never ends on one such input (no number of rounds is enough), and panics
    with a slice bounds error on another. *)
Theorem extractProtoField_bad_lengths :
  (forall fuel, extract_loop fuel looping_field 1 2 0 = OutOfFuel) /\
  extractProtoField negative_field 1 2 = Panic SliceBounds.
Proof.
  split; [|vm_compute; reflexivity]. induction fuel as [|fuel IH].
  - vm_compute. reflexivity.
  - cbn [extract_loop]. change (negb (0 <? zlen looping_field)) with false. cbv iota.
    destruct looping_step as [-> S]. cbn [mbind outcome_bind]. rewrite S. cbn [mbind outcome_bind].
    exact IH.
Qed.
