(* ===== verification/LegacyTx.v ===== *)
(** app/legacy_ethtx.go: the old transaction messages, their decoders, the
    conversion to Ethereum transactions and the wrapping decoder.  go-ethereum's
    transaction type, its signers and the SDK's transaction builder are
    parameters. *)

From stdpp Require Import base list strings.
From Stdlib Require Import ZArith Lia.
From Stdlib.Init Require Import Byte.
From S2P Require Import Prelude Sdk LockPb LockStore LegacyProto.

Local Open Scope Z_scope.

(** * Messages *)

(** [codectypes.Any]. *)
Record AnyMsg := MkAny { TypeUrl : string; AnyValue : bytes }.

(** [Size] is kept as the bits of the double. *)
Record legacyMsgEthereumTx := MkLegacyMsg {
  lm_Data : option AnyMsg;
  lm_Size : Z;
  lm_Hash : string;
  lm_From : string;
}.

Record legacyLegacyTx := MkLegacyLegacyTx {
  llt_Nonce : Z;
  llt_GasPrice : option Z;
  llt_GasLimit : Z;
  llt_To : string;
  llt_Amount : option Z;
  llt_Data : bytes;
  llt_V : bytes;
  llt_R : bytes;
  llt_S : bytes;
}.

Record legacyAccessTuple := MkLegacyAccessTuple {
  lat_Address : string;
  lat_StorageKeys : list string;
}.

Record legacyAccessListTx := MkLegacyAccessListTx {
  lal_ChainID : option Z;
  lal_Nonce : Z;
  lal_GasPrice : option Z;
  lal_GasLimit : Z;
  lal_To : string;
  lal_Amount : option Z;
  lal_Data : bytes;
  lal_Accesses : list legacyAccessTuple;
  lal_V : bytes;
  lal_R : bytes;
  lal_S : bytes;
}.

Record legacyDynamicFeeTx := MkLegacyDynamicFeeTx {
  ldf_ChainID : option Z;
  ldf_Nonce : Z;
  ldf_GasTipCap : option Z;
  ldf_GasFeeCap : option Z;
  ldf_GasLimit : Z;
  ldf_To : string;
  ldf_Amount : option Z;
  ldf_Data : bytes;
  ldf_Accesses : list legacyAccessTuple;
  ldf_V : bytes;
  ldf_R : bytes;
  ldf_S : bytes;
}.

(** * Decoding with a table of fields *)

(** One [case] of a decoder's switch, by the kind of value it reads and how it
    stores it: a varint, a [math.Int], bytes, or an embedded message. *)
Inductive slot (T : Type) :=
  | SVarint (name : string) (set : T -> Z -> T)
  | SInt (name : string) (set : T -> Z -> T)
  | SBytes (name : string) (set : T -> bytes -> T)
  | SMsg (name : string) (set : T -> bytes -> outcome T).
Arguments SVarint {T}.
Arguments SInt {T}.
Arguments SBytes {T}.
Arguments SMsg {T}.

Definition wrong_wire {A} (name : string) : outcome A :=
  Err (FmtErr ("wrong wire type for " +:+ name +:+ ": %d")).

Definition varint_field (data : bytes) (wireType i : Z) (name : string) : outcome (Z * Z) :=
  if negb (wireType =? 0) then wrong_wire name else
  rest ← slice_from data i;
  let '(v, n) := protoDecodeVarint rest in
  if n =? 0 then Err (FmtErr ("bad varint for " +:+ name)) else Ok (v, int64 (i + n)).

Definition len_field (data : bytes) (wireType i : Z) (name : string) : outcome (bytes * Z) :=
  if negb (wireType =? 2) then wrong_wire name else
  rest ← slice_from data i;
  '(b, n) ← readLenDelimited rest;
  Ok (b, int64 (i + n)).

Section Decode.
Context `{SdkMath}.

Definition int_value (name : string) (b : bytes) : outcome Z :=
  wrap_err (fun _ => FmtErr ("failed to unmarshal " +:+ name +:+ ": %w")) (Int_Unmarshal b).

(** The switch given by a table, with [skipProtoField] as its default. *)
Definition table_handler {T} (table : Z -> option (slot T)) (data : bytes) (t : T)
    (fieldNum wireType i : Z) : outcome (T * Z) :=
  match table fieldNum with
  | Some (SVarint name set) =>
      '(v, i') ← varint_field data wireType i name; Ok (set t v, i')
  | Some (SInt name set) =>
      '(b, i') ← len_field data wireType i name;
      v ← int_value name b;
      Ok (set t v, i')
  | Some (SBytes name set) =>
      '(b, i') ← len_field data wireType i name; Ok (set t b, i')
  | Some (SMsg name set) =>
      '(b, i') ← len_field data wireType i name;
      t' ← set t b;
      Ok (t', i')
  | None =>
      rest ← slice_from data i;
      n ← skipProtoField rest wireType;
      Ok (t, int64 (i + n))
  end.

(** ** The four messages read this way *)

Definition legacyTx_table (fieldNum : Z) : option (slot legacyLegacyTx) :=
  match fieldNum with
  | 1 => Some (SVarint "nonce" (fun '(MkLegacyLegacyTx _ p g to a d v r s) x => MkLegacyLegacyTx x p g to a d v r s))
  | 2 => Some (SInt "gas_price" (fun '(MkLegacyLegacyTx n _ g to a d v r s) x => MkLegacyLegacyTx n (Some x) g to a d v r s))
  | 3 => Some (SVarint "gas" (fun '(MkLegacyLegacyTx n p _ to a d v r s) x => MkLegacyLegacyTx n p x to a d v r s))
  | 4 => Some (SBytes "to" (fun '(MkLegacyLegacyTx n p g _ a d v r s) x => MkLegacyLegacyTx n p g (string_of_bytes x) a d v r s))
  | 5 => Some (SInt "amount" (fun '(MkLegacyLegacyTx n p g to _ d v r s) x => MkLegacyLegacyTx n p g to (Some x) d v r s))
  | 6 => Some (SBytes "data" (fun '(MkLegacyLegacyTx n p g to a _ v r s) x => MkLegacyLegacyTx n p g to a x v r s))
  | 7 => Some (SBytes "V" (fun '(MkLegacyLegacyTx n p g to a d _ r s) x => MkLegacyLegacyTx n p g to a d x r s))
  | 8 => Some (SBytes "R" (fun '(MkLegacyLegacyTx n p g to a d v _ s) x => MkLegacyLegacyTx n p g to a d v x s))
  | 9 => Some (SBytes "S" (fun '(MkLegacyLegacyTx n p g to a d v r _) x => MkLegacyLegacyTx n p g to a d v r x))
  | _ => None
  end.

Definition legacyTx_zero : legacyLegacyTx := MkLegacyLegacyTx 0 None 0 "" None [] [] [] [].

Definition unmarshalLegacyTx (data : bytes) : outcome legacyLegacyTx :=
  proto_loop "bad varint at %d" (table_handler legacyTx_table) (length data) data legacyTx_zero 0.

Definition accessTuple_table (fieldNum : Z) : option (slot legacyAccessTuple) :=
  match fieldNum with
  | 1 => Some (SBytes "address" (fun '(MkLegacyAccessTuple _ k) x => MkLegacyAccessTuple (string_of_bytes x) k))
  | 2 => Some (SBytes "storage_keys" (fun '(MkLegacyAccessTuple a k) x => MkLegacyAccessTuple a (k ++ [string_of_bytes x])))
  | _ => None
  end.

Definition unmarshalAccessTuple (data : bytes) : outcome legacyAccessTuple :=
  proto_loop "bad varint in AccessTuple at %d" (table_handler accessTuple_table) (length data) data
    (MkLegacyAccessTuple "" []) 0.

Definition accessListTx_table (fieldNum : Z) : option (slot legacyAccessListTx) :=
  match fieldNum with
  | 1 => Some (SInt "chain_id" (fun '(MkLegacyAccessListTx _ n p g to a d l v r s) x => MkLegacyAccessListTx (Some x) n p g to a d l v r s))
  | 2 => Some (SVarint "nonce" (fun '(MkLegacyAccessListTx c _ p g to a d l v r s) x => MkLegacyAccessListTx c x p g to a d l v r s))
  | 3 => Some (SInt "gas_price" (fun '(MkLegacyAccessListTx c n _ g to a d l v r s) x => MkLegacyAccessListTx c n (Some x) g to a d l v r s))
  | 4 => Some (SVarint "gas" (fun '(MkLegacyAccessListTx c n p _ to a d l v r s) x => MkLegacyAccessListTx c n p x to a d l v r s))
  | 5 => Some (SBytes "to" (fun '(MkLegacyAccessListTx c n p g _ a d l v r s) x => MkLegacyAccessListTx c n p g (string_of_bytes x) a d l v r s))
  | 6 => Some (SInt "amount" (fun '(MkLegacyAccessListTx c n p g to _ d l v r s) x => MkLegacyAccessListTx c n p g to (Some x) d l v r s))
  | 7 => Some (SBytes "data" (fun '(MkLegacyAccessListTx c n p g to a _ l v r s) x => MkLegacyAccessListTx c n p g to a x l v r s))
  | 8 => Some (SMsg "accesses" (fun '(MkLegacyAccessListTx c n p g to a d l v r s) x =>
           at_ ← unmarshalAccessTuple x; Ok (MkLegacyAccessListTx c n p g to a d (l ++ [at_]) v r s)))
  | 9 => Some (SBytes "V" (fun '(MkLegacyAccessListTx c n p g to a d l _ r s) x => MkLegacyAccessListTx c n p g to a d l x r s))
  | 10 => Some (SBytes "R" (fun '(MkLegacyAccessListTx c n p g to a d l v _ s) x => MkLegacyAccessListTx c n p g to a d l v x s))
  | 11 => Some (SBytes "S" (fun '(MkLegacyAccessListTx c n p g to a d l v r _) x => MkLegacyAccessListTx c n p g to a d l v r x))
  | _ => None
  end.

Definition accessListTx_zero : legacyAccessListTx :=
  MkLegacyAccessListTx None 0 None 0 "" None [] [] [] [] [].

Definition unmarshalAccessListTx (data : bytes) : outcome legacyAccessListTx :=
  proto_loop "bad varint at %d" (table_handler accessListTx_table) (length data) data accessListTx_zero 0.

Definition dynamicFeeTx_table (fieldNum : Z) : option (slot legacyDynamicFeeTx) :=
  match fieldNum with
  | 1 => Some (SInt "chain_id" (fun '(MkLegacyDynamicFeeTx _ n t f g to a d l v r s) x => MkLegacyDynamicFeeTx (Some x) n t f g to a d l v r s))
  | 2 => Some (SVarint "nonce" (fun '(MkLegacyDynamicFeeTx c _ t f g to a d l v r s) x => MkLegacyDynamicFeeTx c x t f g to a d l v r s))
  | 3 => Some (SInt "gas_tip_cap" (fun '(MkLegacyDynamicFeeTx c n _ f g to a d l v r s) x => MkLegacyDynamicFeeTx c n (Some x) f g to a d l v r s))
  | 4 => Some (SInt "gas_fee_cap" (fun '(MkLegacyDynamicFeeTx c n t _ g to a d l v r s) x => MkLegacyDynamicFeeTx c n t (Some x) g to a d l v r s))
  | 5 => Some (SVarint "gas" (fun '(MkLegacyDynamicFeeTx c n t f _ to a d l v r s) x => MkLegacyDynamicFeeTx c n t f x to a d l v r s))
  | 6 => Some (SBytes "to" (fun '(MkLegacyDynamicFeeTx c n t f g _ a d l v r s) x => MkLegacyDynamicFeeTx c n t f g (string_of_bytes x) a d l v r s))
  | 7 => Some (SInt "amount" (fun '(MkLegacyDynamicFeeTx c n t f g to _ d l v r s) x => MkLegacyDynamicFeeTx c n t f g to (Some x) d l v r s))
  | 8 => Some (SBytes "data" (fun '(MkLegacyDynamicFeeTx c n t f g to a _ l v r s) x => MkLegacyDynamicFeeTx c n t f g to a x l v r s))
  | 9 => Some (SMsg "accesses" (fun '(MkLegacyDynamicFeeTx c n t f g to a d l v r s) x =>
           at_ ← unmarshalAccessTuple x; Ok (MkLegacyDynamicFeeTx c n t f g to a d (l ++ [at_]) v r s)))
  | 10 => Some (SBytes "V" (fun '(MkLegacyDynamicFeeTx c n t f g to a d l _ r s) x => MkLegacyDynamicFeeTx c n t f g to a d l x r s))
  | 11 => Some (SBytes "R" (fun '(MkLegacyDynamicFeeTx c n t f g to a d l v _ s) x => MkLegacyDynamicFeeTx c n t f g to a d l v x s))
  | 12 => Some (SBytes "S" (fun '(MkLegacyDynamicFeeTx c n t f g to a d l v r _) x => MkLegacyDynamicFeeTx c n t f g to a d l v r x))
  | _ => None
  end.

Definition dynamicFeeTx_zero : legacyDynamicFeeTx :=
  MkLegacyDynamicFeeTx None 0 None None 0 "" None [] [] [] [] [].

Definition unmarshalDynamicFeeTx (data : bytes) : outcome legacyDynamicFeeTx :=
  proto_loop "bad varint at %d" (table_handler dynamicFeeTx_table) (length data) data dynamicFeeTx_zero 0.
End Decode.

(** ** Any and the outer message *)

(** [length, n := protoDecodeVarint(data[i:])] and the bounds after it: the
    index of the value and the index behind it. *)
Definition len_bounds (bad : string) (data : bytes) (i : Z) : outcome (Z * Z) :=
  rest ← slice_from data i;
  let '(length, n) := protoDecodeVarint rest in
  if n =? 0 then Err (FmtErr bad) else
  let i := int64 (i + n) in
  let stop := int64 (i + int64 length) in
  if zlen data <? stop then Err EOFErr else Ok (i, stop).

(** The body of the loop of [unmarshalAny]; a varint that does not end is
    skipped with no bytes, and read again as a tag. *)
Definition any_handler (data : bytes) (any : AnyMsg) (fieldNum wireType i : Z)
    : outcome (AnyMsg * Z) :=
  if negb (wireType =? 2) then
    if wireType =? 0 then
      rest ← slice_from data i;
      let '(_, n) := protoDecodeVarint rest in Ok (any, int64 (i + n))
    else if wireType =? 1 then Ok (any, int64 (i + 8))
    else if wireType =? 5 then Ok (any, int64 (i + 4))
    else Err (FmtErr "unsupported wire type %d in Any")
  else
  '(i, stop) ← len_bounds "bad length in Any at %d" data i;
  any ← (if fieldNum =? 1 then
           b ← slice data i stop; Ok (MkAny (string_of_bytes b) (AnyValue any))
         else if fieldNum =? 2 then
           if stop - i <? 0 then Panic (ExtPanic "makeslice: len out of range") else
           b ← slice data i stop; Ok (MkAny (TypeUrl any) b)
         else Ok any);
  Ok (any, stop).

Definition unmarshalAny (data : bytes) : outcome AnyMsg :=
  proto_loop "bad varint in Any at %d" any_handler (length data) data (MkAny "" []) 0.

(** [binary.LittleEndian.Uint64]. *)
Definition LittleEndian_Uint64 (b : bytes) : Z := Uint64 (rev (take 8 b)).

(** The default case of [unmarshalLegacyMsgEthereumTx], which skips in its own
    words: the index behind the unknown field. *)
Definition skip_unknown (data : bytes) (wireType i : Z) : outcome Z :=
  if wireType =? 0 then
    rest ← slice_from data i;
    let '(_, n) := protoDecodeVarint rest in
    if n =? 0 then Err (FmtErr "bad varint skip at %d") else Ok (int64 (i + n))
  else if wireType =? 1 then Ok (int64 (i + 8))
  else if wireType =? 2 then
    rest ← slice_from data i;
    let '(length, n) := protoDecodeVarint rest in
    if n =? 0 then Err (FmtErr "bad length skip at %d") else Ok (int64 (i + int64 (n + int64 length)))
  else if wireType =? 5 then Ok (int64 (i + 4))
  else Err (FmtErr "unsupported wire type %d").

(** The body of the loop of [unmarshalLegacyMsgEthereumTx]. *)
Definition legacyMsg_handler (data : bytes) (msg : legacyMsgEthereumTx) (fieldNum wireType i : Z)
    : outcome (legacyMsgEthereumTx * Z) :=
  if fieldNum =? 1 then
    if negb (wireType =? 2) then wrong_wire "Data field" else
    '(i, stop) ← len_bounds "bad length for Data" data i;
    b ← slice data i stop;
    any ← wrap_err (fun _ => FmtErr "failed to unmarshal Any: %w") (unmarshalAny b);
    Ok (MkLegacyMsg (Some any) (lm_Size msg) (lm_Hash msg) (lm_From msg), stop)
  else if fieldNum =? 2 then
    if negb (wireType =? 1) then wrong_wire "Size field" else
    if zlen data <? int64 (i + 8) then Err EOFErr else
    b ← slice_from data i;
    Ok (MkLegacyMsg (lm_Data msg) (LittleEndian_Uint64 b) (lm_Hash msg) (lm_From msg), int64 (i + 8))
  else if fieldNum =? 3 then
    if negb (wireType =? 2) then wrong_wire "Hash field" else
    '(i, stop) ← len_bounds "bad length for Hash" data i;
    b ← slice data i stop;
    Ok (MkLegacyMsg (lm_Data msg) (lm_Size msg) (string_of_bytes b) (lm_From msg), stop)
  else if fieldNum =? 4 then
    if negb (wireType =? 2) then wrong_wire "From field" else
    '(i, stop) ← len_bounds "bad length for From" data i;
    b ← slice data i stop;
    Ok (MkLegacyMsg (lm_Data msg) (lm_Size msg) (lm_Hash msg) (string_of_bytes b), stop)
  else
    i ← skip_unknown data wireType i;
    Ok (msg, i).

Definition unmarshalLegacyMsgEthereumTx (data : bytes) : outcome legacyMsgEthereumTx :=
  proto_loop "bad varint at offset %d" legacyMsg_handler (length data) data
    (MkLegacyMsg None 0 "" "") 0.

(** * Conversion to Ethereum transactions *)

(** [ethtypes.AccessTuple] and the three [ethtypes.TxData]. *)
Definition AccessList : Type := list (bytes * list bytes).

Inductive TxData :=
  | EthLegacyTx (Nonce GasPrice Gas : Z) (To : option bytes) (Value : Z) (Data : bytes) (V R S : Z)
  | EthAccessListTx (ChainID Nonce GasPrice Gas : Z) (To : option bytes) (Value : Z) (Data : bytes)
      (al : AccessList) (V R S : Z)
  | EthDynamicFeeTx (ChainID Nonce GasTipCap GasFeeCap Gas : Z) (To : option bytes) (Value : Z)
      (Data : bytes) (al : AccessList) (V R S : Z).

(** go-ethereum and the SDK's transaction configuration. *)
Class EthEnv := {
  EthTx : Type;
  Signer : Type;
  NewTx : TxData -> EthTx;
  ChainId : EthTx -> Z;
  LatestSignerForChainID : Z -> Signer;
  Sender : Signer -> EthTx -> outcome bytes;
  Eth_HexToAddress : string -> bytes;
  HexToHash : string -> bytes;
  SdkTx : Type;
  (** Messages of a decoded transaction: for an Ethereum message whether its raw
      transaction is set, and its sender. *)
  GetMsgs : SdkTx -> list (option (bool * bytes));
  (** [builder.SetMsgs(newMsg)] and [builder.GetTx()] for the message made of
      the transaction and the sender. *)
  BuildTx : EthTx -> bytes -> outcome SdkTx;
  Error_text : error -> string;
}.

Definition sdkIntToBigInt (v : option Z) : Z := match v with None => 0 | Some v => v end.

(** [big.Int.SetBytes]. *)
Definition decodeSigBytes (vb rb sb : bytes) : Z * Z * Z :=
  let set b := if 0 <? zlen b then Uint64 b else 0 in
  (set vb, set rb, set sb).

Section Convert.
Context `{SdkMath} `{EthEnv}.

Definition convertLegacyAccessList (tuples : list legacyAccessTuple) : AccessList :=
  map (fun t => (Eth_HexToAddress (lat_Address t), map HexToHash (lat_StorageKeys t))) tuples.

Definition zero_address : bytes := replicate 20 x00.

(** The sender recovered from the signature when none was given. *)
Definition recover_sender (tx : EthTx) (from : bytes) : outcome bytes :=
  if bool_decide (from = zero_address) then
    catch (Sender (LatestSignerForChainID (ChainId tx)) tx) (fun s => Ok s) (fun _ => Ok from)
  else Ok from.

Definition to_address (to : string) : option bytes :=
  if String.eqb to "" then None else Some (Eth_HexToAddress to).

Definition decodeLegacyTxInner (data from : bytes) : outcome (EthTx * bytes) :=
  lt ← unmarshalLegacyTx data;
  let '(v, r, s) := decodeSigBytes (llt_V lt) (llt_R lt) (llt_S lt) in
  let tx := NewTx (EthLegacyTx (llt_Nonce lt) (sdkIntToBigInt (llt_GasPrice lt)) (llt_GasLimit lt)
              (to_address (llt_To lt)) (sdkIntToBigInt (llt_Amount lt)) (llt_Data lt) v r s) in
  from ← recover_sender tx from;
  Ok (tx, from).

Definition decodeAccessListTxInner (data from : bytes) : outcome (EthTx * bytes) :=
  alt ← unmarshalAccessListTx data;
  let '(v, r, s) := decodeSigBytes (lal_V alt) (lal_R alt) (lal_S alt) in
  let tx := NewTx (EthAccessListTx (sdkIntToBigInt (lal_ChainID alt)) (lal_Nonce alt)
              (sdkIntToBigInt (lal_GasPrice alt)) (lal_GasLimit alt) (to_address (lal_To alt))
              (sdkIntToBigInt (lal_Amount alt)) (lal_Data alt)
              (convertLegacyAccessList (lal_Accesses alt)) v r s) in
  from ← recover_sender tx from;
  Ok (tx, from).

Definition decodeDynamicFeeTxInner (data from : bytes) : outcome (EthTx * bytes) :=
  dft ← unmarshalDynamicFeeTx data;
  let '(v, r, s) := decodeSigBytes (ldf_V dft) (ldf_R dft) (ldf_S dft) in
  let tx := NewTx (EthDynamicFeeTx (sdkIntToBigInt (ldf_ChainID dft)) (ldf_Nonce dft)
              (sdkIntToBigInt (ldf_GasTipCap dft)) (sdkIntToBigInt (ldf_GasFeeCap dft))
              (ldf_GasLimit dft) (to_address (ldf_To dft)) (sdkIntToBigInt (ldf_Amount dft))
              (ldf_Data dft) (convertLegacyAccessList (ldf_Accesses dft)) v r s) in
  from ← recover_sender tx from;
  Ok (tx, from).

Definition LegacyTxURL : string := "/cosmos.evm.vm.v1.LegacyTx".
Definition AccessListTxURL : string := "/cosmos.evm.vm.v1.AccessListTx".
Definition DynamicFeeTxDataURL : string := "/cosmos.evm.vm.v1.DynamicFeeTx".

Definition legacyMsgToEthTransaction (msg : legacyMsgEthereumTx) : outcome (EthTx * bytes) :=
  match lm_Data msg with
  | None => Err (FmtErr "legacy MsgEthereumTx has nil Data")
  | Some data =>
      let from := if String.eqb (lm_From msg) "" then zero_address
                  else Eth_HexToAddress (lm_From msg) in
      if String.eqb (TypeUrl data) LegacyTxURL then decodeLegacyTxInner (AnyValue data) from
      else if String.eqb (TypeUrl data) AccessListTxURL
      then decodeAccessListTxInner (AnyValue data) from
      else if String.eqb (TypeUrl data) DynamicFeeTxDataURL
      then decodeDynamicFeeTxInner (AnyValue data) from
      else Err (FmtErr "unknown legacy tx data type: %s")
  end.

Definition decodeLegacyEthTx (txBytes : bytes) : outcome SdkTx :=
  rawMsgBytes ← wrap_err (fun _ => FmtErr "legacy eth tx: failed to extract msg bytes: %w")
                  (extractMsgAnyValue txBytes);
  legacyMsg ← wrap_err (fun _ => FmtErr "legacy eth tx: failed to decode old format: %w")
                (unmarshalLegacyMsgEthereumTx rawMsgBytes);
  '(ethTx, from) ← wrap_err (fun _ => FmtErr "legacy eth tx: failed to convert: %w")
                     (legacyMsgToEthTransaction legacyMsg);
  wrap_err (fun _ => FmtErr "legacy eth tx: failed to set msgs: %w") (BuildTx ethTx from).

(** [strings.Contains]. *)
Definition Contains (s sub : string) : bool :=
  match String.index 0 sub s with Some _ => true | None => false end.

(** An Ethereum message that lost its fields to the new schema. *)
Definition dropped_fields (m : option (bool * bytes)) : bool :=
  match m with
  | Some (hasRaw, from) => negb hasRaw && (zlen from =? 0)
  | None => false
  end.

Definition LegacyAwareTxDecoder (original : bytes -> outcome SdkTx) (txBytes : bytes)
    : outcome SdkTx :=
  catch (original txBytes)
    (fun tx =>
       if negb (existsb dropped_fields (GetMsgs tx)) then Ok tx else decodeLegacyEthTx txBytes)
    (fun err =>
       if Contains (Error_text err) "MsgEthereumTx" || Contains (Error_text err) "unknown field"
          || Contains (Error_text err) "errUnknownField"
       then decodeLegacyEthTx txBytes
       else Err err).

(** ** The transaction configuration *)

(** [client.TxConfig]; the types of signatures, builders and sign modes are
    parameters. *)
Record TxConfig (SignatureV2 TxBuilder HandlerMap SigningCtx : Type) := MkTxConfig {
  TxDecoder : bytes -> outcome SdkTx;
  TxJSONDecoder : bytes -> outcome SdkTx;
  TxEncoder : SdkTx -> outcome bytes;
  TxJSONEncoder : SdkTx -> outcome bytes;
  MarshalSignatureJSON : list SignatureV2 -> outcome bytes;
  UnmarshalSignatureJSON : bytes -> outcome (list SignatureV2);
  NewTxBuilder : TxBuilder;
  WrapTxBuilder : SdkTx -> outcome TxBuilder;
  SignModeHandler : HandlerMap;
  SigningContext : SigningCtx;
}.
Arguments MkTxConfig {_ _ _ _}.
Arguments TxDecoder {_ _ _ _}.
Arguments TxJSONDecoder {_ _ _ _}.
Arguments TxEncoder {_ _ _ _}.
Arguments TxJSONEncoder {_ _ _ _}.
Arguments MarshalSignatureJSON {_ _ _ _}.
Arguments UnmarshalSignatureJSON {_ _ _ _}.
Arguments NewTxBuilder {_ _ _ _}.
Arguments WrapTxBuilder {_ _ _ _}.
Arguments SignModeHandler {_ _ _ _}.
Arguments SigningContext {_ _ _ _}.

(** [legacyAwareTxConfig] around an inner configuration: both decoders are
    wrapped, the rest is the inner one's. *)
Definition NewLegacyAwareTxConfig {SG TB HM SC} (inner : TxConfig SG TB HM SC)
    : TxConfig SG TB HM SC :=
  {| TxDecoder := LegacyAwareTxDecoder (TxDecoder inner);
     TxJSONDecoder := LegacyAwareTxDecoder (TxJSONDecoder inner);
     TxEncoder := TxEncoder inner;
     TxJSONEncoder := TxJSONEncoder inner;
     MarshalSignatureJSON := MarshalSignatureJSON inner;
     UnmarshalSignatureJSON := UnmarshalSignatureJSON inner;
     NewTxBuilder := NewTxBuilder inner;
     WrapTxBuilder := WrapTxBuilder inner;
     SignModeHandler := SignModeHandler inner;
     SigningContext := SigningContext inner |}.
End Convert.
Arguments MkTxConfig {_ _ _ _ _}.
Arguments TxDecoder {_ _ _ _ _}.
Arguments TxJSONDecoder {_ _ _ _ _}.
Arguments TxEncoder {_ _ _ _ _}.
Arguments TxJSONEncoder {_ _ _ _ _}.
Arguments MarshalSignatureJSON {_ _ _ _ _}.
Arguments UnmarshalSignatureJSON {_ _ _ _ _}.
Arguments NewTxBuilder {_ _ _ _ _}.
Arguments WrapTxBuilder {_ _ _ _ _}.
Arguments SignModeHandler {_ _ _ _ _}.
Arguments SigningContext {_ _ _ _ _}.
