(* ===== verification/LegacyTxProps.v ===== *)
(** The decoders of app/legacy_ethtx.go read back the encodings of the old
    messages: the inner transactions, the Any around them, the old
    [MsgEthereumTx] and the whole Cosmos transaction. *)

From stdpp Require Import base list strings.
From Stdlib Require Import ZArith Lia.
From Stdlib.Init Require Import Byte.
From S2P Require Import Prelude Sdk LockPb LockStore LockSpec LegacyProto LegacyTx.

Local Open Scope Z_scope.

(** * Tables store fields *)

Definition slot_name {T} (s : slot T) : string :=
  match s with SVarint n _ | SInt n _ | SBytes n _ | SMsg n _ => n end.

Section Tables.
Context `{SdkMath}.

(** What a table means for one field of the reference encoding. *)
Definition table_store {T} (table : Z -> option (slot T)) (t : T) (f : field) : outcome T :=
  match table f.1, f.2 with
  | Some (SVarint _ set), WVarint v => Ok (set t v)
  | Some (SInt name set), WLen b => v ← int_value name b; Ok (set t v)
  | Some (SBytes _ set), WLen b => Ok (set t b)
  | Some (SMsg _ set), WLen b => set t b
  | Some s, _ => wrong_wire (slot_name s)
  | None, _ => Ok t
  end.

Lemma varint_field_encode pre v post name :
  0 <= v < 2 ^ 64 -> zlen (pre ++ encodeVarintLock v ++ post) < 2 ^ 62 ->
  varint_field (pre ++ encodeVarintLock v ++ post) 0 (zlen pre) name
    = Ok (v, zlen (pre ++ encodeVarintLock v)).
Proof.
  intros V L. unfold varint_field. cbn [Z.eqb negb]. rewrite slice_from_app. cbn [mbind outcome_bind].
  rewrite protoDecodeVarint_encode by done. pose proof (varint_len v). pose proof (zlen_nonneg pre).
  pose proof (zlen_nonneg post). rewrite !zlen_app in *.
  by rewrite (proj2 (Z.eqb_neq _ _)), int64_small by lia.
Qed.

Lemma len_field_encode pre b post name :
  zlen b < 2 ^ 32 -> zlen (pre ++ (encodeVarintLock (zlen b) ++ b) ++ post) < 2 ^ 62 ->
  len_field (pre ++ (encodeVarintLock (zlen b) ++ b) ++ post) 2 (zlen pre) name
    = Ok (b, zlen (pre ++ encodeVarintLock (zlen b) ++ b)).
Proof.
  intros B L. unfold len_field. cbn [Z.eqb Pos.eqb negb]. rewrite slice_from_app. cbn [mbind outcome_bind].
  rewrite <- app_assoc, readLenDelimited_encode by done. cbn [mbind outcome_bind].
  pose proof (zlen_nonneg pre). pose proof (zlen_nonneg post). pose proof (zlen_nonneg b).
  pose proof (varint_len (zlen b)). rewrite !zlen_app in *. by rewrite int64_small by lia.
Qed.

Lemma skip_encode pre w post num :
  field_ok (num, w) -> zlen (pre ++ encode_wire w ++ post) < 2 ^ 62 ->
  (n ← skipProtoField (encode_wire w ++ post) (wire_type w); Ok (int64 (zlen pre + n)))
    = Ok (zlen (pre ++ encode_wire w)).
Proof.
  intros [_ W] L. cbn [snd] in W. pose proof (zlen_nonneg pre). pose proof (zlen_nonneg post).
  destruct w as [v|b|b|b]; cbn [wire_type encode_wire] in *; unfold skipProtoField;
    cbn [Z.eqb Pos.eqb]; rewrite !zlen_app in *.
  - rewrite protoDecodeVarint_encode by done. pose proof (varint_len v).
    rewrite (proj2 (Z.eqb_neq _ _)) by lia. cbn [mbind outcome_bind]. by rewrite int64_small by lia.
  - cbn [mbind outcome_bind]. unfold zlen in *. rewrite W in *. by rewrite int64_small by lia.
  - pose proof (zlen_nonneg b). rewrite <- app_assoc, protoDecodeVarint_encode by lia.
    pose proof (varint_len (zlen b)). rewrite (proj2 (Z.eqb_neq _ _)) by lia.
    cbn [mbind outcome_bind].
    by rewrite (int64_small (zlen b)), (int64_small (_ + zlen b)), int64_small by lia.
  - cbn [mbind outcome_bind]. unfold zlen in *. rewrite W in *. by rewrite int64_small by lia.
Qed.

(** Every table handles every field of the encoding: known fields are stored,
    unknown ones skipped, wrong wire types refused. *)
Lemma table_handler_spec {T} (table : Z -> option (slot T)) f :
  field_ok f -> handler_spec (table_handler table) (table_store table) f.
Proof.
  destruct f as [num w]. intros O pre post t L. cbn [fst snd] in *.
  unfold table_handler, table_store. cbn [fst snd].
  destruct (table num) as [s|] eqn:Tn.
  - destruct O as [_ O]. cbn [snd] in O.
    destruct s as [name set|name set|name set|name set], w as [v|b|b|b];
      cbn [wire_type encode_wire slot_name] in *; try reflexivity;
      rewrite ?varint_field_encode, ?len_field_encode by done; cbn [mbind outcome_bind]; try done.
    by destruct (int_value name b).
  - rewrite slice_from_app. cbn [mbind outcome_bind].
    pose proof (skip_encode pre w post num O L) as S.
    destruct (skipProtoField _ _); cbn [mbind outcome_bind] in *; congruence.
Qed.

(** So each decoder folds its table over the fields. *)
Lemma table_loop {T} bad (table : Z -> option (slot T)) fs t :
  Forall field_ok fs -> zlen (encode_fields fs) < 2 ^ 62 ->
  proto_loop bad (table_handler table) (length (encode_fields fs)) (encode_fields fs) t 0
    = store_all (table_store table) t fs.
Proof.
  intros O L. apply proto_loop_all; [done| |done].
  eapply Forall_impl; [exact O|]. intros f. apply table_handler_spec.
Qed.

Lemma store_all_app {T} (store : T -> field -> outcome T) t fs gs :
  store_all store t (fs ++ gs) = (t' ← store_all store t fs; store_all store t' gs).
Proof.
  revert t. induction fs as [|f fs IH]; intros t; [done|]. cbn [app store_all].
  destruct (store t f); [|done..]. cbn [mbind outcome_bind]. apply IH.
Qed.

(** * Proto3 fields: zero values are left out *)

Definition opt_varint (num v : Z) : list field := if v =? 0 then [] else [(num, WVarint v)].
Definition opt_bytes (num : Z) (b : bytes) : list field :=
  match b with [] => [] | _ => [(num, WLen b)] end.
Definition opt_int (num : Z) (v : option Z) : list field :=
  match v with
  | Some v => match Int_Marshal v with Ok b => [(num, WLen b)] | _ => [] end
  | None => []
  end.

Context {T : Type} (table : Z -> option (slot T)).

Lemma store_varint num name set t v :
  table num = Some (SVarint name set) -> set t 0 = t ->
  store_all (table_store table) t (opt_varint num v) = Ok (set t v).
Proof.
  intros E Z. unfold opt_varint. destruct (Z.eqb_spec v 0) as [->|]; cbn [store_all].
  - by rewrite Z.
  - unfold table_store. cbn [fst snd]. by rewrite E.
Qed.

Lemma store_bytes num name set t b :
  table num = Some (SBytes name set) -> set t [] = t ->
  store_all (table_store table) t (opt_bytes num b) = Ok (set t b).
Proof.
  intros E Z. destruct b as [|b bs]; cbn [opt_bytes store_all]; [by rewrite Z|].
  unfold table_store. cbn [fst snd]. by rewrite E.
Qed.

Lemma store_int `{!SdkMathLaws} num name set t v :
  table num = Some (SInt name set) -> (forall x, v = Some x -> int_ok x = true) ->
  store_all (table_store table) t (opt_int num v)
    = Ok (match v with Some x => set t x | None => t end).
Proof.
  intros E I. destruct v as [v|]; [|done]. cbn [opt_int].
  destruct (Int_Marshal_spec v (I v eq_refl)) as (b & -> & U & _).
  cbn [store_all]. unfold table_store, int_value. cbn [fst snd]. rewrite E, U. done.
Qed.

Lemma table_store_msg num name set t b :
  table num = Some (SMsg name set) -> table_store table t (num, WLen b) = set t b.
Proof. intros E. unfold table_store. cbn [fst snd]. by rewrite E. Qed.

Lemma table_store_bytes num name set t b :
  table num = Some (SBytes name set) -> table_store table t (num, WLen b) = Ok (set t b).
Proof. intros E. unfold table_store. cbn [fst snd]. by rewrite E. Qed.

Lemma table_store_none t f : table f.1 = None -> table_store table t f = Ok t.
Proof. intros E. unfold table_store. by rewrite E. Qed.

(** A repeated message field appends its elements. *)
Lemma store_messages {A} num name set (dec : bytes -> outcome A) (enc : A -> bytes) add t l :
  table num = Some (SMsg name set) ->
  (forall t b, set t b = (a ← dec b; Ok (add t [a]))) ->
  (forall t l1 l2, add (add t l1) l2 = add t (l1 ++ l2)) -> add t [] = t ->
  Forall (fun a => dec (enc a) = Ok a) l ->
  store_all (table_store table) t (map (fun a => (num, WLen (enc a))) l) = Ok (add t l).
Proof.
  intros E S AA Z D. revert t Z. induction D as [|a l Da D IH]; intros t Z; cbn [map store_all].
  - by rewrite Z.
  - rewrite (table_store_msg _ _ _ _ _ E), S, Da. cbn [mbind outcome_bind].
    rewrite IH by (rewrite AA; by rewrite app_nil_r). by rewrite AA.
Qed.

Lemma store_strings {A} num name set (enc : A -> bytes) add t l :
  table num = Some (SBytes name set) ->
  (forall t a, set t (enc a) = add t [a]) ->
  (forall t l1 l2, add (add t l1) l2 = add t (l1 ++ l2)) -> add t [] = t ->
  store_all (table_store table) t (map (fun a => (num, WLen (enc a))) l) = Ok (add t l).
Proof.
  intros E S AA Z. revert t Z. induction l as [|a l IH]; intros t Z; cbn [map store_all].
  - by rewrite Z.
  - rewrite (table_store_bytes _ _ _ _ _ E), S. cbn [mbind outcome_bind].
    rewrite IH by (rewrite AA; by rewrite app_nil_r). by rewrite AA.
Qed.

(** Fields of other numbers are skipped. *)
Lemma store_unknown t fs :
  Forall (fun f => table f.1 = None) fs -> store_all (table_store table) t fs = Ok t.
Proof.
  intros U. revert t. induction U as [|f fs E U IH]; intros t; [done|].
  cbn [store_all]. rewrite (table_store_none _ _ E). apply IH.
Qed.
End Tables.

(** * The old messages as fields *)

Section Messages.
Context `{SdkMath} `{!SdkMathLaws}.

Definition accessTuple_fields (a : legacyAccessTuple) : list field :=
  opt_bytes 1 (bytes_of_string (lat_Address a)) ++
  map (fun k => (2, WLen (bytes_of_string k))) (lat_StorageKeys a).

Definition access_fields (num : Z) (l : list legacyAccessTuple) : list field :=
  map (fun a => (num, WLen (encode_fields (accessTuple_fields a)))) l.

Definition legacyTx_fields (tx : legacyLegacyTx) : list field :=
  opt_varint 1 (llt_Nonce tx) ++ opt_int 2 (llt_GasPrice tx) ++ opt_varint 3 (llt_GasLimit tx) ++
  opt_bytes 4 (bytes_of_string (llt_To tx)) ++ opt_int 5 (llt_Amount tx) ++
  opt_bytes 6 (llt_Data tx) ++ opt_bytes 7 (llt_V tx) ++ opt_bytes 8 (llt_R tx) ++
  opt_bytes 9 (llt_S tx).

Definition accessListTx_fields (tx : legacyAccessListTx) : list field :=
  opt_int 1 (lal_ChainID tx) ++ opt_varint 2 (lal_Nonce tx) ++ opt_int 3 (lal_GasPrice tx) ++
  opt_varint 4 (lal_GasLimit tx) ++ opt_bytes 5 (bytes_of_string (lal_To tx)) ++
  opt_int 6 (lal_Amount tx) ++ opt_bytes 7 (lal_Data tx) ++ access_fields 8 (lal_Accesses tx) ++
  opt_bytes 9 (lal_V tx) ++ opt_bytes 10 (lal_R tx) ++ opt_bytes 11 (lal_S tx).

Definition dynamicFeeTx_fields (tx : legacyDynamicFeeTx) : list field :=
  opt_int 1 (ldf_ChainID tx) ++ opt_varint 2 (ldf_Nonce tx) ++ opt_int 3 (ldf_GasTipCap tx) ++
  opt_int 4 (ldf_GasFeeCap tx) ++ opt_varint 5 (ldf_GasLimit tx) ++
  opt_bytes 6 (bytes_of_string (ldf_To tx)) ++ opt_int 7 (ldf_Amount tx) ++
  opt_bytes 8 (ldf_Data tx) ++ access_fields 9 (ldf_Accesses tx) ++ opt_bytes 10 (ldf_V tx) ++
  opt_bytes 11 (ldf_R tx) ++ opt_bytes 12 (ldf_S tx).

(** The integers of a message are in range, and its fields small enough to be
    encoded. *)
Definition ints_ok (l : list (option Z)) : Prop :=
  Forall (fun v => match v with Some x => int_ok x = true | None => True end) l.

Lemma ints_ok_cons v l : ints_ok (v :: l) -> (forall x, v = Some x -> int_ok x = true) /\ ints_ok l.
Proof. intros O. apply Forall_cons in O as [V O]. split; [|done]. by intros x ->. Qed.

Definition accesses_ok (l : list legacyAccessTuple) : Prop :=
  Forall (fun a => Forall field_ok (accessTuple_fields a)) l.

(** An encoding that fits in memory. *)
Definition encodable (fs : list field) : Prop :=
  Forall field_ok fs /\ zlen (encode_fields fs) < 2 ^ 62.

Lemma accessTuple_decode a :
  encodable (accessTuple_fields a) ->
  unmarshalAccessTuple (encode_fields (accessTuple_fields a)) = Ok a.
Proof.
  intros [O L]. unfold unmarshalAccessTuple. rewrite table_loop by done.
  destruct a as [addr keys]. unfold accessTuple_fields. cbn [lat_Address lat_StorageKeys].
  rewrite store_all_app. erewrite store_bytes by done. cbn [mbind outcome_bind].
  rewrite string_of_bytes_of_string.
  erewrite (store_strings _ 2 _ _ bytes_of_string
             (fun '(MkLegacyAccessTuple a k) l => MkLegacyAccessTuple a (k ++ l))); [done|done|..].
  - intros [x k] s. by rewrite string_of_bytes_of_string.
  - intros [x k] l1 l2. by rewrite app_assoc.
  - done.
Qed.

Lemma access_fields_decode num l :
  Forall field_ok (access_fields num l) -> accesses_ok l ->
  Forall (fun a => unmarshalAccessTuple (encode_fields (accessTuple_fields a)) = Ok a) l.
Proof.
  intros F A. induction A as [|a l Oa A IH]; constructor.
  - apply Forall_cons in F as [[_ F] _]. cbn [snd] in F. apply accessTuple_decode. split; [done|lia].
  - apply IH. by apply Forall_cons in F as [_ F].
Qed.

(** One field group of a message: stored by the lemma of its kind. *)
Local Ltac store_group :=
  rewrite store_all_app;
  first [ erewrite store_varint by done
        | erewrite store_bytes by done
        | erewrite store_int by done ];
  cbn [mbind outcome_bind].

Lemma legacyTx_decode tx extra :
  encodable (legacyTx_fields tx ++ extra) ->
  ints_ok [llt_GasPrice tx; llt_Amount tx] ->
  Forall (fun f => legacyTx_table f.1 = None) extra ->
  unmarshalLegacyTx (encode_fields (legacyTx_fields tx ++ extra)) = Ok tx.
Proof.
  intros [O L] I X. unfold unmarshalLegacyTx. rewrite table_loop by done.
  apply ints_ok_cons in I as [Ip I]. apply ints_ok_cons in I as [Ia _].
  rewrite store_all_app.
  enough (store_all (table_store legacyTx_table) legacyTx_zero (legacyTx_fields tx) = Ok tx) as ->
    by (by apply store_unknown).
  clear O L. destruct tx as [n [p|] g to [a|] d v r s]; unfold legacyTx_fields, legacyTx_zero;
    cbn [llt_Nonce llt_GasPrice llt_GasLimit llt_To llt_Amount llt_Data llt_V llt_R llt_S] in *;
    do 8 store_group; erewrite store_bytes by done; cbn; by rewrite string_of_bytes_of_string.
Qed.

Lemma accessListTx_decode tx extra :
  encodable (accessListTx_fields tx ++ extra) -> accesses_ok (lal_Accesses tx) ->
  ints_ok [lal_ChainID tx; lal_GasPrice tx; lal_Amount tx] ->
  Forall (fun f => accessListTx_table f.1 = None) extra ->
  unmarshalAccessListTx (encode_fields (accessListTx_fields tx ++ extra)) = Ok tx.
Proof.
  intros [O L] AC I X. unfold unmarshalAccessListTx. rewrite table_loop by done.
  apply ints_ok_cons in I as [Ic I]. apply ints_ok_cons in I as [Ip I].
  apply ints_ok_cons in I as [Ia _].
  rewrite store_all_app.
  enough (store_all (table_store accessListTx_table) accessListTx_zero (accessListTx_fields tx)
            = Ok tx) as -> by (by apply store_unknown).
  apply Forall_app in O as [O _]. unfold accessListTx_fields in O. rewrite !Forall_app in O.
  pose proof (access_fields_decode 8 (lal_Accesses tx) ltac:(tauto) AC) as DA. clear O L X AC.
  destruct tx as [[c|] n [p|] g to [a|] d l v r s]; unfold accessListTx_fields, accessListTx_zero;
    cbn [lal_ChainID lal_Nonce lal_GasPrice lal_GasLimit lal_To lal_Amount lal_Data lal_Accesses
         lal_V lal_R lal_S] in *;
    do 7 store_group; rewrite store_all_app;
    unfold access_fields;
    (erewrite (store_messages _ 8 _ _ unmarshalAccessTuple (fun a => encode_fields (accessTuple_fields a))
      (fun '(MkLegacyAccessListTx c n p g to a d l v r s) l' => MkLegacyAccessListTx c n p g to a d (l ++ l') v r s));
     [|done|by intros [] ?|intros [] l1 l2; by rewrite app_assoc|done|done]);
    cbn [mbind outcome_bind]; do 2 store_group; erewrite store_bytes by done; cbn;
    by rewrite string_of_bytes_of_string.
Qed.

Lemma dynamicFeeTx_decode tx extra :
  encodable (dynamicFeeTx_fields tx ++ extra) -> accesses_ok (ldf_Accesses tx) ->
  ints_ok [ldf_ChainID tx; ldf_GasTipCap tx; ldf_GasFeeCap tx; ldf_Amount tx] ->
  Forall (fun f => dynamicFeeTx_table f.1 = None) extra ->
  unmarshalDynamicFeeTx (encode_fields (dynamicFeeTx_fields tx ++ extra)) = Ok tx.
Proof.
  intros [O L] AC I X. unfold unmarshalDynamicFeeTx. rewrite table_loop by done.
  apply ints_ok_cons in I as [Ic I]. apply ints_ok_cons in I as [It I].
  apply ints_ok_cons in I as [If I]. apply ints_ok_cons in I as [Ia _].
  rewrite store_all_app.
  enough (store_all (table_store dynamicFeeTx_table) dynamicFeeTx_zero (dynamicFeeTx_fields tx)
            = Ok tx) as -> by (by apply store_unknown).
  apply Forall_app in O as [O _]. unfold dynamicFeeTx_fields in O. rewrite !Forall_app in O.
  pose proof (access_fields_decode 9 (ldf_Accesses tx) ltac:(tauto) AC) as DA. clear O L X AC.
  destruct tx as [[c|] n [t|] [f|] g to [a|] d l v r s]; unfold dynamicFeeTx_fields, dynamicFeeTx_zero;
    cbn [ldf_ChainID ldf_Nonce ldf_GasTipCap ldf_GasFeeCap ldf_GasLimit ldf_To ldf_Amount ldf_Data
         ldf_Accesses ldf_V ldf_R ldf_S] in *;
    do 8 store_group; rewrite store_all_app;
    unfold access_fields;
    (erewrite (store_messages _ 9 _ _ unmarshalAccessTuple (fun a => encode_fields (accessTuple_fields a))
      (fun '(MkLegacyDynamicFeeTx c n t f g to a d l v r s) l' => MkLegacyDynamicFeeTx c n t f g to a d (l ++ l') v r s));
     [|done|by intros [] ?|intros [] l1 l2; by rewrite app_assoc|done|done]);
    cbn [mbind outcome_bind]; do 2 store_group; erewrite store_bytes by done; cbn;
    by rewrite string_of_bytes_of_string.
Qed.
End Messages.

(** * Any and the old [MsgEthereumTx] *)

Definition any_store (any : AnyMsg) (f : field) : outcome AnyMsg :=
  match f with
  | (1, WLen b) => Ok (MkAny (string_of_bytes b) (AnyValue any))
  | (2, WLen b) => Ok (MkAny (TypeUrl any) b)
  | _ => Ok any
  end.

Lemma len_bounds_encode bad pre b post :
  zlen b < 2 ^ 32 -> zlen (pre ++ (encodeVarintLock (zlen b) ++ b) ++ post) < 2 ^ 62 ->
  len_bounds bad (pre ++ (encodeVarintLock (zlen b) ++ b) ++ post) (zlen pre)
    = Ok (zlen (pre ++ encodeVarintLock (zlen b)), zlen (pre ++ encodeVarintLock (zlen b) ++ b)).
Proof.
  intros B L. unfold len_bounds. rewrite slice_from_app. cbn [mbind outcome_bind].
  pose proof (zlen_nonneg pre). pose proof (zlen_nonneg post). pose proof (zlen_nonneg b).
  pose proof (varint_len (zlen b)). rewrite <- app_assoc, protoDecodeVarint_encode by lia.
  rewrite !zlen_app in *. rewrite (proj2 (Z.eqb_neq _ _)) by lia.
  rewrite (int64_small (zlen b)), (int64_small (zlen pre + _)), int64_small by lia.
  rewrite (proj2 (Z.ltb_ge _ _)) by lia. f_equal. f_equal. lia.
Qed.

Lemma slice_value pre b post :
  slice (pre ++ (encodeVarintLock (zlen b) ++ b) ++ post)
    (zlen (pre ++ encodeVarintLock (zlen b))) (zlen (pre ++ encodeVarintLock (zlen b) ++ b)) = Ok b.
Proof.
  rewrite <- app_assoc, (app_assoc pre). apply slice_mid; rewrite !zlen_app; lia.
Qed.

Lemma any_handler_spec f : field_ok f -> handler_spec any_handler any_store f.
Proof.
  destruct f as [num w]. intros [N O] pre post t L. cbn [fst snd] in *. unfold any_handler.
  pose proof (zlen_nonneg pre). pose proof (zlen_nonneg post).
  destruct w as [v|b|b|b]; cbn [wire_type encode_wire Z.eqb Pos.eqb negb] in *.
  - rewrite slice_from_app. cbn [mbind outcome_bind]. rewrite protoDecodeVarint_encode by done.
    pose proof (varint_len v). rewrite !zlen_app in *. rewrite int64_small by lia.
    by destruct num as [|[[]|[]|]|]. 
  - rewrite !zlen_app in *. assert (zlen b = 8) as E by (unfold zlen; by rewrite O).
    rewrite E in *. rewrite int64_small by lia. by destruct num as [|[[]|[]|]|].
  - rewrite len_bounds_encode by done. cbn [mbind outcome_bind].
    destruct (Z.eqb_spec num 1) as [->|N1].
    + rewrite slice_value. done.
    + destruct (Z.eqb_spec num 2) as [->|N2].
      * rewrite (proj2 (Z.ltb_ge _ _)) by (rewrite !zlen_app; pose proof (zlen_nonneg b); lia).
        rewrite slice_value. done.
      * by destruct num as [|[[]|[]|]|].
  - rewrite !zlen_app in *. assert (zlen b = 4) as E by (unfold zlen; by rewrite O).
    rewrite E in *. rewrite int64_small by lia. by destruct num as [|[[]|[]|]|].
Qed.

Definition any_fields (a : AnyMsg) : list field :=
  opt_bytes 1 (bytes_of_string (TypeUrl a)) ++ opt_bytes 2 (AnyValue a).

Lemma any_decode a :
  encodable (any_fields a) -> unmarshalAny (encode_fields (any_fields a)) = Ok a.
Proof.
  intros [O L]. unfold unmarshalAny. rewrite (proto_loop_all _ _ any_store); [|done| |done].
  - destruct a as [url v]. unfold any_fields. cbn [TypeUrl AnyValue]. rewrite store_all_app.
    rewrite <- (string_of_bytes_of_string url) at 2.
    destruct (bytes_of_string url), v; done.
  - eapply Forall_impl; [exact O|]. apply any_handler_spec.
Qed.

(** One field of the old message. *)
Definition msg_store (msg : legacyMsgEthereumTx) (f : field) : outcome legacyMsgEthereumTx :=
  match f with
  | (1, WLen b) =>
      any ← wrap_err (fun _ => FmtErr "failed to unmarshal Any: %w") (unmarshalAny b);
      Ok (MkLegacyMsg (Some any) (lm_Size msg) (lm_Hash msg) (lm_From msg))
  | (2, WFixed64 b) => Ok (MkLegacyMsg (lm_Data msg) (LittleEndian_Uint64 b) (lm_Hash msg) (lm_From msg))
  | (3, WLen b) => Ok (MkLegacyMsg (lm_Data msg) (lm_Size msg) (string_of_bytes b) (lm_From msg))
  | (4, WLen b) => Ok (MkLegacyMsg (lm_Data msg) (lm_Size msg) (lm_Hash msg) (string_of_bytes b))
  | (1, _) => wrong_wire "Data field"
  | (2, _) => wrong_wire "Size field"
  | (3, _) => wrong_wire "Hash field"
  | (4, _) => wrong_wire "From field"
  | _ => Ok msg
  end.

Lemma msg_store_other msg num w :
  num <> 1 -> num <> 2 -> num <> 3 -> num <> 4 -> msg_store msg (num, w) = Ok msg.
Proof. intros. by destruct num as [|[[|[]|]|[[]|[]|]|]|]. Qed.

Lemma LittleEndian_app b post : length b = 8%nat -> LittleEndian_Uint64 (b ++ post) = LittleEndian_Uint64 b.
Proof. intros L. unfold LittleEndian_Uint64. by rewrite take_app_le, !take_ge by lia. Qed.

Lemma skip_unknown_encode pre w post num :
  field_ok (num, w) -> zlen (pre ++ encode_wire w ++ post) < 2 ^ 62 ->
  skip_unknown (pre ++ encode_wire w ++ post) (wire_type w) (zlen pre)
    = Ok (zlen (pre ++ encode_wire w)).
Proof.
  intros O L. rewrite <- (skip_encode pre w post num O L).
  unfold skip_unknown, skipProtoField. destruct O as [_ O]. cbn [snd] in O.
  destruct w as [v|b|b|b]; cbn [wire_type encode_wire Z.eqb Pos.eqb mbind outcome_bind] in *; try done;
    rewrite slice_from_app; cbn [mbind outcome_bind].
  - rewrite protoDecodeVarint_encode by done. pose proof (varint_len v).
    by rewrite (proj2 (Z.eqb_neq _ _)) by lia.
  - pose proof (zlen_nonneg b). pose proof (varint_len (zlen b)).
    rewrite <- app_assoc, protoDecodeVarint_encode by lia.
    by rewrite (proj2 (Z.eqb_neq _ _)) by lia.
Qed.

Lemma legacyMsg_handler_spec f : field_ok f -> handler_spec legacyMsg_handler msg_store f.
Proof.
  destruct f as [num w]. intros O pre post t L. pose proof O as [_ O']. cbn [fst snd] in *.
  unfold legacyMsg_handler.
  destruct (Z.eqb_spec num 1) as [->|N1]; [|destruct (Z.eqb_spec num 2) as [->|N2];
    [|destruct (Z.eqb_spec num 3) as [->|N3]; [|destruct (Z.eqb_spec num 4) as [->|N4]]]].
  - destruct w as [v|b|b|b]; cbn [wire_type encode_wire Z.eqb Pos.eqb negb] in *; try done.
    rewrite len_bounds_encode by done. cbn [mbind outcome_bind]. rewrite slice_value.
    cbn [mbind outcome_bind msg_store]. by destruct (unmarshalAny b).
  - destruct w as [v|b|b|b]; cbn [wire_type encode_wire Z.eqb Pos.eqb negb] in *; try done.
    rewrite slice_from_app. assert (zlen b = 8) as E by (unfold zlen; by rewrite O').
    pose proof (zlen_nonneg pre). pose proof (zlen_nonneg post).
    rewrite !zlen_app in *. rewrite E in *.
    rewrite int64_small, (proj2 (Z.ltb_ge _ _)) by lia. cbn [mbind outcome_bind msg_store].
    by rewrite LittleEndian_app.
  - destruct w as [v|b|b|b]; cbn [wire_type encode_wire Z.eqb Pos.eqb negb] in *; try done.
    rewrite len_bounds_encode by done. cbn [mbind outcome_bind]. by rewrite slice_value.
  - destruct w as [v|b|b|b]; cbn [wire_type encode_wire Z.eqb Pos.eqb negb] in *; try done.
    rewrite len_bounds_encode by done. cbn [mbind outcome_bind]. by rewrite slice_value.
  - rewrite msg_store_other by done. by rewrite (skip_unknown_encode pre w post num).
Qed.

(** The old message as fields; the size is the little-endian double. *)
Definition opt_any (num : Z) (a : option AnyMsg) : list field :=
  match a with Some a => [(num, WLen (encode_fields (any_fields a)))] | None => [] end.
Definition opt_fixed64 (num v : Z) : list field :=
  if v =? 0 then [] else [(num, WFixed64 (rev (PutUint64 v)))].

Definition legacyMsg_fields (m : legacyMsgEthereumTx) : list field :=
  opt_any 1 (lm_Data m) ++ opt_fixed64 2 (lm_Size m) ++
  opt_bytes 3 (bytes_of_string (lm_Hash m)) ++ opt_bytes 4 (bytes_of_string (lm_From m)).

Lemma LittleEndian_PutUint64 v : 0 <= v < 2 ^ 64 -> LittleEndian_Uint64 (rev (PutUint64 v)) = v.
Proof.
  intros V. unfold LittleEndian_Uint64.
  rewrite take_ge by (rewrite length_rev, PutUint64_length; lia).
  rewrite rev_involutive. by apply Uint64_PutUint64.
Qed.

Lemma legacyMsg_decode m :
  encodable (legacyMsg_fields m) -> 0 <= lm_Size m < 2 ^ 64 ->
  (forall a, lm_Data m = Some a -> Forall field_ok (any_fields a)) ->
  unmarshalLegacyMsgEthereumTx (encode_fields (legacyMsg_fields m)) = Ok m.
Proof.
  intros [O L] S A. unfold unmarshalLegacyMsgEthereumTx.
  rewrite (proto_loop_all _ _ msg_store); [|done| |done].
  2:{ eapply Forall_impl; [exact O|]. apply legacyMsg_handler_spec. }
  clear L. destruct m as [d z h fr]. unfold legacyMsg_fields in *. cbn [lm_Data lm_Size lm_Hash lm_From] in *.
  rewrite !Forall_app in O. destruct O as [OD _]. rewrite store_all_app.
  assert (store_all msg_store (MkLegacyMsg None 0 "" "") (opt_any 1 d)
          = Ok (MkLegacyMsg d 0 "" "")) as ->.
  { destruct d as [a|]; [|done]. cbn [opt_any store_all msg_store].
    apply Forall_cons in OD as [[_ OD] _]. cbn [snd] in OD.
    rewrite any_decode by (split; [by apply A|lia]). done. }
  cbn [mbind outcome_bind]. rewrite store_all_app.
  assert (store_all msg_store (MkLegacyMsg d 0 "" "") (opt_fixed64 2 z)
          = Ok (MkLegacyMsg d z "" "")) as ->.
  { unfold opt_fixed64. destruct (Z.eqb_spec z 0) as [->|]; [done|]. cbn [store_all msg_store mbind outcome_bind].
    rewrite LittleEndian_PutUint64 by done. done. }
  cbn [mbind outcome_bind]. rewrite store_all_app.
  replace (MkLegacyMsg d z h fr)
    with (MkLegacyMsg d z (string_of_bytes (bytes_of_string h)) (string_of_bytes (bytes_of_string fr)))
    by (by rewrite !string_of_bytes_of_string).
  by destruct (bytes_of_string h), (bytes_of_string fr).
Qed.

(** * From the bytes of a transaction to its Ethereum transaction *)

Inductive legacyData :=
  | OldLegacyTx (tx : legacyLegacyTx)
  | OldAccessListTx (tx : legacyAccessListTx)
  | OldDynamicFeeTx (tx : legacyDynamicFeeTx).

Section Pipeline.
Context `{SdkMath} `{!SdkMathLaws} `{EthEnv}.

Definition data_fields (d : legacyData) : list field :=
  match d with
  | OldLegacyTx tx => legacyTx_fields tx
  | OldAccessListTx tx => accessListTx_fields tx
  | OldDynamicFeeTx tx => dynamicFeeTx_fields tx
  end.

Definition data_any (d : legacyData) : AnyMsg :=
  MkAny match d with
        | OldLegacyTx _ => LegacyTxURL
        | OldAccessListTx _ => AccessListTxURL
        | OldDynamicFeeTx _ => DynamicFeeTxDataURL
        end (encode_fields (data_fields d)).

Definition data_ok (d : legacyData) : Prop :=
  encodable (data_fields d) /\
  match d with
  | OldLegacyTx tx => ints_ok [llt_GasPrice tx; llt_Amount tx]
  | OldAccessListTx tx =>
      ints_ok [lal_ChainID tx; lal_GasPrice tx; lal_Amount tx] /\ accesses_ok (lal_Accesses tx)
  | OldDynamicFeeTx tx =>
      ints_ok [ldf_ChainID tx; ldf_GasTipCap tx; ldf_GasFeeCap tx; ldf_Amount tx] /\
      accesses_ok (ldf_Accesses tx)
  end.

(** The Ethereum transaction a message stands for: signature values are
    big-endian integers, missing amounts are zero. *)
Definition eth_data (d : legacyData) : TxData :=
  match d with
  | OldLegacyTx tx =>
      EthLegacyTx (llt_Nonce tx) (default 0 (llt_GasPrice tx)) (llt_GasLimit tx)
        (to_address (llt_To tx)) (default 0 (llt_Amount tx)) (llt_Data tx)
        (Uint64 (llt_V tx)) (Uint64 (llt_R tx)) (Uint64 (llt_S tx))
  | OldAccessListTx tx =>
      EthAccessListTx (default 0 (lal_ChainID tx)) (lal_Nonce tx) (default 0 (lal_GasPrice tx))
        (lal_GasLimit tx) (to_address (lal_To tx)) (default 0 (lal_Amount tx)) (lal_Data tx)
        (convertLegacyAccessList (lal_Accesses tx))
        (Uint64 (lal_V tx)) (Uint64 (lal_R tx)) (Uint64 (lal_S tx))
  | OldDynamicFeeTx tx =>
      EthDynamicFeeTx (default 0 (ldf_ChainID tx)) (ldf_Nonce tx) (default 0 (ldf_GasTipCap tx))
        (default 0 (ldf_GasFeeCap tx)) (ldf_GasLimit tx) (to_address (ldf_To tx))
        (default 0 (ldf_Amount tx)) (ldf_Data tx) (convertLegacyAccessList (ldf_Accesses tx))
        (Uint64 (ldf_V tx)) (Uint64 (ldf_R tx)) (Uint64 (ldf_S tx))
  end.

(** The sender: the one the message names, or the one that signed. *)
Definition legacy_sender (tx : EthTx) (from : string) (sender : bytes) : Prop :=
  (from <> "" /\ Eth_HexToAddress from = sender /\ sender <> zero_address) \/
  (from = "" /\ Sender (LatestSignerForChainID (ChainId tx)) tx = Ok sender).

Lemma decodeSigBytes_eq v r s : decodeSigBytes v r s = (Uint64 v, Uint64 r, Uint64 s).
Proof.
  unfold decodeSigBytes. assert (forall b, (if 0 <? zlen b then Uint64 b else 0) = Uint64 b) as E.
  { by intros []. }
  by rewrite !E.
Qed.

Lemma sdkIntToBigInt_eq v : sdkIntToBigInt v = default 0 v.
Proof. by destruct v. Qed.

Local Ltac big_ints :=
  repeat match goal with |- context [sdkIntToBigInt ?v] => rewrite (sdkIntToBigInt_eq v) end.

Lemma recover_sender_legacy tx from sender :
  legacy_sender tx from sender ->
  recover_sender tx (if String.eqb from "" then zero_address else Eth_HexToAddress from) = Ok sender.
Proof.
  unfold recover_sender. intros [(N & E & Z)|[-> E]].
  - rewrite (proj2 (String.eqb_neq _ _)) by done. rewrite E. by rewrite bool_decide_false.
  - cbn [String.eqb]. rewrite bool_decide_true by done. by rewrite E.
Qed.

(** The inner transaction, read by the decoder its type URL selects. *)
Lemma legacyMsgToEthTransaction_data d size hash from sender :
  data_ok d -> legacy_sender (NewTx (eth_data d)) from sender ->
  legacyMsgToEthTransaction (MkLegacyMsg (Some (data_any d)) size hash from)
    = Ok (NewTx (eth_data d), sender).
Proof.
  intros [O D] S. apply recover_sender_legacy in S.
  unfold legacyMsgToEthTransaction, data_any. cbn [lm_Data lm_From TypeUrl AnyValue].
  set (addr := if String.eqb from "" then _ else _) in *.
  destruct d as [tx|tx|tx]; cbn [data_fields eth_data] in *.
  - unfold decodeLegacyTxInner. pose proof (legacyTx_decode tx []) as R. rewrite app_nil_r in R.
    cbn [String.eqb Ascii.eqb Bool.eqb LegacyTxURL]. rewrite R by done. cbn [mbind outcome_bind].
    rewrite decodeSigBytes_eq. big_ints. by rewrite S.
  - unfold decodeAccessListTxInner. pose proof (accessListTx_decode tx []) as R. rewrite app_nil_r in R.
    cbn [String.eqb Ascii.eqb Bool.eqb LegacyTxURL AccessListTxURL]. destruct D as [D1 D2].
    rewrite R by done. cbn [mbind outcome_bind].
    rewrite decodeSigBytes_eq. big_ints. by rewrite S.
  - unfold decodeDynamicFeeTxInner. pose proof (dynamicFeeTx_decode tx []) as R. rewrite app_nil_r in R.
    cbn [String.eqb Ascii.eqb Bool.eqb LegacyTxURL AccessListTxURL DynamicFeeTxDataURL].
    destruct D as [D1 D2]. rewrite R by done. cbn [mbind outcome_bind].
    rewrite decodeSigBytes_eq. big_ints. by rewrite S.
Qed.

(** The bytes of a Cosmos transaction around an old message. *)
Definition legacy_any (msg_url : string) (m : legacyMsgEthereumTx) : list field :=
  [(1, WLen (bytes_of_string msg_url)); (2, WLen (encode_fields (legacyMsg_fields m)))].
Definition legacy_body (msg_url : string) (m : legacyMsgEthereumTx) (rest : list field) : list field :=
  (1, WLen (encode_fields (legacy_any msg_url m))) :: rest.
Definition legacy_tx (msg_url : string) (m : legacyMsgEthereumTx) (body_rest tx_rest : list field)
    : list field :=
  (1, WLen (encode_fields (legacy_body msg_url m body_rest))) :: tx_rest.

(** Everything in it can be encoded. *)
Definition legacy_tx_ok (msg_url : string) (m : legacyMsgEthereumTx) (body_rest tx_rest : list field)
    : Prop :=
  encodable (legacy_tx msg_url m body_rest tx_rest) /\
  Forall field_ok (legacy_body msg_url m body_rest) /\ Forall field_ok (legacy_any msg_url m) /\
  Forall field_ok (legacyMsg_fields m) /\ 0 <= lm_Size m < 2 ^ 64 /\
  (forall a, lm_Data m = Some a -> Forall field_ok (any_fields a)).

Lemma decodeLegacyEthTx_data d size hash from sender msg_url body_rest tx_rest :
  let m := MkLegacyMsg (Some (data_any d)) size hash from in
  data_ok d -> legacy_tx_ok msg_url m body_rest tx_rest ->
  legacy_sender (NewTx (eth_data d)) from sender ->
  decodeLegacyEthTx (encode_fields (legacy_tx msg_url m body_rest tx_rest))
    = wrap_err (fun _ => FmtErr "legacy eth tx: failed to set msgs: %w")
        (BuildTx (NewTx (eth_data d)) sender).
Proof.
  intros m D ((OT & LT) & OB & OA & OM & Z & A) S. unfold decodeLegacyEthTx.
  pose proof (extractMsgAnyValue_encode (bytes_of_string msg_url) (encode_fields (legacyMsg_fields m))
    [] body_rest tx_rest OA OB OT LT) as V.
  change (extractMsgAnyValue (encode_fields (legacy_tx msg_url m body_rest tx_rest))
    = Ok (encode_fields (legacyMsg_fields m))) in V. rewrite V.
  cbn [wrap_err mbind outcome_bind].
  unfold legacy_any in OA. rewrite !Forall_cons in OA. destruct OA as (_ & [_ OA] & _).
  cbn [snd] in OA. rewrite legacyMsg_decode by first [done | split; [done|lia]]. cbn [wrap_err mbind outcome_bind].
  unfold m. by rewrite (legacyMsgToEthTransaction_data d size hash from sender) by done.
Qed.

(** What the decoder of the message makes of the bytes. *)
Definition reads_back (d : legacyData) (bz : bytes) : Prop :=
  match d with
  | OldLegacyTx tx => unmarshalLegacyTx bz = Ok tx
  | OldAccessListTx tx => unmarshalAccessListTx bz = Ok tx
  | OldDynamicFeeTx tx => unmarshalDynamicFeeTx bz = Ok tx
  end.

(** The numbers of the fields of a message. *)
Definition data_field (d : legacyData) (num : Z) : bool :=
  match d with
  | OldLegacyTx _ => (1 <=? num) && (num <=? 9)
  | OldAccessListTx _ => (1 <=? num) && (num <=? 11)
  | OldDynamicFeeTx _ => (1 <=? num) && (num <=? 12)
  end.

Lemma tables_unknown num :
  ((1 <=? num) && (num <=? 9) = false -> legacyTx_table num = None) /\
  ((1 <=? num) && (num <=? 11) = false -> accessListTx_table num = None) /\
  ((1 <=? num) && (num <=? 12) = false -> dynamicFeeTx_table num = None).
Proof.
  destruct (decide (1 <= num <= 12)) as [B|B].
  - repeat split; intros E;
      (destruct (decide (num = 10)) as [->|]; [try done|]);
      (destruct (decide (num = 11)) as [->|]; [try done|]);
      (destruct (decide (num = 12)) as [->|]; [done|]); lia.
  - repeat split; intros _; destruct num as [|p|p]; try done;
      do 4 (destruct p as [p|p|]; try done; try lia).
Qed.

(** The inner transactions of the old schema (LegacyTx, AccessListTx and
    DynamicFeeTx, access lists included), with fields at their zero value left
    out and any fields of unknown numbers added, are decoded to themselves. *)
Theorem legacy_data_roundtrip d extra :
  encodable (data_fields d ++ extra) -> data_ok d ->
  Forall (fun f => data_field d f.1 = false) extra ->
  reads_back d (encode_fields (data_fields d ++ extra)).
Proof.
  intros O [_ D] X. destruct d as [tx|tx|tx]; cbn [reads_back data_fields data_field] in *.
  - apply legacyTx_decode; [done..|]. eapply Forall_impl; [exact X|]. intros f. apply tables_unknown.
  - destruct D. apply accessListTx_decode; [done..|].
    eapply Forall_impl; [exact X|]. intros f. apply tables_unknown.
  - destruct D. apply dynamicFeeTx_decode; [done..|].
    eapply Forall_impl; [exact X|]. intros f. apply tables_unknown.
Qed.

(** C32 The wrapping decoder converts old transactions: when the decoder it wraps
    returns an Ethereum message without content, or an error about unknown
    fields, on the encoding of an old message, the result is the transaction
    built from the Ethereum transaction with the same content, sent by the named
    sender or by the signer when none is named. *)
Theorem LegacyAwareTxDecoder_converts original d size hash from sender msg_url body_rest tx_rest new :
  let m := MkLegacyMsg (Some (data_any d)) size hash from in
  let txBytes := encode_fields (legacy_tx msg_url m body_rest tx_rest) in
  (exists tx, original txBytes = Ok tx /\ existsb dropped_fields (GetMsgs tx) = true) \/
  (exists err, original txBytes = Err err /\ Contains (Error_text err) "unknown field" = true) ->
  data_ok d -> legacy_tx_ok msg_url m body_rest tx_rest ->
  legacy_sender (NewTx (eth_data d)) from sender ->
  BuildTx (NewTx (eth_data d)) sender = Ok new ->
  LegacyAwareTxDecoder original txBytes = Ok new.
Proof.
  intros m txBytes O D OK S B.
  pose proof (decodeLegacyEthTx_data d size hash from sender msg_url body_rest tx_rest D OK S) as E.
  fold m in E. fold txBytes in E. rewrite B in E. unfold LegacyAwareTxDecoder.
  destruct O as [(tx & -> & N)|(err & -> & C)]; cbn [catch].
  - by rewrite N.
  - by rewrite C, orb_true_r.
Qed.

(** The wrapping decoder changes nothing else: a decoded transaction
    whose Ethereum messages all have content is returned as it is, and so is an
    error that does not speak of unknown fields or of MsgEthereumTx. *)
Theorem LegacyAwareTxDecoder_transparent original txBytes :
  (forall tx, original txBytes = Ok tx ->
     (forall hasRaw from, In (Some (hasRaw, from)) (GetMsgs tx) -> hasRaw = true \/ from <> []) ->
     LegacyAwareTxDecoder original txBytes = Ok tx) /\
  (forall err, original txBytes = Err err ->
     Forall (fun s => Contains (Error_text err) s = false)
       ["MsgEthereumTx"; "unknown field"; "errUnknownField"] ->
     LegacyAwareTxDecoder original txBytes = Err err).
Proof.
  unfold LegacyAwareTxDecoder. split.
  - intros tx -> F. cbn [catch].
    assert (existsb dropped_fields (GetMsgs tx) = false) as ->; [|done].
    apply not_true_iff_false. intros E. apply existsb_exists in E as ([[raw from]|] & I & E); [|done].
    cbn [dropped_fields] in E. apply andb_true_iff in E as [R Z].
    destruct (F _ _ I) as [->|N]; [done|]. by destruct from.
  - intros err -> F. cbn [catch]. rewrite !Forall_cons in F.
    by destruct F as (-> & -> & -> & _).
Qed.

(** The JSON decoder of the wrapped configuration never converts an old
    transaction: a text that starts with an opening brace is not protobuf, so
    where the inner decoder drops fields or meets unknown ones the outcome is
    the extraction error. *)
Theorem json_decoder_never_converts {SG TB HM SC} (inner : TxConfig SG TB HM SC) rest :
  let text := x7b :: rest in
  (exists tx, TxJSONDecoder inner text = Ok tx /\ existsb dropped_fields (GetMsgs tx) = true) \/
  (exists err, TxJSONDecoder inner text = Err err /\
     Contains (Error_text err) "unknown field" = true) ->
  TxJSONDecoder (NewLegacyAwareTxConfig inner) text
    = Err (FmtErr "legacy eth tx: failed to extract msg bytes: %w").
Proof.
  intros text O.
  assert (decodeLegacyEthTx text
    = Err (FmtErr "legacy eth tx: failed to extract msg bytes: %w")) as E.
  { unfold decodeLegacyEthTx, extractMsgAnyValue, extractProtoField, read_field_tag, text.
    cbn [length extract_loop]. unfold read_field_tag.
    pose proof (slice_from_app [] (x7b :: rest)) as F.
    change (slice_from (x7b :: rest) 0 = Ok (x7b :: rest)) in F. by rewrite F. }
  cbn [NewLegacyAwareTxConfig TxJSONDecoder]. unfold LegacyAwareTxDecoder.
  destruct O as [(tx & -> & N)|(err & -> & C)]; cbn [catch].
  - by rewrite N.
  - by rewrite C, orb_true_r.
Qed.
End Pipeline.
