(* ===== verification/LegacyRuns.v ===== *)
(** Concrete old transactions through the decoders of app/legacy_ethtx.go. *)

From stdpp Require Import base list strings.
From Stdlib Require Import ZArith Lia.
From Stdlib.Init Require Import Byte.
From S2P Require Import Prelude Sdk LockPb LockStore Testnet LegacyProto LegacyTx LegacyTxProps.

Local Open Scope Z_scope.

(** * An Ethereum library for the runs *)

(** Transactions are their data; the signer of a transaction without a sender
    is one fixed address; addresses are the first 20 bytes of the text. *)
Module ToyEth.
Definition pad (n : nat) (s : string) : bytes := take n (bytes_of_string s ++ replicate n x00).

Definition chain_of (tx : TxData) : Z :=
  match tx with
  | EthLegacyTx _ _ _ _ _ _ _ _ _ => 0
  | EthAccessListTx c _ _ _ _ _ _ _ _ _ _ => c
  | EthDynamicFeeTx c _ _ _ _ _ _ _ _ _ _ _ => c
  end.

Definition signer : bytes := replicate 20 x07.

#[export] Instance toy_eth : EthEnv := {
  EthTx := TxData;
  Signer := Z;
  NewTx tx := tx;
  ChainId := chain_of;
  LatestSignerForChainID c := c;
  Sender _ _ := Ok signer;
  Eth_HexToAddress := pad 20;
  HexToHash := pad 32;
  SdkTx := option (TxData * bytes);
  GetMsgs tx := match tx with
                | Some (_, from) => [Some (true, from)]
                | None => [Some (false, [])]
                end;
  BuildTx tx from := Ok (Some (tx, from));
  Error_text e := match e with FmtErr s => s | _ => "other" end;
}.
End ToyEth.
Import Toy ToyEth.

(** * Deciding encodability *)

Definition field_okb (f : field) : bool :=
  (1 <=? f.1) && (f.1 <? 2 ^ 29) &&
  match f.2 with
  | WVarint v => (0 <=? v) && (v <? 2 ^ 64)
  | WFixed64 b => bool_decide (length b = 8%nat)
  | WLen b => zlen b <? 2 ^ 32
  | WFixed32 b => bool_decide (length b = 4%nat)
  end.

Lemma field_okb_ok f : field_okb f = true -> field_ok f.
Proof.
  unfold field_okb, field_ok. intros E. apply andb_prop in E as [E1 E2]. apply andb_prop in E1 as [E1 E3].
  split; [lia|]. destruct f.2; [lia|by apply bool_decide_eq_true_1 in E2|lia|by apply bool_decide_eq_true_1 in E2].
Qed.

Lemma fields_okb_ok fs : forallb field_okb fs = true -> Forall field_ok fs.
Proof.
  intros E. apply Forall_forall. intros f I. apply field_okb_ok.
  rewrite forallb_forall in E. apply E. by apply list_elem_of_In.
Qed.

Definition encodableb (fs : list field) : bool :=
  forallb field_okb fs && (zlen (encode_fields fs) <? 2 ^ 62).

Lemma encodableb_ok fs : encodableb fs = true -> encodable fs.
Proof.
  intros E. apply andb_prop in E as [E1 E2]. split; [by apply fields_okb_ok|lia].
Qed.

(** * The transactions *)

Definition old_tuple : legacyAccessTuple := MkLegacyAccessTuple "0xabc" ["k1"; "k2"].
Definition old_legacy : legacyLegacyTx :=
  MkLegacyLegacyTx 300 (Some 7) 21000 "0xto" (Some 0) [x01; x02] [x1b] [x11; x22] [x33].
Definition old_access : legacyAccessListTx :=
  MkLegacyAccessListTx (Some 8878) 1 (Some 7) 21000 "" None [] [old_tuple; MkLegacyAccessTuple "" []]
    [x01] [x11] [x33].
Definition old_dynamic : legacyDynamicFeeTx :=
  MkLegacyDynamicFeeTx (Some 8878) 9 (Some 1) (Some 30) 50000 "0xto" (Some 5) [x05] [old_tuple]
    [] [x11] [x33].
(** Unknown fields of every wire type. *)
Definition unknown : list field :=
  [(20, WVarint 5); (21, WLen [x00]); (22, WFixed64 (replicate 8 x00)); (23, WFixed32 (replicate 4 x00))].

Definition old_data : legacyData := OldDynamicFeeTx old_dynamic.
Definition old_msg : legacyMsgEthereumTx :=
  MkLegacyMsg (Some (data_any old_data)) 4611686018427387904 "0xhash" "".
Definition eth_url : string := "/cosmos.evm.vm.v1.MsgEthereumTx".
Definition auth_info : list field := [(2, WLen [x0a; x00])].
Definition old_bytes : bytes := encode_fields (legacy_tx eth_url old_msg [] auth_info).

Lemma old_msg_ok : legacy_tx_ok eth_url old_msg [] auth_info.
Proof.
  split; [apply encodableb_ok; vm_compute; reflexivity|].
  do 3 (split; [apply fields_okb_ok; vm_compute; reflexivity|]).
  split; [cbn [old_msg lm_Size]; lia|].
  intros a E. cbn [old_msg lm_Data] in E. injection E as <-.
  apply fields_okb_ok. vm_compute. reflexivity.
Qed.

Lemma old_data_ok : data_ok old_data.
Proof.
  split; [apply encodableb_ok; vm_compute; reflexivity|]. split; [repeat constructor|].
  repeat (constructor; [apply fields_okb_ok; vm_compute; reflexivity|]). constructor.
Qed.

Lemma old_access_ok : data_ok (OldAccessListTx old_access).
Proof.
  split; [apply encodableb_ok; vm_compute; reflexivity|]. split; [repeat constructor|].
  repeat (constructor; [apply fields_okb_ok; vm_compute; reflexivity|]). constructor.
Qed.

Lemma old_legacy_ok : data_ok (OldLegacyTx old_legacy).
Proof. split; [apply encodableb_ok; vm_compute; reflexivity|repeat constructor]. Qed.

Lemma legacy_data_roundtrip_witness :
  unmarshalLegacyTx (encode_fields (legacyTx_fields old_legacy ++ unknown)) = Ok old_legacy /\
  unmarshalAccessListTx (encode_fields (accessListTx_fields old_access ++ unknown)) = Ok old_access /\
  unmarshalDynamicFeeTx (encode_fields (dynamicFeeTx_fields old_dynamic ++ unknown)) = Ok old_dynamic.
Proof.
  split; [|split].
  - apply (legacy_data_roundtrip (OldLegacyTx old_legacy) unknown);
      [apply encodableb_ok; vm_compute; reflexivity|exact old_legacy_ok|repeat constructor].
  - apply (legacy_data_roundtrip (OldAccessListTx old_access) unknown);
      [apply encodableb_ok; vm_compute; reflexivity|exact old_access_ok|repeat constructor].
  - apply (legacy_data_roundtrip (OldDynamicFeeTx old_dynamic) unknown);
      [apply encodableb_ok; vm_compute; reflexivity|exact old_data_ok|repeat constructor].
Defined.

(** A decoder of the new schema drops the fields of the old message. *)
Definition new_decoder (_ : bytes) : outcome SdkTx := Ok None.

Lemma LegacyAwareTxDecoder_converts_witness :
  LegacyAwareTxDecoder new_decoder old_bytes
    = Ok (Some (EthDynamicFeeTx 8878 9 1 30 50000 (Some (pad 20 "0xto")) 5 [x05]
                  [(pad 20 "0xabc", [pad 32 "k1"; pad 32 "k2"])] 0 17 51, signer)).
Proof.
  apply (LegacyAwareTxDecoder_converts new_decoder old_data 4611686018427387904 "0xhash" "" signer
           eth_url [] auth_info).
  - left. exists None. split; reflexivity.
  - exact old_data_ok.
  - exact old_msg_ok.
  - right. split; reflexivity.
  - vm_compute. reflexivity.
Defined.

(** A transaction of the new schema, and an unrelated error. *)
Definition modern : @SdkTx toy_eth := Some (EthLegacyTx 0 0 0 None 0 [] 0 0 0, signer).
Definition modern_decoder (_ : bytes) : outcome SdkTx := Ok modern.
Definition parse_error : error := FmtErr "tx parse error".
Definition failing_decoder (_ : bytes) : outcome (@SdkTx toy_eth) := Err parse_error.

Lemma LegacyAwareTxDecoder_transparent_witness :
  LegacyAwareTxDecoder modern_decoder [] = Ok modern /\
  LegacyAwareTxDecoder failing_decoder [] = Err parse_error.
Proof.
  split.
  - apply (LegacyAwareTxDecoder_transparent modern_decoder []); [reflexivity|].
    intros raw from [[= <- <-]|[]]. by left.
  - apply (LegacyAwareTxDecoder_transparent failing_decoder []); [reflexivity|].
    repeat constructor.
Defined.

(** A configuration whose JSON decoder drops the old fields. *)
Definition toy_config : TxConfig unit unit unit unit (H0 := toy_eth) :=
  MkTxConfig new_decoder new_decoder (fun _ => Ok []) (fun _ => Ok []) (fun _ => Ok [])
    (fun _ => Ok []) tt (fun _ => Ok tt) tt tt.

Lemma json_decoder_never_converts_witness :
  TxJSONDecoder (NewLegacyAwareTxConfig toy_config) (x7b :: bytes_of_string "}")
    = Err (FmtErr "legacy eth tx: failed to extract msg bytes: %w").
Proof.
  apply (json_decoder_never_converts toy_config (bytes_of_string "}")).
  left. exists None. split; reflexivity.
Defined.
