(* ===== verification/Precompile.v ===== *)
(** The lockup precompile, the EVM's way into the lockup module:
    precompiles/lockup/lockup.go, tx.go, query.go and events.go.  The ABI codec
    of go-ethereum and the helpers of cosmos/evm are parameters. *)

From stdpp Require Import base list strings gmap.
From Stdlib Require Import ZArith Lia.
From S2P Require Import Prelude GoTime Sdk LockPb LockStore LockSpec LockupKeeper LockupMsgs LockupInv LockupProps LockupQuery.

Local Open Scope Z_scope.

(** * Values *)

(** A [common.Address]: 20 bytes. *)
Definition Address : Type := bytes.

(** The function-local types of [parseExtensions]. *)
Record coinInput := MkCoinInput { ci_Denom : string; ci_Amount : Z }.
Record extensionInput := MkExtensionInput {
  ei_FromDate : string;
  ei_ToDate : string;
  ei_Amount : coinInput;
}.

(** An [interface{}] by its dynamic type: the types the code asserts, the slice
    of anonymous structs the ABI decoder makes of a tuple array, and any other. *)
Inductive AbiValue :=
  | VAddress (a : Address)
  | VString (s : string)
  | VBigInt (n : Z)
  | VBool (b : bool)
  | VExtensionInputs (es : list extensionInput)
  | VAnonStructs (es : list extensionInput)
  | VLockInfos (ls : list (string * string * Z))
  | VOther.

(** An Ethereum log ([ethtypes.Log]). *)
Record Log := MkLog {
  Log_Address : Address;
  Log_Topics : list bytes;
  Log_Data : bytes;
  Log_BlockNumber : Z;
}.

(** A [vm.Contract]: its caller and its input. *)
Record Contract := MkContract { Caller : Address; Input : bytes }.

(** go-ethereum's ABI for abi.json, and cosmos/evm's precompile helpers. *)
Class AbiEnv := {
  SetupABI : Contract -> bool -> (string -> bool) -> outcome (string * list AbiValue);
  MethodById : bytes -> outcome string;
  Precompile_RequiredGas : bytes -> bool -> Z;
  Outputs_Pack : string -> list AbiValue -> outcome bytes;
  Inputs_Pack : string -> list nat -> list AbiValue -> outcome bytes;
  Event_ID : string -> bytes;
  MakeTopic : Address -> outcome bytes;
  HexToAddress : string -> Address;
  NewIntFromBigInt : Z -> outcome Z;
  ErrInvalidNumberOfArgs : string;
  ErrInvalidAmount_cmn : string;
  ErrRequesterIsNotMsgSender : string;
  ErrUnknownMethod : string;
}.

Definition LockMethod : string := "lock".
Definition ExtendMethod : string := "extend".
Definition SendDelegateAndLockMethod : string := "sendDelegateAndLock".
Definition LocksMethod : string := "locks".
Definition TotalLockedAmountMethod : string := "totalLockedAmount".

Definition EvmEventLock : string := "Lock".
Definition EvmEventLockExtended : string := "LockExtended".
Definition EvmEventSendDelegateAndLock : string := "SendDelegateAndLock".

Definition LockupPrecompileAddress : string := "0x0000000000000000000000000000000000000900".

Definition IsTransaction (method : string) : bool :=
  String.eqb method LockMethod || String.eqb method ExtendMethod
  || String.eqb method SendDelegateAndLockMethod.

(** [switch method.Name] of [Execute]. *)
Inductive method_kind := KLock | KExtend | KSend | KLocks | KTotal | KUnknown.
Definition kind_of (method : string) : method_kind :=
  if String.eqb method LockMethod then KLock
  else if String.eqb method ExtendMethod then KExtend
  else if String.eqb method SendDelegateAndLockMethod then KSend
  else if String.eqb method LocksMethod then KLocks
  else if String.eqb method TotalLockedAmountMethod then KTotal
  else KUnknown.

Section Precompile.
Context `{SdkMath} `{SdkTypes} `{AbiEnv} {S : Type} `{KVStore S} {X : Type} `{AccountKeeper X}
  `{StakingKeeper X} `{BankKeeper X}.

(** The chain's state and the logs of the EVM's state database. *)
Definition EvmState : Type := World S X * list Log.

Definition RequiredGas (input : bytes) : outcome Z :=
  if zlen input <? 4 then Ok 0 else
  methodID ← slice input 0 4;
  catch (MethodById methodID)
    (fun method => Ok (Precompile_RequiredGas input (IsTransaction method)))
    (fun _ => Ok 0).

(** * Messages from ABI arguments *)

Definition bad_args {A} : outcome A := Err (FmtErr ErrInvalidNumberOfArgs).

Definition Precompile_NewMsgLock (args : list AbiValue) (bondDenom : string)
    : outcome (MsgLock * Address) :=
  match args with
  | [a0; a1; a2] =>
      lockAddress ← match a0 with
                    | VAddress a => Ok a | _ => Err (FmtErr "invalid lock address: %v") end;
      unlockDate ← match a1 with
                   | VString s => Ok s | _ => Err (FmtErr "invalid unlock date: %v") end;
      amount ← match a2 with
               | VBigInt n => Ok n | _ => Err (FmtErr ErrInvalidAmount_cmn) end;
      amt ← NewIntFromBigInt amount;
      if negb (0 <? amt) then Err (FmtErr "lock amount must be positive") else
      let bech32Addr := AccAddress_String lockAddress in
      coin ← NewCoin bondDenom amt;
      Ok (MkMsgLock bech32Addr unlockDate coin, lockAddress)
  | _ => bad_args
  end.

Fixpoint convert_extensions (es : list extensionInput) (bondDenom : string)
    : outcome (list (option Extension)) :=
  match es with
  | [] => Ok []
  | ext :: rest =>
      amt ← NewIntFromBigInt (ci_Amount (ei_Amount ext));
      if negb (0 <? amt) then Err (FmtErr "extension amount must be positive, got %s") else
      coin ← NewCoin bondDenom amt;
      rest' ← convert_extensions rest bondDenom;
      Ok (Some (MkExtension (ei_FromDate ext) (ei_ToDate ext) coin) :: rest')
  end.

(** The assertion [raw.([]extensionInput)] holds for the named type only. *)
Definition parseExtensions (raw : AbiValue) (bondDenom : string)
    : outcome (list (option Extension)) :=
  match raw with
  | VExtensionInputs es =>
      if zlen es =? 0 then Err (FmtErr "extensions must not be empty")
      else convert_extensions es bondDenom
  | _ => Err (FmtErr "invalid extensions type: %T")
  end.

Definition Precompile_NewMsgExtend (args : list AbiValue) (bondDenom : string)
    : outcome (MsgExtend * Address) :=
  match args with
  | [a0; a1] =>
      lockAddress ← match a0 with
                    | VAddress a => Ok a | _ => Err (FmtErr "invalid lock address: %v") end;
      let bech32Addr := AccAddress_String lockAddress in
      extensions ← wrap_err (fun _ => FmtErr "failed to parse extensions: %w")
                     (parseExtensions a1 bondDenom);
      Ok (MkMsgExtend bech32Addr extensions, lockAddress)
  | _ => bad_args
  end.

Definition Precompile_NewMsgSendDelegateAndLock (args : list AbiValue) (caller : Address)
    (bondDenom : string) : outcome (MsgSendDelegateAndLock * Address * Address) :=
  match args with
  | [a0; a1; a2; a3] =>
      toAddress ← match a0 with
                  | VAddress a => Ok a | _ => Err (FmtErr "invalid to address: %v") end;
      validatorAddress ← match a1 with
                         | VString s => Ok s
                         | _ => Err (FmtErr "invalid validator address: %v") end;
      unlockDate ← match a2 with
                   | VString s => Ok s | _ => Err (FmtErr "invalid unlock date: %v") end;
      amount ← match a3 with
               | VBigInt n => Ok n | _ => Err (FmtErr ErrInvalidAmount_cmn) end;
      amt ← NewIntFromBigInt amount;
      if negb (0 <? amt)
      then Err (FmtErr "send delegate and lock amount must be positive") else
      coin ← NewCoin bondDenom amt;
      Ok (MkMsgSendDelegateAndLock (AccAddress_String caller) (AccAddress_String toAddress)
            validatorAddress unlockDate coin, caller, toAddress)
  | _ => bad_args
  end.

(** * Events *)

Definition AddLog (st : EvmState) (l : Log) : EvmState := (st.1, st.2 ++ [l]).

Definition precompile_log (ctx : Ctx) (topics : list bytes) (data : bytes) : Log :=
  MkLog (HexToAddress LockupPrecompileAddress) topics data (uint64 (BlockHeight ctx)).

Definition EmitLockEvent (ctx : Ctx) (st : EvmState) (msg : MsgLock) (lockAddr : Address)
    : outcome EvmState :=
  topic ← MakeTopic lockAddr;
  packed ← Inputs_Pack EvmEventLock [1; 2]%nat
             [VString (MsgLock_UnlockDate msg); VBigInt (Amount (MsgLock_Amount msg))];
  Ok (AddLog st (precompile_log ctx [Event_ID EvmEventLock; topic] packed)).

Definition EmitLockExtendedEvent (ctx : Ctx) (st : EvmState) (ext : Extension)
    (lockAddr : Address) : outcome EvmState :=
  topic ← MakeTopic lockAddr;
  packed ← Inputs_Pack EvmEventLockExtended [1; 2; 3]%nat
             [VString (Extension_FromDate ext); VString (Extension_ToDate ext);
              VBigInt (Amount (Extension_Amount ext))];
  Ok (AddLog st (precompile_log ctx [Event_ID EvmEventLockExtended; topic] packed)).

Definition EmitSendDelegateAndLockEvent (ctx : Ctx) (st : EvmState)
    (msg : MsgSendDelegateAndLock) (fromAddr toAddr : Address) : outcome EvmState :=
  topic1 ← MakeTopic fromAddr;
  topic2 ← MakeTopic toAddr;
  packed ← Inputs_Pack EvmEventSendDelegateAndLock [2; 3; 4]%nat
             [VString (MsgSend_ValidatorAddress msg); VString (MsgSend_UnlockDate msg);
              VBigInt (Amount (MsgSend_Amount msg))];
  Ok (AddLog st (precompile_log ctx [Event_ID EvmEventSendDelegateAndLock; topic1; topic2] packed)).

(** * Transactions *)

Definition Precompile_Lock (ctx : Ctx) (st : EvmState) (contract : Contract)
    (method : string) (args : list AbiValue) : outcome (bytes * EvmState) :=
  bondDenom ← BondDenom (w_ext st.1);
  '(msg, lockHexAddr) ← Precompile_NewMsgLock args bondDenom;
  let msgSender := Caller contract in
  if negb (bool_decide (msgSender = lockHexAddr))
  then Err (FmtErr ErrRequesterIsNotMsgSender) else
  w ← MsgServer_Lock ctx st.1 msg;
  st' ← EmitLockEvent ctx (w, st.2) msg lockHexAddr;
  bz ← Outputs_Pack method [VBool true];
  Ok (bz, st').

Fixpoint emit_extended (ctx : Ctx) (st : EvmState) (exts : list (option Extension))
    (lockAddr : Address) : outcome EvmState :=
  match exts with
  | [] => Ok st
  | None :: _ => _ ← MakeTopic lockAddr; Panic NilDeref
  | Some ext :: rest =>
      st' ← EmitLockExtendedEvent ctx st ext lockAddr;
      emit_extended ctx st' rest lockAddr
  end.

Definition Precompile_Extend (ctx : Ctx) (st : EvmState) (contract : Contract)
    (method : string) (args : list AbiValue) : outcome (bytes * EvmState) :=
  bondDenom ← BondDenom (w_ext st.1);
  '(msg, lockHexAddr) ← Precompile_NewMsgExtend args bondDenom;
  let msgSender := Caller contract in
  if negb (bool_decide (msgSender = lockHexAddr))
  then Err (FmtErr ErrRequesterIsNotMsgSender) else
  w ← Extend ctx st.1 msg;
  st' ← emit_extended ctx (w, st.2) (MsgExtend_Extensions msg) lockHexAddr;
  bz ← Outputs_Pack method [VBool true];
  Ok (bz, st').

Definition Precompile_SendDelegateAndLock (ctx : Ctx) (st : EvmState) (contract : Contract)
    (method : string) (args : list AbiValue) : outcome (bytes * EvmState) :=
  bondDenom ← BondDenom (w_ext st.1);
  '(msg, fromHexAddr, toHexAddr) ←
    Precompile_NewMsgSendDelegateAndLock args (Caller contract) bondDenom;
  w ← SendDelegateAndLock ctx st.1 msg;
  st' ← EmitSendDelegateAndLockEvent ctx (w, st.2) msg fromHexAddr toHexAddr;
  bz ← Outputs_Pack method [VBool true];
  Ok (bz, st').

(** * Queries *)

Definition Precompile_Locks (ctx : Ctx) (st : EvmState) (method : string) (args : list AbiValue)
    : outcome bytes :=
  match args with
  | [a0] =>
      lockAddress ← match a0 with
                    | VAddress a => Ok a | _ => Err (FmtErr "invalid lock address: %v") end;
      let bech32Addr := AccAddress_String lockAddress in
      '(locks, _) ← Query_Locks ctx (w_store st.1) (w_ext st.1) (Some (bech32Addr, None));
      Outputs_Pack method
        [VLockInfos (map (fun l => (LR_UnlockDate l, Denom (LR_Amount l), Amount (LR_Amount l))) locks)]
  | _ => bad_args
  end.

Definition Precompile_TotalLockedAmount (ctx : Ctx) (st : EvmState) (method : string)
    (args : list AbiValue) : outcome bytes :=
  match args with
  | [] =>
      total ← TotalLockedAmount ctx (w_store st.1) (w_ext st.1) (Some tt);
      Outputs_Pack method [VString (Denom total); VBigInt (Amount total)]
  | _ => bad_args
  end.

(** * Dispatch *)

Definition Execute (ctx : Ctx) (st : EvmState) (contract : Contract) (readOnly : bool)
    : outcome (bytes * EvmState) :=
  '(method, args) ← SetupABI contract readOnly IsTransaction;
  match kind_of method with
  | KLock => Precompile_Lock ctx st contract method args
  | KExtend => Precompile_Extend ctx st contract method args
  | KSend => Precompile_SendDelegateAndLock ctx st contract method args
  | KLocks => bz ← Precompile_Locks ctx st method args; Ok (bz, st)
  | KTotal => bz ← Precompile_TotalLockedAmount ctx st method args; Ok (bz, st)
  | KUnknown => Err (FmtErr ErrUnknownMethod)
  end.
End Precompile.

(** What the precompile relies on of its environment: an address is not empty
    and its text form decodes to it; [SetupABI] refuses a writing method in
    read-only mode; [NewIntFromBigInt] keeps the number; and the ABI decodes the
    arguments of [extend], [(address, tuple[])], to an address and a slice of
    anonymous structs. *)
Class AbiLaws `{SdkTypes} `{AbiEnv} : Prop := {
  AccAddress_String_decodes a : length a = 20%nat -> AccAddressFromBech32 (AccAddress_String a) = Ok a;
  SetupABI_readonly c f m args :
    SetupABI c true f = Ok (m, args) -> f m = false;
  SetupABI_extend c r f args :
    SetupABI c r f = Ok (ExtendMethod, args) ->
    exists a es, args = [VAddress a; VAnonStructs es];
  NewIntFromBigInt_spec n a : NewIntFromBigInt n = Ok a -> a = n;
}.

(** * Properties *)

Section PrecompileProps.
Context `{SdkMathLaws} `{!SdkTypes} `{!SdkCoinLaws} `{!AbiEnv} `{!AbiLaws} {S : Type} `{!KVStore S}
  `{!KVStoreLaws S} {X : Type} `{!AccountKeeper X} `{!StakingKeeper X} `{!StakingLaws X}
  `{!BankKeeper X} `{!BankLaws X}.

Lemma kind_of_query m : IsTransaction m = false -> kind_of m <> KLock /\ kind_of m <> KExtend /\ kind_of m <> KSend.
Proof.
  unfold IsTransaction, kind_of. intros E. bool_to_prop.
  repeat match goal with X : String.eqb _ _ = false |- _ => rewrite X end.
  repeat match goal with X : _ <> _ |- _ => apply String.eqb_neq in X; rewrite X end.
  repeat case_match; done.
Qed.

Lemma Precompile_NewMsgLock_Ok args denom msg a :
  Precompile_NewMsgLock args denom = Ok (msg, a) ->
  exists date n, args = [VAddress a; VString date; VBigInt n] /\ 0 < n /\
    msg = MkMsgLock (AccAddress_String a) date (NewCoinRec denom n).
Proof.
  unfold Precompile_NewMsgLock. destruct args as [|a0 [|a1 [|a2 [|]]]]; try done.
  destruct a0; try done. destruct a1; try done. destruct a2; try done. cbn [mbind outcome_bind].
  intros (amt & EA & E)%bind_Ok. apply NewIntFromBigInt_spec in EA as ->.
  case_match eqn:B; [done|]. apply negb_false_iff, Z.ltb_lt in B.
  apply bind_Ok in E as (c & EC & E). apply NewCoin_spec in EC as ->. injection E as <- <-. eauto.
Qed.

(** A call of the precompile's lock method only locks for its caller: it
    succeeds only with the caller's own address, and the ledger then gains
    exactly the given amount at the given date for the caller, as with MsgLock,
    with one log entry. *)
Theorem precompile_lock_own_account (ctx : Ctx) (st st' : EvmState) c method args bz f :
  represents (kv_view (w_store st.1)) f -> 0 <= BlockTime ctx -> length (Caller c) = 20%nat ->
  Precompile_Lock ctx st c method args = Ok (bz, st') ->
  exists date n l, args = [VAddress (Caller c); VString date; VBigInt n] /\
    represents (kv_view (w_store st'.1)) (ledger_add f (Caller c) date n) /\
    w_ext st'.1 = w_ext st.1 /\ st'.2 = st.2 ++ [l].
Proof.
  intros R T L (denom & _ & E)%bind_Ok. apply bind_Ok in E as ([msg a] & EM & E).
  apply Precompile_NewMsgLock_Ok in EM as (date & n & -> & N & ->).
  cbv zeta iota beta in E. case_match eqn:B; [done|].
  apply negb_false_iff, bool_decide_eq_true_1 in B as <-.
  apply bind_Ok in E as (w & EW & E). apply bind_Ok in E as (st1 & ES & E).
  apply bind_Ok in E as (bz' & _ & [= <- <-]).
  destruct (MsgServer_Lock_effect _ _ _ _ _ R T EW) as (addr & t & D & EA & _ & _ & _ & R' & EX & _).
  cbn [MsgLock_Address MsgLock_UnlockDate] in *. rewrite AccAddress_String_decodes in EA by done.
  injection EA as <-. unfold EmitLockEvent in ES. apply bind_Ok in ES as (topic & _ & ES).
  apply bind_Ok in ES as (packed & _ & [= <-]). cbn [AddLog fst snd]. eauto 9.
Qed.

(** The sender of the precompile's sendDelegateAndLock is always its caller. *)
Theorem precompile_send_from_caller (ctx : Ctx) (st st' : EvmState) c method args bz f :
  represents (kv_view (w_store st.1)) f -> 0 <= BlockTime ctx ->
  Precompile_SendDelegateAndLock ctx st c method args = Ok (bz, st') ->
  exists to v date n denom, args = [VAddress to; VString v; VString date; VBigInt n] /\ 0 < n /\
    SendDelegateAndLock ctx st.1 (MkMsgSendDelegateAndLock (AccAddress_String (Caller c))
      (AccAddress_String to) v date (NewCoinRec denom n)) = Ok st'.1 /\
    (length to = 20%nat -> represents (kv_view (w_store st'.1)) (ledger_add f to date n)).
Proof.
  intros R T (denom & _ & E)%bind_Ok. apply bind_Ok in E as ([[msg from] to] & EM & E).
  unfold Precompile_NewMsgSendDelegateAndLock in EM.
  destruct args as [|a0 [|a1 [|a2 [|a3 [|]]]]]; try done.
  destruct a0; try done. destruct a1; try done. destruct a2; try done. destruct a3; try done.
  cbn [mbind outcome_bind] in EM. apply bind_Ok in EM as (amt & EA & EM).
  apply NewIntFromBigInt_spec in EA as ->. case_match eqn:B; [done|].
  apply negb_false_iff, Z.ltb_lt in B. apply bind_Ok in EM as (coin & EC & EM).
  apply NewCoin_spec in EC as ->. injection EM as <- <- <-.
  apply bind_Ok in E as (w & EW & E). apply bind_Ok in E as (st1 & ES & E).
  apply bind_Ok in E as (bz' & _ & [= <- <-]).
  assert (st1.1 = w) as ->.
  { unfold EmitSendDelegateAndLockEvent in ES. apply bind_Ok in ES as (t1 & _ & ES).
    apply bind_Ok in ES as (t2 & _ & ES). apply bind_Ok in ES as (pk & _ & [= <-]). done. }
  do 5 eexists. split; [done|]. split; [done|]. split; [exact EW|]. intros L.
  destruct (SendDelegateAndLock_effect _ _ _ _ _ R T EW) as (a' & t & ET & _ & _ & _ & R').
  cbn [MsgSend_ToAddress] in ET. rewrite AccAddress_String_decodes in ET by done.
  by injection ET as <-.
Qed.

(** In read-only mode the precompile never changes any state. *)
Theorem precompile_readonly (ctx : Ctx) (st st' : EvmState) c bz :
  Execute ctx st c true = Ok (bz, st') -> st' = st.
Proof.
  unfold Execute. intros ([m args] & ES & E)%bind_Ok. apply SetupABI_readonly in ES.
  apply kind_of_query in ES as (N1 & N2 & N3).
  destruct (kind_of m); try done; apply bind_Ok in E as (bz' & _ & [= _ <-]); done.
Qed.

(** C36 The precompile's extend method never succeeds: the ABI hands the
    extensions over as a slice of anonymous structs, and the assertion to the
    function's own named type fails for every such value. *)
Theorem precompile_extend_fails (ctx : Ctx) (st : EvmState) c readOnly args :
  SetupABI c readOnly IsTransaction = Ok (ExtendMethod, args) ->
  forall r, Execute ctx st c readOnly <> Ok r.
Proof.
  intros ES r E. unfold Execute in E. rewrite ES in E. cbn [mbind outcome_bind] in E.
  change (kind_of ExtendMethod) with KExtend in E. cbv iota in E.
  apply SetupABI_extend in ES as (a & es & ->). unfold Precompile_Extend in E.
  apply bind_Ok in E as (denom & _ & E). by apply bind_Ok in E as ([msg a'] & EM & E).
Qed.
End PrecompileProps.
