(* ===== verification/PrecompileAbi.v ===== *)
(** The ABI of the lockup precompile (precompiles/lockup/abi.json, embedded by
    lockup.go) and what it means for the code that reads and writes values with it:
    dispatch covers exactly its methods, and a call that decodes behaves exactly as the
    message it stands for. *)

From stdpp Require Import base list strings gmap.
From Stdlib Require Import ZArith Lia.
From S2P Require Import Prelude GoTime Sdk LockPb LockStore LockSpec LockupKeeper LockupMsgs LockupInv LockupProps LockupQuery Precompile.

Local Open Scope Z_scope.

(** * The embedded file *)

Inductive AbiType := TyAddress | TyString | TyUint256 | TyBool | TyTupleArray.

Record AbiMethod := MkAbiMethod {
  am_Name : string;
  am_Inputs : list (string * AbiType);
  am_Outputs : list (string * AbiType);
  am_StateMutability : string;
}.

(** Inputs of events are indexed or not. *)
Record AbiEvent := MkAbiEvent { ae_Name : string; ae_Inputs : list (string * AbiType * bool) }.

Definition event_Lock : AbiEvent :=
  MkAbiEvent "Lock"
    [("lockAddress", TyAddress, true); ("unlockDate", TyString, false); ("amount", TyUint256, false)].
Definition event_LockExtended : AbiEvent :=
  MkAbiEvent "LockExtended"
    [("lockAddress", TyAddress, true); ("oldUnlockDate", TyString, false);
     ("newUnlockDate", TyString, false); ("amount", TyUint256, false)].
Definition event_SendDelegateAndLock : AbiEvent :=
  MkAbiEvent "SendDelegateAndLock"
    [("fromAddress", TyAddress, true); ("toAddress", TyAddress, true);
     ("validatorAddress", TyString, false); ("unlockDate", TyString, false); ("amount", TyUint256, false)].

Definition ABI_Events : list AbiEvent := [event_Lock; event_LockExtended; event_SendDelegateAndLock].

Definition method_extend : AbiMethod :=
  MkAbiMethod "extend" [("lockAddress", TyAddress); ("extensions", TyTupleArray)]
    [("success", TyBool)] "nonpayable".
Definition method_lock : AbiMethod :=
  MkAbiMethod "lock" [("lockAddress", TyAddress); ("unlockDate", TyString); ("amount", TyUint256)]
    [("success", TyBool)] "nonpayable".
Definition method_locks : AbiMethod :=
  MkAbiMethod "locks" [("lockAddress", TyAddress)] [("locks", TyTupleArray)] "view".
Definition method_sendDelegateAndLock : AbiMethod :=
  MkAbiMethod "sendDelegateAndLock"
    [("toAddress", TyAddress); ("validatorAddress", TyString); ("unlockDate", TyString);
     ("amount", TyUint256)]
    [("success", TyBool)] "nonpayable".
Definition method_totalLockedAmount : AbiMethod :=
  MkAbiMethod "totalLockedAmount" [] [("denom", TyString); ("totalLocked", TyUint256)] "view".

Definition ABI_Methods : list AbiMethod :=
  [method_extend; method_lock; method_locks; method_sendDelegateAndLock; method_totalLockedAmount].

(** * The precompile as the EVM sees it *)

(** [NewPrecompile]: the embedded ABI, the address, and the parts it was given. *)
Record PrecompileContract (K M Q SK B : Type) := MkPrecompileContract {
  pc_ContractAddress : Address;
  pc_Methods : list AbiMethod;
  pc_Events : list AbiEvent;
  pc_lockupKeeper : K;
  pc_lockupMsgServer : M;
  pc_lockupQuerier : Q;
  pc_stakingKeeper : SK;
  pc_BalanceHandlerFactory : B;
}.
Arguments MkPrecompileContract {K M Q SK B}.
Arguments pc_ContractAddress {K M Q SK B}.

Definition NewPrecompile `{AbiEnv} {K M Q SK BK B : Type} (NewBalanceHandlerFactory : BK -> B)
    (lockupKeeper : K) (lockupMsgServer : M) (lockupQuerier : Q) (stakingKeeper : SK) (bankKeeper : BK) :
    PrecompileContract K M Q SK B :=
  MkPrecompileContract (HexToAddress LockupPrecompileAddress) ABI_Methods ABI_Events
    lockupKeeper lockupMsgServer lockupQuerier stakingKeeper (NewBalanceHandlerFactory bankKeeper).

Definition PrecompileAddress {K M Q SK B} (p : PrecompileContract K M Q SK B) : Address :=
  pc_ContractAddress p.

(** [Run]: [RunNativeAction] of cosmos/evm runs the action on the context it makes of
    the EVM's state. *)
Section Run.
Context `{SdkMath} `{SdkTypes} `{AbiEnv} {S : Type} `{KVStore S} {X : Type} `{AccountKeeper X}
  `{StakingKeeper X} `{BankKeeper X} {EVM : Type}.
Abbreviation State := (EvmState (S := S) (X := X)).
Context (RunNativeAction : EVM -> Contract -> (Ctx -> State -> outcome (bytes * State)) ->
                           outcome (bytes * EVM)).

Definition Run (evm : EVM) (contract : Contract) (readonly : bool) : outcome (bytes * EVM) :=
  RunNativeAction evm contract (fun ctx stateDB => Execute ctx stateDB contract readonly).
End Run.

(** * What go-ethereum does with it *)

(** The Go value of a type, as decoded; an array of tuples packs from a slice of any
    structs with the fields. *)
Definition abi_decodes (t : AbiType) (v : AbiValue) : Prop :=
  match t, v with
  | TyAddress, VAddress _ | TyString, VString _ | TyBool, VBool _ | TyTupleArray, VAnonStructs _ => True
  | TyUint256, VBigInt n => 0 <= n < 2 ^ 256
  | _, _ => False
  end.
Definition abi_packs (t : AbiType) (v : AbiValue) : Prop :=
  match t, v with
  | TyTupleArray, VLockInfos _ => True
  | _, _ => abi_decodes t v
  end.

Class AbiJsonLaws `{AbiEnv} : Prop := {
  SetupABI_typed c r f name args :
    SetupABI c r f = Ok (name, args) ->
    exists m, m ∈ ABI_Methods /\ am_Name m = name /\ Forall2 abi_decodes (map snd (am_Inputs m)) args;
  Inputs_Pack_typed e positions values :
    e ∈ ABI_Events ->
    Forall2 (fun i v => exists x, ae_Inputs e !! i = Some x /\ abi_packs x.1.2 v) positions values ->
    is_ok (Inputs_Pack (ae_Name e) positions values) = true;
  Outputs_Pack_typed m values :
    m ∈ ABI_Methods -> Forall2 abi_packs (map snd (am_Outputs m)) values ->
    is_ok (Outputs_Pack (am_Name m) values) = true;
  MakeTopic_address a : is_ok (MakeTopic a) = true;
  NewIntFromBigInt_uint256 n : 0 <= n < 2 ^ 256 -> NewIntFromBigInt n = Ok n;
}.

(** * Properties *)

(** [Execute] knows exactly the methods of the ABI, and runs as transactions exactly
    those that are not views. *)
Lemma dispatch_covers_abi :
  map (fun m => kind_of (am_Name m)) ABI_Methods = [KExtend; KLock; KLocks; KSend; KTotal] /\
  Forall (fun m => IsTransaction (am_Name m) = negb (String.eqb (am_StateMutability m) "view")) ABI_Methods /\
  (forall name, kind_of name <> KUnknown -> name ∈ map am_Name ABI_Methods).
Proof.
  split; [reflexivity|]. split; [repeat constructor|].
  intros name. unfold kind_of. repeat case_match; intros N; try done;
    match goal with E : String.eqb _ _ = true |- _ => apply String.eqb_eq in E as -> end;
    cbn; set_solver.
Qed.

(** The logs name events of the ABI, with data for exactly the inputs that are not
    indexed. *)
Lemma events_cover_abi :
  map ae_Name ABI_Events = [EvmEventLock; EvmEventLockExtended; EvmEventSendDelegateAndLock] /\
  map (fun e => List.filter (fun i => match ae_Inputs e !! i with Some (_, _, ix) => negb ix | None => false end)
                  (seq 0 (length (ae_Inputs e)))) ABI_Events
  = [[1; 2]; [1; 2; 3]; [2; 3; 4]]%nat.
Proof. split; reflexivity. Qed.

Section AbiProps.
Context `{SdkMathLaws} `{!SdkTypes} `{!SdkCoinLaws} `{!AbiEnv} `{!AbiJsonLaws} {S : Type} `{!KVStore S}
  {X : Type} `{!AccountKeeper X} `{!StakingKeeper X} `{!BankKeeper X}.

Lemma is_ok_inv {A} (m : outcome A) : is_ok m = true -> exists a, m = Ok a.
Proof. destruct m; try done. eauto. Qed.

(** The arguments of a call are values of the types the ABI gives them. *)
Ltac abi_args N M T :=
  unfold ABI_Methods in M;
  repeat (apply elem_of_cons in M as [->|M]; [try discriminate N|]); [|by apply not_elem_of_nil in M];
  cbn in T; repeat match goal with T : Forall2 _ (_ :: _) _ |- _ => inversion T; clear T; subst end;
  match goal with T : Forall2 _ [] _ |- _ => inversion T; subst end;
  repeat match goal with D : abi_decodes _ ?v |- _ => destruct v; cbn in D; try done end.

Lemma lock_args c r f args :
  SetupABI c r f = Ok (LockMethod, args) ->
  exists a date n, args = [VAddress a; VString date; VBigInt n] /\ 0 <= n < 2 ^ 256.
Proof. intros (m & M & N & T)%SetupABI_typed. abi_args N M T. eauto. Qed.

Lemma send_args c r f args :
  SetupABI c r f = Ok (SendDelegateAndLockMethod, args) ->
  exists a v date n, args = [VAddress a; VString v; VString date; VBigInt n] /\ 0 <= n < 2 ^ 256.
Proof. intros (m & M & N & T)%SetupABI_typed. abi_args N M T. eauto 6. Qed.

(** The log of a lock or of a send never fails to encode, nor does the result. *)
Lemma lock_event_ok ctx addr date n denom lockAddr :
  0 <= n < 2 ^ 256 ->
  exists l, forall st : EvmState (S := S) (X := X),
    EmitLockEvent ctx st (MkMsgLock addr date (NewCoinRec denom n)) lockAddr = Ok (AddLog st l).
Proof.
  intros B. destruct (is_ok_inv _ (MakeTopic_address lockAddr)) as [t T].
  assert (is_ok (Inputs_Pack EvmEventLock [1; 2]%nat [VString date; VBigInt n]) = true) as [d D]%is_ok_inv.
  { apply (Inputs_Pack_typed event_Lock); [by left|]. repeat constructor; eexists; (split; [reflexivity|done]). }
  eexists. intros st. unfold EmitLockEvent. rewrite T. cbn [mbind outcome_bind].
  cbn [MsgLock_UnlockDate MsgLock_Amount Amount]. rewrite D. reflexivity.
Qed.

Lemma send_event_ok ctx from to v date n denom fromAddr toAddr :
  0 <= n < 2 ^ 256 ->
  exists l, forall st : EvmState (S := S) (X := X),
    EmitSendDelegateAndLockEvent ctx st (MkMsgSendDelegateAndLock from to v date (NewCoinRec denom n))
      fromAddr toAddr = Ok (AddLog st l).
Proof.
  intros B. destruct (is_ok_inv _ (MakeTopic_address fromAddr)) as [t1 T1].
  destruct (is_ok_inv _ (MakeTopic_address toAddr)) as [t2 T2].
  assert (is_ok (Inputs_Pack EvmEventSendDelegateAndLock [2; 3; 4]%nat [VString v; VString date; VBigInt n]) = true)
    as [d D]%is_ok_inv.
  { apply (Inputs_Pack_typed event_SendDelegateAndLock); [by right; right; left|].
    repeat constructor; eexists; (split; [reflexivity|done]). }
  eexists. intros st. unfold EmitSendDelegateAndLockEvent. rewrite T1, T2. cbn [mbind outcome_bind].
  cbn [MsgSend_ValidatorAddress MsgSend_UnlockDate MsgSend_Amount Amount]. rewrite D. reflexivity.
Qed.

Lemma success_packs m :
  m ∈ ABI_Methods -> map snd (am_Outputs m) = [TyBool] ->
  exists bz, Outputs_Pack (am_Name m) [VBool true] = Ok bz.
Proof. intros M O. apply is_ok_inv, Outputs_Pack_typed; [done|]. rewrite O. by repeat constructor. Qed.

(** C34 A lock or sendDelegateAndLock call that decodes behaves exactly
    as its message.  With a positive amount (and, for lock, the caller's own address)
    the outcome of the call is the outcome of the handler of MsgLock or
    MsgSendDelegateAndLock for the arguments in the bond denomination: the same state,
    with one log added, or the same error or panic; nothing about the ABI fails.
    Otherwise the call is refused with an error. *)
Theorem precompile_calls_are_messages ctx (st : EvmState (S := S) (X := X)) c readOnly args denom :
  BondDenom (w_ext st.1) = Ok denom -> ValidDenom denom = true ->
  (SetupABI c readOnly IsTransaction = Ok (LockMethod, args) ->
   exists a date n, args = [VAddress a; VString date; VBigInt n] /\
     (a = Caller c -> 0 < n -> exists bz l,
        Execute ctx st c readOnly
        = (w ← MsgServer_Lock ctx st.1 (MkMsgLock (AccAddress_String a) date (NewCoinRec denom n));
           Ok (bz, (w, st.2 ++ [l])))) /\
     (a <> Caller c \/ n <= 0 -> exists e, Execute ctx st c readOnly = Err e)) /\
  (SetupABI c readOnly IsTransaction = Ok (SendDelegateAndLockMethod, args) ->
   exists a v date n, args = [VAddress a; VString v; VString date; VBigInt n] /\
     (0 < n -> exists bz l,
        Execute ctx st c readOnly
        = (w ← SendDelegateAndLock ctx st.1 (MkMsgSendDelegateAndLock (AccAddress_String (Caller c))
             (AccAddress_String a) v date (NewCoinRec denom n));
           Ok (bz, (w, st.2 ++ [l])))) /\
     (n <= 0 -> exists e, Execute ctx st c readOnly = Err e)).
Proof.
  intros BD VD. split; intros SA.
  - destruct (lock_args _ _ _ _ SA) as (a & date & n & -> & B). exists a, date, n. split; [done|].
    unfold Execute. rewrite SA. cbn [mbind outcome_bind]. change (kind_of LockMethod) with KLock. cbv iota.
    unfold Precompile_Lock. rewrite BD. cbn [mbind outcome_bind]. unfold Precompile_NewMsgLock.
    cbn [mbind outcome_bind]. rewrite NewIntFromBigInt_uint256 by done. cbn [mbind outcome_bind].
    destruct (Z.ltb_spec 0 n) as [P|P]; cbn [negb]; [|split; [lia|eauto]].
    rewrite NewCoin_valid by (done || lia). cbn [mbind outcome_bind].
    split; [intros -> _|intros [N|]; [|lia]; rewrite bool_decide_eq_false_2 by congruence; cbn; eauto].
    rewrite bool_decide_eq_true_2 by done. cbn [negb].
    destruct (lock_event_ok ctx (AccAddress_String (Caller c)) date n denom (Caller c) B) as [l L].
    destruct (success_packs method_lock) as [bz Z]; [by right; left|done|].
    exists bz, l. destruct (MsgServer_Lock _ _ _) as [w|e|p|]; try done. cbn [mbind outcome_bind].
    rewrite L. cbn [mbind outcome_bind]. change LockMethod with "lock". cbn in Z. by rewrite Z.
  - destruct (send_args _ _ _ _ SA) as (a & v & date & n & -> & B). exists a, v, date, n. split; [done|].
    unfold Execute. rewrite SA. cbn [mbind outcome_bind].
    change (kind_of SendDelegateAndLockMethod) with KSend. cbv iota.
    unfold Precompile_SendDelegateAndLock. rewrite BD. cbn [mbind outcome_bind].
    unfold Precompile_NewMsgSendDelegateAndLock.
    cbn [mbind outcome_bind]. rewrite NewIntFromBigInt_uint256 by done. cbn [mbind outcome_bind].
    destruct (Z.ltb_spec 0 n) as [P|P]; cbn [negb]; [|split; [lia|eauto]].
    rewrite NewCoin_valid by (done || lia). cbn [mbind outcome_bind]. split; [intros _|lia].
    destruct (send_event_ok ctx (AccAddress_String (Caller c)) (AccAddress_String a) v date n denom
      (Caller c) a B) as [l L].
    destruct (success_packs method_sendDelegateAndLock) as [bz Z];
      [by right; right; right; left|done|].
    exists bz, l. destruct (SendDelegateAndLock _ _ _) as [w|e|p|]; try done. cbn [mbind outcome_bind].
    rewrite L. cbn [mbind outcome_bind]. change SendDelegateAndLockMethod with "sendDelegateAndLock".
    cbn in Z. by rewrite Z.
Qed.
End AbiProps.
