(* ===== verification/PrecompileRuns.v ===== *)
(** The precompile's theorems on concrete calls. *)

From stdpp Require Import base list strings gmap.
From Stdlib Require Import ZArith Lia.
From S2P Require Import Prelude GoTime Sdk LockPb LockStore LockSpec LockupKeeper LockupMsgs LockupInv LockupProps LockupQuery LockupRuns Testnet Precompile PrecompileAbi.
Import Toy.

Local Open Scope Z_scope.

(** An ABI in which the input is the method's name and the arguments are fixed. *)
Module ToyAbi.

Definition toy_args (c : Contract) (m : string) : list AbiValue :=
  match kind_of m with
  | KLock => [VAddress (Caller c); VString "2026-01-01"; VBigInt 100]
  | KExtend => [VAddress (Caller c);
                VAnonStructs [MkExtensionInput "2026-01-01" "2026-02-01" (MkCoinInput "aTSC" 5)]]
  | KSend => [VAddress (bytes_of_string "bobbobbobbobbobbobbo"); VString "val"; VString "2026-01-01";
              VBigInt 50]
  | KLocks => [VAddress (Caller c)]
  | _ => []
  end.

#[export] Instance toy_abi : AbiEnv := {
  SetupABI c readOnly isTx :=
    let m := string_of_bytes (Input c) in
    match kind_of m with
    | KUnknown => Err (ExtErr "no method")
    | _ => if readOnly && isTx m then Err (ExtErr "write protection") else Ok (m, toy_args c m)
    end;
  MethodById bz := Ok (string_of_bytes bz);
  Precompile_RequiredGas _ w := if w then 2000 else 1000;
  Outputs_Pack m _ := Ok (bytes_of_string m);
  Inputs_Pack e _ _ := Ok (bytes_of_string e);
  Event_ID e := bytes_of_string e;
  MakeTopic a := Ok a;
  HexToAddress s := bytes_of_string s;
  NewIntFromBigInt n := if int_ok n then Ok n else Panic (ExtPanic "NewIntFromBigInt() out of bound");
  ErrInvalidNumberOfArgs := "invalid number of arguments; expected %d; got: %d";
  ErrInvalidAmount_cmn := "invalid amount: %v";
  ErrRequesterIsNotMsgSender := "msg.sender address %s does not match the requester address %s";
  ErrUnknownMethod := "unknown method: %s";
}.

#[export] Instance toy_abi_laws : AbiLaws.
Proof.
  split.
  - intros a L. cbn. unfold toy_address. destruct (String.eqb_spec (string_of_bytes a) "") as [E|_].
    + apply (f_equal bytes_of_string) in E. rewrite bytes_of_string_of_bytes in E. by subst a.
    + by rewrite bytes_of_string_of_bytes.
  - intros c f m args. cbn. destruct (f _) eqn:E; repeat case_match; try done; by intros [= <- _].
  - intros c r f args. cbn. assert (forall o, (if r && f (string_of_bytes (Input c))
      then Err (ExtErr "write protection") else Ok (string_of_bytes (Input c), o)) = Ok (ExtendMethod, args) ->
      string_of_bytes (Input c) = ExtendMethod /\ o = args) as K by (intros o; case_match; [done|]; by intros [= -> ->]).
    destruct (kind_of _) eqn:E; try done; intros [N <-]%K; rewrite N in E |- *; try discriminate E. cbn. eauto.
  - intros n a. cbn. case_match; [|done]. by intros [= <-].
Qed.
#[export] Instance toy_abi_json : AbiJsonLaws.
Proof.
  split; try done.
  - intros c r f name args. cbn. generalize (string_of_bytes (Input c)). intros m E.
    assert (m = name /\ toy_args c m = args /\ kind_of m <> KUnknown) as (-> & <- & K)
      by (destruct (kind_of m); try done; destruct (r && f m); try done; by injection E as -> ->).
    clear E. unfold kind_of in K. repeat case_match; try done;
      match goal with B : String.eqb _ _ = true |- _ => apply String.eqb_eq in B as -> end.
    + exists method_lock. repeat split; try (cbn; set_solver); repeat constructor; cbn; lia.
    + exists method_extend. repeat split; try (cbn; set_solver); repeat constructor.
    + exists method_sendDelegateAndLock. repeat split; try (cbn; set_solver); repeat constructor; cbn; lia.
    + exists method_locks. repeat split; try (cbn; set_solver); repeat constructor.
    + exists method_totalLockedAmount. repeat split; try (cbn; set_solver); repeat constructor.
  - intros n B. cbn. unfold int_ok. destruct (Z.ltb_spec (Z.abs n) (2 ^ 256)); [done|lia].
Qed.
End ToyAbi.
Import ToyAbi.

Definition dora : Address := bytes_of_string "doradoradoradoradora".

Definition evm_net : Net :=
  MkNet {[ (dora, net_denom) := 1000 ]} [(dora, ("val", 500))] ["val"].
Definition evm_state : EvmState := (MkWorld (∅ : gmap bytes bytes) evm_net [], []).

Definition call (m : string) : Contract := MkContract dora (bytes_of_string m).

Definition lock_args : list AbiValue := toy_args (call "lock") "lock".
Definition send_args : list AbiValue := toy_args (call "sendDelegateAndLock") "sendDelegateAndLock".

Definition evm_lock : outcome (bytes * EvmState) :=
  Precompile_Lock run_ctx evm_state (call "lock") "lock" lock_args.
Definition evm_send : outcome (bytes * EvmState) :=
  Precompile_SendDelegateAndLock run_ctx evm_state (call "sendDelegateAndLock") "sendDelegateAndLock" send_args.

Lemma evm_lock_ok : evm_lock = Ok ((ok_or ([], evm_state) evm_lock).1, (ok_or ([], evm_state) evm_lock).2).
Proof. rewrite <- surjective_pairing. apply ok_or_eq. vm_compute. reflexivity. Qed.

Lemma evm_send_ok : evm_send = Ok ((ok_or ([], evm_state) evm_send).1, (ok_or ([], evm_state) evm_send).2).
Proof. rewrite <- surjective_pairing. apply ok_or_eq. vm_compute. reflexivity. Qed.

Lemma evm_represents : represents (kv_view (w_store evm_state.1)) (fun _ _ => 0).
Proof. apply represents_empty. Qed.

Lemma precompile_lock_own_account_witness :
  exists date n l, lock_args = [VAddress dora; VString date; VBigInt n] /\
    represents (kv_view (w_store (ok_or ([], evm_state) evm_lock).2.1)) (ledger_add (fun _ _ => 0) dora date n) /\
    w_ext (ok_or ([], evm_state) evm_lock).2.1 = evm_net /\
    (ok_or ([], evm_state) evm_lock).2.2 = [] ++ [l].
Proof.
  exact (precompile_lock_own_account run_ctx evm_state _ (call "lock") "lock" lock_args _ _
    evm_represents run_time eq_refl evm_lock_ok).
Defined.

Lemma precompile_send_from_caller_witness :
  exists to v date n denom, send_args = [VAddress to; VString v; VString date; VBigInt n] /\ 0 < n /\
    SendDelegateAndLock run_ctx evm_state.1 (MkMsgSendDelegateAndLock (AccAddress_String dora)
      (AccAddress_String to) v date (NewCoinRec denom n)) = Ok (ok_or ([], evm_state) evm_send).2.1 /\
    (length to = 20%nat -> represents (kv_view (w_store (ok_or ([], evm_state) evm_send).2.1))
                             (ledger_add (fun _ _ => 0) to date n)).
Proof.
  exact (precompile_send_from_caller run_ctx evm_state _ (call "sendDelegateAndLock")
    "sendDelegateAndLock" send_args _ _ evm_represents run_time evm_send_ok).
Defined.

Definition evm_total : outcome (bytes * EvmState) :=
  Execute run_ctx evm_state (call "totalLockedAmount") true.

Lemma evm_total_ok : evm_total = Ok (bytes_of_string "totalLockedAmount", (ok_or ([], evm_state) evm_total).2).
Proof. vm_compute. reflexivity. Qed.

Lemma precompile_readonly_witness : (ok_or ([], evm_state) evm_total).2 = evm_state.
Proof. exact (precompile_readonly run_ctx evm_state _ (call "totalLockedAmount") _ evm_total_ok). Defined.

Lemma precompile_extend_fails_witness :
  ~ (exists r, Execute run_ctx evm_state (call "extend") false = Ok r).
Proof.
  intros [r E]. refine (precompile_extend_fails run_ctx evm_state (call "extend") false
    (toy_args (call "extend") "extend") _ r E). vm_compute. reflexivity.
Defined.

Lemma precompile_calls_are_messages_witness :
  exists bz l,
    Execute run_ctx evm_state (call "lock") false
    = (w ← MsgServer_Lock run_ctx evm_state.1 (MkMsgLock (AccAddress_String dora) "2026-01-01" (NewCoinRec net_denom 100));
       Ok (bz, (w, [] ++ [l]))).
Proof.
  assert (BondDenom (w_ext evm_state.1) = Ok net_denom) as B by reflexivity.
  assert (ValidDenom net_denom = true) as V by reflexivity.
  destruct (precompile_calls_are_messages run_ctx evm_state (call "lock") false lock_args net_denom B V) as [P _].
  destruct P as (a & date & n & E & P & _); [vm_compute; reflexivity|].
  injection E as <- <- <-. apply P; [reflexivity|lia].
Defined.
