(* ===== verification/Ante.v ===== *)
(** The ante handler: app/ante/ante.go (routing), cosmos.go and evm.go (the two
    chains), handler_options.go and redelegate.go (the redelegation marker).  The
    decorators of the Cosmos SDK, of the EVM module and of IBC are parameters. *)

From stdpp Require Import base list strings gmap.
From Stdlib Require Import ZArith Lia.
From S2P Require Import Prelude GoTime Sdk LockPb LockStore LockSpec LockupKeeper.

Local Open Scope Z_scope.

(** * Transactions and handlers *)

(** A message: what the marker looks at. *)
Inductive Msg :=
  | MsgBeginRedelegate (DelegatorAddress ValidatorSrcAddress : string)
  | OtherMsg (typeURL : string).

(** [tx_ext] is [None] for a transaction that has no extension options at all. *)
Record Tx := MkTx { tx_msgs : list Msg; tx_ext : option (list string) }.

Definition AnteHandler : Type := Ctx -> Tx -> bool -> outcome Ctx.
Definition AnteDecorator : Type := Ctx -> Tx -> bool -> AnteHandler -> outcome Ctx.

(** [sdk.ChainAnteDecorators] and the constructors of the decorators the chains
    use, on the types of the options' fields. *)
Class AnteEnv := {
  FeeMarketParams : Type;
  EvmParams : Type;
  Codec : Type;
  AuthKeeper : Type;
  AnteBankKeeper : Type;
  IBCKeeper_t : Type;
  FeeMarketKeeper_t : Type;
  EvmKeeper_t : Type;
  FeegrantKeeper_t : Type;
  ExtensionOptionChecker_t : Type;
  SignModeHandler_t : Type;
  SigGasConsumer_t : Type;
  PendingTxListener_t : Type;
  TxFeeChecker : Type;
  FeeMarket_GetParams : FeeMarketKeeper_t -> Ctx -> FeeMarketParams;
  Evm_GetParams : EvmKeeper_t -> Ctx -> EvmParams;
  ChainAnteDecorators : list AnteDecorator -> AnteHandler;
  NewDynamicFeeChecker : FeeMarketParams -> TxFeeChecker;
  NewRejectMessagesDecorator : AnteDecorator;
  NewAuthzLimiterDecorator : list string -> AnteDecorator;
  NewSetUpContextDecorator : AnteDecorator;
  NewExtensionOptionsDecorator : option ExtensionOptionChecker_t -> AnteDecorator;
  NewValidateBasicDecorator : AnteDecorator;
  NewTxTimeoutHeightDecorator : AnteDecorator;
  NewValidateMemoDecorator : AuthKeeper -> AnteDecorator;
  NewMinGasPriceDecorator : FeeMarketParams -> AnteDecorator;
  NewConsumeGasForTxSizeDecorator : AuthKeeper -> AnteDecorator;
  NewDeductFeeDecorator :
    AuthKeeper -> option AnteBankKeeper -> option FeegrantKeeper_t -> option TxFeeChecker -> AnteDecorator;
  NewSetPubKeyDecorator : AuthKeeper -> AnteDecorator;
  NewValidateSigCountDecorator : AuthKeeper -> AnteDecorator;
  NewSigGasConsumeDecorator : AuthKeeper -> option SigGasConsumer_t -> AnteDecorator;
  NewSigVerificationDecorator : AuthKeeper -> option SignModeHandler_t -> AnteDecorator;
  NewIncrementSequenceDecorator : AuthKeeper -> AnteDecorator;
  NewRedundantRelayDecorator : option IBCKeeper_t -> AnteDecorator;
  NewEVMMonoDecorator :
    AuthKeeper -> FeeMarketKeeper_t -> EvmKeeper_t -> Z -> EvmParams -> FeeMarketParams -> AnteDecorator;
  NewTxListenerDecorator : option PendingTxListener_t -> AnteDecorator;
  MsgTypeURL_MsgEthereumTx : string;
  MsgTypeURL_MsgCreateVestingAccount : string;
}.

(** A chain runs its first decorator, with the rest of the chain as [next]. *)
Class AnteLaws `{AnteEnv} : Prop := {
  ChainAnteDecorators_cons d ds ctx tx sim :
    ChainAnteDecorators (d :: ds) ctx tx sim = d ctx tx sim (ChainAnteDecorators ds);
}.

(** * Options *)

(** Pointers, interfaces and functions may be nil. *)
Record HandlerOptions `{AnteEnv} := MkHandlerOptions {
  opt_Cdc : option Codec;
  opt_AccountKeeper : AuthKeeper;
  opt_BankKeeper : option AnteBankKeeper;
  opt_IBCKeeper : option IBCKeeper_t;
  opt_FeeMarketKeeper : option FeeMarketKeeper_t;
  opt_EvmKeeper : option EvmKeeper_t;
  opt_FeegrantKeeper : option FeegrantKeeper_t;
  opt_ExtensionOptionChecker : option ExtensionOptionChecker_t;
  opt_SignModeHandler : option SignModeHandler_t;
  opt_SigGasConsumer : option SigGasConsumer_t;
  opt_MaxTxGasWanted : Z;
  opt_DynamicFeeChecker : bool;
  opt_PendingTxListener : option PendingTxListener_t;
}.

Section Ante.
Context `{SdkTypes} `{AnteEnv}.

Definition required {A} (o : option A) (msg : string) : outcome unit :=
  match o with None => Err (SdkErr ErrLogic msg) | Some _ => Ok tt end.

Definition HandlerOptions_Validate (options : HandlerOptions) : outcome unit :=
  _ ← required (opt_Cdc options) "codec is required for AnteHandler";
  _ ← required (opt_BankKeeper options) "bank keeper is required for AnteHandler";
  _ ← required (opt_SigGasConsumer options) "signature gas consumer is required for AnteHandler";
  _ ← required (opt_SignModeHandler options) "sign mode handler is required for AnteHandler";
  _ ← required (opt_FeeMarketKeeper options) "fee market keeper is required for AnteHandler";
  _ ← required (opt_EvmKeeper options) "evm keeper is required for AnteHandler";
  Ok tt.

(** * The redelegation marker *)

(** The loop over the messages: the context with the pairs marked. *)
Fixpoint mark_redelegations (ctx : Ctx) (msgs : list Msg) : outcome Ctx :=
  match msgs with
  | [] => Ok ctx
  | MsgBeginRedelegate del src :: rest =>
      delAddr ← AccAddressFromBech32 del;
      valSrcAddr ← ValAddressFromBech32 src;
      mark_redelegations (WithRedelegating ctx delAddr valSrcAddr) rest
  | OtherMsg _ :: rest => mark_redelegations ctx rest
  end.

Definition RedelegationMarkerDecorator_AnteHandle : AnteDecorator :=
  fun ctx tx simulate next =>
    ctx' ← mark_redelegations ctx (tx_msgs tx);
    next ctx' tx simulate.

(** * The two chains *)

(** A method call on a nil interface panics. *)
Definition deref {A} (o : option A) : outcome A :=
  match o with Some a => Ok a | None => Panic NilDeref end.

Definition newCosmosAnteHandler (ctx : Ctx) (options : HandlerOptions) : outcome AnteHandler :=
  fmk ← deref (opt_FeeMarketKeeper options);
  let feemarketParams := FeeMarket_GetParams fmk ctx in
  let txFeeChecker :=
    if opt_DynamicFeeChecker options then Some (NewDynamicFeeChecker feemarketParams) else None in
  let ak := opt_AccountKeeper options in
  Ok (ChainAnteDecorators
    [RedelegationMarkerDecorator_AnteHandle;
     NewRejectMessagesDecorator;
     NewAuthzLimiterDecorator [MsgTypeURL_MsgEthereumTx; MsgTypeURL_MsgCreateVestingAccount];
     NewSetUpContextDecorator;
     NewExtensionOptionsDecorator (opt_ExtensionOptionChecker options);
     NewValidateBasicDecorator;
     NewTxTimeoutHeightDecorator;
     NewValidateMemoDecorator ak;
     NewMinGasPriceDecorator feemarketParams;
     NewConsumeGasForTxSizeDecorator ak;
     NewDeductFeeDecorator ak (opt_BankKeeper options) (opt_FeegrantKeeper options) txFeeChecker;
     NewSetPubKeyDecorator ak;
     NewValidateSigCountDecorator ak;
     NewSigGasConsumeDecorator ak (opt_SigGasConsumer options);
     NewSigVerificationDecorator ak (opt_SignModeHandler options);
     NewIncrementSequenceDecorator ak;
     NewRedundantRelayDecorator (opt_IBCKeeper options)]).

Definition newMonoEVMAnteHandler (ctx : Ctx) (options : HandlerOptions) : outcome AnteHandler :=
  ek ← deref (opt_EvmKeeper options);
  let evmParams := Evm_GetParams ek ctx in
  fmk ← deref (opt_FeeMarketKeeper options);
  let feemarketParams := FeeMarket_GetParams fmk ctx in
  Ok (ChainAnteDecorators
    [NewEVMMonoDecorator (opt_AccountKeeper options) fmk ek (opt_MaxTxGasWanted options)
       evmParams feemarketParams;
     NewTxListenerDecorator (opt_PendingTxListener options)]).

(** * Routing *)

Definition EthereumTxURL : string := "/cosmos.evm.vm.v1.ExtensionOptionsEthereumTx".
Definition DynamicFeeTxURL : string := "/cosmos.evm.ante.v1.ExtensionOptionDynamicFeeTx".

(** Every transaction is an [sdk.Tx], so the last [default] is not reached. *)
Definition NewAnteHandler (options : HandlerOptions) : AnteHandler :=
  fun ctx tx sim =>
    match tx_ext tx with
    | Some (typeURL :: _) =>
        if String.eqb typeURL EthereumTxURL then
          anteHandler ← newMonoEVMAnteHandler ctx options; anteHandler ctx tx sim
        else if String.eqb typeURL DynamicFeeTxURL then
          anteHandler ← newCosmosAnteHandler ctx options; anteHandler ctx tx sim
        else Err (SdkErr ErrUnknownExtensionOptions
                    "rejecting tx with unsupported extension option: %s")
    | _ => anteHandler ← newCosmosAnteHandler ctx options; anteHandler ctx tx sim
    end.
End Ante.

(** * Properties *)

Section AnteProps.
Context `{SdkTypes} `{AnteLaws}.

(** The transaction redelegates from this validator. *)
Definition redelegates (msgs : list Msg) (d v : bytes) : Prop :=
  exists del src, MsgBeginRedelegate del src ∈ msgs /\
    AccAddressFromBech32 del = Ok d /\ ValAddressFromBech32 src = Ok v.

(** Delegator addresses of one length [n], as all accounts of the chain have. *)
Definition delegators_of_length (n : nat) (msgs : list Msg) : Prop :=
  forall del src d, MsgBeginRedelegate del src ∈ msgs ->
    AccAddressFromBech32 del = Ok d -> length d = n.

Lemma delegators_of_length_cons n m ms :
  delegators_of_length n (m :: ms) -> delegators_of_length n ms.
Proof. intros L del src d M. apply (L del src). by right. Qed.

Lemma mark_redelegations_marks n msgs ctx ctx' d v :
  delegators_of_length n msgs -> length d = n -> mark_redelegations ctx msgs = Ok ctx' ->
  isRedelegating ctx' d v = true <-> isRedelegating ctx d v = true \/ redelegates msgs d v.
Proof.
  intros L D. revert ctx. induction msgs as [|[del src|url] msgs IH]; intros ctx E;
    cbn [mark_redelegations] in E.
  - injection E as <-. split; [by left|]. intros [?|(del & src & M & _)]; [done|].
    by apply not_elem_of_nil in M.
  - apply bind_Ok in E as (a & EA & E). apply bind_Ok in E as (b & EB & E).
    rewrite (IH (delegators_of_length_cons _ _ _ L) _ E).
    rewrite isRedelegating_With by (rewrite D; by apply (L del src); [left|]).
    split.
    + intros [[[-> ->]|?]|(del' & src' & M & R)]; [right|by left|right].
      * exists del, src. split; [left|done].
      * exists del', src'. split; [by right|done].
    + intros [?|(del' & src' & M & EA' & EB')]; [by left; right|].
      apply elem_of_cons in M as [[= <- <-]|M]; [|right; by exists del', src'].
      left. left. split; congruence.
  - rewrite (IH (delegators_of_length_cons _ _ _ L) _ E). split.
    + intros [?|(del & src & M & R)]; [by left|right]. exists del, src. split; [by right|done].
    + intros [?|(del & src & M & R)]; [by left|right].
      apply elem_of_cons in M as [[=]|M]. by exists del, src.
Qed.

Lemma mark_redelegations_time msgs ctx ctx' :
  mark_redelegations ctx msgs = Ok ctx' -> BlockTime ctx' = BlockTime ctx.
Proof.
  revert ctx. induction msgs as [|[del src|url] msgs IH]; intros ctx E; cbn [mark_redelegations] in E.
  - by injection E as <-.
  - apply bind_Ok in E as (a & _ & E). apply bind_Ok in E as (b & _ & E). by apply IH in E.
  - by apply IH in E.
Qed.

(** The first decorator of the Cosmos chain hands on a context in which
    exactly the pairs already marked and the (delegator, source validator) pairs
    of the transaction's MsgBeginRedelegate messages are marked; the block time
    is unchanged, and an undecodable address stops the chain with an error. *)
Theorem redelegation_marker_marks n ctx tx sim next r d v :
  delegators_of_length n (tx_msgs tx) -> length d = n ->
  RedelegationMarkerDecorator_AnteHandle ctx tx sim next = Ok r ->
  exists ctx', next ctx' tx sim = Ok r /\ BlockTime ctx' = BlockTime ctx /\
    (isRedelegating ctx' d v = true
       <-> isRedelegating ctx d v = true \/ redelegates (tx_msgs tx) d v).
Proof.
  intros L D E. unfold RedelegationMarkerDecorator_AnteHandle in E.
  apply bind_Ok in E as (ctx' & M & E). exists ctx'. split; [done|].
  split; [by eapply mark_redelegations_time|by eapply mark_redelegations_marks].
Qed.

(** A transaction runs the EVM chain when its first extension option is the
    Ethereum one, is rejected when that option is any other but the dynamic-fee
    one, and otherwise runs the Cosmos chain, which begins with the redelegation
    marker. *)
Theorem ante_routing (options : HandlerOptions) ctx tx sim :
  match tx_ext tx with
  | Some (url :: _) =>
      (url = EthereumTxURL -> NewAnteHandler options ctx tx sim
         = newMonoEVMAnteHandler ctx options ≫= fun h => h ctx tx sim) /\
      (url <> EthereumTxURL -> url <> DynamicFeeTxURL ->
         exists m, NewAnteHandler options ctx tx sim = Err (SdkErr ErrUnknownExtensionOptions m)) /\
      (url = DynamicFeeTxURL -> forall fmk, opt_FeeMarketKeeper options = Some fmk ->
         exists rest, NewAnteHandler options ctx tx sim
           = RedelegationMarkerDecorator_AnteHandle ctx tx sim (ChainAnteDecorators rest))
  | _ => forall fmk, opt_FeeMarketKeeper options = Some fmk ->
         exists rest, NewAnteHandler options ctx tx sim
           = RedelegationMarkerDecorator_AnteHandle ctx tx sim (ChainAnteDecorators rest)
  end.
Proof.
  assert (C : forall fmk, opt_FeeMarketKeeper options = Some fmk ->
    exists rest, (newCosmosAnteHandler ctx options ≫= fun h => h ctx tx sim)
      = RedelegationMarkerDecorator_AnteHandle ctx tx sim (ChainAnteDecorators rest)).
  { intros fmk E. unfold newCosmosAnteHandler. rewrite E. cbn [deref mbind outcome_bind].
    rewrite ChainAnteDecorators_cons. eauto. }
  unfold NewAnteHandler. destruct (tx_ext tx) as [[|url urls]|]; [done| |done].
  split; [intros ->; by rewrite String.eqb_refl|]. split.
  - intros N1 N2. rewrite (proj2 (String.eqb_neq _ _) N1), (proj2 (String.eqb_neq _ _) N2). eauto.
  - intros ->. exact C.
Qed.

(** A transaction with a MsgBeginRedelegate from a validator passes both
    staking hooks for that (delegator, validator) pair whatever the account has
    locked: the mark covers every message of the transaction, so a plain
    undelegation from the same validator in it is not checked either. *)
Theorem marked_pair_skips_lock_check `{SdkMath} {S X : Type} `{KVStore S} `{StakingKeeper X}
    n ctx ctx' tx d v (s : S) (x : X) :
  delegators_of_length n (tx_msgs tx) -> length d = n ->
  mark_redelegations ctx (tx_msgs tx) = Ok ctx' -> redelegates (tx_msgs tx) d v ->
  BeforeDelegationRemoved ctx' s x d v = Ok tt /\ AfterDelegationModified ctx' s x d v = Ok tt.
Proof.
  intros L D M R. assert (isRedelegating ctx' d v = true) as I
    by (eapply mark_redelegations_marks; eauto).
  unfold BeforeDelegationRemoved, AfterDelegationModified. by rewrite I.
Qed.
End AnteProps.
