(* ===== verification/AnteRuns.v ===== *)
(** The ante handler's theorems on a concrete transaction. *)

From stdpp Require Import base list strings gmap.
From Stdlib Require Import ZArith Lia.
From S2P Require Import Prelude GoTime Sdk LockPb LockStore LockSpec LockupKeeper LockupMsgs LockupQuery LockupRuns Testnet Ante.
Import Toy.

Local Open Scope Z_scope.

(** Decorators that pass everything on. *)
Module ToyAnte.
Definition pass : AnteDecorator := fun ctx tx sim next => next ctx tx sim.

Fixpoint chain (ds : list AnteDecorator) : AnteHandler :=
  match ds with
  | [] => fun ctx _ _ => Ok ctx
  | d :: ds' => fun ctx tx sim => d ctx tx sim (chain ds')
  end.

#[export] Instance toy_ante : AnteEnv := {
  FeeMarketParams := unit; EvmParams := unit; Codec := unit; AuthKeeper := unit;
  AnteBankKeeper := unit; IBCKeeper_t := unit; FeeMarketKeeper_t := unit; EvmKeeper_t := unit;
  FeegrantKeeper_t := unit; ExtensionOptionChecker_t := unit; SignModeHandler_t := unit;
  SigGasConsumer_t := unit; PendingTxListener_t := unit; TxFeeChecker := unit;
  FeeMarket_GetParams _ _ := tt; Evm_GetParams _ _ := tt;
  ChainAnteDecorators := chain;
  NewDynamicFeeChecker _ := tt;
  NewRejectMessagesDecorator := pass; NewAuthzLimiterDecorator _ := pass;
  NewSetUpContextDecorator := pass; NewExtensionOptionsDecorator _ := pass;
  NewValidateBasicDecorator := pass; NewTxTimeoutHeightDecorator := pass;
  NewValidateMemoDecorator _ := pass; NewMinGasPriceDecorator _ := pass;
  NewConsumeGasForTxSizeDecorator _ := pass; NewDeductFeeDecorator _ _ _ _ := pass;
  NewSetPubKeyDecorator _ := pass; NewValidateSigCountDecorator _ := pass;
  NewSigGasConsumeDecorator _ _ := pass; NewSigVerificationDecorator _ _ := pass;
  NewIncrementSequenceDecorator _ := pass; NewRedundantRelayDecorator _ := pass;
  NewEVMMonoDecorator _ _ _ _ _ _ := pass; NewTxListenerDecorator _ := pass;
  MsgTypeURL_MsgEthereumTx := "/cosmos.evm.vm.v1.MsgEthereumTx";
  MsgTypeURL_MsgCreateVestingAccount := "/cosmos.vesting.v1beta1.MsgCreateVestingAccount";
}.

#[export] Instance toy_ante_laws : AnteLaws.
Proof. split. done. Qed.
End ToyAnte.
Import ToyAnte.

(** Alice redelegates from val, and undelegates from val in the same transaction. *)
Definition redelegate_tx : Tx :=
  MkTx [MsgBeginRedelegate "alice" "val"; OtherMsg "/cosmos.staking.v1beta1.MsgUndelegate"] None.

Definition marked_ctx : Ctx := WithRedelegating run_ctx alice val.

Lemma redelegate_tx_length : delegators_of_length 5 (tx_msgs redelegate_tx).
Proof.
  intros del src d M E. simpl in M. apply elem_of_cons in M as [[= -> ->]|M].
  - injection E as <-. reflexivity.
  - apply list_elem_of_singleton in M. discriminate M.
Qed.

Lemma redelegate_tx_redelegates : redelegates (tx_msgs redelegate_tx) alice val.
Proof. exists "alice", "val". split; [left|]. split; reflexivity. Qed.

Lemma redelegation_marker_marks_witness :
  exists ctx', Ok ctx' = Ok marked_ctx /\ BlockTime ctx' = BlockTime run_ctx /\
    (isRedelegating ctx' alice val = true
       <-> isRedelegating run_ctx alice val = true \/ redelegates (tx_msgs redelegate_tx) alice val).
Proof.
  exact (redelegation_marker_marks 5 run_ctx redelegate_tx false (fun ctx _ _ => Ok ctx) marked_ctx
    alice val redelegate_tx_length eq_refl eq_refl).
Defined.

Definition toy_options : HandlerOptions (H := toy_ante) :=
  @MkHandlerOptions toy_ante (Some tt) tt (Some tt) None (Some tt) (Some tt) None None (Some tt)
    (Some tt) 0 false None.

Lemma ante_routing_witness :
  exists m, NewAnteHandler toy_options run_ctx (MkTx [] (Some ["/other"])) false
    = Err (SdkErr ErrUnknownExtensionOptions m).
Proof.
  apply (ante_routing toy_options run_ctx (MkTx [] (Some ["/other"])) false); discriminate.
Defined.

(** Alice has 300 locked; removing all she has delegated passes the hooks. *)
Lemma marked_pair_skips_lock_check_witness :
  BeforeDelegationRemoved marked_ctx (w_store run_w1) (MkNet ∅ [(alice, ("val", 500))] ["val"])
    alice val = Ok tt /\
  AfterDelegationModified marked_ctx (w_store run_w1) (MkNet ∅ [(alice, ("val", 500))] ["val"])
    alice val = Ok tt.
Proof.
  apply (marked_pair_skips_lock_check 5 run_ctx marked_ctx redelegate_tx alice val);
    [apply redelegate_tx_length|reflexivity|reflexivity|apply redelegate_tx_redelegates].
Defined.
