(* ===== verification/Cli.v ===== *)
(** The lockup module's transaction commands (x/lockup/client/cli/tx.go): how
    command-line arguments become messages.  The command framework, the client
    context and the broadcast are parameters; the flags a command carries stay
    in the abstract [Command]. *)

From stdpp Require Import base list strings gmap.
From Stdlib Require Import ZArith Lia.
From Stdlib.Init Require Import Byte.
From S2P Require Import Prelude GoTime Sdk LockPb LockStore LockSpec LockupKeeper LockupMsgs LockupInv LockupProps LockupQuery.

Local Open Scope Z_scope.

(** The message a command submits. *)
Inductive LockupMsg :=
  | SubmitLock (m : MsgLock)
  | SubmitExtend (m : MsgExtend)
  | SubmitSend (m : MsgSendDelegateAndLock)
  | SubmitMulti (m : MsgMultiSendDelegateAndLock).

(** spf13/cobra's argument checks and the SDK's client package. *)
Class ClientTx := {
  Command : Type;
  ClientContext : Type;
  TxResult : Type;
  ExactArgs : Z -> list string -> outcome unit;
  MinimumNArgs : Z -> list string -> outcome unit;
  GetClientTxContext : Command -> outcome ClientContext;
  GetFromAddress : ClientContext -> bytes;
  GenerateOrBroadcastTxCLI : ClientContext -> Command -> LockupMsg -> outcome TxResult;
}.

(** A check accepts exactly the argument counts it is named for. *)
Class ClientTxLaws `{ClientTx} : Prop := {
  ExactArgs_spec n args : ExactArgs n args = Ok tt <-> zlen args = n;
  MinimumNArgs_spec n args : MinimumNArgs n args = Ok tt <-> n <= zlen args;
}.

(** [math.NewIntFromString] reads back what [Int.String] prints, which is a sign
    and digits. *)
Class IntText `{SdkMath} : Prop := {
  Int_String_parse a : int_ok a = true -> NewIntFromString (Int_String a) = Some a;
  Int_String_no_colon a : x3a ∉ bytes_of_string (Int_String a);
}.

(** [args[i]]. *)
Definition arg (args : list string) (i : nat) : outcome string :=
  match args !! i with Some s => Ok s | None => Panic SliceBounds end.

(** [strings.Split(arg, ":")]. *)
Definition split_colon (s : string) : list string :=
  map string_of_bytes (Split (bytes_of_string s) x3a).

Definition cli_denom : string := "aTSC".

Section Commands.
Context `{SdkMath} `{SdkTypes} `{ClientTx}.

(** [amount, ok := math.NewIntFromString(s)] followed by [sdk.NewCoin]; the
    error text is the caller's. *)
Definition parse_amount (msg s : string) : outcome Z :=
  from_option_err (FmtErr msg) (NewIntFromString s).

(** ** CmdLock *)

Definition CmdLock_msg (clientCtx : ClientContext) (args : list string) : outcome MsgLock :=
  unlockDate ← arg args 0;
  text ← arg args 1;
  amount ← parse_amount "invalid amount: %s" text;
  coin ← NewCoin cli_denom amount;
  let msg := MkMsgLock (AccAddress_String (GetFromAddress clientCtx)) unlockDate coin in
  _ ← MsgLock_ValidateBasic msg;
  Ok msg.

Definition CmdLock (cmd : Command) (args : list string) : outcome TxResult :=
  _ ← ExactArgs 2 args;
  clientCtx ← GetClientTxContext cmd;
  msg ← CmdLock_msg clientCtx args;
  GenerateOrBroadcastTxCLI clientCtx cmd (SubmitLock msg).

(** ** CmdExtend *)

(** One round of the loop: the argument at position [i]. *)
Definition parse_extension (a : string) : outcome Extension :=
  match split_colon a with
  | [fromDate; toDate; text] =>
      amount ← parse_amount "invalid amount at position %d: %s" text;
      coin ← NewCoin cli_denom amount;
      Ok (MkExtension fromDate toDate coin)
  | _ => Err (FmtErr "invalid extension format at position %d: expected 'from-date:to-date:amount', got '%s'")
  end.

Fixpoint parse_extensions (args : list string) (extensions : list (option Extension))
    : outcome (list (option Extension)) :=
  match args with
  | [] => Ok extensions
  | a :: rest =>
      e ← parse_extension a;
      parse_extensions rest (extensions ++ [Some e])
  end.

Definition CmdExtend_msg (clientCtx : ClientContext) (args : list string) : outcome MsgExtend :=
  extensions ← parse_extensions args [];
  let msg := MkMsgExtend (AccAddress_String (GetFromAddress clientCtx)) extensions in
  _ ← MsgExtend_ValidateBasic msg;
  Ok msg.

Definition CmdExtend (cmd : Command) (args : list string) : outcome TxResult :=
  _ ← MinimumNArgs 1 args;
  clientCtx ← GetClientTxContext cmd;
  msg ← CmdExtend_msg clientCtx args;
  GenerateOrBroadcastTxCLI clientCtx cmd (SubmitExtend msg).

(** ** CmdSendDelegateAndLock *)

Definition CmdSend_msg (clientCtx : ClientContext) (args : list string)
    : outcome MsgSendDelegateAndLock :=
  toAddress ← arg args 0;
  validatorAddress ← arg args 1;
  unlockDate ← arg args 2;
  text ← arg args 3;
  amount ← parse_amount "invalid amount: %s" text;
  coin ← NewCoin cli_denom amount;
  let msg := MkMsgSendDelegateAndLock (AccAddress_String (GetFromAddress clientCtx))
               toAddress validatorAddress unlockDate coin in
  _ ← MsgSendDelegateAndLock_ValidateBasic msg;
  Ok msg.

Definition CmdSendDelegateAndLock (cmd : Command) (args : list string) : outcome TxResult :=
  _ ← ExactArgs 4 args;
  clientCtx ← GetClientTxContext cmd;
  msg ← CmdSend_msg clientCtx args;
  GenerateOrBroadcastTxCLI clientCtx cmd (SubmitSend msg).

(** ** CmdMultiSendDelegateAndLock *)

(** One round of the loop; the total is added up before the coin is built. *)
Definition parse_output (a : string) (totalAmount : Z)
    : outcome (MultiSendDelegateAndLockOutput * Z) :=
  match split_colon a with
  | [toAddress; validatorAddress; unlockDate; text] =>
      amount ← parse_amount "invalid amount at position %d: %s" text;
      totalAmount ← Int_Add totalAmount amount;
      coin ← NewCoin cli_denom amount;
      Ok (MkOutput "" toAddress validatorAddress unlockDate coin, totalAmount)
  | _ => Err (FmtErr "invalid output format at position %d: expected 'to-address:validator-address:unlock-date:amount', got '%s'")
  end.

Fixpoint parse_outputs (args : list string)
    (outputs : list (option MultiSendDelegateAndLockOutput)) (totalAmount : Z)
    : outcome (list (option MultiSendDelegateAndLockOutput) * Z) :=
  match args with
  | [] => Ok (outputs, totalAmount)
  | a :: rest =>
      '(o, totalAmount) ← parse_output a totalAmount;
      parse_outputs rest (outputs ++ [Some o]) totalAmount
  end.

Definition CmdMulti_msg (clientCtx : ClientContext) (args : list string)
    : outcome MsgMultiSendDelegateAndLock :=
  '(outputs, totalAmount) ← parse_outputs args [] 0;
  coin ← NewCoin cli_denom totalAmount;
  let msg := MkMsgMultiSendDelegateAndLock (AccAddress_String (GetFromAddress clientCtx))
               coin outputs in
  _ ← MsgMultiSendDelegateAndLock_ValidateBasic msg;
  Ok msg.

Definition CmdMultiSendDelegateAndLock (cmd : Command) (args : list string) : outcome TxResult :=
  _ ← MinimumNArgs 1 args;
  clientCtx ← GetClientTxContext cmd;
  msg ← CmdMulti_msg clientCtx args;
  GenerateOrBroadcastTxCLI clientCtx cmd (SubmitMulti msg).
End Commands.
