(* ===== verification/CliProps.v ===== *)
(** What the transaction commands guarantee about the messages they submit:
    the stated total of a multi-send is the sum of its outputs, typed arguments
    come back as the message they describe, and a negative amount ends in a
    panic. *)

From stdpp Require Import base list strings gmap pretty.
From Stdlib Require Import ZArith Lia.
From Stdlib.Init Require Import Byte.
From S2P Require Import Prelude GoTime Sdk LockPb LockStore LockSpec LockupKeeper LockupMsgs LockupInv LockupProps LockupQuery Testnet Cli.

Local Open Scope Z_scope.

(** * Splitting and joining *)

(** [strings.Join(parts, ":")], the text a user types. *)
Fixpoint join_colon (parts : list string) : string :=
  match parts with
  | [] => ""
  | [p] => p
  | p :: ps => p +:+ ":" +:+ join_colon ps
  end.

Definition no_colon (s : string) : Prop := x3a ∉ bytes_of_string s.

#[export] Instance no_colon_dec s : Decision (no_colon s).
Proof. unfold no_colon. apply _. Defined.

Lemma bytes_of_string_app a b : bytes_of_string (a +:+ b) = bytes_of_string a ++ bytes_of_string b.
Proof.
  unfold bytes_of_string, String.list_byte_of_string. rewrite <- map_app. f_equal.
  induction a as [|c a IH]; [done|]. simpl. by rewrite IH.
Qed.

Lemma Split_no_sep p sep : sep ∉ p -> Split p sep = [p].
Proof.
  induction p as [|c p IH]; [done|]. intros [N1 N2]%not_elem_of_cons. cbn [Split].
  rewrite IH by done. destruct (Byte.eqb c sep) eqn:E; [|done].
  by apply Byte.byte_dec_bl in E.
Qed.

Lemma Split_app p sep r : sep ∉ p -> Split (p ++ sep :: r) sep = p :: Split r sep.
Proof.
  induction p as [|c p IH]; cbn [app Split].
  - intros _. by rewrite (Byte.byte_dec_lb eq_refl).
  - intros [N1 N2]%not_elem_of_cons. rewrite IH by done.
    destruct (Byte.eqb c sep) eqn:E; [|done]. by apply Byte.byte_dec_bl in E.
Qed.

Lemma split_join parts : parts <> [] -> Forall no_colon parts -> split_colon (join_colon parts) = parts.
Proof.
  intros N F. unfold split_colon. induction F as [|p ps C F IH]; [done|].
  destruct ps as [|q ps].
  - cbn [join_colon]. rewrite Split_no_sep by done. simpl. by rewrite string_of_bytes_of_string.
  - change (join_colon (p :: q :: ps)) with (p +:+ ":" +:+ join_colon (q :: ps)).
    rewrite !bytes_of_string_app. change (bytes_of_string ":") with [x3a]. cbn [app].
    rewrite Split_app by done. cbn [map]. by rewrite string_of_bytes_of_string, IH.
Qed.

(** * What a command submits *)

Section Submitted.
Context `{SdkMathLaws} `{!SdkTypes} `{!SdkCoinLaws} {CT : ClientTx}.

Lemma NewCoin_Ok d a c : NewCoin d a = Ok c -> c = NewCoinRec d a /\ 0 <= a.
Proof.
  intros E. split; [by apply NewCoin_spec|]. destruct (Z.lt_ge_cases a 0) as [L|L]; [|done].
  destruct (NewCoin_negative d a L) as [p E']. congruence.
Qed.

(** The output an argument of the multi-send command describes. *)
Definition describes_output (a : string) (o : option MultiSendDelegateAndLockOutput) : Prop :=
  exists to val date text amount,
    split_colon a = [to; val; date; text] /\ NewIntFromString text = Some amount /\ 0 <= amount /\
    o = Some (MkOutput "" to val date (NewCoinRec cli_denom amount)).

Lemma parse_output_Ok a t o t' :
  parse_output a t = Ok (o, t') ->
  describes_output a (Some o) /\ t' = t + Amount (Output_Amount o) /\ int_ok t' = true.
Proof.
  unfold parse_output, parse_amount.
  destruct (split_colon a) as [|to [|val [|date [|text [|]]]]] eqn:ES; try discriminate.
  intros (amount & EA%from_option_err_Ok & E)%bind_Ok.
  apply bind_Ok in E as (t1 & ET & E). apply bind_Ok in E as (c & EC & E). injection E as <- <-.
  int_facts. apply NewCoin_Ok in EC as [-> ?]. split; [|done]. by exists to, val, date, text, amount.
Qed.

Definition sum_outputs (outs : list (option MultiSendDelegateAndLockOutput)) : Z :=
  foldr (fun o n => output_amount o + n) 0 outs.

Lemma parse_outputs_Ok args : forall acc t outs t',
  int_ok t = true -> parse_outputs args acc t = Ok (outs, t') ->
  exists new, outs = acc ++ new /\ Forall2 describes_output args new /\
    t' = t + sum_outputs new /\ int_ok t' = true.
Proof.
  induction args as [|a args IH]; intros acc t outs t' I E; cbn [parse_outputs] in E.
  - injection E as <- <-. exists []. rewrite app_nil_r. simpl. repeat split; [constructor|lia|done].
  - apply bind_Ok in E as ([o t1] & E1 & E). apply parse_output_Ok in E1 as (D & T1 & I1).
    apply IH in E as (new & -> & F & -> & I2); [|done]. exists (Some o :: new).
    rewrite <- app_assoc. split; [done|]. split; [by constructor|].
    cbn [sum_outputs foldr output_amount]. split; [|done]. unfold sum_outputs. lia.
Qed.

Lemma total_outputs_complete outs : forall acc,
  0 <= acc -> Forall (fun o => 0 < output_amount o) outs -> int_ok (acc + sum_outputs outs) = true ->
  total_outputs outs acc = Ok (acc + sum_outputs outs).
Proof.
  induction outs as [|o outs IH]; intros acc A F I; cbn [total_outputs].
  - simpl. f_equal. lia.
  - apply Forall_cons in F as [P F]. destruct o as [o|]; [|simpl in P; lia].
    cbn [output_amount sum_outputs foldr] in *. fold (sum_outputs outs) in *.
    unfold Coin_IsPositive. rewrite (proj2 (Z.ltb_lt _ _) P). cbn [negb].
    assert (0 <= sum_outputs outs).
    { clear -F. induction F; simpl; [lia|]. unfold sum_outputs in *. simpl. lia. }
    rewrite Int_Add_intro by (eapply int_ok_between; [exact I|lia]). cbn [mbind outcome_bind].
    rewrite IH; [f_equal; lia|lia|done|]. by rewrite <- Z.add_assoc.
Qed.

Lemma describes_output_nonneg args outs :
  Forall2 describes_output args outs -> Forall (fun o => 0 <= output_amount o) outs.
Proof. induction 1 as [|a o args outs (? & ? & ? & ? & ? & ? & ? & ? & ->)]; constructor; [done|done]. Qed.

(** Whatever the arguments, the message the multi-send command
    submits carries one output per argument, in order and with the argument's
    fields, all amounts in aTSC and none negative; its stated total is the sum of
    the outputs, so the check of the message server on the total holds for it
    whenever every amount is positive. *)
Theorem cli_multi_send_total (ctx : ClientContext) (args : list string) msg :
  CmdMulti_msg ctx args = Ok msg ->
  MsgMulti_FromAddress msg = AccAddress_String (GetFromAddress ctx) /\
  Forall2 describes_output args (MsgMulti_Outputs msg) /\
  MsgMulti_TotalAmount msg = NewCoinRec cli_denom (sum_outputs (MsgMulti_Outputs msg)) /\
  (Forall (fun o => 0 < output_amount o) (MsgMulti_Outputs msg) ->
   total_outputs (MsgMulti_Outputs msg) 0 = Ok (Amount (MsgMulti_TotalAmount msg))).
Proof.
  unfold CmdMulti_msg. intros E. apply bind_Ok in E as ([outs t] & E1 & E).
  apply bind_Ok in E as (c & E0 & E). apply bind_Ok in E as (? & _ & E). injection E as <-.
  apply parse_outputs_Ok in E1 as (new & -> & F & -> & I); [|done].
  apply NewCoin_Ok in E0 as [-> _]. cbn [MsgMulti_FromAddress MsgMulti_Outputs MsgMulti_TotalAmount Amount app].
  repeat split; [done|]. intros P. apply total_outputs_complete; [lia|done|done].
Qed.
End Submitted.

(** * Typed arguments come back as the message they describe *)

Lemma digit_no_colon a n : digit a = Some n -> Ascii.byte_of_ascii a <> x3a.
Proof.
  intros D E. apply (f_equal Ascii.ascii_of_byte) in E. rewrite Ascii.ascii_of_byte_of_ascii in E.
  by subst a.
Qed.

(** A date holds digits and dashes only. *)
Lemma date_no_colon s t : ParseDateOnly s = Some t -> no_colon s.
Proof.
  unfold ParseDateOnly. intros ([[y m] d] & P & _)%bind_Some.
  apply parse_civil_inv in P
    as (y1&y2&y3&y4&m1&m2&d1&d2&e1&e2&e3&e4&f1&f2&g1&g2&->&(E1&E2&E3&E4)&(F1&F2&G1&G2)&_).
  unfold no_colon, bytes_of_string, String.list_byte_of_string. cbn [String.list_ascii_of_string map].
  rewrite !not_elem_of_cons.
  repeat split; try (apply not_eq_sym; by eapply digit_no_colon); try done. apply not_elem_of_nil.
Qed.

Section RoundTrip.
Context `{SdkMathLaws} `{!SdkTypes} `{!SdkCoinLaws} {CT : ClientTx} `{!IntText}.

(** The arguments a user types for an extension and for an output. *)
Definition render_extension (e : Extension) : string :=
  join_colon [Extension_FromDate e; Extension_ToDate e; Int_String (Amount (Extension_Amount e))].
Definition render_output (o : MultiSendDelegateAndLockOutput) : string :=
  join_colon [Output_ToAddress o; Output_ValidatorAddress o; Output_UnlockDate o;
              Int_String (Amount (Output_Amount o))].

(** An amount the commands can express. *)
Definition cli_coin (c : Coin) : Prop :=
  Denom c = cli_denom /\ 0 <= Amount c /\ int_ok (Amount c) = true.

Lemma parse_cli_coin c e :
  ValidDenom cli_denom = true -> cli_coin c ->
  (amount ← parse_amount e (Int_String (Amount c)); NewCoin cli_denom amount) = Ok c.
Proof.
  intros V (D & A & I). unfold parse_amount. rewrite Int_String_parse by done.
  cbn [from_option_err mbind outcome_bind]. rewrite NewCoin_valid by done. by destruct c; simpl in *; subst.
Qed.

Lemma parse_render_extension e :
  ValidDenom cli_denom = true -> cli_coin (Extension_Amount e) ->
  no_colon (Extension_FromDate e) -> no_colon (Extension_ToDate e) ->
  parse_extension (render_extension e) = Ok e.
Proof.
  intros V C N1 N2. unfold parse_extension, render_extension.
  rewrite split_join; [|done|repeat constructor; [done|done|apply Int_String_no_colon]].
  pose proof (parse_cli_coin _ "invalid amount at position %d: %s" V C) as P.
  apply bind_Ok in P as (a & -> & P). cbn [mbind outcome_bind]. rewrite P.
  by destruct e.
Qed.

Lemma validate_extensions_dates es :
  validate_extensions (Some <$> es) = Ok tt ->
  Forall (fun e => no_colon (Extension_FromDate e) /\ no_colon (Extension_ToDate e) /\
                   0 < Amount (Extension_Amount e)) es.
Proof.
  induction es as [|e es IH]; cbn [fmap list_fmap validate_extensions]; [constructor|].
  intros E. unfold parse_date_or, Coin_IsPositive in E. ok_inv E. bool_to_prop.
  constructor; [|by apply IH]. repeat split; [by eapply date_no_colon..|lia].
Qed.

Lemma parse_extensions_render es : forall acc,
  ValidDenom cli_denom = true ->
  Forall (fun e => cli_coin (Extension_Amount e)) es ->
  Forall (fun e => no_colon (Extension_FromDate e) /\ no_colon (Extension_ToDate e)) es ->
  parse_extensions (render_extension <$> es) acc = Ok (acc ++ (Some <$> es)).
Proof.
  induction es as [|e es IH]; intros acc V C N; cbn [fmap list_fmap parse_extensions].
  - by rewrite app_nil_r.
  - apply Forall_cons in C as [C1 C], N as [[N1 N2] N].
    rewrite parse_render_extension by done. cbn [mbind outcome_bind].
    rewrite IH by done. by rewrite <- app_assoc.
Qed.

(** Typing the extensions of a valid MsgExtend as
    from-date:to-date:amount arguments makes the extend command build exactly
    that message. *)
Theorem cli_extend_roundtrip (ctx : ClientContext) (es : list Extension) :
  ValidDenom cli_denom = true ->
  Forall (fun e => Denom (Extension_Amount e) = cli_denom /\
                   int_ok (Amount (Extension_Amount e)) = true) es ->
  MsgExtend_ValidateBasic
    (MkMsgExtend (AccAddress_String (GetFromAddress ctx)) (Some <$> es)) = Ok tt ->
  CmdExtend_msg ctx (render_extension <$> es)
    = Ok (MkMsgExtend (AccAddress_String (GetFromAddress ctx)) (Some <$> es)).
Proof.
  intros V C B. unfold CmdExtend_msg.
  assert (validate_extensions (Some <$> es) = Ok tt) as D%validate_extensions_dates.
  { unfold MsgExtend_ValidateBasic in B. apply bind_Ok in B as (? & _ & B).
    case_match; [done|]. done. }
  rewrite parse_extensions_render; [|done| |].
  - cbn [mbind outcome_bind app]. by rewrite B.
  - eapply Forall_impl; [apply Forall_and; split; [exact C|exact D]|].
    intros e [[? ?] (? & ? & ?)]. split_and!; [done|lia|done].
  - eapply Forall_impl; [exact D|]. intros e (? & ? & ?). done.
Qed.

Lemma parse_outputs_render outs : forall acc t,
  ValidDenom cli_denom = true -> 0 <= t ->
  Forall (fun o => cli_coin (Output_Amount o) /\ Output_FromAddress o = "" /\
    Forall no_colon [Output_ToAddress o; Output_ValidatorAddress o; Output_UnlockDate o]) outs ->
  int_ok (t + sum_outputs (Some <$> outs)) = true ->
  parse_outputs (render_output <$> outs) acc t
    = Ok (acc ++ (Some <$> outs), t + sum_outputs (Some <$> outs)).
Proof.
  induction outs as [|o outs IH]; intros acc t V T F I; cbn [fmap list_fmap parse_outputs].
  - rewrite app_nil_r. simpl. by rewrite Z.add_0_r.
  - apply Forall_cons in F as [(C & Fr & N) F].
    assert (0 <= sum_outputs (Some <$> outs)).
    { clear -F. induction F as [|o outs [(_ & ? & _) _]]; cbn; [lia|]. unfold sum_outputs in *. lia. }
    cbn [sum_outputs fmap list_fmap foldr output_amount] in I |- *.
    fold (sum_outputs (Some <$> outs)) in *. destruct C as (D & A & IA).
    assert (parse_output (render_output o) t = Ok (o, t + Amount (Output_Amount o))) as ->.
    { unfold parse_output, render_output, parse_amount.
      rewrite split_join; [|done|apply Forall_app_2 with (l1 := [_;_;_]) (l2 := [_]); [done|]];
        [|constructor; [apply Int_String_no_colon|constructor]].
      rewrite Int_String_parse by done. cbn [from_option_err mbind outcome_bind].
      rewrite Int_Add_intro by (eapply int_ok_between; [exact I|lia]). cbn [mbind outcome_bind].
      rewrite NewCoin_valid by done. destruct o as [? ? ? ? [? ?]]. simpl in *. by subst. }
    cbn [mbind outcome_bind]. rewrite IH; [|done|lia|done|by rewrite <- Z.add_assoc].
    rewrite <- app_assoc. simpl. by rewrite Z.add_assoc.
Qed.
End RoundTrip.

(** * Accepted and refused arguments *)

Section Accepts.
Context `{SdkMathLaws} `{!SdkTypes} `{!SdkCoinLaws} {CT : ClientTx} `{!ClientTxLaws}.

(** The lock command submits a message exactly for two arguments, a calendar
    date and a positive integer, from an address that decodes. *)
Lemma CmdLock_msg_iff (ctx : ClientContext) d text msg :
  ValidDenom cli_denom = true ->
  CmdLock_msg ctx [d; text] = Ok msg <->
  exists amount t addr,
    NewIntFromString text = Some amount /\ 0 < amount /\ ParseDateOnly d = Some t /\
    AccAddressFromBech32 (AccAddress_String (GetFromAddress ctx)) = Ok addr /\
    msg = MkMsgLock (AccAddress_String (GetFromAddress ctx)) d (NewCoinRec cli_denom amount).
Proof.
  intros V. unfold CmdLock_msg, arg, parse_amount, MsgLock_ValidateBasic, parse_date_or, Coin_IsPositive.
  simpl. split.
  - intros E. apply bind_Ok in E as (amount & EA%from_option_err_Ok & E).
    apply bind_Ok in E as (c & [-> _]%NewCoin_Ok & E). cbn [MsgLock_Address MsgLock_UnlockDate MsgLock_Amount Amount] in E.
    apply bind_Ok in E as ([] & EV & E). injection E as <-.
    apply bind_Ok in EV as (addr & EB%wrap_err_Ok & EV). case_match eqn:Bd; [done|].
    apply bind_Ok in EV as (t & ET%from_option_err_Ok & EV). case_match eqn:Bp; [done|].
    apply negb_false_iff, Z.ltb_lt in Bp. by exists amount, t, addr.
  - intros (amount & t & addr & -> & P & ET & EA & ->). simpl. rewrite NewCoin_valid by (done || lia). simpl.
    rewrite EA. simpl. destruct (String.eqb_spec d "") as [->|_]; [done|].
    rewrite ET. simpl. by rewrite (proj2 (Z.ltb_lt _ _) P).
Qed.

(** Each command checks the number of its arguments before anything else. *)
Lemma commands_check_args (cmd : Command) args r :
  (CmdLock cmd args = Ok r -> length args = 2%nat) /\
  (CmdSendDelegateAndLock cmd args = Ok r -> length args = 4%nat) /\
  (CmdExtend cmd args = Ok r -> args <> []) /\
  (CmdMultiSendDelegateAndLock cmd args = Ok r -> args <> []).
Proof.
  unfold CmdLock, CmdSendDelegateAndLock, CmdExtend, CmdMultiSendDelegateAndLock.
  repeat split; intros ([] & E & _)%bind_Ok;
    first [apply ExactArgs_spec in E; unfold zlen in E; lia
          |apply MinimumNArgs_spec in E; intros ->; unfold zlen in E; simpl in E; lia].
Qed.

(** An amount that reads as a negative integer is not reported as
    an invalid amount: building the coin panics, in each of the four commands. *)
Theorem cli_negative_amount_panics (ctx : ClientContext) (text : string) (amount : Z) :
  NewIntFromString text = Some amount -> amount < 0 -> no_colon text ->
  (forall d, exists p, CmdLock_msg ctx [d; text] = Panic p) /\
  (forall to val d, exists p, CmdSend_msg ctx [to; val; d; text] = Panic p) /\
  (forall from to rest, no_colon from -> no_colon to ->
     exists p, CmdExtend_msg ctx (join_colon [from; to; text] :: rest) = Panic p) /\
  (forall to val d rest, no_colon to -> no_colon val -> no_colon d ->
     exists p, CmdMulti_msg ctx (join_colon [to; val; d; text] :: rest) = Panic p).
Proof.
  intros T A C. destruct (NewCoin_negative cli_denom amount A) as [p P].
  unfold CmdLock_msg, CmdSend_msg, CmdExtend_msg, CmdMulti_msg, parse_amount, arg.
  split_and!.
  - intros d. exists p. simpl. rewrite T. simpl. by rewrite P.
  - intros to val d. exists p. simpl. rewrite T. simpl. by rewrite P.
  - intros from to rest N1 N2. exists p. cbn [parse_extensions]. unfold parse_extension, parse_amount.
    rewrite split_join; [|done|by repeat constructor]. rewrite T. simpl. by rewrite P.
  - intros to val d rest N1 N2 N3. exists p. cbn [parse_outputs]. unfold parse_output, parse_amount.
    rewrite split_join; [|done|by repeat constructor]. rewrite T. simpl.
    rewrite Int_Add_intro by (by eapply NewIntFromString_ok). simpl. by rewrite P.
Qed.
End Accepts.

(** * Runs on the testnet *)

Module CliToy.
Import Toy.

#[export] Instance toy_client : ClientTx := {
  Command := unit;
  ClientContext := string;
  TxResult := LockupMsg;
  ExactArgs n args :=
    if zlen args =? n then Ok tt else Err (ExtErr "accepts %d arg(s), received %d");
  MinimumNArgs n args :=
    if n <=? zlen args then Ok tt else Err (ExtErr "requires at least %d arg(s), only received %d");
  GetClientTxContext _ := Ok "alice";
  GetFromAddress c := bytes_of_string c;
  GenerateOrBroadcastTxCLI _ _ m := Ok m;
}.

#[export] Instance toy_client_laws : ClientTxLaws.
Proof.
  split; intros n args; cbn [ExactArgs MinimumNArgs toy_client].
  - by destruct (Z.eqb_spec (zlen args) n).
  - by destruct (Z.leb_spec n (zlen args)); [|split; [done|lia]].
Qed.

Lemma decimal_pretty_N_go n s :
  decimal (pretty_N_go n s) 0 = decimal s (Z.of_N n).
Proof.
  revert s. induction (N.lt_wf_0 n) as [n _ IH]. intros s.
  destruct (decide (n = 0%N)) as [->|N]; [by rewrite pretty_N_go_0|].
  rewrite pretty_N_go_step by lia. rewrite IH by (apply N.div_lt; lia).
  cbn [decimal]. pose proof (N.mod_lt n 10 ltac:(done)) as L.
  pose proof (N.div_mod n 10 ltac:(done)) as DM.
  assert (digit (pretty_N_char (n mod 10)) = Some (Z.of_N (n mod 10))) as ->.
  { destruct (n mod 10)%N as [|p]; [done|].
    do 4 (destruct p as [p|p|]; try (vm_compute; reflexivity); try lia). }
  simpl. f_equal. lia.
Qed.

Lemma toy_int_pretty a : toy_int (pretty a) = Some a.
Proof.
  assert (forall n : N, n <> 0%N -> decimal (pretty_N_go n "") 0 = Some (Z.of_N n)) as D.
  { intros n _. by rewrite decimal_pretty_N_go. }
  destruct a as [|p|p].
  - done.
  - change (pretty (Z.pos p)) with (pretty_N_go (N.pos p) "").
    specialize (D (N.pos p) ltac:(done)).
    destruct (pretty_N_go (N.pos p) "") as [|c r]; [done|]. unfold toy_int.
    destruct (Ascii.eqb_spec c (Ascii.ascii_of_N 45)) as [->|_]; [|exact D]. discriminate D.
  - change (pretty (Z.neg p)) with ("-" +:+ pretty_N_go (N.pos p) "").
    specialize (D (N.pos p) ltac:(done)).
    change ("-" +:+ pretty_N_go (N.pos p) "") with (String (Ascii.ascii_of_N 45) (pretty_N_go (N.pos p) "")).
    unfold toy_int. rewrite Ascii.eqb_refl, D.
    destruct (String.eqb_spec (pretty_N_go (N.pos p) "") "") as [E|_]; [|done].
    rewrite E in D. discriminate D.
Qed.

Lemma decimal_no_colon s : forall acc z, decimal s acc = Some z -> no_colon s.
Proof.
  induction s as [|c s IH]; intros acc z E; [apply not_elem_of_nil|].
  cbn [decimal] in E. apply bind_Some in E as (n & D & E). unfold no_colon.
  change (bytes_of_string (String c s)) with (Ascii.byte_of_ascii c :: bytes_of_string s).
  apply not_elem_of_cons. split; [apply not_eq_sym; by eapply digit_no_colon|by eapply IH].
Qed.

Lemma toy_int_no_colon s z : toy_int s = Some z -> no_colon s.
Proof.
  destruct s as [|c s]; [done|]. unfold toy_int.
  destruct (Ascii.eqb_spec c (Ascii.ascii_of_N 45)) as [->|_]; [|apply decimal_no_colon].
  case_match; [done|]. intros (n & E%decimal_no_colon & _)%bind_Some. unfold no_colon.
  change (bytes_of_string (String (Ascii.ascii_of_N 45) s)) with (x2d :: bytes_of_string s).
  by apply not_elem_of_cons.
Qed.

#[export] Instance toy_int_text : IntText.
Proof.
  split.
  - intros a I. cbn [NewIntFromString Int_String toy_math]. rewrite toy_int_pretty. simpl. by rewrite I.
  - intros a. eapply toy_int_no_colon. apply toy_int_pretty.
Qed.

Definition cli_args : list string :=
  ["bob:val1:2026-12-01:1000"; "carol:val2:2027-01-01:2000"].

Example cli_lock_bad_amount :
  CmdLock tt ["2026-12-01"; "1e3"] = Err (FmtErr "invalid amount: %s").
Proof. vm_compute. reflexivity. Qed.

Definition cli_msg : MsgMultiSendDelegateAndLock :=
  MkMsgMultiSendDelegateAndLock "alice" (NewCoinRec "aTSC" 3000)
    [Some (MkOutput "" "bob" "val1" "2026-12-01" (NewCoinRec "aTSC" 1000));
     Some (MkOutput "" "carol" "val2" "2027-01-01" (NewCoinRec "aTSC" 2000))].

Example cli_multi_run :
  CmdMultiSendDelegateAndLock tt cli_args = Ok (SubmitMulti cli_msg).
Proof. vm_compute. reflexivity. Qed.

Lemma cli_multi_send_total_witness :
  CmdMulti_msg "alice" cli_args = Ok cli_msg /\
  total_outputs (MsgMulti_Outputs cli_msg) 0 = Ok (Amount (MsgMulti_TotalAmount cli_msg)).
Proof.
  split; [vm_compute; reflexivity|].
  apply (cli_multi_send_total (CT := toy_client) "alice" cli_args cli_msg); [vm_compute; reflexivity|].
  repeat constructor.
Defined.

Definition cli_exts : list Extension :=
  [MkExtension "2026-12-01" "2027-12-01" (NewCoinRec "aTSC" 1000000000)].

Lemma cli_extend_roundtrip_witness :
  CmdExtend_msg "alice" (render_extension <$> cli_exts)
    = Ok (MkMsgExtend "alice" (Some <$> cli_exts)).
Proof.
  refine (cli_extend_roundtrip (CT := toy_client) "alice" cli_exts _ _ _); [reflexivity| |vm_compute; reflexivity].
  repeat constructor.
Defined.

Lemma cli_negative_amount_panics_witness :
  exists p, CmdLock_msg "alice" ["2026-12-01"; "-5"] = Panic p.
Proof.
  refine (proj1 (cli_negative_amount_panics (CT := toy_client) "alice" "-5" (-5) _ _ _) "2026-12-01");
    [vm_compute; reflexivity|lia|]. apply (bool_decide_unpack _). vm_compute. exact I.
Defined.
End CliToy.
