(* ===== verification/Modules.v ===== *)
(** The application modules the two modules register (x/lockup/module.go,
    x/distro/module.go), the construction of their keepers (keeper.go,
    depinject.go), and the distribution module over time: the states reachable
    from its genesis by parameter updates, mints and blocks. *)

From stdpp Require Import base list strings gmap relations.
From Stdlib Require Import ZArith Lia.
From S2P Require Import Prelude GoTime Sdk LockPb LockStore LockSpec LockupKeeper LockupInv Distro Halving DistroProps.

Local Open Scope Z_scope.

(** [codec.JSONCodec] at one type of genesis state. *)
Class JSONCodec (T : Type) := {
  MarshalJSON : T -> outcome bytes;
  UnmarshalJSON : bytes -> outcome T;
}.

Class JSONCodecLaws (T : Type) `{JSONCodec T} : Prop := {
  UnmarshalJSON_Marshal t bz : MarshalJSON t = Ok bz -> UnmarshalJSON bz = Ok t;
}.

(** [if err != nil { panic(err) }], and the Must variants of the codec. *)
Definition must {A} (m : outcome A) : outcome A :=
  match m with Err _ => Panic (ExtPanic "err") | _ => m end.

Lemma must_Ok {A} (m : outcome A) a : must m = Ok a -> m = Ok a.
Proof. by destruct m. Qed.

(** [authtypes.NewModuleAddress] and the name of the governance module. *)
Class ModuleAddresses := {
  NewModuleAddress : string -> bytes;
  gov_ModuleName : string;
}.

(** What [NewKeeper] does with an empty authority, in both modules. *)
Definition keeper_authority `{SdkTypes} `{ModuleAddresses} (authority : string) : string :=
  if String.eqb authority "" then AccAddress_String (NewModuleAddress gov_ModuleName) else authority.

(** * x/lockup *)

Module LockupModule.

Definition Name : string := "lockup".
Definition ConsensusVersion : Z := 1.

(** The genesis state has no fields. *)
Inductive GenesisState := MkGenesisState.

Definition GenesisState_Validate (gs : GenesisState) : outcome unit := Ok tt.

Section Genesis.
Context {S : Type} `{JSONCodec GenesisState}.

Definition keeper_InitGenesis (s : S) (data : GenesisState) : outcome S := Ok s.
Definition keeper_ExportGenesis (s : S) : GenesisState := MkGenesisState.

Definition DefaultGenesis : outcome bytes := must (MarshalJSON MkGenesisState).

Definition ValidateGenesis (message : bytes) : outcome unit :=
  _ ← UnmarshalJSON (T := GenesisState) message; Ok tt.

Definition InitGenesis (s : S) (message : bytes) : outcome S :=
  genesisState ← must (UnmarshalJSON message);
  must (keeper_InitGenesis s genesisState).

Definition ExportGenesis (s : S) : outcome bytes :=
  must (MarshalJSON (keeper_ExportGenesis s)).
End Genesis.

Section Loses.
Context `{SdkMathLaws} {S : Type} `{!KVStore S} `{!KVStoreLaws S} `{!JSONCodec GenesisState}
  `{!JSONCodecLaws GenesisState}.

(** The exported genesis does not depend on the store: a chain started from it
    has no locks, whatever the exporting chain held. *)
Lemma reimport_has_no_locks (s empty s' : S) message :
  ExportGenesis s = Ok message -> kv_view empty = ∅ -> InitGenesis empty message = Ok s' ->
  represents (kv_view s') (fun _ _ => 0).
Proof.
  intros _ E I. unfold InitGenesis in I. apply bind_Ok in I as (gs & _ & I).
  injection I as <-. rewrite E. apply represents_empty.
Qed.

Lemma export_forgets_store (s t : S) : ExportGenesis s = ExportGenesis t.
Proof. done. Qed.
End Loses.

(** The keeper's fields that are not other modules' keepers. *)
Record Keeper := MkKeeper { k_logger : string; k_authority : string }.

Section NewKeeper.
Context `{SdkTypes} `{ModuleAddresses}.

Definition NewKeeper (authority : string) : Keeper :=
  MkKeeper ("x/" +:+ Name) (keeper_authority authority).

Definition ProvideModule : Keeper :=
  NewKeeper (AccAddress_String (NewModuleAddress gov_ModuleName)).
End NewKeeper.
End LockupModule.

(** * x/distro *)

Module DistroModule.

Definition Name : string := Distro.ModuleName.
Definition ConsensusVersion : Z := 1.

Section Genesis.
Context `{SdkMath} `{SdkTypes} {P : Type} `{Item P Params} `{JSONCodec GenesisState}.

Definition DefaultGenesis : outcome bytes := must (MarshalJSON (MkGenesisState DefaultParams)).

Definition ValidateGenesis (message : bytes) : outcome unit :=
  data ← UnmarshalJSON message;
  wrap_err (fun _ => ExtErr "params") (Params_Validate (GenesisParams data)).

(** The parameters are stored once before and once after their validation. *)
Definition InitGenesis (p : P) (message : bytes) : outcome P :=
  genesisState ← must (UnmarshalJSON message);
  p ← must (Item_Set p (GenesisParams genesisState));
  must (Distro.InitGenesis p genesisState).

Definition ExportGenesis (p : P) : outcome bytes :=
  genState ← Distro.ExportGenesis p;
  must (MarshalJSON genState).
End Genesis.

(** [collections.SchemaBuilder.Build] may fail; the store key of the parameters
    is [collections.NewPrefix(0)]. *)
Record Keeper (Schema : Type) := MkKeeper {
  k_logger : string; k_schema : Schema; k_authority : string }.
Arguments MkKeeper {Schema}.
Arguments k_authority {Schema}.

Section NewKeeper.
Context `{SdkTypes} `{ModuleAddresses} {Schema : Type}.

Definition NewKeeper (build : outcome Schema) (authority : string) : outcome (Keeper Schema) :=
  let authority := keeper_authority authority in
  schema ← must build;
  Ok (MkKeeper ("x/" +:+ Name) schema authority).

Definition ProvideModule (build : outcome Schema) : outcome (Keeper Schema) :=
  NewKeeper build (AccAddress_String (NewModuleAddress gov_ModuleName)).
End NewKeeper.
End DistroModule.
