(* ===== verification/DistroSystem.v ===== *)
(** The distribution module over time: whatever sequence of parameter updates,
    mints and blocks follows its genesis, the stored parameters stay valid; and
    while they are not changed, the module never takes the supply past what the
    halving schedule releases by the current day. *)

From stdpp Require Import base list strings gmap relations.
From Stdlib Require Import ZArith Lia.
From S2P Require Import Prelude GoTime Sdk Testnet Distro Halving DistroProps DistroRuns Modules.

Local Open Scope Z_scope.

Section System.
Context `{SdkMathLaws} `{!SdkTypes} `{!SdkCoinLaws} {P X : Type} `{!Item P Params}
  `{!ItemLaws P Params} `{!DistroBank X} `{!DistroBankLaws X} `{!JSONCodec GenesisState}
  `{!JSONCodecLaws GenesisState}.
Context (authority : string).

(** The context, the stored parameters, the bank's state, and what the other
    modules have added to the supply of the module's denomination since genesis
    (x/mint mints the same denomination). *)
Record dstate := MkD { d_ctx : Ctx; d_params : P; d_bank : X; d_others : Z }.

Definition d_supply (s : dstate) : Z := supply_of (d_bank s) DefaultDenom.

(** Steps that leave the parameters alone. *)
Inductive mint_step : dstate -> dstate -> Prop :=
  | dstep_Mint c p x x' o msg :
      Mint c p x msg = Ok x' -> mint_step (MkD c p x o) (MkD c p x' o)
  | dstep_block c c' p x o :
      BlockTime c <= BlockTime c' -> mint_step (MkD c p x o) (MkD c' p x o)
  | dstep_others c p x x' o :
      mint_step (MkD c p x o)
        (MkD c p x' (o + Z.max 0 (supply_of x' DefaultDenom - supply_of x DefaultDenom))).

Inductive dstep : dstate -> dstate -> Prop :=
  | dstep_mint s s' : mint_step s s' -> dstep s s'
  | dstep_UpdateParams c p p' x o msg :
      UpdateParams authority p msg = Ok p' -> dstep (MkD c p x o) (MkD c p' x o).

(** The chain starts with the module's genesis. *)
Definition dinitial (s : dstate) : Prop :=
  exists p0 message, DistroModule.InitGenesis p0 message = Ok (d_params s).

Definition dreachable (s : dstate) : Prop := exists s0, dinitial s0 /\ rtc dstep s0 s.

(** ** The parameters *)

Definition stores_valid_params (s : dstate) : Prop :=
  exists params, Query_Params (d_params s) = Ok params /\ params_valid params.

Lemma Validate_Set_valid (p p' : P) params :
  Params_Validate params = Ok tt -> Item_Set p params = Ok p' ->
  Query_Params p' = Ok params /\ params_valid params.
Proof. intros V%Params_Validate_valid E. split; [by eapply Item_Get_Set|done]. Qed.

Lemma InitGenesis_valid (p p' : P) message :
  DistroModule.InitGenesis p message = Ok p' ->
  exists gs, UnmarshalJSON message = Ok gs /\ Query_Params p' = Ok (GenesisParams gs) /\
    params_valid (GenesisParams gs).
Proof.
  unfold DistroModule.InitGenesis, Distro.InitGenesis.
  intros (gs & U%must_Ok & E)%bind_Ok. apply bind_Ok in E as (p1 & _ & E).
  apply must_Ok, bind_Ok in E as ([] & V & E). exists gs. split; [done|].
  exact (Validate_Set_valid _ _ _ V E).
Qed.

Lemma mint_step_params s s' : mint_step s s' -> d_params s' = d_params s.
Proof. by destruct 1. Qed.

Lemma dstep_valid s s' : dstep s s' -> stores_valid_params s -> stores_valid_params s'.
Proof.
  destruct 1 as [s s' E%mint_step_params|c p p' x o msg E]; unfold stores_valid_params.
  - by rewrite E.
  - intros _. cbn [d_params]. unfold UpdateParams in E. case_match; [done|].
    apply bind_Ok in E as ([] & V & E). exists (MsgUpdateParams_Params msg).
    exact (Validate_Set_valid _ _ _ V E).
Qed.

Lemma rtc_valid s s' : rtc dstep s s' -> stores_valid_params s -> stores_valid_params s'.
Proof. induction 1 as [|s1 s2 s3 E R IH]; [done|]. intros V. apply IH. by eapply dstep_valid. Qed.

(** C21 In every state reachable from a genesis the module accepted,
    by any sequence of parameter updates, mints and blocks, the Params query
    answers with valid parameters; and the genesis exported from that state
    passes validation and, imported into any store, gives the same parameters. *)
Theorem distro_params_always_valid (s : dstate) :
  dreachable s ->
  exists params, Query_Params (d_params s) = Ok params /\ params_valid params /\
    forall message, DistroModule.ExportGenesis (d_params s) = Ok message ->
      DistroModule.ValidateGenesis message = Ok tt /\
      forall q q', DistroModule.InitGenesis q message = Ok q' -> Query_Params q' = Ok params.
Proof.
  intros (s0 & (p0 & m & I) & R). apply InitGenesis_valid in I as (gs & _ & I).
  assert (stores_valid_params s) as (params & Q & V).
  { apply (rtc_valid s0); [done|]. by exists (GenesisParams gs). }
  exists params. split; [done|]. split; [done|]. intros message E.
  unfold DistroModule.ExportGenesis, Distro.ExportGenesis in E. unfold Query_Params in Q. rewrite Q in E.
  apply must_Ok, UnmarshalJSON_Marshal in E. split.
  - unfold DistroModule.ValidateGenesis. rewrite E. cbn [mbind outcome_bind GenesisParams].
    by rewrite (proj2 (Params_Validate_valid params) V).
  - intros q q' (gs' & U & Q' & _)%InitGenesis_valid. rewrite E in U. by injection U as <-.
Qed.

(** ** The supply *)

Lemma midnight_mod_Day t : midnight t mod Day = 0.
Proof. rewrite midnight_day. apply Z.mod_mul. pose proof Day_pos. lia. Qed.

(** An amount computed for an earlier day is at most the amount of a later day
    of the first 63 periods. *)
Lemma TotalDistributableAt_later h t u q a :
  schedule_ok h -> t mod Day = 0 -> u mod Day = 0 -> t <= u -> in_period h q u -> 1 <= q <= 63 ->
  TotalDistributableAt h t = Ok a ->
  exists b, TotalDistributableAt h u = Ok b /\ a <= b <= MaxSupply h.
Proof.
  intros O T U L J Q E.
  destruct (Z.lt_ge_cases t (StartDate h)) as [B|B].
  { unfold TotalDistributableAt, CurrentPeriod, Before in E. by rewrite (proj2 (Z.ltb_lt _ _) B) in E. }
  destruct (CurrentPeriod_found h t O T B) as (p & _ & Pp & [I|[-> F]]).
  - destruct (TotalDistributableAt_mono h t u p q O T U L I J ltac:(lia) ltac:(lia))
      as (a' & b & E1 & E2 & ? & ? & ?). exists b. split; [done|]. rewrite E in E1. injection E1 as ->. lia.
  - pose proof (period_start_mono h (q + 1) 1001 O ltac:(lia)). unfold in_period in J.
    destruct O as (_ & M & _). pose proof Day_pos. nia.
Qed.

Lemma TotalDistributableAt_total h u q :
  schedule_ok h -> u mod Day = 0 -> in_period h q u -> 1 <= q <= 63 ->
  exists b, TotalDistributableAt h u = Ok b /\ 0 <= b <= MaxSupply h.
Proof.
  intros O U J Q. destruct (TotalDistributableAt_mono h u u q q O U U ltac:(lia) J J ltac:(lia) ltac:(lia))
    as (a & b & E1 & E2 & ? & ? & ?). exists b. split; [done|]. lia.
Qed.

(** The supply is covered by the starting supply or by what was released at an
    earlier time, up to what the other modules added. *)
Definition covered (h : HalvingSchedule) (s0 s : dstate) : Prop :=
  d_others s0 <= d_others s /\
  (d_supply s <= d_supply s0 + (d_others s - d_others s0) \/
   exists t l, t <= BlockTime (d_ctx s) /\ TotalDistributableAt h (midnight t) = Ok l /\
     d_supply s <= l + (d_others s - d_others s0)).

Lemma mint_step_covered h params s0 s s' :
  Query_Params (d_params s) = Ok params -> ParamsDenom params = DefaultDenom ->
  newHalvingSchedule params = Ok h ->
  mint_step s s' -> covered h s0 s -> covered h s0 s'.
Proof.
  intros G D Hh E [O C]. destruct E as [c p x x' o msg E|c c' p x o L|c p x x' o];
    unfold covered, d_supply in *; cbn [d_ctx d_params d_bank d_others] in *.
  - split; [done|]. right.
    apply Mint_effect in E as (params' & amount & signer & max & h' & limit & EP & _ & _ & _ & _ & _
      & _ & _ & EH & ET & EL).
    unfold Query_Params in G. rewrite G in EP. injection EP as <-. rewrite Hh in EH. injection EH as <-.
    exists (BlockTime c), limit. split; [lia|]. split; [done|]. rewrite D in EL. lia.
  - split; [done|]. destruct C as [C|(t & l & T & E & C)]; [by left|]. right. exists t, l. split; [lia|done].
  - split; [lia|]. destruct C as [C|(t & l & T & E & C)]; [left; lia|].
    right. exists t, l. split; [done|]. split; [done|]. lia.
Qed.

Lemma rtc_covered h params s0 s s' :
  Query_Params (d_params s) = Ok params -> ParamsDenom params = DefaultDenom ->
  newHalvingSchedule params = Ok h ->
  rtc mint_step s s' -> covered h s0 s -> covered h s0 s'.
Proof.
  intros G D Hh R. induction R as [|s1 s2 s3 E R IH]; [done|]. intros C. apply IH.
  - by rewrite (mint_step_params _ _ E).
  - by eapply mint_step_covered.
Qed.

(** C16 While the parameters stand, the distribution module keeps to
    its schedule over any sequence of mints and blocks: on every day of the first
    63 periods the supply is at most the starting supply or the amount released
    by that day, whichever is larger, plus what other modules added. *)
Theorem distro_supply_bounded (s0 s : dstate) params h q :
  Query_Params (d_params s0) = Ok params -> params_valid params ->
  newHalvingSchedule params = Ok h -> schedule_ok h ->
  rtc mint_step s0 s ->
  in_period h q (midnight (BlockTime (d_ctx s))) -> 1 <= q <= 63 ->
  exists limit, TotalDistributableAt h (midnight (BlockTime (d_ctx s))) = Ok limit /\
    limit <= MaxSupply h /\
    d_supply s <= Z.max (d_supply s0) limit + (d_others s - d_others s0).
Proof.
  intros G (_ & _ & D & _) Hh O R J Q.
  assert (covered h s0 s0) as C0 by (split; [lia|left; lia]).
  destruct (rtc_covered h params s0 s0 s G D Hh R C0) as [_ [C|(t & l & T & E & C)]].
  - destruct (TotalDistributableAt_total h _ q O (midnight_mod_Day _) J Q) as (b & E & B).
    exists b. split; [done|]. lia.
  - destruct (TotalDistributableAt_later h (midnight t) _ q l O (midnight_mod_Day _) (midnight_mod_Day _)
      (midnight_mono _ _ T) J Q E) as (b & E' & B).
    exists b. split; [done|]. lia.
Qed.
End System.

(** * Runs *)

Import Toy ToyDistro.

(** A codec that knows the default genesis. *)
#[export] Instance toy_json : JSONCodec GenesisState := {
  MarshalJSON gs :=
    if decide (gs = DefaultGenesis) then Ok (bytes_of_string "{}") else Err (ExtErr "unsupported");
  UnmarshalJSON bz :=
    if decide (bz = bytes_of_string "{}") then Ok DefaultGenesis else Err (ExtErr "invalid json");
}.

#[export] Instance toy_json_laws : JSONCodecLaws GenesisState.
Proof.
  split. intros gs bz. cbn [MarshalJSON UnmarshalJSON toy_json]. case_decide as D; [|done].
  intros [= <-]. by rewrite D, decide_True.
Qed.

Definition toy_s0 : dstate := MkD mint_ctx (Some DefaultParams) (∅ : gmap string Z) 0.
Definition toy_s1 : dstate := MkD mint_ctx (Some DefaultParams) ({[ "aTSC" := 1000 ]} : gmap string Z) 0.

Lemma toy_mint_step : mint_step toy_s0 toy_s1.
Proof. exact (dstep_Mint mint_ctx (Some DefaultParams) ∅ {[ "aTSC" := 1000 ]} 0 mint_msg mint_run). Qed.

Lemma distro_params_always_valid_witness :
  exists params, Query_Params (Some DefaultParams) = Ok params /\ params_valid params /\
    forall message, DistroModule.ExportGenesis (Some DefaultParams) = Ok message ->
      DistroModule.ValidateGenesis message = Ok tt /\
      forall q q', DistroModule.InitGenesis q message = Ok q' -> Query_Params q' = Ok params.
Proof.
  refine (distro_params_always_valid "gov" toy_s1 _). exists toy_s0. split.
  - exists None, (bytes_of_string "{}"). vm_compute. reflexivity.
  - apply rtc_once, dstep_mint, toy_mint_step.
Defined.

Lemma distro_supply_bounded_witness :
  exists limit, TotalDistributableAt default_schedule (midnight (BlockTime mint_ctx)) = Ok limit /\
    limit <= MaxSupply default_schedule /\ d_supply toy_s1 <= Z.max (d_supply toy_s0) limit + (0 - 0).
Proof.
  refine (distro_supply_bounded toy_s0 toy_s1 DefaultParams default_schedule 1 _ _ _
    default_schedule_ok (rtc_once _ _ toy_mint_step) _ _).
  - vm_compute. reflexivity.
  - apply (proj1 (Params_Validate_valid DefaultParams)). vm_compute. reflexivity.
  - vm_compute. reflexivity.
  - split; vm_compute; congruence.
  - lia.
Defined.
