(* ===== verification/App.v ===== *)
(** The application's own wiring (app/app.go, app/genesis.go, app/upgrades.go):
    module accounts and blocked addresses, mounted stores, the order modules run
    in, the hooks and restrictions handed to staking and bank, the default
    genesis, and the v2-lockup upgrade.  The names of modules and stores that
    other packages define are fields of a class. *)

From stdpp Require Import base list strings gmap sorting.
From Stdlib Require Import ZArith Lia.
From S2P Require Import Prelude GoTime Sdk LockPb LockStore LockSpec LockupKeeper Distro Precompile Modules.

Local Open Scope Z_scope.

(** * Names *)

(** Module names of the packages the application imports. *)
Class ExtNames := {
  auth_ModuleName : string; auth_FeeCollectorName : string; bank_ModuleName : string;
  staking_ModuleName : string; staking_BondedPoolName : string; staking_NotBondedPoolName : string;
  mint_ModuleName : string; distr_ModuleName : string; slashing_ModuleName : string;
  params_ModuleName : string; consensus_ModuleName : string; upgrade_ModuleName : string;
  feegrant_ModuleName : string; evidence_ModuleName : string; authz_ModuleName : string;
  nft_ModuleName : string; epochs_ModuleName : string; ibc_ModuleName : string;
  transfer_ModuleName : string; ica_ModuleName : string; icahost_SubModuleName : string;
  icacontroller_SubModuleName : string; evm_ModuleName : string; feemarket_ModuleName : string;
  erc20_ModuleName : string; wasm_ModuleName : string; precisebank_ModuleName : string;
  genutil_ModuleName : string; vesting_ModuleName : string; ibctm_ModuleName : string;
}.

(** Store keys of those packages. *)
Class ExtKeys := {
  auth_StoreKey : string; bank_StoreKey : string; staking_StoreKey : string;
  mint_StoreKey : string; distr_StoreKey : string; slashing_StoreKey : string;
  gov_StoreKey : string; params_StoreKey : string; consensus_StoreKey : string;
  upgrade_StoreKey : string; feegrant_StoreKey : string; evidence_StoreKey : string;
  authz_StoreKey : string; nft_StoreKey : string; epochs_StoreKey : string;
  ibc_StoreKey : string; transfer_StoreKey : string; icahost_StoreKey : string;
  icacontroller_StoreKey : string; evm_StoreKey : string; feemarket_StoreKey : string;
  erc20_StoreKey : string; wasm_StoreKey : string; crisis_StoreKey : string;
  group_StoreKey : string;
  params_TStoreKey : string; evm_TransientKey : string; feemarket_TransientKey : string;
}.

Definition distro_StoreKey : string := DistroModule.Name.
Definition lockup_StoreKey : string := LockupModule.Name.

(** Constants of app.go. *)
Definition appName : string := "tscd".
Definition Bech32Prefix : string := "tsc".
Definition EVMChainID : Z := 87878.
Definition CoinType : Z := 60.
Definition BaseDenomUnit : Z := 18.
Definition BaseDenom : string := "aTSC".
Definition DisplayDenom : string := "TSC".

(** The EVM chain id [NewChainApp] configures. *)
Definition evm_chain_id (loadLatest : bool) : Z := if loadLatest then EVMChainID else 262144.

(** * Module accounts and blocked addresses *)

(** [authtypes.Minter], [authtypes.Burner] and [authtypes.Staking]. *)
Inductive permission := Minter | Burner | Staking.

#[export] Instance permission_eq_dec : EqDecision permission.
Proof. solve_decision. Defined.

Section Accounts.
Context `{SdkTypes} `{ModuleAddresses} `{ExtNames}.

Definition maccPerms : list (string * list permission) :=
  [(auth_FeeCollectorName, []);
   (distr_ModuleName, []);
   (mint_ModuleName, [Minter]);
   (staking_BondedPoolName, [Burner; Staking]);
   (staking_NotBondedPoolName, [Burner; Staking]);
   (gov_ModuleName, [Burner]);
   (nft_ModuleName, []);
   (transfer_ModuleName, [Minter; Burner]);
   (ica_ModuleName, []);
   (evm_ModuleName, [Minter; Burner]);
   (feemarket_ModuleName, []);
   (erc20_ModuleName, [Minter; Burner]);
   (DistroModule.Name, [Minter; Burner]);
   (precisebank_ModuleName, [Minter; Burner]);
   (wasm_ModuleName, [Burner])].

(** The copy, as a map. *)
Definition GetMaccPerms : gmap string (list permission) :=
  foldl (fun dup kv => <[kv.1 := kv.2]> dup) ∅ maccPerms.

(** [evmtypes.AvailableStaticPrecompiles] and [utils.EthHexToCosmosAddr]. *)
Context (AvailableStaticPrecompiles : list string) (EthHexToCosmosAddr : string -> bytes).

Definition module_account (acc : string) : string := AccAddress_String (NewModuleAddress acc).
Definition precompile_account (hex : string) : string := AccAddress_String (EthHexToCosmosAddr hex).

(** [blockedAddrs[a] = true]. *)
Definition block (blockedAddrs : gmap string bool) (a : string) : gmap string bool :=
  <[a := true]> blockedAddrs.

Definition BlockedAddresses : gmap string bool :=
  let blockedAddrs := foldl (fun b acc => block b (module_account acc)) ∅ (map_to_list GetMaccPerms).*1 in
  let blockedAddrs := delete (module_account gov_ModuleName) blockedAddrs in
  let blockedPrecompilesHex := AvailableStaticPrecompiles ++ [LockupPrecompileAddress] in
  foldl (fun b hex => block b (precompile_account hex)) blockedAddrs blockedPrecompilesHex.
End Accounts.

(** * Stores and module orders *)

Section Orders.
Context `{ModuleAddresses} `{ExtNames} `{ExtKeys}.

Definition keys : list string :=
  [auth_StoreKey; bank_StoreKey; staking_StoreKey; mint_StoreKey; distr_StoreKey;
   slashing_StoreKey; gov_StoreKey; params_StoreKey; consensus_StoreKey; upgrade_StoreKey;
   feegrant_StoreKey; evidence_StoreKey; authz_StoreKey; nft_StoreKey; epochs_StoreKey;
   ibc_StoreKey; transfer_StoreKey; icahost_StoreKey; icacontroller_StoreKey;
   evm_StoreKey; feemarket_StoreKey; erc20_StoreKey;
   distro_StoreKey; lockup_StoreKey; wasm_StoreKey].

Definition tkeys : list string := [params_TStoreKey; evm_TransientKey; feemarket_TransientKey].

(** [GetStoreKeys]: the names of the mounted stores, from a map, sorted. *)
Definition GetStoreKeys (keys : gset string) : list string := merge_sort String.le (elements keys).

(** The modules of the manager, in the order of its construction. *)
Definition ModuleManager_modules : list string :=
  [genutil_ModuleName; auth_ModuleName; bank_ModuleName; feegrant_ModuleName; gov_ModuleName;
   nft_ModuleName; mint_ModuleName; slashing_ModuleName; distr_ModuleName; staking_ModuleName;
   upgrade_ModuleName; evidence_ModuleName; params_ModuleName; authz_ModuleName;
   consensus_ModuleName; epochs_ModuleName; vesting_ModuleName;
   ibc_ModuleName; ibctm_ModuleName; transfer_ModuleName; ica_ModuleName;
   evm_ModuleName; feemarket_ModuleName; erc20_ModuleName;
   DistroModule.Name; LockupModule.Name; wasm_ModuleName].

Definition OrderPreBlockers : list string :=
  [upgrade_ModuleName; auth_ModuleName; evm_ModuleName].

Definition OrderBeginBlockers : list string :=
  [epochs_ModuleName; mint_ModuleName;
   ibc_ModuleName; transfer_ModuleName; ica_ModuleName;
   erc20_ModuleName; feemarket_ModuleName; evm_ModuleName;
   distr_ModuleName; slashing_ModuleName; evidence_ModuleName; staking_ModuleName;
   auth_ModuleName; bank_ModuleName; gov_ModuleName; nft_ModuleName;
   genutil_ModuleName; authz_ModuleName; feegrant_ModuleName;
   consensus_ModuleName; precisebank_ModuleName; vesting_ModuleName;
   wasm_ModuleName; DistroModule.Name; LockupModule.Name].

Definition OrderEndBlockers : list string :=
  [bank_ModuleName; gov_ModuleName; staking_ModuleName; auth_ModuleName;
   evm_ModuleName; erc20_ModuleName; feemarket_ModuleName;
   ibc_ModuleName; transfer_ModuleName; ica_ModuleName;
   distr_ModuleName; slashing_ModuleName; mint_ModuleName;
   genutil_ModuleName; evidence_ModuleName; authz_ModuleName; nft_ModuleName;
   feegrant_ModuleName; upgrade_ModuleName; consensus_ModuleName;
   epochs_ModuleName; precisebank_ModuleName; vesting_ModuleName;
   wasm_ModuleName; DistroModule.Name; LockupModule.Name].

Definition genesisModuleOrder : list string :=
  [auth_ModuleName; bank_ModuleName; distr_ModuleName; staking_ModuleName;
   slashing_ModuleName; gov_ModuleName; mint_ModuleName; ibc_ModuleName; ica_ModuleName;
   evm_ModuleName; feemarket_ModuleName; erc20_ModuleName; precisebank_ModuleName;
   transfer_ModuleName; genutil_ModuleName; evidence_ModuleName; authz_ModuleName;
   feegrant_ModuleName; nft_ModuleName; params_ModuleName; transfer_ModuleName;
   ibc_ModuleName; ica_ModuleName; upgrade_ModuleName; vesting_ModuleName;
   consensus_ModuleName; epochs_ModuleName;
   wasm_ModuleName; DistroModule.Name; LockupModule.Name].

(** The routes of the IBC router, and the subspaces of the params keeper. *)
Definition ibcRouter_routes : list string :=
  [transfer_ModuleName; icacontroller_SubModuleName; icahost_SubModuleName; wasm_ModuleName].

Definition initParamsKeeper_subspaces : list string :=
  [ibc_ModuleName; transfer_ModuleName; icacontroller_SubModuleName; icahost_SubModuleName;
   wasm_ModuleName; LockupModule.Name].
End Orders.

(** * Hooks and restrictions *)

(** The staking hooks of the distribution and slashing keepers, and how x/staking
    and x/bank combine what is registered with them. *)
Class AppHooks (X : Type) `{StakingKeeper X} := {
  distr_Hooks : StakingHooks X Dec;
  slashing_Hooks : StakingHooks X Dec;
  NewMultiStakingHooks : list (StakingHooks X Dec) -> StakingHooks X Dec;
  base_restriction : SendRestriction X;
  AppendSendRestriction : SendRestriction X -> SendRestriction X -> SendRestriction X;
}.

(** Combined hooks succeed only when each of them does, and combined
    restrictions only when each of them does. *)
Class AppHooksLaws (X : Type) `{AppHooks X} : Prop := {
  multi_BeforeDelegationRemoved hs x d v :
    hk_BeforeDelegationRemoved (NewMultiStakingHooks hs) x d v = Ok tt ->
    Forall (fun h => hk_BeforeDelegationRemoved h x d v = Ok tt) hs;
  multi_AfterDelegationModified hs x d v :
    hk_AfterDelegationModified (NewMultiStakingHooks hs) x d v = Ok tt ->
    Forall (fun h => hk_AfterDelegationModified h x d v = Ok tt) hs;
  append_restriction r r' x a b cs to :
    AppendSendRestriction r r' x a b cs = Ok to ->
    exists to', r x a b cs = Ok to' /\ r' x a to' cs = Ok to;
}.

Section Wiring.
Context `{SdkMath} `{SdkTypes} {S : Type} `{KVStore S} {X : Type} `{StakingKeeper X}
  `{BankKeeper X} `{!AppHooks X}.

(** [app.StakingKeeper.SetHooks]. *)
Definition app_staking_hooks (ctx : Ctx) (s : S) : StakingHooks X Dec :=
  NewMultiStakingHooks [distr_Hooks; slashing_Hooks; Hooks ctx s].

(** [app.BankKeeper.AppendSendRestriction]. *)
Definition app_send_restriction (ctx : Ctx) (s : S) : SendRestriction X :=
  AppendSendRestriction base_restriction (SendRestrictionFn ctx s).
End Wiring.

(** * Genesis *)

(** The bank's denomination metadata. *)
Record DenomUnit := MkDenomUnit { U_Denom : string; U_Exponent : Z; U_Aliases : list string }.
Record Metadata := MkMetadata {
  M_Description : string; M_DenomUnits : list DenomUnit; M_Base : string; M_Display : string;
  M_Name : string; M_Symbol : string; M_URI : string; M_URIHash : string;
}.

(** The parts of the other modules' genesis states the application sets; [Rest]
    stands for the fields it leaves at their defaults. *)
Record EvmParams (EIP Rest : Type) := MkEvmParams {
  EvmDenom : string; ExtendedDenomOptions : option string;
  ActiveStaticPrecompiles : list string; ExtraEIPs : list EIP; evm_rest : Rest;
}.
Arguments MkEvmParams {EIP Rest}.
Arguments EvmDenom {EIP Rest}.
Arguments ExtendedDenomOptions {EIP Rest}.
Arguments ActiveStaticPrecompiles {EIP Rest}.
Arguments ExtraEIPs {EIP Rest}.
Arguments evm_rest {EIP Rest}.

Record EvmGenesis (EIP Rest Pre : Type) := MkEvmGenesis {
  evm_Params : EvmParams EIP Rest; evm_Preinstalls : Pre }.
Arguments MkEvmGenesis {EIP Rest Pre}.
Arguments evm_Params {EIP Rest Pre}.
Arguments evm_Preinstalls {EIP Rest Pre}.

Record BankGenesis (Rest : Type) := MkBankGenesis { bank_DenomMetadata : list Metadata; bank_rest : Rest }.
Arguments MkBankGenesis {Rest}.
Record DenomGenesis (Rest : Type) := MkDenomGenesis { gen_Denom : string; gen_rest : Rest }.
Arguments MkDenomGenesis {Rest}.
Arguments gen_Denom {Rest}.
Arguments gen_rest {Rest}.

(** The defaults of the imported modules.  [DenomGenesis] is the mint and the
    staking state, whose only field set here is a denomination. *)
Class Defaults := {
  EIP : Type; EvmRest : Type; Preinstalls : Type; BankRest : Type; MintRest : Type;
  StakingRest : Type; Erc20Genesis : Type;
  evm_DefaultGenesisState : EvmGenesis EIP EvmRest Preinstalls;
  bank_DefaultGenesisState : BankGenesis BankRest;
  mint_DefaultGenesisState : DenomGenesis MintRest;
  staking_DefaultGenesisState : DenomGenesis StakingRest;
  erc20_DefaultGenesisState : Erc20Genesis;
  AvailableStaticPrecompiles : list string;
  DefaultExtraEIPs : list EIP;
  DefaultPreinstalls : Preinstalls;
}.

Section Genesis.
Context `{Defaults}.

Definition sort_Strings (l : list string) : list string := merge_sort String.le l.

Definition NewEVMGenesisState : EvmGenesis EIP EvmRest Preinstalls :=
  let params := evm_Params evm_DefaultGenesisState in
  let activePrecompiles := AvailableStaticPrecompiles ++ [LockupPrecompileAddress] in
  MkEvmGenesis
    (MkEvmParams BaseDenom (Some BaseDenom) (sort_Strings activePrecompiles)
       (ExtraEIPs params) (evm_rest params))
    DefaultPreinstalls.

Definition NewErc20GenesisState : Erc20Genesis := erc20_DefaultGenesisState.

Definition NewMintGenesisState : DenomGenesis MintRest :=
  MkDenomGenesis BaseDenom (gen_rest mint_DefaultGenesisState).

Definition NewStakingGenesisState : DenomGenesis StakingRest :=
  MkDenomGenesis BaseDenom (gen_rest staking_DefaultGenesisState).

Definition NewBankGenesisState : BankGenesis BankRest :=
  MkBankGenesis
    [MkMetadata "The native staking token of the TSC network."
       [MkDenomUnit BaseDenom 0 ["atsc"]; MkDenomUnit DisplayDenom BaseDenomUnit []]
       BaseDenom DisplayDenom DisplayDenom DisplayDenom "" ""]
    (bank_rest _ bank_DefaultGenesisState).

(** [MustMarshalJSON] at each of these types. *)
Context `{!JSONCodec (EvmGenesis EIP EvmRest Preinstalls)} `{!JSONCodec Erc20Genesis}
  `{!JSONCodec (DenomGenesis MintRest)} `{!JSONCodec (DenomGenesis StakingRest)}
  `{!JSONCodec (BankGenesis BankRest)} `{ModuleAddresses} `{ExtNames}.

(** The default genesis of one basic module, by name; the overrides handed to
    [NewBasicManagerFromManager] that change it. *)
Definition basic_overrides : list (string * outcome bytes) :=
  [(staking_ModuleName, must (MarshalJSON NewStakingGenesisState));
   (evm_ModuleName, must (MarshalJSON NewEVMGenesisState));
   (bank_ModuleName, must (MarshalJSON NewBankGenesisState));
   (mint_ModuleName, must (MarshalJSON NewMintGenesisState))].

(** [app.DefaultGenesis], on the genesis of the basic module manager. *)
Definition DefaultGenesis (basic : gmap string bytes) : outcome (gmap string bytes) :=
  mintGenState ← must (MarshalJSON NewMintGenesisState);
  let genesis := <[mint_ModuleName := mintGenState]> basic in
  evmGenState ← must (MarshalJSON NewEVMGenesisState);
  let genesis := <[evm_ModuleName := evmGenState]> genesis in
  erc20GenState ← must (MarshalJSON NewErc20GenesisState);
  let genesis := <[erc20_ModuleName := erc20GenState]> genesis in
  stakingGenState ← must (MarshalJSON NewStakingGenesisState);
  let genesis := <[staking_ModuleName := stakingGenState]> genesis in
  bankGenState ← must (MarshalJSON NewBankGenesisState);
  Ok (<[bank_ModuleName := bankGenState]> genesis).
End Genesis.

(** * The v2-lockup upgrade *)

(** The keepers the upgrade handler calls, on the state [X]; the type of an
    Ethereum address, [common.HexToAddress] and the [Hex] method, which writes the
    checksummed spelling. *)
Class UpgradeKeepers (X : Type) `{Defaults} := {
  VersionMap : Type;
  EthAddress : Type;
  eth_HexToAddress : string -> EthAddress;
  eth_Hex : EthAddress -> string;
  SetDenomMetaData : X -> Metadata -> X;
  evm_GetParams : X -> EvmParams EIP EvmRest;
  evm_SetParams : X -> EvmParams EIP EvmRest -> outcome X;
  InitEvmCoinInfo : X -> outcome X;
  EnableStaticPrecompiles : X -> list EthAddress -> outcome X;
  RunMigrations : X -> VersionMap -> outcome (X * VersionMap);
}.

Record UpgradeInfo := MkUpgradeInfo { up_Name : string; up_Height : Z }.
Record StoreUpgrades := MkStoreUpgrades { su_Added : list string; su_Deleted : list string }.

Definition UpgradeName : string := "v2-lockup".

Section Upgrade.
Context `{Defaults} {X : Type} `{!UpgradeKeepers X} `{ExtKeys}.

Definition upgrade_metadata : Metadata :=
  MkMetadata "The native staking token of Trusted Smart Chain"
    [MkDenomUnit BaseDenom 0 ["atsc"]; MkDenomUnit DisplayDenom BaseDenomUnit []]
    BaseDenom DisplayDenom "Trusted Smart Chain" DisplayDenom "" "".

(** The handler up to the migrations, and the whole of it. *)
Definition upgrade_prepare (x : X) : outcome X :=
  let x := SetDenomMetaData x upgrade_metadata in
  let evmParams := evm_GetParams x in
  let evmParams := MkEvmParams BaseDenom (Some BaseDenom) AvailableStaticPrecompiles
                     DefaultExtraEIPs (evm_rest evmParams) in
  x ← evm_SetParams x evmParams;
  x ← InitEvmCoinInfo x;
  EnableStaticPrecompiles x [eth_HexToAddress LockupPrecompileAddress].

Definition upgrade_handler (x : X) (fromVM : VersionMap) : outcome (X * VersionMap) :=
  x ← upgrade_prepare x;
  RunMigrations x fromVM.

Definition storeUpgrades : StoreUpgrades :=
  MkStoreUpgrades
    [epochs_StoreKey; wasm_StoreKey; lockup_StoreKey]
    [crisis_StoreKey; group_StoreKey; "circuit"; "feeibc"; "capability"; "tokenfactory";
     "packetforwardmiddleware"; "08-wasm"; "ratelimit"].

(** The store loader [RegisterUpgradeHandlers] installs: the height and the
    upgrades of [upgradetypes.UpgradeStoreLoader], when there is one. *)
Definition upgrade_store_loader (read : outcome UpgradeInfo) (IsSkipHeight : Z -> bool)
    : outcome (option (Z * StoreUpgrades)) :=
  upgradeInfo ← must read;
  if String.eqb (up_Name upgradeInfo) UpgradeName && negb (IsSkipHeight (up_Height upgradeInfo))
  then Ok (Some (up_Height upgradeInfo, storeUpgrades))
  else Ok None.
End Upgrade.

(** * Chain start and shutdown *)

(** [InitChainer]: the JSON decoder, the version map and the module manager are
    the SDK's. *)
Definition InitChainer {X R} (unmarshal : bytes -> outcome (gmap string bytes))
    (SetModuleVersionMap : X -> outcome X) (InitGenesis : X -> gmap string bytes -> outcome R)
    (x : X) (AppStateBytes : bytes) : outcome R :=
  genesisState ← must (unmarshal AppStateBytes);
  x ← must (SetModuleVersionMap x);
  InitGenesis x genesisState.

(** [Close]: the mempool's error is reported only when the base application
    closes without one. *)
Definition Close (EVMMempool : option (option error)) (base : option error) : option error :=
  let err := match EVMMempool with Some e => e | None => None end in
  match base with Some closeErr => Some closeErr | None => err end.

(** The listeners of pending transactions, called in the order of registration. *)
Definition RegisterPendingTxListener {H L} (pendingTxListeners : list (H -> L -> L))
    (listener : H -> L -> L) : list (H -> L -> L) := pendingTxListeners ++ [listener].
Definition onPendingTx {H L} (pendingTxListeners : list (H -> L -> L)) (hash : H) (l : L) : L :=
  foldl (fun l listener => listener hash l) l pendingTxListeners.
