(* ===== verification/Wiring.v ===== *)
(** The construction of the application (app/app.go, [NewChainApp]): which keeper is
    built when, from which stores, with which authority and from which other keepers,
    by value or by reference; the IBC stacks, the modules, the ante handler, and the
    orders of the module manager.  The constructors belong to other packages, but for
    the two of this repository: a keeper is what they are given, and they may panic. *)

From stdpp Require Import base list strings gmap.
From Stdlib Require Import ZArith Lia.
From S2P Require Import Prelude GoTime Sdk LockPb LockStore LockupKeeper Distro Precompile Modules Ante App.

Local Open Scope Z_scope.

(** * The application under construction *)

(** The fields of [ChainApp] that hold keepers. *)
Inductive app_field :=
  | app_AccountKeeper | app_BankKeeper | app_StakingKeeper | app_SlashingKeeper | app_MintKeeper
  | app_DistrKeeper | app_GovKeeper | app_UpgradeKeeper | app_ParamsKeeper | app_AuthzKeeper
  | app_EvidenceKeeper | app_FeeGrantKeeper | app_NFTKeeper | app_ConsensusParamsKeeper
  | app_EpochsKeeper | app_IBCKeeper | app_TransferKeeper | app_CallbackKeeper
  | app_ICAControllerKeeper | app_ICAHostKeeper | app_FeeMarketKeeper | app_EVMKeeper
  | app_Erc20Keeper | app_DistroKeeper | app_LockupKeeper | app_WasmKeeper.

#[export] Instance app_field_eq_dec : EqDecision app_field.
Proof. solve_decision. Defined.

(** The declared types: nil is possible in pointers and interfaces only. *)
Definition nilable (f : app_field) : bool :=
  match f with
  | app_BankKeeper | app_StakingKeeper | app_UpgradeKeeper | app_IBCKeeper | app_EVMKeeper => true
  | _ => false
  end.

(** The number of a keeper, in the order of construction. *)
Abbreviation keeper_id := nat.

(** What is changed in a keeper after its construction; a hook, a restriction or a
    precompile is bound to the keepers it was made from. *)
Record Later := MkLater {
  l_hooks : list (app_field * option keeper_id);
  l_restrictions : list (app_field * option keeper_id);
}.

(** What a constructor is given: [app.F], [&app.F], [*app.F] (a copy, with what was
    set by then), a whole map of store keys, or the EVM chain id. *)
Inductive dep :=
  | Held (f : app_field) (k : option keeper_id)
  | Address (f : app_field)
  | Copied (f : app_field) (k : keeper_id) (l : Later)
  | StoreKeys (names : list string)
  | ChainID (id : Z).

Inductive authority := AuthString (address : string) | AuthBytes (address : bytes).

Record Keeper := MkKeeper {
  k_keys : list string;
  k_tkeys : list string;
  k_authority : option authority;
  k_deps : list dep;
  k_later : Later;
  k_precompiles : list (string * list dep);
}.

(** The stacks of the IBC router, from the application down to the base. *)
Inductive IBCModule :=
  | transfer_NewIBCModule (k : dep)
  | erc20_NewIBCMiddleware (k : dep) (app : IBCModule)
  | ibccallbacks_NewIBCMiddleware (app : IBCModule) (ics4 contractKeeper : dep) (maxCallbackGas : Z)
  | icacontroller_NewIBCMiddleware (k : dep)
  | icahost_NewIBCModule (k : dep)
  | wasm_NewIBCHandler (k channel ics4 : dep).

(** The fields that are set, the latest first. *)
Record ChainApp := MkChainApp {
  a_set : list (app_field * keeper_id);
  a_keepers : list Keeper;
  a_routes : list (string * IBCModule);
  a_modules : list (string * list dep);
}.

Definition no_later : Later := MkLater [] [].
Definition empty_app : ChainApp := MkChainApp [] [] [] [].

Definition a_fields (a : ChainApp) (f : app_field) : option keeper_id :=
  snd ∘ snd <$> list_find (fun p => fst p = f) (a_set a).

Definition set_field (f : app_field) (k : keeper_id) (a : ChainApp) : ChainApp :=
  MkChainApp ((f, k) :: a_set a) (a_keepers a) (a_routes a) (a_modules a).
Definition set_keepers (ks : list Keeper) (a : ChainApp) : ChainApp :=
  MkChainApp (a_set a) ks (a_routes a) (a_modules a).
Definition set_routes (rs : list (string * IBCModule)) (a : ChainApp) : ChainApp :=
  MkChainApp (a_set a) (a_keepers a) rs (a_modules a).
Definition set_modules (ms : list (string * list dep)) (a : ChainApp) : ChainApp :=
  MkChainApp (a_set a) (a_keepers a) (a_routes a) ms.

(** The keeper a field holds or points to. *)
Definition keeper_of (a : ChainApp) (f : app_field) : option (keeper_id * Keeper) :=
  k ← a_fields a f; kp ← a_keepers a !! k; Some (k, kp).

(** A method of the keeper in a field, or a field of it: nil panics; an unset value
    is the zero keeper. *)
Definition use (a : ChainApp) (f : app_field) : outcome dep :=
  match a_fields a f with
  | None => if nilable f then Panic NilDeref else Ok (Held f None)
  | Some k => Ok (Held f (Some k))
  end.

(** The arguments of a constructor, before they are evaluated: [app.F], [&app.F],
    [*app.F], [app.F.G] or [app.F.M()], a map of store keys, and a number. *)
Inductive arg :=
  | Val (f : app_field) | Ref (f : app_field) | Deref (f : app_field) | Part (f : app_field)
  | Keys (names : list string) | EvmChainID (id : Z).

Definition eval (a : ChainApp) (x : arg) : outcome dep :=
  match x with
  | Val f => Ok (Held f (a_fields a f))
  | Ref f => Ok (Address f)
  | Deref f =>
      match keeper_of a f with
      | None => Panic NilDeref
      | Some (k, kp) => Ok (Copied f k (k_later kp))
      end
  | Part f => use a f
  | Keys names => Ok (StoreKeys names)
  | EvmChainID id => Ok (ChainID id)
  end.

Fixpoint eval_all (a : ChainApp) (xs : list arg) : outcome (list dep) :=
  match xs with
  | [] => Ok []
  | x :: rest => d ← eval a x; ds ← eval_all a rest; Ok (d :: ds)
  end.

(** ** Calls of other packages *)

(** The setters of the module manager. *)
Inductive order_setter :=
  | SetOrderPreBlockers | SetOrderBeginBlockers | SetOrderEndBlockers
  | SetOrderInitGenesis | SetOrderExportGenesis.

(** What is called, on which state and with what: the constructor of a keeper with
    its stores, authority and other arguments; the hooks a keeper has and is to get; a
    send restriction; the precompiles the EVM keeper has and is to get; the constructor
    of an IBC module; the routes a router has and is to get; the router of the IBC
    keeper; the route of a light client; the codec registrations of all modules; and
    an order of the modules of the manager. *)
Inductive package_call :=
  | call_NewKeeper (f : app_field) (stores tstores : list string) (auth : option authority) (deps : list dep)
  | call_SetHooks (f : app_field) (set hooks : list (app_field * option keeper_id))
  | call_AppendSendRestriction (f : app_field) (r : app_field * option keeper_id)
  | call_StaticPrecompile (f : app_field) (registered : list string) (address : string) (deps : list dep)
  | call_NewIBCModule (m : IBCModule)
  | call_AddRoute (routes : list string) (name : string)
  | call_SetRouter (f : app_field) (routes : list string)
  | call_AddClientRoute (name : string)
  | call_RegisterCodecs (modules : list string)
  | call_SetOrder (setter : order_setter) (modules names : list string).

(** None of these calls returns an error: it returns, or it panics.  [module_has] is
    the interface a setter looks for in the module of a name. *)
Class Packages := {
  call_panics : package_call -> option panic;
  module_has : order_setter -> string -> bool;
  DistroSchema : Type;
  BuildDistroSchema : outcome DistroSchema;
}.

Section Calls.
Context `{Packages}.

Definition invoke (c : package_call) : outcome unit :=
  match call_panics c with None => Ok tt | Some p => Panic p end.

(** A new keeper in a field. *)
Definition place (f : app_field) (stores tstores : list string) (auth : option authority)
    (deps : list dep) (a : ChainApp) : ChainApp :=
  set_field f (length (a_keepers a))
    (set_keepers (a_keepers a ++ [MkKeeper stores tstores auth deps no_later []]) a).

(** [app.F = pkg.NewKeeper(...)]. *)
Definition construct (f : app_field) (stores tstores : list string) (auth : option authority)
    (args : list arg) (a : ChainApp) : outcome ChainApp :=
  deps ← eval_all a args;
  _ ← invoke (call_NewKeeper f stores tstores auth deps);
  Ok (place f stores tstores auth deps a).

(** A method of the keeper in [f] that changes it: [f] is a pointer, or an interface
    whose copies share what is changed. *)
Definition update (f : app_field) (g : Keeper -> Keeper) (a : ChainApp) : outcome ChainApp :=
  match keeper_of a f with
  | None => Panic NilDeref
  | Some (k, kp) => Ok (set_keepers (<[k := g kp]> (a_keepers a)) a)
  end.

Definition with_later (h : Later -> Later) (kp : Keeper) : Keeper :=
  MkKeeper (k_keys kp) (k_tkeys kp) (k_authority kp) (k_deps kp) (h (k_later kp)) (k_precompiles kp).

(** [SetHooks], [AppendSendRestriction] and [RegisterStaticPrecompile]. *)
Definition SetHooks (f : app_field) (hooks : list app_field) (a : ChainApp) : outcome ChainApp :=
  let new := map (fun h => (h, a_fields a h)) hooks in
  let old := match keeper_of a f with Some (_, kp) => l_hooks (k_later kp) | None => [] end in
  _ ← invoke (call_SetHooks f old new);
  update f (with_later (fun l => MkLater new (l_restrictions l))) a.
Definition AppendSendRestriction_of (f r : app_field) (a : ChainApp) : outcome ChainApp :=
  _ ← invoke (call_AppendSendRestriction f (r, a_fields a r));
  update f (with_later (fun l => MkLater (l_hooks l) (l_restrictions l ++ [(r, a_fields a r)]))) a.
Definition RegisterStaticPrecompile (f : app_field) (address : string) (args : list arg) (a : ChainApp) :
    outcome ChainApp :=
  deps ← eval_all a args;
  let registered :=
    match keeper_of a f with Some (_, kp) => map fst (k_precompiles kp) | None => [] end in
  _ ← invoke (call_StaticPrecompile f registered address deps);
  update f (fun kp => MkKeeper (k_keys kp) (k_tkeys kp) (k_authority kp) (k_deps kp) (k_later kp)
                        (k_precompiles kp ++ [(address, deps)])) a.
End Calls.

(** * The keepers *)

Section Construction.
Context `{SdkTypes} `{ModuleAddresses} `{ExtNames} `{ExtKeys} `{Packages}.

(** The authority of the keepers: the governance module account, as text or bytes. *)
Definition authAddr : authority := AuthString (module_account gov_ModuleName).
Definition authBytes : authority := AuthBytes (NewModuleAddress gov_ModuleName).

(** Up to the transaction configuration, which asks the bank keeper. *)
Definition base_keepers (app : ChainApp) : outcome ChainApp :=
  app ← construct app_ParamsKeeper [params_StoreKey] [params_TStoreKey] None [] app;
  app ← construct app_ConsensusParamsKeeper [consensus_StoreKey] [] (Some authAddr) [] app;
  app ← construct app_AccountKeeper [auth_StoreKey] [] (Some authAddr) [] app;
  construct app_BankKeeper [bank_StoreKey] [] (Some authAddr) [Val app_AccountKeeper] app.

(** The keepers of this repository; the schema of the distro keeper can fail. *)
Definition lockup_keeper (app : ChainApp) : outcome ChainApp :=
  deps ← eval_all app [Val app_AccountKeeper; Val app_BankKeeper; Val app_StakingKeeper];
  let k := LockupModule.NewKeeper (module_account gov_ModuleName) in
  Ok (place app_LockupKeeper [lockup_StoreKey] [] (Some (AuthString (LockupModule.k_authority k))) deps app).
Definition distro_keeper (app : ChainApp) : outcome ChainApp :=
  deps ← eval_all app [Val app_AccountKeeper; Val app_BankKeeper];
  k ← DistroModule.NewKeeper BuildDistroSchema (module_account gov_ModuleName);
  Ok (place app_DistroKeeper [distro_StoreKey] [] (Some (AuthString (DistroModule.k_authority k))) deps app).

(** Up to the send restriction and the staking hooks. *)
Definition sdk_keepers (app : ChainApp) : outcome ChainApp :=
  app ← construct app_StakingKeeper [staking_StoreKey] [] (Some authAddr)
          [Val app_AccountKeeper; Val app_BankKeeper] app;
  app ← construct app_MintKeeper [mint_StoreKey] [] (Some authAddr)
          [Val app_StakingKeeper; Val app_AccountKeeper; Val app_BankKeeper] app;
  app ← construct app_DistrKeeper [distr_StoreKey] [] (Some authAddr)
          [Val app_AccountKeeper; Val app_BankKeeper; Val app_StakingKeeper] app;
  app ← construct app_SlashingKeeper [slashing_StoreKey] [] (Some authAddr) [Val app_StakingKeeper] app;
  app ← construct app_FeeGrantKeeper [feegrant_StoreKey] [] None [Val app_AccountKeeper] app;
  app ← construct app_AuthzKeeper [authz_StoreKey] [] None [Val app_AccountKeeper] app;
  app ← construct app_UpgradeKeeper [upgrade_StoreKey] [] (Some authAddr) [] app;
  app ← construct app_IBCKeeper [ibc_StoreKey] [] (Some authAddr)
          [Part app_ParamsKeeper; Val app_UpgradeKeeper] app;
  app ← construct app_GovKeeper [gov_StoreKey] [] (Some authAddr)
          [Val app_AccountKeeper; Val app_BankKeeper; Val app_StakingKeeper; Val app_DistrKeeper] app;
  app ← SetHooks app_GovKeeper [] app;
  app ← construct app_NFTKeeper [nft_StoreKey] [] None [Val app_AccountKeeper; Val app_BankKeeper] app;
  app ← construct app_EvidenceKeeper [evidence_StoreKey] [] None
          [Val app_StakingKeeper; Val app_SlashingKeeper; Part app_AccountKeeper] app;
  lockup_keeper app.

(** The send restriction of the lockup keeper, and the staking hooks. *)
Definition enforce_locks (app : ChainApp) : outcome ChainApp :=
  app ← AppendSendRestriction_of app_BankKeeper app_LockupKeeper app;
  SetHooks app_StakingKeeper [app_DistrKeeper; app_SlashingKeeper; app_LockupKeeper] app.

(** The EVM keepers and the precompiles. *)
Definition evm_keepers (evmChainID : Z) (app : ChainApp) : outcome ChainApp :=
  app ← construct app_EpochsKeeper [epochs_StoreKey] [] None [] app;
  app ← distro_keeper app;
  app ← construct app_FeeMarketKeeper [feemarket_StoreKey] [feemarket_TransientKey] (Some authBytes) [] app;
  app ← construct app_EVMKeeper [evm_StoreKey] [evm_TransientKey] (Some authBytes)
          [Keys keys; Val app_AccountKeeper; Val app_BankKeeper; Val app_StakingKeeper;
           Val app_FeeMarketKeeper; Ref app_ConsensusParamsKeeper; Ref app_Erc20Keeper;
           EvmChainID evmChainID] app;
  app ← RegisterStaticPrecompile app_EVMKeeper "DefaultStaticPrecompiles"
          [Deref app_StakingKeeper; Val app_DistrKeeper; Val app_BankKeeper; Ref app_Erc20Keeper;
           Ref app_TransferKeeper; Part app_IBCKeeper; Val app_GovKeeper; Val app_SlashingKeeper] app;
  app ← RegisterStaticPrecompile app_EVMKeeper LockupPrecompileAddress
          [Val app_LockupKeeper; Val app_LockupKeeper; Val app_LockupKeeper; Val app_StakingKeeper;
           Val app_BankKeeper] app;
  construct app_Erc20Keeper [erc20_StoreKey] [] (Some authBytes)
    [Val app_AccountKeeper; Val app_BankKeeper; Val app_EVMKeeper; Val app_StakingKeeper;
     Ref app_TransferKeeper] app.

Definition wasm_keeper (app : ChainApp) : outcome ChainApp :=
  construct app_WasmKeeper [wasm_StoreKey] [] (Some authAddr)
    [Val app_AccountKeeper; Val app_BankKeeper; Val app_StakingKeeper; Val app_DistrKeeper;
     Part app_IBCKeeper; Part app_IBCKeeper; Part app_TransferKeeper] app.

(** The IBC applications and the wasm keeper; callbacks run EVM contracts. *)
Definition ibc_keepers (app : ChainApp) : outcome ChainApp :=
  app ← construct app_ICAHostKeeper [icahost_StoreKey] [] (Some authAddr)
          [Part app_ParamsKeeper; Part app_IBCKeeper; Part app_IBCKeeper; Val app_AccountKeeper] app;
  app ← construct app_ICAControllerKeeper [icacontroller_StoreKey] [] (Some authAddr)
          [Part app_ParamsKeeper; Part app_IBCKeeper; Part app_IBCKeeper] app;
  app ← construct app_TransferKeeper [transfer_StoreKey] [] (Some authAddr)
          [Part app_IBCKeeper; Part app_IBCKeeper; Val app_AccountKeeper; Val app_BankKeeper;
           Val app_Erc20Keeper] app;
  app ← construct app_CallbackKeeper [] [] None
          [Val app_AccountKeeper; Val app_EVMKeeper; Val app_Erc20Keeper] app;
  wasm_keeper app.

(** ** The IBC stacks *)

Definition maxCallbackGas : Z := 1000000.

Definition new_ibc_module (m : IBCModule) : outcome IBCModule :=
  _ ← invoke (call_NewIBCModule m);
  Ok m.

(** The callbacks keeper is built between the two middlewares. *)
Definition transfer_stack (app : ChainApp) : outcome IBCModule :=
  transferKeeper ← eval app (Val app_TransferKeeper);
  transferStack ← new_ibc_module (transfer_NewIBCModule transferKeeper);
  erc20Keeper ← eval app (Val app_Erc20Keeper);
  transferStack ← new_ibc_module (erc20_NewIBCMiddleware erc20Keeper transferStack);
  channel ← eval app (Part app_IBCKeeper);
  callbackKeeper ← eval app (Val app_CallbackKeeper);
  new_ibc_module (ibccallbacks_NewIBCMiddleware transferStack channel callbackKeeper maxCallbackGas).

Fixpoint add_routes (ibcRouter routes : list (string * IBCModule)) : outcome (list (string * IBCModule)) :=
  match routes with
  | [] => Ok ibcRouter
  | (name, stack) :: rest =>
      _ ← invoke (call_AddRoute (map fst ibcRouter) name);
      add_routes (ibcRouter ++ [(name, stack)]) rest
  end.

Definition set_ibc_router (app : ChainApp) : outcome ChainApp :=
  transferStack ← transfer_stack app;
  controller ← eval app (Val app_ICAControllerKeeper);
  icaControllerStack ← new_ibc_module (icacontroller_NewIBCMiddleware controller);
  host ← eval app (Val app_ICAHostKeeper);
  icaHostStack ← new_ibc_module (icahost_NewIBCModule host);
  wasm ← eval app (Val app_WasmKeeper);
  channel ← eval app (Part app_IBCKeeper);
  wasmStack ← new_ibc_module (wasm_NewIBCHandler wasm channel channel);
  ibcRouter ← add_routes [] (zip ibcRouter_routes [transferStack; icaControllerStack; icaHostStack; wasmStack]);
  _ ← use app app_IBCKeeper;
  _ ← invoke (call_SetRouter app_IBCKeeper (map fst ibcRouter));
  _ ← invoke (call_AddClientRoute ibctm_ModuleName);
  Ok (set_routes ibcRouter app).

(** ** The modules *)

(** What each module of the manager is given, in the order of
    [ModuleManager_modules]. *)
Definition module_args : list (list arg) :=
  [[Val app_AccountKeeper; Val app_StakingKeeper];
   [Val app_AccountKeeper];
   [Val app_BankKeeper; Val app_AccountKeeper];
   [Val app_AccountKeeper; Val app_BankKeeper; Val app_FeeGrantKeeper];
   [Ref app_GovKeeper; Val app_AccountKeeper; Val app_BankKeeper];
   [Val app_NFTKeeper; Val app_AccountKeeper; Val app_BankKeeper];
   [Val app_MintKeeper; Val app_AccountKeeper];
   [Val app_SlashingKeeper; Val app_AccountKeeper; Val app_BankKeeper; Val app_StakingKeeper];
   [Val app_DistrKeeper; Val app_AccountKeeper; Val app_BankKeeper; Val app_StakingKeeper];
   [Val app_StakingKeeper; Val app_AccountKeeper; Val app_BankKeeper];
   [Val app_UpgradeKeeper; Part app_AccountKeeper];
   [Val app_EvidenceKeeper];
   [Val app_ParamsKeeper];
   [Val app_AuthzKeeper; Val app_AccountKeeper; Val app_BankKeeper];
   [Val app_ConsensusParamsKeeper];
   [Val app_EpochsKeeper];
   [Val app_AccountKeeper; Val app_BankKeeper];
   [Val app_IBCKeeper];
   [Part app_IBCKeeper];
   [Val app_TransferKeeper];
   [Ref app_ICAControllerKeeper; Ref app_ICAHostKeeper];
   [Val app_EVMKeeper; Val app_AccountKeeper; Val app_BankKeeper; Part app_AccountKeeper];
   [Val app_FeeMarketKeeper];
   [Val app_Erc20Keeper; Val app_AccountKeeper];
   [Val app_DistroKeeper];
   [Val app_LockupKeeper];
   [Ref app_WasmKeeper; Val app_StakingKeeper; Val app_AccountKeeper; Val app_BankKeeper]].

Fixpoint eval_modules (a : ChainApp) (ms : list (string * list arg)) : outcome (list (string * list dep)) :=
  match ms with
  | [] => Ok []
  | (name, args) :: rest =>
      deps ← eval_all a args;
      mods ← eval_modules a rest;
      Ok ((name, deps) :: mods)
  end.

Definition new_manager (app : ChainApp) : outcome ChainApp :=
  mods ← eval_modules app (zip ModuleManager_modules module_args);
  Ok (set_modules mods app).

(** The codecs of the modules, and their orders. *)
Definition set_orders (app : ChainApp) : outcome ChainApp :=
  let modules := map fst (a_modules app) in
  _ ← invoke (call_RegisterCodecs modules);
  _ ← invoke (call_SetOrder SetOrderPreBlockers modules OrderPreBlockers);
  _ ← invoke (call_SetOrder SetOrderBeginBlockers modules OrderBeginBlockers);
  _ ← invoke (call_SetOrder SetOrderEndBlockers modules OrderEndBlockers);
  _ ← invoke (call_SetOrder SetOrderInitGenesis modules genesisModuleOrder);
  _ ← invoke (call_SetOrder SetOrderExportGenesis modules genesisModuleOrder);
  Ok app.

(** From the staking keeper to the module manager. *)
Definition wire_keepers (evmChainID : Z) (app : ChainApp) : outcome ChainApp :=
  app ← sdk_keepers app;
  app ← enforce_locks app;
  app ← evm_keepers evmChainID app;
  app ← ibc_keepers app;
  app ← set_ibc_router app;
  app ← new_manager app;
  set_orders app.
End Construction.
