(* ===== verification/WiringProps.v ===== *)
(** What the construction of the application comes to: which calls of other packages
    have to return for it, and that then every keeper has its own stores, the
    governance authority and finished keepers, no copy is out of date, and the lockup
    hooks and restriction are in every keeper they must be in. *)

From stdpp Require Import base list sets strings.
From Stdlib Require Import ZArith Lia.
From S2P Require Import Prelude GoTime Sdk LockPb LockStore LockupKeeper Distro Precompile Modules Ante App Wiring.

Local Open Scope Z_scope.

Section Props.
Context `{SdkTypes} `{ModuleAddresses} `{ExtNames} `{ExtKeys}.

(** [k] is the keeper that [f] holds in the end. *)
Definition final (a : ChainApp) (f : app_field) (k : option keeper_id) : Prop :=
  exists n, k = Some n /\ a_fields a f = Some n.

(** A dependency is finished: the field was set when it was read and not replaced
    later, a reference is to a field that is set, a copy has all that was set later. *)
Definition up_to_date (a : ChainApp) (d : dep) : Prop :=
  match d with
  | Held f k => final a f k
  | Address f => is_Some (a_fields a f)
  | Copied f k l => a_fields a f = Some k /\ exists kp, a_keepers a !! k = Some kp /\ k_later kp = l
  | StoreKeys names => names = keys
  | ChainID _ => True
  end.

Definition later_final (a : ChainApp) (l : Later) : Prop :=
  Forall (fun '(f, k) => final a f k) (l_hooks l ++ l_restrictions l).

Definition gov_authority (au : option authority) : Prop :=
  match au with
  | None => True
  | Some (AuthString s) => s = module_account gov_ModuleName
  | Some (AuthBytes b) => b = NewModuleAddress gov_ModuleName
  end.

Fixpoint stack_deps (m : IBCModule) : list dep :=
  match m with
  | transfer_NewIBCModule k => [k]
  | erc20_NewIBCMiddleware k app => k :: stack_deps app
  | ibccallbacks_NewIBCMiddleware app ics4 contractKeeper _ => ics4 :: contractKeeper :: stack_deps app
  | icacontroller_NewIBCMiddleware k => [k]
  | icahost_NewIBCModule k => [k]
  | wasm_NewIBCHandler k channel ics4 => [k; channel; ics4]
  end.

(** Everything handed to anything. *)
Definition all_deps (a : ChainApp) : list dep :=
  flat_map k_deps (a_keepers a)
  ++ flat_map (fun k => flat_map snd (k_precompiles k)) (a_keepers a)
  ++ flat_map (fun r => stack_deps (snd r)) (a_routes a)
  ++ flat_map snd (a_modules a).

Record well_wired (a : ChainApp) : Prop := {
  wired_fields : Forall (fun f => is_Some (keeper_of a f))
    [app_AccountKeeper; app_BankKeeper; app_StakingKeeper; app_SlashingKeeper; app_MintKeeper;
     app_DistrKeeper; app_GovKeeper; app_UpgradeKeeper; app_ParamsKeeper; app_AuthzKeeper;
     app_EvidenceKeeper; app_FeeGrantKeeper; app_NFTKeeper; app_ConsensusParamsKeeper;
     app_EpochsKeeper; app_IBCKeeper; app_TransferKeeper; app_CallbackKeeper;
     app_ICAControllerKeeper; app_ICAHostKeeper; app_FeeMarketKeeper; app_EVMKeeper;
     app_Erc20Keeper; app_DistroKeeper; app_LockupKeeper; app_WasmKeeper];
  wired_deps : Forall (up_to_date a) (all_deps a);
  wired_later : Forall (fun k => later_final a (k_later k)) (a_keepers a);
  wired_stores : flat_map k_keys (a_keepers a) ≡ₚ keys;
  wired_tstores : flat_map k_tkeys (a_keepers a) ≡ₚ tkeys;
  wired_authority : Forall (fun k => gov_authority (k_authority k)) (a_keepers a);
  wired_names : map fst (a_modules a) = ModuleManager_modules /\ map fst (a_routes a) = ibcRouter_routes;
}.

(** Two lists of the same names or calls. *)
Ltac split_at x k :=
  lazymatch k with
  | x :: ?r => let T := type of x in constr:((@nil T, r))
  | ?y :: ?r => let p := split_at x r in
                lazymatch p with (?l1, ?l2) => constr:((y :: l1, l2)) end
  end.
Ltac same_names :=
  repeat lazymatch goal with
    | |- ?x :: ?l ≡ₚ ?k =>
        let p := split_at x k in
        lazymatch p with (?l1, ?l2) => apply (Permutation_cons_app l1 l2 x); cbn [app] end
    end; try reflexivity.

Ltac each := repeat first [apply List.Forall_nil | apply List.Forall_cons].

(** The bank keeper has the lockup send restriction, the staking keeper the lockup
    hooks, and so has every copy of it. *)
Definition enforces_locks (a : ChainApp) : Prop :=
  exists n b s, a_fields a app_LockupKeeper = Some n /\
    keeper_of a app_BankKeeper = Some b /\ keeper_of a app_StakingKeeper = Some s /\
    l_restrictions (k_later b.2) = [(app_LockupKeeper, Some n)] /\
    (app_LockupKeeper, Some n) ∈ l_hooks (k_later s.2) /\
    Forall (fun d => match d with
                     | Copied app_StakingKeeper _ l => (app_LockupKeeper, Some n) ∈ l_hooks l
                     | Copied app_BankKeeper _ l => l_restrictions l = [(app_LockupKeeper, Some n)]
                     | _ => True
                     end) (all_deps a).

(** The EVM keeper runs on the chain id given. *)
Definition evm_chain (a : ChainApp) (id : Z) : Prop :=
  exists e, keeper_of a app_EVMKeeper = Some e /\
    List.filter (fun d => match d with ChainID _ => true | _ => false end) (k_deps e.2) = [ChainID id].

(** ** The calls an application has been built with *)

(** A list whose elements are each called with what came before. *)
Fixpoint with_before {A B} (f : list A -> A -> B) (before l : list A) : list B :=
  match l with [] => [] | x :: l' => f before x :: with_before f (before ++ [x]) l' end.

Fixpoint stack_modules (m : IBCModule) : list IBCModule :=
  m :: match m with
       | erc20_NewIBCMiddleware _ app => stack_modules app
       | ibccallbacks_NewIBCMiddleware app _ _ _ => stack_modules app
       | _ => []
       end.

(** The keepers of this repository are not constructed by other packages. *)
Definition own_keeper (f : app_field) : bool :=
  match f with app_LockupKeeper | app_DistroKeeper => true | _ => false end.

(** Read off the finished application: a call for every keeper of another package, for
    every restriction and precompile, every IBC module and route, the router, the light
    client and the codecs. *)
Definition keeper_calls (a : ChainApp) : list package_call :=
  flat_map (fun '(f, k) =>
    match a_keepers a !! k with
    | Some kp =>
        (if own_keeper f then [] else
         [call_NewKeeper f (k_keys kp) (k_tkeys kp) (k_authority kp) (k_deps kp)])
        ++ map (call_AppendSendRestriction f) (l_restrictions (k_later kp))
        ++ with_before (fun before p => call_StaticPrecompile f (map fst before) p.1 p.2) [] (k_precompiles kp)
    | None => []
    end) (a_set a).
Definition router_calls (a : ChainApp) : list package_call :=
  map call_NewIBCModule (flat_map (fun r => stack_modules r.2) (a_routes a))
  ++ with_before call_AddRoute [] (map fst (a_routes a))
  ++ [call_SetRouter app_IBCKeeper (map fst (a_routes a)); call_AddClientRoute ibctm_ModuleName;
      call_RegisterCodecs (map fst (a_modules a))].
Definition package_calls (a : ChainApp) : list package_call := keeper_calls a ++ router_calls a.

Section Runs.
Context `{Packages}.

Definition returns_call (c : package_call) : Prop := call_panics c = None.

(** What a construction needs: calls that return, and (as [None]) the schema of the
    distro keeper. *)
Definition given (n : option package_call) : Prop :=
  match n with Some c => returns_call c | None => is_ok BuildDistroSchema = true end.

(** What the packages have to do for [a] to be built. *)
Definition packages_return (a : ChainApp) : Prop := Forall given (None :: map Some (package_calls a)).

(** What the SDK's manager and keepers document.  A setter of the manager panics
    exactly when a module it looks for is not in the list it is given; the modules of
    the SDK with a pre-blocker, and the ones without begin blocker, end blocker or
    genesis; hooks are set once. *)
Class ManagerLaws : Prop := {
  SetOrder_returns setter modules names :
    returns_call (call_SetOrder setter modules names) <->
    Forall (fun m => module_has setter m = true -> m ∈ names) modules;
  PreBlock_modules m : module_has SetOrderPreBlockers m = true ->
    m = upgrade_ModuleName \/ m = auth_ModuleName \/ m = evm_ModuleName;
  no_BeginBlock m : m ∈ [upgrade_ModuleName; params_ModuleName; ibctm_ModuleName] ->
    module_has SetOrderBeginBlockers m = false;
  no_EndBlock m : m ∈ [params_ModuleName; ibctm_ModuleName] -> module_has SetOrderEndBlockers m = false;
  no_genesis : module_has SetOrderInitGenesis ibctm_ModuleName = false /\
    module_has SetOrderExportGenesis ibctm_ModuleName = false;
  SetHooks_returns f hooks : returns_call (call_SetHooks f [] hooks);
}.

(** [m] comes to [a] if all of [cs] is given, and to nothing otherwise. *)
Definition runs_as {A} (m : outcome A) (cs : list (option package_call)) (a : A) : Prop :=
  forall r, m = Ok r <-> Forall given cs /\ r = a.

Lemma runs_Ok {A} (a : A) : runs_as (Ok a) [] a.
Proof. intros r. rewrite Forall_nil. split; [by intros [= ->]|by intros [_ ->]]. Qed.

Lemma runs_bind {A B} (m : outcome A) (f : A -> outcome B) cs ds a b :
  runs_as m cs a -> runs_as (f a) ds b -> runs_as (m ≫= f) (cs ++ ds) b.
Proof.
  intros M F r. rewrite Forall_app. split.
  - intros (x & [q ->]%M & [p ->]%F)%bind_Ok. done.
  - intros [[q p] ->]. rewrite (proj2 (M a)) by done. by apply F.
Qed.

Lemma runs_as_eq {A} (m : outcome A) cs ds a a' :
  runs_as m cs a -> a = a' -> cs = ds -> runs_as m ds a'.
Proof. by intros M <- <-. Qed.

Lemma runs_invoke c : runs_as (invoke c) [Some c] tt.
Proof.
  intros []. rewrite Forall_singleton. unfold invoke. cbn [given]. unfold returns_call.
  destruct (call_panics c); split; try done. by intros [? _].
Qed.

Lemma runs_pure {A} (m : outcome A) a : m = Ok a -> runs_as m [] a.
Proof. intros ->. apply runs_Ok. Qed.

(** A call before something whose result is known. *)
Lemma runs_then {A} c (m : outcome A) a : m = Ok a -> runs_as (_ ← invoke c; m) [Some c] a.
Proof. intros M. exact (runs_bind _ (fun _ => m) [Some c] [] _ _ (runs_invoke c) (runs_pure m a M)). Qed.

(** A call that is known to return. *)
Lemma runs_given {A} (m : outcome A) c a : runs_as m [Some c] a -> returns_call c -> runs_as m [] a.
Proof. intros M R r. rewrite (M r), Forall_singleton, Forall_nil. by split; intros [_ ?]. Qed.

Lemma runs_construct f st tst au args a ds a' :
  eval_all a args = Ok ds -> place f st tst au ds a = a' ->
  runs_as (construct f st tst au args a) [Some (call_NewKeeper f st tst au ds)] a'.
Proof. intros E <-. unfold construct. rewrite E. by apply runs_then. Qed.

Lemma runs_precompile f address args a ds rs a' :
  eval_all a args = Ok ds ->
  match keeper_of a f with Some (_, kp) => map fst (k_precompiles kp) | None => [] end = rs ->
  update f (fun kp => MkKeeper (k_keys kp) (k_tkeys kp) (k_authority kp) (k_deps kp) (k_later kp)
                        (k_precompiles kp ++ [(address, ds)])) a = Ok a' ->
  runs_as (RegisterStaticPrecompile f address args a) [Some (call_StaticPrecompile f rs address ds)] a'.
Proof.
  intros E <- U. unfold RegisterStaticPrecompile. rewrite E. by apply runs_then.
Qed.

Lemma runs_restriction f r a k a' :
  a_fields a r = k ->
  update f (with_later (fun l => MkLater (l_hooks l) (l_restrictions l ++ [(r, k)]))) a = Ok a' ->
  runs_as (AppendSendRestriction_of f r a) [Some (call_AppendSendRestriction f (r, k))] a'.
Proof. intros <- U. by apply runs_then. Qed.

(** The hooks of a keeper without hooks. *)
Lemma runs_SetHooks `{!ManagerLaws} f hooks a new a' :
  map (fun h => (h, a_fields a h)) hooks = new ->
  match keeper_of a f with Some (_, kp) => l_hooks (k_later kp) | None => [] end = [] ->
  update f (with_later (fun l => MkLater new (l_restrictions l))) a = Ok a' ->
  runs_as (SetHooks f hooks a) [] a'.
Proof.
  intros <- L U. unfold SetHooks. rewrite L. eapply runs_given; [by apply runs_then|apply SetHooks_returns].
Qed.

Lemma runs_ibc_module m : runs_as (new_ibc_module m) [Some (call_NewIBCModule m)] m.
Proof. by apply runs_then. Qed.

Lemma runs_add_routes rs : forall before,
  runs_as (add_routes before rs) (map Some (with_before call_AddRoute (map fst before) (map fst rs)))
    (before ++ rs).
Proof.
  induction rs as [|[n m] rs IH]; intros before; cbn [add_routes map fst with_before].
  - rewrite app_nil_r. apply runs_Ok.
  - rewrite (app_assoc before [(n, m)] rs : before ++ (n, m) :: rs = _).
    eapply (runs_bind _ _ [Some _]); [apply runs_invoke|]. specialize (IH (before ++ [(n, m)])).
    by rewrite map_app in IH.
Qed.

Lemma runs_distro a ds a' :
  eval_all a [Val app_AccountKeeper; Val app_BankKeeper] = Ok ds ->
  place app_DistroKeeper [distro_StoreKey] []
    (Some (AuthString (keeper_authority (module_account gov_ModuleName)))) ds a = a' ->
  runs_as (distro_keeper a) [None] a'.
Proof.
  intros E <- r. rewrite Forall_singleton. unfold distro_keeper, DistroModule.NewKeeper.
  rewrite E. cbn [mbind outcome_bind given].
  destruct BuildDistroSchema as [sch|e|p|]; cbn; split; try done; try (by intros [? _]).
  - by intros [= <-].
  - by intros [_ ->].
Qed.

(** ** No module is forgotten *)

Ltac listed := intros _; unfold OrderBeginBlockers, OrderEndBlockers, genesisModuleOrder;
  repeat (first [apply list_elem_of_here | apply list_elem_of_further]).

Lemma PreBlockers_complete `{!ManagerLaws} :
  Forall (fun m => module_has SetOrderPreBlockers m = true -> m ∈ OrderPreBlockers) ModuleManager_modules.
Proof.
  apply Forall_forall. intros m _ Hm. unfold OrderPreBlockers.
  destruct (PreBlock_modules m Hm) as [->|[->| ->]]; set_solver.
Qed.

Lemma BeginBlockers_complete `{!ManagerLaws} :
  Forall (fun m => module_has SetOrderBeginBlockers m = true -> m ∈ OrderBeginBlockers) ModuleManager_modules.
Proof. each; try (by listed); (rewrite no_BeginBlock; [done|set_solver]). Qed.

Lemma EndBlockers_complete `{!ManagerLaws} :
  Forall (fun m => module_has SetOrderEndBlockers m = true -> m ∈ OrderEndBlockers) ModuleManager_modules.
Proof. each; try (by listed); (rewrite no_EndBlock; [done|set_solver]). Qed.

Lemma genesis_complete `{!ManagerLaws} setter :
  setter = SetOrderInitGenesis \/ setter = SetOrderExportGenesis ->
  Forall (fun m => module_has setter m = true -> m ∈ genesisModuleOrder) ModuleManager_modules.
Proof.
  intros S. destruct no_genesis as [N1 N2].
  each; try (by listed); destruct S as [-> | ->]; by rewrite ?N1, ?N2.
Qed.

Lemma runs_SetOrder `{!ManagerLaws} setter modules names :
  modules = ModuleManager_modules ->
  Forall (fun m => module_has setter m = true -> m ∈ names) ModuleManager_modules ->
  runs_as (invoke (call_SetOrder setter modules names)) [] tt.
Proof. intros -> F. eapply runs_given; [apply runs_invoke|by apply SetOrder_returns]. Qed.
End Runs.

(** ** The finished application *)

(** It is the one built when every call returns. *)
Definition every_call : Packages :=
  {| call_panics _ := None; module_has _ _ := false; DistroSchema := unit; BuildDistroSchema := Ok tt |}.
Definition wired_base : ChainApp := ok_or empty_app (base_keepers (H3 := every_call) empty_app).
Definition wired (evmChainID : Z) : ChainApp :=
  ok_or empty_app (wire_keepers (H3 := every_call) evmChainID wired_base).

Ltac vm := vm_compute; reflexivity.
Ltac run_step :=
  lazymatch goal with
  | |- runs_as (construct _ _ _ _ _ _) _ _ => eapply runs_construct; vm
  | |- runs_as (RegisterStaticPrecompile _ _ _ _) _ _ => eapply runs_precompile; vm
  | |- runs_as (AppendSendRestriction_of _ _ _) _ _ => eapply runs_restriction; vm
  | |- runs_as (SetHooks _ _ _) _ _ => eapply runs_SetHooks; vm
  | |- runs_as (new_ibc_module _) _ _ => apply runs_ibc_module
  | |- runs_as (distro_keeper _) _ _ => eapply runs_distro; vm
  | |- runs_as (invoke (call_SetOrder ?s _ _)) _ _ =>
      apply runs_SetOrder; [vm|first [apply PreBlockers_complete|apply BeginBlockers_complete
        |apply EndBlockers_complete|apply genesis_complete; auto]]
  | |- runs_as (invoke _) _ _ => apply runs_invoke
  | |- runs_as (add_routes _ _) _ _ => apply runs_add_routes
  | |- runs_as (mbind _ _) _ _ => eapply runs_bind; [run_step|cbv beta]
  | |- _ => eapply runs_pure; vm
  end.

Section Wired.
Context `{Packages} `{!ManagerLaws}.

Lemma wired_runs id : exists cs ds,
  runs_as (base_keepers empty_app) cs wired_base /\
  runs_as (wire_keepers id wired_base) ds (wired id) /\
  cs ++ ds ≡ₚ None :: map Some (package_calls (wired id)).
Proof.
  eexists _, _. split; [|split].
  - eapply runs_as_eq; [unfold base_keepers; repeat run_step|vm..].
  - eapply runs_as_eq; [|vm..].
    unfold wire_keepers, sdk_keepers, enforce_locks, evm_keepers, ibc_keepers, wasm_keeper,
      set_ibc_router, transfer_stack, set_orders. repeat run_step.
  - vm_compute. same_names.
Qed.

(** The construction returns exactly when the calls it needs do, and has one result. *)
Lemma wire_keepers_runs id :
  (base_keepers empty_app = Ok wired_base /\ wire_keepers id wired_base = Ok (wired id) <->
   packages_return (wired id)) /\
  (forall b, base_keepers empty_app = Ok b -> b = wired_base) /\
  (forall a, wire_keepers id wired_base = Ok a -> a = wired id).
Proof.
  destruct (wired_runs id) as (cs & ds & B & W & P).
  split; [|split; [by intros b [_ ?]%B|by intros a [_ ?]%W]].
  unfold packages_return. rewrite <- P, Forall_app. split.
  - by intros [[? _]%B [? _]%W].
  - intros [C D]. split; [by apply B|by apply W].
Qed.
End Wired.

Ltac finished :=
  first [exact I | reflexivity | exact (ex_intro _ _ eq_refl)
        |exact (ex_intro _ _ (conj eq_refl eq_refl)) | solve [eauto]].

(** The finished application: everything handed out is finished. *)
Lemma wired_ok evmChainID :
  a_fields wired_base app_BankKeeper = a_fields (wired evmChainID) app_BankKeeper /\
  well_wired (wired evmChainID) /\ enforces_locks (wired evmChainID) /\ evm_chain (wired evmChainID) evmChainID.
Proof.
  split; [vm_compute; reflexivity|]. split; [|split].
  - constructor.
    + each; eexists; vm_compute; reflexivity.
    + vm_compute. each; finished.
    + vm_compute. each; finished.
    + vm_compute. same_names.
    + vm_compute. same_names.
    + vm_compute. each; first [reflexivity | exact I | by case_match].
    + split; vm_compute; reflexivity.
  - do 3 eexists. repeat (split; [vm_compute; reflexivity|]). split.
    + vm_compute. repeat constructor.
    + vm_compute. each; first [exact I | reflexivity | repeat constructor].
  - eexists. split; vm_compute; reflexivity.
Qed.

(** The transfer keeper is given core IBC's channel keeper twice, to send packets and
    to look channels up, and no part of the stack its module is wrapped in. *)
Lemma transfer_keeper_sends_on_channel evmChainID :
  exists k, keeper_of (wired evmChainID) app_TransferKeeper = Some k /\
    map (fun d => match d with Held f _ => Some f | _ => None end) (k_deps k.2)
    = [Some app_IBCKeeper; Some app_IBCKeeper; Some app_AccountKeeper; Some app_BankKeeper; Some app_Erc20Keeper].
Proof. eexists. split; vm_compute; reflexivity. Qed.
End Props.
