(* ===== verification/Startup.v ===== *)
(** The start of the application: [NewChainApp] of app/app.go as a whole, with the
    calls of other packages that can fail, the ante handler it installs and the
    check of the protobuf annotations. *)

From stdpp Require Import base list strings gmap sets.
From Stdlib Require Import ZArith Lia.
From S2P Require Import Prelude GoTime Sdk LockPb LockStore LockupKeeper Distro LegacyProto LegacyTx Precompile Modules Ante App Wiring.

Local Open Scope Z_scope.

(** What [NewChainApp] reads from the application options. *)
Record AppOptions := MkAppOptions {
  FlagUnsafeSkipUpgrades : list Z;
  EVMMaxTxGasWanted : Z;
}.

(** [int64(h)] of every height, as a set. *)
Definition skip_upgrade_heights (heights : list Z) : gset Z := list_to_set (map int64 heights).

(** [os.Exit(1)] after an error. *)
Definition exit_on_error {A} (m : outcome A) : outcome A :=
  match m with Err _ => Panic (ExtPanic "os.Exit") | _ => m end.

(** The encoding configuration, with the types of the ante handler's options. *)
Record EncodingConfig `{EthEnv} `{AnteEnv} (SG TB SC : Type) := MkEncodingConfig {
  enc_Codec : option Codec;
  enc_TxConfig : TxConfig SG TB (option SignModeHandler_t) SC;
}.
Arguments MkEncodingConfig {_ _ SG TB SC}.
Arguments enc_Codec {_ _ SG TB SC}.
Arguments enc_TxConfig {_ _ SG TB SC}.

(** The calls of other packages.  A keeper put in an interface is a value of that
    interface, also when the pointer is nil. *)
Class AppExternals (SG TB SC : Type) `{EthEnv} `{AnteEnv} := {
  MakeConfig : Z -> EncodingConfig SG TB SC;
  RegisterStreamingServices : list string -> outcome unit;
  NewTxConfigWithOptions :
    option Codec -> dep -> outcome (TxConfig SG TB (option SignModeHandler_t) SC);
  RegisterServices : list (string * list dep) -> outcome unit;
  ReadUpgradeInfoFromDisk : outcome UpgradeInfo;
  IsSkipHeight : gset Z -> Z -> bool;
  NewReflectionService : outcome unit;
  NewPostHandler : outcome unit;
  ProtoFiles : Type;
  MergedRegistry : outcome (option ProtoFiles);
  ValidateProtoAnnotations : ProtoFiles -> outcome unit;
  panic_text : panic -> string;
  LoadLatest : outcome unit;
  to_AuthKeeper : option Keeper -> AuthKeeper;
  to_BankKeeper : Keeper -> AnteBankKeeper;
  to_IBCKeeper : Keeper -> IBCKeeper_t;
  to_FeeMarketKeeper : option Keeper -> FeeMarketKeeper_t;
  to_EvmKeeper : option Keeper -> EvmKeeper_t;
  to_FeegrantKeeper : option Keeper -> FeegrantKeeper_t;
  HasDynamicFeeExtensionOption : ExtensionOptionChecker_t;
  SigVerificationGasConsumer : SigGasConsumer_t;
  onPendingTx_listener : PendingTxListener_t;
}.

(** The application that [NewChainApp] returns. *)
Record Started `{EthEnv} `{AnteEnv} (SG TB SC : Type) := MkStarted {
  s_app : ChainApp;
  s_txConfig : TxConfig SG TB (option SignModeHandler_t) SC;
  s_decoder : bytes -> outcome SdkTx;
  s_ante : HandlerOptions;
  s_store_loader : option (Z * StoreUpgrades);
  s_stderr : list string;
}.
Arguments MkStarted {_ _ SG TB SC}.
Arguments s_app {_ _ SG TB SC}.
Arguments s_txConfig {_ _ SG TB SC}.
Arguments s_decoder {_ _ SG TB SC}.
Arguments s_ante {_ _ SG TB SC}.
Arguments s_store_loader {_ _ SG TB SC}.
Arguments s_stderr {_ _ SG TB SC}.

Section Start.
Context `{SdkMath} `{SdkTypes} `{ModuleAddresses} `{ExtNames} `{ExtKeys} `{Packages} `{EthEnv} `{AnteEnv}.
Context {SG TB SC : Type} `{!AppExternals SG TB SC}.

(** [setAnteHandler]. *)
Definition ante_options (app : ChainApp) (appCodec : option Codec)
    (txConfig : TxConfig SG TB (option SignModeHandler_t) SC) (maxGasWanted : Z) : HandlerOptions :=
  let keeper f := snd <$> keeper_of app f in
  {| opt_Cdc := appCodec;
     opt_AccountKeeper := to_AuthKeeper (keeper app_AccountKeeper);
     opt_BankKeeper := to_BankKeeper <$> keeper app_BankKeeper;
     opt_IBCKeeper := to_IBCKeeper <$> keeper app_IBCKeeper;
     opt_FeeMarketKeeper := Some (to_FeeMarketKeeper (keeper app_FeeMarketKeeper));
     opt_EvmKeeper := Some (to_EvmKeeper (keeper app_EVMKeeper));
     opt_FeegrantKeeper := Some (to_FeegrantKeeper (keeper app_FeeGrantKeeper));
     opt_ExtensionOptionChecker := Some HasDynamicFeeExtensionOption;
     opt_SignModeHandler := SignModeHandler txConfig;
     opt_SigGasConsumer := Some SigVerificationGasConsumer;
     opt_MaxTxGasWanted := maxGasWanted;
     opt_DynamicFeeChecker := true;
     opt_PendingTxListener := Some onPendingTx_listener |}.

Definition setAnteHandler (app : ChainApp) (appCodec : option Codec)
    (txConfig : TxConfig SG TB (option SignModeHandler_t) SC) (maxGasWanted : Z) : outcome HandlerOptions :=
  let options := ante_options app appCodec txConfig maxGasWanted in
  _ ← must (HandlerOptions_Validate options);
  Ok options.

(** [configureEVMMempool]: the SDK's mempool stays. *)
Definition configureEVMMempool : outcome unit := Ok tt.

(** The merged registry, with its error ignored; a panic about the files of the
    removed ORM is a warning. *)
Definition merged_registry : outcome (option ProtoFiles * list string) :=
  match MergedRegistry with
  | Ok protoFiles => Ok (protoFiles, [])
  | Err _ => Ok (None, [])
  | Panic r =>
      if Contains (panic_text r) "cosmos/orm/v1/orm.proto" then
        Ok (None, ["Warning: Skipping proto validation due to legacy ORM descriptors. This is expected after upgrading from older cosmos-sdk versions."])
      else Panic r
  | OutOfFuel => OutOfFuel
  end.

(** What is written to the standard error; wrong annotations stop nothing. *)
Definition check_annotations : outcome (list string) :=
  '(protoFiles, warnings) ← merged_registry;
  match protoFiles with
  | None => Ok warnings
  | Some files => catch (ValidateProtoAnnotations files) (fun _ => Ok warnings)
                    (fun err => Ok (warnings ++ [Error_text err]))
  end.

(** From the registration of the services to the end. *)
Definition finish_start (loadLatest : bool) (appOpts : AppOptions) (appCodec : option Codec)
    (txConfig : TxConfig SG TB (option SignModeHandler_t) SC) (decoder : bytes -> outcome SdkTx)
    (app : ChainApp) : outcome (Started SG TB SC) :=
  _ ← must (RegisterServices (a_modules app));
  loader ← upgrade_store_loader ReadUpgradeInfoFromDisk
             (IsSkipHeight (skip_upgrade_heights (FlagUnsafeSkipUpgrades appOpts)));
  _ ← must NewReflectionService;
  options ← setAnteHandler app appCodec txConfig (EVMMaxTxGasWanted appOpts);
  _ ← must configureEVMMempool;
  _ ← must NewPostHandler;
  warnings ← check_annotations;
  _ ← (if loadLatest then exit_on_error LoadLatest else Ok tt);
  Ok (MkStarted app txConfig decoder options loader warnings).

Definition NewChainApp (loadLatest : bool) (appOpts : AppOptions) : outcome (Started SG TB SC) :=
  let evmChainID := evm_chain_id loadLatest in
  let encodingConfig := MakeConfig evmChainID in
  let appCodec := enc_Codec encodingConfig in
  let decoder := LegacyAwareTxDecoder (TxDecoder (enc_TxConfig encodingConfig)) in
  _ ← exit_on_error (RegisterStreamingServices keys);
  app ← base_keepers empty_app;
  bank ← eval app (Val app_BankKeeper);
  txConfig ← must (NewTxConfigWithOptions appCodec bank);
  app ← wire_keepers evmChainID app;
  finish_start loadLatest appOpts appCodec (NewLegacyAwareTxConfig txConfig) decoder app.
End Start.
