(* ===== verification/StartupProps.v ===== *)
(** When the application starts, and what a started application is. *)

From stdpp Require Import base list strings gmap sets.
From Stdlib Require Import ZArith Lia.
From S2P Require Import Prelude GoTime Sdk LockPb LockStore LockupKeeper Distro LegacyProto LegacyTx Precompile Modules Ante App Wiring WiringProps Startup.

Local Open Scope Z_scope.

Section Props.
Context `{SdkMath} `{SdkTypes} `{ModuleAddresses} `{ExtNames} `{ExtKeys} `{Packages} `{!ManagerLaws} `{EthEnv} `{AnteEnv}.
Context {SG TB SC : Type} `{!AppExternals SG TB SC}.

(** The annotations stop the start only by a panic that is not the one about the
    removed ORM. *)
Definition annotations_pass : Prop :=
  match MergedRegistry with
  | Ok None | Err _ => True
  | Ok (Some files) => is_ok (ValidateProtoAnnotations files) = true \/
                       exists e, ValidateProtoAnnotations files = Err e
  | Panic r => Contains (panic_text r) "cosmos/orm/v1/orm.proto" = true
  | OutOfFuel => False
  end.

Lemma check_annotations_ok : is_ok check_annotations = true <-> annotations_pass.
Proof.
  unfold check_annotations, merged_registry, annotations_pass.
  destruct MergedRegistry as [[files|]|e|r|]; cbn [mbind outcome_bind is_ok]; [| |done| |done].
  - destruct (ValidateProtoAnnotations files) as [u|e|r|]; cbn; split; eauto; intros [?|[? ?]]; done.
  - done.
  - by destruct (Contains _ _).
Qed.

(** Everything outside the application that has to go well. *)
Definition can_start (loadLatest : bool) (appOpts : AppOptions) (a : ChainApp) : Prop :=
  let codec := enc_Codec (MakeConfig (evm_chain_id loadLatest)) in
  RegisterStreamingServices keys = Ok tt /\
  packages_return a /\
  (exists txConfig, NewTxConfigWithOptions codec (Held app_BankKeeper (a_fields a app_BankKeeper)) = Ok txConfig /\
     is_Some (SignModeHandler txConfig)) /\
  is_Some codec /\
  RegisterServices (a_modules a) = Ok tt /\
  is_ok ReadUpgradeInfoFromDisk = true /\
  NewReflectionService = Ok tt /\ NewPostHandler = Ok tt /\
  annotations_pass /\
  (loadLatest = true -> LoadLatest = Ok tt).

Lemma store_loader_ok (read : outcome UpgradeInfo) skip :
  is_ok (upgrade_store_loader read skip) = is_ok read.
Proof. unfold upgrade_store_loader. destruct read as [u|e|r|]; cbn; try done. by destruct (_ && _). Qed.

(** With the keepers in place only the codec and the sign modes can be missing. *)
Lemma setAnteHandler_ok a codec (txConfig : TxConfig SG TB (option SignModeHandler_t) SC) maxGas :
  well_wired a ->
  is_ok (setAnteHandler a codec txConfig maxGas) = true <->
  is_Some codec /\ is_Some (SignModeHandler txConfig).
Proof.
  intros W. pose proof (wired_fields a W) as [_ [[[k b] B] _]%Forall_cons]%Forall_cons.
  unfold setAnteHandler, HandlerOptions_Validate, ante_options. cbn [opt_Cdc opt_BankKeeper opt_SigGasConsumer
    opt_SignModeHandler opt_FeeMarketKeeper opt_EvmKeeper]. rewrite B. cbn.
  destruct codec as [c|]; cbn; [|by split; [|intros [[] ?]]].
  destruct (SignModeHandler txConfig) as [h|]; cbn; [|by split; [|intros [? []]]].
  split; [|done]. intros _. split; eexists; reflexivity.
Qed.

Lemma setAnteHandler_valid a codec (txConfig : TxConfig SG TB (option SignModeHandler_t) SC) maxGas opts :
  setAnteHandler a codec txConfig maxGas = Ok opts -> HandlerOptions_Validate opts = Ok tt.
Proof.
  unfold setAnteHandler. intros (u & V & [= <-])%bind_Ok. apply must_Ok in V. by destruct u.
Qed.

Lemma exit_Ok {A} (m : outcome A) a : exit_on_error m = Ok a -> m = Ok a.
Proof. by destruct m. Qed.

Lemma is_ok_Ok {A} (m : outcome A) : is_ok m = true -> exists a, m = Ok a.
Proof. destruct m; try done. eauto. Qed.

Lemma bind_eq {A B} (m : outcome A) (f : A -> outcome B) a r : m = Ok a -> f a = r -> m ≫= f = r.
Proof. by intros -> <-. Qed.

Lemma eval_Val a f : eval a (Val f) = Ok (Held f (a_fields a f)).
Proof. done. Qed.

(** ** A run of the constructor, both ways *)

Local Opaque base_keepers wire_keepers eval wired wired_base.

Section Run.
Context (loadLatest : bool) (appOpts : AppOptions) (b a : ChainApp).
Context (P : base_keepers empty_app = Ok b /\ wire_keepers (evm_chain_id loadLatest) b = Ok a <->
             packages_return a)
  (UB : forall b', base_keepers empty_app = Ok b' -> b' = b)
  (UW : forall a', wire_keepers (evm_chain_id loadLatest) b = Ok a' -> a' = a)
  (F : a_fields b app_BankKeeper = a_fields a app_BankKeeper) (W : well_wired a).

Lemma started_app st :
  NewChainApp loadLatest appOpts = Ok st ->
  can_start loadLatest appOpts a /\ s_app st = a /\ HandlerOptions_Validate (s_ante st) = Ok tt /\
  (exists inner, s_txConfig st = NewLegacyAwareTxConfig inner) /\
  s_decoder st = LegacyAwareTxDecoder (TxDecoder (enc_TxConfig (MakeConfig (evm_chain_id loadLatest)))).
Proof.
  unfold NewChainApp. intros S. apply bind_Ok in S as ([] & S1%exit_Ok & S).
  apply bind_Ok in S as (b' & B & S). assert (b' = b) as -> by auto. rewrite eval_Val in S. cbn [mbind outcome_bind] in S.
  apply bind_Ok in S as (tx & S2%must_Ok & S). apply bind_Ok in S as (a' & A & S).
  assert (a' = a) as -> by auto. pose proof (proj1 P (conj B A)) as PR.
  unfold finish_start in S.
  apply bind_Ok in S as ([] & S3%must_Ok & S). apply bind_Ok in S as (ld & S4 & S).
  apply bind_Ok in S as ([] & S5%must_Ok & S). apply bind_Ok in S as (o & S6 & S).
  apply bind_Ok in S as ([] & _ & S). apply bind_Ok in S as ([] & S8%must_Ok & S).
  apply bind_Ok in S as (ws & S9 & S). apply bind_Ok in S as ([] & S10 & [= <-]).
  cbn [s_app s_ante s_decoder s_txConfig].
  split; [|split; [done|split; [by eapply setAnteHandler_valid|by eauto]]].
  assert (is_ok check_annotations = true) as CA%check_annotations_ok by (by rewrite S9).
  assert (is_ok (setAnteHandler a (enc_Codec (MakeConfig (evm_chain_id loadLatest)))
    (NewLegacyAwareTxConfig tx) (EVMMaxTxGasWanted appOpts)) = true) as V by (by rewrite S6).
  apply setAnteHandler_ok in V as [V1 V2]; [|done].
  unfold can_start. rewrite <- F.
  split; [done|]. split; [done|]. split; [by eauto|]. do 2 (split; [done|]).
  split; [by rewrite <- (store_loader_ok _ (IsSkipHeight (skip_upgrade_heights
    (FlagUnsafeSkipUpgrades appOpts)))), S4|].
  do 3 (split; [done|]). intros ->. by apply exit_Ok.
Qed.

Lemma can_start_starts :
  can_start loadLatest appOpts a -> exists st, NewChainApp loadLatest appOpts = Ok st.
Proof.
  unfold can_start. rewrite <- F.
  intros (S & [B A]%P & (tx & T1 & T2) & K & R & U & RS & PH & CA%check_annotations_ok & LL).
  rewrite <- (store_loader_ok _ (IsSkipHeight (skip_upgrade_heights (FlagUnsafeSkipUpgrades appOpts)))) in U.
  apply is_ok_Ok in U as [ld U]. apply is_ok_Ok in CA as [ws CA].
  assert (is_ok (setAnteHandler a (enc_Codec (MakeConfig (evm_chain_id loadLatest)))
    (NewLegacyAwareTxConfig tx) (EVMMaxTxGasWanted appOpts)) = true) as [o V]%is_ok_Ok
    by (by apply setAnteHandler_ok).
  eexists. unfold NewChainApp.
  eapply bind_eq; [by rewrite S|]. eapply bind_eq; [exact B|]. eapply bind_eq; [apply eval_Val|].
  eapply bind_eq; [by rewrite T1|]. eapply bind_eq; [exact A|].
  unfold finish_start. eapply bind_eq; [by rewrite R|].
  eapply bind_eq; [exact U|]. eapply bind_eq; [by rewrite RS|]. eapply bind_eq; [exact V|].
  eapply bind_eq; [reflexivity|]. eapply bind_eq; [by rewrite PH|]. eapply bind_eq; [exact CA|].
  eapply (bind_eq _ _ tt); [destruct loadLatest; [by rewrite LL|done]|]. reflexivity.
Qed.
End Run.

(** The application a start ends with. *)
Lemma started_is_wired loadLatest appOpts st :
  NewChainApp loadLatest appOpts = Ok st ->
  can_start loadLatest appOpts (wired (evm_chain_id loadLatest)) /\
  s_app st = wired (evm_chain_id loadLatest) /\ HandlerOptions_Validate (s_ante st) = Ok tt /\
  (exists inner, s_txConfig st = NewLegacyAwareTxConfig inner) /\
  s_decoder st = LegacyAwareTxDecoder (TxDecoder (enc_TxConfig (MakeConfig (evm_chain_id loadLatest)))).
Proof.
  destruct (wire_keepers_runs (evm_chain_id loadLatest)) as (P & UB & UW).
  destruct (wired_ok (evm_chain_id loadLatest)) as (F & W & _ & _).
  exact (started_app loadLatest appOpts _ _ P UB UW F W st).
Qed.

Lemma packages_start loadLatest appOpts :
  can_start loadLatest appOpts (wired (evm_chain_id loadLatest)) ->
  exists st, NewChainApp loadLatest appOpts = Ok st.
Proof.
  destruct (wire_keepers_runs (evm_chain_id loadLatest)) as (P & _ & UW).
  destruct (wired_ok (evm_chain_id loadLatest)) as (F & W & _ & _).
  exact (can_start_starts loadLatest appOpts _ _ P UW F W).
Qed.

End Props.
