(* ===== verification/StartupRuns.v ===== *)
(** Starts of the application with concrete packages around it. *)

From stdpp Require Import base list strings gmap sets.
From Stdlib Require Import ZArith Lia.
From S2P Require Import Prelude GoTime Sdk LockPb LockStore LockupKeeper Distro LegacyProto LegacyTx LegacyRuns Testnet Precompile Modules Ante AnteRuns App Wiring WiringProps Startup StartupProps.
Import Toy ToyEth ToyAnte.

Local Open Scope Z_scope.

(** * Names *)

Module ToyNames.
#[export] Instance toy_addresses : ModuleAddresses := {
  NewModuleAddress n := bytes_of_string ("module/" +:+ n);
  gov_ModuleName := "gov";
}.

#[export] Instance toy_names : ExtNames := {
  auth_ModuleName := "auth"; auth_FeeCollectorName := "fee_collector"; bank_ModuleName := "bank";
  staking_ModuleName := "staking"; staking_BondedPoolName := "bonded_tokens_pool";
  staking_NotBondedPoolName := "not_bonded_tokens_pool"; mint_ModuleName := "mint";
  distr_ModuleName := "distribution"; slashing_ModuleName := "slashing";
  params_ModuleName := "params"; consensus_ModuleName := "consensus"; upgrade_ModuleName := "upgrade";
  feegrant_ModuleName := "feegrant"; evidence_ModuleName := "evidence"; authz_ModuleName := "authz";
  nft_ModuleName := "nft"; epochs_ModuleName := "epochs"; ibc_ModuleName := "ibc";
  transfer_ModuleName := "transfer"; ica_ModuleName := "interchainaccounts";
  icahost_SubModuleName := "icahost"; icacontroller_SubModuleName := "icacontroller";
  evm_ModuleName := "evm"; feemarket_ModuleName := "feemarket"; erc20_ModuleName := "erc20";
  wasm_ModuleName := "wasm"; precisebank_ModuleName := "precisebank";
  genutil_ModuleName := "genutil"; vesting_ModuleName := "vesting"; ibctm_ModuleName := "07-tendermint";
}.

(** Stores have the name of their module, but for the accounts'. *)
#[export] Instance toy_keys : ExtKeys := {
  auth_StoreKey := "acc"; bank_StoreKey := "bank"; staking_StoreKey := "staking";
  mint_StoreKey := "mint"; distr_StoreKey := "distribution"; slashing_StoreKey := "slashing";
  gov_StoreKey := "gov"; params_StoreKey := "params"; consensus_StoreKey := "consensus";
  upgrade_StoreKey := "upgrade"; feegrant_StoreKey := "feegrant"; evidence_StoreKey := "evidence";
  authz_StoreKey := "authz"; nft_StoreKey := "nft"; epochs_StoreKey := "epochs";
  ibc_StoreKey := "ibc"; transfer_StoreKey := "transfer"; icahost_StoreKey := "icahost";
  icacontroller_StoreKey := "icacontroller"; evm_StoreKey := "evm";
  feemarket_StoreKey := "feemarket"; erc20_StoreKey := "erc20"; wasm_StoreKey := "wasm";
  crisis_StoreKey := "crisis"; group_StoreKey := "group";
  params_TStoreKey := "transient_params"; evm_TransientKey := "transient_evm";
  feemarket_TransientKey := "transient_feemarket";
}.
End ToyNames.
Import ToyNames.

(** * Packages *)

(** Which modules have what the manager asks for. *)
Definition toy_has (setter : order_setter) (m : string) : bool :=
  match setter with
  | SetOrderPreBlockers => bool_decide (m ∈ [upgrade_ModuleName; auth_ModuleName; evm_ModuleName])
  | SetOrderBeginBlockers => bool_decide (m ∉ [upgrade_ModuleName; params_ModuleName; ibctm_ModuleName])
  | SetOrderEndBlockers => bool_decide (m ∉ [params_ModuleName; ibctm_ModuleName])
  | SetOrderInitGenesis | SetOrderExportGenesis => bool_decide (m <> ibctm_ModuleName)
  end.

(** A forgotten module, hooks set twice, a route added twice and callbacks without gas
    panic; of the constructors the one of the wasm keeper does, as told, when its
    virtual machine cannot be made. *)
Definition toy_panics (vm_works : bool) (c : package_call) : option panic :=
  match c with
  | call_SetOrder setter modules names =>
      if forallb (fun m => negb (toy_has setter m) || bool_decide (m ∈ names)) modules then None
      else Some (ExtPanic "all modules must be defined")
  | call_SetHooks _ (_ :: _) _ => Some (ExtPanic "cannot set hooks twice")
  | call_AddRoute routes name =>
      if bool_decide (name ∈ routes) then Some (ExtPanic "route has already been registered") else None
  | call_NewIBCModule (ibccallbacks_NewIBCMiddleware _ _ _ gas) =>
      if gas =? 0 then Some (ExtPanic "maxCallbackGas cannot be zero") else None
  | call_NewKeeper app_WasmKeeper _ _ _ _ => if vm_works then None else Some (ExtPanic "wasmvm")
  | _ => None
  end.

Definition toy_packages (vm_works : bool) (build : outcome unit) : Packages := {|
  call_panics := toy_panics vm_works; module_has := toy_has; DistroSchema := unit;
  BuildDistroSchema := build |}.

Lemma toy_manager_laws vm_works build : @ManagerLaws _ (toy_packages vm_works build).
Proof.
  split; cbn [module_has toy_packages toy_has].
  - intros setter modules names. unfold returns_call. cbn [call_panics toy_packages toy_panics].
    rewrite Forall_forall. split.
    + case_match eqn:F; [|done]. intros _ m M Hm. rewrite forallb_forall in F.
      apply list_elem_of_In, F in M. rewrite Hm in M. by apply bool_decide_eq_true in M.
    + intros F. case_match eqn:E; [done|]. exfalso. apply not_true_iff_false in E. apply E.
      apply forallb_forall. intros m M%list_elem_of_In. destruct (toy_has setter m) eqn:Hm; [|done].
      by apply bool_decide_eq_true, F.
  - intros m Hm%bool_decide_eq_true. by rewrite !elem_of_cons, elem_of_nil in Hm; intuition.
  - intros m M. by apply bool_decide_eq_false; intros N.
  - intros m M. by apply bool_decide_eq_false; intros N.
  - by split; apply bool_decide_eq_false; intros N.
  - done.
Qed.

Definition toy_config : TxConfig unit unit (option SignModeHandler_t) unit := {|
  TxDecoder _ := Ok None; TxJSONDecoder _ := Ok None; TxEncoder _ := Ok []; TxJSONEncoder _ := Ok [];
  MarshalSignatureJSON _ := Ok []; UnmarshalSignatureJSON _ := Ok []; NewTxBuilder := tt;
  WrapTxBuilder _ := Ok tt; SignModeHandler := Some tt; SigningContext := tt |}.

(** Packages in which everything succeeds but, as told, the merge of the protobuf
    files and the load of the state. *)
Definition toy_externals (merged : outcome (option unit)) (load : outcome unit) : AppExternals unit unit unit := {|
  MakeConfig _ := {| enc_Codec := Some tt; enc_TxConfig := toy_config |};
  RegisterStreamingServices _ := Ok tt;
  NewTxConfigWithOptions _ _ := Ok toy_config;
  RegisterServices _ := Ok tt;
  ReadUpgradeInfoFromDisk := Ok (MkUpgradeInfo UpgradeName 100);
  IsSkipHeight heights h := bool_decide (h ∈ heights);
  NewReflectionService := Ok tt;
  NewPostHandler := Ok tt;
  ProtoFiles := unit;
  MergedRegistry := merged;
  ValidateProtoAnnotations _ := Err (ExtErr "annotation");
  panic_text p := match p with ExtPanic s => s | _ => "runtime error" end;
  LoadLatest := load;
  to_AuthKeeper _ := tt; to_BankKeeper _ := tt; to_IBCKeeper _ := tt; to_FeeMarketKeeper _ := tt;
  to_EvmKeeper _ := tt; to_FeegrantKeeper _ := tt;
  HasDynamicFeeExtensionOption := tt; SigVerificationGasConsumer := tt; onPendingTx_listener := tt |}.

Section Starts.
Context (vm_works : bool) (build : outcome unit).

Definition start_with (merged : outcome (option unit)) (load : outcome unit) (loadLatest : bool) (skip : list Z) :=
  let _ := toy_externals merged load in
  let _ := toy_packages vm_works build in
  st ← NewChainApp (SG := unit) (TB := unit) (SC := unit) loadLatest (MkAppOptions skip 0);
  Ok (s_stderr st, s_store_loader st).

End Starts.

Abbreviation start := (start_with true (Ok tt)).

(** Wrong annotations are written out; the upgrade's stores are loaded at its
    height. *)
Example start_warns :
  start (Ok (Some tt)) (Ok tt) true [] = Ok (["other"], Some (100, storeUpgrades)).
Proof. vm_compute. reflexivity. Qed.

(** The panic about the removed ORM is no reason to stop, and a height can be
    skipped. *)
Example start_survives_orm :
  exists w, start (Panic (ExtPanic "could not resolve import cosmos/orm/v1/orm.proto")) (Ok tt) true [100]
            = Ok ([w], None).
Proof. eexists. vm_compute. reflexivity. Qed.

(** Any other panic ends the start, and so does a state that does not load, when it
    is to be loaded. *)
Example start_stops :
  start (Panic NilDeref) (Ok tt) true [] = Panic NilDeref /\
  start (Ok None) (Err (ExtErr "version")) true [] = Panic (ExtPanic "os.Exit") /\
  is_ok (start (Ok None) (Err (ExtErr "version")) false []) = true.
Proof. vm_compute. auto. Qed.

(** A constructor that panics stops the start, and so does the schema of the distro
    keeper. *)
Example start_needs_packages :
  start_with false (Ok tt) (Ok None) (Ok tt) true [] = Panic (ExtPanic "wasmvm") /\
  is_ok (start_with true (Err (ExtErr "schema")) (Ok None) (Ok tt) true []) = false.
Proof. vm_compute. auto. Qed.

