(* ===== verification/NodeCmd.v ===== *)
(** The node binary (cmd/tscd/root.go, commands.go) and what the application offers
    the servers it runs in (the rest of app/app.go): the client context every command
    gets, the configuration files, the command tree, the API routes. *)

From stdpp Require Import base list strings gmap sets.
From Stdlib Require Import ZArith Lia.
From S2P Require Import Prelude GoTime Sdk LockPb LockStore LockupKeeper Distro LegacyProto LegacyTx Precompile Modules Ante App Wiring WiringProps Startup StartupProps.

Local Open Scope Z_scope.

(** * What the application offers *)

(** A module of the manager: the name it reports and its application module, when it
    has these interfaces. *)
Record ManagedModule (AM : Type) := MkManagedModule { mm_HasName : option string; mm_AppModule : option AM }.
Arguments MkManagedModule {AM}.
Arguments mm_HasName {AM}.
Arguments mm_AppModule {AM}.

(** [AutoCliOpts]: the modules by name. *)
Definition AutoCliOpts_modules {AM} (modules : list (ManagedModule AM)) : gmap string AM :=
  foldl (fun ms m =>
           match mm_HasName m, mm_AppModule m with
           | Some moduleName, Some appModule => <[moduleName := appModule]> ms
           | _, _ => ms
           end) ∅ modules.

(** The keepers the getters return: [GetIBCKeeper], [GetEVMKeeper] and so on. *)
Definition getters : list (string * arg) :=
  [("GetIBCKeeper", Val app_IBCKeeper); ("GetEVMKeeper", Val app_EVMKeeper);
   ("GetErc20Keeper", Ref app_Erc20Keeper); ("GetBankKeeper", Val app_BankKeeper);
   ("GetFeeMarketKeeper", Ref app_FeeMarketKeeper); ("GetFeeGrantKeeper", Val app_FeeGrantKeeper);
   ("GetConsensusParamsKeeper", Val app_ConsensusParamsKeeper); ("GetAccountKeeper", Val app_AccountKeeper);
   ("GetDistrKeeper", Val app_DistrKeeper); ("GetStakingKeeper", Val app_StakingKeeper);
   ("GetMintKeeper", Val app_MintKeeper); ("GetCallbackKeeper", Val app_CallbackKeeper);
   ("GetTransferKeeper", Val app_TransferKeeper); ("GetWasmKeeper", Val app_WasmKeeper)].

(** [GetSubspace]: the zero subspace when there is none of the name. *)
Definition GetSubspace {Sub} (zero : Sub) (subspaces : gmap string Sub) (moduleName : string) : Sub :=
  default zero (subspaces !! moduleName).

(** [GetKey]: nil when no store of the name is mounted. *)
Definition GetKey (keys : list string) (storeKey : string) : option string :=
  if decide (storeKey ∈ keys) then Some storeKey else None.

(** The blockers run the modules in the order they were given. *)
Section Blockers.
Context `{ExtNames} `{ModuleAddresses} {X R : Type} (RunModules : list string -> X -> outcome R).
Definition PreBlocker (x : X) : outcome R := RunModules OrderPreBlockers x.
Definition BeginBlocker (x : X) : outcome R := RunModules OrderBeginBlockers x.
Definition EndBlocker (x : X) : outcome R := RunModules OrderEndBlockers x.
End Blockers.

(** [RegisterAPIRoutes]: the routes of transactions, of CometBFT and of the node, then
    those of every basic module, in any order, then the API documentation. *)
Fixpoint register_all {M} (modules : list (M -> outcome M)) (mux : M) : outcome M :=
  match modules with
  | [] => Ok mux
  | register :: rest => mux ← register mux; register_all rest mux
  end.

Definition RegisterAPIRoutes {M} (authtx cmtservice nodeservice : M -> M)
    (modules : list (M -> outcome M)) (swagger : outcome unit) (mux : M) : outcome M :=
  let mux := authtx mux in
  let mux := cmtservice mux in
  let mux := nodeservice mux in
  mux ← register_all modules mux;
  _ ← must swagger;
  Ok mux.

(** * Configuration files *)

(** The fields [initAppConfig] sets; [Rest] stands for the others. *)
Record ServerConfig (Rest : Type) := MkServerConfig { MinGasPrices : string; srv_rest : Rest }.
Arguments MkServerConfig {Rest}.
Arguments MinGasPrices {Rest}.
Arguments srv_rest {Rest}.
Record EVMConfig (Rest : Type) := MkEVMConfig { cfg_EVMChainID : Z; evmcfg_rest : Rest }.
Arguments MkEVMConfig {Rest}.
Arguments cfg_EVMChainID {Rest}.
Arguments evmcfg_rest {Rest}.

Record CustomAppConfig (SR ER J T : Type) := MkCustomAppConfig {
  cfg_Config : ServerConfig SR; cfg_EVM : EVMConfig ER; cfg_JSONRPC : J; cfg_TLS : T }.
Arguments MkCustomAppConfig {SR ER J T}.
Arguments cfg_Config {SR ER J T}.
Arguments cfg_EVM {SR ER J T}.
Arguments cfg_JSONRPC {SR ER J T}.
Arguments cfg_TLS {SR ER J T}.

(** The default configurations and templates of the imported packages. *)
Class ConfigDefaults := {
  SrvRest : Type; EvmCfgRest : Type; JSONRPCConfig : Type; TLSConfig : Type; CmtConfig : Type;
  srv_DefaultConfig : ServerConfig SrvRest;
  DefaultEVMConfig : EVMConfig EvmCfgRest;
  DefaultJSONRPCConfig : JSONRPCConfig;
  DefaultTLSConfig : TLSConfig;
  cmt_DefaultConfig : CmtConfig;
  DefaultConfigTemplate : string;
  DefaultEVMConfigTemplate : string;
}.

Section Config.
Context `{ConfigDefaults}.

Definition initCometBFTConfig : CmtConfig := cmt_DefaultConfig.

Definition initAppConfig : string * CustomAppConfig SrvRest EvmCfgRest JSONRPCConfig TLSConfig :=
  let srvCfg := MkServerConfig ("0" +:+ BaseDenom) (srv_rest srv_DefaultConfig) in
  let evmCfg := MkEVMConfig EVMChainID (evmcfg_rest DefaultEVMConfig) in
  let customAppConfig := MkCustomAppConfig srvCfg evmCfg DefaultJSONRPCConfig DefaultTLSConfig in
  (DefaultConfigTemplate +:+ DefaultEVMConfigTemplate, customAppConfig).
End Config.

(** * The command tree *)

(** A command of this binary, or one another package constructs. *)
Inductive Command :=
  | NewCommand (Use : string) (Aliases : list string) (PersistentFlags : list string) (Sub : list Command)
  | ExtCommand (constructor : string).

Definition AddCommand (cmd : Command) (sub : list Command) : Command :=
  match cmd with
  | NewCommand use aliases flags s => NewCommand use aliases flags (s ++ sub)
  | ExtCommand c => ExtCommand c
  end.

Section Commands.
Context (FlagChainID : string) (AppName : string).

Definition queryCommand : Command :=
  NewCommand "query" ["q"] [FlagChainID]
    (map ExtCommand ["rpc.QueryEventForTxCmd"; "rpc.ValidatorCommand"; "authcmd.QueryTxsByEventsCmd";
       "authcmd.QueryTxCmd"; "sdkserver.QueryBlocksCmd"; "sdkserver.QueryBlockResultsCmd"]).

Definition txCommand : Command :=
  NewCommand "tx" [] [FlagChainID]
    (map ExtCommand ["authcmd.GetSignCommand"; "authcmd.GetSignBatchCommand"; "authcmd.GetMultiSignCommand";
       "authcmd.GetMultiSignBatchCmd"; "authcmd.GetValidateSignaturesCommand"; "authcmd.GetBroadcastCommand";
       "authcmd.GetEncodeCommand"; "authcmd.GetDecodeCommand"; "authcmd.GetSimulateCmd"]).

(** The EVM server's own commands, and the transaction flags it adds last. *)
Context (evmosserver_AddCommands : Command -> Command) (AddTxFlags : Command -> outcome Command).

Definition initRootCmd (rootCmd : Command) : outcome Command :=
  let rootCmd := AddCommand rootCmd
    (map ExtCommand ["genutilcli.InitCmd"; "genutilcli.Commands"; "cmtcli.NewCompletionCmd"; "debug.Cmd";
       "confixcmd.ConfigCommand"; "pruning.Cmd"; "snapshot.Cmd"]) in
  let rootCmd := evmosserver_AddCommands rootCmd in
  let rootCmd := AddCommand rootCmd [ExtCommand "evmoscmd.KeyCommands"] in
  let rootCmd := AddCommand rootCmd [ExtCommand "server.StatusCommand"; queryCommand; txCommand] in
  must (AddTxFlags rootCmd).
End Commands.

(** * The root command *)

(** [tempDir], on the directories there are: the deferred removal runs before the
    caller sees the name. *)
Definition tempDir (MkdirTemp : gset string -> outcome string) (dirs : gset string) :
    outcome (string * gset string) :=
  dir ← must (MkdirTemp dirs);
  let dirs := {[dir]} ∪ dirs in
  Ok (dir, dirs ∖ {[dir]}).

(** [client.Context], as far as it is set here. *)
Record ClientContext (Codec_t TxC : Type) := MkClientContext {
  cc_Codec : Codec_t;
  cc_TxConfig : TxC;
  cc_HomeDir : string;
  cc_BroadcastMode : string;
  cc_LedgerHasProtobuf : bool;
  cc_Viper : string;
  cc_Offline : bool;
}.
Arguments MkClientContext {Codec_t TxC}.
Arguments cc_Codec {Codec_t TxC}.
Arguments cc_TxConfig {Codec_t TxC}.
Arguments cc_HomeDir {Codec_t TxC}.
Arguments cc_BroadcastMode {Codec_t TxC}.
Arguments cc_LedgerHasProtobuf {Codec_t TxC}.
Arguments cc_Viper {Codec_t TxC}.
Arguments cc_Offline {Codec_t TxC}.

Definition WithTxConfig {Codec_t TxC} (c : ClientContext Codec_t TxC) (t : TxC) : ClientContext Codec_t TxC :=
  MkClientContext (cc_Codec c) t (cc_HomeDir c) (cc_BroadcastMode c) (cc_LedgerHasProtobuf c)
    (cc_Viper c) (cc_Offline c).

(** What the client packages do with a context: flags and the client configuration are
    read into it, the command gets it, the configuration files are read or written. *)
Class ClientPackages (SG TB SC : Type) `{EthEnv} `{AnteEnv} `{ConfigDefaults} := {
  Ctx_t := ClientContext (option Codec) (TxConfig SG TB (option SignModeHandler_t) SC);
  Cmd : Type;
  ReadPersistentCommandFlags : Ctx_t -> Cmd -> outcome Ctx_t;
  ReadFromClientConfig : Ctx_t -> Ctx_t * option error;
  NewGRPCTxConfig : Ctx_t -> outcome (TxConfig SG TB (option SignModeHandler_t) SC);
  SetCmdClientContextHandler : Ctx_t -> Cmd -> outcome Cmd;
  InterceptConfigsPreRunHandler :
    Cmd -> string -> CustomAppConfig SrvRest EvmCfgRest JSONRPCConfig TLSConfig -> CmtConfig -> outcome unit;
}.

Section Root.
Context `{SdkMath} `{SdkTypes} `{ModuleAddresses} `{ExtNames} `{ExtKeys} `{Packages} `{EthEnv} `{AnteEnv} `{ConfigDefaults}.
Context {SG TB SC : Type} `{!AppExternals SG TB SC} `{!ClientPackages SG TB SC}.
Context (DefaultNodeHome FlagBroadcastMode : string).

(** [newApp]. *)
Definition newApp (appOpts : AppOptions) : outcome (Started SG TB SC) := NewChainApp true appOpts.

(** The context the root command starts from, with what an application made for it
    only was configured with. *)
Definition initial_context (tempApp : Started SG TB SC) : Ctx_t :=
  {| cc_Codec := enc_Codec (MakeConfig (evm_chain_id false));
     cc_TxConfig := s_txConfig tempApp;
     cc_HomeDir := DefaultNodeHome;
     cc_BroadcastMode := FlagBroadcastMode;
     cc_LedgerHasProtobuf := true;
     cc_Viper := "";
     cc_Offline := false |}.

(** [PersistentPreRunE]: the context of the command.  Textual signing needs a node to
    ask, so the offline context keeps its transaction configuration. *)
Definition PersistentPreRunE (initClientCtx : Ctx_t) (cmd : Cmd) : outcome (Ctx_t * Cmd) :=
  initClientCtx ← ReadPersistentCommandFlags initClientCtx cmd;
  initClientCtx ← (let '(c, err) := ReadFromClientConfig initClientCtx in
                   match err with Some e => Err e | None => Ok c end);
  initClientCtx ← (if negb (cc_Offline initClientCtx) then
                     txConfig ← NewGRPCTxConfig initClientCtx;
                     Ok (WithTxConfig initClientCtx (NewLegacyAwareTxConfig txConfig))
                   else Ok initClientCtx);
  cmd ← SetCmdClientContextHandler initClientCtx cmd;
  let '(customAppTemplate, customAppConfig) := initAppConfig in
  _ ← InterceptConfigsPreRunHandler cmd customAppTemplate customAppConfig initCometBFTConfig;
  Ok (initClientCtx, cmd).

(** The context of every command: that of an application which loads nothing, with the
    client configuration read into it by [NewRootCmd], the error of that ignored. *)
Definition root_pre_run (cmd : Cmd) : outcome (Ctx_t * Cmd) :=
  tempApp ← NewChainApp false (MkAppOptions [] 0);
  let initClientCtx := fst (ReadFromClientConfig (initial_context tempApp)) in
  PersistentPreRunE initClientCtx cmd.

(** [NewRootCmd]: the tree; the error of the generated commands panics. *)
Context (EnhanceRootCommand : Command -> outcome Command).
Definition NewRootCmd (FlagChainID AppName : string) (evmosserver_AddCommands : Command -> Command)
    (AddTxFlags : Command -> outcome Command) : outcome Command :=
  _ ← NewChainApp false (MkAppOptions [] 0);
  rootCmd ← initRootCmd FlagChainID evmosserver_AddCommands AddTxFlags (NewCommand AppName [] [] []);
  must (EnhanceRootCommand rootCmd).
End Root.

(** * Properties *)

(** Reading flags and files into a context does not touch its transaction
    configuration. *)
Class ClientLaws (SG TB SC : Type) `{ClientPackages SG TB SC} : Prop := {
  ReadPersistentCommandFlags_TxConfig c cmd c' :
    ReadPersistentCommandFlags c cmd = Ok c' -> cc_TxConfig c' = cc_TxConfig c;
  ReadFromClientConfig_TxConfig c : cc_TxConfig (fst (ReadFromClientConfig c)) = cc_TxConfig c;
}.

Lemma AutoCliOpts_lookup {AM} (modules : list (ManagedModule AM)) name am :
  NoDup (omap mm_HasName modules) ->
  AutoCliOpts_modules modules !! name = Some am <->
  MkManagedModule (Some name) (Some am) ∈ modules.
Proof.
  unfold AutoCliOpts_modules. induction modules as [|[n a] ms IH] using rev_ind; intros N; [set_solver|].
  rewrite omap_app in N. apply NoDup_app in N as (N1 & D & _). specialize (IH N1).
  rewrite foldl_app, elem_of_app, list_elem_of_singleton. cbn [foldl mm_HasName mm_AppModule].
  destruct n as [n|]; [|rewrite IH; naive_solver]. destruct a as [a|]; [|rewrite IH; naive_solver].
  destruct (decide (n = name)) as [->|E]; [|rewrite lookup_insert_ne by done; rewrite IH; naive_solver].
  rewrite lookup_insert_eq. split; [naive_solver|]. intros [I|[= ->]]; [|done].
  exfalso. apply (D name); [|cbn; set_solver]. apply list_elem_of_omap. by exists (MkManagedModule (Some name) (Some am)).
Qed.

Section Props.
Context `{SdkMath} `{SdkTypes} `{ModuleAddresses} `{ExtNames} `{ExtKeys} `{Packages} `{!ManagerLaws} `{EthEnv} `{AnteEnv} `{ConfigDefaults}.
Context {SG TB SC : Type} `{!AppExternals SG TB SC} `{!ClientPackages SG TB SC} `{!ClientLaws SG TB SC}.

(** What the getters return is finished. *)
Lemma getters_up_to_date a : well_wired a -> Forall (fun g => exists d, eval a g.2 = Ok d /\ up_to_date a d) getters.
Proof.
  intros W. assert (forall f, is_Some (keeper_of a f) -> is_Some (a_fields a f)) as K.
  { intros f [[k kp] E]. unfold keeper_of in E. destruct (a_fields a f); [eauto|done]. }
  assert (forall f, is_Some (a_fields a f)) as A.
  { pose proof (wired_fields a W) as F. rewrite Forall_forall in F.
    intros f. apply K, F. destruct f; set_solver. }
  assert (forall f, final a f (a_fields a f)) as L.
  { intros f. destruct (A f) as [n E]. by exists n. }
  repeat constructor; cbn [snd eval]; eexists; (split; [reflexivity|]); first [apply L|apply A].
Qed.

(** A started application has the properties of the one [NewChainApp] builds. *)
Lemma started_wired loadLatest appOpts (st : Started SG TB SC) :
  NewChainApp loadLatest appOpts = Ok st ->
  well_wired (s_app st) /\ enforces_locks (s_app st) /\ evm_chain (s_app st) (evm_chain_id loadLatest) /\
  exists inner, s_txConfig st = NewLegacyAwareTxConfig inner.
Proof.
  intros S. destruct (started_is_wired loadLatest appOpts st S) as (_ & -> & _ & T & _).
  destruct (wired_ok (evm_chain_id loadLatest)) as (_ & W & L & C). done.
Qed.

(** The transaction configuration of every command, online or not, reads old
    transactions; the configuration file the binary writes names the chain id the
    EVM of the node runs on, and no minimum gas price is required. *)
Theorem node_and_commands_agree (DefaultNodeHome FlagBroadcastMode : string) cmd c cmd' :
  root_pre_run (SG := SG) (TB := TB) (SC := SC) DefaultNodeHome FlagBroadcastMode cmd = Ok (c, cmd') ->
  (exists inner, cc_TxConfig c = NewLegacyAwareTxConfig inner) /\
  MinGasPrices (cfg_Config (snd initAppConfig)) = "0aTSC" /\
  forall appOpts (st : Started SG TB SC), newApp appOpts = Ok st ->
    evm_chain (s_app st) (cfg_EVMChainID (cfg_EVM (snd initAppConfig))).
Proof.
  intros R. split; [|split; [done|]].
  - unfold root_pre_run in R. apply bind_Ok in R as (tmp & T & R).
    destruct (started_wired _ _ _ T) as (_ & _ & _ & inner & I).
    unfold PersistentPreRunE in R. apply bind_Ok in R as (c1 & R1 & R).
    apply ReadPersistentCommandFlags_TxConfig in R1. rewrite ReadFromClientConfig_TxConfig in R1.
    pose proof (ReadFromClientConfig_TxConfig c1) as R2.
    destruct (ReadFromClientConfig c1) as [c2 [e|]]; [done|]. cbn [mbind outcome_bind fst] in R, R2.
    apply bind_Ok in R as (c3 & R3 & R). apply bind_Ok in R as (cmd2 & _ & R).
    cbn [initAppConfig] in R. apply bind_Ok in R as (u & _ & [= <- _]).
    destruct (negb (cc_Offline c2)).
    + apply bind_Ok in R3 as (t & _ & [= <-]). by exists t.
    + injection R3 as <-. exists inner. by rewrite R2, R1.
  - intros appOpts st S. by destruct (started_wired _ _ _ S) as (_ & _ & C & _).
Qed.
End Props.
