(* ===== verification/Process.v ===== *)
(** The process around the application: the package variables that app/app.go and
    app/test_helpers.go set before [main], the SDK configuration of cmd/tscd/main.go,
    and the applications app/test_helpers.go starts for tests. *)

From stdpp Require Import base list strings gmap sets.
From Stdlib Require Import ZArith Lia.
From S2P Require Import Prelude GoTime Sdk LockPb LockStore LockupKeeper Distro LegacyProto LegacyTx Precompile Modules Ante App Wiring WiringProps Startup StartupProps NodeCmd.

Local Open Scope Z_scope.

(** * The SDK configuration *)

(** What [sdk.Config] holds, and whether it is sealed. *)
Record ConfigView := MkConfigView {
  v_AccAddr : string; v_AccPub : string;
  v_ValAddr : string; v_ValPub : string;
  v_ConsAddr : string; v_ConsPub : string;
  v_CoinType : Z; v_Purpose : Z;
  v_sealed : bool;
}.

(** [sdk.Config] with its setters, and the variables and functions of other packages
    the initialisers use. *)
Class ProcessEnv := {
  Config : Type;
  config_view : Config -> ConfigView;
  SetBech32PrefixForAccount : string -> string -> Config -> outcome Config;
  SetBech32PrefixForValidator : string -> string -> Config -> outcome Config;
  SetBech32PrefixForConsensusNode : string -> string -> Config -> outcome Config;
  SetCoinType : Z -> Config -> outcome Config;
  SetPurpose : Z -> Config -> outcome Config;
  Seal : Config -> Config;
  PrefixPublic : string; PrefixValidator : string; PrefixOperator : string; PrefixConsensus : string;
  LegacyDec : Type;
  LegacyZeroDec : LegacyDec;
  AttoPowerReduction : Z;
  evm_SetBech32Prefixes : Config -> outcome Config;
  evm_SetBip44CoinType : Config -> outcome Config;
}.

(** A setter changes its fields while the configuration is not sealed, and panics once
    it is; sealing changes nothing else.  The EVM module's two helpers use setters. *)
Definition setter `{ProcessEnv} (set : Config -> outcome Config) (f : ConfigView -> ConfigView) : Prop :=
  forall c,
    (v_sealed (config_view c) = false -> exists c', set c = Ok c' /\ config_view c' = f (config_view c)) /\
    (v_sealed (config_view c) = true -> exists p, set c = Panic p).

Class ProcessLaws `{ProcessEnv} : Prop := {
  SetBech32PrefixForAccount_sets a p : setter (SetBech32PrefixForAccount a p)
    (fun v => MkConfigView a p (v_ValAddr v) (v_ValPub v) (v_ConsAddr v) (v_ConsPub v)
                (v_CoinType v) (v_Purpose v) (v_sealed v));
  SetBech32PrefixForValidator_sets a p : setter (SetBech32PrefixForValidator a p)
    (fun v => MkConfigView (v_AccAddr v) (v_AccPub v) a p (v_ConsAddr v) (v_ConsPub v)
                (v_CoinType v) (v_Purpose v) (v_sealed v));
  SetBech32PrefixForConsensusNode_sets a p : setter (SetBech32PrefixForConsensusNode a p)
    (fun v => MkConfigView (v_AccAddr v) (v_AccPub v) (v_ValAddr v) (v_ValPub v) a p
                (v_CoinType v) (v_Purpose v) (v_sealed v));
  SetCoinType_sets t : setter (SetCoinType t)
    (fun v => MkConfigView (v_AccAddr v) (v_AccPub v) (v_ValAddr v) (v_ValPub v) (v_ConsAddr v) (v_ConsPub v)
                t (v_Purpose v) (v_sealed v));
  SetPurpose_sets n : setter (SetPurpose n)
    (fun v => MkConfigView (v_AccAddr v) (v_AccPub v) (v_ValAddr v) (v_ValPub v) (v_ConsAddr v) (v_ConsPub v)
                (v_CoinType v) n (v_sealed v));
  Seal_view c : config_view (Seal c)
    = (let v := config_view c in
       MkConfigView (v_AccAddr v) (v_AccPub v) (v_ValAddr v) (v_ValPub v) (v_ConsAddr v) (v_ConsPub v)
         (v_CoinType v) (v_Purpose v) true);
  evm_SetBech32Prefixes_open c : v_sealed (config_view c) = false ->
    exists c', evm_SetBech32Prefixes c = Ok c' /\ v_sealed (config_view c') = false;
  evm_SetBip44CoinType_open c : v_sealed (config_view c) = false ->
    exists c', evm_SetBip44CoinType c = Ok c' /\ v_sealed (config_view c') = false;
}.

(** * Package variables *)

Section Process.
Context `{ProcessEnv}.

(** The variables of other packages that the initialisers change:
    [sdk.DefaultPowerReduction], [feemarkettypes.DefaultMinGasPrice] and the
    configuration [sdk.GetConfig] returns. *)
Record Globals := MkGlobals {
  g_DefaultPowerReduction : Z;
  g_DefaultMinGasPrice : LegacyDec;
  g_Config : Config;
}.

Definition with_config (g : Globals) (c : Config) : Globals :=
  MkGlobals (g_DefaultPowerReduction g) (g_DefaultMinGasPrice g) c.

(** [init] of app/app.go. *)
Definition app_init (g : Globals) : Globals :=
  MkGlobals AttoPowerReduction (g_DefaultMinGasPrice g) (g_Config g).

(** [init] of app/test_helpers.go, which is a file of the package and no test file. *)
Definition test_helpers_init (g : Globals) : outcome Globals :=
  let g := MkGlobals (g_DefaultPowerReduction g) LegacyZeroDec (g_Config g) in
  cfg ← evm_SetBech32Prefixes (g_Config g);
  cfg ← evm_SetBip44CoinType cfg;
  Ok (with_config g cfg).

(** Files are initialised in the order of their names. *)
Definition package_init (g : Globals) : outcome Globals := test_helpers_init (app_init g).

Definition Bech32PrefixAccAddr : string := Bech32Prefix.
Definition Bech32PrefixAccPub : string := Bech32Prefix +:+ PrefixPublic.
Definition Bech32PrefixValAddr : string := Bech32Prefix +:+ PrefixValidator +:+ PrefixOperator.
Definition Bech32PrefixValPub : string := Bech32Prefix +:+ PrefixValidator +:+ PrefixOperator +:+ PrefixPublic.
Definition Bech32PrefixConsAddr : string := Bech32Prefix +:+ PrefixValidator +:+ PrefixConsensus.
Definition Bech32PrefixConsPub : string := Bech32Prefix +:+ PrefixValidator +:+ PrefixConsensus +:+ PrefixPublic.

(** * The binary *)

Definition SetBech32Prefixes (config : Config) : outcome Config :=
  config ← SetBech32PrefixForAccount Bech32PrefixAccAddr Bech32PrefixAccPub config;
  config ← SetBech32PrefixForValidator Bech32PrefixValAddr Bech32PrefixValPub config;
  SetBech32PrefixForConsensusNode Bech32PrefixConsAddr Bech32PrefixConsPub config.

Definition setupSDKConfig (g : Globals) : outcome Globals :=
  config ← SetBech32Prefixes (g_Config g);
  config ← SetCoinType CoinType config;
  config ← SetPurpose 44 config;
  Ok (with_config g (Seal config)).

(** How the process ends: the exit code, and the errors it wrote to the standard error. *)
Record Exit := MkExit { exit_code : Z; exit_stderr : list error }.

(** [main]: [NewRootCmd] builds the commands, sealing the configuration again, and
    [Execute] runs the one asked for. *)
Definition main (NewRootCmd : outcome Command) (Execute : Globals -> Command -> outcome unit) (g : Globals) :
    outcome Exit :=
  g ← setupSDKConfig g;
  rootCmd ← NewRootCmd;
  let g := with_config g (Seal (g_Config g)) in
  catch (Execute g rootCmd) (fun _ => Ok (MkExit 0 []))
    (fun err => Ok (MkExit 1 [err])).

(** [NewFeeMarketGenesisState]: the fee market's default genesis, which reads the
    package variable. *)
Definition NewFeeMarketGenesisState {G} (feemarket_DefaultGenesisState : LegacyDec -> G) (g : Globals) : G :=
  feemarket_DefaultGenesisState (g_DefaultMinGasPrice g).
End Process.

Section ProcessProps.
Context `{ProcessLaws}.

Lemma package_init_spec g :
  v_sealed (config_view (g_Config g)) = false ->
  exists g', package_init g = Ok g' /\ v_sealed (config_view (g_Config g')) = false /\
    g_DefaultPowerReduction g' = AttoPowerReduction /\ g_DefaultMinGasPrice g' = LegacyZeroDec.
Proof.
  intros O. unfold package_init, test_helpers_init.
  destruct (evm_SetBech32Prefixes_open (g_Config g) O) as (c1 & E1 & O1).
  destruct (evm_SetBip44CoinType_open c1 O1) as (c2 & E2 & O2).
  cbn [app_init g_Config]. rewrite E1. cbn [mbind outcome_bind]. rewrite E2. cbn [mbind outcome_bind].
  eexists. split; [reflexivity|done].
Qed.

(** The configuration [main] leaves. *)
Definition tsc_config : ConfigView :=
  MkConfigView "tsc" ("tsc" +:+ PrefixPublic)
    ("tsc" +:+ PrefixValidator +:+ PrefixOperator) ("tsc" +:+ PrefixValidator +:+ PrefixOperator +:+ PrefixPublic)
    ("tsc" +:+ PrefixValidator +:+ PrefixConsensus) ("tsc" +:+ PrefixValidator +:+ PrefixConsensus +:+ PrefixPublic)
    60 44 true.

Lemma setupSDKConfig_spec g :
  v_sealed (config_view (g_Config g)) = false ->
  exists g', setupSDKConfig g = Ok g' /\ config_view (g_Config g') = tsc_config /\
    g_DefaultPowerReduction g' = g_DefaultPowerReduction g /\ g_DefaultMinGasPrice g' = g_DefaultMinGasPrice g.
Proof.
  intros O. unfold setupSDKConfig, SetBech32Prefixes.
  destruct (proj1 (SetBech32PrefixForAccount_sets Bech32PrefixAccAddr Bech32PrefixAccPub _) O) as (c1 & -> & V1).
  cbn [mbind outcome_bind].
  destruct (proj1 (SetBech32PrefixForValidator_sets Bech32PrefixValAddr Bech32PrefixValPub c1)) as (c2 & -> & V2);
    [by rewrite V1|]. cbn [mbind outcome_bind].
  destruct (proj1 (SetBech32PrefixForConsensusNode_sets Bech32PrefixConsAddr Bech32PrefixConsPub c2))
    as (c3 & -> & V3); [by rewrite V2, V1|]. cbn [mbind outcome_bind].
  destruct (proj1 (SetCoinType_sets CoinType c3)) as (c4 & -> & V4); [by rewrite V3, V2, V1|].
  cbn [mbind outcome_bind].
  destruct (proj1 (SetPurpose_sets 44 c4)) as (c5 & -> & V5); [by rewrite V4, V3, V2, V1|].
  cbn [mbind outcome_bind]. eexists. split; [reflexivity|]. split; [|done].
  cbn [with_config g_Config]. by rewrite Seal_view, V5, V4, V3, V2, V1.
Qed.

(** Whatever prefixes and coin type the initialiser of test_helpers.go set, every
    command of the binary runs with the prefixes and coin type of the chain, sealed:
    setting them again panics.  Its zero minimum gas price, in contrast, stays: the
    default genesis of the fee market has it in the node as well. *)
Theorem commands_run_configured g0 (NewRootCmd : outcome Command) :
  v_sealed (config_view (g_Config g0)) = false ->
  exists g1 g, package_init g0 = Ok g1 /\
    config_view (g_Config g) = tsc_config /\ (exists p, SetBech32Prefixes (g_Config g) = Panic p) /\
    g_DefaultPowerReduction g = AttoPowerReduction /\
    (forall G (feemarket_DefaultGenesisState : LegacyDec -> G),
       NewFeeMarketGenesisState feemarket_DefaultGenesisState g = feemarket_DefaultGenesisState LegacyZeroDec) /\
    forall Execute, main NewRootCmd Execute g1 =
      (rootCmd ← NewRootCmd;
       catch (Execute g rootCmd) (fun _ => Ok (MkExit 0 [])) (fun err => Ok (MkExit 1 [err]))).
Proof.
  intros O. destruct (package_init_spec g0 O) as (g1 & E1 & O1 & P1 & M1).
  destruct (setupSDKConfig_spec g1 O1) as (g2 & E2 & V2 & P2 & M2).
  exists g1, (with_config g2 (Seal (g_Config g2))). split; [done|].
  assert (config_view (Seal (g_Config g2)) = tsc_config) as V by (by rewrite Seal_view, V2).
  split; [done|]. split; [|split; [cbn; congruence|split]].
  - destruct (proj2 (SetBech32PrefixForAccount_sets Bech32PrefixAccAddr Bech32PrefixAccPub (Seal (g_Config g2))))
      as [p E]; [by rewrite V|]. exists p. unfold SetBech32Prefixes. cbn [with_config g_Config]. by rewrite E.
  - intros G f. unfold NewFeeMarketGenesisState. cbn. congruence.
  - intros Execute. unfold main. rewrite E2. done.
Qed.
End ProcessProps.

(** * The applications of app/test_helpers.go *)

Record Balance := MkBalance { bal_Address : string; bal_Coins : list Coin }.

(** The test libraries: keys, validators and accounts, the genesis of a validator set,
    the metadata of a chain id. *)
Class TestEnv `{Defaults} := {
  PubKey : Type; TmValidator : Type; ValidatorSet : Type; GenesisAccount : Type;
  mock_GetPubKey : outcome PubKey;
  NewValidator : PubKey -> Z -> TmValidator;
  NewValidatorSet : list TmValidator -> ValidatorSet;
  (** A base account of a fresh key. *)
  generated_account : GenesisAccount;
  account_address : GenesisAccount -> string;
  DefaultEVMExtendedDenom : string;
  GenesisStateWithValSet :
    gmap string bytes -> ValidatorSet -> list GenesisAccount -> list Balance -> gmap string bytes * option error;
  GenerateBankGenesisMetadata : Z -> list Metadata;
  MarshalIndent : gmap string bytes -> outcome bytes;
}.

(** [require.NoError]: a test that fails goes no further. *)
Definition require_NoError {A} (m : outcome A) : outcome A :=
  match m with Err _ => Panic (ExtPanic "FailNow") | _ => m end.
Definition no_error (err : option error) : outcome unit :=
  match err with None => Ok tt | Some e => Err e end.

Section TestHelpers.
Context `{SdkMath} `{SdkTypes} `{ModuleAddresses} `{ExtNames} `{ExtKeys} `{Packages} `{EthEnv} `{AnteEnv} `{Defaults}.
Context `{!JSONCodec (EvmGenesis EIP EvmRest Preinstalls)} `{!JSONCodec Erc20Genesis}
  `{!JSONCodec (DenomGenesis MintRest)} `{!JSONCodec (DenomGenesis StakingRest)}
  `{!JSONCodec (BankGenesis BankRest)}.
Context {SG TB SC : Type} `{!AppExternals SG TB SC} `{!TestEnv}.

(** The genesis of the basic manager, and the start of the base application from a
    chain id and the bytes of a genesis. *)
Context (basic : gmap string bytes) {R : Type} (InitChain : Started SG TB SC -> string -> bytes -> outcome R).

(** Home directory, invariant period and chain id go to the base application; the EVM
    chain id goes nowhere. *)
Definition setup (withGenesis : bool) (invCheckPeriod : Z) (chainID : string) (evmChainID : Z) :
    outcome (Started SG TB SC * gmap string bytes) :=
  app ← NewChainApp true (MkAppOptions [] 0);
  if withGenesis then
    genesis ← DefaultGenesis basic;
    Ok (app, genesis)
  else Ok (app, ∅).

Definition SetupWithGenesisValSet (chainID : string) (evmChainID : Z) (valSet : ValidatorSet)
    (genAccs : list GenesisAccount) (balances : list Balance) : outcome R :=
  '(app, genesisState) ← setup true 5 chainID evmChainID;
  let '(genesisState, err) := GenesisStateWithValSet genesisState valSet genAccs balances in
  bankGenesis ← must (UnmarshalJSON (default [] (genesisState !! bank_ModuleName)));
  _ ← require_NoError (no_error err);
  let bankGenesis := MkBankGenesis (GenerateBankGenesisMetadata evmChainID) (bank_rest _ bankGenesis) in
  bz ← must (MarshalJSON bankGenesis);
  let genesisState := <[bank_ModuleName := bz]> genesisState in
  stateBytes ← require_NoError (MarshalIndent genesisState);
  must (InitChain app chainID stateBytes).

Definition Setup (chainID : string) (evmChainID : Z) : outcome R :=
  pubKey ← require_NoError mock_GetPubKey;
  let valSet := NewValidatorSet [NewValidator pubKey 1] in
  let acc := generated_account in
  coin ← NewCoin DefaultEVMExtendedDenom 100000000000000;
  coins ← NewCoins [coin];
  SetupWithGenesisValSet chainID evmChainID valSet [acc] [MkBalance (account_address acc) coins].

Definition SetupTestingApp (chainID : string) : outcome (Started SG TB SC * gmap string bytes) :=
  app ← NewChainApp true (MkAppOptions [] 0);
  genesis ← DefaultGenesis basic;
  Ok (app, genesis).

(** The applications tests run against are the node's own: started as the node starts,
    whatever chain ids and periods they ask for, with its default genesis. *)
Lemma test_applications_are_the_node n c e app g :
  setup true n c e = Ok (app, g) <->
  newApp (MkAppOptions [] 0) = Ok app /\ DefaultGenesis basic = Ok g.
Proof.
  unfold setup, newApp. split.
  - intros (a & -> & E)%bind_Ok. apply bind_Ok in E as (g' & -> & [= -> ->]). done.
  - intros [-> ->]. done.
Qed.

(** The chain they start has the metadata of the test library in place of the token of
    the network. *)
Lemma test_genesis_metadata `{!JSONCodecLaws (BankGenesis BankRest)} chainID evmChainID valSet accs bals r :
  SetupWithGenesisValSet chainID evmChainID valSet accs bals = Ok r ->
  exists app genesis bz stateBytes bank, InitChain app chainID stateBytes = Ok r /\
    newApp (MkAppOptions [] 0) = Ok app /\ MarshalIndent genesis = Ok stateBytes /\
    genesis !! bank_ModuleName = Some bz /\ UnmarshalJSON bz = Ok bank /\
    bank_DenomMetadata _ bank = GenerateBankGenesisMetadata evmChainID.
Proof.
  assert (forall A (m : outcome A) a, must m = Ok a -> m = Ok a) as must_Ok by (by intros A []).
  unfold SetupWithGenesisValSet. intros ([app g] & [EA _]%test_applications_are_the_node & E)%bind_Ok.
  destruct (GenesisStateWithValSet g valSet accs bals) as [gs err].
  apply bind_Ok in E as (b & _ & E). apply bind_Ok in E as (u & _ & E).
  apply bind_Ok in E as (bz & EB%must_Ok & E). apply bind_Ok in E as (sb & ES & E%must_Ok).
  assert (MarshalIndent (<[bank_ModuleName := bz]> gs) = Ok sb) as ES'
    by (by destruct (MarshalIndent _)).
  eexists app, _, bz, sb, _. split; [done|]. split; [done|]. split; [exact ES'|].
  split; [apply lookup_insert_eq|]. split; [by apply UnmarshalJSON_Marshal|done].
Qed.
End TestHelpers.
