(* ===== verification/AppProps.v ===== *)
(** What the application's wiring guarantees: which addresses cannot receive
    funds, that the lockup module's hooks and restriction are part of every
    delegation change and transfer, that modules run in the order the notes in
    app.go require, that both ways of making a default genesis agree, and that an
    upgraded chain has the EVM parameters of a new one. *)

From stdpp Require Import base list strings gmap sorting.
From Stdlib Require Import Ascii ZArith Lia.
From S2P Require Import Prelude GoTime Sdk LockPb LockStore LockSpec LockupKeeper Distro DistroProps Precompile Modules App.

Local Open Scope Z_scope.

(** * Blocked addresses *)

Section Blocked.
Context `{SdkTypes} `{ModuleAddresses} `{ExtNames}.
Context (precompiles : list string) (EthHexToCosmosAddr : string -> bytes).

Lemma block_fold_iff {A} (f : A -> string) l (b : gmap string bool) a :
  foldl (fun b k => block b (f k)) b l !! a = Some true
    <-> (exists k, k ∈ l /\ a = f k) \/ b !! a = Some true.
Proof.
  revert b. induction l as [|k l IH]; intros b; cbn [foldl].
  - split; [by right|]. intros [(k & []%not_elem_of_nil & _)|?]; done.
  - rewrite IH. unfold block. split.
    + intros [(k' & E & ->)|E]; [left; exists k'; split; [by right|done]|].
      apply lookup_insert_Some in E as [[<- _]|[_ E]]; [left; exists k; split; [left|done]|by right].
    + intros [(k' & [->|E]%elem_of_cons & ->)|E].
      * right. by rewrite lookup_insert_eq.
      * left. by exists k'.
      * right. destruct (decide (f k = a)) as [<-|N]; [by rewrite lookup_insert_eq|].
        by rewrite lookup_insert_ne.
Qed.

Lemma maccPerms_dom acc :
  acc ∈ (map_to_list GetMaccPerms).*1 <-> acc ∈ maccPerms.*1.
Proof.
  unfold GetMaccPerms.
  assert (forall l (m : gmap string (list permission)),
    acc ∈ (map_to_list (foldl (fun dup kv => <[kv.1 := kv.2]> dup) m l)).*1
      <-> acc ∈ l.*1 \/ is_Some (m !! acc)) as G.
  { induction l as [|[k v] l IH]; intros m; cbn [foldl fmap list_fmap fst snd].
    - split.
      + intros ([k v] & -> & E)%list_elem_of_fmap. apply elem_of_map_to_list in E. right. eauto.
      + intros [[]%not_elem_of_nil|[v E]]. apply list_elem_of_fmap. exists (acc, v).
        split; [done|]. by apply elem_of_map_to_list.
    - rewrite IH, elem_of_cons, lookup_insert_is_Some'. split; [intros [?|[->|?]]|intros [[->|?]|?]]; auto. }
  rewrite G, lookup_empty. split; [intros [?|[? [=]]]; done|by left].
Qed.

(** An address is blocked from receiving funds exactly when it is
    the address of a static precompile (the lockup precompile included) or the
    account of a module with permissions, other than the governance account; so
    the governance account is open unless a precompile has its address. *)
Theorem blocked_addresses_spec (a : string) :
  (BlockedAddresses precompiles EthHexToCosmosAddr !! a = Some true <->
    (exists acc, acc ∈ maccPerms.*1 /\ a = module_account acc /\ a <> module_account gov_ModuleName) \/
    (exists hex, hex ∈ precompiles ++ [LockupPrecompileAddress] /\
       a = precompile_account EthHexToCosmosAddr hex)) /\
  module_account gov_ModuleName ∈ map module_account maccPerms.*1.
Proof.
  split.
  - unfold BlockedAddresses. rewrite block_fold_iff. split.
    + intros [E|E]; [by right|]. left. apply lookup_delete_Some in E as [N E].
      apply block_fold_iff in E as [(acc & E & ->)|E]; [|by rewrite lookup_empty in E].
      exists acc. split; [by apply maccPerms_dom|]. split; [done|]. by apply not_eq_sym.
    + intros [(acc & E & -> & N)|E]; [|by left]. right. rewrite lookup_delete_ne by (by apply not_eq_sym).
      apply block_fold_iff. left. exists acc. split; [by apply maccPerms_dom|done].
  - apply list_elem_of_In, in_map, list_elem_of_In. do 5 right. left.
Qed.

(** A mint whose receiving address is blocked fails, since the bank refuses to
    send to it. *)
Lemma Mint_not_to_blocked `{SdkMathLaws} `{!SdkCoinLaws} {P X : Type} `{!Item P Params}
    `{!DistroBank X} (ctx : Ctx) (p : P) (x x' : X) msg :
  (forall x m a cs x', SendCoinsFromModuleToAccount x m a cs = Ok x' ->
     BlockedAddresses precompiles EthHexToCosmosAddr !! AccAddress_String a <> Some true) ->
  Mint ctx p x msg = Ok x' ->
  exists params acct, Item_Get p = Ok params /\ AccAddressFromBech32 (ReceivingAddress params) = Ok acct /\
    BlockedAddresses precompiles EthHexToCosmosAddr !! AccAddress_String acct <> Some true.
Proof.
  intros B (params & amount & signer & max & EP & _ & _ & _ & _ & _ & _ & _ & _
    & coin & coins & x1 & acct & _ & _ & _ & ER & E)%Mint_Ok.
  exists params, acct. split; [done|]. split; [done|]. by eapply B.
Qed.
End Blocked.

(** * Hooks *)

Section Hooks.
Context `{SdkMathLaws} `{!SdkTypes} {S : Type} `{!KVStore S} `{!KVStoreLaws S} {X : Type}
  `{!StakingKeeper X} `{!StakingLaws X} `{!BankKeeper X} `{!AppHooks X} `{!AppHooksLaws X}.

(** C14 Whatever the other modules' hooks do, the hooks the
    application registers with staking let a delegation be removed or changed
    only when the lockup module's hook accepts it, and the restriction it
    registers with the bank lets a transfer pass only when the lockup module's
    accepts it; in particular, for an account with fewer than a hundred
    delegations, the delegations left cover what is locked. *)
Theorem app_enforces_locks (ctx : Ctx) (s : S) (x : X) addr v ls :
  locks_rel (kv_view s) addr ls -> locks_inv ls -> int_ok (locked_on ctx ls) = true ->
  isRedelegating ctx addr v = false ->
  (hk_BeforeDelegationRemoved (app_staking_hooks ctx s) x addr v = Ok tt ->
     BeforeDelegationRemoved ctx s x addr v = Ok tt /\
     forall d pre post, zlen (all_delegations x addr) < 100 ->
       all_delegations x addr = pre ++ d :: post -> GetDelegation x addr v = Ok d ->
       locked_on ctx ls = 0 \/
       exists rest, sum_delegations x (pre ++ post) 0 = Ok rest /\ locked_on ctx ls <= rest) /\
  (hk_AfterDelegationModified (app_staking_hooks ctx s) x addr v = Ok tt ->
     forall D, GetTotalDelegatedAmount x addr = Ok D -> locked_on ctx ls = 0 \/ locked_on ctx ls <= D) /\
  (forall to coins to', app_send_restriction ctx s x addr to coins = Ok to' ->
     exists to1, SendRestrictionFn ctx s x addr to1 coins = Ok to').
Proof.
  intros R W I M. unfold app_staking_hooks, app_send_restriction. split; [|split].
  - intros E%multi_BeforeDelegationRemoved. apply Forall_cons in E as [_ E].
    apply Forall_cons in E as [_ E]. apply Forall_cons in E as [E _].
    split; [exact E|]. intros d pre post L A G. by eapply removal_covers.
  - intros E%multi_AfterDelegationModified D ED. apply Forall_cons in E as [_ E].
    apply Forall_cons in E as [_ E]. apply Forall_cons in E as [E _].
    by apply (AfterDelegationModified_unmarked ctx s x addr v ls D R W I ED M).
  - intros to coins to' (to1 & _ & E)%append_restriction. by exists to1.
Qed.
End Hooks.

(** * Module orders *)

(** All module names the orders use. *)
Definition all_names `{ModuleAddresses} `{ExtNames} : list string :=
  [auth_ModuleName; bank_ModuleName; distr_ModuleName; staking_ModuleName; slashing_ModuleName;
   gov_ModuleName; mint_ModuleName; ibc_ModuleName; ica_ModuleName; evm_ModuleName;
   feemarket_ModuleName; erc20_ModuleName; precisebank_ModuleName; transfer_ModuleName;
   genutil_ModuleName; evidence_ModuleName; authz_ModuleName; feegrant_ModuleName;
   nft_ModuleName; params_ModuleName; upgrade_ModuleName; vesting_ModuleName;
   consensus_ModuleName; epochs_ModuleName; wasm_ModuleName; ibctm_ModuleName;
   DistroModule.Name; LockupModule.Name].

(** Every occurrence of [a] comes before every occurrence of [b], and both occur. *)
Definition runs_before {A} (l : list A) (a b : A) : Prop :=
  a ∈ l /\ b ∈ l /\ forall i j, l !! i = Some a -> l !! j = Some b -> (i < j)%nat.

(** The positions of names in [all_names]. *)
Definition name_at `{ModuleAddresses} `{ExtNames} (k : nat) : string := all_names !!! k.

Fixpoint positions (k : nat) (i : nat) (l : list nat) : list nat :=
  match l with
  | [] => []
  | x :: l' => (if Nat.eqb x k then [i] else []) ++ positions k (Datatypes.S i) l'
  end.

Definition runs_beforeb (l : list nat) (a b : nat) : bool :=
  negb (bool_decide (positions a 0 l = [])) && negb (bool_decide (positions b 0 l = [])) &&
  forallb (fun i => forallb (fun j => Nat.ltb i j) (positions b 0 l)) (positions a 0 l).

Lemma positions_spec k l : forall i p,
  p ∈ positions k i l <-> (i <= p)%nat /\ l !! (p - i)%nat = Some k.
Proof.
  induction l as [|x l IH]; intros i p; cbn [positions].
  - rewrite lookup_nil, elem_of_nil. split; [done|by intros [_ [=]]].
  - rewrite elem_of_app, IH. destruct (decide (p = i)) as [->|N].
    + replace (i - i)%nat with 0%nat by lia. cbn [lookup list_lookup].
      destruct (Nat.eqb_spec x k) as [->|Nx].
      * split; [intros _; split; [lia|done]|]. intros _. left. left.
      * split; [intros [[]%not_elem_of_nil|[? _]]; lia|]. intros [_ [=]]. done.
    + assert (p ∉ (if Nat.eqb x k then [i] else [])) 
        by (case_match; [by intros ?%list_elem_of_singleton|apply not_elem_of_nil]).
      split.
      * intros [?|[L E]]; [done|]. split; [lia|].
        replace (p - i)%nat with (Datatypes.S (p - Datatypes.S i))%nat by lia. done.
      * intros [L E]. right. split; [lia|].
        replace (p - i)%nat with (Datatypes.S (p - Datatypes.S i))%nat in E by lia. done.
Qed.

Section Orders.
Context `{ModuleAddresses} `{ExtNames}.
Hypothesis names_distinct : NoDup all_names.

Lemma name_at_inj a b :
  (a < length all_names)%nat -> (b < length all_names)%nat -> name_at a = name_at b -> a = b.
Proof.
  intros A B E. eapply (NoDup_lookup all_names); [done|by apply list_lookup_lookup_total_lt|].
  unfold name_at in E. rewrite E. by apply list_lookup_lookup_total_lt.
Qed.

Lemma runs_before_map ks a b :
  forallb (fun k => Nat.ltb k (length all_names)) (a :: b :: ks) = true ->
  runs_beforeb ks a b = true ->
  runs_before (map name_at ks) (name_at a) (name_at b).
Proof.
  cbn [forallb]. rewrite !andb_true_iff. intros (A & B & F) E.
  apply Nat.ltb_lt in A, B. rewrite forallb_forall in F.
  unfold runs_beforeb in E. rewrite !andb_true_iff, !negb_true_iff, !bool_decide_eq_false in E.
  destruct E as [[NA NB] E]. rewrite forallb_forall in E.
  assert (forall k, positions k 0 ks <> [] -> name_at k ∈ map name_at ks) as M.
  { intros k N. destruct (positions k 0 ks) as [|p ps] eqn:P; [done|].
    assert (p ∈ positions k 0 ks) as [_ L]%positions_spec by (rewrite P; left).
    apply list_elem_of_In, in_map, list_elem_of_In. by eapply list_elem_of_lookup_2. }
  assert (forall k i, (k < length all_names)%nat -> map name_at ks !! i = Some (name_at k) ->
    In i (positions k 0 ks)) as Q.
  { intros k i K L. change (map name_at ks) with (name_at <$> ks) in L.
    apply list_lookup_fmap_Some in L as (k' & EK & L).
    apply list_elem_of_In, positions_spec. split; [lia|]. rewrite Nat.sub_0_r.
    assert (k' < length all_names)%nat.
    { apply Nat.ltb_lt, F. apply list_elem_of_In. by eapply list_elem_of_lookup_2. }
    by rewrite (name_at_inj k k'). }
  split; [by apply M|]. split; [by apply M|]. intros i j Hi Hj.
  apply Q in Hi, Hj; [|done..]. specialize (E i Hi). rewrite forallb_forall in E. by apply Nat.ltb_lt, E.
Qed.

Lemma NoDup_name_map ks :
  forallb (fun k => Nat.ltb k (length all_names)) ks = true -> NoDup ks -> NoDup (map name_at ks).
Proof.
  rewrite forallb_forall. intros F N. apply NoDup_fmap_2_strong; [|done].
  intros a b A B. apply name_at_inj; apply Nat.ltb_lt, F; by apply list_elem_of_In.
Qed.

Ltac order ks a b := exact (runs_before_map ks a b eq_refl eq_refl).

Definition begin_ks : list nat :=
  [23; 6; 7; 13; 8; 11; 10; 9; 2; 4; 15; 3; 0; 1; 5; 18; 14; 16; 17; 22; 12; 21; 24; 26; 27]%nat.
Definition end_ks : list nat :=
  [1; 5; 3; 0; 9; 11; 10; 7; 13; 8; 2; 4; 6; 14; 15; 16; 18; 17; 20; 22; 23; 12; 21; 24; 26; 27]%nat.
Definition genesis_ks : list nat :=
  [0; 1; 2; 3; 4; 5; 6; 7; 8; 9; 10; 11; 12; 13; 14; 15; 16; 17; 18; 19; 13; 7; 8; 20; 21; 22; 23; 24; 26; 27]%nat.

(** The orders of app.go meet the notes written next to them:
    upgrade is the first pre-blocker; in begin blocks fees are distributed before
    slashing and the fee market runs before the EVM; in end blocks the fee market
    runs after bank, gov, staking, auth, the EVM and ERC-20; at genesis staking
    and the fee market come before genutil, and bank and IBC before wasm; and no
    module runs twice in a block. *)
Theorem module_orders :
  head OrderPreBlockers = Some upgrade_ModuleName /\
  NoDup OrderBeginBlockers /\ NoDup OrderEndBlockers /\
  runs_before OrderBeginBlockers distr_ModuleName slashing_ModuleName /\
  runs_before OrderBeginBlockers feemarket_ModuleName evm_ModuleName /\
  Forall (fun m => runs_before OrderEndBlockers m feemarket_ModuleName)
    [bank_ModuleName; gov_ModuleName; staking_ModuleName; auth_ModuleName; evm_ModuleName;
     erc20_ModuleName] /\
  runs_before genesisModuleOrder staking_ModuleName genutil_ModuleName /\
  runs_before genesisModuleOrder feemarket_ModuleName genutil_ModuleName /\
  runs_before genesisModuleOrder bank_ModuleName wasm_ModuleName /\
  runs_before genesisModuleOrder ibc_ModuleName wasm_ModuleName.
Proof.
  split; [done|]. split; [apply (NoDup_name_map begin_ks eq_refl), (bool_decide_unpack _); by vm_compute|].
  split; [apply (NoDup_name_map end_ks eq_refl), (bool_decide_unpack _); by vm_compute|].
  split; [order begin_ks 2%nat 4%nat|]. split; [order begin_ks 10%nat 9%nat|].
  split.
  { repeat apply Forall_cons_2; [order end_ks 1%nat 10%nat|order end_ks 5%nat 10%nat
      |order end_ks 3%nat 10%nat|order end_ks 0%nat 10%nat|order end_ks 9%nat 10%nat
      |order end_ks 11%nat 10%nat|constructor]. }
  split; [order genesis_ks 3%nat 14%nat|]. split; [order genesis_ks 10%nat 14%nat|].
  split; [order genesis_ks 1%nat 24%nat|order genesis_ks 7%nat 24%nat].
Qed.
End Orders.

(** The genesis order lists transfer, IBC and interchain accounts twice. *)
Lemma genesis_order_repeats `{ModuleAddresses} `{ExtNames} :
  genesisModuleOrder !! 7%nat = genesisModuleOrder !! 21%nat /\
  genesisModuleOrder !! 8%nat = genesisModuleOrder !! 22%nat /\
  genesisModuleOrder !! 13%nat = genesisModuleOrder !! 20%nat /\
  ~ NoDup genesisModuleOrder.
Proof.
  repeat split. intros N.
  enough (7 = 21)%nat by lia. by eapply (NoDup_lookup _ _ _ ibc_ModuleName N).
Qed.

(** Every module of the manager has its genesis initialised, but for the
    Tendermint light client, which has none. *)
Lemma modules_have_genesis `{ModuleAddresses} `{ExtNames} m :
  m ∈ ModuleManager_modules -> m ∈ genesisModuleOrder \/ m = ibctm_ModuleName.
Proof.
  revert m. apply (proj1 (Forall_forall (fun m => m ∈ genesisModuleOrder \/ m = ibctm_ModuleName) _)).
  assert (Forall (fun k => k ∈ genesis_ks \/ k = 25%nat)
    [14; 0; 1; 17; 5; 18; 6; 4; 2; 3; 20; 15; 19; 16; 22; 23; 21; 7; 25; 13; 8; 9; 10; 11; 26; 27; 24]%nat) as F.
  { apply (bool_decide_unpack _). by vm_compute. }
  assert (forall ks, Forall (fun k => k ∈ genesis_ks \/ k = 25%nat) ks ->
    Forall (fun m => m ∈ genesisModuleOrder \/ m = ibctm_ModuleName) (map name_at ks)) as G.
  { intros ks. induction 1 as [|k ks [E| ->] _ IH]; constructor; [|done|by right|done].
    left. change genesisModuleOrder with (name_at <$> genesis_ks). by apply list_elem_of_fmap_2. }
  exact (G _ F).
Qed.

(** * Genesis and upgrade *)

Lemma sort_Strings_unique l k :
  Sorted String.le k -> Permutation k l -> sort_Strings l = k.
Proof.
  intros S P. unfold sort_Strings.
  apply (Sorted_unique String.le); [apply Sorted_merge_sort; apply _|done|].
  by rewrite merge_sort_Permutation.
Qed.

Lemma sort_Strings_Permutation l : Permutation (sort_Strings l) l.
Proof. apply merge_sort_Permutation. Qed.
Lemma sort_Strings_Sorted l : Sorted String.le (sort_Strings l).
Proof. apply Sorted_merge_sort. apply _. Qed.

Lemma sort_Strings_idem l : sort_Strings (sort_Strings l) = sort_Strings l.
Proof. apply sort_Strings_unique; [apply sort_Strings_Sorted|done]. Qed.
Lemma sort_Strings_app l k : sort_Strings (sort_Strings l ++ k) = sort_Strings (l ++ k).
Proof.
  symmetry. apply sort_Strings_unique; [apply sort_Strings_Sorted|].
  by rewrite !sort_Strings_Permutation.
Qed.

Section Genesis.
Context `{Defaults} `{!JSONCodec (EvmGenesis EIP EvmRest Preinstalls)} `{!JSONCodec Erc20Genesis}
  `{!JSONCodec (DenomGenesis MintRest)} `{!JSONCodec (DenomGenesis StakingRest)}
  `{!JSONCodec (BankGenesis BankRest)} `{ModuleAddresses} `{ExtNames}.

(** The basic module manager's genesis holds, under each overridden name, the
    genesis of the override, and under ERC-20's name that module's default. *)
Definition basic_genesis (basic : gmap string bytes) : Prop :=
  Forall (fun nr => forall b, nr.2 = Ok b -> basic !! nr.1 = Some b)
    (basic_overrides ++ [(erc20_ModuleName, must (MarshalJSON erc20_DefaultGenesisState))]).

(** The genesis of [tscd init], made by the basic module manager, is the one
    [app.DefaultGenesis] returns. *)
Lemma DefaultGenesis_is_basic (basic g : gmap string bytes) :
  basic_genesis basic -> DefaultGenesis basic = Ok g -> g = basic.
Proof.
  unfold basic_genesis, basic_overrides. cbn [app]. rewrite !Forall_cons.
  intros (S & E & B & M & Er & _). cbn [fst snd] in *. unfold DefaultGenesis, NewErc20GenesisState.
  intros (m & EM & G)%bind_Ok. apply bind_Ok in G as (e & EE & G). apply bind_Ok in G as (r & ER & G).
  apply bind_Ok in G as (s & ES & G). apply bind_Ok in G as (b & EB & G). injection G as <-.
  rewrite (insert_id basic mint_ModuleName), (insert_id basic evm_ModuleName),
    (insert_id basic erc20_ModuleName), (insert_id basic staking_ModuleName),
    (insert_id basic bank_ModuleName) by auto. done.
Qed.
End Genesis.

(** An address spelled with decimal digits only: the checksum of its [Hex] changes
    the case of letters, so there is nothing to change. *)
Definition is_digit (c : ascii) : bool := (48 <=? nat_of_ascii c)%nat && (nat_of_ascii c <=? 57)%nat.
Fixpoint all_digits (s : string) : bool :=
  match s with EmptyString => true | String c s => is_digit c && all_digits s end.
Definition digits_address (hex : string) : bool :=
  match hex with
  | String "0" (String "x" s) => (String.length s =? 40)%nat && all_digits s
  | _ => false
  end.

Definition with_precompiles {E R} (p : EvmParams E R) (l : list string) : EvmParams E R :=
  MkEvmParams (EvmDenom p) (ExtendedDenomOptions p) l (ExtraEIPs p) (evm_rest p).

(** What the upgrade handler relies on: SetParams stores the parameters with the
    active precompiles sorted, the coin info is stored elsewhere, and enabling
    precompiles appends the [Hex] of each to the active ones, sorts them and sets the
    parameters, unless one of them is active already. *)
Class UpgradeLaws (X : Type) `{UpgradeKeepers X} : Prop := {
  evm_Get_Set x p x' : evm_SetParams x p = Ok x' ->
    evm_GetParams x' = with_precompiles p (sort_Strings (ActiveStaticPrecompiles p));
  InitEvmCoinInfo_params x x' : InitEvmCoinInfo x = Ok x' -> evm_GetParams x' = evm_GetParams x;
  EnableStaticPrecompiles_active x addrs :
    Exists (fun a => eth_Hex a ∈ ActiveStaticPrecompiles (evm_GetParams x)) addrs ->
    exists e, EnableStaticPrecompiles x addrs = Err e;
  EnableStaticPrecompiles_new x addrs :
    Forall (fun a => eth_Hex a ∉ ActiveStaticPrecompiles (evm_GetParams x)) addrs ->
    EnableStaticPrecompiles x addrs
      = evm_SetParams x (with_precompiles (evm_GetParams x)
          (sort_Strings (ActiveStaticPrecompiles (evm_GetParams x) ++ map eth_Hex addrs)));
  eth_Hex_digits hex : digits_address hex = true -> eth_Hex (eth_HexToAddress hex) = hex;
}.

Section Upgrade.
Context `{Defaults} {X : Type} `{!UpgradeKeepers X} `{!UpgradeLaws X}.

Lemma eth_Hex_lockup : eth_Hex (eth_HexToAddress LockupPrecompileAddress) = LockupPrecompileAddress.
Proof. apply eth_Hex_digits. reflexivity. Qed.

(** Enabling one precompile. *)
Lemma EnableStaticPrecompile_Ok (x x' : X) a :
  EnableStaticPrecompiles x [a] = Ok x' ->
  eth_Hex a ∉ ActiveStaticPrecompiles (evm_GetParams x) /\
  evm_GetParams x' = with_precompiles (evm_GetParams x)
    (sort_Strings (ActiveStaticPrecompiles (evm_GetParams x) ++ [eth_Hex a])).
Proof.
  intros E. destruct (decide (eth_Hex a ∈ ActiveStaticPrecompiles (evm_GetParams x))) as [A|A].
  { destruct (EnableStaticPrecompiles_active x [a]) as [e E']; [by left|congruence]. }
  split; [done|]. rewrite EnableStaticPrecompiles_new in E by (by apply Forall_singleton).
  apply evm_Get_Set in E. rewrite E. unfold with_precompiles. cbn. by rewrite sort_Strings_idem.
Qed.

(** C38 A chain that went through the v2-lockup upgrade has, when the
    migrations start, the EVM denomination, the extended denomination and the
    list of active precompiles of a chain started from the default genesis, and
    the default extra EIPs; the lockup precompile is active in both.  The step
    fails if the EVM module itself already listed the lockup precompile. *)
Theorem upgrade_matches_genesis (x x' : X) :
  upgrade_prepare x = Ok x' ->
  let p := evm_GetParams x' in
  let g := evm_Params NewEVMGenesisState in
  EvmDenom p = EvmDenom g /\ ExtendedDenomOptions p = ExtendedDenomOptions g /\
  ActiveStaticPrecompiles p = ActiveStaticPrecompiles g /\ ExtraEIPs p = DefaultExtraEIPs /\
  LockupPrecompileAddress ∈ ActiveStaticPrecompiles p /\
  LockupPrecompileAddress ∉ AvailableStaticPrecompiles.
Proof.
  unfold upgrade_prepare. intros (x1 & S & E)%bind_Ok. apply bind_Ok in E as (x2 & I & E).
  apply evm_Get_Set in S. apply InitEvmCoinInfo_params in I. rewrite S in I.
  apply EnableStaticPrecompile_Ok in E as (N & G). rewrite I, eth_Hex_lockup in N, G.
  cbn [EvmDenom ExtendedDenomOptions ActiveStaticPrecompiles ExtraEIPs evm_rest with_precompiles] in N, G.
  cbv zeta. rewrite G. cbn. split; [done|]. split; [done|]. split; [apply sort_Strings_app|].
  split; [done|]. split; [rewrite sort_Strings_Permutation, elem_of_app; right; left|].
  by rewrite sort_Strings_Permutation in N.
Qed.
End Upgrade.

(** * Stores *)

Section Stores.
Context `{ExtKeys}.

(** The stores the upgrade adds are mounted, and the ones it deletes are not. *)
Lemma store_upgrades_consistent :
  NoDup (keys ++ su_Deleted storeUpgrades) ->
  Forall (fun k => k ∈ keys) (su_Added storeUpgrades) /\
  Forall (fun k => k ∉ keys) (su_Deleted storeUpgrades).
Proof.
  intros (_ & D & _)%NoDup_app. split.
  - repeat apply Forall_cons_2; [do 14 right; left|do 24 right; left|do 23 right; left|constructor].
  - apply Forall_forall. intros k K Hk. by apply (D k).
Qed.

(** [GetStoreKeys] lists every mounted store once, sorted by name. *)
Lemma GetStoreKeys_spec (ks : gset string) :
  Sorted String.le (GetStoreKeys ks) /\ NoDup (GetStoreKeys ks) /\
  forall k, k ∈ GetStoreKeys ks <-> k ∈ ks.
Proof.
  unfold GetStoreKeys. split; [apply Sorted_merge_sort; apply _|]. split.
  - rewrite merge_sort_Permutation. apply NoDup_elements.
  - intros k. by rewrite merge_sort_Permutation, elem_of_elements.
Qed.
End Stores.
