(* ===== verification/NodeGenesis.v ===== *)
(** The genesis [tscd init] writes: the basic module manager that [NewChainApp] builds
    with the module wrappers of app/genesis.go, and that its genesis is the one
    [app.DefaultGenesis] returns; the directories and the generated command line of the
    node. *)

From stdpp Require Import base list strings gmap sets.
From Stdlib Require Import ZArith Lia.
From S2P Require Import Prelude GoTime Sdk LockPb LockStore LockupKeeper Distro Modules App Wiring Startup NodeCmd Process AppProps.

Local Open Scope Z_scope.

(** * Basic modules *)

(** A basic module: the one of the module's own package, and the default genesis of a
    struct that embeds it and overrides that method. *)
Record AppModuleBasic (U : Type) := MkAppModuleBasic {
  embedded : U;
  overridden : option (outcome bytes);
}.
Arguments MkAppModuleBasic {U}.
Arguments embedded {U}.
Arguments overridden {U}.

(** [module.BasicManager] and the basic modules of other packages. *)
Class BasicManagers (U : Type) := {
  upstream_DefaultGenesis : U -> outcome bytes;
  genutil_AppModuleBasic : U;
  staking_AppModuleBasic : U;
  gov_AppModuleBasic : U;
  transfer_AppModuleBasic : U;
  evm_AppModuleBasic : U;
  bank_AppModuleBasic : U;
  mint_AppModuleBasic : U;
  (** What the application module of a name embeds, if it does. *)
  module_basic : string -> option U;
  BasicManager : Type;
  NewBasicManagerFromManager : list string -> gmap string (AppModuleBasic U) -> BasicManager;
  manager_DefaultGenesis : BasicManager -> outcome (gmap string bytes);
}.

Section Basic.
Context {U : Type} `{!BasicManagers U} `{Defaults}.
Context `{!JSONCodec (EvmGenesis EIP EvmRest Preinstalls)} `{!JSONCodec Erc20Genesis}
  `{!JSONCodec (DenomGenesis MintRest)} `{!JSONCodec (DenomGenesis StakingRest)}
  `{!JSONCodec (BankGenesis BankRest)} `{ModuleAddresses} `{ExtNames}.

Definition basic_DefaultGenesis (b : AppModuleBasic U) : outcome bytes :=
  match overridden b with
  | Some genesis => genesis
  | None => upstream_DefaultGenesis (embedded b)
  end.

(** ** The wrappers *)

Definition evmAppModuleBasic : AppModuleBasic U :=
  MkAppModuleBasic evm_AppModuleBasic (Some (must (MarshalJSON NewEVMGenesisState))).
Definition stakingAppModuleBasic : AppModuleBasic U :=
  MkAppModuleBasic staking_AppModuleBasic (Some (must (MarshalJSON NewStakingGenesisState))).
Definition bankAppModuleBasic : AppModuleBasic U :=
  MkAppModuleBasic bank_AppModuleBasic (Some (must (MarshalJSON NewBankGenesisState))).
Definition mintAppModuleBasic : AppModuleBasic U :=
  MkAppModuleBasic mint_AppModuleBasic (Some (must (MarshalJSON NewMintGenesisState))).

(** The map given to [NewBasicManagerFromManager]. *)
Definition custom_basics : list (string * AppModuleBasic U) :=
  [(genutil_ModuleName, MkAppModuleBasic genutil_AppModuleBasic None);
   (staking_ModuleName, stakingAppModuleBasic);
   (gov_ModuleName, MkAppModuleBasic gov_AppModuleBasic None);
   (transfer_ModuleName, MkAppModuleBasic transfer_AppModuleBasic None);
   (evm_ModuleName, evmAppModuleBasic);
   (bank_ModuleName, bankAppModuleBasic);
   (mint_ModuleName, mintAppModuleBasic)].

Definition BasicModuleManager : BasicManager :=
  NewBasicManagerFromManager ModuleManager_modules (list_to_map custom_basics).

(** [app.DefaultGenesis] as a whole. *)
Definition app_DefaultGenesis : outcome (gmap string bytes) :=
  basic ← manager_DefaultGenesis BasicModuleManager;
  DefaultGenesis basic.

(** For each module of the manager, its custom basic module if there is one, and its own
    otherwise, gives the genesis under its name; the one of ERC-20 is its package's
    default. *)
Class BasicManagerLaws : Prop := {
  manager_custom modules custom g name b :
    manager_DefaultGenesis (NewBasicManagerFromManager modules custom) = Ok g ->
    name ∈ modules -> custom !! name = Some b ->
    exists bz, basic_DefaultGenesis b = Ok bz /\ g !! name = Some bz;
  manager_own modules custom g name u :
    manager_DefaultGenesis (NewBasicManagerFromManager modules custom) = Ok g ->
    name ∈ modules -> custom !! name = None -> module_basic name = Some u ->
    exists bz, upstream_DefaultGenesis u = Ok bz /\ g !! name = Some bz;
  erc20_basic : exists u, module_basic erc20_ModuleName = Some u /\
    upstream_DefaultGenesis u = must (MarshalJSON erc20_DefaultGenesisState);
}.

Context `{!BasicManagerLaws} (names_distinct : NoDup all_names).

Lemma custom_basics_NoDup : NoDup custom_basics.*1.
Proof. apply (NoDup_name_map names_distinct [14; 3; 5; 13; 9; 1; 6]%nat eq_refl).
  apply (bool_decide_unpack _). vm_compute. exact I.
Qed.

Lemma erc20_not_custom : erc20_ModuleName ∉ custom_basics.*1.
Proof.
  assert (NoDup (erc20_ModuleName :: custom_basics.*1)) as N.
  { apply (NoDup_name_map names_distinct [11; 14; 3; 5; 13; 9; 1; 6]%nat eq_refl).
    apply (bool_decide_unpack _). vm_compute. exact I. }
  by apply NoDup_cons in N as [N _].
Qed.

Lemma custom_genesis basic name b :
  manager_DefaultGenesis BasicModuleManager = Ok basic -> (name, b) ∈ custom_basics ->
  name ∈ ModuleManager_modules -> exists bz, basic_DefaultGenesis b = Ok bz /\ basic !! name = Some bz.
Proof.
  intros E I M. eapply manager_custom; [exact E|done|].
  by apply elem_of_list_to_map; [apply custom_basics_NoDup|].
Qed.

(** The genesis [tscd init] takes from the basic manager is the application's default
    genesis: rewriting the five modules changes nothing. *)
Theorem init_genesis_is_app_genesis basic :
  manager_DefaultGenesis BasicModuleManager = Ok basic -> app_DefaultGenesis = Ok basic.
Proof.
  intros E. unfold app_DefaultGenesis. rewrite E. cbn [mbind outcome_bind].
  destruct (custom_genesis basic staking_ModuleName stakingAppModuleBasic E) as (s & Es & Ls); [set_solver..|].
  destruct (custom_genesis basic evm_ModuleName evmAppModuleBasic E) as (v & Ev & Lv); [set_solver..|].
  destruct (custom_genesis basic bank_ModuleName bankAppModuleBasic E) as (k & Ek & Lk); [set_solver..|].
  destruct (custom_genesis basic mint_ModuleName mintAppModuleBasic E) as (m & Em & Lm); [set_solver..|].
  destruct erc20_basic as (u & Mu & Gu).
  destruct (manager_own _ _ _ erc20_ModuleName u E) as (r & Er & Lr);
    [set_solver|by apply not_elem_of_list_to_map_1, erc20_not_custom|done|].
  rewrite Gu in Er. cbn [basic_DefaultGenesis overridden stakingAppModuleBasic evmAppModuleBasic
    bankAppModuleBasic mintAppModuleBasic] in Es, Ev, Ek, Em.
  assert (DefaultGenesis basic = Ok (<[bank_ModuleName := k]> (<[staking_ModuleName := s]>
    (<[erc20_ModuleName := r]> (<[evm_ModuleName := v]> (<[mint_ModuleName := m]> basic)))))) as G.
  { unfold DefaultGenesis, NewErc20GenesisState. rewrite Em. cbn [mbind outcome_bind]. rewrite Ev.
    cbn [mbind outcome_bind]. rewrite Er. cbn [mbind outcome_bind]. rewrite Es. cbn [mbind outcome_bind].
    by rewrite Ek. }
  rewrite G. f_equal. apply (DefaultGenesis_is_basic basic); [|done].
  unfold basic_genesis, basic_overrides. cbn [app].
  repeat (apply Forall_cons; split; [cbn [fst snd]; congruence|]). by apply Forall_nil.
Qed.
End Basic.

(** * Directories and the generated command line *)

Definition NodeDir : string := ".tsc".
Definition ChainID : string := "tsc_87878-1".

(** The home of the node, below the one of the user. *)
Definition DefaultNodeHome (ExpandEnv : string -> string) : string := ExpandEnv "$HOME/" +:+ NodeDir.

(** Where the wasm keeper puts its files, and its limits. *)
Definition wasmDir (Join : list string -> string) (homePath : string) : string := Join [homePath; "wasm"].

Record WasmNodeConfig := MkWasmNodeConfig {
  SmartQueryGasLimit : Z; MemoryCacheSize : Z; ContractDebugMode : bool }.
Definition wasmNodeConfig : WasmNodeConfig := MkWasmNodeConfig 3000000 100 false.

(** [autocli.AppOptions]. *)
Record AutoCliOptions (AM O C : Type) := MkAutoCliOptions {
  auto_Modules : gmap string AM;
  auto_ModuleOptions : O;
  auto_AddressCodec : C;
  auto_ValidatorAddressCodec : C;
  auto_ConsensusAddressCodec : C;
}.
Arguments MkAutoCliOptions {AM O C}.
Arguments auto_Modules {AM O C}.
Arguments auto_ModuleOptions {AM O C}.
Arguments auto_AddressCodec {AM O C}.
Arguments auto_ValidatorAddressCodec {AM O C}.
Arguments auto_ConsensusAddressCodec {AM O C}.

Section AutoCli.
Context `{ProcessEnv} {AM O C : Type} (ExtractAutoCLIOptions : list (ManagedModule AM) -> O)
  (NewEvmCodec : string -> C).

Definition AutoCliOpts (modules : list (ManagedModule AM)) (g : Globals) : AutoCliOptions AM O C :=
  let config := config_view (g_Config g) in
  MkAutoCliOptions (AutoCliOpts_modules modules) (ExtractAutoCLIOptions modules)
    (NewEvmCodec (v_AccAddr config)) (NewEvmCodec (v_ValAddr config)) (NewEvmCodec (v_ConsAddr config)).

(** Built after [main] set the configuration, the generated commands read and print
    addresses of this chain. *)
Lemma AutoCliOpts_addresses `{!ProcessLaws} modules g g' :
  v_sealed (config_view (g_Config g)) = false -> setupSDKConfig g = Ok g' ->
  let options := AutoCliOpts modules g' in
  auto_AddressCodec options = NewEvmCodec "tsc" /\
  auto_ValidatorAddressCodec options = NewEvmCodec ("tsc" +:+ PrefixValidator +:+ PrefixOperator) /\
  auto_ConsensusAddressCodec options = NewEvmCodec ("tsc" +:+ PrefixValidator +:+ PrefixConsensus).
Proof.
  intros O' E. destruct (setupSDKConfig_spec g O') as (g2 & E2 & V & _).
  rewrite E in E2. injection E2 as <-. unfold AutoCliOpts. by rewrite V.
Qed.
End AutoCli.
