(* ===== verification/Export.v ===== *)
(** Exporting the chain's state (app/export.go) and the export command of the
    node binary (cmd/tscd/commands.go).  The keepers are parameters over a state
    [X]; an iteration is the list of what it visits, as for the store iterators of
    Sdk.v, and an operation that fails leaves the state as it was. *)

From stdpp Require Import base list strings gmap.
From Stdlib Require Import ZArith Lia.
From S2P Require Import Prelude GoTime Sdk LockPb Modules App.

Local Open Scope Z_scope.

(** * Data *)

(** A redelegation or an unbonding delegation: its entries carry the height they
    were created at; [Rest] is what the export does not touch. *)
Record Entry (Rest : Type) := MkEntry { CreationHeight : Z; entry_rest : Rest }.
Arguments MkEntry {Rest}.
Arguments CreationHeight {Rest}.
Arguments entry_rest {Rest}.

Record SigningInfo (Rest : Type) := MkSigningInfo { StartHeight : Z; info_rest : Rest }.
Arguments MkSigningInfo {Rest}.
Arguments StartHeight {Rest}.
Arguments info_rest {Rest}.

(** The fields of [stakingtypes.Validator] the export reads or writes. *)
Record ValidatorRec (Rest : Type) := MkValidatorRec {
  OperatorAddress : string; UnbondingHeight : Z; Jailed : bool; val_rest : Rest }.
Arguments MkValidatorRec {Rest}.
Arguments OperatorAddress {Rest}.
Arguments UnbondingHeight {Rest}.
Arguments Jailed {Rest}.
Arguments val_rest {Rest}.

Record DelegationRec := MkDelegationRec { DelegatorAddress : string; ValidatorAddress : string }.

(** What an export returns. *)
Record ExportedApp (GV CP : Type) := MkExportedApp {
  AppState : bytes; ExpValidators : GV; Height : Z; ConsensusParams : CP }.
Arguments MkExportedApp {GV CP}.
Arguments Height {GV CP}.

(** An application as [NewChainApp] makes it: the EVM chain id it configures, the
    state it loaded and the height of its last block. *)
Record Chain (X : Type) := MkChain { chain_id : Z; chain_state : X; chain_height : Z }.
Arguments MkChain {X}.
Arguments chain_id {X}.
Arguments chain_state {X}.
Arguments chain_height {X}.

(** * Keepers *)

Class ExportKeepers (X : Type) := {
  ERest : Type; IRest : Type; VRest : Type; DecCoins : Type; FeePool : Type;
  (** x/staking *)
  IterateValidators : X -> outcome (list (ValidatorRec VRest));
  GetAllDelegations : X -> outcome (list DelegationRec);
  IterateRedelegations : X -> outcome (list (bytes * list (Entry ERest)));
  SetRedelegation : X -> bytes -> list (Entry ERest) -> outcome X;
  IterateUnbondingDelegations : X -> outcome (list (bytes * list (Entry ERest)));
  SetUnbondingDelegation : X -> bytes -> list (Entry ERest) -> outcome X;
  (** the reverse prefix iterator over the validator keys, as addresses, and the
      error of closing it *)
  ValidatorKeys : X -> list bytes;
  iter_Close : X -> option error;
  exp_GetValidator : X -> bytes -> outcome (ValidatorRec VRest);
  exp_SetValidator : X -> ValidatorRec VRest -> outcome X;
  ApplyAndReturnValidatorSetUpdates : X -> outcome X;
  ValAddress_String : bytes -> string;
  (** x/distribution; the errors of the withdrawals are dropped *)
  WithdrawValidatorCommission : X -> bytes -> X;
  WithdrawDelegationRewards : X -> bytes -> bytes -> X;
  distr_BeforeDelegationCreated : X -> bytes -> bytes -> outcome X;
  distr_AfterDelegationModified : X -> bytes -> bytes -> outcome X;
  distr_AfterValidatorCreated : Z -> X -> bytes -> outcome X;
  DeleteAllValidatorSlashEvents : X -> X;
  DeleteAllValidatorHistoricalRewards : X -> X;
  GetValidatorOutstandingRewardsCoins : X -> bytes -> outcome DecCoins;
  FeePool_Get : X -> outcome FeePool;
  CommunityPool_Add : FeePool -> DecCoins -> FeePool;
  FeePool_Set : X -> FeePool -> outcome X;
  (** x/slashing *)
  IterateValidatorSigningInfos : X -> outcome (list (bytes * SigningInfo IRest));
  SetValidatorSigningInfo : X -> bytes -> SigningInfo IRest -> outcome X;
}.

Section StateExport.
Context `{SdkTypes} {X : Type} `{ExportKeepers X}.

(** [log.Fatal] ends the process. *)
Definition fatal {A} (m : outcome A) : outcome A :=
  match m with Err _ => Panic (ExtPanic "log.Fatal") | _ => m end.

(** * prepForZeroHeightGenesis *)

(** The allow list: each address must decode. *)
Fixpoint allowed_addrs (jailAllowedAddrs : list string) (allowedAddrsMap : gset string)
    : outcome (gset string) :=
  match jailAllowedAddrs with
  | [] => Ok allowedAddrsMap
  | addr :: rest =>
      _ ← fatal (ValAddressFromBech32 addr);
      allowed_addrs rest ({[ addr ]} ∪ allowedAddrsMap)
  end.

(** [sdk.ValAddress(val.GetOperator())]: the bytes of the operator's text. *)
Definition operator_bytes (val : ValidatorRec VRest) : bytes := bytes_of_string (OperatorAddress val).

Definition withdraw_commissions (x : X) (vals : list (ValidatorRec VRest)) : X :=
  foldl (fun x val => WithdrawValidatorCommission x (operator_bytes val)) x vals.

Fixpoint withdraw_rewards (x : X) (dels : list DelegationRec) : outcome X :=
  match dels with
  | [] => Ok x
  | delegation :: rest =>
      valAddr ← must (ValAddressFromBech32 (ValidatorAddress delegation));
      delAddr ← must (AccAddressFromBech32 (DelegatorAddress delegation));
      withdraw_rewards (WithdrawDelegationRewards x delAddr valAddr) rest
  end.

Fixpoint reinit_delegations (x : X) (dels : list DelegationRec) : outcome X :=
  match dels with
  | [] => Ok x
  | del :: rest =>
      valAddr ← must (ValAddressFromBech32 (ValidatorAddress del));
      delAddr ← must (AccAddressFromBech32 (DelegatorAddress del));
      x ← must (distr_BeforeDelegationCreated x delAddr valAddr);
      x ← must (distr_AfterDelegationModified x delAddr valAddr);
      reinit_delegations x rest
  end.

(** The callback that reinitialises a validator, at height zero: the state it
    leaves and whether the iteration stops.  Its errors are local. *)
Definition reinit_validator (x : X) (val : ValidatorRec VRest) : outcome (X * bool) :=
  catch (GetValidatorOutstandingRewardsCoins x (operator_bytes val))
    (fun scraps =>
       catch (FeePool_Get x)
         (fun feePool =>
            catch (FeePool_Set x (CommunityPool_Add feePool scraps))
              (fun x =>
                 catch (distr_AfterValidatorCreated 0 x (operator_bytes val))
                   (fun x => Ok (x, false)) (fun _ => Ok (x, true)))
              (fun _ => Ok (x, true)))
         (fun _ => Ok (x, true)))
    (fun _ => Ok (x, true)).

Fixpoint reinit_validators (x : X) (vals : list (ValidatorRec VRest)) : outcome X :=
  match vals with
  | [] => Ok x
  | val :: rest =>
      '(x, stop) ← reinit_validator x val;
      if (stop : bool) then Ok x else reinit_validators x rest
  end.

(** An iteration whose callback writes each item back and records the first
    error in [iterErr], which is returned afterwards. *)
Fixpoint write_back {K V} (set : X -> K -> V -> outcome X) (f : V -> V) (items : list (K * V)) (x : X)
    : outcome X :=
  match items with
  | [] => Ok x
  | (k, v) :: rest => x ← set x k (f v); write_back set f rest x
  end.

(** [for i := range red.Entries { red.Entries[i].CreationHeight = 0 }]. *)
Definition reset_entries (entries : list (Entry ERest)) : list (Entry ERest) :=
  map (fun e => MkEntry 0 (entry_rest e)) entries.
Definition reset_info (info : SigningInfo IRest) : SigningInfo IRest :=
  MkSigningInfo 0 (info_rest info).

(** The update of one validator in the loop over the validator keys. *)
Definition reset_validator (applyAllowedAddrs : bool) (allowedAddrsMap : gset string) (addr : bytes)
    (validator : ValidatorRec VRest) : ValidatorRec VRest :=
  MkValidatorRec (OperatorAddress validator) 0
    (if applyAllowedAddrs && negb (bool_decide (ValAddress_String addr ∈ allowedAddrsMap))
     then true else Jailed validator)
    (val_rest validator).

Fixpoint reset_validators (applyAllowedAddrs : bool) (allowedAddrsMap : gset string)
    (addrs : list bytes) (x : X) : outcome X :=
  match addrs with
  | [] => Ok x
  | addr :: rest =>
      validator ← wrap_err (fun _ => FmtErr "expected validator %s not found. Error: %w")
                    (exp_GetValidator x addr);
      x ← exp_SetValidator x (reset_validator applyAllowedAddrs allowedAddrsMap addr validator);
      reset_validators applyAllowedAddrs allowedAddrsMap rest x
  end.

(** Everything up to the end of the loop over the validators. *)
Definition prep_distribution_and_staking (x : X) (jailAllowedAddrs : list string) : outcome X :=
  let applyAllowedAddrs := 0 <? zlen jailAllowedAddrs in
  allowedAddrsMap ← allowed_addrs jailAllowedAddrs ∅;
  vals ← IterateValidators x;
  let x := withdraw_commissions x vals in
  dels ← GetAllDelegations x;
  x ← withdraw_rewards x dels;
  x ← reinit_delegations x dels;
  let x := DeleteAllValidatorSlashEvents x in
  let x := DeleteAllValidatorHistoricalRewards x in
  vals ← IterateValidators x;
  x ← reinit_validators x vals;
  reds ← IterateRedelegations x;
  x ← write_back SetRedelegation reset_entries reds x;
  ubds ← IterateUnbondingDelegations x;
  x ← write_back SetUnbondingDelegation reset_entries ubds x;
  reset_validators applyAllowedAddrs allowedAddrsMap (ValidatorKeys x) x.

(** An error of [iter.Close()] is logged, and the rest is not done. *)
Definition prepForZeroHeightGenesis (x : X) (jailAllowedAddrs : list string) : outcome X :=
  x ← prep_distribution_and_staking x jailAllowedAddrs;
  match iter_Close x with
  | Some _ => Ok x
  | None =>
      x ← fatal (ApplyAndReturnValidatorSetUpdates x);
      infos ← IterateValidatorSigningInfos x;
      write_back SetValidatorSigningInfo reset_info infos x
  end.

(** * ExportAppStateAndValidators *)

(** The module manager's export, the JSON encoder, the validators' writer and the
    consensus parameters. *)
Context {GS GV CP : Type} (ExportGenesisForModules : X -> list string -> outcome GS)
  (MarshalIndent : GS -> outcome bytes) (WriteValidators : X -> outcome GV)
  (GetConsensusParams : X -> CP).

Definition ExportAppStateAndValidators (x : X) (LastBlockHeight : Z) (forZeroHeight : bool)
    (jailAllowedAddrs modulesToExport : list string) : outcome (ExportedApp GV CP) :=
  let height := if forZeroHeight then 0 else LastBlockHeight + 1 in
  x ← (if forZeroHeight then prepForZeroHeightGenesis x jailAllowedAddrs else Ok x);
  genState ← ExportGenesisForModules x modulesToExport;
  appState ← MarshalIndent genState;
  validators ← WriteValidators x;
  Ok (MkExportedApp appState validators height (GetConsensusParams x)).

(** * The export command *)

(** Opening the database, at the latest height or at a given one. *)
Context (LoadLatestVersion : outcome (X * Z)) (LoadVersion : Z -> outcome (X * Z)).

(** [NewChainApp] and [LoadHeight] in [appExport]; a failure to load the latest
    version ends the process. *)
Definition open_chain (height : Z) : outcome (Chain X) :=
  if height =? -1 then
    '(x, h) ← fatal LoadLatestVersion;
    Ok (MkChain (evm_chain_id true) x h)
  else
    '(x, h) ← LoadVersion height;
    Ok (MkChain (evm_chain_id false) x h).

(** [appOpts.Get(flags.FlagHome).(string)]: not a string is [None]. *)
Definition appExport (home : option string) (isViper : bool) (height : Z) (forZeroHeight : bool)
    (jailAllowedAddrs modulesToExport : list string) : outcome (ExportedApp GV CP) :=
  if match home with Some h => String.eqb h "" | None => true end
  then Err (FmtErr "application home is not set") else
  if negb isViper then Err (FmtErr "appOpts is not viper.Viper") else
  c ← open_chain height;
  ExportAppStateAndValidators (chain_state c) (chain_height c) forZeroHeight jailAllowedAddrs
    modulesToExport.
End StateExport.

(** [getChainIDFromOpts]: the flag, or the chain id of the genesis file. *)
Definition getChainIDFromOpts (flag_chain_id home genesis_file : string)
    (Join : string -> string -> string) (AppGenesisFromFile : string -> outcome string)
    : outcome string :=
  if negb (String.eqb flag_chain_id "") then Ok flag_chain_id
  else AppGenesisFromFile (Join home genesis_file).
