(* ===== verification/ExportProps.v ===== *)
(** What a zero-height export guarantees about the state it writes, and how the
    errors of its callbacks, and of closing its iterator, are lost. *)

From stdpp Require Import base list strings gmap.
From Stdlib Require Import ZArith Lia.
From S2P Require Import Prelude GoTime Sdk LockPb Testnet Modules App Export.

Local Open Scope Z_scope.

(** The tables the export rewrites, and what the keepers do to them: an iteration
    visits exactly the entries of its table, a setter writes one entry of its own
    table, updating the validator set touches no redelegation, and neither the
    distribution module nor the staking setters touch a signing info. *)
Class ExportLaws (X : Type) `{SdkTypes} `{ExportKeepers X} := {
  reds : X -> gmap bytes (list (Entry ERest));
  ubds : X -> gmap bytes (list (Entry ERest));
  infos : X -> gmap bytes (SigningInfo IRest);
  vals : X -> gmap bytes (ValidatorRec VRest);
  IterateRedelegations_spec x l :
    IterateRedelegations x = Ok l -> NoDup l.*1 /\ list_to_map l = reds x;
  IterateUnbondingDelegations_spec x l :
    IterateUnbondingDelegations x = Ok l -> NoDup l.*1 /\ list_to_map l = ubds x;
  IterateValidatorSigningInfos_spec x l :
    IterateValidatorSigningInfos x = Ok l -> NoDup l.*1 /\ list_to_map l = infos x;
  SetRedelegation_spec x k v x' :
    SetRedelegation x k v = Ok x' -> reds x' = <[k := v]> (reds x) /\ infos x' = infos x;
  SetUnbondingDelegation_spec x k v x' :
    SetUnbondingDelegation x k v = Ok x' ->
    ubds x' = <[k := v]> (ubds x) /\ reds x' = reds x /\ infos x' = infos x;
  SetValidatorSigningInfo_spec x k v x' :
    SetValidatorSigningInfo x k v = Ok x' ->
    infos x' = <[k := v]> (infos x) /\ reds x' = reds x /\ ubds x' = ubds x;
  exp_GetValidator_spec x a v :
    exp_GetValidator x a = Ok v ->
    vals x !! a = Some v /\ ValAddressFromBech32 (OperatorAddress v) = Ok a;
  exp_SetValidator_spec x v a x' :
    exp_SetValidator x v = Ok x' -> ValAddressFromBech32 (OperatorAddress v) = Ok a ->
    vals x' = <[a := v]> (vals x) /\ reds x' = reds x /\ ubds x' = ubds x /\ infos x' = infos x;
  ApplyUpdates_spec x x' :
    ApplyAndReturnValidatorSetUpdates x = Ok x' -> reds x' = reds x /\ ubds x' = ubds x;
  Withdraw_infos x v d :
    infos (WithdrawValidatorCommission x v) = infos x /\
    infos (WithdrawDelegationRewards x d v) = infos x;
  BeforeDelegationCreated_infos x d v x' :
    distr_BeforeDelegationCreated x d v = Ok x' -> infos x' = infos x;
  AfterDelegationModified_infos x d v x' :
    distr_AfterDelegationModified x d v = Ok x' -> infos x' = infos x;
  AfterValidatorCreated_infos h x v x' :
    distr_AfterValidatorCreated h x v = Ok x' -> infos x' = infos x;
  DeleteAll_infos x :
    infos (DeleteAllValidatorSlashEvents x) = infos x /\
    infos (DeleteAllValidatorHistoricalRewards x) = infos x;
  FeePool_Set_infos x p x' : FeePool_Set x p = Ok x' -> infos x' = infos x;
}.

(** * Tables written back entry by entry *)

(** Writing every entry of a table back through [f] maps [f] over it. *)
Lemma write_back_map {X K V} `{Countable K} (set : X -> K -> V -> outcome X) (view : X -> gmap K V)
    (f : V -> V) (items : list (K * V)) :
  (forall x k v x', set x k v = Ok x' -> view x' = <[k := v]> (view x)) ->
  NoDup items.*1 -> forall x x', write_back set f items x = Ok x' ->
  forall k, view x' !! k = match (list_to_map items : gmap K V) !! k with
                           | Some v => Some (f v)
                           | None => view x !! k
                           end.
Proof.
  intros L N. induction items as [|[k v] items IH]; intros x x' E k'; cbn [write_back] in E.
  - by injection E as <-.
  - apply NoDup_cons in N as [Nk N]. apply bind_Ok in E as (x1 & E1 & E). apply L in E1.
    rewrite (IH N _ _ E k'), E1.
    change (list_to_map ((k, v) :: items)) with (<[k := v]> (list_to_map items : gmap K V)).
    destruct (decide (k = k')) as [<-|NK].
    + rewrite (not_elem_of_list_to_map_1 items k Nk). by rewrite !lookup_insert_eq.
    + by rewrite !lookup_insert_ne.
Qed.

Lemma write_back_all {X K V} `{Countable K} (set : X -> K -> V -> outcome X) (view : X -> gmap K V)
    (f : V -> V) (items : list (K * V)) x x' :
  (forall x k v x', set x k v = Ok x' -> view x' = <[k := v]> (view x)) ->
  NoDup items.*1 -> list_to_map items = view x -> write_back set f items x = Ok x' ->
  view x' = f <$> view x.
Proof.
  intros L N I E. apply map_eq. intros k. rewrite lookup_fmap.
  rewrite (write_back_map set view f items L N x x' E k), I. by destruct (view x !! k).
Qed.

(** Writing back keeps whatever each write keeps. *)
Lemma write_back_keeps {X K V T} (set : X -> K -> V -> outcome X) (g : X -> T) (f : V -> V) items :
  (forall x k v x', set x k v = Ok x' -> g x' = g x) ->
  forall x x', write_back set f items x = Ok x' -> g x' = g x.
Proof.
  intros L. induction items as [|[k v] items IH]; intros x x' E; cbn [write_back] in E.
  - by injection E as <-.
  - apply bind_Ok in E as (x1 & E1 & E). rewrite (IH _ _ E). by eapply L.
Qed.

Section Props.
Context `{SdkTypes} {X : Type} `{!ExportKeepers X} `{!ExportLaws X}.

Definition zeroed (m : gmap bytes (list (Entry ERest))) : Prop :=
  map_Forall (fun _ es => Forall (fun e => CreationHeight e = 0) es) m.

Lemma zeroed_reset m : zeroed (reset_entries <$> m).
Proof.
  intros k es. rewrite lookup_fmap. intros (es0 & _ & ->)%fmap_Some_1.
  unfold reset_entries. apply Forall_forall. intros e (e0 & -> & _)%list_elem_of_fmap. done.
Qed.

Lemma reset_validators_keeps apply allowed addrs : forall x x',
  reset_validators apply allowed addrs x = Ok x' ->
  reds x' = reds x /\ ubds x' = ubds x /\ infos x' = infos x.
Proof.
  induction addrs as [|a addrs IH]; intros x x' E; cbn [reset_validators] in E.
  - by injection E as <-.
  - apply bind_Ok in E as (v & EV%wrap_err_Ok & E). apply bind_Ok in E as (x1 & E1 & E).
    apply exp_GetValidator_spec in EV as [_ EV].
    apply (exp_SetValidator_spec _ _ a) in E1 as (_ & R & U & I); [|done].
    apply IH in E as (-> & -> & ->). done.
Qed.

(** ** Signing infos before the slashing part *)

Lemma withdraw_commissions_infos vs : forall x, infos (withdraw_commissions x vs) = infos x.
Proof.
  unfold withdraw_commissions. induction vs as [|v vs IH]; intros x; cbn [foldl]; [done|].
  rewrite IH. apply (Withdraw_infos x _ []).
Qed.

Lemma withdraw_rewards_infos ds : forall x x', withdraw_rewards x ds = Ok x' -> infos x' = infos x.
Proof.
  induction ds as [|d ds IH]; intros x x' E; cbn [withdraw_rewards] in E; [by injection E as <-|].
  do 2 (apply bind_Ok in E as (? & _ & E)). rewrite (IH _ _ E). apply Withdraw_infos.
Qed.

Lemma reinit_delegations_infos ds : forall x x', reinit_delegations x ds = Ok x' -> infos x' = infos x.
Proof.
  induction ds as [|d ds IH]; intros x x' E; cbn [reinit_delegations] in E; [by injection E as <-|].
  do 2 (apply bind_Ok in E as (? & _ & E)). apply bind_Ok in E as (y1 & E1%must_Ok & E).
  apply bind_Ok in E as (y2 & E2%must_Ok & E). rewrite (IH _ _ E).
  rewrite (AfterDelegationModified_infos _ _ _ _ E2). by eapply BeforeDelegationCreated_infos.
Qed.

Lemma reinit_validator_infos x val x' stop :
  reinit_validator x val = Ok (x', stop) -> infos x' = infos x.
Proof.
  unfold reinit_validator, catch. intros E. repeat case_match; simplify_eq; try done.
  - erewrite AfterValidatorCreated_infos by done. by eapply FeePool_Set_infos.
  - by eapply FeePool_Set_infos.
Qed.

Lemma reinit_validators_infos vs : forall x x', reinit_validators x vs = Ok x' -> infos x' = infos x.
Proof.
  induction vs as [|v vs IH]; intros x x' E; cbn [reinit_validators] in E; [by injection E as <-|].
  apply bind_Ok in E as ([y stop] & E1 & E). apply reinit_validator_infos in E1.
  destruct stop; [by injection E as <-|]. by rewrite (IH _ _ E).
Qed.

(** What the preparation has done when the iterator over the validators is closed. *)
Lemma prep_staking_resets (x y : X) jailAllowedAddrs :
  prep_distribution_and_staking x jailAllowedAddrs = Ok y ->
  zeroed (reds y) /\ zeroed (ubds y) /\ infos y = infos x.
Proof.
  intros E. unfold prep_distribution_and_staking in E.
  do 3 (apply bind_Ok in E as (? & _ & E)). apply bind_Ok in E as (y0 & W & E).
  apply bind_Ok in E as (y1 & RD & E). apply bind_Ok in E as (? & _ & E).
  apply bind_Ok in E as (y1' & RV & E). apply bind_Ok in E as (rl & ER & E).
  apply bind_Ok in E as (y2 & WR & E). apply bind_Ok in E as (ul & EU & E).
  apply bind_Ok in E as (y3 & WU & E). apply reset_validators_keeps in E as (-> & -> & ->).
  apply IterateRedelegations_spec in ER as [NR MR].
  apply IterateUnbondingDelegations_spec in EU as [NU MU].
  pose proof (write_back_keeps _ infos _ _ (fun x k v x' E => proj2 (SetRedelegation_spec x k v x' E)) _ _ WR) as IR.
  pose proof (write_back_keeps _ infos _ _ (fun x k v x' E => proj2 (proj2 (SetUnbondingDelegation_spec x k v x' E))) _ _ WU) as IU.
  pose proof (write_back_keeps _ reds _ _ (fun x k v x' E => proj1 (proj2 (SetUnbondingDelegation_spec x k v x' E))) _ _ WU) as KU.
  apply (write_back_all _ reds) in WR; [|by intros ? ? ? ? [? _]%SetRedelegation_spec|done..].
  apply (write_back_all _ ubds) in WU; [|by intros ? ? ? ? [? _]%SetUnbondingDelegation_spec|done..].
  rewrite KU, WR, WU. split; [apply zeroed_reset|]. split; [apply zeroed_reset|].
  rewrite IU, IR, (reinit_validators_infos _ _ _ RV). destruct (DeleteAll_infos y1) as [S _].
  destruct (DeleteAll_infos (DeleteAllValidatorSlashEvents y1)) as [_ ->].
  by rewrite S, (reinit_delegations_infos _ _ _ RD), (withdraw_rewards_infos _ _ _ W), withdraw_commissions_infos.
Qed.

(** C37 When a zero-height export succeeds, every entry of every redelegation and
    unbonding delegation has creation height zero in the state that is exported.
    If the iterator over the validators was closed without an error, every signing
    info has start height zero too; if closing it failed, the export stopped there
    without reporting it, and every signing info still is as it was before. *)
Theorem zero_height_resets (x x' : X) (jailAllowedAddrs : list string) :
  prepForZeroHeightGenesis x jailAllowedAddrs = Ok x' ->
  zeroed (reds x') /\ zeroed (ubds x') /\
  exists y, prep_distribution_and_staking x jailAllowedAddrs = Ok y /\
    match iter_Close y with
    | None => map_Forall (fun _ i => StartHeight i = 0) (infos x')
    | Some _ => x' = y /\ infos x' = infos x
    end.
Proof.
  unfold prepForZeroHeightGenesis. intros (y & EY & E)%bind_Ok.
  pose proof (prep_staking_resets _ _ _ EY) as (ZR & ZU & I). destruct (iter_Close y) eqn:C.
  - injection E as <-. split; [done|]. split; [done|]. exists y. by rewrite C.
  - apply bind_Ok in E as (y5 & EA & E). apply bind_Ok in E as (il & EI & E).
    assert (ApplyAndReturnValidatorSetUpdates y = Ok y5) as [AR AU]%ApplyUpdates_spec
      by (by destruct (ApplyAndReturnValidatorSetUpdates y)).
    apply IterateValidatorSigningInfos_spec in EI as [NI MI].
    pose proof (write_back_keeps _ reds _ _ (fun x k v x' E => proj1 (proj2 (SetValidatorSigningInfo_spec x k v x' E))) _ _ E) as KR.
    pose proof (write_back_keeps _ ubds _ _ (fun x k v x' E => proj2 (proj2 (SetValidatorSigningInfo_spec x k v x' E))) _ _ E) as KU.
    apply (write_back_all _ infos) in E; [|by intros ? ? ? ? [? _]%SetValidatorSigningInfo_spec|done..].
    rewrite KR, KU, AR, AU. split; [done|]. split; [done|]. exists y. split; [done|]. rewrite C, E.
    intros k i. rewrite lookup_fmap. by intros (i0 & _ & ->)%fmap_Some_1.
Qed.

(** The loop over the validators sets every unbonding height to zero and, with an
    allow list, jails every validator that is not on it. *)
Lemma reset_validators_effect apply allowed addrs : forall x x',
  NoDup addrs -> reset_validators apply allowed addrs x = Ok x' ->
  (forall a, a ∉ addrs -> vals x' !! a = vals x !! a) /\
  forall a, a ∈ addrs -> exists v v', vals x !! a = Some v /\ vals x' !! a = Some v' /\
    v' = reset_validator apply allowed a v.
Proof.
  induction addrs as [|a addrs IH]; intros x x' N E; cbn [reset_validators] in E.
  - injection E as <-. split; [done|]. by intros a ?%elem_of_nil.
  - apply NoDup_cons in N as [Na N]. apply bind_Ok in E as (v & EV%wrap_err_Ok & E).
    apply bind_Ok in E as (x1 & E1 & E). apply exp_GetValidator_spec in EV as [EV EA].
    apply (exp_SetValidator_spec _ _ a) in E1 as (V1 & _ & _); [|done].
    destruct (IH _ _ N E) as [F G]. split.
    + intros b [Nb NB]%not_elem_of_cons. rewrite F by done. rewrite V1. by rewrite lookup_insert_ne.
    + intros b [->|B]%elem_of_cons.
      * exists v, (reset_validator apply allowed a v). split; [done|]. rewrite F by done. rewrite V1.
        by rewrite lookup_insert_eq.
      * destruct (G b B) as (v0 & v' & V0 & V' & ->). exists v0, (reset_validator apply allowed b v0).
        rewrite V1, lookup_insert_ne in V0 by (intros ->; done). done.
Qed.

(** When the distribution hook refuses the first validator, the others are never
    visited, and the export goes on without an error. *)
Lemma reinit_stops (x : X) val rest scraps pool x1 e :
  GetValidatorOutstandingRewardsCoins x (operator_bytes val) = Ok scraps ->
  FeePool_Get x = Ok pool -> FeePool_Set x (CommunityPool_Add pool scraps) = Ok x1 ->
  distr_AfterValidatorCreated 0 x1 (operator_bytes val) = Err e ->
  reinit_validators x (val :: rest) = Ok x1.
Proof.
  intros E1 E2 E3 E4. cbn [reinit_validators]. unfold reinit_validator.
  rewrite E1. cbn [catch]. rewrite E2. cbn [catch]. rewrite E3. cbn [catch]. by rewrite E4.
Qed.
End Props.

(** * A run *)

Module ExportToy.
Import Toy.

(** Validator addresses are written with a prefix, as in Bech32. *)
Definition toy_valoper (s : string) : outcome bytes :=
  match s with
  | String _ (String _ r) => if String.eqb r "" then Err (ExtErr "empty address") else Ok (bytes_of_string r)
  | _ => Err (ExtErr "empty address")
  end.

#[local] Instance export_types : SdkTypes := {
  AccAddressFromBech32 := toy_address;
  AccAddress_String := string_of_bytes;
  ValAddressFromBech32 := toy_valoper;
  ValidDenom := ValidDenom (SdkTypes := toy_types);
  NewCoin := NewCoin (SdkTypes := toy_types);
  NewCoins := NewCoins (SdkTypes := toy_types);
  Coins_AmountOf := Coins_AmountOf (SdkTypes := toy_types);
  Coin_String := Coin_String (SdkTypes := toy_types);
  AttributeKeyAmount := "amount";
  EventTypeDelegate := "delegate";
  AttributeKeyValidator := "validator";
  AttributeKeyDelegator := "delegator";
  AttributeKeyNewShares := "new_shares";
}.

Record Tables := MkTables {
  t_reds : gmap bytes (list (Entry unit));
  t_ubds : gmap bytes (list (Entry unit));
  t_infos : gmap bytes (SigningInfo unit);
  t_vals : gmap bytes (ValidatorRec unit);
  t_inits : list bytes;
  t_close : option error;
}.

#[local] Instance toy_export : ExportKeepers Tables := {
  ERest := unit; IRest := unit; VRest := unit; DecCoins := unit; FeePool := unit;
  IterateValidators x := Ok (map_to_list (t_vals x)).*2;
  GetAllDelegations x := Ok [];
  IterateRedelegations x := Ok (map_to_list (t_reds x));
  SetRedelegation x k v := Ok (MkTables (<[k := v]> (t_reds x)) (t_ubds x) (t_infos x) (t_vals x) (t_inits x) (t_close x));
  IterateUnbondingDelegations x := Ok (map_to_list (t_ubds x));
  SetUnbondingDelegation x k v :=
    Ok (MkTables (t_reds x) (<[k := v]> (t_ubds x)) (t_infos x) (t_vals x) (t_inits x) (t_close x));
  ValidatorKeys x := (map_to_list (t_vals x)).*1;
  iter_Close := t_close;
  exp_GetValidator x a :=
    match t_vals x !! a with
    | Some v => if decide (toy_valoper (OperatorAddress v) = Ok a) then Ok v else Err (ExtErr "corrupt")
    | None => Err (ExtErr "validator does not exist")
    end;
  exp_SetValidator x v :=
    a ← toy_valoper (OperatorAddress v);
    Ok (MkTables (t_reds x) (t_ubds x) (t_infos x) (<[a := v]> (t_vals x)) (t_inits x) (t_close x));
  ApplyAndReturnValidatorSetUpdates x := Ok x;
  ValAddress_String a := "v:" +:+ string_of_bytes a;
  WithdrawValidatorCommission x _ := x;
  WithdrawDelegationRewards x _ _ := x;
  distr_BeforeDelegationCreated x _ _ := Ok x;
  distr_AfterDelegationModified x _ _ := Ok x;
  distr_AfterValidatorCreated _ x a :=
    match t_vals x !! a with
    | Some _ => Ok (MkTables (t_reds x) (t_ubds x) (t_infos x) (t_vals x) (t_inits x ++ [a]) (t_close x))
    | None => Err (ExtErr "validator does not exist")
    end;
  DeleteAllValidatorSlashEvents x := x;
  DeleteAllValidatorHistoricalRewards x := x;
  GetValidatorOutstandingRewardsCoins x _ := Ok tt;
  FeePool_Get x := Ok tt;
  CommunityPool_Add p _ := p;
  FeePool_Set x _ := Ok x;
  IterateValidatorSigningInfos x := Ok (map_to_list (t_infos x));
  SetValidatorSigningInfo x k v :=
    Ok (MkTables (t_reds x) (t_ubds x) (<[k := v]> (t_infos x)) (t_vals x) (t_inits x) (t_close x));
}.

#[local] Instance toy_export_laws : ExportLaws Tables.
Proof.
  refine {| reds := (t_reds : Tables -> gmap bytes (list (Entry ERest)));
            ubds := (t_ubds : Tables -> gmap bytes (list (Entry ERest)));
            infos := (t_infos : Tables -> gmap bytes (SigningInfo IRest));
            vals := (t_vals : Tables -> gmap bytes (ValidatorRec VRest)) |}.
  - intros x l [= <-]. split; [apply NoDup_fst_map_to_list|apply list_to_map_to_list].
  - intros x l [= <-]. split; [apply NoDup_fst_map_to_list|apply list_to_map_to_list].
  - intros x l [= <-]. split; [apply NoDup_fst_map_to_list|apply list_to_map_to_list].
  - by intros x k v x' [= <-].
  - by intros x k v x' [= <-].
  - by intros x k v x' [= <-].
  - intros x a v. cbn. destruct (t_vals x !! a) as [w|]; [|done]. case_decide; [|done]. by intros [= ->].
  - intros x v a x' E A. cbn in E, A. rewrite A in E. by injection E as <-.
  - by intros x x' [= <-].
  - done.
  - by intros x d v x' [= <-].
  - by intros x d v x' [= <-].
  - intros h x v x'. cbn. destruct (t_vals x !! v); [|done]. by intros [= <-].
  - done.
  - by intros x p x' [= <-].
Defined.

Definition two_validators : gmap bytes (ValidatorRec unit) :=
  {[ bytes_of_string "a" := MkValidatorRec "v:a" 7 false tt;
     bytes_of_string "b" := MkValidatorRec "v:b" 9 false tt ]}.

Definition export_start : Tables :=
  MkTables {[ bytes_of_string "r" := [MkEntry 5 tt; MkEntry 6 tt] ]}
    {[ bytes_of_string "u" := [MkEntry 8 tt] ]} {[ bytes_of_string "s" := MkSigningInfo 4 tt ]}
    two_validators [] None.

Definition export_end : Tables :=
  MkTables {[ bytes_of_string "r" := [MkEntry 0 tt; MkEntry 0 tt] ]}
    {[ bytes_of_string "u" := [MkEntry 0 tt] ]} {[ bytes_of_string "s" := MkSigningInfo 0 tt ]}
    {[ bytes_of_string "a" := MkValidatorRec "v:a" 0 false tt;
       bytes_of_string "b" := MkValidatorRec "v:b" 0 true tt ]} [] None.

(** The export of two validators of which one is allowed: heights are reset and
    the other is jailed; the distribution state of neither is reinitialised,
    because the hook is called with the text of the operator address. *)
Lemma export_run : prepForZeroHeightGenesis export_start ["v:a"] = Ok export_end.
Proof. vm_compute. reflexivity. Qed.

Lemma zero_height_resets_witness :
  zeroed (reds export_end) /\ zeroed (ubds export_end) /\
  exists y, prep_distribution_and_staking export_start ["v:a"] = Ok y /\
    match iter_Close y with
    | None => map_Forall (fun _ i => StartHeight i = 0) (infos export_end)
    | Some _ => export_end = y /\ infos export_end = infos export_start
    end.
Proof. exact (zero_height_resets export_start export_end ["v:a"] export_run). Defined.

(** The same export when the iterator cannot be closed: it succeeds all the same,
    and the signing info keeps its start height. *)
Definition close_fails (x : Tables) : Tables :=
  MkTables (t_reds x) (t_ubds x) (t_infos x) (t_vals x) (t_inits x) (Some (ExtErr "close")).
Definition close_end : Tables :=
  MkTables (t_reds export_end) (t_ubds export_end) (t_infos export_start) (t_vals export_end) []
    (Some (ExtErr "close")).
Theorem zero_height_close_error :
  prepForZeroHeightGenesis (close_fails export_start) ["v:a"] = Ok close_end /\
  infos close_end = {[ bytes_of_string "s" := MkSigningInfo 4 tt ]}.
Proof. split; [vm_compute; reflexivity|reflexivity]. Qed.

(** No validator was reinitialised, and the export succeeded. *)
Theorem zero_height_skips_validators :
  exists x', prepForZeroHeightGenesis export_start ["v:a"] = Ok x' /\
    IterateValidators export_start = Ok [MkValidatorRec "v:b" 9 false tt; MkValidatorRec "v:a" 7 false tt] /\
    t_inits x' = [].
Proof. exists export_end. split; [exact export_run|]. split; vm_compute; reflexivity. Qed.
End ExportToy.

(** * Heights and chain ids *)

Section Command.
Context `{SdkTypes} {X : Type} `{!ExportKeepers X} {GS GV CP : Type}
  (ExportGenesisForModules : X -> list string -> outcome GS) (MarshalIndent : GS -> outcome bytes)
  (WriteValidators : X -> outcome GV) (GetConsensusParams : X -> CP)
  (LoadLatestVersion : outcome (X * Z)) (LoadVersion : Z -> outcome (X * Z)).

(** An export is made for the height after the last block, or for
    zero; the state of a given height is exported by an application configured
    with the EVM default chain id 262144, and only the export of the latest
    height runs with the chain's own id 87878. *)
Theorem export_height_and_chain_id home height zero jail mods app :
  appExport ExportGenesisForModules MarshalIndent WriteValidators GetConsensusParams
    LoadLatestVersion LoadVersion (Some home) true height zero jail mods = Ok app ->
  exists c, open_chain LoadLatestVersion LoadVersion height = Ok c /\
    Height app = (if zero then 0 else chain_height c + 1) /\
    chain_id c = (if height =? -1 then 87878 else 262144) /\ home <> "".
Proof.
  unfold appExport. destruct (String.eqb_spec home "") as [|N]; [done|]. cbn [negb].
  intros (c & EC & E)%bind_Ok. exists c. split; [done|].
  unfold ExportAppStateAndValidators in E. do 4 (apply bind_Ok in E as (? & _ & E)). injection E as <-.
  split; [done|]. split; [|done].
  unfold open_chain in EC. destruct (height =? -1);
    apply bind_Ok in EC as ([y h] & _ & EC); injection EC as <-; reflexivity.
Qed.
End Command.
