(* ===== verification/AppRuns.v ===== *)
(** The application's theorems applied to concrete wirings. *)

From stdpp Require Import base list strings gmap sorting.
From Stdlib Require Import Ascii ZArith Lia.
From S2P Require Import Prelude GoTime Sdk LockPb LockStore LockSpec LockupKeeper LockupMsgs LockupInv LockupProps LockupSystem Testnet LockupRuns Distro Precompile Modules App AppProps Export ExportProps StartupRuns.
Import Toy ToyNames.

Local Open Scope Z_scope.

(** * Names *)

Lemma module_orders_witness :
  runs_before OrderBeginBlockers "distribution" "slashing".
Proof.
  assert (NoDup all_names) as N by (apply (bool_decide_unpack _); vm_compute; exact I).
  apply (module_orders N).
Defined.

(** The distribution module's account is blocked and the governance account is
    not. *)
Example blocked_run :
  let b := BlockedAddresses ["0x0000000000000000000000000000000000000800"] bytes_of_string in
  b !! "module/distribution" = Some true /\ b !! "module/gov" = None /\
  b !! LockupPrecompileAddress = Some true.
Proof. vm_compute. auto. Qed.

(** * Hooks *)

Definition no_hooks : StakingHooks Net Z :=
  MkStakingHooks (fun _ _ => Ok tt) (fun _ _ => Ok tt) (fun _ _ _ => Ok tt) (fun _ _ _ => Ok tt)
    (fun _ _ _ => Ok tt) (fun _ _ _ => Ok tt) (fun _ _ _ => Ok tt) (fun _ _ _ => Ok tt)
    (fun _ _ _ => Ok tt) (fun _ _ _ => Ok tt) (fun _ _ => Ok tt).

Fixpoint all_ok {A} (f : A -> outcome unit) (l : list A) : outcome unit :=
  match l with [] => Ok tt | a :: l' => _ ← f a; all_ok f l' end.

Lemma all_ok_Forall {A} (f : A -> outcome unit) l :
  all_ok f l = Ok tt -> Forall (fun a => f a = Ok tt) l.
Proof.
  induction l as [|a l IH]; cbn [all_ok]; [constructor|].
  intros ([] & E & E')%bind_Ok. constructor; [done|by apply IH].
Qed.

Definition multi_hooks (hs : list (StakingHooks Net Z)) : StakingHooks Net Z :=
  MkStakingHooks (fun _ _ => Ok tt) (fun _ _ => Ok tt) (fun _ _ _ => Ok tt) (fun _ _ _ => Ok tt)
    (fun _ _ _ => Ok tt) (fun _ _ _ => Ok tt) (fun _ _ _ => Ok tt)
    (fun x d v => all_ok (fun h => hk_BeforeDelegationRemoved h x d v) hs)
    (fun x d v => all_ok (fun h => hk_AfterDelegationModified h x d v) hs)
    (fun _ _ _ => Ok tt) (fun _ _ => Ok tt).

#[local] Instance toy_hooks : AppHooks Net := {
  distr_Hooks := no_hooks;
  slashing_Hooks := no_hooks;
  NewMultiStakingHooks := multi_hooks;
  base_restriction x a b cs := Ok b;
  AppendSendRestriction r r' := fun x a b cs => to ← r x a b cs; r' x a to cs;
}.

#[local] Instance toy_hooks_laws : AppHooksLaws Net.
Proof.
  split.
  - intros hs x d v. apply (all_ok_Forall (fun h => hk_BeforeDelegationRemoved h x d v)).
  - intros hs x d v. apply (all_ok_Forall (fun h => hk_AfterDelegationModified h x d v)).
  - intros r r' x a b cs to (to' & E & E')%bind_Ok. by exists to'.
Qed.

Lemma app_enforces_locks_witness :
  hk_BeforeDelegationRemoved (app_staking_hooks run_ctx (w_store run_w1)) run_net alice
    (bytes_of_string "val2") = Ok tt /\
  (locked_on run_ctx [MkLock "2026-01-01" 300] = 0 \/
   exists rest, sum_delegations run_net ([run_del1] ++ []) 0 = Ok rest /\
     locked_on run_ctx [MkLock "2026-01-01" 300] <= rest).
Proof.
  assert (hk_BeforeDelegationRemoved (app_staking_hooks run_ctx (w_store run_w1)) run_net alice
    (bytes_of_string "val2") = Ok tt) as E by (vm_compute; reflexivity).
  split; [exact E|].
  destruct (app_enforces_locks run_ctx (w_store run_w1) run_net alice (bytes_of_string "val2")
    [MkLock "2026-01-01" 300] run_locks1 run_locks1_inv) as (R & _ & _);
    [vm_compute; reflexivity|vm_compute; reflexivity|].
  apply (proj2 (R E) run_del2 [run_del1] []); vm_compute; reflexivity.
Defined.

(** * The upgrade *)

#[local] Instance toy_defaults : Defaults := {
  EIP := Z; EvmRest := unit; Preinstalls := unit; BankRest := unit; MintRest := unit;
  StakingRest := unit; Erc20Genesis := unit;
  evm_DefaultGenesisState := MkEvmGenesis (MkEvmParams "aatom" None [] [] tt) tt;
  bank_DefaultGenesisState := MkBankGenesis [] tt;
  mint_DefaultGenesisState := MkDenomGenesis "stake" tt;
  staking_DefaultGenesisState := MkDenomGenesis "stake" tt;
  erc20_DefaultGenesisState := tt;
  AvailableStaticPrecompiles :=
    ["0x0000000000000000000000000000000000000A00"; "0x0000000000000000000000000000000000000800"];
  DefaultExtraEIPs := [3855];
  DefaultPreinstalls := tt;
}.

(** The state is the EVM parameters; an address is its lower case spelling, so that
    several spellings are one address. *)
Definition lower_char (c : ascii) : ascii :=
  if (65 <=? nat_of_ascii c)%nat && (nat_of_ascii c <=? 90)%nat
  then ascii_of_nat (nat_of_ascii c + 32) else c.
Fixpoint lower (s : string) : string :=
  match s with EmptyString => EmptyString | String c s => String (lower_char c) (lower s) end.

#[local] Instance toy_upgrade : UpgradeKeepers (EvmParams Z unit) := {
  VersionMap := unit;
  EthAddress := string;
  eth_HexToAddress := lower;
  eth_Hex a := a;
  SetDenomMetaData x _ := x;
  evm_GetParams x := x;
  evm_SetParams _ p := Ok (with_precompiles p (sort_Strings (ActiveStaticPrecompiles p)));
  InitEvmCoinInfo x := Ok x;
  EnableStaticPrecompiles x l :=
    if existsb (fun a => bool_decide (a ∈ ActiveStaticPrecompiles x)) l
    then Err (FmtErr "attempted to add a duplicate precompile to the list")
    else Ok (with_precompiles x (sort_Strings (sort_Strings (ActiveStaticPrecompiles x ++ l))));
  RunMigrations x v := Ok (x, v);
}.

Lemma lower_digits s : all_digits s = true -> lower s = s.
Proof.
  induction s as [|c s IH]; [done|]. cbn [all_digits lower]. intros [D A]%andb_true_iff.
  rewrite IH by done. unfold is_digit in D. apply andb_true_iff in D as [_ D%Nat.leb_le].
  unfold lower_char. rewrite (proj2 (Nat.leb_gt 65 _)) by lia. done.
Qed.

#[local] Instance toy_upgrade_laws : UpgradeLaws (EvmParams Z unit).
Proof.
  split; cbn [evm_SetParams evm_GetParams InitEvmCoinInfo EnableStaticPrecompiles eth_Hex
              eth_HexToAddress toy_upgrade].
  - by intros x p x' [= <-].
  - by intros x x' [= <-].
  - intros x l (a & A & E)%Exists_exists. rewrite (proj2 (existsb_exists _ l)); [eauto|].
    exists a. split; [by apply list_elem_of_In|by apply bool_decide_eq_true].
  - intros x l F. rewrite map_id. case_match eqn:B; [|done]. exfalso.
    apply existsb_exists in B as (a & A & E). apply list_elem_of_In in A. rewrite Forall_forall in F.
    apply bool_decide_eq_true in E. by apply (F a).
  - intros hex D. unfold digits_address in D. repeat case_match; try done. subst.
    apply andb_true_iff in D as [_ D]. cbn [lower]. by rewrite lower_digits.
Qed.

Definition old_params : EvmParams Z unit := MkEvmParams "aTSC" None ["garbage"] [] tt.

Lemma upgrade_matches_genesis_witness :
  exists x', upgrade_prepare old_params = Ok x' /\
    ActiveStaticPrecompiles x' = ActiveStaticPrecompiles (evm_Params NewEVMGenesisState).
Proof.
  eexists. split; [reflexivity|].
  refine (proj1 (proj2 (proj2 (upgrade_matches_genesis old_params _ _)))). reflexivity.
Defined.

(** * Exporting the lockup module *)

#[local] Instance lockup_json : JSONCodec LockupModule.GenesisState := {
  MarshalJSON _ := Ok (bytes_of_string "{}");
  UnmarshalJSON _ := Ok LockupModule.MkGenesisState;
}.

#[local] Instance lockup_json_laws : JSONCodecLaws LockupModule.GenesisState.
Proof. split. by intros [] bz _. Qed.

(** Bob has a lock in the exporting chain and none in the chain started from the
    exported genesis. *)
Theorem lockup_export_drops_locks :
  exists message s',
    LockupModule.ExportGenesis (w_store run_w3) = Ok message /\
    LockupModule.InitGenesis (∅ : gmap bytes bytes) message = Ok s' /\
    GetLocksByAddress (w_store run_w3) bob = Ok [MkLock "2027-06-15" 200] /\
    GetLocksByAddress s' bob = Ok [].
Proof.
  exists (bytes_of_string "{}"), ∅. split; [reflexivity|]. split; [reflexivity|].
  split; vm_compute; reflexivity.
Qed.

(** * The export command *)

Lemma export_height_and_chain_id_witness :
  exists app c,
    appExport (H := ExportToy.export_types) (H0 := ExportToy.toy_export)
      (fun _ _ => Ok tt) (fun _ => Ok []) (fun _ => Ok tt) (fun _ => tt)
      (Ok (ExportToy.export_start, 41)) (fun h => Ok (ExportToy.export_start, h))
      (Some "/home/tsc") true 12 false [] [] = Ok app /\
    open_chain (Ok (ExportToy.export_start, 41)) (fun h => Ok (ExportToy.export_start, h)) 12 = Ok c /\
    Height app = 13 /\ chain_id c = 262144.
Proof.
  destruct (export_height_and_chain_id (H := ExportToy.export_types) (ExportKeepers0 := ExportToy.toy_export)
    (fun _ _ => Ok tt) (fun _ => Ok []) (fun _ => Ok tt) (fun _ => tt)
    (Ok (ExportToy.export_start, 41)) (fun h => Ok (ExportToy.export_start, h))
    "/home/tsc" 12 false [] [] (MkExportedApp [] tt 13 tt) eq_refl) as (c & E & Hh & C & _).
  exists (MkExportedApp [] tt 13 tt), c. split; [reflexivity|]. split; [exact E|]. split; [reflexivity|exact C].
Defined.
