(* ===== verification/Delivery.v ===== *)
(** A transaction on its way through the application: the ante handler of app/ante,
    then its messages, the lockup module's by their handlers; and what the checks of
    the module together guarantee, that what an account has locked stays covered by
    what it has delegated.  The base application, which runs transactions, and the
    messages of other modules are parameters. *)

From stdpp Require Import base list strings gmap relations.
From Stdlib Require Import ZArith Lia.
From S2P Require Import Prelude GoTime Sdk LockPb LockStore LockSpec LockupKeeper LockupMsgs LockupInv LockupProps LockupSystem Ante Cli Distro Modules App.

Local Open Scope Z_scope.

(** * The context after the ante handler *)

(** A decorator that hands on the block time and the marked pairs. *)
Definition transparent (d : AnteDecorator) : Prop :=
  forall ctx tx sim next r, d ctx tx sim next = Ok r ->
    exists ctx1 sim1, BlockTime ctx1 = BlockTime ctx /\ redelegating ctx1 = redelegating ctx /\
      next ctx1 tx sim1 = Ok r.

(** The decorators of the SDK, of the EVM module and of IBC are; an empty chain
    returns its context. *)
Class AnteContextLaws `{AnteEnv} : Prop := {
  ChainAnteDecorators_nil ctx tx sim : ChainAnteDecorators [] ctx tx sim = Ok ctx;
  RejectMessages_transparent : transparent NewRejectMessagesDecorator;
  AuthzLimiter_transparent urls : transparent (NewAuthzLimiterDecorator urls);
  SetUpContext_transparent : transparent NewSetUpContextDecorator;
  ExtensionOptions_transparent o : transparent (NewExtensionOptionsDecorator o);
  ValidateBasic_transparent : transparent NewValidateBasicDecorator;
  TxTimeoutHeight_transparent : transparent NewTxTimeoutHeightDecorator;
  ValidateMemo_transparent ak : transparent (NewValidateMemoDecorator ak);
  MinGasPrice_transparent p : transparent (NewMinGasPriceDecorator p);
  ConsumeGasForTxSize_transparent ak : transparent (NewConsumeGasForTxSizeDecorator ak);
  DeductFee_transparent ak bk fk c : transparent (NewDeductFeeDecorator ak bk fk c);
  SetPubKey_transparent ak : transparent (NewSetPubKeyDecorator ak);
  ValidateSigCount_transparent ak : transparent (NewValidateSigCountDecorator ak);
  SigGasConsume_transparent ak c : transparent (NewSigGasConsumeDecorator ak c);
  SigVerification_transparent ak h : transparent (NewSigVerificationDecorator ak h);
  IncrementSequence_transparent ak : transparent (NewIncrementSequenceDecorator ak);
  RedundantRelay_transparent k : transparent (NewRedundantRelayDecorator k);
  EVMMono_transparent ak fk ek g ep fp : transparent (NewEVMMonoDecorator ak fk ek g ep fp);
  TxListener_transparent l : transparent (NewTxListenerDecorator l);
}.

Create HintDb ante_ctx.
#[export] Hint Resolve RejectMessages_transparent AuthzLimiter_transparent SetUpContext_transparent
  ExtensionOptions_transparent ValidateBasic_transparent TxTimeoutHeight_transparent
  ValidateMemo_transparent MinGasPrice_transparent ConsumeGasForTxSize_transparent
  DeductFee_transparent SetPubKey_transparent ValidateSigCount_transparent
  SigGasConsume_transparent SigVerification_transparent IncrementSequence_transparent
  RedundantRelay_transparent EVMMono_transparent TxListener_transparent : ante_ctx.

Section AnteContext.
Context `{SdkTypes} `{AnteLaws} `{!AnteContextLaws}.

Lemma chain_transparent ds :
  Forall transparent ds -> forall ctx tx sim r, ChainAnteDecorators ds ctx tx sim = Ok r ->
    BlockTime r = BlockTime ctx /\ redelegating r = redelegating ctx.
Proof.
  induction 1 as [|d ds T _ IH]; intros ctx tx sim r E.
  - rewrite ChainAnteDecorators_nil in E. by injection E as <-.
  - rewrite ChainAnteDecorators_cons in E. apply T in E as (ctx1 & sim1 & <- & <- & E). by eapply IH.
Qed.

Ltac transparent_chain := repeat (apply Forall_cons; split; [auto with ante_ctx|]); by apply Forall_nil.

Lemma cosmos_chain_context n (options : HandlerOptions) ctx h tx sim r d v :
  delegators_of_length n (tx_msgs tx) -> length d = n ->
  newCosmosAnteHandler ctx options = Ok h -> h ctx tx sim = Ok r ->
  BlockTime r = BlockTime ctx /\
  (isRedelegating r d v = true -> isRedelegating ctx d v = true \/ redelegates (tx_msgs tx) d v).
Proof.
  intros L D E Eh. unfold newCosmosAnteHandler in E. apply bind_Ok in E as (fmk & _ & E). injection E as <-.
  rewrite ChainAnteDecorators_cons in Eh. unfold RedelegationMarkerDecorator_AnteHandle in Eh.
  apply bind_Ok in Eh as (ctx1 & M & Eh). apply chain_transparent in Eh as [T R]; [|transparent_chain].
  pose proof (mark_redelegations_time _ _ _ M). split; [congruence|].
  unfold isRedelegating at 1. rewrite R. by apply (mark_redelegations_marks n _ _ _ _ _ L D M).
Qed.

(** Whatever chain it ran, an accepting ante handler leaves the block time, and marks
    only pairs the transaction redelegates from. *)
Lemma NewAnteHandler_context n (options : HandlerOptions) ctx tx sim r d v :
  delegators_of_length n (tx_msgs tx) -> length d = n -> NewAnteHandler options ctx tx sim = Ok r ->
  BlockTime r = BlockTime ctx /\
  (isRedelegating r d v = true -> isRedelegating ctx d v = true \/ redelegates (tx_msgs tx) d v).
Proof.
  intros L D E. unfold NewAnteHandler in E.
  destruct (tx_ext tx) as [[|url urls]|]; [|case_match; [|case_match; [|done]]|];
    apply bind_Ok in E as (h & Eh & E); try by eapply cosmos_chain_context.
  unfold newMonoEVMAnteHandler in Eh. apply bind_Ok in Eh as (ek & _ & Eh).
  apply bind_Ok in Eh as (fmk & _ & Eh). injection Eh as <-.
  apply chain_transparent in E as [T R]; [|transparent_chain].
  split; [done|]. unfold isRedelegating at 1. rewrite R. by left.
Qed.
End AnteContext.

(** * Messages of a transaction *)

(** The messages of other modules: what the redelegation marker sees of one, the
    MsgExtends one may carry (as an authz MsgExec does), and its handler. *)
Class OtherMessages (S X : Type) := {
  OtherTxMsg : Type;
  other_view : OtherTxMsg -> Msg;
  other_extends : OtherTxMsg -> MsgExtend -> Prop;
  other_ValidateBasic : OtherTxMsg -> outcome unit;
  other_handler : Ctx -> World S X -> OtherTxMsg -> outcome (World S X);
}.

Inductive TxMsg (S X : Type) `{OtherMessages S X} :=
  | LockupTx (m : LockupMsg)
  | OtherTx (m : OtherTxMsg).
Arguments LockupTx {S X _} m.
Arguments OtherTx {S X _} m.

(** [dtx_ext] are the extension options. *)
Record DeliverTx (S X : Type) `{OtherMessages S X} := MkDeliverTx {
  dtx_msgs : list (TxMsg S X);
  dtx_ext : option (list string);
}.
Arguments MkDeliverTx {S X _}.
Arguments dtx_msgs {S X _}.
Arguments dtx_ext {S X _}.

Section Messages.
Context `{SdkMath} `{SdkTypes} {S : Type} `{KVStore S} {X : Type} `{AccountKeeper X}
  `{StakingKeeper X} `{BankKeeper X} `{OtherMessages S X}.

(** [sdk.MsgTypeURL]. *)
Definition LockupMsg_TypeURL (m : LockupMsg) : string :=
  match m with
  | SubmitLock _ => "/lockup.v1.MsgLock"
  | SubmitExtend _ => "/lockup.v1.MsgExtend"
  | SubmitSend _ => "/lockup.v1.MsgSendDelegateAndLock"
  | SubmitMulti _ => "/lockup.v1.MsgMultiSendDelegateAndLock"
  end.

Definition LockupMsg_ValidateBasic (m : LockupMsg) : outcome unit :=
  match m with
  | SubmitLock msg => MsgLock_ValidateBasic msg
  | SubmitExtend msg => MsgExtend_ValidateBasic msg
  | SubmitSend msg => MsgSendDelegateAndLock_ValidateBasic msg
  | SubmitMulti msg => MsgMultiSendDelegateAndLock_ValidateBasic msg
  end.

Definition LockupMsg_handler (ctx : Ctx) (w : World S X) (m : LockupMsg) : outcome (World S X) :=
  match m with
  | SubmitLock msg => MsgServer_Lock ctx w msg
  | SubmitExtend msg => Extend ctx w msg
  | SubmitSend msg => SendDelegateAndLock ctx w msg
  | SubmitMulti msg => MultiSendDelegateAndLock ctx w msg
  end.

Definition TxMsg_view (m : TxMsg S X) : Msg :=
  match m with LockupTx m => OtherMsg (LockupMsg_TypeURL m) | OtherTx m => other_view m end.
Definition TxMsg_ValidateBasic (m : TxMsg S X) : outcome unit :=
  match m with LockupTx m => LockupMsg_ValidateBasic m | OtherTx m => other_ValidateBasic m end.
Definition TxMsg_handler (ctx : Ctx) (w : World S X) (m : TxMsg S X) : outcome (World S X) :=
  match m with LockupTx m => LockupMsg_handler ctx w m | OtherTx m => other_handler ctx w m end.

(** The MsgExtends of a message. *)
Definition TxMsg_extends (m : TxMsg S X) (e : MsgExtend) : Prop :=
  match m with LockupTx m => m = SubmitExtend e | OtherTx m => other_extends m e end.

Definition ante_view (tx : DeliverTx S X) : Tx := MkTx (map TxMsg_view (dtx_msgs tx)) (dtx_ext tx).

(** The messages in order, each on what the one before it left. *)
Fixpoint deliver_msgs {M} (handler : Ctx -> World S X -> M -> outcome (World S X)) (ctx : Ctx)
    (w : World S X) (ms : list M) : outcome (World S X) :=
  match ms with
  | [] => Ok w
  | m :: ms' => w' ← handler ctx w m; deliver_msgs handler ctx w' ms'
  end.
End Messages.

(** [baseapp.BaseApp]: runs a transaction with the ante handler, the validation and
    the message handlers it was given; the state after it, and its result. *)
Class BaseApp (S X : Type) `{OtherMessages S X} := {
  runTx : AnteHandler -> (TxMsg S X -> outcome unit) ->
    (Ctx -> World S X -> TxMsg S X -> outcome (World S X)) ->
    Ctx -> World S X -> DeliverTx S X -> World S X * outcome unit;
}.

Section Deliver.
Context `{SdkMath} `{SdkTypes} {S : Type} `{KVStore S} {X : Type} `{AccountKeeper X}
  `{StakingKeeper X} `{BankKeeper X} `{AnteEnv} `{!OtherMessages S X} `{!BaseApp S X}.

(** The transaction on the application, whose ante handler [setAnteHandler] built from
    [options]. *)
Definition app_deliver (options : HandlerOptions) (ctx : Ctx) (w : World S X) (tx : DeliverTx S X)
    : World S X * outcome unit :=
  runTx (NewAnteHandler options) TxMsg_ValidateBasic TxMsg_handler ctx w tx.
End Deliver.

(** * What other code does to delegations *)

Section Delegated.
Context `{SdkMath} `{SdkTypes} {S : Type} `{!KVStore S} {X : Type} `{!AccountKeeper X}
  `{!StakingKeeper X} `{!StakingLaws X} `{!BankKeeper X} `{!AppHooks X} `{!OtherMessages S X}
  `{!BaseApp S X}.

(** In [x'] the account has no less delegated than in [x]. *)
Definition delegates_no_less (x x' : X) (a : bytes) : Prop :=
  forall D', GetTotalDelegatedAmount x' a = Ok D' ->
    exists D, GetTotalDelegatedAmount x a = Ok D /\ D <= D'.

(** Whatever lowers what the account has delegated ends with a staking hook: after a
    delegation changed, or before one is removed, which leaves the others. *)
Definition hooked (h : StakingHooks X Dec) (x x' : X) (a : bytes) : Prop :=
  delegates_no_less x x' a \/
  (exists v x1, hk_AfterDelegationModified h x1 a v = Ok tt /\ delegates_no_less x1 x' a) \/
  (exists v x1 d pre post, hk_BeforeDelegationRemoved h x1 a v = Ok tt /\
     GetDelegation x1 a v = Ok d /\ all_delegations x1 a = pre ++ d :: post /\
     forall rest D', sum_delegations x1 (pre ++ post) 0 = Ok rest ->
       GetTotalDelegatedAmount x' a = Ok D' -> rest <= D').

(** What happens to the world while a message is handled in [ctx]: a handler of the
    lockup module succeeds, or other modules act under the hooks the application
    registered. *)
Inductive op (ctx : Ctx) (extends : MsgExtend -> Prop) : World S X -> World S X -> Prop :=
  | op_lock w w' msg : MsgServer_Lock ctx w msg = Ok w' -> op ctx extends w w'
  | op_extend w w' msg : extends msg -> MsgExtend_ValidateBasic msg = Ok tt ->
      Extend ctx w msg = Ok w' -> op ctx extends w w'
  | op_send w w' msg : SendDelegateAndLock ctx w msg = Ok w' -> op ctx extends w w'
  | op_multi w w' msg : MultiSendDelegateAndLock ctx w msg = Ok w' -> op ctx extends w w'
  | op_other w w' : w_store w' = w_store w ->
      (forall a, hooked (app_staking_hooks ctx (w_store w)) (w_ext w) (w_ext w') a) -> op ctx extends w w'.

(** Transfers leave delegations alone, and delegating lowers nobody's.  Other modules
    reach the lockup module's store only through its messages.  The base application
    validates the messages and runs the ante handler, which at most takes fees, then
    the messages in the context it returned; a transaction that fails leaves the
    lockup module's store and what is delegated. *)
Class DeliveryLaws : Prop := {
  SendCoins_delegations r x a b cs x' :
    SendCoins r x a b cs = Ok x' -> forall c, delegates_no_less x x' c;
  Delegate_delegations h x a n st v b x' sh :
    0 < n -> Delegate h x a n st v b = Ok (x', sh) -> forall c, delegates_no_less x x' c;
  other_handler_ops ctx w m w' :
    other_handler ctx w m = Ok w' -> rtc (op ctx (other_extends m)) w w';
  runTx_Ok ah vb h ctx w tx w' :
    runTx ah vb h ctx w tx = (w', Ok tt) ->
    Forall (fun m => vb m = Ok tt) (dtx_msgs tx) /\
    exists ctx' w1, ah ctx (ante_view tx) false = Ok ctx' /\ w_store w1 = w_store w /\
      (forall a, delegates_no_less (w_ext w) (w_ext w1) a) /\
      deliver_msgs h ctx' w1 (dtx_msgs tx) = Ok w';
  runTx_failed ah vb h ctx w tx w' r :
    runTx ah vb h ctx w tx = (w', r) -> r <> Ok tt ->
    w_store w' = w_store w /\ forall a, delegates_no_less (w_ext w) (w_ext w') a;
}.

Lemma delegates_no_less_refl x a : delegates_no_less x x a.
Proof. intros D E. by exists D. Qed.
Lemma delegates_no_less_trans x1 x2 x3 a :
  delegates_no_less x1 x2 a -> delegates_no_less x2 x3 a -> delegates_no_less x1 x3 a.
Proof. intros A B D E. apply B in E as (D2 & E & L2). apply A in E as (D1 & E & L1). exists D1. split; [done|lia]. Qed.
End Delegated.

(** * Locks stay covered *)

Section Covered.
Context `{SdkMathLaws} `{!SdkTypes} `{!SdkCoinLaws} {S : Type} `{!KVStore S} `{!KVStoreLaws S}
  {X : Type} `{!AccountKeeper X} `{!StakingKeeper X} `{!StakingLaws X} `{!BankKeeper X} `{!BankLaws X}
  `{!AppHooks X} `{!AppHooksLaws X} `{!OtherMessages S X} `{!BaseApp S X} `{!DeliveryLaws}.

(** What the account has locked on the day of the block is delegated. *)
Definition covered (ctx : Ctx) (w : World S X) (a : bytes) : Prop :=
  forall ls D, locks_rel (kv_view (w_store w)) a ls -> GetTotalDelegatedAmount (w_ext w) a = Ok D ->
    locked_on ctx ls <= D.

Lemma locked_on_rows (ctx : Ctx) m m' f g a ls ls' :
  represents m f -> represents m' g -> (forall d, g a d = f a d) ->
  locks_rel m a ls -> locks_rel m' a ls' -> locked_on ctx ls' = locked_on ctx ls.
Proof.
  intros [I F] [I' G] E R R'.
  destruct (inv_locks _ I a) as (k & K & W), (inv_locks _ I' a) as (k' & K' & W').
  rewrite (locks_rel_fun _ _ _ _ R K), (locks_rel_fun _ _ _ _ R' K').
  apply amount_of_rows; [done..|]. intros d. by rewrite (G _ _ _ K'), (F _ _ _ K).
Qed.

(** Neither more locked nor less delegated. *)
Lemma covered_kept (ctx : Ctx) (w w' : World S X) f g a :
  represents (kv_view (w_store w)) f -> represents (kv_view (w_store w')) g ->
  (forall d, g a d = f a d) -> delegates_no_less (w_ext w) (w_ext w') a ->
  covered ctx w a -> covered ctx w' a.
Proof.
  intros R R' E N C ls' D' L' ED'. destruct (N _ ED') as (D & ED & LD).
  destruct (inv_locks _ (proj1 R) a) as (ls & L & _).
  rewrite (locked_on_rows ctx _ _ _ _ _ _ _ R R' E L L'). pose proof (C _ _ L ED). lia.
Qed.

Definition state_ok (ctx : Ctx) (a : bytes) (w : World S X) : Prop :=
  (exists f, represents (kv_view (w_store w)) f) /\ covered ctx w a.

Lemma state_ok_store (ctx : Ctx) a (w w' : World S X) :
  w_store w' = w_store w -> delegates_no_less (w_ext w) (w_ext w') a ->
  state_ok ctx a w -> state_ok ctx a w'.
Proof.
  intros Es N [[f R] C]. assert (represents (kv_view (w_store w')) f) as R' by (by rewrite Es).
  split; [by exists f|]. by eapply (covered_kept ctx w w' f f).
Qed.

Lemma state_ok_lock (ctx : Ctx) a (w w' : World S X) msg :
  0 <= BlockTime ctx -> MsgServer_Lock ctx w msg = Ok w' -> state_ok ctx a w -> state_ok ctx a w'.
Proof.
  intros T E [[f R] C].
  destruct (MsgServer_Lock_effect _ _ _ _ _ R T E) as (addr & t & D & _ & _ & _ & _ & R' & Ex & ED & L).
  split; [eauto|]. destruct (decide (a = addr)) as [->|N].
  - intros ls D' Ls ED'. rewrite ED in ED'. injection ED' as <-. by apply L.
  - eapply (covered_kept ctx w w'); [exact R|exact R'| | |done].
    + intros d. by apply ledger_add_other.
    + rewrite Ex. apply delegates_no_less_refl.
Qed.

Lemma state_ok_send (ctx : Ctx) a (w w' : World S X) msg :
  0 <= BlockTime ctx -> SendDelegateAndLock ctx w msg = Ok w' -> state_ok ctx a w -> state_ok ctx a w'.
Proof.
  intros T E C. apply SendDelegateAndLock_Ok in E
    as (from & to & coins & x1 & v & x2 & sh & w1 & A & _ & _ & _ & _ & ES & ED & Es & Ex & EL).
  eapply state_ok_lock; [done|exact EL|]. eapply state_ok_store; [exact Es| |exact C]. rewrite Ex.
  eapply delegates_no_less_trans; [by eapply SendCoins_delegations|by eapply Delegate_delegations].
Qed.

Lemma state_ok_outputs (ctx : Ctx) a from outs :
  0 <= BlockTime ctx -> forall w w' : World S X,
  send_outputs ctx w from outs = Ok w' -> state_ok ctx a w -> state_ok ctx a w'.
Proof.
  intros T. induction outs as [|[o|] outs IH]; intros w w' E C; cbn [send_outputs] in E; [|
    apply bind_Ok in E as (w1 & E1 & E)|done].
  - by injection E as <-.
  - eapply IH; [exact E|]. by eapply state_ok_send.
Qed.

(** The dates a MsgExtend of the account takes from are still locked. *)
Definition extends_unexpired (ctx : Ctx) (a : bytes) (msg : MsgExtend) : Prop :=
  AccAddressFromBech32 (MsgExtend_Address msg) = Ok a ->
  Forall (fun e => forall ext, e = Some ext ->
    IsLocked (midnight (BlockTime ctx)) (Extension_FromDate ext) = true) (MsgExtend_Extensions msg).

(** Extending from dates that are still locked keeps what is locked; another
    account's locks are not touched. *)
Lemma extend_loop_locked (ctx : Ctx) (x : X) name addr a es :
  0 <= BlockTime ctx -> validate_extensions es = Ok tt ->
  (addr = a -> Forall (fun e => forall ext, e = Some ext ->
     IsLocked (midnight (BlockTime ctx)) (Extension_FromDate ext) = true) es) ->
  forall (s s' : S) evs evs' f ls, represents (kv_view s) f -> locks_rel (kv_view s) a ls ->
  extend_loop ctx s x name addr es evs = Ok (s', evs') ->
  exists g ls', represents (kv_view s') g /\ locks_rel (kv_view s') a ls' /\
    locked_on ctx ls' = locked_on ctx ls.
Proof.
  intros T. induction es as [|e es IH]; intros V U s s' evs evs' f ls R L E.
  - cbn [extend_loop] in E. injection E as <- <-. eauto.
  - apply validate_extensions_cons in V as (ext & -> & A & V). cbn [extend_loop] in E.
    apply bind_Ok in E as ([s1 ev] & E1 & E).
    destruct (extend_one_effect _ _ _ _ _ _ _ _ _ R T A E1)
      as (g & t & M & R1 & _ & _ & ls0 & ls1 & L0 & L1 & _ & K).
    assert (exists ls2, locks_rel (kv_view s1) a ls2 /\ locked_on ctx ls2 = locked_on ctx ls)
      as (ls2 & L2 & E2).
    { destruct (decide (addr = a)) as [->|N].
      - exists ls1. split; [done|]. rewrite K by (by apply Forall_cons in U as [-> _]).
        by rewrite (locks_rel_fun _ _ _ _ L L0).
      - destruct (inv_locks _ (proj1 R1) a) as (ls2 & L2 & _). exists ls2. split; [done|].
        eapply (locked_on_rows ctx _ _ f g); [done..| |done|done]. intros d. unfold ledger_move in M.
        case_match; [|done]. injection M as <-. by rewrite !ledger_add_other. }
    rewrite <- E2. eapply (IH V); [|exact R1|exact L2|exact E].
    intros Ea. by apply U, Forall_cons in Ea as [_ ?].
Qed.

Lemma state_ok_extend (ctx : Ctx) a (w w' : World S X) msg :
  0 <= BlockTime ctx -> MsgExtend_ValidateBasic msg = Ok tt -> extends_unexpired ctx a msg ->
  Extend ctx w msg = Ok w' -> state_ok ctx a w -> state_ok ctx a w'.
Proof.
  intros T V%MsgExtend_ValidateBasic_Ok U (addr & evs & EA & _ & EL & EX & _)%Extend_Ok [[f R] C].
  destruct (inv_locks _ (proj1 R) a) as (ls & L & _).
  destruct (extend_loop_locked ctx (w_ext w) _ addr a _ T V ltac:(intros ->; by apply U) _ _ _ _ _ _ R L EL)
    as (g & ls' & R' & L' & E).
  split; [by exists g|]. intros k D K ED. rewrite EX in ED.
  rewrite (locks_rel_fun _ _ _ _ K L'), E. by apply C.
Qed.

(** An account's total, as the sum of the tokens of its delegations. *)
Lemma total_nonneg (x : X) a D : GetTotalDelegatedAmount x a = Ok D -> 0 <= D.
Proof. intros E. by apply GetTotalDelegatedAmount_nonneg in E as [? _]. Qed.

Lemma locked_on_range (ctx : Ctx) (s : S) a ls t :
  locks_rel (kv_view s) a ls -> GetLockedAmountByAddress ctx s a = Ok t ->
  t = locked_on ctx ls /\ int_ok t = true.
Proof.
  intros L E. split; [by eapply GetLockedAmount_Ok|]. unfold GetLockedAmountByAddress in E.
  rewrite (proj2 (GetLocksByAddress_iff _ _ _) L) in E. cbn [mbind outcome_bind] in E.
  assert (forall acc, int_ok acc = true -> sum_locked (midnight (BlockTime ctx)) ls acc = Ok t ->
    int_ok t = true) as I; [|by apply (I 0)].
  clear L E. induction ls as [|l ls IH]; intros acc A E; cbn [sum_locked] in E; [by injection E as <-|].
  case_match; [|by eapply IH]. apply bind_Ok in E as (acc' & E1 & E). int_facts. by eapply IH.
Qed.

(** What a hook of the lockup module that accepted shows, for a pair that is not
    marked. *)
Lemma modified_covers (ctx : Ctx) (s : S) (x : X) a v ls D :
  locks_rel (kv_view s) a ls -> isRedelegating ctx a v = false ->
  AfterDelegationModified ctx s x a v = Ok tt -> GetTotalDelegatedAmount x a = Ok D ->
  locked_on ctx ls <= D.
Proof.
  intros L M E ED. pose proof (total_nonneg _ _ _ ED). unfold AfterDelegationModified, checkLockupInvariant,
    checkLockupInvariantExcluding in E. rewrite M in E.
  apply bind_Ok in E as (t & Et & E). apply (locked_on_range _ _ _ _ _ L) in Et as [-> _].
  destruct (Z.eqb_spec (locked_on ctx ls) 0); [lia|]. rewrite ED in E. cbn [mbind outcome_bind] in E.
  by destruct (Z.ltb_spec D (locked_on ctx ls)).
Qed.

Lemma removed_covers (ctx : Ctx) (s : S) (x : X) a v d pre post ls :
  locks_rel (kv_view s) a ls -> locks_inv ls -> isRedelegating ctx a v = false ->
  BeforeDelegationRemoved ctx s x a v = Ok tt -> GetDelegation x a v = Ok d ->
  all_delegations x a = pre ++ d :: post ->
  locked_on ctx ls = 0 \/
  exists rest, sum_delegations x (pre ++ post) 0 = Ok rest /\ locked_on ctx ls <= rest.
Proof.
  intros L W M E G A. assert (E' := E).
  unfold BeforeDelegationRemoved, checkLockupInvariantExcluding in E'. rewrite M in E'.
  apply bind_Ok in E' as (t & Et & E'). destruct (locked_on_range _ _ _ _ _ L Et) as [-> I].
  destruct (Z.eqb_spec (locked_on ctx ls) 0); [by left|]. apply bind_Ok in E' as (D & ED & _).
  eapply removal_covers; try done.
  destruct (Z.lt_ge_cases (zlen (all_delegations x a)) 100) as [|N]; [done|].
  by apply total_delegated_stuck in ED.
Qed.

Lemma state_ok_other (ctx : Ctx) a (w w' : World S X) :
  (forall v, isRedelegating ctx a v = false) -> w_store w' = w_store w ->
  hooked (app_staking_hooks ctx (w_store w)) (w_ext w) (w_ext w') a ->
  state_ok ctx a w -> state_ok ctx a w'.
Proof.
  intros M Es Hk C. destruct Hk as [N|[(v & x1 & E & N)|(v & x1 & d & pre & post & E & G & A & K)]].
  - by eapply state_ok_store.
  - split; [rewrite Es; apply C|]. intros ls D' L ED'. rewrite Es in L.
    destruct (N _ ED') as (D & ED & LD). unfold app_staking_hooks in E.
    apply multi_AfterDelegationModified in E. do 2 apply Forall_cons in E as [_ E].
    apply Forall_cons in E as [E _]. pose proof (modified_covers _ _ _ _ _ _ _ L (M v) E ED). lia.
  - split; [rewrite Es; apply C|]. intros ls D' L ED'. rewrite Es in L.
    pose proof (total_nonneg _ _ _ ED'). destruct C as [[f [I _]] _].
    destruct (inv_locks _ I a) as (k & K' & W). rewrite (locks_rel_fun _ _ _ _ K' L) in W.
    unfold app_staking_hooks in E. apply multi_BeforeDelegationRemoved in E.
    do 2 apply Forall_cons in E as [_ E]. apply Forall_cons in E as [E _].
    destruct (removed_covers _ _ _ _ _ _ _ _ _ L W (M v) E G A) as [->|(rest & ER & LR)]; [done|].
    pose proof (K _ _ ER ED'). lia.
Qed.

Lemma state_ok_op (ctx : Ctx) a extends (w w' : World S X) :
  0 <= BlockTime ctx -> (forall v, isRedelegating ctx a v = false) ->
  (forall e, extends e -> extends_unexpired ctx a e) ->
  op ctx extends w w' -> state_ok ctx a w -> state_ok ctx a w'.
Proof.
  intros T M U O C. destruct O as [w w' msg E|w w' msg Ex V E|w w' msg E|w w' msg E|w w' Es Hk].
  - by eapply state_ok_lock.
  - eapply state_ok_extend; [done|exact V|by apply U|exact E|done].
  - by eapply state_ok_send.
  - apply MultiSend_Ok in E as [_ E]. by eapply state_ok_outputs.
  - by eapply state_ok_other.
Qed.

(** A message of the lockup module is one such step. *)
Lemma handler_ops (ctx : Ctx) (w w' : World S X) m :
  TxMsg_ValidateBasic m = Ok tt -> TxMsg_handler ctx w m = Ok w' ->
  rtc (op ctx (TxMsg_extends m)) w w'.
Proof.
  intros V E. destruct m as [[msg|msg|msg|msg]|m]; cbn [TxMsg_handler LockupMsg_handler] in E;
    [apply rtc_once..|by apply other_handler_ops].
  - by eapply op_lock.
  - by eapply op_extend.
  - by eapply op_send.
  - by eapply op_multi.
Qed.

Lemma state_ok_deliver (ctx : Ctx) a ms : 
  0 <= BlockTime ctx -> (forall v, isRedelegating ctx a v = false) ->
  Forall (fun m => TxMsg_ValidateBasic m = Ok tt) ms ->
  (forall m e, m ∈ ms -> TxMsg_extends m e -> extends_unexpired ctx a e) ->
  forall w w' : World S X, deliver_msgs TxMsg_handler ctx w ms = Ok w' ->
  state_ok ctx a w -> state_ok ctx a w'.
Proof.
  intros T M. induction 1 as [|m ms V Vs IH]; intros U w w' E C; cbn [deliver_msgs] in E.
  - by injection E as <-.
  - apply bind_Ok in E as (w1 & E1 & E). eapply IH; [|exact E|].
    + intros m' e K. apply U. by right.
    + apply handler_ops in E1; [|done]. clear E IH. induction E1 as [|w w2 w1 O _ IH]; [done|].
      apply IH. eapply state_ok_op; [done..| |exact O|done]. intros e. apply U. left.
Qed.

(** ** Over any sequence of transactions and blocks *)

Context `{!AnteEnv} `{!AnteLaws} `{!AnteContextLaws} (options : HandlerOptions) (n : nat).

(** A transaction that neither redelegates for the account nor extends locks of it
    that have ended; the delegators in it have addresses of the chain's length. *)
Record plain_tx (ctx : Ctx) (a : bytes) (tx : DeliverTx S X) : Prop := {
  plain_redelegates v : ~ redelegates (map TxMsg_view (dtx_msgs tx)) a v;
  plain_length : delegators_of_length n (map TxMsg_view (dtx_msgs tx));
  plain_extends m e : m ∈ dtx_msgs tx -> TxMsg_extends m e -> extends_unexpired ctx a e;
}.

(** A transaction, whether it succeeds or fails, and the step to another block, at
    which no validator of the account is slashed. *)
Inductive chain_step (a : bytes) : relation (Ctx * World S X) :=
  | step_tx ctx w w' tx r : plain_tx ctx a tx -> app_deliver options ctx w tx = (w', r) ->
      chain_step a (ctx, w) (ctx, w')
  | step_next ctx ctx' w w' : BlockTime ctx <= BlockTime ctx' -> redelegating ctx' = ∅ ->
      w_store w' = w_store w -> delegates_no_less (w_ext w) (w_ext w') a ->
      chain_step a (ctx, w) (ctx', w').

Definition chain_initial (c : Ctx * World S X) : Prop := initial c /\ redelegating c.1 = ∅.

Definition chain_ok (a : bytes) (c : Ctx * World S X) : Prop :=
  0 <= BlockTime c.1 /\ redelegating c.1 = ∅ /\ state_ok c.1 a c.2.

Lemma unmarked (ctx : Ctx) a v : redelegating ctx = ∅ -> isRedelegating ctx a v = false.
Proof. intros E. unfold isRedelegating. rewrite E. by apply bool_decide_eq_false_2, not_elem_of_empty. Qed.

Lemma locked_on_later (ctx ctx' : Ctx) ls :
  BlockTime ctx <= BlockTime ctx' -> locks_inv ls -> locked_on ctx' ls <= locked_on ctx ls.
Proof.
  intros T [W _]. apply amount_of_mono; [done|]. intros d. unfold IsLocked, Before.
  destruct (ParseDateOnly d); [|done]. rewrite !Z.ltb_lt. pose proof (midnight_mono _ _ T). lia.
Qed.

Lemma chain_step_ok a c c' : length a = n -> chain_step a c c' -> chain_ok a c -> chain_ok a c'.
Proof.
  intros La [ctx w w' tx r P E|ctx ctx' w w' T Rd Es N] (T0 & R0 & C); cbn [fst snd] in *.
  - split; [done|]. split; [done|]. cbn [fst snd]. unfold app_deliver in E.
    destruct (decide (r = Ok tt)) as [->|F].
    + apply runTx_Ok in E as (V & ctx1 & w1 & EA & Es & N & E). destruct P as [PR PL PE].
      assert (forall v, BlockTime ctx1 = BlockTime ctx /\ isRedelegating ctx1 a v = false) as K.
      { intros v. destruct (NewAnteHandler_context n options ctx (ante_view tx) false ctx1 a v PL La EA) as [Tm Mk]. split; [done|].
        destruct (isRedelegating ctx1 a v) eqn:I; [|done].
        destruct (Mk eq_refl) as [I'|Rd]; [by rewrite unmarked in I'|by apply PR in Rd]. }
      assert (forall w, state_ok ctx1 a w <-> state_ok ctx a w) as Same.
      { intros w2. unfold state_ok, covered, locked_on. by rewrite (proj1 (K [])). }
      apply Same. eapply (state_ok_deliver ctx1); [|by intros v; apply K|exact V| |exact E|].
      * by rewrite (proj1 (K [])).
      * intros m e I X0. unfold extends_unexpired. rewrite (proj1 (K [])). by eapply PE.
      * apply Same. by eapply state_ok_store.
    + apply runTx_failed in E as [Es N]; [|done]. by eapply state_ok_store.
  - split; [simpl; lia|]. split; [done|]. cbn [fst snd].
    apply (state_ok_store ctx a w w') in C; [|done..]. destruct C as [[f R] C].
    split; [by exists f|]. intros ls D L ED. pose proof (C _ _ L ED).
    destruct (inv_locks _ (proj1 R) a) as (k & K & W). rewrite (locks_rel_fun _ _ _ _ K L) in W.
    pose proof (locked_on_later ctx ctx' ls T W). lia.
Qed.

(** C2 Over any sequence of transactions, failing ones included, and blocks, what an
    account has locked stays covered by what it has delegated, as long as no
    validator of it is slashed and its transactions neither redelegate nor extend
    locks that have already ended: the checks of the message handlers, the staking
    hooks and the ante handler's marks leave no gap between them. *)
Theorem locks_stay_covered (a : bytes) (c0 c : Ctx * World S X) ls D :
  length a = n -> chain_initial c0 -> rtc (chain_step a) c0 c ->
  locks_rel (kv_view (w_store c.2)) a ls -> GetTotalDelegatedAmount (w_ext c.2) a = Ok D ->
  locked_on c.1 ls <= D.
Proof.
  intros La [[T E] R] St. assert (chain_ok a c0) as G.
  { split; [done|]. split; [done|]. split; [exists (fun _ _ => 0); rewrite E; apply represents_empty|].
    intros k D0 L ED. rewrite E in L. unfold locks_rel in L. rewrite lookup_empty in L. subst k.
    by eapply total_nonneg. }
  assert (chain_ok a c) as (_ & _ & _ & C); [|by apply C].
  clear T E R. induction St as [c|c1 c2 c3 S1 _ IH]; [done|]. apply IH. by eapply chain_step_ok.
Qed.
End Covered.
