(* ===== verification/ProtoTable.v ===== *)
(** Protobuf messages described by a table of their fields, and the size,
    encoding and decoding loops that protoc-gen-go-pulsar (the API packages) and
    gogoproto (the types packages) write out for each of them.  The generated
    functions of two messages differ only in their fields, so they are written
    once here, over the table, and instantiated message by message. *)

From stdpp Require Import base list strings.
From Stdlib Require Import ZArith Lia.
From Stdlib.Init Require Import Byte.
From S2P Require Import Prelude Sdk LockPb.

Local Open Scope Z_scope.

(** * Varints and skipping *)

(** The helpers the generated code calls: those of
    github.com/cosmos/cosmos-proto/runtime in the API packages, the ones at the
    end of each .pb.go file in the types packages. *)
Class WireRuntime := {
  Sov : Z -> Z;
  (** [EncodeVarint(dAtA, offset, v)], as the bytes it puts before [offset]. *)
  EncodeVarint : Z -> bytes;
  Skip : bytes -> outcome Z;
  ErrIntOverflow : error;
  ErrInvalidLength : error;
}.

(** The varint loops are those of lock.pb.go but for the errors. *)
Definition rt_error `{WireRuntime} (e : error) : error :=
  if decide (e = ErrIntOverflowLock) then ErrIntOverflow
  else if decide (e = ErrInvalidLengthLock) then ErrInvalidLength else e.

(** * Codecs, fields and messages *)

(** The methods of a message type; [c_unmarshal] merges into the message it is
    given, and its flag is [DiscardUnknown]; [c_nil] is what writing a nil pointer
    does.  [c_wf] holds of the messages the encoding represents exactly; it is a
    specification. *)
Record Codec (M : Type) := MkCodec {
  c_empty : M;
  c_size : M -> Z;
  c_marshal : M -> outcome bytes;
  c_nil : outcome bytes;
  c_unmarshal : bool -> M -> bytes -> outcome M;
  c_wf : M -> Prop;
}.
Arguments MkCodec {M}.
Arguments c_empty {M}.
Arguments c_size {M}.
Arguments c_marshal {M}.
Arguments c_nil {M}.
Arguments c_unmarshal {M}.
Arguments c_wf {M}.

(** The kinds of fields the messages have, by the Go type of the field: a
    string, a byte slice, a uint64, a message, a pointer to a message, a slice of
    messages, a slice of pointers. *)
Inductive fkind : Type -> Type :=
  | KString : fkind string
  | KBytes : fkind bytes
  | KUint64 : fkind Z
  | KVal {M} (c : Codec M) : fkind M
  | KMsg {M} (c : Codec M) : fkind (option M)
  | KRepVal {M} (c : Codec M) : fkind (list M)
  | KRep {M} (c : Codec M) : fkind (list (option M)).

Record field (T : Type) := MkField {
  f_type : Type;
  f_kind : fkind f_type;
  f_num : Z;
  f_name : string;
  f_goname : string;
  f_get : T -> f_type;
  f_set : f_type -> T -> T;
}.
Arguments MkField {T f_type}.
Arguments f_type {T}.
Arguments f_kind {T}.
Arguments f_num {T}.
Arguments f_name {T}.
Arguments f_goname {T}.
Arguments f_get {T}.
Arguments f_set {T}.

(** A message: its full name and Go name, its fields in the order of their
    numbers, its zero value and its [unknownFields]. *)
Record Desc (T : Type) := MkDesc {
  d_fullname : string;
  d_goname : string;
  d_fields : list (field T);
  d_empty : T;
  d_unknown : T -> bytes;
  d_set_unknown : bytes -> T -> T;
}.
Arguments MkDesc {T}.
Arguments d_fullname {T}.
Arguments d_goname {T}.
Arguments d_fields {T}.
Arguments d_empty {T}.
Arguments d_unknown {T}.
Arguments d_set_unknown {T}.

(** The value of an unset field. *)
Definition kind_zero {A} (k : fkind A) : A :=
  match k with
  | KString => EmptyString
  | KBytes => []
  | KUint64 => 0
  | KVal c => c_empty c
  | KMsg _ => None
  | KRepVal _ => []
  | KRep _ => []
  end.

Definition wire_type {A} (k : fkind A) : Z := match k with KUint64 => 0 | _ => 2 end.

(** The byte written before a field: all numbers are below sixteen. *)
Definition field_tag {T} (fd : field T) : byte := byte_of_Z (8 * f_num fd + wire_type (f_kind fd)).

(** * Size and Marshal *)

Section Encode.
Context `{WireRuntime}.

(** An element of a slice of pointers. *)
Definition elem_size {M} (c : Codec M) (e : option M) : Z :=
  match e with Some m => c_size c m | None => 0 end.
Definition elem_marshal {M} (c : Codec M) (e : option M) : outcome bytes :=
  match e with Some m => c_marshal c m | None => c_nil c end.

(** [1 + l + runtime.Sov(uint64(l))]. *)
Definition len_size (l : Z) : Z := 1 + l + Sov (uint64 l).

(** The loop over a slice. *)
Definition rep_size {M} (c : Codec M) (l : list (option M)) : Z :=
  foldr (fun e n => len_size (elem_size c e) + n) 0 l.

Definition kind_size {A} (k : fkind A) : A -> Z :=
  match k with
  | KString => fun s => let l := zlen (bytes_of_string s) in if 0 <? l then len_size l else 0
  | KBytes => fun b => let l := zlen b in if 0 <? l then len_size l else 0
  | KUint64 => fun n => if negb (n =? 0) then 1 + Sov (uint64 n) else 0
  | KVal c => fun m => len_size (c_size c m)
  | KMsg c => fun o => match o with Some m => len_size (c_size c m) | None => 0 end
  | KRepVal c => fun l => rep_size c (map Some l)
  | KRep c => rep_size c
  end.

(** A length-delimited field: tag, length, contents. *)
Definition delimited (tag : byte) (bz : bytes) : bytes := tag :: EncodeVarint (uint64 (zlen bz)) ++ bz.

(** The loop [for iNdEx := len(l) - 1; iNdEx >= 0; iNdEx--]. *)
Fixpoint rep_bytes {M} (c : Codec M) (tag : byte) (l : list (option M)) : outcome bytes :=
  match l with
  | [] => Ok []
  | e :: l' =>
      buf ← rep_bytes c tag l';
      encoded ← elem_marshal c e;
      Ok (delimited tag encoded ++ buf)
  end.

(** What one field writes. *)
Definition kind_bytes {A} (k : fkind A) (tag : byte) : A -> outcome bytes :=
  match k with
  | KString => fun s =>
      Ok (if 0 <? zlen (bytes_of_string s) then delimited tag (bytes_of_string s) else [])
  | KBytes => fun b => Ok (if 0 <? zlen b then delimited tag b else [])
  | KUint64 => fun n => Ok (if negb (n =? 0) then tag :: EncodeVarint (uint64 n) else [])
  | KVal c => fun m => encoded ← c_marshal c m; Ok (delimited tag encoded)
  | KMsg c => fun o =>
      match o with
      | Some m => encoded ← c_marshal c m; Ok (delimited tag encoded)
      | None => Ok []
      end
  | KRepVal c => fun l => rep_bytes c tag (map Some l)
  | KRep c => rep_bytes c tag
  end.

Section Message.
Context {T : Type} (d : Desc T).

(** The closure [size] of [ProtoMethods], for a message that is not nil. *)
Definition Size (x : T) : Z :=
  foldr (fun fd n => kind_size (f_kind fd) (f_get fd x) + n) (zlen (d_unknown d x)) (d_fields d).

(** The fields are written from the last to the first, the unknown fields
    before them. *)
Fixpoint fields_bytes (fs : list (field T)) (x : T) : outcome bytes :=
  match fs with
  | [] => Ok (d_unknown d x)
  | fd :: fs' =>
      buf ← fields_bytes fs' x;
      bz ← kind_bytes (f_kind fd) (field_tag fd) (f_get fd x);
      Ok (bz ++ buf)
  end.

(** * Unmarshal *)

Definition find_field (num : Z) : option (field T) :=
  snd <$> list_find (fun fd => f_num fd = num) (d_fields d).

(** The body of a [case]: the value read and the reader behind it. *)
Definition read_kind {A} (k : fkind A) (discard : bool) (old : A) (r : reader) : outcome (A * reader) :=
  match k in fkind A return A -> outcome (A * reader) with
  | KString => fun _ =>
      '(bz, r') ← wrap_err rt_error (read_delimited r);
      Ok (string_of_bytes bz, r')
  | KBytes => fun _ => wrap_err rt_error (read_delimited r)
  | KUint64 => fun _ => wrap_err rt_error (read_varint r)
  | KVal c => fun old =>
      '(bz, r') ← wrap_err rt_error (read_delimited r);
      m ← c_unmarshal c discard old bz;
      Ok (m, r')
  | KMsg c => fun old =>
      '(bz, r') ← wrap_err rt_error (read_delimited r);
      m ← c_unmarshal c discard (default (c_empty c) old) bz;
      Ok (Some m, r')
  | KRepVal c => fun old =>
      '(bz, r') ← wrap_err rt_error (read_delimited r);
      m ← c_unmarshal c discard (c_empty c) bz;
      Ok (old ++ [m], r')
  | KRep c => fun old =>
      '(bz, r') ← wrap_err rt_error (read_delimited r);
      m ← c_unmarshal c discard (c_empty c) bz;
      Ok (old ++ [Some m], r')
  end old.

Definition read_field (fd : field T) (discard : bool) (x : T) (wireType : Z) (r : reader)
    : outcome (T * reader) :=
  if negb (wireType =? wire_type (f_kind fd))
  then Err (FmtErr ("proto: wrong wireType = %d for field " +:+ f_goname fd)) else
  '(v, r') ← read_kind (f_kind fd) discard (f_get fd x) r;
  Ok (f_set fd v x, r').

(** The [default] branch. *)
Definition keep_unknown (discard : bool) (x : T) (pre : reader) : outcome (T * reader) :=
  skippy ← Skip pre.2;
  if (skippy <? 0) || (int64 (pre.1 + skippy) <? 0) then Err ErrInvalidLength else
  if zlen pre.2 <? skippy then Err EOFErr else
  let x := if discard then x
           else d_set_unknown d (d_unknown d x ++ take (Z.to_nat skippy) pre.2) x in
  Ok (x, (pre.1 + skippy, drop (Z.to_nat skippy) pre.2)).

(** One round of the loop. *)
Definition read_one (discard : bool) (x : T) (r : reader) : outcome (T * reader) :=
  '(fieldNum, wireType, r1) ← wrap_err rt_error (read_tag (d_goname d) r);
  match find_field fieldNum with
  | Some fd => read_field fd discard x wireType r1
  | None => keep_unknown discard x r
  end.

(** Each round consumes at least a tag, so the length of the input is enough
    fuel. *)
Fixpoint unmarshal_loop (fuel : nat) (discard : bool) (x : T) (r : reader) : outcome T :=
  match r.2 with
  | [] => Ok x
  | _ :: _ =>
      match fuel with
      | O => OutOfFuel
      | S fuel' =>
          '(x, r) ← read_one discard x r;
          unmarshal_loop fuel' discard x r
      end
  end.

Definition Unmarshal (discard : bool) (x : T) (dAtA : bytes) : outcome T :=
  unmarshal_loop (length dAtA) discard x (0, dAtA).

End Message.
End Encode.

(** * Exact messages *)

(** The field values the encoding represents exactly: no nil element in a list,
    a uint64 in range. *)
Definition kind_wf {A} (k : fkind A) : A -> Prop :=
  match k with
  | KString => fun _ => True
  | KBytes => fun _ => True
  | KUint64 => fun n => 0 <= n < 2 ^ 64
  | KVal c => c_wf c
  | KMsg c => fun o => match o with Some m => c_wf c m | None => True end
  | KRepVal c => Forall (c_wf c)
  | KRep c => fun l => Forall (fun e => exists m, e = Some m /\ c_wf c m) l
  end.

Definition desc_wf {T} (d : Desc T) (x : T) : Prop :=
  d_unknown d x = [] /\ Forall (fun fd => kind_wf (f_kind fd) (f_get fd x)) (d_fields d).
