(* ===== verification/ProtoTableProps.v ===== *)
(** Tables and loops of ProtoTable.v are exact: a message that is written is read
    back, the size announced is the size written, and reading returns on every
    input. *)

From stdpp Require Import base list strings.
From Stdlib Require Import ZArith Lia.
From Stdlib.Init Require Import Byte.
From S2P Require Import Prelude Sdk LockPb ProtoTable.

Local Open Scope Z_scope.

(** * Lawful helpers and codecs *)

(** A varint that was written is read back, takes [Sov] bytes, and [Skip] returns
    the length of a field, which is positive, or an error. *)
Class WireLaws `{WireRuntime} : Prop := {
  read_EncodeVarint v pos rest :
    0 <= v < 2 ^ 64 -> 0 <= pos ->
    read_varint (pos, EncodeVarint v ++ rest) = Ok (v, (pos + Sov v, rest));
  EncodeVarint_len v : 0 <= v < 2 ^ 64 -> zlen (EncodeVarint v) = Sov v;
  Sov_range v : 0 <= v < 2 ^ 64 -> 1 <= Sov v <= 10;
  Skip_returns bz : zlen bz < 2 ^ 63 -> returns (Skip bz);
  Skip_positive bz n : zlen bz < 2 ^ 63 -> Skip bz = Ok n -> 0 < n;
}.

(** A lawful codec: what [c_wf] admits is encoded into [c_size] bytes and decoded
    again, and decoding any bytes into any message returns. *)
Record codec_lawful {M} (c : Codec M) : Prop := {
  codec_exact m : c_wf c m -> c_size c m < 2 ^ 60 ->
    exists bz, c_marshal c m = Ok bz /\ zlen bz = c_size c m /\
      forall discard, c_unmarshal c discard (c_empty c) bz = Ok m;
  codec_size m : c_wf c m -> 0 <= c_size c m;
  codec_returns discard m bz : zlen bz < 2 ^ 63 -> returns (c_unmarshal c discard m bz);
}.

Definition kind_lawful {A} (k : fkind A) : Prop :=
  match k with
  | KVal c => codec_lawful c
  | KMsg c => codec_lawful c
  | KRepVal c => codec_lawful c
  | KRep c => codec_lawful c
  | _ => True
  end.

(** * Well-formed tables *)

(** Setting a field changes that field only. *)
Fixpoint lenses {T} (fs : list (field T)) : Prop :=
  match fs with
  | [] => True
  | fd :: fs' =>
      (forall v t, f_get fd (f_set fd v t) = v) /\
      Forall (fun fd' => (forall v t, f_get fd' (f_set fd v t) = f_get fd' t) /\
                         (forall v t, f_get fd (f_set fd' v t) = f_get fd t)) fs' /\
      lenses fs'
  end.

(** The table of a message: distinct one-byte field numbers and names, independent
    fields,
    unset fields in the zero value, and no other state than the fields and the
    unknown bytes. *)
Record desc_ok {T} (d : Desc T) : Prop := {
  ok_nums : NoDup (map f_num (d_fields d));
  ok_names : NoDup (map f_name (d_fields d));
  ok_range : Forall (fun fd => 1 <= f_num fd <= 15) (d_fields d);
  ok_lens : lenses (d_fields d);
  ok_unknown : Forall (fun fd => forall v t, d_unknown d (f_set fd v t) = d_unknown d t) (d_fields d);
  ok_zero : Forall (fun fd => f_get fd (d_empty d) = kind_zero (f_kind fd)) (d_fields d);
  ok_zero_unknown : d_unknown d (d_empty d) = [];
  ok_ext x y : d_unknown d x = d_unknown d y ->
    Forall (fun fd => f_get fd x = f_get fd y) (d_fields d) -> x = y;
  ok_kinds : Forall (fun fd => kind_lawful (f_kind fd)) (d_fields d);
}.

(** A table is well formed by computation, given the codecs of the messages it
    contains, which the lemmas in [codecs] provide. *)
Create HintDb codecs.
#[export] Hint Resolve I : codecs.

Ltac solve_ext :=
  let x := fresh in let y := fresh in
  intros x y; destruct x, y; simpl; intros;
  repeat match goal with F : Forall _ (_ :: _) |- _ => apply Forall_cons in F as [? F] end;
  simpl in *; congruence.

Ltac solve_desc_ok :=
  split;
  [ apply (bool_decide_unpack _); vm_compute; exact I
  | apply (bool_decide_unpack _); vm_compute; exact I
  | repeat constructor; simpl; lia
  | repeat constructor
  | repeat constructor
  | repeat constructor
  | reflexivity
  | solve_ext
  | repeat (apply Forall_cons; split; [simpl; eauto with codecs|]); apply Forall_nil; exact I ].

(** * Sizes *)

Section Sizes.
Context `{WireLaws}.

Lemma delimited_len tag bz : zlen bz < 2 ^ 60 -> zlen (delimited tag bz) = len_size (zlen bz).
Proof.
  intros L. pose proof (zlen_nonneg bz). unfold delimited, len_size.
  rewrite zlen_cons, zlen_app, EncodeVarint_len by (rewrite uint64_small; lia). lia.
Qed.

Lemma len_size_gt l : l < len_size l.
Proof. unfold len_size. pose proof (Sov_range (uint64 l) (uint64_range l)). lia. Qed.

Lemma elem_exact {M} (c : Codec M) e :
  codec_lawful c -> (exists m, e = Some m /\ c_wf c m) -> elem_size c e < 2 ^ 60 ->
  exists bz m, e = Some m /\ elem_marshal c e = Ok bz /\ zlen bz = elem_size c e /\
    forall discard, c_unmarshal c discard (c_empty c) bz = Ok m.
Proof.
  intros L (m & -> & W) B. destruct (codec_exact c L m W B) as (bz & E & S & U). by exists bz, m.
Qed.

Lemma len_size_nonneg l : 0 <= l -> 0 <= len_size l.
Proof. pose proof (len_size_gt l). lia. Qed.

Lemma rep_size_nonneg {M} (c : Codec M) l :
  codec_lawful c -> Forall (fun e => exists m, e = Some m /\ c_wf c m) l ->
  0 <= rep_size c l.
Proof.
  intros L. induction 1 as [|e l (m & -> & W) _ IH]; cbn [rep_size foldr elem_size]; [lia|].
  fold (rep_size c l).
  pose proof (len_size_nonneg (c_size c m) (codec_size c L m W)). lia.
Qed.

(** The elements of a slice of messages, as pointers. *)
Lemma map_Some_wf {M} (c : Codec M) l :
  Forall (c_wf c) l -> Forall (fun e => exists m, e = Some m /\ c_wf c m) (map Some l).
Proof. induction 1; cbn [map]; constructor; eauto. Qed.

Lemma kind_size_nonneg {A} (k : fkind A) v : kind_lawful k -> kind_wf k v -> 0 <= kind_size k v.
Proof.
  destruct k; cbn [kind_size kind_wf kind_lawful]; intros L W.
  - case_match; [|lia]. apply len_size_nonneg, zlen_nonneg.
  - case_match; [|lia]. apply len_size_nonneg, zlen_nonneg.
  - case_match; [|lia]. pose proof (Sov_range (uint64 v) (uint64_range v)). lia.
  - by apply len_size_nonneg, (codec_size c L).
  - destruct v as [m|]; [|lia]. by apply len_size_nonneg, (codec_size c L).
  - by apply rep_size_nonneg, map_Some_wf.
  - by apply rep_size_nonneg.
Qed.

Lemma rep_size_elem {M} (c : Codec M) l e :
  codec_lawful c -> Forall (fun e => exists m, e = Some m /\ c_wf c m) l -> e ∈ l ->
  elem_size c e <= rep_size c l.
Proof.
  intros L F. induction F as [|e' l W F IH]; [by intros ?%elem_of_nil|].
  cbn [rep_size foldr]. fold (rep_size c l). pose proof (rep_size_nonneg c l L F).
  pose proof (len_size_gt (elem_size c e')).
  assert (0 <= elem_size c e') by (destruct W as (m & -> & W); by apply (codec_size c L)).
  intros [->|E]%elem_of_cons; [lia|]. specialize (IH E). lia.
Qed.

(** What a repeated field writes. *)
Lemma rep_bytes_exact {M} (c : Codec M) tag l :
  codec_lawful c -> Forall (fun e => exists m, e = Some m /\ c_wf c m) l ->
  rep_size c l < 2 ^ 60 ->
  exists buf, rep_bytes c tag l = Ok buf /\
    zlen buf = rep_size c l.
Proof.
  intros L. induction 1 as [|e l W F IH]; intros B; [by exists []|].
  cbn [rep_size foldr rep_bytes] in *. fold (rep_size c l) in *. pose proof (rep_size_nonneg c l L F).
  assert (0 <= elem_size c e) by (destruct W as (m & -> & W); by apply (codec_size c L)).
  pose proof (len_size_gt (elem_size c e)).
  destruct IH as (buf & -> & Lb); [lia|].
  destruct (elem_exact c e L W) as (bz & m & -> & -> & Lz & _); [lia|].
  eexists. split; [done|]. rewrite zlen_app, delimited_len by lia. by rewrite Lz, Lb.
Qed.

Lemma msg_bytes_exact {M} (c : Codec M) tag m :
  codec_lawful c -> c_wf c m -> len_size (c_size c m) < 2 ^ 60 ->
  exists bz, (encoded ← c_marshal c m; Ok (delimited tag encoded)) = Ok bz /\
    zlen bz = len_size (c_size c m).
Proof.
  intros L W B. pose proof (len_size_gt (c_size c m)).
  destruct (codec_exact c L m W) as (bz & -> & Lz & _); [lia|]. eexists. split; [done|].
  rewrite delimited_len by lia. by rewrite Lz.
Qed.

Lemma opt_delimited_len tag bz : (if 0 <? zlen bz then len_size (zlen bz) else 0) < 2 ^ 60 ->
  zlen (if 0 <? zlen bz then delimited tag bz else []) = (if 0 <? zlen bz then len_size (zlen bz) else 0).
Proof.
  intros B. case_match; [|done]. apply delimited_len. pose proof (len_size_gt (zlen bz)). lia.
Qed.

Lemma kind_bytes_exact {A} (k : fkind A) tag v :
  kind_lawful k -> kind_wf k v -> kind_size k v < 2 ^ 60 ->
  exists bz, kind_bytes k tag v = Ok bz /\ zlen bz = kind_size k v.
Proof.
  destruct k; cbn [kind_size kind_wf kind_lawful kind_bytes]; intros L W B.
  - eexists. split; [done|]. by apply opt_delimited_len.
  - eexists. split; [done|]. by apply opt_delimited_len.
  - eexists. split; [done|]. destruct (v =? 0); [done|]. cbn [negb].
    rewrite zlen_cons, EncodeVarint_len by apply uint64_range. done.
  - by apply msg_bytes_exact.
  - destruct v as [m|]; [|by exists []]. by apply msg_bytes_exact.
  - by apply rep_bytes_exact, B; [|apply map_Some_wf].
  - by apply rep_bytes_exact.
Qed.
End Sizes.

(** * Decoding *)

Section Decode.
Context `{WireLaws}.

Lemma rt_Ok {A} (m : outcome A) a : m = Ok a -> wrap_err rt_error m = Ok a.
Proof. by intros ->. Qed.

Lemma returns_wrap {A} (m : outcome A) f : returns m -> returns (wrap_err f m).
Proof. intros [[a ->]|[e ->]]; [apply returns_Ok|apply returns_Err]. Qed.

(** A length-delimited field reads back what was written. *)
Lemma read_delimited_written pos bz rest :
  0 <= pos -> pos + zlen bz < 2 ^ 61 ->
  exists pos', read_delimited (pos, EncodeVarint (uint64 (zlen bz)) ++ bz ++ rest) = Ok (bz, (pos', rest)) /\
    pos' = pos + Sov (uint64 (zlen bz)) + zlen bz.
Proof.
  intros P L. pose proof (zlen_nonneg bz). pose proof (zlen_nonneg rest).
  unfold read_delimited. rewrite uint64_small by lia.
  rewrite read_EncodeVarint by lia. cbn [mbind outcome_bind].
  pose proof (Sov_range (zlen bz) ltac:(lia)).
  rewrite !int64_small by (rewrite ?int64_small by lia; lia).
  rewrite (proj2 (Z.ltb_ge (zlen bz) 0)), (proj2 (Z.ltb_ge (_ + _) 0)) by lia.
  rewrite zlen_app. rewrite (proj2 (Z.ltb_ge (_ + _) _)) by lia.
  replace (Z.to_nat (zlen bz)) with (length bz) by (unfold zlen; lia).
  rewrite take_app_length, drop_app_length. eexists. split; [done|lia].
Qed.

(** The tag byte of a field is read as its number and wire type. *)
Lemma read_tag_byte name num (wt pos : Z) rest :
  1 <= num <= 15 -> wt = 0 \/ wt = 2 ->
  read_tag name (pos, byte_of_Z (8 * num + wt) :: rest) = Ok (num, wt, (pos + 1, rest)).
Proof.
  intros N W. unfold read_tag, read_varint. cbn [fst snd pb_varint Z.leb].
  rewrite byte_to_of_Z, Z.mod_small by lia. rewrite (proj2 (Z.ltb_lt _ 128)) by lia.
  change (64 <=? 0) with false. cbv iota. cbn [mbind outcome_bind].
  rewrite land_127, Z.mod_small by lia. rewrite Z.shiftl_0_r, uint64_small by lia. rewrite Z.lor_0_l.
  assert (Z.land (8 * num + wt) 7 = wt) as ->.
  { change 7 with (Z.ones 3). rewrite Z.land_ones by lia. change (2 ^ 3) with 8.
    rewrite Z.add_comm, Z.mul_comm, Z.mod_add, Z.mod_small by lia. done. }
  assert (Z.shiftr (8 * num + wt) 3 = num) as ->.
  { rewrite Z.shiftr_div_pow2 by lia. change (2 ^ 3) with 8.
    rewrite Z.mul_comm, Z.div_add_l, Z.div_small by lia. lia. }
  assert (int32 num = num) as -> by (unfold int32; rewrite Z.mod_small by lia; lia).
  rewrite (proj2 (Z.eqb_neq wt 4)), (proj2 (Z.leb_gt num 0)) by lia. done.
Qed.

Section Message.
Context {T : Type} (d : Desc T) (O : desc_ok d).

(** ** Every round makes progress, so the loop ends *)

Lemma read_msg_total {M A} (c : Codec M) discard m (f : M -> A) r :
  codec_lawful c -> zlen r.2 < 2 ^ 63 ->
  let k := ('(bz, r') ← wrap_err rt_error (read_delimited r);
            m ← c_unmarshal c discard m bz; Ok (f m, r')) in
  returns k /\ (forall v r', k = Ok (v, r') -> (length r'.2 < length r.2)%nat).
Proof.
  intros L B k. destruct (read_delimited_total r) as [D1 D2]. split; unfold k.
  - apply returns_bind; [by apply returns_wrap|]. intros [bz r'] E%wrap_err_Ok. apply D2 in E as [_ E].
    apply returns_bind; [|intros; apply returns_Ok]. apply (codec_returns c L). unfold zlen in *. lia.
  - intros v r' ([bz r1] & E%wrap_err_Ok & E2)%bind_Ok. apply bind_Ok in E2 as (m' & _ & [= _ <-]).
    by apply D2 in E as [E _].
Qed.

Lemma read_kind_total {A} (k : fkind A) discard old r :
  kind_lawful k -> zlen r.2 < 2 ^ 63 ->
  returns (read_kind k discard old r) /\
  (forall v r', read_kind k discard old r = Ok (v, r') -> (length r'.2 < length r.2)%nat).
Proof.
  intros L B. destruct (read_delimited_total r) as [D1 D2].
  destruct k; cbn [read_kind kind_lawful] in *; try by apply read_msg_total.
  - split; [apply returns_bind; [by apply returns_wrap|intros [bz r'] _; apply returns_Ok]|].
    intros v r' ([bz r1] & E%wrap_err_Ok & [= _ <-])%bind_Ok. by apply D2 in E as [E _].
  - split; [by apply returns_wrap|]. intros v r' E%wrap_err_Ok. by apply D2 in E as [E _].
  - split; [apply returns_wrap, read_varint_returns|].
    intros v [pos' rest'] E%wrap_err_Ok. apply pb_varint_reads in E as [E1 E2]. cbn [snd].
    unfold zlen in *. lia.
Qed.

Lemma find_field_In num fd : find_field d num = Some fd -> fd ∈ d_fields d /\ f_num fd = num.
Proof.
  unfold find_field. intros ([i fd'] & E & ->)%fmap_Some_1.
  apply list_find_Some in E as (E & P & _). split; [by eapply list_elem_of_lookup_2|done].
Qed.

Lemma read_one_total discard x r :
  r.2 <> [] -> zlen r.2 < 2 ^ 63 ->
  returns (read_one d discard x r) /\
  (forall x' r', read_one d discard x r = Ok (x', r') -> (length r'.2 < length r.2)%nat).
Proof.
  intros N B. unfold read_one. destruct (read_tag_total (d_goname d) r) as [T1 T2].
  destruct T1 as [[[[num wt] r1] E]|[e E]]; rewrite E; cbn [wrap_err mbind outcome_bind];
    [|split; [apply returns_Err|done]].
  apply T2 in E. destruct (find_field d num) as [fd|] eqn:F.
  - apply find_field_In in F as [F _]. pose proof (proj1 (Forall_forall _ _) (ok_kinds d O) fd F) as L.
    destruct (read_kind_total (f_kind fd) discard (f_get fd x) r1 L) as [K1 K2]; [unfold zlen in *; lia|].
    unfold read_field. case_match; [split; [apply returns_Err|done]|]. split.
    + apply returns_bind; [done|]. intros [v r'] _. apply returns_Ok.
    + intros x' r' ([v r2] & E2 & [= _ <-])%bind_Ok. apply K2 in E2. lia.
  - unfold keep_unknown. destruct (Skip_returns r.2 B) as [[n S]|[e S]]; rewrite S; cbn [mbind outcome_bind];
      [|split; [apply returns_Err|done]].
    apply Skip_positive in S; [|done].
    repeat (case_match; [split; [apply returns_Err|done]|]). split; [apply returns_Ok|].
    intros x' r' [= _ <-]. cbn [snd]. rewrite length_drop. destruct (r.2); [done|]. cbn [length]. lia.
Qed.

Lemma unmarshal_loop_total fuel discard : forall x r,
  zlen r.2 < 2 ^ 63 -> (length r.2 <= fuel)%nat ->
  returns (unmarshal_loop d fuel discard x r).
Proof.
  induction fuel as [|fuel IH]; intros x r B L; cbn [unmarshal_loop];
    destruct (r.2) as [|b rest] eqn:R; try apply returns_Ok; [simpl in L; lia|].
  rewrite <- R in *. assert (r.2 <> []) as N by congruence.
  destruct (read_one_total discard x r N B) as [T1 T2]. apply returns_bind; [done|].
  intros [x' r'] E. apply T2 in E. apply IH; unfold zlen in *; lia.
Qed.

(** More fuel than bytes makes no difference. *)
Lemma unmarshal_loop_fuel f1 f2 discard : forall x r,
  zlen r.2 < 2 ^ 63 -> (length r.2 <= f1)%nat -> (length r.2 <= f2)%nat ->
  unmarshal_loop d f1 discard x r = unmarshal_loop d f2 discard x r.
Proof.
  revert f2. induction f1 as [|f1 IH]; intros f2 x r B L1 L2.
  - destruct r as [pos []]; [|simpl in L1; lia]. by destruct f2.
  - destruct f2 as [|f2]; [destruct r as [pos []]; [done|simpl in L2; lia]|].
    cbn [unmarshal_loop]. destruct (r.2) as [|b rest] eqn:R; [done|].
    rewrite <- R in *. assert (r.2 <> []) as N by congruence.
    destruct (read_one_total discard x r N B) as [_ T2].
    destruct (read_one d discard x r) as [[x' r']| | |] eqn:E; try done. cbn [mbind outcome_bind].
    specialize (T2 _ _ eq_refl). apply IH; unfold zlen in *; lia.
Qed.

(** ** Fields *)

Lemma find_field_num fd : fd ∈ d_fields d -> find_field d (f_num fd) = Some fd.
Proof.
  intros F. unfold find_field.
  destruct (list_find (fun fd' => f_num fd' = f_num fd) (d_fields d)) as [[i fd']|] eqn:E.
  - apply list_find_Some in E as (E & P & _). simpl. f_equal.
    apply list_elem_of_lookup_2 in E. by apply (map_NoDup_eq f_num (d_fields d)); [apply (ok_nums d O)|..].
  - apply list_find_None in E. rewrite Forall_forall in E. by destruct (E fd F).
Qed.

Lemma lenses_get_set (fs : list (field T)) fd v t : lenses fs -> fd ∈ fs -> f_get fd (f_set fd v t) = v.
Proof.
  induction fs as [|fd0 fs IH]; [by intros _ ?%elem_of_nil|]. intros (G & _ & L) [->|F]%elem_of_cons; auto.
Qed.

Lemma lenses_other (fs : list (field T)) fd fd' v t :
  lenses fs -> fd ∈ fs -> fd' ∈ fs -> f_num fd <> f_num fd' -> f_get fd' (f_set fd v t) = f_get fd' t.
Proof.
  induction fs as [|fd0 fs IH]; [by intros _ ?%elem_of_nil|].
  intros (_ & P & L) [->|F]%elem_of_cons [->|F']%elem_of_cons N; [done| | |by apply IH];
    rewrite Forall_forall in P.
  - by apply (P fd' F').
  - by apply (P fd F).
Qed.

(** [x'] is [x] with the value [v] in the field [fd]. *)
Definition updated (fd : field T) (v : f_type fd) (x x' : T) : Prop :=
  f_get fd x' = v /\ d_unknown d x' = d_unknown d x /\
  forall fd', fd' ∈ d_fields d -> f_num fd <> f_num fd' -> f_get fd' x' = f_get fd' x.

Lemma updated_set fd v x : fd ∈ d_fields d -> updated fd v x (f_set fd v x).
Proof.
  intros F. split; [by apply (lenses_get_set (d_fields d)); [apply (ok_lens d O)|]|]. split.
  - pose proof (ok_unknown d O) as U. rewrite Forall_forall in U. by apply U.
  - intros fd' F' N. by apply (lenses_other (d_fields d)); [apply (ok_lens d O)|..].
Qed.

Lemma updated_same fd x : updated fd (f_get fd x) x x.
Proof. done. Qed.

Lemma updated_trans fd v v' x y z : updated fd v x y -> updated fd v' y z -> updated fd v' x z.
Proof.
  intros (_ & U1 & P1) (G & U2 & P2). split; [done|]. split; [congruence|].
  intros fd' F N. rewrite P2 by done. auto.
Qed.

(** ** The loop over what was written *)

Definition run (discard : bool) (x : T) (r : reader) : outcome T :=
  unmarshal_loop d (length r.2) discard x r.

Lemma run_step discard x r x' r' :
  r.2 <> [] -> zlen r.2 < 2 ^ 63 -> read_one d discard x r = Ok (x', r') ->
  run discard x r = run discard x' r'.
Proof.
  intros N B E. unfold run. destruct (read_one_total discard x r N B) as [_ T2].
  pose proof (T2 _ _ E) as L. destruct (r.2) as [|b rest] eqn:R; [done|]. cbn [length unmarshal_loop].
  rewrite R, E. cbn [mbind outcome_bind]. simpl in L. apply unmarshal_loop_fuel; unfold zlen in *; simpl in *; lia.
Qed.

Lemma wire_type_cases {A} (k : fkind A) : wire_type k = 0 \/ wire_type k = 2.
Proof. destruct k; auto. Qed.

(** One field, read by its case. *)
Lemma run_field discard fd x pos body r' v :
  fd ∈ d_fields d -> zlen (field_tag fd :: body) < 2 ^ 63 ->
  read_kind (f_kind fd) discard (f_get fd x) (pos + 1, body) = Ok (v, r') ->
  exists x', updated fd v x x' /\
    run discard x (pos, field_tag fd :: body) = run discard x' r'.
Proof.
  intros F B E. exists (f_set fd v x). split; [by apply updated_set|].
  apply run_step; [done|done|]. unfold read_one, field_tag.
  pose proof (ok_range d O) as R. rewrite Forall_forall in R.
  rewrite read_tag_byte; [|by apply R|apply wire_type_cases]. cbn [wrap_err mbind outcome_bind].
  rewrite find_field_num by done. unfold read_field. rewrite Z.eqb_refl. cbn [negb]. by rewrite E.
Qed.

Lemma delimited_app tag bz rest :
  delimited tag bz ++ rest = tag :: (EncodeVarint (uint64 (zlen bz)) ++ bz ++ rest).
Proof. unfold delimited. by rewrite <- app_comm_cons, <- app_assoc. Qed.

Lemma delimited_step pos tag bz rest :
  0 <= pos -> pos + zlen (delimited tag bz ++ rest) < 2 ^ 60 ->
  exists pos', read_delimited (pos + 1, EncodeVarint (uint64 (zlen bz)) ++ bz ++ rest)
      = Ok (bz, (pos', rest)) /\ pos' = pos + zlen (delimited tag bz).
Proof.
  intros P B. pose proof (zlen_nonneg bz). pose proof (zlen_nonneg rest).
  rewrite delimited_app, zlen_cons, !zlen_app in B.
  pose proof (zlen_nonneg (EncodeVarint (uint64 (zlen bz)))).
  destruct (read_delimited_written (pos + 1) bz rest) as (pos' & E & ->); [lia|lia|].
  eexists. split; [exact E|]. rewrite delimited_len by lia. unfold len_size. lia.
Qed.

(** A field that writes one delimited block and reads [v] from it. *)
Lemma run_delimited discard fd x pos bz rest v :
  fd ∈ d_fields d -> 0 <= pos -> pos + zlen (delimited (field_tag fd) bz ++ rest) < 2 ^ 60 ->
  (forall r r', read_delimited r = Ok (bz, r') ->
     read_kind (f_kind fd) discard (f_get fd x) r = Ok (v, r')) ->
  exists x', updated fd v x x' /\
    run discard x (pos, delimited (field_tag fd) bz ++ rest)
    = run discard x' (pos + zlen (delimited (field_tag fd) bz), rest).
Proof.
  intros F P B R. destruct (delimited_step pos (field_tag fd) bz rest P B) as (pos' & ED & EP).
  rewrite delimited_app, <- EP. apply run_field; [done|rewrite <- (delimited_app (field_tag fd)); lia|].
  by apply R.
Qed.

(** A repeated field: [push] is how its case appends the elements it reads. *)
Lemma run_rep {M} (c : Codec M) fd (push : f_type fd -> list (option M) -> f_type fd) discard l :
  (forall old bz m r r', read_delimited r = Ok (bz, r') ->
     c_unmarshal c discard (c_empty c) bz = Ok m ->
     read_kind (f_kind fd) discard old r = Ok (push old [Some m], r')) ->
  (forall old, push old [] = old) ->
  (forall old k k', push (push old k) k' = push old (k ++ k')) ->
  codec_lawful c -> fd ∈ d_fields d -> Forall (fun e => exists m, e = Some m /\ c_wf c m) l ->
  forall buf x pos rest, rep_bytes c (field_tag fd) l = Ok buf ->
  0 <= pos -> pos + zlen (buf ++ rest) < 2 ^ 60 -> rep_size c l < 2 ^ 60 ->
  exists x', updated fd (push (f_get fd x) l) x x' /\
    run discard x (pos, buf ++ rest) = run discard x' (pos + zlen buf, rest).
Proof.
  intros Rd P0 Pp L F W. induction W as [|e l We W IH]; intros buf x pos rest E P B Sz; cbn [rep_bytes] in E.
  - injection E as <-. exists x. rewrite P0. split; [apply (updated_same fd)|].
    change (zlen []) with 0. by rewrite Z.add_0_r.
  - apply bind_Ok in E as (buf' & E' & E). apply bind_Ok in E as (bz & Eb & E).
    assert (buf = delimited (field_tag fd) bz ++ buf') as -> by congruence. clear E.
    cbn [rep_size foldr] in Sz. fold (rep_size c l) in Sz.
    pose proof (rep_size_nonneg c l L W). pose proof (len_size_gt (elem_size c e)).
    destruct (elem_exact c e L We) as (bz' & m & -> & Em & Lz & U); [lia|].
    rewrite Em in Eb. injection Eb as ->. rewrite <- (app_assoc (delimited (field_tag fd) bz) buf' rest) in B |- *.
    destruct (run_delimited discard fd x pos bz (buf' ++ rest) (push (f_get fd x) [Some m]) F P B)
      as (x1 & U1 & ->); [intros r r' E; by eapply Rd|].
    rewrite zlen_app in B. pose proof (zlen_nonneg bz). pose proof (zlen_nonneg (delimited (field_tag fd) bz)).
    destruct (IH buf' x1 (pos + zlen (delimited (field_tag fd) bz)) rest E') as (x2 & U2 & ->); [lia..|].
    exists x2. rewrite zlen_app, Z.add_assoc. split; [|done].
    rewrite (proj1 U1), Pp in U2. exact (updated_trans fd _ _ x x1 x2 U1 U2).
Qed.

(** A field left at its zero value writes nothing. *)
Lemma run_skipped discard fd x pos rest :
  f_get fd x = kind_zero (f_kind fd) ->
  exists x', updated fd (kind_zero (f_kind fd)) x x' /\
    run discard x (pos, [] ++ rest) = run discard x' (pos + zlen (@nil byte), rest).
Proof.
  intros Z0. exists x. split; [rewrite <- Z0; apply updated_same|].
  change (zlen []) with 0. by rewrite Z.add_0_r.
Qed.

(** A field that writes one message. *)
Lemma run_message {M} (c : Codec M) m discard fd x v buf pos rest :
  codec_lawful c -> c_wf c m -> len_size (c_size c m) < 2 ^ 60 ->
  (encoded ← c_marshal c m; Ok (delimited (field_tag fd) encoded)) = Ok buf ->
  (forall bz r r', read_delimited r = Ok (bz, r') -> c_unmarshal c discard (c_empty c) bz = Ok m ->
     read_kind (f_kind fd) discard (f_get fd x) r = Ok (v, r')) ->
  fd ∈ d_fields d -> 0 <= pos -> pos + zlen (buf ++ rest) < 2 ^ 60 ->
  exists x', updated fd v x x' /\
    run discard x (pos, buf ++ rest) = run discard x' (pos + zlen buf, rest).
Proof.
  intros L W Sm (bz & Eb & [= <-])%bind_Ok Rd F P B. pose proof (len_size_gt (c_size c m)).
  destruct (codec_exact c L m W) as (bz' & Em & Lz & U); [lia|].
  rewrite Em in Eb. injection Eb as ->. apply run_delimited; [done..|]. intros r r' E. by eapply Rd.
Qed.

(** Reading what a field wrote, with the field unset before. *)
Lemma run_kind discard fd x v buf pos rest :
  fd ∈ d_fields d -> kind_lawful (f_kind fd) -> kind_wf (f_kind fd) v ->
  f_get fd x = kind_zero (f_kind fd) ->
  kind_bytes (f_kind fd) (field_tag fd) v = Ok buf ->
  0 <= pos -> pos + zlen (buf ++ rest) < 2 ^ 60 -> kind_size (f_kind fd) v < 2 ^ 60 ->
  exists x', updated fd v x x' /\
    run discard x (pos, buf ++ rest) = run discard x' (pos + zlen buf, rest).
Proof.
  intros F L W Z0 E P B Sz.
  assert (v = kind_zero (f_kind fd) -> buf = [] -> exists x', updated fd v x x' /\
    run discard x (pos, buf ++ rest) = run discard x' (pos + zlen buf, rest)) as Skipped.
  { intros -> ->. by apply run_skipped. }
  destruct fd as [A k num name go get set].
  destruct k; cbn [f_kind f_type f_get kind_bytes kind_zero kind_size kind_wf kind_lawful] in *.
  - injection E as <-. destruct (Z.ltb_spec 0 (zlen (bytes_of_string v))) as [Ps|Ps].
    2: { apply Skipped; [|done]. rewrite <- (string_of_bytes_of_string v).
         destruct (bytes_of_string v); [done|]. rewrite zlen_cons in Ps. pose proof (zlen_nonneg l). lia. }
    apply run_delimited; [done..|]. intros r r' E. cbn [read_kind f_kind]. rewrite (rt_Ok _ _ E).
    cbn [mbind outcome_bind]. by rewrite string_of_bytes_of_string.
  - injection E as <-. destruct (Z.ltb_spec 0 (zlen v)) as [Ps|Ps].
    2: { apply Skipped; [|done]. destruct v; [done|]. rewrite zlen_cons in Ps. pose proof (zlen_nonneg v). lia. }
    apply run_delimited; [done..|]. intros r r' E. cbn [read_kind f_kind]. by rewrite (rt_Ok _ _ E).
  - injection E as <-. destruct (Z.eqb_spec v 0) as [->|N]; cbn [negb] in *; [by apply Skipped|].
    rewrite uint64_small in * by done. rewrite <- app_comm_cons in *. rewrite zlen_cons, EncodeVarint_len by done.
    replace (pos + (1 + Sov v)) with (pos + 1 + Sov v) by lia.
    apply run_field; [done|lia|]. cbn [read_kind f_kind]. rewrite read_EncodeVarint by (done || lia). done.
  - apply (run_message c v); try done. intros bz r r' E1 U. cbn [read_kind f_kind f_get]. rewrite (rt_Ok _ _ E1).
    cbn [mbind outcome_bind]. by rewrite Z0, U.
  - destruct v as [m|]; [|injection E as <-; by apply Skipped].
    apply (run_message c m); try done. intros bz r r' E1 U. cbn [read_kind f_kind f_get]. rewrite (rt_Ok _ _ E1).
    cbn [mbind outcome_bind]. rewrite Z0. cbn [default from_option]. by rewrite U.
  - destruct (run_rep c (MkField (KRepVal c) num name go get set) (fun old k => old ++ omap id k) discard
      (map Some v)) with buf x pos rest as (x' & U & R); try done; [| | |by apply map_Some_wf|].
    + intros old bz m r r' E1 U. cbn [read_kind f_kind]. rewrite (rt_Ok _ _ E1).
      cbn [mbind outcome_bind]. by rewrite U.
    + intros old. apply app_nil_r.
    + intros old k k'. rewrite omap_app. by rewrite <- app_assoc.
    + exists x'. split; [|done]. cbn [f_get] in U. rewrite Z0 in U. cbn [app] in U.
      rewrite omap_map_Some in U. exact U.
  - destruct (run_rep c (MkField (KRep c) num name go get set) app discard v) with buf x pos rest
      as (x' & U & R); try done.
    + intros old bz m r r' E1 U. cbn [read_kind f_kind]. rewrite (rt_Ok _ _ E1).
      cbn [mbind outcome_bind]. by rewrite U.
    + intros old. apply app_nil_r.
    + intros old k k'. by rewrite <- app_assoc.
    + cbn [f_get] in U. rewrite Z0 in U. by exists x'.
Qed.

(** ** Whole messages *)

Definition fields_size (fs : list (field T)) (x : T) : Z :=
  foldr (fun fd n => kind_size (f_kind fd) (f_get fd x) + n) (zlen (d_unknown d x)) fs.

Lemma fields_size_nonneg fs x :
  Forall (fun fd => kind_lawful (f_kind fd)) fs ->
  Forall (fun fd => kind_wf (f_kind fd) (f_get fd x)) fs -> 0 <= fields_size fs x.
Proof.
  induction 1 as [|fd fs L _ IH]; intros W; cbn [fields_size foldr]; [apply zlen_nonneg|].
  apply Forall_cons in W as [W1 W]. pose proof (kind_size_nonneg (f_kind fd) (f_get fd x) L W1).
  specialize (IH W). unfold fields_size in IH. lia.
Qed.

Lemma kind_size_le fs x fd :
  Forall (fun fd => kind_lawful (f_kind fd)) fs ->
  Forall (fun fd => kind_wf (f_kind fd) (f_get fd x)) fs -> fd ∈ fs ->
  kind_size (f_kind fd) (f_get fd x) <= fields_size fs x.
Proof.
  induction 1 as [|fd' fs L Ls IH]; intros W F; [by apply elem_of_nil in F|].
  apply Forall_cons in W as [W1 W]. cbn [fields_size foldr]. fold (fields_size fs x).
  pose proof (kind_size_nonneg (f_kind fd') (f_get fd' x) L W1). pose proof (fields_size_nonneg fs x Ls W).
  apply elem_of_cons in F as [->|F]; [lia|]. specialize (IH W F). lia.
Qed.

Lemma fields_bytes_exact fs x :
  Forall (fun fd => kind_lawful (f_kind fd)) fs ->
  Forall (fun fd => kind_wf (f_kind fd) (f_get fd x)) fs -> fields_size fs x < 2 ^ 60 ->
  exists buf, fields_bytes d fs x = Ok buf /\ zlen buf = fields_size fs x.
Proof.
  induction 1 as [|fd fs L Ls IH]; intros W B; cbn [fields_bytes]; [by eexists|].
  apply Forall_cons in W as [W1 W]. cbn [fields_size foldr] in B |- *. fold (fields_size fs x) in B |- *.
  pose proof (kind_size_nonneg (f_kind fd) (f_get fd x) L W1).
  pose proof (fields_size_nonneg fs x Ls W).
  destruct IH as (buf & -> & Lb); [done|lia|]. cbn [mbind outcome_bind].
  destruct (kind_bytes_exact (f_kind fd) (field_tag fd) (f_get fd x) L W1) as (bz & -> & Lz); [lia|].
  eexists. split; [done|]. rewrite zlen_app. lia.
Qed.

Lemma run_fields discard x : desc_wf d x ->
  forall fs ps acc buf pos, d_fields d = ps ++ fs ->
  (forall fd, fd ∈ ps -> f_get fd acc = f_get fd x) ->
  (forall fd, fd ∈ fs -> f_get fd acc = kind_zero (f_kind fd)) ->
  d_unknown d acc = [] -> fields_bytes d fs x = Ok buf ->
  0 <= pos -> pos + zlen buf < 2 ^ 60 -> fields_size fs x < 2 ^ 60 ->
  run discard acc (pos, buf) = Ok x.
Proof.
  intros [Wu W]. pose proof (ok_kinds d O) as K. pose proof (ok_nums d O) as N. rewrite Forall_forall in W, K.
  induction fs as [|fd fs IH]; intros ps acc buf pos E P Z0 U B Ps Bd Sz; cbn [fields_bytes] in B.
  - injection B as <-. rewrite Wu. unfold run. cbn. f_equal. apply (ok_ext d O); [congruence|].
    apply Forall_forall. intros fd F. apply P. by rewrite E, app_nil_r in F.
  - apply bind_Ok in B as (buf' & B' & B). apply bind_Ok in B as (bz & Bz & B). injection B as <-.
    assert (fd ∈ d_fields d) as F by (rewrite E; apply elem_of_app; right; left).
    cbn [fields_size foldr] in Sz. fold (fields_size fs x) in Sz.
    pose proof (kind_size_nonneg (f_kind fd) (f_get fd x) (K fd F) (W fd F)).
    assert (0 <= fields_size fs x).
    { apply fields_size_nonneg; apply Forall_forall; intros fd' F'; [apply K|apply W];
        rewrite E; apply elem_of_app; right; by right. }
    destruct (run_kind discard fd acc (f_get fd x) bz pos buf' F (K fd F) (W fd F)) as (acc' & (G & U' & Oth) & R);
      [apply Z0; left|done|done|done|lia|]. rewrite R.
    rewrite zlen_app in Bd. pose proof (zlen_nonneg bz).
    assert (forall fd', fd' ∈ ps \/ fd' ∈ fs -> f_num fd <> f_num fd') as D.
    { intros fd' F' En. rewrite E, map_app in N. cbn [map] in N.
      apply NoDup_app in N as (_ & N1 & [N2 _]%NoDup_cons). destruct F' as [F'|F'].
      - apply (N1 (f_num fd')); [by apply list_elem_of_In, in_map, list_elem_of_In|]. rewrite <- En. left.
      - apply N2. rewrite En. by apply list_elem_of_In, in_map, list_elem_of_In. }
    apply (IH (ps ++ [fd])); [by rewrite <- app_assoc| | |congruence|done|lia|lia|lia].
    + intros fd' [F'|F'%list_elem_of_singleton]%elem_of_app; [|by subst].
      rewrite Oth; [by apply P| |apply D; by left]. rewrite E. apply elem_of_app. by left.
    + intros fd' F'. rewrite Oth; [by apply Z0; right| |apply D; by right].
      rewrite E. apply elem_of_app. right. by right.
Qed.

(** What was written is read back. *)
Lemma table_exact x : desc_wf d x -> Size d x < 2 ^ 60 ->
  exists buf, fields_bytes d (d_fields d) x = Ok buf /\ zlen buf = Size d x /\
    forall discard, Unmarshal d discard (d_empty d) buf = Ok x.
Proof.
  intros Wf B. pose proof Wf as [Wu W]. change (Size d x) with (fields_size (d_fields d) x) in B |- *.
  destruct (fields_bytes_exact (d_fields d) x (ok_kinds d O) W B) as (buf & E & L).
  exists buf. split; [done|]. split; [done|]. intros discard.
  apply (run_fields discard x Wf (d_fields d) [] (d_empty d) buf 0); try done; try lia.
  - by intros fd ?%elem_of_nil.
  - apply (proj1 (Forall_forall _ _) (ok_zero d O)).
  - apply (ok_zero_unknown d O).
Qed.

Lemma Size_nonneg x : desc_wf d x -> 0 <= Size d x.
Proof. intros [_ W]. apply (fields_size_nonneg _ x (ok_kinds d O) W). Qed.

Lemma Unmarshal_returns discard x bz : zlen bz < 2 ^ 63 -> returns (Unmarshal d discard x bz).
Proof. intros B. apply unmarshal_loop_total; [done|]. simpl. lia. Qed.
End Message.
End Decode.
