(* ===== verification/Pulsar.v ===== *)
(** The fast-reflection code protoc-gen-go-pulsar generates for the API messages
    (the *.pulsar.go files under api): the closures of ProtoMethods, on the
    loops of ProtoTable.v, the reflection methods and the list values.  The
    helpers of github.com/cosmos/cosmos-proto/runtime are parameters. *)

From stdpp Require Import base list strings.
From Stdlib Require Import ZArith Lia.
From Stdlib.Init Require Import Byte.
From S2P Require Import Prelude Sdk LockPb ProtoTable.

Local Open Scope Z_scope.

(** * Methods *)

Section Methods.
Context `{WireRuntime} {T : Type} (d : Desc T).

(** [make([]byte, size)] filled from its end. *)
Definition filled (size : Z) (buf : bytes) : outcome bytes :=
  if size <? zlen buf then Panic SliceBounds
  else Ok (replicate (Z.to_nat (size - zlen buf)) x00 ++ buf).

Definition Marshal (x : T) : outcome bytes :=
  buf ← fields_bytes d (d_fields d) x;
  filled (Size d x) buf.

(** The closures with their nil case and the buffer they append to. *)
Definition ProtoMethods_Size (x : option T) : Z := match x with Some x => Size d x | None => 0 end.
Definition ProtoMethods_Marshal (x : option T) (Buf : bytes) : outcome bytes :=
  match x with
  | Some x => dAtA ← Marshal x; Ok (Buf ++ dAtA)
  | None => Ok Buf
  end.

Definition ProtoMethods_Unmarshal (discard : bool) (x : option T) (dAtA : bytes) : outcome (option T) :=
  match x with
  | Some x => Some <$> Unmarshal d discard x dAtA
  | None => Ok None
  end.
End Methods.

(** * Reflection *)

(** The kinds of fields the generator has: messages are always pointers. *)
Definition pulsar_kind {A} (k : fkind A) : bool :=
  match k with KVal _ | KRepVal _ => false | _ => true end.

(** Whether a value counts as set. *)
Definition kind_set {A} (k : fkind A) : A -> bool :=
  match k with
  | KString => fun s => negb (String.eqb s "")
  | KBytes => fun b => negb (zlen b =? 0)
  | KUint64 => fun n => negb (n =? 0)
  | KVal _ => fun _ => true
  | KMsg _ => fun o => match o with Some _ => true | None => false end
  | KRepVal _ => fun l => negb (zlen l =? 0)
  | KRep _ => fun l => negb (zlen l =? 0)
  end.

Section Reflection.
Context {T : Type} (d : Desc T).

(** A [protoreflect.Value] handed to [Set], seen through the type assertions the
    generated code makes: its contents at the type of a field, if it has it. *)
Definition Value : Type := forall fd : field T, option (f_type fd).

Definition full_name (fd : field T) : string := d_fullname d +:+ "." +:+ f_name fd.

(** [switch fd.FullName()]; a descriptor of another message panics. *)
Definition by_name (name : string) : outcome (field T) :=
  match list_find (fun fd => full_name fd = name) (d_fields d) with
  | Some (_, fd) => Ok fd
  | None => Panic (ExtPanic ("message " +:+ d_fullname d +:+ " does not contain field %s"))
  end.

Definition Has (x : T) (name : string) : outcome bool :=
  fd ← by_name name;
  Ok (kind_set (f_kind fd) (f_get fd x)).

Definition Clear (x : T) (name : string) : outcome T :=
  fd ← by_name name;
  Ok (f_set fd (kind_zero (f_kind fd)) x).

Definition Get (x : T) (name : string) : outcome { fd : field T & f_type fd } :=
  fd ← by_name name;
  Ok (existT fd (f_get fd x)).

Definition Set_ (x : T) (name : string) (value : Value) : outcome T :=
  fd ← by_name name;
  match value fd with
  | Some v => Ok (f_set fd v x)
  | None => Panic (ExtPanic "type assertion")
  end.

(** The message after [Mutable]: a nil message field is allocated; nil and empty
    slices are not distinguished. *)
Definition kind_mutable {A} (k : fkind A) : option (A -> A) :=
  match k with
  | KString | KBytes | KUint64 | KVal _ => None
  | KMsg c => Some (fun o => match o with Some m => Some m | None => Some (c_empty c) end)
  | KRepVal _ => Some (fun l => l)
  | KRep _ => Some (fun l => l)
  end.

Definition Mutable (x : T) (name : string) : outcome T :=
  fd ← by_name name;
  match kind_mutable (f_kind fd) with
  | Some f => Ok (f_set fd (f (f_get fd x)) x)
  | None => Panic (ExtPanic ("field " +:+ f_name fd +:+ " of message " +:+ d_fullname d +:+ " is not mutable"))
  end.

Definition kind_new {A} (k : fkind A) : A :=
  match k with
  | KString => EmptyString
  | KBytes => []
  | KUint64 => 0
  | KVal c => c_empty c
  | KMsg c => Some (c_empty c)
  | KRepVal _ => []
  | KRep _ => []
  end.

Definition NewField (name : string) : outcome { fd : field T & f_type fd } :=
  fd ← by_name name;
  Ok (existT fd (kind_new (f_kind fd))).

(** [Range]: the callback sees each populated field in turn, until it returns
    false; [acc] is what it accumulates. *)
Fixpoint range_fields {A} (f : forall fd : field T, f_type fd -> A -> A * bool) (fs : list (field T))
    (x : T) (acc : A) : A :=
  match fs with
  | [] => acc
  | fd :: fs' =>
      if kind_set (f_kind fd) (f_get fd x) then
        let '(acc, continue) := f fd (f_get fd x) acc in
        if continue then range_fields f fs' x acc else acc
      else range_fields f fs' x acc
  end.
Definition Range {A} (f : forall fd : field T, f_type fd -> A -> A * bool) (x : T) (acc : A) : A :=
  range_fields f (d_fields d) x acc.

(** [WhichOneof]: no message has a oneof. *)
Definition WhichOneof (x : T) (name : string) : outcome (field T) :=
  Panic (ExtPanic ("%s is not a oneof field in " +:+ d_fullname d)).

Definition GetUnknown (x : T) : bytes := d_unknown d x.
Definition SetUnknown (x : T) (fields : bytes) : T := d_set_unknown d fields x.
End Reflection.

(** The lists of repeated fields: [None] is a list value without a slice. *)
Section RepeatedList.
Context {M : Type} (c : Codec M).

Definition list_Len (l : option (list (option M))) : Z :=
  match l with Some l => zlen l | None => 0 end.

(** Indexing the slice. *)
Definition list_Get (l : option (list (option M))) (i : Z) : outcome (option M) :=
  match l with
  | None => Panic NilDeref
  | Some l =>
      if i <? 0 then Panic SliceBounds else
      match l !! Z.to_nat i with Some e => Ok e | None => Panic SliceBounds end
  end.

Definition list_Set (l : option (list (option M))) (i : Z) (v : option M)
    : outcome (option (list (option M))) :=
  match l with
  | None => Panic NilDeref
  | Some l =>
      if (i <? 0) || (zlen l <=? i) then Panic SliceBounds else Ok (Some (<[Z.to_nat i := v]> l))
  end.

Definition list_Append (l : option (list (option M))) (v : option M)
    : outcome (option (list (option M))) :=
  match l with None => Panic NilDeref | Some l => Ok (Some (l ++ [v])) end.

Definition list_AppendMutable (l : option (list (option M))) : outcome (option (list (option M))) :=
  list_Append l (Some (c_empty c)).

(** Within the length of the slice; past it the result depends on the capacity,
    which is not modelled. *)
Definition list_Truncate (l : option (list (option M))) (n : Z) : outcome (option (list (option M))) :=
  match l with
  | None => Panic NilDeref
  | Some l => if (n <? 0) || (zlen l <? n) then Panic SliceBounds else Ok (Some (take (Z.to_nat n) l))
  end.

Definition list_NewElement : option M := Some (c_empty c).
Definition list_IsValid (l : option (list (option M))) : bool :=
  match l with Some _ => true | None => false end.
End RepeatedList.

(** * A message's codec *)

(** A nil pointer is written as the empty message. *)
Definition desc_codec `{WireRuntime} {T} (d : Desc T) : Codec T :=
  MkCodec (d_empty d) (Size d) (Marshal d) (Ok []) (Unmarshal d) (desc_wf d).

(** * The methods of one message *)

(** [ProtoReflect()]: the reflection methods of a message type. *)
Record Reflection (T : Type) := MkReflection {
  r_Has : T -> string -> outcome bool;
  r_Clear : T -> string -> outcome T;
  r_Get : T -> string -> outcome { fd : field T & f_type fd };
  r_Set : T -> string -> Value (T := T) -> outcome T;
  r_Mutable : T -> string -> outcome T;
  r_NewField : string -> outcome { fd : field T & f_type fd };
  r_Range : forall A, (forall fd : field T, f_type fd -> A -> A * bool) -> T -> A -> A;
}.
Arguments MkReflection {T}.
Arguments r_Has {T}.
Arguments r_Clear {T}.
Arguments r_Get {T}.
Arguments r_Set {T}.
Arguments r_Mutable {T}.
Arguments r_NewField {T}.
Arguments r_Range {T}.

Definition reflect {T} (d : Desc T) : Reflection T :=
  MkReflection (Has d) (Clear d) (Get d) (Set_ d) (Mutable d) (NewField d) (fun A => Range d).

(** [protoreflect.MessageType]: [Zero] is a nil message. *)
Record MessageType (T : Type) := MkMessageType {
  mt_Zero : option T;
  mt_New : T;
  mt_Descriptor : string;
}.
Arguments MkMessageType {T}.
Arguments mt_Zero {T}.
Arguments mt_New {T}.
Arguments mt_Descriptor {T}.

Definition message_type {T} (d : Desc T) : MessageType T :=
  MkMessageType None (d_empty d) (d_fullname d).

(** [IsValid] of a message. *)
Definition message_IsValid {T} (x : option T) : bool := match x with Some _ => true | None => false end.

(** A field with its getter, which reads nil messages too. *)
Definition getter (T : Type) : Type := { fd : field T & option T -> f_type fd }.

(** A message of a package: its table and its methods. *)
Record message := MkMessage {
  m_type : Type;
  m_desc : Desc m_type;
  m_ProtoReflect : Reflection m_type;
  m_Type : MessageType m_type;
  m_Reset : m_type -> m_type;
  m_getters : list (getter m_type);
  m_size : option m_type -> Z;
  m_marshal : option m_type -> bytes -> outcome bytes;
  m_unmarshal : bool -> option m_type -> bytes -> outcome (option m_type);
}.
Arguments MkMessage {m_type}.

(** The list value of a repeated field. *)
Record list_value := MkListValue {
  lv_type : Type;
  lv_codec : Codec lv_type;
  lv_Len : option (list (option lv_type)) -> Z;
  lv_Get : option (list (option lv_type)) -> Z -> outcome (option lv_type);
  lv_Set : option (list (option lv_type)) -> Z -> option lv_type -> outcome (option (list (option lv_type)));
  lv_Append : option (list (option lv_type)) -> option lv_type -> outcome (option (list (option lv_type)));
  lv_AppendMutable : option (list (option lv_type)) -> outcome (option (list (option lv_type)));
  lv_Truncate : option (list (option lv_type)) -> Z -> outcome (option (list (option lv_type)));
  lv_NewElement : option lv_type;
  lv_IsValid : option (list (option lv_type)) -> bool;
}.
Arguments MkListValue {lv_type}.
