(* ===== verification/PulsarProps.v ===== *)
(** The pulsar codecs are lawful, and reflection reads what it wrote. *)

From stdpp Require Import base list strings.
From Stdlib Require Import ZArith Lia.
From Stdlib.Init Require Import Byte.
From S2P Require Import Prelude Sdk LockPb ProtoTable ProtoTableProps Pulsar.

Local Open Scope Z_scope.

Lemma filled_exact buf : filled (zlen buf) buf = Ok buf.
Proof. unfold filled. by rewrite Z.ltb_irrefl, Z.sub_diag. Qed.

(** The codec of a message with a well-formed table is lawful. *)
Lemma desc_codec_lawful `{WireLaws} {T} (d : Desc T) (O : desc_ok d) : codec_lawful (desc_codec d).
Proof.
  split; cbn [c_wf c_size c_marshal c_unmarshal c_empty desc_codec].
  - intros x Wf B. destruct (table_exact d O x Wf B) as (buf & E & L & U). exists buf.
    unfold Marshal. rewrite E. cbn [mbind outcome_bind]. rewrite <- L. split; [apply filled_exact|done].
  - apply (Size_nonneg d O).
  - apply (Unmarshal_returns d O).
Qed.

(** * Reflection *)

Section ReflectionLaws.
Context `{WireLaws} {T : Type} (d : Desc T) (O : desc_ok d).

(** The field looked up by its full name is the one the table lists. *)
Lemma by_name_field fd : fd ∈ d_fields d -> by_name d (full_name d fd) = Ok fd.
Proof.
  intros F. unfold by_name. destruct (list_find _ _) as [[i fd']|] eqn:E.
  - apply list_find_Some in E as (E & N & _). f_equal. apply list_elem_of_lookup_2 in E.
    unfold full_name in N. do 2 apply (inj (String.append _)) in N.
    by apply (map_NoDup_eq f_name (d_fields d)); [apply (ok_names d O)|..].
  - apply list_find_None in E. rewrite Forall_forall in E. by destruct (E fd F).
Qed.

(** A name that is not in the table is refused by every method. *)
Lemma by_name_other name : (forall fd, fd ∈ d_fields d -> name <> full_name d fd) ->
  exists p, by_name d name = Panic p.
Proof.
  intros N. unfold by_name. destruct (list_find _ _) as [[i fd']|] eqn:E; [|by eexists].
  apply list_find_Some in E as (E & E' & _). by destruct (N fd' (list_elem_of_lookup_2 _ _ _ E)).
Qed.

(** [Range] with a callback that never stops sees the populated fields in the
    order of the table. *)
Lemma range_fields_all {A} (f : forall fd : field T, f_type fd -> A -> A) fs x acc :
  range_fields (fun fd v a => (f fd v a, true)) fs x acc
  = foldl (fun a fd => f fd (f_get fd x) a) acc (filter (fun fd => kind_set (f_kind fd) (f_get fd x)) fs).
Proof.
  revert acc. induction fs as [|fd fs IH]; intros acc; [done|]. cbn [range_fields].
  rewrite filter_cons. destruct (kind_set _ _) eqn:K; cbn; [|apply IH]. by rewrite IH.
Qed.

Lemma kind_zero_unset {A} (k : fkind A) : pulsar_kind k = true -> kind_set k (kind_zero k) = false.
Proof. by destruct k. Qed.
End ReflectionLaws.
