(* ===== verification/ApiLockup.v ===== *)
(** The lockup API messages: the structs and the tables of the pulsar files under
    api/lockup, with their Size, Marshal, Unmarshal and reflection.  The messages
    of other packages (Coin, PageRequest, PageResponse) are parameters. *)

From stdpp Require Import base list strings.
From Stdlib Require Import ZArith Lia.
From S2P Require Import Prelude Sdk LockPb ProtoTable Pulsar.

Local Open Scope Z_scope.

(** cosmos.base.v1beta1.Coin and the pagination messages. *)
Class ApiExternal := {
  ApiCoin : Type; ApiPageRequest : Type; ApiPageResponse : Type;
  Coin_codec : Codec ApiCoin;
  PageRequest_codec : Codec ApiPageRequest;
  PageResponse_codec : Codec ApiPageResponse;
}.

Section Messages.
Context `{WireRuntime} `{ApiExternal}.

(** ** api/lockup/v1/lock.pulsar.go *)

Record api_Lock := Mk_api_Lock {
  api_Lock_UnlockDate : string;
  api_Lock_Amount : string;
  api_Lock_unknownFields : bytes;
}.

Definition api_Lock_UnlockDate_field : field api_Lock :=
  MkField KString 1 "unlock_date" "UnlockDate" api_Lock_UnlockDate
    (fun v x => Mk_api_Lock v (api_Lock_Amount x) (api_Lock_unknownFields x)).

Definition api_Lock_Amount_field : field api_Lock :=
  MkField KString 2 "amount" "Amount" api_Lock_Amount
    (fun v x => Mk_api_Lock (api_Lock_UnlockDate x) v (api_Lock_unknownFields x)).

Definition api_Lock_desc : Desc api_Lock :=
  MkDesc "lockup.v1.Lock" "Lock"
    [api_Lock_UnlockDate_field; api_Lock_Amount_field]
    (Mk_api_Lock EmptyString EmptyString [])
    api_Lock_unknownFields (fun v x => Mk_api_Lock (api_Lock_UnlockDate x) (api_Lock_Amount x) v).

Definition api_Lock_Has := Has api_Lock_desc.
Definition api_Lock_Clear := Clear api_Lock_desc.
Definition api_Lock_Get := Get api_Lock_desc.
Definition api_Lock_Set := Set_ api_Lock_desc.
Definition api_Lock_Mutable := Mutable api_Lock_desc.
Definition api_Lock_NewField := NewField api_Lock_desc.
Definition api_Lock_WhichOneof := WhichOneof api_Lock_desc.
Definition api_Lock_GetUnknown := GetUnknown api_Lock_desc.
Definition api_Lock_SetUnknown := SetUnknown api_Lock_desc.
Definition api_Lock_Range {A} := Range api_Lock_desc (A := A).
Definition api_Lock_ProtoReflect : Reflection api_Lock :=
  MkReflection api_Lock_Has api_Lock_Clear api_Lock_Get api_Lock_Set api_Lock_Mutable
      api_Lock_NewField (fun A => api_Lock_Range).
Definition api_Lock_messageType : MessageType api_Lock := message_type api_Lock_desc.
Definition api_Lock_IsValid := message_IsValid (T := api_Lock).
Definition api_Lock_Reset (x : api_Lock) : api_Lock :=
  Mk_api_Lock EmptyString EmptyString [].
Definition api_Lock_GetUnlockDate (x : option api_Lock) : string :=
  match x with Some x => api_Lock_UnlockDate x | None => EmptyString end.
Definition api_Lock_GetAmount (x : option api_Lock) : string :=
  match x with Some x => api_Lock_Amount x | None => EmptyString end.
Definition api_Lock_size := ProtoMethods_Size api_Lock_desc.
Definition api_Lock_marshal := ProtoMethods_Marshal api_Lock_desc.
Definition api_Lock_unmarshal := ProtoMethods_Unmarshal api_Lock_desc.

Record api_Locks := Mk_api_Locks {
  api_Locks_Locks : list (option api_Lock);
  api_Locks_unknownFields : bytes;
}.

Definition api_Locks_Locks_field : field api_Locks :=
  MkField (KRep (desc_codec api_Lock_desc)) 1 "locks" "Locks" api_Locks_Locks
    (fun v x => Mk_api_Locks v (api_Locks_unknownFields x)).

Definition api_Locks_desc : Desc api_Locks :=
  MkDesc "lockup.v1.Locks" "Locks"
    [api_Locks_Locks_field]
    (Mk_api_Locks [] [])
    api_Locks_unknownFields (fun v x => Mk_api_Locks (api_Locks_Locks x) v).

Definition api_Locks_Has := Has api_Locks_desc.
Definition api_Locks_Clear := Clear api_Locks_desc.
Definition api_Locks_Get := Get api_Locks_desc.
Definition api_Locks_Set := Set_ api_Locks_desc.
Definition api_Locks_Mutable := Mutable api_Locks_desc.
Definition api_Locks_NewField := NewField api_Locks_desc.
Definition api_Locks_WhichOneof := WhichOneof api_Locks_desc.
Definition api_Locks_GetUnknown := GetUnknown api_Locks_desc.
Definition api_Locks_SetUnknown := SetUnknown api_Locks_desc.
Definition api_Locks_Range {A} := Range api_Locks_desc (A := A).
Definition api_Locks_ProtoReflect : Reflection api_Locks :=
  MkReflection api_Locks_Has api_Locks_Clear api_Locks_Get api_Locks_Set api_Locks_Mutable
      api_Locks_NewField (fun A => api_Locks_Range).
Definition api_Locks_messageType : MessageType api_Locks := message_type api_Locks_desc.
Definition api_Locks_IsValid := message_IsValid (T := api_Locks).
Definition api_Locks_Reset (x : api_Locks) : api_Locks :=
  Mk_api_Locks [] [].
Definition api_Locks_GetLocks (x : option api_Locks) : list (option api_Lock) :=
  match x with Some x => api_Locks_Locks x | None => [] end.
Definition api_Locks_size := ProtoMethods_Size api_Locks_desc.
Definition api_Locks_marshal := ProtoMethods_Marshal api_Locks_desc.
Definition api_Locks_unmarshal := ProtoMethods_Unmarshal api_Locks_desc.

(** The list value of Locks. *)
Definition api_Locks_1_list_Len := list_Len (M := api_Lock).
Definition api_Locks_1_list_Get := list_Get (M := api_Lock).
Definition api_Locks_1_list_Set := list_Set (M := api_Lock).
Definition api_Locks_1_list_Append := list_Append (M := api_Lock).
Definition api_Locks_1_list_AppendMutable := list_AppendMutable (desc_codec api_Lock_desc).
Definition api_Locks_1_list_Truncate := list_Truncate (M := api_Lock).
Definition api_Locks_1_list_NewElement := list_NewElement (desc_codec api_Lock_desc).
Definition api_Locks_1_list_IsValid := list_IsValid (M := api_Lock).

(** ** api/lockup/v1/extension.pulsar.go *)

Record api_Extension := Mk_api_Extension {
  api_Extension_FromDate : string;
  api_Extension_ToDate : string;
  api_Extension_Amount : option ApiCoin;
  api_Extension_unknownFields : bytes;
}.

Definition api_Extension_FromDate_field : field api_Extension :=
  MkField KString 1 "from_date" "FromDate" api_Extension_FromDate
    (fun v x => Mk_api_Extension v (api_Extension_ToDate x) (api_Extension_Amount x)
        (api_Extension_unknownFields x)).

Definition api_Extension_ToDate_field : field api_Extension :=
  MkField KString 2 "to_date" "ToDate" api_Extension_ToDate
    (fun v x => Mk_api_Extension (api_Extension_FromDate x) v (api_Extension_Amount x)
        (api_Extension_unknownFields x)).

Definition api_Extension_Amount_field : field api_Extension :=
  MkField (KMsg Coin_codec) 3 "amount" "Amount" api_Extension_Amount
    (fun v x => Mk_api_Extension (api_Extension_FromDate x) (api_Extension_ToDate x) v
        (api_Extension_unknownFields x)).

Definition api_Extension_desc : Desc api_Extension :=
  MkDesc "lockup.v1.Extension" "Extension"
    [api_Extension_FromDate_field; api_Extension_ToDate_field; api_Extension_Amount_field]
    (Mk_api_Extension EmptyString EmptyString None [])
    api_Extension_unknownFields (fun v x => Mk_api_Extension (api_Extension_FromDate x)
        (api_Extension_ToDate x) (api_Extension_Amount x) v).

Definition api_Extension_Has := Has api_Extension_desc.
Definition api_Extension_Clear := Clear api_Extension_desc.
Definition api_Extension_Get := Get api_Extension_desc.
Definition api_Extension_Set := Set_ api_Extension_desc.
Definition api_Extension_Mutable := Mutable api_Extension_desc.
Definition api_Extension_NewField := NewField api_Extension_desc.
Definition api_Extension_WhichOneof := WhichOneof api_Extension_desc.
Definition api_Extension_GetUnknown := GetUnknown api_Extension_desc.
Definition api_Extension_SetUnknown := SetUnknown api_Extension_desc.
Definition api_Extension_Range {A} := Range api_Extension_desc (A := A).
Definition api_Extension_ProtoReflect : Reflection api_Extension :=
  MkReflection api_Extension_Has api_Extension_Clear api_Extension_Get api_Extension_Set
      api_Extension_Mutable api_Extension_NewField (fun A => api_Extension_Range).
Definition api_Extension_messageType : MessageType api_Extension := message_type api_Extension_desc.
Definition api_Extension_IsValid := message_IsValid (T := api_Extension).
Definition api_Extension_Reset (x : api_Extension) : api_Extension :=
  Mk_api_Extension EmptyString EmptyString None [].
Definition api_Extension_GetFromDate (x : option api_Extension) : string :=
  match x with Some x => api_Extension_FromDate x | None => EmptyString end.
Definition api_Extension_GetToDate (x : option api_Extension) : string :=
  match x with Some x => api_Extension_ToDate x | None => EmptyString end.
Definition api_Extension_GetAmount (x : option api_Extension) : option ApiCoin :=
  match x with Some x => api_Extension_Amount x | None => None end.
Definition api_Extension_size := ProtoMethods_Size api_Extension_desc.
Definition api_Extension_marshal := ProtoMethods_Marshal api_Extension_desc.
Definition api_Extension_unmarshal := ProtoMethods_Unmarshal api_Extension_desc.

(** ** api/lockup/v1/output.pulsar.go *)

Record api_MultiSendDelegateAndLockOutput := Mk_api_MultiSendDelegateAndLockOutput {
  api_MultiSendDelegateAndLockOutput_FromAddress : string;
  api_MultiSendDelegateAndLockOutput_ToAddress : string;
  api_MultiSendDelegateAndLockOutput_ValidatorAddress : string;
  api_MultiSendDelegateAndLockOutput_UnlockDate : string;
  api_MultiSendDelegateAndLockOutput_Amount : option ApiCoin;
  api_MultiSendDelegateAndLockOutput_unknownFields : bytes;
}.

Definition api_MultiSendDelegateAndLockOutput_FromAddress_field : field
    api_MultiSendDelegateAndLockOutput :=
  MkField KString 1 "from_address" "FromAddress" api_MultiSendDelegateAndLockOutput_FromAddress
    (fun v x => Mk_api_MultiSendDelegateAndLockOutput v
        (api_MultiSendDelegateAndLockOutput_ToAddress x)
        (api_MultiSendDelegateAndLockOutput_ValidatorAddress x)
        (api_MultiSendDelegateAndLockOutput_UnlockDate x)
        (api_MultiSendDelegateAndLockOutput_Amount x)
        (api_MultiSendDelegateAndLockOutput_unknownFields x)).

Definition api_MultiSendDelegateAndLockOutput_ToAddress_field : field
    api_MultiSendDelegateAndLockOutput :=
  MkField KString 2 "to_address" "ToAddress" api_MultiSendDelegateAndLockOutput_ToAddress
    (fun v x => Mk_api_MultiSendDelegateAndLockOutput
        (api_MultiSendDelegateAndLockOutput_FromAddress x) v
        (api_MultiSendDelegateAndLockOutput_ValidatorAddress x)
        (api_MultiSendDelegateAndLockOutput_UnlockDate x)
        (api_MultiSendDelegateAndLockOutput_Amount x)
        (api_MultiSendDelegateAndLockOutput_unknownFields x)).

Definition api_MultiSendDelegateAndLockOutput_ValidatorAddress_field : field
    api_MultiSendDelegateAndLockOutput :=
  MkField KString 3 "validator_address" "ValidatorAddress"
      api_MultiSendDelegateAndLockOutput_ValidatorAddress
    (fun v x => Mk_api_MultiSendDelegateAndLockOutput
        (api_MultiSendDelegateAndLockOutput_FromAddress x)
        (api_MultiSendDelegateAndLockOutput_ToAddress x) v
        (api_MultiSendDelegateAndLockOutput_UnlockDate x)
        (api_MultiSendDelegateAndLockOutput_Amount x)
        (api_MultiSendDelegateAndLockOutput_unknownFields x)).

Definition api_MultiSendDelegateAndLockOutput_UnlockDate_field : field
    api_MultiSendDelegateAndLockOutput :=
  MkField KString 4 "unlock_date" "UnlockDate" api_MultiSendDelegateAndLockOutput_UnlockDate
    (fun v x => Mk_api_MultiSendDelegateAndLockOutput
        (api_MultiSendDelegateAndLockOutput_FromAddress x)
        (api_MultiSendDelegateAndLockOutput_ToAddress x)
        (api_MultiSendDelegateAndLockOutput_ValidatorAddress x) v
        (api_MultiSendDelegateAndLockOutput_Amount x)
        (api_MultiSendDelegateAndLockOutput_unknownFields x)).

Definition api_MultiSendDelegateAndLockOutput_Amount_field : field
    api_MultiSendDelegateAndLockOutput :=
  MkField (KMsg Coin_codec) 5 "amount" "Amount" api_MultiSendDelegateAndLockOutput_Amount
    (fun v x => Mk_api_MultiSendDelegateAndLockOutput
        (api_MultiSendDelegateAndLockOutput_FromAddress x)
        (api_MultiSendDelegateAndLockOutput_ToAddress x)
        (api_MultiSendDelegateAndLockOutput_ValidatorAddress x)
        (api_MultiSendDelegateAndLockOutput_UnlockDate x) v
        (api_MultiSendDelegateAndLockOutput_unknownFields x)).

Definition api_MultiSendDelegateAndLockOutput_desc : Desc api_MultiSendDelegateAndLockOutput :=
  MkDesc "lockup.v1.MultiSendDelegateAndLockOutput" "MultiSendDelegateAndLockOutput"
    [api_MultiSendDelegateAndLockOutput_FromAddress_field;
        api_MultiSendDelegateAndLockOutput_ToAddress_field;
        api_MultiSendDelegateAndLockOutput_ValidatorAddress_field;
        api_MultiSendDelegateAndLockOutput_UnlockDate_field;
        api_MultiSendDelegateAndLockOutput_Amount_field]
    (Mk_api_MultiSendDelegateAndLockOutput EmptyString EmptyString EmptyString EmptyString None [])
    api_MultiSendDelegateAndLockOutput_unknownFields (fun v x =>
        Mk_api_MultiSendDelegateAndLockOutput (api_MultiSendDelegateAndLockOutput_FromAddress x)
        (api_MultiSendDelegateAndLockOutput_ToAddress x)
        (api_MultiSendDelegateAndLockOutput_ValidatorAddress x)
        (api_MultiSendDelegateAndLockOutput_UnlockDate x)
        (api_MultiSendDelegateAndLockOutput_Amount x) v).

Definition api_MultiSendDelegateAndLockOutput_Has := Has api_MultiSendDelegateAndLockOutput_desc.
Definition api_MultiSendDelegateAndLockOutput_Clear := Clear
    api_MultiSendDelegateAndLockOutput_desc.
Definition api_MultiSendDelegateAndLockOutput_Get := Get api_MultiSendDelegateAndLockOutput_desc.
Definition api_MultiSendDelegateAndLockOutput_Set := Set_ api_MultiSendDelegateAndLockOutput_desc.
Definition api_MultiSendDelegateAndLockOutput_Mutable := Mutable
    api_MultiSendDelegateAndLockOutput_desc.
Definition api_MultiSendDelegateAndLockOutput_NewField := NewField
    api_MultiSendDelegateAndLockOutput_desc.
Definition api_MultiSendDelegateAndLockOutput_WhichOneof := WhichOneof
    api_MultiSendDelegateAndLockOutput_desc.
Definition api_MultiSendDelegateAndLockOutput_GetUnknown := GetUnknown
    api_MultiSendDelegateAndLockOutput_desc.
Definition api_MultiSendDelegateAndLockOutput_SetUnknown := SetUnknown
    api_MultiSendDelegateAndLockOutput_desc.
Definition api_MultiSendDelegateAndLockOutput_Range {A} := Range
    api_MultiSendDelegateAndLockOutput_desc (A := A).
Definition api_MultiSendDelegateAndLockOutput_ProtoReflect : Reflection
    api_MultiSendDelegateAndLockOutput :=
  MkReflection api_MultiSendDelegateAndLockOutput_Has api_MultiSendDelegateAndLockOutput_Clear
      api_MultiSendDelegateAndLockOutput_Get api_MultiSendDelegateAndLockOutput_Set
      api_MultiSendDelegateAndLockOutput_Mutable api_MultiSendDelegateAndLockOutput_NewField (fun
      A => api_MultiSendDelegateAndLockOutput_Range).
Definition api_MultiSendDelegateAndLockOutput_messageType : MessageType
    api_MultiSendDelegateAndLockOutput := message_type api_MultiSendDelegateAndLockOutput_desc.
Definition api_MultiSendDelegateAndLockOutput_IsValid := message_IsValid (T :=
    api_MultiSendDelegateAndLockOutput).
Definition api_MultiSendDelegateAndLockOutput_Reset (x : api_MultiSendDelegateAndLockOutput) :
    api_MultiSendDelegateAndLockOutput :=
  Mk_api_MultiSendDelegateAndLockOutput EmptyString EmptyString EmptyString EmptyString None [].
Definition api_MultiSendDelegateAndLockOutput_GetFromAddress (x : option
    api_MultiSendDelegateAndLockOutput) : string :=
  match x with Some x => api_MultiSendDelegateAndLockOutput_FromAddress x | None => EmptyString end.
Definition api_MultiSendDelegateAndLockOutput_GetToAddress (x : option
    api_MultiSendDelegateAndLockOutput) : string :=
  match x with Some x => api_MultiSendDelegateAndLockOutput_ToAddress x | None => EmptyString end.
Definition api_MultiSendDelegateAndLockOutput_GetValidatorAddress (x : option
    api_MultiSendDelegateAndLockOutput) : string :=
  match x with Some x => api_MultiSendDelegateAndLockOutput_ValidatorAddress x | None =>
      EmptyString end.
Definition api_MultiSendDelegateAndLockOutput_GetUnlockDate (x : option
    api_MultiSendDelegateAndLockOutput) : string :=
  match x with Some x => api_MultiSendDelegateAndLockOutput_UnlockDate x | None => EmptyString end.
Definition api_MultiSendDelegateAndLockOutput_GetAmount (x : option
    api_MultiSendDelegateAndLockOutput) : option ApiCoin :=
  match x with Some x => api_MultiSendDelegateAndLockOutput_Amount x | None => None end.
Definition api_MultiSendDelegateAndLockOutput_size := ProtoMethods_Size
    api_MultiSendDelegateAndLockOutput_desc.
Definition api_MultiSendDelegateAndLockOutput_marshal := ProtoMethods_Marshal
    api_MultiSendDelegateAndLockOutput_desc.
Definition api_MultiSendDelegateAndLockOutput_unmarshal := ProtoMethods_Unmarshal
    api_MultiSendDelegateAndLockOutput_desc.

(** ** api/lockup/v1/genesis.pulsar.go *)

Record api_LockupGenesisState := Mk_api_LockupGenesisState {
  api_LockupGenesisState_unknownFields : bytes;
}.

Definition api_LockupGenesisState_desc : Desc api_LockupGenesisState :=
  MkDesc "lockup.v1.GenesisState" "GenesisState"
    []
    (Mk_api_LockupGenesisState [])
    api_LockupGenesisState_unknownFields (fun v x => Mk_api_LockupGenesisState v).

Definition api_LockupGenesisState_Has := Has api_LockupGenesisState_desc.
Definition api_LockupGenesisState_Clear := Clear api_LockupGenesisState_desc.
Definition api_LockupGenesisState_Get := Get api_LockupGenesisState_desc.
Definition api_LockupGenesisState_Set := Set_ api_LockupGenesisState_desc.
Definition api_LockupGenesisState_Mutable := Mutable api_LockupGenesisState_desc.
Definition api_LockupGenesisState_NewField := NewField api_LockupGenesisState_desc.
Definition api_LockupGenesisState_WhichOneof := WhichOneof api_LockupGenesisState_desc.
Definition api_LockupGenesisState_GetUnknown := GetUnknown api_LockupGenesisState_desc.
Definition api_LockupGenesisState_SetUnknown := SetUnknown api_LockupGenesisState_desc.
Definition api_LockupGenesisState_Range {A} := Range api_LockupGenesisState_desc (A := A).
Definition api_LockupGenesisState_ProtoReflect : Reflection api_LockupGenesisState :=
  MkReflection api_LockupGenesisState_Has api_LockupGenesisState_Clear api_LockupGenesisState_Get
      api_LockupGenesisState_Set api_LockupGenesisState_Mutable api_LockupGenesisState_NewField
      (fun A => api_LockupGenesisState_Range).
Definition api_LockupGenesisState_messageType : MessageType api_LockupGenesisState := message_type
    api_LockupGenesisState_desc.
Definition api_LockupGenesisState_IsValid := message_IsValid (T := api_LockupGenesisState).
Definition api_LockupGenesisState_Reset (x : api_LockupGenesisState) : api_LockupGenesisState :=
  Mk_api_LockupGenesisState [].
Definition api_LockupGenesisState_size := ProtoMethods_Size api_LockupGenesisState_desc.
Definition api_LockupGenesisState_marshal := ProtoMethods_Marshal api_LockupGenesisState_desc.
Definition api_LockupGenesisState_unmarshal := ProtoMethods_Unmarshal api_LockupGenesisState_desc.

(** ** api/lockup/v1/tx.pulsar.go *)

Record api_MsgLock := Mk_api_MsgLock {
  api_MsgLock_Address : string;
  api_MsgLock_UnlockDate : string;
  api_MsgLock_Amount : option ApiCoin;
  api_MsgLock_unknownFields : bytes;
}.

Definition api_MsgLock_Address_field : field api_MsgLock :=
  MkField KString 1 "address" "Address" api_MsgLock_Address
    (fun v x => Mk_api_MsgLock v (api_MsgLock_UnlockDate x) (api_MsgLock_Amount x)
        (api_MsgLock_unknownFields x)).

Definition api_MsgLock_UnlockDate_field : field api_MsgLock :=
  MkField KString 2 "unlock_date" "UnlockDate" api_MsgLock_UnlockDate
    (fun v x => Mk_api_MsgLock (api_MsgLock_Address x) v (api_MsgLock_Amount x)
        (api_MsgLock_unknownFields x)).

Definition api_MsgLock_Amount_field : field api_MsgLock :=
  MkField (KMsg Coin_codec) 3 "amount" "Amount" api_MsgLock_Amount
    (fun v x => Mk_api_MsgLock (api_MsgLock_Address x) (api_MsgLock_UnlockDate x) v
        (api_MsgLock_unknownFields x)).

Definition api_MsgLock_desc : Desc api_MsgLock :=
  MkDesc "lockup.v1.MsgLock" "MsgLock"
    [api_MsgLock_Address_field; api_MsgLock_UnlockDate_field; api_MsgLock_Amount_field]
    (Mk_api_MsgLock EmptyString EmptyString None [])
    api_MsgLock_unknownFields (fun v x => Mk_api_MsgLock (api_MsgLock_Address x)
        (api_MsgLock_UnlockDate x) (api_MsgLock_Amount x) v).

Definition api_MsgLock_Has := Has api_MsgLock_desc.
Definition api_MsgLock_Clear := Clear api_MsgLock_desc.
Definition api_MsgLock_Get := Get api_MsgLock_desc.
Definition api_MsgLock_Set := Set_ api_MsgLock_desc.
Definition api_MsgLock_Mutable := Mutable api_MsgLock_desc.
Definition api_MsgLock_NewField := NewField api_MsgLock_desc.
Definition api_MsgLock_WhichOneof := WhichOneof api_MsgLock_desc.
Definition api_MsgLock_GetUnknown := GetUnknown api_MsgLock_desc.
Definition api_MsgLock_SetUnknown := SetUnknown api_MsgLock_desc.
Definition api_MsgLock_Range {A} := Range api_MsgLock_desc (A := A).
Definition api_MsgLock_ProtoReflect : Reflection api_MsgLock :=
  MkReflection api_MsgLock_Has api_MsgLock_Clear api_MsgLock_Get api_MsgLock_Set
      api_MsgLock_Mutable api_MsgLock_NewField (fun A => api_MsgLock_Range).
Definition api_MsgLock_messageType : MessageType api_MsgLock := message_type api_MsgLock_desc.
Definition api_MsgLock_IsValid := message_IsValid (T := api_MsgLock).
Definition api_MsgLock_Reset (x : api_MsgLock) : api_MsgLock :=
  Mk_api_MsgLock EmptyString EmptyString None [].
Definition api_MsgLock_GetAddress (x : option api_MsgLock) : string :=
  match x with Some x => api_MsgLock_Address x | None => EmptyString end.
Definition api_MsgLock_GetUnlockDate (x : option api_MsgLock) : string :=
  match x with Some x => api_MsgLock_UnlockDate x | None => EmptyString end.
Definition api_MsgLock_GetAmount (x : option api_MsgLock) : option ApiCoin :=
  match x with Some x => api_MsgLock_Amount x | None => None end.
Definition api_MsgLock_size := ProtoMethods_Size api_MsgLock_desc.
Definition api_MsgLock_marshal := ProtoMethods_Marshal api_MsgLock_desc.
Definition api_MsgLock_unmarshal := ProtoMethods_Unmarshal api_MsgLock_desc.

Record api_MsgLockResponse := Mk_api_MsgLockResponse {
  api_MsgLockResponse_unknownFields : bytes;
}.

Definition api_MsgLockResponse_desc : Desc api_MsgLockResponse :=
  MkDesc "lockup.v1.MsgLockResponse" "MsgLockResponse"
    []
    (Mk_api_MsgLockResponse [])
    api_MsgLockResponse_unknownFields (fun v x => Mk_api_MsgLockResponse v).

Definition api_MsgLockResponse_Has := Has api_MsgLockResponse_desc.
Definition api_MsgLockResponse_Clear := Clear api_MsgLockResponse_desc.
Definition api_MsgLockResponse_Get := Get api_MsgLockResponse_desc.
Definition api_MsgLockResponse_Set := Set_ api_MsgLockResponse_desc.
Definition api_MsgLockResponse_Mutable := Mutable api_MsgLockResponse_desc.
Definition api_MsgLockResponse_NewField := NewField api_MsgLockResponse_desc.
Definition api_MsgLockResponse_WhichOneof := WhichOneof api_MsgLockResponse_desc.
Definition api_MsgLockResponse_GetUnknown := GetUnknown api_MsgLockResponse_desc.
Definition api_MsgLockResponse_SetUnknown := SetUnknown api_MsgLockResponse_desc.
Definition api_MsgLockResponse_Range {A} := Range api_MsgLockResponse_desc (A := A).
Definition api_MsgLockResponse_ProtoReflect : Reflection api_MsgLockResponse :=
  MkReflection api_MsgLockResponse_Has api_MsgLockResponse_Clear api_MsgLockResponse_Get
      api_MsgLockResponse_Set api_MsgLockResponse_Mutable api_MsgLockResponse_NewField (fun A =>
      api_MsgLockResponse_Range).
Definition api_MsgLockResponse_messageType : MessageType api_MsgLockResponse := message_type
    api_MsgLockResponse_desc.
Definition api_MsgLockResponse_IsValid := message_IsValid (T := api_MsgLockResponse).
Definition api_MsgLockResponse_Reset (x : api_MsgLockResponse) : api_MsgLockResponse :=
  Mk_api_MsgLockResponse [].
Definition api_MsgLockResponse_size := ProtoMethods_Size api_MsgLockResponse_desc.
Definition api_MsgLockResponse_marshal := ProtoMethods_Marshal api_MsgLockResponse_desc.
Definition api_MsgLockResponse_unmarshal := ProtoMethods_Unmarshal api_MsgLockResponse_desc.

Record api_MsgExtend := Mk_api_MsgExtend {
  api_MsgExtend_Address : string;
  api_MsgExtend_Extensions : list (option api_Extension);
  api_MsgExtend_unknownFields : bytes;
}.

Definition api_MsgExtend_Address_field : field api_MsgExtend :=
  MkField KString 1 "address" "Address" api_MsgExtend_Address
    (fun v x => Mk_api_MsgExtend v (api_MsgExtend_Extensions x) (api_MsgExtend_unknownFields x)).

Definition api_MsgExtend_Extensions_field : field api_MsgExtend :=
  MkField (KRep (desc_codec api_Extension_desc)) 2 "extensions" "Extensions"
      api_MsgExtend_Extensions
    (fun v x => Mk_api_MsgExtend (api_MsgExtend_Address x) v (api_MsgExtend_unknownFields x)).

Definition api_MsgExtend_desc : Desc api_MsgExtend :=
  MkDesc "lockup.v1.MsgExtend" "MsgExtend"
    [api_MsgExtend_Address_field; api_MsgExtend_Extensions_field]
    (Mk_api_MsgExtend EmptyString [] [])
    api_MsgExtend_unknownFields (fun v x => Mk_api_MsgExtend (api_MsgExtend_Address x)
        (api_MsgExtend_Extensions x) v).

Definition api_MsgExtend_Has := Has api_MsgExtend_desc.
Definition api_MsgExtend_Clear := Clear api_MsgExtend_desc.
Definition api_MsgExtend_Get := Get api_MsgExtend_desc.
Definition api_MsgExtend_Set := Set_ api_MsgExtend_desc.
Definition api_MsgExtend_Mutable := Mutable api_MsgExtend_desc.
Definition api_MsgExtend_NewField := NewField api_MsgExtend_desc.
Definition api_MsgExtend_WhichOneof := WhichOneof api_MsgExtend_desc.
Definition api_MsgExtend_GetUnknown := GetUnknown api_MsgExtend_desc.
Definition api_MsgExtend_SetUnknown := SetUnknown api_MsgExtend_desc.
Definition api_MsgExtend_Range {A} := Range api_MsgExtend_desc (A := A).
Definition api_MsgExtend_ProtoReflect : Reflection api_MsgExtend :=
  MkReflection api_MsgExtend_Has api_MsgExtend_Clear api_MsgExtend_Get api_MsgExtend_Set
      api_MsgExtend_Mutable api_MsgExtend_NewField (fun A => api_MsgExtend_Range).
Definition api_MsgExtend_messageType : MessageType api_MsgExtend := message_type api_MsgExtend_desc.
Definition api_MsgExtend_IsValid := message_IsValid (T := api_MsgExtend).
Definition api_MsgExtend_Reset (x : api_MsgExtend) : api_MsgExtend :=
  Mk_api_MsgExtend EmptyString [] [].
Definition api_MsgExtend_GetAddress (x : option api_MsgExtend) : string :=
  match x with Some x => api_MsgExtend_Address x | None => EmptyString end.
Definition api_MsgExtend_GetExtensions (x : option api_MsgExtend) : list (option api_Extension) :=
  match x with Some x => api_MsgExtend_Extensions x | None => [] end.
Definition api_MsgExtend_size := ProtoMethods_Size api_MsgExtend_desc.
Definition api_MsgExtend_marshal := ProtoMethods_Marshal api_MsgExtend_desc.
Definition api_MsgExtend_unmarshal := ProtoMethods_Unmarshal api_MsgExtend_desc.

(** The list value of Extensions. *)
Definition api_MsgExtend_2_list_Len := list_Len (M := api_Extension).
Definition api_MsgExtend_2_list_Get := list_Get (M := api_Extension).
Definition api_MsgExtend_2_list_Set := list_Set (M := api_Extension).
Definition api_MsgExtend_2_list_Append := list_Append (M := api_Extension).
Definition api_MsgExtend_2_list_AppendMutable := list_AppendMutable (desc_codec api_Extension_desc).
Definition api_MsgExtend_2_list_Truncate := list_Truncate (M := api_Extension).
Definition api_MsgExtend_2_list_NewElement := list_NewElement (desc_codec api_Extension_desc).
Definition api_MsgExtend_2_list_IsValid := list_IsValid (M := api_Extension).

Record api_MsgExtendResponse := Mk_api_MsgExtendResponse {
  api_MsgExtendResponse_unknownFields : bytes;
}.

Definition api_MsgExtendResponse_desc : Desc api_MsgExtendResponse :=
  MkDesc "lockup.v1.MsgExtendResponse" "MsgExtendResponse"
    []
    (Mk_api_MsgExtendResponse [])
    api_MsgExtendResponse_unknownFields (fun v x => Mk_api_MsgExtendResponse v).

Definition api_MsgExtendResponse_Has := Has api_MsgExtendResponse_desc.
Definition api_MsgExtendResponse_Clear := Clear api_MsgExtendResponse_desc.
Definition api_MsgExtendResponse_Get := Get api_MsgExtendResponse_desc.
Definition api_MsgExtendResponse_Set := Set_ api_MsgExtendResponse_desc.
Definition api_MsgExtendResponse_Mutable := Mutable api_MsgExtendResponse_desc.
Definition api_MsgExtendResponse_NewField := NewField api_MsgExtendResponse_desc.
Definition api_MsgExtendResponse_WhichOneof := WhichOneof api_MsgExtendResponse_desc.
Definition api_MsgExtendResponse_GetUnknown := GetUnknown api_MsgExtendResponse_desc.
Definition api_MsgExtendResponse_SetUnknown := SetUnknown api_MsgExtendResponse_desc.
Definition api_MsgExtendResponse_Range {A} := Range api_MsgExtendResponse_desc (A := A).
Definition api_MsgExtendResponse_ProtoReflect : Reflection api_MsgExtendResponse :=
  MkReflection api_MsgExtendResponse_Has api_MsgExtendResponse_Clear api_MsgExtendResponse_Get
      api_MsgExtendResponse_Set api_MsgExtendResponse_Mutable api_MsgExtendResponse_NewField (fun
      A => api_MsgExtendResponse_Range).
Definition api_MsgExtendResponse_messageType : MessageType api_MsgExtendResponse := message_type
    api_MsgExtendResponse_desc.
Definition api_MsgExtendResponse_IsValid := message_IsValid (T := api_MsgExtendResponse).
Definition api_MsgExtendResponse_Reset (x : api_MsgExtendResponse) : api_MsgExtendResponse :=
  Mk_api_MsgExtendResponse [].
Definition api_MsgExtendResponse_size := ProtoMethods_Size api_MsgExtendResponse_desc.
Definition api_MsgExtendResponse_marshal := ProtoMethods_Marshal api_MsgExtendResponse_desc.
Definition api_MsgExtendResponse_unmarshal := ProtoMethods_Unmarshal api_MsgExtendResponse_desc.

Record api_MsgSendDelegateAndLock := Mk_api_MsgSendDelegateAndLock {
  api_MsgSendDelegateAndLock_FromAddress : string;
  api_MsgSendDelegateAndLock_ToAddress : string;
  api_MsgSendDelegateAndLock_ValidatorAddress : string;
  api_MsgSendDelegateAndLock_UnlockDate : string;
  api_MsgSendDelegateAndLock_Amount : option ApiCoin;
  api_MsgSendDelegateAndLock_unknownFields : bytes;
}.

Definition api_MsgSendDelegateAndLock_FromAddress_field : field api_MsgSendDelegateAndLock :=
  MkField KString 1 "from_address" "FromAddress" api_MsgSendDelegateAndLock_FromAddress
    (fun v x => Mk_api_MsgSendDelegateAndLock v (api_MsgSendDelegateAndLock_ToAddress x)
        (api_MsgSendDelegateAndLock_ValidatorAddress x) (api_MsgSendDelegateAndLock_UnlockDate x)
        (api_MsgSendDelegateAndLock_Amount x) (api_MsgSendDelegateAndLock_unknownFields x)).

Definition api_MsgSendDelegateAndLock_ToAddress_field : field api_MsgSendDelegateAndLock :=
  MkField KString 2 "to_address" "ToAddress" api_MsgSendDelegateAndLock_ToAddress
    (fun v x => Mk_api_MsgSendDelegateAndLock (api_MsgSendDelegateAndLock_FromAddress x) v
        (api_MsgSendDelegateAndLock_ValidatorAddress x) (api_MsgSendDelegateAndLock_UnlockDate x)
        (api_MsgSendDelegateAndLock_Amount x) (api_MsgSendDelegateAndLock_unknownFields x)).

Definition api_MsgSendDelegateAndLock_ValidatorAddress_field : field api_MsgSendDelegateAndLock :=
  MkField KString 3 "validator_address" "ValidatorAddress"
      api_MsgSendDelegateAndLock_ValidatorAddress
    (fun v x => Mk_api_MsgSendDelegateAndLock (api_MsgSendDelegateAndLock_FromAddress x)
        (api_MsgSendDelegateAndLock_ToAddress x) v (api_MsgSendDelegateAndLock_UnlockDate x)
        (api_MsgSendDelegateAndLock_Amount x) (api_MsgSendDelegateAndLock_unknownFields x)).

Definition api_MsgSendDelegateAndLock_UnlockDate_field : field api_MsgSendDelegateAndLock :=
  MkField KString 4 "unlock_date" "UnlockDate" api_MsgSendDelegateAndLock_UnlockDate
    (fun v x => Mk_api_MsgSendDelegateAndLock (api_MsgSendDelegateAndLock_FromAddress x)
        (api_MsgSendDelegateAndLock_ToAddress x) (api_MsgSendDelegateAndLock_ValidatorAddress x) v
        (api_MsgSendDelegateAndLock_Amount x) (api_MsgSendDelegateAndLock_unknownFields x)).

Definition api_MsgSendDelegateAndLock_Amount_field : field api_MsgSendDelegateAndLock :=
  MkField (KMsg Coin_codec) 5 "amount" "Amount" api_MsgSendDelegateAndLock_Amount
    (fun v x => Mk_api_MsgSendDelegateAndLock (api_MsgSendDelegateAndLock_FromAddress x)
        (api_MsgSendDelegateAndLock_ToAddress x) (api_MsgSendDelegateAndLock_ValidatorAddress x)
        (api_MsgSendDelegateAndLock_UnlockDate x) v (api_MsgSendDelegateAndLock_unknownFields x)).

Definition api_MsgSendDelegateAndLock_desc : Desc api_MsgSendDelegateAndLock :=
  MkDesc "lockup.v1.MsgSendDelegateAndLock" "MsgSendDelegateAndLock"
    [api_MsgSendDelegateAndLock_FromAddress_field; api_MsgSendDelegateAndLock_ToAddress_field;
        api_MsgSendDelegateAndLock_ValidatorAddress_field;
        api_MsgSendDelegateAndLock_UnlockDate_field; api_MsgSendDelegateAndLock_Amount_field]
    (Mk_api_MsgSendDelegateAndLock EmptyString EmptyString EmptyString EmptyString None [])
    api_MsgSendDelegateAndLock_unknownFields (fun v x => Mk_api_MsgSendDelegateAndLock
        (api_MsgSendDelegateAndLock_FromAddress x) (api_MsgSendDelegateAndLock_ToAddress x)
        (api_MsgSendDelegateAndLock_ValidatorAddress x) (api_MsgSendDelegateAndLock_UnlockDate x)
        (api_MsgSendDelegateAndLock_Amount x) v).

Definition api_MsgSendDelegateAndLock_Has := Has api_MsgSendDelegateAndLock_desc.
Definition api_MsgSendDelegateAndLock_Clear := Clear api_MsgSendDelegateAndLock_desc.
Definition api_MsgSendDelegateAndLock_Get := Get api_MsgSendDelegateAndLock_desc.
Definition api_MsgSendDelegateAndLock_Set := Set_ api_MsgSendDelegateAndLock_desc.
Definition api_MsgSendDelegateAndLock_Mutable := Mutable api_MsgSendDelegateAndLock_desc.
Definition api_MsgSendDelegateAndLock_NewField := NewField api_MsgSendDelegateAndLock_desc.
Definition api_MsgSendDelegateAndLock_WhichOneof := WhichOneof api_MsgSendDelegateAndLock_desc.
Definition api_MsgSendDelegateAndLock_GetUnknown := GetUnknown api_MsgSendDelegateAndLock_desc.
Definition api_MsgSendDelegateAndLock_SetUnknown := SetUnknown api_MsgSendDelegateAndLock_desc.
Definition api_MsgSendDelegateAndLock_Range {A} := Range api_MsgSendDelegateAndLock_desc (A := A).
Definition api_MsgSendDelegateAndLock_ProtoReflect : Reflection api_MsgSendDelegateAndLock :=
  MkReflection api_MsgSendDelegateAndLock_Has api_MsgSendDelegateAndLock_Clear
      api_MsgSendDelegateAndLock_Get api_MsgSendDelegateAndLock_Set
      api_MsgSendDelegateAndLock_Mutable api_MsgSendDelegateAndLock_NewField (fun A =>
      api_MsgSendDelegateAndLock_Range).
Definition api_MsgSendDelegateAndLock_messageType : MessageType api_MsgSendDelegateAndLock :=
    message_type api_MsgSendDelegateAndLock_desc.
Definition api_MsgSendDelegateAndLock_IsValid := message_IsValid (T := api_MsgSendDelegateAndLock).
Definition api_MsgSendDelegateAndLock_Reset (x : api_MsgSendDelegateAndLock) :
    api_MsgSendDelegateAndLock :=
  Mk_api_MsgSendDelegateAndLock EmptyString EmptyString EmptyString EmptyString None [].
Definition api_MsgSendDelegateAndLock_GetFromAddress (x : option api_MsgSendDelegateAndLock) :
    string :=
  match x with Some x => api_MsgSendDelegateAndLock_FromAddress x | None => EmptyString end.
Definition api_MsgSendDelegateAndLock_GetToAddress (x : option api_MsgSendDelegateAndLock) :
    string :=
  match x with Some x => api_MsgSendDelegateAndLock_ToAddress x | None => EmptyString end.
Definition api_MsgSendDelegateAndLock_GetValidatorAddress (x : option api_MsgSendDelegateAndLock)
    : string :=
  match x with Some x => api_MsgSendDelegateAndLock_ValidatorAddress x | None => EmptyString end.
Definition api_MsgSendDelegateAndLock_GetUnlockDate (x : option api_MsgSendDelegateAndLock) :
    string :=
  match x with Some x => api_MsgSendDelegateAndLock_UnlockDate x | None => EmptyString end.
Definition api_MsgSendDelegateAndLock_GetAmount (x : option api_MsgSendDelegateAndLock) : option
    ApiCoin :=
  match x with Some x => api_MsgSendDelegateAndLock_Amount x | None => None end.
Definition api_MsgSendDelegateAndLock_size := ProtoMethods_Size api_MsgSendDelegateAndLock_desc.
Definition api_MsgSendDelegateAndLock_marshal := ProtoMethods_Marshal
    api_MsgSendDelegateAndLock_desc.
Definition api_MsgSendDelegateAndLock_unmarshal := ProtoMethods_Unmarshal
    api_MsgSendDelegateAndLock_desc.

Record api_MsgSendDelegateAndLockResponse := Mk_api_MsgSendDelegateAndLockResponse {
  api_MsgSendDelegateAndLockResponse_unknownFields : bytes;
}.

Definition api_MsgSendDelegateAndLockResponse_desc : Desc api_MsgSendDelegateAndLockResponse :=
  MkDesc "lockup.v1.MsgSendDelegateAndLockResponse" "MsgSendDelegateAndLockResponse"
    []
    (Mk_api_MsgSendDelegateAndLockResponse [])
    api_MsgSendDelegateAndLockResponse_unknownFields (fun v x =>
        Mk_api_MsgSendDelegateAndLockResponse v).

Definition api_MsgSendDelegateAndLockResponse_Has := Has api_MsgSendDelegateAndLockResponse_desc.
Definition api_MsgSendDelegateAndLockResponse_Clear := Clear
    api_MsgSendDelegateAndLockResponse_desc.
Definition api_MsgSendDelegateAndLockResponse_Get := Get api_MsgSendDelegateAndLockResponse_desc.
Definition api_MsgSendDelegateAndLockResponse_Set := Set_ api_MsgSendDelegateAndLockResponse_desc.
Definition api_MsgSendDelegateAndLockResponse_Mutable := Mutable
    api_MsgSendDelegateAndLockResponse_desc.
Definition api_MsgSendDelegateAndLockResponse_NewField := NewField
    api_MsgSendDelegateAndLockResponse_desc.
Definition api_MsgSendDelegateAndLockResponse_WhichOneof := WhichOneof
    api_MsgSendDelegateAndLockResponse_desc.
Definition api_MsgSendDelegateAndLockResponse_GetUnknown := GetUnknown
    api_MsgSendDelegateAndLockResponse_desc.
Definition api_MsgSendDelegateAndLockResponse_SetUnknown := SetUnknown
    api_MsgSendDelegateAndLockResponse_desc.
Definition api_MsgSendDelegateAndLockResponse_Range {A} := Range
    api_MsgSendDelegateAndLockResponse_desc (A := A).
Definition api_MsgSendDelegateAndLockResponse_ProtoReflect : Reflection
    api_MsgSendDelegateAndLockResponse :=
  MkReflection api_MsgSendDelegateAndLockResponse_Has api_MsgSendDelegateAndLockResponse_Clear
      api_MsgSendDelegateAndLockResponse_Get api_MsgSendDelegateAndLockResponse_Set
      api_MsgSendDelegateAndLockResponse_Mutable api_MsgSendDelegateAndLockResponse_NewField (fun
      A => api_MsgSendDelegateAndLockResponse_Range).
Definition api_MsgSendDelegateAndLockResponse_messageType : MessageType
    api_MsgSendDelegateAndLockResponse := message_type api_MsgSendDelegateAndLockResponse_desc.
Definition api_MsgSendDelegateAndLockResponse_IsValid := message_IsValid (T :=
    api_MsgSendDelegateAndLockResponse).
Definition api_MsgSendDelegateAndLockResponse_Reset (x : api_MsgSendDelegateAndLockResponse) :
    api_MsgSendDelegateAndLockResponse :=
  Mk_api_MsgSendDelegateAndLockResponse [].
Definition api_MsgSendDelegateAndLockResponse_size := ProtoMethods_Size
    api_MsgSendDelegateAndLockResponse_desc.
Definition api_MsgSendDelegateAndLockResponse_marshal := ProtoMethods_Marshal
    api_MsgSendDelegateAndLockResponse_desc.
Definition api_MsgSendDelegateAndLockResponse_unmarshal := ProtoMethods_Unmarshal
    api_MsgSendDelegateAndLockResponse_desc.

Record api_MsgMultiSendDelegateAndLock := Mk_api_MsgMultiSendDelegateAndLock {
  api_MsgMultiSendDelegateAndLock_FromAddress : string;
  api_MsgMultiSendDelegateAndLock_TotalAmount : option ApiCoin;
  api_MsgMultiSendDelegateAndLock_Outputs : list (option api_MultiSendDelegateAndLockOutput);
  api_MsgMultiSendDelegateAndLock_unknownFields : bytes;
}.

Definition api_MsgMultiSendDelegateAndLock_FromAddress_field : field
    api_MsgMultiSendDelegateAndLock :=
  MkField KString 1 "from_address" "FromAddress" api_MsgMultiSendDelegateAndLock_FromAddress
    (fun v x => Mk_api_MsgMultiSendDelegateAndLock v (api_MsgMultiSendDelegateAndLock_TotalAmount
        x) (api_MsgMultiSendDelegateAndLock_Outputs x)
        (api_MsgMultiSendDelegateAndLock_unknownFields x)).

Definition api_MsgMultiSendDelegateAndLock_TotalAmount_field : field
    api_MsgMultiSendDelegateAndLock :=
  MkField (KMsg Coin_codec) 2 "total_amount" "TotalAmount"
      api_MsgMultiSendDelegateAndLock_TotalAmount
    (fun v x => Mk_api_MsgMultiSendDelegateAndLock (api_MsgMultiSendDelegateAndLock_FromAddress x)
        v (api_MsgMultiSendDelegateAndLock_Outputs x)
        (api_MsgMultiSendDelegateAndLock_unknownFields x)).

Definition api_MsgMultiSendDelegateAndLock_Outputs_field : field api_MsgMultiSendDelegateAndLock :=
  MkField (KRep (desc_codec api_MultiSendDelegateAndLockOutput_desc)) 3 "outputs" "Outputs"
      api_MsgMultiSendDelegateAndLock_Outputs
    (fun v x => Mk_api_MsgMultiSendDelegateAndLock (api_MsgMultiSendDelegateAndLock_FromAddress x)
        (api_MsgMultiSendDelegateAndLock_TotalAmount x) v
        (api_MsgMultiSendDelegateAndLock_unknownFields x)).

Definition api_MsgMultiSendDelegateAndLock_desc : Desc api_MsgMultiSendDelegateAndLock :=
  MkDesc "lockup.v1.MsgMultiSendDelegateAndLock" "MsgMultiSendDelegateAndLock"
    [api_MsgMultiSendDelegateAndLock_FromAddress_field;
        api_MsgMultiSendDelegateAndLock_TotalAmount_field;
        api_MsgMultiSendDelegateAndLock_Outputs_field]
    (Mk_api_MsgMultiSendDelegateAndLock EmptyString None [] [])
    api_MsgMultiSendDelegateAndLock_unknownFields (fun v x => Mk_api_MsgMultiSendDelegateAndLock
        (api_MsgMultiSendDelegateAndLock_FromAddress x)
        (api_MsgMultiSendDelegateAndLock_TotalAmount x) (api_MsgMultiSendDelegateAndLock_Outputs
        x) v).

Definition api_MsgMultiSendDelegateAndLock_Has := Has api_MsgMultiSendDelegateAndLock_desc.
Definition api_MsgMultiSendDelegateAndLock_Clear := Clear api_MsgMultiSendDelegateAndLock_desc.
Definition api_MsgMultiSendDelegateAndLock_Get := Get api_MsgMultiSendDelegateAndLock_desc.
Definition api_MsgMultiSendDelegateAndLock_Set := Set_ api_MsgMultiSendDelegateAndLock_desc.
Definition api_MsgMultiSendDelegateAndLock_Mutable := Mutable api_MsgMultiSendDelegateAndLock_desc.
Definition api_MsgMultiSendDelegateAndLock_NewField := NewField
    api_MsgMultiSendDelegateAndLock_desc.
Definition api_MsgMultiSendDelegateAndLock_WhichOneof := WhichOneof
    api_MsgMultiSendDelegateAndLock_desc.
Definition api_MsgMultiSendDelegateAndLock_GetUnknown := GetUnknown
    api_MsgMultiSendDelegateAndLock_desc.
Definition api_MsgMultiSendDelegateAndLock_SetUnknown := SetUnknown
    api_MsgMultiSendDelegateAndLock_desc.
Definition api_MsgMultiSendDelegateAndLock_Range {A} := Range api_MsgMultiSendDelegateAndLock_desc
    (A := A).
Definition api_MsgMultiSendDelegateAndLock_ProtoReflect : Reflection
    api_MsgMultiSendDelegateAndLock :=
  MkReflection api_MsgMultiSendDelegateAndLock_Has api_MsgMultiSendDelegateAndLock_Clear
      api_MsgMultiSendDelegateAndLock_Get api_MsgMultiSendDelegateAndLock_Set
      api_MsgMultiSendDelegateAndLock_Mutable api_MsgMultiSendDelegateAndLock_NewField (fun A =>
      api_MsgMultiSendDelegateAndLock_Range).
Definition api_MsgMultiSendDelegateAndLock_messageType : MessageType
    api_MsgMultiSendDelegateAndLock := message_type api_MsgMultiSendDelegateAndLock_desc.
Definition api_MsgMultiSendDelegateAndLock_IsValid := message_IsValid (T :=
    api_MsgMultiSendDelegateAndLock).
Definition api_MsgMultiSendDelegateAndLock_Reset (x : api_MsgMultiSendDelegateAndLock) :
    api_MsgMultiSendDelegateAndLock :=
  Mk_api_MsgMultiSendDelegateAndLock EmptyString None [] [].
Definition api_MsgMultiSendDelegateAndLock_GetFromAddress (x : option
    api_MsgMultiSendDelegateAndLock) : string :=
  match x with Some x => api_MsgMultiSendDelegateAndLock_FromAddress x | None => EmptyString end.
Definition api_MsgMultiSendDelegateAndLock_GetTotalAmount (x : option
    api_MsgMultiSendDelegateAndLock) : option ApiCoin :=
  match x with Some x => api_MsgMultiSendDelegateAndLock_TotalAmount x | None => None end.
Definition api_MsgMultiSendDelegateAndLock_GetOutputs (x : option api_MsgMultiSendDelegateAndLock)
    : list (option api_MultiSendDelegateAndLockOutput) :=
  match x with Some x => api_MsgMultiSendDelegateAndLock_Outputs x | None => [] end.
Definition api_MsgMultiSendDelegateAndLock_size := ProtoMethods_Size
    api_MsgMultiSendDelegateAndLock_desc.
Definition api_MsgMultiSendDelegateAndLock_marshal := ProtoMethods_Marshal
    api_MsgMultiSendDelegateAndLock_desc.
Definition api_MsgMultiSendDelegateAndLock_unmarshal := ProtoMethods_Unmarshal
    api_MsgMultiSendDelegateAndLock_desc.

(** The list value of Outputs. *)
Definition api_MsgMultiSendDelegateAndLock_3_list_Len := list_Len (M :=
    api_MultiSendDelegateAndLockOutput).
Definition api_MsgMultiSendDelegateAndLock_3_list_Get := list_Get (M :=
    api_MultiSendDelegateAndLockOutput).
Definition api_MsgMultiSendDelegateAndLock_3_list_Set := list_Set (M :=
    api_MultiSendDelegateAndLockOutput).
Definition api_MsgMultiSendDelegateAndLock_3_list_Append := list_Append (M :=
    api_MultiSendDelegateAndLockOutput).
Definition api_MsgMultiSendDelegateAndLock_3_list_AppendMutable := list_AppendMutable (desc_codec
    api_MultiSendDelegateAndLockOutput_desc).
Definition api_MsgMultiSendDelegateAndLock_3_list_Truncate := list_Truncate (M :=
    api_MultiSendDelegateAndLockOutput).
Definition api_MsgMultiSendDelegateAndLock_3_list_NewElement := list_NewElement (desc_codec
    api_MultiSendDelegateAndLockOutput_desc).
Definition api_MsgMultiSendDelegateAndLock_3_list_IsValid := list_IsValid (M :=
    api_MultiSendDelegateAndLockOutput).

Record api_MsgMultiSendDelegateAndLockResponse := Mk_api_MsgMultiSendDelegateAndLockResponse {
  api_MsgMultiSendDelegateAndLockResponse_unknownFields : bytes;
}.

Definition api_MsgMultiSendDelegateAndLockResponse_desc : Desc
    api_MsgMultiSendDelegateAndLockResponse :=
  MkDesc "lockup.v1.MsgMultiSendDelegateAndLockResponse" "MsgMultiSendDelegateAndLockResponse"
    []
    (Mk_api_MsgMultiSendDelegateAndLockResponse [])
    api_MsgMultiSendDelegateAndLockResponse_unknownFields (fun v x =>
        Mk_api_MsgMultiSendDelegateAndLockResponse v).

Definition api_MsgMultiSendDelegateAndLockResponse_Has := Has
    api_MsgMultiSendDelegateAndLockResponse_desc.
Definition api_MsgMultiSendDelegateAndLockResponse_Clear := Clear
    api_MsgMultiSendDelegateAndLockResponse_desc.
Definition api_MsgMultiSendDelegateAndLockResponse_Get := Get
    api_MsgMultiSendDelegateAndLockResponse_desc.
Definition api_MsgMultiSendDelegateAndLockResponse_Set := Set_
    api_MsgMultiSendDelegateAndLockResponse_desc.
Definition api_MsgMultiSendDelegateAndLockResponse_Mutable := Mutable
    api_MsgMultiSendDelegateAndLockResponse_desc.
Definition api_MsgMultiSendDelegateAndLockResponse_NewField := NewField
    api_MsgMultiSendDelegateAndLockResponse_desc.
Definition api_MsgMultiSendDelegateAndLockResponse_WhichOneof := WhichOneof
    api_MsgMultiSendDelegateAndLockResponse_desc.
Definition api_MsgMultiSendDelegateAndLockResponse_GetUnknown := GetUnknown
    api_MsgMultiSendDelegateAndLockResponse_desc.
Definition api_MsgMultiSendDelegateAndLockResponse_SetUnknown := SetUnknown
    api_MsgMultiSendDelegateAndLockResponse_desc.
Definition api_MsgMultiSendDelegateAndLockResponse_Range {A} := Range
    api_MsgMultiSendDelegateAndLockResponse_desc (A := A).
Definition api_MsgMultiSendDelegateAndLockResponse_ProtoReflect : Reflection
    api_MsgMultiSendDelegateAndLockResponse :=
  MkReflection api_MsgMultiSendDelegateAndLockResponse_Has
      api_MsgMultiSendDelegateAndLockResponse_Clear api_MsgMultiSendDelegateAndLockResponse_Get
      api_MsgMultiSendDelegateAndLockResponse_Set api_MsgMultiSendDelegateAndLockResponse_Mutable
      api_MsgMultiSendDelegateAndLockResponse_NewField (fun A =>
      api_MsgMultiSendDelegateAndLockResponse_Range).
Definition api_MsgMultiSendDelegateAndLockResponse_messageType : MessageType
    api_MsgMultiSendDelegateAndLockResponse := message_type
    api_MsgMultiSendDelegateAndLockResponse_desc.
Definition api_MsgMultiSendDelegateAndLockResponse_IsValid := message_IsValid (T :=
    api_MsgMultiSendDelegateAndLockResponse).
Definition api_MsgMultiSendDelegateAndLockResponse_Reset (x :
    api_MsgMultiSendDelegateAndLockResponse) : api_MsgMultiSendDelegateAndLockResponse :=
  Mk_api_MsgMultiSendDelegateAndLockResponse [].
Definition api_MsgMultiSendDelegateAndLockResponse_size := ProtoMethods_Size
    api_MsgMultiSendDelegateAndLockResponse_desc.
Definition api_MsgMultiSendDelegateAndLockResponse_marshal := ProtoMethods_Marshal
    api_MsgMultiSendDelegateAndLockResponse_desc.
Definition api_MsgMultiSendDelegateAndLockResponse_unmarshal := ProtoMethods_Unmarshal
    api_MsgMultiSendDelegateAndLockResponse_desc.

(** ** api/lockup/v1/query.pulsar.go *)

Record api_QueryActiveLocksRequest := Mk_api_QueryActiveLocksRequest {
  api_QueryActiveLocksRequest_Pagination : option ApiPageRequest;
  api_QueryActiveLocksRequest_unknownFields : bytes;
}.

Definition api_QueryActiveLocksRequest_Pagination_field : field api_QueryActiveLocksRequest :=
  MkField (KMsg PageRequest_codec) 1 "pagination" "Pagination"
      api_QueryActiveLocksRequest_Pagination
    (fun v x => Mk_api_QueryActiveLocksRequest v (api_QueryActiveLocksRequest_unknownFields x)).

Definition api_QueryActiveLocksRequest_desc : Desc api_QueryActiveLocksRequest :=
  MkDesc "lockup.v1.QueryActiveLocksRequest" "QueryActiveLocksRequest"
    [api_QueryActiveLocksRequest_Pagination_field]
    (Mk_api_QueryActiveLocksRequest None [])
    api_QueryActiveLocksRequest_unknownFields (fun v x => Mk_api_QueryActiveLocksRequest
        (api_QueryActiveLocksRequest_Pagination x) v).

Definition api_QueryActiveLocksRequest_Has := Has api_QueryActiveLocksRequest_desc.
Definition api_QueryActiveLocksRequest_Clear := Clear api_QueryActiveLocksRequest_desc.
Definition api_QueryActiveLocksRequest_Get := Get api_QueryActiveLocksRequest_desc.
Definition api_QueryActiveLocksRequest_Set := Set_ api_QueryActiveLocksRequest_desc.
Definition api_QueryActiveLocksRequest_Mutable := Mutable api_QueryActiveLocksRequest_desc.
Definition api_QueryActiveLocksRequest_NewField := NewField api_QueryActiveLocksRequest_desc.
Definition api_QueryActiveLocksRequest_WhichOneof := WhichOneof api_QueryActiveLocksRequest_desc.
Definition api_QueryActiveLocksRequest_GetUnknown := GetUnknown api_QueryActiveLocksRequest_desc.
Definition api_QueryActiveLocksRequest_SetUnknown := SetUnknown api_QueryActiveLocksRequest_desc.
Definition api_QueryActiveLocksRequest_Range {A} := Range api_QueryActiveLocksRequest_desc (A := A).
Definition api_QueryActiveLocksRequest_ProtoReflect : Reflection api_QueryActiveLocksRequest :=
  MkReflection api_QueryActiveLocksRequest_Has api_QueryActiveLocksRequest_Clear
      api_QueryActiveLocksRequest_Get api_QueryActiveLocksRequest_Set
      api_QueryActiveLocksRequest_Mutable api_QueryActiveLocksRequest_NewField (fun A =>
      api_QueryActiveLocksRequest_Range).
Definition api_QueryActiveLocksRequest_messageType : MessageType api_QueryActiveLocksRequest :=
    message_type api_QueryActiveLocksRequest_desc.
Definition api_QueryActiveLocksRequest_IsValid := message_IsValid (T :=
    api_QueryActiveLocksRequest).
Definition api_QueryActiveLocksRequest_Reset (x : api_QueryActiveLocksRequest) :
    api_QueryActiveLocksRequest :=
  Mk_api_QueryActiveLocksRequest None [].
Definition api_QueryActiveLocksRequest_GetPagination (x : option api_QueryActiveLocksRequest) :
    option ApiPageRequest :=
  match x with Some x => api_QueryActiveLocksRequest_Pagination x | None => None end.
Definition api_QueryActiveLocksRequest_size := ProtoMethods_Size api_QueryActiveLocksRequest_desc.
Definition api_QueryActiveLocksRequest_marshal := ProtoMethods_Marshal
    api_QueryActiveLocksRequest_desc.
Definition api_QueryActiveLocksRequest_unmarshal := ProtoMethods_Unmarshal
    api_QueryActiveLocksRequest_desc.

Record api_ActiveLockResource := Mk_api_ActiveLockResource {
  api_ActiveLockResource_Address : string;
  api_ActiveLockResource_UnlockDate : string;
  api_ActiveLockResource_Amount : option ApiCoin;
  api_ActiveLockResource_unknownFields : bytes;
}.

Definition api_ActiveLockResource_Address_field : field api_ActiveLockResource :=
  MkField KString 1 "address" "Address" api_ActiveLockResource_Address
    (fun v x => Mk_api_ActiveLockResource v (api_ActiveLockResource_UnlockDate x)
        (api_ActiveLockResource_Amount x) (api_ActiveLockResource_unknownFields x)).

Definition api_ActiveLockResource_UnlockDate_field : field api_ActiveLockResource :=
  MkField KString 2 "unlock_date" "UnlockDate" api_ActiveLockResource_UnlockDate
    (fun v x => Mk_api_ActiveLockResource (api_ActiveLockResource_Address x) v
        (api_ActiveLockResource_Amount x) (api_ActiveLockResource_unknownFields x)).

Definition api_ActiveLockResource_Amount_field : field api_ActiveLockResource :=
  MkField (KMsg Coin_codec) 3 "amount" "Amount" api_ActiveLockResource_Amount
    (fun v x => Mk_api_ActiveLockResource (api_ActiveLockResource_Address x)
        (api_ActiveLockResource_UnlockDate x) v (api_ActiveLockResource_unknownFields x)).

Definition api_ActiveLockResource_desc : Desc api_ActiveLockResource :=
  MkDesc "lockup.v1.ActiveLockResource" "ActiveLockResource"
    [api_ActiveLockResource_Address_field; api_ActiveLockResource_UnlockDate_field;
        api_ActiveLockResource_Amount_field]
    (Mk_api_ActiveLockResource EmptyString EmptyString None [])
    api_ActiveLockResource_unknownFields (fun v x => Mk_api_ActiveLockResource
        (api_ActiveLockResource_Address x) (api_ActiveLockResource_UnlockDate x)
        (api_ActiveLockResource_Amount x) v).

Definition api_ActiveLockResource_Has := Has api_ActiveLockResource_desc.
Definition api_ActiveLockResource_Clear := Clear api_ActiveLockResource_desc.
Definition api_ActiveLockResource_Get := Get api_ActiveLockResource_desc.
Definition api_ActiveLockResource_Set := Set_ api_ActiveLockResource_desc.
Definition api_ActiveLockResource_Mutable := Mutable api_ActiveLockResource_desc.
Definition api_ActiveLockResource_NewField := NewField api_ActiveLockResource_desc.
Definition api_ActiveLockResource_WhichOneof := WhichOneof api_ActiveLockResource_desc.
Definition api_ActiveLockResource_GetUnknown := GetUnknown api_ActiveLockResource_desc.
Definition api_ActiveLockResource_SetUnknown := SetUnknown api_ActiveLockResource_desc.
Definition api_ActiveLockResource_Range {A} := Range api_ActiveLockResource_desc (A := A).
Definition api_ActiveLockResource_ProtoReflect : Reflection api_ActiveLockResource :=
  MkReflection api_ActiveLockResource_Has api_ActiveLockResource_Clear api_ActiveLockResource_Get
      api_ActiveLockResource_Set api_ActiveLockResource_Mutable api_ActiveLockResource_NewField
      (fun A => api_ActiveLockResource_Range).
Definition api_ActiveLockResource_messageType : MessageType api_ActiveLockResource := message_type
    api_ActiveLockResource_desc.
Definition api_ActiveLockResource_IsValid := message_IsValid (T := api_ActiveLockResource).
Definition api_ActiveLockResource_Reset (x : api_ActiveLockResource) : api_ActiveLockResource :=
  Mk_api_ActiveLockResource EmptyString EmptyString None [].
Definition api_ActiveLockResource_GetAddress (x : option api_ActiveLockResource) : string :=
  match x with Some x => api_ActiveLockResource_Address x | None => EmptyString end.
Definition api_ActiveLockResource_GetUnlockDate (x : option api_ActiveLockResource) : string :=
  match x with Some x => api_ActiveLockResource_UnlockDate x | None => EmptyString end.
Definition api_ActiveLockResource_GetAmount (x : option api_ActiveLockResource) : option ApiCoin :=
  match x with Some x => api_ActiveLockResource_Amount x | None => None end.
Definition api_ActiveLockResource_size := ProtoMethods_Size api_ActiveLockResource_desc.
Definition api_ActiveLockResource_marshal := ProtoMethods_Marshal api_ActiveLockResource_desc.
Definition api_ActiveLockResource_unmarshal := ProtoMethods_Unmarshal api_ActiveLockResource_desc.

Record api_QueryActiveLocksResponse := Mk_api_QueryActiveLocksResponse {
  api_QueryActiveLocksResponse_Locks : list (option api_ActiveLockResource);
  api_QueryActiveLocksResponse_Pagination : option ApiPageResponse;
  api_QueryActiveLocksResponse_unknownFields : bytes;
}.

Definition api_QueryActiveLocksResponse_Locks_field : field api_QueryActiveLocksResponse :=
  MkField (KRep (desc_codec api_ActiveLockResource_desc)) 1 "locks" "Locks"
      api_QueryActiveLocksResponse_Locks
    (fun v x => Mk_api_QueryActiveLocksResponse v (api_QueryActiveLocksResponse_Pagination x)
        (api_QueryActiveLocksResponse_unknownFields x)).

Definition api_QueryActiveLocksResponse_Pagination_field : field api_QueryActiveLocksResponse :=
  MkField (KMsg PageResponse_codec) 2 "pagination" "Pagination"
      api_QueryActiveLocksResponse_Pagination
    (fun v x => Mk_api_QueryActiveLocksResponse (api_QueryActiveLocksResponse_Locks x) v
        (api_QueryActiveLocksResponse_unknownFields x)).

Definition api_QueryActiveLocksResponse_desc : Desc api_QueryActiveLocksResponse :=
  MkDesc "lockup.v1.QueryActiveLocksResponse" "QueryActiveLocksResponse"
    [api_QueryActiveLocksResponse_Locks_field; api_QueryActiveLocksResponse_Pagination_field]
    (Mk_api_QueryActiveLocksResponse [] None [])
    api_QueryActiveLocksResponse_unknownFields (fun v x => Mk_api_QueryActiveLocksResponse
        (api_QueryActiveLocksResponse_Locks x) (api_QueryActiveLocksResponse_Pagination x) v).

Definition api_QueryActiveLocksResponse_Has := Has api_QueryActiveLocksResponse_desc.
Definition api_QueryActiveLocksResponse_Clear := Clear api_QueryActiveLocksResponse_desc.
Definition api_QueryActiveLocksResponse_Get := Get api_QueryActiveLocksResponse_desc.
Definition api_QueryActiveLocksResponse_Set := Set_ api_QueryActiveLocksResponse_desc.
Definition api_QueryActiveLocksResponse_Mutable := Mutable api_QueryActiveLocksResponse_desc.
Definition api_QueryActiveLocksResponse_NewField := NewField api_QueryActiveLocksResponse_desc.
Definition api_QueryActiveLocksResponse_WhichOneof := WhichOneof api_QueryActiveLocksResponse_desc.
Definition api_QueryActiveLocksResponse_GetUnknown := GetUnknown api_QueryActiveLocksResponse_desc.
Definition api_QueryActiveLocksResponse_SetUnknown := SetUnknown api_QueryActiveLocksResponse_desc.
Definition api_QueryActiveLocksResponse_Range {A} := Range api_QueryActiveLocksResponse_desc (A :=
    A).
Definition api_QueryActiveLocksResponse_ProtoReflect : Reflection api_QueryActiveLocksResponse :=
  MkReflection api_QueryActiveLocksResponse_Has api_QueryActiveLocksResponse_Clear
      api_QueryActiveLocksResponse_Get api_QueryActiveLocksResponse_Set
      api_QueryActiveLocksResponse_Mutable api_QueryActiveLocksResponse_NewField (fun A =>
      api_QueryActiveLocksResponse_Range).
Definition api_QueryActiveLocksResponse_messageType : MessageType api_QueryActiveLocksResponse :=
    message_type api_QueryActiveLocksResponse_desc.
Definition api_QueryActiveLocksResponse_IsValid := message_IsValid (T :=
    api_QueryActiveLocksResponse).
Definition api_QueryActiveLocksResponse_Reset (x : api_QueryActiveLocksResponse) :
    api_QueryActiveLocksResponse :=
  Mk_api_QueryActiveLocksResponse [] None [].
Definition api_QueryActiveLocksResponse_GetLocks (x : option api_QueryActiveLocksResponse) : list
    (option api_ActiveLockResource) :=
  match x with Some x => api_QueryActiveLocksResponse_Locks x | None => [] end.
Definition api_QueryActiveLocksResponse_GetPagination (x : option api_QueryActiveLocksResponse) :
    option ApiPageResponse :=
  match x with Some x => api_QueryActiveLocksResponse_Pagination x | None => None end.
Definition api_QueryActiveLocksResponse_size := ProtoMethods_Size api_QueryActiveLocksResponse_desc.
Definition api_QueryActiveLocksResponse_marshal := ProtoMethods_Marshal
    api_QueryActiveLocksResponse_desc.
Definition api_QueryActiveLocksResponse_unmarshal := ProtoMethods_Unmarshal
    api_QueryActiveLocksResponse_desc.

(** The list value of Locks. *)
Definition api_QueryActiveLocksResponse_1_list_Len := list_Len (M := api_ActiveLockResource).
Definition api_QueryActiveLocksResponse_1_list_Get := list_Get (M := api_ActiveLockResource).
Definition api_QueryActiveLocksResponse_1_list_Set := list_Set (M := api_ActiveLockResource).
Definition api_QueryActiveLocksResponse_1_list_Append := list_Append (M := api_ActiveLockResource).
Definition api_QueryActiveLocksResponse_1_list_AppendMutable := list_AppendMutable (desc_codec
    api_ActiveLockResource_desc).
Definition api_QueryActiveLocksResponse_1_list_Truncate := list_Truncate (M :=
    api_ActiveLockResource).
Definition api_QueryActiveLocksResponse_1_list_NewElement := list_NewElement (desc_codec
    api_ActiveLockResource_desc).
Definition api_QueryActiveLocksResponse_1_list_IsValid := list_IsValid (M :=
    api_ActiveLockResource).

Record api_QueryTotalLockedAmountRequest := Mk_api_QueryTotalLockedAmountRequest {
  api_QueryTotalLockedAmountRequest_unknownFields : bytes;
}.

Definition api_QueryTotalLockedAmountRequest_desc : Desc api_QueryTotalLockedAmountRequest :=
  MkDesc "lockup.v1.QueryTotalLockedAmountRequest" "QueryTotalLockedAmountRequest"
    []
    (Mk_api_QueryTotalLockedAmountRequest [])
    api_QueryTotalLockedAmountRequest_unknownFields (fun v x =>
        Mk_api_QueryTotalLockedAmountRequest v).

Definition api_QueryTotalLockedAmountRequest_Has := Has api_QueryTotalLockedAmountRequest_desc.
Definition api_QueryTotalLockedAmountRequest_Clear := Clear api_QueryTotalLockedAmountRequest_desc.
Definition api_QueryTotalLockedAmountRequest_Get := Get api_QueryTotalLockedAmountRequest_desc.
Definition api_QueryTotalLockedAmountRequest_Set := Set_ api_QueryTotalLockedAmountRequest_desc.
Definition api_QueryTotalLockedAmountRequest_Mutable := Mutable
    api_QueryTotalLockedAmountRequest_desc.
Definition api_QueryTotalLockedAmountRequest_NewField := NewField
    api_QueryTotalLockedAmountRequest_desc.
Definition api_QueryTotalLockedAmountRequest_WhichOneof := WhichOneof
    api_QueryTotalLockedAmountRequest_desc.
Definition api_QueryTotalLockedAmountRequest_GetUnknown := GetUnknown
    api_QueryTotalLockedAmountRequest_desc.
Definition api_QueryTotalLockedAmountRequest_SetUnknown := SetUnknown
    api_QueryTotalLockedAmountRequest_desc.
Definition api_QueryTotalLockedAmountRequest_Range {A} := Range
    api_QueryTotalLockedAmountRequest_desc (A := A).
Definition api_QueryTotalLockedAmountRequest_ProtoReflect : Reflection
    api_QueryTotalLockedAmountRequest :=
  MkReflection api_QueryTotalLockedAmountRequest_Has api_QueryTotalLockedAmountRequest_Clear
      api_QueryTotalLockedAmountRequest_Get api_QueryTotalLockedAmountRequest_Set
      api_QueryTotalLockedAmountRequest_Mutable api_QueryTotalLockedAmountRequest_NewField (fun A
      => api_QueryTotalLockedAmountRequest_Range).
Definition api_QueryTotalLockedAmountRequest_messageType : MessageType
    api_QueryTotalLockedAmountRequest := message_type api_QueryTotalLockedAmountRequest_desc.
Definition api_QueryTotalLockedAmountRequest_IsValid := message_IsValid (T :=
    api_QueryTotalLockedAmountRequest).
Definition api_QueryTotalLockedAmountRequest_Reset (x : api_QueryTotalLockedAmountRequest) :
    api_QueryTotalLockedAmountRequest :=
  Mk_api_QueryTotalLockedAmountRequest [].
Definition api_QueryTotalLockedAmountRequest_size := ProtoMethods_Size
    api_QueryTotalLockedAmountRequest_desc.
Definition api_QueryTotalLockedAmountRequest_marshal := ProtoMethods_Marshal
    api_QueryTotalLockedAmountRequest_desc.
Definition api_QueryTotalLockedAmountRequest_unmarshal := ProtoMethods_Unmarshal
    api_QueryTotalLockedAmountRequest_desc.

Record api_QueryTotalLockedAmountResponse := Mk_api_QueryTotalLockedAmountResponse {
  api_QueryTotalLockedAmountResponse_TotalLocked : option ApiCoin;
  api_QueryTotalLockedAmountResponse_unknownFields : bytes;
}.

Definition api_QueryTotalLockedAmountResponse_TotalLocked_field : field
    api_QueryTotalLockedAmountResponse :=
  MkField (KMsg Coin_codec) 1 "total_locked" "TotalLocked"
      api_QueryTotalLockedAmountResponse_TotalLocked
    (fun v x => Mk_api_QueryTotalLockedAmountResponse v
        (api_QueryTotalLockedAmountResponse_unknownFields x)).

Definition api_QueryTotalLockedAmountResponse_desc : Desc api_QueryTotalLockedAmountResponse :=
  MkDesc "lockup.v1.QueryTotalLockedAmountResponse" "QueryTotalLockedAmountResponse"
    [api_QueryTotalLockedAmountResponse_TotalLocked_field]
    (Mk_api_QueryTotalLockedAmountResponse None [])
    api_QueryTotalLockedAmountResponse_unknownFields (fun v x =>
        Mk_api_QueryTotalLockedAmountResponse (api_QueryTotalLockedAmountResponse_TotalLocked x)
        v).

Definition api_QueryTotalLockedAmountResponse_Has := Has api_QueryTotalLockedAmountResponse_desc.
Definition api_QueryTotalLockedAmountResponse_Clear := Clear
    api_QueryTotalLockedAmountResponse_desc.
Definition api_QueryTotalLockedAmountResponse_Get := Get api_QueryTotalLockedAmountResponse_desc.
Definition api_QueryTotalLockedAmountResponse_Set := Set_ api_QueryTotalLockedAmountResponse_desc.
Definition api_QueryTotalLockedAmountResponse_Mutable := Mutable
    api_QueryTotalLockedAmountResponse_desc.
Definition api_QueryTotalLockedAmountResponse_NewField := NewField
    api_QueryTotalLockedAmountResponse_desc.
Definition api_QueryTotalLockedAmountResponse_WhichOneof := WhichOneof
    api_QueryTotalLockedAmountResponse_desc.
Definition api_QueryTotalLockedAmountResponse_GetUnknown := GetUnknown
    api_QueryTotalLockedAmountResponse_desc.
Definition api_QueryTotalLockedAmountResponse_SetUnknown := SetUnknown
    api_QueryTotalLockedAmountResponse_desc.
Definition api_QueryTotalLockedAmountResponse_Range {A} := Range
    api_QueryTotalLockedAmountResponse_desc (A := A).
Definition api_QueryTotalLockedAmountResponse_ProtoReflect : Reflection
    api_QueryTotalLockedAmountResponse :=
  MkReflection api_QueryTotalLockedAmountResponse_Has api_QueryTotalLockedAmountResponse_Clear
      api_QueryTotalLockedAmountResponse_Get api_QueryTotalLockedAmountResponse_Set
      api_QueryTotalLockedAmountResponse_Mutable api_QueryTotalLockedAmountResponse_NewField (fun
      A => api_QueryTotalLockedAmountResponse_Range).
Definition api_QueryTotalLockedAmountResponse_messageType : MessageType
    api_QueryTotalLockedAmountResponse := message_type api_QueryTotalLockedAmountResponse_desc.
Definition api_QueryTotalLockedAmountResponse_IsValid := message_IsValid (T :=
    api_QueryTotalLockedAmountResponse).
Definition api_QueryTotalLockedAmountResponse_Reset (x : api_QueryTotalLockedAmountResponse) :
    api_QueryTotalLockedAmountResponse :=
  Mk_api_QueryTotalLockedAmountResponse None [].
Definition api_QueryTotalLockedAmountResponse_GetTotalLocked (x : option
    api_QueryTotalLockedAmountResponse) : option ApiCoin :=
  match x with Some x => api_QueryTotalLockedAmountResponse_TotalLocked x | None => None end.
Definition api_QueryTotalLockedAmountResponse_size := ProtoMethods_Size
    api_QueryTotalLockedAmountResponse_desc.
Definition api_QueryTotalLockedAmountResponse_marshal := ProtoMethods_Marshal
    api_QueryTotalLockedAmountResponse_desc.
Definition api_QueryTotalLockedAmountResponse_unmarshal := ProtoMethods_Unmarshal
    api_QueryTotalLockedAmountResponse_desc.

Record api_QueryAccountLocksRequest := Mk_api_QueryAccountLocksRequest {
  api_QueryAccountLocksRequest_Addresses : string;
  api_QueryAccountLocksRequest_Pagination : option ApiPageRequest;
  api_QueryAccountLocksRequest_unknownFields : bytes;
}.

Definition api_QueryAccountLocksRequest_Addresses_field : field api_QueryAccountLocksRequest :=
  MkField KString 1 "addresses" "Addresses" api_QueryAccountLocksRequest_Addresses
    (fun v x => Mk_api_QueryAccountLocksRequest v (api_QueryAccountLocksRequest_Pagination x)
        (api_QueryAccountLocksRequest_unknownFields x)).

Definition api_QueryAccountLocksRequest_Pagination_field : field api_QueryAccountLocksRequest :=
  MkField (KMsg PageRequest_codec) 2 "pagination" "Pagination"
      api_QueryAccountLocksRequest_Pagination
    (fun v x => Mk_api_QueryAccountLocksRequest (api_QueryAccountLocksRequest_Addresses x) v
        (api_QueryAccountLocksRequest_unknownFields x)).

Definition api_QueryAccountLocksRequest_desc : Desc api_QueryAccountLocksRequest :=
  MkDesc "lockup.v1.QueryAccountLocksRequest" "QueryAccountLocksRequest"
    [api_QueryAccountLocksRequest_Addresses_field; api_QueryAccountLocksRequest_Pagination_field]
    (Mk_api_QueryAccountLocksRequest EmptyString None [])
    api_QueryAccountLocksRequest_unknownFields (fun v x => Mk_api_QueryAccountLocksRequest
        (api_QueryAccountLocksRequest_Addresses x) (api_QueryAccountLocksRequest_Pagination x) v).

Definition api_QueryAccountLocksRequest_Has := Has api_QueryAccountLocksRequest_desc.
Definition api_QueryAccountLocksRequest_Clear := Clear api_QueryAccountLocksRequest_desc.
Definition api_QueryAccountLocksRequest_Get := Get api_QueryAccountLocksRequest_desc.
Definition api_QueryAccountLocksRequest_Set := Set_ api_QueryAccountLocksRequest_desc.
Definition api_QueryAccountLocksRequest_Mutable := Mutable api_QueryAccountLocksRequest_desc.
Definition api_QueryAccountLocksRequest_NewField := NewField api_QueryAccountLocksRequest_desc.
Definition api_QueryAccountLocksRequest_WhichOneof := WhichOneof api_QueryAccountLocksRequest_desc.
Definition api_QueryAccountLocksRequest_GetUnknown := GetUnknown api_QueryAccountLocksRequest_desc.
Definition api_QueryAccountLocksRequest_SetUnknown := SetUnknown api_QueryAccountLocksRequest_desc.
Definition api_QueryAccountLocksRequest_Range {A} := Range api_QueryAccountLocksRequest_desc (A :=
    A).
Definition api_QueryAccountLocksRequest_ProtoReflect : Reflection api_QueryAccountLocksRequest :=
  MkReflection api_QueryAccountLocksRequest_Has api_QueryAccountLocksRequest_Clear
      api_QueryAccountLocksRequest_Get api_QueryAccountLocksRequest_Set
      api_QueryAccountLocksRequest_Mutable api_QueryAccountLocksRequest_NewField (fun A =>
      api_QueryAccountLocksRequest_Range).
Definition api_QueryAccountLocksRequest_messageType : MessageType api_QueryAccountLocksRequest :=
    message_type api_QueryAccountLocksRequest_desc.
Definition api_QueryAccountLocksRequest_IsValid := message_IsValid (T :=
    api_QueryAccountLocksRequest).
Definition api_QueryAccountLocksRequest_Reset (x : api_QueryAccountLocksRequest) :
    api_QueryAccountLocksRequest :=
  Mk_api_QueryAccountLocksRequest EmptyString None [].
Definition api_QueryAccountLocksRequest_GetAddresses (x : option api_QueryAccountLocksRequest) :
    string :=
  match x with Some x => api_QueryAccountLocksRequest_Addresses x | None => EmptyString end.
Definition api_QueryAccountLocksRequest_GetPagination (x : option api_QueryAccountLocksRequest) :
    option ApiPageRequest :=
  match x with Some x => api_QueryAccountLocksRequest_Pagination x | None => None end.
Definition api_QueryAccountLocksRequest_size := ProtoMethods_Size api_QueryAccountLocksRequest_desc.
Definition api_QueryAccountLocksRequest_marshal := ProtoMethods_Marshal
    api_QueryAccountLocksRequest_desc.
Definition api_QueryAccountLocksRequest_unmarshal := ProtoMethods_Unmarshal
    api_QueryAccountLocksRequest_desc.

Record api_LockResource := Mk_api_LockResource {
  api_LockResource_UnlockDate : string;
  api_LockResource_Amount : option ApiCoin;
  api_LockResource_unknownFields : bytes;
}.

Definition api_LockResource_UnlockDate_field : field api_LockResource :=
  MkField KString 1 "unlock_date" "UnlockDate" api_LockResource_UnlockDate
    (fun v x => Mk_api_LockResource v (api_LockResource_Amount x) (api_LockResource_unknownFields
        x)).

Definition api_LockResource_Amount_field : field api_LockResource :=
  MkField (KMsg Coin_codec) 3 "amount" "Amount" api_LockResource_Amount
    (fun v x => Mk_api_LockResource (api_LockResource_UnlockDate x) v
        (api_LockResource_unknownFields x)).

Definition api_LockResource_desc : Desc api_LockResource :=
  MkDesc "lockup.v1.LockResource" "LockResource"
    [api_LockResource_UnlockDate_field; api_LockResource_Amount_field]
    (Mk_api_LockResource EmptyString None [])
    api_LockResource_unknownFields (fun v x => Mk_api_LockResource (api_LockResource_UnlockDate x)
        (api_LockResource_Amount x) v).

Definition api_LockResource_Has := Has api_LockResource_desc.
Definition api_LockResource_Clear := Clear api_LockResource_desc.
Definition api_LockResource_Get := Get api_LockResource_desc.
Definition api_LockResource_Set := Set_ api_LockResource_desc.
Definition api_LockResource_Mutable := Mutable api_LockResource_desc.
Definition api_LockResource_NewField := NewField api_LockResource_desc.
Definition api_LockResource_WhichOneof := WhichOneof api_LockResource_desc.
Definition api_LockResource_GetUnknown := GetUnknown api_LockResource_desc.
Definition api_LockResource_SetUnknown := SetUnknown api_LockResource_desc.
Definition api_LockResource_Range {A} := Range api_LockResource_desc (A := A).
Definition api_LockResource_ProtoReflect : Reflection api_LockResource :=
  MkReflection api_LockResource_Has api_LockResource_Clear api_LockResource_Get
      api_LockResource_Set api_LockResource_Mutable api_LockResource_NewField (fun A =>
      api_LockResource_Range).
Definition api_LockResource_messageType : MessageType api_LockResource := message_type
    api_LockResource_desc.
Definition api_LockResource_IsValid := message_IsValid (T := api_LockResource).
Definition api_LockResource_Reset (x : api_LockResource) : api_LockResource :=
  Mk_api_LockResource EmptyString None [].
Definition api_LockResource_GetUnlockDate (x : option api_LockResource) : string :=
  match x with Some x => api_LockResource_UnlockDate x | None => EmptyString end.
Definition api_LockResource_GetAmount (x : option api_LockResource) : option ApiCoin :=
  match x with Some x => api_LockResource_Amount x | None => None end.
Definition api_LockResource_size := ProtoMethods_Size api_LockResource_desc.
Definition api_LockResource_marshal := ProtoMethods_Marshal api_LockResource_desc.
Definition api_LockResource_unmarshal := ProtoMethods_Unmarshal api_LockResource_desc.

Record api_AccountLocksResource := Mk_api_AccountLocksResource {
  api_AccountLocksResource_Address : string;
  api_AccountLocksResource_Locks : list (option api_LockResource);
  api_AccountLocksResource_unknownFields : bytes;
}.

Definition api_AccountLocksResource_Address_field : field api_AccountLocksResource :=
  MkField KString 1 "address" "Address" api_AccountLocksResource_Address
    (fun v x => Mk_api_AccountLocksResource v (api_AccountLocksResource_Locks x)
        (api_AccountLocksResource_unknownFields x)).

Definition api_AccountLocksResource_Locks_field : field api_AccountLocksResource :=
  MkField (KRep (desc_codec api_LockResource_desc)) 2 "locks" "Locks" api_AccountLocksResource_Locks
    (fun v x => Mk_api_AccountLocksResource (api_AccountLocksResource_Address x) v
        (api_AccountLocksResource_unknownFields x)).

Definition api_AccountLocksResource_desc : Desc api_AccountLocksResource :=
  MkDesc "lockup.v1.AccountLocksResource" "AccountLocksResource"
    [api_AccountLocksResource_Address_field; api_AccountLocksResource_Locks_field]
    (Mk_api_AccountLocksResource EmptyString [] [])
    api_AccountLocksResource_unknownFields (fun v x => Mk_api_AccountLocksResource
        (api_AccountLocksResource_Address x) (api_AccountLocksResource_Locks x) v).

Definition api_AccountLocksResource_Has := Has api_AccountLocksResource_desc.
Definition api_AccountLocksResource_Clear := Clear api_AccountLocksResource_desc.
Definition api_AccountLocksResource_Get := Get api_AccountLocksResource_desc.
Definition api_AccountLocksResource_Set := Set_ api_AccountLocksResource_desc.
Definition api_AccountLocksResource_Mutable := Mutable api_AccountLocksResource_desc.
Definition api_AccountLocksResource_NewField := NewField api_AccountLocksResource_desc.
Definition api_AccountLocksResource_WhichOneof := WhichOneof api_AccountLocksResource_desc.
Definition api_AccountLocksResource_GetUnknown := GetUnknown api_AccountLocksResource_desc.
Definition api_AccountLocksResource_SetUnknown := SetUnknown api_AccountLocksResource_desc.
Definition api_AccountLocksResource_Range {A} := Range api_AccountLocksResource_desc (A := A).
Definition api_AccountLocksResource_ProtoReflect : Reflection api_AccountLocksResource :=
  MkReflection api_AccountLocksResource_Has api_AccountLocksResource_Clear
      api_AccountLocksResource_Get api_AccountLocksResource_Set api_AccountLocksResource_Mutable
      api_AccountLocksResource_NewField (fun A => api_AccountLocksResource_Range).
Definition api_AccountLocksResource_messageType : MessageType api_AccountLocksResource :=
    message_type api_AccountLocksResource_desc.
Definition api_AccountLocksResource_IsValid := message_IsValid (T := api_AccountLocksResource).
Definition api_AccountLocksResource_Reset (x : api_AccountLocksResource) :
    api_AccountLocksResource :=
  Mk_api_AccountLocksResource EmptyString [] [].
Definition api_AccountLocksResource_GetAddress (x : option api_AccountLocksResource) : string :=
  match x with Some x => api_AccountLocksResource_Address x | None => EmptyString end.
Definition api_AccountLocksResource_GetLocks (x : option api_AccountLocksResource) : list (option
    api_LockResource) :=
  match x with Some x => api_AccountLocksResource_Locks x | None => [] end.
Definition api_AccountLocksResource_size := ProtoMethods_Size api_AccountLocksResource_desc.
Definition api_AccountLocksResource_marshal := ProtoMethods_Marshal api_AccountLocksResource_desc.
Definition api_AccountLocksResource_unmarshal := ProtoMethods_Unmarshal
    api_AccountLocksResource_desc.

(** The list value of Locks. *)
Definition api_AccountLocksResource_2_list_Len := list_Len (M := api_LockResource).
Definition api_AccountLocksResource_2_list_Get := list_Get (M := api_LockResource).
Definition api_AccountLocksResource_2_list_Set := list_Set (M := api_LockResource).
Definition api_AccountLocksResource_2_list_Append := list_Append (M := api_LockResource).
Definition api_AccountLocksResource_2_list_AppendMutable := list_AppendMutable (desc_codec
    api_LockResource_desc).
Definition api_AccountLocksResource_2_list_Truncate := list_Truncate (M := api_LockResource).
Definition api_AccountLocksResource_2_list_NewElement := list_NewElement (desc_codec
    api_LockResource_desc).
Definition api_AccountLocksResource_2_list_IsValid := list_IsValid (M := api_LockResource).

Record api_QueryAccountLocksResponse := Mk_api_QueryAccountLocksResponse {
  api_QueryAccountLocksResponse_Accounts : list (option api_AccountLocksResource);
  api_QueryAccountLocksResponse_Pagination : option ApiPageResponse;
  api_QueryAccountLocksResponse_unknownFields : bytes;
}.

Definition api_QueryAccountLocksResponse_Accounts_field : field api_QueryAccountLocksResponse :=
  MkField (KRep (desc_codec api_AccountLocksResource_desc)) 1 "accounts" "Accounts"
      api_QueryAccountLocksResponse_Accounts
    (fun v x => Mk_api_QueryAccountLocksResponse v (api_QueryAccountLocksResponse_Pagination x)
        (api_QueryAccountLocksResponse_unknownFields x)).

Definition api_QueryAccountLocksResponse_Pagination_field : field api_QueryAccountLocksResponse :=
  MkField (KMsg PageResponse_codec) 2 "pagination" "Pagination"
      api_QueryAccountLocksResponse_Pagination
    (fun v x => Mk_api_QueryAccountLocksResponse (api_QueryAccountLocksResponse_Accounts x) v
        (api_QueryAccountLocksResponse_unknownFields x)).

Definition api_QueryAccountLocksResponse_desc : Desc api_QueryAccountLocksResponse :=
  MkDesc "lockup.v1.QueryAccountLocksResponse" "QueryAccountLocksResponse"
    [api_QueryAccountLocksResponse_Accounts_field; api_QueryAccountLocksResponse_Pagination_field]
    (Mk_api_QueryAccountLocksResponse [] None [])
    api_QueryAccountLocksResponse_unknownFields (fun v x => Mk_api_QueryAccountLocksResponse
        (api_QueryAccountLocksResponse_Accounts x) (api_QueryAccountLocksResponse_Pagination x)
        v).

Definition api_QueryAccountLocksResponse_Has := Has api_QueryAccountLocksResponse_desc.
Definition api_QueryAccountLocksResponse_Clear := Clear api_QueryAccountLocksResponse_desc.
Definition api_QueryAccountLocksResponse_Get := Get api_QueryAccountLocksResponse_desc.
Definition api_QueryAccountLocksResponse_Set := Set_ api_QueryAccountLocksResponse_desc.
Definition api_QueryAccountLocksResponse_Mutable := Mutable api_QueryAccountLocksResponse_desc.
Definition api_QueryAccountLocksResponse_NewField := NewField api_QueryAccountLocksResponse_desc.
Definition api_QueryAccountLocksResponse_WhichOneof := WhichOneof
    api_QueryAccountLocksResponse_desc.
Definition api_QueryAccountLocksResponse_GetUnknown := GetUnknown
    api_QueryAccountLocksResponse_desc.
Definition api_QueryAccountLocksResponse_SetUnknown := SetUnknown
    api_QueryAccountLocksResponse_desc.
Definition api_QueryAccountLocksResponse_Range {A} := Range api_QueryAccountLocksResponse_desc (A
    := A).
Definition api_QueryAccountLocksResponse_ProtoReflect : Reflection api_QueryAccountLocksResponse :=
  MkReflection api_QueryAccountLocksResponse_Has api_QueryAccountLocksResponse_Clear
      api_QueryAccountLocksResponse_Get api_QueryAccountLocksResponse_Set
      api_QueryAccountLocksResponse_Mutable api_QueryAccountLocksResponse_NewField (fun A =>
      api_QueryAccountLocksResponse_Range).
Definition api_QueryAccountLocksResponse_messageType : MessageType api_QueryAccountLocksResponse
    := message_type api_QueryAccountLocksResponse_desc.
Definition api_QueryAccountLocksResponse_IsValid := message_IsValid (T :=
    api_QueryAccountLocksResponse).
Definition api_QueryAccountLocksResponse_Reset (x : api_QueryAccountLocksResponse) :
    api_QueryAccountLocksResponse :=
  Mk_api_QueryAccountLocksResponse [] None [].
Definition api_QueryAccountLocksResponse_GetAccounts (x : option api_QueryAccountLocksResponse) :
    list (option api_AccountLocksResource) :=
  match x with Some x => api_QueryAccountLocksResponse_Accounts x | None => [] end.
Definition api_QueryAccountLocksResponse_GetPagination (x : option api_QueryAccountLocksResponse)
    : option ApiPageResponse :=
  match x with Some x => api_QueryAccountLocksResponse_Pagination x | None => None end.
Definition api_QueryAccountLocksResponse_size := ProtoMethods_Size
    api_QueryAccountLocksResponse_desc.
Definition api_QueryAccountLocksResponse_marshal := ProtoMethods_Marshal
    api_QueryAccountLocksResponse_desc.
Definition api_QueryAccountLocksResponse_unmarshal := ProtoMethods_Unmarshal
    api_QueryAccountLocksResponse_desc.

(** The list value of Accounts. *)
Definition api_QueryAccountLocksResponse_1_list_Len := list_Len (M := api_AccountLocksResource).
Definition api_QueryAccountLocksResponse_1_list_Get := list_Get (M := api_AccountLocksResource).
Definition api_QueryAccountLocksResponse_1_list_Set := list_Set (M := api_AccountLocksResource).
Definition api_QueryAccountLocksResponse_1_list_Append := list_Append (M :=
    api_AccountLocksResource).
Definition api_QueryAccountLocksResponse_1_list_AppendMutable := list_AppendMutable (desc_codec
    api_AccountLocksResource_desc).
Definition api_QueryAccountLocksResponse_1_list_Truncate := list_Truncate (M :=
    api_AccountLocksResource).
Definition api_QueryAccountLocksResponse_1_list_NewElement := list_NewElement (desc_codec
    api_AccountLocksResource_desc).
Definition api_QueryAccountLocksResponse_1_list_IsValid := list_IsValid (M :=
    api_AccountLocksResource).

Record api_QueryLocksRequest := Mk_api_QueryLocksRequest {
  api_QueryLocksRequest_Address : string;
  api_QueryLocksRequest_Pagination : option ApiPageRequest;
  api_QueryLocksRequest_unknownFields : bytes;
}.

Definition api_QueryLocksRequest_Address_field : field api_QueryLocksRequest :=
  MkField KString 1 "address" "Address" api_QueryLocksRequest_Address
    (fun v x => Mk_api_QueryLocksRequest v (api_QueryLocksRequest_Pagination x)
        (api_QueryLocksRequest_unknownFields x)).

Definition api_QueryLocksRequest_Pagination_field : field api_QueryLocksRequest :=
  MkField (KMsg PageRequest_codec) 2 "pagination" "Pagination" api_QueryLocksRequest_Pagination
    (fun v x => Mk_api_QueryLocksRequest (api_QueryLocksRequest_Address x) v
        (api_QueryLocksRequest_unknownFields x)).

Definition api_QueryLocksRequest_desc : Desc api_QueryLocksRequest :=
  MkDesc "lockup.v1.QueryLocksRequest" "QueryLocksRequest"
    [api_QueryLocksRequest_Address_field; api_QueryLocksRequest_Pagination_field]
    (Mk_api_QueryLocksRequest EmptyString None [])
    api_QueryLocksRequest_unknownFields (fun v x => Mk_api_QueryLocksRequest
        (api_QueryLocksRequest_Address x) (api_QueryLocksRequest_Pagination x) v).

Definition api_QueryLocksRequest_Has := Has api_QueryLocksRequest_desc.
Definition api_QueryLocksRequest_Clear := Clear api_QueryLocksRequest_desc.
Definition api_QueryLocksRequest_Get := Get api_QueryLocksRequest_desc.
Definition api_QueryLocksRequest_Set := Set_ api_QueryLocksRequest_desc.
Definition api_QueryLocksRequest_Mutable := Mutable api_QueryLocksRequest_desc.
Definition api_QueryLocksRequest_NewField := NewField api_QueryLocksRequest_desc.
Definition api_QueryLocksRequest_WhichOneof := WhichOneof api_QueryLocksRequest_desc.
Definition api_QueryLocksRequest_GetUnknown := GetUnknown api_QueryLocksRequest_desc.
Definition api_QueryLocksRequest_SetUnknown := SetUnknown api_QueryLocksRequest_desc.
Definition api_QueryLocksRequest_Range {A} := Range api_QueryLocksRequest_desc (A := A).
Definition api_QueryLocksRequest_ProtoReflect : Reflection api_QueryLocksRequest :=
  MkReflection api_QueryLocksRequest_Has api_QueryLocksRequest_Clear api_QueryLocksRequest_Get
      api_QueryLocksRequest_Set api_QueryLocksRequest_Mutable api_QueryLocksRequest_NewField (fun
      A => api_QueryLocksRequest_Range).
Definition api_QueryLocksRequest_messageType : MessageType api_QueryLocksRequest := message_type
    api_QueryLocksRequest_desc.
Definition api_QueryLocksRequest_IsValid := message_IsValid (T := api_QueryLocksRequest).
Definition api_QueryLocksRequest_Reset (x : api_QueryLocksRequest) : api_QueryLocksRequest :=
  Mk_api_QueryLocksRequest EmptyString None [].
Definition api_QueryLocksRequest_GetAddress (x : option api_QueryLocksRequest) : string :=
  match x with Some x => api_QueryLocksRequest_Address x | None => EmptyString end.
Definition api_QueryLocksRequest_GetPagination (x : option api_QueryLocksRequest) : option
    ApiPageRequest :=
  match x with Some x => api_QueryLocksRequest_Pagination x | None => None end.
Definition api_QueryLocksRequest_size := ProtoMethods_Size api_QueryLocksRequest_desc.
Definition api_QueryLocksRequest_marshal := ProtoMethods_Marshal api_QueryLocksRequest_desc.
Definition api_QueryLocksRequest_unmarshal := ProtoMethods_Unmarshal api_QueryLocksRequest_desc.

Record api_QueryLocksResponse := Mk_api_QueryLocksResponse {
  api_QueryLocksResponse_Locks : list (option api_LockResource);
  api_QueryLocksResponse_Pagination : option ApiPageResponse;
  api_QueryLocksResponse_unknownFields : bytes;
}.

Definition api_QueryLocksResponse_Locks_field : field api_QueryLocksResponse :=
  MkField (KRep (desc_codec api_LockResource_desc)) 1 "locks" "Locks" api_QueryLocksResponse_Locks
    (fun v x => Mk_api_QueryLocksResponse v (api_QueryLocksResponse_Pagination x)
        (api_QueryLocksResponse_unknownFields x)).

Definition api_QueryLocksResponse_Pagination_field : field api_QueryLocksResponse :=
  MkField (KMsg PageResponse_codec) 2 "pagination" "Pagination" api_QueryLocksResponse_Pagination
    (fun v x => Mk_api_QueryLocksResponse (api_QueryLocksResponse_Locks x) v
        (api_QueryLocksResponse_unknownFields x)).

Definition api_QueryLocksResponse_desc : Desc api_QueryLocksResponse :=
  MkDesc "lockup.v1.QueryLocksResponse" "QueryLocksResponse"
    [api_QueryLocksResponse_Locks_field; api_QueryLocksResponse_Pagination_field]
    (Mk_api_QueryLocksResponse [] None [])
    api_QueryLocksResponse_unknownFields (fun v x => Mk_api_QueryLocksResponse
        (api_QueryLocksResponse_Locks x) (api_QueryLocksResponse_Pagination x) v).

Definition api_QueryLocksResponse_Has := Has api_QueryLocksResponse_desc.
Definition api_QueryLocksResponse_Clear := Clear api_QueryLocksResponse_desc.
Definition api_QueryLocksResponse_Get := Get api_QueryLocksResponse_desc.
Definition api_QueryLocksResponse_Set := Set_ api_QueryLocksResponse_desc.
Definition api_QueryLocksResponse_Mutable := Mutable api_QueryLocksResponse_desc.
Definition api_QueryLocksResponse_NewField := NewField api_QueryLocksResponse_desc.
Definition api_QueryLocksResponse_WhichOneof := WhichOneof api_QueryLocksResponse_desc.
Definition api_QueryLocksResponse_GetUnknown := GetUnknown api_QueryLocksResponse_desc.
Definition api_QueryLocksResponse_SetUnknown := SetUnknown api_QueryLocksResponse_desc.
Definition api_QueryLocksResponse_Range {A} := Range api_QueryLocksResponse_desc (A := A).
Definition api_QueryLocksResponse_ProtoReflect : Reflection api_QueryLocksResponse :=
  MkReflection api_QueryLocksResponse_Has api_QueryLocksResponse_Clear api_QueryLocksResponse_Get
      api_QueryLocksResponse_Set api_QueryLocksResponse_Mutable api_QueryLocksResponse_NewField
      (fun A => api_QueryLocksResponse_Range).
Definition api_QueryLocksResponse_messageType : MessageType api_QueryLocksResponse := message_type
    api_QueryLocksResponse_desc.
Definition api_QueryLocksResponse_IsValid := message_IsValid (T := api_QueryLocksResponse).
Definition api_QueryLocksResponse_Reset (x : api_QueryLocksResponse) : api_QueryLocksResponse :=
  Mk_api_QueryLocksResponse [] None [].
Definition api_QueryLocksResponse_GetLocks (x : option api_QueryLocksResponse) : list (option
    api_LockResource) :=
  match x with Some x => api_QueryLocksResponse_Locks x | None => [] end.
Definition api_QueryLocksResponse_GetPagination (x : option api_QueryLocksResponse) : option
    ApiPageResponse :=
  match x with Some x => api_QueryLocksResponse_Pagination x | None => None end.
Definition api_QueryLocksResponse_size := ProtoMethods_Size api_QueryLocksResponse_desc.
Definition api_QueryLocksResponse_marshal := ProtoMethods_Marshal api_QueryLocksResponse_desc.
Definition api_QueryLocksResponse_unmarshal := ProtoMethods_Unmarshal api_QueryLocksResponse_desc.

(** The list value of Locks. *)
Definition api_QueryLocksResponse_1_list_Len := list_Len (M := api_LockResource).
Definition api_QueryLocksResponse_1_list_Get := list_Get (M := api_LockResource).
Definition api_QueryLocksResponse_1_list_Set := list_Set (M := api_LockResource).
Definition api_QueryLocksResponse_1_list_Append := list_Append (M := api_LockResource).
Definition api_QueryLocksResponse_1_list_AppendMutable := list_AppendMutable (desc_codec
    api_LockResource_desc).
Definition api_QueryLocksResponse_1_list_Truncate := list_Truncate (M := api_LockResource).
Definition api_QueryLocksResponse_1_list_NewElement := list_NewElement (desc_codec
    api_LockResource_desc).
Definition api_QueryLocksResponse_1_list_IsValid := list_IsValid (M := api_LockResource).

(** ** api/lockup/module/v1/module.pulsar.go *)

Record api_LockupModule := Mk_api_LockupModule {
  api_LockupModule_unknownFields : bytes;
}.

Definition api_LockupModule_desc : Desc api_LockupModule :=
  MkDesc "lockup.module.v1.Module" "Module"
    []
    (Mk_api_LockupModule [])
    api_LockupModule_unknownFields (fun v x => Mk_api_LockupModule v).

Definition api_LockupModule_Has := Has api_LockupModule_desc.
Definition api_LockupModule_Clear := Clear api_LockupModule_desc.
Definition api_LockupModule_Get := Get api_LockupModule_desc.
Definition api_LockupModule_Set := Set_ api_LockupModule_desc.
Definition api_LockupModule_Mutable := Mutable api_LockupModule_desc.
Definition api_LockupModule_NewField := NewField api_LockupModule_desc.
Definition api_LockupModule_WhichOneof := WhichOneof api_LockupModule_desc.
Definition api_LockupModule_GetUnknown := GetUnknown api_LockupModule_desc.
Definition api_LockupModule_SetUnknown := SetUnknown api_LockupModule_desc.
Definition api_LockupModule_Range {A} := Range api_LockupModule_desc (A := A).
Definition api_LockupModule_ProtoReflect : Reflection api_LockupModule :=
  MkReflection api_LockupModule_Has api_LockupModule_Clear api_LockupModule_Get
      api_LockupModule_Set api_LockupModule_Mutable api_LockupModule_NewField (fun A =>
      api_LockupModule_Range).
Definition api_LockupModule_messageType : MessageType api_LockupModule := message_type
    api_LockupModule_desc.
Definition api_LockupModule_IsValid := message_IsValid (T := api_LockupModule).
Definition api_LockupModule_Reset (x : api_LockupModule) : api_LockupModule :=
  Mk_api_LockupModule [].
Definition api_LockupModule_size := ProtoMethods_Size api_LockupModule_desc.
Definition api_LockupModule_marshal := ProtoMethods_Marshal api_LockupModule_desc.
Definition api_LockupModule_unmarshal := ProtoMethods_Unmarshal api_LockupModule_desc.

(** All of them. *)
Definition lockup_messages : list message :=
  [MkMessage api_Lock_desc api_Lock_ProtoReflect api_Lock_messageType api_Lock_Reset
     [existT api_Lock_UnlockDate_field api_Lock_GetUnlockDate; existT api_Lock_Amount_field
         api_Lock_GetAmount]
     api_Lock_size api_Lock_marshal api_Lock_unmarshal;
   MkMessage api_Locks_desc api_Locks_ProtoReflect api_Locks_messageType api_Locks_Reset
     [existT api_Locks_Locks_field api_Locks_GetLocks]
     api_Locks_size api_Locks_marshal api_Locks_unmarshal;
   MkMessage api_Extension_desc api_Extension_ProtoReflect api_Extension_messageType
       api_Extension_Reset
     [existT api_Extension_FromDate_field api_Extension_GetFromDate; existT
         api_Extension_ToDate_field api_Extension_GetToDate; existT api_Extension_Amount_field
         api_Extension_GetAmount]
     api_Extension_size api_Extension_marshal api_Extension_unmarshal;
   MkMessage api_MultiSendDelegateAndLockOutput_desc
       api_MultiSendDelegateAndLockOutput_ProtoReflect
       api_MultiSendDelegateAndLockOutput_messageType api_MultiSendDelegateAndLockOutput_Reset
     [existT api_MultiSendDelegateAndLockOutput_FromAddress_field
         api_MultiSendDelegateAndLockOutput_GetFromAddress; existT
         api_MultiSendDelegateAndLockOutput_ToAddress_field
         api_MultiSendDelegateAndLockOutput_GetToAddress; existT
         api_MultiSendDelegateAndLockOutput_ValidatorAddress_field
         api_MultiSendDelegateAndLockOutput_GetValidatorAddress; existT
         api_MultiSendDelegateAndLockOutput_UnlockDate_field
         api_MultiSendDelegateAndLockOutput_GetUnlockDate; existT
         api_MultiSendDelegateAndLockOutput_Amount_field
         api_MultiSendDelegateAndLockOutput_GetAmount]
     api_MultiSendDelegateAndLockOutput_size api_MultiSendDelegateAndLockOutput_marshal
         api_MultiSendDelegateAndLockOutput_unmarshal;
   MkMessage api_LockupGenesisState_desc api_LockupGenesisState_ProtoReflect
       api_LockupGenesisState_messageType api_LockupGenesisState_Reset
     []
     api_LockupGenesisState_size api_LockupGenesisState_marshal api_LockupGenesisState_unmarshal;
   MkMessage api_MsgLock_desc api_MsgLock_ProtoReflect api_MsgLock_messageType api_MsgLock_Reset
     [existT api_MsgLock_Address_field api_MsgLock_GetAddress; existT api_MsgLock_UnlockDate_field
         api_MsgLock_GetUnlockDate; existT api_MsgLock_Amount_field api_MsgLock_GetAmount]
     api_MsgLock_size api_MsgLock_marshal api_MsgLock_unmarshal;
   MkMessage api_MsgLockResponse_desc api_MsgLockResponse_ProtoReflect
       api_MsgLockResponse_messageType api_MsgLockResponse_Reset
     []
     api_MsgLockResponse_size api_MsgLockResponse_marshal api_MsgLockResponse_unmarshal;
   MkMessage api_MsgExtend_desc api_MsgExtend_ProtoReflect api_MsgExtend_messageType
       api_MsgExtend_Reset
     [existT api_MsgExtend_Address_field api_MsgExtend_GetAddress; existT
         api_MsgExtend_Extensions_field api_MsgExtend_GetExtensions]
     api_MsgExtend_size api_MsgExtend_marshal api_MsgExtend_unmarshal;
   MkMessage api_MsgExtendResponse_desc api_MsgExtendResponse_ProtoReflect
       api_MsgExtendResponse_messageType api_MsgExtendResponse_Reset
     []
     api_MsgExtendResponse_size api_MsgExtendResponse_marshal api_MsgExtendResponse_unmarshal;
   MkMessage api_MsgSendDelegateAndLock_desc api_MsgSendDelegateAndLock_ProtoReflect
       api_MsgSendDelegateAndLock_messageType api_MsgSendDelegateAndLock_Reset
     [existT api_MsgSendDelegateAndLock_FromAddress_field
         api_MsgSendDelegateAndLock_GetFromAddress; existT
         api_MsgSendDelegateAndLock_ToAddress_field api_MsgSendDelegateAndLock_GetToAddress;
         existT api_MsgSendDelegateAndLock_ValidatorAddress_field
         api_MsgSendDelegateAndLock_GetValidatorAddress; existT
         api_MsgSendDelegateAndLock_UnlockDate_field api_MsgSendDelegateAndLock_GetUnlockDate;
         existT api_MsgSendDelegateAndLock_Amount_field api_MsgSendDelegateAndLock_GetAmount]
     api_MsgSendDelegateAndLock_size api_MsgSendDelegateAndLock_marshal
         api_MsgSendDelegateAndLock_unmarshal;
   MkMessage api_MsgSendDelegateAndLockResponse_desc
       api_MsgSendDelegateAndLockResponse_ProtoReflect
       api_MsgSendDelegateAndLockResponse_messageType api_MsgSendDelegateAndLockResponse_Reset
     []
     api_MsgSendDelegateAndLockResponse_size api_MsgSendDelegateAndLockResponse_marshal
         api_MsgSendDelegateAndLockResponse_unmarshal;
   MkMessage api_MsgMultiSendDelegateAndLock_desc api_MsgMultiSendDelegateAndLock_ProtoReflect
       api_MsgMultiSendDelegateAndLock_messageType api_MsgMultiSendDelegateAndLock_Reset
     [existT api_MsgMultiSendDelegateAndLock_FromAddress_field
         api_MsgMultiSendDelegateAndLock_GetFromAddress; existT
         api_MsgMultiSendDelegateAndLock_TotalAmount_field
         api_MsgMultiSendDelegateAndLock_GetTotalAmount; existT
         api_MsgMultiSendDelegateAndLock_Outputs_field api_MsgMultiSendDelegateAndLock_GetOutputs]
     api_MsgMultiSendDelegateAndLock_size api_MsgMultiSendDelegateAndLock_marshal
         api_MsgMultiSendDelegateAndLock_unmarshal;
   MkMessage api_MsgMultiSendDelegateAndLockResponse_desc
       api_MsgMultiSendDelegateAndLockResponse_ProtoReflect
       api_MsgMultiSendDelegateAndLockResponse_messageType
       api_MsgMultiSendDelegateAndLockResponse_Reset
     []
     api_MsgMultiSendDelegateAndLockResponse_size api_MsgMultiSendDelegateAndLockResponse_marshal
         api_MsgMultiSendDelegateAndLockResponse_unmarshal;
   MkMessage api_QueryActiveLocksRequest_desc api_QueryActiveLocksRequest_ProtoReflect
       api_QueryActiveLocksRequest_messageType api_QueryActiveLocksRequest_Reset
     [existT api_QueryActiveLocksRequest_Pagination_field api_QueryActiveLocksRequest_GetPagination]
     api_QueryActiveLocksRequest_size api_QueryActiveLocksRequest_marshal
         api_QueryActiveLocksRequest_unmarshal;
   MkMessage api_ActiveLockResource_desc api_ActiveLockResource_ProtoReflect
       api_ActiveLockResource_messageType api_ActiveLockResource_Reset
     [existT api_ActiveLockResource_Address_field api_ActiveLockResource_GetAddress; existT
         api_ActiveLockResource_UnlockDate_field api_ActiveLockResource_GetUnlockDate; existT
         api_ActiveLockResource_Amount_field api_ActiveLockResource_GetAmount]
     api_ActiveLockResource_size api_ActiveLockResource_marshal api_ActiveLockResource_unmarshal;
   MkMessage api_QueryActiveLocksResponse_desc api_QueryActiveLocksResponse_ProtoReflect
       api_QueryActiveLocksResponse_messageType api_QueryActiveLocksResponse_Reset
     [existT api_QueryActiveLocksResponse_Locks_field api_QueryActiveLocksResponse_GetLocks;
         existT api_QueryActiveLocksResponse_Pagination_field
         api_QueryActiveLocksResponse_GetPagination]
     api_QueryActiveLocksResponse_size api_QueryActiveLocksResponse_marshal
         api_QueryActiveLocksResponse_unmarshal;
   MkMessage api_QueryTotalLockedAmountRequest_desc api_QueryTotalLockedAmountRequest_ProtoReflect
       api_QueryTotalLockedAmountRequest_messageType api_QueryTotalLockedAmountRequest_Reset
     []
     api_QueryTotalLockedAmountRequest_size api_QueryTotalLockedAmountRequest_marshal
         api_QueryTotalLockedAmountRequest_unmarshal;
   MkMessage api_QueryTotalLockedAmountResponse_desc
       api_QueryTotalLockedAmountResponse_ProtoReflect
       api_QueryTotalLockedAmountResponse_messageType api_QueryTotalLockedAmountResponse_Reset
     [existT api_QueryTotalLockedAmountResponse_TotalLocked_field
         api_QueryTotalLockedAmountResponse_GetTotalLocked]
     api_QueryTotalLockedAmountResponse_size api_QueryTotalLockedAmountResponse_marshal
         api_QueryTotalLockedAmountResponse_unmarshal;
   MkMessage api_QueryAccountLocksRequest_desc api_QueryAccountLocksRequest_ProtoReflect
       api_QueryAccountLocksRequest_messageType api_QueryAccountLocksRequest_Reset
     [existT api_QueryAccountLocksRequest_Addresses_field
         api_QueryAccountLocksRequest_GetAddresses; existT
         api_QueryAccountLocksRequest_Pagination_field api_QueryAccountLocksRequest_GetPagination]
     api_QueryAccountLocksRequest_size api_QueryAccountLocksRequest_marshal
         api_QueryAccountLocksRequest_unmarshal;
   MkMessage api_LockResource_desc api_LockResource_ProtoReflect api_LockResource_messageType
       api_LockResource_Reset
     [existT api_LockResource_UnlockDate_field api_LockResource_GetUnlockDate; existT
         api_LockResource_Amount_field api_LockResource_GetAmount]
     api_LockResource_size api_LockResource_marshal api_LockResource_unmarshal;
   MkMessage api_AccountLocksResource_desc api_AccountLocksResource_ProtoReflect
       api_AccountLocksResource_messageType api_AccountLocksResource_Reset
     [existT api_AccountLocksResource_Address_field api_AccountLocksResource_GetAddress; existT
         api_AccountLocksResource_Locks_field api_AccountLocksResource_GetLocks]
     api_AccountLocksResource_size api_AccountLocksResource_marshal
         api_AccountLocksResource_unmarshal;
   MkMessage api_QueryAccountLocksResponse_desc api_QueryAccountLocksResponse_ProtoReflect
       api_QueryAccountLocksResponse_messageType api_QueryAccountLocksResponse_Reset
     [existT api_QueryAccountLocksResponse_Accounts_field
         api_QueryAccountLocksResponse_GetAccounts; existT
         api_QueryAccountLocksResponse_Pagination_field
         api_QueryAccountLocksResponse_GetPagination]
     api_QueryAccountLocksResponse_size api_QueryAccountLocksResponse_marshal
         api_QueryAccountLocksResponse_unmarshal;
   MkMessage api_QueryLocksRequest_desc api_QueryLocksRequest_ProtoReflect
       api_QueryLocksRequest_messageType api_QueryLocksRequest_Reset
     [existT api_QueryLocksRequest_Address_field api_QueryLocksRequest_GetAddress; existT
         api_QueryLocksRequest_Pagination_field api_QueryLocksRequest_GetPagination]
     api_QueryLocksRequest_size api_QueryLocksRequest_marshal api_QueryLocksRequest_unmarshal;
   MkMessage api_QueryLocksResponse_desc api_QueryLocksResponse_ProtoReflect
       api_QueryLocksResponse_messageType api_QueryLocksResponse_Reset
     [existT api_QueryLocksResponse_Locks_field api_QueryLocksResponse_GetLocks; existT
         api_QueryLocksResponse_Pagination_field api_QueryLocksResponse_GetPagination]
     api_QueryLocksResponse_size api_QueryLocksResponse_marshal api_QueryLocksResponse_unmarshal;
   MkMessage api_LockupModule_desc api_LockupModule_ProtoReflect api_LockupModule_messageType
       api_LockupModule_Reset
     []
     api_LockupModule_size api_LockupModule_marshal api_LockupModule_unmarshal].

(** All list values. *)
Definition lockup_list_values : list list_value :=
  [MkListValue (desc_codec api_Lock_desc) api_Locks_1_list_Len api_Locks_1_list_Get
      api_Locks_1_list_Set api_Locks_1_list_Append api_Locks_1_list_AppendMutable
      api_Locks_1_list_Truncate api_Locks_1_list_NewElement api_Locks_1_list_IsValid;
   MkListValue (desc_codec api_Extension_desc) api_MsgExtend_2_list_Len api_MsgExtend_2_list_Get
       api_MsgExtend_2_list_Set api_MsgExtend_2_list_Append api_MsgExtend_2_list_AppendMutable
       api_MsgExtend_2_list_Truncate api_MsgExtend_2_list_NewElement api_MsgExtend_2_list_IsValid;
   MkListValue (desc_codec api_MultiSendDelegateAndLockOutput_desc)
       api_MsgMultiSendDelegateAndLock_3_list_Len api_MsgMultiSendDelegateAndLock_3_list_Get
       api_MsgMultiSendDelegateAndLock_3_list_Set api_MsgMultiSendDelegateAndLock_3_list_Append
       api_MsgMultiSendDelegateAndLock_3_list_AppendMutable
       api_MsgMultiSendDelegateAndLock_3_list_Truncate
       api_MsgMultiSendDelegateAndLock_3_list_NewElement
       api_MsgMultiSendDelegateAndLock_3_list_IsValid;
   MkListValue (desc_codec api_ActiveLockResource_desc) api_QueryActiveLocksResponse_1_list_Len
       api_QueryActiveLocksResponse_1_list_Get api_QueryActiveLocksResponse_1_list_Set
       api_QueryActiveLocksResponse_1_list_Append
       api_QueryActiveLocksResponse_1_list_AppendMutable
       api_QueryActiveLocksResponse_1_list_Truncate api_QueryActiveLocksResponse_1_list_NewElement
       api_QueryActiveLocksResponse_1_list_IsValid;
   MkListValue (desc_codec api_LockResource_desc) api_AccountLocksResource_2_list_Len
       api_AccountLocksResource_2_list_Get api_AccountLocksResource_2_list_Set
       api_AccountLocksResource_2_list_Append api_AccountLocksResource_2_list_AppendMutable
       api_AccountLocksResource_2_list_Truncate api_AccountLocksResource_2_list_NewElement
       api_AccountLocksResource_2_list_IsValid;
   MkListValue (desc_codec api_AccountLocksResource_desc) api_QueryAccountLocksResponse_1_list_Len
       api_QueryAccountLocksResponse_1_list_Get api_QueryAccountLocksResponse_1_list_Set
       api_QueryAccountLocksResponse_1_list_Append
       api_QueryAccountLocksResponse_1_list_AppendMutable
       api_QueryAccountLocksResponse_1_list_Truncate
       api_QueryAccountLocksResponse_1_list_NewElement
       api_QueryAccountLocksResponse_1_list_IsValid;
   MkListValue (desc_codec api_LockResource_desc) api_QueryLocksResponse_1_list_Len
       api_QueryLocksResponse_1_list_Get api_QueryLocksResponse_1_list_Set
       api_QueryLocksResponse_1_list_Append api_QueryLocksResponse_1_list_AppendMutable
       api_QueryLocksResponse_1_list_Truncate api_QueryLocksResponse_1_list_NewElement
       api_QueryLocksResponse_1_list_IsValid].
End Messages.
