(* ===== verification/ApiDistro.v ===== *)
(** The distro API messages: the structs and the tables of the pulsar files under
    api/distro, with their Size, Marshal, Unmarshal and reflection. *)

From stdpp Require Import base list strings.
From Stdlib Require Import ZArith Lia.
From S2P Require Import Prelude Sdk LockPb ProtoTable Pulsar.

Local Open Scope Z_scope.

Section Messages.
Context `{WireRuntime}.

(** ** api/distro/v1/genesis.pulsar.go *)

Record api_Params := Mk_api_Params {
  api_Params_MintingAddress : string;
  api_Params_ReceivingAddress : string;
  api_Params_Denom : string;
  api_Params_MaxSupply : string;
  api_Params_DistributionStartDate : string;
  api_Params_MonthsInHalvingPeriod : Z;
  api_Params_unknownFields : bytes;
}.

Definition api_Params_MintingAddress_field : field api_Params :=
  MkField KString 1 "minting_address" "MintingAddress" api_Params_MintingAddress
    (fun v x => Mk_api_Params v (api_Params_ReceivingAddress x) (api_Params_Denom x)
        (api_Params_MaxSupply x) (api_Params_DistributionStartDate x)
        (api_Params_MonthsInHalvingPeriod x) (api_Params_unknownFields x)).

Definition api_Params_ReceivingAddress_field : field api_Params :=
  MkField KString 2 "receiving_address" "ReceivingAddress" api_Params_ReceivingAddress
    (fun v x => Mk_api_Params (api_Params_MintingAddress x) v (api_Params_Denom x)
        (api_Params_MaxSupply x) (api_Params_DistributionStartDate x)
        (api_Params_MonthsInHalvingPeriod x) (api_Params_unknownFields x)).

Definition api_Params_Denom_field : field api_Params :=
  MkField KString 3 "denom" "Denom" api_Params_Denom
    (fun v x => Mk_api_Params (api_Params_MintingAddress x) (api_Params_ReceivingAddress x) v
        (api_Params_MaxSupply x) (api_Params_DistributionStartDate x)
        (api_Params_MonthsInHalvingPeriod x) (api_Params_unknownFields x)).

Definition api_Params_MaxSupply_field : field api_Params :=
  MkField KString 4 "max_supply" "MaxSupply" api_Params_MaxSupply
    (fun v x => Mk_api_Params (api_Params_MintingAddress x) (api_Params_ReceivingAddress x)
        (api_Params_Denom x) v (api_Params_DistributionStartDate x)
        (api_Params_MonthsInHalvingPeriod x) (api_Params_unknownFields x)).

Definition api_Params_DistributionStartDate_field : field api_Params :=
  MkField KString 5 "distribution_start_date" "DistributionStartDate"
      api_Params_DistributionStartDate
    (fun v x => Mk_api_Params (api_Params_MintingAddress x) (api_Params_ReceivingAddress x)
        (api_Params_Denom x) (api_Params_MaxSupply x) v (api_Params_MonthsInHalvingPeriod x)
        (api_Params_unknownFields x)).

Definition api_Params_MonthsInHalvingPeriod_field : field api_Params :=
  MkField KUint64 6 "months_in_halving_period" "MonthsInHalvingPeriod"
      api_Params_MonthsInHalvingPeriod
    (fun v x => Mk_api_Params (api_Params_MintingAddress x) (api_Params_ReceivingAddress x)
        (api_Params_Denom x) (api_Params_MaxSupply x) (api_Params_DistributionStartDate x) v
        (api_Params_unknownFields x)).

Definition api_Params_desc : Desc api_Params :=
  MkDesc "distro.v1.Params" "Params"
    [api_Params_MintingAddress_field; api_Params_ReceivingAddress_field; api_Params_Denom_field;
        api_Params_MaxSupply_field; api_Params_DistributionStartDate_field;
        api_Params_MonthsInHalvingPeriod_field]
    (Mk_api_Params EmptyString EmptyString EmptyString EmptyString EmptyString 0 [])
    api_Params_unknownFields (fun v x => Mk_api_Params (api_Params_MintingAddress x)
        (api_Params_ReceivingAddress x) (api_Params_Denom x) (api_Params_MaxSupply x)
        (api_Params_DistributionStartDate x) (api_Params_MonthsInHalvingPeriod x) v).

Definition api_Params_Has := Has api_Params_desc.
Definition api_Params_Clear := Clear api_Params_desc.
Definition api_Params_Get := Get api_Params_desc.
Definition api_Params_Set := Set_ api_Params_desc.
Definition api_Params_Mutable := Mutable api_Params_desc.
Definition api_Params_NewField := NewField api_Params_desc.
Definition api_Params_WhichOneof := WhichOneof api_Params_desc.
Definition api_Params_GetUnknown := GetUnknown api_Params_desc.
Definition api_Params_SetUnknown := SetUnknown api_Params_desc.
Definition api_Params_Range {A} := Range api_Params_desc (A := A).
Definition api_Params_ProtoReflect : Reflection api_Params :=
  MkReflection api_Params_Has api_Params_Clear api_Params_Get api_Params_Set api_Params_Mutable
      api_Params_NewField (fun A => api_Params_Range).
Definition api_Params_messageType : MessageType api_Params := message_type api_Params_desc.
Definition api_Params_IsValid := message_IsValid (T := api_Params).
Definition api_Params_Reset (x : api_Params) : api_Params :=
  Mk_api_Params EmptyString EmptyString EmptyString EmptyString EmptyString 0 [].
Definition api_Params_GetMintingAddress (x : option api_Params) : string :=
  match x with Some x => api_Params_MintingAddress x | None => EmptyString end.
Definition api_Params_GetReceivingAddress (x : option api_Params) : string :=
  match x with Some x => api_Params_ReceivingAddress x | None => EmptyString end.
Definition api_Params_GetDenom (x : option api_Params) : string :=
  match x with Some x => api_Params_Denom x | None => EmptyString end.
Definition api_Params_GetMaxSupply (x : option api_Params) : string :=
  match x with Some x => api_Params_MaxSupply x | None => EmptyString end.
Definition api_Params_GetDistributionStartDate (x : option api_Params) : string :=
  match x with Some x => api_Params_DistributionStartDate x | None => EmptyString end.
Definition api_Params_GetMonthsInHalvingPeriod (x : option api_Params) : Z :=
  match x with Some x => api_Params_MonthsInHalvingPeriod x | None => 0 end.
Definition api_Params_size := ProtoMethods_Size api_Params_desc.
Definition api_Params_marshal := ProtoMethods_Marshal api_Params_desc.
Definition api_Params_unmarshal := ProtoMethods_Unmarshal api_Params_desc.

Record api_DistroGenesisState := Mk_api_DistroGenesisState {
  api_DistroGenesisState_Params : option api_Params;
  api_DistroGenesisState_unknownFields : bytes;
}.

Definition api_DistroGenesisState_Params_field : field api_DistroGenesisState :=
  MkField (KMsg (desc_codec api_Params_desc)) 1 "params" "Params" api_DistroGenesisState_Params
    (fun v x => Mk_api_DistroGenesisState v (api_DistroGenesisState_unknownFields x)).

Definition api_DistroGenesisState_desc : Desc api_DistroGenesisState :=
  MkDesc "distro.v1.GenesisState" "GenesisState"
    [api_DistroGenesisState_Params_field]
    (Mk_api_DistroGenesisState None [])
    api_DistroGenesisState_unknownFields (fun v x => Mk_api_DistroGenesisState
        (api_DistroGenesisState_Params x) v).

Definition api_DistroGenesisState_Has := Has api_DistroGenesisState_desc.
Definition api_DistroGenesisState_Clear := Clear api_DistroGenesisState_desc.
Definition api_DistroGenesisState_Get := Get api_DistroGenesisState_desc.
Definition api_DistroGenesisState_Set := Set_ api_DistroGenesisState_desc.
Definition api_DistroGenesisState_Mutable := Mutable api_DistroGenesisState_desc.
Definition api_DistroGenesisState_NewField := NewField api_DistroGenesisState_desc.
Definition api_DistroGenesisState_WhichOneof := WhichOneof api_DistroGenesisState_desc.
Definition api_DistroGenesisState_GetUnknown := GetUnknown api_DistroGenesisState_desc.
Definition api_DistroGenesisState_SetUnknown := SetUnknown api_DistroGenesisState_desc.
Definition api_DistroGenesisState_Range {A} := Range api_DistroGenesisState_desc (A := A).
Definition api_DistroGenesisState_ProtoReflect : Reflection api_DistroGenesisState :=
  MkReflection api_DistroGenesisState_Has api_DistroGenesisState_Clear api_DistroGenesisState_Get
      api_DistroGenesisState_Set api_DistroGenesisState_Mutable api_DistroGenesisState_NewField
      (fun A => api_DistroGenesisState_Range).
Definition api_DistroGenesisState_messageType : MessageType api_DistroGenesisState := message_type
    api_DistroGenesisState_desc.
Definition api_DistroGenesisState_IsValid := message_IsValid (T := api_DistroGenesisState).
Definition api_DistroGenesisState_Reset (x : api_DistroGenesisState) : api_DistroGenesisState :=
  Mk_api_DistroGenesisState None [].
Definition api_DistroGenesisState_GetParams (x : option api_DistroGenesisState) : option
    api_Params :=
  match x with Some x => api_DistroGenesisState_Params x | None => None end.
Definition api_DistroGenesisState_size := ProtoMethods_Size api_DistroGenesisState_desc.
Definition api_DistroGenesisState_marshal := ProtoMethods_Marshal api_DistroGenesisState_desc.
Definition api_DistroGenesisState_unmarshal := ProtoMethods_Unmarshal api_DistroGenesisState_desc.

(** ** api/distro/v1/tx.pulsar.go *)

Record api_MsgUpdateParams := Mk_api_MsgUpdateParams {
  api_MsgUpdateParams_Authority : string;
  api_MsgUpdateParams_Params : option api_Params;
  api_MsgUpdateParams_unknownFields : bytes;
}.

Definition api_MsgUpdateParams_Authority_field : field api_MsgUpdateParams :=
  MkField KString 1 "authority" "Authority" api_MsgUpdateParams_Authority
    (fun v x => Mk_api_MsgUpdateParams v (api_MsgUpdateParams_Params x)
        (api_MsgUpdateParams_unknownFields x)).

Definition api_MsgUpdateParams_Params_field : field api_MsgUpdateParams :=
  MkField (KMsg (desc_codec api_Params_desc)) 2 "params" "Params" api_MsgUpdateParams_Params
    (fun v x => Mk_api_MsgUpdateParams (api_MsgUpdateParams_Authority x) v
        (api_MsgUpdateParams_unknownFields x)).

Definition api_MsgUpdateParams_desc : Desc api_MsgUpdateParams :=
  MkDesc "distro.v1.MsgUpdateParams" "MsgUpdateParams"
    [api_MsgUpdateParams_Authority_field; api_MsgUpdateParams_Params_field]
    (Mk_api_MsgUpdateParams EmptyString None [])
    api_MsgUpdateParams_unknownFields (fun v x => Mk_api_MsgUpdateParams
        (api_MsgUpdateParams_Authority x) (api_MsgUpdateParams_Params x) v).

Definition api_MsgUpdateParams_Has := Has api_MsgUpdateParams_desc.
Definition api_MsgUpdateParams_Clear := Clear api_MsgUpdateParams_desc.
Definition api_MsgUpdateParams_Get := Get api_MsgUpdateParams_desc.
Definition api_MsgUpdateParams_Set := Set_ api_MsgUpdateParams_desc.
Definition api_MsgUpdateParams_Mutable := Mutable api_MsgUpdateParams_desc.
Definition api_MsgUpdateParams_NewField := NewField api_MsgUpdateParams_desc.
Definition api_MsgUpdateParams_WhichOneof := WhichOneof api_MsgUpdateParams_desc.
Definition api_MsgUpdateParams_GetUnknown := GetUnknown api_MsgUpdateParams_desc.
Definition api_MsgUpdateParams_SetUnknown := SetUnknown api_MsgUpdateParams_desc.
Definition api_MsgUpdateParams_Range {A} := Range api_MsgUpdateParams_desc (A := A).
Definition api_MsgUpdateParams_ProtoReflect : Reflection api_MsgUpdateParams :=
  MkReflection api_MsgUpdateParams_Has api_MsgUpdateParams_Clear api_MsgUpdateParams_Get
      api_MsgUpdateParams_Set api_MsgUpdateParams_Mutable api_MsgUpdateParams_NewField (fun A =>
      api_MsgUpdateParams_Range).
Definition api_MsgUpdateParams_messageType : MessageType api_MsgUpdateParams := message_type
    api_MsgUpdateParams_desc.
Definition api_MsgUpdateParams_IsValid := message_IsValid (T := api_MsgUpdateParams).
Definition api_MsgUpdateParams_Reset (x : api_MsgUpdateParams) : api_MsgUpdateParams :=
  Mk_api_MsgUpdateParams EmptyString None [].
Definition api_MsgUpdateParams_GetAuthority (x : option api_MsgUpdateParams) : string :=
  match x with Some x => api_MsgUpdateParams_Authority x | None => EmptyString end.
Definition api_MsgUpdateParams_GetParams (x : option api_MsgUpdateParams) : option api_Params :=
  match x with Some x => api_MsgUpdateParams_Params x | None => None end.
Definition api_MsgUpdateParams_size := ProtoMethods_Size api_MsgUpdateParams_desc.
Definition api_MsgUpdateParams_marshal := ProtoMethods_Marshal api_MsgUpdateParams_desc.
Definition api_MsgUpdateParams_unmarshal := ProtoMethods_Unmarshal api_MsgUpdateParams_desc.

Record api_MsgUpdateParamsResponse := Mk_api_MsgUpdateParamsResponse {
  api_MsgUpdateParamsResponse_unknownFields : bytes;
}.

Definition api_MsgUpdateParamsResponse_desc : Desc api_MsgUpdateParamsResponse :=
  MkDesc "distro.v1.MsgUpdateParamsResponse" "MsgUpdateParamsResponse"
    []
    (Mk_api_MsgUpdateParamsResponse [])
    api_MsgUpdateParamsResponse_unknownFields (fun v x => Mk_api_MsgUpdateParamsResponse v).

Definition api_MsgUpdateParamsResponse_Has := Has api_MsgUpdateParamsResponse_desc.
Definition api_MsgUpdateParamsResponse_Clear := Clear api_MsgUpdateParamsResponse_desc.
Definition api_MsgUpdateParamsResponse_Get := Get api_MsgUpdateParamsResponse_desc.
Definition api_MsgUpdateParamsResponse_Set := Set_ api_MsgUpdateParamsResponse_desc.
Definition api_MsgUpdateParamsResponse_Mutable := Mutable api_MsgUpdateParamsResponse_desc.
Definition api_MsgUpdateParamsResponse_NewField := NewField api_MsgUpdateParamsResponse_desc.
Definition api_MsgUpdateParamsResponse_WhichOneof := WhichOneof api_MsgUpdateParamsResponse_desc.
Definition api_MsgUpdateParamsResponse_GetUnknown := GetUnknown api_MsgUpdateParamsResponse_desc.
Definition api_MsgUpdateParamsResponse_SetUnknown := SetUnknown api_MsgUpdateParamsResponse_desc.
Definition api_MsgUpdateParamsResponse_Range {A} := Range api_MsgUpdateParamsResponse_desc (A := A).
Definition api_MsgUpdateParamsResponse_ProtoReflect : Reflection api_MsgUpdateParamsResponse :=
  MkReflection api_MsgUpdateParamsResponse_Has api_MsgUpdateParamsResponse_Clear
      api_MsgUpdateParamsResponse_Get api_MsgUpdateParamsResponse_Set
      api_MsgUpdateParamsResponse_Mutable api_MsgUpdateParamsResponse_NewField (fun A =>
      api_MsgUpdateParamsResponse_Range).
Definition api_MsgUpdateParamsResponse_messageType : MessageType api_MsgUpdateParamsResponse :=
    message_type api_MsgUpdateParamsResponse_desc.
Definition api_MsgUpdateParamsResponse_IsValid := message_IsValid (T :=
    api_MsgUpdateParamsResponse).
Definition api_MsgUpdateParamsResponse_Reset (x : api_MsgUpdateParamsResponse) :
    api_MsgUpdateParamsResponse :=
  Mk_api_MsgUpdateParamsResponse [].
Definition api_MsgUpdateParamsResponse_size := ProtoMethods_Size api_MsgUpdateParamsResponse_desc.
Definition api_MsgUpdateParamsResponse_marshal := ProtoMethods_Marshal
    api_MsgUpdateParamsResponse_desc.
Definition api_MsgUpdateParamsResponse_unmarshal := ProtoMethods_Unmarshal
    api_MsgUpdateParamsResponse_desc.

Record api_MsgMint := Mk_api_MsgMint {
  api_MsgMint_Amount : string;
  api_MsgMint_Minter : string;
  api_MsgMint_unknownFields : bytes;
}.

Definition api_MsgMint_Amount_field : field api_MsgMint :=
  MkField KString 1 "amount" "Amount" api_MsgMint_Amount
    (fun v x => Mk_api_MsgMint v (api_MsgMint_Minter x) (api_MsgMint_unknownFields x)).

Definition api_MsgMint_Minter_field : field api_MsgMint :=
  MkField KString 2 "minter" "Minter" api_MsgMint_Minter
    (fun v x => Mk_api_MsgMint (api_MsgMint_Amount x) v (api_MsgMint_unknownFields x)).

Definition api_MsgMint_desc : Desc api_MsgMint :=
  MkDesc "distro.v1.MsgMint" "MsgMint"
    [api_MsgMint_Amount_field; api_MsgMint_Minter_field]
    (Mk_api_MsgMint EmptyString EmptyString [])
    api_MsgMint_unknownFields (fun v x => Mk_api_MsgMint (api_MsgMint_Amount x)
        (api_MsgMint_Minter x) v).

Definition api_MsgMint_Has := Has api_MsgMint_desc.
Definition api_MsgMint_Clear := Clear api_MsgMint_desc.
Definition api_MsgMint_Get := Get api_MsgMint_desc.
Definition api_MsgMint_Set := Set_ api_MsgMint_desc.
Definition api_MsgMint_Mutable := Mutable api_MsgMint_desc.
Definition api_MsgMint_NewField := NewField api_MsgMint_desc.
Definition api_MsgMint_WhichOneof := WhichOneof api_MsgMint_desc.
Definition api_MsgMint_GetUnknown := GetUnknown api_MsgMint_desc.
Definition api_MsgMint_SetUnknown := SetUnknown api_MsgMint_desc.
Definition api_MsgMint_Range {A} := Range api_MsgMint_desc (A := A).
Definition api_MsgMint_ProtoReflect : Reflection api_MsgMint :=
  MkReflection api_MsgMint_Has api_MsgMint_Clear api_MsgMint_Get api_MsgMint_Set
      api_MsgMint_Mutable api_MsgMint_NewField (fun A => api_MsgMint_Range).
Definition api_MsgMint_messageType : MessageType api_MsgMint := message_type api_MsgMint_desc.
Definition api_MsgMint_IsValid := message_IsValid (T := api_MsgMint).
Definition api_MsgMint_Reset (x : api_MsgMint) : api_MsgMint :=
  Mk_api_MsgMint EmptyString EmptyString [].
Definition api_MsgMint_GetAmount (x : option api_MsgMint) : string :=
  match x with Some x => api_MsgMint_Amount x | None => EmptyString end.
Definition api_MsgMint_GetMinter (x : option api_MsgMint) : string :=
  match x with Some x => api_MsgMint_Minter x | None => EmptyString end.
Definition api_MsgMint_size := ProtoMethods_Size api_MsgMint_desc.
Definition api_MsgMint_marshal := ProtoMethods_Marshal api_MsgMint_desc.
Definition api_MsgMint_unmarshal := ProtoMethods_Unmarshal api_MsgMint_desc.

Record api_MsgMintResponse := Mk_api_MsgMintResponse {
  api_MsgMintResponse_unknownFields : bytes;
}.

Definition api_MsgMintResponse_desc : Desc api_MsgMintResponse :=
  MkDesc "distro.v1.MsgMintResponse" "MsgMintResponse"
    []
    (Mk_api_MsgMintResponse [])
    api_MsgMintResponse_unknownFields (fun v x => Mk_api_MsgMintResponse v).

Definition api_MsgMintResponse_Has := Has api_MsgMintResponse_desc.
Definition api_MsgMintResponse_Clear := Clear api_MsgMintResponse_desc.
Definition api_MsgMintResponse_Get := Get api_MsgMintResponse_desc.
Definition api_MsgMintResponse_Set := Set_ api_MsgMintResponse_desc.
Definition api_MsgMintResponse_Mutable := Mutable api_MsgMintResponse_desc.
Definition api_MsgMintResponse_NewField := NewField api_MsgMintResponse_desc.
Definition api_MsgMintResponse_WhichOneof := WhichOneof api_MsgMintResponse_desc.
Definition api_MsgMintResponse_GetUnknown := GetUnknown api_MsgMintResponse_desc.
Definition api_MsgMintResponse_SetUnknown := SetUnknown api_MsgMintResponse_desc.
Definition api_MsgMintResponse_Range {A} := Range api_MsgMintResponse_desc (A := A).
Definition api_MsgMintResponse_ProtoReflect : Reflection api_MsgMintResponse :=
  MkReflection api_MsgMintResponse_Has api_MsgMintResponse_Clear api_MsgMintResponse_Get
      api_MsgMintResponse_Set api_MsgMintResponse_Mutable api_MsgMintResponse_NewField (fun A =>
      api_MsgMintResponse_Range).
Definition api_MsgMintResponse_messageType : MessageType api_MsgMintResponse := message_type
    api_MsgMintResponse_desc.
Definition api_MsgMintResponse_IsValid := message_IsValid (T := api_MsgMintResponse).
Definition api_MsgMintResponse_Reset (x : api_MsgMintResponse) : api_MsgMintResponse :=
  Mk_api_MsgMintResponse [].
Definition api_MsgMintResponse_size := ProtoMethods_Size api_MsgMintResponse_desc.
Definition api_MsgMintResponse_marshal := ProtoMethods_Marshal api_MsgMintResponse_desc.
Definition api_MsgMintResponse_unmarshal := ProtoMethods_Unmarshal api_MsgMintResponse_desc.

(** ** api/distro/v1/query.pulsar.go *)

Record api_QueryParamsRequest := Mk_api_QueryParamsRequest {
  api_QueryParamsRequest_unknownFields : bytes;
}.

Definition api_QueryParamsRequest_desc : Desc api_QueryParamsRequest :=
  MkDesc "distro.v1.QueryParamsRequest" "QueryParamsRequest"
    []
    (Mk_api_QueryParamsRequest [])
    api_QueryParamsRequest_unknownFields (fun v x => Mk_api_QueryParamsRequest v).

Definition api_QueryParamsRequest_Has := Has api_QueryParamsRequest_desc.
Definition api_QueryParamsRequest_Clear := Clear api_QueryParamsRequest_desc.
Definition api_QueryParamsRequest_Get := Get api_QueryParamsRequest_desc.
Definition api_QueryParamsRequest_Set := Set_ api_QueryParamsRequest_desc.
Definition api_QueryParamsRequest_Mutable := Mutable api_QueryParamsRequest_desc.
Definition api_QueryParamsRequest_NewField := NewField api_QueryParamsRequest_desc.
Definition api_QueryParamsRequest_WhichOneof := WhichOneof api_QueryParamsRequest_desc.
Definition api_QueryParamsRequest_GetUnknown := GetUnknown api_QueryParamsRequest_desc.
Definition api_QueryParamsRequest_SetUnknown := SetUnknown api_QueryParamsRequest_desc.
Definition api_QueryParamsRequest_Range {A} := Range api_QueryParamsRequest_desc (A := A).
Definition api_QueryParamsRequest_ProtoReflect : Reflection api_QueryParamsRequest :=
  MkReflection api_QueryParamsRequest_Has api_QueryParamsRequest_Clear api_QueryParamsRequest_Get
      api_QueryParamsRequest_Set api_QueryParamsRequest_Mutable api_QueryParamsRequest_NewField
      (fun A => api_QueryParamsRequest_Range).
Definition api_QueryParamsRequest_messageType : MessageType api_QueryParamsRequest := message_type
    api_QueryParamsRequest_desc.
Definition api_QueryParamsRequest_IsValid := message_IsValid (T := api_QueryParamsRequest).
Definition api_QueryParamsRequest_Reset (x : api_QueryParamsRequest) : api_QueryParamsRequest :=
  Mk_api_QueryParamsRequest [].
Definition api_QueryParamsRequest_size := ProtoMethods_Size api_QueryParamsRequest_desc.
Definition api_QueryParamsRequest_marshal := ProtoMethods_Marshal api_QueryParamsRequest_desc.
Definition api_QueryParamsRequest_unmarshal := ProtoMethods_Unmarshal api_QueryParamsRequest_desc.

Record api_QueryParamsResponse := Mk_api_QueryParamsResponse {
  api_QueryParamsResponse_Params : option api_Params;
  api_QueryParamsResponse_unknownFields : bytes;
}.

Definition api_QueryParamsResponse_Params_field : field api_QueryParamsResponse :=
  MkField (KMsg (desc_codec api_Params_desc)) 1 "params" "Params" api_QueryParamsResponse_Params
    (fun v x => Mk_api_QueryParamsResponse v (api_QueryParamsResponse_unknownFields x)).

Definition api_QueryParamsResponse_desc : Desc api_QueryParamsResponse :=
  MkDesc "distro.v1.QueryParamsResponse" "QueryParamsResponse"
    [api_QueryParamsResponse_Params_field]
    (Mk_api_QueryParamsResponse None [])
    api_QueryParamsResponse_unknownFields (fun v x => Mk_api_QueryParamsResponse
        (api_QueryParamsResponse_Params x) v).

Definition api_QueryParamsResponse_Has := Has api_QueryParamsResponse_desc.
Definition api_QueryParamsResponse_Clear := Clear api_QueryParamsResponse_desc.
Definition api_QueryParamsResponse_Get := Get api_QueryParamsResponse_desc.
Definition api_QueryParamsResponse_Set := Set_ api_QueryParamsResponse_desc.
Definition api_QueryParamsResponse_Mutable := Mutable api_QueryParamsResponse_desc.
Definition api_QueryParamsResponse_NewField := NewField api_QueryParamsResponse_desc.
Definition api_QueryParamsResponse_WhichOneof := WhichOneof api_QueryParamsResponse_desc.
Definition api_QueryParamsResponse_GetUnknown := GetUnknown api_QueryParamsResponse_desc.
Definition api_QueryParamsResponse_SetUnknown := SetUnknown api_QueryParamsResponse_desc.
Definition api_QueryParamsResponse_Range {A} := Range api_QueryParamsResponse_desc (A := A).
Definition api_QueryParamsResponse_ProtoReflect : Reflection api_QueryParamsResponse :=
  MkReflection api_QueryParamsResponse_Has api_QueryParamsResponse_Clear
      api_QueryParamsResponse_Get api_QueryParamsResponse_Set api_QueryParamsResponse_Mutable
      api_QueryParamsResponse_NewField (fun A => api_QueryParamsResponse_Range).
Definition api_QueryParamsResponse_messageType : MessageType api_QueryParamsResponse :=
    message_type api_QueryParamsResponse_desc.
Definition api_QueryParamsResponse_IsValid := message_IsValid (T := api_QueryParamsResponse).
Definition api_QueryParamsResponse_Reset (x : api_QueryParamsResponse) : api_QueryParamsResponse :=
  Mk_api_QueryParamsResponse None [].
Definition api_QueryParamsResponse_GetParams (x : option api_QueryParamsResponse) : option
    api_Params :=
  match x with Some x => api_QueryParamsResponse_Params x | None => None end.
Definition api_QueryParamsResponse_size := ProtoMethods_Size api_QueryParamsResponse_desc.
Definition api_QueryParamsResponse_marshal := ProtoMethods_Marshal api_QueryParamsResponse_desc.
Definition api_QueryParamsResponse_unmarshal := ProtoMethods_Unmarshal api_QueryParamsResponse_desc.

(** ** api/distro/module/v1/module.pulsar.go *)

Record api_DistroModule := Mk_api_DistroModule {
  api_DistroModule_unknownFields : bytes;
}.

Definition api_DistroModule_desc : Desc api_DistroModule :=
  MkDesc "distro.module.v1.Module" "Module"
    []
    (Mk_api_DistroModule [])
    api_DistroModule_unknownFields (fun v x => Mk_api_DistroModule v).

Definition api_DistroModule_Has := Has api_DistroModule_desc.
Definition api_DistroModule_Clear := Clear api_DistroModule_desc.
Definition api_DistroModule_Get := Get api_DistroModule_desc.
Definition api_DistroModule_Set := Set_ api_DistroModule_desc.
Definition api_DistroModule_Mutable := Mutable api_DistroModule_desc.
Definition api_DistroModule_NewField := NewField api_DistroModule_desc.
Definition api_DistroModule_WhichOneof := WhichOneof api_DistroModule_desc.
Definition api_DistroModule_GetUnknown := GetUnknown api_DistroModule_desc.
Definition api_DistroModule_SetUnknown := SetUnknown api_DistroModule_desc.
Definition api_DistroModule_Range {A} := Range api_DistroModule_desc (A := A).
Definition api_DistroModule_ProtoReflect : Reflection api_DistroModule :=
  MkReflection api_DistroModule_Has api_DistroModule_Clear api_DistroModule_Get
      api_DistroModule_Set api_DistroModule_Mutable api_DistroModule_NewField (fun A =>
      api_DistroModule_Range).
Definition api_DistroModule_messageType : MessageType api_DistroModule := message_type
    api_DistroModule_desc.
Definition api_DistroModule_IsValid := message_IsValid (T := api_DistroModule).
Definition api_DistroModule_Reset (x : api_DistroModule) : api_DistroModule :=
  Mk_api_DistroModule [].
Definition api_DistroModule_size := ProtoMethods_Size api_DistroModule_desc.
Definition api_DistroModule_marshal := ProtoMethods_Marshal api_DistroModule_desc.
Definition api_DistroModule_unmarshal := ProtoMethods_Unmarshal api_DistroModule_desc.

(** All of them. *)
Definition distro_messages : list message :=
  [MkMessage api_Params_desc api_Params_ProtoReflect api_Params_messageType api_Params_Reset
     [existT api_Params_MintingAddress_field api_Params_GetMintingAddress; existT
         api_Params_ReceivingAddress_field api_Params_GetReceivingAddress; existT
         api_Params_Denom_field api_Params_GetDenom; existT api_Params_MaxSupply_field
         api_Params_GetMaxSupply; existT api_Params_DistributionStartDate_field
         api_Params_GetDistributionStartDate; existT api_Params_MonthsInHalvingPeriod_field
         api_Params_GetMonthsInHalvingPeriod]
     api_Params_size api_Params_marshal api_Params_unmarshal;
   MkMessage api_DistroGenesisState_desc api_DistroGenesisState_ProtoReflect
       api_DistroGenesisState_messageType api_DistroGenesisState_Reset
     [existT api_DistroGenesisState_Params_field api_DistroGenesisState_GetParams]
     api_DistroGenesisState_size api_DistroGenesisState_marshal api_DistroGenesisState_unmarshal;
   MkMessage api_MsgUpdateParams_desc api_MsgUpdateParams_ProtoReflect
       api_MsgUpdateParams_messageType api_MsgUpdateParams_Reset
     [existT api_MsgUpdateParams_Authority_field api_MsgUpdateParams_GetAuthority; existT
         api_MsgUpdateParams_Params_field api_MsgUpdateParams_GetParams]
     api_MsgUpdateParams_size api_MsgUpdateParams_marshal api_MsgUpdateParams_unmarshal;
   MkMessage api_MsgUpdateParamsResponse_desc api_MsgUpdateParamsResponse_ProtoReflect
       api_MsgUpdateParamsResponse_messageType api_MsgUpdateParamsResponse_Reset
     []
     api_MsgUpdateParamsResponse_size api_MsgUpdateParamsResponse_marshal
         api_MsgUpdateParamsResponse_unmarshal;
   MkMessage api_MsgMint_desc api_MsgMint_ProtoReflect api_MsgMint_messageType api_MsgMint_Reset
     [existT api_MsgMint_Amount_field api_MsgMint_GetAmount; existT api_MsgMint_Minter_field
         api_MsgMint_GetMinter]
     api_MsgMint_size api_MsgMint_marshal api_MsgMint_unmarshal;
   MkMessage api_MsgMintResponse_desc api_MsgMintResponse_ProtoReflect
       api_MsgMintResponse_messageType api_MsgMintResponse_Reset
     []
     api_MsgMintResponse_size api_MsgMintResponse_marshal api_MsgMintResponse_unmarshal;
   MkMessage api_QueryParamsRequest_desc api_QueryParamsRequest_ProtoReflect
       api_QueryParamsRequest_messageType api_QueryParamsRequest_Reset
     []
     api_QueryParamsRequest_size api_QueryParamsRequest_marshal api_QueryParamsRequest_unmarshal;
   MkMessage api_QueryParamsResponse_desc api_QueryParamsResponse_ProtoReflect
       api_QueryParamsResponse_messageType api_QueryParamsResponse_Reset
     [existT api_QueryParamsResponse_Params_field api_QueryParamsResponse_GetParams]
     api_QueryParamsResponse_size api_QueryParamsResponse_marshal api_QueryParamsResponse_unmarshal;
   MkMessage api_DistroModule_desc api_DistroModule_ProtoReflect api_DistroModule_messageType
       api_DistroModule_Reset
     []
     api_DistroModule_size api_DistroModule_marshal api_DistroModule_unmarshal].
End Messages.
