(* ===== verification/ApiProps.v ===== *)
(** The API messages of both modules: their codecs are exact and return on every
    input, their reflection methods are consistent, and the encoding of a lock
    list is the one the module's store uses. *)

From stdpp Require Import base list strings.
From Stdlib Require Import ZArith Lia.
From Stdlib.Init Require Import Byte.
From S2P Require Import Prelude Sdk LockPb ProtoTable ProtoTableProps Pulsar PulsarProps ApiLockup ApiDistro.

Local Open Scope Z_scope.

(** The imported messages have lawful codecs. *)
Class ApiExternalLaws `{ApiExternal} : Prop := {
  Coin_lawful : codec_lawful Coin_codec;
  PageRequest_lawful : codec_lawful PageRequest_codec;
  PageResponse_lawful : codec_lawful PageResponse_codec;
}.

(** * Every table is well formed *)

#[export] Hint Resolve Coin_lawful PageRequest_lawful PageResponse_lawful desc_codec_lawful : codecs.

(** A message of the package: its table is well formed, its fields are of pulsar's
    kinds, and its methods are the
    ones generated from the table. *)
Record message_ok `{WireRuntime} (m : message) : Prop := {
  mo_desc : desc_ok (m_desc m);
  mo_kinds : Forall (fun fd => pulsar_kind (f_kind fd) = true) (d_fields (m_desc m));
  mo_reflect : m_ProtoReflect m = reflect (m_desc m);
  mo_size : m_size m = ProtoMethods_Size (m_desc m);
  mo_marshal : m_marshal m = ProtoMethods_Marshal (m_desc m);
  mo_unmarshal : m_unmarshal m = ProtoMethods_Unmarshal (m_desc m);
  mo_Type : m_Type m = message_type (m_desc m);
  mo_Reset x : m_Reset m x = d_empty (m_desc m);
  mo_getters : map (fun g => projT1 g) (m_getters m) = d_fields (m_desc m);
  mo_get : Forall (fun g : getter (m_type m) =>
    (forall x, projT2 g (Some x) = f_get (projT1 g) x) /\
    projT2 g None = kind_zero (f_kind (projT1 g))) (m_getters m);
}.

Section Tables.
Context `{WireLaws} `{ApiExternalLaws}.

Lemma api_Lock_ok : desc_ok api_Lock_desc.
Proof. solve_desc_ok. Qed.
Lemma api_Extension_ok : desc_ok api_Extension_desc.
Proof. solve_desc_ok. Qed.
Lemma api_Output_ok : desc_ok api_MultiSendDelegateAndLockOutput_desc.
Proof. solve_desc_ok. Qed.
Lemma api_ActiveLockResource_ok : desc_ok api_ActiveLockResource_desc.
Proof. solve_desc_ok. Qed.
Lemma api_LockResource_ok : desc_ok api_LockResource_desc.
Proof. solve_desc_ok. Qed.
#[local] Hint Resolve api_Lock_ok api_Extension_ok api_Output_ok api_ActiveLockResource_ok
  api_LockResource_ok : codecs.
Lemma api_AccountLocksResource_ok : desc_ok api_AccountLocksResource_desc.
Proof. solve_desc_ok. Qed.
Lemma api_Params_ok : desc_ok api_Params_desc.
Proof. solve_desc_ok. Qed.
#[local] Hint Resolve api_AccountLocksResource_ok api_Params_ok : codecs.

(** Every message of both packages. *)
Definition api_messages : list message := lockup_messages ++ distro_messages.

Lemma api_messages_ok m : m ∈ api_messages -> message_ok m.
Proof.
  apply Forall_forall. unfold api_messages, lockup_messages, distro_messages. cbn [app].
  repeat (apply Forall_cons; split; [split; [cbn [m_desc]; solve_desc_ok|repeat constructor|reflexivity..|repeat constructor]|]).
  apply Forall_nil. exact I.
Qed.
End Tables.
#[export] Hint Resolve api_Lock_ok api_Extension_ok api_Output_ok api_ActiveLockResource_ok
  api_LockResource_ok api_AccountLocksResource_ok api_Params_ok : codecs.

(** * Codecs *)

Section Codecs.
Context `{WireLaws} `{ApiExternalLaws}.

(** C30 A message of either package without nil list elements, unknown
    fields or out-of-range integers is written behind the buffer it is given, in
    as many bytes as its size says, and a fresh message decodes those bytes back
    to it, whether unknown fields are discarded or kept. *)
Theorem api_roundtrip m x Buf :
  m ∈ api_messages -> desc_wf (m_desc m) x -> m_size m (Some x) < 2 ^ 60 ->
  exists bz, m_marshal m (Some x) Buf = Ok (Buf ++ bz) /\ zlen bz = m_size m (Some x) /\
    forall discard, m_unmarshal m discard (Some (d_empty (m_desc m))) bz = Ok (Some x).
Proof.
  intros M. apply api_messages_ok in M as [D _ _ -> -> -> _ _ _ _]. intros W S.
  destruct (codec_exact _ (desc_codec_lawful (m_desc m) D) x W S) as (bz & E & L & U).
  cbn [c_marshal c_size c_unmarshal c_empty desc_codec] in *. exists bz.
  cbn [ProtoMethods_Marshal ProtoMethods_Size ProtoMethods_Unmarshal]. rewrite E. split; [done|].
  split; [done|]. intros discard. by rewrite U.
Qed.

(** Decoding any bytes into any message of either package returns a
    message or an error: it neither panics nor runs without end. *)
Theorem api_unmarshal_total m discard x bz :
  m ∈ api_messages -> zlen bz < 2 ^ 63 -> returns (m_unmarshal m discard x bz).
Proof.
  intros M. apply api_messages_ok in M as [D _ _ _ _ -> _ _ _ _]. intros B.
  destruct x as [x|]; cbn [ProtoMethods_Unmarshal]; [|apply returns_Ok].
  destruct (codec_returns _ (desc_codec_lawful (m_desc m) D) discard x bz B) as [[y E]|[e E]];
    cbn [c_unmarshal desc_codec] in E; rewrite E; [apply returns_Ok|apply returns_Err].
Qed.

(** * Reflection *)

(** The value [v] of the field [fd], as [Set] sees it: the type assertion
    succeeds on that field. *)
Definition holds {T} (value : Value (T := T)) (fd : field T) (v : f_type fd) : Prop :=
  value fd = Some v.

(** C31 The reflection methods of a message agree with its struct: [Get]
    reads the field the name stands for, [Set] with a value of the field's type
    changes that field and nothing else, with a value of another type it panics;
    after [Clear] the field is unset; [Range] visits the populated fields, in
    order; a name of no field makes every method panic. *)
Theorem api_reflection m (x : m_type m) :
  m ∈ api_messages ->
  let r := m_ProtoReflect m in let d := m_desc m in
  (forall fd, fd ∈ d_fields d ->
    r_Get r x (full_name d fd) = Ok (existT fd (f_get fd x)) /\
    (forall value v, holds value fd v -> exists x', r_Set r x (full_name d fd) value = Ok x' /\
       updated d fd v x x' /\ r_Has r x' (full_name d fd) = Ok (kind_set (f_kind fd) v)) /\
    (forall value, value fd = None -> exists p, r_Set r x (full_name d fd) value = Panic p) /\
    (exists x', r_Clear r x (full_name d fd) = Ok x' /\
       updated d fd (kind_zero (f_kind fd)) x x' /\ r_Has r x' (full_name d fd) = Ok false)) /\
  r_Range r _ (fun fd _ names => (names ++ [f_name fd], true)) x []
    = map f_name (filter (fun fd => kind_set (f_kind fd) (f_get fd x)) (d_fields d)) /\
  (forall name, (forall fd, fd ∈ d_fields d -> name <> full_name d fd) ->
     (exists p, r_Has r x name = Panic p) /\ (exists p, r_Get r x name = Panic p) /\
     (exists p, r_Clear r x name = Panic p) /\ (exists p, forall value, r_Set r x name value = Panic p)).
Proof.
  intros M. apply api_messages_ok in M as [D K -> _ _ _ _ _ _ _]. cbn zeta.
  cbn [r_Get r_Set r_Has r_Clear r_Range reflect]. split; [|split].
  - intros fd F. pose proof (by_name_field (m_desc m) D fd F) as N.
    unfold Get, Set_, Has, Clear. rewrite N. cbn [mbind outcome_bind]. split; [done|].
    split; [|split].
    + intros value v ->. eexists. split; [done|]. pose proof (updated_set (m_desc m) D fd v x F) as U.
      split; [done|]. by destruct U as [-> _].
    + intros value ->. by eexists.
    + eexists. split; [done|]. pose proof (updated_set (m_desc m) D fd (kind_zero (f_kind fd)) x F) as U.
      split; [done|]. destruct U as [-> _]. rewrite kind_zero_unset; [done|].
      by apply (proj1 (Forall_forall _ _) K).
  - unfold Range. rewrite (range_fields_all (fun fd _ names => names ++ [f_name fd])).
    generalize (filter (fun fd => kind_set (f_kind fd) (f_get fd x)) (d_fields (m_desc m))). intros fs.
    apply (foldl_snoc_map f_name fs []).
  - intros name N. destruct (by_name_other (m_desc m) name N) as [p E].
    unfold Get, Set_, Has, Clear. rewrite E. repeat split; by exists p.
Qed.

(** A new message of either package, and one that is reset, has no field set, no
    unknown fields, and encodes to nothing; every field has a getter, which reads
    the field and returns its zero value on a nil message. *)
Theorem api_new_messages m :
  m ∈ api_messages ->
  let new := mt_New (m_Type m) in
  (forall x, m_Reset m x = new) /\
  mt_Zero (m_Type m) = None /\ mt_Descriptor (m_Type m) = d_fullname (m_desc m) /\
  d_unknown (m_desc m) new = [] /\
  (forall fd, fd ∈ d_fields (m_desc m) -> r_Has (m_ProtoReflect m) new (full_name (m_desc m) fd) = Ok false) /\
  map (fun g => projT1 g) (m_getters m) = d_fields (m_desc m) /\
  (forall g : getter (m_type m), g ∈ m_getters m ->
     (forall x, projT2 g (Some x) = f_get (projT1 g) x) /\
     projT2 g None = f_get (projT1 g) new).
Proof.
  intros M. apply api_messages_ok in M as [D K -> _ _ _ -> R Gs Gf]. cbn zeta.
  cbn [mt_New mt_Zero mt_Descriptor message_type r_Has reflect].
  pose proof (proj1 (Forall_forall _ _) (ok_zero _ D)) as Z.
  repeat split; [exact R|apply (ok_zero_unknown _ D)| |exact Gs| |].
  - intros fd F. unfold Has. rewrite (by_name_field (m_desc m) D fd F). cbn [mbind outcome_bind].
    rewrite (Z fd F), kind_zero_unset; [done|]. by apply (proj1 (Forall_forall _ _) K).
  - by apply (proj1 (Forall_forall _ _) Gf).
  - pose proof (proj1 (Forall_forall _ _) Gf g ltac:(assumption)) as [_ ->]. symmetry. apply Z.
    rewrite <- Gs. by apply (list_elem_of_fmap_2 (fun g => projT1 g)).
Qed.
End Codecs.

(** * List values *)

(** The list value of a repeated field behaves like the slice it stands for, and a
    value without a slice is read as empty and panics on every other access. *)
Definition list_value_ok (v : list_value) : Prop :=
  (forall l e, lv_Append v (Some l) e = Ok (Some (l ++ [e]))) /\
  (forall l, lv_AppendMutable v (Some l) = Ok (Some (l ++ [lv_NewElement v]))) /\
  lv_NewElement v = Some (c_empty (lv_codec v)) /\
  (forall l, lv_Len v (Some l) = zlen l) /\
  (forall l (i : nat), lv_Get v (Some l) (Z.of_nat i)
     = match l !! i with Some e => Ok e | None => Panic SliceBounds end) /\
  (forall l (i : nat) e, lv_Set v (Some l) (Z.of_nat i) e
     = if decide (i < length l)%nat then Ok (Some (<[i := e]> l)) else Panic SliceBounds) /\
  (forall l (n : nat), (n <= length l)%nat -> lv_Truncate v (Some l) (Z.of_nat n) = Ok (Some (take n l))) /\
  (forall i, i < 0 -> forall l e, lv_Get v (Some l) i = Panic SliceBounds /\
     lv_Set v (Some l) i e = Panic SliceBounds /\ lv_Truncate v (Some l) i = Panic SliceBounds) /\
  lv_Len v None = 0 /\ lv_IsValid v None = false /\ (forall l, lv_IsValid v (Some l) = true) /\
  (forall i e, lv_Get v None i = Panic NilDeref /\ lv_Set v None i e = Panic NilDeref /\
     lv_Append v None e = Panic NilDeref /\ lv_AppendMutable v None = Panic NilDeref /\
     lv_Truncate v None i = Panic NilDeref).

Lemma list_methods_ok {M} (c : Codec M) :
  list_value_ok (MkListValue c list_Len list_Get list_Set list_Append (list_AppendMutable c) list_Truncate
    (list_NewElement c) list_IsValid).
Proof.
  unfold list_value_ok. cbn [lv_Append lv_AppendMutable lv_NewElement lv_Len lv_Get lv_Set lv_Truncate
    lv_IsValid lv_codec lv_type].
  repeat split; try done; unfold list_Get, list_Set, list_Truncate.
  - intros l i. rewrite (proj2 (Z.ltb_ge _ 0)) by lia. by rewrite Nat2Z.id.
  - intros l i e. rewrite (proj2 (Z.ltb_ge _ 0)) by lia. unfold zlen. rewrite Nat2Z.id. cbn [orb].
    case_decide.
    + by rewrite (proj2 (Z.leb_gt _ _)) by lia.
    + by rewrite (proj2 (Z.leb_le _ _)) by lia.
  - intros l n L. unfold zlen. rewrite (proj2 (Z.ltb_ge _ 0)), (proj2 (Z.ltb_ge _ _)) by lia.
    by rewrite Nat2Z.id.
  - by rewrite (proj2 (Z.ltb_lt i 0)) by done.
  - by rewrite (proj2 (Z.ltb_lt i 0)) by done.
  - by rewrite (proj2 (Z.ltb_lt i 0)) by done.
Qed.

Theorem api_list_values_ok `{WireRuntime, ApiExternal} : Forall list_value_ok lockup_list_values.
Proof. unfold lockup_list_values. repeat (apply Forall_cons; split; [apply list_methods_ok|]). by apply Forall_nil. Qed.

(** * The API encoding and the stored encoding *)

(** [EncodeVarint] of the runtime package writes the standard varint, seven bits a
    byte from the low end, as the one of lock.pb.go does. *)
Class StandardVarint `{WireRuntime} : Prop :=
  EncodeVarint_standard v : 0 <= v < 2 ^ 64 -> EncodeVarint v = encodeVarintLock v.

Section Stored.
Context `{SdkMathLaws} `{WireLaws} `{!StandardVarint} `{ApiExternalLaws}.

(** A stored lock as an API message: the amount is its text. *)
Definition amount_text (a : Z) : string :=
  match Int_Marshal a with Ok bz => string_of_bytes bz | _ => EmptyString end.
Definition api_of_lock (l : Lock) : api_Lock :=
  Mk_api_Lock (UnlockDate l) (amount_text (LockAmount l)) [].
Definition api_of_locks (ls : list Lock) : api_Locks :=
  Mk_api_Locks (map (fun l => Some (api_of_lock l)) ls) [].

Lemma Sov_standard v : 0 <= v < 2 ^ 64 -> Sov v = sovLock v.
Proof. intros V. by rewrite <- EncodeVarint_len, EncodeVarint_standard, encodeVarintLock_length. Qed.

Lemma api_lock_bytes l buf :
  lock_wf l -> Lock_MarshalToSizedBuffer l = Ok buf ->
  fields_bytes api_Lock_desc (d_fields api_Lock_desc) (api_of_lock l) = Ok buf /\
  Size api_Lock_desc (api_of_lock l) = Lock_Size l.
Proof.
  intros W E. pose proof (Lock_Marshal_shape l W) as (amt & M & _ & L & E'). rewrite E in E'.
  injection E' as ->. destruct l as [date a]. destruct W as [_ W]. cbn [UnlockDate LockAmount] in *.
  pose proof (zlen_nonneg (bytes_of_string date)).
  unfold api_of_lock, amount_text, Lock_Size, Int_Size. cbn [UnlockDate LockAmount]. rewrite M.
  cbn [fields_bytes Size foldr d_fields api_Lock_desc f_kind f_get kind_bytes kind_size d_unknown mbind
    outcome_bind api_Lock_UnlockDate_field api_Lock_Amount_field api_Lock_UnlockDate api_Lock_Amount
    api_Lock_unknownFields].
  rewrite !bytes_of_string_of_bytes, (proj2 (Z.ltb_lt 0 (zlen amt))) by lia.
  unfold delimited, len_size.
  rewrite !EncodeVarint_standard, !Sov_standard by (rewrite uint64_small by lia; lia).
  split.
  - case_match; rewrite app_nil_r; [|done]. by rewrite <- app_comm_cons.
  - change (zlen []) with 0. case_match; lia.
Qed.

Lemma api_lock_marshal l buf :
  lock_wf l -> Lock_MarshalToSizedBuffer l = Ok buf ->
  Marshal api_Lock_desc (api_of_lock l) = Ok buf.
Proof.
  intros W E. destruct (api_lock_bytes l buf W E) as [B S]. unfold Marshal. rewrite B.
  cbn [mbind outcome_bind]. rewrite S, <- (proj1 (Lock_Marshal_size l buf W E)). apply filled_exact.
Qed.

Lemma api_locks_bytes ls buf :
  Forall lock_wf ls -> Locks_MarshalToSizedBuffer ls = Ok buf ->
  rep_bytes (desc_codec api_Lock_desc) x0a (map (fun l => Some (api_of_lock l)) ls) = Ok buf /\
  rep_size (desc_codec api_Lock_desc) (map (fun l => Some (api_of_lock l)) ls) = zlen buf.
Proof.
  revert buf. induction ls as [|l ls IH]; intros buf W E; [by injection E as <-|].
  apply Forall_cons in W as [Wl W]. cbn [Locks_MarshalToSizedBuffer] in E. ok_inv E.
  destruct (IH _ W E0) as [IH1 IH2]. destruct (Lock_Marshal_size _ _ Wl E1) as [L1 L2].
  unfold rep_size in *. cbn [map rep_bytes foldr elem_marshal elem_size c_marshal c_size desc_codec].
  rewrite IH1, IH2. cbn [mbind outcome_bind]. rewrite (api_lock_marshal l _ Wl E1).
  rewrite (proj2 (api_lock_bytes l _ Wl E1)), <- L1. cbn [mbind outcome_bind]. unfold delimited, len_size.
  rewrite EncodeVarint_standard, Sov_standard by (rewrite uint64_small; lia).
  rewrite <- app_comm_cons, <- app_assoc. split; [done|].
  rewrite zlen_cons, !zlen_app, encodeVarintLock_length by (rewrite uint64_small; lia). lia.
Qed.

Lemma api_of_lock_wf l : desc_wf api_Lock_desc (api_of_lock l).
Proof. split; [done|]. by repeat constructor. Qed.

Lemma api_of_locks_wf ls : desc_wf api_Locks_desc (api_of_locks ls).
Proof.
  split; [done|]. apply Forall_singleton. apply Forall_forall. intros e.
  intros (l & <- & _)%list_elem_of_In%in_map_iff. eexists. split; [done|]. apply api_of_lock_wf.
Qed.

Lemma api_Locks_ok : desc_ok api_Locks_desc.
Proof. solve_desc_ok. Qed.

Lemma api_locks_marshal ls buf :
  Forall lock_wf ls -> Locks_MarshalToSizedBuffer ls = Ok buf ->
  Size api_Locks_desc (api_of_locks ls) = Locks_Size (MkLocks ls) /\
  Marshal api_Locks_desc (api_of_locks ls) = Ok buf.
Proof.
  intros W E. destruct (Locks_Marshal_size ls buf W E) as [L _].
  destruct (api_locks_bytes ls buf W E) as [B F].
  assert (Size api_Locks_desc (api_of_locks ls) = zlen buf) as Sz.
  { rewrite <- F. cbn [Size d_fields api_Locks_desc api_Locks_Locks_field foldr f_kind f_get kind_size d_unknown api_of_locks
      api_Locks_Locks api_Locks_unknownFields]. change (zlen []) with 0. lia. }
  rewrite <- L. split; [done|]. unfold Marshal. rewrite Sz.
  cbn [fields_bytes d_fields api_Locks_desc api_Locks_Locks_field f_kind f_get kind_bytes d_unknown mbind
    outcome_bind api_of_locks api_Locks_Locks api_Locks_unknownFields].
  change (field_tag _) with x0a. rewrite B. cbn [mbind outcome_bind]. rewrite app_nil_r.
  apply filled_exact.
Qed.

(** A lock list has one encoding: the bytes the module stores are the
    bytes the API message with the same dates and the amounts' texts is written
    to, with the same size, and the API decoder reads stored bytes to that
    message. *)
Theorem api_locks_agree ls :
  Forall lock_wf ls -> Locks_Size (MkLocks ls) < 2 ^ 60 ->
  exists buf, Locks_Marshal (MkLocks ls) = Ok buf /\
    api_Locks_marshal (Some (api_of_locks ls)) [] = Ok buf /\
    api_Locks_size (Some (api_of_locks ls)) = Locks_Size (MkLocks ls) /\
    forall discard,
      api_Locks_unmarshal discard (Some (d_empty api_Locks_desc)) buf = Ok (Some (api_of_locks ls)).
Proof.
  intros W S. destruct (Locks_roundtrip ls W S) as (buf & M & _). exists buf. split; [done|].
  unfold Locks_Marshal in M. cbn [LockList] in M. apply bind_Ok in M as (b & E & M).
  rewrite <- (proj1 (Locks_Marshal_size ls b W E)), sized_buffer_exact in M. injection M as <-.
  destruct (api_locks_marshal ls b W E) as [Sz Mb].
  destruct (codec_exact _ (desc_codec_lawful _ api_Locks_ok) _ (api_of_locks_wf ls)) as (b' & Eb & _ & U);
    [cbn [c_size desc_codec]; by rewrite Sz|].
  cbn [c_marshal c_unmarshal c_empty desc_codec] in Eb, U. rewrite Mb in Eb. injection Eb as <-.
  unfold api_Locks_marshal, api_Locks_size, api_Locks_unmarshal.
  cbn [ProtoMethods_Marshal ProtoMethods_Size ProtoMethods_Unmarshal]. rewrite Mb, Sz.
  split; [done|]. split; [done|]. intros discard. by rewrite U.
Qed.
End Stored.
