(* ===== verification/Gogo.v ===== *)
(** The methods gogoproto generates for the messages of the types packages (the
    .pb.go files under x): Size, Marshal, MarshalTo, MarshalToSizedBuffer and
    Unmarshal, on the loops of ProtoTable.v.  Unlike the API code they drop
    unknown fields, and writing a nil element of a slice dereferences it. *)

From stdpp Require Import base list strings.
From Stdlib Require Import ZArith Lia.
From Stdlib.Init Require Import Byte.
From S2P Require Import Prelude Sdk LockPb LockupMsgs LockupQuery ProtoTable.

Local Open Scope Z_scope.

(** * The helpers of each file *)

(** Every .pb.go file ends with encodeVarint, sov, skip and three errors of its
    own; their text is that of lock.pb.go up to the suffix of the names. *)
Definition gogo_helpers : WireRuntime := {|
  Sov := sovLock;
  EncodeVarint := encodeVarintLock;
  Skip := skipLock;
  ErrIntOverflow := ErrIntOverflowLock;
  ErrInvalidLength := ErrInvalidLengthLock;
|}.

Definition lockup_extension_helpers : WireRuntime := gogo_helpers.
Definition lockup_output_helpers : WireRuntime := gogo_helpers.
Definition lockup_genesis_helpers : WireRuntime := gogo_helpers.
Definition lockup_tx_helpers : WireRuntime := gogo_helpers.
Definition lockup_query_helpers : WireRuntime := gogo_helpers.
Definition distro_genesis_helpers : WireRuntime := gogo_helpers.
Definition distro_tx_helpers : WireRuntime := gogo_helpers.
Definition distro_query_helpers : WireRuntime := gogo_helpers.
Definition distro_state_helpers : WireRuntime := gogo_helpers.

(** * The generated methods *)

Section Methods.
Context (R : WireRuntime) {T : Type} (d : Desc T).

(** [m == nil] has size 0. *)
Definition pb_Size (m : option T) : Z := match m with Some m => Size d m | None => 0 end.

(** [MarshalToSizedBuffer], as the bytes written at the end of the buffer. *)
Definition pb_MarshalToSizedBuffer (m : T) : outcome bytes := fields_bytes d (d_fields d) m.

Definition pb_Marshal (m : T) : outcome bytes :=
  buf ← pb_MarshalToSizedBuffer m;
  sized_buffer (Size d m) buf.

(** The caller's buffer, whose first [size] bytes are written from their end, and
    the number of bytes written. *)
Definition pb_MarshalTo (m : T) (dAtA : bytes) : outcome (bytes * Z) :=
  let size := Size d m in
  if zlen dAtA <? size then Panic SliceBounds else
  buf ← pb_MarshalToSizedBuffer m;
  if size <? zlen buf then Panic SliceBounds else
  Ok (take (Z.to_nat (size - zlen buf)) dAtA ++ buf ++ drop (Z.to_nat size) dAtA, zlen buf).

(** [Unmarshal] merges into the message it is called on. *)
Definition pb_Unmarshal (m : T) (dAtA : bytes) : outcome T := Unmarshal d true m dAtA.

(** A nil pointer is dereferenced as soon as a field is written. *)
Definition pb_nil : outcome bytes :=
  match d_fields d with [] => Ok [] | _ :: _ => Panic NilDeref end.

Definition pb_codec : Codec T :=
  MkCodec (d_empty d) (Size d) pb_MarshalToSizedBuffer pb_nil
    (fun _ m dAtA => pb_Unmarshal m dAtA) (desc_wf d).
End Methods.

(** A message without unknown fields: its table from its fields and zero value. *)
Definition pb_desc {T} (fullname goname : string) (fields : list (field T)) (zero : T) : Desc T :=
  MkDesc fullname goname fields zero (fun _ => []) (fun _ m => m).

(** The messages imported from the SDK. *)
Class GogoExternal := {
  Coin_pb : Codec Coin;
  PageRequest_pb : Codec PageRequest;
  PageResponse_pb : Codec PageResponse;
}.

(** A message with its methods. *)
Record pb_message := MkPbMessage {
  pm_type : Type;
  pm_desc : Desc pm_type;
  pm_Size : option pm_type -> Z;
  pm_Marshal : pm_type -> outcome bytes;
  pm_MarshalTo : pm_type -> bytes -> outcome (bytes * Z);
  pm_Unmarshal : pm_type -> bytes -> outcome pm_type;
}.
Arguments MkPbMessage {pm_type}.
