(* ===== verification/TypesLock.v ===== *)
(** x/lockup/types/lock.pb.go in full: the methods of Lock and Locks as generated,
    with the pointers of the list, on the encoder and decoder of LockPb.v; the tables of
    both messages; and the proof that the methods are those of Gogo.v over the tables,
    and, for a list without nil, those LockPb.v writes for the stored locks. *)

From stdpp Require Import base list strings.
From Stdlib Require Import ZArith Lia.
From Stdlib.Init Require Import Byte.
From S2P Require Import Prelude Sdk LockPb ProtoTable ProtoTableProps Gogo.

Local Open Scope Z_scope.

Definition lockup_lock_helpers : WireRuntime := gogo_helpers.

(** The field of a customtype: a string in the descriptor, a Go type with the methods
    of a message in the code; gogoproto generates no getter for it. *)
Definition customtypes : list (string * string) := [("lockup.v1.Lock", "amount")].

(** [Locks] with its slice of pointers. *)
Record LocksMsg := MkLocksMsg { LocksMsg_Locks : list (option Lock) }.

Section Messages.
Context `{SdkMath}.

(** math.Int as a field. *)
Definition Int_codec : Codec Z :=
  MkCodec 0 Int_Size Int_Marshal (Ok []) (fun _ _ bz => Int_Unmarshal bz) (fun a => int_ok a = true).

(** * Lock *)

Definition Lock_PtrSize (m : option Lock) : Z := match m with Some m => Lock_Size m | None => 0 end.

Definition Lock_MarshalTo (m : Lock) (dAtA : bytes) : outcome (bytes * Z) :=
  let size := Lock_Size m in
  if zlen dAtA <? size then Panic SliceBounds else
  buf ← Lock_MarshalToSizedBuffer m;
  if size <? zlen buf then Panic SliceBounds else
  Ok (take (Z.to_nat (size - zlen buf)) dAtA ++ buf ++ drop (Z.to_nat size) dAtA, zlen buf).

(** [Unmarshal] on a message that has been written to. *)
Definition Lock_Merge (m : Lock) (dAtA : bytes) : outcome Lock :=
  Lock_Unmarshal_loop (length dAtA) m (0, dAtA).

Definition Lock_desc : Desc Lock :=
  pb_desc "lockup.v1.Lock" "Lock"
    [MkField KString 1 "unlock_date" "UnlockDate" UnlockDate (fun v m => MkLock v (LockAmount m));
     MkField (KVal Int_codec) 2 "amount" "Amount" LockAmount (fun v m => MkLock (UnlockDate m) v)]
    (MkLock EmptyString 0).

Definition Lock_codec : Codec Lock := pb_codec lockup_lock_helpers Lock_desc.

(** * Locks *)

(** [m.Locks[iNdEx].MarshalToSizedBuffer]: a nil lock is dereferenced. *)
Definition Lock_PtrMarshalToSizedBuffer (m : option Lock) : outcome bytes :=
  match m with Some m => Lock_MarshalToSizedBuffer m | None => Panic NilDeref end.

Definition LocksMsg_Size (m : option LocksMsg) : Z :=
  match m with
  | None => 0
  | Some m => foldl (fun n e => let l := Lock_PtrSize e in n + (1 + l + sovLock (uint64 l))) 0 (LocksMsg_Locks m)
  end.

(** The loop [for iNdEx := len(m.Locks) - 1; iNdEx >= 0; iNdEx--]. *)
Fixpoint LocksMsg_loop (ls : list (option Lock)) : outcome bytes :=
  match ls with
  | [] => Ok []
  | e :: ls' =>
      buf ← LocksMsg_loop ls';
      bz ← Lock_PtrMarshalToSizedBuffer e;
      Ok (x0a :: encodeVarintLock (uint64 (zlen bz)) ++ bz ++ buf)
  end.
Definition LocksMsg_MarshalToSizedBuffer (m : LocksMsg) : outcome bytes := LocksMsg_loop (LocksMsg_Locks m).

Definition LocksMsg_Marshal (m : LocksMsg) : outcome bytes :=
  buf ← LocksMsg_MarshalToSizedBuffer m;
  sized_buffer (LocksMsg_Size (Some m)) buf.

Definition LocksMsg_MarshalTo (m : LocksMsg) (dAtA : bytes) : outcome (bytes * Z) :=
  let size := LocksMsg_Size (Some m) in
  if zlen dAtA <? size then Panic SliceBounds else
  buf ← LocksMsg_MarshalToSizedBuffer m;
  if size <? zlen buf then Panic SliceBounds else
  Ok (take (Z.to_nat (size - zlen buf)) dAtA ++ buf ++ drop (Z.to_nat size) dAtA, zlen buf).

Fixpoint LocksMsg_Unmarshal_loop (fuel : nat) (m : list (option Lock)) (r : reader)
    : outcome (list (option Lock)) :=
  match r.2 with
  | [] => Ok m
  | _ :: _ =>
    match fuel with
    | O => OutOfFuel
    | S fuel' =>
      '(fieldNum, wireType, r1) ← read_tag "Locks" r;
      if fieldNum =? 1 then
        if negb (wireType =? 2)
        then Err (FmtErr "proto: wrong wireType = %d for field Locks") else
        '(bz, r2) ← read_delimited r1;
        l ← Lock_Unmarshal bz;
        LocksMsg_Unmarshal_loop fuel' (m ++ [Some l]) r2
      else
        r2 ← skip_field r;
        LocksMsg_Unmarshal_loop fuel' m r2
    end
  end.
Definition LocksMsg_Unmarshal (m : LocksMsg) (dAtA : bytes) : outcome LocksMsg :=
  MkLocksMsg <$> LocksMsg_Unmarshal_loop (length dAtA) (LocksMsg_Locks m) (0, dAtA).

Definition Locks_desc : Desc LocksMsg :=
  pb_desc "lockup.v1.Locks" "Locks"
    [MkField (KRep Lock_codec) 1 "locks" "Locks" LocksMsg_Locks (fun v _ => MkLocksMsg v)]
    (MkLocksMsg []).

(** Both messages of the file. *)
Definition lock_pb_messages : list pb_message :=
  [MkPbMessage Lock_desc Lock_PtrSize Lock_Marshal Lock_MarshalTo Lock_Merge;
   MkPbMessage Locks_desc LocksMsg_Size LocksMsg_Marshal LocksMsg_MarshalTo LocksMsg_Unmarshal].
End Messages.

(** * The methods are those of the tables *)

(** The errors of the loops are the ones of the file. *)
Lemma gogo_rt_error e : rt_error (H := gogo_helpers) e = e.
Proof. unfold rt_error. cbn. by repeat case_decide. Qed.

Lemma gogo_wrap {A} (m : outcome A) : wrap_err (rt_error (H := gogo_helpers)) m = m.
Proof. destruct m as [a|e|p|]; cbn; by rewrite ?gogo_rt_error. Qed.

#[local] Existing Instance gogo_helpers.

Section Tables.
Context `{SdkMath}.

Lemma Lock_Size_table m : Lock_Size m = Size (H := gogo_helpers) Lock_desc m.
Proof.
  unfold Lock_Size, Size. cbn [d_fields Lock_desc pb_desc foldr f_kind f_get kind_size d_unknown c_size Int_codec].
  unfold len_size. cbn [Sov gogo_helpers]. change (zlen (@nil byte)) with 0. lia.
Qed.

Lemma Lock_Marshal_table m :
  Lock_MarshalToSizedBuffer m = pb_MarshalToSizedBuffer gogo_helpers Lock_desc m.
Proof.
  unfold Lock_MarshalToSizedBuffer, pb_MarshalToSizedBuffer.
  cbn [d_fields Lock_desc pb_desc fields_bytes f_kind f_get kind_bytes d_unknown mbind outcome_bind c_marshal Int_codec].
  unfold Int_Size. destruct (Int_Marshal (LockAmount m)) as [amt|e|p|]; cbn [mbind outcome_bind]; try done.
  unfold delimited. cbn [EncodeVarint gogo_helpers]. rewrite app_nil_r.
  case_match; [by rewrite <- app_comm_cons, <- app_assoc|done].
Qed.

Lemma gogo_skip {T} (d : Desc T) x r :
  keep_unknown (H := gogo_helpers) d true x r = (r2 ← skip_field r; Ok (x, r2)).
Proof.
  unfold keep_unknown, skip_field. cbn [Skip ErrInvalidLength gogo_helpers].
  destruct (skipLock r.2) as [n|e|p|]; cbn [mbind outcome_bind]; try done. by repeat case_match.
Qed.

Lemma Lock_Unmarshal_table fuel : forall m r,
  Lock_Unmarshal_loop fuel m r = unmarshal_loop (H := gogo_helpers) Lock_desc fuel true m r.
Proof.
  induction fuel as [|fuel IH]; intros m r; cbn [Lock_Unmarshal_loop unmarshal_loop]; [done|].
  destruct r.2; [done|]. unfold read_one. rewrite gogo_wrap, gogo_skip.
  cbn [d_goname Lock_desc pb_desc].
  destruct (read_tag "Lock" r) as [[[num wt] r1]|e|p|]; cbn [mbind outcome_bind]; try done.
  unfold find_field. cbn [d_fields Lock_desc pb_desc list_find f_num].
  destruct (Z.eqb_spec num 1) as [->|N1]; [|destruct (Z.eqb_spec num 2) as [->|N2]].
  - rewrite decide_True by done. cbn [fmap option_fmap option_map snd].
    unfold read_field. cbn [id f_kind wire_type f_goname f_get f_set]. destruct (negb (wt =? 2)); [reflexivity|].
    cbn [read_kind]. rewrite gogo_wrap.
    destruct (read_delimited r1) as [[bz r2]|e|p|]; cbn [mbind outcome_bind]; try done.
  - rewrite decide_False, decide_True by done. cbn [fmap option_fmap option_map snd prod_map].
    unfold read_field. cbn [id f_kind wire_type f_goname f_get f_set]. destruct (negb (wt =? 2)); [reflexivity|].
    cbn [read_kind]. rewrite gogo_wrap.
    destruct (read_delimited r1) as [[bz r2]|e|p|]; cbn [mbind outcome_bind c_unmarshal Int_codec]; try done.
    destruct (Int_Unmarshal bz) as [a|e|p|]; cbn [mbind outcome_bind]; try done.
  - rewrite !decide_False by (intros E; congruence). cbn [fmap option_fmap option_map].
    destruct (skip_field r) as [r2|e|p|]; cbn [mbind outcome_bind]; try done.
Qed.

Lemma pb_MarshalTo_eq {T} (d : Desc T) m dAtA :
  (let size := Size (H := gogo_helpers) d m in
   if zlen dAtA <? size then Panic SliceBounds else
   buf ← pb_MarshalToSizedBuffer gogo_helpers d m;
   if size <? zlen buf then Panic SliceBounds else
   Ok (take (Z.to_nat (size - zlen buf)) dAtA ++ buf ++ drop (Z.to_nat size) dAtA, zlen buf))
  = pb_MarshalTo gogo_helpers d m dAtA.
Proof. done. Qed.

(** ** Locks *)

Lemma LocksMsg_Size_table m : LocksMsg_Size (Some m) = Size (H := gogo_helpers) Locks_desc m.
Proof.
  unfold Size. cbn [LocksMsg_Size d_fields Locks_desc pb_desc foldr f_kind f_get kind_size d_unknown].
  change (zlen (@nil byte)) with 0. rewrite Z.add_0_r.
  destruct m as [ls]. cbn [LocksMsg_Locks].
  assert (forall n, foldl (fun n e => let l := Lock_PtrSize e in n + (1 + l + sovLock (uint64 l))) n ls
    = n + rep_size (H := gogo_helpers) Lock_codec ls) as A; [|by rewrite A].
  induction ls as [|e ls IH]; intros n; [cbn; lia|]. cbn [foldl]. rewrite IH.
  change (rep_size Lock_codec (e :: ls)) with (len_size (elem_size Lock_codec e) + rep_size Lock_codec ls).
  assert (elem_size Lock_codec e = Lock_PtrSize e) as ->
    by (destruct e as [m|]; [symmetry; apply Lock_Size_table|done]).
  unfold len_size. cbn [Sov gogo_helpers]. lia.
Qed.

Lemma Locks_Marshal_table m :
  LocksMsg_MarshalToSizedBuffer m = pb_MarshalToSizedBuffer gogo_helpers Locks_desc m.
Proof.
  unfold LocksMsg_MarshalToSizedBuffer, pb_MarshalToSizedBuffer.
  cbn [d_fields Locks_desc pb_desc fields_bytes f_kind f_get kind_bytes d_unknown mbind outcome_bind].
  assert (forall ls, LocksMsg_loop ls = rep_bytes (H := gogo_helpers) Lock_codec x0a ls) as A.
  { induction ls as [|e ls IH]; cbn [LocksMsg_loop rep_bytes]; [done|]. rewrite IH.
    assert (elem_marshal Lock_codec e = Lock_PtrMarshalToSizedBuffer e) as ->
      by (destruct e as [l|]; [symmetry; apply Lock_Marshal_table|done]).
    destruct (rep_bytes _ _ ls) as [buf|e'|p|]; cbn [mbind outcome_bind]; try done.
    destruct (Lock_PtrMarshalToSizedBuffer e) as [bz|e'|p|]; cbn [mbind outcome_bind]; try done.
    unfold delimited. cbn [EncodeVarint gogo_helpers]. by rewrite <- app_comm_cons, <- app_assoc. }
  rewrite A. change (field_tag _) with x0a.
  destruct (rep_bytes _ _ _) as [buf|e'|p|]; cbn [mbind outcome_bind]; try done. by rewrite app_nil_r.
Qed.

Lemma Locks_Unmarshal_table fuel : forall m r,
  MkLocksMsg <$> LocksMsg_Unmarshal_loop fuel m r
  = unmarshal_loop (H := gogo_helpers) Locks_desc fuel true (MkLocksMsg m) r.
Proof.
  induction fuel as [|fuel IH]; intros m r; cbn [LocksMsg_Unmarshal_loop unmarshal_loop];
    destruct r.2; try done. unfold read_one. rewrite gogo_wrap, gogo_skip.
  cbn [d_goname Locks_desc pb_desc].
  destruct (read_tag "Locks" r) as [[[num wt] r1]|e|p|]; cbn [mbind outcome_bind]; try done.
  unfold find_field. cbn [d_fields Locks_desc pb_desc list_find f_num].
  destruct (Z.eqb_spec num 1) as [->|N1].
  - rewrite decide_True by done. cbn [fmap option_fmap option_map snd].
    unfold read_field. cbn [id f_kind wire_type f_goname f_get f_set LocksMsg_Locks].
    destruct (negb (wt =? 2)); [reflexivity|]. cbn [read_kind]. rewrite gogo_wrap.
    destruct (read_delimited r1) as [[bz r2]|e|p|]; cbn [mbind outcome_bind]; try done.
    cbn [c_unmarshal c_empty Lock_codec pb_codec]. unfold pb_Unmarshal, Unmarshal.
    unfold Lock_Unmarshal. rewrite Lock_Unmarshal_table. cbn [d_empty Lock_desc pb_desc].
    destruct (unmarshal_loop Lock_desc (length bz) true (MkLock "" 0) (0, bz)) as [lk|e|p|];
      cbn [mbind outcome_bind]; try done.
  - rewrite decide_False by congruence. cbn [fmap option_fmap option_map].
    destruct (skip_field r) as [r2|e|p|]; cbn [mbind outcome_bind]; try done.
Qed.

(** ** A list without nil: the stored locks *)

Lemma stored_Locks_loop ls : LocksMsg_loop (map Some ls) = Locks_MarshalToSizedBuffer ls.
Proof. induction ls as [|l ls IH]; cbn [map LocksMsg_loop Locks_MarshalToSizedBuffer]; [done|]. by rewrite IH. Qed.

Lemma stored_Locks_size ls : LocksMsg_Size (Some (MkLocksMsg (map Some ls))) = Locks_Size (MkLocks ls).
Proof.
  cbn [LocksMsg_Size LocksMsg_Locks]. unfold Locks_Size. cbn [LockList]. generalize 0.
  induction ls as [|l ls IH]; intros n; cbn [map foldl]; [done|]. apply IH.
Qed.

Lemma stored_Locks_unmarshal fuel : forall ls r,
  LocksMsg_Unmarshal_loop fuel (map Some ls) r = map Some <$> Locks_Unmarshal_loop fuel ls r.
Proof.
  induction fuel as [|fuel IH]; intros ls r; cbn [LocksMsg_Unmarshal_loop Locks_Unmarshal_loop];
    destruct r.2; try done.
  destruct (read_tag "Locks" r) as [[[num wt] r1]|e|p|]; cbn [mbind outcome_bind]; try done.
  destruct (num =? 1).
  - destruct (negb (wt =? 2)); [done|].
    destruct (read_delimited r1) as [[bz r2]|e|p|]; cbn [mbind outcome_bind]; try done.
    destruct (Lock_Unmarshal bz) as [lk|e|p|]; cbn [mbind outcome_bind]; try done.
    rewrite <- IH. by rewrite map_app.
  - destruct (skip_field r) as [r2|e|p|]; cbn [mbind outcome_bind]; try done.
Qed.

(** What the keeper stores and reads is the message of the package. *)
Lemma stored_locks_are_messages ls bz :
  LocksMsg_Marshal (MkLocksMsg (map Some ls)) = Locks_Marshal (MkLocks ls) /\
  LocksMsg_Unmarshal (MkLocksMsg []) bz = (fun m => MkLocksMsg (map Some (LockList m))) <$> Locks_Unmarshal bz.
Proof.
  split.
  - unfold LocksMsg_Marshal, LocksMsg_MarshalToSizedBuffer, Locks_Marshal. cbn [LocksMsg_Locks LockList].
    by rewrite stored_Locks_loop, stored_Locks_size.
  - unfold LocksMsg_Unmarshal, Locks_Unmarshal. cbn [LocksMsg_Locks].
    rewrite (stored_Locks_unmarshal _ [] (0, bz)). by destruct (Locks_Unmarshal_loop _ _ _).
Qed.
End Tables.
