(* ===== verification/TypesLockup.v ===== *)
(** The messages of x/lockup/types with the methods gogoproto generates for them.
    The transaction messages and the query resources are the records the message
    server and the query server work on. *)

From stdpp Require Import base list strings.
From Stdlib Require Import ZArith Lia.
From S2P Require Import Prelude Sdk LockPb LockupMsgs LockupQuery Modules ProtoTable Gogo.

Local Open Scope Z_scope.

Section Messages.
Context `{GogoExternal}.

(** ** x/lockup/types/extension.pb.go *)

Definition Extension_desc : Desc Extension :=
  pb_desc "lockup.v1.Extension" "Extension"
    [MkField KString 1 "from_date" "FromDate" Extension_FromDate
       (fun v m => MkExtension v (Extension_ToDate m) (Extension_Amount m));
     MkField KString 2 "to_date" "ToDate" Extension_ToDate
       (fun v m => MkExtension (Extension_FromDate m) v (Extension_Amount m));
     MkField (KVal Coin_pb) 3 "amount" "Amount" Extension_Amount
       (fun v m => MkExtension (Extension_FromDate m) (Extension_ToDate m) v)]
    (MkExtension EmptyString EmptyString (c_empty Coin_pb)).

Definition Extension_Size := pb_Size lockup_extension_helpers Extension_desc.
Definition Extension_MarshalToSizedBuffer := pb_MarshalToSizedBuffer lockup_extension_helpers
    Extension_desc.
Definition Extension_Marshal := pb_Marshal lockup_extension_helpers Extension_desc.
Definition Extension_MarshalTo := pb_MarshalTo lockup_extension_helpers Extension_desc.
Definition Extension_Unmarshal := pb_Unmarshal lockup_extension_helpers Extension_desc.
Definition Extension_codec : Codec Extension := pb_codec lockup_extension_helpers Extension_desc.

(** ** x/lockup/types/output.pb.go *)

Definition MultiSendDelegateAndLockOutput_desc : Desc MultiSendDelegateAndLockOutput :=
  pb_desc "lockup.v1.MultiSendDelegateAndLockOutput" "MultiSendDelegateAndLockOutput"
    [MkField KString 1 "from_address" "FromAddress" Output_FromAddress
       (fun v m => MkOutput v (Output_ToAddress m) (Output_ValidatorAddress m) (Output_UnlockDate
           m) (Output_Amount m));
     MkField KString 2 "to_address" "ToAddress" Output_ToAddress
       (fun v m => MkOutput (Output_FromAddress m) v (Output_ValidatorAddress m)
           (Output_UnlockDate m) (Output_Amount m));
     MkField KString 3 "validator_address" "ValidatorAddress" Output_ValidatorAddress
       (fun v m => MkOutput (Output_FromAddress m) (Output_ToAddress m) v (Output_UnlockDate m)
           (Output_Amount m));
     MkField KString 4 "unlock_date" "UnlockDate" Output_UnlockDate
       (fun v m => MkOutput (Output_FromAddress m) (Output_ToAddress m) (Output_ValidatorAddress
           m) v (Output_Amount m));
     MkField (KVal Coin_pb) 5 "amount" "Amount" Output_Amount
       (fun v m => MkOutput (Output_FromAddress m) (Output_ToAddress m) (Output_ValidatorAddress
           m) (Output_UnlockDate m) v)]
    (MkOutput EmptyString EmptyString EmptyString EmptyString (c_empty Coin_pb)).

Definition MultiSendDelegateAndLockOutput_Size := pb_Size lockup_output_helpers
    MultiSendDelegateAndLockOutput_desc.
Definition MultiSendDelegateAndLockOutput_MarshalToSizedBuffer := pb_MarshalToSizedBuffer
    lockup_output_helpers MultiSendDelegateAndLockOutput_desc.
Definition MultiSendDelegateAndLockOutput_Marshal := pb_Marshal lockup_output_helpers
    MultiSendDelegateAndLockOutput_desc.
Definition MultiSendDelegateAndLockOutput_MarshalTo := pb_MarshalTo lockup_output_helpers
    MultiSendDelegateAndLockOutput_desc.
Definition MultiSendDelegateAndLockOutput_Unmarshal := pb_Unmarshal lockup_output_helpers
    MultiSendDelegateAndLockOutput_desc.
Definition MultiSendDelegateAndLockOutput_codec : Codec MultiSendDelegateAndLockOutput := pb_codec
    lockup_output_helpers MultiSendDelegateAndLockOutput_desc.

(** ** x/lockup/types/genesis.pb.go *)

Definition LockupGenesisState_desc : Desc LockupModule.GenesisState :=
  pb_desc "lockup.v1.GenesisState" "GenesisState"
    []
    LockupModule.MkGenesisState.

Definition LockupGenesisState_Size := pb_Size lockup_genesis_helpers LockupGenesisState_desc.
Definition LockupGenesisState_MarshalToSizedBuffer := pb_MarshalToSizedBuffer
    lockup_genesis_helpers LockupGenesisState_desc.
Definition LockupGenesisState_Marshal := pb_Marshal lockup_genesis_helpers LockupGenesisState_desc.
Definition LockupGenesisState_MarshalTo := pb_MarshalTo lockup_genesis_helpers
    LockupGenesisState_desc.
Definition LockupGenesisState_Unmarshal := pb_Unmarshal lockup_genesis_helpers
    LockupGenesisState_desc.
Definition LockupGenesisState_codec : Codec LockupModule.GenesisState := pb_codec
    lockup_genesis_helpers LockupGenesisState_desc.

(** ** x/lockup/types/tx.pb.go *)

Definition MsgLock_desc : Desc MsgLock :=
  pb_desc "lockup.v1.MsgLock" "MsgLock"
    [MkField KString 1 "address" "Address" MsgLock_Address
       (fun v m => MkMsgLock v (MsgLock_UnlockDate m) (MsgLock_Amount m));
     MkField KString 2 "unlock_date" "UnlockDate" MsgLock_UnlockDate
       (fun v m => MkMsgLock (MsgLock_Address m) v (MsgLock_Amount m));
     MkField (KVal Coin_pb) 3 "amount" "Amount" MsgLock_Amount
       (fun v m => MkMsgLock (MsgLock_Address m) (MsgLock_UnlockDate m) v)]
    (MkMsgLock EmptyString EmptyString (c_empty Coin_pb)).

Definition MsgLock_Size := pb_Size lockup_tx_helpers MsgLock_desc.
Definition MsgLock_MarshalToSizedBuffer := pb_MarshalToSizedBuffer lockup_tx_helpers MsgLock_desc.
Definition MsgLock_Marshal := pb_Marshal lockup_tx_helpers MsgLock_desc.
Definition MsgLock_MarshalTo := pb_MarshalTo lockup_tx_helpers MsgLock_desc.
Definition MsgLock_Unmarshal := pb_Unmarshal lockup_tx_helpers MsgLock_desc.
Definition MsgLock_codec : Codec MsgLock := pb_codec lockup_tx_helpers MsgLock_desc.

Record MsgLockResponse := MkMsgLockResponse { }.

Definition MsgLockResponse_desc : Desc MsgLockResponse :=
  pb_desc "lockup.v1.MsgLockResponse" "MsgLockResponse"
    []
    MkMsgLockResponse.

Definition MsgLockResponse_Size := pb_Size lockup_tx_helpers MsgLockResponse_desc.
Definition MsgLockResponse_MarshalToSizedBuffer := pb_MarshalToSizedBuffer lockup_tx_helpers
    MsgLockResponse_desc.
Definition MsgLockResponse_Marshal := pb_Marshal lockup_tx_helpers MsgLockResponse_desc.
Definition MsgLockResponse_MarshalTo := pb_MarshalTo lockup_tx_helpers MsgLockResponse_desc.
Definition MsgLockResponse_Unmarshal := pb_Unmarshal lockup_tx_helpers MsgLockResponse_desc.
Definition MsgLockResponse_codec : Codec MsgLockResponse := pb_codec lockup_tx_helpers
    MsgLockResponse_desc.

Definition MsgExtend_desc : Desc MsgExtend :=
  pb_desc "lockup.v1.MsgExtend" "MsgExtend"
    [MkField KString 1 "address" "Address" MsgExtend_Address
       (fun v m => MkMsgExtend v (MsgExtend_Extensions m));
     MkField (KRep Extension_codec) 2 "extensions" "Extensions" MsgExtend_Extensions
       (fun v m => MkMsgExtend (MsgExtend_Address m) v)]
    (MkMsgExtend EmptyString []).

Definition MsgExtend_Size := pb_Size lockup_tx_helpers MsgExtend_desc.
Definition MsgExtend_MarshalToSizedBuffer := pb_MarshalToSizedBuffer lockup_tx_helpers
    MsgExtend_desc.
Definition MsgExtend_Marshal := pb_Marshal lockup_tx_helpers MsgExtend_desc.
Definition MsgExtend_MarshalTo := pb_MarshalTo lockup_tx_helpers MsgExtend_desc.
Definition MsgExtend_Unmarshal := pb_Unmarshal lockup_tx_helpers MsgExtend_desc.
Definition MsgExtend_codec : Codec MsgExtend := pb_codec lockup_tx_helpers MsgExtend_desc.

Record MsgExtendResponse := MkMsgExtendResponse { }.

Definition MsgExtendResponse_desc : Desc MsgExtendResponse :=
  pb_desc "lockup.v1.MsgExtendResponse" "MsgExtendResponse"
    []
    MkMsgExtendResponse.

Definition MsgExtendResponse_Size := pb_Size lockup_tx_helpers MsgExtendResponse_desc.
Definition MsgExtendResponse_MarshalToSizedBuffer := pb_MarshalToSizedBuffer lockup_tx_helpers
    MsgExtendResponse_desc.
Definition MsgExtendResponse_Marshal := pb_Marshal lockup_tx_helpers MsgExtendResponse_desc.
Definition MsgExtendResponse_MarshalTo := pb_MarshalTo lockup_tx_helpers MsgExtendResponse_desc.
Definition MsgExtendResponse_Unmarshal := pb_Unmarshal lockup_tx_helpers MsgExtendResponse_desc.
Definition MsgExtendResponse_codec : Codec MsgExtendResponse := pb_codec lockup_tx_helpers
    MsgExtendResponse_desc.

Definition MsgSendDelegateAndLock_desc : Desc MsgSendDelegateAndLock :=
  pb_desc "lockup.v1.MsgSendDelegateAndLock" "MsgSendDelegateAndLock"
    [MkField KString 1 "from_address" "FromAddress" MsgSend_FromAddress
       (fun v m => MkMsgSendDelegateAndLock v (MsgSend_ToAddress m) (MsgSend_ValidatorAddress m)
           (MsgSend_UnlockDate m) (MsgSend_Amount m));
     MkField KString 2 "to_address" "ToAddress" MsgSend_ToAddress
       (fun v m => MkMsgSendDelegateAndLock (MsgSend_FromAddress m) v (MsgSend_ValidatorAddress m)
           (MsgSend_UnlockDate m) (MsgSend_Amount m));
     MkField KString 3 "validator_address" "ValidatorAddress" MsgSend_ValidatorAddress
       (fun v m => MkMsgSendDelegateAndLock (MsgSend_FromAddress m) (MsgSend_ToAddress m) v
           (MsgSend_UnlockDate m) (MsgSend_Amount m));
     MkField KString 4 "unlock_date" "UnlockDate" MsgSend_UnlockDate
       (fun v m => MkMsgSendDelegateAndLock (MsgSend_FromAddress m) (MsgSend_ToAddress m)
           (MsgSend_ValidatorAddress m) v (MsgSend_Amount m));
     MkField (KVal Coin_pb) 5 "amount" "Amount" MsgSend_Amount
       (fun v m => MkMsgSendDelegateAndLock (MsgSend_FromAddress m) (MsgSend_ToAddress m)
           (MsgSend_ValidatorAddress m) (MsgSend_UnlockDate m) v)]
    (MkMsgSendDelegateAndLock EmptyString EmptyString EmptyString EmptyString (c_empty Coin_pb)).

Definition MsgSendDelegateAndLock_Size := pb_Size lockup_tx_helpers MsgSendDelegateAndLock_desc.
Definition MsgSendDelegateAndLock_MarshalToSizedBuffer := pb_MarshalToSizedBuffer
    lockup_tx_helpers MsgSendDelegateAndLock_desc.
Definition MsgSendDelegateAndLock_Marshal := pb_Marshal lockup_tx_helpers
    MsgSendDelegateAndLock_desc.
Definition MsgSendDelegateAndLock_MarshalTo := pb_MarshalTo lockup_tx_helpers
    MsgSendDelegateAndLock_desc.
Definition MsgSendDelegateAndLock_Unmarshal := pb_Unmarshal lockup_tx_helpers
    MsgSendDelegateAndLock_desc.
Definition MsgSendDelegateAndLock_codec : Codec MsgSendDelegateAndLock := pb_codec
    lockup_tx_helpers MsgSendDelegateAndLock_desc.

Record MsgSendDelegateAndLockResponse := MkMsgSendDelegateAndLockResponse { }.

Definition MsgSendDelegateAndLockResponse_desc : Desc MsgSendDelegateAndLockResponse :=
  pb_desc "lockup.v1.MsgSendDelegateAndLockResponse" "MsgSendDelegateAndLockResponse"
    []
    MkMsgSendDelegateAndLockResponse.

Definition MsgSendDelegateAndLockResponse_Size := pb_Size lockup_tx_helpers
    MsgSendDelegateAndLockResponse_desc.
Definition MsgSendDelegateAndLockResponse_MarshalToSizedBuffer := pb_MarshalToSizedBuffer
    lockup_tx_helpers MsgSendDelegateAndLockResponse_desc.
Definition MsgSendDelegateAndLockResponse_Marshal := pb_Marshal lockup_tx_helpers
    MsgSendDelegateAndLockResponse_desc.
Definition MsgSendDelegateAndLockResponse_MarshalTo := pb_MarshalTo lockup_tx_helpers
    MsgSendDelegateAndLockResponse_desc.
Definition MsgSendDelegateAndLockResponse_Unmarshal := pb_Unmarshal lockup_tx_helpers
    MsgSendDelegateAndLockResponse_desc.
Definition MsgSendDelegateAndLockResponse_codec : Codec MsgSendDelegateAndLockResponse := pb_codec
    lockup_tx_helpers MsgSendDelegateAndLockResponse_desc.

Definition MsgMultiSendDelegateAndLock_desc : Desc MsgMultiSendDelegateAndLock :=
  pb_desc "lockup.v1.MsgMultiSendDelegateAndLock" "MsgMultiSendDelegateAndLock"
    [MkField KString 1 "from_address" "FromAddress" MsgMulti_FromAddress
       (fun v m => MkMsgMultiSendDelegateAndLock v (MsgMulti_TotalAmount m) (MsgMulti_Outputs m));
     MkField (KVal Coin_pb) 2 "total_amount" "TotalAmount" MsgMulti_TotalAmount
       (fun v m => MkMsgMultiSendDelegateAndLock (MsgMulti_FromAddress m) v (MsgMulti_Outputs m));
     MkField (KRep MultiSendDelegateAndLockOutput_codec) 3 "outputs" "Outputs" MsgMulti_Outputs
       (fun v m => MkMsgMultiSendDelegateAndLock (MsgMulti_FromAddress m) (MsgMulti_TotalAmount m)
           v)]
    (MkMsgMultiSendDelegateAndLock EmptyString (c_empty Coin_pb) []).

Definition MsgMultiSendDelegateAndLock_Size := pb_Size lockup_tx_helpers
    MsgMultiSendDelegateAndLock_desc.
Definition MsgMultiSendDelegateAndLock_MarshalToSizedBuffer := pb_MarshalToSizedBuffer
    lockup_tx_helpers MsgMultiSendDelegateAndLock_desc.
Definition MsgMultiSendDelegateAndLock_Marshal := pb_Marshal lockup_tx_helpers
    MsgMultiSendDelegateAndLock_desc.
Definition MsgMultiSendDelegateAndLock_MarshalTo := pb_MarshalTo lockup_tx_helpers
    MsgMultiSendDelegateAndLock_desc.
Definition MsgMultiSendDelegateAndLock_Unmarshal := pb_Unmarshal lockup_tx_helpers
    MsgMultiSendDelegateAndLock_desc.
Definition MsgMultiSendDelegateAndLock_codec : Codec MsgMultiSendDelegateAndLock := pb_codec
    lockup_tx_helpers MsgMultiSendDelegateAndLock_desc.

Record MsgMultiSendDelegateAndLockResponse := MkMsgMultiSendDelegateAndLockResponse { }.

Definition MsgMultiSendDelegateAndLockResponse_desc : Desc MsgMultiSendDelegateAndLockResponse :=
  pb_desc "lockup.v1.MsgMultiSendDelegateAndLockResponse" "MsgMultiSendDelegateAndLockResponse"
    []
    MkMsgMultiSendDelegateAndLockResponse.

Definition MsgMultiSendDelegateAndLockResponse_Size := pb_Size lockup_tx_helpers
    MsgMultiSendDelegateAndLockResponse_desc.
Definition MsgMultiSendDelegateAndLockResponse_MarshalToSizedBuffer := pb_MarshalToSizedBuffer
    lockup_tx_helpers MsgMultiSendDelegateAndLockResponse_desc.
Definition MsgMultiSendDelegateAndLockResponse_Marshal := pb_Marshal lockup_tx_helpers
    MsgMultiSendDelegateAndLockResponse_desc.
Definition MsgMultiSendDelegateAndLockResponse_MarshalTo := pb_MarshalTo lockup_tx_helpers
    MsgMultiSendDelegateAndLockResponse_desc.
Definition MsgMultiSendDelegateAndLockResponse_Unmarshal := pb_Unmarshal lockup_tx_helpers
    MsgMultiSendDelegateAndLockResponse_desc.
Definition MsgMultiSendDelegateAndLockResponse_codec : Codec MsgMultiSendDelegateAndLockResponse
    := pb_codec lockup_tx_helpers MsgMultiSendDelegateAndLockResponse_desc.

(** ** x/lockup/types/query.pb.go *)

Record QueryActiveLocksRequest := MkQueryActiveLocksRequest {
  QueryActiveLocksRequest_Pagination : option PageRequest;
}.

Definition QueryActiveLocksRequest_desc : Desc QueryActiveLocksRequest :=
  pb_desc "lockup.v1.QueryActiveLocksRequest" "QueryActiveLocksRequest"
    [MkField (KMsg PageRequest_pb) 1 "pagination" "Pagination" QueryActiveLocksRequest_Pagination
       (fun v m => MkQueryActiveLocksRequest v)]
    (MkQueryActiveLocksRequest None).

Definition QueryActiveLocksRequest_Size := pb_Size lockup_query_helpers
    QueryActiveLocksRequest_desc.
Definition QueryActiveLocksRequest_MarshalToSizedBuffer := pb_MarshalToSizedBuffer
    lockup_query_helpers QueryActiveLocksRequest_desc.
Definition QueryActiveLocksRequest_Marshal := pb_Marshal lockup_query_helpers
    QueryActiveLocksRequest_desc.
Definition QueryActiveLocksRequest_MarshalTo := pb_MarshalTo lockup_query_helpers
    QueryActiveLocksRequest_desc.
Definition QueryActiveLocksRequest_Unmarshal := pb_Unmarshal lockup_query_helpers
    QueryActiveLocksRequest_desc.
Definition QueryActiveLocksRequest_codec : Codec QueryActiveLocksRequest := pb_codec
    lockup_query_helpers QueryActiveLocksRequest_desc.

Definition ActiveLockResource_desc : Desc ActiveLockResource :=
  pb_desc "lockup.v1.ActiveLockResource" "ActiveLockResource"
    [MkField KString 1 "address" "Address" ALR_Address
       (fun v m => MkActiveLockResource v (ALR_UnlockDate m) (ALR_Amount m));
     MkField KString 2 "unlock_date" "UnlockDate" ALR_UnlockDate
       (fun v m => MkActiveLockResource (ALR_Address m) v (ALR_Amount m));
     MkField (KVal Coin_pb) 3 "amount" "Amount" ALR_Amount
       (fun v m => MkActiveLockResource (ALR_Address m) (ALR_UnlockDate m) v)]
    (MkActiveLockResource EmptyString EmptyString (c_empty Coin_pb)).

Definition ActiveLockResource_Size := pb_Size lockup_query_helpers ActiveLockResource_desc.
Definition ActiveLockResource_MarshalToSizedBuffer := pb_MarshalToSizedBuffer lockup_query_helpers
    ActiveLockResource_desc.
Definition ActiveLockResource_Marshal := pb_Marshal lockup_query_helpers ActiveLockResource_desc.
Definition ActiveLockResource_MarshalTo := pb_MarshalTo lockup_query_helpers
    ActiveLockResource_desc.
Definition ActiveLockResource_Unmarshal := pb_Unmarshal lockup_query_helpers
    ActiveLockResource_desc.
Definition ActiveLockResource_codec : Codec ActiveLockResource := pb_codec lockup_query_helpers
    ActiveLockResource_desc.

Record QueryActiveLocksResponse := MkQueryActiveLocksResponse {
  QueryActiveLocksResponse_Locks : list ActiveLockResource;
  QueryActiveLocksResponse_Pagination : option PageResponse;
}.

Definition QueryActiveLocksResponse_desc : Desc QueryActiveLocksResponse :=
  pb_desc "lockup.v1.QueryActiveLocksResponse" "QueryActiveLocksResponse"
    [MkField (KRepVal ActiveLockResource_codec) 1 "locks" "Locks" QueryActiveLocksResponse_Locks
       (fun v m => MkQueryActiveLocksResponse v (QueryActiveLocksResponse_Pagination m));
     MkField (KMsg PageResponse_pb) 2 "pagination" "Pagination" QueryActiveLocksResponse_Pagination
       (fun v m => MkQueryActiveLocksResponse (QueryActiveLocksResponse_Locks m) v)]
    (MkQueryActiveLocksResponse [] None).

Definition QueryActiveLocksResponse_Size := pb_Size lockup_query_helpers
    QueryActiveLocksResponse_desc.
Definition QueryActiveLocksResponse_MarshalToSizedBuffer := pb_MarshalToSizedBuffer
    lockup_query_helpers QueryActiveLocksResponse_desc.
Definition QueryActiveLocksResponse_Marshal := pb_Marshal lockup_query_helpers
    QueryActiveLocksResponse_desc.
Definition QueryActiveLocksResponse_MarshalTo := pb_MarshalTo lockup_query_helpers
    QueryActiveLocksResponse_desc.
Definition QueryActiveLocksResponse_Unmarshal := pb_Unmarshal lockup_query_helpers
    QueryActiveLocksResponse_desc.
Definition QueryActiveLocksResponse_codec : Codec QueryActiveLocksResponse := pb_codec
    lockup_query_helpers QueryActiveLocksResponse_desc.

Record QueryTotalLockedAmountRequest := MkQueryTotalLockedAmountRequest { }.

Definition QueryTotalLockedAmountRequest_desc : Desc QueryTotalLockedAmountRequest :=
  pb_desc "lockup.v1.QueryTotalLockedAmountRequest" "QueryTotalLockedAmountRequest"
    []
    MkQueryTotalLockedAmountRequest.

Definition QueryTotalLockedAmountRequest_Size := pb_Size lockup_query_helpers
    QueryTotalLockedAmountRequest_desc.
Definition QueryTotalLockedAmountRequest_MarshalToSizedBuffer := pb_MarshalToSizedBuffer
    lockup_query_helpers QueryTotalLockedAmountRequest_desc.
Definition QueryTotalLockedAmountRequest_Marshal := pb_Marshal lockup_query_helpers
    QueryTotalLockedAmountRequest_desc.
Definition QueryTotalLockedAmountRequest_MarshalTo := pb_MarshalTo lockup_query_helpers
    QueryTotalLockedAmountRequest_desc.
Definition QueryTotalLockedAmountRequest_Unmarshal := pb_Unmarshal lockup_query_helpers
    QueryTotalLockedAmountRequest_desc.
Definition QueryTotalLockedAmountRequest_codec : Codec QueryTotalLockedAmountRequest := pb_codec
    lockup_query_helpers QueryTotalLockedAmountRequest_desc.

Record QueryTotalLockedAmountResponse := MkQueryTotalLockedAmountResponse {
  QueryTotalLockedAmountResponse_TotalLocked : Coin;
}.

Definition QueryTotalLockedAmountResponse_desc : Desc QueryTotalLockedAmountResponse :=
  pb_desc "lockup.v1.QueryTotalLockedAmountResponse" "QueryTotalLockedAmountResponse"
    [MkField (KVal Coin_pb) 1 "total_locked" "TotalLocked"
        QueryTotalLockedAmountResponse_TotalLocked
       (fun v m => MkQueryTotalLockedAmountResponse v)]
    (MkQueryTotalLockedAmountResponse (c_empty Coin_pb)).

Definition QueryTotalLockedAmountResponse_Size := pb_Size lockup_query_helpers
    QueryTotalLockedAmountResponse_desc.
Definition QueryTotalLockedAmountResponse_MarshalToSizedBuffer := pb_MarshalToSizedBuffer
    lockup_query_helpers QueryTotalLockedAmountResponse_desc.
Definition QueryTotalLockedAmountResponse_Marshal := pb_Marshal lockup_query_helpers
    QueryTotalLockedAmountResponse_desc.
Definition QueryTotalLockedAmountResponse_MarshalTo := pb_MarshalTo lockup_query_helpers
    QueryTotalLockedAmountResponse_desc.
Definition QueryTotalLockedAmountResponse_Unmarshal := pb_Unmarshal lockup_query_helpers
    QueryTotalLockedAmountResponse_desc.
Definition QueryTotalLockedAmountResponse_codec : Codec QueryTotalLockedAmountResponse := pb_codec
    lockup_query_helpers QueryTotalLockedAmountResponse_desc.

Record QueryAccountLocksRequest := MkQueryAccountLocksRequest {
  QueryAccountLocksRequest_Addresses : string;
  QueryAccountLocksRequest_Pagination : option PageRequest;
}.

Definition QueryAccountLocksRequest_desc : Desc QueryAccountLocksRequest :=
  pb_desc "lockup.v1.QueryAccountLocksRequest" "QueryAccountLocksRequest"
    [MkField KString 1 "addresses" "Addresses" QueryAccountLocksRequest_Addresses
       (fun v m => MkQueryAccountLocksRequest v (QueryAccountLocksRequest_Pagination m));
     MkField (KMsg PageRequest_pb) 2 "pagination" "Pagination" QueryAccountLocksRequest_Pagination
       (fun v m => MkQueryAccountLocksRequest (QueryAccountLocksRequest_Addresses m) v)]
    (MkQueryAccountLocksRequest EmptyString None).

Definition QueryAccountLocksRequest_Size := pb_Size lockup_query_helpers
    QueryAccountLocksRequest_desc.
Definition QueryAccountLocksRequest_MarshalToSizedBuffer := pb_MarshalToSizedBuffer
    lockup_query_helpers QueryAccountLocksRequest_desc.
Definition QueryAccountLocksRequest_Marshal := pb_Marshal lockup_query_helpers
    QueryAccountLocksRequest_desc.
Definition QueryAccountLocksRequest_MarshalTo := pb_MarshalTo lockup_query_helpers
    QueryAccountLocksRequest_desc.
Definition QueryAccountLocksRequest_Unmarshal := pb_Unmarshal lockup_query_helpers
    QueryAccountLocksRequest_desc.
Definition QueryAccountLocksRequest_codec : Codec QueryAccountLocksRequest := pb_codec
    lockup_query_helpers QueryAccountLocksRequest_desc.

Definition LockResource_desc : Desc LockResource :=
  pb_desc "lockup.v1.LockResource" "LockResource"
    [MkField KString 1 "unlock_date" "UnlockDate" LR_UnlockDate
       (fun v m => MkLockResource v (LR_Amount m));
     MkField (KVal Coin_pb) 3 "amount" "Amount" LR_Amount
       (fun v m => MkLockResource (LR_UnlockDate m) v)]
    (MkLockResource EmptyString (c_empty Coin_pb)).

Definition LockResource_Size := pb_Size lockup_query_helpers LockResource_desc.
Definition LockResource_MarshalToSizedBuffer := pb_MarshalToSizedBuffer lockup_query_helpers
    LockResource_desc.
Definition LockResource_Marshal := pb_Marshal lockup_query_helpers LockResource_desc.
Definition LockResource_MarshalTo := pb_MarshalTo lockup_query_helpers LockResource_desc.
Definition LockResource_Unmarshal := pb_Unmarshal lockup_query_helpers LockResource_desc.
Definition LockResource_codec : Codec LockResource := pb_codec lockup_query_helpers
    LockResource_desc.

Definition AccountLocksResource_desc : Desc AccountLocksResource :=
  pb_desc "lockup.v1.AccountLocksResource" "AccountLocksResource"
    [MkField KString 1 "address" "Address" AcLR_Address
       (fun v m => MkAccountLocksResource v (AcLR_Locks m));
     MkField (KRepVal LockResource_codec) 2 "locks" "Locks" AcLR_Locks
       (fun v m => MkAccountLocksResource (AcLR_Address m) v)]
    (MkAccountLocksResource EmptyString []).

Definition AccountLocksResource_Size := pb_Size lockup_query_helpers AccountLocksResource_desc.
Definition AccountLocksResource_MarshalToSizedBuffer := pb_MarshalToSizedBuffer
    lockup_query_helpers AccountLocksResource_desc.
Definition AccountLocksResource_Marshal := pb_Marshal lockup_query_helpers
    AccountLocksResource_desc.
Definition AccountLocksResource_MarshalTo := pb_MarshalTo lockup_query_helpers
    AccountLocksResource_desc.
Definition AccountLocksResource_Unmarshal := pb_Unmarshal lockup_query_helpers
    AccountLocksResource_desc.
Definition AccountLocksResource_codec : Codec AccountLocksResource := pb_codec
    lockup_query_helpers AccountLocksResource_desc.

Record QueryAccountLocksResponse := MkQueryAccountLocksResponse {
  QueryAccountLocksResponse_Accounts : list AccountLocksResource;
  QueryAccountLocksResponse_Pagination : option PageResponse;
}.

Definition QueryAccountLocksResponse_desc : Desc QueryAccountLocksResponse :=
  pb_desc "lockup.v1.QueryAccountLocksResponse" "QueryAccountLocksResponse"
    [MkField (KRepVal AccountLocksResource_codec) 1 "accounts" "Accounts"
        QueryAccountLocksResponse_Accounts
       (fun v m => MkQueryAccountLocksResponse v (QueryAccountLocksResponse_Pagination m));
     MkField (KMsg PageResponse_pb) 2 "pagination" "Pagination" QueryAccountLocksResponse_Pagination
       (fun v m => MkQueryAccountLocksResponse (QueryAccountLocksResponse_Accounts m) v)]
    (MkQueryAccountLocksResponse [] None).

Definition QueryAccountLocksResponse_Size := pb_Size lockup_query_helpers
    QueryAccountLocksResponse_desc.
Definition QueryAccountLocksResponse_MarshalToSizedBuffer := pb_MarshalToSizedBuffer
    lockup_query_helpers QueryAccountLocksResponse_desc.
Definition QueryAccountLocksResponse_Marshal := pb_Marshal lockup_query_helpers
    QueryAccountLocksResponse_desc.
Definition QueryAccountLocksResponse_MarshalTo := pb_MarshalTo lockup_query_helpers
    QueryAccountLocksResponse_desc.
Definition QueryAccountLocksResponse_Unmarshal := pb_Unmarshal lockup_query_helpers
    QueryAccountLocksResponse_desc.
Definition QueryAccountLocksResponse_codec : Codec QueryAccountLocksResponse := pb_codec
    lockup_query_helpers QueryAccountLocksResponse_desc.

Record QueryLocksRequest := MkQueryLocksRequest {
  QueryLocksRequest_Address : string;
  QueryLocksRequest_Pagination : option PageRequest;
}.

Definition QueryLocksRequest_desc : Desc QueryLocksRequest :=
  pb_desc "lockup.v1.QueryLocksRequest" "QueryLocksRequest"
    [MkField KString 1 "address" "Address" QueryLocksRequest_Address
       (fun v m => MkQueryLocksRequest v (QueryLocksRequest_Pagination m));
     MkField (KMsg PageRequest_pb) 2 "pagination" "Pagination" QueryLocksRequest_Pagination
       (fun v m => MkQueryLocksRequest (QueryLocksRequest_Address m) v)]
    (MkQueryLocksRequest EmptyString None).

Definition QueryLocksRequest_Size := pb_Size lockup_query_helpers QueryLocksRequest_desc.
Definition QueryLocksRequest_MarshalToSizedBuffer := pb_MarshalToSizedBuffer lockup_query_helpers
    QueryLocksRequest_desc.
Definition QueryLocksRequest_Marshal := pb_Marshal lockup_query_helpers QueryLocksRequest_desc.
Definition QueryLocksRequest_MarshalTo := pb_MarshalTo lockup_query_helpers QueryLocksRequest_desc.
Definition QueryLocksRequest_Unmarshal := pb_Unmarshal lockup_query_helpers QueryLocksRequest_desc.
Definition QueryLocksRequest_codec : Codec QueryLocksRequest := pb_codec lockup_query_helpers
    QueryLocksRequest_desc.

Record QueryLocksResponse := MkQueryLocksResponse {
  QueryLocksResponse_Locks : list LockResource;
  QueryLocksResponse_Pagination : option PageResponse;
}.

Definition QueryLocksResponse_desc : Desc QueryLocksResponse :=
  pb_desc "lockup.v1.QueryLocksResponse" "QueryLocksResponse"
    [MkField (KRepVal LockResource_codec) 1 "locks" "Locks" QueryLocksResponse_Locks
       (fun v m => MkQueryLocksResponse v (QueryLocksResponse_Pagination m));
     MkField (KMsg PageResponse_pb) 2 "pagination" "Pagination" QueryLocksResponse_Pagination
       (fun v m => MkQueryLocksResponse (QueryLocksResponse_Locks m) v)]
    (MkQueryLocksResponse [] None).

Definition QueryLocksResponse_Size := pb_Size lockup_query_helpers QueryLocksResponse_desc.
Definition QueryLocksResponse_MarshalToSizedBuffer := pb_MarshalToSizedBuffer lockup_query_helpers
    QueryLocksResponse_desc.
Definition QueryLocksResponse_Marshal := pb_Marshal lockup_query_helpers QueryLocksResponse_desc.
Definition QueryLocksResponse_MarshalTo := pb_MarshalTo lockup_query_helpers
    QueryLocksResponse_desc.
Definition QueryLocksResponse_Unmarshal := pb_Unmarshal lockup_query_helpers
    QueryLocksResponse_desc.
Definition QueryLocksResponse_codec : Codec QueryLocksResponse := pb_codec lockup_query_helpers
    QueryLocksResponse_desc.

(** All of them. *)
Definition lockup_pb_messages : list pb_message :=
  [MkPbMessage Extension_desc Extension_Size Extension_Marshal Extension_MarshalTo
      Extension_Unmarshal;
   MkPbMessage MultiSendDelegateAndLockOutput_desc MultiSendDelegateAndLockOutput_Size
       MultiSendDelegateAndLockOutput_Marshal MultiSendDelegateAndLockOutput_MarshalTo
       MultiSendDelegateAndLockOutput_Unmarshal;
   MkPbMessage LockupGenesisState_desc LockupGenesisState_Size LockupGenesisState_Marshal
       LockupGenesisState_MarshalTo LockupGenesisState_Unmarshal;
   MkPbMessage MsgLock_desc MsgLock_Size MsgLock_Marshal MsgLock_MarshalTo MsgLock_Unmarshal;
   MkPbMessage MsgLockResponse_desc MsgLockResponse_Size MsgLockResponse_Marshal
       MsgLockResponse_MarshalTo MsgLockResponse_Unmarshal;
   MkPbMessage MsgExtend_desc MsgExtend_Size MsgExtend_Marshal MsgExtend_MarshalTo
       MsgExtend_Unmarshal;
   MkPbMessage MsgExtendResponse_desc MsgExtendResponse_Size MsgExtendResponse_Marshal
       MsgExtendResponse_MarshalTo MsgExtendResponse_Unmarshal;
   MkPbMessage MsgSendDelegateAndLock_desc MsgSendDelegateAndLock_Size
       MsgSendDelegateAndLock_Marshal MsgSendDelegateAndLock_MarshalTo
       MsgSendDelegateAndLock_Unmarshal;
   MkPbMessage MsgSendDelegateAndLockResponse_desc MsgSendDelegateAndLockResponse_Size
       MsgSendDelegateAndLockResponse_Marshal MsgSendDelegateAndLockResponse_MarshalTo
       MsgSendDelegateAndLockResponse_Unmarshal;
   MkPbMessage MsgMultiSendDelegateAndLock_desc MsgMultiSendDelegateAndLock_Size
       MsgMultiSendDelegateAndLock_Marshal MsgMultiSendDelegateAndLock_MarshalTo
       MsgMultiSendDelegateAndLock_Unmarshal;
   MkPbMessage MsgMultiSendDelegateAndLockResponse_desc MsgMultiSendDelegateAndLockResponse_Size
       MsgMultiSendDelegateAndLockResponse_Marshal MsgMultiSendDelegateAndLockResponse_MarshalTo
       MsgMultiSendDelegateAndLockResponse_Unmarshal;
   MkPbMessage QueryActiveLocksRequest_desc QueryActiveLocksRequest_Size
       QueryActiveLocksRequest_Marshal QueryActiveLocksRequest_MarshalTo
       QueryActiveLocksRequest_Unmarshal;
   MkPbMessage ActiveLockResource_desc ActiveLockResource_Size ActiveLockResource_Marshal
       ActiveLockResource_MarshalTo ActiveLockResource_Unmarshal;
   MkPbMessage QueryActiveLocksResponse_desc QueryActiveLocksResponse_Size
       QueryActiveLocksResponse_Marshal QueryActiveLocksResponse_MarshalTo
       QueryActiveLocksResponse_Unmarshal;
   MkPbMessage QueryTotalLockedAmountRequest_desc QueryTotalLockedAmountRequest_Size
       QueryTotalLockedAmountRequest_Marshal QueryTotalLockedAmountRequest_MarshalTo
       QueryTotalLockedAmountRequest_Unmarshal;
   MkPbMessage QueryTotalLockedAmountResponse_desc QueryTotalLockedAmountResponse_Size
       QueryTotalLockedAmountResponse_Marshal QueryTotalLockedAmountResponse_MarshalTo
       QueryTotalLockedAmountResponse_Unmarshal;
   MkPbMessage QueryAccountLocksRequest_desc QueryAccountLocksRequest_Size
       QueryAccountLocksRequest_Marshal QueryAccountLocksRequest_MarshalTo
       QueryAccountLocksRequest_Unmarshal;
   MkPbMessage LockResource_desc LockResource_Size LockResource_Marshal LockResource_MarshalTo
       LockResource_Unmarshal;
   MkPbMessage AccountLocksResource_desc AccountLocksResource_Size AccountLocksResource_Marshal
       AccountLocksResource_MarshalTo AccountLocksResource_Unmarshal;
   MkPbMessage QueryAccountLocksResponse_desc QueryAccountLocksResponse_Size
       QueryAccountLocksResponse_Marshal QueryAccountLocksResponse_MarshalTo
       QueryAccountLocksResponse_Unmarshal;
   MkPbMessage QueryLocksRequest_desc QueryLocksRequest_Size QueryLocksRequest_Marshal
       QueryLocksRequest_MarshalTo QueryLocksRequest_Unmarshal;
   MkPbMessage QueryLocksResponse_desc QueryLocksResponse_Size QueryLocksResponse_Marshal
       QueryLocksResponse_MarshalTo QueryLocksResponse_Unmarshal].
End Messages.
