(* ===== verification/TypesDistro.v ===== *)
(** The messages of x/distro/types with the methods gogoproto generates for them;
    the parameters, the genesis state and the transaction messages are the records
    of Distro.v. *)

From stdpp Require Import base list strings.
From Stdlib Require Import ZArith Lia.
From S2P Require Import Prelude Sdk LockPb Distro ProtoTable Gogo.

Local Open Scope Z_scope.

(** ** x/distro/types/genesis.pb.go *)

Definition Params_desc : Desc Params :=
  pb_desc "distro.v1.Params" "Params"
    [MkField KString 1 "minting_address" "MintingAddress" MintingAddress
       (fun v m => MkParams v (ReceivingAddress m) (ParamsDenom m) (ParamsMaxSupply m)
           (DistributionStartDate m) (MonthsInHalvingPeriod m));
     MkField KString 2 "receiving_address" "ReceivingAddress" ReceivingAddress
       (fun v m => MkParams (MintingAddress m) v (ParamsDenom m) (ParamsMaxSupply m)
           (DistributionStartDate m) (MonthsInHalvingPeriod m));
     MkField KString 3 "denom" "Denom" ParamsDenom
       (fun v m => MkParams (MintingAddress m) (ReceivingAddress m) v (ParamsMaxSupply m)
           (DistributionStartDate m) (MonthsInHalvingPeriod m));
     MkField KString 4 "max_supply" "MaxSupply" ParamsMaxSupply
       (fun v m => MkParams (MintingAddress m) (ReceivingAddress m) (ParamsDenom m) v
           (DistributionStartDate m) (MonthsInHalvingPeriod m));
     MkField KString 5 "distribution_start_date" "DistributionStartDate" DistributionStartDate
       (fun v m => MkParams (MintingAddress m) (ReceivingAddress m) (ParamsDenom m)
           (ParamsMaxSupply m) v (MonthsInHalvingPeriod m));
     MkField KUint64 6 "months_in_halving_period" "MonthsInHalvingPeriod" MonthsInHalvingPeriod
       (fun v m => MkParams (MintingAddress m) (ReceivingAddress m) (ParamsDenom m)
           (ParamsMaxSupply m) (DistributionStartDate m) v)]
    (MkParams EmptyString EmptyString EmptyString EmptyString EmptyString 0).

Definition Params_Size := pb_Size distro_genesis_helpers Params_desc.
Definition Params_MarshalToSizedBuffer := pb_MarshalToSizedBuffer distro_genesis_helpers
    Params_desc.
Definition Params_Marshal := pb_Marshal distro_genesis_helpers Params_desc.
Definition Params_MarshalTo := pb_MarshalTo distro_genesis_helpers Params_desc.
Definition Params_Unmarshal := pb_Unmarshal distro_genesis_helpers Params_desc.
Definition Params_codec : Codec Params := pb_codec distro_genesis_helpers Params_desc.

Definition DistroGenesisState_desc : Desc Distro.GenesisState :=
  pb_desc "distro.v1.GenesisState" "GenesisState"
    [MkField (KVal Params_codec) 1 "params" "Params" GenesisParams
       (fun v m => Distro.MkGenesisState v)]
    (Distro.MkGenesisState (c_empty Params_codec)).

Definition DistroGenesisState_Size := pb_Size distro_genesis_helpers DistroGenesisState_desc.
Definition DistroGenesisState_MarshalToSizedBuffer := pb_MarshalToSizedBuffer
    distro_genesis_helpers DistroGenesisState_desc.
Definition DistroGenesisState_Marshal := pb_Marshal distro_genesis_helpers DistroGenesisState_desc.
Definition DistroGenesisState_MarshalTo := pb_MarshalTo distro_genesis_helpers
    DistroGenesisState_desc.
Definition DistroGenesisState_Unmarshal := pb_Unmarshal distro_genesis_helpers
    DistroGenesisState_desc.
Definition DistroGenesisState_codec : Codec Distro.GenesisState := pb_codec distro_genesis_helpers
    DistroGenesisState_desc.

(** ** x/distro/types/tx.pb.go *)

Definition MsgUpdateParams_desc : Desc MsgUpdateParams :=
  pb_desc "distro.v1.MsgUpdateParams" "MsgUpdateParams"
    [MkField KString 1 "authority" "Authority" MsgUpdateParams_Authority
       (fun v m => MkMsgUpdateParams v (MsgUpdateParams_Params m));
     MkField (KVal Params_codec) 2 "params" "Params" MsgUpdateParams_Params
       (fun v m => MkMsgUpdateParams (MsgUpdateParams_Authority m) v)]
    (MkMsgUpdateParams EmptyString (c_empty Params_codec)).

Definition MsgUpdateParams_Size := pb_Size distro_tx_helpers MsgUpdateParams_desc.
Definition MsgUpdateParams_MarshalToSizedBuffer := pb_MarshalToSizedBuffer distro_tx_helpers
    MsgUpdateParams_desc.
Definition MsgUpdateParams_Marshal := pb_Marshal distro_tx_helpers MsgUpdateParams_desc.
Definition MsgUpdateParams_MarshalTo := pb_MarshalTo distro_tx_helpers MsgUpdateParams_desc.
Definition MsgUpdateParams_Unmarshal := pb_Unmarshal distro_tx_helpers MsgUpdateParams_desc.
Definition MsgUpdateParams_codec : Codec MsgUpdateParams := pb_codec distro_tx_helpers
    MsgUpdateParams_desc.

Record MsgUpdateParamsResponse := MkMsgUpdateParamsResponse { }.

Definition MsgUpdateParamsResponse_desc : Desc MsgUpdateParamsResponse :=
  pb_desc "distro.v1.MsgUpdateParamsResponse" "MsgUpdateParamsResponse"
    []
    MkMsgUpdateParamsResponse.

Definition MsgUpdateParamsResponse_Size := pb_Size distro_tx_helpers MsgUpdateParamsResponse_desc.
Definition MsgUpdateParamsResponse_MarshalToSizedBuffer := pb_MarshalToSizedBuffer
    distro_tx_helpers MsgUpdateParamsResponse_desc.
Definition MsgUpdateParamsResponse_Marshal := pb_Marshal distro_tx_helpers
    MsgUpdateParamsResponse_desc.
Definition MsgUpdateParamsResponse_MarshalTo := pb_MarshalTo distro_tx_helpers
    MsgUpdateParamsResponse_desc.
Definition MsgUpdateParamsResponse_Unmarshal := pb_Unmarshal distro_tx_helpers
    MsgUpdateParamsResponse_desc.
Definition MsgUpdateParamsResponse_codec : Codec MsgUpdateParamsResponse := pb_codec
    distro_tx_helpers MsgUpdateParamsResponse_desc.

Definition MsgMint_desc : Desc MsgMint :=
  pb_desc "distro.v1.MsgMint" "MsgMint"
    [MkField KString 1 "amount" "Amount" MsgMint_Amount
       (fun v m => MkMsgMint v (MsgMint_Minter m));
     MkField KString 2 "minter" "Minter" MsgMint_Minter
       (fun v m => MkMsgMint (MsgMint_Amount m) v)]
    (MkMsgMint EmptyString EmptyString).

Definition MsgMint_Size := pb_Size distro_tx_helpers MsgMint_desc.
Definition MsgMint_MarshalToSizedBuffer := pb_MarshalToSizedBuffer distro_tx_helpers MsgMint_desc.
Definition MsgMint_Marshal := pb_Marshal distro_tx_helpers MsgMint_desc.
Definition MsgMint_MarshalTo := pb_MarshalTo distro_tx_helpers MsgMint_desc.
Definition MsgMint_Unmarshal := pb_Unmarshal distro_tx_helpers MsgMint_desc.
Definition MsgMint_codec : Codec MsgMint := pb_codec distro_tx_helpers MsgMint_desc.

Record MsgMintResponse := MkMsgMintResponse { }.

Definition MsgMintResponse_desc : Desc MsgMintResponse :=
  pb_desc "distro.v1.MsgMintResponse" "MsgMintResponse"
    []
    MkMsgMintResponse.

Definition MsgMintResponse_Size := pb_Size distro_tx_helpers MsgMintResponse_desc.
Definition MsgMintResponse_MarshalToSizedBuffer := pb_MarshalToSizedBuffer distro_tx_helpers
    MsgMintResponse_desc.
Definition MsgMintResponse_Marshal := pb_Marshal distro_tx_helpers MsgMintResponse_desc.
Definition MsgMintResponse_MarshalTo := pb_MarshalTo distro_tx_helpers MsgMintResponse_desc.
Definition MsgMintResponse_Unmarshal := pb_Unmarshal distro_tx_helpers MsgMintResponse_desc.
Definition MsgMintResponse_codec : Codec MsgMintResponse := pb_codec distro_tx_helpers
    MsgMintResponse_desc.

(** ** x/distro/types/query.pb.go *)

Record QueryParamsRequest := MkQueryParamsRequest { }.

Definition QueryParamsRequest_desc : Desc QueryParamsRequest :=
  pb_desc "distro.v1.QueryParamsRequest" "QueryParamsRequest"
    []
    MkQueryParamsRequest.

Definition QueryParamsRequest_Size := pb_Size distro_query_helpers QueryParamsRequest_desc.
Definition QueryParamsRequest_MarshalToSizedBuffer := pb_MarshalToSizedBuffer distro_query_helpers
    QueryParamsRequest_desc.
Definition QueryParamsRequest_Marshal := pb_Marshal distro_query_helpers QueryParamsRequest_desc.
Definition QueryParamsRequest_MarshalTo := pb_MarshalTo distro_query_helpers
    QueryParamsRequest_desc.
Definition QueryParamsRequest_Unmarshal := pb_Unmarshal distro_query_helpers
    QueryParamsRequest_desc.
Definition QueryParamsRequest_codec : Codec QueryParamsRequest := pb_codec distro_query_helpers
    QueryParamsRequest_desc.

Record QueryParamsResponse := MkQueryParamsResponse {
  QueryParamsResponse_Params : option Params;
}.

Definition QueryParamsResponse_desc : Desc QueryParamsResponse :=
  pb_desc "distro.v1.QueryParamsResponse" "QueryParamsResponse"
    [MkField (KMsg Params_codec) 1 "params" "Params" QueryParamsResponse_Params
       (fun v m => MkQueryParamsResponse v)]
    (MkQueryParamsResponse None).

Definition QueryParamsResponse_Size := pb_Size distro_query_helpers QueryParamsResponse_desc.
Definition QueryParamsResponse_MarshalToSizedBuffer := pb_MarshalToSizedBuffer
    distro_query_helpers QueryParamsResponse_desc.
Definition QueryParamsResponse_Marshal := pb_Marshal distro_query_helpers QueryParamsResponse_desc.
Definition QueryParamsResponse_MarshalTo := pb_MarshalTo distro_query_helpers
    QueryParamsResponse_desc.
Definition QueryParamsResponse_Unmarshal := pb_Unmarshal distro_query_helpers
    QueryParamsResponse_desc.
Definition QueryParamsResponse_codec : Codec QueryParamsResponse := pb_codec distro_query_helpers
    QueryParamsResponse_desc.

(** ** x/distro/types/state.pb.go *)

Record ExampleData := MkExampleData {
  ExampleData_Account : bytes;
  ExampleData_Amount : Z;
}.

Definition ExampleData_desc : Desc ExampleData :=
  pb_desc "distro.v1.ExampleData" "ExampleData"
    [MkField KBytes 1 "account" "Account" ExampleData_Account
       (fun v m => MkExampleData v (ExampleData_Amount m));
     MkField KUint64 2 "amount" "Amount" ExampleData_Amount
       (fun v m => MkExampleData (ExampleData_Account m) v)]
    (MkExampleData [] 0).

Definition ExampleData_Size := pb_Size distro_state_helpers ExampleData_desc.
Definition ExampleData_MarshalToSizedBuffer := pb_MarshalToSizedBuffer distro_state_helpers
    ExampleData_desc.
Definition ExampleData_Marshal := pb_Marshal distro_state_helpers ExampleData_desc.
Definition ExampleData_MarshalTo := pb_MarshalTo distro_state_helpers ExampleData_desc.
Definition ExampleData_Unmarshal := pb_Unmarshal distro_state_helpers ExampleData_desc.
Definition ExampleData_codec : Codec ExampleData := pb_codec distro_state_helpers ExampleData_desc.

(** All of them. *)
Definition distro_pb_messages : list pb_message :=
  [MkPbMessage Params_desc Params_Size Params_Marshal Params_MarshalTo Params_Unmarshal;
   MkPbMessage DistroGenesisState_desc DistroGenesisState_Size DistroGenesisState_Marshal
       DistroGenesisState_MarshalTo DistroGenesisState_Unmarshal;
   MkPbMessage MsgUpdateParams_desc MsgUpdateParams_Size MsgUpdateParams_Marshal
       MsgUpdateParams_MarshalTo MsgUpdateParams_Unmarshal;
   MkPbMessage MsgUpdateParamsResponse_desc MsgUpdateParamsResponse_Size
       MsgUpdateParamsResponse_Marshal MsgUpdateParamsResponse_MarshalTo
       MsgUpdateParamsResponse_Unmarshal;
   MkPbMessage MsgMint_desc MsgMint_Size MsgMint_Marshal MsgMint_MarshalTo MsgMint_Unmarshal;
   MkPbMessage MsgMintResponse_desc MsgMintResponse_Size MsgMintResponse_Marshal
       MsgMintResponse_MarshalTo MsgMintResponse_Unmarshal;
   MkPbMessage QueryParamsRequest_desc QueryParamsRequest_Size QueryParamsRequest_Marshal
       QueryParamsRequest_MarshalTo QueryParamsRequest_Unmarshal;
   MkPbMessage QueryParamsResponse_desc QueryParamsResponse_Size QueryParamsResponse_Marshal
       QueryParamsResponse_MarshalTo QueryParamsResponse_Unmarshal;
   MkPbMessage ExampleData_desc ExampleData_Size ExampleData_Marshal ExampleData_MarshalTo
       ExampleData_Unmarshal].

(** ** Equal *)

(** The argument of [Equal], an interface: nil, a pointer, a value, or a value of
    another type. *)
Inductive equal_arg :=
  | NilInterface
  | ParamsPointer (p : option Params)
  | ParamsValue (p : Params)
  | OtherType.

Definition Params_Equal (this : option Params) (that : equal_arg) : bool :=
  let fields (this : option Params) (that1 : option Params) : bool :=
    match that1, this with
    | None, None => true
    | None, Some _ | Some _, None => false
    | Some that1, Some this =>
        if negb (String.eqb (MintingAddress this) (MintingAddress that1)) then false else
        if negb (String.eqb (ReceivingAddress this) (ReceivingAddress that1)) then false else
        if negb (String.eqb (ParamsDenom this) (ParamsDenom that1)) then false else
        if negb (String.eqb (ParamsMaxSupply this) (ParamsMaxSupply that1)) then false else
        if negb (String.eqb (DistributionStartDate this) (DistributionStartDate that1)) then false
            else
        if negb (MonthsInHalvingPeriod this =? MonthsInHalvingPeriod that1) then false else true
    end in
  match that with
  | NilInterface => match this with None => true | Some _ => false end
  | ParamsPointer that1 => fields this that1
  | ParamsValue that2 => fields this (Some that2)
  | OtherType => false
  end.
