(* ===== verification/GogoProps.v ===== *)
(** The gogoproto methods of the types packages are exact, panic on a nil element of
    a list, and decode every input to a message or an error. *)

From stdpp Require Import base list strings.
From Stdlib Require Import ZArith Lia.
From Stdlib.Init Require Import Byte.
From S2P Require Import Prelude Sdk LockPb LockupMsgs LockupQuery Modules Distro ProtoTable ProtoTableProps Gogo TypesLock TypesLockup TypesDistro.

Local Open Scope Z_scope.

(** * The helpers *)

Lemma skipLock_total bz : zlen bz < 2 ^ 63 ->
  returns (skipLock bz) /\ forall n, skipLock bz = Ok n -> 0 < n.
Proof.
  intros B. apply (skipLock_loop_total (length bz) (0, bz) 0); [|simpl; lia|done].
  right. unfold fits. cbn [fst snd]. lia.
Qed.

Lemma gogo_helpers_laws : @WireLaws gogo_helpers.
Proof.
  split; cbn [Sov EncodeVarint Skip gogo_helpers].
  - intros v pos rest V P. by rewrite read_varint_encode, encodeVarintLock_length.
  - apply encodeVarintLock_length.
  - apply sovLock_range.
  - intros bz B. apply (skipLock_total bz B).
  - intros bz n B. apply (skipLock_total bz B).
Qed.

(** * Codecs *)

Lemma pb_codec_lawful R {T} (d : Desc T) :
  @WireLaws R -> desc_ok d -> codec_lawful (pb_codec R d).
Proof.
  intros L O. split; cbn [c_wf c_size c_marshal c_unmarshal c_empty pb_codec].
  - intros x Wf B. destruct (table_exact d O x Wf B) as (buf & E & Lb & U). exists buf.
    split; [done|]. split; [done|]. intros discard. apply U.
  - apply (Size_nonneg d O).
  - intros discard. apply (Unmarshal_returns d O).
Qed.

(** The imported messages have lawful codecs. *)
Class GogoExternalLaws `{GogoExternal} : Prop := {
  Coin_pb_lawful : codec_lawful Coin_pb;
  PageRequest_pb_lawful : codec_lawful PageRequest_pb;
  PageResponse_pb_lawful : codec_lawful PageResponse_pb;
}.

Lemma Int_codec_lawful `{SdkMathLaws} : codec_lawful Int_codec.
Proof.
  split; cbn [c_wf c_size c_marshal c_unmarshal c_empty Int_codec].
  - intros a W _. destruct (Int_Marshal_spec a W) as (bz & E & U & L). exists bz.
    unfold Int_Size. by rewrite E.
  - intros a W. unfold Int_Size. destruct (Int_Marshal_spec a W) as (bz & -> & _ & L). lia.
  - intros discard a bz _. apply Int_Unmarshal_returns.
Qed.

(** ** Lists with a nil element *)

Section Nil.
#[local] Existing Instance gogo_helpers.

(** A list of pointers with nil in it; writing such an element dereferences it. *)
Definition kind_nil {A} (k : fkind A) : A -> Prop :=
  match k with KRep c => fun l => None ∈ l | _ => fun _ => False end.
Definition derefs_nil {A} (k : fkind A) : Prop :=
  match k with KRep c => c_nil c = Panic NilDeref | _ => True end.

(** A value that can be written but for nil elements. *)
Definition kind_fits {A} (k : fkind A) : A -> Prop :=
  match k with
  | KRep c => Forall (fun e => forall m, e = Some m -> c_wf c m /\ c_size c m < 2 ^ 60)
  | k => fun v => kind_wf k v /\ kind_size k v < 2 ^ 60
  end.

(** A message that is well formed except that some list has a nil element. *)
Definition nil_list {T} (d : Desc T) (x : T) : Prop :=
  Forall (fun fd => kind_fits (f_kind fd) (f_get fd x)) (d_fields d) /\
  Exists (fun fd => kind_nil (f_kind fd) (f_get fd x)) (d_fields d).

Lemma rep_bytes_nil {M} (c : Codec M) tag l :
  codec_lawful c -> c_nil c = Panic NilDeref ->
  Forall (fun e => forall m, e = Some m -> c_wf c m /\ c_size c m < 2 ^ 60) l ->
  (None ∈ l /\ rep_bytes c tag l = Panic NilDeref) \/
  (~ None ∈ l /\ exists bz, rep_bytes c tag l = Ok bz).
Proof.
  intros L N. induction 1 as [|e l W _ IH]; cbn [rep_bytes].
  { right. split; [by intros ?%elem_of_nil|eauto]. }
  destruct IH as [[I ->]|[I [bz ->]]]; cbn [mbind outcome_bind]; [left; split; [by right|done]|].
  destruct e as [m|]; cbn [elem_marshal].
  - right. split; [by intros [|]%elem_of_cons|]. destruct (W m eq_refl) as [Wm Bm].
    destruct (codec_exact c L m Wm Bm) as (b & -> & _). cbn. eauto.
  - left. split; [left|]. by rewrite N.
Qed.

Lemma kind_bytes_nil {A} (k : fkind A) tag v :
  kind_lawful k -> derefs_nil k -> kind_fits k v ->
  (kind_nil k v /\ kind_bytes k tag v = Panic NilDeref) \/
  (~ kind_nil k v /\ exists bz, kind_bytes k tag v = Ok bz).
Proof.
  pose proof gogo_helpers_laws.
  intros L N F. destruct k; try (by apply rep_bytes_nil);
    right; (split; [by intros []|]); destruct F as [W B];
    destruct (kind_bytes_exact _ tag v L W B) as (bz & E & _); by exists bz.
Qed.

Lemma fields_bytes_nil {T} (d : Desc T) fs x :
  Forall (fun fd => kind_lawful (f_kind fd)) fs -> Forall (fun fd => derefs_nil (f_kind fd)) fs ->
  Forall (fun fd => kind_fits (f_kind fd) (f_get fd x)) fs ->
  (Exists (fun fd => kind_nil (f_kind fd) (f_get fd x)) fs /\ fields_bytes d fs x = Panic NilDeref) \/
  (~ Exists (fun fd => kind_nil (f_kind fd) (f_get fd x)) fs /\ exists bz, fields_bytes d fs x = Ok bz).
Proof.
  induction fs as [|fd fs IH]; intros L N F; cbn [fields_bytes].
  { right. split; [by inversion 1|eauto]. }
  apply Forall_cons in L as [L Ls], N as [N Ns], F as [F Fs].
  destruct (IH Ls Ns Fs) as [[I ->]|[I [buf ->]]]; cbn [mbind outcome_bind]; [left; split; [by right|done]|].
  destruct (kind_bytes_nil _ (field_tag fd) _ L N F) as [[K ->]|[K [bz ->]]]; cbn [mbind outcome_bind].
  - left. split; [by left|done].
  - right. split; [|eauto]. by intros [|]%Exists_cons.
Qed.
End Nil.

(** A message of the package: its table is well formed, and its methods are the
    ones generated from the table. *)
Record pb_message_ok (m : pb_message) : Prop := {
  pmo_desc : desc_ok (pm_desc m);
  pmo_nil : Forall (fun fd => derefs_nil (f_kind fd)) (d_fields (pm_desc m));
  pmo_Size x : pm_Size m x = pb_Size gogo_helpers (pm_desc m) x;
  pmo_Marshal x : pm_Marshal m x = pb_Marshal gogo_helpers (pm_desc m) x;
  pmo_MarshalTo x dAtA : pm_MarshalTo m x dAtA = pb_MarshalTo gogo_helpers (pm_desc m) x dAtA;
  pmo_Unmarshal x dAtA : pm_Unmarshal m x dAtA = pb_Unmarshal gogo_helpers (pm_desc m) x dAtA;
}.

#[export] Hint Resolve Coin_pb_lawful PageRequest_pb_lawful PageResponse_pb_lawful : codecs.

Section Tables.
Context `{GogoExternalLaws} `{SdkMath} `{!SdkMathLaws}.

(** The nested messages. *)
Lemma Extension_lawful : codec_lawful Extension_codec.
Proof. apply pb_codec_lawful; [exact gogo_helpers_laws|solve_desc_ok]. Qed.
Lemma Output_lawful : codec_lawful MultiSendDelegateAndLockOutput_codec.
Proof. apply pb_codec_lawful; [exact gogo_helpers_laws|solve_desc_ok]. Qed.
Lemma ActiveLockResource_lawful : codec_lawful ActiveLockResource_codec.
Proof. apply pb_codec_lawful; [exact gogo_helpers_laws|solve_desc_ok]. Qed.
Lemma LockResource_lawful : codec_lawful LockResource_codec.
Proof. apply pb_codec_lawful; [exact gogo_helpers_laws|solve_desc_ok]. Qed.
Lemma Params_lawful : codec_lawful Params_codec.
Proof. apply pb_codec_lawful; [exact gogo_helpers_laws|solve_desc_ok]. Qed.
#[local] Hint Resolve Extension_lawful Output_lawful ActiveLockResource_lawful LockResource_lawful
  Params_lawful : codecs.
Lemma AccountLocksResource_lawful : codec_lawful AccountLocksResource_codec.
Proof. apply pb_codec_lawful; [exact gogo_helpers_laws|solve_desc_ok]. Qed.
#[local] Hint Resolve AccountLocksResource_lawful : codecs.

#[local] Hint Resolve Int_codec_lawful : codecs.
Lemma Lock_lawful : codec_lawful Lock_codec.
Proof. apply pb_codec_lawful; [exact gogo_helpers_laws|solve_desc_ok]. Qed.
#[local] Hint Resolve Lock_lawful : codecs.

(** Every message of both packages. *)
Definition pb_messages : list pb_message := lock_pb_messages ++ lockup_pb_messages ++ distro_pb_messages.

Lemma lock_pb_messages_ok : Forall pb_message_ok lock_pb_messages.
Proof.
  unfold lock_pb_messages. apply Forall_cons; split; [|apply Forall_singleton]; split;
    cbn [pm_desc pm_Size pm_Marshal pm_MarshalTo pm_Unmarshal]; try solve_desc_ok;
    try (by repeat constructor).
  - intros [m|]; [apply Lock_Size_table|done].
  - intros m. unfold Lock_Marshal, pb_Marshal. by rewrite Lock_Marshal_table, Lock_Size_table.
  - intros m dAtA. unfold Lock_MarshalTo. by rewrite Lock_Marshal_table, Lock_Size_table.
  - intros m dAtA. apply Lock_Unmarshal_table.
  - intros [m|]; [apply LocksMsg_Size_table|done].
  - intros m. unfold LocksMsg_Marshal, pb_Marshal. by rewrite Locks_Marshal_table, LocksMsg_Size_table.
  - intros m dAtA. unfold LocksMsg_MarshalTo. by rewrite Locks_Marshal_table, LocksMsg_Size_table.
  - intros [m] dAtA. apply Locks_Unmarshal_table.
Qed.

Lemma pb_messages_ok m : m ∈ pb_messages -> pb_message_ok m.
Proof.
  apply Forall_forall. unfold pb_messages. apply Forall_app; split; [apply lock_pb_messages_ok|].
  unfold lockup_pb_messages, distro_pb_messages. cbn [app].
  repeat (apply Forall_cons; split;
    [split; cbn [pm_desc]; [solve_desc_ok|by repeat constructor|reflexivity..]|]).
  apply Forall_nil. exact I.
Qed.
End Tables.
#[export] Hint Resolve Extension_lawful Output_lawful ActiveLockResource_lawful LockResource_lawful
  Params_lawful AccountLocksResource_lawful : codecs.

(** * Theorems *)

Section Codecs.
Context `{GogoExternalLaws} `{SdkMath} `{!SdkMathLaws}.

(** C27 A message of either types package (Lock and Locks included) without nil list
    elements or out-of-range integers is written in as many bytes as its size says, into
    a fresh buffer or at the start of any buffer large enough, and an empty message
    decodes those bytes back to it.  If a list of such a message has a nil element,
    writing it panics. *)
Theorem gogo_roundtrip m x :
  m ∈ pb_messages ->
  (desc_wf (pm_desc m) x -> pm_Size m (Some x) < 2 ^ 60 ->
   exists bz, pm_Marshal m x = Ok bz /\ zlen bz = pm_Size m (Some x) /\
     pm_Unmarshal m (d_empty (pm_desc m)) bz = Ok x /\
     forall dAtA, pm_Size m (Some x) <= zlen dAtA ->
       pm_MarshalTo m x dAtA = Ok (bz ++ drop (length bz) dAtA, zlen bz)) /\
  (nil_list (pm_desc m) x ->
   pm_Marshal m x = Panic NilDeref /\
   forall dAtA, pm_Size m (Some x) <= zlen dAtA -> pm_MarshalTo m x dAtA = Panic NilDeref).
Proof.
  intros M. apply pb_messages_ok in M as [D N PS PM PT PU]. rewrite PM, PS. cbn [pb_Size].
  pose proof gogo_helpers_laws as L. unfold pb_Marshal. split.
  - intros W B. destruct (table_exact (H := gogo_helpers) (pm_desc m) D x W B) as (bz & E & Lb & U).
    exists bz. rewrite PU. unfold pb_Unmarshal, pb_MarshalToSizedBuffer. rewrite E.
    cbn [mbind outcome_bind]. rewrite <- Lb. split; [apply sized_buffer_exact|]. split; [done|].
    split; [apply U|]. intros dAtA LD. rewrite PT. unfold pb_MarshalTo, pb_MarshalToSizedBuffer.
    rewrite E, <- Lb. cbn [mbind outcome_bind]. rewrite (proj2 (Z.ltb_ge _ _)) by lia.
    rewrite Z.ltb_irrefl, Z.sub_diag. cbn [Z.to_nat take app]. unfold zlen. by rewrite Nat2Z.id.
  - intros [F E]. destruct (fields_bytes_nil (pm_desc m) _ x (ok_kinds _ D) N F) as [[_ P]|[NE _]]; [|done].
    unfold pb_MarshalToSizedBuffer. rewrite P. split; [done|]. intros dAtA LD. rewrite PT.
    unfold pb_MarshalTo, pb_MarshalToSizedBuffer. rewrite P, (proj2 (Z.ltb_ge _ _)) by lia. done.
Qed.

(** C28 Decoding any bytes into any message of the types packages
    returns a message or an error: it neither panics nor runs without end. *)
Theorem gogo_unmarshal_total m x bz :
  m ∈ pb_messages -> zlen bz < 2 ^ 63 -> returns (pm_Unmarshal m x bz).
Proof.
  intros M. apply pb_messages_ok in M as [D _ _ _ _ ->]. intros B. pose proof gogo_helpers_laws.
  by apply (Unmarshal_returns (H := gogo_helpers) (pm_desc m) D true x bz).
Qed.
End Codecs.

(** * Equality of parameters *)

Lemma Params_Equal_iff this that :
  Params_Equal (Some this) that = true <-> that = ParamsValue this \/ that = ParamsPointer (Some this).
Proof.
  assert (forall a b : Params, (if negb (String.eqb (MintingAddress a) (MintingAddress b)) then false else
        if negb (String.eqb (ReceivingAddress a) (ReceivingAddress b)) then false else
        if negb (String.eqb (ParamsDenom a) (ParamsDenom b)) then false else
        if negb (String.eqb (ParamsMaxSupply a) (ParamsMaxSupply b)) then false else
        if negb (String.eqb (DistributionStartDate a) (DistributionStartDate b)) then false else
        if negb (MonthsInHalvingPeriod a =? MonthsInHalvingPeriod b) then false else true) = true <-> b = a) as F.
  { intros [a1 a2 a3 a4 a5 a6] [b1 b2 b3 b4 b5 b6]. cbn. split.
    - destruct (String.eqb_spec a1 b1), (String.eqb_spec a2 b2), (String.eqb_spec a3 b3),
        (String.eqb_spec a4 b4), (String.eqb_spec a5 b5), (Z.eqb_spec a6 b6); cbn; congruence.
    - intros [= -> -> -> -> -> ->]. by rewrite !String.eqb_refl, Z.eqb_refl. }
  unfold Params_Equal. destruct that as [|[p|]|p|].
  - by split; [|intros [[=]|[=]]].
  - rewrite F. split; [intros ->; by right|by intros [[=]|[= ->]]].
  - by split; [|intros [[=]|[=]]].
  - rewrite F. split; [intros ->; by left|by intros [[= ->]|[=]]].
  - by split; [|intros [[=]|[=]]].
Qed.
