(* ===== verification/FileDesc.v ===== *)
(** The descriptors and registrations of the .pb.go files under x: the gzipped
    FileDescriptorProto each file embeds, and what its init functions register with
    the gogoproto library. *)

From stdpp Require Import base list strings.
From Stdlib Require Import ZArith.
From Stdlib.Init Require Import Byte.
From S2P Require Import Prelude.

(** [proto.RegisterType] (the Go type and the name of its message) and
    [proto.RegisterFile]. *)
Record Registration := MkRegistration {
  RegisterType : list (string * string);
  RegisterFile : string * bytes;
}.

(** ** x/lockup/types/lock.pb.go *)

Definition fileDescriptor_961d2c254326faef : bytes := concat
  [[x1f; x8b; x08; x00; x00; x00; x00; x00; x02; xff; x3c; x90; xc1; x4e; x3a; x31];
   [x10; xc6; xb7; xff; xbf; x90; x50; x0e; xc6; x0d; x26; xc8; xa1; x10; x12; x13];
   [x62; x62; xc7; xd5; x37; x40; x0f; x92; x78; x42; x4f; x5e; x48; x77; xd9; xc0];
   [x06; xdb; x41; x3a; x4b; xf4; x2d; x7c; x0c; x8f; x1e; x7c; x08; x8e; xc4; x93];
   [xf1; x40; x0c; x1c; x7c; x0d; xd3; xed; xc6; x4b; x33; xf3; xfd; xa6; xfd; xfa];
   [x0d; x6f; x3c; x60; x32; xcb; xe7; xb0; x8c; xc0; x55; x72; xbe; x40; xc2; xb0];
   [xe6; x55; xb9; x8c; x5a; x8d; x09; x4e; xb0; x50; xc1; x55; x7e; xa0; x75; x94];
   [xa0; xd5; x68; x47; x1e; xf8; xa6; x44; xc2; x77; x10; x2b; x9b; xc2; x32; x8a];
   [x53; x52; x11; x24; x98; x99; x92; x1f; x28; x9d; x19; x84; xe2; xf4; x52; xf7];
   [x91; xef; xdd; x60; x32; x0b; xdb; xbc; x9e; x1b; x67; x3d; x1a; x2b; x4a; x9b];
   [xac; xc3; x7a; xb5; x21; xf7; xd2; x95; xa2; x34; xbc; xe6; x55; xa5; x31; x37];
   [xd4; xfc; xe7; x58; xff; x6c; xb5; x69; x07; x5f; x9b; xf6; xa1; xf7; xb4; xe3];
   [x99; xcc; x10; xb4; xa2; xa9; x1c; x18; xfa; x78; x3f; xe5; xe5; xd7; x06; x86];
   [x5e; x7f; xde; x4e; xd8; xb0; xbc; xdf; x95; xbc; xe2; x2c; x6d; x78; xcc; x2b];
   [xee; x79; xdb; x64; x9d; xff; xbd; xfa; xf9; xbe; xfc; x8b; x2e; xdd; xc0; xd0];
   [xd3; xfe; x60; xb5; x15; x6c; xbd; x15; xec; x7b; x2b; xd8; xcb; x4e; x04; xeb];
   [x9d; x08; x3e; x77; x22; xb8; x87; x49; x46; xd3; x3c; x96; x09; x6a; xb8; x5b];
   [xe4; x96; xd2; xf1; xad; x56; x0b; xba; x9c; xaa; xcc; x00; xd9; x04; x9e; xa0];
   [x5c; x32; x3d; xcf; x53; x1b; x57; x8b; xd0; x17; xbf; x01; x00; x00; xff; xff];
   [x6c; xb6; x08; xfd; x7b; x01; x00; x00]].

Definition lockup_lock_init : Registration :=
  MkRegistration
    [("Lock", "lockup.v1.Lock"); ("Locks", "lockup.v1.Locks")]
    ("lockup/v1/lock.proto", fileDescriptor_961d2c254326faef).

(** ** x/lockup/types/extension.pb.go *)

Definition fileDescriptor_e4b11b43971c35e1 : bytes := concat
  [[x1f; x8b; x08; x00; x00; x00; x00; x00; x02; xff; x34; x90; xb1; x4e; xc3; x30];
   [x10; x86; x63; x40; x85; x84; x2d; x42; x6a; x53; x24; x53; x31; x75; xf2; x29];
   [x30; xb0; xb7; x30; xb0; x16; x26; x96; xca; x49; x4d; x1a; x81; x73; x51; x7c];
   [x89; x0a; x4f; xc1; x63; x75; xec; xc8; x84; x50; xf2; x22; x28; xb1; xd9; xce];
   [xf7; x7d; xf2; xff; xdb; x41; xf4; x8e; xe9; x5b; x5d; x42; x13; x83; xda; x91];
   [x2a; x4c; x8e; x85; x28; x2b; x24; x0c; x7d; x8b; x44; x13; x4f; xc7; x29; x1a];
   [x8d; x06; xb4; xc9; x7a; x53; x9b; xcc; x3a; xd3; x8b; x0c; x33; x1c; x46; xe8];
   [x27; xb7; x8d; xac; xbe; xb6; xc0; x1e; x1c; xe2; xee; xa6; x44; x1a; x05; x4d];
   [x9c; x28; x92; x31; xa4; x98; xbb; xd0; xeb; xcf; xc0; x7f; xf8; xef; x11; x5e];
   [x06; xfe; x6b; x85; x7a; xbd; x91; xa4; x26; x6c; xc6; xe6; xfe; xea; xac; x5f];
   [xdc; x4b; x52; xe1; x38; x38; x25; xb4; xe8; x68; x40; x23; xc2; x01; xdc; x05];
   [x23; xa9; xb1; x2e; x68; x72; x3c; x63; xf3; xf3; x9b; x48; xb8; x06; x7d; xa6];
   [x70; x99; x62; x89; x79; xb1; x38; xd9; xff; x5c; x79; x2b; xa7; x2f; x1e; xf7];
   [x2d; x67; x87; x96; xb3; xdf; x96; xb3; xaf; x8e; x7b; x87; x8e; x7b; xdf; x1d];
   [xf7; x5e; x20; xcb; x69; x5b; x27; x22; x45; x0d; xcf; x55; x6d; x48; x6d; x9e];
   [xb4; xac; x68; xb9; x95; x79; x01; x64; x52; xd8; x81; xfb; x48; xfa; x28; x95];
   [x49; x46; xc3; x6b; x6e; xff; x02; x00; x00; xff; xff; xf4; xfa; xed; x27; x5f];
   [x01; x00; x00]].

Definition lockup_extension_init : Registration :=
  MkRegistration
    [("Extension", "lockup.v1.Extension")]
    ("lockup/v1/extension.proto", fileDescriptor_e4b11b43971c35e1).

(** ** x/lockup/types/output.pb.go *)

Definition fileDescriptor_35e4b2bd36080a0c : bytes := concat
  [[x1f; x8b; x08; x00; x00; x00; x00; x00; x02; xff; x3c; x91; xbd; x4e; xf3; x30];
   [x14; x86; x93; xef; x2b; x95; xea; x32; xd0; x08; xa1; xb6; x12; x6e; x61; xaa];
   [x84; x14; x2b; x30; x30; xf7; x67; x41; x02; x21; xb5; x4c; x2c; x95; x93; x98];
   [x34; x6a; xe2; x13; xc5; xc7; x11; xdc; x05; x97; xd5; xb1; x23; x13; x42; xed];
   [xc4; x5d; xa0; xc4; x69; x17; xcb; xe7; x79; x9f; xc1; xe7; x35; xb9; x48; x20];
   [x58; xeb; x8c; x15; x1e; x03; x8d; x99; x46; x37; xcb; x01; xc1; x69; x19; xee];
   [x16; x5e; xff; x3c; x82; x08; x2a; xca; xca; x9b; x11; xfa; xbd; x00; x54; x0a];
   [x6a; x69; x02; x33; xd4; x11; x35; x13; xf3; xb9; x12; xac; xf0; x7c; x81; xdc];
   [x63; x01; xc4; xb2; xce; x3b; x3c; x8d; x25; xb0; xea; x34; xe8; xfa; xd7; x26];
   [xf4; x49; x27; x18; x2f; x84; x0c; x67; x22; x11; x11; x47; x31; x96; xe1; x23];
   [x04; xeb; xe7; xea; x5d; xce; x15; x39; x7d; xcb; x21; x5d; xf2; x30; xcc; x85];
   [x52; x5d; x7b; x68; x8f; x5a; xf3; x76; xc9; xc6; x06; x39; x97; x84; x20; x1c];
   [x85; x7f; x95; xd0; x42; x38; xc4; x37; xa4; x53; xf0; x24; x0e; x39; x42; x7e];
   [xb4; xfe; x57; xd6; xd9; x31; x38; xc8; x03; xd2; xd6; xb2; x2c; x61; x19; x72];
   [x14; xdd; x46; xa5; x11; x83; x66; x1c; x85; x73; x4f; x9a; x3c; x05; x2d; xb1];
   [x7b; x32; xb4; x47; xed; xdb; x9e; x5b; x97; x50; xae; xed; xd6; x6b; xbb; x53];
   [x88; xe5; xa4; xb1; xf9; x1e; x58; xf3; x5a; x9f; x3c; x6c; x76; xd4; xde; xee];
   [xa8; xfd; xb3; xa3; xf6; xe7; x9e; x5a; xdb; x3d; xb5; xbe; xf6; xd4; x7a; x65];
   [x51; x8c; x2b; xed; xbb; x01; xa4; xec; x25; xd7; x0a; x45; xb8; x48; x79; x8e];
   [xd3; x15; x8f; x25; x43; x15; xb0; x77; x56; xff; x17; x7e; x64; x42; xf9; xcd];
   [xaa; xbd; xbb; xbf; x00; x00; x00; xff; xff; xc0; x86; xbb; x3b; xc6; x01; x00];
   [x00]].

Definition lockup_output_init : Registration :=
  MkRegistration
    [("MultiSendDelegateAndLockOutput", "lockup.v1.MultiSendDelegateAndLockOutput")]
    ("lockup/v1/output.proto", fileDescriptor_35e4b2bd36080a0c).

(** ** x/lockup/types/genesis.pb.go *)

Definition fileDescriptor_35a86100e05386ca : bytes := concat
  [[x1f; x8b; x08; x00; x00; x00; x00; x00; x02; xff; xe2; x12; xcf; xc9; x4f; xce];
   [x2e; x2d; xd0; x2f; x33; xd4; x4f; x4f; xcd; x4b; x2d; xce; x2c; xd6; x2b; x28];
   [xca; x2f; xc9; x17; xe2; x84; x48; xe8; x95; x19; x2a; xf1; x71; xf1; xb8; x43];
   [xe4; x82; x4b; x12; x4b; x52; x9d; x3c; x4f; x3c; x92; x63; xbc; xf0; x48; x8e];
   [xf1; xc1; x23; x39; xc6; x09; x8f; xe5; x18; x2e; x3c; x96; x63; xb8; xf1; x58];
   [x8e; x21; x4a; x3f; x3d; xb3; x24; xa3; x34; x49; x2f; x39; x3f; x57; x3f; xa4];
   [xa8; xb4; xb8; x24; x35; x25; x38; x37; xb1; xa8; xc4; x39; x23; x31; x33; x4f];
   [xbf; xa4; x38; x59; xbf; x42; x1f; x6a; x61; x49; x65; x41; x6a; x71; x12; x1b];
   [xd8; x32; x63; x40; x00; x00; x00; xff; xff; x7d; x58; xcb; x9d; x87; x00; x00];
   [x00]].

Definition lockup_genesis_init : Registration :=
  MkRegistration
    [("GenesisState", "lockup.v1.GenesisState")]
    ("lockup/v1/genesis.proto", fileDescriptor_35a86100e05386ca).

(** ** x/lockup/types/tx.pb.go *)

Definition fileDescriptor_be7ce9842eef2b47 : bytes := concat
  [[x1f; x8b; x08; x00; x00; x00; x00; x00; x02; xff; x9c; x54; xc1; x6e; xd3; x40];
   [x10; x8d; x93; xb6; x51; x26; x91; x20; x6e; x54; x5c; x03; x6e; x08; x02; xa5];
   [x45; xf2; x2a; x01; x81; x84; xb8; x24; x69; x0f; x48; x58; x48; x29; x27; x2e];
   [xd1; xc6; x5e; x5c; xab; xb1; x37; xf2; xae; xa3; x70; x43; x5c; xb9; xf0; x29];
   [xfd; x8c; x1e; x7b; x44; x02; x21; x94; x1c; xfa; x03; x7c; x00; xb2; xbd; x76];
   [x13; x70; x42; xe1; x12; x65; xe7; xbd; xb7; xf3; xe6; xcd; xca; x20; x8f; xa8];
   [x79; x1a; x8c; xd1; xa4; x85; xf8; x54; x1f; xfb; x94; x53; xb9; x14; xd7; xf4];
   [x49; x4b; xad; x62; xd7; xf1; x28; x8a; x7e; x63; x54; xbd; x65; x52; xe6; x52];
   [x86; x5c; x66; x87; x2a; x97; xd9; x02; xd0; x04; x30; xc4; x8c; xa0; x49; x6b];
   [x48; x38; x6e; x21; x93; x3a; x9e; xc0; x77; x63; x7c; x10; x9d; x50; x7c; x10];
   [x50; xcd; xa6; x36; x8d; xeb; xe1; xbf; x44; x70; xe5; x8d; x4c; x39; xf1; x98];
   [x43; x93; xbb; x76; xae; x20; x1a; xf0; x71; xc0; xe3; x7a; xe3; x93; x04; x45];
   [x83; xd9; xaf; xa8; x79; x2a; x2b; x50; xc4; x96; xe5; x13; xc6; x14; xa9; x2e];
   [x35; x4b; xfd; xe4; x28; xef; x41; x39; xf0; xc2; x1b; x06; x16; xe6; x44; xc9];
   [x47; x28; xc4; xa5; x43; xcc; x89; xfc; x0c; xb6; xb0; x4b; x03; x8f; x2b; x85];
   [xba; xd4; x2c; xb7; x77; x75; x61; x37; x9c; x4d; x17; xb3; xe9; x3d; xea; x78];
   [xdd; x8d; xf3; xef; x7b; xb9; xbe; xa0; x3f; xaf; x7c; xbc; x3c; x3b; x48; xfa];
   [x34; xaa; x70; x43; x98; xe9; x13; x36; xa6; x1e; x23; x0d; x07; x4a; x06; xb3];
   [x8f; xc2; x71; xac; x35; x0e; x9f; x00; xa4; x23; x33; x25; x5f; x2f; x34; xcb];
   [xed; x9a; x9e; xee; x45; x3f; x4a; xc0; xfe; x02; xef; xb7; xee; xdb; x50; x4d];
   [x5b; xa5; xfd; x7f; x4a; xb0; x63; x30; xfb; x98; x78; xd6; x21; x19; x11; x1b];
   [x73; xd2; xf1; xac; x28; xaf; x7b; x50; x79; xe7; x53; x77; xb0; x6c; xa9; x1c];
   [xd6; x3a; xc2; xd6; x5d; x00; x4e; x53; x42; x9c; x5b; x89; xd3; x04; x7e; x04];
   [xd5; x09; x1e; x39; x16; xe6; xd4; x4f; x59; x85; x88; x75; x33; x05; x3a; xd9];
   [x4b; xd8; x58; xb3; x84; xcd; x7f; x5b; x42; x35; x8c; x61; x69; x96; x46; x1d];
   [xb4; xec; xa9; xd3; x60; xbe; x49; x70; xdb; x60; xb6; x11; x8c; xb8; xf3; x9f];
   [xe9; x74; xa1; xc2; x29; xc7; xa3; x81; xb0; x9d; xbf; x9e; xed; x72; x24; xea];
   [x44; x1a; xb9; x07; xc5; xf8; x41; x87; xc1; x85; x5b; xdf; x5f; xd8; xfa; x2a];
   [x73; xaf; x23; x45; x3f; x51; x66; x05; xf0; x00; xee; xaf; x99; x2e; x49; xa1];
   [xfd; x35; x0f; x05; x83; xd9; xf2; x53; xd8; x88; xa6; x96; x17; xbb; xc7; x4f];
   [x59; x55; xff; xac; x25; x7a; xf9; x05; x6c; x89; xb7; x5d; x5b; x66; xc5; x55];
   [xf5; x4e; x56; x35; x55; x9b; xb0; x9d; x19; xfd; xb2; x28; x83; xa2; xee; xff];
   [x95; x92; x36; xf1; x41; x59; xb9; xe4; x87; xcb; xd7; xac; xe2; xa9; xfa; xf5];
   [x78; x49; x4f; x75; xf3; xc3; xe5; xd9; x81; xd4; x7d; x79; x3e; xd3; xa4; x8b];
   [x99; x26; xfd; x98; x69; xd2; xe7; xb9; x96; xbb; x98; x6b; xb9; x2f; x73; x2d];
   [xf7; x16; xd9; x0e; x3f; x09; x86; xba; x49; x5d; xf4; xc6; x0f; x18; x27; xd6];
   [xb1; x8b; x7d; xde; x3b; xc1; x8e; x87; x38; x33; xd1; x14; x89; x4f; x1e; x7f];
   [x3f; x26; x6c; xb8; x15; x7d; xef; x1e; xff; x0a; x00; x00; xff; xff; xbd; x90];
   [x1b; x7c; xc0; x05; x00; x00]].

Definition lockup_tx_init : Registration :=
  MkRegistration
    [("MsgLock", "lockup.v1.MsgLock"); ("MsgLockResponse", "lockup.v1.MsgLockResponse");
     ("MsgExtend", "lockup.v1.MsgExtend"); ("MsgExtendResponse", "lockup.v1.MsgExtendResponse");
     ("MsgSendDelegateAndLock", "lockup.v1.MsgSendDelegateAndLock");
     ("MsgSendDelegateAndLockResponse", "lockup.v1.MsgSendDelegateAndLockResponse");
     ("MsgMultiSendDelegateAndLock", "lockup.v1.MsgMultiSendDelegateAndLock");
     ("MsgMultiSendDelegateAndLockResponse", "lockup.v1.MsgMultiSendDelegateAndLockResponse")]
    ("lockup/v1/tx.proto", fileDescriptor_be7ce9842eef2b47).

(** ** x/lockup/types/query.pb.go *)

Definition fileDescriptor_b1812eb66ff92e55 : bytes := concat
  [[x1f; x8b; x08; x00; x00; x00; x00; x00; x02; xff; xac; x55; xcf; x4f; x13; x4f];
   [x14; xef; x94; x1f; xdf; x6f; x5f; xb9; x30; xc1; x50; x2a; x6c; x61; x51; x41];
   [x4d; x76; x52; x38; x18; x8f; x80; xd1; x98; x78; xd0; xca; xc9; x4b; x33; xdd];
   [x4e; x96; x0d; xed; x4e; xe9; xcc; x36; x10; x35; x31; x1e; x8c; x47; x7f; xdc];
   [xbd; xfa; xaf; x70; x24; xf1; xe2; xc9; x18; xf0; x0f; x31; x3b; x33; xcb; xee];
   [xb6; x2c; x10; xd3; xdb; xf2; xde; x67; xde; xe7; xf3; xde; xfb; xf0; x0a; x37];
   [x3a; xdc; xdd; x0f; x7b; x64; x50; x27; x07; x21; xeb; x1f; x39; xbd; x3e; x97];
   [x1c; x97; x74; xd8; x19; xd4; xab; x73; x1e; xf7; xb8; x8a; x92; xe8; x4b; x03];
   [xaa; x8b; x1e; xe7; x5e; x87; x11; xda; xf3; x09; x0d; x02; x2e; xa9; xf4; x79];
   [x20; x4c; xf6; x9e; xcb; x45; x97; x0b; xd2; xa2; x82; xe9; xba; x64; x50; x6f];
   [x31; x49; xeb; xa4; x47; x3d; x3f; x50; x60; x83; xb5; xd2; xd8; x18; xe5; x72];
   [x3f; xce; xcf; x25; x0a; xa3; x2f; x1d; xb5; x29; xcc; xbf; x88; xea; x6e; xb9];
   [xd2; x1f; xb0; x67; xdc; xdd; x17; x0d; x76; x10; x32; x21; xf1; x63; x80; x84];
   [xa4; x82; x96; xd1; x7a; x79; xe3; x8e; xa3; x59; x9c; x88; xc5; xd1; x9d; x1a];
   [x2e; xe7; x39; xf5; x98; x79; xdb; x48; xbd; xb4; xbf; x21; xa8; x8c; x72; x88];
   [x1e; x0f; x04; xc3; x0f; x61; x2a; x52; x23; x2a; x68; x79; x62; xbd; xbc; xb1];
   [xe4; x9c; x0f; xcc; x49; xe0; x0d; x26; x78; xd8; x77; xd9; xf6; xe4; xf1; xaf];
   [x5a; xa1; xa1; x5f; xe0; x27; x19; x7d; x45; xa5; x6f; xed; x4a; x7d; x9a; x37];
   [x23; xf0; x23; x02; x3c; x4a; x86; x2b; xf0; x1f; x6d; xb7; xfb; x4c; x08; xd5];
   [x7c; xa9; x11; xff; x89; x6b; x50; x0e; x83; x48; x44; xb3; x4d; x25; x53; xd4];
   [xa5; x06; xe8; xd0; x23; x2a; x19; x7e; x00; xd3; xb4; xcb; xc3; x40; x56; x26];
   [x94; xac; x85; x8c; xac; x58; xd0; x0e; xf7; x03; xd3; x92; x81; xdb; x35; x58];
   [x52; xa3; xda; xe5; x92; x76; x22; x35; xac; xbd; xa5; x32; x66; xb0; x76; x1b];
   [xac; x3c; x80; x99; xe8; x36; xcc; xc8; x28; xd9; xec; xa8; xac; x59; xdc; x95];
   [x0a; xca; x32; xa9; x68; xbf; x4b; x56; xe6; x46; xc5; x33; xbe; x58; x84; x92];
   [x19; x04; x8b; x27; x93; x04; x86; x5c; x53; xfc; x67; xd7; x7c; x47; xb0; x70];
   [x81; x04; xd3; xe4; x16; xfc; x4f; x75; x3c; x76; x4e; x2d; xe3; x9c; xcc; x93];
   [xb4; x77; xce; x9f; x8d; xcf; x3e; x0c; xe6; x2e; x22; xbc; xc4; x3f; x9b; xb1];
   [xe9; x8b; x4a; xfa; x7c; x4a; x7a; xae; xdd; xed; x3d; x98; xc9; xd8; x73; xc8];
   [x84; x68; x7c; x26; x0c; x61; x56; x4d; x3e; xb3; xf5; xfc; x6e; xc6; xb5; xf1];
   [x2f; x08; x70; x9a; xd7; xac; x7a; x33; x7b; x21; xae; x35; xac; xb1; x2d; x77];
   [xe3; xc3; x24; x4c; x29; x51; xf8; x10; xca; xa9; x03; x86; xed; x94; x8e; x9c];
   [x0b; x5a; x5d; xbd; x14; xa3; xd9; xec; xe5; xf7; x3f; xfe; x7c; x2d; x56; x71];
   [x85; x48; xe1; x12; x73; xa4; xa9; x02; x36; x75; x33; x9f; x11; xcc; x8e; xfc];
   [xbf; xe3; xf5; xe1; xe2; x79; x37; xa3; x7a; xf7; x1a; x48; x23; x66; x4d; x89];
   [x59; xc1; xb5; xb4; x98; xf4; x39; x69; x6a; x8f; xe0; x37; x30; x93; x36; x3d];
   [xbe; xa0; xd5; x91; xcb; x51; xbd; x75; x39; xc8; x68; x58; x51; x1a; x6e; xe2];
   [x85; xec; x40; x14; xd2; x4c; xe4; x00; xa6; x34; xed; xe2; x70; xc5; x0c; xdf];
   [x52; x4e; xd6; x10; xdd; x57; x44; xb7; xf1; x6a; x2e; x11; x79; x6d; x4c; xfe];
   [x76; xfb; xe9; xf1; xa9; x85; x4e; x4e; x2d; xf4; xfb; xd4; x42; x9f; xce; xac];
   [xc2; xc9; x99; x55; xf8; x79; x66; x15; x5e; x11; xcf; x97; x7b; x61; xcb; x71];
   [x79; x97; xec; xf6; x43; x21; x59; xfb; x65; x97; xf6; xe5; xce; x1e; xf5; x03];
   [x55; xfa; xf0; x7c; x92; x47; x3d; x26; x5a; xd3; xea; xa7; x77; xf3; x6f; x00];
   [x00; x00; xff; xff; xd0; x1c; x3c; xd6; x34; x08; x00; x00]].

Definition lockup_query_init : Registration :=
  MkRegistration
    [("QueryActiveLocksRequest", "lockup.v1.QueryActiveLocksRequest");
     ("QueryActiveLocksResponse", "lockup.v1.QueryActiveLocksResponse"); ("ActiveLockResource",
     "lockup.v1.ActiveLockResource"); ("QueryTotalLockedAmountRequest",
     "lockup.v1.QueryTotalLockedAmountRequest"); ("QueryTotalLockedAmountResponse",
     "lockup.v1.QueryTotalLockedAmountResponse"); ("QueryAccountLocksRequest",
     "lockup.v1.QueryAccountLocksRequest"); ("QueryAccountLocksResponse",
     "lockup.v1.QueryAccountLocksResponse"); ("AccountLocksResource",
     "lockup.v1.AccountLocksResource"); ("LockResource", "lockup.v1.LockResource");
     ("QueryLocksRequest", "lockup.v1.QueryLocksRequest"); ("QueryLocksResponse",
     "lockup.v1.QueryLocksResponse")]
    ("lockup/v1/query.proto", fileDescriptor_b1812eb66ff92e55).

(** ** x/distro/types/genesis.pb.go *)

Definition fileDescriptor_8f02fec9499f3ab0 : bytes := concat
  [[x1f; x8b; x08; x00; x00; x00; x00; x00; x02; xff; x54; x91; xc1; x6a; xe2; x40];
   [x18; xc7; x13; x57; x03; xce; x2e; xbb; x6b; x56; xd9; x20; xbb; x51; xbc; xac];
   [xec; x42; x06; xb7; xd0; x42; x2f; xa5; xb6; xd0; x7a; x13; xd3; x53; x2f; x61];
   [x34; x43; x32; xe0; xcc; x84; x99; x89; xe8; x2b; xf4; xd4; x47; x28; x7d; x82];
   [x3e; x86; x47; x8f; x3d; x95; xa2; x87; xf6; x31; x8a; x33; xa9; xd8; x4b; xc8];
   [xfc; x7f; x3f; xfe; xcc; x7c; x1f; xf8; x19; x13; xa9; x04; x87; xb3; x1e; x4c];
   [x30; xc3; x92; xc8; x20; x13; x5c; x71; xb7; x6a; x40; x30; xeb; x35; xeb; x09];
   [x4f; xb8; x4e; xe1; xf6; xcf; x08; xcd; x1a; xa2; x84; x71; xa8; xbf; x26; xea];
   [x9c; x80; x2f; x17; xa6; x24; x54; x48; x61; x17; x02; x27; x43; x02; x51; xe9];
   [xd9; x6d; xbb; xfb; xf9; x7f; x2d; xd8; x95; x06; x43; x0d; xfa; xe5; xe5; x53];
   [xcb; x1a; x15; x5a; xe7; xbe; x04; x1c; x03; xdc; x3f; xe0; x1b; x25; x4c; x11];
   [x96; x44; x28; x8e; x05; x96; xa6; xa4; x3a; xfa; x5a; xc4; xa7; x26; x75; xff];
   [x81; x9a; xc0; x13; x4c; x66; xfb; x6a; x49; xab; xdf; x77; xe0; x5d; xae; x83];
   [x4a; x8c; x19; xa7; xde; x27; x2d; x98; x83; xfb; x1b; x00; x8a; xe6; x91; xcc];
   [xb3; x6c; xba; xf0; xca; x1a; x55; x29; x9a; x87; x3a; x70; x0f; x8b; x29; x91];
   [x71; xae; x08; x67; x91; x54; x48; xa8; x28; x46; x0a; x7b; x15; xed; x36; xf6];
   [x71; xb8; xa5; xe7; xdb; xe7; x1f; x01; x8f; x72; xa6; x52; x19; x11; x16; xa5];
   [x68; xaa; x6f; x98; x61; x41; x78; xec; x39; x6d; xbb; x5b; x1e; x35; x0c; x1f];
   [xb0; x4b; x43; x87; x1a; x1e; xff; x7a; xbd; x6b; xd9; x37; x2f; x0f; x7f; x7f];
   [x28; x39; x81; x73; x58; xec; xc8; x0c; xa9; x3f; x58; xae; x7d; x7b; xb5; xf6];
   [xed; xe7; xb5; x6f; xdf; x6e; x7c; x6b; xb5; xf1; xad; xc7; x8d; x6f; x5d; xc3];
   [x84; xa8; x34; x1f; x07; x13; x4e; xe1; x95; xc8; xa5; xc2; x71; x48; x91; x50];
   [x67; x29; x22; x0c; x7e; xe8; x52; x8b; x0c; xcb; xb1; xa3; xf7; x76; xf0; x16];
   [x00; x00; xff; xff; x3b; x22; xd6; x36; x06; x02; x00; x00]].

Definition distro_genesis_init : Registration :=
  MkRegistration
    [("GenesisState", "distro.v1.GenesisState"); ("Params", "distro.v1.Params")]
    ("distro/v1/genesis.proto", fileDescriptor_8f02fec9499f3ab0).

(** ** x/distro/types/tx.pb.go *)

Definition fileDescriptor_2608651a4feede70 : bytes := concat
  [[x1f; x8b; x08; x00; x00; x00; x00; x00; x02; xff; x7c; x52; x31; x8f; xd3; x30];
   [x14; x8e; xe1; x08; xaa; x0f; x81; xce; x3a; xd1; x5e; x86; x70; xca; x74; x3a];
   [x89; x98; x2b; x52; x87; x6e; x94; x89; x21; x08; xa5; xb0; xb0; x40; xda; x58];
   [xae; x07; xc7; x91; x9f; x53; xb5; x1b; x62; x64; x62; xe0; x87; x74; xe0; x47];
   [x74; xac; x98; x98; x10; x6a; x87; xfe; x0d; x94; xd8; xa5; xb4; x08; x36; xbf];
   [xf7; x7d; xef; xfb; xbe; x67; x3d; x4c; x72; x01; x46; x2b; x3a; xbd; xa1; x66];
   [x16; x97; x5a; x19; x45; x5a; xb6; x17; x4f; x6f; x82; xf6; x58; x81; x54; x40];
   [x25; xf0; x9a; x22; x81; x5b; x4e; xd0; xde; xcf; x71; x56; x30; x10; xe0; x80];
   [x73; xae; xb8; x6a; x9e; xb4; x7e; xb9; xee; x85; xd5; x79; x67; x01; x5b; x58];
   [x28; xfa; x84; xf0; x83; x04; xf8; x9b; x32; xcf; x0c; x7b; x95; xe9; x4c; x02];
   [xe9; xe1; x56; x56; x99; x89; xd2; xc2; xcc; x3b; xe8; x12; x5d; xb5; x06; x9d];
   [x6f; x5f; x1f; x9f; xbb; xc1; x67; x79; xae; x19; xc0; xd0; x68; x51; xf0; x74];
   [x4f; x25; x14; xfb; x65; xa3; xd0; xb9; x75; x89; xae; x4e; xbb; x67; xf1; xef];
   [x55; x62; x2b; x3d; x38; x59; xfe; x78; xe4; xa5; x8e; xd6; xbf; xff; x71; xbb];
   [xb8; xde; x0b; x44; x17; xb8; x7d; x94; x25; x65; x50; xaa; x02; x58; xf4; x1e];
   [xdf; x4d; x80; x27; xa2; x30; xe4; x21; xf6; x33; xa9; xaa; xc2; xd8; x6c; xa9];
   [xab; xc8; x13; xec; x4b; x51; x18; xa6; x1b; xfb; xff; x65; x76; xbc; xfe; x69];
   [xed; xef; x8a; xe8; xac; xf9; x88; xda; x61; x67; xda; xfd; x82; xf0; xed; x04];
   [x38; x79; x89; xef; x1d; x7c; x50; xf0; xc7; x62; x47; x81; x83; xe8; xdf; xd8];
   [x4e; x97; xf4; xf0; x49; xb3; x09; x39; xe4; xd6; xbd; x20; xf8; xbb; xb7; x9b];
   [x0b; xee; x7c; xd8; x2e; xae; xd1; xe0; xc5; x72; x1d; xa2; xd5; x3a; x44; x3f];
   [xd7; x21; xfa; xbc; x09; xbd; xd5; x26; xf4; xbe; x6f; x42; xef; x2d; xe5; xc2];
   [x4c; xaa; x51; x3c; x56; x92; xbe; xd6; x15; x18; x96; x0f; x65; xa6; xcd; xf3];
   [x49; x26; x0a; x6a; x60; x4c; x67; xd4; x9d; x8e; x99; x97; x0c; x46; x7e; x73];
   [x05; x4f; x7f; x05; x00; x00; xff; xff; x3c; xaa; xad; x73; x89; x02; x00; x00]].

Definition distro_tx_init : Registration :=
  MkRegistration
    [("MsgUpdateParams", "distro.v1.MsgUpdateParams"); ("MsgUpdateParamsResponse",
     "distro.v1.MsgUpdateParamsResponse"); ("MsgMint", "distro.v1.MsgMint"); ("MsgMintResponse",
     "distro.v1.MsgMintResponse")]
    ("distro/v1/tx.proto", fileDescriptor_2608651a4feede70).

(** ** x/distro/types/query.pb.go *)

Definition fileDescriptor_b7e3e1b7748b0bb4 : bytes := concat
  [[x1f; x8b; x08; x00; x00; x00; x00; x00; x02; xff; xe2; x12; x4d; xc9; x2c; x2e];
   [x29; xca; xd7; x2f; x33; xd4; x2f; x2c; x4d; x2d; xaa; xd4; x2b; x28; xca; x2f];
   [xc9; x17; xe2; x84; x08; xeb; x95; x19; x4a; xc9; xa4; xe7; xe7; xa7; xe7; xa4];
   [xea; x27; x16; x64; xea; x27; xe6; xe5; xe5; x97; x24; x96; x64; xe6; xe7; x15];
   [x43; x14; x4a; x89; x23; xf4; xa7; xa7; xe6; xa5; x16; x67; x42; x25; x94; x44];
   [xb8; x84; x02; x41; x06; x06; x24; x16; x25; xe6; x16; x07; xa5; x16; x96; xa6];
   [x16; x97; x28; x39; x70; x09; xa3; x88; x16; x17; xe4; xe7; x15; xa7; x0a; x69];
   [x72; xb1; x15; x80; x45; x24; x18; x15; x18; x35; xb8; x8d; x04; xf5; xe0; xf6];
   [xeb; x41; x95; x42; x15; x18; x65; x73; xb1; x82; x4d; x10; x4a; xe2; x62; x83];
   [x48; x09; xc9; x22; xa9; xc6; xb4; x53; x4a; x0e; x97; x34; xc4; x72; x25; xc9];
   [xa6; xcb; x4f; x26; x33; x09; x0b; x09; xea; x23; xfc; x02; xb1; xcc; xc9; xf3];
   [xc4; x23; x39; xc6; x0b; x8f; xe4; x18; x1f; x3c; x92; x63; x9c; xf0; x58; x8e];
   [xe1; xc2; x63; x39; x86; x1b; x8f; xe5; x18; xa2; xf4; xd3; x33; x4b; x32; x4a];
   [x93; xf4; x92; xf3; x73; xf5; x43; x8a; x4a; x8b; x4b; x52; x53; x82; x73; x13];
   [x8b; x4a; x9c; x33; x12; x33; xf3; xf4; x4b; x8a; x93; xf5; x2b; x60; xc6; x95];
   [x54; x16; xa4; x16; x27; xb1; x81; x83; xc5; x18; x10; x00; x00; xff; xff; xcc];
   [xdc; x3d; x10; x71; x01; x00; x00]].

Definition distro_query_init : Registration :=
  MkRegistration
    [("QueryParamsRequest", "distro.v1.QueryParamsRequest"); ("QueryParamsResponse",
     "distro.v1.QueryParamsResponse")]
    ("distro/v1/query.proto", fileDescriptor_b7e3e1b7748b0bb4).

(** ** x/distro/types/state.pb.go *)

Definition fileDescriptor_263e8e2c78e904c8 : bytes := concat
  [[x1f; x8b; x08; x00; x00; x00; x00; x00; x02; xff; xe2; x12; x4d; xc9; x2c; x2e];
   [x29; xca; xd7; x2f; x33; xd4; x2f; x2e; x49; x2c; x49; xd5; x2b; x28; xca; x2f];
   [xc9; x17; xe2; x84; x08; xeb; x95; x19; x4a; x89; x27; xe7; x17; xe7; xe6; x17];
   [xeb; xe7; x17; xe5; x82; x54; xe5; x17; xe5; x42; xd4; x28; x25; x70; x71; xbb];
   [x56; x24; xe6; x16; xe4; xa4; xba; x24; x96; x24; x0a; x49; x70; xb1; x27; x26];
   [x27; xe7; x97; xe6; x95; x48; x30; x2a; x30; x6a; xf0; x04; xc1; xb8; x42; x62];
   [x5c; x6c; x89; xb9; x60; x09; x26; x05; x46; x0d; x96; x20; x28; xcf; x4a; xfe];
   [xd3; xbc; xcb; x7d; xcc; x92; x5c; x9c; x70; x9d; x42; x5c; x30; xa5; x02; x8c];
   [x12; x8c; x4e; x9e; x27; x1e; xc9; x31; x5e; x78; x24; xc7; xf8; xe0; x91; x1c];
   [xe3; x84; xc7; x72; x0c; x17; x1e; xcb; x31; xdc; x78; x2c; xc7; x10; xa5; x9f];
   [x9e; x59; x92; x51; x9a; xa4; x97; x9c; x9f; xab; x1f; x52; x54; x5a; x5c; x92];
   [x9a; x12; x9c; x9b; x58; x54; xe2; x9c; x91; x98; x99; xa7; x5f; x52; x9c; xac];
   [x5f; xa1; x0f; xf5; x59; x49; x65; x41; x6a; x71; x12; x1b; xd8; xcd; xc6; x80];
   [x00; x00; x00; xff; xff; x14; x16; x2c; x34; xf0; x00; x00; x00]].

Definition distro_state_init : Registration :=
  MkRegistration
    [("ExampleData", "distro.v1.ExampleData")]
    ("distro/v1/state.proto", fileDescriptor_263e8e2c78e904c8).

