(* ===== verification/GogoReflect.v ===== *)
(** The other methods gogoproto generates for the messages of the types packages:
    Reset, String, Descriptor, the XXX_ methods the library calls, and the getters. *)

From stdpp Require Import base list strings.
From Stdlib Require Import ZArith Lia.
From Stdlib.Init Require Import Byte.
From S2P Require Import Prelude Sdk LockPb LockupMsgs LockupQuery Distro Modules ProtoTable Gogo TypesLock TypesLockup TypesDistro FileDesc.

Local Open Scope Z_scope.

(** What the methods hand on to the gogoproto library. *)
Class GogoRuntime := {
  CompactTextString {T} : option T -> string;
  InternalMessageInfo_Marshal {T} : bytes -> T -> bool -> outcome bytes;
  InternalMessageInfo_Merge {T} : T -> T -> T;
  InternalMessageInfo_DiscardUnknown {T} : T -> T;
}.

Record go_methods (T : Type) := MkGoMethods {
  go_Reset : option T -> outcome T;
  go_String : option T -> string;
  go_Descriptor : bytes * list Z;
  go_XXX_Unmarshal : T -> bytes -> outcome T;
  go_XXX_Marshal : T -> bytes -> bool -> outcome bytes;
  go_XXX_Merge : T -> T -> T;
  go_XXX_Size : option T -> Z;
  go_XXX_DiscardUnknown : T -> T;
}.
Arguments MkGoMethods {T}.
Arguments go_Reset {T}.
Arguments go_String {T}.
Arguments go_Descriptor {T}.
Arguments go_XXX_Unmarshal {T}.
Arguments go_XXX_Marshal {T}.
Arguments go_XXX_Merge {T}.
Arguments go_XXX_Size {T}.
Arguments go_XXX_DiscardUnknown {T}.

Section Generated.
Context `{GogoRuntime} {T : Type}.

(** [*m = T{}]. *)
Definition Reset (zero : T) (m : option T) : outcome T :=
  match m with Some _ => Ok zero | None => Panic NilDeref end.

(** [b] is the buffer up to its capacity, [b[:cap(b)]].  The message is written at
    the end of it, and the first [n] bytes are returned. *)
Definition XXX_Marshal (MarshalToSizedBuffer : T -> outcome bytes) (m : T) (b : bytes)
    (deterministic : bool) : outcome bytes :=
  if deterministic then InternalMessageInfo_Marshal b m deterministic else
  written ← MarshalToSizedBuffer m;
  if zlen b <? zlen written then Panic SliceBounds else
  Ok (take (length written) (take (length b - length written) b ++ written)).

(** The methods of one message, over those of Gogo.v. *)
Definition generated_methods (zero : T) (Size : option T -> Z) (MarshalToSizedBuffer : T -> outcome bytes)
    (Unmarshal : T -> bytes -> outcome T) (fileDescriptor : bytes) (index : Z) : go_methods T :=
  MkGoMethods (Reset zero) CompactTextString (fileDescriptor, [index])
    Unmarshal (XXX_Marshal MarshalToSizedBuffer) InternalMessageInfo_Merge Size
    InternalMessageInfo_DiscardUnknown.
End Generated.

(** The methods and getters of a message. *)
Record go_message := MkGoMessage {
  gm_pb : pb_message;
  gm_methods : go_methods (pm_type gm_pb);
  gm_getters : list { A : Type & option (pm_type gm_pb) -> A };
}.

Section Messages.
Context `{SdkMath} `{GogoExternal} `{GogoRuntime}.

(** ** x/lockup/types/lock.pb.go *)

Definition Lock_methods : go_methods Lock :=
  generated_methods (MkLock EmptyString 0) Lock_PtrSize Lock_MarshalToSizedBuffer Lock_Merge
    fileDescriptor_961d2c254326faef 0.
Definition Lock_GetUnlockDate (m : option Lock) : string :=
  match m with Some m => UnlockDate m | None => EmptyString end.

Definition Locks_methods : go_methods LocksMsg :=
  generated_methods (MkLocksMsg []) LocksMsg_Size LocksMsg_MarshalToSizedBuffer LocksMsg_Unmarshal
    fileDescriptor_961d2c254326faef 1.
Definition Locks_GetLocks (m : option LocksMsg) : list (option Lock) :=
  match m with Some m => LocksMsg_Locks m | None => [] end.

(** ** x/lockup/types/extension.pb.go *)

Definition Extension_methods : go_methods Extension :=
  generated_methods (d_empty Extension_desc) Extension_Size Extension_MarshalToSizedBuffer
    Extension_Unmarshal fileDescriptor_e4b11b43971c35e1 0.
Definition Extension_GetFromDate (m : option Extension) : string :=
  match m with Some m => Extension_FromDate m | None => EmptyString end.
Definition Extension_GetToDate (m : option Extension) : string :=
  match m with Some m => Extension_ToDate m | None => EmptyString end.
Definition Extension_GetAmount (m : option Extension) : Coin :=
  match m with Some m => Extension_Amount m | None => c_empty Coin_pb end.

(** ** x/lockup/types/output.pb.go *)

Definition MultiSendDelegateAndLockOutput_methods : go_methods MultiSendDelegateAndLockOutput :=
  generated_methods (d_empty MultiSendDelegateAndLockOutput_desc)
    MultiSendDelegateAndLockOutput_Size MultiSendDelegateAndLockOutput_MarshalToSizedBuffer
    MultiSendDelegateAndLockOutput_Unmarshal fileDescriptor_35e4b2bd36080a0c 0.
Definition MultiSendDelegateAndLockOutput_GetFromAddress (m : option
    MultiSendDelegateAndLockOutput) : string :=
  match m with Some m => Output_FromAddress m | None => EmptyString end.
Definition MultiSendDelegateAndLockOutput_GetToAddress (m : option MultiSendDelegateAndLockOutput)
    : string :=
  match m with Some m => Output_ToAddress m | None => EmptyString end.
Definition MultiSendDelegateAndLockOutput_GetValidatorAddress (m : option
    MultiSendDelegateAndLockOutput) : string :=
  match m with Some m => Output_ValidatorAddress m | None => EmptyString end.
Definition MultiSendDelegateAndLockOutput_GetUnlockDate (m : option
    MultiSendDelegateAndLockOutput) : string :=
  match m with Some m => Output_UnlockDate m | None => EmptyString end.
Definition MultiSendDelegateAndLockOutput_GetAmount (m : option MultiSendDelegateAndLockOutput) :
    Coin :=
  match m with Some m => Output_Amount m | None => c_empty Coin_pb end.

(** ** x/lockup/types/genesis.pb.go *)

Definition LockupGenesisState_methods : go_methods LockupModule.GenesisState :=
  generated_methods (d_empty LockupGenesisState_desc) LockupGenesisState_Size
    LockupGenesisState_MarshalToSizedBuffer LockupGenesisState_Unmarshal
    fileDescriptor_35a86100e05386ca 0.

(** ** x/lockup/types/tx.pb.go *)

Definition MsgLock_methods : go_methods MsgLock :=
  generated_methods (d_empty MsgLock_desc) MsgLock_Size MsgLock_MarshalToSizedBuffer
    MsgLock_Unmarshal fileDescriptor_be7ce9842eef2b47 0.
Definition MsgLock_GetAddress (m : option MsgLock) : string :=
  match m with Some m => MsgLock_Address m | None => EmptyString end.
Definition MsgLock_GetUnlockDate (m : option MsgLock) : string :=
  match m with Some m => MsgLock_UnlockDate m | None => EmptyString end.
Definition MsgLock_GetAmount (m : option MsgLock) : Coin :=
  match m with Some m => MsgLock_Amount m | None => c_empty Coin_pb end.

Definition MsgLockResponse_methods : go_methods MsgLockResponse :=
  generated_methods (d_empty MsgLockResponse_desc) MsgLockResponse_Size
    MsgLockResponse_MarshalToSizedBuffer MsgLockResponse_Unmarshal fileDescriptor_be7ce9842eef2b47
    1.

Definition MsgExtend_methods : go_methods MsgExtend :=
  generated_methods (d_empty MsgExtend_desc) MsgExtend_Size MsgExtend_MarshalToSizedBuffer
    MsgExtend_Unmarshal fileDescriptor_be7ce9842eef2b47 2.
Definition MsgExtend_GetAddress (m : option MsgExtend) : string :=
  match m with Some m => MsgExtend_Address m | None => EmptyString end.
Definition MsgExtend_GetExtensions (m : option MsgExtend) : list (option Extension) :=
  match m with Some m => MsgExtend_Extensions m | None => [] end.

Definition MsgExtendResponse_methods : go_methods MsgExtendResponse :=
  generated_methods (d_empty MsgExtendResponse_desc) MsgExtendResponse_Size
    MsgExtendResponse_MarshalToSizedBuffer MsgExtendResponse_Unmarshal
    fileDescriptor_be7ce9842eef2b47 3.

Definition MsgSendDelegateAndLock_methods : go_methods MsgSendDelegateAndLock :=
  generated_methods (d_empty MsgSendDelegateAndLock_desc) MsgSendDelegateAndLock_Size
    MsgSendDelegateAndLock_MarshalToSizedBuffer MsgSendDelegateAndLock_Unmarshal
    fileDescriptor_be7ce9842eef2b47 4.
Definition MsgSendDelegateAndLock_GetFromAddress (m : option MsgSendDelegateAndLock) : string :=
  match m with Some m => MsgSend_FromAddress m | None => EmptyString end.
Definition MsgSendDelegateAndLock_GetToAddress (m : option MsgSendDelegateAndLock) : string :=
  match m with Some m => MsgSend_ToAddress m | None => EmptyString end.
Definition MsgSendDelegateAndLock_GetValidatorAddress (m : option MsgSendDelegateAndLock) : string
    :=
  match m with Some m => MsgSend_ValidatorAddress m | None => EmptyString end.
Definition MsgSendDelegateAndLock_GetUnlockDate (m : option MsgSendDelegateAndLock) : string :=
  match m with Some m => MsgSend_UnlockDate m | None => EmptyString end.
Definition MsgSendDelegateAndLock_GetAmount (m : option MsgSendDelegateAndLock) : Coin :=
  match m with Some m => MsgSend_Amount m | None => c_empty Coin_pb end.

Definition MsgSendDelegateAndLockResponse_methods : go_methods MsgSendDelegateAndLockResponse :=
  generated_methods (d_empty MsgSendDelegateAndLockResponse_desc)
    MsgSendDelegateAndLockResponse_Size MsgSendDelegateAndLockResponse_MarshalToSizedBuffer
    MsgSendDelegateAndLockResponse_Unmarshal fileDescriptor_be7ce9842eef2b47 5.

Definition MsgMultiSendDelegateAndLock_methods : go_methods MsgMultiSendDelegateAndLock :=
  generated_methods (d_empty MsgMultiSendDelegateAndLock_desc) MsgMultiSendDelegateAndLock_Size
    MsgMultiSendDelegateAndLock_MarshalToSizedBuffer MsgMultiSendDelegateAndLock_Unmarshal
    fileDescriptor_be7ce9842eef2b47 6.
Definition MsgMultiSendDelegateAndLock_GetFromAddress (m : option MsgMultiSendDelegateAndLock) :
    string :=
  match m with Some m => MsgMulti_FromAddress m | None => EmptyString end.
Definition MsgMultiSendDelegateAndLock_GetTotalAmount (m : option MsgMultiSendDelegateAndLock) :
    Coin :=
  match m with Some m => MsgMulti_TotalAmount m | None => c_empty Coin_pb end.
Definition MsgMultiSendDelegateAndLock_GetOutputs (m : option MsgMultiSendDelegateAndLock) : list
    (option MultiSendDelegateAndLockOutput) :=
  match m with Some m => MsgMulti_Outputs m | None => [] end.

Definition MsgMultiSendDelegateAndLockResponse_methods : go_methods
    MsgMultiSendDelegateAndLockResponse :=
  generated_methods (d_empty MsgMultiSendDelegateAndLockResponse_desc)
    MsgMultiSendDelegateAndLockResponse_Size
    MsgMultiSendDelegateAndLockResponse_MarshalToSizedBuffer
    MsgMultiSendDelegateAndLockResponse_Unmarshal fileDescriptor_be7ce9842eef2b47 7.

(** ** x/lockup/types/query.pb.go *)

Definition QueryActiveLocksRequest_methods : go_methods QueryActiveLocksRequest :=
  generated_methods (d_empty QueryActiveLocksRequest_desc) QueryActiveLocksRequest_Size
    QueryActiveLocksRequest_MarshalToSizedBuffer QueryActiveLocksRequest_Unmarshal
    fileDescriptor_b1812eb66ff92e55 0.
Definition QueryActiveLocksRequest_GetPagination (m : option QueryActiveLocksRequest) : option
    PageRequest :=
  match m with Some m => QueryActiveLocksRequest_Pagination m | None => None end.

Definition QueryActiveLocksResponse_methods : go_methods QueryActiveLocksResponse :=
  generated_methods (d_empty QueryActiveLocksResponse_desc) QueryActiveLocksResponse_Size
    QueryActiveLocksResponse_MarshalToSizedBuffer QueryActiveLocksResponse_Unmarshal
    fileDescriptor_b1812eb66ff92e55 1.
Definition QueryActiveLocksResponse_GetLocks (m : option QueryActiveLocksResponse) : list
    ActiveLockResource :=
  match m with Some m => QueryActiveLocksResponse_Locks m | None => [] end.
Definition QueryActiveLocksResponse_GetPagination (m : option QueryActiveLocksResponse) : option
    PageResponse :=
  match m with Some m => QueryActiveLocksResponse_Pagination m | None => None end.

Definition ActiveLockResource_methods : go_methods ActiveLockResource :=
  generated_methods (d_empty ActiveLockResource_desc) ActiveLockResource_Size
    ActiveLockResource_MarshalToSizedBuffer ActiveLockResource_Unmarshal
    fileDescriptor_b1812eb66ff92e55 2.
Definition ActiveLockResource_GetAddress (m : option ActiveLockResource) : string :=
  match m with Some m => ALR_Address m | None => EmptyString end.
Definition ActiveLockResource_GetUnlockDate (m : option ActiveLockResource) : string :=
  match m with Some m => ALR_UnlockDate m | None => EmptyString end.
Definition ActiveLockResource_GetAmount (m : option ActiveLockResource) : Coin :=
  match m with Some m => ALR_Amount m | None => c_empty Coin_pb end.

Definition QueryTotalLockedAmountRequest_methods : go_methods QueryTotalLockedAmountRequest :=
  generated_methods (d_empty QueryTotalLockedAmountRequest_desc)
    QueryTotalLockedAmountRequest_Size QueryTotalLockedAmountRequest_MarshalToSizedBuffer
    QueryTotalLockedAmountRequest_Unmarshal fileDescriptor_b1812eb66ff92e55 3.

Definition QueryTotalLockedAmountResponse_methods : go_methods QueryTotalLockedAmountResponse :=
  generated_methods (d_empty QueryTotalLockedAmountResponse_desc)
    QueryTotalLockedAmountResponse_Size QueryTotalLockedAmountResponse_MarshalToSizedBuffer
    QueryTotalLockedAmountResponse_Unmarshal fileDescriptor_b1812eb66ff92e55 4.
Definition QueryTotalLockedAmountResponse_GetTotalLocked (m : option
    QueryTotalLockedAmountResponse) : Coin :=
  match m with Some m => QueryTotalLockedAmountResponse_TotalLocked m | None => c_empty Coin_pb end.

Definition QueryAccountLocksRequest_methods : go_methods QueryAccountLocksRequest :=
  generated_methods (d_empty QueryAccountLocksRequest_desc) QueryAccountLocksRequest_Size
    QueryAccountLocksRequest_MarshalToSizedBuffer QueryAccountLocksRequest_Unmarshal
    fileDescriptor_b1812eb66ff92e55 5.
Definition QueryAccountLocksRequest_GetAddresses (m : option QueryAccountLocksRequest) : string :=
  match m with Some m => QueryAccountLocksRequest_Addresses m | None => EmptyString end.
Definition QueryAccountLocksRequest_GetPagination (m : option QueryAccountLocksRequest) : option
    PageRequest :=
  match m with Some m => QueryAccountLocksRequest_Pagination m | None => None end.

Definition QueryAccountLocksResponse_methods : go_methods QueryAccountLocksResponse :=
  generated_methods (d_empty QueryAccountLocksResponse_desc) QueryAccountLocksResponse_Size
    QueryAccountLocksResponse_MarshalToSizedBuffer QueryAccountLocksResponse_Unmarshal
    fileDescriptor_b1812eb66ff92e55 6.
Definition QueryAccountLocksResponse_GetAccounts (m : option QueryAccountLocksResponse) : list
    AccountLocksResource :=
  match m with Some m => QueryAccountLocksResponse_Accounts m | None => [] end.
Definition QueryAccountLocksResponse_GetPagination (m : option QueryAccountLocksResponse) : option
    PageResponse :=
  match m with Some m => QueryAccountLocksResponse_Pagination m | None => None end.

Definition AccountLocksResource_methods : go_methods AccountLocksResource :=
  generated_methods (d_empty AccountLocksResource_desc) AccountLocksResource_Size
    AccountLocksResource_MarshalToSizedBuffer AccountLocksResource_Unmarshal
    fileDescriptor_b1812eb66ff92e55 7.
Definition AccountLocksResource_GetAddress (m : option AccountLocksResource) : string :=
  match m with Some m => AcLR_Address m | None => EmptyString end.
Definition AccountLocksResource_GetLocks (m : option AccountLocksResource) : list LockResource :=
  match m with Some m => AcLR_Locks m | None => [] end.

Definition LockResource_methods : go_methods LockResource :=
  generated_methods (d_empty LockResource_desc) LockResource_Size
    LockResource_MarshalToSizedBuffer LockResource_Unmarshal fileDescriptor_b1812eb66ff92e55 8.
Definition LockResource_GetUnlockDate (m : option LockResource) : string :=
  match m with Some m => LR_UnlockDate m | None => EmptyString end.
Definition LockResource_GetAmount (m : option LockResource) : Coin :=
  match m with Some m => LR_Amount m | None => c_empty Coin_pb end.

Definition QueryLocksRequest_methods : go_methods QueryLocksRequest :=
  generated_methods (d_empty QueryLocksRequest_desc) QueryLocksRequest_Size
    QueryLocksRequest_MarshalToSizedBuffer QueryLocksRequest_Unmarshal
    fileDescriptor_b1812eb66ff92e55 9.
Definition QueryLocksRequest_GetAddress (m : option QueryLocksRequest) : string :=
  match m with Some m => QueryLocksRequest_Address m | None => EmptyString end.
Definition QueryLocksRequest_GetPagination (m : option QueryLocksRequest) : option PageRequest :=
  match m with Some m => QueryLocksRequest_Pagination m | None => None end.

Definition QueryLocksResponse_methods : go_methods QueryLocksResponse :=
  generated_methods (d_empty QueryLocksResponse_desc) QueryLocksResponse_Size
    QueryLocksResponse_MarshalToSizedBuffer QueryLocksResponse_Unmarshal
    fileDescriptor_b1812eb66ff92e55 10.
Definition QueryLocksResponse_GetLocks (m : option QueryLocksResponse) : list LockResource :=
  match m with Some m => QueryLocksResponse_Locks m | None => [] end.
Definition QueryLocksResponse_GetPagination (m : option QueryLocksResponse) : option PageResponse :=
  match m with Some m => QueryLocksResponse_Pagination m | None => None end.

(** ** x/distro/types/genesis.pb.go *)

Definition DistroGenesisState_methods : go_methods Distro.GenesisState :=
  generated_methods (d_empty DistroGenesisState_desc) DistroGenesisState_Size
    DistroGenesisState_MarshalToSizedBuffer DistroGenesisState_Unmarshal
    fileDescriptor_8f02fec9499f3ab0 0.
Definition DistroGenesisState_GetParams (m : option Distro.GenesisState) : Params :=
  match m with Some m => GenesisParams m | None => c_empty Params_codec end.

Definition Params_methods : go_methods Params :=
  generated_methods (d_empty Params_desc) Params_Size Params_MarshalToSizedBuffer Params_Unmarshal
    fileDescriptor_8f02fec9499f3ab0 1.
Definition Params_GetMintingAddress (m : option Params) : string :=
  match m with Some m => MintingAddress m | None => EmptyString end.
Definition Params_GetReceivingAddress (m : option Params) : string :=
  match m with Some m => ReceivingAddress m | None => EmptyString end.
Definition Params_GetDenom (m : option Params) : string :=
  match m with Some m => ParamsDenom m | None => EmptyString end.
Definition Params_GetMaxSupply (m : option Params) : string :=
  match m with Some m => ParamsMaxSupply m | None => EmptyString end.
Definition Params_GetDistributionStartDate (m : option Params) : string :=
  match m with Some m => DistributionStartDate m | None => EmptyString end.
Definition Params_GetMonthsInHalvingPeriod (m : option Params) : Z :=
  match m with Some m => MonthsInHalvingPeriod m | None => 0 end.

(** ** x/distro/types/tx.pb.go *)

Definition MsgUpdateParams_methods : go_methods MsgUpdateParams :=
  generated_methods (d_empty MsgUpdateParams_desc) MsgUpdateParams_Size
    MsgUpdateParams_MarshalToSizedBuffer MsgUpdateParams_Unmarshal fileDescriptor_2608651a4feede70
    0.
Definition MsgUpdateParams_GetAuthority (m : option MsgUpdateParams) : string :=
  match m with Some m => MsgUpdateParams_Authority m | None => EmptyString end.
Definition MsgUpdateParams_GetParams (m : option MsgUpdateParams) : Params :=
  match m with Some m => MsgUpdateParams_Params m | None => c_empty Params_codec end.

Definition MsgUpdateParamsResponse_methods : go_methods MsgUpdateParamsResponse :=
  generated_methods (d_empty MsgUpdateParamsResponse_desc) MsgUpdateParamsResponse_Size
    MsgUpdateParamsResponse_MarshalToSizedBuffer MsgUpdateParamsResponse_Unmarshal
    fileDescriptor_2608651a4feede70 1.

Definition MsgMint_methods : go_methods MsgMint :=
  generated_methods (d_empty MsgMint_desc) MsgMint_Size MsgMint_MarshalToSizedBuffer
    MsgMint_Unmarshal fileDescriptor_2608651a4feede70 2.
Definition MsgMint_GetAmount (m : option MsgMint) : string :=
  match m with Some m => MsgMint_Amount m | None => EmptyString end.
Definition MsgMint_GetMinter (m : option MsgMint) : string :=
  match m with Some m => MsgMint_Minter m | None => EmptyString end.

Definition MsgMintResponse_methods : go_methods MsgMintResponse :=
  generated_methods (d_empty MsgMintResponse_desc) MsgMintResponse_Size
    MsgMintResponse_MarshalToSizedBuffer MsgMintResponse_Unmarshal fileDescriptor_2608651a4feede70
    3.

(** ** x/distro/types/query.pb.go *)

Definition QueryParamsRequest_methods : go_methods QueryParamsRequest :=
  generated_methods (d_empty QueryParamsRequest_desc) QueryParamsRequest_Size
    QueryParamsRequest_MarshalToSizedBuffer QueryParamsRequest_Unmarshal
    fileDescriptor_b7e3e1b7748b0bb4 0.

Definition QueryParamsResponse_methods : go_methods QueryParamsResponse :=
  generated_methods (d_empty QueryParamsResponse_desc) QueryParamsResponse_Size
    QueryParamsResponse_MarshalToSizedBuffer QueryParamsResponse_Unmarshal
    fileDescriptor_b7e3e1b7748b0bb4 1.
Definition QueryParamsResponse_GetParams (m : option QueryParamsResponse) : option Params :=
  match m with Some m => QueryParamsResponse_Params m | None => None end.

(** ** x/distro/types/state.pb.go *)

Definition ExampleData_methods : go_methods ExampleData :=
  generated_methods (d_empty ExampleData_desc) ExampleData_Size ExampleData_MarshalToSizedBuffer
    ExampleData_Unmarshal fileDescriptor_263e8e2c78e904c8 0.
Definition ExampleData_GetAccount (m : option ExampleData) : bytes :=
  match m with Some m => ExampleData_Account m | None => [] end.
Definition ExampleData_GetAmount (m : option ExampleData) : Z :=
  match m with Some m => ExampleData_Amount m | None => 0 end.

(** All of them. *)
Definition go_messages : list go_message :=
  [MkGoMessage (MkPbMessage Lock_desc Lock_PtrSize Lock_Marshal Lock_MarshalTo Lock_Merge)
       Lock_methods [existT _ Lock_GetUnlockDate];
   MkGoMessage (MkPbMessage Locks_desc LocksMsg_Size LocksMsg_Marshal LocksMsg_MarshalTo
       LocksMsg_Unmarshal) Locks_methods [existT _ Locks_GetLocks];
   MkGoMessage (MkPbMessage Extension_desc Extension_Size Extension_Marshal Extension_MarshalTo
       Extension_Unmarshal) Extension_methods [existT _ Extension_GetFromDate; existT _
       Extension_GetToDate; existT _ Extension_GetAmount];
   MkGoMessage (MkPbMessage MultiSendDelegateAndLockOutput_desc MultiSendDelegateAndLockOutput_Size
       MultiSendDelegateAndLockOutput_Marshal MultiSendDelegateAndLockOutput_MarshalTo
       MultiSendDelegateAndLockOutput_Unmarshal) MultiSendDelegateAndLockOutput_methods [existT _
       MultiSendDelegateAndLockOutput_GetFromAddress; existT _
       MultiSendDelegateAndLockOutput_GetToAddress; existT _
       MultiSendDelegateAndLockOutput_GetValidatorAddress; existT _
       MultiSendDelegateAndLockOutput_GetUnlockDate; existT _
       MultiSendDelegateAndLockOutput_GetAmount];
   MkGoMessage (MkPbMessage LockupGenesisState_desc LockupGenesisState_Size
       LockupGenesisState_Marshal LockupGenesisState_MarshalTo LockupGenesisState_Unmarshal)
       LockupGenesisState_methods [];
   MkGoMessage (MkPbMessage MsgLock_desc MsgLock_Size MsgLock_Marshal MsgLock_MarshalTo
       MsgLock_Unmarshal) MsgLock_methods [existT _ MsgLock_GetAddress; existT _
       MsgLock_GetUnlockDate; existT _ MsgLock_GetAmount];
   MkGoMessage (MkPbMessage MsgLockResponse_desc MsgLockResponse_Size MsgLockResponse_Marshal
       MsgLockResponse_MarshalTo MsgLockResponse_Unmarshal) MsgLockResponse_methods [];
   MkGoMessage (MkPbMessage MsgExtend_desc MsgExtend_Size MsgExtend_Marshal MsgExtend_MarshalTo
       MsgExtend_Unmarshal) MsgExtend_methods [existT _ MsgExtend_GetAddress; existT _
       MsgExtend_GetExtensions];
   MkGoMessage (MkPbMessage MsgExtendResponse_desc MsgExtendResponse_Size MsgExtendResponse_Marshal
       MsgExtendResponse_MarshalTo MsgExtendResponse_Unmarshal) MsgExtendResponse_methods [];
   MkGoMessage (MkPbMessage MsgSendDelegateAndLock_desc MsgSendDelegateAndLock_Size
       MsgSendDelegateAndLock_Marshal MsgSendDelegateAndLock_MarshalTo
       MsgSendDelegateAndLock_Unmarshal) MsgSendDelegateAndLock_methods [existT _
       MsgSendDelegateAndLock_GetFromAddress; existT _ MsgSendDelegateAndLock_GetToAddress; existT
       _ MsgSendDelegateAndLock_GetValidatorAddress; existT _
       MsgSendDelegateAndLock_GetUnlockDate; existT _ MsgSendDelegateAndLock_GetAmount];
   MkGoMessage (MkPbMessage MsgSendDelegateAndLockResponse_desc MsgSendDelegateAndLockResponse_Size
       MsgSendDelegateAndLockResponse_Marshal MsgSendDelegateAndLockResponse_MarshalTo
       MsgSendDelegateAndLockResponse_Unmarshal) MsgSendDelegateAndLockResponse_methods [];
   MkGoMessage (MkPbMessage MsgMultiSendDelegateAndLock_desc MsgMultiSendDelegateAndLock_Size
       MsgMultiSendDelegateAndLock_Marshal MsgMultiSendDelegateAndLock_MarshalTo
       MsgMultiSendDelegateAndLock_Unmarshal) MsgMultiSendDelegateAndLock_methods [existT _
       MsgMultiSendDelegateAndLock_GetFromAddress; existT _
       MsgMultiSendDelegateAndLock_GetTotalAmount; existT _
       MsgMultiSendDelegateAndLock_GetOutputs];
   MkGoMessage (MkPbMessage MsgMultiSendDelegateAndLockResponse_desc
       MsgMultiSendDelegateAndLockResponse_Size MsgMultiSendDelegateAndLockResponse_Marshal
       MsgMultiSendDelegateAndLockResponse_MarshalTo
       MsgMultiSendDelegateAndLockResponse_Unmarshal) MsgMultiSendDelegateAndLockResponse_methods
       [];
   MkGoMessage (MkPbMessage QueryActiveLocksRequest_desc QueryActiveLocksRequest_Size
       QueryActiveLocksRequest_Marshal QueryActiveLocksRequest_MarshalTo
       QueryActiveLocksRequest_Unmarshal) QueryActiveLocksRequest_methods [existT _
       QueryActiveLocksRequest_GetPagination];
   MkGoMessage (MkPbMessage QueryActiveLocksResponse_desc QueryActiveLocksResponse_Size
       QueryActiveLocksResponse_Marshal QueryActiveLocksResponse_MarshalTo
       QueryActiveLocksResponse_Unmarshal) QueryActiveLocksResponse_methods [existT _
       QueryActiveLocksResponse_GetLocks; existT _ QueryActiveLocksResponse_GetPagination];
   MkGoMessage (MkPbMessage ActiveLockResource_desc ActiveLockResource_Size
       ActiveLockResource_Marshal ActiveLockResource_MarshalTo ActiveLockResource_Unmarshal)
       ActiveLockResource_methods [existT _ ActiveLockResource_GetAddress; existT _
       ActiveLockResource_GetUnlockDate; existT _ ActiveLockResource_GetAmount];
   MkGoMessage (MkPbMessage QueryTotalLockedAmountRequest_desc QueryTotalLockedAmountRequest_Size
       QueryTotalLockedAmountRequest_Marshal QueryTotalLockedAmountRequest_MarshalTo
       QueryTotalLockedAmountRequest_Unmarshal) QueryTotalLockedAmountRequest_methods [];
   MkGoMessage (MkPbMessage QueryTotalLockedAmountResponse_desc QueryTotalLockedAmountResponse_Size
       QueryTotalLockedAmountResponse_Marshal QueryTotalLockedAmountResponse_MarshalTo
       QueryTotalLockedAmountResponse_Unmarshal) QueryTotalLockedAmountResponse_methods [existT _
       QueryTotalLockedAmountResponse_GetTotalLocked];
   MkGoMessage (MkPbMessage QueryAccountLocksRequest_desc QueryAccountLocksRequest_Size
       QueryAccountLocksRequest_Marshal QueryAccountLocksRequest_MarshalTo
       QueryAccountLocksRequest_Unmarshal) QueryAccountLocksRequest_methods [existT _
       QueryAccountLocksRequest_GetAddresses; existT _ QueryAccountLocksRequest_GetPagination];
   MkGoMessage (MkPbMessage QueryAccountLocksResponse_desc QueryAccountLocksResponse_Size
       QueryAccountLocksResponse_Marshal QueryAccountLocksResponse_MarshalTo
       QueryAccountLocksResponse_Unmarshal) QueryAccountLocksResponse_methods [existT _
       QueryAccountLocksResponse_GetAccounts; existT _ QueryAccountLocksResponse_GetPagination];
   MkGoMessage (MkPbMessage AccountLocksResource_desc AccountLocksResource_Size
       AccountLocksResource_Marshal AccountLocksResource_MarshalTo AccountLocksResource_Unmarshal)
       AccountLocksResource_methods [existT _ AccountLocksResource_GetAddress; existT _
       AccountLocksResource_GetLocks];
   MkGoMessage (MkPbMessage LockResource_desc LockResource_Size LockResource_Marshal
       LockResource_MarshalTo LockResource_Unmarshal) LockResource_methods [existT _
       LockResource_GetUnlockDate; existT _ LockResource_GetAmount];
   MkGoMessage (MkPbMessage QueryLocksRequest_desc QueryLocksRequest_Size QueryLocksRequest_Marshal
       QueryLocksRequest_MarshalTo QueryLocksRequest_Unmarshal) QueryLocksRequest_methods [existT
       _ QueryLocksRequest_GetAddress; existT _ QueryLocksRequest_GetPagination];
   MkGoMessage (MkPbMessage QueryLocksResponse_desc QueryLocksResponse_Size
       QueryLocksResponse_Marshal QueryLocksResponse_MarshalTo QueryLocksResponse_Unmarshal)
       QueryLocksResponse_methods [existT _ QueryLocksResponse_GetLocks; existT _
       QueryLocksResponse_GetPagination];
   MkGoMessage (MkPbMessage DistroGenesisState_desc DistroGenesisState_Size
       DistroGenesisState_Marshal DistroGenesisState_MarshalTo DistroGenesisState_Unmarshal)
       DistroGenesisState_methods [existT _ DistroGenesisState_GetParams];
   MkGoMessage (MkPbMessage Params_desc Params_Size Params_Marshal Params_MarshalTo Params_Unmarshal)
       Params_methods [existT _ Params_GetMintingAddress; existT _ Params_GetReceivingAddress;
       existT _ Params_GetDenom; existT _ Params_GetMaxSupply; existT _
       Params_GetDistributionStartDate; existT _ Params_GetMonthsInHalvingPeriod];
   MkGoMessage (MkPbMessage MsgUpdateParams_desc MsgUpdateParams_Size MsgUpdateParams_Marshal
       MsgUpdateParams_MarshalTo MsgUpdateParams_Unmarshal) MsgUpdateParams_methods [existT _
       MsgUpdateParams_GetAuthority; existT _ MsgUpdateParams_GetParams];
   MkGoMessage (MkPbMessage MsgUpdateParamsResponse_desc MsgUpdateParamsResponse_Size
       MsgUpdateParamsResponse_Marshal MsgUpdateParamsResponse_MarshalTo
       MsgUpdateParamsResponse_Unmarshal) MsgUpdateParamsResponse_methods [];
   MkGoMessage (MkPbMessage MsgMint_desc MsgMint_Size MsgMint_Marshal MsgMint_MarshalTo
       MsgMint_Unmarshal) MsgMint_methods [existT _ MsgMint_GetAmount; existT _ MsgMint_GetMinter];
   MkGoMessage (MkPbMessage MsgMintResponse_desc MsgMintResponse_Size MsgMintResponse_Marshal
       MsgMintResponse_MarshalTo MsgMintResponse_Unmarshal) MsgMintResponse_methods [];
   MkGoMessage (MkPbMessage QueryParamsRequest_desc QueryParamsRequest_Size
       QueryParamsRequest_Marshal QueryParamsRequest_MarshalTo QueryParamsRequest_Unmarshal)
       QueryParamsRequest_methods [];
   MkGoMessage (MkPbMessage QueryParamsResponse_desc QueryParamsResponse_Size
       QueryParamsResponse_Marshal QueryParamsResponse_MarshalTo QueryParamsResponse_Unmarshal)
       QueryParamsResponse_methods [existT _ QueryParamsResponse_GetParams];
   MkGoMessage (MkPbMessage ExampleData_desc ExampleData_Size ExampleData_Marshal
       ExampleData_MarshalTo ExampleData_Unmarshal) ExampleData_methods [existT _
       ExampleData_GetAccount; existT _ ExampleData_GetAmount]].
End Messages.
