(* ===== verification/WireAgree.v ===== *)
(** The two generated encodings agree: what a client writes with the API packages
    is what the node writes with the types packages, byte for byte, so the node's
    decoder reads a client's message as the client built it. *)

From stdpp Require Import base list strings.
From Stdlib Require Import ZArith Lia.
From Stdlib.Init Require Import Byte.
From S2P Require Import Prelude Sdk LockPb LockupMsgs LockupQuery Modules Distro ProtoTable ProtoTableProps Pulsar PulsarProps ApiLockup ApiDistro ApiProps Gogo TypesLockup TypesDistro GogoProps.

Local Open Scope Z_scope.

(** The Coin of the API packages and the one of the SDK have the same encoding. *)
Class CoinsAgree `{ApiExternal} `{GogoExternal} := coin_of : ApiCoin -> Coin.
Class CoinsAgreeLaws `{CoinsAgree} : Prop := {
  coin_of_wf a : c_wf Coin_codec a -> c_wf Coin_pb (coin_of a);
  coin_of_bytes a : c_wf Coin_codec a -> c_marshal Coin_codec a = c_marshal Coin_pb (coin_of a);
  coin_of_size a : c_wf Coin_codec a -> c_size Coin_codec a = c_size Coin_pb (coin_of a);
}.

(** * Equal tables write equal bytes *)

Section Same.
Context {R1 : WireRuntime} {L1 : WireLaws} {V1 : StandardVarint}.

Lemma delimited_same tag bz : delimited (H := R1) tag bz = delimited (H := gogo_helpers) tag bz.
Proof. unfold delimited. rewrite EncodeVarint_standard by apply uint64_range. done. Qed.

Lemma len_size_same l : len_size (H := R1) l = len_size (H := gogo_helpers) l.
Proof. unfold len_size. rewrite Sov_standard by apply uint64_range. done. Qed.

(** Two messages their codecs write alike. *)
Definition same {M N} (c : Codec M) (c' : Codec N) (m : M) (n : N) : Prop :=
  c_marshal c m = c_marshal c' n /\ c_size c m = c_size c' n.

Lemma rep_same {M N} (c : Codec M) (c' : Codec N) tag l k :
  Forall2 (fun a b => exists m n, a = Some m /\ b = Some n /\ same c c' m n) l k ->
  rep_bytes (H := R1) c tag l = rep_bytes (H := gogo_helpers) c' tag k /\
  rep_size (H := R1) c l = rep_size (H := gogo_helpers) c' k.
Proof.
  induction 1 as [|a b l k (m & n & -> & -> & Em & Es) _ [IH1 IH2]]; [done|].
  cbn [rep_bytes elem_marshal rep_size foldr elem_size]. fold (rep_size (H := R1) c l) (rep_size (H := gogo_helpers) c' k).
  rewrite IH1, IH2, Em, Es, len_size_same. split; [|done].
  destruct (rep_bytes c' tag k); [|done..]. cbn [mbind outcome_bind].
  destruct (c_marshal c' n); [|done..]. cbn [mbind outcome_bind]. by rewrite delimited_same.
Qed.

(** A field of an API message and the field of the types package. *)
Definition field_same {T U} (x : T) (y : U) (fd : field T) (fd' : field U) : Prop :=
  field_tag fd = field_tag fd' /\
  kind_bytes (H := R1) (f_kind fd) (field_tag fd) (f_get fd x)
  = kind_bytes (H := gogo_helpers) (f_kind fd') (field_tag fd') (f_get fd' y) /\
  kind_size (H := R1) (f_kind fd) (f_get fd x) = kind_size (H := gogo_helpers) (f_kind fd') (f_get fd' y).

Lemma table_same {T U} (d : Desc T) (d' : Desc U) x y :
  d_unknown d x = [] -> d_unknown d' y = [] -> Forall2 (field_same x y) (d_fields d) (d_fields d') ->
  fields_bytes (H := R1) d (d_fields d) x = fields_bytes (H := gogo_helpers) d' (d_fields d') y /\
  Size (H := R1) d x = Size (H := gogo_helpers) d' y.
Proof.
  intros Ux Uy. unfold Size. rewrite Ux, Uy. generalize (d_fields d) (d_fields d').
  induction 1 as [|fd fd' fs fs' (Et & Eb & Es) _ [IH1 IH2]].
  - cbn [fields_bytes]. by rewrite Ux, Uy.
  - cbn [fields_bytes foldr]. by rewrite IH1, IH2, Eb, Es.
Qed.

(** So an API message is written like the message of the types package. *)
Lemma desc_same {T U} (d : Desc T) (d' : Desc U) x y :
  desc_ok d -> desc_wf d x -> Size (H := R1) d x < 2 ^ 60 -> d_unknown d' y = [] ->
  Forall2 (field_same x y) (d_fields d) (d_fields d') ->
  same (desc_codec d) (pb_codec gogo_helpers d') x y.
Proof.
  intros O W B Uy F. destruct (table_same d d' x y (proj1 W) Uy F) as [Eb Es].
  destruct (table_exact d O x W B) as (buf & E & L & _). split; [|done].
  cbn [c_marshal desc_codec pb_codec]. unfold Marshal, pb_MarshalToSizedBuffer.
  rewrite <- Eb, E. cbn [mbind outcome_bind]. rewrite <- L. apply filled_exact.
Qed.
End Same.

(** * Fields *)

Section Fields.
Context {R1 : WireRuntime} {L1 : WireLaws} {V1 : StandardVarint}.
Context {T U : Type} (x : T) (y : U) (num : Z) (name name' go go' : string).

Lemma string_same get set get' set' : get x = get' y ->
  field_same x y (MkField KString num name go get set) (MkField KString num name' go' get' set').
Proof.
  intros E. unfold field_same. cbn [f_kind f_get kind_bytes kind_size]. rewrite E.
  change (field_tag (MkField KString num name' go' get' set'))
    with (field_tag (MkField KString num name go get set)).
  split; [done|]. by rewrite delimited_same, len_size_same.
Qed.

Lemma uint64_same get set get' set' : get x = get' y ->
  field_same x y (MkField KUint64 num name go get set) (MkField KUint64 num name' go' get' set').
Proof.
  intros E. unfold field_same. cbn [f_kind f_get kind_bytes kind_size]. rewrite E.
  rewrite EncodeVarint_standard, Sov_standard by apply uint64_range. done.
Qed.

(** A pointer in the API package, a value in the types package. *)
Lemma message_same {M N} (c : Codec M) (c' : Codec N) get set get' set' m :
  get x = Some m -> same c c' m (get' y) ->
  field_same x y (MkField (KMsg c) num name go get set) (MkField (KVal c') num name' go' get' set').
Proof.
  intros E [Em Es]. unfold field_same. cbn [f_kind f_get kind_bytes kind_size]. rewrite E, Em, Es.
  change (field_tag (MkField (KVal c') num name' go' get' set'))
    with (field_tag (MkField (KMsg c) num name go get set)).
  rewrite len_size_same. split; [done|]. split; [|done].
  destruct (c_marshal c' (get' y)); [|done..]. cbn [mbind outcome_bind]. by rewrite delimited_same.
Qed.

Lemma repeated_same {M N} (c : Codec M) (c' : Codec N) get set get' set' :
  Forall2 (fun a b => exists m n, a = Some m /\ b = Some n /\ same c c' m n) (get x) (get' y) ->
  field_same x y (MkField (KRep c) num name go get set) (MkField (KRep c') num name' go' get' set').
Proof.
  intros F. unfold field_same. cbn [f_kind f_get kind_bytes kind_size].
  change (field_tag (MkField (KRep c') num name' go' get' set'))
    with (field_tag (MkField (KRep c) num name go get set)).
  destruct (rep_same c c' (field_tag (MkField (KRep c) num name go get set)) _ _ F) as [-> ->]. done.
Qed.
End Fields.

(** The node reads the bytes of a client's message. *)
Lemma node_reads_intro {R1 : WireRuntime} {L1 : WireLaws} {V1 : StandardVarint} {T U}
    (d : Desc T) (d' : Desc U) x y :
  desc_ok d -> desc_ok d' -> desc_wf d x -> Size d x < 2 ^ 60 -> desc_wf d' y ->
  Forall2 (field_same x y) (d_fields d) (d_fields d') ->
  exists bz, ProtoMethods_Marshal d (Some x) [] = Ok bz /\ pb_Marshal gogo_helpers d' y = Ok bz /\
    pb_Unmarshal gogo_helpers d' (d_empty d') bz = Ok y.
Proof.
  intros O O' W B W' F. pose proof gogo_helpers_laws.
  destruct (desc_same d d' x y O W B (proj1 W') F) as [Em Es].
  cbn [c_marshal c_size desc_codec pb_codec] in Em, Es. rewrite Es in B.
  destruct (table_exact (H := gogo_helpers) d' O' y W' B) as (bz & E & L & Un). exists bz.
  cbn [ProtoMethods_Marshal]. rewrite Em. unfold pb_Marshal, pb_Unmarshal, pb_MarshalToSizedBuffer in *.
  rewrite E. cbn [mbind outcome_bind]. rewrite <- L. split; [done|]. split; [apply sized_buffer_exact|].
  apply Un.
Qed.

(** [desc_wf] field by field. *)
Ltac split_wf W :=
  let U := fresh "U" in
  destruct W as [U W];
  match type of W with Forall ?P ?l => let l' := eval hnf in l in change (Forall P l') in W end;
  repeat match type of W with
    Forall _ (_ :: _) => let W1 := fresh "W" in
      apply Forall_cons in W as [W1 W]; cbn beta in W1;
      match type of W1 with kind_wf (f_kind ?fd) _ =>
        let fd' := eval hnf in fd in change fd with fd' in W1 end;
      cbn [f_kind f_get kind_wf] in W1 end.

(** The coin (or message) a pointer field holds is exact. *)
Ltac held E K :=
  match type of E with ?o = Some _ =>
    match goal with W : match o with Some _ => _ | None => True end |- _ => rewrite E in W; rename W into K end
  end.
Ltac wf_fields := split; [done|]; repeat (apply Forall_cons; split; [try exact I|]); try by apply Forall_nil.

(** Fields with equal scalars; the others are left. *)
Ltac scalars_same :=
  match goal with |- Forall2 ?P ?l ?k =>
    let l := eval hnf in l in let k := eval hnf in k in change (Forall2 P l k) end;
  repeat apply List.Forall2_cons; try apply List.Forall2_nil;
  try (apply string_same; reflexivity); try (apply uint64_same; reflexivity).

(** * The transaction messages *)

Section Transactions.
Context {R1 : WireRuntime} {L1 : WireLaws} {V1 : StandardVarint}.
Context `{EL : ApiExternalLaws} `{GL : GogoExternalLaws} `{!CoinsAgree} `{!CoinsAgreeLaws}.

(** The message of the types package a client's message stands for; a client
    message without its coin stands for none. *)
Definition Extension_of (e : api_Extension) : option Extension :=
  a ← api_Extension_Amount e;
  Some (MkExtension (api_Extension_FromDate e) (api_Extension_ToDate e) (coin_of a)).
Definition Output_of (o : api_MultiSendDelegateAndLockOutput) : option MultiSendDelegateAndLockOutput :=
  a ← api_MultiSendDelegateAndLockOutput_Amount o;
  Some (MkOutput (api_MultiSendDelegateAndLockOutput_FromAddress o)
    (api_MultiSendDelegateAndLockOutput_ToAddress o)
    (api_MultiSendDelegateAndLockOutput_ValidatorAddress o)
    (api_MultiSendDelegateAndLockOutput_UnlockDate o) (coin_of a)).
Definition MsgLock_of (x : api_MsgLock) : option MsgLock :=
  a ← api_MsgLock_Amount x;
  Some (MkMsgLock (api_MsgLock_Address x) (api_MsgLock_UnlockDate x) (coin_of a)).
Definition MsgExtend_of (x : api_MsgExtend) : option MsgExtend :=
  es ← mapM (fun e => e ≫= Extension_of) (api_MsgExtend_Extensions x);
  Some (MkMsgExtend (api_MsgExtend_Address x) (map Some es)).
Definition MsgSendDelegateAndLock_of (x : api_MsgSendDelegateAndLock) : option MsgSendDelegateAndLock :=
  a ← api_MsgSendDelegateAndLock_Amount x;
  Some (MkMsgSendDelegateAndLock (api_MsgSendDelegateAndLock_FromAddress x)
    (api_MsgSendDelegateAndLock_ToAddress x) (api_MsgSendDelegateAndLock_ValidatorAddress x)
    (api_MsgSendDelegateAndLock_UnlockDate x) (coin_of a)).
Definition MsgMulti_of (x : api_MsgMultiSendDelegateAndLock) : option MsgMultiSendDelegateAndLock :=
  t ← api_MsgMultiSendDelegateAndLock_TotalAmount x;
  os ← mapM (fun o => o ≫= Output_of) (api_MsgMultiSendDelegateAndLock_Outputs x);
  Some (MkMsgMultiSendDelegateAndLock (api_MsgMultiSendDelegateAndLock_FromAddress x) (coin_of t)
    (map Some os)).
Definition MsgMint_of (x : api_MsgMint) : MsgMint :=
  MkMsgMint (api_MsgMint_Amount x) (api_MsgMint_Minter x).
Definition Params_of (p : api_Params) : Params :=
  MkParams (api_Params_MintingAddress p) (api_Params_ReceivingAddress p) (api_Params_Denom p)
    (api_Params_MaxSupply p) (api_Params_DistributionStartDate p) (api_Params_MonthsInHalvingPeriod p).
Definition MsgUpdateParams_of (x : api_MsgUpdateParams) : option MsgUpdateParams :=
  p ← api_MsgUpdateParams_Params x;
  Some (MkMsgUpdateParams (api_MsgUpdateParams_Authority x) (Params_of p)).

Lemma coin_same a : c_wf Coin_codec a -> same Coin_codec Coin_pb a (coin_of a).
Proof. intros W. split; [by apply coin_of_bytes|by apply coin_of_size]. Qed.

Lemma Extension_same e e' :
  desc_wf api_Extension_desc e -> Size api_Extension_desc e < 2 ^ 60 -> Extension_of e = Some e' ->
  same (desc_codec api_Extension_desc) Extension_codec e e' /\ desc_wf Extension_desc e'.
Proof.
  intros W B. pose proof W as W'. split_wf W'. intros (a & E & [= <-])%bind_Some. held E K. split.
  - apply desc_same; [apply api_Extension_ok|done|done|done|].
    scalars_same. eapply message_same; [exact E|]. by apply (coin_same a).
  - wf_fields. exact (coin_of_wf a K).
Qed.

Lemma Output_same o o' :
  desc_wf api_MultiSendDelegateAndLockOutput_desc o ->
  Size api_MultiSendDelegateAndLockOutput_desc o < 2 ^ 60 -> Output_of o = Some o' ->
  same (desc_codec api_MultiSendDelegateAndLockOutput_desc) MultiSendDelegateAndLockOutput_codec o o' /\
  desc_wf MultiSendDelegateAndLockOutput_desc o'.
Proof.
  intros W B. pose proof W as W'. split_wf W'. intros (a & E & [= <-])%bind_Some. held E K. split.
  - apply desc_same; [apply api_Output_ok|done|done|done|].
    scalars_same. eapply message_same; [exact E|]. by apply (coin_same a).
  - wf_fields. exact (coin_of_wf a K).
Qed.

Lemma Params_same p :
  desc_wf api_Params_desc p -> Size api_Params_desc p < 2 ^ 60 ->
  same (desc_codec api_Params_desc) Params_codec p (Params_of p) /\ desc_wf Params_desc (Params_of p).
Proof.
  intros W B. pose proof W as W'. split_wf W'. split.
  - apply desc_same; [apply api_Params_ok|done|done|done|].
    scalars_same.
  - by wf_fields.
Qed.

(** A repeated field, element by element. *)
Lemma elements_same {M N} (d : Desc M) (c' : Codec N) (f : M -> option N) l k :
  desc_ok d ->
  (forall m n, desc_wf d m -> Size d m < 2 ^ 60 -> f m = Some n -> same (desc_codec d) c' m n /\ c_wf c' n) ->
  Forall (fun e => exists m, e = Some m /\ c_wf (desc_codec d) m) l -> rep_size (desc_codec d) l < 2 ^ 60 ->
  mapM (fun e => e ≫= f) l = Some k ->
  Forall2 (fun a b => exists m n, a = Some m /\ b = Some n /\ same (desc_codec d) c' m n) l (map Some k) /\
  Forall (fun e => exists m, e = Some m /\ c_wf c' m) (map Some k).
Proof.
  intros O F W B E%mapM_Some_1.
  assert (forall e n, e ∈ l -> (e ≫= f) = Some n ->
    exists m, e = Some m /\ same (desc_codec d) c' m n /\ c_wf c' n) as Each.
  { intros e n I (m & -> & Ef)%bind_Some. exists m. split; [done|].
    pose proof (rep_size_elem (desc_codec d) l (Some m) (desc_codec_lawful d O) W I) as Le.
    rewrite Forall_forall in W. destruct (W _ I) as (m' & [= <-] & Wm). apply F; [done| |done].
    cbn [elem_size c_size desc_codec] in Le. lia. }
  clear W B F. induction E as [|e n l k En E IH]; cbn [map]; [split; constructor|].
  destruct (Each e n) as (m & -> & S & Wn); [left|done|].
  destruct IH as [IH1 IH2]; [intros; apply Each; [by right|done]|]. split; constructor; eauto 6.
Qed.
(** The size of one field, by its place in the table. *)
Lemma api_field_size {T} (d : Desc T) x (i : nat) fd :
  desc_ok d -> desc_wf d x -> Size d x < 2 ^ 60 -> d_fields d !! i = Some fd ->
  kind_size (f_kind fd) (f_get fd x) < 2 ^ 60.
Proof.
  intros O [_ W] B F%list_elem_of_lookup_2.
  pose proof (kind_size_le d (d_fields d) x fd (ok_kinds d O) W F) as L.
  change (fields_size d (d_fields d) x) with (Size d x) in L. lia.
Qed.

(** A client's message [x] that stands for [m]: both packages write it to the same
    bytes, and the node decodes them to [m]. *)
Definition node_reads {A B} (d : Desc A) (marshal : option A -> bytes -> outcome bytes)
    (of_api : A -> option B) (Marshal : B -> outcome bytes) (Unmarshal : B -> bytes -> outcome B)
    (zero : B) : Prop :=
  forall x m, desc_wf d x -> Size d x < 2 ^ 60 -> of_api x = Some m ->
    exists bz, marshal (Some x) [] = Ok bz /\ Marshal m = Ok bz /\ Unmarshal zero bz = Ok m.

(** The tables are well formed; what is left are the node's message and the fields. *)
Ltac read_by_tables := apply node_reads_intro; [solve_desc_ok|solve_desc_ok|done|done| |].

Lemma MsgLock_read :
  node_reads api_MsgLock_desc api_MsgLock_marshal MsgLock_of MsgLock_Marshal MsgLock_Unmarshal
    (d_empty MsgLock_desc).
Proof.
  intros x m W B. pose proof W as W'. split_wf W'. intros (a & E & [= <-])%bind_Some. held E K.
  read_by_tables; [wf_fields; exact (coin_of_wf a K)|].
  scalars_same. eapply message_same; [exact E|]. by apply (coin_same a).
Qed.

Lemma MsgSendDelegateAndLock_read :
  node_reads api_MsgSendDelegateAndLock_desc api_MsgSendDelegateAndLock_marshal
    MsgSendDelegateAndLock_of MsgSendDelegateAndLock_Marshal MsgSendDelegateAndLock_Unmarshal
    (d_empty MsgSendDelegateAndLock_desc).
Proof.
  intros x m W B. pose proof W as W'. split_wf W'. intros (a & E & [= <-])%bind_Some. held E K.
  read_by_tables; [wf_fields; exact (coin_of_wf a K)|].
  scalars_same. eapply message_same; [exact E|]. by apply (coin_same a).
Qed.

Lemma MsgExtend_read :
  node_reads api_MsgExtend_desc api_MsgExtend_marshal MsgExtend_of MsgExtend_Marshal
    MsgExtend_Unmarshal (d_empty MsgExtend_desc).
Proof.
  intros x m W B. pose proof W as W'. split_wf W'. intros (es & E & [= <-])%bind_Some.
  destruct (elements_same api_Extension_desc Extension_codec Extension_of _ es api_Extension_ok Extension_same
    W1) as [Es Ws]; [|done|].
  { exact (api_field_size api_MsgExtend_desc x 1 _ ltac:(solve_desc_ok) W B eq_refl). }
  read_by_tables; [wf_fields; exact Ws|]. scalars_same. by apply repeated_same.
Qed.

Lemma MsgMulti_read :
  node_reads api_MsgMultiSendDelegateAndLock_desc api_MsgMultiSendDelegateAndLock_marshal MsgMulti_of
    MsgMultiSendDelegateAndLock_Marshal MsgMultiSendDelegateAndLock_Unmarshal
    (d_empty MsgMultiSendDelegateAndLock_desc).
Proof.
  intros x m W B. pose proof W as W'. split_wf W'.
  intros (a & E & (os & Eo & [= <-])%bind_Some)%bind_Some. held E K.
  destruct (elements_same api_MultiSendDelegateAndLockOutput_desc MultiSendDelegateAndLockOutput_codec
    Output_of _ os api_Output_ok Output_same W2) as [Es Ws]; [|done|].
  { exact (api_field_size api_MsgMultiSendDelegateAndLock_desc x 2 _ ltac:(solve_desc_ok) W B eq_refl). }
  read_by_tables; [wf_fields; [exact (coin_of_wf a K)|exact Ws]|]. scalars_same; [|by apply repeated_same].
  eapply message_same; [exact E|]. by apply (coin_same a).
Qed.

Lemma MsgMint_read :
  node_reads api_MsgMint_desc api_MsgMint_marshal (fun x => Some (MsgMint_of x)) MsgMint_Marshal
    MsgMint_Unmarshal (d_empty MsgMint_desc).
Proof. intros x m W B [= <-]. read_by_tables; [by wf_fields|scalars_same]. Qed.

Lemma MsgUpdateParams_read :
  node_reads api_MsgUpdateParams_desc api_MsgUpdateParams_marshal MsgUpdateParams_of
    MsgUpdateParams_Marshal MsgUpdateParams_Unmarshal (d_empty MsgUpdateParams_desc).
Proof.
  intros x m W B. pose proof W as W'. split_wf W'. intros (p & E & [= <-])%bind_Some.
  assert (Size api_Params_desc p < 2 ^ 60) as Bp.
  { pose proof (api_field_size api_MsgUpdateParams_desc x 1 _ ltac:(solve_desc_ok) W B eq_refl) as Bf.
    cbn [api_MsgUpdateParams_Params_field f_kind f_get kind_size] in Bf. rewrite E in Bf. cbn [c_size desc_codec] in Bf.
    pose proof (len_size_gt (Size api_Params_desc p)). lia. }
  held E K. destruct (Params_same p K Bp) as [Es Ws].
  read_by_tables; [wf_fields; exact Ws|]. scalars_same. by eapply message_same.
Qed.

(** C29 A client and the node agree on every transaction message of
    both modules: the bytes the API package writes for a message are the bytes the
    types package writes for the message it stands for, and the node decodes them
    to exactly that message. *)
Theorem node_reads_client_messages :
  node_reads api_MsgLock_desc api_MsgLock_marshal MsgLock_of
    MsgLock_Marshal MsgLock_Unmarshal (d_empty MsgLock_desc) /\
  node_reads api_MsgExtend_desc api_MsgExtend_marshal MsgExtend_of
    MsgExtend_Marshal MsgExtend_Unmarshal (d_empty MsgExtend_desc) /\
  node_reads api_MsgSendDelegateAndLock_desc api_MsgSendDelegateAndLock_marshal MsgSendDelegateAndLock_of
    MsgSendDelegateAndLock_Marshal MsgSendDelegateAndLock_Unmarshal (d_empty MsgSendDelegateAndLock_desc) /\
  node_reads api_MsgMultiSendDelegateAndLock_desc api_MsgMultiSendDelegateAndLock_marshal MsgMulti_of
    MsgMultiSendDelegateAndLock_Marshal MsgMultiSendDelegateAndLock_Unmarshal
    (d_empty MsgMultiSendDelegateAndLock_desc) /\
  node_reads api_MsgMint_desc api_MsgMint_marshal (fun x => Some (MsgMint_of x))
    MsgMint_Marshal MsgMint_Unmarshal (d_empty MsgMint_desc) /\
  node_reads api_MsgUpdateParams_desc api_MsgUpdateParams_marshal MsgUpdateParams_of
    MsgUpdateParams_Marshal MsgUpdateParams_Unmarshal (d_empty MsgUpdateParams_desc).
Proof.
  repeat split; [apply MsgLock_read|apply MsgExtend_read|apply MsgSendDelegateAndLock_read
    |apply MsgMulti_read|apply MsgMint_read|apply MsgUpdateParams_read].
Qed.
End Transactions.
