(* ===== verification/ApiRuns.v ===== *)
(** Runs of the API codecs: a concrete runtime package (the varint routines of
    lock.pb.go), concrete Coin and pagination messages, and the witnesses. *)

From stdpp Require Import base list strings.
From Stdlib Require Import ZArith Lia.
From Stdlib.Init Require Import Byte.
From S2P Require Import Prelude Sdk LockPb Testnet ProtoTable ProtoTableProps Pulsar PulsarProps ApiLockup ApiDistro ApiProps Gogo GogoProps.
Import Toy.

Local Open Scope Z_scope.

Module ApiToy.
#[export] Instance runtime : WireRuntime := gogo_helpers.
#[export] Instance runtime_laws : WireLaws := gogo_helpers_laws.
#[export] Instance runtime_standard : StandardVarint.
Proof. intros v V. done. Qed.

(** Coin as cosmos.base.v1beta1 declares it; the pagination messages without
    their fields. *)
Record coin := MkCoin { coin_denom : string; coin_amount : string; coin_unknown : bytes }.
Definition coin_desc : Desc coin :=
  MkDesc "cosmos.base.v1beta1.Coin" "Coin"
    [MkField KString 1 "denom" "Denom" coin_denom
       (fun v x => MkCoin v (coin_amount x) (coin_unknown x));
     MkField KString 2 "amount" "Amount" coin_amount
       (fun v x => MkCoin (coin_denom x) v (coin_unknown x))]
    (MkCoin "" "" []) coin_unknown (fun v x => MkCoin (coin_denom x) (coin_amount x) v).

Record page := MkPage { page_unknown : bytes }.
Definition page_desc : Desc page :=
  MkDesc "page" "Page" [] (MkPage []) page_unknown (fun v _ => MkPage v).

#[export] Instance toy_external : ApiExternal := {
  ApiCoin := coin; ApiPageRequest := page; ApiPageResponse := page;
  Coin_codec := desc_codec coin_desc;
  PageRequest_codec := desc_codec page_desc;
  PageResponse_codec := desc_codec page_desc;
}.

Lemma coin_ok : desc_ok coin_desc.
Proof. solve_desc_ok. Qed.
Lemma page_ok : desc_ok page_desc.
Proof. solve_desc_ok. Qed.

#[export] Instance toy_external_laws : ApiExternalLaws.
Proof. split; cbn; apply desc_codec_lawful; apply coin_ok || apply page_ok. Qed.

(** The table and the methods of MsgLock, by its place in the list. *)
Definition MsgLock_message : message :=
  MkMessage api_MsgLock_desc api_MsgLock_ProtoReflect api_MsgLock_messageType api_MsgLock_Reset
    [existT api_MsgLock_Address_field api_MsgLock_GetAddress;
     existT api_MsgLock_UnlockDate_field api_MsgLock_GetUnlockDate;
     existT api_MsgLock_Amount_field api_MsgLock_GetAmount]
    api_MsgLock_size api_MsgLock_marshal api_MsgLock_unmarshal.

Definition sample : api_MsgLock :=
  Mk_api_MsgLock "tsc1alice" "2026-01-01" (Some (MkCoin "atsc" "300" [])) [].

Example sample_bytes :
  m_marshal MsgLock_message (Some sample) []
  = Ok (x0a :: x09 :: bytes_of_string "tsc1alice" ++ x12 :: x0a :: bytes_of_string "2026-01-01"
        ++ x1a :: x0b :: x0a :: x04 :: bytes_of_string "atsc" ++ x12 :: x03 :: bytes_of_string "300").
Proof. vm_compute. reflexivity. Qed.

Lemma api_roundtrip_witness :
  exists bz, m_marshal MsgLock_message (Some sample) [x01] = Ok ([x01] ++ bz) /\
    zlen bz = m_size MsgLock_message (Some sample) /\
    forall discard, m_unmarshal MsgLock_message discard (Some (d_empty (m_desc MsgLock_message))) bz
      = Ok (Some sample).
Proof.
  apply (api_roundtrip MsgLock_message sample [x01]).
  - do 5 right. left.
  - split; [reflexivity|]. repeat (apply Forall_cons; split; [|]); try exact I; try apply Forall_nil; try exact I.
    split; [reflexivity|]. repeat (apply Forall_cons; split; [exact I|]). apply Forall_nil. exact I.
  - vm_compute. reflexivity.
Defined.

Lemma api_unmarshal_total_witness :
  returns (m_unmarshal MsgLock_message false (Some sample) [x0a; xff; x7f; x00]).
Proof.
  apply (api_unmarshal_total MsgLock_message false (Some sample)).
  - do 5 right. left.
  - vm_compute. reflexivity.
Defined.

Lemma api_reflection_witness :
  r_Range (m_ProtoReflect MsgLock_message) _ (fun fd _ names => (names ++ [f_name fd], true)) sample []
  = ["address"; "unlock_date"; "amount"].
Proof.
  refine (eq_trans (proj1 (proj2 (api_reflection MsgLock_message sample _))) _).
  - do 5 right. left.
  - vm_compute. reflexivity.
Defined.

Lemma api_locks_agree_witness :
  let ls := [MkLock "2026-01-01" 300; MkLock "" 7] in
  exists buf, Locks_Marshal (MkLocks ls) = Ok buf /\
    api_Locks_marshal (Some (api_of_locks ls)) [] = Ok buf /\
    api_Locks_size (Some (api_of_locks ls)) = Locks_Size (MkLocks ls) /\
    forall discard,
      api_Locks_unmarshal discard (Some (d_empty api_Locks_desc)) buf = Ok (Some (api_of_locks ls)).
Proof.
  apply (api_locks_agree [MkLock "2026-01-01" 300; MkLock "" 7]).
  - repeat constructor.
  - vm_compute. reflexivity.
Defined.
End ApiToy.
