(* ===== verification/GogoRuns.v ===== *)
(** Runs of the types packages' codecs: concrete Coin and pagination messages, a
    client's message read by the node, and the witnesses. *)

From stdpp Require Import base list strings.
From Stdlib Require Import ZArith Lia.
From Stdlib.Init Require Import Byte.
From S2P Require Import Prelude Sdk LockPb LockupMsgs LockupQuery Testnet Distro ProtoTable ProtoTableProps Pulsar PulsarProps ApiLockup ApiDistro ApiProps Gogo TypesLock TypesLockup TypesDistro GogoProps WireAgree ApiRuns.
Import Toy.

Local Open Scope Z_scope.

Module GogoToy.
Import ApiToy.

(** Coin of the SDK. *)
Definition Coin_desc : Desc Coin :=
  pb_desc "cosmos.base.v1beta1.Coin" "Coin"
    [MkField KString 1 "denom" "Denom" Denom (fun v m => NewCoinRec v (Amount m));
     MkField (KVal Int_codec) 2 "amount" "Amount" Amount (fun v m => NewCoinRec (Denom m) v)]
    (NewCoinRec "" 0).

Definition PageRequest_desc : Desc PageRequest :=
  pb_desc "cosmos.base.query.v1beta1.PageRequest" "PageRequest"
    [MkField KBytes 1 "key" "Key" Page_Key (fun v m => MkPageRequest v (Page_Offset m) (Page_Limit m));
     MkField KUint64 2 "offset" "Offset" Page_Offset (fun v m => MkPageRequest (Page_Key m) v (Page_Limit m));
     MkField KUint64 3 "limit" "Limit" Page_Limit (fun v m => MkPageRequest (Page_Key m) (Page_Offset m) v)]
    (MkPageRequest [] 0 0).

(** An empty page response. *)
Definition PageResponse_codec : Codec PageResponse :=
  MkCodec (MkPageResponse None 0) (fun _ => 0) (fun _ => Ok []) (Ok []) (fun _ m _ => Ok m)
    (fun m => m = MkPageResponse None 0).

#[export] Instance toy_gogo : GogoExternal := {
  Coin_pb := pb_codec gogo_helpers Coin_desc;
  PageRequest_pb := pb_codec gogo_helpers PageRequest_desc;
  PageResponse_pb := PageResponse_codec;
}.

#[local] Hint Resolve toy_math_laws Int_codec_lawful : codecs.
Lemma Coin_desc_ok : desc_ok Coin_desc.
Proof. solve_desc_ok. Qed.

#[export] Instance toy_gogo_laws : GogoExternalLaws.
Proof.
  split; cbn [Coin_pb PageRequest_pb PageResponse_pb toy_gogo].
  - apply pb_codec_lawful; [apply gogo_helpers_laws|apply Coin_desc_ok].
  - apply pb_codec_lawful; [apply gogo_helpers_laws|solve_desc_ok].
  - split; cbn; [|lia|intros; apply returns_Ok]. intros m -> _. by exists [].
Qed.

Definition lock_msg : MsgLock := MkMsgLock "tsc1alice" "2026-01-01" (NewCoinRec "aTSC" 300).
Definition MsgLock_pb : pb_message :=
  MkPbMessage MsgLock_desc MsgLock_Size MsgLock_Marshal MsgLock_MarshalTo MsgLock_Unmarshal.

Ltac exact_fields := split; [reflexivity|]; repeat (apply Forall_cons; split; [try exact I; try reflexivity|]);
  try (apply Forall_nil; exact I).

Definition Locks_pb : pb_message :=
  MkPbMessage Locks_desc LocksMsg_Size LocksMsg_Marshal LocksMsg_MarshalTo LocksMsg_Unmarshal.
Definition nil_locks : LocksMsg := MkLocksMsg [Some (MkLock "2026-01-01" 300); None].

Lemma gogo_roundtrip_witness :
  (exists bz, MsgLock_Marshal lock_msg = Ok bz /\ zlen bz = MsgLock_Size (Some lock_msg) /\
    MsgLock_Unmarshal (d_empty MsgLock_desc) bz = Ok lock_msg /\
    forall dAtA, MsgLock_Size (Some lock_msg) <= zlen dAtA ->
      MsgLock_MarshalTo lock_msg dAtA = Ok (bz ++ drop (length bz) dAtA, zlen bz)) /\
  LocksMsg_Marshal nil_locks = Panic NilDeref.
Proof.
  split.
  - apply (proj1 (gogo_roundtrip MsgLock_pb lock_msg ltac:(do 5 right; left))).
    + exact_fields. exact_fields.
    + vm_compute. reflexivity.
  - apply (proj2 (gogo_roundtrip Locks_pb nil_locks ltac:(right; left))).
    split; [apply Forall_singleton; apply Forall_cons; split; [|by apply Forall_singleton]
           |by left; right; left].
    intros m [= <-]. split; [exact_fields|vm_compute; reflexivity].
Defined.

Lemma gogo_unmarshal_total_witness :
  returns (MsgLock_Unmarshal lock_msg [x1a; x05; x0a; xff; x7f]).
Proof.
  apply (gogo_unmarshal_total MsgLock_pb lock_msg).
  - do 5 right. left.
  - vm_compute. reflexivity.
Defined.

(** ** A client and the node *)

(** The coins whose amount is the text of an integer. *)
Definition coin_exact (a : coin) : Prop :=
  desc_wf coin_desc a /\ Size coin_desc a < 2 ^ 60 /\
  exists n, int_ok n = true /\ Int_Marshal n = Ok (bytes_of_string (coin_amount a)).

Definition client : ApiExternal := {|
  ApiCoin := coin; ApiPageRequest := page; ApiPageResponse := page;
  Coin_codec := MkCodec (d_empty coin_desc) (Size coin_desc) (Marshal coin_desc) (Ok [])
    (Unmarshal coin_desc) coin_exact;
  PageRequest_codec := desc_codec page_desc;
  ApiLockup.PageResponse_codec := desc_codec page_desc;
|}.

Lemma client_laws : @ApiExternalLaws client.
Proof.
  pose proof (desc_codec_lawful coin_desc coin_ok) as [C1 C2 C3].
  split; cbn; try apply desc_codec_lawful, page_ok. split; cbn.
  - intros m (W & _) B. by apply C1.
  - intros m (W & _). by apply C2.
  - apply C3.
Qed.

Definition toy_coin_of (a : coin) : Coin :=
  NewCoinRec (coin_denom a)
    match Int_Unmarshal (bytes_of_string (coin_amount a)) with Ok n => n | _ => 0 end.

Definition coins_agree : @CoinsAgree client toy_gogo := toy_coin_of.

Lemma toy_coin_same a : coin_exact a ->
  same (desc_codec coin_desc) (pb_codec gogo_helpers Coin_desc) a (toy_coin_of a) /\
  desc_wf Coin_desc (toy_coin_of a).
Proof.
  intros (W & B & n & In & E). destruct (Int_Marshal_spec n In) as (bz & E' & U & L).
  rewrite E in E'. injection E' as <-.
  assert (toy_coin_of a = NewCoinRec (coin_denom a) n) as -> by (unfold toy_coin_of; by rewrite U).
  split.
  - apply desc_same; [apply coin_ok|done|done|done|].
    apply List.Forall2_cons; [by apply string_same|]. apply List.Forall2_cons; [|apply List.Forall2_nil].
    unfold field_same. cbn [f_kind f_get kind_bytes kind_size Amount c_marshal c_size Int_codec].
    unfold Int_Size. rewrite E, (proj2 (Z.ltb_lt 0 (zlen (bytes_of_string (coin_amount a))))) by lia. done.
  - split; [done|]. apply Forall_cons; split; [exact I|]. by apply Forall_singleton.
Qed.

Lemma coins_agree_laws : @CoinsAgreeLaws client toy_gogo coins_agree.
Proof.
  split; intros a W; destruct (toy_coin_same a W) as [[S1 S2] S3]; [exact S3|exact S1|exact S2].
Qed.

Definition client_lock : @api_MsgLock client :=
  @Mk_api_MsgLock client "tsc1alice" "2026-01-01"
    (Some (MkCoin "aTSC" (string_of_bytes (toy_marshal 300)) [])) [].

Lemma node_reads_client_messages_witness :
  exists bz, @api_MsgLock_marshal runtime client (Some client_lock) [] = Ok bz /\
    MsgLock_Marshal lock_msg = Ok bz /\ MsgLock_Unmarshal (d_empty MsgLock_desc) bz = Ok lock_msg.
Proof.
  refine (proj1 (@node_reads_client_messages runtime runtime_laws runtime_standard client client_laws
    toy_gogo toy_gogo_laws coins_agree coins_agree_laws) client_lock lock_msg _ _ _).
  - split; [reflexivity|]. do 2 (apply Forall_cons; split; [exact I|]). apply Forall_singleton.
    split; [split; [reflexivity|]; repeat (apply Forall_cons; split; [exact I|]); apply Forall_nil; exact I|].
    split; [vm_compute; reflexivity|]. exists 300. split; vm_compute; reflexivity.
  - vm_compute. reflexivity.
  - vm_compute. reflexivity.
Defined.
End GogoToy.
