(* ===== verification/Services.v ===== *)
(** The gRPC services of both modules, as protoc generates them twice: the client
    and server stubs of x/*/types/{tx,query}.pb.go and of api/*_grpc.pb.go.  The
    gRPC library itself, which carries a call from a connection to a registered
    service, is a parameter. *)

From stdpp Require Import base list sets strings.
From Stdlib Require Import ZArith Lia.
From Stdlib.Init Require Import Byte.
From S2P Require Import Prelude.

(** * Calls *)

(** What gRPC asks of a message: a new one, its encoding, and decoding into it. *)
Class ProtoMessage (T : Type) := MkProtoMessage {
  proto_new : T;
  proto_marshal : T -> outcome bytes;
  proto_unmarshal : T -> bytes -> outcome T;
}.
Arguments MkProtoMessage {T}.
Arguments proto_new T {_}.

(** A method of a server acts on the state [W] of the node. *)
Definition rpc (W A B : Type) : Type := A -> W -> outcome (B * W).

(** [metadata.MD], and the header and trailer a call reports to its caller. *)
Class GrpcMetadata := { MD : Type; MD_nil : MD; MD_Join : MD -> MD -> MD }.
Record ServerMetadata `{GrpcMetadata} := MkServerMetadata { HeaderMD : MD; TrailerMD : MD }.
Arguments MkServerMetadata {_}.
Arguments HeaderMD {_}.
Arguments TrailerMD {_}.
Definition no_metadata `{GrpcMetadata} : ServerMetadata := MkServerMetadata MD_nil MD_nil.

(** What a client method returns. *)
Definition call (W A B : Type) `{GrpcMetadata} : Type := A -> W -> outcome (B * W) * ServerMetadata.

(** [grpc.ClientConnInterface]: [Invoke(ctx, method, in, out)] decodes the reply
    into [out]; the metadata are what the [Header] and [Trailer] options fill. *)
Class ClientConn (W : Type) `{GrpcMetadata} := {
  Invoke {A B} `{!ProtoMessage A, !ProtoMessage B} : string -> A -> B -> W ->
    outcome (B * W) * ServerMetadata;
}.

(** [grpc.UnaryServerInterceptor], given the full name of the method. *)
Definition Interceptor (W : Type) : Type :=
  forall A B, string -> rpc W A B -> rpc W A B.

(** The call a server makes with or without an interceptor. *)
Definition intercepted {W A B} (interceptor : option (Interceptor W)) (FullMethod : string)
    (handler : rpc W A B) : rpc W A B :=
  match interceptor with
  | None => handler
  | Some i => i A B FullMethod handler
  end.

Section Stubs.
Context {W : Type}.

(** The body of a client method. *)
Definition unary_client `{ClientConn W} {A B} `{!ProtoMessage A, !ProtoMessage B}
    (FullMethod : string) : call W A B :=
  fun req w =>
    let out := proto_new B in
    Invoke FullMethod req out w.

(** The body of a [_Service_Method_Handler]: [dec] fills the message it is given. *)
Definition unary_handler {Srv A B} `{!ProtoMessage A} (FullMethod : string)
    (method : Srv -> rpc W A B) (srv : Srv) (dec : A -> outcome A)
    (interceptor : option (Interceptor W)) (w : W) : outcome (B * W) :=
  req ← dec (proto_new A);
  intercepted interceptor FullMethod (method srv) req w.

(** [grpc.MethodDesc] and [grpc.ServiceDesc]; the types of a method are those its
    handler asserts. *)
Record MethodDesc (Srv : Type) := MkMethodDesc {
  MethodName : string;
  md_req : Type;
  md_resp : Type;
  md_req_proto : ProtoMessage md_req;
  md_resp_proto : ProtoMessage md_resp;
  Handler : Srv -> (md_req -> outcome md_req) -> option (Interceptor W) -> W -> outcome (md_resp * W);
}.
Arguments MkMethodDesc {Srv} MethodName {md_req md_resp _ _}.
Arguments MethodName {Srv}.
Arguments md_req {Srv}.
Arguments md_resp {Srv}.
Arguments md_req_proto {Srv}.
Arguments md_resp_proto {Srv}.
Arguments Handler {Srv}.

Record ServiceDesc (Srv : Type) := MkServiceDesc {
  ServiceName : string;
  Methods : list (MethodDesc Srv);
  Metadata : string;
}.
Arguments MkServiceDesc {Srv}.
Arguments ServiceName {Srv}.
Arguments Methods {Srv}.
Arguments Metadata {Srv}.

Definition full_method {Srv} (sd : ServiceDesc Srv) (md : MethodDesc Srv) : string :=
  "/" +:+ ServiceName sd +:+ "/" +:+ MethodName md.

(** How a server answers the bytes of a request: it decodes them into the message
    the handler allocates, and encodes what the handler returns. *)
Definition answer {Srv} (md : MethodDesc Srv) (srv : Srv) (interceptor : option (Interceptor W))
    (bz : bytes) (w : W) : outcome (bytes * W) :=
  '(resp, w') ← Handler md srv (fun req => @proto_unmarshal _ (md_req_proto md) req bz) interceptor w;
  bz' ← @proto_marshal _ (md_resp_proto md) resp;
  Ok (bz', w').

(** A connection to a server on which [srv] is registered under [sd]: gRPC encodes
    the request, hands it to the method of that name, and decodes the reply.  What a
    gRPC server makes of an error (a status) or of a panic of a handler is part of the
    interceptor here, which may be any function of the handler it is given. *)
Definition serves `{ClientConn W} {Srv} (sd : ServiceDesc Srv) (srv : Srv)
    (interceptor : option (Interceptor W)) : Prop :=
  forall md, md ∈ Methods sd -> forall A B `(!ProtoMessage A, !ProtoMessage B) (req : A) (out : B) (w : W),
    fst (Invoke (full_method sd md) req out w)
    = (bz ← proto_marshal req;
       '(bz', w') ← answer md srv interceptor bz w;
       out ← proto_unmarshal out bz';
       Ok (out, w')).
End Stubs.
Arguments MethodDesc : clear implicits.
Arguments ServiceDesc : clear implicits.
Arguments MkMethodDesc {W Srv} MethodName {md_req md_resp _ _}.
Arguments MkServiceDesc {W Srv}.
Arguments MethodName {W Srv}.
Arguments md_req {W Srv}.
Arguments md_resp {W Srv}.
Arguments md_req_proto {W Srv}.
Arguments md_resp_proto {W Srv}.
Arguments Handler {W Srv}.
Arguments ServiceName {W Srv}.
Arguments Methods {W Srv}.
Arguments Metadata {W Srv}.

(** ** Servers *)

(** [grpc.ServiceRegistrar]: the server refuses (panics on) a method it already
    has.  [Registered] tells what is on it, and [Connect] is a connection to it;
    every call passes the server's interceptor. *)
Class GrpcServer (G W : Type) `{GrpcMetadata} := {
  RegisterService {Srv} : ServiceDesc W Srv -> Srv -> G -> outcome G;
  Registered {Srv} : G -> ServiceDesc W Srv -> Srv -> Prop;
  Connect : G -> ClientConn W;
  server_interceptor : option (Interceptor W);
}.
Class GrpcServerLaws (G W : Type) `{GrpcServer G W} : Prop := {
  RegisterService_registered {Srv} (sd : ServiceDesc W Srv) srv g g' :
    NoDup (map MethodName (Methods sd)) ->
    RegisterService sd srv g = Ok g' -> Registered g' sd srv;
  RegisterService_keeps {Srv Srv'} (sd : ServiceDesc W Srv) srv (sd' : ServiceDesc W Srv') srv' g g' :
    RegisterService sd srv g = Ok g' -> Registered g sd' srv' -> Registered g' sd' srv';
  Registered_serves {Srv} (sd : ServiceDesc W Srv) srv g :
    Registered g sd srv -> serves (H0 := Connect g) sd srv server_interceptor;
}.

(** ** A call through a generated client *)

(** A message its own encoding represents. *)
Definition exact `{ProtoMessage T} (m : T) : Prop :=
  exists bz, proto_marshal m = Ok bz /\ proto_unmarshal (proto_new T) bz = Ok m.

(** Calling [call] returns what [method] returns, run by the server. *)
Definition reaches {W A B} `{GrpcMetadata, !ProtoMessage A, !ProtoMessage B}
    (i : option (Interceptor W)) (FullMethod : string) (c : call W A B) (method : rpc W A B) : Prop :=
  forall req w, exact req ->
    (forall resp w', intercepted i FullMethod method req w = Ok (resp, w') -> exact resp) ->
    fst (c req w) = intercepted i FullMethod method req w.

(** The bytes of [x] are those of a message [m] for the other side. *)
Definition sends `{ProtoMessage A, ProtoMessage B} (x : A) (m : B) : Prop :=
  exists bz, proto_marshal x = Ok bz /\ proto_unmarshal (proto_new B) bz = Ok m.

(** The client may have other Go types for the messages than the server. *)
Lemma unary_call_crosses {W Srv A B A' B'} `{ClientConn W}
    `{!ProtoMessage A, !ProtoMessage B, !ProtoMessage A', !ProtoMessage B'}
    (sd : ServiceDesc W Srv) (srv : Srv) i name FullMethod (method : Srv -> rpc W A B) (x : A') (req : A) w :
  serves sd srv i ->
  MkMethodDesc name (unary_handler FullMethod method) ∈ Methods sd ->
  FullMethod = "/" +:+ ServiceName sd +:+ "/" +:+ name ->
  sends x req ->
  fst (unary_client (B := B') FullMethod x w)
  = ('(resp, w') ← intercepted i FullMethod (method srv) req w;
     bz ← proto_marshal resp; out ← proto_unmarshal (proto_new B') bz; Ok (out, w')).
Proof.
  intros S M -> (bz & Mr & Ur). unfold unary_client.
  pose proof (S _ M _ _ _ _ x (proto_new B') w) as E. unfold full_method in E. cbn [MethodName] in E.
  rewrite E, Mr. unfold answer, unary_handler.
  cbn [mbind outcome_bind md_req md_req_proto md_resp_proto Handler]. rewrite Ur. cbn [mbind outcome_bind].
  destruct (intercepted i _ (method srv) req w) as [[resp w']|e|p|]; cbn [mbind outcome_bind]; try done.
  cbn [md_resp md_resp_proto]. by destruct (proto_marshal resp).
Qed.

Lemma unary_call_reaches {W Srv A B} `{ClientConn W, !ProtoMessage A, !ProtoMessage B}
    (sd : ServiceDesc W Srv) (srv : Srv) i name FullMethod (method : Srv -> rpc W A B) :
  serves sd srv i ->
  MkMethodDesc name (unary_handler FullMethod method) ∈ Methods sd ->
  FullMethod = "/" +:+ ServiceName sd +:+ "/" +:+ name ->
  reaches i FullMethod (unary_client FullMethod) (method srv).
Proof.
  intros S M F req w X R. rewrite (unary_call_crosses sd srv i name FullMethod method req req w S M F X).
  destruct (intercepted i _ (method srv) req w) as [[resp w']|e|p|] eqn:I; cbn [mbind outcome_bind]; try done.
  destruct (R resp w' eq_refl) as (bz & Mr & Ur). rewrite Mr. cbn [mbind outcome_bind]. by rewrite Ur.
Qed.

(** * lockup.v1.Msg *)

Module LockupMsg.

Section Service.
Context {W : Type} `{GrpcMetadata}.
Context {LockReq LockResp ExtendReq ExtendResp SendDelegateAndLockReq SendDelegateAndLockResp
    MultiSendDelegateAndLockReq MultiSendDelegateAndLockResp : Type}.
Context `{!ProtoMessage LockReq, !ProtoMessage LockResp}.
Context `{!ProtoMessage ExtendReq, !ProtoMessage ExtendResp}.
Context `{!ProtoMessage SendDelegateAndLockReq, !ProtoMessage SendDelegateAndLockResp}.
Context `{!ProtoMessage MultiSendDelegateAndLockReq, !ProtoMessage MultiSendDelegateAndLockResp}.

Record MsgServer := MkMsgServer {
  Server_Lock : rpc W LockReq LockResp;
  Server_Extend : rpc W ExtendReq ExtendResp;
  Server_SendDelegateAndLock : rpc W SendDelegateAndLockReq SendDelegateAndLockResp;
  Server_MultiSendDelegateAndLock : rpc W MultiSendDelegateAndLockReq
      MultiSendDelegateAndLockResp;
}.

Record MsgClient := MkMsgClient {
  Client_Lock : call W LockReq LockResp;
  Client_Extend : call W ExtendReq ExtendResp;
  Client_SendDelegateAndLock : call W SendDelegateAndLockReq SendDelegateAndLockResp;
  Client_MultiSendDelegateAndLock : call W MultiSendDelegateAndLockReq
      MultiSendDelegateAndLockResp;
}.

Definition NewMsgClient `{!ClientConn W} : MsgClient :=
  MkMsgClient
    (unary_client "/lockup.v1.Msg/Lock")
    (unary_client "/lockup.v1.Msg/Extend")
    (unary_client "/lockup.v1.Msg/SendDelegateAndLock")
    (unary_client "/lockup.v1.Msg/MultiSendDelegateAndLock").

Definition UnimplementedMsgServer : MsgServer :=
  MkMsgServer
    (fun _ _ => Err (StatusErr Unimplemented "method Lock not implemented"))
    (fun _ _ => Err (StatusErr Unimplemented "method Extend not implemented"))
    (fun _ _ => Err (StatusErr Unimplemented "method SendDelegateAndLock not implemented"))
    (fun _ _ => Err (StatusErr Unimplemented "method MultiSendDelegateAndLock not implemented")).

Definition Msg_Lock_Handler :=
  unary_handler (A := LockReq) (B := LockResp) "/lockup.v1.Msg/Lock" Server_Lock.
Definition Msg_Extend_Handler :=
  unary_handler (A := ExtendReq) (B := ExtendResp) "/lockup.v1.Msg/Extend" Server_Extend.
Definition Msg_SendDelegateAndLock_Handler :=
  unary_handler (A := SendDelegateAndLockReq) (B := SendDelegateAndLockResp)
      "/lockup.v1.Msg/SendDelegateAndLock" Server_SendDelegateAndLock.
Definition Msg_MultiSendDelegateAndLock_Handler :=
  unary_handler (A := MultiSendDelegateAndLockReq) (B := MultiSendDelegateAndLockResp)
      "/lockup.v1.Msg/MultiSendDelegateAndLock" Server_MultiSendDelegateAndLock.

Definition Msg_serviceDesc : ServiceDesc W MsgServer :=
  MkServiceDesc "lockup.v1.Msg"
    [MkMethodDesc "Lock" Msg_Lock_Handler;
     MkMethodDesc "Extend" Msg_Extend_Handler;
     MkMethodDesc "SendDelegateAndLock" Msg_SendDelegateAndLock_Handler;
     MkMethodDesc "MultiSendDelegateAndLock" Msg_MultiSendDelegateAndLock_Handler]
    "lockup/v1/tx.proto".

(** [RegisterMsgServer]. *)
Definition RegisterMsgServer `{!GrpcServer G W} (s : G) (srv : MsgServer) : outcome G :=
  RegisterService Msg_serviceDesc srv s.

(** A client connected to a server on which the service is registered. *)
Lemma LockupMsg_reached `{!GrpcServer G W, !GrpcServerLaws G W} (g : G) (srv : MsgServer) :
  Registered g Msg_serviceDesc srv ->
  let c := NewMsgClient (ClientConn0 := Connect g) in
  reaches server_interceptor "/lockup.v1.Msg/Lock" (Client_Lock c) (Server_Lock srv) /\
  reaches server_interceptor "/lockup.v1.Msg/Extend" (Client_Extend c) (Server_Extend srv) /\
  reaches server_interceptor "/lockup.v1.Msg/SendDelegateAndLock" (Client_SendDelegateAndLock c)
      (Server_SendDelegateAndLock srv) /\
  reaches server_interceptor "/lockup.v1.Msg/MultiSendDelegateAndLock"
      (Client_MultiSendDelegateAndLock c) (Server_MultiSendDelegateAndLock srv).
Proof.
  intros R c. repeat split.
  all: eapply unary_call_reaches; [by apply Registered_serves| |reflexivity].
  all: set_solver.
Qed.
End Service.
End LockupMsg.

(** * lockup.v1.Query *)

Module LockupQueries.

Section Service.
Context {W : Type} `{GrpcMetadata}.
Context {ActiveLocksReq ActiveLocksResp TotalLockedAmountReq TotalLockedAmountResp AccountLocksReq
    AccountLocksResp LocksReq LocksResp : Type}.
Context `{!ProtoMessage ActiveLocksReq, !ProtoMessage ActiveLocksResp}.
Context `{!ProtoMessage TotalLockedAmountReq, !ProtoMessage TotalLockedAmountResp}.
Context `{!ProtoMessage AccountLocksReq, !ProtoMessage AccountLocksResp}.
Context `{!ProtoMessage LocksReq, !ProtoMessage LocksResp}.

Record QueryServer := MkQueryServer {
  Server_ActiveLocks : rpc W ActiveLocksReq ActiveLocksResp;
  Server_TotalLockedAmount : rpc W TotalLockedAmountReq TotalLockedAmountResp;
  Server_AccountLocks : rpc W AccountLocksReq AccountLocksResp;
  Server_Locks : rpc W LocksReq LocksResp;
}.

Record QueryClient := MkQueryClient {
  Client_ActiveLocks : call W ActiveLocksReq ActiveLocksResp;
  Client_TotalLockedAmount : call W TotalLockedAmountReq TotalLockedAmountResp;
  Client_AccountLocks : call W AccountLocksReq AccountLocksResp;
  Client_Locks : call W LocksReq LocksResp;
}.

Definition NewQueryClient `{!ClientConn W} : QueryClient :=
  MkQueryClient
    (unary_client "/lockup.v1.Query/ActiveLocks")
    (unary_client "/lockup.v1.Query/TotalLockedAmount")
    (unary_client "/lockup.v1.Query/AccountLocks")
    (unary_client "/lockup.v1.Query/Locks").

Definition UnimplementedQueryServer : QueryServer :=
  MkQueryServer
    (fun _ _ => Err (StatusErr Unimplemented "method ActiveLocks not implemented"))
    (fun _ _ => Err (StatusErr Unimplemented "method TotalLockedAmount not implemented"))
    (fun _ _ => Err (StatusErr Unimplemented "method AccountLocks not implemented"))
    (fun _ _ => Err (StatusErr Unimplemented "method Locks not implemented")).

Definition Query_ActiveLocks_Handler :=
  unary_handler (A := ActiveLocksReq) (B := ActiveLocksResp) "/lockup.v1.Query/ActiveLocks"
      Server_ActiveLocks.
Definition Query_TotalLockedAmount_Handler :=
  unary_handler (A := TotalLockedAmountReq) (B := TotalLockedAmountResp)
      "/lockup.v1.Query/TotalLockedAmount" Server_TotalLockedAmount.
Definition Query_AccountLocks_Handler :=
  unary_handler (A := AccountLocksReq) (B := AccountLocksResp) "/lockup.v1.Query/AccountLocks"
      Server_AccountLocks.
Definition Query_Locks_Handler :=
  unary_handler (A := LocksReq) (B := LocksResp) "/lockup.v1.Query/Locks" Server_Locks.

Definition Query_serviceDesc : ServiceDesc W QueryServer :=
  MkServiceDesc "lockup.v1.Query"
    [MkMethodDesc "ActiveLocks" Query_ActiveLocks_Handler;
     MkMethodDesc "TotalLockedAmount" Query_TotalLockedAmount_Handler;
     MkMethodDesc "AccountLocks" Query_AccountLocks_Handler;
     MkMethodDesc "Locks" Query_Locks_Handler]
    "lockup/v1/query.proto".

(** [RegisterQueryServer]. *)
Definition RegisterQueryServer `{!GrpcServer G W} (s : G) (srv : QueryServer) : outcome G :=
  RegisterService Query_serviceDesc srv s.

(** A client connected to a server on which the service is registered. *)
Lemma LockupQueries_reached `{!GrpcServer G W, !GrpcServerLaws G W} (g : G) (srv : QueryServer) :
  Registered g Query_serviceDesc srv ->
  let c := NewQueryClient (ClientConn0 := Connect g) in
  reaches server_interceptor "/lockup.v1.Query/ActiveLocks" (Client_ActiveLocks c)
      (Server_ActiveLocks srv) /\
  reaches server_interceptor "/lockup.v1.Query/TotalLockedAmount" (Client_TotalLockedAmount c)
      (Server_TotalLockedAmount srv) /\
  reaches server_interceptor "/lockup.v1.Query/AccountLocks" (Client_AccountLocks c)
      (Server_AccountLocks srv) /\
  reaches server_interceptor "/lockup.v1.Query/Locks" (Client_Locks c) (Server_Locks srv).
Proof.
  intros R c. repeat split.
  all: eapply unary_call_reaches; [by apply Registered_serves| |reflexivity].
  all: set_solver.
Qed.
End Service.
End LockupQueries.

(** * distro.v1.Msg *)

Module DistroMsg.

Section Service.
Context {W : Type} `{GrpcMetadata}.
Context {UpdateParamsReq UpdateParamsResp MintReq MintResp : Type}.
Context `{!ProtoMessage UpdateParamsReq, !ProtoMessage UpdateParamsResp}.
Context `{!ProtoMessage MintReq, !ProtoMessage MintResp}.

Record MsgServer := MkMsgServer {
  Server_UpdateParams : rpc W UpdateParamsReq UpdateParamsResp;
  Server_Mint : rpc W MintReq MintResp;
}.

Record MsgClient := MkMsgClient {
  Client_UpdateParams : call W UpdateParamsReq UpdateParamsResp;
  Client_Mint : call W MintReq MintResp;
}.

Definition NewMsgClient `{!ClientConn W} : MsgClient :=
  MkMsgClient
    (unary_client "/distro.v1.Msg/UpdateParams")
    (unary_client "/distro.v1.Msg/Mint").

Definition UnimplementedMsgServer : MsgServer :=
  MkMsgServer
    (fun _ _ => Err (StatusErr Unimplemented "method UpdateParams not implemented"))
    (fun _ _ => Err (StatusErr Unimplemented "method Mint not implemented")).

Definition Msg_UpdateParams_Handler :=
  unary_handler (A := UpdateParamsReq) (B := UpdateParamsResp) "/distro.v1.Msg/UpdateParams"
      Server_UpdateParams.
Definition Msg_Mint_Handler :=
  unary_handler (A := MintReq) (B := MintResp) "/distro.v1.Msg/Mint" Server_Mint.

Definition Msg_serviceDesc : ServiceDesc W MsgServer :=
  MkServiceDesc "distro.v1.Msg"
    [MkMethodDesc "UpdateParams" Msg_UpdateParams_Handler;
     MkMethodDesc "Mint" Msg_Mint_Handler]
    "distro/v1/tx.proto".

(** [RegisterMsgServer]. *)
Definition RegisterMsgServer `{!GrpcServer G W} (s : G) (srv : MsgServer) : outcome G :=
  RegisterService Msg_serviceDesc srv s.

(** A client connected to a server on which the service is registered. *)
Lemma DistroMsg_reached `{!GrpcServer G W, !GrpcServerLaws G W} (g : G) (srv : MsgServer) :
  Registered g Msg_serviceDesc srv ->
  let c := NewMsgClient (ClientConn0 := Connect g) in
  reaches server_interceptor "/distro.v1.Msg/UpdateParams" (Client_UpdateParams c)
      (Server_UpdateParams srv) /\
  reaches server_interceptor "/distro.v1.Msg/Mint" (Client_Mint c) (Server_Mint srv).
Proof.
  intros R c. repeat split.
  all: eapply unary_call_reaches; [by apply Registered_serves| |reflexivity].
  all: set_solver.
Qed.
End Service.
End DistroMsg.

(** * distro.v1.Query *)

Module DistroQueries.

Section Service.
Context {W : Type} `{GrpcMetadata}.
Context {ParamsReq ParamsResp : Type}.
Context `{!ProtoMessage ParamsReq, !ProtoMessage ParamsResp}.

Record QueryServer := MkQueryServer {
  Server_Params : rpc W ParamsReq ParamsResp;
}.

Record QueryClient := MkQueryClient {
  Client_Params : call W ParamsReq ParamsResp;
}.

Definition NewQueryClient `{!ClientConn W} : QueryClient :=
  MkQueryClient
    (unary_client "/distro.v1.Query/Params").

Definition UnimplementedQueryServer : QueryServer :=
  MkQueryServer
    (fun _ _ => Err (StatusErr Unimplemented "method Params not implemented")).

Definition Query_Params_Handler :=
  unary_handler (A := ParamsReq) (B := ParamsResp) "/distro.v1.Query/Params" Server_Params.

Definition Query_serviceDesc : ServiceDesc W QueryServer :=
  MkServiceDesc "distro.v1.Query"
    [MkMethodDesc "Params" Query_Params_Handler]
    "distro/v1/query.proto".

(** [RegisterQueryServer]. *)
Definition RegisterQueryServer `{!GrpcServer G W} (s : G) (srv : QueryServer) : outcome G :=
  RegisterService Query_serviceDesc srv s.

(** A client connected to a server on which the service is registered. *)
Lemma DistroQueries_reached `{!GrpcServer G W, !GrpcServerLaws G W} (g : G) (srv : QueryServer) :
  Registered g Query_serviceDesc srv ->
  let c := NewQueryClient (ClientConn0 := Connect g) in
  reaches server_interceptor "/distro.v1.Query/Params" (Client_Params c) (Server_Params srv).
Proof.
  intros R c. repeat split.
  all: eapply unary_call_reaches; [by apply Registered_serves| |reflexivity].
  all: set_solver.
Qed.
End Service.
End DistroQueries.
