(* ===== verification/ApiStubs.v ===== *)
(** The gRPC stubs of the API packages (api/*/v1/*_grpc.pb.go): those of Services.v at
    the pulsar messages. *)

From stdpp Require Import base list strings.
From Stdlib Require Import ZArith Lia.
From Stdlib.Init Require Import Byte.
From S2P Require Import Prelude Sdk LockPb ProtoTable Pulsar ApiLockup ApiDistro Services.

(** A pulsar message as gRPC uses it: unknown fields are kept. *)
Definition api_proto {T} (zero : T) (marshal : option T -> bytes -> outcome bytes)
    (unmarshal : bool -> option T -> bytes -> outcome (option T)) : ProtoMessage T :=
  MkProtoMessage zero (fun x => marshal (Some x) [])
    (fun x bz => o ← unmarshal false (Some x) bz;
                 match o with Some x => Ok x | None => Panic NilDeref end).

Section Stubs.
Context `{WireRuntime} `{ApiExternal}.

#[export] Instance api_MsgLock_proto : ProtoMessage api_MsgLock :=
  api_proto (d_empty api_MsgLock_desc) api_MsgLock_marshal api_MsgLock_unmarshal.
#[export] Instance api_MsgLockResponse_proto : ProtoMessage api_MsgLockResponse :=
  api_proto (d_empty api_MsgLockResponse_desc) api_MsgLockResponse_marshal
      api_MsgLockResponse_unmarshal.
#[export] Instance api_MsgExtend_proto : ProtoMessage api_MsgExtend :=
  api_proto (d_empty api_MsgExtend_desc) api_MsgExtend_marshal api_MsgExtend_unmarshal.
#[export] Instance api_MsgExtendResponse_proto : ProtoMessage api_MsgExtendResponse :=
  api_proto (d_empty api_MsgExtendResponse_desc) api_MsgExtendResponse_marshal
      api_MsgExtendResponse_unmarshal.
#[export] Instance api_MsgSendDelegateAndLock_proto : ProtoMessage api_MsgSendDelegateAndLock :=
  api_proto (d_empty api_MsgSendDelegateAndLock_desc) api_MsgSendDelegateAndLock_marshal
      api_MsgSendDelegateAndLock_unmarshal.
#[export] Instance api_MsgSendDelegateAndLockResponse_proto : ProtoMessage
    api_MsgSendDelegateAndLockResponse :=
  api_proto (d_empty api_MsgSendDelegateAndLockResponse_desc)
      api_MsgSendDelegateAndLockResponse_marshal api_MsgSendDelegateAndLockResponse_unmarshal.
#[export] Instance api_MsgMultiSendDelegateAndLock_proto : ProtoMessage
    api_MsgMultiSendDelegateAndLock :=
  api_proto (d_empty api_MsgMultiSendDelegateAndLock_desc) api_MsgMultiSendDelegateAndLock_marshal
      api_MsgMultiSendDelegateAndLock_unmarshal.
#[export] Instance api_MsgMultiSendDelegateAndLockResponse_proto : ProtoMessage
    api_MsgMultiSendDelegateAndLockResponse :=
  api_proto (d_empty api_MsgMultiSendDelegateAndLockResponse_desc)
      api_MsgMultiSendDelegateAndLockResponse_marshal
      api_MsgMultiSendDelegateAndLockResponse_unmarshal.

#[export] Instance api_QueryActiveLocksRequest_proto : ProtoMessage api_QueryActiveLocksRequest :=
  api_proto (d_empty api_QueryActiveLocksRequest_desc) api_QueryActiveLocksRequest_marshal
      api_QueryActiveLocksRequest_unmarshal.
#[export] Instance api_QueryActiveLocksResponse_proto : ProtoMessage api_QueryActiveLocksResponse :=
  api_proto (d_empty api_QueryActiveLocksResponse_desc) api_QueryActiveLocksResponse_marshal
      api_QueryActiveLocksResponse_unmarshal.
#[export] Instance api_QueryTotalLockedAmountRequest_proto : ProtoMessage
    api_QueryTotalLockedAmountRequest :=
  api_proto (d_empty api_QueryTotalLockedAmountRequest_desc)
      api_QueryTotalLockedAmountRequest_marshal api_QueryTotalLockedAmountRequest_unmarshal.
#[export] Instance api_QueryTotalLockedAmountResponse_proto : ProtoMessage
    api_QueryTotalLockedAmountResponse :=
  api_proto (d_empty api_QueryTotalLockedAmountResponse_desc)
      api_QueryTotalLockedAmountResponse_marshal api_QueryTotalLockedAmountResponse_unmarshal.
#[export] Instance api_QueryAccountLocksRequest_proto : ProtoMessage api_QueryAccountLocksRequest :=
  api_proto (d_empty api_QueryAccountLocksRequest_desc) api_QueryAccountLocksRequest_marshal
      api_QueryAccountLocksRequest_unmarshal.
#[export] Instance api_QueryAccountLocksResponse_proto : ProtoMessage
    api_QueryAccountLocksResponse :=
  api_proto (d_empty api_QueryAccountLocksResponse_desc) api_QueryAccountLocksResponse_marshal
      api_QueryAccountLocksResponse_unmarshal.
#[export] Instance api_QueryLocksRequest_proto : ProtoMessage api_QueryLocksRequest :=
  api_proto (d_empty api_QueryLocksRequest_desc) api_QueryLocksRequest_marshal
      api_QueryLocksRequest_unmarshal.
#[export] Instance api_QueryLocksResponse_proto : ProtoMessage api_QueryLocksResponse :=
  api_proto (d_empty api_QueryLocksResponse_desc) api_QueryLocksResponse_marshal
      api_QueryLocksResponse_unmarshal.

#[export] Instance api_MsgUpdateParams_proto : ProtoMessage api_MsgUpdateParams :=
  api_proto (d_empty api_MsgUpdateParams_desc) api_MsgUpdateParams_marshal
      api_MsgUpdateParams_unmarshal.
#[export] Instance api_MsgUpdateParamsResponse_proto : ProtoMessage api_MsgUpdateParamsResponse :=
  api_proto (d_empty api_MsgUpdateParamsResponse_desc) api_MsgUpdateParamsResponse_marshal
      api_MsgUpdateParamsResponse_unmarshal.
#[export] Instance api_MsgMint_proto : ProtoMessage api_MsgMint :=
  api_proto (d_empty api_MsgMint_desc) api_MsgMint_marshal api_MsgMint_unmarshal.
#[export] Instance api_MsgMintResponse_proto : ProtoMessage api_MsgMintResponse :=
  api_proto (d_empty api_MsgMintResponse_desc) api_MsgMintResponse_marshal
      api_MsgMintResponse_unmarshal.

#[export] Instance api_QueryParamsRequest_proto : ProtoMessage api_QueryParamsRequest :=
  api_proto (d_empty api_QueryParamsRequest_desc) api_QueryParamsRequest_marshal
      api_QueryParamsRequest_unmarshal.
#[export] Instance api_QueryParamsResponse_proto : ProtoMessage api_QueryParamsResponse :=
  api_proto (d_empty api_QueryParamsResponse_desc) api_QueryParamsResponse_marshal
      api_QueryParamsResponse_unmarshal.

Context {W : Type} `{GrpcMetadata}.

Definition api_lockup_NewMsgClient (cc : ClientConn W)
    : LockupMsg.MsgClient (W := W) (LockReq := api_MsgLock) (LockResp := api_MsgLockResponse)
        (ExtendReq := api_MsgExtend) (ExtendResp := api_MsgExtendResponse)
        (SendDelegateAndLockReq := api_MsgSendDelegateAndLock) (SendDelegateAndLockResp :=
            api_MsgSendDelegateAndLockResponse)
        (MultiSendDelegateAndLockReq := api_MsgMultiSendDelegateAndLock)
            (MultiSendDelegateAndLockResp := api_MsgMultiSendDelegateAndLockResponse) :=
  LockupMsg.NewMsgClient (ClientConn0 := cc).
Definition api_lockup_Msg_ServiceDesc : ServiceDesc W
    (LockupMsg.MsgServer (W := W) (LockReq := api_MsgLock) (LockResp := api_MsgLockResponse)
        (ExtendReq := api_MsgExtend) (ExtendResp := api_MsgExtendResponse)
        (SendDelegateAndLockReq := api_MsgSendDelegateAndLock) (SendDelegateAndLockResp :=
            api_MsgSendDelegateAndLockResponse)
        (MultiSendDelegateAndLockReq := api_MsgMultiSendDelegateAndLock)
            (MultiSendDelegateAndLockResp := api_MsgMultiSendDelegateAndLockResponse)) :=
  LockupMsg.Msg_serviceDesc.
Definition api_lockup_UnimplementedMsgServer
    : LockupMsg.MsgServer (W := W) (LockReq := api_MsgLock) (LockResp := api_MsgLockResponse)
        (ExtendReq := api_MsgExtend) (ExtendResp := api_MsgExtendResponse)
        (SendDelegateAndLockReq := api_MsgSendDelegateAndLock) (SendDelegateAndLockResp :=
            api_MsgSendDelegateAndLockResponse)
        (MultiSendDelegateAndLockReq := api_MsgMultiSendDelegateAndLock)
            (MultiSendDelegateAndLockResp := api_MsgMultiSendDelegateAndLockResponse) :=
  LockupMsg.UnimplementedMsgServer.
Definition api_lockup_RegisterMsgServer `{!GrpcServer G W} (s : G)
    (srv : LockupMsg.MsgServer (W := W) (LockReq := api_MsgLock) (LockResp := api_MsgLockResponse)
        (ExtendReq := api_MsgExtend) (ExtendResp := api_MsgExtendResponse)
        (SendDelegateAndLockReq := api_MsgSendDelegateAndLock) (SendDelegateAndLockResp :=
            api_MsgSendDelegateAndLockResponse)
        (MultiSendDelegateAndLockReq := api_MsgMultiSendDelegateAndLock)
            (MultiSendDelegateAndLockResp := api_MsgMultiSendDelegateAndLockResponse)) : outcome G
            :=
  RegisterService api_lockup_Msg_ServiceDesc srv s.

Definition api_lockup_NewQueryClient (cc : ClientConn W)
    : LockupQueries.QueryClient (W := W) (ActiveLocksReq := api_QueryActiveLocksRequest)
        (ActiveLocksResp := api_QueryActiveLocksResponse)
        (TotalLockedAmountReq := api_QueryTotalLockedAmountRequest) (TotalLockedAmountResp :=
            api_QueryTotalLockedAmountResponse)
        (AccountLocksReq := api_QueryAccountLocksRequest) (AccountLocksResp :=
            api_QueryAccountLocksResponse)
        (LocksReq := api_QueryLocksRequest) (LocksResp := api_QueryLocksResponse) :=
  LockupQueries.NewQueryClient (ClientConn0 := cc).
Definition api_lockup_Query_ServiceDesc : ServiceDesc W
    (LockupQueries.QueryServer (W := W) (ActiveLocksReq := api_QueryActiveLocksRequest)
        (ActiveLocksResp := api_QueryActiveLocksResponse)
        (TotalLockedAmountReq := api_QueryTotalLockedAmountRequest) (TotalLockedAmountResp :=
            api_QueryTotalLockedAmountResponse)
        (AccountLocksReq := api_QueryAccountLocksRequest) (AccountLocksResp :=
            api_QueryAccountLocksResponse)
        (LocksReq := api_QueryLocksRequest) (LocksResp := api_QueryLocksResponse)) :=
  LockupQueries.Query_serviceDesc.
Definition api_lockup_UnimplementedQueryServer
    : LockupQueries.QueryServer (W := W) (ActiveLocksReq := api_QueryActiveLocksRequest)
        (ActiveLocksResp := api_QueryActiveLocksResponse)
        (TotalLockedAmountReq := api_QueryTotalLockedAmountRequest) (TotalLockedAmountResp :=
            api_QueryTotalLockedAmountResponse)
        (AccountLocksReq := api_QueryAccountLocksRequest) (AccountLocksResp :=
            api_QueryAccountLocksResponse)
        (LocksReq := api_QueryLocksRequest) (LocksResp := api_QueryLocksResponse) :=
  LockupQueries.UnimplementedQueryServer.
Definition api_lockup_RegisterQueryServer `{!GrpcServer G W} (s : G)
    (srv : LockupQueries.QueryServer (W := W) (ActiveLocksReq := api_QueryActiveLocksRequest)
        (ActiveLocksResp := api_QueryActiveLocksResponse)
        (TotalLockedAmountReq := api_QueryTotalLockedAmountRequest) (TotalLockedAmountResp :=
            api_QueryTotalLockedAmountResponse)
        (AccountLocksReq := api_QueryAccountLocksRequest) (AccountLocksResp :=
            api_QueryAccountLocksResponse)
        (LocksReq := api_QueryLocksRequest) (LocksResp := api_QueryLocksResponse)) : outcome G :=
  RegisterService api_lockup_Query_ServiceDesc srv s.

Definition api_distro_NewMsgClient (cc : ClientConn W)
    : DistroMsg.MsgClient (W := W) (UpdateParamsReq := api_MsgUpdateParams) (UpdateParamsResp :=
        api_MsgUpdateParamsResponse)
        (MintReq := api_MsgMint) (MintResp := api_MsgMintResponse) :=
  DistroMsg.NewMsgClient (ClientConn0 := cc).
Definition api_distro_Msg_ServiceDesc : ServiceDesc W
    (DistroMsg.MsgServer (W := W) (UpdateParamsReq := api_MsgUpdateParams) (UpdateParamsResp :=
        api_MsgUpdateParamsResponse)
        (MintReq := api_MsgMint) (MintResp := api_MsgMintResponse)) :=
  DistroMsg.Msg_serviceDesc.
Definition api_distro_UnimplementedMsgServer
    : DistroMsg.MsgServer (W := W) (UpdateParamsReq := api_MsgUpdateParams) (UpdateParamsResp :=
        api_MsgUpdateParamsResponse)
        (MintReq := api_MsgMint) (MintResp := api_MsgMintResponse) :=
  DistroMsg.UnimplementedMsgServer.
Definition api_distro_RegisterMsgServer `{!GrpcServer G W} (s : G)
    (srv : DistroMsg.MsgServer (W := W) (UpdateParamsReq := api_MsgUpdateParams) (UpdateParamsResp
        := api_MsgUpdateParamsResponse)
        (MintReq := api_MsgMint) (MintResp := api_MsgMintResponse)) : outcome G :=
  RegisterService api_distro_Msg_ServiceDesc srv s.

Definition api_distro_NewQueryClient (cc : ClientConn W)
    : DistroQueries.QueryClient (W := W) (ParamsReq := api_QueryParamsRequest) (ParamsResp :=
        api_QueryParamsResponse) :=
  DistroQueries.NewQueryClient (ClientConn0 := cc).
Definition api_distro_Query_ServiceDesc : ServiceDesc W
    (DistroQueries.QueryServer (W := W) (ParamsReq := api_QueryParamsRequest) (ParamsResp :=
        api_QueryParamsResponse)) :=
  DistroQueries.Query_serviceDesc.
Definition api_distro_UnimplementedQueryServer
    : DistroQueries.QueryServer (W := W) (ParamsReq := api_QueryParamsRequest) (ParamsResp :=
        api_QueryParamsResponse) :=
  DistroQueries.UnimplementedQueryServer.
Definition api_distro_RegisterQueryServer `{!GrpcServer G W} (s : G)
    (srv : DistroQueries.QueryServer (W := W) (ParamsReq := api_QueryParamsRequest) (ParamsResp :=
        api_QueryParamsResponse)) : outcome G :=
  RegisterService api_distro_Query_ServiceDesc srv s.

End Stubs.
