(* ===== verification/Node.v ===== *)
(** The servers of the node: the keepers behind the service tables of Services.v,
    as the modules register them (x/*/module.go, NewMsgServerImpl and NewQuerier),
    and what a call through a generated client comes to. *)

From stdpp Require Import base list strings.
From Stdlib Require Import ZArith Lia.
From Stdlib.Init Require Import Byte.
From S2P Require Import Prelude GoTime Sdk LockPb LockStore LockupKeeper LockupMsgs LockupQuery Distro Modules ProtoTable ProtoTableProps Gogo TypesLockup TypesDistro GogoProps Services.

Local Open Scope Z_scope.

(** * The messages of the node *)

Section Messages.
Context `{GogoExternal}.

#[export] Instance MsgLock_proto : ProtoMessage MsgLock :=
  MkProtoMessage (d_empty MsgLock_desc) MsgLock_Marshal MsgLock_Unmarshal.
#[export] Instance MsgLockResponse_proto : ProtoMessage MsgLockResponse :=
  MkProtoMessage (d_empty MsgLockResponse_desc) MsgLockResponse_Marshal MsgLockResponse_Unmarshal.
#[export] Instance MsgExtend_proto : ProtoMessage MsgExtend :=
  MkProtoMessage (d_empty MsgExtend_desc) MsgExtend_Marshal MsgExtend_Unmarshal.
#[export] Instance MsgExtendResponse_proto : ProtoMessage MsgExtendResponse :=
  MkProtoMessage (d_empty MsgExtendResponse_desc) MsgExtendResponse_Marshal MsgExtendResponse_Unmarshal.
#[export] Instance MsgSendDelegateAndLock_proto : ProtoMessage MsgSendDelegateAndLock :=
  MkProtoMessage (d_empty MsgSendDelegateAndLock_desc) MsgSendDelegateAndLock_Marshal
    MsgSendDelegateAndLock_Unmarshal.
#[export] Instance MsgSendDelegateAndLockResponse_proto : ProtoMessage MsgSendDelegateAndLockResponse :=
  MkProtoMessage (d_empty MsgSendDelegateAndLockResponse_desc) MsgSendDelegateAndLockResponse_Marshal
    MsgSendDelegateAndLockResponse_Unmarshal.
#[export] Instance MsgMultiSendDelegateAndLock_proto : ProtoMessage MsgMultiSendDelegateAndLock :=
  MkProtoMessage (d_empty MsgMultiSendDelegateAndLock_desc) MsgMultiSendDelegateAndLock_Marshal
    MsgMultiSendDelegateAndLock_Unmarshal.
#[export] Instance MsgMultiSendDelegateAndLockResponse_proto :
    ProtoMessage MsgMultiSendDelegateAndLockResponse :=
  MkProtoMessage (d_empty MsgMultiSendDelegateAndLockResponse_desc)
    MsgMultiSendDelegateAndLockResponse_Marshal MsgMultiSendDelegateAndLockResponse_Unmarshal.

#[export] Instance QueryActiveLocksRequest_proto : ProtoMessage QueryActiveLocksRequest :=
  MkProtoMessage (d_empty QueryActiveLocksRequest_desc) QueryActiveLocksRequest_Marshal
    QueryActiveLocksRequest_Unmarshal.
#[export] Instance QueryActiveLocksResponse_proto : ProtoMessage QueryActiveLocksResponse :=
  MkProtoMessage (d_empty QueryActiveLocksResponse_desc) QueryActiveLocksResponse_Marshal
    QueryActiveLocksResponse_Unmarshal.
#[export] Instance QueryTotalLockedAmountRequest_proto : ProtoMessage QueryTotalLockedAmountRequest :=
  MkProtoMessage (d_empty QueryTotalLockedAmountRequest_desc) QueryTotalLockedAmountRequest_Marshal
    QueryTotalLockedAmountRequest_Unmarshal.
#[export] Instance QueryTotalLockedAmountResponse_proto : ProtoMessage QueryTotalLockedAmountResponse :=
  MkProtoMessage (d_empty QueryTotalLockedAmountResponse_desc) QueryTotalLockedAmountResponse_Marshal
    QueryTotalLockedAmountResponse_Unmarshal.
#[export] Instance QueryAccountLocksRequest_proto : ProtoMessage QueryAccountLocksRequest :=
  MkProtoMessage (d_empty QueryAccountLocksRequest_desc) QueryAccountLocksRequest_Marshal
    QueryAccountLocksRequest_Unmarshal.
#[export] Instance QueryAccountLocksResponse_proto : ProtoMessage QueryAccountLocksResponse :=
  MkProtoMessage (d_empty QueryAccountLocksResponse_desc) QueryAccountLocksResponse_Marshal
    QueryAccountLocksResponse_Unmarshal.
#[export] Instance QueryLocksRequest_proto : ProtoMessage QueryLocksRequest :=
  MkProtoMessage (d_empty QueryLocksRequest_desc) QueryLocksRequest_Marshal QueryLocksRequest_Unmarshal.
#[export] Instance QueryLocksResponse_proto : ProtoMessage QueryLocksResponse :=
  MkProtoMessage (d_empty QueryLocksResponse_desc) QueryLocksResponse_Marshal QueryLocksResponse_Unmarshal.

#[export] Instance MsgUpdateParams_proto : ProtoMessage MsgUpdateParams :=
  MkProtoMessage (d_empty MsgUpdateParams_desc) MsgUpdateParams_Marshal MsgUpdateParams_Unmarshal.
#[export] Instance MsgUpdateParamsResponse_proto : ProtoMessage MsgUpdateParamsResponse :=
  MkProtoMessage (d_empty MsgUpdateParamsResponse_desc) MsgUpdateParamsResponse_Marshal
    MsgUpdateParamsResponse_Unmarshal.
#[export] Instance MsgMint_proto : ProtoMessage MsgMint :=
  MkProtoMessage (d_empty MsgMint_desc) MsgMint_Marshal MsgMint_Unmarshal.
#[export] Instance MsgMintResponse_proto : ProtoMessage MsgMintResponse :=
  MkProtoMessage (d_empty MsgMintResponse_desc) MsgMintResponse_Marshal MsgMintResponse_Unmarshal.
#[export] Instance QueryParamsRequest_proto : ProtoMessage QueryParamsRequest :=
  MkProtoMessage (d_empty QueryParamsRequest_desc) QueryParamsRequest_Marshal QueryParamsRequest_Unmarshal.
#[export] Instance QueryParamsResponse_proto : ProtoMessage QueryParamsResponse :=
  MkProtoMessage (d_empty QueryParamsResponse_desc) QueryParamsResponse_Marshal
    QueryParamsResponse_Unmarshal.
End Messages.

(** * The generated clients *)

Section Clients.
Context `{GogoExternal} {W : Type} `{GrpcMetadata}.

Definition lockup_NewMsgClient (cc : ClientConn W)
    : LockupMsg.MsgClient (W := W) (LockReq := MsgLock) (LockResp := MsgLockResponse)
        (ExtendReq := MsgExtend) (ExtendResp := MsgExtendResponse)
        (SendDelegateAndLockReq := MsgSendDelegateAndLock) (SendDelegateAndLockResp := MsgSendDelegateAndLockResponse)
        (MultiSendDelegateAndLockReq := MsgMultiSendDelegateAndLock) (MultiSendDelegateAndLockResp := MsgMultiSendDelegateAndLockResponse) :=
  LockupMsg.NewMsgClient (ClientConn0 := cc).
Definition lockup_NewQueryClient (cc : ClientConn W)
    : LockupQueries.QueryClient (W := W) (ActiveLocksReq := QueryActiveLocksRequest) (ActiveLocksResp := QueryActiveLocksResponse)
        (TotalLockedAmountReq := QueryTotalLockedAmountRequest) (TotalLockedAmountResp := QueryTotalLockedAmountResponse)
        (AccountLocksReq := QueryAccountLocksRequest) (AccountLocksResp := QueryAccountLocksResponse)
        (LocksReq := QueryLocksRequest) (LocksResp := QueryLocksResponse) :=
  LockupQueries.NewQueryClient (ClientConn0 := cc).
Definition distro_NewMsgClient (cc : ClientConn W)
    : DistroMsg.MsgClient (W := W) (UpdateParamsReq := MsgUpdateParams) (UpdateParamsResp := MsgUpdateParamsResponse)
        (MintReq := MsgMint) (MintResp := MsgMintResponse) :=
  DistroMsg.NewMsgClient (ClientConn0 := cc).
Definition distro_NewQueryClient (cc : ClientConn W)
    : DistroQueries.QueryClient (W := W) (ParamsReq := QueryParamsRequest) (ParamsResp := QueryParamsResponse) :=
  DistroQueries.NewQueryClient (ClientConn0 := cc).
End Clients.

(** * The keepers as servers *)

(** What the methods act on: the context of the call, the world of the lockup
    handlers, which holds the other modules, and the parameters of x/distro. *)
Record NodeState (S X P : Type) := MkNodeState {
  n_ctx : Ctx;
  n_world : World S X;
  n_params : P;
}.
Arguments MkNodeState {S X P}.
Arguments n_ctx {S X P}.
Arguments n_world {S X P}.
Arguments n_params {S X P}.

Definition set_world {S X P} (n : NodeState S X P) (w : World S X) : NodeState S X P :=
  MkNodeState (n_ctx n) w (n_params n).
Definition set_params {S X P} (n : NodeState S X P) (p : P) : NodeState S X P :=
  MkNodeState (n_ctx n) (n_world n) p.

Section Servers.
Context `{SdkMath} `{SdkTypes} {S : Type} `{KVStore S} {X : Type} `{AccountKeeper X}
  `{StakingKeeper X} `{BankKeeper X} {P : Type} `{Item P Params} `{DistroBank X}.
Abbreviation N := (NodeState S X P).

(** x/lockup/keeper: a handler that succeeds returns an empty response. *)
Definition lockup_NewMsgServerImpl
    : LockupMsg.MsgServer (W := N) (LockReq := MsgLock) (ExtendReq := MsgExtend)
        (SendDelegateAndLockReq := MsgSendDelegateAndLock)
        (MultiSendDelegateAndLockReq := MsgMultiSendDelegateAndLock) :=
  LockupMsg.MkMsgServer
    (fun msg n => w ← MsgServer_Lock (n_ctx n) (n_world n) msg; Ok (MkMsgLockResponse, set_world n w))
    (fun msg n => w ← Extend (n_ctx n) (n_world n) msg; Ok (MkMsgExtendResponse, set_world n w))
    (fun msg n => w ← SendDelegateAndLock (n_ctx n) (n_world n) msg;
       Ok (MkMsgSendDelegateAndLockResponse, set_world n w))
    (fun msg n => w ← MultiSendDelegateAndLock (n_ctx n) (n_world n) msg;
       Ok (MkMsgMultiSendDelegateAndLockResponse, set_world n w)).

(** The request of a server is never nil: the handler allocates it. *)
Definition lockup_NewQuerier
    : LockupQueries.QueryServer (W := N) (ActiveLocksReq := QueryActiveLocksRequest)
        (TotalLockedAmountReq := QueryTotalLockedAmountRequest)
        (AccountLocksReq := QueryAccountLocksRequest) (LocksReq := QueryLocksRequest) :=
  LockupQueries.MkQueryServer
    (fun req n =>
       '(locks, page) ← ActiveLocks (n_ctx n) (w_store (n_world n)) (w_ext (n_world n))
          (Some (QueryActiveLocksRequest_Pagination req));
       Ok (MkQueryActiveLocksResponse locks (Some page), n))
    (fun req n =>
       totalLocked ← TotalLockedAmount (n_ctx n) (w_store (n_world n)) (w_ext (n_world n)) (Some tt);
       Ok (MkQueryTotalLockedAmountResponse totalLocked, n))
    (fun req n =>
       '(accounts, page) ← AccountLocks (n_ctx n) (w_store (n_world n)) (w_ext (n_world n))
          (Some (QueryAccountLocksRequest_Addresses req, QueryAccountLocksRequest_Pagination req));
       Ok (MkQueryAccountLocksResponse accounts (Some page), n))
    (fun req n =>
       '(locks, page) ← Query_Locks (n_ctx n) (w_store (n_world n)) (w_ext (n_world n))
          (Some (QueryLocksRequest_Address req, QueryLocksRequest_Pagination req));
       Ok (MkQueryLocksResponse locks (Some page), n)).

(** x/distro/keeper. *)
Definition distro_NewMsgServerImpl (authority : string)
    : DistroMsg.MsgServer (W := N) (UpdateParamsReq := MsgUpdateParams) (MintReq := MsgMint) :=
  DistroMsg.MkMsgServer
    (fun msg n => p ← UpdateParams authority (n_params n) msg;
       Ok (MkMsgUpdateParamsResponse, set_params n p))
    (fun msg n => x ← Mint (n_ctx n) (n_params n) (w_ext (n_world n)) msg;
       Ok (MkMsgMintResponse, set_world n (set_ext (n_world n) x))).

Definition distro_NewQuerier : DistroQueries.QueryServer (W := N) (ParamsReq := QueryParamsRequest) :=
  DistroQueries.MkQueryServer
    (fun _ n => p ← Query_Params (n_params n); Ok (MkQueryParamsResponse (Some p), n)).
End Servers.

(** * Registration *)

(** [module.Configurator]: the server of the messages and the server of the
    queries. *)
Record Configurator (G : Type) := MkConfigurator { cfg_MsgServer : G; cfg_QueryServer : G }.
Arguments MkConfigurator {G}.
Arguments cfg_MsgServer {G}.
Arguments cfg_QueryServer {G}.

Section Registration.
Context `{SdkMath} `{SdkTypes} {S : Type} `{KVStore S} {X : Type} `{AccountKeeper X}
  `{StakingKeeper X} `{BankKeeper X} {P : Type} `{Item P Params} `{DistroBank X}.
Context `{GogoExternal} {G : Type} `{GrpcServer G (NodeState S X P)}.

Definition lockup_RegisterServices (cfg : Configurator G) : outcome (Configurator G) :=
  msgs ← LockupMsg.RegisterMsgServer (cfg_MsgServer cfg) lockup_NewMsgServerImpl;
  queries ← LockupQueries.RegisterQueryServer (cfg_QueryServer cfg) lockup_NewQuerier;
  Ok (MkConfigurator msgs queries).

Definition distro_RegisterServices (authority : string) (cfg : Configurator G) : outcome (Configurator G) :=
  msgs ← DistroMsg.RegisterMsgServer (cfg_MsgServer cfg) (distro_NewMsgServerImpl authority);
  queries ← DistroQueries.RegisterQueryServer (cfg_QueryServer cfg) distro_NewQuerier;
  Ok (MkConfigurator msgs queries).

(** What is on the servers after both modules registered their services. *)
Lemma services_registered `{!GrpcServerLaws G (NodeState S X P)} authority cfg cfg1 cfg2 :
  lockup_RegisterServices cfg = Ok cfg1 -> distro_RegisterServices authority cfg1 = Ok cfg2 ->
  Registered (cfg_MsgServer cfg2) LockupMsg.Msg_serviceDesc lockup_NewMsgServerImpl /\
  Registered (cfg_QueryServer cfg2) LockupQueries.Query_serviceDesc lockup_NewQuerier /\
  Registered (cfg_MsgServer cfg2) DistroMsg.Msg_serviceDesc (distro_NewMsgServerImpl authority) /\
  Registered (cfg_QueryServer cfg2) DistroQueries.Query_serviceDesc distro_NewQuerier.
Proof.
  unfold lockup_RegisterServices, distro_RegisterServices. intros L D.
  ok_inv L. ok_inv D. cbn [cfg_MsgServer cfg_QueryServer].
  assert (forall n : list string, bool_decide (NoDup n) = true -> NoDup n) as ND
    by (intros n; apply bool_decide_eq_true_1).
  cbn [cfg_MsgServer cfg_QueryServer] in *.
  unfold LockupMsg.RegisterMsgServer, LockupQueries.RegisterQueryServer, DistroMsg.RegisterMsgServer,
    DistroQueries.RegisterQueryServer in *.
  repeat split;
    [eapply RegisterService_keeps; [exact E1|]|eapply RegisterService_keeps; [exact E2|]| |];
    (eapply RegisterService_registered; [apply ND; reflexivity|eassumption]).
Qed.

(** C26 Every method of the four services the node registers, called through the
    generated client over a connection to the server, does exactly what the keeper
    method behind it does to the node's state: the name the client sends, the entry
    of the service table and the method agree, and neither request nor response
    changes on the way (for messages their encoding represents). *)
Theorem grpc_calls_reach_keepers `{!GrpcServerLaws G (NodeState S X P)} authority cfg cfg1 cfg2 :
  lockup_RegisterServices cfg = Ok cfg1 -> distro_RegisterServices authority cfg1 = Ok cfg2 ->
  let tx := lockup_NewMsgClient (Connect (cfg_MsgServer cfg2)) in
  let q := lockup_NewQueryClient (Connect (cfg_QueryServer cfg2)) in
  let dtx := distro_NewMsgClient (Connect (cfg_MsgServer cfg2)) in
  let dq := distro_NewQueryClient (Connect (cfg_QueryServer cfg2)) in
  let i := server_interceptor in
  (reaches i "/lockup.v1.Msg/Lock" (LockupMsg.Client_Lock tx)
     (LockupMsg.Server_Lock lockup_NewMsgServerImpl) /\
   reaches i "/lockup.v1.Msg/Extend" (LockupMsg.Client_Extend tx)
     (LockupMsg.Server_Extend lockup_NewMsgServerImpl) /\
   reaches i "/lockup.v1.Msg/SendDelegateAndLock" (LockupMsg.Client_SendDelegateAndLock tx)
     (LockupMsg.Server_SendDelegateAndLock lockup_NewMsgServerImpl) /\
   reaches i "/lockup.v1.Msg/MultiSendDelegateAndLock" (LockupMsg.Client_MultiSendDelegateAndLock tx)
     (LockupMsg.Server_MultiSendDelegateAndLock lockup_NewMsgServerImpl)) /\
  (reaches i "/lockup.v1.Query/ActiveLocks" (LockupQueries.Client_ActiveLocks q)
     (LockupQueries.Server_ActiveLocks lockup_NewQuerier) /\
   reaches i "/lockup.v1.Query/TotalLockedAmount" (LockupQueries.Client_TotalLockedAmount q)
     (LockupQueries.Server_TotalLockedAmount lockup_NewQuerier) /\
   reaches i "/lockup.v1.Query/AccountLocks" (LockupQueries.Client_AccountLocks q)
     (LockupQueries.Server_AccountLocks lockup_NewQuerier) /\
   reaches i "/lockup.v1.Query/Locks" (LockupQueries.Client_Locks q)
     (LockupQueries.Server_Locks lockup_NewQuerier)) /\
  (reaches i "/distro.v1.Msg/UpdateParams" (DistroMsg.Client_UpdateParams dtx)
     (DistroMsg.Server_UpdateParams (distro_NewMsgServerImpl authority)) /\
   reaches i "/distro.v1.Msg/Mint" (DistroMsg.Client_Mint dtx)
     (DistroMsg.Server_Mint (distro_NewMsgServerImpl authority))) /\
  reaches i "/distro.v1.Query/Params" (DistroQueries.Client_Params dq)
    (DistroQueries.Server_Params distro_NewQuerier).
Proof.
  intros L D. destruct (services_registered _ _ _ _ L D) as (R1 & R2 & R3 & R4).
  split; [by apply LockupMsg.LockupMsg_reached|].
  split; [by apply LockupQueries.LockupQueries_reached|].
  split; [by apply DistroMsg.DistroMsg_reached|by apply DistroQueries.DistroQueries_reached].
Qed.
End Registration.

(** ** Messages the encoding represents *)

Section Exact.
Context `{GogoExternalLaws}.

Lemma gogo_exact {T} (d : Desc T) (m : T) :
  desc_ok d -> desc_wf d m -> Size (H := gogo_helpers) d m < 2 ^ 60 ->
  exact (H := MkProtoMessage (d_empty d) (pb_Marshal gogo_helpers d) (pb_Unmarshal gogo_helpers d)) m.
Proof.
  intros O W B. pose proof gogo_helpers_laws.
  destruct (table_exact (H := gogo_helpers) d O m W B) as (buf & E & L & U). exists buf.
  cbn [proto_marshal proto_unmarshal proto_new]. split; [|apply U].
  unfold pb_Marshal, pb_MarshalToSizedBuffer. rewrite E. cbn [mbind outcome_bind].
  rewrite <- L. apply sized_buffer_exact.
Qed.
End Exact.
