(* ===== verification/Registration.v ===== *)
(** What the modules register and offer to clients beside their services:
    x/*/types/codec.go, x/*/autocli.go, the registration parts of x/*/module.go, and the
    query commands of x/*/client/cli. *)

From stdpp Require Import base list sets strings.
From Stdlib Require Import ZArith Lia.
From Stdlib.Init Require Import Byte.
From S2P Require Import Prelude GoTime Sdk LockPb LockStore LockupKeeper LockupMsgs LockupQuery Distro Modules ProtoTable ProtoTableProps Pulsar ApiLockup ApiDistro Gogo TypesLockup TypesDistro GogoProps Services ApiStubs Node.

Local Open Scope Z_scope.

(** * Codecs and interfaces *)

(** The registrations made on an amino codec: a type and its name. *)
Definition LegacyAmino : Type := list (string * string).
Definition RegisterConcrete (type name : string) (cdc : LegacyAmino) : LegacyAmino := cdc ++ [(type, name)].

Definition lockup_RegisterLegacyAminoCodec (cdc : LegacyAmino) : LegacyAmino :=
  let cdc := RegisterConcrete "lockup.v1.MsgLock" (LockupModule.Name +:+ "/MsgLock") cdc in
  let cdc := RegisterConcrete "lockup.v1.MsgExtend" (LockupModule.Name +:+ "/MsgExtend") cdc in
  let cdc := RegisterConcrete "lockup.v1.MsgSendDelegateAndLock"
               (LockupModule.Name +:+ "/MsgSendDelegateAndLock") cdc in
  RegisterConcrete "lockup.v1.MsgMultiSendDelegateAndLock"
    (LockupModule.Name +:+ "/MsgMultiSendDelegateAndLock") cdc.

Definition distro_RegisterLegacyAminoCodec (cdc : LegacyAmino) : LegacyAmino :=
  let cdc := RegisterConcrete "distro.v1.MsgUpdateParams" (DistroModule.Name +:+ "/MsgUpdateParams") cdc in
  RegisterConcrete "distro.v1.MsgMint" (DistroModule.Name +:+ "/MsgMint") cdc.

(** The registrations made on an interface registry: the types registered as [sdk.Msg],
    and the message services with their requests. *)
Record InterfaceRegistry := MkInterfaceRegistry { ir_Msgs : list Type; ir_services : list (string * list Type) }.

Definition RegisterImplementations (msgs : list Type) (r : InterfaceRegistry) : InterfaceRegistry :=
  MkInterfaceRegistry (ir_Msgs r ++ msgs) (ir_services r).
Definition RegisterMsgServiceDesc {W Srv} (sd : ServiceDesc W Srv) (r : InterfaceRegistry) : InterfaceRegistry :=
  MkInterfaceRegistry (ir_Msgs r) (ir_services r ++ [(ServiceName sd, map md_req (Methods sd))]).

Section Interfaces.
Context `{SdkMath} `{SdkTypes} {S : Type} `{KVStore S} {X : Type} `{AccountKeeper X}
  `{StakingKeeper X} `{BankKeeper X} {P : Type} `{Item P Params} `{DistroBank X}.
Context `{GogoExternal}.

Definition lockup_RegisterInterfaces (registry : InterfaceRegistry) : InterfaceRegistry :=
  let registry := RegisterImplementations
    [MsgLock : Type; MsgExtend : Type; MsgSendDelegateAndLock : Type; MsgMultiSendDelegateAndLock : Type]
    registry in
  RegisterMsgServiceDesc
    (LockupMsg.Msg_serviceDesc (W := NodeState S X P) (LockReq := MsgLock) (LockResp := MsgLockResponse)
       (ExtendReq := MsgExtend) (ExtendResp := MsgExtendResponse)
       (SendDelegateAndLockReq := MsgSendDelegateAndLock)
       (SendDelegateAndLockResp := MsgSendDelegateAndLockResponse)
       (MultiSendDelegateAndLockReq := MsgMultiSendDelegateAndLock)
       (MultiSendDelegateAndLockResp := MsgMultiSendDelegateAndLockResponse)) registry.

Definition distro_RegisterInterfaces (registry : InterfaceRegistry) : InterfaceRegistry :=
  let registry := RegisterImplementations [MsgUpdateParams : Type; MsgMint : Type] registry in
  RegisterMsgServiceDesc
    (DistroMsg.Msg_serviceDesc (W := NodeState S X P) (UpdateParamsReq := MsgUpdateParams)
       (UpdateParamsResp := MsgUpdateParamsResponse) (MintReq := MsgMint) (MintResp := MsgMintResponse))
    registry.

(** After both modules, every request of a registered message service is a message. *)
Lemma registered_requests_are_msgs :
  let r := distro_RegisterInterfaces (lockup_RegisterInterfaces (MkInterfaceRegistry [] [])) in
  forall name reqs, (name, reqs) ∈ ir_services r -> reqs ⊆ ir_Msgs r.
Proof. intros r name reqs I. cbn in I |- *.
  apply elem_of_cons in I as [E|I].
  - injection E as -> ->. intros T. set_solver.
  - apply list_elem_of_singleton in I. injection I as -> ->. intros T. set_solver.
Qed.
End Interfaces.

(** Both modules register on one codec without a clash: six types, six names. *)
Lemma amino_names_distinct :
  let cdc := distro_RegisterLegacyAminoCodec (lockup_RegisterLegacyAminoCodec []) in
  NoDup (map fst cdc) /\ NoDup (map snd cdc) /\ length cdc = 6%nat.
Proof.
  split; [apply (bool_decide_unpack _); vm_compute; exact I|].
  split; [apply (bool_decide_unpack _); vm_compute; exact I|reflexivity].
Qed.

(** * Generated commands *)

(** [autocliv1.RpcCommandOptions], with the fields of messages that positional
    arguments fill. *)
Record RpcCommandOptions := MkRpcCommandOptions {
  RpcMethod : string; rpc_Use : string; rpc_Short : string; rpc_Long : string; rpc_Example : string;
  rpc_PositionalArgs : list string; rpc_Skip : bool }.
Record ServiceCommandDescriptor := MkServiceCommandDescriptor {
  sc_Service : string; sc_RpcCommandOptions : list RpcCommandOptions }.
Record ModuleOptions := MkModuleOptions { mo_Query : ServiceCommandDescriptor; mo_Tx : ServiceCommandDescriptor }.

Section AutoCli.
Context `{WireRuntime} `{ApiExternal} {W : Type} `{GrpcMetadata}.

Definition lockup_AutoCLIOptions : ModuleOptions :=
  MkModuleOptions
    (MkServiceCommandDescriptor (ServiceName (api_lockup_Query_ServiceDesc (W := W))) [])
    (MkServiceCommandDescriptor (ServiceName (api_lockup_Msg_ServiceDesc (W := W))) []).

Definition distro_AutoCLIOptions : ModuleOptions :=
  MkModuleOptions
    (MkServiceCommandDescriptor (ServiceName (api_distro_Query_ServiceDesc (W := W)))
       [MkRpcCommandOptions "Params" "params" "Query the current consensus parameters" "" "" [] false])
    (MkServiceCommandDescriptor (ServiceName (api_distro_Msg_ServiceDesc (W := W)))
       [MkRpcCommandOptions "Mint" "mint [amount]" "Mint tokens" "Mint tokens to the minting address"
          "mint [amount]" ["amount"] false;
        MkRpcCommandOptions "UpdateParams" "" "" "" "" [] true]).

(** The options are about methods the services have, and the one positional argument
    is a field of its method's request. *)
Lemma autocli_options_fit :
  map RpcMethod (sc_RpcCommandOptions (mo_Query distro_AutoCLIOptions))
    ⊆ map MethodName (Methods (api_distro_Query_ServiceDesc (W := W))) /\
  map RpcMethod (sc_RpcCommandOptions (mo_Tx distro_AutoCLIOptions))
    ⊆ map MethodName (Methods (api_distro_Msg_ServiceDesc (W := W))) /\
  (forall o, o ∈ sc_RpcCommandOptions (mo_Tx distro_AutoCLIOptions) -> RpcMethod o = "Mint" ->
     rpc_PositionalArgs o ⊆ map f_name (d_fields api_MsgMint_desc)).
Proof.
  split; [cbn; set_solver|]. split; [cbn; set_solver|].
  intros o O M. cbn in O. apply elem_of_cons in O as [->|O]; [cbn; set_solver|].
  apply list_elem_of_singleton in O as ->. done.
Qed.
End AutoCli.

(** * Query commands *)

(** The root commands have the module's name and the sub commands given; of them only
    [params] of x/distro asks the node. *)
Definition lockup_GetQueryCmd : string * list string := (LockupModule.Name, []).
Definition distro_GetQueryCmd : string * list string := (DistroModule.Name, ["params"]).

(** [MsgUpdateParams] of x/distro/client/cli/tx.go: two arguments are asked for, and
    nothing is run. *)
Definition distro_NewTxCmd : string * list string := (DistroModule.Name, ["update-params"]).
Definition MsgUpdateParams_cmd {R} (help : R) (args : list string) : outcome R :=
  if negb (length args =? 2)%nat then Err (FmtErr "accepts %d arg(s), received %d") else Ok help.

Section QueryCmd.
Context `{GogoExternal} {W : Type} `{GrpcMetadata} {Cmd Out : Type}.
Context (GetClientQueryContext : Cmd -> outcome (ClientConn W)) (PrintProto : QueryParamsResponse -> outcome Out).

(** [GetCmdParams] of x/distro, run with [args]. *)
Definition GetCmdParams (cmd : Cmd) (args : list string) (w : W) : outcome (Out * W) :=
  if negb (length args =? 0)%nat then Err (FmtErr "accepts %d arg(s), received %d") else
  clientCtx ← GetClientQueryContext cmd;
  let queryClient := distro_NewQueryClient clientCtx in
  '(res, w) ← fst (DistroQueries.Client_Params queryClient (proto_new QueryParamsRequest) w);
  out ← PrintProto res;
  Ok (out, w).
End QueryCmd.

Section QueryCmdProps.
Context `{SdkMath} `{SdkTypes} {S : Type} `{KVStore S} {X : Type} `{AccountKeeper X}
  `{StakingKeeper X} `{BankKeeper X} {P : Type} `{Item P Params} `{DistroBank X}.
Context `{GogoExternalLaws} {G : Type} `{GrpcServer G (NodeState S X P)}
  `{!GrpcServerLaws G (NodeState S X P)} {Cmd Out : Type}.

(** The params command prints the parameters the keeper of the node it is connected to
    holds, for parameters their encoding represents, and changes nothing. *)
Theorem params_command_prints (GetClientQueryContext : Cmd -> outcome (ClientConn (NodeState S X P)))
    (PrintProto : QueryParamsResponse -> outcome Out) authority cfg cfg1 cfg2 cmd (n : NodeState S X P) p :
  lockup_RegisterServices (G := G) cfg = Ok cfg1 -> distro_RegisterServices authority cfg1 = Ok cfg2 ->
  GetClientQueryContext cmd = Ok (Connect (cfg_QueryServer cfg2)) ->
  server_interceptor (G := G) = None ->
  Query_Params (n_params n) = Ok p -> exact (MkQueryParamsResponse (Some p)) ->
  GetCmdParams GetClientQueryContext PrintProto cmd [] n
  = (out ← PrintProto (MkQueryParamsResponse (Some p)); Ok (out, n)).
Proof.
  intros L D C I Q X0. destruct (services_registered _ _ _ _ L D) as (_ & _ & _ & R).
  apply DistroQueries.DistroQueries_reached in R. unfold GetCmdParams. cbn [length Nat.eqb negb].
  rewrite C. cbn [mbind outcome_bind]. unfold distro_NewQueryClient.
  specialize (R (proto_new QueryParamsRequest) n). rewrite I in R. cbn [intercepted] in R.
  rewrite R.
  - cbn [distro_NewQuerier DistroQueries.Server_Params]. rewrite Q. cbn [mbind outcome_bind]. by destruct (PrintProto _).
  - exists []. split; reflexivity.
  - intros resp w'. cbn [distro_NewQuerier DistroQueries.Server_Params]. rewrite Q. cbn [mbind outcome_bind].
    by intros [= <- <-].
Qed.
End QueryCmdProps.
