(* ===== verification/QueryAgree.v ===== *)
(** Clients of the API packages query the node: what they write is what the node
    reads and the other way round, so a query through the API stubs returns the
    node's answer. *)

From stdpp Require Import base list sets strings.
From Stdlib Require Import ZArith Lia.
From Stdlib.Init Require Import Byte.
From S2P Require Import Prelude GoTime Sdk LockPb LockStore LockupKeeper LockupMsgs LockupQuery Modules Distro ProtoTable ProtoTableProps Pulsar PulsarProps ApiLockup ApiDistro ApiProps Gogo TypesLockup TypesDistro GogoProps WireAgree Services ApiStubs Node.

Local Open Scope Z_scope.

(** * The imported messages *)

(** The SDK's coins and page responses as the API packages have them, and the
    page request a client's one stands for. *)
Class PagesAgree `{ApiExternal} `{GogoExternal} := {
  page_of : ApiPageRequest -> PageRequest;
  coin_to : Coin -> ApiCoin;
  page_to : PageResponse -> ApiPageResponse;
}.

(** The two codecs of a message write [m] and [n] alike. *)
Definition agree {M N} (c : Codec M) (c' : Codec N) (m : M) (n : N) : Prop :=
  same c c' m n /\ c_wf c m /\ c_wf c' n.

Class PagesAgreeLaws `{PagesAgree} : Prop := {
  page_of_agree a : c_wf ApiLockup.PageRequest_codec a -> agree ApiLockup.PageRequest_codec PageRequest_pb a (page_of a);
  coin_to_agree c : c_wf Coin_pb c -> agree Coin_codec Coin_pb (coin_to c) c;
  page_to_agree p : c_wf PageResponse_pb p -> agree ApiLockup.PageResponse_codec PageResponse_pb (page_to p) p;
}.

Section Agree.
Context {R1 : WireRuntime} {L1 : WireLaws} {V1 : StandardVarint}.

(** ** Tables *)

Lemma desc_agree {T U} (d : Desc T) (d' : Desc U) x y :
  desc_ok d -> desc_wf d x -> desc_wf d' y -> Size (H := gogo_helpers) d' y < 2 ^ 60 ->
  Forall2 (field_same x y) (d_fields d) (d_fields d') ->
  agree (desc_codec d) (pb_codec gogo_helpers d') x y.
Proof.
  intros O W W' B F. split; [|done]. apply desc_same; [done|done| |apply W'|done].
  by rewrite (proj2 (table_same d d' x y (proj1 W) (proj1 W') F)).
Qed.

(** Agreeing messages are sent over in both directions. *)
Lemma agree_sends {T U} (d : Desc T) (d' : Desc U) x y :
  desc_ok d -> desc_ok d' -> agree (desc_codec d) (pb_codec gogo_helpers d') x y ->
  Size (H := gogo_helpers) d' y < 2 ^ 60 ->
  let c := api_proto (d_empty d) (ProtoMethods_Marshal d) (ProtoMethods_Unmarshal d) in
  let n := MkProtoMessage (d_empty d') (pb_Marshal gogo_helpers d') (pb_Unmarshal gogo_helpers d') in
  sends (H := c) (H0 := n) x y /\ sends (H := n) (H0 := c) y x.
Proof.
  intros O O' ([Em Es] & W & W') B c n.
  cbn [c_marshal c_size c_wf desc_codec pb_codec] in Em, Es, W, W'.
  destruct (codec_exact _ (desc_codec_lawful d O) x W) as (bz & E & L & Un);
    [cbn [c_size desc_codec]; lia|].
  destruct (gogo_exact d' y O' W' B) as (bz' & E' & U').
  cbn [c_marshal c_unmarshal c_empty desc_codec] in E, Un.
  assert (pb_Marshal gogo_helpers d' y = Ok bz) as Mn.
  { rewrite Em in E. unfold pb_Marshal. rewrite E. cbn [mbind outcome_bind].
    cbn [c_size desc_codec] in L. rewrite <- Es, <- L. apply sized_buffer_exact. }
  cbn [proto_marshal proto_unmarshal proto_new] in E', U'. rewrite Mn in E'. injection E' as <-.
  split; exists bz; cbn [proto_marshal proto_unmarshal proto_new c n api_proto ProtoMethods_Marshal
    ProtoMethods_Unmarshal].
  - rewrite E. split; [done|exact U'].
  - split; [done|]. by rewrite Un.
Qed.

(** ** Fields *)

(** Both pointers are nil, or they hold messages written alike. *)
Definition pointers_same {M N} (c : Codec M) (c' : Codec N) (o : option M) (o' : option N) : Prop :=
  match o, o' with
  | Some m, Some n => same c c' m n
  | None, None => True
  | _, _ => False
  end.

Section Fields.
Context {T U : Type} (x : T) (y : U) (num : Z) (name name' go go' : string).

(** Pointers in both packages. *)
Lemma pointer_same {M N} (c : Codec M) (c' : Codec N) get set get' set' :
  pointers_same c c' (get x) (get' y) ->
  field_same x y (MkField (KMsg c) num name go get set) (MkField (KMsg c') num name' go' get' set').
Proof.
  intros E. unfold field_same, pointers_same in *. cbn [f_kind f_get kind_bytes kind_size].
  change (field_tag (MkField (KMsg c') num name' go' get' set'))
    with (field_tag (MkField (KMsg c) num name go get set)).
  split; [done|]. destruct (get x) as [m|], (get' y) as [n|]; try done. destruct E as [-> ->].
  rewrite len_size_same. split; [|done].
  destruct (c_marshal c' n); [|done..]. cbn [mbind outcome_bind]. by rewrite delimited_same.
Qed.

(** Pointers in the API package, values in the types package. *)
Lemma values_same {M N} (c : Codec M) (c' : Codec N) get set get' set' :
  Forall2 (fun a b => exists m n, a = Some m /\ b = Some n /\ same c c' m n) (get x) (map Some (get' y)) ->
  field_same x y (MkField (KRep c) num name go get set) (MkField (KRepVal c') num name' go' get' set').
Proof.
  intros F. unfold field_same. cbn [f_kind f_get kind_bytes kind_size].
  change (field_tag (MkField (KRepVal c') num name' go' get' set'))
    with (field_tag (MkField (KRep c) num name go get set)).
  destruct (rep_same c c' (field_tag (MkField (KRep c) num name go get set)) _ _ F) as [-> ->]. done.
Qed.
End Fields.

(** The elements of a repeated field of the node's message. *)
Lemma values_agree {M N} (c : Codec M) (d' : Desc N) (to : N -> M) l :
  desc_ok d' ->
  (forall n, desc_wf d' n -> Size (H := gogo_helpers) d' n < 2 ^ 60 ->
     agree c (pb_codec gogo_helpers d') (to n) n) ->
  Forall (desc_wf d') l -> rep_size (H := gogo_helpers) (pb_codec gogo_helpers d') (map Some l) < 2 ^ 60 ->
  Forall2 (fun a b => exists m n, a = Some m /\ b = Some n /\ same c (pb_codec gogo_helpers d') m n)
    (map (fun n => Some (to n)) l) (map Some l) /\
  Forall (fun e => exists m, e = Some m /\ c_wf c m) (map (fun n => Some (to n)) l).
Proof.
  intros O A W B. pose proof gogo_helpers_laws as GL.
  assert (Forall (fun n => agree c (pb_codec gogo_helpers d') (to n) n) l) as As.
  { apply Forall_forall. intros n I. pose proof (proj1 (Forall_forall _ _) W n I) as Wn. apply A; [done|].
    assert (elem_size (pb_codec gogo_helpers d') (Some n) <= rep_size (H := gogo_helpers)
      (pb_codec gogo_helpers d') (map Some l)) as Le; [|cbn [elem_size c_size pb_codec] in Le; lia].
    apply (rep_size_elem (H := gogo_helpers)); [by apply pb_codec_lawful| |by apply list_elem_of_fmap_2].
    clear -W. induction W; constructor; eauto. }
  clear -As. induction As as [|n l (S & Wm & Wn) _ [IH1 IH2]]; cbn [map]; split; constructor; eauto 6.
Qed.
End Agree.

(** * Requests and responses *)

Section Queries.
Context {R1 : WireRuntime} {L1 : WireLaws} {V1 : StandardVarint}.
Context `{EL : ApiExternalLaws} `{GL : GogoExternalLaws} `{!PagesAgree} `{!PagesAgreeLaws}.

(** The request of the node a client's request stands for. *)
Definition QueryActiveLocksRequest_of (x : api_QueryActiveLocksRequest) : QueryActiveLocksRequest :=
  MkQueryActiveLocksRequest (page_of <$> api_QueryActiveLocksRequest_Pagination x).
Definition QueryTotalLockedAmountRequest_of (x : api_QueryTotalLockedAmountRequest) :
    QueryTotalLockedAmountRequest := MkQueryTotalLockedAmountRequest.
Definition QueryAccountLocksRequest_of (x : api_QueryAccountLocksRequest) : QueryAccountLocksRequest :=
  MkQueryAccountLocksRequest (api_QueryAccountLocksRequest_Addresses x)
    (page_of <$> api_QueryAccountLocksRequest_Pagination x).
Definition QueryLocksRequest_of (x : api_QueryLocksRequest) : QueryLocksRequest :=
  MkQueryLocksRequest (api_QueryLocksRequest_Address x) (page_of <$> api_QueryLocksRequest_Pagination x).
Definition QueryParamsRequest_of (x : api_QueryParamsRequest) : QueryParamsRequest := MkQueryParamsRequest.

(** A response of the node as the client sees it. *)
Definition ActiveLockResource_to (r : ActiveLockResource) : api_ActiveLockResource :=
  Mk_api_ActiveLockResource (ALR_Address r) (ALR_UnlockDate r) (Some (coin_to (ALR_Amount r))) [].
Definition LockResource_to (r : LockResource) : api_LockResource :=
  Mk_api_LockResource (LR_UnlockDate r) (Some (coin_to (LR_Amount r))) [].
Definition AccountLocksResource_to (r : AccountLocksResource) : api_AccountLocksResource :=
  Mk_api_AccountLocksResource (AcLR_Address r) (map (fun l => Some (LockResource_to l)) (AcLR_Locks r)) [].
Definition Params_to (p : Params) : api_Params :=
  Mk_api_Params (MintingAddress p) (ReceivingAddress p) (ParamsDenom p) (ParamsMaxSupply p)
    (DistributionStartDate p) (MonthsInHalvingPeriod p) [].

Definition QueryActiveLocksResponse_to (r : QueryActiveLocksResponse) : api_QueryActiveLocksResponse :=
  Mk_api_QueryActiveLocksResponse
    (map (fun l => Some (ActiveLockResource_to l)) (QueryActiveLocksResponse_Locks r))
    (page_to <$> QueryActiveLocksResponse_Pagination r) [].
Definition QueryTotalLockedAmountResponse_to (r : QueryTotalLockedAmountResponse) :
    api_QueryTotalLockedAmountResponse :=
  Mk_api_QueryTotalLockedAmountResponse (Some (coin_to (QueryTotalLockedAmountResponse_TotalLocked r))) [].
Definition QueryAccountLocksResponse_to (r : QueryAccountLocksResponse) : api_QueryAccountLocksResponse :=
  Mk_api_QueryAccountLocksResponse
    (map (fun a => Some (AccountLocksResource_to a)) (QueryAccountLocksResponse_Accounts r))
    (page_to <$> QueryAccountLocksResponse_Pagination r) [].
Definition QueryLocksResponse_to (r : QueryLocksResponse) : api_QueryLocksResponse :=
  Mk_api_QueryLocksResponse (map (fun l => Some (LockResource_to l)) (QueryLocksResponse_Locks r))
    (page_to <$> QueryLocksResponse_Pagination r) [].
Definition QueryParamsResponse_to (r : QueryParamsResponse) : api_QueryParamsResponse :=
  Mk_api_QueryParamsResponse (Params_to <$> QueryParamsResponse_Params r) [].

(** The pagination of a request, and of a response. *)
Lemma page_request_agree (o : option ApiPageRequest) :
  match o with Some a => c_wf ApiLockup.PageRequest_codec a | None => True end ->
  pointers_same ApiLockup.PageRequest_codec PageRequest_pb o (page_of <$> o) /\ match page_of <$> o with Some n => c_wf PageRequest_pb n | None => True end.
Proof. destruct o as [a|]; [|done]. intros W. by destruct (page_of_agree a W) as (S & _ & W'). Qed.

Lemma page_response_agree (o : option PageResponse) :
  match o with Some p => c_wf PageResponse_pb p | None => True end ->
  pointers_same ApiLockup.PageResponse_codec PageResponse_pb (page_to <$> o) o /\ match page_to <$> o with Some n => c_wf ApiLockup.PageResponse_codec n | None => True end.
Proof. destruct o as [p|]; [|done]. intros W. by destruct (page_to_agree p W) as (S & W' & _). Qed.

Lemma ActiveLockResource_agree r :
  desc_wf ActiveLockResource_desc r -> Size (H := gogo_helpers) ActiveLockResource_desc r < 2 ^ 60 ->
  agree (desc_codec api_ActiveLockResource_desc) ActiveLockResource_codec (ActiveLockResource_to r) r.
Proof.
  intros W B. pose proof W as W'. split_wf W'. destruct (coin_to_agree _ W2) as (S & Wa & _).
  apply desc_agree; [apply api_ActiveLockResource_ok|wf_fields; exact Wa|done|done|].
  scalars_same. by eapply message_same.
Qed.

Lemma LockResource_agree r :
  desc_wf LockResource_desc r -> Size (H := gogo_helpers) LockResource_desc r < 2 ^ 60 ->
  agree (desc_codec api_LockResource_desc) LockResource_codec (LockResource_to r) r.
Proof.
  intros W B. pose proof W as W'. split_wf W'. destruct (coin_to_agree _ W1) as (S & Wa & _).
  apply desc_agree; [apply api_LockResource_ok|wf_fields; exact Wa|done|done|].
  scalars_same. by eapply message_same.
Qed.

(** A repeated field of the node's message, by its place in the table. *)
Ltac elements d' i Wf A :=
  match goal with
  | W : desc_wf ?d ?x, B : Size (H := gogo_helpers) ?d ?x < _ |- _ =>
      let Bf := fresh "Bf" in
      pose proof (api_field_size (R1 := gogo_helpers) d x i _ ltac:(solve_desc_ok) W B eq_refl) as Bf;
      destruct (values_agree _ d' _ _ ltac:(solve_desc_ok) A Wf Bf) as [Es Ws]
  end.

Lemma AccountLocksResource_agree r :
  desc_wf AccountLocksResource_desc r -> Size (H := gogo_helpers) AccountLocksResource_desc r < 2 ^ 60 ->
  agree (desc_codec api_AccountLocksResource_desc) AccountLocksResource_codec (AccountLocksResource_to r) r.
Proof.
  intros W B. pose proof W as W'. pose proof gogo_helpers_laws. split_wf W'.
  elements LockResource_desc 1%nat W1 LockResource_agree.
  apply desc_agree; [apply api_AccountLocksResource_ok|wf_fields; exact Ws|done|done|].
  scalars_same. by apply values_same.
Qed.

(** ** What is sent *)

(** A message within the limits of its encoding. *)
Definition sized {W : WireRuntime} {T} (d : Desc T) (x : T) : Prop := desc_wf d x /\ Size d x < 2 ^ 60.

Lemma request_sends {T U} (d : Desc T) (d' : Desc U) x y :
  desc_ok d -> desc_ok d' -> sized d x -> desc_wf d' y ->
  Forall2 (field_same x y) (d_fields d) (d_fields d') ->
  sends (H := api_proto (d_empty d) (ProtoMethods_Marshal d) (ProtoMethods_Unmarshal d))
    (H0 := MkProtoMessage (d_empty d') (pb_Marshal gogo_helpers d') (pb_Unmarshal gogo_helpers d')) x y.
Proof.
  intros O O' [W B] W' F.
  assert (Size (H := gogo_helpers) d' y < 2 ^ 60) as B'
    by (by rewrite <- (proj2 (table_same d d' x y (proj1 W) (proj1 W') F))).
  by apply (agree_sends d d' x y O O' (desc_agree d d' x y O W W' B' F) B').
Qed.

Lemma response_sends {T U} (d : Desc T) (d' : Desc U) x y :
  desc_ok d -> desc_ok d' -> desc_wf d x -> sized (W := gogo_helpers) d' y ->
  Forall2 (field_same x y) (d_fields d) (d_fields d') ->
  sends (H := MkProtoMessage (d_empty d') (pb_Marshal gogo_helpers d') (pb_Unmarshal gogo_helpers d'))
    (H0 := api_proto (d_empty d) (ProtoMethods_Marshal d) (ProtoMethods_Unmarshal d)) y x.
Proof.
  intros O O' W [W' B] F.
  by apply (agree_sends d d' x y O O' (desc_agree d d' x y O W W' B F) B).
Qed.

Ltac by_request := apply request_sends; [solve_desc_ok|solve_desc_ok|done|wf_fields|scalars_same].
Ltac by_response := apply response_sends; [solve_desc_ok|solve_desc_ok|wf_fields|done|scalars_same].

Lemma ActiveLocksRequest_sends x :
  sized api_QueryActiveLocksRequest_desc x -> sends x (QueryActiveLocksRequest_of x).
Proof.
  intros S. pose proof S as [W _]. split_wf W. destruct (page_request_agree _ W0).
  by_request; [assumption|apply pointer_same; assumption].
Qed.
Lemma TotalLockedAmountRequest_sends x :
  sized api_QueryTotalLockedAmountRequest_desc x -> sends x (QueryTotalLockedAmountRequest_of x).
Proof. intros S. by_request. Qed.
Lemma AccountLocksRequest_sends x :
  sized api_QueryAccountLocksRequest_desc x -> sends x (QueryAccountLocksRequest_of x).
Proof.
  intros S. pose proof S as [W _]. split_wf W. destruct (page_request_agree _ W1).
  by_request; [assumption|apply pointer_same; assumption].
Qed.
Lemma LocksRequest_sends x :
  sized api_QueryLocksRequest_desc x -> sends x (QueryLocksRequest_of x).
Proof.
  intros S. pose proof S as [W _]. split_wf W. destruct (page_request_agree _ W1).
  by_request; [assumption|apply pointer_same; assumption].
Qed.
Lemma ParamsRequest_sends x :
  sized api_QueryParamsRequest_desc x -> sends x (QueryParamsRequest_of x).
Proof. intros S. by_request. Qed.

Lemma ActiveLocksResponse_sends r :
  sized (W := gogo_helpers) QueryActiveLocksResponse_desc r -> sends r (QueryActiveLocksResponse_to r).
Proof.
  intros S. pose proof S as [W B]. pose proof gogo_helpers_laws. pose proof W as W'. split_wf W'.
  elements ActiveLockResource_desc 0%nat W0 ActiveLockResource_agree. destruct (page_response_agree _ W1).
  by_response; [exact Ws|assumption|apply values_same; assumption|apply pointer_same; assumption].
Qed.
Lemma TotalLockedAmountResponse_sends r :
  sized (W := gogo_helpers) QueryTotalLockedAmountResponse_desc r ->
  sends r (QueryTotalLockedAmountResponse_to r).
Proof.
  intros S. pose proof S as [W _]. split_wf W. destruct (coin_to_agree _ W0) as (Sm & Wa & _).
  by_response; [exact Wa|by eapply message_same].
Qed.
Lemma AccountLocksResponse_sends r :
  sized (W := gogo_helpers) QueryAccountLocksResponse_desc r -> sends r (QueryAccountLocksResponse_to r).
Proof.
  intros S. pose proof S as [W B]. pose proof gogo_helpers_laws. pose proof W as W'. split_wf W'.
  elements AccountLocksResource_desc 0%nat W0 AccountLocksResource_agree.
  destruct (page_response_agree _ W1).
  by_response; [exact Ws|assumption|apply values_same; assumption|apply pointer_same; assumption].
Qed.
Lemma LocksResponse_sends r :
  sized (W := gogo_helpers) QueryLocksResponse_desc r -> sends r (QueryLocksResponse_to r).
Proof.
  intros S. pose proof S as [W B]. pose proof gogo_helpers_laws. pose proof W as W'. split_wf W'.
  elements LockResource_desc 0%nat W0 LockResource_agree. destruct (page_response_agree _ W1).
  by_response; [exact Ws|assumption|apply values_same; assumption|apply pointer_same; assumption].
Qed.

Lemma Params_agree p :
  desc_wf Params_desc p -> Size (H := gogo_helpers) Params_desc p < 2 ^ 60 ->
  agree (desc_codec api_Params_desc) Params_codec (Params_to p) p.
Proof.
  intros W B. pose proof W as W'. split_wf W'.
  apply desc_agree; [apply api_Params_ok|by wf_fields|done|done|]. scalars_same.
Qed.

Lemma ParamsResponse_sends r :
  sized (W := gogo_helpers) QueryParamsResponse_desc r -> sends r (QueryParamsResponse_to r).
Proof.
  intros S. pose proof S as [W B]. pose proof gogo_helpers_laws. pose proof W as W'. split_wf W'.
  pose proof (api_field_size (R1 := gogo_helpers) QueryParamsResponse_desc r 0 _ ltac:(solve_desc_ok) W B
    eq_refl) as Bf.
  assert (pointers_same (desc_codec api_Params_desc) Params_codec
            (Params_to <$> QueryParamsResponse_Params r) (QueryParamsResponse_Params r) /\
          match Params_to <$> QueryParamsResponse_Params r with
          | Some m => desc_wf api_Params_desc m | None => True end) as [Sp Wp].
  { cbn [f_kind f_get kind_size] in Bf. destruct (QueryParamsResponse_Params r) as [p|]; [|done].
    destruct (Params_agree p) as (Sa & Wa & _); [exact W0| |done].
    pose proof (len_size_gt (H := gogo_helpers) (c_size Params_codec p)) as Lt.
    exact (Z.lt_trans _ _ _ Lt Bf). }
  by_response; [exact Wp|apply pointer_same; exact Sp].
Qed.
End Queries.

(** * Queries through the API stubs *)

(** A call with the client's types: it returns what [method] returns for the
    request that is meant, as the client sees it. *)
Definition answers {W A B A' B'} `{GrpcMetadata} (i : option (Interceptor W)) (FullMethod : string)
    (c : call W A' B') (method : rpc W A B) (read : A' -> A) (show : B -> B')
    (req_ok : A' -> Prop) (resp_ok : B -> Prop) : Prop :=
  forall x w, req_ok x ->
    (forall resp w', intercepted i FullMethod method (read x) w = Ok (resp, w') -> resp_ok resp) ->
    fst (c x w) = ('(resp, w') ← intercepted i FullMethod method (read x) w; Ok (show resp, w')).

Lemma unary_call_answers {W Srv A B A' B'} `{ClientConn W}
    `{!ProtoMessage A, !ProtoMessage B, !ProtoMessage A', !ProtoMessage B'}
    (sd : ServiceDesc W Srv) (srv : Srv) i name FullMethod (method : Srv -> rpc W A B)
    (read : A' -> A) (show : B -> B') (req_ok : A' -> Prop) (resp_ok : B -> Prop) :
  serves sd srv i ->
  MkMethodDesc name (unary_handler FullMethod method) ∈ Methods sd ->
  FullMethod = "/" +:+ ServiceName sd +:+ "/" +:+ name ->
  (forall x, req_ok x -> sends x (read x)) -> (forall r, resp_ok r -> sends r (show r)) ->
  answers i FullMethod (unary_client FullMethod) (method srv) read show req_ok resp_ok.
Proof.
  intros S M F Q R x w X Rok. rewrite (unary_call_crosses sd srv i name FullMethod method x (read x) w S M F (Q x X)).
  destruct (intercepted i _ (method srv) (read x) w) as [[resp w']|e|p|]; cbn [mbind outcome_bind]; try done.
  destruct (R resp (Rok resp w' eq_refl)) as (bz & Mr & Ur). rewrite Mr. cbn [mbind outcome_bind].
  by rewrite Ur.
Qed.

Section Node.
Context {R1 : WireRuntime} {L1 : WireLaws} {V1 : StandardVarint}.
Context `{EL : ApiExternalLaws} `{GL : GogoExternalLaws} `{!PagesAgree} `{!PagesAgreeLaws}.
Context `{SdkMath} `{SdkTypes} {S : Type} `{KVStore S} {X : Type} `{AccountKeeper X}
  `{StakingKeeper X} `{BankKeeper X} {P : Type} `{Item P Params} `{DistroBank X}.
Context {G : Type} `{GrpcServer G (NodeState S X P)} `{!GrpcServerLaws G (NodeState S X P)}.

Ltac by_call R req resp :=
  eapply (unary_call_answers _ _ _ _ _ _ _ _ _ _ R); [|reflexivity|exact req|exact resp]; set_solver.

(** C33 A client built with the API packages, connected to the node's query server,
    gets from each of the five queries what the keeper answers: the keeper sees the
    request the client built, and the client the response (or the error) the keeper
    returned, field by field, although both sides have generated codecs and Go types
    of their own. *)
Theorem api_queries_answered authority cfg cfg1 cfg2 :
  lockup_RegisterServices cfg = Ok cfg1 -> distro_RegisterServices authority cfg1 = Ok cfg2 ->
  let q := api_lockup_NewQueryClient (Connect (cfg_QueryServer cfg2)) in
  let dq := api_distro_NewQueryClient (Connect (cfg_QueryServer cfg2)) in
  let i := server_interceptor in
  let node_ok {T} (d : Desc T) := sized (W := gogo_helpers) d in
  answers i "/lockup.v1.Query/ActiveLocks" (LockupQueries.Client_ActiveLocks q)
    (LockupQueries.Server_ActiveLocks lockup_NewQuerier)
    QueryActiveLocksRequest_of QueryActiveLocksResponse_to
    (sized api_QueryActiveLocksRequest_desc) (node_ok QueryActiveLocksResponse_desc) /\
  answers i "/lockup.v1.Query/TotalLockedAmount" (LockupQueries.Client_TotalLockedAmount q)
    (LockupQueries.Server_TotalLockedAmount lockup_NewQuerier)
    QueryTotalLockedAmountRequest_of QueryTotalLockedAmountResponse_to
    (sized api_QueryTotalLockedAmountRequest_desc) (node_ok QueryTotalLockedAmountResponse_desc) /\
  answers i "/lockup.v1.Query/AccountLocks" (LockupQueries.Client_AccountLocks q)
    (LockupQueries.Server_AccountLocks lockup_NewQuerier)
    QueryAccountLocksRequest_of QueryAccountLocksResponse_to
    (sized api_QueryAccountLocksRequest_desc) (node_ok QueryAccountLocksResponse_desc) /\
  answers i "/lockup.v1.Query/Locks" (LockupQueries.Client_Locks q)
    (LockupQueries.Server_Locks lockup_NewQuerier)
    QueryLocksRequest_of QueryLocksResponse_to
    (sized api_QueryLocksRequest_desc) (node_ok QueryLocksResponse_desc) /\
  answers i "/distro.v1.Query/Params" (DistroQueries.Client_Params dq)
    (DistroQueries.Server_Params distro_NewQuerier)
    QueryParamsRequest_of QueryParamsResponse_to
    (sized api_QueryParamsRequest_desc) (node_ok QueryParamsResponse_desc).
Proof.
  intros L D. destruct (services_registered _ _ _ _ L D) as (_ & R2 & _ & R4).
  apply Registered_serves in R2, R4.
  split; [by_call R2 ActiveLocksRequest_sends ActiveLocksResponse_sends|].
  split; [by_call R2 TotalLockedAmountRequest_sends TotalLockedAmountResponse_sends|].
  split; [by_call R2 AccountLocksRequest_sends AccountLocksResponse_sends|].
  split; [by_call R2 LocksRequest_sends LocksResponse_sends|].
  by_call R4 ParamsRequest_sends ParamsResponse_sends.
Qed.
End Node.
