(* ===== verification/Gateway.v ===== *)
(** The HTTP gateways of both modules' queries: x/lockup/types/query.pb.gw.go and
    x/distro/types/query.pb.gw.go, and how the modules register them.  A handler
    turns a GET request into a query, asks a server in the same process or a client
    connected to one, and forwards the response. *)

From stdpp Require Import base list strings gmap.
From Stdlib Require Import ZArith Lia.
From Stdlib.Init Require Import Byte.
From S2P Require Import Prelude Sdk LockPb LockupQuery Modules ProtoTable ProtoTableProps Gogo TypesLockup TypesDistro Services Node.

Local Open Scope Z_scope.

(** * The gateway runtime *)

(** [utilities.DoubleArray]: a set of field paths. *)
Record DoubleArray := MkDoubleArray { Encoding : list (string * Z); Base : list Z; Check_ : list Z }.
(** What protoc-gen-grpc-gateway writes for the set of one path of one component. *)
Definition single_path (name : string) : DoubleArray := MkDoubleArray [(name, 0)] [1; 1; 0] [0; 1; 2].

(** [runtime.NewPattern(version, ops, pool, verb, AssumeColonVerbOpt(b))]. *)
Record Pattern := NewPattern {
  pat_version : Z;
  pat_ops : list Z;
  pat_pool : list string;
  pat_verb : string;
  pat_AssumeColonVerb : bool;
}.

Abbreviation path_params := (gmap string string).

(** What a handler writes: an error, with the metadata of the call once there was
    one, or the response of the query. *)
Inductive http_reply `{GrpcMetadata} :=
  | HTTPError (md : option ServerMetadata) (e : error)
  | ForwardResponseMessage {B} `{ProtoMessage B} (md : ServerMetadata) (resp : B).

Definition http_handler (W Request : Type) `{GrpcMetadata} : Type :=
  Request -> path_params -> W -> outcome http_reply.

(** Package runtime of grpc-gateway: the query string of a request, filling the
    fields of a message from it, contexts, and the request multiplexer. *)
Class GatewayRuntime (M Request W : Type) `{GrpcMetadata} := {
  Form : Type;
  ParseForm : Request -> outcome Form;
  PopulateQueryParameters {T} : Desc T -> T -> Form -> DoubleArray -> outcome T;
  runtime_String : string -> outcome string;
  AnnotateContext : Request -> W -> outcome W;
  AnnotateIncomingContext : Request -> W -> outcome W;
  Match : Pattern -> list string -> option path_params;
  Handle : string -> Pattern -> http_handler W Request -> M -> M;
  Dispatch : M -> string -> list string -> option (http_handler W Request * path_params);
}.

(** The opcodes of a template of literals, and of one that ends with a variable. *)
Definition literal_ops (n : nat) : list Z := flat_map (fun i => [2; Z.of_nat i]) (seq 0 n).
Definition variable_ops (n : nat) : list Z := literal_ops n ++ [1; 0; 4; 1; 5; Z.of_nat n].

(** What the documentation of the package says of it. *)
Class GatewayLaws (M Request W : Type) `{GatewayRuntime M Request W} : Prop := {
  (** [String] passes its argument. *)
  runtime_String_id s : runtime_String s = Ok s;
  (** A field that is the one path of the filter is left alone. *)
  Populate_filter {T} (d : Desc T) x form y fd :
    desc_ok d -> PopulateQueryParameters d x form (single_path (f_name fd)) = Ok y ->
    fd ∈ d_fields d -> f_get fd y = f_get fd x;
  Match_literals lits path :
    Match (NewPattern 1 (literal_ops (length lits)) lits "" false) path
    = if decide (path = lits) then Some ∅ else None;
  Match_variable lits var path :
    Match (NewPattern 1 (variable_ops (length lits)) (lits ++ [var]) "" false) path
    = match drop (length lits) path with
      | [v] => if decide (take (length lits) path = lits) then Some {[var := v]} else None
      | _ => None
      end;
  (** A route is taken by the requests it matches, and only by them; where two
      match nothing is said. *)
  Dispatch_new meth pat h m path params :
    Match pat path = Some params -> Dispatch m meth path = None ->
    Dispatch (Handle meth pat h m) meth path = Some (h, params);
  Dispatch_old meth pat h m meth' path :
    meth' <> meth \/ Match pat path = None ->
    Dispatch (Handle meth pat h m) meth' path = Dispatch m meth' path;
}.

(** * Handlers *)

Section Handlers.
Context {M Request W : Type} `{GatewayRuntime M Request W}.

(** [status.Errorf(codes.InvalidArgument, format, ...)]. *)
Definition invalid {A} (format : string) (m : outcome A) : outcome A :=
  wrap_err (fun _ => StatusErr InvalidArgument format) m.

(** [ParseForm] and [PopulateQueryParameters], which most requests start with. *)
Definition populate {T} (d : Desc T) (protoReq : T) (req : Request) (filter : DoubleArray) : outcome T :=
  form ← invalid "%v" (ParseForm req);
  invalid "%v" (PopulateQueryParameters d protoReq form filter).

(** The call at the end of a [request_Query_*_0], which reports its metadata. *)
Definition with_client {A B} (protoReq : outcome A) (c : call W A B) (w : W) :
    outcome (B * W) * ServerMetadata :=
  match protoReq with
  | Ok r => c r w
  | Err e => (Err e, no_metadata)
  | Panic p => (Panic p, no_metadata)
  | OutOfFuel => (OutOfFuel, no_metadata)
  end.

(** The call at the end of a [local_request_Query_*_0]. *)
Definition with_server {A B} (protoReq : outcome A) (method : rpc W A B) (w : W) :
    outcome (B * W) * ServerMetadata :=
  (r ← protoReq; method r w, no_metadata).

(** The end of every handler: an error or the response, with the metadata. *)
Definition finish {B} `{!ProtoMessage B} (r : outcome (B * W)) (md : ServerMetadata) : outcome http_reply :=
  catch r (fun '(resp, _) => Ok (ForwardResponseMessage md resp))
    (fun e => Ok (HTTPError (Some md) e)).

(** The handlers of [RegisterQueryHandlerClient]. *)
Definition client_handler {B} `{!ProtoMessage B}
    (request : Request -> path_params -> W -> outcome (B * W) * ServerMetadata) : http_handler W Request :=
  fun req pathParams ctx =>
    catch (AnnotateContext req ctx)
      (fun rctx => let '(resp, md) := request req pathParams rctx in finish resp md)
      (fun e => Ok (HTTPError None e)).

(** The handlers of [RegisterQueryHandlerServer]: the metadata of the stream are
    joined.  No keeper writes to the stream. *)
Definition server_handler {B} `{!ProtoMessage B}
    (local_request : Request -> path_params -> W -> outcome (B * W) * ServerMetadata) :
    http_handler W Request :=
  fun req pathParams ctx =>
    let stream := no_metadata in
    catch (AnnotateIncomingContext req ctx)
      (fun rctx =>
         let '(resp, md) := local_request req pathParams rctx in
         finish resp (MkServerMetadata (MD_Join (HeaderMD md) (HeaderMD stream))
                        (MD_Join (TrailerMD md) (TrailerMD stream))))
      (fun e => Ok (HTTPError None e)).
End Handlers.

(** How the connection of a [RegisterQueryHandlerFromEndpoint] ends. *)
Inductive conn_end := ClosedNow | ClosedWhenDone.

(** [defer]: the connection is closed at once after an error, and when the context
    is done otherwise. *)
Definition from_endpoint {Conn M} (dial : outcome Conn) (register : Conn -> outcome M) :
    outcome M * option (Conn * conn_end) :=
  match dial with
  | Ok conn =>
      let r := register conn in
      (r, Some (conn, match r with Err _ => ClosedNow | _ => ClosedWhenDone end))
  | Err e => (Err e, None)
  | Panic p => (Panic p, None)
  | OutOfFuel => (OutOfFuel, None)
  end.

(** * x/lockup/types/query.pb.gw.go *)

Module LockupGateway.
Import LockupQueries.

Definition filter_Query_ActiveLocks_0 : DoubleArray := MkDoubleArray [] [] [].
Definition filter_Query_AccountLocks_0 : DoubleArray := MkDoubleArray [] [] [].
Definition filter_Query_Locks_0 : DoubleArray := MkDoubleArray [("address", 0)] [1; 1; 0] [0; 1; 2].

Definition pattern_Query_ActiveLocks_0 : Pattern :=
  NewPattern 1 [2; 0; 2; 1; 2; 2] ["tsc"; "lockup"; "active_locks"] "" false.
Definition pattern_Query_TotalLockedAmount_0 : Pattern :=
  NewPattern 1 [2; 0; 2; 1; 2; 2] ["tsc"; "lockup"; "total_locked_amount"] "" false.
Definition pattern_Query_AccountLocks_0 : Pattern :=
  NewPattern 1 [2; 0; 2; 1; 2; 2] ["tsc"; "lockup"; "account_locks"] "" false.
Definition pattern_Query_Locks_0 : Pattern :=
  NewPattern 1 [2; 0; 2; 1; 2; 2; 1; 0; 4; 1; 5; 3] ["tsc"; "lockup"; "account_locks"; "address"] "" false.

Section Gateway.
Context `{GogoExternal} {M Request W : Type} `{GatewayRuntime M Request W}.

Abbreviation Client := (QueryClient (W := W) (ActiveLocksReq := QueryActiveLocksRequest)
  (ActiveLocksResp := QueryActiveLocksResponse) (TotalLockedAmountReq := QueryTotalLockedAmountRequest)
  (TotalLockedAmountResp := QueryTotalLockedAmountResponse) (AccountLocksReq := QueryAccountLocksRequest)
  (AccountLocksResp := QueryAccountLocksResponse) (LocksReq := QueryLocksRequest)
  (LocksResp := QueryLocksResponse)).
Abbreviation Server := (QueryServer (W := W) (ActiveLocksReq := QueryActiveLocksRequest)
  (ActiveLocksResp := QueryActiveLocksResponse) (TotalLockedAmountReq := QueryTotalLockedAmountRequest)
  (TotalLockedAmountResp := QueryTotalLockedAmountResponse) (AccountLocksReq := QueryAccountLocksRequest)
  (AccountLocksResp := QueryAccountLocksResponse) (LocksReq := QueryLocksRequest)
  (LocksResp := QueryLocksResponse)).

Definition request_Query_ActiveLocks_0 (client : Client) (req : Request) (pathParams : path_params) (w : W) :
    outcome (QueryActiveLocksResponse * W) * ServerMetadata :=
  with_client (populate QueryActiveLocksRequest_desc (proto_new QueryActiveLocksRequest) req
                 filter_Query_ActiveLocks_0)
    (Client_ActiveLocks client) w.
Definition local_request_Query_ActiveLocks_0 (server : Server) (req : Request) (pathParams : path_params)
    (w : W) : outcome (QueryActiveLocksResponse * W) * ServerMetadata :=
  with_server (populate QueryActiveLocksRequest_desc (proto_new QueryActiveLocksRequest) req
                 filter_Query_ActiveLocks_0)
    (Server_ActiveLocks server) w.

Definition request_Query_TotalLockedAmount_0 (client : Client) (req : Request) (pathParams : path_params)
    (w : W) : outcome (QueryTotalLockedAmountResponse * W) * ServerMetadata :=
  with_client (Ok (proto_new QueryTotalLockedAmountRequest)) (Client_TotalLockedAmount client) w.
Definition local_request_Query_TotalLockedAmount_0 (server : Server) (req : Request)
    (pathParams : path_params) (w : W) : outcome (QueryTotalLockedAmountResponse * W) * ServerMetadata :=
  with_server (Ok (proto_new QueryTotalLockedAmountRequest)) (Server_TotalLockedAmount server) w.

Definition request_Query_AccountLocks_0 (client : Client) (req : Request) (pathParams : path_params) (w : W) :
    outcome (QueryAccountLocksResponse * W) * ServerMetadata :=
  with_client (populate QueryAccountLocksRequest_desc (proto_new QueryAccountLocksRequest) req
                 filter_Query_AccountLocks_0)
    (Client_AccountLocks client) w.
Definition local_request_Query_AccountLocks_0 (server : Server) (req : Request) (pathParams : path_params)
    (w : W) : outcome (QueryAccountLocksResponse * W) * ServerMetadata :=
  with_server (populate QueryAccountLocksRequest_desc (proto_new QueryAccountLocksRequest) req
                 filter_Query_AccountLocks_0)
    (Server_AccountLocks server) w.

(** The address comes from the path, the rest from the query string. *)
Definition Locks_request (req : Request) (pathParams : path_params) : outcome QueryLocksRequest :=
  val ← from_option_err (StatusErr InvalidArgument "missing parameter %s") (pathParams !! "address");
  Address ← invalid "type mismatch, parameter: %s, error: %v" (runtime_String val);
  populate QueryLocksRequest_desc
    (MkQueryLocksRequest Address (QueryLocksRequest_Pagination (proto_new QueryLocksRequest)))
    req filter_Query_Locks_0.

Definition request_Query_Locks_0 (client : Client) (req : Request) (pathParams : path_params) (w : W) :
    outcome (QueryLocksResponse * W) * ServerMetadata :=
  with_client (Locks_request req pathParams) (Client_Locks client) w.
Definition local_request_Query_Locks_0 (server : Server) (req : Request) (pathParams : path_params) (w : W) :
    outcome (QueryLocksResponse * W) * ServerMetadata :=
  with_server (Locks_request req pathParams) (Server_Locks server) w.

Definition RegisterQueryHandlerServer (mux : M) (server : Server) : outcome M :=
  let mux := Handle "GET" pattern_Query_ActiveLocks_0
               (server_handler (local_request_Query_ActiveLocks_0 server)) mux in
  let mux := Handle "GET" pattern_Query_TotalLockedAmount_0
               (server_handler (local_request_Query_TotalLockedAmount_0 server)) mux in
  let mux := Handle "GET" pattern_Query_AccountLocks_0
               (server_handler (local_request_Query_AccountLocks_0 server)) mux in
  let mux := Handle "GET" pattern_Query_Locks_0
               (server_handler (local_request_Query_Locks_0 server)) mux in
  Ok mux.

Definition RegisterQueryHandlerClient (mux : M) (client : Client) : outcome M :=
  let mux := Handle "GET" pattern_Query_ActiveLocks_0
               (client_handler (request_Query_ActiveLocks_0 client)) mux in
  let mux := Handle "GET" pattern_Query_TotalLockedAmount_0
               (client_handler (request_Query_TotalLockedAmount_0 client)) mux in
  let mux := Handle "GET" pattern_Query_AccountLocks_0
               (client_handler (request_Query_AccountLocks_0 client)) mux in
  let mux := Handle "GET" pattern_Query_Locks_0
               (client_handler (request_Query_Locks_0 client)) mux in
  Ok mux.

Definition RegisterQueryHandler (mux : M) (conn : ClientConn W) : outcome M :=
  RegisterQueryHandlerClient mux (lockup_NewQueryClient conn).

Definition RegisterQueryHandlerFromEndpoint (mux : M) (Dial : string -> outcome (ClientConn W))
    (endpoint : string) : outcome M * option (ClientConn W * conn_end) :=
  from_endpoint (Dial endpoint) (RegisterQueryHandler mux).

(** x/lockup/module.go: a failed registration panics. *)
Definition RegisterGRPCGatewayRoutes (clientCtx : ClientConn W) (mux : M) : outcome M :=
  must (RegisterQueryHandlerClient mux (lockup_NewQueryClient clientCtx)).
End Gateway.
End LockupGateway.

(** * x/distro/types/query.pb.gw.go *)

Module DistroGateway.
Import DistroQueries.

Definition pattern_Query_Params_0 : Pattern :=
  NewPattern 1 [2; 0; 2; 1; 2; 2] ["distro"; "v1"; "params"] "" false.

Section Gateway.
Context `{GogoExternal} {M Request W : Type} `{GatewayRuntime M Request W}.

Abbreviation Client := (QueryClient (W := W) (ParamsReq := QueryParamsRequest)
  (ParamsResp := QueryParamsResponse)).
Abbreviation Server := (QueryServer (W := W) (ParamsReq := QueryParamsRequest)
  (ParamsResp := QueryParamsResponse)).

Definition request_Query_Params_0 (client : Client) (req : Request) (pathParams : path_params) (w : W) :
    outcome (QueryParamsResponse * W) * ServerMetadata :=
  with_client (Ok (proto_new QueryParamsRequest)) (Client_Params client) w.
Definition local_request_Query_Params_0 (server : Server) (req : Request) (pathParams : path_params) (w : W) :
    outcome (QueryParamsResponse * W) * ServerMetadata :=
  with_server (Ok (proto_new QueryParamsRequest)) (Server_Params server) w.

Definition RegisterQueryHandlerServer (mux : M) (server : Server) : outcome M :=
  Ok (Handle "GET" pattern_Query_Params_0 (server_handler (local_request_Query_Params_0 server)) mux).

Definition RegisterQueryHandlerClient (mux : M) (client : Client) : outcome M :=
  Ok (Handle "GET" pattern_Query_Params_0 (client_handler (request_Query_Params_0 client)) mux).

Definition RegisterQueryHandler (mux : M) (conn : ClientConn W) : outcome M :=
  RegisterQueryHandlerClient mux (distro_NewQueryClient conn).

Definition RegisterQueryHandlerFromEndpoint (mux : M) (Dial : string -> outcome (ClientConn W))
    (endpoint : string) : outcome M * option (ClientConn W * conn_end) :=
  from_endpoint (Dial endpoint) (RegisterQueryHandler mux).

(** x/distro/module.go. *)
Definition RegisterGRPCGatewayRoutes (clientCtx : ClientConn W) (mux : M) : outcome M :=
  must (RegisterQueryHandlerClient mux (distro_NewQueryClient clientCtx)).
End Gateway.
End DistroGateway.
