(* ===== verification/GatewayProps.v ===== *)
(** The gateways: which request reaches which query, that a query over HTTP gets
    the keeper's answer, that both ways of registering the handlers reply alike,
    and what bad requests get. *)

From stdpp Require Import base list sets strings gmap.
From Stdlib Require Import ZArith Lia.
From Stdlib.Init Require Import Byte.
From S2P Require Import Prelude GoTime Sdk LockPb LockStore LockupKeeper LockupMsgs LockupQuery Modules Distro ProtoTable ProtoTableProps Gogo TypesLockup TypesDistro GogoProps Services Node Gateway.

Local Open Scope Z_scope.

(** A reply without the metadata of the call. *)
Definition reply_of `{GrpcMetadata} (r : http_reply) : http_reply :=
  match r with
  | HTTPError _ e => HTTPError None e
  | ForwardResponseMessage _ resp => ForwardResponseMessage no_metadata resp
  end.

(** The reply to what a server's method returned. *)
Definition reply_to `{GrpcMetadata, ProtoMessage B} {W} (r : outcome (B * W)) : outcome http_reply :=
  catch r (fun '(resp, _) => Ok (ForwardResponseMessage no_metadata resp)) (fun e => Ok (HTTPError None e)).

Lemma finish_reply `{GrpcMetadata, ProtoMessage B} {W} (r : outcome (B * W)) md :
  reply_of <$> finish r md = reply_to r.
Proof. by destruct r as [[resp w]|e|p|]. Qed.

(** * Routes *)

Section Routes.
Context `{GogoExternal} {M Request W : Type} `{GL : GatewayLaws M Request W}.
Import LockupGateway.

Lemma Match_route3 a b c path :
  Match (NewPattern 1 [2; 0; 2; 1; 2; 2] [a; b; c] "" false) path
  = if decide (path = [a; b; c]) then Some ∅ else None.
Proof. apply (Match_literals (M := M) (Request := Request) (W := W) [a; b; c]). Qed.

Lemma Match_Locks path :
  Match pattern_Query_Locks_0 path
  = match drop 3 path with
    | [v] => if decide (take 3 path = ["tsc"; "lockup"; "account_locks"]) then Some {["address" := v]} else None
    | _ => None
    end.
Proof.
  apply (Match_variable (M := M) (Request := Request) (W := W) ["tsc"; "lockup"; "account_locks"] "address").
Qed.

(** The paths of the two modules. *)
Definition query_path (path : list string) : Prop :=
  path ∈ [["tsc"; "lockup"; "active_locks"]; ["tsc"; "lockup"; "total_locked_amount"];
          ["tsc"; "lockup"; "account_locks"]; ["distro"; "v1"; "params"]] \/
  exists a, path = ["tsc"; "lockup"; "account_locks"; a].

Lemma Match_Locks_other path : ~ query_path path -> Match pattern_Query_Locks_0 path = None.
Proof.
  intros N. rewrite Match_Locks. destruct path as [|p1 [|p2 [|p3 [|v [|? ?]]]]]; try done.
  cbn [drop take]. case_decide as E; [|done]. destruct N. right. exists v. by injection E as -> -> ->.
Qed.

Lemma Match_literal_other a b c path :
  path <> [a; b; c] -> Match (NewPattern 1 [2; 0; 2; 1; 2; 2] [a; b; c] "" false) path = None.
Proof. intros N. rewrite Match_route3. by rewrite decide_False. Qed.

(** One route of a multiplexer: it is hit, or passed over. *)
Ltac hit_literal := rewrite Dispatch_new with (params := ∅);
  [reflexivity|rewrite Match_route3; by rewrite decide_True|].
Ltac miss := rewrite Dispatch_old; [|right; first [by rewrite Match_route3; case_decide|by rewrite Match_Locks]].

(** After both modules registered their gateway routes, each of the five paths
    leads to the handler of its query, the last component of
    /tsc/lockup/account_locks/<address> becomes the address parameter, and every
    other method or path is served as before. *)
Theorem gateway_routes (conn : ClientConn W) (mux mux1 mux2 : M) :
  RegisterGRPCGatewayRoutes conn mux = Ok mux1 ->
  DistroGateway.RegisterGRPCGatewayRoutes conn mux1 = Ok mux2 ->
  (forall path, query_path path -> Dispatch mux "GET" path = None) ->
  let client := lockup_NewQueryClient conn in
  let dclient := distro_NewQueryClient conn in
  Dispatch mux2 "GET" ["tsc"; "lockup"; "active_locks"]
    = Some (client_handler (request_Query_ActiveLocks_0 client), ∅) /\
  Dispatch mux2 "GET" ["tsc"; "lockup"; "total_locked_amount"]
    = Some (client_handler (request_Query_TotalLockedAmount_0 client), ∅) /\
  Dispatch mux2 "GET" ["tsc"; "lockup"; "account_locks"]
    = Some (client_handler (request_Query_AccountLocks_0 client), ∅) /\
  (forall a, Dispatch mux2 "GET" ["tsc"; "lockup"; "account_locks"; a]
    = Some (client_handler (request_Query_Locks_0 client), {["address" := a]})) /\
  Dispatch mux2 "GET" ["distro"; "v1"; "params"]
    = Some (client_handler (DistroGateway.request_Query_Params_0 dclient), ∅) /\
  (forall meth path, meth <> "GET" \/ ~ query_path path -> Dispatch mux2 meth path = Dispatch mux meth path).
Proof.
  intros E1 E2 Fresh client dclient.
  unfold RegisterGRPCGatewayRoutes, DistroGateway.RegisterGRPCGatewayRoutes, RegisterQueryHandlerClient,
    DistroGateway.RegisterQueryHandlerClient, must in E1, E2.
  injection E1 as <-. injection E2 as <-.
  unfold DistroGateway.pattern_Query_Params_0, pattern_Query_ActiveLocks_0,
    pattern_Query_TotalLockedAmount_0, pattern_Query_AccountLocks_0.
  split; [|split; [|split; [|split; [|split]]]].
  - do 4 miss. hit_literal. apply Fresh. left. set_solver.
  - do 3 miss. hit_literal. miss. apply Fresh. left. set_solver.
  - do 2 miss. hit_literal. do 2 miss. apply Fresh. left. set_solver.
  - intros a. miss. rewrite Dispatch_new with (params := {["address" := a]});
      [reflexivity|by rewrite Match_Locks; cbn [drop take]; rewrite decide_True|].
    do 3 miss. apply Fresh. right. by exists a.
  - hit_literal. do 4 miss. apply Fresh. left. set_solver.
  - intros meth path [N|N]; [by rewrite !Dispatch_old by auto|].
    rewrite !Dispatch_old; [done| |..]; right; try (by apply Match_Locks_other);
      apply Match_literal_other; intros ->; apply N; left; set_solver.
Qed.
End Routes.

(** * Queries over HTTP *)

Section Rest.
Context `{GogoExternalLaws} {M Request W : Type} `{GL : GatewayLaws M Request W}.

(** A request over HTTP is answered with what [method] returns for the query that
    [request] makes of it. *)
Definition rest_answers {A B} `{!ProtoMessage A, !ProtoMessage B} (i : option (Interceptor W))
    (mux : M) (path : list string) (FullMethod : string) (request : Request -> outcome A)
    (method : rpc W A B) : Prop :=
  exists h params, Dispatch mux "GET" path = Some (h, params) /\
    forall req ctx rctx r,
      AnnotateContext req ctx = Ok rctx -> request req = Ok r -> exact r ->
      (forall resp w', intercepted i FullMethod method r rctx = Ok (resp, w') -> exact resp) ->
      reply_of <$> h req params ctx = reply_to (intercepted i FullMethod method r rctx).

Lemma client_handler_answers {A B} `{!ProtoMessage A, !ProtoMessage B} i mux path params FullMethod
    (request : Request -> path_params -> outcome A) (c : call W A B) (method : rpc W A B) :
  Dispatch mux "GET" path
    = Some (client_handler (fun req ps w => with_client (request req ps) c w), params) ->
  reaches i FullMethod c method ->
  rest_answers i mux path FullMethod (fun req => request req params) method.
Proof.
  intros D R. eexists _, _. split; [exact D|]. intros req ctx rctx r E Q X Y.
  unfold client_handler. rewrite E. cbn [catch]. rewrite Q. cbn [with_client].
  destruct (c r rctx) as [resp md] eqn:C. rewrite finish_reply.
  rewrite <- (R r rctx X Y), C. done.
Qed.

(** The address of the query is the one in the path, whatever the query string. *)
Lemma Locks_request_address req a r :
  LockupGateway.Locks_request req {["address" := a]} = Ok r -> QueryLocksRequest_Address r = a.
Proof.
  unfold LockupGateway.Locks_request. rewrite lookup_singleton_eq. cbn [from_option_err mbind outcome_bind].
  rewrite runtime_String_id. unfold invalid. cbn [wrap_err mbind outcome_bind]. unfold populate, invalid.
  intros E. ok_inv E. assert (desc_ok QueryLocksRequest_desc) as O by solve_desc_ok.
  apply (Populate_filter _ _ _ _ (MkField KString 1 "address" "Address" QueryLocksRequest_Address
    (fun v m => MkQueryLocksRequest v (QueryLocksRequest_Pagination m))) O E). left.
Qed.
End Rest.

Section Keepers.
Context `{SdkMath} `{SdkTypes} {S : Type} `{KVStore S} {X : Type} `{AccountKeeper X}
  `{StakingKeeper X} `{BankKeeper X} {P : Type} `{Item P Params} `{DistroBank X}.
Context `{GogoExternalLaws} {G M Request : Type} `{GatewayRuntime M Request (NodeState S X P)}
  `{!GatewayLaws M Request (NodeState S X P)} `{!GrpcServer G (NodeState S X P)}
  `{!GrpcServerLaws G (NodeState S X P)}.
Import LockupGateway.

(** C20 A GET request on one of the five paths of a node gets the keeper's answer: the
    response of the keeper's query, or its error, for the query the path and the
    query string describe; a query for one account's locks is about the account
    the path names, whatever the query string says. *)
Theorem rest_queries_reach_keepers authority cfg cfg1 cfg2 (mux mux1 mux2 : M) :
  lockup_RegisterServices (G := G) cfg = Ok cfg1 -> distro_RegisterServices authority cfg1 = Ok cfg2 ->
  let conn := Connect (cfg_QueryServer cfg2) in
  RegisterGRPCGatewayRoutes conn mux = Ok mux1 ->
  DistroGateway.RegisterGRPCGatewayRoutes conn mux1 = Ok mux2 ->
  (forall path, query_path path -> Dispatch mux "GET" path = None) ->
  let i := server_interceptor (G := G) in
  rest_answers i mux2 ["tsc"; "lockup"; "active_locks"] "/lockup.v1.Query/ActiveLocks"
    (fun req => populate QueryActiveLocksRequest_desc (proto_new QueryActiveLocksRequest) req
                  filter_Query_ActiveLocks_0)
    (LockupQueries.Server_ActiveLocks lockup_NewQuerier) /\
  rest_answers i mux2 ["tsc"; "lockup"; "total_locked_amount"] "/lockup.v1.Query/TotalLockedAmount"
    (fun _ => Ok (proto_new QueryTotalLockedAmountRequest))
    (LockupQueries.Server_TotalLockedAmount lockup_NewQuerier) /\
  rest_answers i mux2 ["tsc"; "lockup"; "account_locks"] "/lockup.v1.Query/AccountLocks"
    (fun req => populate QueryAccountLocksRequest_desc (proto_new QueryAccountLocksRequest) req
                  filter_Query_AccountLocks_0)
    (LockupQueries.Server_AccountLocks lockup_NewQuerier) /\
  (forall a,
    rest_answers i mux2 ["tsc"; "lockup"; "account_locks"; a] "/lockup.v1.Query/Locks"
      (fun req => Locks_request req {["address" := a]})
      (LockupQueries.Server_Locks lockup_NewQuerier) /\
    forall req r, Locks_request req {["address" := a]} = Ok r -> QueryLocksRequest_Address r = a) /\
  rest_answers i mux2 ["distro"; "v1"; "params"] "/distro.v1.Query/Params"
    (fun _ => Ok (proto_new QueryParamsRequest))
    (DistroQueries.Server_Params distro_NewQuerier).
Proof.
  intros L D conn E1 E2 Fresh i. destruct (services_registered _ _ _ _ L D) as (_ & R2 & _ & R4).
  apply LockupQueries.LockupQueries_reached in R2 as (Q1 & Q2 & Q3 & Q4).
  apply DistroQueries.DistroQueries_reached in R4.
  destruct (gateway_routes _ _ _ _ E1 E2 Fresh) as (D1 & D2 & D3 & D4 & D5 & _).
  split; [exact (client_handler_answers _ _ _ _ _ (fun req _ => populate _ _ req _) _ _ D1 Q1)|].
  split; [exact (client_handler_answers _ _ _ _ _ (fun _ _ => Ok _) _ _ D2 Q2)|].
  split; [exact (client_handler_answers _ _ _ _ _ (fun req _ => populate _ _ req _) _ _ D3 Q3)|].
  split; [|exact (client_handler_answers _ _ _ _ _ (fun _ _ => Ok _) _ _ D5 R4)].
  intros a. split; [|intros req r; apply Locks_request_address].
  exact (client_handler_answers _ _ _ _ _ Locks_request _ _ (D4 a) Q4).
Qed.
End Keepers.

(** * The two registrations *)

Section Variants.
Context `{GogoExternal} {M Request W : Type} `{GatewayRuntime M Request W}.
Import LockupGateway.

(** A client that returns what the server's method returns. *)
Definition alike {A B} (c : call W A B) (method : rpc W A B) : Prop := forall r w, fst (c r w) = method r w.

Definition replies_alike (h h' : http_handler W Request) : Prop :=
  forall req params ctx, AnnotateContext req ctx = AnnotateIncomingContext req ctx ->
    reply_of <$> h req params ctx = reply_of <$> h' req params ctx.

Lemma handlers_alike {A B} `{!ProtoMessage B} (request : Request -> path_params -> outcome A)
    (c : call W A B) (method : rpc W A B) :
  alike c method ->
  replies_alike (client_handler (fun req ps w => with_client (request req ps) c w))
    (server_handler (fun req ps w => with_server (request req ps) method w)).
Proof.
  intros Al req params ctx E. unfold client_handler, server_handler. rewrite E.
  destruct (AnnotateIncomingContext req ctx) as [rctx|e|p|]; try done. cbn [catch].
  unfold with_server, with_client. destruct (request req params) as [r|e|p|]; cbn [mbind outcome_bind]; try done.
  rewrite finish_reply, <- Al. by destruct (c r rctx) as [resp md]; rewrite finish_reply.
Qed.

(** The handlers that call a server in the same process and the ones that
    call a client reply alike, up to metadata, when the client returns what the
    server does. *)
Theorem gateway_variants_agree client server dclient dserver :
  alike (LockupQueries.Client_ActiveLocks client) (LockupQueries.Server_ActiveLocks server) ->
  alike (LockupQueries.Client_TotalLockedAmount client) (LockupQueries.Server_TotalLockedAmount server) ->
  alike (LockupQueries.Client_AccountLocks client) (LockupQueries.Server_AccountLocks server) ->
  alike (LockupQueries.Client_Locks client) (LockupQueries.Server_Locks server) ->
  alike (DistroQueries.Client_Params dclient) (DistroQueries.Server_Params dserver) ->
  replies_alike (client_handler (request_Query_ActiveLocks_0 client))
    (server_handler (local_request_Query_ActiveLocks_0 server)) /\
  replies_alike (client_handler (request_Query_TotalLockedAmount_0 client))
    (server_handler (local_request_Query_TotalLockedAmount_0 server)) /\
  replies_alike (client_handler (request_Query_AccountLocks_0 client))
    (server_handler (local_request_Query_AccountLocks_0 server)) /\
  replies_alike (client_handler (request_Query_Locks_0 client))
    (server_handler (local_request_Query_Locks_0 server)) /\
  replies_alike (client_handler (DistroGateway.request_Query_Params_0 dclient))
    (server_handler (DistroGateway.local_request_Query_Params_0 dserver)).
Proof.
  intros A1 A2 A3 A4 A5. repeat split.
  - exact (handlers_alike (fun req _ => populate _ _ req _) _ _ A1).
  - exact (handlers_alike (fun _ _ => Ok _) _ _ A2).
  - exact (handlers_alike (fun req _ => populate _ _ req _) _ _ A3).
  - exact (handlers_alike Locks_request _ _ A4).
  - exact (handlers_alike (fun _ _ => Ok _) _ _ A5).
Qed.

(** * Bad requests *)

(** A handler that answers an error before it asks anyone. *)
Definition refuses (h : http_handler W Request) req params ctx (e : error) : Prop :=
  reply_of <$> h req params ctx = Ok (HTTPError None e).

Lemma handlers_refuse {A B} `{!ProtoMessage B} (request : Request -> path_params -> outcome A)
    (c : call W A B) (method : rpc W A B) req params ctx rctx rctx' e :
  AnnotateContext req ctx = Ok rctx -> AnnotateIncomingContext req ctx = Ok rctx' ->
  request req params = Err e ->
  refuses (client_handler (fun req ps w => with_client (request req ps) c w)) req params ctx e /\
  refuses (server_handler (fun req ps w => with_server (request req ps) method w)) req params ctx e.
Proof. intros E E' R. unfold refuses, client_handler, server_handler. by rewrite E, E', R. Qed.

(** Requests that cannot be read are refused with InvalidArgument by both
    kinds of handlers, without asking the keeper: a query for one account's locks
    without the path parameter, and a query string that does not parse. *)
Theorem gateway_bad_requests client server req params ctx rctx rctx' :
  AnnotateContext req ctx = Ok rctx -> AnnotateIncomingContext req ctx = Ok rctx' ->
  (params !! "address" = None ->
   let e := StatusErr InvalidArgument "missing parameter %s" in
   refuses (client_handler (request_Query_Locks_0 client)) req params ctx e /\
   refuses (server_handler (local_request_Query_Locks_0 server)) req params ctx e) /\
  (forall err, ParseForm req = Err err ->
   let e := StatusErr InvalidArgument "%v" in
   (refuses (client_handler (request_Query_ActiveLocks_0 client)) req params ctx e /\
    refuses (server_handler (local_request_Query_ActiveLocks_0 server)) req params ctx e) /\
   (refuses (client_handler (request_Query_AccountLocks_0 client)) req params ctx e /\
    refuses (server_handler (local_request_Query_AccountLocks_0 server)) req params ctx e)).
Proof.
  intros E E'. split.
  - intros N e. apply (handlers_refuse Locks_request _ _ _ _ _ rctx rctx'); [done..|].
    unfold Locks_request. by rewrite N.
  - intros err F e. split.
    + apply (handlers_refuse (fun req _ => populate _ _ req _) _ _ _ _ _ rctx rctx'); [done..|].
      unfold populate. by rewrite F.
    + apply (handlers_refuse (fun req _ => populate _ _ req _) _ _ _ _ _ rctx rctx'); [done..|].
      unfold populate. by rewrite F.
Qed.
End Variants.
