(* ===== verification/GatewayRuns.v ===== *)
(** A concrete gRPC server and gateway: a call by the generated clients, by a
    client of the API packages and over HTTP, and the witnesses. *)

From stdpp Require Import base list sets strings gmap.
From Stdlib Require Import ZArith Lia.
From Stdlib.Init Require Import Byte.
From S2P Require Import Prelude GoTime Sdk LockPb LockStore LockSpec LockupKeeper LockupMsgs LockupQuery Testnet LockupRuns Modules Distro DistroRuns ProtoTable ProtoTableProps Pulsar PulsarProps ApiLockup ApiDistro ApiProps Gogo TypesLock TypesLockup TypesDistro GogoProps WireAgree ApiRuns GogoRuns Services ApiStubs Node QueryAgree Gateway GatewayProps.
Import Toy ToyDistro ApiToy GogoToy.

Local Open Scope Z_scope.

Module NodeToy.

(** ** The imported messages, with all their fields *)

(** A codec for the messages below a size. *)
Definition bounded {M} (c : Codec M) : Codec M :=
  MkCodec (c_empty c) (c_size c) (c_marshal c) (c_nil c) (c_unmarshal c)
    (fun m => c_wf c m /\ c_size c m < 2 ^ 60).

Lemma bounded_lawful {M} (c : Codec M) : codec_lawful c -> codec_lawful (bounded c).
Proof. intros [E Z R]. split; [intros m [W _]; by apply E|intros m [W _]; by apply Z|exact R]. Qed.

Record api_page := MkApiPage { ap_key : bytes; ap_offset : Z; ap_limit : Z; ap_unknown : bytes }.
Definition api_page_desc : Desc api_page :=
  MkDesc "cosmos.base.query.v1beta1.PageRequest" "PageRequest"
    [MkField KBytes 1 "key" "Key" ap_key
       (fun v x => MkApiPage v (ap_offset x) (ap_limit x) (ap_unknown x));
     MkField KUint64 2 "offset" "Offset" ap_offset
       (fun v x => MkApiPage (ap_key x) v (ap_limit x) (ap_unknown x));
     MkField KUint64 3 "limit" "Limit" ap_limit
       (fun v x => MkApiPage (ap_key x) (ap_offset x) v (ap_unknown x))]
    (MkApiPage [] 0 0 []) ap_unknown (fun v x => MkApiPage (ap_key x) (ap_offset x) (ap_limit x) v).

Record api_next := MkApiNext { an_key : bytes; an_total : Z; an_unknown : bytes }.
Definition api_next_desc : Desc api_next :=
  MkDesc "cosmos.base.query.v1beta1.PageResponse" "PageResponse"
    [MkField KBytes 1 "next_key" "NextKey" an_key (fun v x => MkApiNext v (an_total x) (an_unknown x));
     MkField KUint64 2 "total" "Total" an_total (fun v x => MkApiNext (an_key x) v (an_unknown x))]
    (MkApiNext [] 0 []) an_unknown (fun v x => MkApiNext (an_key x) (an_total x) v).

(** The node's page response is written through a pair: no key is an empty one. *)
Definition next_desc : Desc (bytes * Z) :=
  pb_desc "cosmos.base.query.v1beta1.PageResponse" "PageResponse"
    [MkField KBytes 1 "next_key" "NextKey" fst (fun v x => (v, snd x));
     MkField KUint64 2 "total" "Total" snd (fun v x => (fst x, v))] ([], 0).
Definition next_pair (p : PageResponse) : bytes * Z := (default [] (NextKey p), PageTotal p).
Definition next_of (p : bytes * Z) : PageResponse :=
  MkPageResponse match p.1 with [] => None | k => Some k end p.2.
Definition next_codec : Codec PageResponse :=
  let c := bounded (pb_codec gogo_helpers next_desc) in
  MkCodec (next_of ([], 0)) (fun p => c_size c (next_pair p)) (fun p => c_marshal c (next_pair p)) (Ok [])
    (fun b p bz => next_of <$> c_unmarshal c b (next_pair p) bz)
    (fun p => c_wf c (next_pair p) /\ NextKey p <> Some []).

Lemma api_page_ok : desc_ok api_page_desc.
Proof. solve_desc_ok. Qed.
Lemma api_next_ok : desc_ok api_next_desc.
Proof. solve_desc_ok. Qed.
Lemma next_ok : desc_ok next_desc.
Proof. solve_desc_ok. Qed.
Lemma page_pb_ok : desc_ok PageRequest_desc.
Proof. solve_desc_ok. Qed.

Lemma next_of_pair p : NextKey p <> Some [] -> next_of (next_pair p) = p.
Proof. destruct p as [[[|b k]|] t]; cbn; [done|done|done]. Qed.

Lemma next_codec_lawful : codec_lawful next_codec.
Proof.
  pose proof (bounded_lawful _ (pb_codec_lawful gogo_helpers next_desc gogo_helpers_laws next_ok)) as [E Z R].
  split; cbn [c_wf c_size c_marshal c_unmarshal c_empty next_codec].
  - intros p [W K] B. destruct (E _ W B) as (bz & Em & L & U). exists bz. split; [done|]. split; [done|].
    intros discard. change (next_pair (next_of ([], 0))) with (c_empty (bounded (pb_codec gogo_helpers next_desc))).
    rewrite U. cbn [fmap outcome_fmap]. by rewrite next_of_pair.
  - intros p [W _]. by apply Z.
  - intros discard p bz B. destruct (R discard (next_pair p) bz B) as [[y ->]|[e ->]];
      [apply returns_Ok|apply returns_Err].
Qed.

#[export] Instance node_external : GogoExternal := {
  Coin_pb := bounded (pb_codec gogo_helpers Coin_desc);
  PageRequest_pb := bounded (pb_codec gogo_helpers PageRequest_desc);
  PageResponse_pb := next_codec;
}.

#[export] Instance node_external_laws : GogoExternalLaws.
Proof.
  split; cbn [Coin_pb PageRequest_pb PageResponse_pb node_external].
  - apply bounded_lawful, pb_codec_lawful; [apply gogo_helpers_laws|apply Coin_desc_ok].
  - apply bounded_lawful, pb_codec_lawful; [apply gogo_helpers_laws|apply page_pb_ok].
  - apply next_codec_lawful.
Qed.

#[export] Instance api_external : ApiExternal := {
  ApiCoin := coin; ApiPageRequest := api_page; ApiPageResponse := api_next;
  Coin_codec := @Coin_codec client;
  PageRequest_codec := bounded (desc_codec api_page_desc);
  ApiLockup.PageResponse_codec := bounded (desc_codec api_next_desc);
}.

#[export] Instance api_external_laws : ApiExternalLaws.
Proof.
  split; cbn; [apply client_laws|apply bounded_lawful, desc_codec_lawful, api_page_ok
    |apply bounded_lawful, desc_codec_lawful, api_next_ok].
Qed.

Definition toy_coin_to (c : Coin) : coin :=
  MkCoin (Denom c) (string_of_bytes (ok_or [] (Int_Marshal (Amount c)))) [].
#[export] Instance pages_agree : PagesAgree := {
  page_of a := MkPageRequest (ap_key a) (ap_offset a) (ap_limit a);
  coin_to := toy_coin_to;
  page_to p := MkApiNext (default [] (NextKey p)) (PageTotal p) [];
}.

Lemma toy_coin_to_agree c : c_wf Coin_pb c -> agree Coin_codec Coin_pb (toy_coin_to c) c.
Proof.
  intros [W B]. pose proof W as [_ Wf]. apply Forall_cons in Wf as [_ Wf]. apply Forall_cons in Wf as [In _].
  change (int_ok (Amount c) = true) in In. destruct (Int_Marshal_spec (Amount c) In) as (bz & E & _ & L).
  assert (Forall2 (field_same (toy_coin_to c) c) (d_fields coin_desc) (d_fields Coin_desc)) as F.
  { apply List.Forall2_cons; [by apply string_same|]. apply List.Forall2_cons; [|apply List.Forall2_nil].
    unfold field_same, toy_coin_to. rewrite E. cbn [ok_or f_kind f_get kind_bytes kind_size coin_amount
      Amount c_marshal c_size Int_codec]. rewrite bytes_of_string_of_bytes. unfold Int_Size. rewrite E.
    rewrite (proj2 (Z.ltb_lt 0 (zlen bz))) by lia. done. }
  assert (desc_wf coin_desc (toy_coin_to c)) as Wc by wf_fields.
  destruct (desc_agree coin_desc Coin_desc (toy_coin_to c) c coin_ok Wc W B F) as (Sm & Wa & _).
  split; [exact Sm|]. split; [|done]. split; [done|]. split.
  - rewrite (proj2 Sm : Size coin_desc (toy_coin_to c) = _). exact B.
  - exists (Amount c). split; [done|]. cbn [coin_amount toy_coin_to]. rewrite E. cbn [ok_or].
    by rewrite bytes_of_string_of_bytes.
Qed.

#[export] Instance pages_agree_laws : PagesAgreeLaws.
Proof.
  split; cbn [page_of coin_to page_to pages_agree].
  - intros a [W B]. set (m := MkPageRequest _ _ _).
    assert (Forall2 (field_same a m) (d_fields api_page_desc) (d_fields PageRequest_desc)) as F.
    { repeat apply List.Forall2_cons; [by unfold field_same|by apply uint64_same..|apply List.Forall2_nil]. }
    pose proof W as W'. split_wf W'.
    assert (desc_wf PageRequest_desc m) as Wm.
    { split; [done|]. repeat (apply Forall_cons; split; [assumption|]). by apply Forall_nil. }
    pose proof (proj2 (table_same api_page_desc PageRequest_desc a m (proj1 W) eq_refl F)) as Sz.
    assert (Size (H := gogo_helpers) PageRequest_desc m < 2 ^ 60) as Bm by (rewrite <- Sz; exact B).
    destruct (desc_agree api_page_desc PageRequest_desc a m api_page_ok W Wm Bm F) as (Sm & _ & _).
    split; [exact Sm|]. split; [split|split]; assumption.
  - apply toy_coin_to_agree.
  - intros p [[W B] K]. set (m := MkApiNext _ _ _).
    assert (Forall2 (field_same m (next_pair p)) (d_fields api_next_desc) (d_fields next_desc)) as F.
    { repeat apply List.Forall2_cons; [by unfold field_same|by apply uint64_same|apply List.Forall2_nil]. }
    pose proof W as W'. split_wf W'.
    assert (desc_wf api_next_desc m) as Wm.
    { split; [done|]. repeat (apply Forall_cons; split; [assumption|]). by apply Forall_nil. }
    destruct (desc_agree api_next_desc next_desc m (next_pair p) api_next_ok Wm W B F) as (Sm & _ & _).
    split; [exact Sm|]. split; [|by split]. split; [done|].
    change (c_size (desc_codec api_next_desc) m < 2 ^ 60). rewrite (proj2 Sm). exact B.
Qed.

(** ** The node *)

(** A bank for x/distro in the state of the other modules. *)
#[export] Instance net_distro_bank : DistroBank Net := {
  GetSupply x d := NewCoinRec d (net_balance x [] d);
  MintCoins x _ cs := Ok (foldl (fun x c => net_add x [] (Denom c) (Amount c)) x cs);
  SendCoinsFromModuleToAccount x _ _ _ := Ok x;
  GetModuleAddress m := Some (bytes_of_string m);
}.

Definition N : Type := NodeState (gmap bytes bytes) Net (option Params).
Definition node : N := MkNodeState run_ctx run_w3 (Some DefaultParams).

(** ** gRPC *)

#[export] Instance toy_metadata : GrpcMetadata := {
  MD := list (string * string); MD_nil := []; MD_Join := app }.

(** A server is the list of its methods with what answers their bytes. *)
Definition server : Type := list (string * (bytes -> N -> outcome (bytes * N))).

Fixpoint find (g : server) (name : string) : option (bytes -> N -> outcome (bytes * N)) :=
  match g with
  | [] => None
  | (n, f) :: g' => if String.eqb n name then Some f else find g' name
  end.

Fixpoint add_methods {Srv} (sd : ServiceDesc N Srv) (srv : Srv) (mds : list (MethodDesc N Srv)) (g : server)
    : outcome server :=
  match mds with
  | [] => Ok g
  | md :: mds' =>
      match find g (full_method sd md) with
      | Some _ => Panic (ExtPanic "duplicate method")
      | None => add_methods sd srv mds' (g ++ [(full_method sd md, answer md srv None)])
      end
  end.

Definition connect (g : server) : ClientConn N := {|
  Invoke _ _ _ _ name req out w :=
    (match find g name with
     | Some f =>
         bz ← proto_marshal req;
         '(bz', w') ← f bz w;
         out ← proto_unmarshal out bz';
         Ok (out, w')
     | None => Err (StatusErr Unimplemented "unknown method %s")
     end, MkServerMetadata [("grpc", name)] []);
|}.

#[export] Instance toy_server : GrpcServer server N := {
  RegisterService _ sd srv g := add_methods sd srv (Methods sd) g;
  Registered _ g sd srv := forall md, md ∈ Methods sd -> find g (full_method sd md) = Some (answer md srv None);
  Connect := connect;
  server_interceptor := None;
}.

Lemma find_app g h name :
  find (g ++ h) name = match find g name with Some f => Some f | None => find h name end.
Proof. induction g as [|[n f] g IH]; [done|]. cbn [app find]. by destruct (String.eqb n name). Qed.

Lemma add_methods_spec {Srv} (sd : ServiceDesc N Srv) srv mds g g' :
  add_methods sd srv mds g = Ok g' ->
  (forall name f, find g name = Some f -> find g' name = Some f) /\
  forall md, md ∈ mds -> find g' (full_method sd md) = Some (answer md srv None).
Proof.
  revert g. induction mds as [|md mds IH]; cbn [add_methods]; intros g E.
  - injection E as <-. split; [done|]. by intros md ?%elem_of_nil.
  - destruct (find g (full_method sd md)) eqn:F; [done|]. destruct (IH _ E) as [K A]. split.
    + intros name f Fn. apply K. by rewrite find_app, Fn.
    + intros md' [->|I]%elem_of_cons; [|by apply A]. apply K. rewrite find_app, F. cbn [find].
      by rewrite String.eqb_refl.
Qed.

#[export] Instance toy_server_laws : GrpcServerLaws server N.
Proof.
  split.
  - intros Srv sd srv g g' _ E. exact (proj2 (add_methods_spec _ _ _ _ _ E)).
  - intros Srv Srv' sd srv sd' srv' g g' E R md I. apply (proj1 (add_methods_spec _ _ _ _ _ E)). by apply R.
  - intros Srv sd srv g R md I A B pa pb req out w. cbn [Invoke Connect toy_server connect fst].
    by rewrite (R md I).
Qed.

(** The node's servers. *)
Definition cfg0 : Configurator server := MkConfigurator [] [].
Definition cfg1 : Configurator server := ok_or cfg0 (lockup_RegisterServices cfg0).
Definition cfg2 : Configurator server := ok_or cfg1 (distro_RegisterServices "gov" cfg1).

Lemma cfg1_ok : lockup_RegisterServices cfg0 = Ok cfg1.
Proof. apply ok_or_eq. vm_compute. reflexivity. Qed.
Lemma cfg2_ok : distro_RegisterServices "gov" cfg1 = Ok cfg2.
Proof. apply ok_or_eq. vm_compute. reflexivity. Qed.

(** The bytes that represent a message. *)
Ltac by_bytes bz := exists (ok_or [] bz); split; [vm_compute; reflexivity|vm_compute; reflexivity].

Ltac exact_message :=
  split; [reflexivity|]; repeat (apply Forall_cons; split; [try exact I; try reflexivity|]);
  try (apply Forall_nil; exact I).

(** Alice locks 300 through the generated client. *)
Definition node0 : N := MkNodeState run_ctx run_w0 (Some DefaultParams).
Definition queries : ClientConn N := Connect (cfg_QueryServer cfg2).

Lemma grpc_calls_reach_keepers_witness :
  fst (LockupMsg.Client_Lock (lockup_NewMsgClient (Connect (cfg_MsgServer cfg2)))
         run_lock node0)
    = Ok (MkMsgLockResponse, set_world node0 run_w1) /\
  fst (DistroQueries.Client_Params (distro_NewQueryClient queries)
         MkQueryParamsRequest node0)
    = Ok (MkQueryParamsResponse (Some DefaultParams), node0).
Proof.
  destruct (grpc_calls_reach_keepers "gov" cfg0 cfg1 cfg2 cfg1_ok cfg2_ok) as ((L & _) & _ & _ & Q).
  split.
  - refine (eq_trans (L run_lock node0 _ _) _).
    + by_bytes (MsgLock_Marshal run_lock).
    + intros [] w' _. exists []. split; vm_compute; reflexivity.
    + change ((w ← MsgServer_Lock run_ctx run_w0 run_lock; Ok (MkMsgLockResponse, set_world node0 w))
              = Ok (MkMsgLockResponse, set_world node0 run_w1)). by rewrite run_lock_ok.
  - refine (eq_trans (Q MkQueryParamsRequest node0 _ _) _).
    + exists []. split; vm_compute; reflexivity.
    + intros resp w' E.
      change (Ok (MkQueryParamsResponse (Some DefaultParams), node0) = Ok (resp, w')) in E.
      assert (resp = MkQueryParamsResponse (Some DefaultParams)) as -> by congruence.
      by_bytes (QueryParamsResponse_Marshal (MkQueryParamsResponse (Some DefaultParams))).
    + reflexivity.
Defined.

(** A client of the API packages asks for the second of Alice's locks. *)
Definition api_request : api_QueryLocksRequest :=
  Mk_api_QueryLocksRequest "alice" (Some (MkApiPage [] 1 1 [])) [].
Definition alice_page : QueryLocksResponse :=
  MkQueryLocksResponse [MkLockResource "2026-06-01" (LockupRuns.coin 100)] (Some (MkPageResponse None 2)).

Lemma alice_page_ok :
  Query_Locks run_ctx (w_store run_w3) (w_ext run_w3) (Some ("alice", Some (MkPageRequest [] 1 1)))
  = Ok (QueryLocksResponse_Locks alice_page, MkPageResponse None 2).
Proof. vm_compute. reflexivity. Qed.

Lemma alice_page_sized : sized (W := gogo_helpers) QueryLocksResponse_desc alice_page.
Proof.
  split; [|vm_compute; reflexivity]. exact_message.
  - exact_message. split; [exact_message|vm_compute; reflexivity].
  - split; [split; [exact_message; split; vm_compute; congruence|vm_compute; reflexivity]|discriminate].
Qed.

Lemma api_queries_answered_witness :
  fst (LockupQueries.Client_Locks (api_lockup_NewQueryClient queries) api_request node)
  = Ok (Mk_api_QueryLocksResponse
          [Some (Mk_api_LockResource "2026-06-01"
                   (Some (MkCoin "aTSC" (string_of_bytes (toy_marshal 100)) [])) [])]
          (Some (MkApiNext [] 2 [])) [], node).
Proof.
  destruct (api_queries_answered "gov" cfg0 cfg1 cfg2 cfg1_ok cfg2_ok) as (_ & _ & _ & A & _).
  refine (eq_trans (A api_request node _ _) _).
  - split; [|vm_compute; reflexivity]. exact_message.
    split; [exact_message; split; vm_compute; congruence|vm_compute; reflexivity].
  - intros resp w' E. change (Ok (alice_page, node) = Ok (resp, w')) in E || (cbn [intercepted] in E;
      unfold QueryLocksRequest_of in E; cbn in E).
    assert (resp = alice_page) as -> by congruence. apply alice_page_sized.
  - reflexivity.
Defined.

(** ** The gateway *)

(** The query string of a request, already split. *)
Definition Req : Type := option (list (string * string)).

Definition value_of (form : list (string * string)) (name : string) : option string :=
  snd <$> list_find (fun p => fst p = name) form ≫= fun p => Some p.2.

(** Only string fields are filled. *)
Definition set_string {T} (fd : field T) (v : string) (x : T) : T :=
  match f_kind fd in fkind A return (A -> T -> T) -> T with
  | KString => fun set => set v x
  | _ => fun _ => x
  end (f_set fd).
Definition populate_field {T} (form : list (string * string)) (filter : DoubleArray) (x : T) (fd : field T) : T :=
  if bool_decide (f_name fd ∈ map fst (Encoding filter)) then x
  else match value_of form (f_name fd) with Some v => set_string fd v x | None => x end.

Definition mux : Type := list (string * Pattern * http_handler N Req).

(** The patterns of literals, and those with a variable at the end. *)
Definition toy_match (p : Pattern) (path : list string) : option path_params :=
  let n := length (pat_pool p) in
  if decide (pat_ops p = literal_ops n) then if decide (path = pat_pool p) then Some ∅ else None
  else if decide (pat_ops p = variable_ops (n - 1)) then
    match drop (n - 1) path, drop (n - 1) (pat_pool p) with
    | [v], [var] => if decide (take (n - 1) path = take (n - 1) (pat_pool p)) then Some {[var := v]} else None
    | _, _ => None
    end
  else None.

Fixpoint toy_dispatch (m : mux) (meth : string) (path : list string) :
    option (http_handler N Req * path_params) :=
  match m with
  | [] => None
  | (meth', pat, h) :: m' =>
      match (if decide (meth' = meth) then toy_match pat path else None) with
      | Some params => Some (h, params)
      | None => toy_dispatch m' meth path
      end
  end.

#[export] Instance toy_gateway : GatewayRuntime mux Req N := {
  Form := list (string * string);
  ParseForm := from_option_err (ExtErr "invalid URL escape");
  PopulateQueryParameters _ d x form filter :=
    Ok (foldl (populate_field form filter) x (d_fields d));
  runtime_String := Ok;
  AnnotateContext _ n := Ok n;
  AnnotateIncomingContext _ n := Ok n;
  Match := toy_match;
  Handle meth pat h m := m ++ [(meth, pat, h)];
  Dispatch := toy_dispatch;
}.

Lemma literal_ops_length n : length (literal_ops n) = (2 * n)%nat.
Proof.
  assert (forall k, length (flat_map (fun i => [2; Z.of_nat i]) (seq k n)) = (2 * n)%nat) as A; [|apply A].
  induction n as [|n IH]; intros k; [done|]. cbn [seq flat_map app length]. rewrite IH. lia.
Qed.

Lemma toy_dispatch_app m m' meth path :
  toy_dispatch (m ++ m') meth path
  = match toy_dispatch m meth path with Some r => Some r | None => toy_dispatch m' meth path end.
Proof.
  induction m as [|[[meth' pat] h] m IH]; [done|]. cbn [app toy_dispatch].
  by destruct (if decide _ then _ else _).
Qed.

Lemma populate_others {T} (d : Desc T) form filter fd (fs : list (field T)) x :
  desc_ok d -> fd ∈ d_fields d -> f_name fd ∈ map fst (Encoding filter) -> (forall f, f ∈ fs -> f ∈ d_fields d) ->
  f_get fd (foldl (populate_field form filter) x fs) = f_get fd x.
Proof.
  intros O F K. revert x. induction fs as [|f fs IH]; intros x I; [done|]. cbn [foldl].
  rewrite IH by (intros; apply I; by right). unfold populate_field. case_bool_decide as B; [done|].
  destruct (value_of form (f_name f)) as [v|]; [|done].
  assert (f ∈ d_fields d) as If by (apply I; left).
  assert (f_num f <> f_num fd) as Nm.
  { intros E. apply B. by rewrite (map_NoDup_eq f_num _ f fd (ok_nums d O) If F E). }
  pose proof (fun v => lenses_other (d_fields d) f fd v x (ok_lens d O) If F Nm) as Other.
  unfold set_string. destruct f as [A k num name go get set]. cbn [f_kind f_set f_type] in *.
  clear -Other. by destruct k.
Qed.

#[export] Instance toy_gateway_laws : GatewayLaws mux Req N.
Proof.
  split.
  - done.
  - intros T d x form y fd O [= <-] F. apply (populate_others d); [done|done|left|done].
  - intros lits path. cbn [Match toy_gateway]. unfold toy_match. cbn [pat_pool pat_ops].
    by rewrite decide_True.
  - intros lits var path. cbn [Match toy_gateway]. unfold toy_match. cbn [pat_pool pat_ops].
    rewrite length_app. cbn [length]. replace (length lits + 1 - 1)%nat with (length lits) by lia.
    assert (variable_ops (length lits) <> literal_ops (length lits + 1)) as N.
    { intros E%(f_equal length). unfold variable_ops in E.
      rewrite length_app, !literal_ops_length in E. cbn [length] in E. lia. }
    rewrite decide_False, decide_True by done.
    rewrite drop_app_length, take_app_length. by destruct (drop (length lits) path) as [|v []].
  - intros meth pat h m path params E D. cbn [Match Dispatch Handle toy_gateway] in *.
    rewrite toy_dispatch_app, D. cbn [toy_dispatch]. by rewrite decide_True, E.
  - intros meth pat h m meth' path E. cbn [Match Dispatch Handle toy_gateway] in *.
    rewrite toy_dispatch_app. destruct (toy_dispatch m meth' path); [done|]. cbn [toy_dispatch].
    destruct E as [E|E]; [by rewrite decide_False|]. rewrite E. by case_decide.
Qed.

(** The routes of both modules on an empty multiplexer, over the node's queries. *)
Definition mux1 : mux := ok_or [] (LockupGateway.RegisterGRPCGatewayRoutes queries []).
Definition mux2 : mux := ok_or [] (DistroGateway.RegisterGRPCGatewayRoutes queries mux1).

Lemma gateway_routes_witness :
  Dispatch mux2 "GET" ["tsc"; "lockup"; "account_locks"; "alice"]
    = Some (client_handler (LockupGateway.request_Query_Locks_0 (lockup_NewQueryClient queries)),
            {["address" := "alice"]}) /\
  Dispatch mux2 "POST" ["distro"; "v1"; "params"] = None.
Proof.
  destruct (gateway_routes queries [] mux1 mux2 eq_refl eq_refl (fun _ _ => eq_refl))
    as (_ & _ & _ & L & _ & O).
  split; [apply (L "alice")|]. apply (O "POST"). left. discriminate.
Defined.

(** GET /tsc/lockup/account_locks/alice?address=bob asks for Alice's locks. *)
Definition alice_locks : QueryLocksResponse :=
  MkQueryLocksResponse
    [MkLockResource "2026-01-01" (LockupRuns.coin 200); MkLockResource "2026-06-01" (LockupRuns.coin 100)]
    (Some (MkPageResponse None 2)).

Lemma alice_locks_ok :
  Query_Locks run_ctx (w_store run_w3) (w_ext run_w3) (Some ("alice", None))
  = Ok (QueryLocksResponse_Locks alice_locks, MkPageResponse None 2).
Proof. vm_compute. reflexivity. Qed.

Lemma alice_locks_answer :
  LockupQueries.Server_Locks lockup_NewQuerier (MkQueryLocksRequest "alice" None) node = Ok (alice_locks, node).
Proof.
  cbn [LockupQueries.Server_Locks lockup_NewQuerier QueryLocksRequest_Address QueryLocksRequest_Pagination
    n_ctx n_world node]. by rewrite alice_locks_ok.
Qed.

Lemma rest_queries_reach_keepers_witness :
  exists h params, Dispatch mux2 "GET" ["tsc"; "lockup"; "account_locks"; "alice"] = Some (h, params) /\
    reply_of <$> h (Some [("address", "bob")]) params node
    = Ok (ForwardResponseMessage no_metadata alice_locks).
Proof.
  destruct (rest_queries_reach_keepers "gov" cfg0 cfg1 cfg2 [] mux1 mux2 cfg1_ok cfg2_ok eq_refl eq_refl
    (fun _ _ => eq_refl)) as (_ & _ & _ & L & _).
  destruct (L "alice") as [(h & params & D & A) _]. exists h, params. split; [exact D|].
  refine (eq_trans (A (Some [("address", "bob")]) node node (MkQueryLocksRequest "alice" None) _ _ _ _) _).
  - reflexivity.
  - vm_compute. reflexivity.
  - by_bytes (QueryLocksRequest_Marshal (MkQueryLocksRequest "alice" None)).
  - intros resp w' E. cbn [intercepted server_interceptor toy_server] in E. rewrite alice_locks_answer in E.
    assert (resp = alice_locks) as -> by congruence.
    by_bytes (QueryLocksResponse_Marshal alice_locks).
  - cbn [intercepted server_interceptor toy_server]. by rewrite alice_locks_answer.
Defined.
End NodeToy.
