(* ===== verification/RawDesc.v ===== *)
(** The descriptors embedded in the API packages (the end of every *.pulsar.go
    file): the raw bytes of each file's FileDescriptorProto, the Go types of its
    messages and the indexes by which fields and methods refer to them. *)

From stdpp Require Import base list strings.
From Stdlib Require Import ZArith.
From Stdlib.Init Require Import Byte.
From S2P Require Import Prelude.

Local Open Scope Z_scope.

(** [protoimpl.TypeBuilder]: the descriptor and what the library matches it with.
    Go types are given by the names of their messages. *)
Record TypeBuilder := MkTypeBuilder {
  RawDescriptor : bytes;
  NumEnums : Z;
  NumMessages : Z;
  NumExtensions : Z;
  NumServices : Z;
  GoTypes : list string;
  DependencyIndexes : list Z;
}.

(** ** api/lockup/v1/lock.pulsar.go *)

Definition file_lockup_v1_lock_rawDesc : bytes := concat
  [[x0a; x14; x6c; x6f; x63; x6b; x75; x70; x2f; x76; x31; x2f; x6c; x6f; x63; x6b];
   [x2e; x70; x72; x6f; x74; x6f; x12; x09; x6c; x6f; x63; x6b; x75; x70; x2e; x76];
   [x31; x1a; x14; x67; x6f; x67; x6f; x70; x72; x6f; x74; x6f; x2f; x67; x6f; x67];
   [x6f; x2e; x70; x72; x6f; x74; x6f; x1a; x19; x63; x6f; x73; x6d; x6f; x73; x5f];
   [x70; x72; x6f; x74; x6f; x2f; x63; x6f; x73; x6d; x6f; x73; x2e; x70; x72; x6f];
   [x74; x6f; x1a; x1e; x63; x6f; x73; x6d; x6f; x73; x2f; x62; x61; x73; x65; x2f];
   [x76; x31; x62; x65; x74; x61; x31; x2f; x63; x6f; x69; x6e; x2e; x70; x72; x6f];
   [x74; x6f; x1a; x11; x61; x6d; x69; x6e; x6f; x2f; x61; x6d; x69; x6e; x6f; x2e];
   [x70; x72; x6f; x74; x6f; x22; x71; x0a; x04; x4c; x6f; x63; x6b; x12; x1f; x0a];
   [x0b; x75; x6e; x6c; x6f; x63; x6b; x5f; x64; x61; x74; x65; x18; x01; x20; x01];
   [x28; x09; x52; x0a; x75; x6e; x6c; x6f; x63; x6b; x44; x61; x74; x65; x12; x48];
   [x0a; x06; x61; x6d; x6f; x75; x6e; x74; x18; x02; x20; x01; x28; x09; x42; x30];
   [xc8; xde; x1f; x00; xda; xde; x1f; x15; x63; x6f; x73; x6d; x6f; x73; x73; x64];
   [x6b; x2e; x69; x6f; x2f; x6d; x61; x74; x68; x2e; x49; x6e; x74; xd2; xb4; x2d];
   [x0a; x63; x6f; x73; x6d; x6f; x73; x2e; x49; x6e; x74; xa8; xe7; xb0; x2a; x01];
   [x52; x06; x61; x6d; x6f; x75; x6e; x74; x22; x2e; x0a; x05; x4c; x6f; x63; x6b];
   [x73; x12; x25; x0a; x05; x6c; x6f; x63; x6b; x73; x18; x01; x20; x03; x28; x0b];
   [x32; x0f; x2e; x6c; x6f; x63; x6b; x75; x70; x2e; x76; x31; x2e; x4c; x6f; x63];
   [x6b; x52; x05; x6c; x6f; x63; x6b; x73; x42; x98; x01; x0a; x0d; x63; x6f; x6d];
   [x2e; x6c; x6f; x63; x6b; x75; x70; x2e; x76; x31; x42; x09; x4c; x6f; x63; x6b];
   [x50; x72; x6f; x74; x6f; x50; x01; x5a; x37; x67; x69; x74; x68; x75; x62; x2e];
   [x63; x6f; x6d; x2f; x54; x72; x75; x73; x74; x65; x64; x53; x6d; x61; x72; x74];
   [x43; x68; x61; x69; x6e; x2f; x74; x73; x63; x2f; x61; x70; x69; x2f; x6c; x6f];
   [x63; x6b; x75; x70; x2f; x76; x31; x3b; x6c; x6f; x63; x6b; x75; x70; x76; x31];
   [xa2; x02; x03; x4c; x58; x58; xaa; x02; x09; x4c; x6f; x63; x6b; x75; x70; x2e];
   [x56; x31; xca; x02; x09; x4c; x6f; x63; x6b; x75; x70; x5c; x56; x31; xe2; x02];
   [x15; x4c; x6f; x63; x6b; x75; x70; x5c; x56; x31; x5c; x47; x50; x42; x4d; x65];
   [x74; x61; x64; x61; x74; x61; xea; x02; x0a; x4c; x6f; x63; x6b; x75; x70; x3a];
   [x3a; x56; x31; x62; x06; x70; x72; x6f; x74; x6f; x33]].

Definition file_lockup_v1_lock_goTypes : list string :=
  ["lockup.v1.Lock"; "lockup.v1.Locks"].
Definition file_lockup_v1_lock_depIdxs : list Z := [0; 1; 1; 1; 1; 0].
Definition file_lockup_v1_lock_init : TypeBuilder :=
  MkTypeBuilder file_lockup_v1_lock_rawDesc 0 2 0 0 file_lockup_v1_lock_goTypes
      file_lockup_v1_lock_depIdxs.

(** ** api/lockup/v1/extension.pulsar.go *)

Definition file_lockup_v1_extension_rawDesc : bytes := concat
  [[x0a; x19; x6c; x6f; x63; x6b; x75; x70; x2f; x76; x31; x2f; x65; x78; x74; x65];
   [x6e; x73; x69; x6f; x6e; x2e; x70; x72; x6f; x74; x6f; x12; x09; x6c; x6f; x63];
   [x6b; x75; x70; x2e; x76; x31; x1a; x17; x63; x6f; x73; x6d; x6f; x73; x2f; x6d];
   [x73; x67; x2f; x76; x31; x2f; x6d; x73; x67; x2e; x70; x72; x6f; x74; x6f; x1a];
   [x14; x67; x6f; x67; x6f; x70; x72; x6f; x74; x6f; x2f; x67; x6f; x67; x6f; x2e];
   [x70; x72; x6f; x74; x6f; x1a; x19; x63; x6f; x73; x6d; x6f; x73; x5f; x70; x72];
   [x6f; x74; x6f; x2f; x63; x6f; x73; x6d; x6f; x73; x2e; x70; x72; x6f; x74; x6f];
   [x1a; x1e; x63; x6f; x73; x6d; x6f; x73; x2f; x62; x61; x73; x65; x2f; x76; x31];
   [x62; x65; x74; x61; x31; x2f; x63; x6f; x69; x6e; x2e; x70; x72; x6f; x74; x6f];
   [x22; x7a; x0a; x09; x45; x78; x74; x65; x6e; x73; x69; x6f; x6e; x12; x1b; x0a];
   [x09; x66; x72; x6f; x6d; x5f; x64; x61; x74; x65; x18; x01; x20; x01; x28; x09];
   [x52; x08; x66; x72; x6f; x6d; x44; x61; x74; x65; x12; x17; x0a; x07; x74; x6f];
   [x5f; x64; x61; x74; x65; x18; x02; x20; x01; x28; x09; x52; x06; x74; x6f; x44];
   [x61; x74; x65; x12; x37; x0a; x06; x61; x6d; x6f; x75; x6e; x74; x18; x03; x20];
   [x01; x28; x0b; x32; x19; x2e; x63; x6f; x73; x6d; x6f; x73; x2e; x62; x61; x73];
   [x65; x2e; x76; x31; x62; x65; x74; x61; x31; x2e; x43; x6f; x69; x6e; x42; x04];
   [xc8; xde; x1f; x00; x52; x06; x61; x6d; x6f; x75; x6e; x74; x42; x9d; x01; x0a];
   [x0d; x63; x6f; x6d; x2e; x6c; x6f; x63; x6b; x75; x70; x2e; x76; x31; x42; x0e];
   [x45; x78; x74; x65; x6e; x73; x69; x6f; x6e; x50; x72; x6f; x74; x6f; x50; x01];
   [x5a; x37; x67; x69; x74; x68; x75; x62; x2e; x63; x6f; x6d; x2f; x54; x72; x75];
   [x73; x74; x65; x64; x53; x6d; x61; x72; x74; x43; x68; x61; x69; x6e; x2f; x74];
   [x73; x63; x2f; x61; x70; x69; x2f; x6c; x6f; x63; x6b; x75; x70; x2f; x76; x31];
   [x3b; x6c; x6f; x63; x6b; x75; x70; x76; x31; xa2; x02; x03; x4c; x58; x58; xaa];
   [x02; x09; x4c; x6f; x63; x6b; x75; x70; x2e; x56; x31; xca; x02; x09; x4c; x6f];
   [x63; x6b; x75; x70; x5c; x56; x31; xe2; x02; x15; x4c; x6f; x63; x6b; x75; x70];
   [x5c; x56; x31; x5c; x47; x50; x42; x4d; x65; x74; x61; x64; x61; x74; x61; xea];
   [x02; x0a; x4c; x6f; x63; x6b; x75; x70; x3a; x3a; x56; x31; x62; x06; x70; x72];
   [x6f; x74; x6f; x33]].

Definition file_lockup_v1_extension_goTypes : list string :=
  ["lockup.v1.Extension"; "cosmos.base.v1beta1.Coin"].
Definition file_lockup_v1_extension_depIdxs : list Z := [1; 1; 1; 1; 1; 0].
Definition file_lockup_v1_extension_init : TypeBuilder :=
  MkTypeBuilder file_lockup_v1_extension_rawDesc 0 1 0 0 file_lockup_v1_extension_goTypes
      file_lockup_v1_extension_depIdxs.

(** ** api/lockup/v1/output.pulsar.go *)

Definition file_lockup_v1_output_rawDesc : bytes := concat
  [[x0a; x16; x6c; x6f; x63; x6b; x75; x70; x2f; x76; x31; x2f; x6f; x75; x74; x70];
   [x75; x74; x2e; x70; x72; x6f; x74; x6f; x12; x09; x6c; x6f; x63; x6b; x75; x70];
   [x2e; x76; x31; x1a; x14; x67; x6f; x67; x6f; x70; x72; x6f; x74; x6f; x2f; x67];
   [x6f; x67; x6f; x2e; x70; x72; x6f; x74; x6f; x1a; x19; x63; x6f; x73; x6d; x6f];
   [x73; x5f; x70; x72; x6f; x74; x6f; x2f; x63; x6f; x73; x6d; x6f; x73; x2e; x70];
   [x72; x6f; x74; x6f; x1a; x1e; x63; x6f; x73; x6d; x6f; x73; x2f; x62; x61; x73];
   [x65; x2f; x76; x31; x62; x65; x74; x61; x31; x2f; x63; x6f; x69; x6e; x2e; x70];
   [x72; x6f; x74; x6f; x1a; x11; x61; x6d; x69; x6e; x6f; x2f; x61; x6d; x69; x6e];
   [x6f; x2e; x70; x72; x6f; x74; x6f; x22; xe9; x01; x0a; x1e; x4d; x75; x6c; x74];
   [x69; x53; x65; x6e; x64; x44; x65; x6c; x65; x67; x61; x74; x65; x41; x6e; x64];
   [x4c; x6f; x63; x6b; x4f; x75; x74; x70; x75; x74; x12; x21; x0a; x0c; x66; x72];
   [x6f; x6d; x5f; x61; x64; x64; x72; x65; x73; x73; x18; x01; x20; x01; x28; x09];
   [x52; x0b; x66; x72; x6f; x6d; x41; x64; x64; x72; x65; x73; x73; x12; x1d; x0a];
   [x0a; x74; x6f; x5f; x61; x64; x64; x72; x65; x73; x73; x18; x02; x20; x01; x28];
   [x09; x52; x09; x74; x6f; x41; x64; x64; x72; x65; x73; x73; x12; x2b; x0a; x11];
   [x76; x61; x6c; x69; x64; x61; x74; x6f; x72; x5f; x61; x64; x64; x72; x65; x73];
   [x73; x18; x03; x20; x01; x28; x09; x52; x10; x76; x61; x6c; x69; x64; x61; x74];
   [x6f; x72; x41; x64; x64; x72; x65; x73; x73; x12; x1f; x0a; x0b; x75; x6e; x6c];
   [x6f; x63; x6b; x5f; x64; x61; x74; x65; x18; x04; x20; x01; x28; x09; x52; x0a];
   [x75; x6e; x6c; x6f; x63; x6b; x44; x61; x74; x65; x12; x37; x0a; x06; x61; x6d];
   [x6f; x75; x6e; x74; x18; x05; x20; x01; x28; x0b; x32; x19; x2e; x63; x6f; x73];
   [x6d; x6f; x73; x2e; x62; x61; x73; x65; x2e; x76; x31; x62; x65; x74; x61; x31];
   [x2e; x43; x6f; x69; x6e; x42; x04; xc8; xde; x1f; x00; x52; x06; x61; x6d; x6f];
   [x75; x6e; x74; x42; x9a; x01; x0a; x0d; x63; x6f; x6d; x2e; x6c; x6f; x63; x6b];
   [x75; x70; x2e; x76; x31; x42; x0b; x4f; x75; x74; x70; x75; x74; x50; x72; x6f];
   [x74; x6f; x50; x01; x5a; x37; x67; x69; x74; x68; x75; x62; x2e; x63; x6f; x6d];
   [x2f; x54; x72; x75; x73; x74; x65; x64; x53; x6d; x61; x72; x74; x43; x68; x61];
   [x69; x6e; x2f; x74; x73; x63; x2f; x61; x70; x69; x2f; x6c; x6f; x63; x6b; x75];
   [x70; x2f; x76; x31; x3b; x6c; x6f; x63; x6b; x75; x70; x76; x31; xa2; x02; x03];
   [x4c; x58; x58; xaa; x02; x09; x4c; x6f; x63; x6b; x75; x70; x2e; x56; x31; xca];
   [x02; x09; x4c; x6f; x63; x6b; x75; x70; x5c; x56; x31; xe2; x02; x15; x4c; x6f];
   [x63; x6b; x75; x70; x5c; x56; x31; x5c; x47; x50; x42; x4d; x65; x74; x61; x64];
   [x61; x74; x61; xea; x02; x0a; x4c; x6f; x63; x6b; x75; x70; x3a; x3a; x56; x31];
   [x62; x06; x70; x72; x6f; x74; x6f; x33]].

Definition file_lockup_v1_output_goTypes : list string :=
  ["lockup.v1.MultiSendDelegateAndLockOutput"; "cosmos.base.v1beta1.Coin"].
Definition file_lockup_v1_output_depIdxs : list Z := [1; 1; 1; 1; 1; 0].
Definition file_lockup_v1_output_init : TypeBuilder :=
  MkTypeBuilder file_lockup_v1_output_rawDesc 0 1 0 0 file_lockup_v1_output_goTypes
      file_lockup_v1_output_depIdxs.

(** ** api/lockup/v1/genesis.pulsar.go *)

Definition file_lockup_v1_genesis_rawDesc : bytes := concat
  [[x0a; x17; x6c; x6f; x63; x6b; x75; x70; x2f; x76; x31; x2f; x67; x65; x6e; x65];
   [x73; x69; x73; x2e; x70; x72; x6f; x74; x6f; x12; x09; x6c; x6f; x63; x6b; x75];
   [x70; x2e; x76; x31; x22; x0e; x0a; x0c; x47; x65; x6e; x65; x73; x69; x73; x53];
   [x74; x61; x74; x65; x42; x9b; x01; x0a; x0d; x63; x6f; x6d; x2e; x6c; x6f; x63];
   [x6b; x75; x70; x2e; x76; x31; x42; x0c; x47; x65; x6e; x65; x73; x69; x73; x50];
   [x72; x6f; x74; x6f; x50; x01; x5a; x37; x67; x69; x74; x68; x75; x62; x2e; x63];
   [x6f; x6d; x2f; x54; x72; x75; x73; x74; x65; x64; x53; x6d; x61; x72; x74; x43];
   [x68; x61; x69; x6e; x2f; x74; x73; x63; x2f; x61; x70; x69; x2f; x6c; x6f; x63];
   [x6b; x75; x70; x2f; x76; x31; x3b; x6c; x6f; x63; x6b; x75; x70; x76; x31; xa2];
   [x02; x03; x4c; x58; x58; xaa; x02; x09; x4c; x6f; x63; x6b; x75; x70; x2e; x56];
   [x31; xca; x02; x09; x4c; x6f; x63; x6b; x75; x70; x5c; x56; x31; xe2; x02; x15];
   [x4c; x6f; x63; x6b; x75; x70; x5c; x56; x31; x5c; x47; x50; x42; x4d; x65; x74];
   [x61; x64; x61; x74; x61; xea; x02; x0a; x4c; x6f; x63; x6b; x75; x70; x3a; x3a];
   [x56; x31; x62; x06; x70; x72; x6f; x74; x6f; x33]].

Definition file_lockup_v1_genesis_goTypes : list string :=
  ["lockup.v1.GenesisState"].
Definition file_lockup_v1_genesis_depIdxs : list Z := [0; 0; 0; 0; 0].
Definition file_lockup_v1_genesis_init : TypeBuilder :=
  MkTypeBuilder file_lockup_v1_genesis_rawDesc 0 1 0 0 file_lockup_v1_genesis_goTypes
      file_lockup_v1_genesis_depIdxs.

(** ** api/lockup/v1/tx.pulsar.go *)

Definition file_lockup_v1_tx_rawDesc : bytes := concat
  [[x0a; x12; x6c; x6f; x63; x6b; x75; x70; x2f; x76; x31; x2f; x74; x78; x2e; x70];
   [x72; x6f; x74; x6f; x12; x09; x6c; x6f; x63; x6b; x75; x70; x2e; x76; x31; x1a];
   [x11; x61; x6d; x69; x6e; x6f; x2f; x61; x6d; x69; x6e; x6f; x2e; x70; x72; x6f];
   [x74; x6f; x1a; x17; x63; x6f; x73; x6d; x6f; x73; x2f; x6d; x73; x67; x2f; x76];
   [x31; x2f; x6d; x73; x67; x2e; x70; x72; x6f; x74; x6f; x1a; x1e; x63; x6f; x73];
   [x6d; x6f; x73; x2f; x62; x61; x73; x65; x2f; x76; x31; x62; x65; x74; x61; x31];
   [x2f; x63; x6f; x69; x6e; x2e; x70; x72; x6f; x74; x6f; x1a; x19; x63; x6f; x73];
   [x6d; x6f; x73; x5f; x70; x72; x6f; x74; x6f; x2f; x63; x6f; x73; x6d; x6f; x73];
   [x2e; x70; x72; x6f; x74; x6f; x1a; x14; x67; x6f; x67; x6f; x70; x72; x6f; x74];
   [x6f; x2f; x67; x6f; x67; x6f; x2e; x70; x72; x6f; x74; x6f; x1a; x19; x6c; x6f];
   [x63; x6b; x75; x70; x2f; x76; x31; x2f; x65; x78; x74; x65; x6e; x73; x69; x6f];
   [x6e; x2e; x70; x72; x6f; x74; x6f; x1a; x16; x6c; x6f; x63; x6b; x75; x70; x2f];
   [x76; x31; x2f; x6f; x75; x74; x70; x75; x74; x2e; x70; x72; x6f; x74; x6f; x22];
   [x8b; x01; x0a; x07; x4d; x73; x67; x4c; x6f; x63; x6b; x12; x18; x0a; x07; x61];
   [x64; x64; x72; x65; x73; x73; x18; x01; x20; x01; x28; x09; x52; x07; x61; x64];
   [x64; x72; x65; x73; x73; x12; x1f; x0a; x0b; x75; x6e; x6c; x6f; x63; x6b; x5f];
   [x64; x61; x74; x65; x18; x02; x20; x01; x28; x09; x52; x0a; x75; x6e; x6c; x6f];
   [x63; x6b; x44; x61; x74; x65; x12; x37; x0a; x06; x61; x6d; x6f; x75; x6e; x74];
   [x18; x03; x20; x01; x28; x0b; x32; x19; x2e; x63; x6f; x73; x6d; x6f; x73; x2e];
   [x62; x61; x73; x65; x2e; x76; x31; x62; x65; x74; x61; x31; x2e; x43; x6f; x69];
   [x6e; x42; x04; xc8; xde; x1f; x00; x52; x06; x61; x6d; x6f; x75; x6e; x74; x3a];
   [x0c; x82; xe7; xb0; x2a; x07; x61; x64; x64; x72; x65; x73; x73; x22; x11; x0a];
   [x0f; x4d; x73; x67; x4c; x6f; x63; x6b; x52; x65; x73; x70; x6f; x6e; x73; x65];
   [x22; x69; x0a; x09; x4d; x73; x67; x45; x78; x74; x65; x6e; x64; x12; x18; x0a];
   [x07; x61; x64; x64; x72; x65; x73; x73; x18; x01; x20; x01; x28; x09; x52; x07];
   [x61; x64; x64; x72; x65; x73; x73; x12; x34; x0a; x0a; x65; x78; x74; x65; x6e];
   [x73; x69; x6f; x6e; x73; x18; x02; x20; x03; x28; x0b; x32; x14; x2e; x6c; x6f];
   [x63; x6b; x75; x70; x2e; x76; x31; x2e; x45; x78; x74; x65; x6e; x73; x69; x6f];
   [x6e; x52; x0a; x65; x78; x74; x65; x6e; x73; x69; x6f; x6e; x73; x3a; x0c; x82];
   [xe7; xb0; x2a; x07; x61; x64; x64; x72; x65; x73; x73; x22; x13; x0a; x11; x4d];
   [x73; x67; x45; x78; x74; x65; x6e; x64; x52; x65; x73; x70; x6f; x6e; x73; x65];
   [x22; xf4; x01; x0a; x16; x4d; x73; x67; x53; x65; x6e; x64; x44; x65; x6c; x65];
   [x67; x61; x74; x65; x41; x6e; x64; x4c; x6f; x63; x6b; x12; x21; x0a; x0c; x66];
   [x72; x6f; x6d; x5f; x61; x64; x64; x72; x65; x73; x73; x18; x01; x20; x01; x28];
   [x09; x52; x0b; x66; x72; x6f; x6d; x41; x64; x64; x72; x65; x73; x73; x12; x1d];
   [x0a; x0a; x74; x6f; x5f; x61; x64; x64; x72; x65; x73; x73; x18; x02; x20; x01];
   [x28; x09; x52; x09; x74; x6f; x41; x64; x64; x72; x65; x73; x73; x12; x2b; x0a];
   [x11; x76; x61; x6c; x69; x64; x61; x74; x6f; x72; x5f; x61; x64; x64; x72; x65];
   [x73; x73; x18; x03; x20; x01; x28; x09; x52; x10; x76; x61; x6c; x69; x64; x61];
   [x74; x6f; x72; x41; x64; x64; x72; x65; x73; x73; x12; x1f; x0a; x0b; x75; x6e];
   [x6c; x6f; x63; x6b; x5f; x64; x61; x74; x65; x18; x04; x20; x01; x28; x09; x52];
   [x0a; x75; x6e; x6c; x6f; x63; x6b; x44; x61; x74; x65; x12; x37; x0a; x06; x61];
   [x6d; x6f; x75; x6e; x74; x18; x05; x20; x01; x28; x0b; x32; x19; x2e; x63; x6f];
   [x73; x6d; x6f; x73; x2e; x62; x61; x73; x65; x2e; x76; x31; x62; x65; x74; x61];
   [x31; x2e; x43; x6f; x69; x6e; x42; x04; xc8; xde; x1f; x00; x52; x06; x61; x6d];
   [x6f; x75; x6e; x74; x3a; x11; x82; xe7; xb0; x2a; x0c; x66; x72; x6f; x6d; x5f];
   [x61; x64; x64; x72; x65; x73; x73; x22; x20; x0a; x1e; x4d; x73; x67; x53; x65];
   [x6e; x64; x44; x65; x6c; x65; x67; x61; x74; x65; x41; x6e; x64; x4c; x6f; x63];
   [x6b; x52; x65; x73; x70; x6f; x6e; x73; x65; x22; xdc; x01; x0a; x1b; x4d; x73];
   [x67; x4d; x75; x6c; x74; x69; x53; x65; x6e; x64; x44; x65; x6c; x65; x67; x61];
   [x74; x65; x41; x6e; x64; x4c; x6f; x63; x6b; x12; x21; x0a; x0c; x66; x72; x6f];
   [x6d; x5f; x61; x64; x64; x72; x65; x73; x73; x18; x01; x20; x01; x28; x09; x52];
   [x0b; x66; x72; x6f; x6d; x41; x64; x64; x72; x65; x73; x73; x12; x42; x0a; x0c];
   [x74; x6f; x74; x61; x6c; x5f; x61; x6d; x6f; x75; x6e; x74; x18; x02; x20; x01];
   [x28; x0b; x32; x19; x2e; x63; x6f; x73; x6d; x6f; x73; x2e; x62; x61; x73; x65];
   [x2e; x76; x31; x62; x65; x74; x61; x31; x2e; x43; x6f; x69; x6e; x42; x04; xc8];
   [xde; x1f; x00; x52; x0b; x74; x6f; x74; x61; x6c; x41; x6d; x6f; x75; x6e; x74];
   [x12; x43; x0a; x07; x6f; x75; x74; x70; x75; x74; x73; x18; x03; x20; x03; x28];
   [x0b; x32; x29; x2e; x6c; x6f; x63; x6b; x75; x70; x2e; x76; x31; x2e; x4d; x75];
   [x6c; x74; x69; x53; x65; x6e; x64; x44; x65; x6c; x65; x67; x61; x74; x65; x41];
   [x6e; x64; x4c; x6f; x63; x6b; x4f; x75; x74; x70; x75; x74; x52; x07; x6f; x75];
   [x74; x70; x75; x74; x73; x3a; x11; x82; xe7; xb0; x2a; x0c; x66; x72; x6f; x6d];
   [x5f; x61; x64; x64; x72; x65; x73; x73; x22; x25; x0a; x23; x4d; x73; x67; x4d];
   [x75; x6c; x74; x69; x53; x65; x6e; x64; x44; x65; x6c; x65; x67; x61; x74; x65];
   [x41; x6e; x64; x4c; x6f; x63; x6b; x52; x65; x73; x70; x6f; x6e; x73; x65; x32];
   [xdb; x02; x0a; x03; x4d; x73; x67; x12; x36; x0a; x04; x4c; x6f; x63; x6b; x12];
   [x12; x2e; x6c; x6f; x63; x6b; x75; x70; x2e; x76; x31; x2e; x4d; x73; x67; x4c];
   [x6f; x63; x6b; x1a; x1a; x2e; x6c; x6f; x63; x6b; x75; x70; x2e; x76; x31; x2e];
   [x4d; x73; x67; x4c; x6f; x63; x6b; x52; x65; x73; x70; x6f; x6e; x73; x65; x12];
   [x3c; x0a; x06; x45; x78; x74; x65; x6e; x64; x12; x14; x2e; x6c; x6f; x63; x6b];
   [x75; x70; x2e; x76; x31; x2e; x4d; x73; x67; x45; x78; x74; x65; x6e; x64; x1a];
   [x1c; x2e; x6c; x6f; x63; x6b; x75; x70; x2e; x76; x31; x2e; x4d; x73; x67; x45];
   [x78; x74; x65; x6e; x64; x52; x65; x73; x70; x6f; x6e; x73; x65; x12; x63; x0a];
   [x13; x53; x65; x6e; x64; x44; x65; x6c; x65; x67; x61; x74; x65; x41; x6e; x64];
   [x4c; x6f; x63; x6b; x12; x21; x2e; x6c; x6f; x63; x6b; x75; x70; x2e; x76; x31];
   [x2e; x4d; x73; x67; x53; x65; x6e; x64; x44; x65; x6c; x65; x67; x61; x74; x65];
   [x41; x6e; x64; x4c; x6f; x63; x6b; x1a; x29; x2e; x6c; x6f; x63; x6b; x75; x70];
   [x2e; x76; x31; x2e; x4d; x73; x67; x53; x65; x6e; x64; x44; x65; x6c; x65; x67];
   [x61; x74; x65; x41; x6e; x64; x4c; x6f; x63; x6b; x52; x65; x73; x70; x6f; x6e];
   [x73; x65; x12; x72; x0a; x18; x4d; x75; x6c; x74; x69; x53; x65; x6e; x64; x44];
   [x65; x6c; x65; x67; x61; x74; x65; x41; x6e; x64; x4c; x6f; x63; x6b; x12; x26];
   [x2e; x6c; x6f; x63; x6b; x75; x70; x2e; x76; x31; x2e; x4d; x73; x67; x4d; x75];
   [x6c; x74; x69; x53; x65; x6e; x64; x44; x65; x6c; x65; x67; x61; x74; x65; x41];
   [x6e; x64; x4c; x6f; x63; x6b; x1a; x2e; x2e; x6c; x6f; x63; x6b; x75; x70; x2e];
   [x76; x31; x2e; x4d; x73; x67; x4d; x75; x6c; x74; x69; x53; x65; x6e; x64; x44];
   [x65; x6c; x65; x67; x61; x74; x65; x41; x6e; x64; x4c; x6f; x63; x6b; x52; x65];
   [x73; x70; x6f; x6e; x73; x65; x1a; x05; x80; xe7; xb0; x2a; x01; x42; x96; x01];
   [x0a; x0d; x63; x6f; x6d; x2e; x6c; x6f; x63; x6b; x75; x70; x2e; x76; x31; x42];
   [x07; x54; x78; x50; x72; x6f; x74; x6f; x50; x01; x5a; x37; x67; x69; x74; x68];
   [x75; x62; x2e; x63; x6f; x6d; x2f; x54; x72; x75; x73; x74; x65; x64; x53; x6d];
   [x61; x72; x74; x43; x68; x61; x69; x6e; x2f; x74; x73; x63; x2f; x61; x70; x69];
   [x2f; x6c; x6f; x63; x6b; x75; x70; x2f; x76; x31; x3b; x6c; x6f; x63; x6b; x75];
   [x70; x76; x31; xa2; x02; x03; x4c; x58; x58; xaa; x02; x09; x4c; x6f; x63; x6b];
   [x75; x70; x2e; x56; x31; xca; x02; x09; x4c; x6f; x63; x6b; x75; x70; x5c; x56];
   [x31; xe2; x02; x15; x4c; x6f; x63; x6b; x75; x70; x5c; x56; x31; x5c; x47; x50];
   [x42; x4d; x65; x74; x61; x64; x61; x74; x61; xea; x02; x0a; x4c; x6f; x63; x6b];
   [x75; x70; x3a; x3a; x56; x31; x62; x06; x70; x72; x6f; x74; x6f; x33]].

Definition file_lockup_v1_tx_goTypes : list string :=
  ["lockup.v1.MsgLock"; "lockup.v1.MsgLockResponse"; "lockup.v1.MsgExtend";
      "lockup.v1.MsgExtendResponse"; "lockup.v1.MsgSendDelegateAndLock";
      "lockup.v1.MsgSendDelegateAndLockResponse"; "lockup.v1.MsgMultiSendDelegateAndLock";
      "lockup.v1.MsgMultiSendDelegateAndLockResponse"; "cosmos.base.v1beta1.Coin";
      "lockup.v1.Extension"; "lockup.v1.MultiSendDelegateAndLockOutput"].
Definition file_lockup_v1_tx_depIdxs : list Z := [8; 9; 8; 8; 10; 0; 2; 4; 6; 1; 3; 5; 7; 9; 5; 5;
    5; 0].
Definition file_lockup_v1_tx_init : TypeBuilder :=
  MkTypeBuilder file_lockup_v1_tx_rawDesc 0 8 0 1 file_lockup_v1_tx_goTypes
      file_lockup_v1_tx_depIdxs.

(** ** api/lockup/v1/query.pulsar.go *)

Definition file_lockup_v1_query_rawDesc : bytes := concat
  [[x0a; x15; x6c; x6f; x63; x6b; x75; x70; x2f; x76; x31; x2f; x71; x75; x65; x72];
   [x79; x2e; x70; x72; x6f; x74; x6f; x12; x09; x6c; x6f; x63; x6b; x75; x70; x2e];
   [x76; x31; x1a; x14; x67; x6f; x67; x6f; x70; x72; x6f; x74; x6f; x2f; x67; x6f];
   [x67; x6f; x2e; x70; x72; x6f; x74; x6f; x1a; x1c; x67; x6f; x6f; x67; x6c; x65];
   [x2f; x61; x70; x69; x2f; x61; x6e; x6e; x6f; x74; x61; x74; x69; x6f; x6e; x73];
   [x2e; x70; x72; x6f; x74; x6f; x1a; x2a; x63; x6f; x73; x6d; x6f; x73; x2f; x62];
   [x61; x73; x65; x2f; x71; x75; x65; x72; x79; x2f; x76; x31; x62; x65; x74; x61];
   [x31; x2f; x70; x61; x67; x69; x6e; x61; x74; x69; x6f; x6e; x2e; x70; x72; x6f];
   [x74; x6f; x1a; x1e; x63; x6f; x73; x6d; x6f; x73; x2f; x62; x61; x73; x65; x2f];
   [x76; x31; x62; x65; x74; x61; x31; x2f; x63; x6f; x69; x6e; x2e; x70; x72; x6f];
   [x74; x6f; x1a; x14; x6c; x6f; x63; x6b; x75; x70; x2f; x76; x31; x2f; x6c; x6f];
   [x63; x6b; x2e; x70; x72; x6f; x74; x6f; x22; x61; x0a; x17; x51; x75; x65; x72];
   [x79; x41; x63; x74; x69; x76; x65; x4c; x6f; x63; x6b; x73; x52; x65; x71; x75];
   [x65; x73; x74; x12; x46; x0a; x0a; x70; x61; x67; x69; x6e; x61; x74; x69; x6f];
   [x6e; x18; x01; x20; x01; x28; x0b; x32; x26; x2e; x63; x6f; x73; x6d; x6f; x73];
   [x2e; x62; x61; x73; x65; x2e; x71; x75; x65; x72; x79; x2e; x76; x31; x62; x65];
   [x74; x61; x31; x2e; x50; x61; x67; x65; x52; x65; x71; x75; x65; x73; x74; x52];
   [x0a; x70; x61; x67; x69; x6e; x61; x74; x69; x6f; x6e; x22; x9e; x01; x0a; x18];
   [x51; x75; x65; x72; x79; x41; x63; x74; x69; x76; x65; x4c; x6f; x63; x6b; x73];
   [x52; x65; x73; x70; x6f; x6e; x73; x65; x12; x39; x0a; x05; x6c; x6f; x63; x6b];
   [x73; x18; x01; x20; x03; x28; x0b; x32; x1d; x2e; x6c; x6f; x63; x6b; x75; x70];
   [x2e; x76; x31; x2e; x41; x63; x74; x69; x76; x65; x4c; x6f; x63; x6b; x52; x65];
   [x73; x6f; x75; x72; x63; x65; x42; x04; xc8; xde; x1f; x00; x52; x05; x6c; x6f];
   [x63; x6b; x73; x12; x47; x0a; x0a; x70; x61; x67; x69; x6e; x61; x74; x69; x6f];
   [x6e; x18; x02; x20; x01; x28; x0b; x32; x27; x2e; x63; x6f; x73; x6d; x6f; x73];
   [x2e; x62; x61; x73; x65; x2e; x71; x75; x65; x72; x79; x2e; x76; x31; x62; x65];
   [x74; x61; x31; x2e; x50; x61; x67; x65; x52; x65; x73; x70; x6f; x6e; x73; x65];
   [x52; x0a; x70; x61; x67; x69; x6e; x61; x74; x69; x6f; x6e; x22; x88; x01; x0a];
   [x12; x41; x63; x74; x69; x76; x65; x4c; x6f; x63; x6b; x52; x65; x73; x6f; x75];
   [x72; x63; x65; x12; x18; x0a; x07; x61; x64; x64; x72; x65; x73; x73; x18; x01];
   [x20; x01; x28; x09; x52; x07; x61; x64; x64; x72; x65; x73; x73; x12; x1f; x0a];
   [x0b; x75; x6e; x6c; x6f; x63; x6b; x5f; x64; x61; x74; x65; x18; x02; x20; x01];
   [x28; x09; x52; x0a; x75; x6e; x6c; x6f; x63; x6b; x44; x61; x74; x65; x12; x37];
   [x0a; x06; x61; x6d; x6f; x75; x6e; x74; x18; x03; x20; x01; x28; x0b; x32; x19];
   [x2e; x63; x6f; x73; x6d; x6f; x73; x2e; x62; x61; x73; x65; x2e; x76; x31; x62];
   [x65; x74; x61; x31; x2e; x43; x6f; x69; x6e; x42; x04; xc8; xde; x1f; x00; x52];
   [x06; x61; x6d; x6f; x75; x6e; x74; x22; x1f; x0a; x1d; x51; x75; x65; x72; x79];
   [x54; x6f; x74; x61; x6c; x4c; x6f; x63; x6b; x65; x64; x41; x6d; x6f; x75; x6e];
   [x74; x52; x65; x71; x75; x65; x73; x74; x22; x64; x0a; x1e; x51; x75; x65; x72];
   [x79; x54; x6f; x74; x61; x6c; x4c; x6f; x63; x6b; x65; x64; x41; x6d; x6f; x75];
   [x6e; x74; x52; x65; x73; x70; x6f; x6e; x73; x65; x12; x42; x0a; x0c; x74; x6f];
   [x74; x61; x6c; x5f; x6c; x6f; x63; x6b; x65; x64; x18; x01; x20; x01; x28; x0b];
   [x32; x19; x2e; x63; x6f; x73; x6d; x6f; x73; x2e; x62; x61; x73; x65; x2e; x76];
   [x31; x62; x65; x74; x61; x31; x2e; x43; x6f; x69; x6e; x42; x04; xc8; xde; x1f];
   [x00; x52; x0b; x74; x6f; x74; x61; x6c; x4c; x6f; x63; x6b; x65; x64; x22; x80];
   [x01; x0a; x18; x51; x75; x65; x72; x79; x41; x63; x63; x6f; x75; x6e; x74; x4c];
   [x6f; x63; x6b; x73; x52; x65; x71; x75; x65; x73; x74; x12; x1c; x0a; x09; x61];
   [x64; x64; x72; x65; x73; x73; x65; x73; x18; x01; x20; x01; x28; x09; x52; x09];
   [x61; x64; x64; x72; x65; x73; x73; x65; x73; x12; x46; x0a; x0a; x70; x61; x67];
   [x69; x6e; x61; x74; x69; x6f; x6e; x18; x02; x20; x01; x28; x0b; x32; x26; x2e];
   [x63; x6f; x73; x6d; x6f; x73; x2e; x62; x61; x73; x65; x2e; x71; x75; x65; x72];
   [x79; x2e; x76; x31; x62; x65; x74; x61; x31; x2e; x50; x61; x67; x65; x52; x65];
   [x71; x75; x65; x73; x74; x52; x0a; x70; x61; x67; x69; x6e; x61; x74; x69; x6f];
   [x6e; x22; xa7; x01; x0a; x19; x51; x75; x65; x72; x79; x41; x63; x63; x6f; x75];
   [x6e; x74; x4c; x6f; x63; x6b; x73; x52; x65; x73; x70; x6f; x6e; x73; x65; x12];
   [x41; x0a; x08; x61; x63; x63; x6f; x75; x6e; x74; x73; x18; x01; x20; x03; x28];
   [x0b; x32; x1f; x2e; x6c; x6f; x63; x6b; x75; x70; x2e; x76; x31; x2e; x41; x63];
   [x63; x6f; x75; x6e; x74; x4c; x6f; x63; x6b; x73; x52; x65; x73; x6f; x75; x72];
   [x63; x65; x42; x04; xc8; xde; x1f; x00; x52; x08; x61; x63; x63; x6f; x75; x6e];
   [x74; x73; x12; x47; x0a; x0a; x70; x61; x67; x69; x6e; x61; x74; x69; x6f; x6e];
   [x18; x02; x20; x01; x28; x0b; x32; x27; x2e; x63; x6f; x73; x6d; x6f; x73; x2e];
   [x62; x61; x73; x65; x2e; x71; x75; x65; x72; x79; x2e; x76; x31; x62; x65; x74];
   [x61; x31; x2e; x50; x61; x67; x65; x52; x65; x73; x70; x6f; x6e; x73; x65; x52];
   [x0a; x70; x61; x67; x69; x6e; x61; x74; x69; x6f; x6e; x22; x65; x0a; x14; x41];
   [x63; x63; x6f; x75; x6e; x74; x4c; x6f; x63; x6b; x73; x52; x65; x73; x6f; x75];
   [x72; x63; x65; x12; x18; x0a; x07; x61; x64; x64; x72; x65; x73; x73; x18; x01];
   [x20; x01; x28; x09; x52; x07; x61; x64; x64; x72; x65; x73; x73; x12; x33; x0a];
   [x05; x6c; x6f; x63; x6b; x73; x18; x02; x20; x03; x28; x0b; x32; x17; x2e; x6c];
   [x6f; x63; x6b; x75; x70; x2e; x76; x31; x2e; x4c; x6f; x63; x6b; x52; x65; x73];
   [x6f; x75; x72; x63; x65; x42; x04; xc8; xde; x1f; x00; x52; x05; x6c; x6f; x63];
   [x6b; x73; x22; x68; x0a; x0c; x4c; x6f; x63; x6b; x52; x65; x73; x6f; x75; x72];
   [x63; x65; x12; x1f; x0a; x0b; x75; x6e; x6c; x6f; x63; x6b; x5f; x64; x61; x74];
   [x65; x18; x01; x20; x01; x28; x09; x52; x0a; x75; x6e; x6c; x6f; x63; x6b; x44];
   [x61; x74; x65; x12; x37; x0a; x06; x61; x6d; x6f; x75; x6e; x74; x18; x03; x20];
   [x01; x28; x0b; x32; x19; x2e; x63; x6f; x73; x6d; x6f; x73; x2e; x62; x61; x73];
   [x65; x2e; x76; x31; x62; x65; x74; x61; x31; x2e; x43; x6f; x69; x6e; x42; x04];
   [xc8; xde; x1f; x00; x52; x06; x61; x6d; x6f; x75; x6e; x74; x22; x75; x0a; x11];
   [x51; x75; x65; x72; x79; x4c; x6f; x63; x6b; x73; x52; x65; x71; x75; x65; x73];
   [x74; x12; x18; x0a; x07; x61; x64; x64; x72; x65; x73; x73; x18; x01; x20; x01];
   [x28; x09; x52; x07; x61; x64; x64; x72; x65; x73; x73; x12; x46; x0a; x0a; x70];
   [x61; x67; x69; x6e; x61; x74; x69; x6f; x6e; x18; x02; x20; x01; x28; x0b; x32];
   [x26; x2e; x63; x6f; x73; x6d; x6f; x73; x2e; x62; x61; x73; x65; x2e; x71; x75];
   [x65; x72; x79; x2e; x76; x31; x62; x65; x74; x61; x31; x2e; x50; x61; x67; x65];
   [x52; x65; x71; x75; x65; x73; x74; x52; x0a; x70; x61; x67; x69; x6e; x61; x74];
   [x69; x6f; x6e; x22; x92; x01; x0a; x12; x51; x75; x65; x72; x79; x4c; x6f; x63];
   [x6b; x73; x52; x65; x73; x70; x6f; x6e; x73; x65; x12; x33; x0a; x05; x6c; x6f];
   [x63; x6b; x73; x18; x01; x20; x03; x28; x0b; x32; x17; x2e; x6c; x6f; x63; x6b];
   [x75; x70; x2e; x76; x31; x2e; x4c; x6f; x63; x6b; x52; x65; x73; x6f; x75; x72];
   [x63; x65; x42; x04; xc8; xde; x1f; x00; x52; x05; x6c; x6f; x63; x6b; x73; x12];
   [x47; x0a; x0a; x70; x61; x67; x69; x6e; x61; x74; x69; x6f; x6e; x18; x02; x20];
   [x01; x28; x0b; x32; x27; x2e; x63; x6f; x73; x6d; x6f; x73; x2e; x62; x61; x73];
   [x65; x2e; x71; x75; x65; x72; x79; x2e; x76; x31; x62; x65; x74; x61; x31; x2e];
   [x50; x61; x67; x65; x52; x65; x73; x70; x6f; x6e; x73; x65; x52; x0a; x70; x61];
   [x67; x69; x6e; x61; x74; x69; x6f; x6e; x32; x86; x04; x0a; x05; x51; x75; x65];
   [x72; x79; x12; x78; x0a; x0b; x41; x63; x74; x69; x76; x65; x4c; x6f; x63; x6b];
   [x73; x12; x22; x2e; x6c; x6f; x63; x6b; x75; x70; x2e; x76; x31; x2e; x51; x75];
   [x65; x72; x79; x41; x63; x74; x69; x76; x65; x4c; x6f; x63; x6b; x73; x52; x65];
   [x71; x75; x65; x73; x74; x1a; x23; x2e; x6c; x6f; x63; x6b; x75; x70; x2e; x76];
   [x31; x2e; x51; x75; x65; x72; x79; x41; x63; x74; x69; x76; x65; x4c; x6f; x63];
   [x6b; x73; x52; x65; x73; x70; x6f; x6e; x73; x65; x22; x20; x82; xd3; xe4; x93];
   [x02; x1a; x12; x18; x2f; x74; x73; x63; x2f; x6c; x6f; x63; x6b; x75; x70; x2f];
   [x61; x63; x74; x69; x76; x65; x5f; x6c; x6f; x63; x6b; x73; x12; x91; x01; x0a];
   [x11; x54; x6f; x74; x61; x6c; x4c; x6f; x63; x6b; x65; x64; x41; x6d; x6f; x75];
   [x6e; x74; x12; x28; x2e; x6c; x6f; x63; x6b; x75; x70; x2e; x76; x31; x2e; x51];
   [x75; x65; x72; x79; x54; x6f; x74; x61; x6c; x4c; x6f; x63; x6b; x65; x64; x41];
   [x6d; x6f; x75; x6e; x74; x52; x65; x71; x75; x65; x73; x74; x1a; x29; x2e; x6c];
   [x6f; x63; x6b; x75; x70; x2e; x76; x31; x2e; x51; x75; x65; x72; x79; x54; x6f];
   [x74; x61; x6c; x4c; x6f; x63; x6b; x65; x64; x41; x6d; x6f; x75; x6e; x74; x52];
   [x65; x73; x70; x6f; x6e; x73; x65; x22; x27; x82; xd3; xe4; x93; x02; x21; x12];
   [x1f; x2f; x74; x73; x63; x2f; x6c; x6f; x63; x6b; x75; x70; x2f; x74; x6f; x74];
   [x61; x6c; x5f; x6c; x6f; x63; x6b; x65; x64; x5f; x61; x6d; x6f; x75; x6e; x74];
   [x12; x7c; x0a; x0c; x41; x63; x63; x6f; x75; x6e; x74; x4c; x6f; x63; x6b; x73];
   [x12; x23; x2e; x6c; x6f; x63; x6b; x75; x70; x2e; x76; x31; x2e; x51; x75; x65];
   [x72; x79; x41; x63; x63; x6f; x75; x6e; x74; x4c; x6f; x63; x6b; x73; x52; x65];
   [x71; x75; x65; x73; x74; x1a; x24; x2e; x6c; x6f; x63; x6b; x75; x70; x2e; x76];
   [x31; x2e; x51; x75; x65; x72; x79; x41; x63; x63; x6f; x75; x6e; x74; x4c; x6f];
   [x63; x6b; x73; x52; x65; x73; x70; x6f; x6e; x73; x65; x22; x21; x82; xd3; xe4];
   [x93; x02; x1b; x12; x19; x2f; x74; x73; x63; x2f; x6c; x6f; x63; x6b; x75; x70];
   [x2f; x61; x63; x63; x6f; x75; x6e; x74; x5f; x6c; x6f; x63; x6b; x73; x12; x71];
   [x0a; x05; x4c; x6f; x63; x6b; x73; x12; x1c; x2e; x6c; x6f; x63; x6b; x75; x70];
   [x2e; x76; x31; x2e; x51; x75; x65; x72; x79; x4c; x6f; x63; x6b; x73; x52; x65];
   [x71; x75; x65; x73; x74; x1a; x1d; x2e; x6c; x6f; x63; x6b; x75; x70; x2e; x76];
   [x31; x2e; x51; x75; x65; x72; x79; x4c; x6f; x63; x6b; x73; x52; x65; x73; x70];
   [x6f; x6e; x73; x65; x22; x2b; x82; xd3; xe4; x93; x02; x25; x12; x23; x2f; x74];
   [x73; x63; x2f; x6c; x6f; x63; x6b; x75; x70; x2f; x61; x63; x63; x6f; x75; x6e];
   [x74; x5f; x6c; x6f; x63; x6b; x73; x2f; x7b; x61; x64; x64; x72; x65; x73; x73];
   [x7d; x42; x99; x01; x0a; x0d; x63; x6f; x6d; x2e; x6c; x6f; x63; x6b; x75; x70];
   [x2e; x76; x31; x42; x0a; x51; x75; x65; x72; x79; x50; x72; x6f; x74; x6f; x50];
   [x01; x5a; x37; x67; x69; x74; x68; x75; x62; x2e; x63; x6f; x6d; x2f; x54; x72];
   [x75; x73; x74; x65; x64; x53; x6d; x61; x72; x74; x43; x68; x61; x69; x6e; x2f];
   [x74; x73; x63; x2f; x61; x70; x69; x2f; x6c; x6f; x63; x6b; x75; x70; x2f; x76];
   [x31; x3b; x6c; x6f; x63; x6b; x75; x70; x76; x31; xa2; x02; x03; x4c; x58; x58];
   [xaa; x02; x09; x4c; x6f; x63; x6b; x75; x70; x2e; x56; x31; xca; x02; x09; x4c];
   [x6f; x63; x6b; x75; x70; x5c; x56; x31; xe2; x02; x15; x4c; x6f; x63; x6b; x75];
   [x70; x5c; x56; x31; x5c; x47; x50; x42; x4d; x65; x74; x61; x64; x61; x74; x61];
   [xea; x02; x0a; x4c; x6f; x63; x6b; x75; x70; x3a; x3a; x56; x31; x62; x06; x70];
   [x72; x6f; x74; x6f; x33]].

Definition file_lockup_v1_query_goTypes : list string :=
  ["lockup.v1.QueryActiveLocksRequest"; "lockup.v1.QueryActiveLocksResponse";
      "lockup.v1.ActiveLockResource"; "lockup.v1.QueryTotalLockedAmountRequest";
      "lockup.v1.QueryTotalLockedAmountResponse"; "lockup.v1.QueryAccountLocksRequest";
      "lockup.v1.QueryAccountLocksResponse"; "lockup.v1.AccountLocksResource";
      "lockup.v1.LockResource"; "lockup.v1.QueryLocksRequest"; "lockup.v1.QueryLocksResponse";
      "cosmos.base.query.v1beta1.PageRequest"; "cosmos.base.query.v1beta1.PageResponse";
      "cosmos.base.v1beta1.Coin"].
Definition file_lockup_v1_query_depIdxs : list Z := [11; 2; 12; 13; 13; 11; 7; 12; 8; 13; 11; 8;
    12; 0; 3; 5; 9; 1; 4; 6; 10; 17; 13; 13; 13; 0].
Definition file_lockup_v1_query_init : TypeBuilder :=
  MkTypeBuilder file_lockup_v1_query_rawDesc 0 11 0 1 file_lockup_v1_query_goTypes
      file_lockup_v1_query_depIdxs.

(** ** api/lockup/module/v1/module.pulsar.go *)

Definition file_lockup_module_v1_module_rawDesc : bytes := concat
  [[x0a; x1d; x6c; x6f; x63; x6b; x75; x70; x2f; x6d; x6f; x64; x75; x6c; x65; x2f];
   [x76; x31; x2f; x6d; x6f; x64; x75; x6c; x65; x2e; x70; x72; x6f; x74; x6f; x12];
   [x10; x6c; x6f; x63; x6b; x75; x70; x2e; x6d; x6f; x64; x75; x6c; x65; x2e; x76];
   [x31; x1a; x20; x63; x6f; x73; x6d; x6f; x73; x2f; x61; x70; x70; x2f; x76; x31];
   [x61; x6c; x70; x68; x61; x31; x2f; x6d; x6f; x64; x75; x6c; x65; x2e; x70; x72];
   [x6f; x74; x6f; x22; x32; x0a; x06; x4d; x6f; x64; x75; x6c; x65; x3a; x28; xba];
   [xc0; x96; xda; x01; x22; x0a; x20; x67; x69; x74; x68; x75; x62; x2e; x63; x6f];
   [x6d; x2f; x54; x72; x75; x73; x74; x65; x64; x53; x6d; x61; x72; x74; x43; x68];
   [x61; x69; x6e; x2f; x74; x73; x63; x42; xc5; x01; x0a; x14; x63; x6f; x6d; x2e];
   [x6c; x6f; x63; x6b; x75; x70; x2e; x6d; x6f; x64; x75; x6c; x65; x2e; x76; x31];
   [x42; x0b; x4d; x6f; x64; x75; x6c; x65; x50; x72; x6f; x74; x6f; x50; x01; x5a];
   [x3e; x67; x69; x74; x68; x75; x62; x2e; x63; x6f; x6d; x2f; x54; x72; x75; x73];
   [x74; x65; x64; x53; x6d; x61; x72; x74; x43; x68; x61; x69; x6e; x2f; x74; x73];
   [x63; x2f; x61; x70; x69; x2f; x6c; x6f; x63; x6b; x75; x70; x2f; x6d; x6f; x64];
   [x75; x6c; x65; x2f; x76; x31; x3b; x6d; x6f; x64; x75; x6c; x65; x76; x31; xa2];
   [x02; x03; x4c; x4d; x58; xaa; x02; x10; x4c; x6f; x63; x6b; x75; x70; x2e; x4d];
   [x6f; x64; x75; x6c; x65; x2e; x56; x31; xca; x02; x10; x4c; x6f; x63; x6b; x75];
   [x70; x5c; x4d; x6f; x64; x75; x6c; x65; x5c; x56; x31; xe2; x02; x1c; x4c; x6f];
   [x63; x6b; x75; x70; x5c; x4d; x6f; x64; x75; x6c; x65; x5c; x56; x31; x5c; x47];
   [x50; x42; x4d; x65; x74; x61; x64; x61; x74; x61; xea; x02; x12; x4c; x6f; x63];
   [x6b; x75; x70; x3a; x3a; x4d; x6f; x64; x75; x6c; x65; x3a; x3a; x56; x31; x62];
   [x06; x70; x72; x6f; x74; x6f; x33]].

Definition file_lockup_module_v1_module_goTypes : list string :=
  ["lockup.module.v1.Module"].
Definition file_lockup_module_v1_module_depIdxs : list Z := [0; 0; 0; 0; 0].
Definition file_lockup_module_v1_module_init : TypeBuilder :=
  MkTypeBuilder file_lockup_module_v1_module_rawDesc 0 1 0 0 file_lockup_module_v1_module_goTypes
      file_lockup_module_v1_module_depIdxs.

(** ** api/distro/v1/genesis.pulsar.go *)

Definition file_distro_v1_genesis_rawDesc : bytes := concat
  [[x0a; x17; x64; x69; x73; x74; x72; x6f; x2f; x76; x31; x2f; x67; x65; x6e; x65];
   [x73; x69; x73; x2e; x70; x72; x6f; x74; x6f; x12; x09; x64; x69; x73; x74; x72];
   [x6f; x2e; x76; x31; x1a; x14; x67; x6f; x67; x6f; x70; x72; x6f; x74; x6f; x2f];
   [x67; x6f; x67; x6f; x2e; x70; x72; x6f; x74; x6f; x1a; x11; x61; x6d; x69; x6e];
   [x6f; x2f; x61; x6d; x69; x6e; x6f; x2e; x70; x72; x6f; x74; x6f; x22; x3f; x0a];
   [x0c; x47; x65; x6e; x65; x73; x69; x73; x53; x74; x61; x74; x65; x12; x2f; x0a];
   [x06; x70; x61; x72; x61; x6d; x73; x18; x01; x20; x01; x28; x0b; x32; x11; x2e];
   [x64; x69; x73; x74; x72; x6f; x2e; x76; x31; x2e; x50; x61; x72; x61; x6d; x73];
   [x42; x04; xc8; xde; x1f; x00; x52; x06; x70; x61; x72; x61; x6d; x73; x22; xa2];
   [x02; x0a; x06; x50; x61; x72; x61; x6d; x73; x12; x27; x0a; x0f; x6d; x69; x6e];
   [x74; x69; x6e; x67; x5f; x61; x64; x64; x72; x65; x73; x73; x18; x01; x20; x01];
   [x28; x09; x52; x0e; x6d; x69; x6e; x74; x69; x6e; x67; x41; x64; x64; x72; x65];
   [x73; x73; x12; x2b; x0a; x11; x72; x65; x63; x65; x69; x76; x69; x6e; x67; x5f];
   [x61; x64; x64; x72; x65; x73; x73; x18; x02; x20; x01; x28; x09; x52; x10; x72];
   [x65; x63; x65; x69; x76; x69; x6e; x67; x41; x64; x64; x72; x65; x73; x73; x12];
   [x14; x0a; x05; x64; x65; x6e; x6f; x6d; x18; x03; x20; x01; x28; x09; x52; x05];
   [x64; x65; x6e; x6f; x6d; x12; x1d; x0a; x0a; x6d; x61; x78; x5f; x73; x75; x70];
   [x70; x6c; x79; x18; x04; x20; x01; x28; x09; x52; x09; x6d; x61; x78; x53; x75];
   [x70; x70; x6c; x79; x12; x36; x0a; x17; x64; x69; x73; x74; x72; x69; x62; x75];
   [x74; x69; x6f; x6e; x5f; x73; x74; x61; x72; x74; x5f; x64; x61; x74; x65; x18];
   [x05; x20; x01; x28; x09; x52; x15; x64; x69; x73; x74; x72; x69; x62; x75; x74];
   [x69; x6f; x6e; x53; x74; x61; x72; x74; x44; x61; x74; x65; x12; x37; x0a; x18];
   [x6d; x6f; x6e; x74; x68; x73; x5f; x69; x6e; x5f; x68; x61; x6c; x76; x69; x6e];
   [x67; x5f; x70; x65; x72; x69; x6f; x64; x18; x06; x20; x01; x28; x04; x52; x15];
   [x6d; x6f; x6e; x74; x68; x73; x49; x6e; x48; x61; x6c; x76; x69; x6e; x67; x50];
   [x65; x72; x69; x6f; x64; x3a; x1c; xe8; xa0; x1f; x01; x8a; xe7; xb0; x2a; x13];
   [x74; x73; x63; x2f; x78; x2f; x64; x69; x73; x74; x72; x6f; x2f; x70; x61; x72];
   [x61; x6d; x73; x42; x9b; x01; x0a; x0d; x63; x6f; x6d; x2e; x64; x69; x73; x74];
   [x72; x6f; x2e; x76; x31; x42; x0c; x47; x65; x6e; x65; x73; x69; x73; x50; x72];
   [x6f; x74; x6f; x50; x01; x5a; x37; x67; x69; x74; x68; x75; x62; x2e; x63; x6f];
   [x6d; x2f; x54; x72; x75; x73; x74; x65; x64; x53; x6d; x61; x72; x74; x43; x68];
   [x61; x69; x6e; x2f; x74; x73; x63; x2f; x61; x70; x69; x2f; x64; x69; x73; x74];
   [x72; x6f; x2f; x76; x31; x3b; x64; x69; x73; x74; x72; x6f; x76; x31; xa2; x02];
   [x03; x44; x58; x58; xaa; x02; x09; x44; x69; x73; x74; x72; x6f; x2e; x56; x31];
   [xca; x02; x09; x44; x69; x73; x74; x72; x6f; x5c; x56; x31; xe2; x02; x15; x44];
   [x69; x73; x74; x72; x6f; x5c; x56; x31; x5c; x47; x50; x42; x4d; x65; x74; x61];
   [x64; x61; x74; x61; xea; x02; x0a; x44; x69; x73; x74; x72; x6f; x3a; x3a; x56];
   [x31; x62; x06; x70; x72; x6f; x74; x6f; x33]].

Definition file_distro_v1_genesis_goTypes : list string :=
  ["distro.v1.GenesisState"; "distro.v1.Params"].
Definition file_distro_v1_genesis_depIdxs : list Z := [1; 1; 1; 1; 1; 0].
Definition file_distro_v1_genesis_init : TypeBuilder :=
  MkTypeBuilder file_distro_v1_genesis_rawDesc 0 2 0 0 file_distro_v1_genesis_goTypes
      file_distro_v1_genesis_depIdxs.

(** ** api/distro/v1/tx.pulsar.go *)

Definition file_distro_v1_tx_rawDesc : bytes := concat
  [[x0a; x12; x64; x69; x73; x74; x72; x6f; x2f; x76; x31; x2f; x74; x78; x2e; x70];
   [x72; x6f; x74; x6f; x12; x09; x64; x69; x73; x74; x72; x6f; x2e; x76; x31; x1a];
   [x17; x63; x6f; x73; x6d; x6f; x73; x2f; x6d; x73; x67; x2f; x76; x31; x2f; x6d];
   [x73; x67; x2e; x70; x72; x6f; x74; x6f; x1a; x17; x64; x69; x73; x74; x72; x6f];
   [x2f; x76; x31; x2f; x67; x65; x6e; x65; x73; x69; x73; x2e; x70; x72; x6f; x74];
   [x6f; x1a; x14; x67; x6f; x67; x6f; x70; x72; x6f; x74; x6f; x2f; x67; x6f; x67];
   [x6f; x2e; x70; x72; x6f; x74; x6f; x1a; x19; x63; x6f; x73; x6d; x6f; x73; x5f];
   [x70; x72; x6f; x74; x6f; x2f; x63; x6f; x73; x6d; x6f; x73; x2e; x70; x72; x6f];
   [x74; x6f; x22; x8a; x01; x0a; x0f; x4d; x73; x67; x55; x70; x64; x61; x74; x65];
   [x50; x61; x72; x61; x6d; x73; x12; x36; x0a; x09; x61; x75; x74; x68; x6f; x72];
   [x69; x74; x79; x18; x01; x20; x01; x28; x09; x42; x18; xd2; xb4; x2d; x14; x63];
   [x6f; x73; x6d; x6f; x73; x2e; x41; x64; x64; x72; x65; x73; x73; x53; x74; x72];
   [x69; x6e; x67; x52; x09; x61; x75; x74; x68; x6f; x72; x69; x74; x79; x12; x2f];
   [x0a; x06; x70; x61; x72; x61; x6d; x73; x18; x02; x20; x01; x28; x0b; x32; x11];
   [x2e; x64; x69; x73; x74; x72; x6f; x2e; x76; x31; x2e; x50; x61; x72; x61; x6d];
   [x73; x42; x04; xc8; xde; x1f; x00; x52; x06; x70; x61; x72; x61; x6d; x73; x3a];
   [x0e; x82; xe7; xb0; x2a; x09; x61; x75; x74; x68; x6f; x72; x69; x74; x79; x22];
   [x19; x0a; x17; x4d; x73; x67; x55; x70; x64; x61; x74; x65; x50; x61; x72; x61];
   [x6d; x73; x52; x65; x73; x70; x6f; x6e; x73; x65; x22; x60; x0a; x07; x4d; x73];
   [x67; x4d; x69; x6e; x74; x12; x16; x0a; x06; x61; x6d; x6f; x75; x6e; x74; x18];
   [x01; x20; x01; x28; x09; x52; x06; x61; x6d; x6f; x75; x6e; x74; x12; x30; x0a];
   [x06; x6d; x69; x6e; x74; x65; x72; x18; x02; x20; x01; x28; x09; x42; x18; xd2];
   [xb4; x2d; x14; x63; x6f; x73; x6d; x6f; x73; x2e; x41; x64; x64; x72; x65; x73];
   [x73; x53; x74; x72; x69; x6e; x67; x52; x06; x6d; x69; x6e; x74; x65; x72; x3a];
   [x0b; x82; xe7; xb0; x2a; x06; x6d; x69; x6e; x74; x65; x72; x22; x11; x0a; x0f];
   [x4d; x73; x67; x4d; x69; x6e; x74; x52; x65; x73; x70; x6f; x6e; x73; x65; x32];
   [x94; x01; x0a; x03; x4d; x73; x67; x12; x4e; x0a; x0c; x55; x70; x64; x61; x74];
   [x65; x50; x61; x72; x61; x6d; x73; x12; x1a; x2e; x64; x69; x73; x74; x72; x6f];
   [x2e; x76; x31; x2e; x4d; x73; x67; x55; x70; x64; x61; x74; x65; x50; x61; x72];
   [x61; x6d; x73; x1a; x22; x2e; x64; x69; x73; x74; x72; x6f; x2e; x76; x31; x2e];
   [x4d; x73; x67; x55; x70; x64; x61; x74; x65; x50; x61; x72; x61; x6d; x73; x52];
   [x65; x73; x70; x6f; x6e; x73; x65; x12; x36; x0a; x04; x4d; x69; x6e; x74; x12];
   [x12; x2e; x64; x69; x73; x74; x72; x6f; x2e; x76; x31; x2e; x4d; x73; x67; x4d];
   [x69; x6e; x74; x1a; x1a; x2e; x64; x69; x73; x74; x72; x6f; x2e; x76; x31; x2e];
   [x4d; x73; x67; x4d; x69; x6e; x74; x52; x65; x73; x70; x6f; x6e; x73; x65; x1a];
   [x05; x80; xe7; xb0; x2a; x01; x42; x96; x01; x0a; x0d; x63; x6f; x6d; x2e; x64];
   [x69; x73; x74; x72; x6f; x2e; x76; x31; x42; x07; x54; x78; x50; x72; x6f; x74];
   [x6f; x50; x01; x5a; x37; x67; x69; x74; x68; x75; x62; x2e; x63; x6f; x6d; x2f];
   [x54; x72; x75; x73; x74; x65; x64; x53; x6d; x61; x72; x74; x43; x68; x61; x69];
   [x6e; x2f; x74; x73; x63; x2f; x61; x70; x69; x2f; x64; x69; x73; x74; x72; x6f];
   [x2f; x76; x31; x3b; x64; x69; x73; x74; x72; x6f; x76; x31; xa2; x02; x03; x44];
   [x58; x58; xaa; x02; x09; x44; x69; x73; x74; x72; x6f; x2e; x56; x31; xca; x02];
   [x09; x44; x69; x73; x74; x72; x6f; x5c; x56; x31; xe2; x02; x15; x44; x69; x73];
   [x74; x72; x6f; x5c; x56; x31; x5c; x47; x50; x42; x4d; x65; x74; x61; x64; x61];
   [x74; x61; xea; x02; x0a; x44; x69; x73; x74; x72; x6f; x3a; x3a; x56; x31; x62];
   [x06; x70; x72; x6f; x74; x6f; x33]].

Definition file_distro_v1_tx_goTypes : list string :=
  ["distro.v1.MsgUpdateParams"; "distro.v1.MsgUpdateParamsResponse"; "distro.v1.MsgMint";
      "distro.v1.MsgMintResponse"; "distro.v1.Params"].
Definition file_distro_v1_tx_depIdxs : list Z := [4; 0; 2; 1; 3; 3; 1; 1; 1; 0].
Definition file_distro_v1_tx_init : TypeBuilder :=
  MkTypeBuilder file_distro_v1_tx_rawDesc 0 4 0 1 file_distro_v1_tx_goTypes
      file_distro_v1_tx_depIdxs.

(** ** api/distro/v1/query.pulsar.go *)

Definition file_distro_v1_query_rawDesc : bytes := concat
  [[x0a; x15; x64; x69; x73; x74; x72; x6f; x2f; x76; x31; x2f; x71; x75; x65; x72];
   [x79; x2e; x70; x72; x6f; x74; x6f; x12; x09; x64; x69; x73; x74; x72; x6f; x2e];
   [x76; x31; x1a; x1c; x67; x6f; x6f; x67; x6c; x65; x2f; x61; x70; x69; x2f; x61];
   [x6e; x6e; x6f; x74; x61; x74; x69; x6f; x6e; x73; x2e; x70; x72; x6f; x74; x6f];
   [x1a; x17; x64; x69; x73; x74; x72; x6f; x2f; x76; x31; x2f; x67; x65; x6e; x65];
   [x73; x69; x73; x2e; x70; x72; x6f; x74; x6f; x22; x14; x0a; x12; x51; x75; x65];
   [x72; x79; x50; x61; x72; x61; x6d; x73; x52; x65; x71; x75; x65; x73; x74; x22];
   [x40; x0a; x13; x51; x75; x65; x72; x79; x50; x61; x72; x61; x6d; x73; x52; x65];
   [x73; x70; x6f; x6e; x73; x65; x12; x29; x0a; x06; x70; x61; x72; x61; x6d; x73];
   [x18; x01; x20; x01; x28; x0b; x32; x11; x2e; x64; x69; x73; x74; x72; x6f; x2e];
   [x76; x31; x2e; x50; x61; x72; x61; x6d; x73; x52; x06; x70; x61; x72; x61; x6d];
   [x73; x32; x6b; x0a; x05; x51; x75; x65; x72; x79; x12; x62; x0a; x06; x50; x61];
   [x72; x61; x6d; x73; x12; x1d; x2e; x64; x69; x73; x74; x72; x6f; x2e; x76; x31];
   [x2e; x51; x75; x65; x72; x79; x50; x61; x72; x61; x6d; x73; x52; x65; x71; x75];
   [x65; x73; x74; x1a; x1e; x2e; x64; x69; x73; x74; x72; x6f; x2e; x76; x31; x2e];
   [x51; x75; x65; x72; x79; x50; x61; x72; x61; x6d; x73; x52; x65; x73; x70; x6f];
   [x6e; x73; x65; x22; x19; x82; xd3; xe4; x93; x02; x13; x12; x11; x2f; x64; x69];
   [x73; x74; x72; x6f; x2f; x76; x31; x2f; x70; x61; x72; x61; x6d; x73; x42; x99];
   [x01; x0a; x0d; x63; x6f; x6d; x2e; x64; x69; x73; x74; x72; x6f; x2e; x76; x31];
   [x42; x0a; x51; x75; x65; x72; x79; x50; x72; x6f; x74; x6f; x50; x01; x5a; x37];
   [x67; x69; x74; x68; x75; x62; x2e; x63; x6f; x6d; x2f; x54; x72; x75; x73; x74];
   [x65; x64; x53; x6d; x61; x72; x74; x43; x68; x61; x69; x6e; x2f; x74; x73; x63];
   [x2f; x61; x70; x69; x2f; x64; x69; x73; x74; x72; x6f; x2f; x76; x31; x3b; x64];
   [x69; x73; x74; x72; x6f; x76; x31; xa2; x02; x03; x44; x58; x58; xaa; x02; x09];
   [x44; x69; x73; x74; x72; x6f; x2e; x56; x31; xca; x02; x09; x44; x69; x73; x74];
   [x72; x6f; x5c; x56; x31; xe2; x02; x15; x44; x69; x73; x74; x72; x6f; x5c; x56];
   [x31; x5c; x47; x50; x42; x4d; x65; x74; x61; x64; x61; x74; x61; xea; x02; x0a];
   [x44; x69; x73; x74; x72; x6f; x3a; x3a; x56; x31; x62; x06; x70; x72; x6f; x74];
   [x6f; x33]].

Definition file_distro_v1_query_goTypes : list string :=
  ["distro.v1.QueryParamsRequest"; "distro.v1.QueryParamsResponse"; "distro.v1.Params"].
Definition file_distro_v1_query_depIdxs : list Z := [2; 0; 1; 2; 1; 1; 1; 0].
Definition file_distro_v1_query_init : TypeBuilder :=
  MkTypeBuilder file_distro_v1_query_rawDesc 0 2 0 1 file_distro_v1_query_goTypes
      file_distro_v1_query_depIdxs.

(** ** api/distro/module/v1/module.pulsar.go *)

Definition file_distro_module_v1_module_rawDesc : bytes := concat
  [[x0a; x1d; x64; x69; x73; x74; x72; x6f; x2f; x6d; x6f; x64; x75; x6c; x65; x2f];
   [x76; x31; x2f; x6d; x6f; x64; x75; x6c; x65; x2e; x70; x72; x6f; x74; x6f; x12];
   [x10; x64; x69; x73; x74; x72; x6f; x2e; x6d; x6f; x64; x75; x6c; x65; x2e; x76];
   [x31; x1a; x20; x63; x6f; x73; x6d; x6f; x73; x2f; x61; x70; x70; x2f; x76; x31];
   [x61; x6c; x70; x68; x61; x31; x2f; x6d; x6f; x64; x75; x6c; x65; x2e; x70; x72];
   [x6f; x74; x6f; x22; x32; x0a; x06; x4d; x6f; x64; x75; x6c; x65; x3a; x28; xba];
   [xc0; x96; xda; x01; x22; x0a; x20; x67; x69; x74; x68; x75; x62; x2e; x63; x6f];
   [x6d; x2f; x54; x72; x75; x73; x74; x65; x64; x53; x6d; x61; x72; x74; x43; x68];
   [x61; x69; x6e; x2f; x74; x73; x63; x42; xc5; x01; x0a; x14; x63; x6f; x6d; x2e];
   [x64; x69; x73; x74; x72; x6f; x2e; x6d; x6f; x64; x75; x6c; x65; x2e; x76; x31];
   [x42; x0b; x4d; x6f; x64; x75; x6c; x65; x50; x72; x6f; x74; x6f; x50; x01; x5a];
   [x3e; x67; x69; x74; x68; x75; x62; x2e; x63; x6f; x6d; x2f; x54; x72; x75; x73];
   [x74; x65; x64; x53; x6d; x61; x72; x74; x43; x68; x61; x69; x6e; x2f; x74; x73];
   [x63; x2f; x61; x70; x69; x2f; x64; x69; x73; x74; x72; x6f; x2f; x6d; x6f; x64];
   [x75; x6c; x65; x2f; x76; x31; x3b; x6d; x6f; x64; x75; x6c; x65; x76; x31; xa2];
   [x02; x03; x44; x4d; x58; xaa; x02; x10; x44; x69; x73; x74; x72; x6f; x2e; x4d];
   [x6f; x64; x75; x6c; x65; x2e; x56; x31; xca; x02; x10; x44; x69; x73; x74; x72];
   [x6f; x5c; x4d; x6f; x64; x75; x6c; x65; x5c; x56; x31; xe2; x02; x1c; x44; x69];
   [x73; x74; x72; x6f; x5c; x4d; x6f; x64; x75; x6c; x65; x5c; x56; x31; x5c; x47];
   [x50; x42; x4d; x65; x74; x61; x64; x61; x74; x61; xea; x02; x12; x44; x69; x73];
   [x74; x72; x6f; x3a; x3a; x4d; x6f; x64; x75; x6c; x65; x3a; x3a; x56; x31; x62];
   [x06; x70; x72; x6f; x74; x6f; x33]].

Definition file_distro_module_v1_module_goTypes : list string :=
  ["distro.module.v1.Module"].
Definition file_distro_module_v1_module_depIdxs : list Z := [0; 0; 0; 0; 0].
Definition file_distro_module_v1_module_init : TypeBuilder :=
  MkTypeBuilder file_distro_module_v1_module_rawDesc 0 1 0 0 file_distro_module_v1_module_goTypes
      file_distro_module_v1_module_depIdxs.

