(* ===== verification/RawDescProps.v ===== *)
(** The embedded descriptors describe the generated code: decoding each raw
    descriptor gives the file, its messages with the fields of their tables, and
    the services with the methods of the stubs. *)

From stdpp Require Import base list strings.
From Stdlib Require Import ZArith Lia.
From Stdlib.Init Require Import Byte.
From S2P Require Import Prelude Sdk LockPb ProtoTable ProtoTableProps Pulsar ApiLockup ApiDistro Gogo Services ApiStubs RawDesc.

Local Open Scope Z_scope.

(** * google/protobuf/descriptor.proto *)

(** The parts of descriptor.proto that are read; other fields are skipped. *)
Record FieldDescriptor := MkFieldDescriptor {
  fd_name : string; fd_number : Z; fd_label : Z; fd_type : Z; fd_type_name : string }.
Definition FieldDescriptor_desc : Desc FieldDescriptor :=
  pb_desc "google.protobuf.FieldDescriptorProto" "FieldDescriptorProto"
    [MkField KString 1 "name" "Name" fd_name (fun v x => MkFieldDescriptor v (fd_number x) (fd_label x)
       (fd_type x) (fd_type_name x));
     MkField KUint64 3 "number" "Number" fd_number (fun v x => MkFieldDescriptor (fd_name x) v
         (fd_label x)
       (fd_type x) (fd_type_name x));
     MkField KUint64 4 "label" "Label" fd_label (fun v x => MkFieldDescriptor (fd_name x)
         (fd_number x) v
       (fd_type x) (fd_type_name x));
     MkField KUint64 5 "type" "Type" fd_type (fun v x => MkFieldDescriptor (fd_name x) (fd_number x)
       (fd_label x) v (fd_type_name x));
     MkField KString 6 "type_name" "TypeName" fd_type_name (fun v x => MkFieldDescriptor (fd_name x)
       (fd_number x) (fd_label x) (fd_type x) v)]
    (MkFieldDescriptor "" 0 0 0 "").

Record MessageDescriptor := MkMessageDescriptor { md_name : string; md_field : list FieldDescriptor }.
Definition MessageDescriptor_desc : Desc MessageDescriptor :=
  pb_desc "google.protobuf.DescriptorProto" "DescriptorProto"
    [MkField KString 1 "name" "Name" md_name (fun v x => MkMessageDescriptor v (md_field x));
     MkField (KRepVal (pb_codec gogo_helpers FieldDescriptor_desc)) 2 "field" "Field" md_field
       (fun v x => MkMessageDescriptor (md_name x) v)]
    (MkMessageDescriptor "" []).

Record MethodDescriptor := MkMethodDescriptor { me_name : string; me_input : string; me_output :
    string }.
Definition MethodDescriptor_desc : Desc MethodDescriptor :=
  pb_desc "google.protobuf.MethodDescriptorProto" "MethodDescriptorProto"
    [MkField KString 1 "name" "Name" me_name (fun v x => MkMethodDescriptor v (me_input x)
        (me_output x));
     MkField KString 2 "input_type" "InputType" me_input (fun v x => MkMethodDescriptor (me_name
         x) v (me_output x));
     MkField KString 3 "output_type" "OutputType" me_output (fun v x => MkMethodDescriptor
         (me_name x) (me_input x) v)]
    (MkMethodDescriptor "" "" "").

Record ServiceDescriptor := MkServiceDescriptor { se_name : string; se_method : list MethodDescriptor }.
Definition ServiceDescriptor_desc : Desc ServiceDescriptor :=
  pb_desc "google.protobuf.ServiceDescriptorProto" "ServiceDescriptorProto"
    [MkField KString 1 "name" "Name" se_name (fun v x => MkServiceDescriptor v (se_method x));
     MkField (KRepVal (pb_codec gogo_helpers MethodDescriptor_desc)) 2 "method" "Method" se_method
       (fun v x => MkServiceDescriptor (se_name x) v)]
    (MkServiceDescriptor "" []).

Record FileDescriptor := MkFileDescriptor {
  file_name : string; file_package : string; file_message : list MessageDescriptor;
  file_service : list ServiceDescriptor }.
Definition FileDescriptor_desc : Desc FileDescriptor :=
  pb_desc "google.protobuf.FileDescriptorProto" "FileDescriptorProto"
    [MkField KString 1 "name" "Name" file_name
       (fun v x => MkFileDescriptor v (file_package x) (file_message x) (file_service x));
     MkField KString 2 "package" "Package" file_package
       (fun v x => MkFileDescriptor (file_name x) v (file_message x) (file_service x));
     MkField (KRepVal (pb_codec gogo_helpers MessageDescriptor_desc)) 4 "message_type"
         "MessageType" file_message
       (fun v x => MkFileDescriptor (file_name x) (file_package x) v (file_service x));
     MkField (KRepVal (pb_codec gogo_helpers ServiceDescriptor_desc)) 6 "service" "Service" file_service
       (fun v x => MkFileDescriptor (file_name x) (file_package x) (file_message x) v)]
    (MkFileDescriptor "" "" [] []).

Definition read_descriptor (raw : bytes) : outcome FileDescriptor :=
  pb_Unmarshal gogo_helpers FileDescriptor_desc (d_empty FileDescriptor_desc) raw.

(** * What the code should be described as *)

(** The label (optional or repeated) and the type of a field in descriptor.proto:
    TYPE_UINT64, TYPE_STRING, TYPE_MESSAGE, TYPE_BYTES. *)
Definition kind_label {A} (k : fkind A) : Z := match k with KRep _ | KRepVal _ => 3 | _ => 1 end.
Definition kind_type {A} (k : fkind A) : Z :=
  match k with KUint64 => 4 | KString => 9 | KBytes => 12 | _ => 11 end.

(** A field up to the name of its message type. *)
Definition field_row : Type := string * Z * Z * Z.
Definition table_row {T} (fd : field T) : field_row :=
  (f_name fd, f_num fd, kind_label (f_kind fd), kind_type (f_kind fd)).
Definition descriptor_row (fd : FieldDescriptor) : field_row :=
  (fd_name fd, fd_number fd, fd_label fd, fd_type fd).

Definition table : Type := { T : Type & Desc T }.
Definition table_of {T} (d : Desc T) : table := existT T d.

(** The messages of a descriptor are the tables, in order. *)
Definition describes (f : FileDescriptor) (ts : list table) : Prop :=
  map (fun m => (md_name m, file_package f +:+ "." +:+ md_name m, map descriptor_row (md_field m)))
    (file_message f)
  = map (fun t : table => (d_goname (projT2 t), d_fullname (projT2 t), map table_row (d_fields
      (projT2 t)))) ts.

(** The types fields, method inputs and method outputs refer to, in the order of
    [DependencyIndexes]. *)
Definition referred (f : FileDescriptor) : list string :=
  filter (fun n => n <> "") (map fd_type_name (concat (map md_field (file_message f)))) ++
  map me_input (concat (map se_method (file_service f))) ++
  map me_output (concat (map se_method (file_service f))).

(** Its last five entries are where the parts start: method outputs, method
    inputs, and the types of fields; no extensions. *)
Definition indexes_resolve (b : TypeBuilder) (f : FileDescriptor) : Prop :=
  let fields := zlen (filter (fun n => n <> "") (map fd_type_name (concat (map md_field
      (file_message f))))) in
  let methods := zlen (concat (map se_method (file_service f))) in
  map (fun i => "." +:+ default "" (GoTypes b !! Z.to_nat i))
    (take (length (referred f)) (DependencyIndexes b)) = referred f /\
  drop (length (referred f)) (DependencyIndexes b)
    = [fields + methods; fields; fields; fields; 0].

(** A file: its descriptor decodes, is the one of [name] and [package], describes the
    tables, counts what it declares, and its indexes resolve. *)
Definition file_ok (b : TypeBuilder) (name package : string) (ts : list table) (f :
    FileDescriptor) : Prop :=
  read_descriptor (RawDescriptor b) = Ok f /\ file_name f = name /\ file_package f = package /\
  describes f ts /\
  NumMessages b = zlen (file_message f) /\ NumServices b = zlen (file_service f) /\
  NumEnums b = 0 /\ NumExtensions b = 0 /\
  take (length ts) (GoTypes b) = map (fun t : table => d_fullname (projT2 t)) ts /\
  indexes_resolve b f.

(** A service of a descriptor and the table of its stubs: the full name, the names
    of the methods in order, their requests and responses, in name and in Go type, and
    the file it comes from. *)
Definition service_described {W Srv} (f : FileDescriptor) (sd : ServiceDesc W Srv)
    (methods : list (table * table)) : Prop :=
  exists s, file_service f = [s] /\
    file_package f +:+ "." +:+ se_name s = ServiceName sd /\ file_name f = Metadata sd /\
    map me_name (se_method s) = map MethodName (Methods sd) /\
    map (fun m => (me_input m, me_output m)) (se_method s)
    = map (fun p : table * table => ("." +:+ d_fullname (projT2 p.1), "." +:+ d_fullname (projT2
        p.2))) methods /\
    map (fun m => (md_req m, md_resp m)) (Methods sd)
    = map (fun p : table * table => (projT1 p.1, projT1 p.2)) methods.

Section Files.
Context `{WireRuntime} `{ApiExternal}.

Definition file_lockup_v1_lock_tables : list table :=
  [table_of api_Lock_desc; table_of api_Locks_desc].
Definition file_lockup_v1_extension_tables : list table :=
  [table_of api_Extension_desc].
Definition file_lockup_v1_output_tables : list table :=
  [table_of api_MultiSendDelegateAndLockOutput_desc].
Definition file_lockup_v1_genesis_tables : list table :=
  [table_of api_LockupGenesisState_desc].
Definition file_lockup_v1_tx_tables : list table :=
  [table_of api_MsgLock_desc; table_of api_MsgLockResponse_desc; table_of api_MsgExtend_desc;
      table_of api_MsgExtendResponse_desc; table_of api_MsgSendDelegateAndLock_desc; table_of
      api_MsgSendDelegateAndLockResponse_desc; table_of api_MsgMultiSendDelegateAndLock_desc;
      table_of api_MsgMultiSendDelegateAndLockResponse_desc].
Definition file_lockup_v1_query_tables : list table :=
  [table_of api_QueryActiveLocksRequest_desc; table_of api_QueryActiveLocksResponse_desc; table_of
      api_ActiveLockResource_desc; table_of api_QueryTotalLockedAmountRequest_desc; table_of
      api_QueryTotalLockedAmountResponse_desc; table_of api_QueryAccountLocksRequest_desc;
      table_of api_QueryAccountLocksResponse_desc; table_of api_AccountLocksResource_desc;
      table_of api_LockResource_desc; table_of api_QueryLocksRequest_desc; table_of
      api_QueryLocksResponse_desc].
Definition file_lockup_module_v1_module_tables : list table :=
  [table_of api_LockupModule_desc].
Definition file_distro_v1_genesis_tables : list table :=
  [table_of api_DistroGenesisState_desc; table_of api_Params_desc].
Definition file_distro_v1_tx_tables : list table :=
  [table_of api_MsgUpdateParams_desc; table_of api_MsgUpdateParamsResponse_desc; table_of
      api_MsgMint_desc; table_of api_MsgMintResponse_desc].
Definition file_distro_v1_query_tables : list table :=
  [table_of api_QueryParamsRequest_desc; table_of api_QueryParamsResponse_desc].
Definition file_distro_module_v1_module_tables : list table :=
  [table_of api_DistroModule_desc].

(** The files with services carry the methods of the stubs. *)
Ltac decode_file := eexists; split; [split; [vm_compute; reflexivity|]; repeat split; vm_compute;
    reflexivity|].

(** C40 The descriptor embedded in each of the eleven API files decodes and says
    what the code does: the messages of the file with the names, numbers, labels and
    types of exactly the fields their generated codecs have, the numbers of messages
    and services the library is told, Go types and indexes that resolve to the types
    the descriptor names, and the four services with the methods, requests and
    responses of the stubs. *)
Theorem raw_descriptors_describe_code {W : Type} `{GrpcMetadata} :
  (exists f, file_ok file_lockup_v1_lock_init "lockup/v1/lock.proto" "lockup.v1"
      file_lockup_v1_lock_tables f /\ file_service f = []) /\
  (exists f, file_ok file_lockup_v1_extension_init "lockup/v1/extension.proto" "lockup.v1"
      file_lockup_v1_extension_tables f /\ file_service f = []) /\
  (exists f, file_ok file_lockup_v1_output_init "lockup/v1/output.proto" "lockup.v1"
      file_lockup_v1_output_tables f /\ file_service f = []) /\
  (exists f, file_ok file_lockup_v1_genesis_init "lockup/v1/genesis.proto" "lockup.v1"
      file_lockup_v1_genesis_tables f /\ file_service f = []) /\
  (exists f, file_ok file_lockup_v1_tx_init "lockup/v1/tx.proto" "lockup.v1"
      file_lockup_v1_tx_tables f /\
     service_described f (W := W) api_lockup_Msg_ServiceDesc
       [(table_of api_MsgLock_desc, table_of api_MsgLockResponse_desc); (table_of
           api_MsgExtend_desc, table_of api_MsgExtendResponse_desc); (table_of
           api_MsgSendDelegateAndLock_desc, table_of api_MsgSendDelegateAndLockResponse_desc);
           (table_of api_MsgMultiSendDelegateAndLock_desc, table_of
           api_MsgMultiSendDelegateAndLockResponse_desc)]) /\
  (exists f, file_ok file_lockup_v1_query_init "lockup/v1/query.proto" "lockup.v1"
      file_lockup_v1_query_tables f /\
     service_described f (W := W) api_lockup_Query_ServiceDesc
       [(table_of api_QueryActiveLocksRequest_desc, table_of api_QueryActiveLocksResponse_desc);
           (table_of api_QueryTotalLockedAmountRequest_desc, table_of
           api_QueryTotalLockedAmountResponse_desc); (table_of api_QueryAccountLocksRequest_desc,
           table_of api_QueryAccountLocksResponse_desc); (table_of api_QueryLocksRequest_desc,
           table_of api_QueryLocksResponse_desc)]) /\
  (exists f, file_ok file_lockup_module_v1_module_init "lockup/module/v1/module.proto"
      "lockup.module.v1" file_lockup_module_v1_module_tables f /\ file_service f = []) /\
  (exists f, file_ok file_distro_v1_genesis_init "distro/v1/genesis.proto" "distro.v1"
      file_distro_v1_genesis_tables f /\ file_service f = []) /\
  (exists f, file_ok file_distro_v1_tx_init "distro/v1/tx.proto" "distro.v1"
      file_distro_v1_tx_tables f /\
     service_described f (W := W) api_distro_Msg_ServiceDesc
       [(table_of api_MsgUpdateParams_desc, table_of api_MsgUpdateParamsResponse_desc); (table_of
           api_MsgMint_desc, table_of api_MsgMintResponse_desc)]) /\
  (exists f, file_ok file_distro_v1_query_init "distro/v1/query.proto" "distro.v1"
      file_distro_v1_query_tables f /\
     service_described f (W := W) api_distro_Query_ServiceDesc
       [(table_of api_QueryParamsRequest_desc, table_of api_QueryParamsResponse_desc)]) /\
  (exists f, file_ok file_distro_module_v1_module_init "distro/module/v1/module.proto"
      "distro.module.v1" file_distro_module_v1_module_tables f /\ file_service f = []).
Proof.
  repeat apply conj; decode_file; try reflexivity; (eexists; split; [reflexivity|]; by repeat split).
Qed.
End Files.
