(* ===== verification/GogoReflectProps.v ===== *)
(** The methods and descriptors of the types packages: the generated methods agree
    with the tables of the messages, and the descriptor each .pb.go file embeds
    describes, decompressed, the tables of its own package, and is the descriptor of
    the file of that name under api where there is one. *)

From stdpp Require Import base list strings.
From Stdlib Require Import ZArith Lia.
From Stdlib.Init Require Import Byte.
From S2P Require Import Prelude Inflate Sdk LockPb LockupMsgs LockupQuery Distro Modules ProtoTable ProtoTableProps Pulsar ApiLockup ApiDistro Gogo TypesLock TypesLockup TypesDistro GogoProps FileDesc GogoReflect Services Node RawDesc RawDescProps.

Local Open Scope Z_scope.

(** * Methods *)

(** A getter reads its field, and the zero of the field from a nil message. *)
Definition reads_field {T} (fd : field T) (g : { A : Type & option T -> A }) : Prop :=
  exists E : f_type fd = projT1 g,
    (forall m, projT2 g (Some m) = eq_rect _ (fun A => A) (f_get fd m) _ E) /\
    projT2 g None = eq_rect _ (fun A => A) (kind_zero (f_kind fd)) _ E.

(** The fields with a getter. *)
Definition is_custom {T} (d : Desc T) (fd : field T) : bool :=
  existsb (fun c => String.eqb c.1 (d_fullname d) && String.eqb c.2 (f_name fd)) customtypes.
Definition getter_fields {T} (d : Desc T) : list (field T) :=
  List.filter (fun fd => negb (is_custom d fd)) (d_fields d).

(** The methods of a message are those of Gogo.v, up to the library. *)
Record go_message_ok `{SdkMath, GogoExternal, GogoRuntime} (m : go_message) : Prop := {
  go_pb : gm_pb m ∈ pb_messages;
  go_reset : go_Reset (gm_methods m) = Reset (d_empty (pm_desc (gm_pb m)));
  go_size x : go_XXX_Size (gm_methods m) x = pm_Size (gm_pb m) x;
  go_marshal x b det : go_XXX_Marshal (gm_methods m) x b det
    = XXX_Marshal (pb_MarshalToSizedBuffer gogo_helpers (pm_desc (gm_pb m))) x b det;
  go_unmarshal x bz : go_XXX_Unmarshal (gm_methods m) x bz = pm_Unmarshal (gm_pb m) x bz;
  go_get : Forall2 reads_field (getter_fields (pm_desc (gm_pb m))) (gm_getters m);
}.

Section Methods.
Context `{GogoExternalLaws} `{GogoRuntime} `{SdkMath} `{!SdkMathLaws}.

Lemma go_messages_ok m : m ∈ go_messages -> go_message_ok m.
Proof.
  apply Forall_forall. unfold go_messages.
  repeat (apply Forall_cons; split;
    [split; cbn [gm_pb gm_methods pm_desc];
       [unfold pb_messages, lock_pb_messages, lockup_pb_messages, distro_pb_messages; cbn [app];
        repeat (first [by left|right])
       |reflexivity|reflexivity
       |first [reflexivity|intros x b det; cbn -[XXX_Marshal]; unfold XXX_Marshal;
               first [by rewrite Lock_Marshal_table|by rewrite Locks_Marshal_table]]
       |reflexivity
       |cbn [getter_fields]; repeat (apply Forall2_cons; split; [exists eq_refl; split; reflexivity|]);
        apply Forall2_nil; exact I]|]).
  apply Forall_nil. exact I.
Qed.

(** Into a buffer of the size of the message [XXX_Marshal] writes the message; into
    one of twice the size or more it returns what the buffer held. *)
Lemma XXX_Marshal_buffer {T} (write : T -> outcome bytes) (m : T) bz b :
  write m = Ok bz ->
  (zlen b = zlen bz -> XXX_Marshal write m b false = Ok bz) /\
  (2 * zlen bz <= zlen b -> XXX_Marshal write m b false = Ok (take (length bz) b)).
Proof.
  intros E. unfold XXX_Marshal, zlen. rewrite E. cbn [mbind outcome_bind]. split; intros L.
  - rewrite (proj2 (Z.ltb_ge _ _)) by lia. replace (length b - length bz)%nat with 0%nat by lia.
    by rewrite take_0, app_nil_l, firstn_all.
  - rewrite (proj2 (Z.ltb_ge _ _)) by lia. f_equal.
    rewrite take_app_le by (rewrite length_take; lia). rewrite take_take. f_equal. lia.
Qed.

(** For every message of the types packages: Reset empties it, and panics on a
    nil pointer; the XXX_ methods the library calls are the size and the decoder of
    the message; each field has a getter in order, which reads the field and gives its
    zero for a nil message; and XXX_Marshal writes what Marshal writes into a buffer of
    exactly XXX_Size bytes, but returns the old bytes of a buffer twice as large. *)
Theorem generated_methods_agree m x b :
  m ∈ go_messages -> desc_wf (pm_desc (gm_pb m)) x -> pm_Size (gm_pb m) (Some x) < 2 ^ 60 ->
  let M := gm_methods m in
  let size := go_XXX_Size M (Some x) in
  go_Reset M (Some x) = Ok (d_empty (pm_desc (gm_pb m))) /\ go_Reset M None = Panic NilDeref /\
  size = pm_Size (gm_pb m) (Some x) /\ go_XXX_Size M None = 0 /\
  (forall bz, go_XXX_Unmarshal M x bz = pm_Unmarshal (gm_pb m) x bz) /\
  Forall2 reads_field (getter_fields (pm_desc (gm_pb m))) (gm_getters m) /\
  (zlen b = size -> go_XXX_Marshal M x b false = pm_Marshal (gm_pb m) x) /\
  (2 * size <= zlen b -> go_XXX_Marshal M x b false = Ok (take (Z.to_nat size) b)).
Proof.
  intros [P R S Wr U G]%go_messages_ok W B M size. subst M size.
  apply pb_messages_ok in P as [D _ PS PM _ _]. rewrite R, !S, !PS in *. cbn [pb_Size] in *.
  pose proof gogo_helpers_laws as L.
  destruct (table_exact (H := gogo_helpers) (pm_desc (gm_pb m)) D x W B) as (bz & E & Lb & _).
  destruct (XXX_Marshal_buffer (pb_MarshalToSizedBuffer gogo_helpers (pm_desc (gm_pb m))) x bz b E)
    as [X1 X2].
  do 4 (split; [done|]). split; [intros bz'; apply U|]. split; [done|]. rewrite !Wr, <- Lb. split.
  - intros Lx. rewrite X1 by done. rewrite PM. unfold pb_Marshal, pb_MarshalToSizedBuffer. rewrite E.
    cbn [mbind outcome_bind]. rewrite <- Lb. by rewrite sized_buffer_exact.
  - intros Lx. rewrite X2 by done. unfold zlen. by rewrite Nat2Z.id.
Qed.
End Methods.

(** * Descriptors *)

(** The fields of an encoded message, each with its tag; the field of number 8 of a
    file descriptor are its options. *)
Fixpoint split_fields (fuel : nat) (bz : bytes) : outcome (list bytes) :=
  match bz with
  | [] => Ok []
  | _ =>
    match fuel with
    | O => OutOfFuel
    | S fuel' =>
        n ← skipLock bz;
        rest ← slice_from bz n;
        fs ← split_fields fuel' rest;
        Ok (take (Z.to_nat n) bz :: fs)
    end
  end.
Definition is_options (fd : bytes) : bool := bool_decide (head fd = Some x42).
Definition without_options (raw : bytes) : outcome (list bytes) :=
  filter (fun fd => is_options fd = false) <$> split_fields (length raw) raw.

(** A field of a customtype is a string in the descriptor. *)
Definition go_row {T} (d : Desc T) (fd : field T) : field_row :=
  let '(name, num, label, type) := table_row fd in
  (name, num, label, if is_custom d fd then kind_type KString else type).

(** The messages of a descriptor are the tables of the types package, in order. *)
Definition go_describes (f : FileDescriptor) (ts : list table) : Prop :=
  map (fun m => (md_name m, file_package f +:+ "." +:+ md_name m, map descriptor_row (md_field m)))
    (file_message f)
  = map (fun t : table => (d_goname (projT2 t), d_fullname (projT2 t),
      map (go_row (projT2 t)) (d_fields (projT2 t)))) ts.

(** A .pb.go file: its descriptor decompresses, with the right checksum, to the
    descriptor of the registered file and package; its messages are those
    registered, with the fields of their tables; and it is, byte for byte up to the
    options, the descriptor under api of the same file, if there is one. *)
Definition gogo_file_ok (r : Registration) (package : string) (api : option bytes)
    (ts : list table) (f : FileDescriptor) : Prop :=
  exists bz, gunzip (RegisterFile r).2 = Some bz /\ read_descriptor bz = Ok f /\
    file_name f = (RegisterFile r).1 /\ file_package f = package /\ go_describes f ts /\
    map (fun t : table => (d_goname (projT2 t), d_fullname (projT2 t))) ts = RegisterType r /\
    match api with
    | Some raw => without_options bz = without_options raw /\ is_ok (without_options raw) = true
    | None => True
    end.

(** The message the library finds for a message by its Descriptor method is the one
    registered under its type. *)
Definition registrations : list Registration :=
  [lockup_lock_init; lockup_extension_init; lockup_output_init; lockup_genesis_init; lockup_tx_init;
   lockup_query_init; distro_genesis_init; distro_tx_init; distro_query_init; distro_state_init].
Definition descriptor_found (m : go_message) : Prop :=
  exists r i, r ∈ registrations /\ go_Descriptor (gm_methods m) = ((RegisterFile r).2, [Z.of_nat i]) /\
    RegisterType r !! i = Some (d_goname (pm_desc (gm_pb m)), d_fullname (pm_desc (gm_pb m))).

Definition found_in (m : go_message) (r : Registration) : bool :=
  match go_Descriptor (gm_methods m) with
  | (fd, [i]) =>
      (0 <=? i) && bool_decide (fd = (RegisterFile r).2) &&
      bool_decide (RegisterType r !! Z.to_nat i
                   = Some (d_goname (pm_desc (gm_pb m)), d_fullname (pm_desc (gm_pb m))))
  | _ => false
  end.
Lemma descriptor_found_intro m : existsb (found_in m) registrations = true -> descriptor_found m.
Proof.
  intros (r & R & F)%existsb_exists. unfold found_in in F.
  destruct (go_Descriptor (gm_methods m)) as [fd [|i [|]]] eqn:E; try done. bool_to_prop.
  exists r, (Z.to_nat i). rewrite Z2Nat.id by lia. apply list_elem_of_In in R. subst fd. done.
Qed.

Section Files.
Context `{SdkMath} `{GogoExternal} `{GogoRuntime} `{WireRuntime} `{ApiExternal} {W : Type} `{GrpcMetadata}.

Definition lockup_lock_tables : list table :=
  [table_of Lock_desc; table_of Locks_desc].
Definition lockup_extension_tables : list table :=
  [table_of Extension_desc].
Definition lockup_output_tables : list table :=
  [table_of MultiSendDelegateAndLockOutput_desc].
Definition lockup_genesis_tables : list table :=
  [table_of LockupGenesisState_desc].
Definition lockup_tx_tables : list table :=
  [table_of MsgLock_desc; table_of MsgLockResponse_desc; table_of MsgExtend_desc; table_of
   MsgExtendResponse_desc; table_of MsgSendDelegateAndLock_desc; table_of
   MsgSendDelegateAndLockResponse_desc; table_of MsgMultiSendDelegateAndLock_desc; table_of
   MsgMultiSendDelegateAndLockResponse_desc].
Definition lockup_query_tables : list table :=
  [table_of QueryActiveLocksRequest_desc; table_of QueryActiveLocksResponse_desc; table_of
   ActiveLockResource_desc; table_of QueryTotalLockedAmountRequest_desc; table_of
   QueryTotalLockedAmountResponse_desc; table_of QueryAccountLocksRequest_desc; table_of
   QueryAccountLocksResponse_desc; table_of AccountLocksResource_desc; table_of LockResource_desc;
   table_of QueryLocksRequest_desc; table_of QueryLocksResponse_desc].
Definition distro_genesis_tables : list table :=
  [table_of DistroGenesisState_desc; table_of Params_desc].
Definition distro_tx_tables : list table :=
  [table_of MsgUpdateParams_desc; table_of MsgUpdateParamsResponse_desc; table_of MsgMint_desc;
   table_of MsgMintResponse_desc].
Definition distro_query_tables : list table :=
  [table_of QueryParamsRequest_desc; table_of QueryParamsResponse_desc].
Definition distro_state_tables : list table :=
  [table_of ExampleData_desc].

Definition lockup_Msg_serviceDesc :=
  LockupMsg.Msg_serviceDesc (W := W) (LockReq := MsgLock) (LockResp := MsgLockResponse)
    (ExtendReq := MsgExtend) (ExtendResp := MsgExtendResponse)
    (SendDelegateAndLockReq := MsgSendDelegateAndLock)
    (SendDelegateAndLockResp := MsgSendDelegateAndLockResponse)
    (MultiSendDelegateAndLockReq := MsgMultiSendDelegateAndLock)
    (MultiSendDelegateAndLockResp := MsgMultiSendDelegateAndLockResponse).
Definition lockup_Query_serviceDesc :=
  LockupQueries.Query_serviceDesc (W := W) (ActiveLocksReq := QueryActiveLocksRequest)
    (ActiveLocksResp := QueryActiveLocksResponse) (TotalLockedAmountReq := QueryTotalLockedAmountRequest)
    (TotalLockedAmountResp := QueryTotalLockedAmountResponse)
    (AccountLocksReq := QueryAccountLocksRequest) (AccountLocksResp := QueryAccountLocksResponse)
    (LocksReq := QueryLocksRequest) (LocksResp := QueryLocksResponse).
Definition distro_Msg_serviceDesc :=
  DistroMsg.Msg_serviceDesc (W := W) (UpdateParamsReq := MsgUpdateParams)
    (UpdateParamsResp := MsgUpdateParamsResponse) (MintReq := MsgMint) (MintResp := MsgMintResponse).
Definition distro_Query_serviceDesc :=
  DistroQueries.Query_serviceDesc (W := W) (ParamsReq := QueryParamsRequest)
    (ParamsResp := QueryParamsResponse).

Ltac decode_gogo_file :=
  eexists; split; [eexists; split; [vm_compute; reflexivity|]; split; [vm_compute; reflexivity|];
                   repeat split; vm_compute; reflexivity|].

(** C39 The compressed descriptor each of the ten files of the types packages embeds
    decompresses with the right checksum and describes the code of its own package: the
    registered messages with the names, numbers, labels and types of the fields of their
    codecs (the amount of a lock, of a custom type, as a string) and the methods of the
    service tables.  Nine of the files have a counterpart under api, and their
    descriptors are those embedded there but for the options; state.pb.go of x/distro has
    none and is only compared with its own table.  The Descriptor method of every
    message, Lock and Locks included, points to its own entry. *)
Theorem gogo_descriptors_match_api :
  (exists f, gogo_file_ok lockup_lock_init "lockup.v1" (Some file_lockup_v1_lock_rawDesc) lockup_lock_tables f /\ file_service f = []) /\
  (exists f, gogo_file_ok lockup_extension_init "lockup.v1" (Some file_lockup_v1_extension_rawDesc) lockup_extension_tables f /\ file_service f = []) /\
  (exists f, gogo_file_ok lockup_output_init "lockup.v1" (Some file_lockup_v1_output_rawDesc) lockup_output_tables f /\ file_service f = []) /\
  (exists f, gogo_file_ok lockup_genesis_init "lockup.v1" (Some file_lockup_v1_genesis_rawDesc) lockup_genesis_tables f /\ file_service f = []) /\
  (exists f, gogo_file_ok lockup_tx_init "lockup.v1" (Some file_lockup_v1_tx_rawDesc) lockup_tx_tables f /\ service_described f (W := W) lockup_Msg_serviceDesc
       [(table_of MsgLock_desc, table_of MsgLockResponse_desc); (table_of MsgExtend_desc, table_of MsgExtendResponse_desc);
        (table_of MsgSendDelegateAndLock_desc, table_of MsgSendDelegateAndLockResponse_desc);
        (table_of MsgMultiSendDelegateAndLock_desc, table_of MsgMultiSendDelegateAndLockResponse_desc)]) /\
  (exists f, gogo_file_ok lockup_query_init "lockup.v1" (Some file_lockup_v1_query_rawDesc) lockup_query_tables f /\ service_described f (W := W) lockup_Query_serviceDesc
       [(table_of QueryActiveLocksRequest_desc, table_of QueryActiveLocksResponse_desc);
        (table_of QueryTotalLockedAmountRequest_desc, table_of QueryTotalLockedAmountResponse_desc);
        (table_of QueryAccountLocksRequest_desc, table_of QueryAccountLocksResponse_desc);
        (table_of QueryLocksRequest_desc, table_of QueryLocksResponse_desc)]) /\
  (exists f, gogo_file_ok distro_genesis_init "distro.v1" (Some file_distro_v1_genesis_rawDesc) distro_genesis_tables f /\ file_service f = []) /\
  (exists f, gogo_file_ok distro_tx_init "distro.v1" (Some file_distro_v1_tx_rawDesc) distro_tx_tables f /\ service_described f (W := W) distro_Msg_serviceDesc
       [(table_of MsgUpdateParams_desc, table_of MsgUpdateParamsResponse_desc);
        (table_of MsgMint_desc, table_of MsgMintResponse_desc)]) /\
  (exists f, gogo_file_ok distro_query_init "distro.v1" (Some file_distro_v1_query_rawDesc) distro_query_tables f /\ service_described f (W := W) distro_Query_serviceDesc
       [(table_of QueryParamsRequest_desc, table_of QueryParamsResponse_desc)]) /\
  (exists f, gogo_file_ok distro_state_init "distro.v1" None distro_state_tables f /\ file_service f = []) /\
  Forall descriptor_found go_messages.
Proof.
  repeat apply conj;
    [decode_gogo_file; first [reflexivity | eexists; split; [reflexivity|]; by repeat split]..|].
  apply Forall_forall. intros m M%list_elem_of_In. apply descriptor_found_intro. revert m M.
  apply forallb_forall. vm_compute. reflexivity.
Qed.
End Files.
