(* ===== verification/CommandRun.v ===== *)
(** From a typed command to the ledger: a command of x/lockup/client/cli, the message
    it submits, its bytes, the transaction the node decodes and runs, and what the
    ledger of the lockup module holds after it. *)

From stdpp Require Import base list strings gmap relations.
From Stdlib Require Import ZArith Lia.
From Stdlib.Init Require Import Byte.
From S2P Require Import Prelude GoTime Sdk LockPb LockStore LockSpec LockupKeeper LockupMsgs LockupInv LockupProps LockupQuery Ante Cli CliProps Distro Modules App Delivery ProtoTable ProtoTableProps Gogo TypesLockup TypesDistro GogoProps Services Node.

Local Open Scope Z_scope.

(** * Messages as bytes *)

(** [codectypes.Any]. *)
Record Any := MkAny { TypeUrl : string; Value : bytes }.

Section Bytes.
Context `{GogoExternal}.

Definition LockupMsg_Marshal (m : LockupMsg) : outcome bytes :=
  match m with
  | SubmitLock msg => MsgLock_Marshal msg
  | SubmitExtend msg => MsgExtend_Marshal msg
  | SubmitSend msg => MsgSendDelegateAndLock_Marshal msg
  | SubmitMulti msg => MsgMultiSendDelegateAndLock_Marshal msg
  end.

(** A new message of the type of the URL, filled from the bytes. *)
Definition LockupMsg_Unmarshal (a : Any) : outcome LockupMsg :=
  if String.eqb (TypeUrl a) "/lockup.v1.MsgLock"
  then SubmitLock <$> MsgLock_Unmarshal (d_empty MsgLock_desc) (Value a) else
  if String.eqb (TypeUrl a) "/lockup.v1.MsgExtend"
  then SubmitExtend <$> MsgExtend_Unmarshal (d_empty MsgExtend_desc) (Value a) else
  if String.eqb (TypeUrl a) "/lockup.v1.MsgSendDelegateAndLock"
  then SubmitSend <$> MsgSendDelegateAndLock_Unmarshal (d_empty MsgSendDelegateAndLock_desc) (Value a) else
  if String.eqb (TypeUrl a) "/lockup.v1.MsgMultiSendDelegateAndLock"
  then SubmitMulti <$>
    MsgMultiSendDelegateAndLock_Unmarshal (d_empty MsgMultiSendDelegateAndLock_desc) (Value a)
  else Err (ExtErr "unable to resolve type URL").

(** The encoding represents the message. *)
Definition LockupMsg_wf (m : LockupMsg) : Prop :=
  match m with
  | SubmitLock msg => desc_wf MsgLock_desc msg /\ MsgLock_Size (Some msg) < 2 ^ 60
  | SubmitExtend msg => desc_wf MsgExtend_desc msg /\ MsgExtend_Size (Some msg) < 2 ^ 60
  | SubmitSend msg =>
      desc_wf MsgSendDelegateAndLock_desc msg /\ MsgSendDelegateAndLock_Size (Some msg) < 2 ^ 60
  | SubmitMulti msg =>
      desc_wf MsgMultiSendDelegateAndLock_desc msg /\
      MsgMultiSendDelegateAndLock_Size (Some msg) < 2 ^ 60
  end.
End Bytes.

Lemma marshal_back `{GogoExternalLaws} {T} (d : Desc T) m bz :
  desc_ok d -> desc_wf d m -> pb_Size gogo_helpers d (Some m) < 2 ^ 60 ->
  pb_Marshal gogo_helpers d m = Ok bz -> pb_Unmarshal gogo_helpers d (d_empty d) bz = Ok m.
Proof.
  intros O W B E. destruct (gogo_exact d m O W B) as (bz' & M & U). cbn in M, U. congruence.
Qed.

Section Decoded.
Context `{GogoExternalLaws}.

Lemma MsgLock_desc_ok : desc_ok MsgLock_desc.
Proof. solve_desc_ok. Qed.
Lemma MsgExtend_desc_ok : desc_ok MsgExtend_desc.
Proof. solve_desc_ok. Qed.
Lemma MsgSendDelegateAndLock_desc_ok : desc_ok MsgSendDelegateAndLock_desc.
Proof. solve_desc_ok. Qed.
Lemma MsgMultiSendDelegateAndLock_desc_ok : desc_ok MsgMultiSendDelegateAndLock_desc.
Proof. solve_desc_ok. Qed.

Lemma LockupMsg_roundtrip m bz :
  LockupMsg_wf m -> LockupMsg_Marshal m = Ok bz ->
  LockupMsg_Unmarshal (MkAny (LockupMsg_TypeURL m) bz) = Ok m.
Proof.
  destruct m as [msg|msg|msg|msg]; intros [W B] E.
  - exact (f_equal (fmap SubmitLock) (marshal_back _ _ _ MsgLock_desc_ok W B E)).
  - exact (f_equal (fmap SubmitExtend) (marshal_back _ _ _ MsgExtend_desc_ok W B E)).
  - exact (f_equal (fmap SubmitSend) (marshal_back _ _ _ MsgSendDelegateAndLock_desc_ok W B E)).
  - exact (f_equal (fmap SubmitMulti) (marshal_back _ _ _ MsgMultiSendDelegateAndLock_desc_ok W B E)).
Qed.
End Decoded.

(** * Commands *)

(** The commands of [NewTxCmd]. *)
Inductive lockup_command := CLock | CExtend | CSend | CMulti.

Section Commands.
Context `{SdkMath} `{SdkTypes} `{ClientTx} `{GogoExternal}.

Definition run_command (c : lockup_command) (cmd : Command) (args : list string) : outcome TxResult :=
  match c with
  | CLock => CmdLock cmd args
  | CExtend => CmdExtend cmd args
  | CSend => CmdSendDelegateAndLock cmd args
  | CMulti => CmdMultiSendDelegateAndLock cmd args
  end.

(** The message a command builds from its arguments. *)
Definition command_msg (c : lockup_command) (clientCtx : ClientContext) (args : list string) : outcome LockupMsg :=
  match c with
  | CLock => SubmitLock <$> CmdLock_msg clientCtx args
  | CExtend => SubmitExtend <$> CmdExtend_msg clientCtx args
  | CSend => SubmitSend <$> CmdSend_msg clientCtx args
  | CMulti => SubmitMulti <$> CmdMulti_msg clientCtx args
  end.

(** The messages in the transaction that was handed out or broadcast. *)
Class Broadcast := { tx_messages : TxResult -> list Any }.

(** [GenerateOrBroadcastTxCLI] packs the one message it is given. *)
Class BroadcastLaws `{Broadcast} : Prop := {
  broadcast_packs clientCtx cmd m r :
    GenerateOrBroadcastTxCLI clientCtx cmd m = Ok r ->
    exists bz, LockupMsg_Marshal m = Ok bz /\ tx_messages r = [MkAny (LockupMsg_TypeURL m) bz];
}.

(** The messages as the node reads them. *)
Fixpoint unpack_messages (anys : list Any) : outcome (list LockupMsg) :=
  match anys with
  | [] => Ok []
  | a :: rest =>
      m ← LockupMsg_Unmarshal a;
      ms ← unpack_messages rest;
      Ok (m :: ms)
  end.

Lemma run_command_Ok c cmd args r :
  run_command c cmd args = Ok r ->
  exists clientCtx m, GetClientTxContext cmd = Ok clientCtx /\ command_msg c clientCtx args = Ok m /\
    GenerateOrBroadcastTxCLI clientCtx cmd m = Ok r.
Proof.
  destruct c; cbn [run_command command_msg];
    unfold CmdLock, CmdExtend, CmdSendDelegateAndLock, CmdMultiSendDelegateAndLock;
    intros ([] & _ & E)%bind_Ok; apply bind_Ok in E as (cc & EC & E); apply bind_Ok in E as (msg & EM & E);
    rewrite EC; (eexists cc, _; split; [done|]; split; [|exact E]; by rewrite EM).
Qed.
End Commands.

(** * What a typed command does *)

(** The extension an argument of the extend command describes. *)
Definition describes_extension `{SdkMath} (a : string) (e : option Extension) : Prop :=
  exists from to text amount,
    split_colon a = [from; to; text] /\ NewIntFromString text = Some amount /\
    e = Some (MkExtension from to (NewCoinRec cli_denom amount)).

(** The effect on the ledger of what was typed, by the account [from]. *)
Inductive typed_effect `{SdkMath} `{SdkTypes} (from : bytes) (f : ledger)
    : lockup_command -> list string -> ledger -> Prop :=
  | typed_lock date text amount :
      NewIntFromString text = Some amount -> 0 < amount ->
      typed_effect from f CLock [date; text] (ledger_add f from date amount)
  | typed_extend args es g :
      Forall2 describes_extension args es -> ledger_extend f from es = Some g ->
      typed_effect from f CExtend args g
  | typed_send to addr val date text amount :
      NewIntFromString text = Some amount -> 0 < amount -> AccAddressFromBech32 to = Ok addr ->
      typed_effect from f CSend [to; val; date; text] (ledger_add f addr date amount)
  | typed_multi args outs g :
      Forall2 describes_output args outs -> ledger_outputs f outs = Some g ->
      typed_effect from f CMulti args g.

Section Effects.
Context `{SdkMathLaws} `{!SdkTypes} `{!SdkCoinLaws} {S : Type} `{!KVStore S} `{!KVStoreLaws S}
  {X : Type} `{!AccountKeeper X} `{!StakingKeeper X} `{!StakingLaws X} `{!BankKeeper X} `{!BankLaws X}
  {CT : ClientTx} `{!ClientTxLaws}.

Lemma CmdSend_msg_Ok (clientCtx : ClientContext) to val date text msg :
  CmdSend_msg clientCtx [to; val; date; text] = Ok msg ->
  exists amount, NewIntFromString text = Some amount /\
    msg = MkMsgSendDelegateAndLock (AccAddress_String (GetFromAddress clientCtx)) to val date
            (NewCoinRec cli_denom amount).
Proof.
  unfold CmdSend_msg, arg, parse_amount. simpl. intros (amount & EA%from_option_err_Ok & E)%bind_Ok.
  apply bind_Ok in E as (c & [-> _]%NewCoin_Ok & E). apply bind_Ok in E as ([] & _ & [= <-]). eauto.
Qed.

Lemma CmdLock_msg_Ok (clientCtx : ClientContext) date text msg :
  CmdLock_msg clientCtx [date; text] = Ok msg ->
  exists amount, NewIntFromString text = Some amount /\
    msg = MkMsgLock (AccAddress_String (GetFromAddress clientCtx)) date (NewCoinRec cli_denom amount).
Proof.
  unfold CmdLock_msg, arg, parse_amount. simpl. intros (amount & EA%from_option_err_Ok & E)%bind_Ok.
  apply bind_Ok in E as (c & [-> _]%NewCoin_Ok & E). apply bind_Ok in E as ([] & _ & [= <-]). eauto.
Qed.

Lemma parse_extensions_Ok args : forall acc es,
  parse_extensions args acc = Ok es -> exists new, es = acc ++ new /\ Forall2 describes_extension args new.
Proof.
  induction args as [|a args IH]; intros acc es E; cbn [parse_extensions] in E.
  - injection E as <-. exists []. by rewrite app_nil_r.
  - apply bind_Ok in E as (e & E1 & E). apply IH in E as (new & -> & F). exists (Some e :: new).
    rewrite <- app_assoc. split; [done|]. constructor; [|done].
    unfold parse_extension, parse_amount in E1.
    destruct (split_colon a) as [|fr [|to [|text [|]]]] eqn:ES; try discriminate.
    apply bind_Ok in E1 as (amount & EA%from_option_err_Ok & E1).
    apply bind_Ok in E1 as (c & [-> _]%NewCoin_Ok & [= <-]). by exists fr, to, text, amount.
Qed.

Lemma CmdExtend_msg_Ok (clientCtx : ClientContext) args msg :
  CmdExtend_msg clientCtx args = Ok msg ->
  MsgExtend_Address msg = AccAddress_String (GetFromAddress clientCtx) /\
  Forall2 describes_extension args (MsgExtend_Extensions msg) /\ MsgExtend_ValidateBasic msg = Ok tt.
Proof.
  unfold CmdExtend_msg. intros (es & EE & E)%bind_Ok. apply bind_Ok in E as ([] & V & [= <-]).
  by apply parse_extensions_Ok in EE as (new & -> & F).
Qed.

Lemma CmdMulti_msg_Ok (clientCtx : ClientContext) args msg :
  CmdMulti_msg clientCtx args = Ok msg -> Forall2 describes_output args (MsgMulti_Outputs msg).
Proof.
  unfold CmdMulti_msg. intros ([outs t] & EO & E)%bind_Ok. apply bind_Ok in E as (c & _ & E).
  apply bind_Ok in E as ([] & _ & [= <-]).
  by apply parse_outputs_Ok in EO as (new & -> & F & _); [|done].
Qed.

(** A handler that accepts the message a command built has the effect that was typed. *)
Lemma typed_message_effect c (cmd : Command) args r (clientCtx : ClientContext) m from (ctx : Ctx)
    (w w' : World S X) f :
  run_command c cmd args = Ok r -> command_msg c clientCtx args = Ok m ->
  from = GetFromAddress clientCtx -> AccAddressFromBech32 (AccAddress_String from) = Ok from ->
  represents (kv_view (w_store w)) f -> 0 <= BlockTime ctx -> LockupMsg_handler ctx w m = Ok w' ->
  exists g, typed_effect from f c args g /\ represents (kv_view (w_store w')) g.
Proof.
  intros Run M -> Ad R T Hd. pose proof (commands_check_args cmd args r) as (N1 & N2 & _).
  destruct c; cbn [run_command command_msg] in Run, M; apply fmap_Ok in M as (msg & M & <-);
    cbn [LockupMsg_handler] in Hd.
  - destruct args as [|d [|text [|]]]; try by apply N1 in Run.
    apply CmdLock_msg_Ok in M as (amount & EA & ->).
    destruct (MsgServer_Lock_effect _ _ _ _ _ R T Hd) as (addr & t & D & EB & _ & _ & P & R' & _).
    cbn [MsgLock_Address] in EB. assert (addr = GetFromAddress clientCtx) as -> by congruence.
    eexists. split; [|exact R']. by constructor.
  - apply CmdExtend_msg_Ok in M as (EM & F & V%MsgExtend_ValidateBasic_Ok).
    apply Extend_Ok in Hd as (addr & evs & EB & _ & EL & _). rewrite EM in EB.
    assert (addr = GetFromAddress clientCtx) as -> by congruence.
    destruct (extend_loop_effect _ _ _ _ _ T V _ _ _ _ _ R EL) as (g & G & R' & _).
    exists g. split; [|done]. by econstructor.
  - destruct args as [|to [|val [|d [|text [|]]]]]; try by apply N2 in Run.
    apply CmdSend_msg_Ok in M as (amount & EA & ->).
    destruct (SendDelegateAndLock_effect _ _ _ _ _ R T Hd) as (addr & t & EB & _ & _ & P & R').
    eexists. split; [|exact R']. by constructor.
  - apply CmdMulti_msg_Ok in M. apply MultiSend_Ok in Hd as [_ Hd].
    destruct (send_outputs_effect _ _ _ T _ _ _ R Hd) as (g & G & R'). exists g. split; [|done]. by econstructor.
Qed.

(** ** Through the application *)

Context `{!AppHooks X} `{!AppHooksLaws X} `{!OtherMessages S X} `{!BaseApp S X} `{!DeliveryLaws}
  `{!AnteEnv} `{!AnteLaws} `{!AnteContextLaws} `{!GogoExternal} `{!GogoExternalLaws}
  `{!Broadcast} `{!BroadcastLaws}.

Lemma other_only url : delegators_of_length 0 [OtherMsg url].
Proof. intros del src d M. by apply list_elem_of_singleton in M. Qed.

Lemma deliver_one (options : HandlerOptions) (ctx : Ctx) (w w' : World S X) m ext :
  app_deliver options ctx w (MkDeliverTx [LockupTx m] ext) = (w', Ok tt) ->
  exists ctx' w1, BlockTime ctx' = BlockTime ctx /\ w_store w1 = w_store w /\
    LockupMsg_handler ctx' w1 m = Ok w'.
Proof.
  unfold app_deliver. intros (_ & ctx' & w1 & EA & Es & _ & E)%runTx_Ok. exists ctx', w1.
  change (ante_view _) with (MkTx [OtherMsg (LockupMsg_TypeURL m)] ext) in EA.
  destruct (NewAnteHandler_context 0 options ctx (MkTx [OtherMsg (LockupMsg_TypeURL m)] ext) false ctx'
    [] [] (other_only _) eq_refl EA) as [Tm _]. split; [done|]. split; [done|].
  cbn [dtx_msgs deliver_msgs] in E. by apply bind_Ok in E as (w2 & E & [= <-]).
Qed.

(** C9 What a user types ends in the ledger: the transaction a lockup command hands
    out decodes, on the node, to exactly one message; and when the application
    delivers that transaction successfully, the lockup module's ledger changes by
    precisely the dates, recipients and amounts that were typed, for the account
    that typed them, and nothing else in it changes. *)
Theorem typed_commands_reach_ledger (c : lockup_command) (cmd : Command) (args : list string) r
    (clientCtx : ClientContext) (from : bytes) :
  run_command c cmd args = Ok r ->
  GetClientTxContext cmd = Ok clientCtx -> GetFromAddress clientCtx = from ->
  AccAddressFromBech32 (AccAddress_String from) = Ok from ->
  (forall m, command_msg c clientCtx args = Ok m -> LockupMsg_wf m) ->
  exists m, unpack_messages (tx_messages r) = Ok [m] /\
    forall (options : HandlerOptions) (ctx : Ctx) (w w' : World S X) ext f,
      represents (kv_view (w_store w)) f -> 0 <= BlockTime ctx ->
      app_deliver options ctx w (MkDeliverTx [LockupTx m] ext) = (w', Ok tt) ->
      exists g, typed_effect from f c args g /\ represents (kv_view (w_store w')) g.
Proof.
  intros Run EC EF Ad W. destruct (run_command_Ok _ _ _ _ Run) as (cc & m & EC' & M & EB).
  assert (cc = clientCtx) as -> by congruence. exists m.
  destruct (broadcast_packs _ _ _ _ EB) as (bz & EM & ->). split.
  - cbn [unpack_messages]. by rewrite LockupMsg_roundtrip by (by auto).
  - intros options ctx w w' ext f R T (ctx' & w1 & Tm & Es & E)%deliver_one.
    eapply (typed_message_effect c cmd args r clientCtx m from ctx' w1); [done..| |by rewrite Tm|done].
    by rewrite Es.
Qed.
End Effects.
