(* ===== verification/DeliveryRuns.v ===== *)
(** Transactions on the testnet: alice locks, undelegates what her locks leave free,
    and fails to undelegate the rest; and a lock command, from its arguments to the
    ledger.  The witnesses of Delivery.v, CommandRun.v and GogoReflectProps.v. *)

From stdpp Require Import base list strings gmap relations.
From Stdlib Require Import ZArith Lia.
From Stdlib.Init Require Import Byte.
From S2P Require Import Prelude GoTime Sdk LockPb LockStore LockSpec LockupKeeper LockupMsgs LockupInv LockupProps LockupSystem LockupQuery Testnet LockupRuns Ante AnteRuns Cli CliProps Distro Modules App AppRuns Delivery ProtoTable ProtoTableProps Gogo TypesLockup TypesDistro GogoProps GogoRuns GogoReflect GogoReflectProps CommandRun.
Import Toy ToyAnte GogoToy.

Local Open Scope Z_scope.

#[local] Existing Instances toy_hooks toy_hooks_laws.

Abbreviation ToyWorld := (World (gmap bytes bytes) Net).

(** * The ante handler *)

Lemma pass_transparent : transparent pass.
Proof. intros ctx tx sim next r E. by exists ctx, sim. Qed.

#[export] Instance toy_ante_context : AnteContextLaws.
Proof. split; [done|intros; apply pass_transparent..]. Qed.

(** * Undelegating *)

(** All an account delegated to a validator. *)
Record ToyUndelegate := MkToyUndelegate { und_delegator : bytes; und_validator : bytes }.

Fixpoint remove_first (d : bytes * (string * Z)) (l : list (bytes * (string * Z))) :=
  match l with
  | [] => []
  | e :: l' => if decide (e = d) then l' else e :: remove_first d l'
  end.

Definition net_remove (x : Net) (a : bytes) (d : string * Z) : Net :=
  MkNet (net_balances x) (remove_first (a, d) (net_delegations x)) (net_validators x).

Definition undelegate (ctx : Ctx) (w : ToyWorld) (m : ToyUndelegate) : outcome ToyWorld :=
  let a := und_delegator m in
  d ← (GetDelegation (w_ext w) a (und_validator m) : outcome (string * Z));
  _ ← hk_BeforeDelegationRemoved (app_staking_hooks ctx (w_store w)) (w_ext w) a (und_validator m);
  Ok (MkWorld (w_store w) (net_remove (w_ext w) a d) (w_events w)).

#[local] Instance toy_other : OtherMessages (gmap bytes bytes) Net := {
  OtherTxMsg := ToyUndelegate;
  other_view _ := OtherMsg "/cosmos.staking.v1beta1.MsgUndelegate";
  other_extends _ _ := False;
  other_ValidateBasic _ := Ok tt;
  other_handler := undelegate;
}.

#[local] Instance toy_base : BaseApp (gmap bytes bytes) Net := {
  runTx ah vb h ctx w tx :=
    match (_ ← all_ok vb (dtx_msgs tx); ctx' ← ah ctx (ante_view tx) false;
           deliver_msgs h ctx' w (dtx_msgs tx)) with
    | Ok w' => (w', Ok tt)
    | Err e => (w, Err e)
    | Panic p => (w, Panic p)
    | OutOfFuel => (w, OutOfFuel)
    end;
}.

(** * The laws *)

Lemma toy_sum_same (x x' : Net) ds : net_validators x' = net_validators x ->
  forall acc, sum_delegations x' ds acc = sum_delegations x ds acc.
Proof.
  intros E. induction ds as [|d ds IH]; intros acc; [done|]. cbn [sum_delegations].
  assert (forall v, GetValidator x' v = GetValidator x v) as V
    by (intros v; cbn [GetValidator toy_staking]; by rewrite E).
  destruct (wrap_err _ _) as [a| | |]; cbn [mbind outcome_bind]; [|done..]. rewrite V.
  destruct (GetValidator x a) as [v| | |]; cbn [mbind outcome_bind]; [|done..].
  destruct (Int_Add _ _) as [t| | |]; cbn [mbind outcome_bind]; [|done..]. apply IH.
Qed.

Lemma toy_total_below (x : Net) a t :
  GetTotalDelegatedAmount x a = Ok t ->
  zlen (net_delegations_of x a) < 100 /\ sum_delegations x (net_delegations_of x a) 0 = Ok t.
Proof.
  intros E. destruct (Z.lt_ge_cases (zlen (net_delegations_of x a)) 100) as [L|L];
    [|by apply total_delegated_stuck in E].
  split; [done|]. by rewrite GetTotalDelegatedAmount_below in E.
Qed.

(** More delegations to the same validators. *)
Lemma toy_more (x x' : Net) a ds :
  net_validators x' = net_validators x -> net_delegations_of x' a = net_delegations_of x a ++ ds ->
  delegates_no_less x x' a.
Proof.
  intros EV ED t (L & E)%toy_total_below. rewrite ED in L, E. unfold zlen in *. rewrite length_app in L.
  pose proof (eq_trans (eq_sym (sum_delegations_app x' (net_delegations_of x a) ds 0)) E) as (t0 & E0 & E1)%bind_Ok.
  rewrite (toy_sum_same x x') in E0 by done. exists t0.
  split; [|exact (proj1 (sum_delegations_shift _ _ _ _ E1))].
  rewrite GetTotalDelegatedAmount_below; [exact E0|]. change (zlen (net_delegations_of x a) < 100). unfold zlen. lia.
Qed.

Lemma toy_same (x x' : Net) a :
  net_validators x' = net_validators x -> net_delegations x' = net_delegations x ->
  delegates_no_less x x' a.
Proof. intros EV ED. apply (toy_more x x' a []); [done|]. unfold net_delegations_of. by rewrite ED, app_nil_r. Qed.

Lemma net_send_delegations r (x : Net) a b cs x' :
  net_send r x a b cs = Ok x' ->
  net_validators x' = net_validators x /\ net_delegations x' = net_delegations x.
Proof.
  unfold net_send. intros (to & _ & E)%bind_Ok. revert x E.
  induction cs as [|c cs IH]; intros x E; cbn [foldl] in E; [by injection E as <-|].
  cbn [mbind outcome_bind] in E. destruct (_ <? _).
  - exfalso. clear IH. induction cs as [|c' cs IH]; [done|by apply IH].
  - by apply IH in E as [-> ->].
Qed.

Lemma remove_first_split d l : d ∈ l ->
  exists pre post, l = pre ++ d :: post /\ remove_first d l = pre ++ post.
Proof.
  induction l as [|e l IH]; intros M; [by apply not_elem_of_nil in M|]. cbn [remove_first].
  destruct (decide (e = d)) as [->|N]; [by exists [], l|].
  apply elem_of_cons in M as [->|M]; [done|]. destruct (IH M) as (pre & post & -> & ->).
  by exists (e :: pre), post.
Qed.

Lemma net_remove_others (x : Net) a d c : c <> a ->
  net_delegations_of (net_remove x a d) c = net_delegations_of x c.
Proof.
  intros N. unfold net_delegations_of, net_remove. cbn [net_delegations]. f_equal.
  induction (net_delegations x) as [|e l IH]; [done|]. cbn [remove_first].
  destruct (decide (e = (a, d))) as [->|_].
  - rewrite (filter_cons_False _ (a, d)) by (intros E; by apply N). done.
  - rewrite !filter_cons. by rewrite IH.
Qed.

Lemma net_remove_split (x : Net) a d : d ∈ net_delegations_of x a ->
  exists pre post, net_delegations_of x a = pre ++ d :: post /\
    net_delegations_of (net_remove x a d) a = pre ++ post.
Proof.
  unfold net_delegations_of, net_remove. cbn [net_delegations]. intros M.
  assert ((a, d) ∈ net_delegations x) as (pre & post & E & ->)%remove_first_split.
  { apply list_elem_of_fmap in M as ([b d'] & -> & M). apply list_elem_of_filter in M as [<- M]. exact M. }
  exists (filter (fun p => p.1 = a) pre).*2, (filter (fun p => p.1 = a) post).*2.
  rewrite E, !filter_app, !fmap_app, filter_cons_True by done. done.
Qed.

#[local] Instance toy_delivery_laws : DeliveryLaws (S := gmap bytes bytes) (X := Net).
Proof.
  split.
  - intros r x a b cs x' [V D]%net_send_delegations c. by apply toy_same.
  - intros h x a n st v b x' sh _ E c. cbn [Delegate toy_staking] in E. unfold net_delegate in E.
    case_match; [done|]. apply bind_Ok in E as ([] & _ & E). apply bind_Ok in E as ([] & _ & [= <- <-]).
    eapply (toy_more _ _ _ (filter (fun p => p.1 = c) [(a, (v, n))]).*2); [done|].
    unfold net_delegations_of. cbn [net_delegations net_add]. by rewrite filter_app, fmap_app.
  - intros ctx w m w' E. cbn [other_handler toy_other] in E. unfold undelegate in E.
    apply bind_Ok in E as (d & G & E). apply bind_Ok in E as ([] & Hk & [= <-]). apply rtc_once.
    apply op_other; [done|]. intros c. cbn [w_ext w_store].
    destruct (decide (c = und_delegator m)) as [->|N].
    + right. right. assert (M := proj1 (GetDelegation_spec _ _ _ _ G)).
      destruct (net_remove_split _ _ _ M) as (pre & post & E1 & E2).
      exists (und_validator m), (w_ext w), d, pre, post. split; [done|]. split; [done|]. split; [done|].
      intros rest D' ER (_ & ED)%toy_total_below. rewrite E2, (toy_sum_same (w_ext w)) in ED by done.
      injection (eq_trans (eq_sym ER) ED) as ->. done.
    + left. by apply (toy_more _ _ _ []); [|rewrite net_remove_others, app_nil_r].
  - intros ah vb h ctx w tx w' E. cbn [runTx toy_base] in E.
    destruct (_ ≫= _) as [w2| | |] eqn:R; try done. injection E as <-.
    apply bind_Ok in R as ([] & V%all_ok_Forall & R). apply bind_Ok in R as (ctx' & A & R).
    split; [done|]. exists ctx', w. split; [done|]. split; [done|].
    split; [intros a; apply delegates_no_less_refl|done].
  - intros ah vb h ctx w tx w' r E N. cbn [runTx toy_base] in E.
    destruct (_ ≫= _) as [w2| | |] eqn:R; injection E as <- <-; [done| | |];
      (split; [done|intros a; apply delegates_no_less_refl]).
Qed.

(** * Alice's transactions *)

Definition tx_lock : DeliverTx (gmap bytes bytes) Net := MkDeliverTx [LockupTx (SubmitLock run_lock)] None.
Definition tx_undelegate (v : string) : DeliverTx (gmap bytes bytes) Net :=
  MkDeliverTx [OtherTx (MkToyUndelegate alice (bytes_of_string v))] None.

Definition deliver (w : ToyWorld) (tx : DeliverTx (gmap bytes bytes) Net) : ToyWorld :=
  (app_deliver toy_options run_ctx w tx).1.

(** With 300 locked she may undelegate the 200 from val2, and then not the 500 from
    val. *)
Example undelegate_run :
  let w := deliver (deliver run_w0 tx_lock) (tx_undelegate "val2") in
  GetTotalDelegatedAmount (w_ext w) alice = Ok 500 /\
  GetLocksByAddress (w_store w) alice = Ok [MkLock "2026-01-01" 300] /\
  match (app_deliver toy_options run_ctx w (tx_undelegate "val")).2 with Err _ => True | _ => False end.
Proof. split; [|split]; vm_compute; done. Qed.

Lemma plain_lock : plain_tx 5 run_ctx alice tx_lock.
Proof.
  split.
  - by intros v (del & src & M%list_elem_of_singleton & _).
  - by intros del src d M%list_elem_of_singleton.
  - by intros m e ->%list_elem_of_singleton E.
Qed.
Lemma plain_undelegate v : plain_tx 5 run_ctx alice (tx_undelegate v).
Proof.
  split.
  - by intros v' (del & src & M%list_elem_of_singleton & _).
  - by intros del src d M%list_elem_of_singleton.
  - by intros m e ->%list_elem_of_singleton E.
Qed.

Definition step_ctx : Ctx := MkCtx (Date 2025 6 16) 11 ∅.
Definition undelegate_w : ToyWorld :=
  deliver (deliver (deliver run_w0 tx_lock) (tx_undelegate "val2")) (tx_undelegate "val").

Lemma undelegate_steps :
  rtc (chain_step toy_options 5 alice) (run_ctx, run_w0) (step_ctx, undelegate_w).
Proof.
  eapply rtc_l; [eapply (step_tx _ _ _ run_ctx run_w0); [apply plain_lock|apply surjective_pairing]|].
  eapply rtc_l; [eapply step_tx; [apply (plain_undelegate "val2")|apply surjective_pairing]|].
  eapply rtc_l; [eapply step_tx; [apply (plain_undelegate "val")|apply surjective_pairing]|].
  apply rtc_once, step_next; [vm_compute; discriminate|done|done|apply delegates_no_less_refl].
Qed.

Lemma locks_stay_covered_witness :
  locked_on step_ctx [MkLock "2026-01-01" 300] = 300 /\ 300 <= 500.
Proof.
  split; [vm_compute; reflexivity|].
  refine (locks_stay_covered toy_options 5 alice (run_ctx, run_w0) (step_ctx, undelegate_w)
    [MkLock "2026-01-01" 300] 500 eq_refl _ undelegate_steps _ _).
  - split; [split; [apply run_time|reflexivity]|reflexivity].
  - apply (proj1 (GetLocksByAddress_iff (w_store undelegate_w) alice _)). vm_compute. reflexivity.
  - vm_compute. reflexivity.
Defined.

(** * A typed command *)

(** A client whose transactions are the messages they carry. *)
#[local] Instance tx_client : ClientTx := {
  Command := unit;
  ClientContext := string;
  TxResult := list Any;
  ExactArgs := ExactArgs (ClientTx := CliToy.toy_client);
  MinimumNArgs := MinimumNArgs (ClientTx := CliToy.toy_client);
  GetClientTxContext _ := Ok "alice";
  GetFromAddress c := bytes_of_string c;
  GenerateOrBroadcastTxCLI _ _ m := bz ← LockupMsg_Marshal m; Ok [MkAny (LockupMsg_TypeURL m) bz];
}.

#[local] Instance tx_client_laws : ClientTxLaws.
Proof. split; apply CliToy.toy_client_laws. Qed.

#[local] Instance tx_broadcast : Broadcast := { tx_messages r := r }.
#[local] Instance tx_broadcast_laws : BroadcastLaws.
Proof. split. intros c cmd m r E. apply bind_Ok in E as (bz & E & [= <-]). by exists bz. Qed.

Definition typed_args : list string := ["2026-01-01"; "300"].
Definition typed_any : Any :=
  MkAny "/lockup.v1.MsgLock" (ok_or [] (MsgLock_Marshal run_lock)).

Lemma run_lock_wf : LockupMsg_wf (SubmitLock run_lock).
Proof. split; [exact_fields; exact_fields|vm_compute; reflexivity]. Qed.

Lemma delivered w tx :
  (app_deliver toy_options run_ctx w tx).2 = Ok tt ->
  app_deliver toy_options run_ctx w tx = (deliver w tx, Ok tt).
Proof. unfold deliver. by destruct (app_deliver _ _ w tx) as [w' r]; intros [= ->]. Qed.
Lemma tx_lock_ok : (app_deliver toy_options run_ctx run_w0 tx_lock).2 = Ok tt.
Proof. vm_compute. reflexivity. Qed.

Lemma typed_msg : command_msg CLock "alice" typed_args = Ok (SubmitLock run_lock).
Proof. vm_compute. reflexivity. Qed.
Lemma typed_unpacked : unpack_messages [typed_any] = Ok [SubmitLock run_lock].
Proof. vm_compute. reflexivity. Qed.

Lemma typed_commands_reach_ledger_witness :
  exists m, unpack_messages [typed_any] = Ok [m] /\
    (app_deliver toy_options run_ctx run_w0 (MkDeliverTx [LockupTx m] None)).2 = Ok tt /\
    exists g, typed_effect alice (fun _ _ => 0) CLock typed_args g /\
      represents (kv_view (w_store (deliver run_w0 (MkDeliverTx [LockupTx m] None)))) g.
Proof.
  destruct (typed_commands_reach_ledger (CT := tx_client) CLock tt typed_args [typed_any] "alice" alice) as (m & E & K);
    [vm_compute; reflexivity|reflexivity|reflexivity|reflexivity| |].
  - intros m M. injection (eq_trans (eq_sym M) typed_msg) as ->. exact run_lock_wf.
  - injection (eq_trans (eq_sym E) typed_unpacked) as ->. exists (SubmitLock run_lock).
    split; [exact typed_unpacked|]. split; [exact tx_lock_ok|].
    exact (K toy_options run_ctx run_w0 (deliver run_w0 tx_lock) None (fun _ _ => 0) run_represents0 run_time
      (delivered run_w0 tx_lock tx_lock_ok)).
Defined.

(** * A generated method *)

#[local] Instance toy_gogo_runtime : GogoRuntime := {
  CompactTextString _ _ := "";
  InternalMessageInfo_Marshal _ _ _ _ := Ok [];
  InternalMessageInfo_Merge _ _ m := m;
  InternalMessageInfo_DiscardUnknown _ m := m;
}.

Definition MsgLock_go : go_message :=
  MkGoMessage MsgLock_pb MsgLock_methods
    [existT _ MsgLock_GetAddress; existT _ MsgLock_GetUnlockDate; existT _ MsgLock_GetAmount].

Lemma generated_methods_agree_witness :
  go_Reset MsgLock_methods (Some lock_msg) = Ok (d_empty MsgLock_desc) /\
  go_XXX_Marshal MsgLock_methods lock_msg (repeat x00 256) false = Ok (repeat x00 66).
Proof.
  destruct (generated_methods_agree MsgLock_go lock_msg (repeat x00 256)) as (R & _ & _ & _ & _ & _ & _ & M).
  - do 5 right. left.
  - exact_fields. exact_fields.
  - vm_compute. reflexivity.
  - split; [exact R|].
    assert (2 * MsgLock_Size (Some lock_msg) <= zlen (repeat x00 256)) as L by (vm_compute; discriminate).
    refine (eq_trans (M L) _). vm_compute. reflexivity.
Defined.
